(* ===== verification/_CoqProject ===== *)
-Q . S2P
Prelude.v
Model.v
Scheduler.v
Interrupts.v
Joypad.v
Speed.v
Timer.v
CpuData.v
CpuAlu.v
CpuDecode.v
CpuBus.v
CpuExec.v
CpuCycle.v
CpuSafety.v
CpuAccesses.v
CpuIsa.v
CpuControl.v
Serial.v
Mbc3Rtc.v
CartridgeHeader.v
Cartridge.v
NoMbc.v
Mbc1.v
Mbc2.v
Mbc5.v
Mbc3.v
M161.v
Huc1.v
Huc3.v
Mbc6.v
Mbc7.v
PocketCamera.v
Mmm01.v
Classify.v
CartridgeDevice.v
CartridgeSlot.v
CartridgeSaveState.v
ApuCommon.v
ApuPulse.v
ApuSweep.v
ApuWave.v
ApuNoise.v
ApuChannels.v
ApuOutput.v
Apu.v
BusState.v
Dma.v
DmaTransfers.v
Boot.v
Config.v
Vectors.v
BusRouter.v
BusMemory.v
BusIo.v
Bus.v
BusSafety.v
Printer.v
ExternalPort.v
Dmg07.v
MachineContext.v
MachinePorts.v
MachineState.v
MachineStep.v
MachineSafety.v
MachineStartup.v
MachinePhases.v
MachineSample.v
MachineCycle.v
MachineStepping.v
MachineBehaviour.v
MachineRecords.v
LinkCables.v
LinkSession.v
LinkSafety.v
LinkIndependence.v
LinkInfrared.v
LinkExchange.v
