(* ===== verification/Prelude.v ===== *)
(** * gb-cycle: a verification library for the emulator core

    gb-cycle is a cycle-driven Game Boy emulator.  Its core, [crates/gb-core],
    is a set of state machines that a global scheduler steps one T-cycle at a
    time: the SM83 CPU, the timer, the serial port, the joypad, the interrupt
    controller, the cartridge, the sound unit, the picture unit and the DMA
    engines.  Each keeps its registers in a struct, answers memory-mapped reads
    and writes, and is ticked by the machine, which hands every tick a
    [CycleContext] that collects the edges and requests of that T-cycle.  This
    library models those state machines as they are written and proves what
    makes each of them correct.

    ** Files and the code they model (paths under [crates/gb-core/src/])

    - [Prelude.v]: machine-width integers, the panic outcome and its monads,
      functional record update, the generic lemmas and hint databases.
    - [Model.v] and [Config.v]: [model.rs], the console, operating mode and
      policy axes, and the machine configuration built from them.
    - [Scheduler.v]: [scheduler.rs], T-cycles, the nine phases, the
      fixed-capacity record buffers, the cycle context, one scheduler step.
    - [Interrupts.v], [Joypad.v], [Speed.v], [Timer.v], [Serial.v]:
      [interrupts.rs], [joypad.rs], [speed.rs], [timer.rs], [serial.rs].
    - [CpuData.v] (state: [cpu.rs], [cpu/state.rs], [cpu/decode/kinds.rs]),
      [CpuAlu.v] ([cpu/alu.rs], [cpu/registers.rs]), [CpuDecode.v]
      ([cpu/decode/*.rs]), [CpuBus.v] ([cpu/bus.rs] and the queries of
      [cpu/interrupt_control.rs], against the callback interface
      [CpuExternal]), [CpuExec.v] ([cpu/execute.rs], [cpu/execute/*.rs]) and
      [CpuCycle.v] ([cpu/cycle.rs], [cpu/interrupt_control.rs]): the core.
    - [CpuSafety.v], [CpuAccesses.v], [CpuIsa.v], [CpuControl.v]: the theorems
      on the core as a whole: its invariant, the one bus access of a T-cycle,
      the instruction set it implements, interrupts, [HALT] and [STOP].
    - [Mbc3Rtc.v] ([cartridge/persist.rs]), [CartridgeHeader.v]
      ([cartridge/header.rs]), [Cartridge.v] (shared data, the validation
      context, the mapper interface [Mapper] with its laws [MapperLaws], from
      [cartridge.rs], [cartridge/device.rs], [cartridge/validate.rs]), and one
      file per mapper: [NoMbc.v], [Mbc1.v], [Mbc2.v], [Mbc3.v], [Mbc5.v],
      [M161.v], [Huc1.v], [Huc3.v], [Mbc6.v], [Mbc7.v], [PocketCamera.v],
      [Mmm01.v] ([cartridge/<mapper>.rs] with its part of
      [cartridge/validate.rs] and [cartridge/slot.rs]).
    - [Classify.v] ([cartridge/classify.rs]), [CartridgeDevice.v]
      ([cartridge/device.rs], the sum of the mappers), [CartridgeSlot.v]
      ([cartridge/slot.rs] and the fingerprint of [save_state.rs]) and
      [CartridgeSaveState.v] (the save states of [cartridge.rs] and
      [cartridge/slot.rs]).
    - [ApuCommon.v] ([apu/common.rs], [apu/frame_sequencer.rs]), [ApuPulse.v]
      ([apu/channels/pulse.rs], [ch2.rs]), [ApuSweep.v] ([ch1.rs]),
      [ApuWave.v] ([ch3.rs]), [ApuNoise.v] ([ch4.rs], [ch4_live_write.rs]),
      [ApuChannels.v] ([apu/channels.rs]), [ApuOutput.v] ([apu/output.rs]) and
      [Apu.v] ([apu.rs], [apu/control.rs], [apu/mmio.rs],
      [apu/registers.rs]): the sound unit from the channels up.
    - [BusState.v] ([bus/map.rs], [bus/state.rs], [PpuBusState] of [ppu.rs]): the
      data of the address map and of the arbitration between bus masters.
    - [BusRouter.v] ([bus/router.rs], [bus/meta.rs] left out), [BusMemory.v]
      ([bus/wram.rs], [bus/video.rs], [bus/view.rs]), [BusIo.v]
      ([bus/iohram.rs], [bus/infrared.rs]) and [Bus.v] ([bus.rs],
      [bus/dispatch.rs], [bus/policy.rs], [bus/access.rs],
      [bus/corruption.rs]): the bus; [BusSafety.v]: its invariant.  The bus
      reaches the register owners through views ([BusIoReadView],
      [BusIoWriteView]) and the picture unit through the interface [PpuPort].
    - [Dma.v] ([dma.rs]) and [DmaTransfers.v] (its transfers in closed form).
    - [Vectors.v]: bounds-checked vectors and counted loops, shared by what
      follows.
    - [Printer.v] ([external_port/printer.rs], [external_port/printer/*.rs]): the Game Boy Printer,
      [ExternalPort.v] ([external_port.rs]): what is plugged into the port, and
      [Dmg07.v] (the protocol, ring and byte engine of [link/dmg07.rs]): the
      four-player adapter.
    - [Boot.v] ([boot.rs]): boot images, startup states and unmapping.
    - [MachinePorts.v] (the calls the machine makes of [ppu/*.rs] and
      [sgb/*.rs], as the interfaces [PictureUnit] and [SgbHostPort] with their
      laws), [MachineState.v] ([machine.rs] and the startup and loading of
      [machine/access.rs]) and [MachineStep.v] ([machine/step.rs], the host's
      accesses of [machine/access.rs]): the machine that owns every component
      and runs the nine phases of a T-cycle over them.
    - [MachineContext.v] (the room of the cycle context's buffers),
      [MachineSafety.v], [MachineStartup.v], [MachinePhases.v] and
      [MachineCycle.v]: the machine's invariant, from power-on through every
      phase; [MachineSample.v]: a picture unit and a host that satisfy the
      laws, and consoles built on them; [MachineStepping.v]: stepping by phases;
      [MachineBehaviour.v]: interrupts, STOP and late picture writes;
      [MachineRecords.v]: cleared records of a reused context are never seen.
    - [LinkCables.v] ([link/dmg04.rs], [link/cgb_ir.rs]) and [LinkSession.v]
      ([link/session.rs], the loop over machines of [link/dmg07.rs]): several
      machines stepped phase by phase on one clock and what links them.
      [LinkSafety.v], [LinkIndependence.v], [LinkInfrared.v],
      [LinkExchange.v]: the theorems.

    A struct is a [Record], an enum an [Inductive] with the source's
    constructors, a method a [Definition] that takes the state last and returns
    the new state; names are the source's, prefixed by the component where two
    methods share one.

    ** Conventions

    - Integers are [Z]; wrapping, saturating and truncating operations are
      written out.  A plain [+] or [-] of the source that could overflow is
      either checked ([checked_i32], [checked_i64]) or stays in range by the
      component's invariant, which is then proved of every reachable state.
    - Panics ([expect], [unreachable!], [assert!], an index out of range) are
      the [Panic] outcome; a theorem that a computation ends in [Done] says that
      the code returns without one.
    - Arrays and vectors are lists, with the bounds check of the source at each
      access; [HashMap]-free code needs no finite maps.
    - The CPU reaches the rest of the machine through a callback, which is the
      type class [CpuExternal] with the laws [CpuExternalLaws]; a flat memory
      ([FlatWorld]) instantiates both.
    - A write through the bus returns the bus, the cartridge and the owners it
      leaves ([WriteResult]), where the source has mutable borrows.

    ** What the theorems show

    - Core: in any environment that answers with bytes no reachable core panics
      ([CpuSafety]); on a flat memory any instruction sequence runs as the
      instruction-set semantics says, cycle by cycle ([CpuIsa]); interrupts,
      [EI], [HALT] and [STOP] follow their tables ([CpuControl]); both decoders
      implement the opcode table ([CpuDecode]); each ALU, DAA and CB operation
      computes what it names ([CpuAlu]).
    - Peripherals: reachable timer and serial states are well formed; TIMA
      counts the selected period and reloads on time; transfers exchange the
      two bytes; P1, KEY1 and IF/IE refine their register views.
    - Cartridges: loading any image under any policy returns, and the slot stays
      sound under every host and bus operation; a save state restores exactly
      the state it was taken of, and what passes validation restores without
      panic; the M161 signature recognises exactly the images it describes;
      the header parser never indexes out of range; every state reachable from an accepted cartridge satisfies the mapper contract (bytes
      of the loaded image, described accesses that agree with reads, stored RAM
      that reads back, persistence that restores); the clock advances in bulk
      as it does second by second and latches freeze its reads; the HuC-3
      clock keeps time and its event distance; the MBC6 flash chip programs
      what it is told and its write-enable line shields sector 0; the MBC7
      EEPROM returns the words clocked into it; a Pocket Camera capture takes
      its time, hides the RAM meanwhile and leaves the picture a pixel-by-pixel
      specification of exposure, filters and dithering gives.
    - Bus: relative to the laws of the picture unit's registers, no access of
      any requester panics, and each keeps the memories, the
      cartridge and the register owners in their invariants; the timed fast
      path is exactly the slow one; during object DMA the CPU reaches high RAM,
      the DMA register and the transfer's own bus only; work RAM is a banked
      memory with an echo; the object memory bug stays in object memory; the
      infrared sensor follows its closed form and KEY0 decides once.
    - External port: no byte sequence makes the printer fail; it answers every
      well-formed packet with its status and its decompressor inverts run-length
      encoding; whatever is plugged in feeds the serial port bytes.  The
      four-player adapter's protocol never fails, paces its bytes and broadcasts
      every player's last packet.
    - DMA: no write, window or HALT makes the controller's steps fail or a byte
      go outside object memory and video RAM, and computing the address a byte
      comes from panics exactly past the end of the address space ([Dma]); the
      three kinds of transfer move
      their bytes in order and stall the CPU for exactly their time
      ([DmaTransfers]).
    - Boot: every startup mode of every console puts every component into the
      invariant its theorems start from; the boot ROM can only be taken away;
      a configuration built by its builders stays coherent.
    - Machine (relative to the laws of the picture unit and of the SGB host, see
      below): a T-cycle of a console panics exactly when a DMA transfer
      is about to leave the address space, and otherwise keeps every component
      in its invariant, so that from power-on a console runs until that happens
      ([MachineCycle]); the scheduler's stepping with shared bus-state caches,
      stepping phase by phase and tracing agree ([MachineStepping]); interrupt
      requests are neither lost nor invented, a stopped console stands still
      and picture registers are written after the CPU's phase
      ([MachineBehaviour]).
    - Links: a session of machines can be cabled, uncabled and stepped in any
      order, with every refusal returned as an error, and only fails where one
      of its machines does ([LinkSafety]); unlinked machines do not feel the
      session and its reused contexts ([LinkIndependence], [MachineRecords]);
      consoles on a cable swap their bytes bit by bit together ([LinkExchange]);
      infrared light arrives exactly the propagation delay late
      ([LinkInfrared]).
    - Sound: from power-on no sequence of ticks and writes makes the APU fail
      and all its fields stay within their widths; the analog arithmetic never
      overflows and faded DACs end silent; envelope, pulse and noise generators
      produce the closed-form ramp, rate and period; powering off clears the
      registers and locks them.

    ** Bounds and fuel

    An instruction ends within 24 T-cycles (the longest takes six machine
    cycles of four).  The clock of [Mbc3Rtc.v] reaches a canonical time within
    [RTC_CANONICAL_FUEL] ticks, which its theorem proves is enough for every
    typed register state.  The noise register is walked through its 32767
    states by evaluation, and a DAC fade through its 210 T-cycles.  The camera's
    sharpening factors, multiples of a quarter below 6 in single precision on
    integers below 1024, are exact, so they are kept in quarters.

    ** Not modelled

    - Save states of parts other than the cartridge, snapshots, [serde] code and trace strings:
      copies and renderings of the state modelled here.
    - The debug assertions of the core's execute step, which a release build
      drops; those of the cartridge slot, the printer and the link session are
      modelled as panics.
    - Enums with one constructor ([TimerStatus], [ApuStatus], ...).
    - The text of diagnostics is a constant without the interpolated numbers.
    - [f64] code: the host DC blocker and the sample capture of the APU, whose
      coefficients are computed in floating point.
    - Reading boot images from a directory.
    - The picture unit ([ppu.rs], [ppu/*.rs]) and the Super Game Boy host
      ([sgb/*.rs]): the bus and the machine reach them through the interfaces
      [PpuPort], [PictureUnit] and [SgbHostPort], whose laws are named
      hypotheses of the bus's and the machine's theorems: their own operations
      do not panic on typed arguments and keep their invariants, registers read
      as bytes, video memories stay at their sizes, the mode-0 dot plus two is
      a [u16], two pending interrupt bits, masks of bytes.  A theorem that a
      machine or a session does not panic is therefore relative to them.
    - The machine's save states, debugger, tracer and step observers.
    - The mystery-gift helpers of [link/*.rs], which build and check the packets
      of particular games, and the adapter's trace texts.
    - The front ends ([crates/gb-desktop] and the other crates): windows, audio
      devices and files around the core. *)

From Stdlib Require Import ZArith Lia Bool String.
From stdpp Require Import base list numbers option.

Local Open Scope Z_scope.

(** ** Machine-width unsigned integers

    A Rust [u8], [u16], [u32] or [u64] is a [Z] in range.  The wrapping
    operations are written with their reduction. *)

Definition u8 (x : Z) : Prop := 0 <= x < 256.
Definition u16 (x : Z) : Prop := 0 <= x < 65536.
Definition u32 (x : Z) : Prop := 0 <= x < 4294967296.
Definition u64 (x : Z) : Prop := 0 <= x < 18446744073709551616.

Definition as_u8 (x : Z) : Z := x mod 256.
Definition as_u16 (x : Z) : Z := x mod 65536.

Definition wrapping_add8 (a b : Z) : Z := (a + b) mod 256.
Definition wrapping_sub8 (a b : Z) : Z := (a - b) mod 256.
Definition overflowing_add8 (a b : Z) : Z * bool := ((a + b) mod 256, 256 <=? a + b).
Definition wrapping_add16 (a b : Z) : Z := (a + b) mod 65536.
Definition wrapping_sub16 (a b : Z) : Z := (a - b) mod 65536.

(** [saturating_add] on [u8] and [u64]. *)
Definition saturating_add8 (a b : Z) : Z := Z.min 255 (a + b).
Definition saturating_add64 (a b : Z) : Z := Z.min 18446744073709551615 (a + b).

(** [!x] on a [u8]; [<<] and [>>] on a [u8]. *)
Definition not8 (x : Z) : Z := Z.lxor x 0xFF.
Definition shl8 (x n : Z) : Z := Z.shiftl x n mod 256.
Definition shr8 (x n : Z) : Z := Z.shiftr x n.
Definition rotate_left8 (x n : Z) : Z := Z.lor (Z.shiftl x n mod 256) (Z.shiftr x (8 - n)).
Definition rotate_right8 (x n : Z) : Z := Z.lor (Z.shiftr x n) (Z.shiftl x (8 - n) mod 256).

(** [i8::from_ne_bytes([x])] or [x as i8], and [u16::wrapping_add_signed]. *)
Definition as_i8 (x : Z) : Z := if x <? 128 then x else x - 256.
Definition wrapping_add_signed16 (x i : Z) : Z := (x + i) mod 65536.

(** Bytes of a [u16]: [to_le_bytes] is [[low_byte x; high_byte x]]. *)
Definition low_byte (x : Z) : Z := x mod 256.
Definition high_byte (x : Z) : Z := x / 256.
Definition from_be_bytes (high low : Z) : Z := high * 256 + low.

(** [x & mask != 0]. *)
Definition has_bits (x mask : Z) : bool := negb (Z.land x mask =? 0).
Definition u8_from_bool (b : bool) : Z := if b then 1 else 0.

(** ** Panicking computations

    A Rust panic ([expect], [unreachable!], [assert!], an out-of-range index)
    is an outcome of its own, with the message as a reason. *)

Inductive outcome (A : Type) : Type :=
| Done (a : A)
| Panic (reason : string).
Arguments Done {A} _.
Arguments Panic {A} _.

#[export] Instance outcome_ret : MRet outcome := fun A a => Done a.
#[export] Instance outcome_bind : MBind outcome := fun A B k m =>
  match m with
  | Done a => k a
  | Panic why => Panic why
  end.

(** A stateful computation that may panic. *)
Definition ST (S A : Type) : Type := S -> outcome (A * S).

#[export] Instance ST_ret S : MRet (ST S) := fun A a s => Done (a, s).
#[export] Instance ST_bind S : MBind (ST S) := fun A B k m s =>
  match m s with
  | Done (a, s') => k a s'
  | Panic why => Panic why
  end.

Section ST_ops.
Context {S : Type}.
Definition st_get : ST S S := fun s => Done (s, s).
Definition st_put (s : S) : ST S unit := fun _ => Done (tt, s).
Definition st_gets {A} (f : S -> A) : ST S A := fun s => Done (f s, s).
Definition st_modify (f : S -> S) : ST S unit := fun s => Done (tt, f s).
Definition st_panic {A} (why : string) : ST S A := fun _ => Panic why.
Definition st_lift {A} (m : outcome A) : ST S A := fun s =>
  match m with Done a => Done (a, s) | Panic why => Panic why end.
End ST_ops.

(** Functional record update, [r <| field := v |>]. *)
Class Update {R T : Type} (field : R -> T) := update : T -> R -> R.
Arguments update {R T} field {_} _ _ /.
Declare Scope record_scope.
Notation "r <| field := v |>" := (update field v r)
  (at level 1, left associativity, field at level 9, v at level 200,
   format "r  <| field  :=  v |>") : record_scope.
#[global] Open Scope record_scope.

(** Weakest precondition: the computation does not panic and ends in [Q]. *)
Definition wp {S A : Type} (m : ST S A) (s : S) (Q : A -> S -> Prop) : Prop :=
  match m s with
  | Done (a, s') => Q a s'
  | Panic _ => False
  end.

(** ** Lemmas on machine integers *)

Create HintDb gb discriminated.
Create Rewrite HintDb masks.

Lemma range_lor n x y : 0 <= n -> 0 <= x < 2 ^ n -> 0 <= y < 2 ^ n -> 0 <= Z.lor x y < 2 ^ n.
Proof.
  intros Hn Hx Hy.
  assert (Hsmall : forall z, 0 <= z < 2 ^ n -> z = Z.land z (Z.ones n)).
  { intros z Hz. rewrite Z.land_ones, Z.mod_small; lia. }
  rewrite (Hsmall x Hx), (Hsmall y Hy), <- Z.land_lor_distr_l, Z.land_ones by lia.
  apply Z.mod_pos_bound. lia.
Qed.

Lemma range_land n x y : 0 <= n -> 0 <= x < 2 ^ n -> 0 <= Z.land x y < 2 ^ n.
Proof.
  intros Hn Hx.
  assert (Hx' : x = Z.land x (Z.ones n)) by (rewrite Z.land_ones, Z.mod_small; lia).
  rewrite Hx', <- Z.land_assoc, (Z.land_comm (Z.ones n)), Z.land_assoc, Z.land_ones by lia.
  apply Z.mod_pos_bound. lia.
Qed.

Lemma range_lxor n x y : 0 <= n -> 0 <= x < 2 ^ n -> 0 <= y < 2 ^ n -> 0 <= Z.lxor x y < 2 ^ n.
Proof.
  intros Hn Hx Hy.
  assert (Heq : Z.lxor x y = Z.land (Z.lxor x y) (Z.ones n)).
  { apply Z.bits_inj'. intros i Hi. rewrite Z.land_spec, Z.lxor_spec, Z.testbit_ones_nonneg by lia.
    destruct (Z.ltb_spec i n); [by rewrite andb_true_r|].
    rewrite <- (Z.mod_small x (2 ^ n)), <- (Z.mod_small y (2 ^ n)) by lia.
    rewrite !Z.mod_pow2_bits_high by lia. done. }
  rewrite Heq, Z.land_ones by lia. apply Z.mod_pos_bound. lia.
Qed.

Lemma u8_lor x y : u8 x -> u8 y -> u8 (Z.lor x y).
Proof. apply (range_lor 8). lia. Qed.
Lemma u8_land x y : u8 x -> u8 (Z.land x y).
Proof. apply (range_land 8). lia. Qed.
Lemma u8_land_r x y : u8 y -> u8 (Z.land x y).
Proof. rewrite Z.land_comm. apply u8_land. Qed.
Lemma u8_lxor x y : u8 x -> u8 y -> u8 (Z.lxor x y).
Proof. apply (range_lxor 8). lia. Qed.
Lemma u16_lor x y : u16 x -> u16 y -> u16 (Z.lor x y).
Proof. apply (range_lor 16). lia. Qed.
Lemma u16_land x y : u16 x -> u16 (Z.land x y).
Proof. apply (range_land 16). lia. Qed.
Lemma u8_mod x : u8 (x mod 256).
Proof. apply Z.mod_pos_bound. lia. Qed.
Lemma u16_mod x : u16 (x mod 65536).
Proof. apply Z.mod_pos_bound. lia. Qed.
Lemma u8_u16 x : u8 x -> u16 x.
Proof. unfold u8, u16. lia. Qed.

Lemma u8_not8 x : u8 x -> u8 (not8 x).
Proof. intros. apply u8_lxor; [done | unfold u8; lia]. Qed.
Lemma u8_shr8 x n : 0 <= n -> u8 x -> u8 (shr8 x n).
Proof.
  unfold u8, shr8. intros Hn Hx. rewrite Z.shiftr_div_pow2 by lia.
  assert (0 < 2 ^ n) by (apply Z.pow_pos_nonneg; lia).
  split; [apply Z.div_pos; lia | apply Z.div_lt_upper_bound; nia].
Qed.
Lemma u8_rotate_left8 x n : 0 <= n <= 8 -> u8 x -> u8 (rotate_left8 x n).
Proof. intros. apply u8_lor; [apply u8_mod | apply u8_shr8; [lia | done]]. Qed.
Lemma u8_rotate_right8 x n : 0 <= n <= 8 -> u8 x -> u8 (rotate_right8 x n).
Proof. intros. apply u8_lor; [apply u8_shr8; [lia | done] | apply u8_mod]. Qed.
Lemma u8_from_bool_range b : u8 (u8_from_bool b).
Proof. destruct b; unfold u8; simpl; lia. Qed.
Lemma u8_low_byte x : u8 (low_byte x).
Proof. apply u8_mod. Qed.
Lemma u8_high_byte x : u16 x -> u8 (high_byte x).
Proof.
  unfold u8, u16, high_byte. intros Hx.
  split; [apply Z.div_pos; lia | apply Z.div_lt_upper_bound; lia].
Qed.
Lemma u16_from_be_bytes h l : u8 h -> u8 l -> u16 (from_be_bytes h l).
Proof. unfold u8, u16, from_be_bytes. lia. Qed.

Lemma from_be_bytes_split x : from_be_bytes (high_byte x) (low_byte x) = x.
Proof. unfold from_be_bytes, high_byte, low_byte. pose proof (Z.div_mod x 256). lia. Qed.
Lemma high_byte_from h l : u8 l -> high_byte (from_be_bytes h l) = h.
Proof.
  unfold u8, high_byte, from_be_bytes. intros. symmetry. apply (Z.div_unique _ _ _ l); lia.
Qed.
Lemma low_byte_from h l : u8 l -> low_byte (from_be_bytes h l) = l.
Proof.
  unfold u8, low_byte, from_be_bytes. intros. symmetry. apply (Z.mod_unique _ _ h l); lia.
Qed.

(** An [n]-bit field under a shifted one is their sum. *)
Lemma lor_shiftl_add n h l : 0 <= n -> 0 <= l < 2 ^ n -> Z.lor l (Z.shiftl h n) = h * 2 ^ n + l.
Proof.
  intros Hn Hl.
  assert (Hand : Z.land l (Z.shiftl h n) = 0).
  { apply Z.bits_inj'. intros i Hi. rewrite Z.land_spec, Z.bits_0.
    destruct (Z.ltb_spec i n).
    - rewrite Z.shiftl_spec_low by lia. apply andb_false_r.
    - rewrite <- (Z.mod_small l (2 ^ n)), Z.mod_pow2_bits_high by lia. done. }
  rewrite <- Z.lxor_lor, <- Z.add_nocarry_lxor, Z.shiftl_mul_pow2 by (done || lia). lia.
Qed.

(** [u16::from(low) | (u16::from(high) << 8)] is the big-endian pair. *)
Lemma lor_shiftl_bytes h l : u8 h -> u8 l -> Z.lor l (Z.shiftl h 8) = from_be_bytes h l.
Proof. unfold u8, from_be_bytes. intros Hh Hl. by rewrite lor_shiftl_add by lia. Qed.

#[export] Hint Resolve u8_lor u8_land u8_land_r u8_lxor u16_lor u16_land u8_mod u16_mod u8_u16
  u8_not8 u8_from_bool_range u8_low_byte u8_high_byte u16_from_be_bytes : gb.
#[export] Hint Extern 1 (u8 (wrapping_add8 _ _)) => apply u8_mod : gb.
#[export] Hint Extern 1 (u8 (wrapping_sub8 _ _)) => apply u8_mod : gb.
#[export] Hint Extern 1 (u16 (wrapping_add16 _ _)) => apply u16_mod : gb.
#[export] Hint Extern 1 (u16 (wrapping_sub16 _ _)) => apply u16_mod : gb.
#[export] Hint Extern 1 (u16 (wrapping_add_signed16 _ _)) => apply u16_mod : gb.
#[export] Hint Extern 1 (u8 (shl8 _ _)) => apply u8_mod : gb.
#[export] Hint Extern 1 (u8 (as_u8 _)) => apply u8_mod : gb.
#[export] Hint Extern 1 (u16 (as_u16 _)) => apply u16_mod : gb.
#[export] Hint Extern 1 (u8 (shr8 _ _)) => apply u8_shr8; [lia|] : gb.
#[export] Hint Extern 1 (u8 (rotate_left8 _ _)) => apply u8_rotate_left8; [lia|] : gb.
#[export] Hint Extern 1 (u8 (rotate_right8 _ _)) => apply u8_rotate_right8; [lia|] : gb.
#[export] Hint Extern 0 (u8 (Zpos _)) => unfold u8; lia : gb.
#[export] Hint Extern 0 (u8 0) => unfold u8; lia : gb.
#[export] Hint Extern 0 (u16 (Zpos _)) => unfold u16; lia : gb.
#[export] Hint Extern 0 (u16 0) => unfold u16; lia : gb.

(** Low masks are remainders; [masks] normalises them for [lia]. *)
Lemma land_mask n x : 0 <= n -> Z.land x (Z.ones n) = x mod 2 ^ n.
Proof. apply Z.land_ones. Qed.
Lemma land_01 x : Z.land x 0x01 = x mod 2.   Proof. by apply (land_mask 1). Qed.
Lemma land_03 x : Z.land x 0x03 = x mod 4.   Proof. by apply (land_mask 2). Qed.
Lemma land_07 x : Z.land x 0x07 = x mod 8.   Proof. by apply (land_mask 3). Qed.
Lemma land_0F x : Z.land x 0x0F = x mod 16.  Proof. by apply (land_mask 4). Qed.
Lemma land_1F x : Z.land x 0x1F = x mod 32.  Proof. by apply (land_mask 5). Qed.
Lemma land_7F x : Z.land x 0x7F = x mod 128. Proof. by apply (land_mask 7). Qed.
Lemma land_FF x : Z.land x 0xFF = x mod 256. Proof. by apply (land_mask 8). Qed.
Lemma land_1FF x : Z.land x 0x1FF = x mod 512. Proof. by apply (land_mask 9). Qed.
Lemma land_FFF x : Z.land x 0xFFF = x mod 4096. Proof. by apply (land_mask 12). Qed.
#[export] Hint Rewrite land_01 land_03 land_07 land_0F land_1F land_7F land_FF land_1FF land_FFF : masks.

Lemma has_bits_pow2 x n : 0 <= n -> has_bits x (2 ^ n) = Z.testbit x n.
Proof.
  intros Hn. unfold has_bits.
  destruct (Z.testbit x n) eqn:Hb.
  - destruct (Z.eqb_spec (Z.land x (2 ^ n)) 0) as [Hz|]; [exfalso|done].
    apply (f_equal (fun z => Z.testbit z n)) in Hz.
    rewrite Z.land_spec, Hb, Z.pow2_bits_true, Z.bits_0 in Hz by lia. done.
  - destruct (Z.eqb_spec (Z.land x (2 ^ n)) 0) as [|Hz]; [done|exfalso; apply Hz].
    apply Z.bits_inj'. intros i Hi. rewrite Z.land_spec, Z.bits_0.
    destruct (decide (i = n)) as [->|]; [by rewrite Hb|].
    rewrite Z.pow2_bits_false by lia. apply andb_false_r.
Qed.

(** *** Exhaustive checks on bytes *)

Definition byte_range (n : nat) : list Z := map Z.of_nat (seq 0 n).

Lemma forall_below (n : nat) (f : Z -> bool) :
  forallb f (byte_range n) = true -> forall x, 0 <= x < Z.of_nat n -> f x = true.
Proof.
  intros Hall x Hx. rewrite forallb_forall in Hall. apply Hall.
  apply in_map_iff. exists (Z.to_nat x). split; [lia|]. apply in_seq. lia.
Qed.

(** ** Rules for [wp] *)

Section WP.
Context {S : Type}.

Lemma wp_ret {A} (a : A) (s : S) Q : Q a s -> wp (mret a) s Q.
Proof. done. Qed.

Lemma wp_bind {A B} (m : ST S A) (k : A -> ST S B) s Q :
  wp m s (fun a s' => wp (k a) s' Q) -> wp (m ≫= k) s Q.
Proof. unfold wp, mbind, ST_bind. destruct (m s) as [[a s']|]; done. Qed.

Lemma wp_mono {A} (m : ST S A) s (Q R : A -> S -> Prop) :
  wp m s Q -> (forall a s', Q a s' -> R a s') -> wp m s R.
Proof. unfold wp. destruct (m s) as [[a s']|]; eauto. Qed.

Lemma wp_and {A} (m : ST S A) s (Q R : A -> S -> Prop) :
  wp m s Q -> wp m s R -> wp m s (fun a s' => Q a s' /\ R a s').
Proof. unfold wp. destruct (m s) as [[a s']|]; eauto. Qed.

Lemma wp_done {A} (m : ST S A) s Q :
  wp m s Q -> exists a s', m s = Done (a, s') /\ Q a s'.
Proof. unfold wp. destruct (m s) as [[a s']|]; [eauto | done]. Qed.

Lemma wp_get (s : S) (Q : S -> S -> Prop) : Q s s -> wp st_get s Q.
Proof. done. Qed.
Lemma wp_gets {A} (f : S -> A) (s : S) Q : Q (f s) s -> wp (st_gets f) s Q.
Proof. done. Qed.
Lemma wp_modify (f : S -> S) (s : S) Q : Q tt (f s) -> wp (st_modify f) s Q.
Proof. done. Qed.
End WP.

(** [finishes m Q]: the computation does not panic and its result is in [Q]. *)
Definition finishes {A : Type} (m : outcome A) (Q : A -> Prop) : Prop :=
  match m with
  | Done a => Q a
  | Panic _ => False
  end.

Lemma finishes_ret {A} (a : A) Q : Q a -> finishes (mret a) Q.
Proof. done. Qed.
Lemma finishes_bind {A B} (m : outcome A) (k : A -> outcome B) Q :
  finishes m (fun a => finishes (k a) Q) -> finishes (m ≫= k) Q.
Proof. by destruct m. Qed.
Lemma finishes_mono {A} (m : outcome A) (Q R : A -> Prop) :
  finishes m Q -> (forall a, Q a -> R a) -> finishes m R.
Proof. destruct m; simpl; auto. Qed.
Lemma finishes_done {A} (m : outcome A) Q : finishes m Q -> exists a, m = Done a /\ Q a.
Proof. destruct m; simpl; [eauto | done]. Qed.

(** [case_tests] splits the boolean tests and matches of the goal. *)
Ltac case_tests :=
  repeat match goal with
  | |- context [if ?b then _ else _] => destruct b eqn:?
  end.

(** [prune] turns boolean comparisons in hypotheses into facts for [lia]. *)
Ltac prune :=
  repeat match goal with
  | H : _ && _ = true |- _ => apply andb_prop in H; destruct H
  | H : (_ <=? _) = true |- _ => apply Z.leb_le in H
  | H : (_ <=? _) = false |- _ => apply Z.leb_gt in H
  | H : (_ <? _) = true |- _ => apply Z.ltb_lt in H
  | H : (_ <? _) = false |- _ => apply Z.ltb_ge in H
  | H : (_ =? _) = true |- _ => apply Z.eqb_eq in H
  | H : (_ =? _) = false |- _ => apply Z.eqb_neq in H
  end.

(** [lia] for goals with [/] and [mod] by constants. *)
Ltac divmod_lia := Z.to_euclidean_division_equations; lia.

(** [iterate n f x] applies the step [f] to [x], [n] times. *)
Fixpoint iterate {A} (n : nat) (f : A -> A) (x : A) : A :=
  match n with
  | O => x
  | S n' => iterate n' f (f x)
  end.

Lemma iterate_add {A} n m (f : A -> A) x : iterate (n + m) f x = iterate m f (iterate n f x).
Proof. revert x. induction n; simpl; auto. Qed.

Lemma iterate_S {A} n (f : A -> A) x : iterate (S n) f x = f (iterate n f x).
Proof. revert x. induction n; simpl; auto. intros. by rewrite <- IHn. Qed.

Lemma iterate_ind {A} (P : A -> Prop) (f : A -> A) :
  (forall x, P x -> P (f x)) -> forall n x, P x -> P (iterate n f x).
Proof. intros Hf n. induction n; simpl; auto. Qed.
