(* ===== verification/Model.v ===== *)
(** * Public model axes ([crates/gb-core/src/model.rs])

    The console and operating-mode axes and the capability predicates the
    other components query. *)

From Stdlib Require Import ZArith Bool.
From stdpp Require Import base decidable list.
From S2P Require Import Prelude.

Local Open Scope Z_scope.

Inductive ConsoleFamily := FamilyDmg | FamilyCgb.

Inductive ConsoleModel :=
| GameBoy | GameBoyPocket | GameBoyLight | GameBoyColor | GameBoyAdvance.

Inductive OperatingMode := ModeDmg | ModeCgb | ModeGbCompatible | ModeCgbDmgExt.

#[export] Instance ConsoleFamily_eq_dec : EqDecision ConsoleFamily.
Proof. solve_decision. Defined.
#[export] Instance ConsoleModel_eq_dec : EqDecision ConsoleModel.
Proof. solve_decision. Defined.
#[export] Instance OperatingMode_eq_dec : EqDecision OperatingMode.
Proof. solve_decision. Defined.

Inductive HardwareRevision :=
| DmgCpu0 | DmgCpuA | DmgCpuB | DmgCpuC | CpuMgb
| CpuCgb0 | CpuCgbA | CpuCgbB | CpuCgbC | CpuCgbD | CpuCgbE | CpuAgb0 | CpuAgbA.

#[export] Instance HardwareRevision_eq_dec : EqDecision HardwareRevision.
Proof. solve_decision. Defined.

Definition default_revision (m : ConsoleModel) : HardwareRevision :=
  match m with
  | GameBoy => DmgCpuC
  | GameBoyPocket | GameBoyLight => CpuMgb
  | GameBoyColor => CpuCgbD
  | GameBoyAdvance => CpuAgbA
  end.

Definition family (m : ConsoleModel) : ConsoleFamily :=
  match m with
  | GameBoyColor | GameBoyAdvance => FamilyCgb
  | GameBoy | GameBoyPocket | GameBoyLight => FamilyDmg
  end.

Definition is_dmg_family (m : ConsoleModel) : bool :=
  match family m with FamilyDmg => true | FamilyCgb => false end.

Definition is_cgb_family (m : ConsoleModel) : bool :=
  match family m with FamilyCgb => true | FamilyDmg => false end.

Definition has_cgb_infrared_port (m : ConsoleModel) : bool :=
  match m with GameBoyColor => true | _ => false end.

Definition default_operating_mode (m : ConsoleModel) : OperatingMode :=
  match family m with
  | FamilyDmg => ModeDmg
  | FamilyCgb => ModeCgb
  end.

Definition supports_operating_mode (m : ConsoleModel) (mode : OperatingMode) : bool :=
  match family m with
  | FamilyDmg => match mode with ModeDmg => true | _ => false end
  | FamilyCgb => match mode with ModeCgb | ModeGbCompatible | ModeCgbDmgExt => true | _ => false end
  end.

Definition uses_dmg_software_contract (mode : OperatingMode) : bool :=
  match mode with ModeDmg | ModeGbCompatible | ModeCgbDmgExt => true | ModeCgb => false end.

Definition enables_cgb_extensions (mode : OperatingMode) : bool :=
  match mode with ModeCgb => true | _ => false end.

Definition enables_cgb_speed_switch (mode : OperatingMode) : bool :=
  match mode with ModeCgb | ModeCgbDmgExt => true | _ => false end.

Definition enables_cgb_high_speed_serial (mode : OperatingMode) : bool :=
  match mode with ModeCgb | ModeCgbDmgExt => true | _ => false end.

Definition enables_cgb_infrared_register (mode : OperatingMode) : bool :=
  match mode with ModeCgb | ModeCgbDmgExt => true | _ => false end.

(** ** Host platforms and their revisions *)

Inductive HostPlatform := Handheld | Sgb | Sgb2.

#[export] Instance HostPlatform_eq_dec : EqDecision HostPlatform.
Proof. solve_decision. Defined.

Definition is_sgb (h : HostPlatform) : bool := match h with Sgb | Sgb2 => true | Handheld => false end.

Definition ACTIVE_DMG_REVISIONS : list HardwareRevision := [DmgCpu0; DmgCpuC].
Definition ACTIVE_SGB_REVISIONS : list HardwareRevision := [DmgCpuC].
Definition ACTIVE_MGB_REVISIONS : list HardwareRevision := [CpuMgb].
Definition ACTIVE_CGB_REVISIONS : list HardwareRevision := [CpuCgb0; CpuCgbC; CpuCgbD; CpuCgbE].
Definition ACTIVE_AGB_REVISIONS : list HardwareRevision := [CpuAgb0; CpuAgbA].

Definition active_revisions (m : ConsoleModel) : list HardwareRevision :=
  match m with
  | GameBoy => ACTIVE_DMG_REVISIONS
  | GameBoyPocket | GameBoyLight => ACTIVE_MGB_REVISIONS
  | GameBoyColor => ACTIVE_CGB_REVISIONS
  | GameBoyAdvance => ACTIVE_AGB_REVISIONS
  end.

Definition active_revisions_on_host (m : ConsoleModel) (h : HostPlatform) : list HardwareRevision :=
  match m, h with
  | GameBoy, (Sgb | Sgb2) => ACTIVE_SGB_REVISIONS
  | _, _ => active_revisions m
  end.

Definition supports_revision (m : ConsoleModel) (r : HardwareRevision) : bool :=
  match m with
  | GameBoy => match r with DmgCpu0 | DmgCpuC => true | _ => false end
  | GameBoyPocket | GameBoyLight => match r with CpuMgb => true | _ => false end
  | GameBoyColor => match r with CpuCgb0 | CpuCgbC | CpuCgbD | CpuCgbE => true | _ => false end
  | GameBoyAdvance => match r with CpuAgb0 | CpuAgbA => true | _ => false end
  end.

Definition supports_revision_on_host (m : ConsoleModel) (h : HostPlatform) (r : HardwareRevision) : bool :=
  match m, h with
  | GameBoy, (Sgb | Sgb2) => match r with DmgCpuC => true | _ => false end
  | _, _ => supports_revision m r
  end.

Definition uses_cgb_boot_rom (r : HardwareRevision) : bool :=
  match r with
  | CpuCgb0 | CpuCgbA | CpuCgbB | CpuCgbC | CpuCgbD | CpuCgbE | CpuAgb0 | CpuAgbA => true
  | _ => false
  end.

(** The revision lists and the predicates agree. *)
Lemma active_revisions_supported m h r :
  bool_decide (r ∈ active_revisions_on_host m h) = supports_revision_on_host m h r.
Proof. by destruct m, h, r. Qed.

(** ** Super Game Boy profiles *)

Inductive SgbVideoStandard := Ntsc | Pal.
Inductive SgbHostProfile := SgbNtsc | SgbPal | Sgb2Ntsc.

#[export] Instance SgbHostProfile_eq_dec : EqDecision SgbHostProfile.
Proof. solve_decision. Defined.

Definition DMG_MASTER_CLOCK_HZ : Z := 4194304.
Definition SGB_ICD2_CLOCK_DIVISOR : Z := 5.
Definition SGB_NTSC_SOURCE_MASTER_CLOCK_HZ : Z := 21477272.
Definition SGB_PAL_SOURCE_MASTER_CLOCK_HZ : Z := 21281370.
Definition SGB2_SOURCE_MASTER_CLOCK_HZ : Z := DMG_MASTER_CLOCK_HZ * SGB_ICD2_CLOCK_DIVISOR.

Record SgbClockRate := mkClockRate { numerator_hz : Z; denominator : Z }.

Definition from_hz (hz : Z) : SgbClockRate := mkClockRate hz 1.
Definition divided_by (c : SgbClockRate) (divisor : Z) : SgbClockRate :=
  mkClockRate (numerator_hz c) (denominator c * divisor).
Definition rounded_hz (c : SgbClockRate) : Z :=
  ((numerator_hz c + denominator c / 2) / denominator c) mod 4294967296.

Record SgbProfileTiming := mkProfileTiming {
  source_master_clock_hz : SgbClockRate;
  gb_master_clock_hz : SgbClockRate;
  gb_clock_divisor : Z;
  timing_video_standard : SgbVideoStandard;
  timing_corrected_clock : bool
}.

Definition default_for_host_platform (h : HostPlatform) : option SgbHostProfile :=
  match h with Handheld => None | Sgb => Some SgbNtsc | Sgb2 => Some Sgb2Ntsc end.
Definition profile_host_platform (p : SgbHostProfile) : HostPlatform :=
  match p with SgbNtsc | SgbPal => Sgb | Sgb2Ntsc => Sgb2 end.
Definition video_standard (p : SgbHostProfile) : SgbVideoStandard :=
  match p with SgbNtsc | Sgb2Ntsc => Ntsc | SgbPal => Pal end.
Definition game_link_supported (p : SgbHostProfile) : bool := match p with Sgb2Ntsc => true | _ => false end.
Definition corrected_clock (p : SgbHostProfile) : bool := match p with Sgb2Ntsc => true | _ => false end.

Definition profile_timing (p : SgbHostProfile) : SgbProfileTiming :=
  let source := from_hz match p with
                        | SgbNtsc => SGB_NTSC_SOURCE_MASTER_CLOCK_HZ
                        | SgbPal => SGB_PAL_SOURCE_MASTER_CLOCK_HZ
                        | Sgb2Ntsc => SGB2_SOURCE_MASTER_CLOCK_HZ
                        end in
  mkProfileTiming source (divided_by source SGB_ICD2_CLOCK_DIVISOR) SGB_ICD2_CLOCK_DIVISOR
    (video_standard p) (corrected_clock p).

(** Only the corrected clock runs at the handheld's rate. *)
Lemma corrected_clock_is_handheld p :
  rounded_hz (gb_master_clock_hz (profile_timing p)) = DMG_MASTER_CLOCK_HZ <-> corrected_clock p = true.
Proof. destruct p; vm_compute; naive_solver. Qed.

(** ** Capabilities *)

Record CapabilitySet := mkCapabilities {
  cap_console_model : ConsoleModel;
  cap_console_family : ConsoleFamily;
  cap_operating_mode : OperatingMode;
  cap_host_platform : HostPlatform;
  dmg_software_contract : bool;
  cgb_extensions_enabled : bool;
  dmg_family_quirks_enabled : bool;
  sgb_enhancements_enabled : bool
}.

Definition from_model_axes (m : ConsoleModel) (o : OperatingMode) (h : HostPlatform) : CapabilitySet :=
  mkCapabilities m (family m) o h (uses_dmg_software_contract o)
    (is_cgb_family m && enables_cgb_extensions o) (is_dmg_family m) (is_sgb h).

(** ** Startup and compatibility policies *)

Inductive StartupMode := SkipBoot | CustomBoot | RealBoot.

#[export] Instance StartupMode_eq_dec : EqDecision StartupMode.
Proof. solve_decision. Defined.

Definition requires_boot_rom (s : StartupMode) : bool := match s with RealBoot => true | _ => false end.
Definition uses_direct_boot_state (s : StartupMode) : bool :=
  match s with SkipBoot | CustomBoot => true | RealBoot => false end.

Inductive ExecutionMode := ExecStrict | ExecPermissive | ExecExperimental.
Inductive ValidationPolicy := ValidateStrict | ValidateWarn | ValidateIgnore.
Inductive HeuristicPolicy := HeuristicDisabled | AllowExperimental.
Inductive DiagnosticPolicy := DiagnosticQuiet | DiagnosticStandard | DiagnosticVerbose.

Definition is_oracle (e : ExecutionMode) : bool := match e with ExecStrict => true | _ => false end.

#[export] Instance ValidationPolicy_eq_dec : EqDecision ValidationPolicy.
Proof. solve_decision. Defined.
#[export] Instance HeuristicPolicy_eq_dec : EqDecision HeuristicPolicy.
Proof. solve_decision. Defined.

Record OverridePolicy := mkOverride {
  forced_console_model : option ConsoleModel;
  forced_operating_mode : option OperatingMode;
  forced_host_platform : option HostPlatform;
  forced_startup_mode : option StartupMode
}.

Definition override_default : OverridePolicy := mkOverride None None None None.
Definition has_overrides (o : OverridePolicy) : bool :=
  bool_decide (is_Some (forced_console_model o)) || bool_decide (is_Some (forced_operating_mode o)) ||
  bool_decide (is_Some (forced_host_platform o)) || bool_decide (is_Some (forced_startup_mode o)).

Record CompatibilityPolicy := mkPolicy {
  execution_mode : ExecutionMode;
  validation_policy : ValidationPolicy;
  heuristic_policy : HeuristicPolicy;
  override_policy : OverridePolicy;
  diagnostic_policy : DiagnosticPolicy
}.

Definition strict : CompatibilityPolicy :=
  mkPolicy ExecStrict ValidateStrict HeuristicDisabled override_default DiagnosticStandard.
Definition permissive : CompatibilityPolicy :=
  mkPolicy ExecPermissive ValidateWarn HeuristicDisabled override_default DiagnosticStandard.
Definition experimental : CompatibilityPolicy :=
  mkPolicy ExecExperimental ValidateWarn AllowExperimental override_default DiagnosticVerbose.
