(* ===== verification/Scheduler.v ===== *)
(** * The global scheduler ([crates/gb-core/src/scheduler.rs])

    The T-cycle counter, the nine scheduler phases, the fixed-capacity record
    buffers of one cycle and the cycle context the components write into.
    The buffers compare by their live prefix, as [PartialEq] does in the
    source; that equivalence is a setoid here. *)

From Stdlib Require Import ZArith Lia String.
From stdpp Require Import base list decidable.
From S2P Require Import Prelude.

Local Open Scope Z_scope.

(** ** T-cycles *)

Definition TCycle := Z.

Definition TCycle_next (t : TCycle) : outcome TCycle :=
  if t + 1 <? 18446744073709551616 then Done (t + 1)
  else Panic "T-cycle counter overflowed u64".

(** ** Phases and records *)

Inductive SchedulerPhase :=
| ExternalEventIngress
| MasterClockTick
| DerivedEdgeResolution
| AutonomousPeripheralTicks
| BusArbitration
| CpuMicroOperation
| MmioSideEffectCommit
| InterruptAggregation
| CpuWakeInterruptEvaluation.

Definition SchedulerPhase_default : SchedulerPhase := ExternalEventIngress.

Definition ORDER : list SchedulerPhase :=
  [ExternalEventIngress; MasterClockTick; DerivedEdgeResolution; AutonomousPeripheralTicks;
   BusArbitration; CpuMicroOperation; MmioSideEffectCommit; InterruptAggregation;
   CpuWakeInterruptEvaluation].

Inductive ExternalEvent := HostInputChanged | ExternalSerialClock | DebugCommand.

Inductive DerivedEdge := DividerTick | TimerInputFallingEdge | ApuFrameSequencerEdge.

Inductive BusOwner :=
| OwnerCpu | OwnerDma | OwnerPpu | OwnerApu | OwnerSerial | OwnerCartridge | OwnerBoot.

Inductive SchedulerSideEffect := CommitMmioWrite | BootRomUnmap | StartOamDma | LcdPowerTransition.

Inductive InterruptSource := VBlank | LcdStat | TimerIrq | SerialIrq | JoypadIrq.

#[export] Instance SchedulerPhase_eq_dec : EqDecision SchedulerPhase.
Proof. solve_decision. Defined.
#[export] Instance DerivedEdge_eq_dec : EqDecision DerivedEdge.
Proof. solve_decision. Defined.
#[export] Instance InterruptSource_eq_dec : EqDecision InterruptSource.
Proof. solve_decision. Defined.

(** ** Fixed-capacity buffers

    [items] is the array [[T; N]] (its length is the capacity), [len] the
    number of live entries. *)

Record CycleRecordBuffer (T : Type) := mkBuffer { items : list T; len : nat }.
Arguments mkBuffer {T} _ _.
Arguments items {T} _.
Arguments len {T} _.

Section Buffer.
Context {T : Type}.

Definition buffer_new (n : nat) (filler : T) : CycleRecordBuffer T :=
  mkBuffer (replicate n filler) 0.

Definition buffer_clear (b : CycleRecordBuffer T) : CycleRecordBuffer T :=
  mkBuffer (items b) 0.

Definition buffer_push (b : CycleRecordBuffer T) (item : T) : outcome (CycleRecordBuffer T) :=
  if decide (len b < length (items b))%nat
  then Done (mkBuffer (<[len b := item]> (items b)) (S (len b)))
  else Panic "cycle record buffer capacity exceeded".

Definition as_slice (b : CycleRecordBuffer T) : list T := take (len b) (items b).

(** The loop [for next_index in index + 1..self.len], [k] steps left. *)
Fixpoint shift_left_from (k next_index : nat) (l : list T) : list T :=
  match k with
  | O => l
  | S k' =>
      let l' := match l !! next_index with
                | Some x => <[(next_index - 1)%nat := x]> l
                | None => l
                end in
      shift_left_from k' (S next_index) l'
  end.

(** [iter().position(...)]. *)
Fixpoint position `{EqDecision T} (item : T) (l : list T) : option nat :=
  match l with
  | [] => None
  | x :: l' => if decide (x = item) then Some O else S <$> position item l'
  end.

Definition remove_first `{EqDecision T} (b : CycleRecordBuffer T) (item : T)
    : CycleRecordBuffer T * bool :=
  match position item (as_slice b) with
  | None => (b, false)
  | Some index =>
      (mkBuffer (shift_left_from (len b - S index) (S index) (items b)) (len b - 1), true)
  end.
End Buffer.

(** [PartialEq for CycleRecordBuffer]: equality of the live prefixes. *)
#[export] Instance buffer_equiv {T} : Equiv (CycleRecordBuffer T) :=
  fun b c => as_slice b = as_slice c.

(** ** The cycle context *)

Record CycleContext := mkContext {
  t_cycle : TCycle;
  phase : SchedulerPhase;
  external_events : CycleRecordBuffer ExternalEvent;
  derived_edges : CycleRecordBuffer DerivedEdge;
  bus_owner : option BusOwner;
  queued_side_effects : CycleRecordBuffer SchedulerSideEffect;
  interrupt_requests : CycleRecordBuffer InterruptSource
}.

#[export] Instance upd_phase : Update phase := fun v c =>
  let '(mkContext t _ ee de bo se ir) := c in mkContext t v ee de bo se ir.
#[export] Instance upd_external_events : Update external_events := fun v c =>
  let '(mkContext t p _ de bo se ir) := c in mkContext t p v de bo se ir.
#[export] Instance upd_derived_edges : Update derived_edges := fun v c =>
  let '(mkContext t p ee _ bo se ir) := c in mkContext t p ee v bo se ir.
#[export] Instance upd_bus_owner : Update bus_owner := fun v c =>
  let '(mkContext t p ee de _ se ir) := c in mkContext t p ee de v se ir.
#[export] Instance upd_queued_side_effects : Update queued_side_effects := fun v c =>
  let '(mkContext t p ee de bo _ ir) := c in mkContext t p ee de bo v ir.
#[export] Instance upd_interrupt_requests : Update interrupt_requests := fun v c =>
  let '(mkContext t p ee de bo se _) := c in mkContext t p ee de bo se v.

Definition for_cycle (t : TCycle) : CycleContext :=
  {| t_cycle := t;
     phase := SchedulerPhase_default;
     external_events := buffer_new 16 HostInputChanged;
     derived_edges := buffer_new 16 DividerTick;
     bus_owner := None;
     queued_side_effects := buffer_new 16 CommitMmioWrite;
     interrupt_requests := buffer_new 16 VBlank |}.

Definition reset_for_cycle (c : CycleContext) (t : TCycle) : CycleContext :=
  {| t_cycle := t;
     phase := SchedulerPhase_default;
     external_events := buffer_clear (external_events c);
     derived_edges := buffer_clear (derived_edges c);
     bus_owner := None;
     queued_side_effects := buffer_clear (queued_side_effects c);
     interrupt_requests := buffer_clear (interrupt_requests c) |}.

Definition enter_phase (p : SchedulerPhase) (c : CycleContext) : CycleContext :=
  c <| phase := p |>.

Definition lift_buffer {B} (b : outcome B) (k : B -> CycleContext) : outcome (unit * CycleContext) :=
  match b with
  | Done b' => Done (tt, k b')
  | Panic why => Panic why
  end.

Definition push_external_event (e : ExternalEvent) : ST CycleContext unit := fun c =>
  lift_buffer (buffer_push (external_events c) e) (fun b => c <| external_events := b |>).

Definition push_derived_edge (e : DerivedEdge) : ST CycleContext unit := fun c =>
  lift_buffer (buffer_push (derived_edges c) e) (fun b => c <| derived_edges := b |>).

Definition set_bus_owner (o : BusOwner) (c : CycleContext) : CycleContext :=
  c <| bus_owner := Some o |>.

Definition clear_bus_owner (c : CycleContext) : CycleContext := c <| bus_owner := None |>.

Definition queue_side_effect (s : SchedulerSideEffect) : ST CycleContext unit := fun c =>
  lift_buffer (buffer_push (queued_side_effects c) s) (fun b => c <| queued_side_effects := b |>).

Definition queue_interrupt_request (i : InterruptSource) : ST CycleContext unit := fun c =>
  lift_buffer (buffer_push (interrupt_requests c) i) (fun b => c <| interrupt_requests := b |>).

Definition take_interrupt_request (i : InterruptSource) : ST CycleContext bool := fun c =>
  let '(b, found) := remove_first (interrupt_requests c) i in
  Done (found, c <| interrupt_requests := b |>).

(** ** The scheduler *)

Record GlobalScheduler := mkScheduler { next_t_cycle : TCycle }.

Definition scheduler_default : GlobalScheduler := mkScheduler 0.
Definition scheduler_reset (s : GlobalScheduler) : GlobalScheduler := mkScheduler 0.
Definition set_next_t_cycle (s : GlobalScheduler) (t : TCycle) : GlobalScheduler := mkScheduler t.
Definition prepare_cycle_context (s : GlobalScheduler) : CycleContext := for_cycle (next_t_cycle s).

(** [step] runs [visit_phase] once per phase; the state [M] stands for what
    the closure captures (the machine). *)
Section Step.
Context {M : Type}.

Fixpoint visit_phases (phases : list SchedulerPhase)
    (visit_phase : ST (M * CycleContext) unit) : ST (M * CycleContext) unit :=
  match phases with
  | [] => mret tt
  | p :: rest =>
      st_modify (fun mc => (mc.1, enter_phase p mc.2)) ≫= fun _ =>
      visit_phase ≫= fun _ =>
      visit_phases rest visit_phase
  end.

Definition step (visit_phase : ST (M * CycleContext) unit) (s : GlobalScheduler) (m : M)
    : outcome (CycleContext * GlobalScheduler * M) :=
  match visit_phases ORDER visit_phase (m, prepare_cycle_context s) with
  | Panic why => Panic why
  | Done (_, (m', c)) =>
      match TCycle_next (next_t_cycle s) with
      | Panic why => Panic why
      | Done t => Done (c, mkScheduler t, m')
      end
  end.
End Step.

(** ** The buffers implement bounded lists *)

Definition buffer_ok {T} (b : CycleRecordBuffer T) : Prop := (len b <= length (items b))%nat.

Definition capacity {T} (b : CycleRecordBuffer T) : nat := length (items b).

#[export] Instance buffer_equivalence {T} : Equivalence (≡@{CycleRecordBuffer T}).
Proof. split; unfold equiv, buffer_equiv; [intros ? | intros ?? | intros ???]; congruence. Qed.

#[export] Instance as_slice_proper {T} : Proper ((≡) ==> (=)) (@as_slice T).
Proof. intros b c H. exact H. Qed.

Section BufferLemmas.
Context {T : Type}.
Implicit Types b : CycleRecordBuffer T.

Lemma buffer_new_ok n (x : T) : buffer_ok (buffer_new n x).
Proof. unfold buffer_ok. simpl. lia. Qed.

Lemma as_slice_new n (x : T) : as_slice (buffer_new n x) = [].
Proof. done. Qed.

Lemma as_slice_clear b : as_slice (buffer_clear b) = [].
Proof. done. Qed.

Lemma length_as_slice b : buffer_ok b -> length (as_slice b) = len b.
Proof. unfold buffer_ok, as_slice. intros. rewrite length_take. lia. Qed.

Lemma buffer_push_done b x :
  buffer_ok b -> (len b < capacity b)%nat ->
  exists b', buffer_push b x = Done b' /\ buffer_ok b' /\ capacity b' = capacity b
          /\ len b' = S (len b) /\ as_slice b' = as_slice b ++ [x].
Proof.
  unfold buffer_push, capacity, buffer_ok, as_slice. intros Hok Hlt.
  rewrite decide_True by done. eexists. split; [done|]. simpl.
  rewrite length_insert. repeat split; [lia|].
  rewrite (take_S_r _ _ x) by (by apply list_lookup_insert_eq).
  by rewrite take_insert_ge by lia.
Qed.

Lemma buffer_push_full b x :
  (capacity b <= len b)%nat ->
  buffer_push b x = Panic "cycle record buffer capacity exceeded".
Proof. unfold buffer_push, capacity. intros. rewrite decide_False by lia. done. Qed.

Lemma shift_left_lookup k i (l : list T) j :
  (0 < i)%nat -> (i + k <= length l)%nat ->
  shift_left_from k i l !! j =
    if decide (i - 1 <= j < i - 1 + k)%nat then l !! S j else l !! j.
Proof.
  revert i l. induction k as [|k IH]; intros i l Hi Hlen; simpl.
  { rewrite decide_False by lia. done. }
  assert (is_Some (l !! i)) as [x Hx] by (apply lookup_lt_is_Some_2; lia). rewrite Hx.
  rewrite IH by (rewrite ?length_insert; lia).
  destruct (decide (j = (i - 1)%nat)) as [->|Hj].
  - rewrite decide_False by lia. rewrite list_lookup_insert_eq by lia.
    rewrite decide_True by lia. by replace (S (i - 1)) with i by lia.
  - repeat case_decide; try lia; rewrite list_lookup_insert_ne by lia; done.
Qed.

Lemma shift_left_length k i (l : list T) : length (shift_left_from k i l) = length l.
Proof.
  revert i l. induction k as [|k IH]; intros i l; simpl; [done|].
  rewrite IH. destruct (l !! i); [by rewrite length_insert | done].
Qed.

Context `{EqDecision T}.

Lemma position_Some (x : T) l i :
  position x l = Some i ->
  (i < length l)%nat /\ l = take i l ++ (x :: drop (S i) l) /\ x ∉ take i l.
Proof.
  revert i. induction l as [|y l IH]; intros i; simpl; [done|].
  case_decide as Heq.
  - intros [= <-]. subst. simpl. rewrite drop_0. repeat split; [lia | apply not_elem_of_nil].
  - destruct (position x l) as [i'|]; [|done]. intros [= <-].
    destruct (IH i' eq_refl) as (? & Hl & ?). simpl. repeat split; [lia | by rewrite <- Hl |].
    rewrite not_elem_of_cons. auto.
Qed.

Lemma position_None (x : T) l : position x l = None -> x ∉ l.
Proof.
  induction l as [|y l IH]; simpl; [intros _; apply not_elem_of_nil|].
  case_decide; [done|]. destruct (position x l); [done|]. rewrite not_elem_of_cons. auto.
Qed.

Lemma remove_first_slice b x i :
  buffer_ok b -> position x (as_slice b) = Some i ->
  as_slice (remove_first b x).1 = take i (as_slice b) ++ drop (S i) (as_slice b).
Proof.
  intros Hok Hp. unfold remove_first. rewrite Hp. simpl.
  destruct (position_Some _ _ _ Hp) as (Hi & _ & _). rewrite length_as_slice in Hi by done.
  unfold as_slice at 1. simpl. apply list_eq. intros j.
  assert (Hlen := length_as_slice b Hok). unfold buffer_ok in Hok.
  destruct (decide (j < len b - 1)%nat).
  - rewrite lookup_take_lt by lia. rewrite shift_left_lookup by lia.
    unfold as_slice. case_decide.
    + rewrite lookup_app_r by (rewrite !length_take; lia).
      rewrite !length_take, lookup_drop, lookup_take_lt by lia. f_equal. lia.
    + rewrite lookup_app_l by (rewrite !length_take; lia).
      rewrite !lookup_take_lt by lia. done.
  - rewrite lookup_take_ge by lia. symmetry. apply lookup_ge_None_2.
    rewrite length_app, length_take, length_drop, Hlen. lia.
Qed.
End BufferLemmas.

(** The context of a cycle: every buffer is well formed with capacity 16. *)
Definition context_ok (c : CycleContext) : Prop :=
  (buffer_ok (derived_edges c) /\ capacity (derived_edges c) = 16%nat) /\
  (buffer_ok (interrupt_requests c) /\ capacity (interrupt_requests c) = 16%nat).

(** Room for [d] more derived edges and [i] more interrupt requests. *)
Definition context_room (d i : nat) (c : CycleContext) : Prop :=
  context_ok c /\ (len (derived_edges c) + d <= 16)%nat /\
  (len (interrupt_requests c) + i <= 16)%nat.

Lemma for_cycle_room t : context_room 16 16 (for_cycle t).
Proof. unfold context_room, context_ok, buffer_ok, capacity. simpl. lia. Qed.

Lemma context_room_weaken d i d' i' c :
  (d' <= d)%nat -> (i' <= i)%nat -> context_room d i c -> context_room d' i' c.
Proof. unfold context_room. intros ?? (?&?&?). split; [done|lia]. Qed.

Lemma push_derived_edge_wp e d i c (Q : unit -> CycleContext -> Prop) :
  context_room (S d) i c ->
  (forall c', context_room d i c' ->
     as_slice (derived_edges c') = as_slice (derived_edges c) ++ [e] ->
     interrupt_requests c' = interrupt_requests c -> Q tt c') ->
  wp (push_derived_edge e) c Q.
Proof.
  intros ([[Hok Hcap] Hir] & Hd & Hi) HQ. unfold wp, push_derived_edge.
  destruct (buffer_push_done (derived_edges c) e) as (b & -> & Hb & Hcap' & Hlen & Hs); [done | lia |].
  destruct c. simpl in *. apply HQ; simpl; auto.
  unfold context_room, context_ok. simpl. repeat split; [done | lia | tauto | tauto | lia | lia].
Qed.

Lemma queue_interrupt_request_wp s d i c (Q : unit -> CycleContext -> Prop) :
  context_room d (S i) c ->
  (forall c', context_room d i c' ->
     as_slice (interrupt_requests c') = as_slice (interrupt_requests c) ++ [s] ->
     derived_edges c' = derived_edges c -> Q tt c') ->
  wp (queue_interrupt_request s) c Q.
Proof.
  intros ([Hde [Hok Hcap]] & Hd & Hi) HQ. unfold wp, queue_interrupt_request.
  destruct (buffer_push_done (interrupt_requests c) s) as (b & -> & Hb & Hcap' & Hlen & Hs); [done | lia |].
  destruct c. simpl in *. apply HQ; simpl; auto.
  unfold context_room, context_ok. simpl. repeat split; [tauto | tauto | done | lia | lia | lia].
Qed.

(** ** Consecutive cycles of one component

    Each tick runs in a fresh cycle context; the list says in which cycles the
    component queued the interrupt [source]. *)

Section FreshCycles.
Context {A : Type} (source : InterruptSource) (tick : A -> ST CycleContext A).

Definition fresh_tick (a : A) : outcome (A * bool) :=
  match tick a (for_cycle 0) with
  | Done (a', c) =>
      Done (a', existsb (fun s => bool_decide (s = source)) (as_slice (interrupt_requests c)))
  | Panic why => Panic why
  end.

Fixpoint run_fresh (n : nat) (a : A) : outcome (A * list bool) :=
  match n with
  | O => Done (a, [])
  | S n' =>
      match fresh_tick a with
      | Panic why => Panic why
      | Done (a', irq) =>
          match run_fresh n' a' with
          | Panic why => Panic why
          | Done (a'', irqs) => Done (a'', irq :: irqs)
          end
      end
  end.

(** A tick described by a pure step and a predicate for the interrupt, on
    the states of an invariant [P] the step preserves. *)
Context (P : A -> Prop) (next : A -> A) (due : A -> bool).
Hypothesis tick_spec : forall a, P a -> fresh_tick a = Done (next a, due a).
Hypothesis next_preserves : forall a, P a -> P (next a).

Lemma run_fresh_S n a :
  P a ->
  run_fresh (S n) a =
  match run_fresh n (next a) with
  | Done (a', irqs) => Done (a', due a :: irqs)
  | Panic why => Panic why
  end.
Proof. intros Ha. cbn [run_fresh]. by rewrite tick_spec. Qed.

Lemma run_fresh_done n a :
  P a -> exists irqs, run_fresh n a = Done (iterate n next a, irqs) /\ P (iterate n next a).
Proof.
  revert a. induction n as [|n IH]; intros a Ha; [by eexists|].
  rewrite run_fresh_S by done. destruct (IH (next a)) as (irqs & -> & ?); [by apply next_preserves|].
  by eexists.
Qed.

Lemma run_fresh_snoc n a :
  P a ->
  run_fresh (S n) a =
  match run_fresh n a with
  | Done (a', irqs) => Done (next a', irqs ++ [due a'])
  | Panic why => Panic why
  end.
Proof.
  revert a. induction n as [|n IH]; intros a Ha; [by rewrite run_fresh_S|].
  rewrite run_fresh_S by done. rewrite IH by (by apply next_preserves).
  rewrite (run_fresh_S n) by done.
  by destruct (run_fresh n (next a)) as [[??]|].
Qed.

(** While no interrupt is due, the run is silent. *)
Lemma run_fresh_quiet n a :
  P a -> (forall k, (k < n)%nat -> due (iterate k next a) = false) ->
  run_fresh n a = Done (iterate n next a, replicate n false).
Proof.
  intros Ha. induction n as [|n IH]; intros Hq; [done|].
  rewrite run_fresh_snoc, IH by auto. rewrite Hq, iterate_S, <- replicate_S_end by lia. done.
Qed.
End FreshCycles.

(** ** Properties *)

(**  The cycle record buffers implement bounded lists.  On a well-formed
    buffer, [push] appends to the live prefix while there is room and panics
    (leaving no buffer) exactly when the capacity is used up, and
    [remove_first] deletes the first occurrence of the item, keeping the order
    of the others, or reports its absence and changes nothing. *)
Theorem cycle_record_buffer_refines_list {T} `{EqDecision T} (b : CycleRecordBuffer T) (x : T) :
  buffer_ok b ->
  ((len b < capacity b)%nat ->
     exists b', buffer_push b x = Done b' /\ buffer_ok b' /\ as_slice b' = as_slice b ++ [x]) /\
  ((capacity b <= len b)%nat ->
     buffer_push b x = Panic "cycle record buffer capacity exceeded") /\
  match remove_first b x with
  | (b', true) => buffer_ok b' /\ exists l1 l2,
      as_slice b = l1 ++ (x :: l2) /\ x ∉ l1 /\ as_slice b' = l1 ++ l2
  | (b', false) => b' = b /\ x ∉ as_slice b
  end.
Proof.
  intros Hok. split; [|split].
  - intros Hroom. destruct (buffer_push_done b x Hok Hroom) as (b' & ? & ? & _ & _ & ?). eauto.
  - apply buffer_push_full.
  - assert (Hsl := remove_first_slice b x). unfold remove_first in *.
    destruct (position x (as_slice b)) as [i|] eqn:Hp; [|eauto using position_None].
    destruct (position_Some _ _ _ Hp) as (Hi & Hsplit & Hnot). rewrite length_as_slice in Hi by done.
    split; [|eexists _, _; eauto].
    unfold buffer_ok in *. simpl. rewrite shift_left_length. lia.
Qed.

Lemma cycle_record_buffer_refines_list_witness :
  buffer_ok (mkBuffer [VBlank; TimerIrq; VBlank] 2) /\
  (remove_first (mkBuffer [VBlank; TimerIrq; VBlank] 2) TimerIrq).2 = true.
Proof.
  assert (Hok : buffer_ok (mkBuffer [VBlank; TimerIrq; VBlank] 2)) by (vm_compute; lia).
  split; [exact Hok|].
  pose proof (cycle_record_buffer_refines_list _ TimerIrq Hok) as (_ & _ & H).
  destruct (remove_first _ TimerIrq) as [b [|]] eqn:E; [reflexivity | discriminate E].
Defined.

Lemma visit_phases_total {M} (f : SchedulerPhase -> M -> M) phases m c :
  visit_phases phases (fun mc => Done (tt, (f (phase mc.2) mc.1, mc.2))) (m, c) =
  Done (tt, (foldl (fun m p => f p m) m phases,
             foldl (fun c p => enter_phase p c) c phases)).
Proof.
  revert m c. induction phases as [|p rest IH]; intros m c; [done|].
  simpl. unfold mbind, ST_bind in *. simpl. rewrite <- IH. by destruct c.
Qed.

(**  One scheduler step drives the machine through the nine phases in
    the documented order, each exactly once, ends with the context in the
    CPU wake phase and advances the T-cycle by one. *)
Theorem scheduler_step_phase_order {M} (f : SchedulerPhase -> M -> M) (s : GlobalScheduler) (m : M) :
  next_t_cycle s + 1 < 18446744073709551616 ->
  exists c,
    step (fun mc => Done (tt, (f (phase mc.2) mc.1, mc.2))) s m =
      Done (c, mkScheduler (next_t_cycle s + 1),
            f CpuWakeInterruptEvaluation (f InterruptAggregation (f MmioSideEffectCommit
           (f CpuMicroOperation (f BusArbitration (f AutonomousPeripheralTicks
           (f DerivedEdgeResolution (f MasterClockTick (f ExternalEventIngress m)))))))))
    /\ t_cycle c = next_t_cycle s /\ phase c = CpuWakeInterruptEvaluation.
Proof.
  intros Ht. unfold step. rewrite visit_phases_total.
  unfold TCycle_next. rewrite (proj2 (Z.ltb_lt _ _) Ht). simpl. eauto.
Qed.

Lemma scheduler_step_phase_order_witness :
  next_t_cycle scheduler_default + 1 < 18446744073709551616 /\
  exists c, step (fun mc => Done (tt, (mc.1 ++ [phase mc.2], mc.2))) scheduler_default [] =
    Done (c, mkScheduler 1, ORDER).
Proof.
  assert (H : next_t_cycle scheduler_default + 1 < 18446744073709551616) by (simpl; lia).
  split; [exact H|].
  destruct (scheduler_step_phase_order (fun p l => l ++ [p]) scheduler_default [] H) as (c & Hc & _).
  exists c. exact Hc.
Defined.
