(* ===== verification/Interrupts.v ===== *)
(** * Interrupt controller ([crates/gb-core/src/interrupts.rs])

    [IF]/[IE] register state, source requests and the fixed-priority
    selection. *)

From Stdlib Require Import ZArith Lia Bool.
From stdpp Require Import base list decidable.
From S2P Require Import Prelude Model Scheduler.

Local Open Scope Z_scope.

Definition INTERRUPT_REQUEST_MASK : Z := 0x1F.
Definition INTERRUPT_FLAG_FORCED_HIGH_BITS : Z := 0xE0.

Record InterruptStartupState := mkInterruptStartup {
  startup_interrupt_flags : Z;
  startup_interrupt_enable : Z
}.

Record InterruptController := mkInterrupts {
  ic_console_model : ConsoleModel;
  interrupt_flags : Z;
  interrupt_enable : Z
}.

#[export] Instance upd_interrupt_flags : Update interrupt_flags := fun v c =>
  let '(mkInterrupts m _ ie) := c in mkInterrupts m v ie.
#[export] Instance upd_interrupt_enable : Update interrupt_enable := fun v c =>
  let '(mkInterrupts m fl _) := c in mkInterrupts m fl v.

(** ** Sources *)

Definition mask (s : InterruptSource) : Z :=
  match s with
  | VBlank => 0x01
  | LcdStat => 0x02
  | TimerIrq => 0x04
  | SerialIrq => 0x08
  | JoypadIrq => 0x10
  end.

Definition vector (s : InterruptSource) : Z :=
  match s with
  | VBlank => 0x0040
  | LcdStat => 0x0048
  | TimerIrq => 0x0050
  | SerialIrq => 0x0058
  | JoypadIrq => 0x0060
  end.

Definition highest_priority_from_mask (m : Z) : option InterruptSource :=
  if has_bits m (mask VBlank) then Some VBlank
  else if has_bits m (mask LcdStat) then Some LcdStat
  else if has_bits m (mask TimerIrq) then Some TimerIrq
  else if has_bits m (mask SerialIrq) then Some SerialIrq
  else if has_bits m (mask JoypadIrq) then Some JoypadIrq
  else None.

(** ** The controller *)

Definition interrupts_new (m : ConsoleModel) : InterruptController := mkInterrupts m 0 0.

Definition read_if (c : InterruptController) : Z :=
  Z.lor INTERRUPT_FLAG_FORCED_HIGH_BITS (interrupt_flags c).

Definition read_if_with_pending_requests (c : InterruptController) (pending_mask : Z) : Z :=
  Z.lor INTERRUPT_FLAG_FORCED_HIGH_BITS
        (Z.lor (interrupt_flags c) (Z.land pending_mask INTERRUPT_REQUEST_MASK)).

Definition write_if (value : Z) (c : InterruptController) : InterruptController :=
  c <| interrupt_flags := Z.land value INTERRUPT_REQUEST_MASK |>.

Definition read_ie (c : InterruptController) : Z := interrupt_enable c.

Definition write_ie (value : Z) (c : InterruptController) : InterruptController :=
  c <| interrupt_enable := value |>.

Definition request (s : InterruptSource) (c : InterruptController) : InterruptController :=
  c <| interrupt_flags := Z.lor (interrupt_flags c) (mask s) |>.

Definition clear (s : InterruptSource) (c : InterruptController) : InterruptController :=
  c <| interrupt_flags := Z.land (interrupt_flags c) (not8 (mask s)) |>.

Definition pending_mask (c : InterruptController) : Z :=
  Z.land (interrupt_enable c) (interrupt_flags c).

Definition highest_pending (c : InterruptController) : option InterruptSource :=
  highest_priority_from_mask (pending_mask c).

Definition interrupts_apply_startup_state (st : InterruptStartupState) (c : InterruptController)
    : InterruptController :=
  c <| interrupt_flags := Z.land (startup_interrupt_flags st) INTERRUPT_REQUEST_MASK |>
    <| interrupt_enable := startup_interrupt_enable st |>.

(** ** Well-formedness: five request bits, an eight-bit enable register *)

Definition interrupts_ok (c : InterruptController) : Prop :=
  0 <= interrupt_flags c < 32 /\ u8 (interrupt_enable c).

(** ** Bit positions *)

Definition source_bit (s : InterruptSource) : Z :=
  match s with VBlank => 0 | LcdStat => 1 | TimerIrq => 2 | SerialIrq => 3 | JoypadIrq => 4 end.

Lemma mask_pow2 s : mask s = 2 ^ source_bit s.
Proof. by destruct s. Qed.

Lemma has_bits_mask m s : has_bits m (mask s) = Z.testbit m (source_bit s).
Proof. rewrite mask_pow2. apply has_bits_pow2. destruct s; simpl; lia. Qed.

Lemma source_bit_range s : 0 <= source_bit s < 5.
Proof. destruct s; simpl; lia. Qed.

Lemma interrupts_ok_new m : interrupts_ok (interrupts_new m).
Proof. unfold interrupts_ok, u8. simpl. lia. Qed.

Lemma interrupts_ok_write_if v c : interrupts_ok c -> interrupts_ok (write_if v c).
Proof.
  destruct c. unfold interrupts_ok. simpl. intros [_ ?]. split; [|done].
  unfold INTERRUPT_REQUEST_MASK. rewrite land_1F. by apply Z.mod_pos_bound.
Qed.

Lemma interrupts_ok_write_ie v c : u8 v -> interrupts_ok c -> interrupts_ok (write_ie v c).
Proof. destruct c. unfold interrupts_ok. simpl. tauto. Qed.

Lemma interrupts_ok_request s c : interrupts_ok c -> interrupts_ok (request s c).
Proof.
  destruct c. unfold interrupts_ok. simpl. intros [??]. split; [|done].
  apply (range_lor 5); [lia | done | destruct s; simpl; lia].
Qed.

Lemma interrupts_ok_clear s c : interrupts_ok c -> interrupts_ok (clear s c).
Proof.
  destruct c. unfold interrupts_ok. simpl. intros [??]. split; [|done].
  by apply (range_land 5).
Qed.

#[export] Hint Resolve interrupts_ok_new interrupts_ok_write_if interrupts_ok_write_ie
  interrupts_ok_request interrupts_ok_clear : gb.

Lemma request_testbit s c i :
  0 <= i -> Z.testbit (interrupt_flags (request s c)) i =
            Z.testbit (interrupt_flags c) i || (i =? source_bit s).
Proof.
  intros Hi. destruct c. simpl. rewrite Z.lor_spec, mask_pow2.
  pose proof (source_bit_range s). f_equal.
  destruct (Z.eqb_spec i (source_bit s)) as [->|].
  - apply Z.pow2_bits_true. lia.
  - apply Z.pow2_bits_false. lia.
Qed.

Lemma clear_testbit s c i :
  0 <= i < 8 -> Z.testbit (interrupt_flags (clear s c)) i =
                Z.testbit (interrupt_flags c) i && negb (i =? source_bit s).
Proof.
  intros Hi. destruct c. simpl. rewrite Z.land_spec. f_equal.
  assert (Hcase : i = 0 \/ i = 1 \/ i = 2 \/ i = 3 \/ i = 4 \/ i = 5 \/ i = 6 \/ i = 7) by lia.
  destruct s; (repeat destruct Hcase as [->|Hcase]; subst; reflexivity).
Qed.

Definition enabled_request (c : InterruptController) (s : InterruptSource) : bool :=
  Z.testbit (interrupt_flags c) (source_bit s) && Z.testbit (interrupt_enable c) (source_bit s).

Lemma lowest_bit_spec c s :
  enabled_request c s = true ->
  (forall s', source_bit s' < source_bit s -> enabled_request c s' = false) ->
  Z.testbit (interrupt_flags c) (source_bit s) = true /\
  Z.testbit (interrupt_enable c) (source_bit s) = true /\
  forall s', source_bit s' < source_bit s -> enabled_request c s' = false.
Proof. unfold enabled_request at 1. intros [??]%andb_prop ?. done. Qed.

(** ** Properties *)

(**  The selected interrupt is the pending source of lowest bit position:
    [highest_pending] answers [Some s] exactly when [s] is both enabled and
    requested and no source of higher priority is, and [None] exactly when no
    source is. *)
Theorem highest_pending_is_lowest_enabled_bit (c : InterruptController) :
  match highest_pending c with
  | Some s =>
      Z.testbit (interrupt_flags c) (source_bit s) = true /\
      Z.testbit (interrupt_enable c) (source_bit s) = true /\
      forall s', source_bit s' < source_bit s -> enabled_request c s' = false
  | None => forall s', enabled_request c s' = false
  end.
Proof.
  unfold highest_pending, highest_priority_from_mask.
  rewrite !has_bits_mask. unfold pending_mask. rewrite !Z.land_spec.
  assert (Hc : forall s, Z.testbit (interrupt_enable c) (source_bit s) &&
                         Z.testbit (interrupt_flags c) (source_bit s) = enabled_request c s)
    by (intros; apply andb_comm).
  rewrite !Hc. clear Hc.
  destruct (enabled_request c VBlank) eqn:H0; [by apply lowest_bit_spec; [|intros []]|].
  destruct (enabled_request c LcdStat) eqn:H1; [by apply lowest_bit_spec; [|intros []]|].
  destruct (enabled_request c TimerIrq) eqn:H2; [by apply lowest_bit_spec; [|intros []]|].
  destruct (enabled_request c SerialIrq) eqn:H3; [by apply lowest_bit_spec; [|intros []]|].
  destruct (enabled_request c JoypadIrq) eqn:H4; [by apply lowest_bit_spec; [|intros []]|].
  by intros [].
Qed.
