(* ===== verification/Joypad.v ===== *)
(** * Joypad ([crates/gb-core/src/joypad.rs])

    The button matrix behind [P1/JOYP], the visible low nibble, its falling
    edges and the two events they raise: the joypad interrupt request and the
    [STOP] wake. *)

From Stdlib Require Import ZArith Lia Bool.
From stdpp Require Import base list decidable.
From S2P Require Import Prelude Model.

Local Open Scope Z_scope.

Definition SELECT_MASK : Z := 0x30.

Inductive JoypadButton :=
| ButtonRight | ButtonLeft | ButtonUp | ButtonDown
| ButtonA | ButtonB | ButtonSelect | ButtonStart.

Record JoypadStartupState := mkJoypadStartup {
  startup_selection_bits : Z;
  startup_pressed_mask : Z
}.

Record Joypad := mkJoypad {
  joypad_console_model : ConsoleModel;
  selection_bits : Z;
  pressed_mask : Z;
  previous_visible_low_nibble : Z;
  interrupt_request_pending : bool;
  stop_wake_pending : bool
}.

#[export] Instance upd_selection_bits : Update selection_bits := fun v j =>
  let '(mkJoypad m _ p n i s) := j in mkJoypad m v p n i s.
#[export] Instance upd_pressed_mask : Update pressed_mask := fun v j =>
  let '(mkJoypad m b _ n i s) := j in mkJoypad m b v n i s.
#[export] Instance upd_previous_visible : Update previous_visible_low_nibble := fun v j =>
  let '(mkJoypad m b p _ i s) := j in mkJoypad m b p v i s.
#[export] Instance upd_interrupt_request_pending : Update interrupt_request_pending := fun v j =>
  let '(mkJoypad m b p n _ s) := j in mkJoypad m b p n v s.
#[export] Instance upd_stop_wake_pending : Update stop_wake_pending := fun v j =>
  let '(mkJoypad m b p n i _) := j in mkJoypad m b p n i v.

(** ** The matrix *)

Definition gained_visible_low_bit (previous visible : Z) : bool :=
  has_bits (Z.land previous (not8 visible)) 0x0F.

Definition button_mask (b : JoypadButton) : Z :=
  match b with
  | ButtonRight => 0x01
  | ButtonLeft => 0x02
  | ButtonUp => 0x04
  | ButtonDown => 0x08
  | ButtonA => 0x10
  | ButtonB => 0x20
  | ButtonSelect => 0x40
  | ButtonStart => 0x80
  end.

Definition button_row_low_bits (pressed : Z) : Z :=
  let low := 0 in
  let low := if has_bits pressed (button_mask ButtonA) then Z.lor low 0x01 else low in
  let low := if has_bits pressed (button_mask ButtonB) then Z.lor low 0x02 else low in
  let low := if has_bits pressed (button_mask ButtonSelect) then Z.lor low 0x04 else low in
  if has_bits pressed (button_mask ButtonStart) then Z.lor low 0x08 else low.

Definition dpad_row_low_bits (pressed : Z) : Z :=
  let low := 0 in
  let low := if has_bits pressed (button_mask ButtonRight) then Z.lor low 0x01 else low in
  let low := if has_bits pressed (button_mask ButtonLeft) then Z.lor low 0x02 else low in
  let low := if has_bits pressed (button_mask ButtonUp) then Z.lor low 0x04 else low in
  if has_bits pressed (button_mask ButtonDown) then Z.lor low 0x08 else low.

Definition visible_low_nibble_of (selection pressed : Z) : Z :=
  let low := 0x0F in
  let low := if Z.land selection 0x20 =? 0
             then Z.land low (not8 (button_row_low_bits pressed)) else low in
  if Z.land selection 0x10 =? 0
  then Z.land low (not8 (dpad_row_low_bits pressed)) else low.

Definition visible_low_nibble (j : Joypad) : Z :=
  visible_low_nibble_of (selection_bits j) (pressed_mask j).

(** ** Operations *)

Definition joypad_new (m : ConsoleModel) : Joypad := mkJoypad m SELECT_MASK 0 0x0F false false.

Definition read_p1 (j : Joypad) : Z :=
  Z.lor (Z.lor 0xC0 (selection_bits j)) (visible_low_nibble j).

Definition update_visible_edge_state (j : Joypad) : Joypad :=
  let visible := visible_low_nibble j in
  let j := if gained_visible_low_bit (previous_visible_low_nibble j) visible
           then j <| interrupt_request_pending := true |> <| stop_wake_pending := true |>
           else j in
  j <| previous_visible_low_nibble := visible |>.

Definition write_p1 (value : Z) (j : Joypad) : Joypad :=
  update_visible_edge_state (j <| selection_bits := Z.land value SELECT_MASK |>).

Definition set_button_pressed (button : JoypadButton) (pressed : bool) (j : Joypad) : Joypad :=
  let bit := button_mask button in
  update_visible_edge_state
    (if pressed
     then j <| pressed_mask := Z.lor (pressed_mask j) bit |>
     else j <| pressed_mask := Z.land (pressed_mask j) (not8 bit) |>).

Definition apply_pressed_mask (m : Z) (j : Joypad) : Joypad * bool :=
  if pressed_mask j =? m then (j, false)
  else (update_visible_edge_state (j <| pressed_mask := m |>), true).

Definition joypad_apply_startup_state (st : JoypadStartupState) (j : Joypad) : Joypad :=
  let j := j <| selection_bits := Z.land (startup_selection_bits st) SELECT_MASK |>
             <| pressed_mask := startup_pressed_mask st |> in
  j <| previous_visible_low_nibble := visible_low_nibble j |>
    <| interrupt_request_pending := false |>
    <| stop_wake_pending := false |>.

Definition consume_stop_wake_event (j : Joypad) : Joypad * bool :=
  (j <| stop_wake_pending := false |>, stop_wake_pending j).

Definition stop_wake_event_pending (j : Joypad) : bool := stop_wake_pending j.

Definition stop_wake_line_asserted (j : Joypad) : bool := negb (visible_low_nibble j =? 0x0F).

Definition consume_interrupt_request (j : Joypad) : Joypad * bool :=
  (j <| interrupt_request_pending := false |>, interrupt_request_pending j).

(** ** The state machine

    Every public operation as a labelled step; [events] is whether the step
    raises the two events. *)

Inductive joypad_op :=
| OpWriteP1 (value : Z)
| OpSetButton (button : JoypadButton) (pressed : bool)
| OpApplyMask (m : Z)
| OpConsumeWake
| OpConsumeInterrupt.

Definition joypad_op_ok (o : joypad_op) : Prop :=
  match o with OpApplyMask m => u8 m | _ => True end.

Definition joypad_step (o : joypad_op) (j : Joypad) : Joypad :=
  match o with
  | OpWriteP1 v => write_p1 v j
  | OpSetButton b p => set_button_pressed b p j
  | OpApplyMask m => (apply_pressed_mask m j).1
  | OpConsumeWake => (consume_stop_wake_event j).1
  | OpConsumeInterrupt => (consume_interrupt_request j).1
  end.

Inductive joypad_reachable : Joypad -> Prop :=
| joypad_initial m : joypad_reachable (joypad_new m)
| joypad_started m st : u8 (startup_pressed_mask st) ->
    joypad_reachable (joypad_apply_startup_state st (joypad_new m))
| joypad_stepped o j : joypad_op_ok o -> joypad_reachable j -> joypad_reachable (joypad_step o j).

Definition joypad_ok (j : Joypad) : Prop :=
  Z.land (selection_bits j) SELECT_MASK = selection_bits j /\
  u8 (pressed_mask j) /\
  previous_visible_low_nibble j = visible_low_nibble j.

(** ** Lemmas *)

Lemma select_mask_idem v : Z.land (Z.land v SELECT_MASK) SELECT_MASK = Z.land v SELECT_MASK.
Proof. by rewrite <- Z.land_assoc. Qed.

Lemma joypad_ok_update j :
  Z.land (selection_bits j) SELECT_MASK = selection_bits j -> u8 (pressed_mask j) ->
  joypad_ok (update_visible_edge_state j).
Proof.
  destruct j. unfold joypad_ok, update_visible_edge_state. simpl. intros.
  case_tests; done.
Qed.

Lemma button_mask_u8 b : u8 (button_mask b).
Proof. destruct b; unfold u8; simpl; lia. Qed.

Lemma joypad_ok_step o j : joypad_op_ok o -> joypad_ok j -> joypad_ok (joypad_step o j).
Proof.
  intros Ho (Hs & Hp & Hv). destruct o; simpl in *.
  - apply joypad_ok_update; destruct j; simpl; [apply select_mask_idem | done].
  - apply joypad_ok_update; destruct j, pressed; simpl in *; auto using button_mask_u8 with gb.
  - unfold apply_pressed_mask. case_tests; [done|]. apply joypad_ok_update; by destruct j.
  - by destruct j.
  - by destruct j.
Qed.

Lemma joypad_ok_reachable j : joypad_reachable j -> joypad_ok j.
Proof.
  induction 1.
  - by repeat split.
  - unfold joypad_ok. simpl. split; [apply select_mask_idem | done].
  - by apply joypad_ok_step.
Qed.

Lemma update_edge_events j :
  let j' := update_visible_edge_state j in
  let fell := gained_visible_low_bit (previous_visible_low_nibble j) (visible_low_nibble j') in
  interrupt_request_pending j' = interrupt_request_pending j || fell /\
  stop_wake_pending j' = stop_wake_pending j || fell.
Proof.
  destruct j as [m b p n i s]. unfold update_visible_edge_state, visible_low_nibble. simpl.
  destruct (gained_visible_low_bit n _) eqn:E; simpl; rewrite E, ?orb_true_r, ?orb_false_r; done.
Qed.

Lemma gained_visible_low_bit_refl s p : gained_visible_low_bit (visible_low_nibble_of s p) (visible_low_nibble_of s p) = false.
Proof.
  unfold gained_visible_low_bit, not8, has_bits.
  replace (Z.land (Z.land _ _) 0x0F) with 0; [done|].
  apply Z.bits_inj'. intros i Hi. rewrite Z.bits_0, !Z.land_spec, Z.lxor_spec.
  destruct (decide (i < 4)) as [Hlt|].
  - assert (i = 0 \/ i = 1 \/ i = 2 \/ i = 3) as Hcase by lia.
    destruct (Z.testbit (visible_low_nibble_of s p) i); [|done].
    by destruct Hcase as [->|[->|[->| ->]]].
  - change 0x0F with (Z.ones 4). rewrite Z.testbit_ones_nonneg by lia.
    destruct (Z.ltb_spec i 4); [lia|]. symmetry. apply andb_false_r.
Qed.

(** The button wired to low-nibble line [i] of each row. *)
Definition line_button (i : nat) : JoypadButton :=
  match i with 0%nat => ButtonA | 1%nat => ButtonB | 2%nat => ButtonSelect | _ => ButtonStart end.
Definition line_direction (i : nat) : JoypadButton :=
  match i with 0%nat => ButtonRight | 1%nat => ButtonLeft | 2%nat => ButtonUp | _ => ButtonDown end.

(** Line [i] is pulled low when a selected row has its button pressed. *)
Definition line_low (selection pressed : Z) (i : nat) : bool :=
  (negb (Z.testbit selection 5) && has_bits pressed (button_mask (line_button i))) ||
  (negb (Z.testbit selection 4) && has_bits pressed (button_mask (line_direction i))).

Definition p1_lines_check (selection : Z) (pressed : Z) : bool :=
  let p1 := Z.lor (Z.lor 0xC0 selection) (visible_low_nibble_of selection pressed) in
  forallb (fun i => eqb (Z.testbit p1 (Z.of_nat i)) (negb (line_low selection pressed i))) (seq 0 4)
  && eqb (Z.testbit p1 4) (Z.testbit selection 4) && eqb (Z.testbit p1 5) (Z.testbit selection 5)
  && Z.testbit p1 6 && Z.testbit p1 7.

Lemma p1_lines_check_all selection pressed :
  Z.land selection SELECT_MASK = selection -> u8 pressed -> p1_lines_check selection pressed = true.
Proof.
  intros Hs Hp.
  assert (Hcase : selection = 0 \/ selection = 0x10 \/ selection = 0x20 \/ selection = 0x30).
  { assert (Hu : u8 selection) by (rewrite <- Hs; apply u8_land_r; unfold u8, SELECT_MASK; lia).
    pose proof (forall_below 256 (fun x => negb (Z.land x SELECT_MASK =? x) ||
      ((x =? 0) || (x =? 0x10) || (x =? 0x20) || (x =? 0x30))) eq_refl selection Hu) as Hx.
    simpl in Hx. rewrite Hs, Z.eqb_refl in Hx. simpl in Hx. lia. }
  destruct Hcase as [->|[->|[->| ->]]];
    (apply (forall_below 256 (p1_lines_check _)); [vm_compute; reflexivity | exact Hp]).
Qed.

(** ** Properties *)

(**  [P1] reads back the matrix: in every reachable state, low line [i]
    reads 0 exactly when a selected row (select bits are active low) has the
    button of that line pressed; bits 4 and 5 read the selection and the two
    upper bits read 1. *)
Theorem read_p1_is_button_matrix (j : Joypad) :
  joypad_reachable j ->
  (forall i, (i < 4)%nat ->
     Z.testbit (read_p1 j) (Z.of_nat i) = negb (line_low (selection_bits j) (pressed_mask j) i)) /\
  Z.testbit (read_p1 j) 4 = Z.testbit (selection_bits j) 4 /\
  Z.testbit (read_p1 j) 5 = Z.testbit (selection_bits j) 5 /\
  Z.testbit (read_p1 j) 6 = true /\ Z.testbit (read_p1 j) 7 = true.
Proof.
  intros (Hs & Hp & _)%joypad_ok_reachable.
  pose proof (p1_lines_check_all _ _ Hs Hp) as Hc. unfold p1_lines_check in Hc.
  do 4 (apply andb_prop in Hc as [Hc ?]).
  rewrite forallb_forall in Hc.
  unfold read_p1, visible_low_nibble. repeat split; auto using eqb_prop.
  intros i Hi. apply eqb_prop, Hc, in_seq. lia.
Qed.

Lemma read_p1_is_button_matrix_witness :
  joypad_reachable (joypad_step (OpSetButton ButtonStart true)
                     (joypad_step (OpWriteP1 0x10) (joypad_new GameBoy))) /\
  Z.testbit (read_p1 (joypad_step (OpSetButton ButtonStart true)
                     (joypad_step (OpWriteP1 0x10) (joypad_new GameBoy)))) 3 = false.
Proof.
  assert (Hr : joypad_reachable (joypad_step (OpSetButton ButtonStart true)
                     (joypad_step (OpWriteP1 0x10) (joypad_new GameBoy))))
    by (repeat constructor).
  split; [exact Hr|].
  exact (proj1 (read_p1_is_button_matrix _ Hr) 3%nat ltac:(lia)).
Defined.

(**  Edge detection: in every reachable state, a matrix operation raises
    the joypad interrupt request and the [STOP] wake exactly when some visible
    line falls from 1 to 0, never withdraws a pending one, and consuming one
    event leaves the other. *)
Theorem joypad_events_on_falling_lines (j : Joypad) (o : joypad_op) :
  joypad_reachable j ->
  let fell := gained_visible_low_bit (visible_low_nibble j) (visible_low_nibble (joypad_step o j)) in
  let j' := joypad_step o j in
  match o with
  | OpConsumeWake =>
      stop_wake_pending j' = false /\ interrupt_request_pending j' = interrupt_request_pending j
  | OpConsumeInterrupt =>
      interrupt_request_pending j' = false /\ stop_wake_pending j' = stop_wake_pending j
  | _ =>
      interrupt_request_pending j' = interrupt_request_pending j || fell /\
      stop_wake_pending j' = stop_wake_pending j || fell
  end.
Proof.
  intros (_ & _ & Hv)%joypad_ok_reachable.
  rewrite <- Hv. destruct o; simpl; [| | |by destruct j..].
  - pose proof (update_edge_events (j <| selection_bits := Z.land value SELECT_MASK |>)) as H.
    unfold write_p1. by destruct j.
  - unfold set_button_pressed. destruct pressed.
    + pose proof (update_edge_events (j <| pressed_mask := Z.lor (pressed_mask j) (button_mask button) |>)) as H.
      by destruct j.
    + pose proof (update_edge_events (j <| pressed_mask := Z.land (pressed_mask j) (not8 (button_mask button)) |>)) as H.
      by destruct j.
  - unfold apply_pressed_mask. destruct (pressed_mask j =? m); simpl.
    + rewrite Hv. unfold visible_low_nibble. rewrite gained_visible_low_bit_refl, !orb_false_r. done.
    + pose proof (update_edge_events (j <| pressed_mask := m |>)) as H.
      by destruct j.
Qed.

Lemma joypad_events_on_falling_lines_witness :
  joypad_reachable (write_p1 0x10 (joypad_new GameBoy)) /\
  stop_wake_pending (joypad_step (OpSetButton ButtonA true) (write_p1 0x10 (joypad_new GameBoy))) = true.
Proof.
  assert (Hr : joypad_reachable (write_p1 0x10 (joypad_new GameBoy)))
    by (apply (joypad_stepped (OpWriteP1 0x10)); repeat constructor).
  split; [exact Hr|].
  exact (proj2 (joypad_events_on_falling_lines _ (OpSetButton ButtonA true) Hr)).
Defined.
