(* ===== verification/Speed.v ===== *)
(** * CGB speed switching ([crates/gb-core/src/speed.rs])

    The [KEY1] register, the prepared switch and the clock-domain facts the
    other components read off the current speed. *)

From Stdlib Require Import ZArith Lia Bool.
From stdpp Require Import base decidable tactics.
From S2P Require Import Prelude Model.

Local Open Scope Z_scope.

Definition CGB_SPEED_SWITCH_PAUSE_T_CYCLES : Z := 65540.
Definition KEY1_UNUSED_READ_MASK : Z := 0x7E.
Definition KEY1_CURRENT_SPEED_BIT : Z := 0x80.
Definition KEY1_PREPARE_SWITCH_BIT : Z := 0x01.

Inductive CgbSpeedMode := Normal | Double.

#[export] Instance CgbSpeedMode_eq_dec : EqDecision CgbSpeedMode.
Proof. solve_decision. Defined.

Definition key1_bit (s : CgbSpeedMode) : Z :=
  match s with Normal => 0 | Double => KEY1_CURRENT_SPEED_BIT end.

Definition timer_increment_per_scheduler_t_cycle (s : CgbSpeedMode) : Z :=
  match s with Normal => 1 | Double => 1 end.

Definition div_apu_counter_bit (s : CgbSpeedMode) : Z :=
  match s with Normal => 12 | Double => 13 end.

Definition lcd_tick_due_at_scheduler_t_cycle (s : CgbSpeedMode) (scheduler_t_cycle : Z) : bool :=
  match s with
  | Normal => true
  | Double => Z.land scheduler_t_cycle 1 =? 0
  end.

Definition apu_tick_due_at_scheduler_t_cycle (s : CgbSpeedMode) (scheduler_t_cycle : Z) : bool :=
  lcd_tick_due_at_scheduler_t_cycle s scheduler_t_cycle.

Definition toggled (s : CgbSpeedMode) : CgbSpeedMode :=
  match s with Normal => Double | Double => Normal end.

Record SpeedController := mkSpeed {
  speed_console_model : ConsoleModel;
  speed_operating_mode : OperatingMode;
  raw_current_speed : CgbSpeedMode;
  raw_switch_armed : bool
}.

#[export] Instance upd_speed_operating_mode : Update speed_operating_mode := fun v s =>
  let '(mkSpeed m _ c a) := s in mkSpeed m v c a.
#[export] Instance upd_raw_current_speed : Update raw_current_speed := fun v s =>
  let '(mkSpeed m o _ a) := s in mkSpeed m o v a.
#[export] Instance upd_raw_switch_armed : Update raw_switch_armed := fun v s =>
  let '(mkSpeed m o c _) := s in mkSpeed m o c v.

Definition speed_new (m : ConsoleModel) (o : OperatingMode) : SpeedController := mkSpeed m o Normal false.

Definition cgb_speed_switch_enabled (s : SpeedController) : bool :=
  is_cgb_family (speed_console_model s) && enables_cgb_speed_switch (speed_operating_mode s).

Definition current_speed (s : SpeedController) : CgbSpeedMode :=
  if cgb_speed_switch_enabled s then raw_current_speed s else Normal.

Definition switch_armed (s : SpeedController) : bool :=
  cgb_speed_switch_enabled s && raw_switch_armed s.

Definition reset_for_model_axes (m : ConsoleModel) (o : OperatingMode) (s : SpeedController)
    : SpeedController := speed_new m o.

Definition speed_apply_operating_mode_state (o : OperatingMode) (s : SpeedController) : SpeedController :=
  let s := s <| speed_operating_mode := o |> in
  if negb (cgb_speed_switch_enabled s)
  then s <| raw_current_speed := Normal |> <| raw_switch_armed := false |>
  else s.

Definition read_key1 (s : SpeedController) : Z :=
  if negb (cgb_speed_switch_enabled s) then 0xFF
  else Z.lor (Z.lor KEY1_UNUSED_READ_MASK (key1_bit (raw_current_speed s)))
             (u8_from_bool (raw_switch_armed s) * KEY1_PREPARE_SWITCH_BIT).

Definition write_key1 (value : Z) (s : SpeedController) : SpeedController :=
  if negb (cgb_speed_switch_enabled s) then s
  else s <| raw_switch_armed := has_bits value KEY1_PREPARE_SWITCH_BIT |>.

Definition begin_prepared_speed_switch (s : SpeedController) : SpeedController * bool :=
  if negb (switch_armed s) then (s, false)
  else (s <| raw_switch_armed := false |> <| raw_current_speed := toggled (raw_current_speed s) |>, true).

(** ** The KEY1 contract

    What software can see of the controller: whether speed switching exists,
    the current speed and the armed bit. *)

Record Key1View := mkKey1View { view_enabled : bool; view_double : bool; view_armed : bool }.

Definition key1_view (s : SpeedController) : Key1View :=
  mkKey1View (cgb_speed_switch_enabled s)
    (match current_speed s with Double => true | Normal => false end) (switch_armed s).

(** The register a view shows: bit 7 the speed, bit 0 the armed switch, the
    others 1. *)
Definition key1_view_register (v : Key1View) : Z :=
  if view_enabled v
  then 126 + (if view_double v then 128 else 0) + (if view_armed v then 1 else 0)
  else 255.

(** [KEY1] implements its contract: the register shows the view, a write
    arms or disarms exactly by bit 0 (and does nothing without speed
    switching), and executing the prepared switch succeeds exactly when armed,
    toggling the speed and disarming, so that it cannot fire twice. *)
Theorem key1_refines_contract (s : SpeedController) (value : Z) :
  read_key1 s = key1_view_register (key1_view s) /\
  key1_view (write_key1 value s) =
    (if view_enabled (key1_view s)
     then mkKey1View true (view_double (key1_view s)) (Z.odd value)
     else mkKey1View false false false) /\
  (let '(s', switched) := begin_prepared_speed_switch s in
   switched = view_armed (key1_view s) /\
   key1_view s' = (if switched
                   then mkKey1View true (negb (view_double (key1_view s))) false
                   else key1_view s) /\
   (switched = true -> (begin_prepared_speed_switch s').2 = false)).
Proof.
  destruct s as [m o c a].
  assert (Hodd : has_bits value KEY1_PREPARE_SWITCH_BIT = Z.odd value)
    by (rewrite <- Z.bit0_odd; apply (has_bits_pow2 _ 0); lia).
  unfold read_key1, write_key1, begin_prepared_speed_switch, key1_view, switch_armed,
    current_speed, cgb_speed_switch_enabled.
  simpl. rewrite Hodd.
  destruct (is_cgb_family m && enables_cgb_speed_switch o) eqn:E; simpl; rewrite E; simpl.
  - destruct c, a; simpl; rewrite ?E; simpl; repeat split; by rewrite ?E.
  - done.
Qed.
