(* ===== verification/Timer.v ===== *)
(** * Timer ([crates/gb-core/src/timer.rs])

    The shared 16-bit system counter, [DIV/TIMA/TMA/TAC], the falling-edge
    increment of [TIMA] and the delayed reload pipeline. *)

From Stdlib Require Import ZArith Lia Bool String.
From stdpp Require Import base list decidable.
From S2P Require Import Prelude Model Scheduler Speed.

Local Open Scope Z_scope.

Definition TIMER_ENABLE_MASK : Z := 0x04.
Definition TIMER_CONTROL_MASK : Z := 0x07.
Definition TIMER_RELOAD_DELAY_T_CYCLES : Z := 4.

Inductive TimerOverflowState :=
| OverflowIdle
| OverflowPending (ticks_until_reload : Z).

Inductive TimerSignalChangeOrigin := AutonomousTick | MmioWrite.

Inductive DividerResetSource := CpuDivWrite | StopInstruction.

Record TimerStartupState := mkTimerStartup {
  startup_system_counter : Z;
  startup_tima : Z;
  startup_tma : Z;
  startup_tac : Z
}.

Record Timer := mkTimer {
  timer_console_model : ConsoleModel;
  system_counter : Z;
  tima : Z;
  tma : Z;
  tac : Z;
  previous_timer_signal : bool;
  overflow_state : TimerOverflowState;
  reloaded_this_t_cycle : bool;
  apu_fs_offset : Z
}.

#[export] Instance upd_system_counter : Update system_counter := fun v t =>
  let '(mkTimer m _ a b c p o r f) := t in mkTimer m v a b c p o r f.
#[export] Instance upd_tima : Update tima := fun v t =>
  let '(mkTimer m s _ b c p o r f) := t in mkTimer m s v b c p o r f.
#[export] Instance upd_tma : Update tma := fun v t =>
  let '(mkTimer m s a _ c p o r f) := t in mkTimer m s a v c p o r f.
#[export] Instance upd_tac : Update tac := fun v t =>
  let '(mkTimer m s a b _ p o r f) := t in mkTimer m s a b v p o r f.
#[export] Instance upd_previous_timer_signal : Update previous_timer_signal := fun v t =>
  let '(mkTimer m s a b c _ o r f) := t in mkTimer m s a b c v o r f.
#[export] Instance upd_overflow_state : Update overflow_state := fun v t =>
  let '(mkTimer m s a b c p _ r f) := t in mkTimer m s a b c p v r f.
#[export] Instance upd_reloaded_this_t_cycle : Update reloaded_this_t_cycle := fun v t =>
  let '(mkTimer m s a b c p o _ f) := t in mkTimer m s a b c p o v f.
#[export] Instance upd_apu_fs_offset : Update apu_fs_offset := fun v t =>
  let '(mkTimer m s a b c p o r _) := t in mkTimer m s a b c p o r v.

(** ** Signals *)

Definition selected_timer_bit (tac : Z) : Z :=
  let sel := Z.land tac 0x03 in
  if sel =? 0x00 then 9 else if sel =? 0x01 then 3 else if sel =? 0x02 then 5 else 7.

Definition selected_counter_bit_is_high (t : Timer) : bool :=
  has_bits (system_counter t) (Z.shiftl 1 (selected_timer_bit (tac t))).

Definition current_timer_signal (t : Timer) : bool :=
  has_bits (tac t) TIMER_ENABLE_MASK && selected_counter_bit_is_high t.

Definition current_div_apu_signal_for_speed (t : Timer) (speed_mode : CgbSpeedMode) : bool :=
  has_bits (wrapping_add16 (system_counter t) (apu_fs_offset t))
           (Z.shiftl 1 (div_apu_counter_bit speed_mode)).

(** ** TIMA increments *)

Definition overflow_is_pending (o : TimerOverflowState) : bool :=
  match o with OverflowPending _ => true | OverflowIdle => false end.

Definition increment_tima_on_falling_edge (origin : TimerSignalChangeOrigin) (t : Timer) : Timer :=
  if overflow_is_pending (overflow_state t) then t
  else
    let '(result, overflowed) := overflowing_add8 (tima t) 1 in
    let t := t <| tima := result |> in
    if overflowed
    then t <| overflow_state := OverflowPending
                match origin with
                | AutonomousTick => TIMER_RELOAD_DELAY_T_CYCLES
                | MmioWrite => TIMER_RELOAD_DELAY_T_CYCLES - 1
                end |>
    else t.

Definition process_timer_signal_edge (previous_signal current_signal : bool)
    (origin : TimerSignalChangeOrigin) (t : Timer) : Timer :=
  if previous_signal && negb current_signal
  then increment_tima_on_falling_edge origin t else t.

Definition apply_timer_signal_change (previous_signal : bool)
    (origin : TimerSignalChangeOrigin) (t : Timer) : Timer :=
  let current_signal := current_timer_signal t in
  (process_timer_signal_edge previous_signal current_signal origin t)
    <| previous_timer_signal := current_signal |>.

(** ** Registers *)

Definition timer_new (m : ConsoleModel) : Timer := mkTimer m 0 0 0 0 false OverflowIdle false 0.

Definition read_div (t : Timer) : Z := as_u8 (Z.shiftr (system_counter t) 8).

(** The result is [DividerResetEffects::apu_frame_sequencer_edge]. *)
Definition reset_divider_with_effects_for_speed (speed_mode : CgbSpeedMode)
    (source : DividerResetSource) (t : Timer) : Timer * bool :=
  let previous_signal := current_timer_signal t in
  let previous_div_apu_signal := current_div_apu_signal_for_speed t speed_mode in
  let t := t <| system_counter := 0 |> in
  let t := t <| apu_fs_offset := match source with CpuDivWrite => 2 | StopInstruction => 0 end |> in
  let t := apply_timer_signal_change previous_signal MmioWrite t in
  (t, previous_div_apu_signal && negb (current_div_apu_signal_for_speed t speed_mode)).

Definition write_div_with_effects_for_speed (value : Z) (speed_mode : CgbSpeedMode) (t : Timer)
    : Timer * bool :=
  reset_divider_with_effects_for_speed speed_mode CpuDivWrite t.

Definition stop_reset_divider_with_effects_for_speed (speed_mode : CgbSpeedMode) (t : Timer)
    : Timer * bool :=
  reset_divider_with_effects_for_speed speed_mode StopInstruction t.

Definition write_div_with_effects (value : Z) (t : Timer) : Timer * bool :=
  write_div_with_effects_for_speed value Normal t.

Definition write_div (value : Z) (t : Timer) : Timer := (write_div_with_effects value t).1.

Definition read_tima (t : Timer) : Z := tima t.

Definition write_tima (value : Z) (t : Timer) : Timer :=
  if reloaded_this_t_cycle t then t
  else
    let t := t <| tima := value |> in
    if overflow_is_pending (overflow_state t) then t <| overflow_state := OverflowIdle |> else t.

Definition read_tma (t : Timer) : Z := tma t.

Definition write_tma (value : Z) (t : Timer) : Timer :=
  let t := t <| tma := value |> in
  if reloaded_this_t_cycle t then t <| tima := value |> else t.

Definition read_tac (t : Timer) : Z := Z.lor 0xF8 (tac t).

Definition write_tac (value : Z) (t : Timer) : Timer :=
  let previous_signal := current_timer_signal t in
  let t := t <| tac := Z.land value TIMER_CONTROL_MASK |> in
  apply_timer_signal_change previous_signal MmioWrite t.

Definition timer_apply_startup_state (st : TimerStartupState) (t : Timer) : Timer :=
  let t := t <| system_counter := startup_system_counter st |>
             <| tima := startup_tima st |>
             <| tma := startup_tma st |>
             <| tac := Z.land (startup_tac st) TIMER_CONTROL_MASK |> in
  t <| previous_timer_signal := current_timer_signal t |>
    <| overflow_state := OverflowIdle |>
    <| reloaded_this_t_cycle := false |>
    <| apu_fs_offset := 0 |>.

Definition apply_boot_handoff_counter_correction (t_cycles : Z) (t : Timer) : Timer :=
  let t := t <| system_counter := wrapping_add16 (system_counter t) t_cycles |> in
  t <| previous_timer_signal := current_timer_signal t |>.

(** ** One T-cycle *)

Definition advance_overflow_pipeline (t : Timer) : ST CycleContext Timer :=
  match overflow_state t with
  | OverflowIdle => mret t
  | OverflowPending ticks_until_reload =>
      if 1 <? ticks_until_reload
      then mret (t <| overflow_state := OverflowPending (ticks_until_reload - 1) |>)
      else
        queue_interrupt_request TimerIrq ≫= fun _ =>
        mret (t <| tima := tma t |>
                <| overflow_state := OverflowIdle |>
                <| reloaded_this_t_cycle := true |>)
  end.

Definition tick_t_cycle_for_speed (speed_mode : CgbSpeedMode) (t : Timer) : ST CycleContext Timer :=
  advance_overflow_pipeline (t <| reloaded_this_t_cycle := false |>) ≫= fun t =>
  let previous_timer_signal_now := current_timer_signal t in
  let previous_div_apu_signal := current_div_apu_signal_for_speed t speed_mode in
  let t := t <| system_counter :=
      wrapping_add16 (system_counter t) (timer_increment_per_scheduler_t_cycle speed_mode) |> in
  push_derived_edge DividerTick ≫= fun _ =>
  let current_signal := current_timer_signal t in
  let t := process_timer_signal_edge previous_timer_signal_now current_signal AutonomousTick t in
  let t := t <| previous_timer_signal := current_signal |> in
  (if previous_timer_signal_now && negb current_signal
   then push_derived_edge TimerInputFallingEdge else mret tt) ≫= fun _ =>
  (if previous_div_apu_signal && negb (current_div_apu_signal_for_speed t speed_mode)
   then push_derived_edge ApuFrameSequencerEdge else mret tt) ≫= fun _ =>
  mret t.

(** ** Invariant *)

Definition timer_ok (t : Timer) : Prop :=
  u16 (system_counter t) /\ u8 (tima t) /\ u8 (tma t) /\ 0 <= tac t < 8 /\
  previous_timer_signal t = current_timer_signal t /\
  match overflow_state t with OverflowPending k => 1 <= k <= 4 | OverflowIdle => True end /\
  (apu_fs_offset t = 0 \/ apu_fs_offset t = 2).

(** A tick as a function of the timer alone, without the cycle context. *)
Definition reload_due (t : Timer) : bool :=
  match overflow_state t with OverflowPending k => negb (1 <? k) | OverflowIdle => false end.

Definition after_pipeline (t : Timer) : Timer :=
  let t := t <| reloaded_this_t_cycle := false |> in
  match overflow_state t with
  | OverflowIdle => t
  | OverflowPending k =>
      if 1 <? k then t <| overflow_state := OverflowPending (k - 1) |>
      else t <| tima := tma t |> <| overflow_state := OverflowIdle |> <| reloaded_this_t_cycle := true |>
  end.

Definition counter_advanced (t : Timer) : Timer :=
  t <| system_counter := wrapping_add16 (system_counter t) 1 |>.

Definition falls_now (t : Timer) : bool :=
  current_timer_signal t && negb (current_timer_signal (counter_advanced t)).

Definition apu_edge_now (speed_mode : CgbSpeedMode) (t : Timer) : bool :=
  current_div_apu_signal_for_speed t speed_mode &&
  negb (current_div_apu_signal_for_speed (counter_advanced t) speed_mode).

Definition timer_next (t : Timer) : Timer :=
  let t1 := after_pipeline t in
  let t2 := counter_advanced t1 in
  (if falls_now t1 then increment_tima_on_falling_edge AutonomousTick t2 else t2)
    <| previous_timer_signal := current_timer_signal t2 |>.

Definition tick_edges (speed_mode : CgbSpeedMode) (t : Timer) : list DerivedEdge :=
  [DividerTick] ++ (if falls_now t then [TimerInputFallingEdge] else [])
                ++ (if apu_edge_now speed_mode t then [ApuFrameSequencerEdge] else []).

(** Consecutive ticks, each in a fresh cycle context; the list says on which
    ticks the timer interrupt was queued. *)
Definition tick_fresh (speed_mode : CgbSpeedMode) : Timer -> outcome (Timer * bool) :=
  fresh_tick TimerIrq (tick_t_cycle_for_speed speed_mode).

Definition run_ticks (n : nat) (speed_mode : CgbSpeedMode) : Timer -> outcome (Timer * list bool) :=
  run_fresh TimerIrq (tick_t_cycle_for_speed speed_mode) n.

Inductive timer_op :=
| OpTick (speed_mode : CgbSpeedMode)
| OpWriteDiv (value : Z) (speed_mode : CgbSpeedMode)
| OpStopReset (speed_mode : CgbSpeedMode)
| OpWriteTima (value : Z)
| OpWriteTma (value : Z)
| OpWriteTac (value : Z)
| OpHandoffCorrection (t_cycles : Z).

Definition timer_step (o : timer_op) (t : Timer) : outcome Timer :=
  match o with
  | OpTick s => match tick_fresh s t with Done (t', _) => Done t' | Panic why => Panic why end
  | OpWriteDiv v s => Done (write_div_with_effects_for_speed v s t).1
  | OpStopReset s => Done (stop_reset_divider_with_effects_for_speed s t).1
  | OpWriteTima v => Done (write_tima v t)
  | OpWriteTma v => Done (write_tma v t)
  | OpWriteTac v => Done (write_tac v t)
  | OpHandoffCorrection n => Done (apply_boot_handoff_counter_correction n t)
  end.

Definition timer_op_ok (o : timer_op) : Prop :=
  match o with
  | OpWriteTima v | OpWriteTma v | OpWriteTac v | OpWriteDiv v _ => u8 v
  | _ => True
  end.

Inductive timer_reachable : Timer -> Prop :=
| timer_initial m : timer_reachable (timer_new m)
| timer_started m st :
    u16 (startup_system_counter st) -> u8 (startup_tima st) -> u8 (startup_tma st) ->
    timer_reachable (timer_apply_startup_state st (timer_new m))
| timer_stepped o t t' :
    timer_op_ok o -> timer_reachable t -> timer_step o t = Done t' -> timer_reachable t'.

(** ** Lemmas *)

Lemma shiftl1_pow2 n : 0 <= n -> Z.shiftl 1 n = 2 ^ n.
Proof. intros. rewrite Z.shiftl_mul_pow2 by done. lia. Qed.

Lemma selected_timer_bit_cases x :
  selected_timer_bit x = 9 \/ selected_timer_bit x = 3 \/ selected_timer_bit x = 5 \/ selected_timer_bit x = 7.
Proof. unfold selected_timer_bit. case_tests; auto. Qed.

(** The selected counter bit, as arithmetic on the counter. *)
Lemma selected_bit_spec t :
  selected_counter_bit_is_high t = ((system_counter t / 2 ^ selected_timer_bit (tac t)) mod 2 =? 1).
Proof.
  unfold selected_counter_bit_is_high.
  assert (0 <= selected_timer_bit (tac t))
    by (destruct (selected_timer_bit_cases (tac t)) as [->|[->|[->| ->]]]; lia).
  by rewrite shiftl1_pow2, has_bits_pow2, Z.testbit_eqb.
Qed.

Lemma increment_fields origin t :
  let t' := increment_tima_on_falling_edge origin t in
  system_counter t' = system_counter t /\ tma t' = tma t /\ tac t' = tac t /\
  previous_timer_signal t' = previous_timer_signal t /\ apu_fs_offset t' = apu_fs_offset t /\
  reloaded_this_t_cycle t' = reloaded_this_t_cycle t.
Proof.
  destruct t. unfold increment_tima_on_falling_edge, overflowing_add8. simpl.
  case_tests; done.
Qed.

Lemma increment_ok origin t :
  u8 (tima t) ->
  match overflow_state t with OverflowPending k => 1 <= k <= 4 | OverflowIdle => True end ->
  let t' := increment_tima_on_falling_edge origin t in
  u8 (tima t') /\
  match overflow_state t' with OverflowPending k => 1 <= k <= 4 | OverflowIdle => True end.
Proof.
  destruct t. unfold increment_tima_on_falling_edge, overflowing_add8. simpl. intros.
  destruct overflow_state0; simpl; [|done].
  case_tests; simpl; split; auto using u8_mod; unfold TIMER_RELOAD_DELAY_T_CYCLES; lia.
Qed.

Lemma process_edge_fields p c origin t :
  let t' := process_timer_signal_edge p c origin t in
  system_counter t' = system_counter t /\ tma t' = tma t /\ tac t' = tac t /\
  apu_fs_offset t' = apu_fs_offset t.
Proof.
  unfold process_timer_signal_edge. case_tests; [|done].
  destruct (increment_fields origin t) as (?&?&?&?&?&?). done.
Qed.

Lemma current_timer_signal_ext t t' :
  system_counter t' = system_counter t -> tac t' = tac t ->
  current_timer_signal t' = current_timer_signal t.
Proof. unfold current_timer_signal, selected_counter_bit_is_high. by intros -> ->. Qed.

Lemma process_edge_ok p c origin t :
  u16 (system_counter t) -> u8 (tima t) -> u8 (tma t) -> 0 <= tac t < 8 ->
  match overflow_state t with OverflowPending k => 1 <= k <= 4 | OverflowIdle => True end ->
  (apu_fs_offset t = 0 \/ apu_fs_offset t = 2) ->
  timer_ok ((process_timer_signal_edge p c origin t) <| previous_timer_signal := current_timer_signal t |>).
Proof.
  intros Hc Ha Hm Ht Ho Hf.
  destruct (process_edge_fields p c origin t) as (E1&E2&E3&E4).
  assert (Hnew : u8 (tima (process_timer_signal_edge p c origin t)) /\
    match overflow_state (process_timer_signal_edge p c origin t) with
    | OverflowPending k => 1 <= k <= 4 | OverflowIdle => True end).
  { unfold process_timer_signal_edge. case_tests; [by apply increment_ok | done]. }
  pose proof (current_timer_signal_ext t (process_timer_signal_edge p c origin t) E1 E3) as Hs.
  unfold timer_ok. destruct (process_timer_signal_edge p c origin t) eqn:E. simpl in *.
  subst. repeat split; try tauto; try apply Hc; try apply Hm; try apply Ht; try apply Hnew.
Qed.

Lemma timer_ok_new m : timer_ok (timer_new m).
Proof. repeat split; try done; unfold u16, u8; simpl; lia. Qed.

Lemma timer_ok_startup m st :
  u16 (startup_system_counter st) -> u8 (startup_tima st) -> u8 (startup_tma st) ->
  timer_ok (timer_apply_startup_state st (timer_new m)).
Proof.
  intros Hc Ha Hm.
  unfold timer_ok, timer_apply_startup_state, TIMER_CONTROL_MASK. simpl. rewrite land_07.
  pose proof (Z.mod_pos_bound (startup_tac st) 8 ltac:(lia)).
  split_and!; auto; lia.
Qed.

Lemma timer_ok_reset speed_mode source t :
  timer_ok t -> timer_ok (reset_divider_with_effects_for_speed speed_mode source t).1.
Proof.
  intros (Hc & Ha & Hm & Ht & Hp & Ho & Hf).
  unfold reset_divider_with_effects_for_speed, apply_timer_signal_change. simpl.
  destruct t. simpl in *.
  apply process_edge_ok; simpl; auto with gb. destruct source; auto.
Qed.

Lemma timer_ok_write_tima v t : u8 v -> timer_ok t -> timer_ok (write_tima v t).
Proof.
  destruct t as [m c a b e p o r f]. unfold write_tima. simpl. intros Hv Hok.
  destruct r; [done|]. unfold timer_ok in *. simpl in *.
  destruct o; simpl; by split_and!; try apply Hok.
Qed.

Lemma timer_ok_write_tma v t : u8 v -> timer_ok t -> timer_ok (write_tma v t).
Proof.
  destruct t as [m c a b e p o r f]. unfold write_tma. simpl. intros Hv Hok.
  destruct r; unfold timer_ok in *; simpl in *; by split_and!; try apply Hok.
Qed.

Lemma timer_ok_write_tac v t : timer_ok t -> timer_ok (write_tac v t).
Proof.
  intros (Hc & Ha & Hm & Ht & Hp & Ho & Hf). unfold write_tac, apply_timer_signal_change.
  destruct t. simpl in *. apply process_edge_ok; simpl; auto.
  unfold TIMER_CONTROL_MASK. rewrite land_07. by apply Z.mod_pos_bound.
Qed.

Lemma timer_ok_correction n t : timer_ok t -> timer_ok (apply_boot_handoff_counter_correction n t).
Proof.
  destruct t. unfold timer_ok, apply_boot_handoff_counter_correction. simpl.
  intros (Hc & Ha & Hm & Ht & Hp & Ho & Hf). split_and!; try reflexivity; auto with gb; lia.
Qed.

Lemma after_pipeline_fields t :
  system_counter (after_pipeline t) = system_counter t /\ tac (after_pipeline t) = tac t /\
  tma (after_pipeline t) = tma t /\ apu_fs_offset (after_pipeline t) = apu_fs_offset t.
Proof. destruct t as [m c a b e p o r f]. unfold after_pipeline. simpl. destruct o; [|case_tests]; done. Qed.

Lemma after_pipeline_idle t :
  overflow_state t = OverflowIdle -> after_pipeline t = t <| reloaded_this_t_cycle := false |>.
Proof. unfold after_pipeline. destruct t; simpl. by intros ->. Qed.

Lemma after_pipeline_waits t k :
  overflow_state t = OverflowPending k -> 1 < k ->
  after_pipeline t = t <| reloaded_this_t_cycle := false |> <| overflow_state := OverflowPending (k - 1) |>.
Proof.
  unfold after_pipeline. destruct t; simpl. intros -> Hk. by destruct (Z.ltb_spec 1 k); [|lia].
Qed.

Lemma after_pipeline_reload t :
  overflow_state t = OverflowPending 1 ->
  after_pipeline t = t <| tima := tma t |> <| overflow_state := OverflowIdle |>
                       <| reloaded_this_t_cycle := true |>.
Proof. unfold after_pipeline. destruct t; simpl. by intros ->. Qed.

Lemma timer_ok_next t : timer_ok t -> timer_ok (timer_next t).
Proof.
  intros (Hc & Ha & Hm & Ht & Hp & Ho & Hf).
  destruct (after_pipeline_fields t) as (E1 & E2 & E3 & E4).
  unfold timer_next, falls_now.
  change (if ?p && negb ?c then increment_tima_on_falling_edge ?o ?x else ?x)
    with (process_timer_signal_edge p c o x).
  assert (u8 (tima (after_pipeline t)) /\
    match overflow_state (after_pipeline t) with OverflowPending k => 1 <= k <= 4 | OverflowIdle => True end)
    as [Ha' Ho'].
  { destruct t as [m c a b e p o r f]. unfold after_pipeline. simpl in *.
    destruct o as [|k]; [done|]. destruct (Z.ltb_spec 1 k); simpl; [split; [done | lia] | done]. }
  destruct (after_pipeline t). simpl in *. subst. apply process_edge_ok; simpl; auto with gb.
Qed.

(** The tick is total given room in the cycle context, and is [timer_next]. *)
Lemma timer_tick_wp speed_mode t c :
  context_room 3 1 c ->
  wp (tick_t_cycle_for_speed speed_mode t) c (fun t' c' =>
    t' = timer_next t /\
    as_slice (interrupt_requests c') =
      as_slice (interrupt_requests c) ++ (if reload_due t then [TimerIrq] else []) /\
    as_slice (derived_edges c') = as_slice (derived_edges c) ++ tick_edges speed_mode (after_pipeline t)).
Proof.
  intros Hroom. unfold tick_t_cycle_for_speed. apply wp_bind.
  apply (wp_mono _ _ (fun t1 c1 => t1 = after_pipeline t /\ context_room 3 0 c1 /\
    derived_edges c1 = derived_edges c /\ as_slice (interrupt_requests c1) =
      as_slice (interrupt_requests c) ++ (if reload_due t then [TimerIrq] else []))).
  { destruct t as [m k a b e p o r f]. unfold advance_overflow_pipeline, after_pipeline, reload_due. simpl.
    assert (context_room 3 0 c) by (by apply (context_room_weaken 3 1); [lia|lia|]).
    destruct o as [|k']; [apply wp_ret; rewrite app_nil_r; done|].
    destruct (Z.ltb_spec 1 k'); simpl; [apply wp_ret; rewrite app_nil_r; done|].
    apply wp_bind. apply (queue_interrupt_request_wp _ 3 0); [done|]. intros c' ? Hs Hd. apply wp_ret. by rewrite Hs. }
  intros t1 c1 (-> & Hr1 & Hd1 & Hi1). unfold timer_next.
  apply wp_bind, (push_derived_edge_wp _ 2 0); [done|]. intros c2 Hr2 Hd2 Hi2.
  replace (timer_increment_per_scheduler_t_cycle speed_mode) with 1 by (by destruct speed_mode).
  change ((after_pipeline t) <| system_counter := wrapping_add16 (system_counter (after_pipeline t)) 1 |>)
    with (counter_advanced (after_pipeline t)).
  change (current_timer_signal (after_pipeline t) && negb (current_timer_signal (counter_advanced (after_pipeline t))))
    with (falls_now (after_pipeline t)).
  unfold process_timer_signal_edge. fold (falls_now (after_pipeline t)).
  set (t1 := after_pipeline t) in *.
  assert (Hapu : forall x, x = (if falls_now t1 then increment_tima_on_falling_edge AutonomousTick (counter_advanced t1)
      else counter_advanced t1) <| previous_timer_signal := current_timer_signal (counter_advanced t1) |> ->
      current_div_apu_signal_for_speed t1 speed_mode && negb (current_div_apu_signal_for_speed x speed_mode)
      = apu_edge_now speed_mode t1).
  { intros x ->. unfold apu_edge_now. do 2 f_equal. unfold current_div_apu_signal_for_speed.
    destruct (increment_fields AutonomousTick (counter_advanced t1)) as (F1&_&_&_&F2&_).
    destruct (falls_now t1); [destruct (increment_tima_on_falling_edge _ _)|destruct (counter_advanced t1)];
      simpl in *; congruence. }
  rewrite (Hapu _ eq_refl). clear Hapu. unfold tick_edges.
  assert (Hirq : as_slice (interrupt_requests c2) =
      as_slice (interrupt_requests c) ++ (if reload_due t then [TimerIrq] else [])) by congruence.
  rewrite Hd1 in Hd2. destruct (falls_now t1).
  - apply wp_bind, (push_derived_edge_wp _ 1 0); [done|]. intros c3 Hr3 Hd3 Hi3.
    destruct (apu_edge_now speed_mode t1).
    + apply wp_bind, (push_derived_edge_wp _ 0 0); [done|]. intros c4 Hr4 Hd4 Hi4. apply wp_ret.
      rewrite Hd4, Hd3, Hd2, Hi4, Hi3, <- !app_assoc. done.
    + apply wp_bind, wp_ret, wp_ret. rewrite Hd3, Hd2, Hi3, <- !app_assoc. done.
  - apply wp_bind, wp_ret. destruct (apu_edge_now speed_mode t1).
    + apply wp_bind, (push_derived_edge_wp _ 1 0); [done|]. intros c4 Hr4 Hd4 Hi4. apply wp_ret.
      rewrite Hd4, Hd2, Hi4, <- !app_assoc. done.
    + apply wp_bind, wp_ret, wp_ret. rewrite Hd2. done.
Qed.

Lemma tick_fresh_spec speed_mode t : tick_fresh speed_mode t = Done (timer_next t, reload_due t).
Proof.
  unfold tick_fresh, fresh_tick.
  destruct (wp_done _ _ _ (timer_tick_wp speed_mode t (for_cycle 0)
    (context_room_weaken 16 16 3 1 _ ltac:(lia) ltac:(lia) (for_cycle_room 0))))
    as (t' & c' & -> & -> & Hi & _).
  rewrite Hi. by destruct (reload_due t).
Qed.

Lemma run_ticks_S n speed_mode t :
  run_ticks (S n) speed_mode t =
  match run_ticks n speed_mode (timer_next t) with
  | Done (t', irqs) => Done (t', reload_due t :: irqs)
  | Panic why => Panic why
  end.
Proof.
  apply (run_fresh_S _ _ (fun _ => True)); [intros; apply tick_fresh_spec | done].
Qed.

Lemma run_ticks_done n speed_mode t :
  exists irqs, run_ticks n speed_mode t = Done (iterate n timer_next t, irqs).
Proof.
  destruct (run_fresh_done TimerIrq (tick_t_cycle_for_speed speed_mode) (fun _ => True) timer_next reload_due)
    with (n := n) (a := t) as (irqs & H & _); [intros; apply tick_fresh_spec | done | done | eauto].
Qed.

Lemma timer_ok_step o t t' : timer_op_ok o -> timer_ok t -> timer_step o t = Done t' -> timer_ok t'.
Proof.
  intros Ho Ht Hs. destruct o; cbn [timer_op_ok timer_step] in *; rewrite ?tick_fresh_spec in Hs; injection Hs as <-.
  - by apply timer_ok_next.
  - by apply (timer_ok_reset speed_mode CpuDivWrite).
  - by apply (timer_ok_reset speed_mode StopInstruction).
  - by apply timer_ok_write_tima.
  - by apply timer_ok_write_tma.
  - by apply timer_ok_write_tac.
  - by apply timer_ok_correction.
Qed.

Lemma timer_ok_reachable t : timer_reachable t -> timer_ok t.
Proof. induction 1; eauto using timer_ok_new, timer_ok_startup, timer_ok_step. Qed.

(** *** The divider period *)

Definition selected_period (t : Timer) : Z := 2 ^ (selected_timer_bit (tac t) + 1).

Lemma falls_now_spec t :
  u16 (system_counter t) ->
  falls_now t = has_bits (tac t) TIMER_ENABLE_MASK &&
                ((system_counter t + 1) mod selected_period t =? 0).
Proof.
  intros Hc. unfold falls_now, current_timer_signal, selected_period.
  destruct t as [m c a b e p o r f]. cbn [tac system_counter counter_advanced update upd_system_counter] in *.
  destruct (has_bits e TIMER_ENABLE_MASK); [|done]. cbn [andb].
  rewrite !selected_bit_spec. cbn [tac system_counter counter_advanced update upd_system_counter].
  unfold wrapping_add16, u16 in *.
  destruct (selected_timer_bit_cases e) as [-> | [-> | [-> | ->]]].
  all: match goal with |- _ = (_ mod 2 ^ (?x + 1) =? 0) =>
         let p := eval compute in (2 ^ x) in let q := eval compute in (2 ^ (x + 1)) in
         change (2 ^ x) with p; change (2 ^ (x + 1)) with q end.
  all: apply eq_true_iff_eq; rewrite andb_true_iff, negb_true_iff, !Z.eqb_eq, Z.eqb_neq.
  all: divmod_lia.
Qed.

Lemma timer_next_idle t :
  timer_ok t -> overflow_state t = OverflowIdle -> tima t + 1 < 256 ->
  let t' := timer_next t in
  overflow_state t' = OverflowIdle /\ tac t' = tac t /\ tma t' = tma t /\
  system_counter t' = wrapping_add16 (system_counter t) 1 /\
  tima t' = tima t + u8_from_bool (falls_now t).
Proof.
  intros (_ & Ha & _) Ho Hlt. unfold timer_next.
  rewrite (after_pipeline_idle _ Ho).
  replace (falls_now (t <| reloaded_this_t_cycle := false |>)) with (falls_now t)
    by (by destruct t).
  destruct (falls_now t); destruct t as [m c a b e p o r f]; simpl in *; subst; simpl;
    unfold increment_tima_on_falling_edge, overflowing_add8; simpl.
  - destruct (Z.leb_spec 256 (a + 1)); [lia|]. unfold u8 in Ha.
    simpl. rewrite Z.mod_small by lia. auto.
  - split_and!; auto; lia.
Qed.

(** Falling edges of the selected bit among the next [n] ticks. *)
Definition edges_within (t : Timer) (n : Z) : Z :=
  if has_bits (tac t) TIMER_ENABLE_MASK
  then (system_counter t + n) / selected_period t - system_counter t / selected_period t
  else 0.

Lemma selected_period_cases t :
  selected_period t = 1024 \/ selected_period t = 16 \/ selected_period t = 64 \/ selected_period t = 256.
Proof.
  unfold selected_period. destruct (selected_timer_bit_cases (tac t)) as [->|[->|[->| ->]]]; auto.
Qed.

Lemma edges_within_step t t' n :
  u16 (system_counter t) -> tac t' = tac t -> system_counter t' = wrapping_add16 (system_counter t) 1 ->
  edges_within t (n + 1) = u8_from_bool (falls_now t) + edges_within t' n.
Proof.
  intros Hc Ht Hs. rewrite falls_now_spec by done. unfold edges_within.
  assert (Hp : selected_period t' = selected_period t) by (unfold selected_period; by rewrite Ht).
  rewrite Ht, Hs, Hp. unfold wrapping_add16, u16 in *.
  destruct (has_bits (tac t) TIMER_ENABLE_MASK); [|done]. cbn [andb].
  destruct (selected_period_cases t) as [E|[E|[E|E]]]; rewrite E; clear E Hp;
    (destruct (Z.eqb_spec ((system_counter t + 1) mod selected_period t) 0) || idtac);
    match goal with |- context [u8_from_bool (?x =? 0)] => destruct (Z.eqb_spec x 0) end;
    unfold u8_from_bool; divmod_lia.
Qed.


Lemma edges_within_nonneg t n : 0 <= n -> 0 <= edges_within t n.
Proof.
  intros Hn. unfold edges_within. case_tests; [|lia].
  destruct (selected_period_cases t) as [-> | [-> | [-> | ->]]]; divmod_lia.
Qed.

Lemma edges_within_0 t : edges_within t 0 = 0.
Proof. unfold edges_within. rewrite Z.add_0_r, Z.sub_diag. by case_tests. Qed.

Lemma edges_within_mono t n : 0 <= n -> edges_within t n <= edges_within t (n + 1).
Proof.
  intros Hn. unfold edges_within. case_tests; [|lia].
  destruct (selected_period_cases t) as [-> | [-> | [-> | ->]]]; divmod_lia.
Qed.

Lemma tima_counts_edges n t :
  timer_ok t -> overflow_state t = OverflowIdle -> tima t + edges_within t (Z.of_nat n) < 256 ->
  let t' := iterate n timer_next t in
  tima t' = tima t + edges_within t (Z.of_nat n) /\ overflow_state t' = OverflowIdle /\
  system_counter t' = (system_counter t + Z.of_nat n) mod 65536.
Proof.
  revert t. induction n as [|n IH]; intros t Hok Ho Hlt; cbv zeta; cbn [iterate].
  { simpl Z.of_nat. rewrite edges_within_0, !Z.add_0_r, Z.mod_small by apply Hok. done. }
  rewrite Nat2Z.inj_succ, <- Z.add_1_r in *.
  assert (Hc : u16 (system_counter t)) by apply Hok.
  assert (Hw : wrapping_add16 (system_counter t) 1 = (system_counter t + 1) mod 65536) by done.
  destruct (Z.ltb_spec (tima t + 1) 256) as [Hroom|Hfull].
  - destruct (timer_next_idle t Hok Ho Hroom) as (Ho' & Ht & Hm & Hs & Ha).
    pose proof (edges_within_step t (timer_next t) (Z.of_nat n) Hc Ht Hs) as He.
    destruct (IH (timer_next t) (timer_ok_next t Hok) Ho') as (-> & Hi & ->); [lia|].
    rewrite Hs, Hw, Zplus_mod_idemp_l. split_and!; [lia | done | f_equal; lia].
  - (* [tima = 255]: the bound forces no edge at all *)
    assert (Hu : u8 (tima t)) by apply Hok. unfold u8 in Hu.
    assert (Hzero : edges_within t (Z.of_nat n + 1) = 0)
      by (pose proof (edges_within_nonneg t (Z.of_nat n + 1) ltac:(lia)); lia).
    assert (Hstep : forall t', tac t' = tac t -> system_counter t' = wrapping_add16 (system_counter t) 1 ->
      falls_now t = false /\ edges_within t' (Z.of_nat n) = 0).
    { intros t' Ht Hs. pose proof (edges_within_step t t' (Z.of_nat n) Hc Ht Hs).
      pose proof (edges_within_nonneg t' (Z.of_nat n) ltac:(lia)).
      destruct (falls_now t); simpl u8_from_bool in *; lia. }
    assert (Hnext : overflow_state (timer_next t) = OverflowIdle /\ tac (timer_next t) = tac t /\
      system_counter (timer_next t) = wrapping_add16 (system_counter t) 1 /\ tima (timer_next t) = tima t).
    { unfold timer_next.
      rewrite (after_pipeline_idle _ Ho).
      replace (falls_now (t <| reloaded_this_t_cycle := false |>)) with (falls_now t)
        by (by destruct t).
      destruct (Hstep (counter_advanced t)) as [-> _]; by destruct t. }
    destruct Hnext as (Ho' & Ht & Hs & Ha). destruct (Hstep _ Ht Hs) as [_ He].
    destruct (IH (timer_next t) (timer_ok_next t Hok) Ho') as (-> & Hi & ->); [lia|].
    rewrite Hs, Hw, Zplus_mod_idemp_l. split_and!; [lia | done | f_equal; lia].
Qed.

Lemma pending_countdown k t :
  overflow_state t = OverflowPending (Z.of_nat (S k)) ->
  let t' := iterate k timer_next t in
  overflow_state t' = OverflowPending 1 /\ tma t' = tma t /\ tima t' = tima t /\
  forall speed_mode, run_ticks (S k) speed_mode t = Done (timer_next t', replicate k false ++ [true]).
Proof.
  revert t. induction k as [|k IH]; intros t Ho; cbv zeta; cbn [iterate].
  { split_and!; auto. intros s. rewrite run_ticks_S. simpl. unfold reload_due. by rewrite Ho. }
  assert (Hn : overflow_state (timer_next t) = OverflowPending (Z.of_nat (S k)) /\
               tma (timer_next t) = tma t /\ tima (timer_next t) = tima t).
  { unfold timer_next. rewrite (after_pipeline_waits _ _ Ho) by lia.
    assert (Hk : Z.of_nat (S (S k)) - 1 = Z.of_nat (S k)) by lia.
    destruct t. simpl in *. destruct (falls_now _); simpl; rewrite Hk; done. }
  destruct Hn as (Ho' & Hm & Ha). destruct (IH _ Ho') as (H1 & H2 & H3 & H4).
  split_and!; [done | congruence | congruence |].
  intros s. rewrite run_ticks_S, H4. unfold reload_due. rewrite Ho.
  destruct (Z.ltb_spec 1 (Z.of_nat (S (S k)))); [done | lia].
Qed.

Lemma run_ticks_snoc n speed_mode t :
  run_ticks (S n) speed_mode t =
  match run_ticks n speed_mode t with
  | Done (t', irqs) => Done (timer_next t', irqs ++ [reload_due t'])
  | Panic why => Panic why
  end.
Proof.
  apply (run_fresh_snoc _ _ (fun _ => True)); [intros; apply tick_fresh_spec | done | done].
Qed.

Lemma timer_next_reload t :
  timer_ok t -> overflow_state t = OverflowPending 1 ->
  reloaded_this_t_cycle (timer_next t) = true /\ tma (timer_next t) = tma t /\
  tima (timer_next t) = wrapping_add8 (tma t) (u8_from_bool (falls_now t)).
Proof.
  intros (_ & _ & Hm & _) Ho. unfold timer_next.
  rewrite (after_pipeline_reload _ Ho).
  match goal with |- context [falls_now ?x] => replace (falls_now x) with (falls_now t) by (by destruct t) end.
  destruct (falls_now t); destruct t as [m c a b e p o r f]; simpl in *;
    unfold increment_tima_on_falling_edge, overflowing_add8, wrapping_add8; simpl.
  - by destruct (256 <=? b + 1).
  - rewrite Z.add_0_r, Z.mod_small by done. done.
Qed.

Lemma signal_change_fields p origin u :
  let t' := apply_timer_signal_change p origin u in
  system_counter t' = system_counter u /\ tac t' = tac u /\ tma t' = tma u /\
  apu_fs_offset t' = apu_fs_offset u.
Proof.
  unfold apply_timer_signal_change.
  destruct (process_edge_fields p (current_timer_signal u) origin u) as (E1 & E2 & E3 & E4).
  by destruct (process_timer_signal_edge p (current_timer_signal u) origin u).
Qed.

Lemma signal_change_spec p u :
  let t' := apply_timer_signal_change p MmioWrite u in
  let dropped := p && negb (current_timer_signal t') in
  if dropped && negb (overflow_is_pending (overflow_state u))
  then tima t' = wrapping_add8 (tima u) 1 /\
       overflow_state t' = if 256 <=? tima u + 1 then OverflowPending 3 else OverflowIdle
  else tima t' = tima u /\ overflow_state t' = overflow_state u.
Proof.
  cbv zeta. unfold apply_timer_signal_change.
  destruct (process_edge_fields p (current_timer_signal u) MmioWrite u) as (E1 & _ & E3 & _).
  replace (current_timer_signal (_ <| previous_timer_signal := _ |>)) with (current_timer_signal u)
    by (symmetry; apply current_timer_signal_ext;
        by destruct (process_timer_signal_edge p (current_timer_signal u) MmioWrite u)).
  unfold process_timer_signal_edge.
  destruct (p && negb (current_timer_signal u)); [|by destruct u].
  unfold increment_tima_on_falling_edge, overflowing_add8.
  destruct u as [m c a b e q o r f]. simpl. destruct o; simpl; [|done].
  unfold TIMER_RELOAD_DELAY_T_CYCLES. by destruct (256 <=? a + 1).
Qed.

(** ** Properties *)

(**  Safety of the timer state machine: every state reached from power-on
    or a boot handoff by ticks, register writes, divider resets and counter
    corrections is well formed (registers in width, the cached edge-detector
    input equal to the live one, a pending reload at most four ticks away),
    and from it a further tick in a fresh cycle context never panics and
    queues the timer interrupt exactly when a reload is due. *)
Theorem timer_reachable_safe (t : Timer) (speed_mode : CgbSpeedMode) :
  timer_reachable t ->
  timer_ok t /\ exists t', tick_fresh speed_mode t = Done (t', reload_due t) /\ timer_reachable t'.
Proof.
  intros Hr. split; [by apply timer_ok_reachable|].
  exists (timer_next t). rewrite tick_fresh_spec. split; [done|].
  apply (timer_stepped (OpTick speed_mode) t); [done.. |]. simpl. by rewrite tick_fresh_spec.
Qed.

Lemma timer_reachable_safe_witness :
  timer_reachable (write_tac 5 (timer_new GameBoy)) /\ timer_ok (write_tac 5 (timer_new GameBoy)).
Proof.
  assert (Hr : timer_reachable (write_tac 5 (timer_new GameBoy))).
  { apply (timer_stepped (OpWriteTac 5) (timer_new GameBoy));
      [simpl; unfold u8; lia | constructor | reflexivity]. }
  split; [exact Hr | exact (proj1 (timer_reachable_safe _ Normal Hr))].
Defined.

(** C32.  Reload pipeline: once [TIMA] has overflowed with [k] ticks left and
    software leaves the registers alone, [TIMA] holds and no interrupt is
    queued for [k - 1] ticks; the [k]-th tick queues the timer interrupt and
    reloads [TIMA] from [TMA] (already counting one further when the divider
    edge falls on that very tick). *)
Theorem overflow_reloads_after_delay (t : Timer) (k : nat) (speed_mode : CgbSpeedMode) :
  timer_ok t -> overflow_state t = OverflowPending (Z.of_nat (S k)) ->
  exists t0 t1,
    run_ticks k speed_mode t = Done (t0, replicate k false) /\ tima t0 = tima t /\
    run_ticks (S k) speed_mode t = Done (t1, replicate k false ++ [true]) /\
    reloaded_this_t_cycle t1 = true /\ tma t1 = tma t /\
    tima t1 = wrapping_add8 (tma t) (u8_from_bool (falls_now t0)).
Proof.
  intros Hok Ho. destruct (pending_countdown k t Ho) as (H1 & H2 & H3 & H4).
  set (t0 := iterate k timer_next t) in *. exists t0, (timer_next t0).
  assert (Hnext : reloaded_this_t_cycle (timer_next t0) = true /\ tma (timer_next t0) = tma t0 /\
    tima (timer_next t0) = wrapping_add8 (tma t0) (u8_from_bool (falls_now t0))).
  { apply timer_next_reload; [|done]. apply iterate_ind; [apply timer_ok_next | done]. }
  destruct Hnext as (? & ? & Ha). rewrite Ha, H2. split_and!; [ | done | apply H4 | done | congruence | done].
  destruct (run_ticks_done k speed_mode t) as (irqs & Hk). fold t0 in Hk.
  rewrite Hk. do 2 f_equal. specialize (H4 speed_mode).
  rewrite run_ticks_snoc, Hk in H4. injection H4 as H4. by apply app_inj_tail in H4 as [? _].
Qed.

Lemma overflow_reloads_after_delay_witness :
  let t := mkTimer GameBoy 0 0 7 5 false (OverflowPending 4) false 0 in
  timer_ok t /\ exists t1, run_ticks 4 Normal t = Done (t1, [false; false; false; true]) /\ tima t1 = 7.
Proof.
  set (t := mkTimer GameBoy 0 0 7 5 false (OverflowPending 4) false 0).
  assert (Hok : timer_ok t) by (repeat split; unfold u8, u16; simpl; try lia; auto).
  split; [exact Hok|].
  destruct (overflow_reloads_after_delay t 3 Normal Hok eq_refl) as (t0 & t1 & H0 & _ & H1 & _ & _ & Ha).
  exists t1. split; [exact H1|]. rewrite Ha.
  replace t0 with (iterate 3 timer_next t)
    by (destruct (run_ticks_done 3 Normal t) as (irqs & Hk); congruence).
  vm_compute. reflexivity.
Defined.

(**  Timer frequency: with [TIMA] not overflowing meanwhile, [n] ticks
    advance the system counter by [n] (modulo 2^16) and, when the timer is
    enabled, [TIMA] by exactly the number of multiples of the selected period
    (1024, 16, 64 or 256 T-cycles by [TAC]) the unwrapped counter passes; a
    disabled timer does not move.  No interrupt is queued. *)
Theorem tima_counts_selected_period (t : Timer) (n : nat) (speed_mode : CgbSpeedMode) :
  timer_ok t -> overflow_state t = OverflowIdle ->
  tima t + edges_within t (Z.of_nat n) < 256 ->
  exists t', run_ticks n speed_mode t = Done (t', replicate n false) /\
    tima t' = tima t + edges_within t (Z.of_nat n) /\
    system_counter t' = (system_counter t + Z.of_nat n) mod 65536.
Proof.
  intros Hok Ho Hlt. exists (iterate n timer_next t).
  destruct (tima_counts_edges n t Hok Ho Hlt) as (Ha & _ & Hc).
  split; [|done]. clear Ha Hc.
  induction n as [|n IH]; [done|].
  assert (Hlt' : tima t + edges_within t (Z.of_nat n) < 256).
  { pose proof (edges_within_mono t (Z.of_nat n) ltac:(lia)).
    replace (Z.of_nat (S n)) with (Z.of_nat n + 1) in Hlt by lia. lia. }
  rewrite run_ticks_snoc, (IH Hlt'), iterate_S.
  destruct (tima_counts_edges n t Hok Ho Hlt') as (_ & Hi & _).
  unfold reload_due. rewrite Hi. do 2 f_equal. by rewrite <- replicate_S_end.
Qed.

Lemma tima_counts_selected_period_witness :
  let t := mkTimer GameBoy 0xFFF0 3 0 5 false OverflowIdle false 0 in
  timer_ok t /\ exists t', run_ticks 40 Normal t = Done (t', replicate 40 false) /\ tima t' = 5.
Proof.
  set (t := mkTimer GameBoy 0xFFF0 3 0 5 false OverflowIdle false 0).
  assert (Hok : timer_ok t) by (repeat split; unfold u8, u16; simpl; try lia; auto).
  split; [exact Hok|].
  destruct (tima_counts_selected_period t 40 Normal Hok eq_refl ltac:(vm_compute; reflexivity))
    as (t' & H & Ha & _).
  exists t'. split; [exact H | exact Ha].
Defined.

(**  Register writes around a reload, on every branch: writing [TIMA]
    while a reload is pending cancels it, writing it in the reload cycle is
    ignored, otherwise it is stored; writing [TMA] in the reload cycle reaches
    [TIMA] as well.  Resetting the divider or writing [TAC] increments [TIMA]
    exactly when that drops the selected enabled counter bit, and an overflow
    caused this way enters the pipeline one tick later than an autonomous
    one, unless a reload is already pending; the divider reset clocks the APU
    sequencer exactly when its counter bit was high. *)
Theorem timer_mmio_writes (t : Timer) (value : Z) (speed_mode : CgbSpeedMode) :
  (write_tima value t =
     if reloaded_this_t_cycle t then t
     else t <| tima := value |> <| overflow_state := OverflowIdle |>) /\
  (tma (write_tma value t) = value /\
   tima (write_tma value t) = if reloaded_this_t_cycle t then value else tima t) /\
  (forall t', t' = (write_div_with_effects_for_speed value speed_mode t).1 \/ t' = write_tac value t ->
     let dropped := current_timer_signal t && negb (current_timer_signal t') in
     if dropped && negb (overflow_is_pending (overflow_state t))
     then tima t' = wrapping_add8 (tima t) 1 /\
          overflow_state t' = if 256 <=? tima t + 1 then OverflowPending 3 else OverflowIdle
     else tima t' = tima t /\ overflow_state t' = overflow_state t) /\
  system_counter (write_div_with_effects_for_speed value speed_mode t).1 = 0 /\
  (write_div_with_effects_for_speed value speed_mode t).2 = current_div_apu_signal_for_speed t speed_mode.
Proof.
  split_and!.
  - destruct t as [m c a b e p o r f]. unfold write_tima. simpl. destruct r, o; done.
  - by destruct t, reloaded_this_t_cycle0.
  - by destruct t, reloaded_this_t_cycle0.
  - intros t' Ht'.
    assert (Hgen : exists u, t' = apply_timer_signal_change (current_timer_signal t) MmioWrite u /\
                     tima u = tima t /\ overflow_state u = overflow_state t)
      by (destruct Ht' as [-> | ->]; eexists; (split; [reflexivity | by destruct t])).
    destruct Hgen as (u & -> & <- & <-). apply signal_change_spec.
  - destruct t. apply signal_change_fields.
  - unfold write_div_with_effects_for_speed, reset_divider_with_effects_for_speed. simpl.
    match goal with |- _ && negb ?b = _ => replace b with false; [apply andb_true_r|] end.
    unfold current_div_apu_signal_for_speed.
    match goal with |- context [apply_timer_signal_change ?p ?o ?x] =>
      destruct (signal_change_fields p o x) as (-> & _ & _ & ->) end.
    by destruct t, speed_mode.
Qed.
