(* ===== verification/CpuData.v ===== *)
(** * CPU state ([cpu.rs], [cpu/decode/kinds.rs], [cpu/state.rs], [cpu/api.rs], [cpu/trace.rs])

    The data of the SM83 core: registers, the decoded-instruction enums, the
    micro-operation execution state, the delayed-[IME] and [HALT] controls,
    the address events of one T-cycle, and the operations of [cpu/state.rs]
    and [cpu/api.rs] on them.  All files are under [crates/gb-core/src]. *)

From Stdlib Require Import ZArith Lia Bool String.
From stdpp Require Import base list tactics decidable option numbers.
From S2P Require Import Prelude Model Scheduler Interrupts.

Local Open Scope Z_scope.

Definition LAST_MACHINE_CYCLE_T : Z := 3.

Definition FLAG_Z : Z := 0x80.
Definition FLAG_N : Z := 0x40.
Definition FLAG_H : Z := 0x20.
Definition FLAG_C : Z := 0x10.

(** ** External operations *)

Inductive CpuBusOperation :=
| BusRead (address : Z)
| BusWrite (address value : Z).

Inductive CpuExternalOperation :=
| Bus (operation : CpuBusOperation)
| PendingInterruptMask
| InterruptEnableMask
| StopWakeLineAsserted
| CgbSpeedSwitchPrepared
| AcknowledgeInterrupt (source : InterruptSource)
| RequestInterrupt (source : InterruptSource).

(** ** Address events and bus activity *)

Inductive CpuAddressEventKind :=
| EventRead | EventWrite | EventIncDec | EventReadWithIncDec | EventWriteWithIncDec.

Inductive CpuAddressUpdateDirection := Increment | Decrement.

Inductive CpuTraceBusAccessKind := OpcodeFetch | OperandRead | DataRead | DataWrite.

Record CpuTraceBusActivity := mkActivity {
  activity_kind : CpuTraceBusAccessKind;
  activity_address : Z;
  activity_value : Z
}.

Record CpuAddressEvent := mkAddressEvent {
  event_kind : CpuAddressEventKind;
  access_address : option Z;
  idu_address : option Z;
  update_direction : option CpuAddressUpdateDirection
}.

Definition event_read (address : Z) : CpuAddressEvent :=
  mkAddressEvent EventRead (Some address) None None.
Definition event_write (address : Z) : CpuAddressEvent :=
  mkAddressEvent EventWrite (Some address) None None.
Definition event_incdec (address : Z) (d : CpuAddressUpdateDirection) : CpuAddressEvent :=
  mkAddressEvent EventIncDec None (Some address) (Some d).
Definition event_read_with_incdec (access idu : Z) (d : CpuAddressUpdateDirection) : CpuAddressEvent :=
  mkAddressEvent EventReadWithIncDec (Some access) (Some idu) (Some d).
Definition event_write_with_incdec (access idu : Z) (d : CpuAddressUpdateDirection) : CpuAddressEvent :=
  mkAddressEvent EventWriteWithIncDec (Some access) (Some idu) (Some d).

(** ** Decoded instructions *)

Inductive Register8 := R8_A | R8_B | R8_C | R8_D | R8_E | R8_H | R8_L.
Inductive Register16 := R16_BC | R16_DE | R16_HL | R16_SP.
Inductive AluOperation :=
| AluAdd | AluAdc | AluSub | AluSbc | AluAnd | AluXor | AluOr | AluCompare.
Inductive StackRegister16 := SR_BC | SR_DE | SR_HL | SR_AF.
Inductive ConditionCode := CC_Nz | CC_Z | CC_Nc | CC_C.
Inductive Register8Operand := OperandRegister (r : Register8) | IndirectHl.
Inductive DirectAddressSource := Direct_BC | Direct_DE | Direct_HighC.

Inductive InstructionExecutionGroup :=
| GroupLoad | GroupArithmetic | GroupControlFlow | GroupStack | GroupCbPrefixed.

Inductive FetchCompletionKind :=
| Nop
| DecimalAdjustAccumulator
| ComplementAccumulator
| SetCarryFlag
| ComplementCarryFlag
| RotateLeftAccumulatorCarry
| RotateLeftAccumulatorThroughCarry
| RotateRightAccumulatorCarry
| RotateRightAccumulatorThroughCarry
| Halt
| DisableInterrupts
| EnableInterrupts
| JumpHl
| LoadRegisterToRegister (destination source : Register8)
| IncrementRegister (target : Register8)
| DecrementRegister (target : Register8)
| AluRegister (operation : AluOperation) (source : Register8).

Inductive CbInstructionKind :=
| RotateLeftCarry (target : Register8Operand)
| RotateRightCarry (target : Register8Operand)
| RotateLeftThroughCarry (target : Register8Operand)
| RotateRightThroughCarry (target : Register8Operand)
| ShiftLeftArithmetic (target : Register8Operand)
| ShiftRightArithmetic (target : Register8Operand)
| SwapNibbles (target : Register8Operand)
| ShiftRightLogical (target : Register8Operand)
| BitTest (bit : Z) (target : Register8Operand)
| ResetBit (bit : Z) (target : Register8Operand)
| SetBit (bit : Z) (target : Register8Operand).

Definition cb_target (k : CbInstructionKind) : Register8Operand :=
  match k with
  | RotateLeftCarry t | RotateRightCarry t | RotateLeftThroughCarry t | RotateRightThroughCarry t
  | ShiftLeftArithmetic t | ShiftRightArithmetic t | SwapNibbles t | ShiftRightLogical t
  | BitTest _ t | ResetBit _ t | SetBit _ t => t
  end.

Inductive CpuInstructionKind :=
| LoadRegisterImmediate (target : Register8)
| LoadRegisterPairImmediate (target : Register16)
| LoadRegisterFromHl (target : Register8)
| StoreRegisterToHl (source : Register8)
| StoreImmediateToHl
| LoadAFromHlWithUpdate (direction : CpuAddressUpdateDirection)
| StoreAToHlWithUpdate (direction : CpuAddressUpdateDirection)
| LoadAFromDirectAddress (source : DirectAddressSource)
| LoadAFromImmediate16Address
| LoadAFromHighImmediateAddress
| StoreAToDirectAddress (destination : DirectAddressSource)
| StoreAToImmediate16Address
| StoreAToHighImmediateAddress
| StoreSpToImmediate16
| LoadHlFromSpPlusImmediate
| AddSpImmediate
| LoadSpFromHl
| AddHl (source : Register16)
| IncrementRegisterPair (target : Register16)
| DecrementRegisterPair (target : Register16)
| IncrementHlMemory
| DecrementHlMemory
| AluImmediate (operation : AluOperation)
| AluFromHl (operation : AluOperation)
| RelativeJump
| ConditionalRelativeJump (condition : ConditionCode)
| AbsoluteJump
| ConditionalAbsoluteJump (condition : ConditionCode)
| Call
| ConditionalCall (condition : ConditionCode)
| Return
| ConditionalReturn (condition : ConditionCode)
| ReturnFromInterrupt
| Stop
| Restart (vector : Z)
| PushRegisterPair (source : StackRegister16)
| PopRegisterPair (target : StackRegister16)
| CbPrefixed.

Definition execution_group_of (k : CpuInstructionKind) : InstructionExecutionGroup :=
  match k with
  | LoadRegisterImmediate _ | LoadRegisterPairImmediate _ | LoadRegisterFromHl _
  | StoreRegisterToHl _ | StoreImmediateToHl | LoadAFromHlWithUpdate _ | StoreAToHlWithUpdate _
  | LoadAFromDirectAddress _ | LoadAFromImmediate16Address | LoadAFromHighImmediateAddress
  | StoreAToDirectAddress _ | StoreAToImmediate16Address | StoreAToHighImmediateAddress
  | StoreSpToImmediate16 | LoadSpFromHl => GroupLoad
  | LoadHlFromSpPlusImmediate | AddSpImmediate | AddHl _ | IncrementRegisterPair _
  | DecrementRegisterPair _ | IncrementHlMemory | DecrementHlMemory | AluImmediate _
  | AluFromHl _ => GroupArithmetic
  | RelativeJump | ConditionalRelativeJump _ | AbsoluteJump | ConditionalAbsoluteJump _
  | Call | ConditionalCall _ | Return | ConditionalReturn _ | ReturnFromInterrupt | Stop
  | Restart _ => GroupControlFlow
  | PushRegisterPair _ | PopRegisterPair _ => GroupStack
  | CbPrefixed => GroupCbPrefixed
  end.

Inductive DecodedOpcode :=
| CompleteOnFetch (completion : FetchCompletionKind)
| Execute (kind : CpuInstructionKind)
| Unsupported.

#[export] Instance Register8_eq_dec : EqDecision Register8.
Proof. solve_decision. Defined.
#[export] Instance Register16_eq_dec : EqDecision Register16.
Proof. solve_decision. Defined.
#[export] Instance AluOperation_eq_dec : EqDecision AluOperation.
Proof. solve_decision. Defined.
#[export] Instance StackRegister16_eq_dec : EqDecision StackRegister16.
Proof. solve_decision. Defined.
#[export] Instance ConditionCode_eq_dec : EqDecision ConditionCode.
Proof. solve_decision. Defined.
#[export] Instance DirectAddressSource_eq_dec : EqDecision DirectAddressSource.
Proof. solve_decision. Defined.
#[export] Instance CpuAddressUpdateDirection_eq_dec : EqDecision CpuAddressUpdateDirection.
Proof. solve_decision. Defined.
#[export] Instance InstructionExecutionGroup_eq_dec : EqDecision InstructionExecutionGroup.
Proof. solve_decision. Defined.
#[export] Instance Register8Operand_eq_dec : EqDecision Register8Operand.
Proof. solve_decision. Defined.
#[export] Instance CpuInstructionKind_eq_dec : EqDecision CpuInstructionKind.
Proof. solve_decision. Defined.
#[export] Instance FetchCompletionKind_eq_dec : EqDecision FetchCompletionKind.
Proof. solve_decision. Defined.
#[export] Instance CbInstructionKind_eq_dec : EqDecision CbInstructionKind.
Proof. solve_decision. Defined.
#[export] Instance DecodedOpcode_eq_dec : EqDecision DecodedOpcode.
Proof. solve_decision. Defined.

(** ** Registers *)

Record CpuStartupState := mkCpuStartup {
  startup_a : Z; startup_f : Z; startup_b : Z; startup_c : Z; startup_d : Z;
  startup_e : Z; startup_h : Z; startup_l : Z; startup_sp : Z; startup_pc : Z
}.

Record CpuRegisters := mkRegs {
  r_a : Z; r_f : Z; r_b : Z; r_c : Z; r_d : Z; r_e : Z; r_h : Z; r_l : Z; r_sp : Z; r_pc : Z
}.

#[export] Instance upd_r_a : Update r_a := fun v r =>
  let '(mkRegs _ f b c d e h l sp pc) := r in mkRegs v f b c d e h l sp pc.
#[export] Instance upd_r_f : Update r_f := fun v r =>
  let '(mkRegs a _ b c d e h l sp pc) := r in mkRegs a v b c d e h l sp pc.
#[export] Instance upd_r_b : Update r_b := fun v r =>
  let '(mkRegs a f _ c d e h l sp pc) := r in mkRegs a f v c d e h l sp pc.
#[export] Instance upd_r_c : Update r_c := fun v r =>
  let '(mkRegs a f b _ d e h l sp pc) := r in mkRegs a f b v d e h l sp pc.
#[export] Instance upd_r_d : Update r_d := fun v r =>
  let '(mkRegs a f b c _ e h l sp pc) := r in mkRegs a f b c v e h l sp pc.
#[export] Instance upd_r_e : Update r_e := fun v r =>
  let '(mkRegs a f b c d _ h l sp pc) := r in mkRegs a f b c d v h l sp pc.
#[export] Instance upd_r_h : Update r_h := fun v r =>
  let '(mkRegs a f b c d e _ l sp pc) := r in mkRegs a f b c d e v l sp pc.
#[export] Instance upd_r_l : Update r_l := fun v r =>
  let '(mkRegs a f b c d e h _ sp pc) := r in mkRegs a f b c d e h v sp pc.
#[export] Instance upd_r_sp : Update r_sp := fun v r =>
  let '(mkRegs a f b c d e h l _ pc) := r in mkRegs a f b c d e h l v pc.
#[export] Instance upd_r_pc : Update r_pc := fun v r =>
  let '(mkRegs a f b c d e h l sp _) := r in mkRegs a f b c d e h l sp v.

Definition power_on_reset : CpuStartupState := mkCpuStartup 0 0 0 0 0 0 0 0 0 0x0000.

Definition from_startup_state (s : CpuStartupState) : CpuRegisters :=
  mkRegs (startup_a s) (Z.land (startup_f s) 0xF0) (startup_b s) (startup_c s) (startup_d s)
         (startup_e s) (startup_h s) (startup_l s) (startup_sp s) (startup_pc s).

(** ** Execution state *)

Inductive CpuDiagnosticTrap := InvalidOpcode (opcode address : Z).

Inductive CpuExecutionState :=
| FetchOpcode (t_cycle : Z)
| ExecuteState (step t_cycle : Z)
| ServiceInterrupt (source : InterruptSource) (step t_cycle : Z)
| ServiceStopWakeBuggedInterrupt (step t_cycle : Z)
| SpeedSwitchPause (remaining_t_cycles : Z)
| DiagnosticTrap (trap : CpuDiagnosticTrap)
| Halted
| ZombieStopped
| Stopped.

Definition fetch_opcode : CpuExecutionState := FetchOpcode 0.

Inductive StopEntryResolution :=
| CompleteOnCurrentMachineCycle
| EnterStoppedAfterPaddingFetch
| EnterZombieStopped
| EnterHaltAfterPaddingFetch.

Record InFlightInstruction := mkInFlight {
  if_opcode : option Z;
  if_kind : option CpuInstructionKind;
  if_execution_group : option InstructionExecutionGroup;
  if_cb_instruction_kind : option CbInstructionKind;
  if_operand8_latch : Z;
  if_operand16_latch : Z
}.

#[export] Instance upd_if_opcode : Update if_opcode := fun v i =>
  let '(mkInFlight _ k g c l m) := i in mkInFlight v k g c l m.
#[export] Instance upd_if_kind : Update if_kind := fun v i =>
  let '(mkInFlight o _ g c l m) := i in mkInFlight o v g c l m.
#[export] Instance upd_if_execution_group : Update if_execution_group := fun v i =>
  let '(mkInFlight o k _ c l m) := i in mkInFlight o k v c l m.
#[export] Instance upd_if_cb_instruction_kind : Update if_cb_instruction_kind := fun v i =>
  let '(mkInFlight o k g _ l m) := i in mkInFlight o k g v l m.
#[export] Instance upd_if_operand8_latch : Update if_operand8_latch := fun v i =>
  let '(mkInFlight o k g c _ m) := i in mkInFlight o k g c v m.
#[export] Instance upd_if_operand16_latch : Update if_operand16_latch := fun v i =>
  let '(mkInFlight o k g c l _) := i in mkInFlight o k g c l v.

Definition in_flight_default : InFlightInstruction := mkInFlight None None None None 0 0.

Definition execution_descriptor (i : InFlightInstruction)
    : option (CpuInstructionKind * InstructionExecutionGroup) :=
  match if_kind i with
  | None => None
  | Some kind =>
      let group := match if_execution_group i with
                   | Some g => g
                   | None => execution_group_of kind
                   end in
      Some (kind, group)
  end.

Definition clear_decoded_state (i : InFlightInstruction) : InFlightInstruction :=
  i <| if_kind := None |> <| if_execution_group := None |> <| if_cb_instruction_kind := None |>
    <| if_operand8_latch := 0 |> <| if_operand16_latch := 0 |>.

Definition in_flight_clear (i : InFlightInstruction) : InFlightInstruction :=
  clear_decoded_state (i <| if_opcode := None |>).

Inductive ImeState :=
| ImeDisabled
| ImeDisabledPendingEnable (instructions_remaining : Z)
| ImeEnabled
| ImeEnabledPendingEnable (instructions_remaining : Z).

Definition ime_state_enabled (s : ImeState) : bool :=
  match s with ImeEnabled | ImeEnabledPendingEnable _ => true | _ => false end.

Definition delayed_enable_pending (s : ImeState) : bool :=
  match s with ImeDisabledPendingEnable _ | ImeEnabledPendingEnable _ => true | _ => false end.

Record HaltRequestContext := mkHaltRequest { hr_ime_enabled : bool; hr_had_pending_ei : bool }.

Inductive HaltControlState :=
| HaltIdle
| PendingRequest (context : HaltRequestContext)
| HaltBugPending.

(** ** The core *)

Record CpuCore := mkCpu {
  cpu_console_model : ConsoleModel;
  cpu_startup_state : CpuStartupState;
  registers : CpuRegisters;
  execution_state : CpuExecutionState;
  in_flight : InFlightInstruction;
  ime_state : ImeState;
  halt_control : HaltControlState;
  last_bus_activity : option CpuTraceBusActivity;
  last_address_event : option CpuAddressEvent;
  stop_div_reset_requested : bool;
  cgb_speed_switch_requested : bool
}.

#[export] Instance upd_cpu_startup_state : Update cpu_startup_state := fun v c =>
  let '(mkCpu m _ r e i ime h ba ae sd ss) := c in mkCpu m v r e i ime h ba ae sd ss.
#[export] Instance upd_registers : Update registers := fun v c =>
  let '(mkCpu m s _ e i ime h ba ae sd ss) := c in mkCpu m s v e i ime h ba ae sd ss.
#[export] Instance upd_execution_state : Update execution_state := fun v c =>
  let '(mkCpu m s r _ i ime h ba ae sd ss) := c in mkCpu m s r v i ime h ba ae sd ss.
#[export] Instance upd_in_flight : Update in_flight := fun v c =>
  let '(mkCpu m s r e _ ime h ba ae sd ss) := c in mkCpu m s r e v ime h ba ae sd ss.
#[export] Instance upd_ime_state : Update ime_state := fun v c =>
  let '(mkCpu m s r e i _ h ba ae sd ss) := c in mkCpu m s r e i v h ba ae sd ss.
#[export] Instance upd_halt_control : Update halt_control := fun v c =>
  let '(mkCpu m s r e i ime _ ba ae sd ss) := c in mkCpu m s r e i ime v ba ae sd ss.
#[export] Instance upd_last_bus_activity : Update last_bus_activity := fun v c =>
  let '(mkCpu m s r e i ime h _ ae sd ss) := c in mkCpu m s r e i ime h v ae sd ss.
#[export] Instance upd_last_address_event : Update last_address_event := fun v c =>
  let '(mkCpu m s r e i ime h ba _ sd ss) := c in mkCpu m s r e i ime h ba v sd ss.
#[export] Instance upd_stop_div_reset_requested : Update stop_div_reset_requested := fun v c =>
  let '(mkCpu m s r e i ime h ba ae _ ss) := c in mkCpu m s r e i ime h ba ae v ss.
#[export] Instance upd_cgb_speed_switch_requested : Update cgb_speed_switch_requested := fun v c =>
  let '(mkCpu m s r e i ime h ba ae sd _) := c in mkCpu m s r e i ime h ba ae sd v.

Definition cpu_new (m : ConsoleModel) : CpuCore :=
  {| cpu_console_model := m;
     cpu_startup_state := power_on_reset;
     registers := from_startup_state power_on_reset;
     execution_state := fetch_opcode;
     in_flight := in_flight_default;
     ime_state := ImeDisabled;
     halt_control := HaltIdle;
     last_bus_activity := None;
     last_address_event := None;
     stop_div_reset_requested := false;
     cgb_speed_switch_requested := false |}.

(** *** [cpu/state.rs] *)

Definition ime_enabled (c : CpuCore) : bool := ime_state_enabled (ime_state c).
Definition ime (c : CpuCore) : bool := ime_enabled c.
Definition delayed_ime_enable (c : CpuCore) : bool := delayed_enable_pending (ime_state c).
Definition set_ime_enabled (c : CpuCore) : CpuCore := c <| ime_state := ImeEnabled |>.
Definition set_ime_disabled (c : CpuCore) : CpuCore := c <| ime_state := ImeDisabled |>.

Definition request_halt_after_current_instruction (ime_on had_pending_ei : bool) (c : CpuCore) : CpuCore :=
  c <| halt_control := PendingRequest (mkHaltRequest ime_on had_pending_ei) |>.

Definition take_halt_request (c : CpuCore) : option HaltRequestContext * CpuCore :=
  match halt_control c with
  | PendingRequest context => (Some context, c <| halt_control := HaltIdle |>)
  | _ => (None, c)
  end.

Definition halt_request_pending (c : CpuCore) : bool :=
  match halt_control c with PendingRequest _ => true | _ => false end.

Definition arm_halt_bug (c : CpuCore) : CpuCore := c <| halt_control := HaltBugPending |>.

Definition consume_halt_bug_pending (c : CpuCore) : bool * CpuCore :=
  match halt_control c with
  | HaltBugPending => (true, c <| halt_control := HaltIdle |>)
  | _ => (false, c)
  end.

Definition clear_decoded_instruction_state (c : CpuCore) : CpuCore :=
  c <| in_flight := clear_decoded_state (in_flight c) |>.

Definition clear_in_flight_instruction_state (c : CpuCore) : CpuCore :=
  c <| in_flight := in_flight_clear (in_flight c) |>.

(** *** [cpu/api.rs] *)

Definition current_opcode (c : CpuCore) : option Z := if_opcode (in_flight c).

Definition tick_dma_stall_t_cycle (c : CpuCore) : CpuCore :=
  c <| last_bus_activity := None |> <| last_address_event := None |>.

Definition take_stop_div_reset_request (c : CpuCore) : bool * CpuCore :=
  (stop_div_reset_requested c, c <| stop_div_reset_requested := false |>).

Definition take_cgb_speed_switch_request (c : CpuCore) : bool * CpuCore :=
  (cgb_speed_switch_requested c, c <| cgb_speed_switch_requested := false |>).

Definition cpu_apply_startup_state (s : CpuStartupState) (c : CpuCore) : CpuCore :=
  (clear_in_flight_instruction_state
    (c <| cpu_startup_state := s |>
       <| registers := from_startup_state s |>
       <| execution_state := fetch_opcode |>
       <| ime_state := ImeDisabled |>
       <| halt_control := HaltIdle |>))
    <| last_bus_activity := None |>
    <| last_address_event := None |>
    <| stop_div_reset_requested := false |>
    <| cgb_speed_switch_requested := false |>.
