(* ===== verification/CpuAlu.v ===== *)
(** * Registers and arithmetic ([cpu/registers.rs], [cpu/alu.rs])

    The register file accessors and the ALU, as functions on [CpuRegisters]
    (the methods of the source touch no other part of [CpuCore]); an operation
    that returns a byte returns it beside the new registers.  The theorems
    give the arithmetic meaning of the flags, of [DAA] on BCD operands and of
    the rotates. *)

From Stdlib Require Import ZArith Lia Bool String.
From stdpp Require Import base list tactics decidable option numbers.
From S2P Require Import Prelude CpuData.

Local Open Scope Z_scope.

(** ** Register access ([registers.rs]) *)

Definition condition_is_met (condition : option ConditionCode) (r : CpuRegisters) : bool :=
  match condition with
  | None => true
  | Some CC_Nz => negb (has_bits (r_f r) FLAG_Z)
  | Some CC_Z => has_bits (r_f r) FLAG_Z
  | Some CC_Nc => negb (has_bits (r_f r) FLAG_C)
  | Some CC_C => has_bits (r_f r) FLAG_C
  end.

Definition read_register8 (register : Register8) (r : CpuRegisters) : Z :=
  match register with
  | R8_A => r_a r | R8_B => r_b r | R8_C => r_c r | R8_D => r_d r
  | R8_E => r_e r | R8_H => r_h r | R8_L => r_l r
  end.

Definition write_register8 (register : Register8) (value : Z) (r : CpuRegisters) : CpuRegisters :=
  match register with
  | R8_A => r <| r_a := value |> | R8_B => r <| r_b := value |>
  | R8_C => r <| r_c := value |> | R8_D => r <| r_d := value |>
  | R8_E => r <| r_e := value |> | R8_H => r <| r_h := value |>
  | R8_L => r <| r_l := value |>
  end.

Definition write_register16 (register : Register16) (value : Z) (r : CpuRegisters) : CpuRegisters :=
  let low := low_byte value in
  let high := high_byte value in
  match register with
  | R16_BC => r <| r_b := high |> <| r_c := low |>
  | R16_DE => r <| r_d := high |> <| r_e := low |>
  | R16_HL => r <| r_h := high |> <| r_l := low |>
  | R16_SP => r <| r_sp := value |>
  end.

Definition bc (r : CpuRegisters) : Z := from_be_bytes (r_b r) (r_c r).
Definition de (r : CpuRegisters) : Z := from_be_bytes (r_d r) (r_e r).
Definition hl (r : CpuRegisters) : Z := from_be_bytes (r_h r) (r_l r).

(** The [match] on a [Register16] that [AddHl] and
    [increment_or_decrement_register16] spell out. *)
Definition read_register16 (register : Register16) (r : CpuRegisters) : Z :=
  match register with
  | R16_BC => bc r | R16_DE => de r | R16_HL => hl r | R16_SP => r_sp r
  end.

Definition read_stack_register16 (register : StackRegister16) (r : CpuRegisters) : Z :=
  match register with
  | SR_BC => bc r | SR_DE => de r | SR_HL => hl r
  | SR_AF => from_be_bytes (r_a r) (r_f r)
  end.

Definition write_stack_register16 (register : StackRegister16) (value : Z) (r : CpuRegisters)
    : CpuRegisters :=
  let high := high_byte value in
  let low := low_byte value in
  match register with
  | SR_BC => r <| r_b := high |> <| r_c := low |>
  | SR_DE => r <| r_d := high |> <| r_e := low |>
  | SR_HL => r <| r_h := high |> <| r_l := low |>
  | SR_AF => r <| r_a := high |> <| r_f := Z.land low 0xF0 |>
  end.

Definition increment_or_decrement_register16 (target : Register16)
    (direction : CpuAddressUpdateDirection) (r : CpuRegisters) : Z * CpuRegisters :=
  let current := read_register16 target r in
  let updated := match direction with
                 | Increment => wrapping_add16 current 1
                 | Decrement => wrapping_sub16 current 1
                 end in
  (updated, write_register16 target updated r).

(** ** The ALU ([alu.rs]) *)

Definition flag_if (b : bool) (flag f : Z) : Z := if b then Z.lor f flag else f.

Definition write_flags (zero subtract half_carry carry : bool) (r : CpuRegisters) : CpuRegisters :=
  r <| r_f := flag_if carry FLAG_C (flag_if half_carry FLAG_H
                (flag_if subtract FLAG_N (flag_if zero FLAG_Z 0))) |>.

Definition update_inc_flags (before result : Z) (r : CpuRegisters) : CpuRegisters :=
  let carry := has_bits (r_f r) FLAG_C in
  r <| r_f := flag_if carry FLAG_C
                (flag_if (Z.land before 0x0F =? 0x0F) FLAG_H
                  (flag_if (result =? 0) FLAG_Z 0)) |>.

Definition update_dec_flags (before result : Z) (r : CpuRegisters) : CpuRegisters :=
  let carry := has_bits (r_f r) FLAG_C in
  r <| r_f := flag_if carry FLAG_C
                (flag_if (Z.land before 0x0F =? 0) FLAG_H
                  (flag_if (result =? 0) FLAG_Z FLAG_N)) |>.

Definition add_to_a (value : Z) (r : CpuRegisters) : CpuRegisters :=
  let a := r_a r in
  let '(result, carry) := overflowing_add8 a value in
  let half_carry := 0x0F <? Z.land a 0x0F + Z.land value 0x0F in
  write_flags (result =? 0) false half_carry carry (r <| r_a := result |>).

Definition adc_to_a (value : Z) (r : CpuRegisters) : CpuRegisters :=
  let a := r_a r in
  let carry_in := u8_from_bool (has_bits (r_f r) FLAG_C) in
  let result16 := a + value + carry_in in
  let result := as_u8 result16 in
  let half_carry := 0x0F <? Z.land a 0x0F + Z.land value 0x0F + carry_in in
  write_flags (result =? 0) false half_carry (0xFF <? result16) (r <| r_a := result |>).

Definition sub_from_a (value : Z) (r : CpuRegisters) : CpuRegisters :=
  let a := r_a r in
  let result := wrapping_sub8 a value in
  let half_carry := Z.land a 0x0F <? Z.land value 0x0F in
  let carry := a <? value in
  write_flags (result =? 0) true half_carry carry (r <| r_a := result |>).

Definition sbc_from_a (value : Z) (r : CpuRegisters) : CpuRegisters :=
  let a := r_a r in
  let carry_in := u8_from_bool (has_bits (r_f r) FLAG_C) in
  let result := wrapping_sub8 (wrapping_sub8 a value) carry_in in
  let half_carry := Z.land a 0x0F <? Z.land value 0x0F + carry_in in
  let carry := a <? value + carry_in in
  write_flags (result =? 0) true half_carry carry (r <| r_a := result |>).

Definition and_with_a (value : Z) (r : CpuRegisters) : CpuRegisters :=
  let r := r <| r_a := Z.land (r_a r) value |> in
  write_flags (r_a r =? 0) false true false r.

Definition xor_with_a (value : Z) (r : CpuRegisters) : CpuRegisters :=
  let r := r <| r_a := Z.lxor (r_a r) value |> in
  write_flags (r_a r =? 0) false false false r.

Definition or_with_a (value : Z) (r : CpuRegisters) : CpuRegisters :=
  let r := r <| r_a := Z.lor (r_a r) value |> in
  write_flags (r_a r =? 0) false false false r.

Definition compare_a (value : Z) (r : CpuRegisters) : CpuRegisters :=
  let a := r_a r in
  let result := wrapping_sub8 a value in
  let half_carry := Z.land a 0x0F <? Z.land value 0x0F in
  let carry := a <? value in
  write_flags (result =? 0) true half_carry carry r.

Definition add_to_hl (value : Z) (r : CpuRegisters) : CpuRegisters :=
  let h := hl r in
  let result := wrapping_add16 h value in
  let zero := has_bits (r_f r) FLAG_Z in
  let half_carry := 0x0FFF <? Z.land h 0x0FFF + Z.land value 0x0FFF in
  let carry := 0xFFFF <? h + value in
  write_flags zero false half_carry carry (write_register16 R16_HL result r).

Definition sp_plus_signed_immediate (value : Z) (r : CpuRegisters) : Z * CpuRegisters :=
  let sp := r_sp r in
  let result := wrapping_add_signed16 sp (as_i8 value) in
  let half_carry := 0x000F <? Z.land sp 0x000F + Z.land value 0x0F in
  let carry := 0x00FF <? Z.land sp 0x00FF + value in
  (result, write_flags false false half_carry carry r).

Definition apply_alu_operation (operation : AluOperation) (value : Z) (r : CpuRegisters) : CpuRegisters :=
  match operation with
  | AluAdd => add_to_a value r
  | AluAdc => adc_to_a value r
  | AluSub => sub_from_a value r
  | AluSbc => sbc_from_a value r
  | AluAnd => and_with_a value r
  | AluXor => xor_with_a value r
  | AluOr => or_with_a value r
  | AluCompare => compare_a value r
  end.

Definition decimal_adjust_a (r : CpuRegisters) : CpuRegisters :=
  let a := r_a r in
  let subtract := has_bits (r_f r) FLAG_N in
  let half_carry := has_bits (r_f r) FLAG_H in
  let carry := has_bits (r_f r) FLAG_C in
  let '(a', next_carry) :=
    if negb subtract then
      let adjust := if half_carry || (0x09 <? Z.land a 0x0F) then Z.lor 0 0x06 else 0 in
      let '(adjust, next_carry) :=
        if carry || (0x99 <? a) then (Z.lor adjust 0x60, true) else (adjust, carry) in
      (wrapping_add8 a adjust, next_carry)
    else
      let adjust := if half_carry then Z.lor 0 0x06 else 0 in
      let adjust := if carry then Z.lor adjust 0x60 else adjust in
      (wrapping_sub8 a adjust, carry) in
  write_flags (a' =? 0) subtract false next_carry (r <| r_a := a' |>).

Definition complement_a (r : CpuRegisters) : CpuRegisters :=
  let r := r <| r_a := not8 (r_a r) |> in
  write_flags (has_bits (r_f r) FLAG_Z) true true (has_bits (r_f r) FLAG_C) r.

Definition set_carry_flag (r : CpuRegisters) : CpuRegisters :=
  write_flags (has_bits (r_f r) FLAG_Z) false false true r.

Definition complement_carry_flag (r : CpuRegisters) : CpuRegisters :=
  write_flags (has_bits (r_f r) FLAG_Z) false false (negb (has_bits (r_f r) FLAG_C)) r.

Definition rotate_left_carry (value : Z) (r : CpuRegisters) : Z * CpuRegisters :=
  let carry := has_bits value 0x80 in
  let result := rotate_left8 value 1 in
  (result, write_flags (result =? 0) false false carry r).

Definition rotate_right_carry (value : Z) (r : CpuRegisters) : Z * CpuRegisters :=
  let carry := has_bits value 0x01 in
  let result := rotate_right8 value 1 in
  (result, write_flags (result =? 0) false false carry r).

Definition rotate_left_through_carry (value : Z) (r : CpuRegisters) : Z * CpuRegisters :=
  let carry_in := u8_from_bool (has_bits (r_f r) FLAG_C) in
  let carry_out := has_bits value 0x80 in
  let result := Z.lor (shl8 value 1) carry_in in
  (result, write_flags (result =? 0) false false carry_out r).

Definition rotate_right_through_carry (value : Z) (r : CpuRegisters) : Z * CpuRegisters :=
  let carry_in := shl8 (u8_from_bool (has_bits (r_f r) FLAG_C)) 7 in
  let carry_out := has_bits value 0x01 in
  let result := Z.lor (shr8 value 1) carry_in in
  (result, write_flags (result =? 0) false false carry_out r).

Definition shift_left_arithmetic (value : Z) (r : CpuRegisters) : Z * CpuRegisters :=
  let carry_out := has_bits value 0x80 in
  let result := shl8 value 1 in
  (result, write_flags (result =? 0) false false carry_out r).

Definition shift_right_arithmetic (value : Z) (r : CpuRegisters) : Z * CpuRegisters :=
  let carry_out := has_bits value 0x01 in
  let result := Z.lor (shr8 value 1) (Z.land value 0x80) in
  (result, write_flags (result =? 0) false false carry_out r).

Definition swap_nibbles (value : Z) (r : CpuRegisters) : Z * CpuRegisters :=
  let result := rotate_left8 value 4 in
  (result, write_flags (result =? 0) false false false r).

Definition shift_right_logical (value : Z) (r : CpuRegisters) : Z * CpuRegisters :=
  let carry_out := has_bits value 0x01 in
  let result := shr8 value 1 in
  (result, write_flags (result =? 0) false false carry_out r).

Definition bit_test (bit value : Z) (r : CpuRegisters) : CpuRegisters :=
  let carry := has_bits (r_f r) FLAG_C in
  r <| r_f := flag_if carry FLAG_C
                (flag_if (Z.land value (shl8 1 bit) =? 0) FLAG_Z FLAG_H) |>.

Definition reset_bit (value bit : Z) : Z := Z.land value (not8 (shl8 1 bit)).
Definition set_bit (value bit : Z) : Z := Z.lor value (shl8 1 bit).

Definition apply_cb_operation (kind : CbInstructionKind) (value : Z) (r : CpuRegisters)
    : option Z * CpuRegisters :=
  let some (p : Z * CpuRegisters) := (Some p.1, p.2) in
  match kind with
  | RotateLeftCarry _ => some (rotate_left_carry value r)
  | RotateRightCarry _ => some (rotate_right_carry value r)
  | RotateLeftThroughCarry _ => some (rotate_left_through_carry value r)
  | RotateRightThroughCarry _ => some (rotate_right_through_carry value r)
  | ShiftLeftArithmetic _ => some (shift_left_arithmetic value r)
  | ShiftRightArithmetic _ => some (shift_right_arithmetic value r)
  | SwapNibbles _ => some (swap_nibbles value r)
  | ShiftRightLogical _ => some (shift_right_logical value r)
  | BitTest bit _ => (None, bit_test bit value r)
  | ResetBit bit _ => (Some (reset_bit value bit), r)
  | SetBit bit _ => (Some (set_bit value bit), r)
  end.

(** ** Well-formed registers *)

(** Every register holds its machine width and the low nibble of [F] is zero. *)
Record regs_ok (r : CpuRegisters) : Prop := mkRegsOk {
  ok_a : u8 (r_a r); ok_b : u8 (r_b r); ok_c : u8 (r_c r); ok_d : u8 (r_d r);
  ok_e : u8 (r_e r); ok_h : u8 (r_h r); ok_l : u8 (r_l r);
  ok_sp : u16 (r_sp r); ok_pc : u16 (r_pc r);
  ok_f : u8 (r_f r); ok_f_low : Z.land (r_f r) 0x0F = 0
}.

Lemma u8_flag_if b flag f : u8 flag -> u8 f -> u8 (flag_if b flag f).
Proof. destruct b; simpl; auto with gb. Qed.

Ltac regs_cases r Hr :=
  destruct r as [ra rf rb rc rd re rh rl rsp rpc]; destruct Hr; simpl in *.

Ltac regs_goal := split; cbn; auto with gb.

Section Preservation.
Variable r : CpuRegisters.
Hypothesis Hr : regs_ok r.

Lemma write_register8_ok register v : u8 v -> regs_ok (write_register8 register v r).
Proof using Hr. intros. regs_cases r Hr. destruct register; regs_goal. Qed.

Lemma write_register16_ok register v : u16 v -> regs_ok (write_register16 register v r).
Proof using Hr. intros. regs_cases r Hr. destruct register; regs_goal. Qed.

Lemma land_F0_low x : Z.land (Z.land x 0xF0) 0x0F = 0.
Proof. rewrite <- Z.land_assoc. apply Z.land_0_r. Qed.

Lemma write_stack_register16_ok register v : u16 v -> regs_ok (write_stack_register16 register v r).
Proof using Hr.
  intros. regs_cases r Hr. destruct register; regs_goal. apply land_F0_low.
Qed.

Lemma set_pc_ok v : u16 v -> regs_ok (r <| r_pc := v |>).
Proof using Hr. intros. regs_cases r Hr. regs_goal. Qed.
Lemma set_sp_ok v : u16 v -> regs_ok (r <| r_sp := v |>).
Proof using Hr. intros. regs_cases r Hr. regs_goal. Qed.
Lemma set_a_ok v : u8 v -> regs_ok (r <| r_a := v |>).
Proof using Hr. intros. regs_cases r Hr. regs_goal. Qed.

Lemma read_register8_ok register : u8 (read_register8 register r).
Proof using Hr. regs_cases r Hr. destruct register; done. Qed.
Lemma bc_ok : u16 (bc r).
Proof using Hr. regs_cases r Hr. apply u16_from_be_bytes; done. Qed.
Lemma de_ok : u16 (de r).
Proof using Hr. regs_cases r Hr. apply u16_from_be_bytes; done. Qed.
Lemma hl_ok : u16 (hl r).
Proof using Hr. regs_cases r Hr. apply u16_from_be_bytes; done. Qed.
Lemma read_register16_ok register : u16 (read_register16 register r).
Proof using Hr. destruct register; [apply bc_ok | apply de_ok | apply hl_ok | apply Hr]. Qed.
Lemma read_stack_register16_ok register : u16 (read_stack_register16 register r).
Proof using Hr.
  destruct register; [apply bc_ok | apply de_ok | apply hl_ok |].
  apply u16_from_be_bytes; apply Hr.
Qed.

(** The flag writes of the ALU keep [F] in range with a zero low nibble. *)
Lemma set_flags_ok z n h c f :
  f = flag_if c FLAG_C (flag_if h FLAG_H (flag_if n FLAG_N (flag_if z FLAG_Z 0))) ->
  regs_ok (r <| r_f := f |>).
Proof using Hr.
  intros ->. regs_cases r Hr. split; cbn; auto;
    destruct z, n, h, c; cbn; try done; unfold u8; lia.
Qed.

Lemma write_flags_ok z n h c : regs_ok (write_flags z n h c r).
Proof using Hr. by eapply set_flags_ok. Qed.

Lemma update_inc_flags_ok b v : regs_ok (update_inc_flags b v r).
Proof using Hr. by apply (set_flags_ok (v =? 0) false (Z.land b 0x0F =? 0x0F) (has_bits (r_f r) FLAG_C)). Qed.

Lemma update_dec_flags_ok b v : regs_ok (update_dec_flags b v r).
Proof using Hr.
  apply (set_flags_ok (v =? 0) true (Z.land b 0x0F =? 0) (has_bits (r_f r) FLAG_C)).
  destruct (v =? 0); done.
Qed.

Lemma bit_test_ok bit v : regs_ok (bit_test bit v r).
Proof using Hr.
  apply (set_flags_ok (Z.land v (shl8 1 bit) =? 0) false true (has_bits (r_f r) FLAG_C)).
  destruct (_ =? 0); done.
Qed.
End Preservation.

#[export] Hint Resolve write_register8_ok write_register16_ok write_stack_register16_ok
  set_pc_ok set_sp_ok set_a_ok read_register8_ok bc_ok de_ok hl_ok read_register16_ok
  read_stack_register16_ok write_flags_ok update_inc_flags_ok update_dec_flags_ok bit_test_ok
  ok_a ok_b ok_c ok_d ok_e ok_h ok_l ok_sp ok_pc ok_f : gb.

Section OperationPreservation.
Variable r : CpuRegisters.
Hypothesis Hr : regs_ok r.

Lemma increment_or_decrement_register16_ok target direction :
  regs_ok (increment_or_decrement_register16 target direction r).2 /\
  u16 (increment_or_decrement_register16 target direction r).1.
Proof using Hr. destruct direction; cbn; auto with gb. Qed.

Lemma apply_alu_operation_ok operation v : u8 v -> regs_ok (apply_alu_operation operation v r).
Proof using Hr.
  intros. destruct operation;
    cbv beta iota zeta delta [apply_alu_operation add_to_a adc_to_a sub_from_a sbc_from_a
      and_with_a xor_with_a or_with_a compare_a overflowing_add8]; auto 6 with gb.
Qed.

Lemma add_to_hl_ok v : regs_ok (add_to_hl v r).
Proof using Hr. unfold add_to_hl. auto 6 with gb. Qed.

Lemma sp_plus_signed_immediate_ok v :
  regs_ok (sp_plus_signed_immediate v r).2 /\ u16 (sp_plus_signed_immediate v r).1.
Proof using Hr. cbn. auto with gb. Qed.

Lemma decimal_adjust_a_ok : regs_ok (decimal_adjust_a r).
Proof using Hr. unfold decimal_adjust_a. case_tests; auto with gb. Qed.

Lemma complement_a_ok : regs_ok (complement_a r).
Proof using Hr. unfold complement_a. auto with gb. Qed.

Lemma apply_cb_operation_ok kind v :
  u8 v ->
  regs_ok (apply_cb_operation kind v r).2 /\
  forall x, (apply_cb_operation kind v r).1 = Some x -> u8 x.
Proof using Hr.
  intros. destruct kind;
    cbv beta iota zeta delta [apply_cb_operation rotate_left_carry rotate_right_carry
      rotate_left_through_carry rotate_right_through_carry shift_left_arithmetic
      shift_right_arithmetic swap_nibbles shift_right_logical reset_bit set_bit fst snd];
    (split; [auto with gb | intros x [= <-]; auto 6 with gb]).
Qed.
End OperationPreservation.

#[export] Hint Resolve apply_alu_operation_ok add_to_hl_ok decimal_adjust_a_ok complement_a_ok : gb.

(** ** What the operations compute *)

Definition zf (r : CpuRegisters) : bool := has_bits (r_f r) FLAG_Z.
Definition nf (r : CpuRegisters) : bool := has_bits (r_f r) FLAG_N.
Definition hf (r : CpuRegisters) : bool := has_bits (r_f r) FLAG_H.
Definition cf (r : CpuRegisters) : bool := has_bits (r_f r) FLAG_C.

Section FlagReads.
Variables z n h c : bool.
Variable r : CpuRegisters.
Lemma zf_write_flags : zf (write_flags z n h c r) = z.
Proof. destruct r, z, n, h, c; done. Qed.
Lemma nf_write_flags : nf (write_flags z n h c r) = n.
Proof. destruct r, z, n, h, c; done. Qed.
Lemma hf_write_flags : hf (write_flags z n h c r) = h.
Proof. destruct r, z, n, h, c; done. Qed.
Lemma cf_write_flags : cf (write_flags z n h c r) = c.
Proof. destruct r, z, n, h, c; done. Qed.
Lemma a_write_flags : r_a (write_flags z n h c r) = r_a r.
Proof. destruct r; done. Qed.
Lemma a_set_a v : r_a (r <| r_a := v |>) = v.
Proof. destruct r; done. Qed.
Lemma f_set_a v : r_f (r <| r_a := v |>) = r_f r.
Proof. destruct r; done. Qed.
End FlagReads.

Create Rewrite HintDb flags.
#[export] Hint Rewrite zf_write_flags nf_write_flags hf_write_flags cf_write_flags a_write_flags
  a_set_a f_set_a : flags.

(** The carry equation of a byte addition or subtraction: the full result is
    recovered from the stored byte and the carry (or borrow) flag, at both the
    byte and the nibble. *)
Definition carry_equation (sign a v cin result : Z) (half full : bool) : Prop :=
  u8 result /\
  a + sign * (v + cin) = result + sign * (256 * u8_from_bool full) /\
  a mod 16 + sign * (v mod 16 + cin) = result mod 16 + sign * (16 * u8_from_bool half).

Lemma u8_of_bool_cases b : u8_from_bool b = 0 \/ u8_from_bool b = 1.
Proof. destruct b; auto. Qed.

Lemma add_carry_equation a v cin :
  u8 a -> u8 v -> cin = 0 \/ cin = 1 ->
  carry_equation 1 a v cin ((a + v + cin) mod 256) (0x0F <? a mod 16 + v mod 16 + cin)
    (0xFF <? a + v + cin).
Proof.
  unfold carry_equation, u8, u8_from_bool. intros Ha Hv Hc.
  repeat case_tests; prune; divmod_lia.
Qed.

Lemma sub_carry_equation a v cin :
  u8 a -> u8 v -> cin = 0 \/ cin = 1 ->
  carry_equation (-1) a v cin ((a - v - cin) mod 256) (a mod 16 <? v mod 16 + cin) (a <? v + cin).
Proof.
  unfold carry_equation, u8, u8_from_bool. intros Ha Hv Hc.
  repeat case_tests; prune; divmod_lia.
Qed.

Definition alu_meaning (operation : AluOperation) (v : Z) (r r' : CpuRegisters) : Prop :=
  let a := r_a r in
  let cin := u8_from_bool (cf r) in
  match operation with
  | AluAdd => carry_equation 1 a v 0 (r_a r') (hf r') (cf r') /\ nf r' = false /\ zf r' = (r_a r' =? 0)
  | AluAdc => carry_equation 1 a v cin (r_a r') (hf r') (cf r') /\ nf r' = false /\ zf r' = (r_a r' =? 0)
  | AluSub => carry_equation (-1) a v 0 (r_a r') (hf r') (cf r') /\ nf r' = true /\ zf r' = (r_a r' =? 0)
  | AluSbc => carry_equation (-1) a v cin (r_a r') (hf r') (cf r') /\ nf r' = true /\ zf r' = (r_a r' =? 0)
  | AluCompare => r_a r' = a /\ zf r' = (a =? v) /\ nf r' = true /\
      exists difference, carry_equation (-1) a v 0 difference (hf r') (cf r')
  | AluAnd => (forall i, 0 <= i -> Z.testbit (r_a r') i = Z.testbit a i && Z.testbit v i) /\
      zf r' = (r_a r' =? 0) /\ nf r' = false /\ hf r' = true /\ cf r' = false
  | AluXor => (forall i, 0 <= i -> Z.testbit (r_a r') i = xorb (Z.testbit a i) (Z.testbit v i)) /\
      zf r' = (r_a r' =? 0) /\ nf r' = false /\ hf r' = false /\ cf r' = false
  | AluOr => (forall i, 0 <= i -> Z.testbit (r_a r') i = Z.testbit a i || Z.testbit v i) /\
      zf r' = (r_a r' =? 0) /\ nf r' = false /\ hf r' = false /\ cf r' = false
  end.

Ltac alu_unfold :=
  cbv beta iota zeta delta [apply_alu_operation add_to_a adc_to_a sub_from_a sbc_from_a
    and_with_a xor_with_a or_with_a compare_a overflowing_add8 wrapping_sub8 as_u8].

Lemma ltb_pred_leb x : (256 <=? x) = (255 <? x).
Proof. destruct (Z.leb_spec 256 x), (Z.ltb_spec 255 x); lia. Qed.

Lemma wrapping_sub8_zero a v : u8 a -> u8 v -> ((a - v) mod 256 =? 0) = (a =? v).
Proof. unfold u8. intros. destruct (Z.eqb_spec a v); destruct (Z.eqb_spec ((a - v) mod 256) 0); divmod_lia. Qed.

Section CarryOperations.
Variable v : Z.
Variable r : CpuRegisters.
Hypothesis Ha : u8 (r_a r).
Hypothesis Hv : u8 v.

Lemma add_to_a_meaning : alu_meaning AluAdd v r (add_to_a v r).
Proof using Ha Hv.
  unfold alu_meaning. alu_unfold. autorewrite with flags masks.
  pose proof (add_carry_equation (r_a r) v 0 Ha Hv (or_introl eq_refl)) as H.
  rewrite !Z.add_0_r in H. rewrite ltb_pred_leb. done.
Qed.

Lemma adc_to_a_meaning : alu_meaning AluAdc v r (adc_to_a v r).
Proof using Ha Hv.
  unfold alu_meaning. alu_unfold. autorewrite with flags masks.
  destruct (add_carry_equation (r_a r) v (u8_from_bool (cf r)) Ha Hv (u8_of_bool_cases _)).
  unfold cf in *. done.
Qed.

Lemma sub_from_a_meaning : alu_meaning AluSub v r (sub_from_a v r).
Proof using Ha Hv.
  unfold alu_meaning. alu_unfold. autorewrite with flags masks.
  pose proof (sub_carry_equation (r_a r) v 0 Ha Hv (or_introl eq_refl)) as H.
  rewrite !Z.add_0_r, Z.sub_0_r in H. done.
Qed.

Lemma sbc_from_a_meaning : alu_meaning AluSbc v r (sbc_from_a v r).
Proof using Ha Hv.
  unfold alu_meaning. alu_unfold. autorewrite with flags masks.
  pose proof (sub_carry_equation (r_a r) v (u8_from_bool (cf r)) Ha Hv (u8_of_bool_cases _)) as H.
  unfold cf in *. rewrite Zminus_mod_idemp_l. done.
Qed.

Lemma compare_a_meaning : alu_meaning AluCompare v r (compare_a v r).
Proof using Ha Hv.
  unfold alu_meaning. alu_unfold. autorewrite with flags masks.
  rewrite wrapping_sub8_zero by done. repeat split; try done.
  exists ((r_a r - v) mod 256).
  pose proof (sub_carry_equation (r_a r) v 0 Ha Hv (or_introl eq_refl)) as H.
  rewrite !Z.add_0_r, Z.sub_0_r in H. done.
Qed.
End CarryOperations.

(** C23. Every ALU operation computes what it names: the additions and
    subtractions satisfy the carry equation of the byte and of the low nibble
    (with the carry in for ADC and SBC), CP leaves A and sets the flags of a
    subtraction, AND, XOR and OR act bit by bit, and Z is set exactly on a
    zero result. *)
Theorem alu_operations_correct (operation : AluOperation) (v : Z) (r : CpuRegisters) :
  u8 (r_a r) -> u8 v -> alu_meaning operation v r (apply_alu_operation operation v r).
Proof.
  intros Ha Hv. destruct operation.
  - by apply add_to_a_meaning.
  - by apply adc_to_a_meaning.
  - by apply sub_from_a_meaning.
  - by apply sbc_from_a_meaning.
  - unfold alu_meaning. alu_unfold. autorewrite with flags.
    split; [intros; apply Z.land_spec | done].
  - unfold alu_meaning. alu_unfold. autorewrite with flags.
    split; [intros; apply Z.lxor_spec | done].
  - unfold alu_meaning. alu_unfold. autorewrite with flags.
    split; [intros; apply Z.lor_spec | done].
  - by apply compare_a_meaning.
Qed.

(** 0x8F + 0x01 + carry carries out of the low nibble only. *)
Lemma alu_operations_correct_witness :
  u8 (r_a (mkRegs 0x8F 0x10 0 0 0 0 0 0 0 0)) /\ u8 1 /\
  alu_meaning AluAdc 1 (mkRegs 0x8F 0x10 0 0 0 0 0 0 0 0)
    (apply_alu_operation AluAdc 1 (mkRegs 0x8F 0x10 0 0 0 0 0 0 0 0)).
Proof.
  assert (Ha : u8 0x8F) by (unfold u8; lia).
  assert (Hv : u8 1) by (unfold u8; lia).
  exact (conj Ha (conj Hv
    (alu_operations_correct AluAdc 1 (mkRegs 0x8F 0x10 0 0 0 0 0 0 0 0) Ha Hv))).
Defined.

(** *** Decimal adjustment *)

(** The number a byte denotes in binary-coded decimal, and the bytes that
    denote one. *)
Definition bcd_value (x : Z) : Z := 10 * (x / 16) + x mod 16.
Definition is_bcd (x : Z) : Prop := 0 <= x /\ x / 16 <= 9 /\ x mod 16 <= 9.

(** [decimal_adjust_a] as a function of [A] and the flags. *)
Definition daa_value (a : Z) (n h c : bool) : Z * bool :=
  if n then ((a - (if h then 6 else 0) - (if c then 96 else 0)) mod 256, c)
  else ((a + (if h || (9 <? a mod 16) then 6 else 0) + (if c || (153 <? a) then 96 else 0)) mod 256,
        c || (153 <? a)).

Lemma decimal_adjust_a_value r :
  (r_a (decimal_adjust_a r), cf (decimal_adjust_a r)) = daa_value (r_a r) (nf r) (hf r) (cf r).
Proof.
  unfold decimal_adjust_a, daa_value, nf, hf. change (cf r) with (has_bits (r_f r) FLAG_C).
  rewrite land_0F. unfold wrapping_add8, wrapping_sub8.
  destruct (has_bits _ FLAG_N), (has_bits _ FLAG_H), (has_bits _ FLAG_C), (9 <? _), (153 <? _);
    cbn -[Z.modulo Z.add Z.sub write_flags update];
    change (Z.lor (Z.lor 0 6) 96) with 102; change (Z.lor 0 6) with 6; change (Z.lor 0 96) with 96;
    autorewrite with flags; f_equal; f_equal; lia.
Qed.

Lemma daa_after_add a v cin s h c :
  is_bcd a -> is_bcd v -> cin = 0 \/ cin = 1 ->
  carry_equation 1 a v cin s h c ->
  let '(d, c') := daa_value s false h c in
  is_bcd d /\ bcd_value d + 100 * u8_from_bool c' = bcd_value a + bcd_value v + cin.
Proof.
  unfold carry_equation, is_bcd, bcd_value, u8. intros Ha Hv Hc (Hs & Hfull & Hhalf).
  cbn [daa_value]. destruct h, c, (Z.ltb_spec 9 (s mod 16)), (Z.ltb_spec 153 s);
    cbn [orb u8_from_bool] in *; divmod_lia.
Qed.

Lemma daa_after_sub a v cin s h c :
  is_bcd a -> is_bcd v -> cin = 0 \/ cin = 1 ->
  carry_equation (-1) a v cin s h c ->
  let '(d, c') := daa_value s true h c in
  is_bcd d /\ bcd_value d - 100 * u8_from_bool c' = bcd_value a - bcd_value v - cin.
Proof.
  unfold carry_equation, is_bcd, bcd_value, u8. intros Ha Hv Hc (Hs & Hfull & Hhalf).
  cbn [daa_value]. destruct h, c; cbn [orb u8_from_bool] in *; divmod_lia.
Qed.

(** The four operations whose result DAA adjusts, with the carry each takes in. *)
Definition decimal_carry_in (operation : AluOperation) (r : CpuRegisters) : Z :=
  match operation with
  | AluAdc | AluSbc => u8_from_bool (cf r)
  | _ => 0
  end.

(** After ADD, ADC, SUB or SBC on binary-coded decimal operands, DAA
    leaves in A the decimal sum or difference of the operands modulo 100, as a
    valid BCD byte, and in C the decimal carry or borrow. *)
Theorem daa_adjusts_decimal_arithmetic (operation : AluOperation) (v : Z) (r : CpuRegisters) :
  is_bcd (r_a r) -> is_bcd v ->
  In operation [AluAdd; AluAdc; AluSub; AluSbc] ->
  let r' := decimal_adjust_a (apply_alu_operation operation v r) in
  let cin := decimal_carry_in operation r in
  is_bcd (r_a r') /\ (if nf (apply_alu_operation operation v r)
   then bcd_value (r_a r') - 100 * u8_from_bool (cf r') = bcd_value (r_a r) - bcd_value v - cin
   else bcd_value (r_a r') + 100 * u8_from_bool (cf r') = bcd_value (r_a r) + bcd_value v + cin).
Proof.
  intros Ha Hv Hop r' cin.
  assert (Ha8 : u8 (r_a r)) by (unfold u8, is_bcd in *; divmod_lia).
  assert (Hv8 : u8 v) by (unfold u8, is_bcd in *; divmod_lia).
  pose proof (decimal_adjust_a_value (apply_alu_operation operation v r)) as Hd.
  fold r' in Hd.
  destruct Hop as [<- | [<- | [<- | [<- | []]]]]; cbn [apply_alu_operation] in *.
  - destruct (add_to_a_meaning v r Ha8 Hv8) as (Heq & Hn & _). rewrite Hn in *.
    pose proof (daa_after_add _ _ _ _ _ _ Ha Hv (or_introl eq_refl) Heq) as H.
    rewrite <- Hd in H. exact H.
  - destruct (adc_to_a_meaning v r Ha8 Hv8) as (Heq & Hn & _). rewrite Hn in *.
    pose proof (daa_after_add _ _ _ _ _ _ Ha Hv (u8_of_bool_cases _) Heq) as H.
    rewrite <- Hd in H. exact H.
  - destruct (sub_from_a_meaning v r Ha8 Hv8) as (Heq & Hn & _). rewrite Hn in *.
    pose proof (daa_after_sub _ _ _ _ _ _ Ha Hv (or_introl eq_refl) Heq) as H.
    rewrite <- Hd in H. exact H.
  - destruct (sbc_from_a_meaning v r Ha8 Hv8) as (Heq & Hn & _). rewrite Hn in *.
    pose proof (daa_after_sub _ _ _ _ _ _ Ha Hv (u8_of_bool_cases _) Heq) as H.
    rewrite <- Hd in H. exact H.
Qed.

(** 47 + 38 = 85 in decimal. *)
Lemma daa_adjusts_decimal_arithmetic_witness :
  let r := mkRegs 0x47 0 0 0 0 0 0 0 0 0 in
  is_bcd (r_a r) /\ is_bcd 0x38 /\ In AluAdd [AluAdd; AluAdc; AluSub; AluSbc] /\ bcd_value (r_a (decimal_adjust_a (apply_alu_operation AluAdd 0x38 r))) = 85 /\ is_bcd (r_a (decimal_adjust_a (apply_alu_operation AluAdd 0x38 r))).
Proof.
  assert (H1 : is_bcd 0x47) by (repeat split; cbv; congruence).
  assert (H2 : is_bcd 0x38) by (repeat split; cbv; congruence).
  assert (H3 : In AluAdd [AluAdd; AluAdc; AluSub; AluSbc]) by (left; reflexivity).
  exact (conj H1 (conj H2 (conj H3 (conj eq_refl
    (proj1 (daa_adjusts_decimal_arithmetic AluAdd 0x38 (mkRegs 0x47 0 0 0 0 0 0 0 0 0) H1 H2 H3)))))).
Defined.

(** *** Bits of the rotates, shifts and bit operations *)

Section Bits8.
Variables v i : Z.
Hypothesis Hv : u8 v.
Hypothesis Hi : 0 <= i < 8.

Lemma testbit_u8_high j : 8 <= j -> Z.testbit v j = false.
Proof using Hv.
  intros. rewrite <- (Z.mod_small v (2 ^ 8)) by (unfold u8 in Hv; lia).
  apply Z.mod_pow2_bits_high. lia.
Qed.

Lemma testbit_shl8 n : 0 <= n -> Z.testbit (shl8 v n) i = (n <=? i) && Z.testbit v (i - n).
Proof using Hi.
  intros. unfold shl8. rewrite (Z.mod_pow2_bits_low _ 8), Z.shiftl_spec by lia.
  destruct (Z.leb_spec n i); [done|]. by rewrite Z.testbit_neg_r by lia.
Qed.

Lemma testbit_shr8 n : 0 <= n -> Z.testbit (shr8 v n) i = Z.testbit v (i + n).
Proof using Hi. intros. apply Z.shiftr_spec. lia. Qed.

Lemma testbit_rotate_left8 n : 0 <= n <= 8 ->
  Z.testbit (rotate_left8 v n) i = Z.testbit v ((i - n) mod 8).
Proof using Hv Hi.
  intros. unfold rotate_left8. fold (shl8 v n) (shr8 v (8 - n)).
  rewrite Z.lor_spec, testbit_shl8, testbit_shr8 by lia.
  destruct (Z.leb_spec n i).
  - rewrite (testbit_u8_high (i + (8 - n))), orb_false_r by lia.
    rewrite Z.mod_small by lia. done.
  - simpl. f_equal. apply (Z.mod_unique _ _ (-1)); lia.
Qed.

Lemma testbit_rotate_right8 n : 0 <= n <= 8 ->
  Z.testbit (rotate_right8 v n) i = Z.testbit v ((i + n) mod 8).
Proof using Hv Hi.
  intros. unfold rotate_right8. fold (shl8 v (8 - n)) (shr8 v n).
  rewrite Z.lor_spec, testbit_shl8, testbit_shr8 by lia.
  destruct (Z.leb_spec (8 - n) i).
  - rewrite (testbit_u8_high (i + n)) by lia. simpl. f_equal. apply (Z.mod_unique _ _ 1); lia.
  - rewrite orb_false_r, Z.mod_small by lia. done.
Qed.

Lemma testbit_one_shl8 b : 0 <= b < 8 -> shl8 1 b = 2 ^ b.
Proof.
  intros. unfold shl8. rewrite Z.shiftl_1_l. apply Z.mod_small. split; [lia|].
  apply (Z.pow_lt_mono_r 2 b 8); lia.
Qed.

Lemma testbit_u8_from_bool (c : bool) : Z.testbit (u8_from_bool c) i = (i =? 0) && c.
Proof using Hi.
  destruct c; simpl; rewrite ?andb_true_r, ?andb_false_r; [|apply Z.testbit_0_l].
  destruct (Z.eqb_spec i 0) as [->|]; [done|]. apply (Z.pow2_bits_false 0). lia.
Qed.

Lemma testbit_not8 : Z.testbit (not8 v) i = negb (Z.testbit v i).
Proof using Hi.
  unfold not8. rewrite Z.lxor_spec. change 0xFF with (Z.ones 8).
  rewrite Z.ones_spec_low by lia. apply xorb_true_r.
Qed.
End Bits8.

Lemma has_bits_80 v : has_bits v 0x80 = Z.testbit v 7.
Proof. apply (has_bits_pow2 v 7). lia. Qed.
Lemma has_bits_01 v : has_bits v 0x01 = Z.testbit v 0.
Proof. apply (has_bits_pow2 v 0). lia. Qed.

(** What a CB-prefixed operation on the byte [v] yields, bit by bit. *)
Definition cb_bits (kind : CbInstructionKind) (v : Z) (carry : bool) (i : Z) : bool :=
  match kind with
  | RotateLeftCarry _ => Z.testbit v ((i - 1) mod 8)
  | RotateRightCarry _ => Z.testbit v ((i + 1) mod 8)
  | RotateLeftThroughCarry _ => if i =? 0 then carry else Z.testbit v (i - 1)
  | RotateRightThroughCarry _ => if i =? 7 then carry else Z.testbit v (i + 1)
  | ShiftLeftArithmetic _ => if i =? 0 then false else Z.testbit v (i - 1)
  | ShiftRightArithmetic _ => if i =? 7 then Z.testbit v 7 else Z.testbit v (i + 1)
  | SwapNibbles _ => Z.testbit v ((i + 4) mod 8)
  | ShiftRightLogical _ => if i =? 7 then false else Z.testbit v (i + 1)
  | BitTest _ _ => Z.testbit v i
  | ResetBit bit _ => if i =? bit then false else Z.testbit v i
  | SetBit bit _ => if i =? bit then true else Z.testbit v i
  end.

(** The carry flag it leaves. *)
Definition cb_carry_out (kind : CbInstructionKind) (v : Z) (carry : bool) : bool :=
  match kind with
  | RotateLeftCarry _ | RotateLeftThroughCarry _ | ShiftLeftArithmetic _ => Z.testbit v 7
  | RotateRightCarry _ | RotateRightThroughCarry _ | ShiftRightArithmetic _
  | ShiftRightLogical _ => Z.testbit v 0
  | SwapNibbles _ => false
  | BitTest _ _ | ResetBit _ _ | SetBit _ _ => carry
  end.

Definition cb_bit (kind : CbInstructionKind) : Z :=
  match kind with
  | BitTest bit _ | ResetBit bit _ | SetBit bit _ => bit
  | _ => 0
  end.

Definition cb_is_bit_test (kind : CbInstructionKind) : bool :=
  match kind with BitTest _ _ => true | _ => false end.

Definition cb_result_bits (kind : CbInstructionKind) (v : Z) (r : CpuRegisters) (x : Z) : Prop :=
  forall i, 0 <= i < 8 -> Z.testbit x i = cb_bits kind v (cf r) i.

Lemma cb_result_bits_holds kind v r x :
  u8 v -> 0 <= cb_bit kind < 8 ->
  (apply_cb_operation kind v r).1 = Some x -> cb_result_bits kind v r x.
Proof.
  intros Hv Hb Hx i Hi. destruct kind; cbn [apply_cb_operation cb_bits cb_bit fst snd] in *;
    try discriminate; injection Hx as <-.
  - by rewrite testbit_rotate_left8 by (done || lia).
  - by rewrite testbit_rotate_right8 by (done || lia).
  - rewrite Z.lor_spec, testbit_shl8, testbit_u8_from_bool by lia.
    destruct (Z.eqb_spec i 0), (Z.leb_spec 1 i); try lia; [done|]. by rewrite orb_false_r.
  - rewrite Z.lor_spec, testbit_shr8, testbit_shl8 by lia.
    destruct (Z.leb_spec 7 i), (Z.eqb_spec i 7) as [->|]; try lia.
    + rewrite (testbit_u8_high v Hv), testbit_u8_from_bool by lia. done.
    + by rewrite orb_false_r.
  - rewrite testbit_shl8 by lia. destruct (Z.eqb_spec i 0), (Z.leb_spec 1 i); try lia; done.
  - rewrite Z.lor_spec, testbit_shr8, Z.land_spec by lia. change 0x80 with (2 ^ 7).
    destruct (Z.eqb_spec i 7) as [->|].
    + by rewrite (testbit_u8_high v Hv), andb_true_r by lia.
    + rewrite Z.pow2_bits_false by lia. by rewrite andb_false_r, orb_false_r.
  - rewrite testbit_rotate_left8 by (done || lia). f_equal. divmod_lia.
  - rewrite testbit_shr8 by lia. destruct (Z.eqb_spec i 7) as [->|]; [|done].
    by apply (testbit_u8_high v Hv).
  - unfold reset_bit. rewrite Z.land_spec, testbit_not8, testbit_one_shl8, Z.pow2_bits_eqb by lia.
    rewrite (Z.eqb_sym bit i). destruct (i =? bit); simpl; [apply andb_false_r | apply andb_true_r].
  - unfold set_bit. rewrite Z.lor_spec, testbit_one_shl8, Z.pow2_bits_eqb by lia.
    rewrite (Z.eqb_sym bit i). destruct (i =? bit); [apply orb_true_r | apply orb_false_r].
Qed.

(** Every CB-prefixed operation yields, bit by bit, what its mnemonic says
    (rotations through eight or nine bits, arithmetic and logical shifts,
    nibble swap, bit set and reset); it leaves the bit shifted out in C, BIT
    yields no result and reports the complement of the bit in Z, SET and RES
    change no flag, and no other register than F changes. *)
Theorem cb_operation_bits (kind : CbInstructionKind) (v : Z) (r : CpuRegisters) :
  u8 v -> 0 <= cb_bit kind < 8 ->
  let result := (apply_cb_operation kind v r).1 in
  let r' := (apply_cb_operation kind v r).2 in
  match result with
  | Some x => u8 x /\ cb_result_bits kind v r x /\ cb_is_bit_test kind = false
  | None => cb_is_bit_test kind = true /\ zf r' = negb (Z.testbit v (cb_bit kind)) /\ hf r' = true
  end /\
  cf r' = cb_carry_out kind v (cf r) /\
  r' = r <| r_f := r_f r' |>.
Proof.
  intros Hv Hb result r'. split; [|split].
  - destruct result as [x|] eqn:Hx.
    + split; [|split; [by apply cb_result_bits_holds | destruct kind; done]].
      destruct kind; try discriminate; injection Hx as <-;
        cbv beta iota zeta delta [fst rotate_left_carry rotate_right_carry
        rotate_left_through_carry rotate_right_through_carry shift_left_arithmetic
        shift_right_arithmetic swap_nibbles shift_right_logical reset_bit set_bit]; auto 6 with gb.
    + destruct kind; try discriminate. subst r'. destruct r. cbn in *.
      rewrite testbit_one_shl8 by lia.
      pose proof (has_bits_pow2 v bit (proj1 Hb)) as Ht. unfold has_bits in Ht.
      rewrite <- Ht, negb_involutive.
      destruct (has_bits _ FLAG_C), (_ =? 0); done.
  - subst r' result. destruct kind; cbn [apply_cb_operation fst snd cb_carry_out];
      try done; unfold rotate_left_carry, rotate_right_carry, rotate_left_through_carry,
        rotate_right_through_carry, shift_left_arithmetic, shift_right_arithmetic,
        shift_right_logical, swap_nibbles; cbn [snd];
      rewrite ?cf_write_flags, ?has_bits_80, ?has_bits_01; try done.
    destruct r as [ra rf rb rc rd re rh rl rsp rpc]; unfold cf, bit_test; cbn [r_f update upd_r_f].
    destruct (has_bits rf FLAG_C), (_ =? 0); done.
  - destruct r, kind; done.
Qed.

(** SRA 0x81 keeps the sign and shifts bit 0 into C. *)
Lemma cb_operation_bits_witness :
  u8 0x81 /\ 0 <= cb_bit (ShiftRightArithmetic IndirectHl) < 8 /\
  (apply_cb_operation (ShiftRightArithmetic IndirectHl) 0x81 (from_startup_state power_on_reset)).1
    = Some 0xC0 /\
  cf (apply_cb_operation (ShiftRightArithmetic IndirectHl) 0x81
        (from_startup_state power_on_reset)).2 = true.
Proof.
  assert (Hv : u8 0x81) by (unfold u8; lia).
  assert (Hb : 0 <= cb_bit (ShiftRightArithmetic IndirectHl) < 8) by (simpl; lia).
  destruct (cb_operation_bits (ShiftRightArithmetic IndirectHl) 0x81
              (from_startup_state power_on_reset) Hv Hb) as (_ & Hc & _).
  exact (conj Hv (conj Hb (conj eq_refl Hc))).
Defined.
