(* ===== verification/CpuDecode.v ===== *)
(** * Opcode decoding ([cpu/decode/tables.rs], [cpu/decode/fetched.rs], [cpu/decode/cb.rs])

    The selector tables, the grouped fast path and the ordered slow path of
    [decode_fetched_opcode], and the CB-prefixed decoder.  A decoder that meets
    an [unreachable!] arm is a [Panic]; the theorems show that no opcode does,
    that the two paths agree, and which opcodes are rejected. *)

From Stdlib Require Import ZArith Lia Bool String.
From stdpp Require Import base list tactics decidable option numbers strings.
From S2P Require Import Prelude CpuData.

Local Open Scope Z_scope.

(** ** Selector tables ([tables.rs]) *)

Definition decode_register16 (bits : Z) : outcome Register16 :=
  match bits with
  | 0 => Done R16_BC
  | 1 => Done R16_DE
  | 2 => Done R16_HL
  | 3 => Done R16_SP
  | _ => Panic "2-bit register pair selector must be in 0..=3"
  end.

Definition decode_register8_operand (bits : Z) : outcome Register8Operand :=
  match bits with
  | 0 => Done (OperandRegister R8_B)
  | 1 => Done (OperandRegister R8_C)
  | 2 => Done (OperandRegister R8_D)
  | 3 => Done (OperandRegister R8_E)
  | 4 => Done (OperandRegister R8_H)
  | 5 => Done (OperandRegister R8_L)
  | 6 => Done IndirectHl
  | 7 => Done (OperandRegister R8_A)
  | _ => Panic "3-bit register selector must be in 0..=7"
  end.

Definition decode_stack_register16 (bits : Z) : outcome StackRegister16 :=
  match bits with
  | 0 => Done SR_BC
  | 1 => Done SR_DE
  | 2 => Done SR_HL
  | 3 => Done SR_AF
  | _ => Panic "2-bit stack register selector must be in 0..=3"
  end.

Definition decode_alu_operation (bits : Z) : outcome AluOperation :=
  match bits with
  | 0 => Done AluAdd
  | 1 => Done AluAdc
  | 2 => Done AluSub
  | 3 => Done AluSbc
  | 4 => Done AluAnd
  | 5 => Done AluXor
  | 6 => Done AluOr
  | 7 => Done AluCompare
  | _ => Panic "3-bit ALU selector must be in 0..=7"
  end.

Definition decode_relative_jump_condition (opcode : Z) : outcome (option ConditionCode) :=
  match opcode with
  | 0x18 => Done None
  | 0x20 => Done (Some CC_Nz)
  | 0x28 => Done (Some CC_Z)
  | 0x30 => Done (Some CC_Nc)
  | 0x38 => Done (Some CC_C)
  | _ => Panic "opcode must be a JR form"
  end.

Definition decode_absolute_jump_condition (opcode : Z) : outcome (option ConditionCode) :=
  match opcode with
  | 0xC3 => Done None
  | 0xC2 => Done (Some CC_Nz)
  | 0xCA => Done (Some CC_Z)
  | 0xD2 => Done (Some CC_Nc)
  | 0xDA => Done (Some CC_C)
  | _ => Panic "opcode must be a JP form"
  end.

Definition decode_call_condition (opcode : Z) : outcome (option ConditionCode) :=
  match opcode with
  | 0xCD => Done None
  | 0xC4 => Done (Some CC_Nz)
  | 0xCC => Done (Some CC_Z)
  | 0xD4 => Done (Some CC_Nc)
  | 0xDC => Done (Some CC_C)
  | _ => Panic "opcode must be a CALL form"
  end.

Definition decode_return_condition (opcode : Z) : outcome (option ConditionCode) :=
  match opcode with
  | 0xC9 => Done None
  | 0xC0 => Done (Some CC_Nz)
  | 0xC8 => Done (Some CC_Z)
  | 0xD0 => Done (Some CC_Nc)
  | 0xD8 => Done (Some CC_C)
  | _ => Panic "opcode must be a RET form"
  end.

Definition decode_hl_update_direction (opcode : Z) : outcome CpuAddressUpdateDirection :=
  match opcode with
  | 0x22 | 0x2A => Done Increment
  | 0x32 | 0x3A => Done Decrement
  | _ => Panic "opcode must be an [hli]/[hld] transfer form"
  end.

(** ** Fetched opcodes ([fetched.rs]) *)

Inductive OpcodeDecodeGroup := DecodeMisc | DecodeLoad | DecodeArithmetic | DecodeControlFlow.

(** [matches!(opcode, a | b | ..)] and [(low..=high).contains(&opcode)]. *)
Definition matches (opcode : Z) (opcodes : list Z) : bool := existsb (Z.eqb opcode) opcodes.
Definition range_contains (low high opcode : Z) : bool := (low <=? opcode) && (opcode <=? high).

Definition selector (opcode shift mask : Z) : Z := Z.land (Z.shiftr opcode shift) mask.

Definition decode_misc_opcode (opcode : Z) : outcome (option DecodedOpcode) :=
  match opcode with
  | 0x00 => Done (Some (CompleteOnFetch Nop))
  | 0x27 => Done (Some (CompleteOnFetch DecimalAdjustAccumulator))
  | 0x2F => Done (Some (CompleteOnFetch ComplementAccumulator))
  | 0x37 => Done (Some (CompleteOnFetch SetCarryFlag))
  | 0x3F => Done (Some (CompleteOnFetch ComplementCarryFlag))
  | 0x07 => Done (Some (CompleteOnFetch RotateLeftAccumulatorCarry))
  | 0x17 => Done (Some (CompleteOnFetch RotateLeftAccumulatorThroughCarry))
  | 0x0F => Done (Some (CompleteOnFetch RotateRightAccumulatorCarry))
  | 0x1F => Done (Some (CompleteOnFetch RotateRightAccumulatorThroughCarry))
  | 0x76 => Done (Some (CompleteOnFetch Halt))
  | 0xF3 => Done (Some (CompleteOnFetch DisableInterrupts))
  | 0xFB => Done (Some (CompleteOnFetch EnableInterrupts))
  | 0x10 => Done (Some (Execute Stop))
  | _ => Done None
  end.

Definition execute (kind : CpuInstructionKind) : outcome (option DecodedOpcode) :=
  Done (Some (Execute kind)).

Definition already_constrained {A} : outcome A := Panic "opcode filter already constrained".

Definition decode_load_opcode (opcode : Z) : outcome (option DecodedOpcode) :=
  if matches opcode [0x01; 0x11; 0x21; 0x31] then
    target ← decode_register16 (selector opcode 4 0x03);
    execute (LoadRegisterPairImmediate target)
  else if Z.land opcode 0xC7 =? 0x06 then
    operand ← decode_register8_operand (selector opcode 3 0x07);
    match operand with
    | OperandRegister target => execute (LoadRegisterImmediate target)
    | IndirectHl => execute StoreImmediateToHl
    end
  else if range_contains 0x40 0x7F opcode && negb (opcode =? 0x76) then
    destination ← decode_register8_operand (selector opcode 3 0x07);
    source ← decode_register8_operand (Z.land opcode 0x07);
    match destination, source with
    | OperandRegister destination, OperandRegister source =>
        Done (Some (CompleteOnFetch (LoadRegisterToRegister destination source)))
    | OperandRegister target, IndirectHl => execute (LoadRegisterFromHl target)
    | IndirectHl, OperandRegister source => execute (StoreRegisterToHl source)
    | IndirectHl, IndirectHl => Done (Some Unsupported)
    end
  else if matches opcode [0x02; 0x12; 0xEA] then
    match opcode with
    | 0x02 => execute (StoreAToDirectAddress Direct_BC)
    | 0x12 => execute (StoreAToDirectAddress Direct_DE)
    | 0xEA => execute StoreAToImmediate16Address
    | _ => already_constrained
    end
  else if matches opcode [0xE0; 0xE2] then
    match opcode with
    | 0xE0 => execute StoreAToHighImmediateAddress
    | 0xE2 => execute (StoreAToDirectAddress Direct_HighC)
    | _ => already_constrained
    end
  else if matches opcode [0x22; 0x32] then
    direction ← decode_hl_update_direction opcode;
    execute (StoreAToHlWithUpdate direction)
  else if matches opcode [0x0A; 0x1A; 0xFA] then
    match opcode with
    | 0x0A => execute (LoadAFromDirectAddress Direct_BC)
    | 0x1A => execute (LoadAFromDirectAddress Direct_DE)
    | 0xFA => execute LoadAFromImmediate16Address
    | _ => already_constrained
    end
  else if matches opcode [0xF0; 0xF2] then
    match opcode with
    | 0xF0 => execute LoadAFromHighImmediateAddress
    | 0xF2 => execute (LoadAFromDirectAddress Direct_HighC)
    | _ => already_constrained
    end
  else if opcode =? 0x08 then execute StoreSpToImmediate16
  else if opcode =? 0xF8 then execute LoadHlFromSpPlusImmediate
  else if opcode =? 0xE8 then execute AddSpImmediate
  else if opcode =? 0xF9 then execute LoadSpFromHl
  else if matches opcode [0x2A; 0x3A] then
    direction ← decode_hl_update_direction opcode;
    execute (LoadAFromHlWithUpdate direction)
  else Done None.

Definition decode_arithmetic_opcode (opcode : Z) : outcome (option DecodedOpcode) :=
  if range_contains 0x80 0xBF opcode then
    operation ← decode_alu_operation (selector opcode 3 0x07);
    operand ← decode_register8_operand (Z.land opcode 0x07);
    match operand with
    | OperandRegister source => Done (Some (CompleteOnFetch (AluRegister operation source)))
    | IndirectHl => execute (AluFromHl operation)
    end
  else if Z.land opcode 0xC7 =? 0x04 then
    operand ← decode_register8_operand (selector opcode 3 0x07);
    match operand with
    | OperandRegister target => Done (Some (CompleteOnFetch (IncrementRegister target)))
    | IndirectHl => execute IncrementHlMemory
    end
  else if Z.land opcode 0xC7 =? 0x05 then
    operand ← decode_register8_operand (selector opcode 3 0x07);
    match operand with
    | OperandRegister target => Done (Some (CompleteOnFetch (DecrementRegister target)))
    | IndirectHl => execute DecrementHlMemory
    end
  else if matches opcode [0xC6; 0xCE; 0xD6; 0xDE; 0xE6; 0xEE; 0xF6; 0xFE] then
    operation ← decode_alu_operation (selector opcode 3 0x07);
    execute (AluImmediate operation)
  else if Z.land opcode 0xCF =? 0x03 then
    target ← decode_register16 (selector opcode 4 0x03);
    execute (IncrementRegisterPair target)
  else if Z.land opcode 0xCF =? 0x09 then
    source ← decode_register16 (selector opcode 4 0x03);
    execute (AddHl source)
  else if Z.land opcode 0xCF =? 0x0B then
    target ← decode_register16 (selector opcode 4 0x03);
    execute (DecrementRegisterPair target)
  else Done None.

Definition decode_control_flow_opcode (opcode : Z) : outcome (option DecodedOpcode) :=
  if opcode =? 0xE9 then Done (Some (CompleteOnFetch JumpHl))
  else if opcode =? 0xCB then execute CbPrefixed
  else if matches opcode [0x18; 0x20; 0x28; 0x30; 0x38] then
    condition ← decode_relative_jump_condition opcode;
    execute (match condition with
             | Some condition => ConditionalRelativeJump condition
             | None => RelativeJump
             end)
  else if matches opcode [0xC3; 0xC2; 0xCA; 0xD2; 0xDA] then
    condition ← decode_absolute_jump_condition opcode;
    execute (match condition with
             | Some condition => ConditionalAbsoluteJump condition
             | None => AbsoluteJump
             end)
  else if matches opcode [0xCD; 0xC4; 0xCC; 0xD4; 0xDC] then
    condition ← decode_call_condition opcode;
    execute (match condition with
             | Some condition => ConditionalCall condition
             | None => Call
             end)
  else if matches opcode [0xC9; 0xC0; 0xC8; 0xD0; 0xD8] then
    condition ← decode_return_condition opcode;
    execute (match condition with
             | Some condition => ConditionalReturn condition
             | None => Return
             end)
  else if opcode =? 0xD9 then execute ReturnFromInterrupt
  else if Z.land opcode 0xC7 =? 0xC7 then execute (Restart (Z.land opcode 0x38))
  else if Z.land opcode 0xCF =? 0xC5 then
    source ← decode_stack_register16 (selector opcode 4 0x03);
    execute (PushRegisterPair source)
  else if Z.land opcode 0xCF =? 0xC1 then
    target ← decode_stack_register16 (selector opcode 4 0x03);
    execute (PopRegisterPair target)
  else Done None.

Definition decode_opcode_in_group (opcode : Z) (group : OpcodeDecodeGroup)
    : outcome (option DecodedOpcode) :=
  match group with
  | DecodeMisc => decode_misc_opcode opcode
  | DecodeLoad => decode_load_opcode opcode
  | DecodeArithmetic => decode_arithmetic_opcode opcode
  | DecodeControlFlow => decode_control_flow_opcode opcode
  end.

Definition decode_fast_group (opcode : Z) : option OpcodeDecodeGroup :=
  if matches opcode [0x00; 0x07; 0x0F; 0x10; 0x17; 0x1F; 0x27; 0x2F; 0x37; 0x3F; 0x76; 0xF3; 0xFB]
  then Some DecodeMisc
  else if range_contains 0x40 0x7F opcode then Some DecodeLoad
  else if range_contains 0x80 0xBF opcode then Some DecodeArithmetic
  else if matches opcode
    [0x18; 0x20; 0x28; 0x30; 0x38; 0xC0; 0xC1; 0xC2; 0xC3; 0xC4; 0xC5; 0xC7;
     0xC8; 0xC9; 0xCA; 0xCB; 0xCC; 0xCD; 0xCF; 0xD0; 0xD1; 0xD2; 0xD4; 0xD5;
     0xD7; 0xD8; 0xD9; 0xDA; 0xDC; 0xDF; 0xE7; 0xEF; 0xF7; 0xFF] then Some DecodeControlFlow
  else if Z.land opcode 0xC7 =? 0x06 then Some DecodeLoad
  else if (Z.land opcode 0xC7 =? 0x04) || (Z.land opcode 0xC7 =? 0x05)
       || (Z.land opcode 0xCF =? 0x03) || (Z.land opcode 0xCF =? 0x09)
       || (Z.land opcode 0xCF =? 0x0B) then Some DecodeArithmetic
  else if matches opcode
    [0x01; 0x02; 0x08; 0x0A; 0x11; 0x12; 0x1A; 0x21; 0x22; 0x2A; 0x31; 0x32; 0x3A; 0xE0; 0xE2;
     0xE8; 0xEA; 0xF0; 0xF2; 0xF8; 0xF9; 0xFA] then Some DecodeLoad
  else if matches opcode [0xC6; 0xCE; 0xD6; 0xDE; 0xE6; 0xEE; 0xF6; 0xFE] then Some DecodeArithmetic
  else None.

(** [first.or_else(|| second)]. *)
Definition or_else {A} (first : outcome (option A)) (second : outcome (option A)) : outcome (option A) :=
  o ← first;
  match o with
  | Some a => Done (Some a)
  | None => second
  end.

Definition unwrap_or_unsupported (m : outcome (option DecodedOpcode)) : outcome DecodedOpcode :=
  o ← m;
  match o with
  | Some d => Done d
  | None => Done Unsupported
  end.

Definition decode_fetched_opcode_slow_path (opcode : Z) : outcome DecodedOpcode :=
  unwrap_or_unsupported
    (or_else (or_else (or_else (decode_misc_opcode opcode)
      (decode_load_opcode opcode))
      (decode_arithmetic_opcode opcode))
      (decode_control_flow_opcode opcode)).

Definition decode_fetched_opcode (opcode : Z) : outcome DecodedOpcode :=
  match decode_fast_group opcode with
  | Some group => unwrap_or_unsupported (decode_opcode_in_group opcode group)
  | None => decode_fetched_opcode_slow_path opcode
  end.

(** ** CB-prefixed opcodes ([cb.rs]) *)

Definition decode_cb_opcode (opcode : Z) : outcome CbInstructionKind :=
  if Z.land opcode 0xF8 =? 0x00 then
    target ← decode_register8_operand (Z.land opcode 0x07); Done (RotateLeftCarry target)
  else if Z.land opcode 0xF8 =? 0x08 then
    target ← decode_register8_operand (Z.land opcode 0x07); Done (RotateRightCarry target)
  else if Z.land opcode 0xF8 =? 0x10 then
    target ← decode_register8_operand (Z.land opcode 0x07); Done (RotateLeftThroughCarry target)
  else if Z.land opcode 0xF8 =? 0x18 then
    target ← decode_register8_operand (Z.land opcode 0x07); Done (RotateRightThroughCarry target)
  else if Z.land opcode 0xF8 =? 0x20 then
    target ← decode_register8_operand (Z.land opcode 0x07); Done (ShiftLeftArithmetic target)
  else if Z.land opcode 0xF8 =? 0x28 then
    target ← decode_register8_operand (Z.land opcode 0x07); Done (ShiftRightArithmetic target)
  else if Z.land opcode 0xF8 =? 0x30 then
    target ← decode_register8_operand (Z.land opcode 0x07); Done (SwapNibbles target)
  else if Z.land opcode 0xF8 =? 0x38 then
    target ← decode_register8_operand (Z.land opcode 0x07); Done (ShiftRightLogical target)
  else if Z.land opcode 0xC0 =? 0x40 then
    target ← decode_register8_operand (Z.land opcode 0x07);
    Done (BitTest (selector opcode 3 0x07) target)
  else if Z.land opcode 0xC0 =? 0x80 then
    target ← decode_register8_operand (Z.land opcode 0x07);
    Done (ResetBit (selector opcode 3 0x07) target)
  else
    target ← decode_register8_operand (Z.land opcode 0x07);
    Done (SetBit (selector opcode 3 0x07) target).

(** ** The reference opcode table

    The instruction set as the octal fields [x y z] of the opcode (with
    [p = y / 2] and [q = y mod 2]) give it, independently of the source's
    groups and masks. *)

Module IsaTable.

Definition r8 (n : Z) : Register8Operand :=
  nth (Z.to_nat n) [OperandRegister R8_B; OperandRegister R8_C; OperandRegister R8_D;
    OperandRegister R8_E; OperandRegister R8_H; OperandRegister R8_L; IndirectHl;
    OperandRegister R8_A] IndirectHl.
Definition rp (n : Z) : Register16 := nth (Z.to_nat n) [R16_BC; R16_DE; R16_HL; R16_SP] R16_SP.
Definition rp2 (n : Z) : StackRegister16 := nth (Z.to_nat n) [SR_BC; SR_DE; SR_HL; SR_AF] SR_AF.
Definition cc (n : Z) : ConditionCode := nth (Z.to_nat n) [CC_Nz; CC_Z; CC_Nc; CC_C] CC_C.
Definition alu (n : Z) : AluOperation :=
  nth (Z.to_nat n) [AluAdd; AluAdc; AluSub; AluSbc; AluAnd; AluXor; AluOr; AluCompare] AluCompare.

Definition pick (n : Z) (l : list DecodedOpcode) : DecodedOpcode := nth (Z.to_nat n) l Unsupported.

Definition ld_r_r (destination source : Register8Operand) : DecodedOpcode :=
  match destination, source with
  | OperandRegister d, OperandRegister s => CompleteOnFetch (LoadRegisterToRegister d s)
  | OperandRegister d, IndirectHl => Execute (LoadRegisterFromHl d)
  | IndirectHl, OperandRegister s => Execute (StoreRegisterToHl s)
  | IndirectHl, IndirectHl => CompleteOnFetch Halt
  end.

Definition block0 (y z p q : Z) : DecodedOpcode :=
  pick z [
    (if y <? 4 then pick y [CompleteOnFetch Nop; Execute StoreSpToImmediate16; Execute Stop;
                            Execute RelativeJump]
     else Execute (ConditionalRelativeJump (cc (y - 4))));
    (if q =? 0 then Execute (LoadRegisterPairImmediate (rp p)) else Execute (AddHl (rp p)));
    pick y [Execute (StoreAToDirectAddress Direct_BC); Execute (LoadAFromDirectAddress Direct_BC);
            Execute (StoreAToDirectAddress Direct_DE); Execute (LoadAFromDirectAddress Direct_DE);
            Execute (StoreAToHlWithUpdate Increment); Execute (LoadAFromHlWithUpdate Increment);
            Execute (StoreAToHlWithUpdate Decrement); Execute (LoadAFromHlWithUpdate Decrement)];
    (if q =? 0 then Execute (IncrementRegisterPair (rp p)) else Execute (DecrementRegisterPair (rp p)));
    (match r8 y with
     | OperandRegister t => CompleteOnFetch (IncrementRegister t)
     | IndirectHl => Execute IncrementHlMemory
     end);
    (match r8 y with
     | OperandRegister t => CompleteOnFetch (DecrementRegister t)
     | IndirectHl => Execute DecrementHlMemory
     end);
    (match r8 y with
     | OperandRegister t => Execute (LoadRegisterImmediate t)
     | IndirectHl => Execute StoreImmediateToHl
     end);
    CompleteOnFetch (nth (Z.to_nat y) [RotateLeftAccumulatorCarry; RotateRightAccumulatorCarry;
      RotateLeftAccumulatorThroughCarry; RotateRightAccumulatorThroughCarry;
      DecimalAdjustAccumulator; ComplementAccumulator; SetCarryFlag; ComplementCarryFlag] Nop)].

Definition block2 (y z : Z) : DecodedOpcode :=
  match r8 z with
  | OperandRegister s => CompleteOnFetch (AluRegister (alu y) s)
  | IndirectHl => Execute (AluFromHl (alu y))
  end.

Definition block3 (y z p q : Z) : DecodedOpcode :=
  pick z [
    (if y <? 4 then Execute (ConditionalReturn (cc y))
     else pick (y - 4) [Execute StoreAToHighImmediateAddress; Execute AddSpImmediate;
                        Execute LoadAFromHighImmediateAddress; Execute LoadHlFromSpPlusImmediate]);
    (if q =? 0 then Execute (PopRegisterPair (rp2 p))
     else pick p [Execute Return; Execute ReturnFromInterrupt; CompleteOnFetch JumpHl;
                  Execute LoadSpFromHl]);
    (if y <? 4 then Execute (ConditionalAbsoluteJump (cc y))
     else pick (y - 4) [Execute (StoreAToDirectAddress Direct_HighC);
                        Execute StoreAToImmediate16Address;
                        Execute (LoadAFromDirectAddress Direct_HighC);
                        Execute LoadAFromImmediate16Address]);
    pick y [Execute AbsoluteJump; Execute CbPrefixed; Unsupported; Unsupported; Unsupported;
            Unsupported; CompleteOnFetch DisableInterrupts; CompleteOnFetch EnableInterrupts];
    (if y <? 4 then Execute (ConditionalCall (cc y)) else Unsupported);
    (if q =? 0 then Execute (PushRegisterPair (rp2 p))
     else pick p [Execute Call; Unsupported; Unsupported; Unsupported]);
    Execute (AluImmediate (alu y));
    Execute (Restart (8 * y))].

Definition isa_decode (opcode : Z) : DecodedOpcode :=
  let x := opcode / 64 in
  let y := opcode / 8 mod 8 in
  let z := opcode mod 8 in
  pick x [block0 y z (y / 2) (y mod 2); ld_r_r (r8 y) (r8 z); block2 y z;
          block3 y z (y / 2) (y mod 2)].

Definition isa_decode_cb (opcode : Z) : CbInstructionKind :=
  let x := opcode / 64 in
  let y := opcode / 8 mod 8 in
  let target := r8 (opcode mod 8) in
  nth (Z.to_nat x)
    [nth (Z.to_nat y) [RotateLeftCarry target; RotateRightCarry target;
       RotateLeftThroughCarry target; RotateRightThroughCarry target;
       ShiftLeftArithmetic target; ShiftRightArithmetic target; SwapNibbles target;
       ShiftRightLogical target] (SwapNibbles target);
     BitTest y target; ResetBit y target; SetBit y target] (SetBit y target).

(** The opcodes the hardware does not define. *)
Definition undefined_opcodes : list Z :=
  [0xD3; 0xDB; 0xDD; 0xE3; 0xE4; 0xEB; 0xEC; 0xED; 0xF4; 0xFC; 0xFD].

End IsaTable.

#[export] Instance outcome_eq_dec A `{EqDecision A} : EqDecision (outcome A).
Proof. solve_decision. Defined.

Lemma decode_fetched_opcode_ok opcode :
  u8 opcode -> decode_fetched_opcode opcode = Done (IsaTable.isa_decode opcode).
Proof.
  intros Hu. apply (bool_decide_eq_true (decode_fetched_opcode opcode = Done (IsaTable.isa_decode opcode))).
  refine (forall_below 256 (fun x => bool_decide (decode_fetched_opcode x = Done (IsaTable.isa_decode x))) _ opcode Hu).
  vm_compute. reflexivity.
Qed.

Lemma decode_cb_opcode_ok opcode :
  u8 opcode -> decode_cb_opcode opcode = Done (IsaTable.isa_decode_cb opcode).
Proof.
  intros Hu. apply (bool_decide_eq_true (decode_cb_opcode opcode = Done (IsaTable.isa_decode_cb opcode))).
  refine (forall_below 256 (fun x => bool_decide (decode_cb_opcode x = Done (IsaTable.isa_decode_cb x))) _ opcode Hu).
  vm_compute. reflexivity.
Qed.

Definition decoders_agree (opcode : Z) : bool :=
  bool_decide (decode_fetched_opcode opcode = Done (IsaTable.isa_decode opcode)) &&
  bool_decide (decode_fetched_opcode_slow_path opcode = Done (IsaTable.isa_decode opcode)) &&
  Bool.eqb (bool_decide (IsaTable.isa_decode opcode = Unsupported))
    (matches opcode IsaTable.undefined_opcodes).

Lemma matches_In opcode l : matches opcode l = true <-> In opcode l.
Proof.
  unfold matches. rewrite existsb_exists. split.
  - intros (x & Hin & Hx). apply Z.eqb_eq in Hx. by subst.
  - intros Hin. exists opcode. split; [done | apply Z.eqb_refl].
Qed.

(** C9. For every opcode byte the grouped fast decoder and the ordered slow
    path both return the entry of the reference opcode table, without reaching
    an [unreachable!] arm, and the opcode is rejected exactly when it is one of
    the eleven the hardware leaves undefined. *)
Theorem decoders_implement_opcode_table (opcode : Z) :
  u8 opcode ->
  decode_fetched_opcode opcode = Done (IsaTable.isa_decode opcode) /\
  decode_fetched_opcode_slow_path opcode = Done (IsaTable.isa_decode opcode) /\
  (decode_fetched_opcode opcode = Done Unsupported <-> In opcode IsaTable.undefined_opcodes).
Proof.
  intros Hu.
  assert (Hall : decoders_agree opcode = true).
  { apply (forall_below 256); [vm_compute; reflexivity | exact Hu]. }
  unfold decoders_agree in Hall. apply andb_prop in Hall as [Hall Hrej].
  apply andb_prop in Hall as [Hfast Hslow].
  apply bool_decide_eq_true in Hfast, Hslow. apply eqb_prop in Hrej.
  split; [done|]. split; [done|].
  rewrite <- matches_In, <- Hrej, bool_decide_eq_true, Hfast. split; [by intros [= ->] | by intros ->].
Qed.

(** 0xD3 is rejected on both paths; 0x3E decodes to [LD A, n]. *)
Lemma decoders_implement_opcode_table_witness :
  u8 0xD3 /\ decode_fetched_opcode 0xD3 = Done Unsupported /\
  u8 0x3E /\ decode_fetched_opcode_slow_path 0x3E = Done (Execute (LoadRegisterImmediate R8_A)).
Proof.
  assert (H1 : u8 0xD3) by (unfold u8; lia).
  assert (H2 : u8 0x3E) by (unfold u8; lia).
  exact (conj H1 (conj (proj1 (decoders_implement_opcode_table 0xD3 H1))
    (conj H2 (proj1 (proj2 (decoders_implement_opcode_table 0x3E H2)))))).
Defined.
