(* ===== verification/CpuBus.v ===== *)
(** * CPU bus accesses ([cpu/bus.rs])

    The CPU reaches the rest of the machine through one callback,
    [bus_operation].  It is an interface here ([CpuExternal]): a function from
    an external operation and the state of the outside world to an optional
    byte and the new world.  [CM] is the monad of the CPU methods: they read
    and write the core and the world, and may panic. *)

From Stdlib Require Import ZArith Lia Bool String.
From stdpp Require Import base list tactics decidable option numbers.
From S2P Require Import Prelude CpuData CpuAlu Interrupts Scheduler.

Local Open Scope Z_scope.

(** ** The environment *)

Class CpuExternal (W : Type) :=
  bus_operation : CpuExternalOperation -> W -> option Z * W.

(** The operands of an operation at their width in the source. *)
Definition operation_typed (op : CpuExternalOperation) : Prop :=
  match op with
  | Bus (BusRead address) => u16 address
  | Bus (BusWrite address value) => u16 address /\ u8 value
  | _ => True
  end.

(** What the CPU relies on: while the world satisfies [world_ok], which every
    operation on 16-bit addresses and bytes preserves, a bus read yields a
    byte. *)
Class CpuExternalLaws (W : Type) `{CpuExternal W} (world_ok : W -> Prop) := {
  external_preserves : forall op w, world_ok w -> operation_typed op -> world_ok (bus_operation op w).2;
  external_read_byte : forall address w, world_ok w -> u16 address ->
    exists value, (bus_operation (Bus (BusRead address)) w).1 = Some value /\ u8 value
}.

Section Bus.
Context {W : Type} `{CpuExternal W}.

Definition CM (A : Type) : Type := ST (CpuCore * W) A.

Definition external (op : CpuExternalOperation) : CM (option Z) := fun '(c, w) =>
  let '(result, w') := bus_operation op w in Done (result, (c, w')).

Definition gets_core {A} (f : CpuCore -> A) : CM A := fun '(c, w) => Done (f c, (c, w)).
Definition modify_core (f : CpuCore -> CpuCore) : CM unit := fun '(c, w) => Done (tt, (f c, w)).
Definition update_core {A} (f : CpuCore -> A * CpuCore) : CM A := fun '(c, w) =>
  let '(a, c') := f c in Done (a, (c', w)).

(** Register operations of [CpuAlu] lifted to the core. *)
Definition gets_registers {A} (f : CpuRegisters -> A) : CM A :=
  gets_core (fun c => f (registers c)).
Definition modify_registers (f : CpuRegisters -> CpuRegisters) : CM unit :=
  modify_core (fun c => c <| registers := f (registers c) |>).
Definition update_registers {A} (f : CpuRegisters -> A * CpuRegisters) : CM A :=
  update_core (fun c => let '(a, r) := f (registers c) in (a, c <| registers := r |>)).

Definition get_operand8_latch : CM Z := gets_core (fun c => if_operand8_latch (in_flight c)).
Definition get_operand16_latch : CM Z := gets_core (fun c => if_operand16_latch (in_flight c)).
Definition set_operand8_latch (v : Z) : CM unit :=
  modify_core (fun c => c <| in_flight := (in_flight c) <| if_operand8_latch := v |> |>).
Definition set_operand16_latch (v : Z) : CM unit :=
  modify_core (fun c => c <| in_flight := (in_flight c) <| if_operand16_latch := v |> |>).

(** ** [bus.rs] *)

Definition record_bus_activity (kind : CpuTraceBusAccessKind) (address value : Z) : CM unit :=
  modify_core (fun c => c <| last_bus_activity := Some (mkActivity kind address value) |>).

Definition record_address_event (event : CpuAddressEvent) : CM unit :=
  modify_core (fun c => c <| last_address_event := Some event |>).

Definition read_byte_with_kind (address : Z) (kind : CpuTraceBusAccessKind) : CM Z :=
  result ← external (Bus (BusRead address));
  match result with
  | None => st_panic "CPU bus read must produce a byte result"
  | Some value => record_bus_activity kind address value;; mret value
  end.

Definition read_pc_u8_with_kind (kind : CpuTraceBusAccessKind) : CM Z :=
  address ← gets_registers r_pc;
  value ← read_byte_with_kind address kind;
  halt_bug ← update_core consume_halt_bug_pending;
  (if (halt_bug : bool) then
     record_address_event (event_read address)
   else
     modify_registers (fun r => r <| r_pc := wrapping_add16 (r_pc r) 1 |>);;
     pc ← gets_registers r_pc;
     record_address_event (event_read_with_incdec address pc Increment));;
  mret value.

Definition read_opcode_u8 : CM Z := read_pc_u8_with_kind OpcodeFetch.
Definition read_pc_u8 : CM Z := read_pc_u8_with_kind OperandRead.

Definition read_byte (address : Z) : CM Z :=
  value ← read_byte_with_kind address DataRead;
  record_address_event (event_read address);;
  mret value.

Definition unwrap_or_zero (result : option Z) : Z := match result with Some v => v | None => 0 end.

Definition stop_wake_line_asserted : CM bool :=
  result ← external StopWakeLineAsserted;
  mret (negb (unwrap_or_zero result =? 0)).

Definition cgb_speed_switch_prepared : CM bool :=
  result ← external CgbSpeedSwitchPrepared;
  mret (negb (unwrap_or_zero result =? 0)).

Definition write_byte_without_address_event (address value : Z) : CM unit :=
  external (Bus (BusWrite address value));;
  record_bus_activity DataWrite address value.

Definition write_byte (address value : Z) : CM unit :=
  write_byte_without_address_event address value;;
  record_address_event (event_write address).

Definition resolve_direct_address (source : DirectAddressSource) (r : CpuRegisters) : Z :=
  match source with
  | Direct_BC => bc r
  | Direct_DE => de r
  | Direct_HighC => Z.lor 0xFF00 (r_c r)
  end.

Definition resolve_immediate16_address : CM Z := get_operand16_latch.

Definition resolve_high_immediate_address : CM Z :=
  latch ← get_operand8_latch; mret (Z.lor 0xFF00 latch).

Definition decrement_sp_and_record_idu_event : CM unit :=
  modify_registers (fun r => r <| r_sp := wrapping_sub16 (r_sp r) 1 |>);;
  sp ← gets_registers r_sp;
  record_address_event (event_incdec sp Decrement).

Definition prepare_pc_stack_push : CM unit :=
  pc ← gets_registers r_pc;
  set_operand8_latch (low_byte pc);;
  decrement_sp_and_record_idu_event.

Definition write_byte_at_sp (value : Z) : CM unit :=
  sp ← gets_registers r_sp;
  write_byte sp value.

Definition push_pc_high_at_sp : CM unit :=
  pc ← gets_registers r_pc;
  write_byte_at_sp (high_byte pc).

Definition push_latched_u16_high_at_sp : CM unit :=
  latch ← get_operand16_latch;
  write_byte_at_sp (high_byte latch).

Definition write_byte_with_decremented_sp (value : Z) : CM unit :=
  modify_registers (fun r => r <| r_sp := wrapping_sub16 (r_sp r) 1 |>);;
  address ← gets_registers r_sp;
  write_byte_without_address_event address value;;
  record_address_event (event_write_with_incdec address address Decrement).

Definition push_latched_low_with_decremented_sp : CM unit :=
  latch ← get_operand8_latch;
  write_byte_with_decremented_sp latch.

Definition read_byte_and_increment_sp : CM Z :=
  address ← gets_registers r_sp;
  value ← read_byte_with_kind address DataRead;
  modify_registers (fun r => r <| r_sp := wrapping_add16 (r_sp r) 1 |>);;
  sp ← gets_registers r_sp;
  record_address_event (event_read_with_incdec address sp Increment);;
  mret value.

Definition read_latched_stack_low_byte : CM unit :=
  low ← read_byte_and_increment_sp;
  set_operand16_latch low.

Definition read_latched_stack_high_byte : CM unit :=
  high ← read_byte_and_increment_sp;
  latch ← get_operand16_latch;
  set_operand16_latch (Z.lor latch (Z.shiftl high 8)).

Definition read_hl_with_update (direction : CpuAddressUpdateDirection) : CM Z :=
  address ← gets_registers hl;
  value ← read_byte_with_kind address DataRead;
  updated ← update_registers (increment_or_decrement_register16 R16_HL direction);
  record_address_event (event_read_with_incdec address updated direction);;
  mret value.

Definition write_hl_with_update (value : Z) (direction : CpuAddressUpdateDirection) : CM unit :=
  address ← gets_registers hl;
  write_byte_without_address_event address value;;
  updated ← update_registers (increment_or_decrement_register16 R16_HL direction);
  record_address_event (event_write_with_incdec address updated direction).

(** [registers.rs]: the register-pair update that records its address event. *)
Definition increment_or_decrement_register_pair (target : Register16)
    (direction : CpuAddressUpdateDirection) : CM unit :=
  updated ← update_registers (increment_or_decrement_register16 target direction);
  record_address_event (event_incdec updated direction).

(** ** Interrupt queries ([interrupt_control.rs]) *)

Definition request_interrupt (source : InterruptSource) : CM unit :=
  external (RequestInterrupt source);; mret tt.

Definition acknowledge_interrupt (source : InterruptSource) : CM unit :=
  external (AcknowledgeInterrupt source);; mret tt.

Definition current_pending_interrupt_mask : CM Z :=
  result ← external PendingInterruptMask;
  mret (unwrap_or_zero result).

Definition current_highest_pending_interrupt : CM (option InterruptSource) :=
  pending ← current_pending_interrupt_mask;
  mret (highest_priority_from_mask pending).

Definition current_interrupt_enable_mask : CM Z :=
  result ← external InterruptEnableMask;
  mret (unwrap_or_zero result).
End Bus.

Arguments CM W A : clear implicits.

(** ** A reference environment

    A flat 64 KiB memory with fixed answers to the interrupt, wake-line and
    speed-switch queries: the environment in which instructions are specified
    and in which the theorems are instantiated. *)

Record FlatWorld := mkFlat {
  flat_memory : Z -> Z;
  flat_pending_mask : Z;
  flat_enable_mask : Z;
  flat_wake_line : Z;
  flat_speed_switch : Z;
  flat_interrupt_log : list CpuExternalOperation
}.

Definition flat_read (w : FlatWorld) (address : Z) : Z := flat_memory w address.
Definition flat_write (address value : Z) (w : FlatWorld) : FlatWorld :=
  mkFlat (fun a => if a =? address then as_u8 value else flat_memory w a) (flat_pending_mask w)
    (flat_enable_mask w) (flat_wake_line w) (flat_speed_switch w) (flat_interrupt_log w).
Definition flat_log (op : CpuExternalOperation) (w : FlatWorld) : FlatWorld :=
  mkFlat (flat_memory w) (flat_pending_mask w) (flat_enable_mask w) (flat_wake_line w)
    (flat_speed_switch w) (flat_interrupt_log w ++ [op]).

#[export] Instance flat_external : CpuExternal FlatWorld := fun op w =>
  match op with
  | Bus (BusRead address) => (Some (flat_read w address), w)
  | Bus (BusWrite address value) => (None, flat_write address value w)
  | PendingInterruptMask => (Some (flat_pending_mask w), w)
  | InterruptEnableMask => (Some (flat_enable_mask w), w)
  | StopWakeLineAsserted => (Some (flat_wake_line w), w)
  | CgbSpeedSwitchPrepared => (Some (flat_speed_switch w), w)
  | AcknowledgeInterrupt _ | RequestInterrupt _ => (None, flat_log op w)
  end.

Definition flat_ok (w : FlatWorld) : Prop := forall address, u8 (flat_memory w address).

#[export] Instance flat_laws : CpuExternalLaws FlatWorld flat_ok.
Proof.
  split.
  - intros [[a | a v] | | | | | s | s] w Hw _; try exact Hw.
    intros x. simpl. destruct (x =? a); [apply u8_mod | apply Hw].
  - intros a w Hw _. exists (flat_memory w a). split; [done | apply Hw].
Qed.

(** A memory that holds [bytes] from [start] and zeroes elsewhere. *)
Definition memory_of (start : Z) (bytes : list Z) : Z -> Z := fun a =>
  if (start <=? a) && (a <? start + Z.of_nat (length bytes))
  then as_u8 (nth (Z.to_nat (a - start)) bytes 0) else 0.

Definition flat_of (start : Z) (bytes : list Z) : FlatWorld :=
  mkFlat (memory_of start bytes) 0 0 0 0 [].

Lemma flat_of_ok start bytes : flat_ok (flat_of start bytes).
Proof.
  intros a. simpl. unfold memory_of. destruct (_ && _); [apply u8_mod | unfold u8; lia].
Qed.
