(* ===== verification/CpuExec.v ===== *)
(** * Instruction execution ([cpu/execute.rs], [cpu/execute/*.rs], and the
    state transitions of [cpu/cycle.rs] and [cpu/interrupt_control.rs] they use)

    One definition per instruction, stepping over the machine cycles of its
    [Execute] state; the executors of the five groups; and
    [complete_execute_machine_cycle], which dispatches on the group. *)

From Stdlib Require Import ZArith Lia Bool String.
From stdpp Require Import base list tactics decidable option numbers.
From S2P Require Import Prelude CpuData CpuAlu CpuDecode CpuBus Interrupts Scheduler Speed.

Local Open Scope Z_scope.

(** ** The delayed interrupt enable ([interrupt_control.rs]) *)

Definition schedule_delayed_ime_enable (c : CpuCore) : CpuCore :=
  if delayed_ime_enable c then c
  else c <| ime_state := if ime c then ImeEnabledPendingEnable 2 else ImeDisabledPendingEnable 2 |>.

Definition cancel_delayed_ime_enable (c : CpuCore) : CpuCore :=
  c <| ime_state := if ime c then ImeEnabled else ImeDisabled |>.

Definition advance_delayed_ime_enable (c : CpuCore) : CpuCore :=
  match ime_state c with
  | ImeDisabledPendingEnable n =>
      if 1 <? n then c <| ime_state := ImeDisabledPendingEnable (n - 1) |> else set_ime_enabled c
  | ImeEnabledPendingEnable n =>
      if 1 <? n then c <| ime_state := ImeEnabledPendingEnable (n - 1) |> else set_ime_enabled c
  | _ => c
  end.

(** ** Execution-state transitions ([cycle.rs], [interrupt_control.rs]) *)

Definition begin_instruction (opcode : Z) (kind : CpuInstructionKind) (c : CpuCore) : CpuCore :=
  c <| in_flight := (in_flight c) <| if_opcode := Some opcode |> <| if_kind := Some kind |>
         <| if_execution_group := Some (execution_group_of kind) |>
         <| if_cb_instruction_kind := None |> |>
    <| execution_state := ExecuteState 0 0 |>.

Definition request_stop_div_reset (c : CpuCore) : CpuCore := c <| stop_div_reset_requested := true |>.
Definition request_cgb_speed_switch (c : CpuCore) : CpuCore := c <| cgb_speed_switch_requested := true |>.

(** Both arms of the source's [match] on the current state build the same
    [Execute] state. *)
Definition advance_instruction (next_step : Z) (c : CpuCore) : CpuCore :=
  match execution_state c with
  | ExecuteState _ _ => c <| execution_state := ExecuteState next_step 0 |>
  | _ => c <| execution_state := ExecuteState next_step 0 |>
  end.

Definition stall_instruction (step : Z) (c : CpuCore) : CpuCore :=
  match execution_state c with
  | ExecuteState _ _ => c <| execution_state := ExecuteState step LAST_MACHINE_CYCLE_T |>
  | _ => c <| execution_state := ExecuteState step LAST_MACHINE_CYCLE_T |>
  end.

Definition finish_instruction (c : CpuCore) : CpuCore :=
  (advance_delayed_ime_enable (clear_in_flight_instruction_state c))
    <| execution_state := fetch_opcode |>.

Definition enter_stopped_state (c : CpuCore) : CpuCore :=
  (advance_delayed_ime_enable (clear_in_flight_instruction_state c)) <| execution_state := Stopped |>.

Definition enter_zombie_stopped_state (c : CpuCore) : CpuCore :=
  (advance_delayed_ime_enable (clear_in_flight_instruction_state c))
    <| execution_state := ZombieStopped |>.

Definition enter_speed_switch_pause_state (c : CpuCore) : CpuCore :=
  (advance_delayed_ime_enable (clear_in_flight_instruction_state c))
    <| execution_state := SpeedSwitchPause CGB_SPEED_SWITCH_PAUSE_T_CYCLES |>.

Definition finish_and_request_halt (c : CpuCore) : CpuCore :=
  let c := clear_in_flight_instruction_state c in
  let ime_on := ime c in
  let had_pending_ei := delayed_ime_enable c in
  let c := advance_delayed_ime_enable c in
  let c := request_halt_after_current_instruction ime_on had_pending_ei c in
  c <| execution_state := fetch_opcode |>.

Definition stop_entry_resolution (wake_line_asserted pending_interrupt : bool) (c : CpuCore)
    : StopEntryResolution :=
  if ime_enabled c then
    if wake_line_asserted then CompleteOnCurrentMachineCycle else EnterStoppedAfterPaddingFetch
  else
    match wake_line_asserted, pending_interrupt with
    | false, false => EnterStoppedAfterPaddingFetch
    | false, true => EnterZombieStopped
    | true, false => EnterHaltAfterPaddingFetch
    | true, true => CompleteOnCurrentMachineCycle
    end.

Section Execute.
Context {W : Type} `{CpuExternal W}.

Definition advance (next_step : Z) : CM W unit := modify_core (advance_instruction next_step).
Definition stall (step : Z) : CM W unit := modify_core (stall_instruction step).
Definition finish : CM W unit := modify_core finish_instruction.

(** [operand16_latch = u16::from(read_pc_u8())] and
    [operand16_latch |= u16::from(read_pc_u8()) << 8]. *)
Definition latch_low_operand : CM W unit :=
  low ← read_pc_u8;
  set_operand16_latch low.
Definition latch_high_operand : CM W unit :=
  high ← read_pc_u8;
  latch ← get_operand16_latch;
  set_operand16_latch (Z.lor latch (Z.shiftl high 8)).
Definition latch_operand8 : CM W unit :=
  value ← read_pc_u8;
  set_operand8_latch value.

(** ** Loads ([execute/loads.rs]) *)

Definition exec_load_register_immediate (target : Register8) (step : Z) : CM W unit :=
  match step with
  | 0 => value ← read_pc_u8; modify_registers (write_register8 target value);; finish
  | _ => stall step
  end.

Definition exec_load_register_pair_immediate (target : Register16) (step : Z) : CM W unit :=
  match step with
  | 0 => latch_low_operand;; advance 1
  | 1 =>
      high ← read_pc_u8;
      latch ← get_operand16_latch;
      modify_registers (write_register16 target (Z.lor latch (Z.shiftl high 8)));;
      finish
  | _ => stall step
  end.

Definition exec_load_register_from_hl (target : Register8) (step : Z) : CM W unit :=
  match step with
  | 0 =>
      address ← gets_registers hl;
      value ← read_byte address;
      modify_registers (write_register8 target value);;
      finish
  | _ => stall step
  end.

Definition exec_store_register_to_hl (source : Register8) (step : Z) : CM W unit :=
  match step with
  | 0 =>
      address ← gets_registers hl;
      value ← gets_registers (read_register8 source);
      write_byte address value;;
      finish
  | _ => stall step
  end.

Definition exec_store_immediate_to_hl (step : Z) : CM W unit :=
  match step with
  | 0 => latch_operand8;; advance 1
  | 1 =>
      address ← gets_registers hl;
      value ← get_operand8_latch;
      write_byte address value;;
      finish
  | _ => stall step
  end.

Definition exec_load_a_from_hl_with_update (direction : CpuAddressUpdateDirection) (step : Z) : CM W unit :=
  match step with
  | 0 =>
      value ← read_hl_with_update direction;
      modify_registers (fun r => r <| r_a := value |>);;
      finish
  | _ => stall step
  end.

Definition exec_store_a_to_hl_with_update (direction : CpuAddressUpdateDirection) (step : Z) : CM W unit :=
  match step with
  | 0 =>
      a ← gets_registers r_a;
      write_hl_with_update a direction;;
      finish
  | _ => stall step
  end.

Definition exec_load_a_from_direct_address (source : DirectAddressSource) (step : Z) : CM W unit :=
  match step with
  | 0 =>
      address ← gets_registers (resolve_direct_address source);
      value ← read_byte address;
      modify_registers (fun r => r <| r_a := value |>);;
      finish
  | _ => stall step
  end.

(** The phases [ReadLow], [ReadHigh] and [Access] are steps 0, 1 and 2. *)
Definition exec_load_a_from_immediate16_address (step : Z) : CM W unit :=
  match step with
  | 0 => latch_low_operand;; advance 1
  | 1 => latch_high_operand;; advance 2
  | 2 =>
      address ← resolve_immediate16_address;
      value ← read_byte address;
      modify_registers (fun r => r <| r_a := value |>);;
      finish
  | _ => stall step
  end.

Definition exec_load_a_from_high_immediate_address (step : Z) : CM W unit :=
  match step with
  | 0 => latch_operand8;; advance 1
  | 1 =>
      address ← resolve_high_immediate_address;
      value ← read_byte address;
      modify_registers (fun r => r <| r_a := value |>);;
      finish
  | _ => stall step
  end.

Definition exec_store_a_to_direct_address (destination : DirectAddressSource) (step : Z) : CM W unit :=
  match step with
  | 0 =>
      address ← gets_registers (resolve_direct_address destination);
      a ← gets_registers r_a;
      write_byte address a;;
      finish
  | _ => stall step
  end.

Definition exec_store_a_to_immediate16_address (step : Z) : CM W unit :=
  match step with
  | 0 => latch_low_operand;; advance 1
  | 1 => latch_high_operand;; advance 2
  | 2 =>
      address ← resolve_immediate16_address;
      a ← gets_registers r_a;
      write_byte address a;;
      finish
  | _ => stall step
  end.

Definition exec_store_a_to_high_immediate_address (step : Z) : CM W unit :=
  match step with
  | 0 => latch_operand8;; advance 1
  | 1 =>
      address ← resolve_high_immediate_address;
      a ← gets_registers r_a;
      write_byte address a;;
      finish
  | _ => stall step
  end.

Definition exec_store_sp_to_immediate16 (step : Z) : CM W unit :=
  match step with
  | 0 => latch_low_operand;; advance 1
  | 1 => latch_high_operand;; advance 2
  | 2 =>
      sp ← gets_registers r_sp;
      address ← get_operand16_latch;
      write_byte address (low_byte sp);;
      advance 3
  | 3 =>
      sp ← gets_registers r_sp;
      address ← get_operand16_latch;
      write_byte (wrapping_add16 address 1) (high_byte sp);;
      finish
  | _ => stall step
  end.

Definition exec_load_sp_from_hl (step : Z) : CM W unit :=
  match step with
  | 0 =>
      modify_registers (fun r => write_register16 R16_SP (hl r) r);;
      finish
  | _ => stall step
  end.

Definition execute_load_machine_cycle (kind : CpuInstructionKind) (step : Z) : CM W unit :=
  match kind with
  | LoadRegisterImmediate target => exec_load_register_immediate target step
  | LoadRegisterPairImmediate target => exec_load_register_pair_immediate target step
  | LoadRegisterFromHl target => exec_load_register_from_hl target step
  | StoreRegisterToHl source => exec_store_register_to_hl source step
  | StoreImmediateToHl => exec_store_immediate_to_hl step
  | LoadAFromHlWithUpdate direction => exec_load_a_from_hl_with_update direction step
  | StoreAToHlWithUpdate direction => exec_store_a_to_hl_with_update direction step
  | LoadAFromDirectAddress source => exec_load_a_from_direct_address source step
  | LoadAFromImmediate16Address => exec_load_a_from_immediate16_address step
  | LoadAFromHighImmediateAddress => exec_load_a_from_high_immediate_address step
  | StoreAToDirectAddress destination => exec_store_a_to_direct_address destination step
  | StoreAToImmediate16Address => exec_store_a_to_immediate16_address step
  | StoreAToHighImmediateAddress => exec_store_a_to_high_immediate_address step
  | StoreSpToImmediate16 => exec_store_sp_to_immediate16 step
  | LoadSpFromHl => exec_load_sp_from_hl step
  | _ => st_panic "non-load instruction dispatched to load executor"
  end.

(** ** Arithmetic ([execute/arithmetic.rs]) *)

Definition exec_load_hl_from_sp_plus_immediate (step : Z) : CM W unit :=
  match step with
  | 0 => latch_operand8;; advance 1
  | 1 =>
      latch ← get_operand8_latch;
      result ← update_registers (sp_plus_signed_immediate latch);
      modify_registers (write_register16 R16_HL result);;
      finish
  | _ => stall step
  end.

Definition exec_add_sp_immediate (step : Z) : CM W unit :=
  match step with
  | 0 => latch_operand8;; advance 1
  | 1 => advance 2
  | 2 =>
      latch ← get_operand8_latch;
      result ← update_registers (sp_plus_signed_immediate latch);
      modify_registers (write_register16 R16_SP result);;
      finish
  | _ => stall step
  end.

Definition exec_add_hl (source : Register16) (step : Z) : CM W unit :=
  match step with
  | 0 =>
      value ← gets_registers (read_register16 source);
      modify_registers (add_to_hl value);;
      finish
  | _ => stall step
  end.

Definition exec_increment_register_pair (target : Register16) (step : Z) : CM W unit :=
  match step with
  | 0 => increment_or_decrement_register_pair target Increment;; finish
  | _ => stall step
  end.

Definition exec_decrement_register_pair (target : Register16) (step : Z) : CM W unit :=
  match step with
  | 0 => increment_or_decrement_register_pair target Decrement;; finish
  | _ => stall step
  end.

Definition exec_increment_hl_memory (step : Z) : CM W unit :=
  match step with
  | 0 =>
      address ← gets_registers hl;
      value ← read_byte address;
      set_operand8_latch value;;
      advance 1
  | 1 =>
      before ← get_operand8_latch;
      let result := wrapping_add8 before 1 in
      set_operand8_latch result;;
      address ← gets_registers hl;
      write_byte address result;;
      modify_registers (update_inc_flags before result);;
      finish
  | _ => stall step
  end.

Definition exec_decrement_hl_memory (step : Z) : CM W unit :=
  match step with
  | 0 =>
      address ← gets_registers hl;
      value ← read_byte address;
      set_operand8_latch value;;
      advance 1
  | 1 =>
      before ← get_operand8_latch;
      let result := wrapping_sub8 before 1 in
      set_operand8_latch result;;
      address ← gets_registers hl;
      write_byte address result;;
      modify_registers (update_dec_flags before result);;
      finish
  | _ => stall step
  end.

Definition exec_alu_immediate (operation : AluOperation) (step : Z) : CM W unit :=
  match step with
  | 0 => value ← read_pc_u8; modify_registers (apply_alu_operation operation value);; finish
  | _ => stall step
  end.

Definition exec_alu_from_hl (operation : AluOperation) (step : Z) : CM W unit :=
  match step with
  | 0 =>
      address ← gets_registers hl;
      value ← read_byte address;
      modify_registers (apply_alu_operation operation value);;
      finish
  | _ => stall step
  end.

Definition execute_arithmetic_machine_cycle (kind : CpuInstructionKind) (step : Z) : CM W unit :=
  match kind with
  | LoadHlFromSpPlusImmediate => exec_load_hl_from_sp_plus_immediate step
  | AddSpImmediate => exec_add_sp_immediate step
  | AddHl source => exec_add_hl source step
  | IncrementRegisterPair target => exec_increment_register_pair target step
  | DecrementRegisterPair target => exec_decrement_register_pair target step
  | IncrementHlMemory => exec_increment_hl_memory step
  | DecrementHlMemory => exec_decrement_hl_memory step
  | AluImmediate operation => exec_alu_immediate operation step
  | AluFromHl operation => exec_alu_from_hl operation step
  | _ => st_panic "non-arithmetic instruction dispatched to arithmetic executor"
  end.

(** ** Control flow ([execute/control_flow.rs]) *)

Definition jump_to (target : Z) : CM W unit := modify_registers (fun r => r <| r_pc := target |>).
Definition commit_latched_target : CM W unit :=
  target ← get_operand16_latch; jump_to target.
Definition commit_relative_target : CM W unit :=
  latch ← get_operand8_latch;
  modify_registers (fun r => r <| r_pc := wrapping_add_signed16 (r_pc r) (as_i8 latch) |>).

Definition exec_relative_jump (step : Z) : CM W unit :=
  match step with
  | 0 => latch_operand8;; advance 1
  | 1 => commit_relative_target;; finish
  | _ => stall step
  end.

Definition exec_conditional_relative_jump (condition : ConditionCode) (step : Z) : CM W unit :=
  match step with
  | 0 =>
      latch_operand8;;
      met ← gets_registers (condition_is_met (Some condition));
      if (met : bool) then advance 1 else finish
  | 1 => commit_relative_target;; finish
  | _ => stall step
  end.

Definition exec_absolute_jump (step : Z) : CM W unit :=
  match step with
  | 0 => latch_low_operand;; advance 1
  | 1 => latch_high_operand;; advance 2
  | 2 => commit_latched_target;; finish
  | _ => stall step
  end.

Definition exec_conditional_absolute_jump (condition : ConditionCode) (step : Z) : CM W unit :=
  match step with
  | 0 => latch_low_operand;; advance 1
  | 1 =>
      latch_high_operand;;
      met ← gets_registers (condition_is_met (Some condition));
      if (met : bool) then advance 2 else finish
  | 2 => commit_latched_target;; finish
  | _ => stall step
  end.

Definition exec_call (step : Z) : CM W unit :=
  match step with
  | 0 => latch_low_operand;; advance 1
  | 1 => latch_high_operand;; advance 2
  | 2 => prepare_pc_stack_push;; advance 3
  | 3 => push_pc_high_at_sp;; advance 4
  | 4 => push_latched_low_with_decremented_sp;; commit_latched_target;; finish
  | _ => stall step
  end.

Definition exec_conditional_call (condition : ConditionCode) (step : Z) : CM W unit :=
  match step with
  | 0 => latch_low_operand;; advance 1
  | 1 =>
      latch_high_operand;;
      met ← gets_registers (condition_is_met (Some condition));
      if (met : bool) then advance 2 else finish
  | 2 => prepare_pc_stack_push;; advance 3
  | 3 => push_pc_high_at_sp;; advance 4
  | 4 => push_latched_low_with_decremented_sp;; commit_latched_target;; finish
  | _ => stall step
  end.

Definition exec_return (step : Z) : CM W unit :=
  match step with
  | 0 => read_latched_stack_low_byte;; advance 1
  | 1 => read_latched_stack_high_byte;; advance 2
  | 2 => commit_latched_target;; finish
  | _ => stall step
  end.

Definition exec_conditional_return (condition : ConditionCode) (step : Z) : CM W unit :=
  match step with
  | 0 =>
      met ← gets_registers (condition_is_met (Some condition));
      if (met : bool) then advance 1 else finish
  | 1 => read_latched_stack_low_byte;; advance 2
  | 2 => read_latched_stack_high_byte;; advance 3
  | 3 => commit_latched_target;; finish
  | _ => stall step
  end.

Definition exec_return_from_interrupt (step : Z) : CM W unit :=
  match step with
  | 0 => read_latched_stack_low_byte;; advance 1
  | 1 => read_latched_stack_high_byte;; advance 2
  | 2 =>
      commit_latched_target;;
      modify_core set_ime_enabled;;
      modify_core cancel_delayed_ime_enable;;
      finish
  | _ => stall step
  end.

Definition exec_stop (step : Z) : CM W unit :=
  match step with
  | 0 =>
      modify_core request_stop_div_reset;;
      prepared ← cgb_speed_switch_prepared;
      if (prepared : bool) then
        read_pc_u8;;
        modify_core request_cgb_speed_switch;;
        modify_core enter_speed_switch_pause_state
      else
        wake_line_asserted ← stop_wake_line_asserted;
        ime_on ← gets_core ime;
        pending_interrupt ← (if (ime_on : bool) then mret false
                             else highest ← current_highest_pending_interrupt;
                                  mret (match highest with Some _ => true | None => false end));
        resolution ← gets_core (stop_entry_resolution wake_line_asserted pending_interrupt);
        match resolution with
        | CompleteOnCurrentMachineCycle => finish
        | EnterStoppedAfterPaddingFetch => read_pc_u8;; modify_core enter_stopped_state
        | EnterZombieStopped => modify_core enter_zombie_stopped_state
        | EnterHaltAfterPaddingFetch => read_pc_u8;; modify_core finish_and_request_halt
        end
  | _ => stall step
  end.

Definition exec_restart (vector : Z) (step : Z) : CM W unit :=
  match step with
  | 0 => prepare_pc_stack_push;; advance 1
  | 1 => push_pc_high_at_sp;; advance 2
  | 2 => push_latched_low_with_decremented_sp;; jump_to vector;; finish
  | _ => stall step
  end.

Definition execute_control_flow_machine_cycle (kind : CpuInstructionKind) (step : Z) : CM W unit :=
  match kind with
  | RelativeJump => exec_relative_jump step
  | ConditionalRelativeJump condition => exec_conditional_relative_jump condition step
  | AbsoluteJump => exec_absolute_jump step
  | ConditionalAbsoluteJump condition => exec_conditional_absolute_jump condition step
  | Call => exec_call step
  | ConditionalCall condition => exec_conditional_call condition step
  | Return => exec_return step
  | ConditionalReturn condition => exec_conditional_return condition step
  | ReturnFromInterrupt => exec_return_from_interrupt step
  | Stop => exec_stop step
  | Restart vector => exec_restart vector step
  | _ => st_panic "non-control-flow instruction dispatched to control-flow executor"
  end.

(** ** Stack ([execute/stack.rs]) *)

Definition exec_push_register_pair (source : StackRegister16) (step : Z) : CM W unit :=
  match step with
  | 0 =>
      value ← gets_registers (read_stack_register16 source);
      set_operand16_latch value;;
      decrement_sp_and_record_idu_event;;
      advance 1
  | 1 =>
      latch ← get_operand16_latch;
      push_latched_u16_high_at_sp;;
      set_operand8_latch (low_byte latch);;
      advance 2
  | 2 => push_latched_low_with_decremented_sp;; finish
  | _ => stall step
  end.

Definition exec_pop_register_pair (target : StackRegister16) (step : Z) : CM W unit :=
  match step with
  | 0 => read_latched_stack_low_byte;; advance 1
  | 1 =>
      read_latched_stack_high_byte;;
      latch ← get_operand16_latch;
      modify_registers (write_stack_register16 target latch);;
      finish
  | _ => stall step
  end.

Definition execute_stack_machine_cycle (kind : CpuInstructionKind) (step : Z) : CM W unit :=
  match kind with
  | PushRegisterPair source => exec_push_register_pair source step
  | PopRegisterPair target => exec_pop_register_pair target step
  | _ => st_panic "non-stack instruction dispatched to stack executor"
  end.

(** ** CB-prefixed instructions ([execute/cb.rs]) *)

Definition is_indirect_hl (operand : Register8Operand) : bool :=
  match operand with IndirectHl => true | OperandRegister _ => false end.

Definition cb_fetch_and_dispatch : CM W unit :=
  cb_opcode ← read_pc_u8;
  set_operand8_latch cb_opcode;;
  kind ← st_lift (decode_cb_opcode cb_opcode);
  match cb_target kind with
  | OperandRegister target =>
      value ← gets_registers (read_register8 target);
      result ← update_registers (apply_cb_operation kind value);
      (match result with
       | Some result => modify_registers (write_register8 target result)
       | None => mret tt
       end);;
      finish
  | IndirectHl =>
      modify_core (fun c => c <| in_flight := (in_flight c) <| if_cb_instruction_kind := Some kind |> |>);;
      advance 1
  end.

Definition cb_read_and_apply (step : Z) : CM W unit :=
  cb_kind ← gets_core (fun c => if_cb_instruction_kind (in_flight c));
  match cb_kind with
  | Some kind =>
      if is_indirect_hl (cb_target kind) then
        address ← gets_registers hl;
        value ← read_byte address;
        result ← update_registers (apply_cb_operation kind value);
        match result with
        | Some result => set_operand8_latch result;; advance 2
        | None => finish
        end
      else stall step
  | None => stall step
  end.

Definition cb_write_back (step : Z) : CM W unit :=
  cb_kind ← gets_core (fun c => if_cb_instruction_kind (in_flight c));
  match cb_kind with
  | Some kind =>
      if is_indirect_hl (cb_target kind)
         && negb (match kind with BitTest _ _ => true | _ => false end) then
        address ← gets_registers hl;
        value ← get_operand8_latch;
        write_byte address value;;
        finish
      else stall step
  | None => stall step
  end.

Definition execute_cb_prefixed_machine_cycle (step : Z) : CM W unit :=
  match step with
  | 0 => cb_fetch_and_dispatch
  | 1 => cb_read_and_apply step
  | 2 => cb_write_back step
  | _ => stall step
  end.

(** ** Dispatch ([execute.rs]) *)

(** The [debug_assert!]s of the source, which a release build drops, are not
    part of the model; the safety theorem shows that what they state holds. *)
Definition complete_execute_machine_cycle (step : Z) : CM W unit :=
  descriptor ← gets_core (fun c => execution_descriptor (in_flight c));
  match descriptor with
  | None => modify_core (fun c => c <| execution_state := ExecuteState step LAST_MACHINE_CYCLE_T |>)
  | Some (kind, execution_group) =>
      match execution_group with
      | GroupLoad => execute_load_machine_cycle kind step
      | GroupArithmetic => execute_arithmetic_machine_cycle kind step
      | GroupControlFlow => execute_control_flow_machine_cycle kind step
      | GroupStack => execute_stack_machine_cycle kind step
      | GroupCbPrefixed => execute_cb_prefixed_machine_cycle step
      end
  end.
End Execute.
