(* ===== verification/CpuCycle.v ===== *)
(** * The CPU T-cycle and interrupt control ([cpu/cycle.rs], [cpu/interrupt_control.rs])

    [tick_t_cycle] advances the core by one T-cycle: three T-cycles count, the
    fourth completes the machine cycle of the current state (opcode fetch,
    instruction step, interrupt-service step).  [evaluate_wake_and_interrupts]
    and [evaluate_current_cycle_interrupt_requests] are the scheduler-phase
    hooks that wake the core and begin interrupt service. *)

From Stdlib Require Import ZArith Lia Bool String.
From stdpp Require Import base list tactics decidable option numbers.
From S2P Require Import Prelude CpuData CpuAlu CpuDecode CpuBus CpuExec Interrupts Scheduler Joypad.

Local Open Scope Z_scope.

(** ** Interrupt service states ([interrupt_control.rs]) *)

Definition is_stop_sleep_state (c : CpuCore) : bool :=
  match execution_state c with Stopped | ZombieStopped => true | _ => false end.

Definition can_accept_interrupt (c : CpuCore) : bool :=
  match execution_state c with
  | FetchOpcode _ => match if_opcode (in_flight c) with None => true | Some _ => false end
  | _ => false
  end.

Definition begin_interrupt_service (source : InterruptSource) (c : CpuCore) : CpuCore :=
  (clear_in_flight_instruction_state (cancel_delayed_ime_enable (set_ime_disabled c)))
    <| execution_state := ServiceInterrupt source 0 0 |>.

(** Both arms of the source's [match] on the current state build the same
    state; likewise for the bugged service below. *)
Definition advance_interrupt_service (source : InterruptSource) (next_step : Z) (c : CpuCore) : CpuCore :=
  match execution_state c with
  | ServiceInterrupt _ _ _ => c <| execution_state := ServiceInterrupt source next_step 0 |>
  | _ => c <| execution_state := ServiceInterrupt source next_step 0 |>
  end.

Definition begin_stop_wake_bugged_interrupt_service (c : CpuCore) : CpuCore :=
  (clear_in_flight_instruction_state (cancel_delayed_ime_enable (set_ime_disabled c)))
    <| execution_state := ServiceStopWakeBuggedInterrupt 0 0 |>.

Definition advance_stop_wake_bugged_interrupt_service (next_step : Z) (c : CpuCore) : CpuCore :=
  match execution_state c with
  | ServiceStopWakeBuggedInterrupt _ _ =>
      c <| execution_state := ServiceStopWakeBuggedInterrupt next_step 0 |>
  | _ => c <| execution_state := ServiceStopWakeBuggedInterrupt next_step 0 |>
  end.

Definition finish_interrupt_service (c : CpuCore) : CpuCore :=
  (clear_in_flight_instruction_state c) <| execution_state := fetch_opcode |>.

Definition accept_pending_interrupt (interrupts : InterruptController) (c : CpuCore)
    : InterruptController * CpuCore :=
  match highest_pending interrupts with
  | None => (interrupts, c)
  | Some source => (clear source interrupts, begin_interrupt_service source c)
  end.

(** ** Wake and interrupt evaluation *)

(** The early return of [evaluate_wake_and_interrupts]: nothing to evaluate. *)
Definition wake_evaluation_needed (joypad : Joypad) (c : CpuCore) : bool :=
  is_stop_sleep_state c
  || stop_wake_event_pending joypad
  || match execution_state c with DiagnosticTrap _ | Halted => true | _ => false end
  || halt_request_pending c
  || ime c && can_accept_interrupt c.

Definition resolve_halt_request (halt_request : HaltRequestContext) (pending : bool)
    (interrupts : InterruptController) (c : CpuCore) : InterruptController * CpuCore :=
  if negb (hr_ime_enabled halt_request) && pending then
    if hr_had_pending_ei halt_request && ime c then
      accept_pending_interrupt interrupts
        (c <| registers := (registers c) <| r_pc := wrapping_sub16 (r_pc (registers c)) 1 |> |>)
    else
      (interrupts, (arm_halt_bug c) <| execution_state := fetch_opcode |>)
  else if pending then accept_pending_interrupt interrupts c
  else (interrupts, c <| execution_state := Halted |>).

Definition evaluate_wake_and_interrupts (interrupts : InterruptController) (joypad : Joypad) (c : CpuCore)
    : InterruptController * Joypad * CpuCore :=
  let stop_sleep_state := is_stop_sleep_state c in
  if negb (wake_evaluation_needed joypad c) then (interrupts, joypad, c) else
  let joypad := if negb stop_sleep_state then (consume_stop_wake_event joypad).1 else joypad in
  match execution_state c with
  | DiagnosticTrap _ => (interrupts, joypad, c)
  | _ =>
    if stop_sleep_state then
      let '(joypad, wake) := consume_stop_wake_event joypad in
      if wake then
        if match execution_state c with Stopped => true | _ => false end && ime c
           && has_bits (pending_mask interrupts) (mask JoypadIrq) then
          (clear JoypadIrq interrupts, joypad, begin_stop_wake_bugged_interrupt_service c)
        else (interrupts, joypad, c <| execution_state := fetch_opcode |>)
      else (interrupts, joypad, c)
    else
      let pending := negb (pending_mask interrupts =? 0) in
      match take_halt_request c with
      | (Some halt_request, c) =>
          let '(interrupts, c) := resolve_halt_request halt_request pending interrupts c in
          (interrupts, joypad, c)
      | (None, c) =>
          match execution_state c with
          | Halted =>
              if negb pending then (interrupts, joypad, c)
              else if ime c then
                let '(interrupts, c) := accept_pending_interrupt interrupts c in
                (interrupts, joypad, c)
              else (interrupts, joypad, c <| execution_state := fetch_opcode |>)
          | _ =>
              if negb (ime c) || negb (can_accept_interrupt c) then (interrupts, joypad, c)
              else
                let '(interrupts, c) := accept_pending_interrupt interrupts c in
                (interrupts, joypad, c)
          end
      end
  end.

Definition evaluate_current_cycle_interrupt_requests (interrupts : InterruptController)
    (current_cycle_request_mask : Z) (c : CpuCore)
    : option InterruptSource * InterruptController * CpuCore :=
  if (current_cycle_request_mask =? 0) || negb (ime c) || negb (can_accept_interrupt c)
  then (None, interrupts, c)
  else
    let pending := Z.lor (pending_mask interrupts)
                         (Z.land (read_ie interrupts) current_cycle_request_mask) in
    match highest_priority_from_mask pending with
    | None => (None, interrupts, c)
    | Some source => (Some source, clear source interrupts, begin_interrupt_service source c)
    end.

Section Cycle.
Context {W : Type} `{CpuExternal W}.

(** The push of the upper PC byte at [SP = 0xFFFF] overwrites [IE]: the
    dispatch is retargeted or cancelled. *)
Definition retarget_after_ie_write (source : InterruptSource) : CM W unit :=
  pending ← current_pending_interrupt_mask;
  current_ie ← current_interrupt_enable_mask;
  match highest_priority_from_mask (Z.lor pending (Z.land current_ie (mask source))) with
  | Some next_source =>
      (if decide (next_source = source) then mret tt
       else request_interrupt source;; acknowledge_interrupt next_source);;
      modify_core (advance_interrupt_service next_source 4)
  | None =>
      request_interrupt source;;
      modify_registers (fun r => r <| r_pc := 0x0000 |>);;
      modify_core finish_interrupt_service
  end.

Definition complete_interrupt_service_machine_cycle (source : InterruptSource) (step : Z) : CM W unit :=
  match step with
  | 0 | 1 => modify_core (advance_interrupt_service source (step + 1))
  | 2 => prepare_pc_stack_push;; modify_core (advance_interrupt_service source 3)
  | 3 =>
      upper_pc_push_targets_ie ← gets_registers (fun r => r_sp r =? 0xFFFF);
      push_pc_high_at_sp;;
      if (upper_pc_push_targets_ie : bool) then retarget_after_ie_write source
      else modify_core (advance_interrupt_service source 4)
  | 4 =>
      push_latched_low_with_decremented_sp;;
      modify_registers (fun r => r <| r_pc := vector source |>);;
      modify_core finish_interrupt_service
  | _ => modify_core (advance_interrupt_service source step)
  end.

Definition complete_stop_wake_bugged_interrupt_service_machine_cycle (step : Z) : CM W unit :=
  match step with
  | 0 | 1 => modify_core (advance_stop_wake_bugged_interrupt_service (step + 1))
  | 2 => prepare_pc_stack_push;; modify_core (advance_stop_wake_bugged_interrupt_service 3)
  | 3 => push_pc_high_at_sp;; modify_core (advance_stop_wake_bugged_interrupt_service 4)
  | 4 =>
      latch ← get_operand8_latch;
      write_byte_at_sp latch;;
      modify_registers (fun r => r <| r_pc := 0x0000 |>);;
      modify_core finish_interrupt_service
  | _ => modify_core (advance_stop_wake_bugged_interrupt_service step)
  end.

(** ** [cycle.rs] *)

Definition rotate_accumulator (rotate : Z -> CpuRegisters -> Z * CpuRegisters) (r : CpuRegisters)
    : CpuRegisters :=
  let '(result, r) := rotate (r_a r) r in
  let r := r <| r_a := result |> in
  write_flags false false false (has_bits (r_f r) FLAG_C) r.

Definition load_register_to_register (destination source : Register8) (r : CpuRegisters) : CpuRegisters :=
  write_register8 destination (read_register8 source r) r.

Definition increment_register (target : Register8) (r : CpuRegisters) : CpuRegisters :=
  let before := read_register8 target r in
  let result := wrapping_add8 before 1 in
  update_inc_flags before result (write_register8 target result r).

Definition decrement_register (target : Register8) (r : CpuRegisters) : CpuRegisters :=
  let before := read_register8 target r in
  let result := wrapping_sub8 before 1 in
  update_dec_flags before result (write_register8 target result r).

(** What each fetch completion does to the registers; [None] for the three
    that act on the interrupt and halt controls instead. *)
Definition fetch_completion_registers (completion : FetchCompletionKind)
    : option (CpuRegisters -> CpuRegisters) :=
  match completion with
  | Nop => Some id
  | DecimalAdjustAccumulator => Some decimal_adjust_a
  | ComplementAccumulator => Some complement_a
  | SetCarryFlag => Some set_carry_flag
  | ComplementCarryFlag => Some complement_carry_flag
  | RotateLeftAccumulatorCarry => Some (rotate_accumulator rotate_left_carry)
  | RotateLeftAccumulatorThroughCarry => Some (rotate_accumulator rotate_left_through_carry)
  | RotateRightAccumulatorCarry => Some (rotate_accumulator rotate_right_carry)
  | RotateRightAccumulatorThroughCarry => Some (rotate_accumulator rotate_right_through_carry)
  | Halt | DisableInterrupts | EnableInterrupts => None
  | JumpHl => Some (fun r => r <| r_pc := hl r |>)
  | LoadRegisterToRegister destination source => Some (load_register_to_register destination source)
  | IncrementRegister target => Some (increment_register target)
  | DecrementRegister target => Some (decrement_register target)
  | AluRegister operation source =>
      Some (fun r => apply_alu_operation operation (read_register8 source r) r)
  end.

Definition complete_fetch_completion (completion : FetchCompletionKind) (c : CpuCore) : CpuCore :=
  match fetch_completion_registers completion with
  | Some f => finish_instruction (c <| registers := f (registers c) |>)
  | None =>
      match completion with
      | Halt => finish_and_request_halt c
      | DisableInterrupts => finish_instruction (cancel_delayed_ime_enable (set_ime_disabled c))
      | EnableInterrupts => finish_instruction (schedule_delayed_ime_enable c)
      | _ => c
      end
  end.

Definition enter_invalid_opcode_trap (opcode : Z) (c : CpuCore) : CpuCore :=
  let address := match last_address_event c with
                 | Some event =>
                     match access_address event with
                     | Some address => address
                     | None => wrapping_sub16 (r_pc (registers c)) 1
                     end
                 | None => wrapping_sub16 (r_pc (registers c)) 1
                 end in
  (clear_decoded_instruction_state c) <| execution_state := DiagnosticTrap (InvalidOpcode opcode address) |>.

Definition resolution_is_complete (resolution : StopEntryResolution) : bool :=
  match resolution with CompleteOnCurrentMachineCycle => true | _ => false end.

Definition stop_completes_on_fetch_machine_cycle : CM W bool :=
  prepared ← cgb_speed_switch_prepared;
  if (prepared : bool) then mret false else
  wake_line_asserted ← CpuBus.stop_wake_line_asserted;
  if negb wake_line_asserted then mret false else
  ime_on ← gets_core ime_enabled;
  if (ime_on : bool) then
    gets_core (fun c => resolution_is_complete (stop_entry_resolution wake_line_asserted false c))
  else
    highest ← current_highest_pending_interrupt;
    let pending_interrupt := match highest with Some _ => true | None => false end in
    gets_core (fun c =>
      resolution_is_complete (stop_entry_resolution wake_line_asserted pending_interrupt c)).

Definition complete_decoded_opcode (opcode : Z) (decoded : DecodedOpcode) (c : CpuCore) : CpuCore :=
  match decoded with
  | CompleteOnFetch completion => complete_fetch_completion completion c
  | Execute kind => begin_instruction opcode kind c
  | Unsupported => enter_invalid_opcode_trap opcode c
  end.

Definition complete_fetch_opcode : CM W unit :=
  opcode ← read_opcode_u8;
  modify_core (fun c => c <| in_flight := (in_flight c) <| if_opcode := Some opcode |> |>);;
  completes ← (if opcode =? 0x10 then stop_completes_on_fetch_machine_cycle else mret false);
  if (completes : bool) then
    modify_core request_stop_div_reset;; finish
  else
    decoded ← st_lift (decode_fetched_opcode opcode);
    modify_core (complete_decoded_opcode opcode decoded).

Definition advance_speed_switch_pause (remaining_t_cycles : Z) (c : CpuCore) : CpuCore :=
  if remaining_t_cycles <=? 1 then c <| execution_state := fetch_opcode |>
  else c <| execution_state := SpeedSwitchPause (remaining_t_cycles - 1) |>.

(** The [advance_*_t_cycle] helpers of the source re-match the state and
    panic on any other; here the match that selects them also advances. *)
Definition tick_t_cycle : CM W unit :=
  modify_core (fun c => c <| last_bus_activity := None |> <| last_address_event := None |>);;
  state ← gets_core execution_state;
  match state with
  | FetchOpcode t =>
      if t <? LAST_MACHINE_CYCLE_T
      then modify_core (fun c => c <| execution_state := FetchOpcode (t + 1) |>)
      else complete_fetch_opcode
  | ExecuteState step t =>
      if t <? LAST_MACHINE_CYCLE_T
      then modify_core (fun c => c <| execution_state := ExecuteState step (t + 1) |>)
      else complete_execute_machine_cycle step
  | ServiceInterrupt source step t =>
      if t <? LAST_MACHINE_CYCLE_T
      then modify_core (fun c => c <| execution_state := ServiceInterrupt source step (t + 1) |>)
      else complete_interrupt_service_machine_cycle source step
  | ServiceStopWakeBuggedInterrupt step t =>
      if t <? LAST_MACHINE_CYCLE_T
      then modify_core (fun c => c <| execution_state := ServiceStopWakeBuggedInterrupt step (t + 1) |>)
      else complete_stop_wake_bugged_interrupt_service_machine_cycle step
  | SpeedSwitchPause remaining => modify_core (advance_speed_switch_pause remaining)
  | DiagnosticTrap _ | Halted | ZombieStopped | Stopped => mret tt
  end.

(** [n] T-cycles. *)
Fixpoint run (n : nat) : CM W unit :=
  match n with
  | O => mret tt
  | S n' => tick_t_cycle;; run n'
  end.
End Cycle.
