(* ===== verification/CpuSafety.v ===== *)
(** * Safety of the CPU core

    The well-formedness invariant of [CpuCore] (machine widths, zero low
    nibble of [F], an [Execute] state that matches the decoded instruction and
    a step the instruction has), and the proof that every T-cycle, wake
    evaluation and interrupt evaluation preserves it without panicking, in any
    environment that satisfies [CpuExternalLaws]. *)

From Stdlib Require Import ZArith Lia Bool String.
From stdpp Require Import base list tactics decidable option numbers.
From S2P Require Import Prelude Model CpuData CpuAlu CpuDecode CpuBus CpuExec CpuCycle Interrupts.
From S2P Require Import Scheduler Joypad Speed.

Local Open Scope Z_scope.

(** ** The invariant *)

(** The number of machine cycles in the [Execute] state of each instruction,
    after its opcode fetch. *)
Definition step_count (k : CpuInstructionKind) : Z :=
  match k with
  | StoreSpToImmediate16 | ConditionalReturn _ => 4
  | LoadAFromImmediate16Address | StoreAToImmediate16Address | AddSpImmediate | AbsoluteJump
  | ConditionalAbsoluteJump _ | Return | ReturnFromInterrupt | Restart _ | PushRegisterPair _
  | CbPrefixed => 3
  | Call | ConditionalCall _ => 5
  | LoadRegisterPairImmediate _ | StoreImmediateToHl | LoadAFromHighImmediateAddress
  | StoreAToHighImmediateAddress | LoadHlFromSpPlusImmediate | IncrementHlMemory
  | DecrementHlMemory | RelativeJump | ConditionalRelativeJump _ | PopRegisterPair _ => 2
  | _ => 1
  end.

Definition kind_ok (k : CpuInstructionKind) : Prop :=
  match k with Restart vector => u16 vector | _ => True end.

Definition ime_ok (s : ImeState) : Prop :=
  match s with
  | ImeDisabledPendingEnable n | ImeEnabledPendingEnable n => 1 <= n <= 2
  | _ => True
  end.

Record data_ok (c : CpuCore) : Prop := mkDataOk {
  data_registers : regs_ok (registers c);
  data_latch8 : u8 (if_operand8_latch (in_flight c));
  data_latch16 : u16 (if_operand16_latch (in_flight c));
  data_ime : ime_ok (ime_state c)
}.

(** The CB instruction in flight at the memory steps of a CB prefix. *)
Definition cb_in_flight_ok (k : CpuInstructionKind) (step : Z) (cb : option CbInstructionKind) : Prop :=
  k = CbPrefixed -> 0 < step ->
  exists kind, cb = Some kind /\ cb_target kind = IndirectHl /\
    (step = 2 -> cb_is_bit_test kind = false).

Definition execute_ok (step : Z) (i : InFlightInstruction) : Prop :=
  exists k, if_kind i = Some k /\ if_execution_group i = Some (execution_group_of k) /\
    kind_ok k /\ 0 <= step < step_count k /\ cb_in_flight_ok k step (if_cb_instruction_kind i).

Definition state_ok (s : CpuExecutionState) (i : InFlightInstruction) : Prop :=
  match s with
  | FetchOpcode t => 0 <= t <= 3
  | ExecuteState step t => execute_ok step i /\ 0 <= t <= 3
  | ServiceInterrupt _ step t | ServiceStopWakeBuggedInterrupt step t => 0 <= step <= 4 /\ 0 <= t <= 3
  | SpeedSwitchPause remaining => 1 <= remaining <= CGB_SPEED_SWITCH_PAUSE_T_CYCLES
  | _ => True
  end.

Definition cpu_ok (c : CpuCore) : Prop :=
  data_ok c /\ state_ok (execution_state c) (in_flight c).

Ltac cpu_cases c :=
  destruct c as [c_model c_start c_regs c_state [i_opcode i_kind i_group i_cb i_l8 i_l16]
                 c_ime c_halt c_ba c_ae c_sd c_ss].

(** ** Pure transitions *)

Lemma advance_delayed_ime_enable_ok c : data_ok c -> data_ok (advance_delayed_ime_enable c).
Proof.
  cpu_cases c. intros [H1 H2 H3 H4]. simpl in *.
  unfold advance_delayed_ime_enable. destruct c_ime; simpl in *; try done;
    destruct (Z.ltb_spec 1 instructions_remaining); split; simpl; auto; lia.
Qed.

Lemma clear_in_flight_ok c : data_ok c -> data_ok (clear_in_flight_instruction_state c).
Proof. cpu_cases c. intros [H1 H2 H3 H4]. split; simpl in *; auto with gb. Qed.

Lemma set_execution_state_ok s c : data_ok c -> data_ok (c <| execution_state := s |>).
Proof. cpu_cases c. intros [H1 H2 H3 H4]. by split. Qed.

Lemma execution_state_set s c : execution_state (c <| execution_state := s |>) = s.
Proof. by cpu_cases c. Qed.
Lemma in_flight_set_state s c : in_flight (c <| execution_state := s |>) = in_flight c.
Proof. by cpu_cases c. Qed.

Lemma set_ime_enabled_ok c : data_ok c -> data_ok (set_ime_enabled c).
Proof. cpu_cases c. intros [H1 H2 H3 H4]. by split. Qed.
Lemma set_ime_disabled_ok c : data_ok c -> data_ok (set_ime_disabled c).
Proof. cpu_cases c. intros [H1 H2 H3 H4]. by split. Qed.
Lemma cancel_delayed_ime_enable_ok c : data_ok c -> data_ok (cancel_delayed_ime_enable c).
Proof.
  cpu_cases c. intros [H1 H2 H3 H4]. split; simpl in *; auto. destruct (ime _); done.
Qed.
Lemma schedule_delayed_ime_enable_ok c : data_ok c -> data_ok (schedule_delayed_ime_enable c).
Proof.
  unfold schedule_delayed_ime_enable. destruct (delayed_ime_enable c); [done|].
  cpu_cases c. intros [H1 H2 H3 H4]. split; simpl in *; auto. destruct (ime _); simpl; lia.
Qed.
Lemma set_registers_ok r c : regs_ok r -> data_ok c -> data_ok (c <| registers := r |>).
Proof. cpu_cases c. intros ? [H1 H2 H3 H4]. by split. Qed.
Lemma set_halt_control_ok h c : data_ok c -> data_ok (c <| halt_control := h |>).
Proof. cpu_cases c. intros [H1 H2 H3 H4]. by split. Qed.

Create HintDb cpu discriminated.
#[export] Hint Resolve advance_delayed_ime_enable_ok clear_in_flight_ok set_execution_state_ok
  set_ime_enabled_ok set_ime_disabled_ok cancel_delayed_ime_enable_ok schedule_delayed_ime_enable_ok
  set_registers_ok set_halt_control_ok data_registers : cpu.

(** A core whose data is in range and whose new state asks nothing of the
    instruction in flight is well formed. *)
Lemma cpu_ok_set_state s c :
  data_ok c -> (forall i, state_ok s i) -> cpu_ok (c <| execution_state := s |>).
Proof.
  intros Hd Hs. split; [auto with cpu|]. rewrite execution_state_set. apply Hs.
Qed.

Lemma fetch_state_ok i : state_ok fetch_opcode i.
Proof. simpl. lia. Qed.

Lemma finish_instruction_ok c : data_ok c -> cpu_ok (finish_instruction c).
Proof. intros. apply cpu_ok_set_state; [auto with cpu | apply fetch_state_ok]. Qed.

Lemma finish_and_request_halt_ok c : data_ok c -> cpu_ok (finish_and_request_halt c).
Proof.
  intros. apply cpu_ok_set_state; [|apply fetch_state_ok].
  apply set_halt_control_ok. auto with cpu.
Qed.

Lemma enter_stopped_state_ok c : data_ok c -> cpu_ok (enter_stopped_state c).
Proof. intros. apply cpu_ok_set_state; [auto with cpu | done]. Qed.
Lemma enter_zombie_stopped_state_ok c : data_ok c -> cpu_ok (enter_zombie_stopped_state c).
Proof. intros. apply cpu_ok_set_state; [auto with cpu | done]. Qed.
Lemma enter_speed_switch_pause_state_ok c : data_ok c -> cpu_ok (enter_speed_switch_pause_state c).
Proof.
  intros. apply cpu_ok_set_state; [auto with cpu|].
  simpl. unfold CGB_SPEED_SWITCH_PAUSE_T_CYCLES. lia.
Qed.
Lemma finish_interrupt_service_ok c : data_ok c -> cpu_ok (finish_interrupt_service c).
Proof. intros. apply cpu_ok_set_state; [auto with cpu | apply fetch_state_ok]. Qed.
Lemma begin_interrupt_service_ok s c : data_ok c -> cpu_ok (begin_interrupt_service s c).
Proof. intros. apply cpu_ok_set_state; [auto with cpu | simpl; lia]. Qed.
Lemma begin_stop_wake_ok c : data_ok c -> cpu_ok (begin_stop_wake_bugged_interrupt_service c).
Proof. intros. apply cpu_ok_set_state; [auto with cpu | simpl; lia]. Qed.
Lemma advance_interrupt_service_ok s n c :
  0 <= n <= 4 -> data_ok c -> cpu_ok (advance_interrupt_service s n c).
Proof.
  intros. unfold advance_interrupt_service.
  destruct (execution_state c); (apply cpu_ok_set_state; [done | simpl; lia]).
Qed.
Lemma advance_stop_wake_ok n c :
  0 <= n <= 4 -> data_ok c -> cpu_ok (advance_stop_wake_bugged_interrupt_service n c).
Proof.
  intros. unfold advance_stop_wake_bugged_interrupt_service.
  destruct (execution_state c); (apply cpu_ok_set_state; [done | simpl; lia]).
Qed.

#[export] Hint Resolve finish_instruction_ok finish_and_request_halt_ok enter_stopped_state_ok
  enter_zombie_stopped_state_ok enter_speed_switch_pause_state_ok finish_interrupt_service_ok
  begin_interrupt_service_ok begin_stop_wake_ok : cpu.

(** ** Program logic *)

(** The decoded instruction a core has in flight. *)
Definition decoded (c : CpuCore)
    : option CpuInstructionKind * option InstructionExecutionGroup * option CbInstructionKind :=
  (if_kind (in_flight c), if_execution_group (in_flight c), if_cb_instruction_kind (in_flight c)).

Lemma advance_instruction_ok k n cb c :
  decoded c = (Some k, Some (execution_group_of k), cb) ->
  kind_ok k -> 0 <= n < step_count k -> cb_in_flight_ok k n cb ->
  data_ok c -> cpu_ok (advance_instruction n c).
Proof.
  intros Hk Hok Hn Hcb Hd.
  assert (Hcpu : cpu_ok (c <| execution_state := ExecuteState n 0 |>)).
  { split; [auto with cpu|]. rewrite execution_state_set, in_flight_set_state.
    split; [|lia]. injection Hk as H1 H2 H3. exists k. rewrite H1, H2, H3. done. }
  unfold advance_instruction. destruct (execution_state c); done.
Qed.

Section Logic.
Context {W : Type} `{CpuExternal W} (world_ok : W -> Prop) `{!CpuExternalLaws W world_ok}.

(** [safe m Q]: from in-range data [m] does not panic, returns a [Q], and
    keeps the data in range and the decoded instruction. *)
Definition safe {A} (m : CM W A) (Q : A -> Prop) : Prop := forall c w,
  data_ok c -> world_ok w ->
  wp m (c, w) (fun a s => Q a /\ data_ok s.1 /\ world_ok s.2 /\ decoded s.1 = decoded c).

(** [ends d m]: from in-range data and the decoded instruction [d], [m]
    completes a machine cycle in a well-formed core. *)
Definition ends d (m : CM W unit) : Prop := forall c w,
  data_ok c -> world_ok w -> decoded c = d ->
  wp m (c, w) (fun _ s => cpu_ok s.1 /\ world_ok s.2).

Lemma safe_bind {A B} (m : CM W A) (k : A -> CM W B) Q R :
  safe m Q -> (forall a, Q a -> safe (k a) R) -> safe (m ≫= k) R.
Proof.
  intros Hm Hk c w Hd Hw. apply wp_bind. eapply wp_mono; [by apply Hm|].
  intros a [c' w'] (Ha & Hd' & Hw' & Hc). eapply wp_mono; [by apply Hk|].
  intros b s (Hb & Hds & Hws & Hcs). rewrite Hcs, <- Hc. done.
Qed.

Lemma ends_bind {A} d (m : CM W A) (k : A -> CM W unit) Q :
  safe m Q -> (forall a, Q a -> ends d (k a)) -> ends d (m ≫= k).
Proof.
  intros Hm Hk c w Hd Hw Hdec. apply wp_bind. eapply wp_mono; [by apply Hm|].
  intros a [c' w'] (Ha & Hd' & Hw' & Hc). simpl in *. apply Hk; try done. by rewrite Hc.
Qed.

Lemma safe_ret {A} (a : A) (Q : A -> Prop) : Q a -> safe (mret a) Q.
Proof. intros ? c w ??. done. Qed.

Lemma safe_lift_done {A} (a : A) (Q : A -> Prop) : Q a -> safe (st_lift (Done a)) Q.
Proof. intros ? c w ??. done. Qed.

Lemma safe_weaken {A} (m : CM W A) (Q R : A -> Prop) :
  safe m Q -> (forall a, Q a -> R a) -> safe m R.
Proof.
  intros Hm HQ c w Hd Hw. eapply wp_mono; [by apply Hm|]. intros a s (Ha & ?). auto.
Qed.

Lemma safe_true {A} (m : CM W A) Q : safe m Q -> safe m (fun _ => True).
Proof. intros. by eapply safe_weaken. Qed.

Lemma safe_external op : operation_typed op -> safe (external op) (fun _ => True).
Proof.
  intros Hop c w Hd Hw. unfold wp, external.
  pose proof (external_preserves (world_ok := world_ok) op w Hw Hop) as Hp.
  destruct (bus_operation op w). done.
Qed.

Lemma safe_gets_core {A} (f : CpuCore -> A) (Q : A -> Prop) :
  (forall c, data_ok c -> Q (f c)) -> safe (gets_core f) Q.
Proof. intros Hf c w Hd Hw. cbn. auto. Qed.

Lemma safe_gets_registers {A} (f : CpuRegisters -> A) (Q : A -> Prop) :
  (forall r, regs_ok r -> Q (f r)) -> safe (gets_registers f) Q.
Proof. intros Hf. apply safe_gets_core. intros c Hd. apply Hf, Hd. Qed.

Lemma safe_modify_core f :
  (forall c, data_ok c -> data_ok (f c)) -> (forall c, decoded (f c) = decoded c) ->
  safe (modify_core f) (fun _ => True).
Proof. intros Hf Hc c w Hd Hw. cbn. auto. Qed.

Lemma safe_modify_registers f :
  (forall r, regs_ok r -> regs_ok (f r)) -> safe (modify_registers f) (fun _ => True).
Proof.
  intros Hf. apply safe_modify_core; [|by intros c; cpu_cases c].
  intros c Hd. apply set_registers_ok; [apply Hf, Hd | done].
Qed.

Lemma safe_update_registers {A} (f : CpuRegisters -> A * CpuRegisters) (Q : A -> Prop) :
  (forall r, regs_ok r -> regs_ok (f r).2 /\ Q (f r).1) -> safe (update_registers f) Q.
Proof.
  intros Hf c w Hd Hw. unfold update_registers, update_core, wp.
  pose proof (Hf _ (data_registers _ Hd)) as Hr.
  destruct (f (registers c)) as [a r]. simpl in *. destruct Hr as [Hr Ha].
  split; [done|]. split; [by apply set_registers_ok|]. split; [done|]. by cpu_cases c.
Qed.

Lemma safe_get_latch8 : safe get_operand8_latch u8.
Proof. apply safe_gets_core. by intros c []. Qed.
Lemma safe_get_latch16 : safe get_operand16_latch u16.
Proof. apply safe_gets_core. by intros c []. Qed.

Lemma safe_set_latch8 v : u8 v -> safe (set_operand8_latch v) (fun _ => True).
Proof.
  intros Hv. apply safe_modify_core; intros c; cpu_cases c; [|done]. intros [H1 H2 H3 H4]. by split.
Qed.
Lemma safe_set_latch16 v : u16 v -> safe (set_operand16_latch v) (fun _ => True).
Proof.
  intros Hv. apply safe_modify_core; intros c; cpu_cases c; [|done]. intros [H1 H2 H3 H4]. by split.
Qed.

Lemma safe_record_address_event e : safe (record_address_event e) (fun _ => True).
Proof. apply safe_modify_core; intros c; cpu_cases c; [|done]. intros [H1 H2 H3 H4]. by split. Qed.
Lemma safe_record_bus_activity k a v : safe (record_bus_activity k a v) (fun _ => True).
Proof. apply safe_modify_core; intros c; cpu_cases c; [|done]. intros [H1 H2 H3 H4]. by split. Qed.

Lemma safe_read_byte_with_kind a k : u16 a -> safe (read_byte_with_kind a k) u8.
Proof.
  intros Ha c w Hd Hw. apply wp_bind. unfold wp at 1, external.
  pose proof (external_preserves (world_ok := world_ok) (Bus (BusRead a)) w Hw Ha) as Hp.
  destruct (external_read_byte (world_ok := world_ok) a w Hw Ha) as (v & Hv & Hv8).
  destruct (bus_operation (Bus (BusRead a)) w) as [res w']. simpl in *. subst res.
  cbn. split; [done|]. split; [|split; [done | by cpu_cases c]].
  cpu_cases c. destruct Hd. by split.
Qed.

Lemma safe_consume_halt_bug : safe (update_core consume_halt_bug_pending) (fun _ => True).
Proof.
  intros c w Hd Hw. unfold update_core, consume_halt_bug_pending, wp.
  destruct (halt_control c); try done.
  split; [done|]. split; [by apply set_halt_control_ok|]. split; [done|]. by cpu_cases c.
Qed.
End Logic.

Create HintDb safe discriminated.
#[export] Hint Resolve safe_external safe_get_latch8 safe_get_latch16 safe_set_latch8 safe_set_latch16
  safe_record_address_event safe_record_bus_activity safe_read_byte_with_kind safe_consume_halt_bug : safe.
#[export] Hint Extern 1 (operation_typed _) => cbn [operation_typed]; auto with gb : safe.
#[export] Hint Extern 2 (safe _ (modify_registers _) _) =>
  apply safe_modify_registers; intros ? ?; auto 8 with gb : safe.
#[export] Hint Extern 2 (safe _ (mret _) _) => apply safe_ret; auto with gb : safe.

Lemma u16_shiftl8 h : u8 h -> u16 (Z.shiftl h 8).
Proof. unfold u8, u16. intros. rewrite Z.shiftl_mul_pow2 by lia. lia. Qed.
Lemma u16_high_page v : u8 v -> u16 (Z.lor 0xFF00 v).
Proof. intros. apply u16_lor; [unfold u16; lia | auto with gb]. Qed.
#[export] Hint Resolve u16_shiftl8 u16_high_page : gb.

Lemma resolve_direct_address_ok source r : regs_ok r -> u16 (resolve_direct_address source r).
Proof. intros. destruct source; simpl; auto with gb. Qed.
#[export] Hint Resolve resolve_direct_address_ok : gb.

Section ReadRules.
Context {W : Type} `{CpuExternal W} (world_ok : W -> Prop) `{!CpuExternalLaws W world_ok}.
Lemma safe_gets_u8 (f : CpuRegisters -> Z) :
  (forall r, regs_ok r -> u8 (f r)) -> safe world_ok (gets_registers f) u8.
Proof. apply safe_gets_registers. Qed.
Lemma safe_gets_u16 (f : CpuRegisters -> Z) :
  (forall r, regs_ok r -> u16 (f r)) -> safe world_ok (gets_registers f) u16.
Proof. apply safe_gets_registers. Qed.
Lemma safe_gets_any {A} (f : CpuRegisters -> A) : safe world_ok (gets_registers f) (fun _ => True).
Proof. apply safe_gets_registers. done. Qed.
End ReadRules.

#[export] Hint Extern 1 (safe _ (gets_registers _) _) =>
  first [ apply safe_gets_u8; intros; solve [auto with gb]
        | apply safe_gets_u16; intros; solve [auto with gb]
        | apply safe_gets_any ] : safe.

(** [safe_steps] runs the bind rules of [safe] and [ends] over a program. *)
Ltac safe_bind_step :=
  match goal with
  | |- safe _ (mbind _ _) _ => eapply safe_bind; [solve [eauto with safe gb] | cbv beta; intros ? ?]
  | |- ends _ _ (mbind _ _) => eapply ends_bind; [solve [eauto with safe gb] | cbv beta; intros ? ?]
  end.
Ltac safe_steps := repeat (safe_bind_step; cbv zeta; try match goal with
  | |- context [match ?b with true => _ | false => _ end] => destruct b
  end).

Section BusSafety.
Context {W : Type} `{CpuExternal W} (world_ok : W -> Prop) `{!CpuExternalLaws W world_ok}.

Lemma safe_read_pc_u8_with_kind k : safe world_ok (read_pc_u8_with_kind k) u8.
Proof using Type*.
  unfold read_pc_u8_with_kind. do 3 safe_bind_step.
  eapply (safe_bind _ _ _ (fun _ => True)); [|intros; eauto with safe].
  destruct (_ : bool); [eauto with safe|]. safe_steps. eauto with safe.
Qed.

Lemma safe_read_opcode_u8 : safe world_ok read_opcode_u8 u8.
Proof using Type*. apply safe_read_pc_u8_with_kind. Qed.
Lemma safe_read_pc_u8 : safe world_ok read_pc_u8 u8.
Proof using Type*. apply safe_read_pc_u8_with_kind. Qed.

Lemma safe_read_byte a : u16 a -> safe world_ok (read_byte a) u8.
Proof using Type*. intros. unfold read_byte. safe_steps. eauto with safe. Qed.

Lemma safe_stop_wake_line_asserted : safe world_ok CpuBus.stop_wake_line_asserted (fun _ => True).
Proof using Type*. unfold CpuBus.stop_wake_line_asserted. safe_steps. eauto with safe. Qed.
Lemma safe_cgb_speed_switch_prepared : safe world_ok cgb_speed_switch_prepared (fun _ => True).
Proof using Type*. unfold cgb_speed_switch_prepared. safe_steps. eauto with safe. Qed.

Lemma safe_write_raw a v : u16 a -> u8 v ->
  safe world_ok (write_byte_without_address_event a v) (fun _ => True).
Proof using Type*. intros. unfold write_byte_without_address_event. safe_steps. eauto with safe. Qed.
Lemma safe_write_byte a v : u16 a -> u8 v -> safe world_ok (write_byte a v) (fun _ => True).
Proof using Type*.
  intros. unfold write_byte. eapply safe_bind; [by apply safe_write_raw|intros]. eauto with safe.
Qed.

Lemma safe_resolve_high_immediate_address : safe world_ok resolve_high_immediate_address u16.
Proof using Type*. unfold resolve_high_immediate_address. safe_steps. eauto with safe. Qed.
Lemma safe_resolve_immediate16_address : safe world_ok resolve_immediate16_address u16.
Proof using Type*. apply safe_get_latch16. Qed.

Lemma safe_decrement_sp : safe world_ok decrement_sp_and_record_idu_event (fun _ => True).
Proof using Type*. unfold decrement_sp_and_record_idu_event. safe_steps. eauto with safe. Qed.
Lemma safe_prepare_pc_stack_push : safe world_ok prepare_pc_stack_push (fun _ => True).
Proof using Type*.
  unfold prepare_pc_stack_push. safe_bind_step.
  eapply safe_bind; [apply safe_set_latch8; auto with gb|intros]. apply safe_decrement_sp.
Qed.
End BusSafety.

#[export] Hint Resolve safe_read_opcode_u8 safe_read_pc_u8 safe_read_byte safe_stop_wake_line_asserted
  safe_cgb_speed_switch_prepared safe_write_raw safe_write_byte safe_resolve_high_immediate_address
  safe_resolve_immediate16_address safe_decrement_sp safe_prepare_pc_stack_push : safe.

Section StackSafety.
Context {W : Type} `{CpuExternal W} (world_ok : W -> Prop) `{!CpuExternalLaws W world_ok}.

Lemma safe_write_byte_at_sp v : u8 v -> safe world_ok (write_byte_at_sp v) (fun _ => True).
Proof using Type*. intros. unfold write_byte_at_sp. safe_steps. eauto with safe. Qed.
Lemma safe_push_pc_high_at_sp : safe world_ok push_pc_high_at_sp (fun _ => True).
Proof using Type*. unfold push_pc_high_at_sp. safe_steps. apply safe_write_byte_at_sp. auto with gb. Qed.
Lemma safe_push_latched_u16_high_at_sp : safe world_ok push_latched_u16_high_at_sp (fun _ => True).
Proof using Type*. unfold push_latched_u16_high_at_sp. safe_steps. apply safe_write_byte_at_sp. auto with gb. Qed.
Lemma safe_write_byte_with_decremented_sp v : u8 v ->
  safe world_ok (write_byte_with_decremented_sp v) (fun _ => True).
Proof using Type*. intros. unfold write_byte_with_decremented_sp. safe_steps. eauto with safe. Qed.
Lemma safe_push_latched_low : safe world_ok push_latched_low_with_decremented_sp (fun _ => True).
Proof using Type*.
  unfold push_latched_low_with_decremented_sp. safe_steps. apply safe_write_byte_with_decremented_sp. auto with gb.
Qed.
Lemma safe_read_byte_and_increment_sp : safe world_ok read_byte_and_increment_sp u8.
Proof using Type*. unfold read_byte_and_increment_sp. safe_steps. eauto with safe. Qed.
Lemma safe_read_latched_stack_low_byte : safe world_ok read_latched_stack_low_byte (fun _ => True).
Proof using Type*.
  unfold read_latched_stack_low_byte. eapply safe_bind; [apply safe_read_byte_and_increment_sp|].
  intros. apply safe_set_latch16. auto with gb.
Qed.
Lemma safe_read_latched_stack_high_byte : safe world_ok read_latched_stack_high_byte (fun _ => True).
Proof using Type*.
  unfold read_latched_stack_high_byte. eapply safe_bind; [apply safe_read_byte_and_increment_sp|].
  intros. safe_steps. apply safe_set_latch16. auto with gb.
Qed.

Lemma safe_update_incdec target direction :
  safe world_ok (update_registers (increment_or_decrement_register16 target direction)) u16.
Proof using Type*.
  apply safe_update_registers. intros r Hr. by apply increment_or_decrement_register16_ok.
Qed.
Lemma safe_update_sp_plus v :
  safe world_ok (update_registers (sp_plus_signed_immediate v)) u16.
Proof using Type*. apply safe_update_registers. intros r Hr. by apply sp_plus_signed_immediate_ok. Qed.
Lemma safe_update_cb kind v : u8 v ->
  safe world_ok (update_registers (apply_cb_operation kind v))
    (fun result => forall x, result = Some x -> u8 x /\ cb_is_bit_test kind = false).
Proof using Type*.
  intros. apply safe_update_registers. intros r Hr.
  destruct (apply_cb_operation_ok r Hr kind v) as [Hok Hx]; [done|].
  split; [done|]. intros x Hsome. split; [by apply Hx|]. by destruct kind.
Qed.

Lemma safe_read_hl_with_update d : safe world_ok (read_hl_with_update d) u8.
Proof using Type*.
  unfold read_hl_with_update. safe_steps.
  eapply safe_bind; [apply safe_update_incdec|intros]. safe_steps. eauto with safe.
Qed.
Lemma safe_write_hl_with_update v d : u8 v -> safe world_ok (write_hl_with_update v d) (fun _ => True).
Proof using Type*.
  intros. unfold write_hl_with_update. safe_steps.
  eapply safe_bind; [apply safe_update_incdec|intros]. eauto with safe.
Qed.
Lemma safe_increment_or_decrement_register_pair target d :
  safe world_ok (increment_or_decrement_register_pair target d) (fun _ => True).
Proof using Type*.
  unfold increment_or_decrement_register_pair.
  eapply safe_bind; [apply safe_update_incdec|intros]. eauto with safe.
Qed.

Lemma safe_latch_low_operand : safe world_ok latch_low_operand (fun _ => True).
Proof using Type*. unfold latch_low_operand. safe_steps. apply safe_set_latch16. auto with gb. Qed.
Lemma safe_latch_high_operand : safe world_ok latch_high_operand (fun _ => True).
Proof using Type*. unfold latch_high_operand. safe_steps. apply safe_set_latch16. auto with gb. Qed.
Lemma safe_latch_operand8 : safe world_ok latch_operand8 (fun _ => True).
Proof using Type*. unfold latch_operand8. safe_steps. eauto with safe. Qed.

Lemma safe_jump_to v : u16 v -> safe world_ok (jump_to v) (fun _ => True).
Proof using Type*. intros. unfold jump_to. eauto with safe. Qed.
Lemma safe_commit_latched_target : safe world_ok commit_latched_target (fun _ => True).
Proof using Type*. unfold commit_latched_target. safe_steps. by apply safe_jump_to. Qed.
Lemma safe_commit_relative_target : safe world_ok commit_relative_target (fun _ => True).
Proof using Type*. unfold commit_relative_target. safe_steps. eauto with safe. Qed.

Lemma safe_pending_mask : safe world_ok current_pending_interrupt_mask (fun _ => True).
Proof using Type*. unfold current_pending_interrupt_mask. safe_steps. eauto with safe. Qed.
Lemma safe_enable_mask : safe world_ok current_interrupt_enable_mask (fun _ => True).
Proof using Type*. unfold current_interrupt_enable_mask. safe_steps. eauto with safe. Qed.
Lemma safe_highest_pending : safe world_ok current_highest_pending_interrupt (fun _ => True).
Proof using Type*.
  unfold current_highest_pending_interrupt.
  eapply safe_bind; [apply safe_pending_mask | intros; eauto with safe].
Qed.
Lemma safe_set_ime_enabled : safe world_ok (modify_core set_ime_enabled) (fun _ => True).
Proof using Type*. apply safe_modify_core; [auto with cpu | by intros c; cpu_cases c]. Qed.
Lemma safe_cancel_delayed : safe world_ok (modify_core cancel_delayed_ime_enable) (fun _ => True).
Proof using Type*. apply safe_modify_core; [auto with cpu | by intros c; cpu_cases c]. Qed.
Lemma safe_request_stop_div_reset :
  safe world_ok (modify_core request_stop_div_reset) (fun _ => True).
Proof using Type*.
  apply safe_modify_core; intros c; cpu_cases c; [|done]. intros [H1 H2 H3 H4]. by split.
Qed.
Lemma safe_request_cgb_speed_switch :
  safe world_ok (modify_core request_cgb_speed_switch) (fun _ => True).
Proof using Type*.
  apply safe_modify_core; intros c; cpu_cases c; [|done]. intros [H1 H2 H3 H4]. by split.
Qed.
Lemma safe_request_interrupt s : safe world_ok (request_interrupt s) (fun _ => True).
Proof using Type*. unfold request_interrupt. safe_steps. eauto with safe. Qed.
Lemma safe_acknowledge_interrupt s : safe world_ok (acknowledge_interrupt s) (fun _ => True).
Proof using Type*. unfold acknowledge_interrupt. safe_steps. eauto with safe. Qed.
End StackSafety.

#[export] Hint Resolve safe_write_byte_at_sp safe_push_pc_high_at_sp safe_push_latched_u16_high_at_sp
  safe_push_latched_low safe_read_latched_stack_low_byte safe_read_latched_stack_high_byte
  safe_update_sp_plus safe_update_cb safe_read_hl_with_update safe_write_hl_with_update
  safe_increment_or_decrement_register_pair safe_latch_low_operand safe_latch_high_operand
  safe_latch_operand8 safe_jump_to safe_commit_latched_target safe_commit_relative_target
  safe_set_ime_enabled safe_cancel_delayed safe_request_stop_div_reset safe_request_cgb_speed_switch
  safe_pending_mask safe_enable_mask safe_highest_pending safe_request_interrupt safe_acknowledge_interrupt : safe.

(** ** The executors *)

Section ExecuteSafety.
Context {W : Type} `{CpuExternal W} (world_ok : W -> Prop) `{!CpuExternalLaws W world_ok}.
Variable d : option CpuInstructionKind * option InstructionExecutionGroup * option CbInstructionKind.

Lemma ends_modify_core f : (forall c, data_ok c -> cpu_ok (f c)) -> ends world_ok d (modify_core f).
Proof using Type. intros Hf c w Hd Hw Hdec. cbn. auto. Qed.

Lemma ends_finish : ends world_ok d finish.
Proof using Type. apply ends_modify_core. auto with cpu. Qed.

Lemma ends_if (b : bool) (m n : CM W unit) :
  ends world_ok d m -> ends world_ok d n -> ends world_ok d (if b then m else n).
Proof using Type. by destruct b. Qed.
End ExecuteSafety.

#[export] Hint Resolve ends_finish : safe.

(** The state of an instruction in flight at a step it has. *)
Definition in_flight_at (k : CpuInstructionKind)
    : option CpuInstructionKind * option InstructionExecutionGroup * option CbInstructionKind -> Prop :=
  fun d => exists cb, d = (Some k, Some (execution_group_of k), cb) /\ k <> CbPrefixed /\ kind_ok k.

Lemma ends_advance {W} (world_ok : W -> Prop) k d n :
  in_flight_at k d -> 0 <= n < step_count k -> ends world_ok d (advance n).
Proof.
  intros (cb & -> & Hcb & Hk) Hn c w Hd Hw Hdec. cbn. split; [|done].
  eapply advance_instruction_ok; try done. intros ->. done.
Qed.

(** The steps of a machine-cycle counter below [step_count]. *)
Ltac step_cases :=
  match goal with
  | Hs : 0 <= ?step < step_count _ |- _ =>
      cbn in Hs;
      assert (step = 0 \/ step = 1 \/ step = 2 \/ step = 3 \/ step = 4)
        as [-> | [-> | [-> | [-> | ->]]]] by lia; try (exfalso; lia); clear Hs
  end.

(** Exposes the program of one step of one instruction. *)
Ltac unfold_executors :=
  cbv beta iota delta [
    exec_load_register_immediate exec_load_register_pair_immediate
    exec_load_register_from_hl exec_store_register_to_hl exec_store_immediate_to_hl
    exec_load_a_from_hl_with_update exec_store_a_to_hl_with_update
    exec_load_a_from_direct_address exec_load_a_from_immediate16_address
    exec_load_a_from_high_immediate_address exec_store_a_to_direct_address
    exec_store_a_to_immediate16_address exec_store_a_to_high_immediate_address
    exec_store_sp_to_immediate16 exec_load_sp_from_hl execute_load_machine_cycle
    exec_load_hl_from_sp_plus_immediate exec_add_sp_immediate exec_add_hl
    exec_increment_register_pair exec_decrement_register_pair exec_increment_hl_memory
    exec_decrement_hl_memory exec_alu_immediate exec_alu_from_hl
    execute_arithmetic_machine_cycle exec_relative_jump exec_conditional_relative_jump
    exec_absolute_jump exec_conditional_absolute_jump exec_call exec_conditional_call
    exec_return exec_conditional_return exec_return_from_interrupt exec_stop exec_restart
    execute_control_flow_machine_cycle exec_push_register_pair exec_pop_register_pair
    execute_stack_machine_cycle].

Ltac ends_steps :=
  safe_steps;
  first [ solve [eauto with safe]
        | solve [eapply ends_advance; [eassumption | cbn; lia]]
        | idtac ].

Section StopSafety.
Context {W : Type} `{CpuExternal W} (world_ok : W -> Prop) `{!CpuExternalLaws W world_ok}.
Variable d : option CpuInstructionKind * option InstructionExecutionGroup * option CbInstructionKind.

Lemma exec_stop_ends : ends world_ok d (exec_stop 0).
Proof using Type*.
  unfold exec_stop. do 2 safe_bind_step. apply ends_if.
  { safe_steps; apply (ends_modify_core world_ok d); auto with cpu. }
  safe_bind_step.
  eapply ends_bind; [apply (safe_gets_core _ _ (fun _ => True)); done | intros ime_on _].
  eapply (ends_bind _ _ _ _ (fun _ => True)).
  { destruct ime_on; [eauto with safe|]. safe_steps. eauto with safe. }
  intros pending _.
  eapply ends_bind; [apply (safe_gets_core _ _ (fun _ => True)); done | intros resolution _].
  destruct resolution; safe_steps; (apply ends_modify_core || apply ends_finish); auto with cpu.
Qed.
End StopSafety.

Section GroupSafety.
Context {W : Type} `{CpuExternal W} (world_ok : W -> Prop) `{!CpuExternalLaws W world_ok}.
Variables (k : CpuInstructionKind) (step : Z).
Variable d : option CpuInstructionKind * option InstructionExecutionGroup * option CbInstructionKind.
Hypothesis Hd : in_flight_at k d.
Hypothesis Hs : 0 <= step < step_count k.

Lemma execute_load_ends :
  execution_group_of k = GroupLoad -> ends world_ok d (execute_load_machine_cycle k step).
Proof using Type*.
  intros Hg. destruct k; try discriminate Hg; step_cases; unfold_executors; ends_steps.
Qed.

Lemma execute_arithmetic_ends :
  execution_group_of k = GroupArithmetic -> ends world_ok d (execute_arithmetic_machine_cycle k step).
Proof using Type*.
  intros Hg. destruct k; try discriminate Hg; step_cases; unfold_executors; ends_steps.
Qed.

Lemma execute_stack_ends :
  execution_group_of k = GroupStack -> ends world_ok d (execute_stack_machine_cycle k step).
Proof using Type*.
  intros Hg. destruct k; try discriminate Hg; step_cases; unfold_executors; ends_steps.
Qed.

Lemma execute_control_flow_ends :
  execution_group_of k = GroupControlFlow -> ends world_ok d (execute_control_flow_machine_cycle k step).
Proof using Type*.
  intros Hg. assert (Hk : kind_ok k) by (destruct Hd as (? & _ & _ & ?); done).
  destruct k; try discriminate Hg; cbn in Hk; step_cases;
    try exact (exec_stop_ends world_ok d); unfold_executors; ends_steps.
Qed.
End GroupSafety.

(** ** The CB prefix *)

Section CbSafety.
Context {W : Type} `{CpuExternal W} (world_ok : W -> Prop) `{!CpuExternalLaws W world_ok}.
Variable cb : option CbInstructionKind.
Let d := (Some CbPrefixed, Some GroupCbPrefixed, cb).

Lemma ends_advance_cb n :
  0 <= n < 3 -> cb_in_flight_ok CbPrefixed n cb -> ends world_ok d (advance n).
Proof using Type.
  intros Hn Hcb c w Hd Hw Hdec. cbn. split; [|done]. exact (advance_instruction_ok CbPrefixed n cb c Hdec I Hn Hcb Hd).
Qed.

(** Step 0 latches the CB instruction for the memory steps. *)
Lemma ends_latch_cb kind :
  cb_target kind = IndirectHl ->
  ends world_ok d
    (modify_core (fun c => c <| in_flight := (in_flight c) <| if_cb_instruction_kind := Some kind |> |>);;
     advance 1).
Proof using Type.
  intros Hkind c w Hd Hw Hdec. cbn. split; [|done].
  apply (advance_instruction_ok CbPrefixed 1 (Some kind)); [| exact I | simpl; lia | |].
  - cpu_cases c. injection Hdec as -> -> _. done.
  - intros _ _. exists kind. split; [done|]. split; [done|]. discriminate.
  - cpu_cases c. destruct Hd. by split.
Qed.

Lemma cb_fetch_and_dispatch_ends : ends world_ok d cb_fetch_and_dispatch.
Proof using Type*.
  unfold cb_fetch_and_dispatch. do 2 safe_bind_step.
  rewrite decode_cb_opcode_ok by done.
  eapply (ends_bind _ _ _ _ (fun x => x = IsaTable.isa_decode_cb a)); [by apply safe_lift_done | intros kind ->].
  destruct (cb_target _) eqn:Ht; [|by apply ends_latch_cb].
  do 2 safe_bind_step.
  eapply (ends_bind _ _ _ _ (fun _ => True)); [|intros; apply ends_finish].
  destruct a2 as [x|]; [|eauto with safe].
  apply safe_modify_registers. intros r' Hr'. apply write_register8_ok; [done|]. by apply (H3 x).
Qed.

Lemma ends_gets_cb (k : option CbInstructionKind -> CM W unit) :
  ends world_ok d (k cb) ->
  ends world_ok d (gets_core (fun c => if_cb_instruction_kind (in_flight c)) ≫= k).
Proof using Type.
  intros Hk c w Hd Hw Hdec. apply wp_bind. cbn. injection Hdec as H1 H2 H3. rewrite H3.
  apply Hk; try done. unfold decoded. by rewrite H1, H2, H3.
Qed.

Lemma cb_read_and_apply_ends :
  cb_in_flight_ok CbPrefixed 1 cb -> ends world_ok d (cb_read_and_apply 1).
Proof using Type*.
  intros Hcb. unfold cb_read_and_apply. apply ends_gets_cb.
  destruct (Hcb eq_refl) as (kind & Hkind & Ht & _); [lia|].
  rewrite Hkind, Ht. cbn [is_indirect_hl]. do 3 safe_bind_step.
  match goal with H : forall x, ?res = Some x -> _ |- _ => rename H into Hres; destruct res as [x|] end;
    [|apply ends_finish].
  destruct (Hres x eq_refl) as [Hx Hbit]. safe_bind_step.
  apply ends_advance_cb; [lia|]. intros _ _. by exists kind.
Qed.

Lemma cb_write_back_ends :
  cb_in_flight_ok CbPrefixed 2 cb -> ends world_ok d (cb_write_back 2).
Proof using Type*.
  intros Hcb. unfold cb_write_back. apply ends_gets_cb.
  destruct (Hcb eq_refl) as (kind & Hkind & Ht & Hbit); [lia|].
  specialize (Hbit eq_refl). unfold cb_is_bit_test in Hbit.
  rewrite Hkind, Ht, Hbit. cbn [is_indirect_hl andb negb]. safe_steps. apply ends_finish.
Qed.
End CbSafety.

(** ** Whole machine cycles *)

Section TickSafety.
Context {W : Type} `{CpuExternal W} (world_ok : W -> Prop) `{!CpuExternalLaws W world_ok}.

Lemma complete_execute_machine_cycle_ok step c w :
  data_ok c -> execute_ok step (in_flight c) -> world_ok w ->
  wp (complete_execute_machine_cycle step) (c, w) (fun _ s => cpu_ok s.1 /\ world_ok s.2).
Proof using Type*.
  intros Hd (k & Hk & Hg & Hok & Hs & Hcb) Hw. apply wp_bind.
  unfold gets_core, wp at 1, execution_descriptor. rewrite Hk, Hg.
  pose (d := decoded c).
  assert (Hdec : d = (Some k, Some (execution_group_of k), if_cb_instruction_kind (in_flight c))).
  { unfold d, decoded. by rewrite Hk, Hg. }
  assert (Hin : k <> CbPrefixed -> in_flight_at k d) by (intros; eexists; done).
  destruct (execution_group_of k) eqn:Hgroup.
  - apply (execute_load_ends world_ok k step d); [apply Hin; by intros -> | done..].
  - apply (execute_arithmetic_ends world_ok k step d); [apply Hin; by intros -> | done..].
  - apply (execute_control_flow_ends world_ok k step d); [apply Hin; by intros -> | done..].
  - apply (execute_stack_ends world_ok k step d); [apply Hin; by intros -> | done..].
  - destruct k; try discriminate. cbn in Hs.
    assert (step = 0 \/ step = 1 \/ step = 2) as [-> | [-> | ->]] by lia; cbn.
    + by eapply cb_fetch_and_dispatch_ends.
    + by eapply cb_read_and_apply_ends.
    + by eapply cb_write_back_ends.
Qed.

Lemma retarget_after_ie_write_ends d source : ends world_ok d (retarget_after_ie_write source).
Proof using Type*.
  unfold retarget_after_ie_write. do 2 safe_bind_step.
  destruct (highest_priority_from_mask _) as [next|].
  - eapply (ends_bind _ _ _ _ (fun _ => True)).
    { destruct (decide _); [eauto with safe|]. safe_steps. eauto with safe. }
    intros. apply ends_modify_core. intros. apply advance_interrupt_service_ok; [lia | done].
  - eapply ends_bind; [eauto with safe | intros ? ?].
    eapply ends_bind; [apply (safe_modify_registers _ (fun r => r <| r_pc := 0x0000 |>)) | intros ? ?].
    { intros. apply set_pc_ok; [done | unfold u16; lia]. }
    apply ends_modify_core. auto with cpu.
Qed.

Lemma interrupt_service_cycle_ends d source step :
  0 <= step <= 4 -> ends world_ok d (complete_interrupt_service_machine_cycle source step).
Proof using Type*.
  intros Hs. assert (step = 0 \/ step = 1 \/ step = 2 \/ step = 3 \/ step = 4)
    as [-> | [-> | [-> | [-> | ->]]]] by lia;
    unfold complete_interrupt_service_machine_cycle; safe_steps.
  1-3,5: apply ends_modify_core; intros; apply advance_interrupt_service_ok; [lia | done].
  - apply retarget_after_ie_write_ends.
  - eapply ends_bind; [apply safe_modify_registers | intros ? ?].
    { intros. apply set_pc_ok; [done|]. destruct source; unfold u16; simpl; lia. }
    apply ends_modify_core. auto with cpu.
Qed.

Lemma stop_wake_cycle_ends d step :
  0 <= step <= 4 -> ends world_ok d (complete_stop_wake_bugged_interrupt_service_machine_cycle step).
Proof using Type*.
  intros Hs. assert (step = 0 \/ step = 1 \/ step = 2 \/ step = 3 \/ step = 4)
    as [-> | [-> | [-> | [-> | ->]]]] by lia;
    unfold complete_stop_wake_bugged_interrupt_service_machine_cycle; safe_steps.
  1-4: apply ends_modify_core; intros; apply advance_stop_wake_ok; [lia | done].
  apply ends_modify_core. auto with cpu.
Qed.
End TickSafety.

(** ** Opcode fetch *)

Definition kind_vector_ok (decoded : DecodedOpcode) : bool :=
  match decoded with Execute (Restart v) => (0 <=? v) && (v <? 65536) | _ => true end.

Lemma isa_decode_kind_ok opcode k :
  u8 opcode -> IsaTable.isa_decode opcode = Execute k -> kind_ok k.
Proof.
  intros Hu Hk.
  assert (Hv : kind_vector_ok (IsaTable.isa_decode opcode) = true).
  { refine (forall_below 256 (fun x => kind_vector_ok (IsaTable.isa_decode x)) _ opcode Hu).
    vm_compute. reflexivity. }
  rewrite Hk in Hv. destruct k; try done. cbn in Hv |- *. unfold u16. prune. lia.
Qed.

Lemma step_count_positive k : 1 <= step_count k.
Proof. destruct k; simpl; lia. Qed.

Lemma begin_instruction_ok opcode k c : kind_ok k -> data_ok c -> cpu_ok (begin_instruction opcode k c).
Proof.
  intros Hk Hd. unfold begin_instruction.
  split; [apply set_execution_state_ok; cpu_cases c; destruct Hd; by split|].
  rewrite execution_state_set, in_flight_set_state. cpu_cases c. cbn. split; [|lia].
  exists k. pose proof (step_count_positive k). repeat split; auto; try lia. intros _ ?. lia.
Qed.

Lemma rotate_accumulator_ok rotate r :
  (forall v, u8 v -> u8 (rotate v r).1 /\ regs_ok (rotate v r).2) ->
  regs_ok r -> regs_ok (rotate_accumulator rotate r).
Proof.
  intros Hrot Hr. unfold rotate_accumulator. destruct (Hrot (r_a r) (ok_a _ Hr)) as [H1 H2].
  destruct (rotate (r_a r) r) as [v r']. simpl in *. auto with gb.
Qed.

Lemma fetch_completion_registers_ok completion f r :
  fetch_completion_registers completion = Some f -> regs_ok r -> regs_ok (f r).
Proof.
  intros Hf Hr. destruct completion; try discriminate; injection Hf as <-; auto with gb.
  1-2: by apply write_flags_ok.
  1-4: apply rotate_accumulator_ok; [|done]; intros v Hv; split; cbn -[rotate_left8 rotate_right8 shl8 shr8 write_flags]; auto with gb.
  - apply write_register8_ok; auto with gb.
  - apply update_inc_flags_ok. apply write_register8_ok; auto with gb.
  - apply update_dec_flags_ok. apply write_register8_ok; auto with gb.
Qed.

Lemma complete_fetch_completion_ok completion c :
  data_ok c -> cpu_ok (complete_fetch_completion completion c).
Proof.
  intros Hd. unfold complete_fetch_completion.
  destruct (fetch_completion_registers completion) as [f|] eqn:Hf.
  - apply finish_instruction_ok, set_registers_ok; [|done].
    eapply fetch_completion_registers_ok; [done | apply Hd].
  - destruct completion; try discriminate; auto with cpu.
Qed.

Lemma enter_invalid_opcode_trap_ok opcode c : data_ok c -> cpu_ok (enter_invalid_opcode_trap opcode c).
Proof.
  intros Hd. apply cpu_ok_set_state; [|done]. cpu_cases c. destruct Hd. split; cbn; auto with gb.
Qed.

Section FetchSafety.
Context {W : Type} `{CpuExternal W} (world_ok : W -> Prop) `{!CpuExternalLaws W world_ok}.

Lemma safe_gets_core_any {A} (f : CpuCore -> A) : safe world_ok (gets_core f) (fun _ => True).
Proof using Type. by apply safe_gets_core. Qed.

Lemma safe_stop_completes : safe world_ok stop_completes_on_fetch_machine_cycle (fun _ => True).
Proof using Type*.
  unfold stop_completes_on_fetch_machine_cycle. safe_bind_step.
  destruct a; [eauto with safe|]. safe_bind_step. destruct (negb _); [eauto with safe|].
  eapply safe_bind; [apply safe_gets_core_any | intros ime_on _].
  destruct ime_on; [apply safe_gets_core_any|]. safe_bind_step. apply safe_gets_core_any.
Qed.

Lemma complete_fetch_opcode_ends d : ends world_ok d complete_fetch_opcode.
Proof using Type*.
  unfold complete_fetch_opcode. safe_bind_step.
  eapply ends_bind; [apply safe_modify_core | intros ? _].
  { intros c; cpu_cases c; intros []. by split. }
  { by intros c; cpu_cases c. }
  eapply (ends_bind _ _ _ _ (fun _ => True)).
  { destruct (a =? 0x10); [apply safe_stop_completes | eauto with safe]. }
  intros completes _. destruct completes; [safe_steps; apply ends_finish|].
  rewrite decode_fetched_opcode_ok by done.
  eapply (ends_bind _ _ _ _ (fun x => x = IsaTable.isa_decode a)); [by apply safe_lift_done | intros x ->].
  apply ends_modify_core. intros c Hd. destruct (IsaTable.isa_decode a) eqn:Hdec; simpl.
  - by apply complete_fetch_completion_ok.
  - apply begin_instruction_ok; [|done]. by eapply isa_decode_kind_ok.
  - by apply enter_invalid_opcode_trap_ok.
Qed.

(** *** One T-cycle *)

Lemma clear_observations_ok c :
  cpu_ok c -> cpu_ok (c <| last_bus_activity := None |> <| last_address_event := None |>).
Proof using Type. cpu_cases c. intros [[H1 H2 H3 H4] Hs]. split; [by split | done]. Qed.

Lemma count_state_ok s c :
  cpu_ok c -> (state_ok (execution_state c) (in_flight c) -> state_ok s (in_flight c)) ->
  cpu_ok (c <| execution_state := s |>).
Proof using Type.
  intros [Hd Hs] Hstate. split; [auto with cpu|].
  rewrite execution_state_set, in_flight_set_state. auto.
Qed.

Lemma tick_t_cycle_ok c w :
  cpu_ok c -> world_ok w -> wp tick_t_cycle (c, w) (fun _ s => cpu_ok s.1 /\ world_ok s.2).
Proof using Type*.
  intros Hok Hw. unfold tick_t_cycle. apply wp_bind. unfold modify_core at 1, wp at 1.
  apply clear_observations_ok in Hok. revert Hok.
  generalize (c <| last_bus_activity := None |> <| last_address_event := None |>).
  clear c. intros c Hok. apply wp_bind. unfold gets_core, wp at 1.
  assert (Hstate := proj2 Hok). assert (Hd := proj1 Hok). unfold LAST_MACHINE_CYCLE_T.
  destruct (execution_state c) as [t | step t | s step t | step t | n | tr | | | ] eqn:He;
    cbn [state_ok] in Hstate; try (cbn; done).
  1-4: destruct (Z.ltb_spec t 3).
  1,3,5,7: cbn; split; [|done]; apply count_state_ok; [done | rewrite He; simpl; intuition lia].
  - by apply (complete_fetch_opcode_ends (decoded c)).
  - exact (complete_execute_machine_cycle_ok world_ok step c w Hd (proj1 Hstate) Hw).
  - apply (interrupt_service_cycle_ends world_ok (decoded c)); [apply Hstate | done..].
  - apply (stop_wake_cycle_ends world_ok (decoded c)); [apply Hstate | done..].
  - cbn. split; [|done]. unfold advance_speed_switch_pause.
    destruct (Z.leb_spec n 1); apply cpu_ok_set_state; auto; [intros; apply fetch_state_ok|].
    simpl. lia.
Qed.
End FetchSafety.

(** ** Wake and interrupt evaluation *)

Lemma accept_pending_interrupt_ok i c : cpu_ok c -> cpu_ok (accept_pending_interrupt i c).2.
Proof.
  intros [Hd Hs]. unfold accept_pending_interrupt. destruct (highest_pending i); [|done].
  by apply begin_interrupt_service_ok.
Qed.

Lemma resolve_halt_request_ok h p i c : cpu_ok c -> cpu_ok (resolve_halt_request h p i c).2.
Proof.
  intros [Hd Hs]. unfold resolve_halt_request. case_tests; cbn [fst snd].
  - apply accept_pending_interrupt_ok. split.
    + apply set_registers_ok; [|done]. apply set_pc_ok; [apply Hd | auto with gb].
    + by cpu_cases c.
  - apply cpu_ok_set_state; [by apply set_halt_control_ok | apply fetch_state_ok].
  - by apply accept_pending_interrupt_ok.
  - by apply cpu_ok_set_state.
Qed.

Lemma take_halt_request_ok c : cpu_ok c -> cpu_ok (take_halt_request c).2.
Proof.
  intros [Hd Hs]. unfold take_halt_request. destruct (halt_control c); try done.
  split; [by apply set_halt_control_ok | by cpu_cases c].
Qed.

Lemma evaluate_wake_and_interrupts_ok i j c :
  cpu_ok c -> cpu_ok (evaluate_wake_and_interrupts i j c).2.
Proof.
  intros Hok. unfold evaluate_wake_and_interrupts. assert (Hd := proj1 Hok).
  destruct (negb (wake_evaluation_needed j c)); [done|]. cbv zeta.
  generalize (if negb (is_stop_sleep_state c) then (consume_stop_wake_event j).1 else j). intros j'.
  assert (Hfetch : cpu_ok (c <| execution_state := fetch_opcode |>))
    by (apply cpu_ok_set_state; [done | apply fetch_state_ok]).
  pose proof (begin_stop_wake_ok c Hd) as Hbug.
  assert (Hmain : cpu_ok
    (let pending := negb (pending_mask i =? 0) in
      match take_halt_request c with
      | (Some h, c) => let '(i, c) := resolve_halt_request h pending i c in (i, j', c)
      | (None, c) =>
          match execution_state c with
          | Halted =>
              if negb pending then (i, j', c)
              else if ime c then let '(i, c) := accept_pending_interrupt i c in (i, j', c)
              else (i, j', c <| execution_state := fetch_opcode |>)
          | _ =>
              if negb (ime c) || negb (can_accept_interrupt c) then (i, j', c)
              else let '(i, c) := accept_pending_interrupt i c in (i, j', c)
          end
      end).2).
  { cbv zeta. pose proof (take_halt_request_ok c Hok) as Ht.
    destruct (take_halt_request c) as [[h|] c']; cbn [snd] in Ht.
    - pose proof (resolve_halt_request_ok h (negb (pending_mask i =? 0)) i c' Ht) as Hr.
      destruct (resolve_halt_request _ _ _ _). done.
    - pose proof (accept_pending_interrupt_ok i c' Ht) as Ha.
      assert (Hf : cpu_ok (c' <| execution_state := fetch_opcode |>))
        by (apply cpu_ok_set_state; [apply Ht | apply fetch_state_ok]).
      destruct (accept_pending_interrupt i c'). destruct (execution_state c'); case_tests; done. }
  destruct (is_stop_sleep_state c).
  - destruct (consume_stop_wake_event j') as [j'' wake].
    destruct (execution_state c); case_tests; try done.
  - destruct (execution_state c); done.
Qed.

Lemma evaluate_current_cycle_ok i m c :
  cpu_ok c -> cpu_ok (evaluate_current_cycle_interrupt_requests i m c).2.
Proof.
  intros [Hd Hs]. unfold evaluate_current_cycle_interrupt_requests.
  destruct (_ || _ || _); [done|]. destruct (highest_priority_from_mask _); [|done].
  by apply begin_interrupt_service_ok.
Qed.

(** ** Reachable cores *)

Definition startup_ok (s : CpuStartupState) : Prop :=
  u8 (startup_a s) /\ u8 (startup_f s) /\ u8 (startup_b s) /\ u8 (startup_c s) /\
  u8 (startup_d s) /\ u8 (startup_e s) /\ u8 (startup_h s) /\ u8 (startup_l s) /\
  u16 (startup_sp s) /\ u16 (startup_pc s).

Lemma cpu_apply_startup_state_ok s c : startup_ok s -> cpu_ok (cpu_apply_startup_state s c).
Proof.
  intros (?&?&?&?&?&?&?&?&?&?). cpu_cases c.
  split; [|cbn; lia]. split; cbn; auto with gb.
  split; cbn; auto with gb. apply land_F0_low.
Qed.

Lemma take_requests_ok c : cpu_ok c ->
  cpu_ok (take_stop_div_reset_request c).2 /\ cpu_ok (take_cgb_speed_switch_request c).2.
Proof. cpu_cases c. intros [[H1 H2 H3 H4] Hs]. by split; (split; [split|]). Qed.

Lemma cpu_new_ok m : cpu_ok (cpu_new m).
Proof.
  split; [|cbn; lia]. split; cbn; auto with gb. split; cbn; auto with gb.
Qed.

Section Reachable.
Context {W : Type} `{CpuExternal W} (world_ok : W -> Prop).

(** Every core the machine can produce: a new core, driven by the methods of
    [CpuCore] in any order, while the rest of the machine moves the world. *)
Inductive cpu_reachable : CpuCore -> W -> Prop :=
| reach_new m w : world_ok w -> cpu_reachable (cpu_new m) w
| reach_startup s c w : startup_ok s -> cpu_reachable c w ->
    cpu_reachable (cpu_apply_startup_state s c) w
| reach_tick c w c' w' : cpu_reachable c w ->
    tick_t_cycle (c, w) = Done (tt, (c', w')) -> cpu_reachable c' w'
| reach_world c w w' : cpu_reachable c w -> world_ok w' -> cpu_reachable c w'
| reach_wake i j c w : cpu_reachable c w ->
    cpu_reachable (evaluate_wake_and_interrupts i j c).2 w
| reach_current i m c w : cpu_reachable c w ->
    cpu_reachable (evaluate_current_cycle_interrupt_requests i m c).2 w
| reach_dma_stall c w : cpu_reachable c w -> cpu_reachable (tick_dma_stall_t_cycle c) w
| reach_take_div_reset c w : cpu_reachable c w ->
    cpu_reachable (take_stop_div_reset_request c).2 w
| reach_take_speed_switch c w : cpu_reachable c w ->
    cpu_reachable (take_cgb_speed_switch_request c).2 w.

Lemma cpu_reachable_ok `{!CpuExternalLaws W world_ok} c w :
  cpu_reachable c w -> cpu_ok c /\ world_ok w.
Proof.
  induction 1 as [m w Hw | s c w Hs _ [IH Hw] | c w c' w' _ [IH Hw] Ht | c w w' _ [IH Hw] Hw'
    | i j c w _ [IH Hw] | i m c w _ [IH Hw] | c w _ [IH Hw] | c w _ [IH Hw] | c w _ [IH Hw]].
  - split; [apply cpu_new_ok | done].
  - split; [by apply cpu_apply_startup_state_ok | done].
  - pose proof (tick_t_cycle_ok world_ok c w IH Hw) as Hwp. unfold wp in Hwp. by rewrite Ht in Hwp.
  - done.
  - split; [by apply evaluate_wake_and_interrupts_ok | done].
  - split; [by apply evaluate_current_cycle_ok | done].
  - split; [by apply clear_observations_ok | done].
  - split; [by apply take_requests_ok | done].
  - split; [by apply take_requests_ok | done].
Qed.

(** C8. In any environment that answers bus reads with bytes, every core the
    machine can reach is well formed (registers and latches at their machine
    width, zero low nibble of F, the execution step one that the decoded
    instruction has, its group coherent with its kind), and its next T-cycle
    completes without reaching a panic, an [unreachable!] dispatch or a
    failed [expect]. *)
Theorem reachable_core_never_panics `{!CpuExternalLaws W world_ok} (c : CpuCore) (w : W) :
  cpu_reachable c w ->
  cpu_ok c /\
  exists c' w', tick_t_cycle (c, w) = Done (tt, (c', w')) /\ cpu_reachable c' w'.
Proof.
  intros Hr. destruct (cpu_reachable_ok c w Hr) as [Hok Hw]. split; [done|].
  destruct (wp_done _ _ _ (tick_t_cycle_ok world_ok c w Hok Hw)) as ([] & [c' w'] & Ht & _).
  exists c', w'. split; [done|]. by eapply reach_tick.
Qed.
End Reachable.

(** A new core on a flat memory. *)
Lemma reachable_core_never_panics_witness :
  cpu_reachable flat_ok (cpu_new GameBoy) (flat_of 0 [0x3E; 0x12]) /\
  exists c' w', tick_t_cycle (cpu_new GameBoy, flat_of 0 [0x3E; 0x12]) = Done (tt, (c', w')) /\
    cpu_reachable flat_ok c' w'.
Proof.
  assert (Hr : cpu_reachable flat_ok (cpu_new GameBoy) (flat_of 0 [0x3E; 0x12])).
  { apply reach_new. apply flat_of_ok. }
  exact (conj Hr (proj2 (reachable_core_never_panics flat_ok (cpu_new GameBoy) (flat_of 0 [0x3E; 0x12]) Hr))).
Defined.
