(* ===== verification/CpuAccesses.v ===== *)
(** * Bus accesses of one CPU T-cycle

    The SM83 has one bus port: in a T-cycle the core reads or writes at most
    one byte.  The accesses are counted by the environment: [spent] is any
    measure that a bus access raises by at most one and no other operation
    raises. *)

From Stdlib Require Import ZArith Lia Bool String.
From stdpp Require Import base list tactics decidable option numbers.
From S2P Require Import Prelude.
From S2P Require Import CpuData.
From S2P Require Import CpuAlu.
From S2P Require Import CpuDecode.
From S2P Require Import CpuBus.
From S2P Require Import CpuExec.
From S2P Require Import CpuCycle.
From S2P Require Import Interrupts.
From S2P Require Import Scheduler.

Local Open Scope Z_scope.

Create HintDb spends discriminated.
Create HintDb simulates discriminated.

(** The name a computation starts with. *)
Ltac head_of m := lazymatch m with ?f _ => head_of f | _ => m end.

Definition access_cost (op : CpuExternalOperation) : nat := match op with Bus _ => 1 | _ => 0 end.

(** An environment that counts: an environment and the number of accesses so
    far. *)
Definition counting {W : Type} (E : CpuExternal W) : CpuExternal (nat * W) := fun op '(n, w) =>
  let '(result, w) := @bus_operation W E op w in (result, (access_cost op + n, w)%nat).

Section Accesses.
Context {W : Type} `{CpuExternal W} (spent : W -> nat).
Hypothesis spent_counts : forall op w, (spent (bus_operation op w).2 <= access_cost op + spent w)%nat.

(** The computation makes at most [n] bus accesses. *)
Definition spends {A} (n : nat) (m : CM W A) : Prop := forall c w a c' w',
  m (c, w) = Done (a, (c', w')) -> (spent w' <= n + spent w)%nat.

Lemma spends_bind {A B} n k (m : CM W A) (f : A -> CM W B) :
  spends n m -> (forall a, spends k (f a)) -> spends (n + k) (m ≫= f).
Proof.
  intros Hm Hf c w b c' w' E. unfold mbind, ST_bind in E. destruct (m (c, w)) as [[a [c1 w1]]|] eqn:E1; [|done].
  pose proof (Hm _ _ _ _ _ E1). pose proof (Hf _ _ _ _ _ _ E). lia.
Qed.
Lemma spends_free {A B} (m : CM W A) (f : A -> CM W B) k :
  spends 0 m -> (forall a, spends k (f a)) -> spends k (m ≫= f).
Proof. apply (spends_bind 0). Qed.
Lemma spends_once {A B} (m : CM W A) (f : A -> CM W B) :
  spends 1 m -> (forall a, spends 0 (f a)) -> spends 1 (m ≫= f).
Proof. apply (spends_bind 1 0). Qed.
Lemma spends_weaken {A} (m : CM W A) : spends 0 m -> spends 1 m.
Proof. intros Hm c w a c' w' E. pose proof (Hm _ _ _ _ _ E). lia. Qed.

(** Computations that leave the environment alone. *)
Lemma spends_same {A} (m : CM W A) : (forall c w a c' w', m (c, w) = Done (a, (c', w')) -> w' = w) -> spends 0 m.
Proof. intros Hm c w a c' w' E. by rewrite (Hm _ _ _ _ _ E). Qed.
Lemma spends_ret {A} (a : A) : spends 0 (mret a).
Proof. apply spends_same. by intros c w b c' w' [= -> <- <-]. Qed.
Lemma spends_panic {A} why : spends 0 (st_panic why : CM W A).
Proof. by apply spends_same. Qed.
Lemma spends_lift {A} (o : outcome A) : spends 0 (st_lift o : CM W A).
Proof. apply spends_same. intros c w b c' w'. unfold st_lift. destruct o; [by intros [= -> <- <-] | done]. Qed.
Lemma spends_gets_core {A} (f : CpuCore -> A) : spends 0 (gets_core f).
Proof. apply spends_same. by intros c w b c' w' [= <- <- <-]. Qed.
Lemma spends_modify_core f : spends 0 (modify_core f).
Proof. apply spends_same. by intros c w b c' w' [= <- <- <-]. Qed.
Lemma spends_update_core {A} (f : CpuCore -> A * CpuCore) : spends 0 (update_core f).
Proof. apply spends_same. intros c w b c' w'. unfold update_core. destruct (f c). by intros [= <- <- <-]. Qed.
Lemma spends_external op : spends (access_cost op) (external op).
Proof.
  intros c w b c' w'. unfold external. pose proof (spent_counts op w) as Hs. destruct (bus_operation op w).
  intros [= <- <- <-]. exact Hs.
Qed.

Hint Resolve spends_ret spends_panic spends_lift spends_gets_core spends_modify_core spends_update_core : spends.
Hint Extern 1 (spends 0 (external _)) => apply spends_external : spends.
Hint Extern 1 (spends 1 (external _)) => apply spends_external : spends.

(** Walks a computation: what leaves the bus alone first, then the access;
    a name without a lemma is unfolded. *)
Ltac spends :=
  lazymatch goal with
  | |- forall _, _ => intro; spends
  | |- spends _ (mbind _ _) =>
      first [ apply spends_free; [solve [spends] | spends] | apply spends_once; [solve [spends] | spends] ]
  | |- spends _ (match ?x with _ => _ end) => destruct x; spends
  | |- spends _ ?m =>
      first [ solve [eauto with spends] | apply spends_weaken; solve [eauto with spends]
            | let h := head_of m in progress unfold h; spends ]
  end.

Lemma spends_read_kind a k : spends 1 (read_byte_with_kind a k).
Proof. unfold read_byte_with_kind, record_bus_activity. spends. Qed.
Lemma spends_event e : spends 0 (record_address_event e).
Proof. apply spends_modify_core. Qed.
Hint Resolve spends_read_kind spends_event : spends.
Lemma spends_read_pc k : spends 1 (read_pc_u8_with_kind k).
Proof. unfold read_pc_u8_with_kind, gets_registers, modify_registers. spends. Qed.
Hint Extern 1 (spends 1 read_pc_u8) => apply spends_read_pc : spends.
Hint Extern 1 (spends 1 read_opcode_u8) => apply spends_read_pc : spends.
Hint Extern 1 (spends 1 (read_byte _)) => unfold read_byte; spends : spends.
Lemma spends_write_raw a v : spends 1 (write_byte_without_address_event a v).
Proof. spends. Qed.
Hint Resolve spends_write_raw : spends.
Lemma spends_write a v : spends 1 (write_byte a v).
Proof. spends. Qed.
Hint Resolve spends_write : spends.

Lemma load_accesses kind step : spends 1 (execute_load_machine_cycle kind step).
Proof. destruct kind; try apply spends_weaken, spends_panic; cbn [execute_load_machine_cycle]; spends. Qed.

Lemma arithmetic_accesses kind step : spends 1 (execute_arithmetic_machine_cycle kind step).
Proof. destruct kind; try apply spends_weaken, spends_panic; cbn [execute_arithmetic_machine_cycle]; spends. Qed.
Lemma control_flow_accesses kind step : spends 1 (execute_control_flow_machine_cycle kind step).
Proof. destruct kind; try apply spends_weaken, spends_panic; cbn [execute_control_flow_machine_cycle]; spends. Qed.
Lemma stack_accesses kind step : spends 1 (execute_stack_machine_cycle kind step).
Proof. destruct kind; try apply spends_weaken, spends_panic; cbn [execute_stack_machine_cycle]; spends. Qed.
Lemma cb_accesses step : spends 1 (execute_cb_prefixed_machine_cycle step).
Proof. unfold execute_cb_prefixed_machine_cycle, cb_fetch_and_dispatch, cb_read_and_apply, cb_write_back. spends. Qed.
Hint Resolve load_accesses arithmetic_accesses control_flow_accesses stack_accesses cb_accesses : spends.

Lemma retarget_accesses source : spends 0 (retarget_after_ie_write source).
Proof. spends. Qed.
Hint Resolve retarget_accesses : spends.

Lemma tick_accesses : spends 1 CpuCycle.tick_t_cycle.
Proof.
  unfold CpuCycle.tick_t_cycle, complete_fetch_opcode, complete_execute_machine_cycle, complete_interrupt_service_machine_cycle,
    complete_stop_wake_bugged_interrupt_service_machine_cycle, stop_completes_on_fetch_machine_cycle.
  spends.
Qed.
End Accesses.

(** ** Related environments give related runs *)

Section Simulation.
Context {W1 W2 : Type} `{CpuExternal W1} `{CpuExternal W2} (R : W1 -> W2 -> Prop).
Hypothesis related_answers : forall op w1 w2, R w1 w2 ->
  (bus_operation op w1).1 = (bus_operation op w2).1 /\ R (bus_operation op w1).2 (bus_operation op w2).2.

(** The same result, core and panic, in related environments. *)
Definition simulates {A} (m : CM W1 A) (m' : CM W2 A) : Prop := forall c w1 w2, R w1 w2 ->
  match m (c, w1), m' (c, w2) with
  | Done (a, (c1, v1)), Done (b, (c2, v2)) => a = b /\ c1 = c2 /\ R v1 v2
  | Panic why, Panic why' => why = why'
  | _, _ => False
  end.

Lemma simulates_bind {A B} m m' (f : A -> CM W1 B) (f' : A -> CM W2 B) :
  simulates m m' -> (forall a, simulates (f a) (f' a)) -> simulates (m ≫= f) (m' ≫= f').
Proof.
  intros Hm Hf c w1 w2 Hw. unfold mbind, ST_bind. specialize (Hm c w1 w2 Hw).
  destruct (m (c, w1)) as [[a [c1 v1]]|], (m' (c, w2)) as [[b [c2 v2]]|]; try done.
  destruct Hm as (<- & <- & Hv). by apply Hf.
Qed.
Lemma simulates_ret {A} (a : A) : simulates (mret a) (mret a).
Proof. by intros c w1 w2 Hw. Qed.
Lemma simulates_panic {A} why : simulates (st_panic why : CM W1 A) (st_panic why).
Proof. by intros c w1 w2 Hw. Qed.
Lemma simulates_lift {A} (o : outcome A) : simulates (st_lift o) (st_lift o).
Proof. intros c w1 w2 Hw. unfold st_lift. by destruct o. Qed.
Lemma simulates_gets_core {A} (f : CpuCore -> A) : simulates (gets_core f) (gets_core f).
Proof. by intros c w1 w2 Hw. Qed.
Lemma simulates_modify_core f : simulates (modify_core f) (modify_core f).
Proof. by intros c w1 w2 Hw. Qed.
Lemma simulates_update_core {A} (f : CpuCore -> A * CpuCore) : simulates (update_core f) (update_core f).
Proof. intros c w1 w2 Hw. unfold update_core. by destruct (f c). Qed.
Lemma simulates_external op : simulates (external op) (external op).
Proof.
  intros c w1 w2 Hw. unfold external. destruct (related_answers op w1 w2 Hw) as [Ha Hr].
  destruct (bus_operation op w1), (bus_operation op w2). done.
Qed.
Hint Resolve simulates_ret simulates_panic simulates_lift simulates_gets_core simulates_modify_core simulates_update_core
  simulates_external : simulates.

Ltac simulates :=
  lazymatch goal with
  | |- forall _, _ => intro; simulates
  | |- simulates (mbind _ _) (mbind _ _) => apply simulates_bind; [simulates | simulates]
  | |- simulates (match ?x with _ => _ end) _ => destruct x; simulates
  | |- simulates ?m _ => first [ solve [eauto with simulates] | let h := head_of m in progress unfold h; simulates ]
  end.

Lemma simulates_read_pc k : simulates (read_pc_u8_with_kind k) (read_pc_u8_with_kind k).
Proof. simulates. Qed.
Hint Resolve simulates_read_pc : simulates.
Lemma simulates_load kind step : simulates (execute_load_machine_cycle kind step) (execute_load_machine_cycle kind step).
Proof. destruct kind; try apply simulates_panic; cbn [execute_load_machine_cycle]; simulates. Qed.
Lemma simulates_arithmetic kind step :
  simulates (execute_arithmetic_machine_cycle kind step) (execute_arithmetic_machine_cycle kind step).
Proof. destruct kind; try apply simulates_panic; cbn [execute_arithmetic_machine_cycle]; simulates. Qed.
Lemma simulates_control_flow kind step :
  simulates (execute_control_flow_machine_cycle kind step) (execute_control_flow_machine_cycle kind step).
Proof. destruct kind; try apply simulates_panic; cbn [execute_control_flow_machine_cycle]; simulates. Qed.
Lemma simulates_stack kind step : simulates (execute_stack_machine_cycle kind step) (execute_stack_machine_cycle kind step).
Proof. destruct kind; try apply simulates_panic; cbn [execute_stack_machine_cycle]; simulates. Qed.
Lemma simulates_cb step : simulates (execute_cb_prefixed_machine_cycle step) (execute_cb_prefixed_machine_cycle step).
Proof. simulates. Qed.
Hint Resolve simulates_load simulates_arithmetic simulates_control_flow simulates_stack simulates_cb : simulates.

Lemma tick_simulates : simulates CpuCycle.tick_t_cycle CpuCycle.tick_t_cycle.
Proof.
  unfold CpuCycle.tick_t_cycle, complete_fetch_opcode, complete_execute_machine_cycle, complete_interrupt_service_machine_cycle,
    complete_stop_wake_bugged_interrupt_service_machine_cycle, stop_completes_on_fetch_machine_cycle.
  simulates.
Qed.

End Simulation.

(** ** Counting does not change the core *)

Section Erasure.
Context {W : Type} (E : CpuExternal W).
#[local] Existing Instance counting.

Lemma tick_erases c n w :
  match CpuCycle.tick_t_cycle (c, w) with
  | Done (a, (c', w')) => exists n', CpuCycle.tick_t_cycle (c, (n, w)) = Done (a, (c', (n', w')))
  | Panic why => CpuCycle.tick_t_cycle (c, (n, w)) = Panic why
  end.
Proof.
  pose proof (tick_simulates (fun (v : nat * W) w => v.2 = w)
    ltac:(intros op [k v] w' <-; unfold bus_operation, counting, bus_operation; cbn; by destruct (E op v)) c (n, w) w eq_refl) as Hs.
  destruct (CpuCycle.tick_t_cycle (c, (n, w))) as [[a [c1 [n1 w1]]]|], (CpuCycle.tick_t_cycle (c, w)) as [[b [c2 w2]]|]; try done.
  - cbn in Hs. destruct Hs as (-> & -> & ->). by exists n1.
  - by subst.
Qed.

(** In a T-cycle the core makes at most one bus access, and counting it changes
    nothing: the same core and the same environment come out. *)
Lemma tick_counted c w c' w' : CpuCycle.tick_t_cycle (c, w) = Done (tt, (c', w')) ->
  exists n', CpuCycle.tick_t_cycle (c, (0%nat, w)) = Done (tt, (c', (n', w'))) /\ (n' <= 1)%nat.
Proof.
  intros Ht. pose proof (tick_erases c 0%nat w) as He. rewrite Ht in He. destruct He as [n' He]. exists n'. split; [done|].
  pose proof (tick_accesses (fst : nat * W -> nat)
    ltac:(intros op [n v]; unfold bus_operation; cbn; destruct (bus_operation op v); cbn; lia) _ _ _ _ _ He) as Hn.
  cbn in Hn. lia.
Qed.
End Erasure.
