(* ===== verification/CpuIsa.v ===== *)
(** * The instruction set

    A big-step semantics of the SM83 instructions ([isa_step]: new registers,
    memory, interrupt-enable state and duration) and the refinement theorem
    that the T-cycle core of [CpuCycle] implements it on a flat memory, in
    exactly four T-cycles per machine cycle. *)

From Stdlib Require Import ZArith Lia Bool String.
From stdpp Require Import base list tactics decidable option numbers.
From S2P Require Import Prelude Model CpuData CpuAlu CpuDecode CpuBus CpuExec CpuCycle CpuSafety.

Local Open Scope Z_scope.

(** ** Running one instruction *)

Definition at_fetch (c : CpuCore) : bool :=
  match execution_state c with FetchOpcode 0 => true | _ => false end.

(** Ticks until the core is again about to fetch, counting the T-cycles;
    [None] when [fuel] T-cycles were not enough. *)
Fixpoint run_instruction {W} `{CpuExternal W} (fuel : nat) : CM W (option Z) :=
  match fuel with
  | O => mret None
  | S fuel =>
      tick_t_cycle;;
      fetching ← gets_core at_fetch;
      if (fetching : bool) then mret (Some 1)
      else count ← run_instruction fuel;
           mret (match count with Some n => Some (Z.succ n) | None => None end)
  end.

(** ** Big-step semantics *)

Record IsaState := mkIsa { isa_registers : CpuRegisters; isa_memory : FlatWorld; isa_ime : ImeState }.

Definition fetch8 (w : FlatWorld) (r : CpuRegisters) : Z * CpuRegisters :=
  (flat_read w (r_pc r), r <| r_pc := wrapping_add16 (r_pc r) 1 |>).

Definition fetch16 (w : FlatWorld) (r : CpuRegisters) : Z * CpuRegisters :=
  let '(low, r) := fetch8 w r in
  let '(high, r) := fetch8 w r in
  (from_be_bytes high low, r).

Definition push16 (v : Z) (r : CpuRegisters) (w : FlatWorld) : CpuRegisters * FlatWorld :=
  let sp := r_sp r in
  (r <| r_sp := wrapping_sub16 sp 2 |>,
   flat_write (wrapping_sub16 sp 2) (low_byte v) (flat_write (wrapping_sub16 sp 1) (high_byte v) w)).

Definition pop16 (w : FlatWorld) (r : CpuRegisters) : Z * CpuRegisters :=
  let sp := r_sp r in
  (from_be_bytes (flat_read w (wrapping_add16 sp 1)) (flat_read w sp),
   r <| r_sp := wrapping_add16 sp 2 |>).

(** The page of the I/O registers, [0xFF00 + offset]. *)
Definition high_page (offset : Z) : Z := 0xFF00 + offset.

Definition direct_address (source : DirectAddressSource) (r : CpuRegisters) : Z :=
  match source with Direct_BC => bc r | Direct_DE => de r | Direct_HighC => high_page (r_c r) end.

Definition step_hl (direction : CpuAddressUpdateDirection) (r : CpuRegisters) : CpuRegisters :=
  write_register16 R16_HL
    (match direction with Increment => wrapping_add16 (hl r) 1 | Decrement => wrapping_sub16 (hl r) 1 end) r.

Definition jump (target : Z) (r : CpuRegisters) : CpuRegisters := r <| r_pc := target |>.
Definition met (condition : ConditionCode) (r : CpuRegisters) : bool := condition_is_met (Some condition) r.

Definition isa_cb (r : CpuRegisters) (w : FlatWorld) : CpuRegisters * FlatWorld * Z :=
  let '(opcode, r) := fetch8 w r in
  let kind := IsaTable.isa_decode_cb opcode in
  match cb_target kind with
  | OperandRegister target =>
      let '(result, r) := apply_cb_operation kind (read_register8 target r) r in
      (match result with Some v => write_register8 target v r | None => r end, w, 2)
  | IndirectHl =>
      let '(result, r') := apply_cb_operation kind (flat_read w (hl r)) r in
      match result with
      | Some v => (r', flat_write (hl r) v w, 4)
      | None => (r', w, 3)
      end
  end.

(** Registers and memory after the instruction, and its machine cycles
    (opcode fetch included); [r] has the PC past the opcode. *)
Definition isa_execute (k : CpuInstructionKind) (r : CpuRegisters) (w : FlatWorld)
    : CpuRegisters * FlatWorld * Z :=
  match k with
  | LoadRegisterImmediate t => let '(v, r) := fetch8 w r in (write_register8 t v r, w, 2)
  | LoadRegisterPairImmediate t => let '(v, r) := fetch16 w r in (write_register16 t v r, w, 3)
  | LoadRegisterFromHl t => (write_register8 t (flat_read w (hl r)) r, w, 2)
  | StoreRegisterToHl s => (r, flat_write (hl r) (read_register8 s r) w, 2)
  | StoreImmediateToHl => let '(v, r) := fetch8 w r in (r, flat_write (hl r) v w, 3)
  | LoadAFromHlWithUpdate d => ((step_hl d r) <| r_a := flat_read w (hl r) |>, w, 2)
  | StoreAToHlWithUpdate d => (step_hl d r, flat_write (hl r) (r_a r) w, 2)
  | LoadAFromDirectAddress s => (r <| r_a := flat_read w (direct_address s r) |>, w, 2)
  | LoadAFromImmediate16Address =>
      let '(address, r) := fetch16 w r in (r <| r_a := flat_read w address |>, w, 4)
  | LoadAFromHighImmediateAddress =>
      let '(offset, r) := fetch8 w r in (r <| r_a := flat_read w (high_page offset) |>, w, 3)
  | StoreAToDirectAddress d => (r, flat_write (direct_address d r) (r_a r) w, 2)
  | StoreAToImmediate16Address =>
      let '(address, r) := fetch16 w r in (r, flat_write address (r_a r) w, 4)
  | StoreAToHighImmediateAddress =>
      let '(offset, r) := fetch8 w r in (r, flat_write (high_page offset) (r_a r) w, 3)
  | StoreSpToImmediate16 =>
      let '(address, r) := fetch16 w r in
      (r, flat_write (wrapping_add16 address 1) (high_byte (r_sp r))
            (flat_write address (low_byte (r_sp r)) w), 5)
  | LoadHlFromSpPlusImmediate =>
      let '(v, r) := fetch8 w r in
      let '(result, r) := sp_plus_signed_immediate v r in (write_register16 R16_HL result r, w, 3)
  | AddSpImmediate =>
      let '(v, r) := fetch8 w r in
      let '(result, r) := sp_plus_signed_immediate v r in (write_register16 R16_SP result r, w, 4)
  | LoadSpFromHl => (r <| r_sp := hl r |>, w, 2)
  | AddHl s => (add_to_hl (read_register16 s r) r, w, 2)
  | IncrementRegisterPair t => (write_register16 t (wrapping_add16 (read_register16 t r) 1) r, w, 2)
  | DecrementRegisterPair t => (write_register16 t (wrapping_sub16 (read_register16 t r) 1) r, w, 2)
  | IncrementHlMemory =>
      let v := flat_read w (hl r) in
      (update_inc_flags v (wrapping_add8 v 1) r, flat_write (hl r) (wrapping_add8 v 1) w, 3)
  | DecrementHlMemory =>
      let v := flat_read w (hl r) in
      (update_dec_flags v (wrapping_sub8 v 1) r, flat_write (hl r) (wrapping_sub8 v 1) w, 3)
  | AluImmediate op => let '(v, r) := fetch8 w r in (apply_alu_operation op v r, w, 2)
  | AluFromHl op => (apply_alu_operation op (flat_read w (hl r)) r, w, 2)
  | RelativeJump =>
      let '(v, r) := fetch8 w r in (jump (wrapping_add_signed16 (r_pc r) (as_i8 v)) r, w, 3)
  | ConditionalRelativeJump c =>
      let '(v, r) := fetch8 w r in
      if met c r then (jump (wrapping_add_signed16 (r_pc r) (as_i8 v)) r, w, 3) else (r, w, 2)
  | AbsoluteJump => let '(target, r) := fetch16 w r in (jump target r, w, 4)
  | ConditionalAbsoluteJump c =>
      let '(target, r) := fetch16 w r in if met c r then (jump target r, w, 4) else (r, w, 3)
  | Call =>
      let '(target, r) := fetch16 w r in
      let '(r, w) := push16 (r_pc r) r w in (jump target r, w, 6)
  | ConditionalCall c =>
      let '(target, r) := fetch16 w r in
      if met c r then let '(r, w) := push16 (r_pc r) r w in (jump target r, w, 6) else (r, w, 3)
  | Return | ReturnFromInterrupt => let '(target, r) := pop16 w r in (jump target r, w, 4)
  | ConditionalReturn c =>
      if met c r then let '(target, r) := pop16 w r in (jump target r, w, 5) else (r, w, 2)
  | Restart vector => let '(r, w) := push16 (r_pc r) r w in (jump vector r, w, 4)
  | PushRegisterPair s => let '(r, w) := push16 (read_stack_register16 s r) r w in (r, w, 4)
  | PopRegisterPair t => let '(v, r) := pop16 w r in (write_stack_register16 t v r, w, 3)
  | CbPrefixed => isa_cb r w
  | Stop => (r, w, 1)
  end.

Definition clear_zero_flag (p : Z * CpuRegisters) : CpuRegisters :=
  write_flags false false false (cf p.2) (p.2 <| r_a := p.1 |>).

Definition isa_complete (k : FetchCompletionKind) (r : CpuRegisters) : CpuRegisters :=
  match k with
  | DecimalAdjustAccumulator => decimal_adjust_a r
  | ComplementAccumulator => complement_a r
  | SetCarryFlag => set_carry_flag r
  | ComplementCarryFlag => complement_carry_flag r
  | RotateLeftAccumulatorCarry => clear_zero_flag (rotate_left_carry (r_a r) r)
  | RotateLeftAccumulatorThroughCarry => clear_zero_flag (rotate_left_through_carry (r_a r) r)
  | RotateRightAccumulatorCarry => clear_zero_flag (rotate_right_carry (r_a r) r)
  | RotateRightAccumulatorThroughCarry => clear_zero_flag (rotate_right_through_carry (r_a r) r)
  | JumpHl => jump (hl r) r
  | LoadRegisterToRegister d s => write_register8 d (read_register8 s r) r
  | IncrementRegister t =>
      let v := read_register8 t r in
      update_inc_flags v (wrapping_add8 v 1) (write_register8 t (wrapping_add8 v 1) r)
  | DecrementRegister t =>
      let v := read_register8 t r in
      update_dec_flags v (wrapping_sub8 v 1) (write_register8 t (wrapping_sub8 v 1) r)
  | AluRegister op s => apply_alu_operation op (read_register8 s r) r
  | Nop | Halt | DisableInterrupts | EnableInterrupts => r
  end.

(** The delayed interrupt enable: a pending EI counts completed instructions. *)
Definition ime_after_instruction (s : ImeState) : ImeState :=
  match s with
  | ImeDisabledPendingEnable n => if 1 <? n then ImeDisabledPendingEnable (n - 1) else ImeEnabled
  | ImeEnabledPendingEnable n => if 1 <? n then ImeEnabledPendingEnable (n - 1) else ImeEnabled
  | s => s
  end.

Definition isa_ime_after (d : DecodedOpcode) (s : ImeState) : ImeState :=
  match d with
  | CompleteOnFetch DisableInterrupts => ImeDisabled
  | CompleteOnFetch EnableInterrupts =>
      match s with
      | ImeDisabled => ImeDisabledPendingEnable 1
      | ImeEnabled => ImeEnabledPendingEnable 1
      | s => ime_after_instruction s
      end
  | Execute ReturnFromInterrupt => ImeEnabled
  | _ => ime_after_instruction s
  end.

(** One instruction: the new state and the machine cycles it takes. *)
Definition isa_step (s : IsaState) : IsaState * Z :=
  let '(opcode, r) := fetch8 (isa_memory s) (isa_registers s) in
  let d := IsaTable.isa_decode opcode in
  let ime := isa_ime_after d (isa_ime s) in
  match d with
  | CompleteOnFetch k => (mkIsa (isa_complete k r) (isa_memory s) ime, 1)
  | Execute k => let '(r, w, cycles) := isa_execute k r (isa_memory s) in (mkIsa r w ime, cycles)
  | Unsupported => (mkIsa r (isa_memory s) ime, 1)
  end.

(** HALT, STOP and the undefined opcodes leave the fetch-execute cycle. *)
Definition ordinary (d : DecodedOpcode) : bool :=
  match d with
  | CompleteOnFetch Halt | Execute Stop | Unsupported => false
  | _ => true
  end.

(** ** Refinement *)

Definition at_boundary (c : CpuCore) : Prop :=
  execution_state c = fetch_opcode /\ in_flight c = in_flight_default /\ halt_control c = HaltIdle.

(** A core about to execute the decoded instruction [k], its opcode fetched. *)
Definition executing (opcode : Z) (k : CpuInstructionKind) (r : CpuRegisters) (ime : ImeState)
    (m : ConsoleModel) (st : CpuStartupState) ba ae sd ss : CpuCore :=
  mkCpu m st r (ExecuteState 0 0)
    (mkInFlight (Some opcode) (Some k) (Some (execution_group_of k)) None 0 0) ime HaltIdle ba ae sd ss.

(** The result of running to the next boundary. *)
Definition finishes (m : CM FlatWorld (option Z)) (c : CpuCore) (w : FlatWorld) (cycles : Z)
    (r : CpuRegisters) (w' : FlatWorld) (ime : ImeState) : Prop :=
  exists c', m (c, w) = Done (Some cycles, (c', w')) /\ at_boundary c' /\
    registers c' = r /\ ime_state c' = ime.

Lemma lor_high_page v : u8 v -> Z.lor 0xFF00 v = high_page v.
Proof.
  intros. transitivity (Z.lor v (Z.shiftl 0xFF 8)); [by rewrite Z.lor_comm|].
  rewrite lor_shiftl_bytes by (done || unfold u8; lia). unfold from_be_bytes, high_page. lia.
Qed.

Lemma wrapping_sub16_twice x : wrapping_sub16 (wrapping_sub16 x 1) 1 = wrapping_sub16 x 2.
Proof. unfold wrapping_sub16. rewrite Zminus_mod_idemp_l. f_equal. lia. Qed.
Lemma wrapping_add16_twice x : wrapping_add16 (wrapping_add16 x 1) 1 = wrapping_add16 x 2.
Proof. unfold wrapping_add16. rewrite Zplus_mod_idemp_l. f_equal. lia. Qed.

(** *** Machine cycles

    A counted state completes its machine cycle on its fourth T-cycle: [mk] is
    the state as a function of its T-cycle counter, [complete] what the last
    T-cycle runs. *)

Definition clear_observations (c : CpuCore) : CpuCore :=
  c <| last_bus_activity := None |> <| last_address_event := None |>.

Definition last_t_cycle (mk : Z -> CpuExecutionState) (c : CpuCore) : CpuCore :=
  clear_observations (c <| execution_state := mk 3 |>).

Section MachineCycles.
Context {W : Type} `{CpuExternal W}.

Record counted (mk : Z -> CpuExecutionState) (complete : CM W unit) : Prop := {
  counted_tick : forall c w t, execution_state c = mk t ->
    tick_t_cycle (c, w) =
      if t <? 3 then Done (tt, (clear_observations (c <| execution_state := mk (t + 1) |>), w))
      else complete (clear_observations c, w);
  counted_busy : forall t c, 0 < t -> execution_state c = mk t -> at_fetch c = false
}.

Ltac prove_counted :=
  split;
  [ intros c w t Hs; cpu_cases c; cbn in Hs; subst;
    unfold tick_t_cycle, mbind, ST_bind, modify_core, gets_core; cbn -[Z.ltb Z.add];
    unfold LAST_MACHINE_CYCLE_T; by destruct (t <? 3)
  | intros t c Ht Hs; unfold at_fetch; rewrite Hs; destruct t; (done || lia) ].

Lemma counted_fetch : counted FetchOpcode complete_fetch_opcode.
Proof. prove_counted. Qed.
Lemma counted_execute step : counted (ExecuteState step) (complete_execute_machine_cycle step).
Proof. prove_counted. Qed.
Lemma counted_service source step :
  counted (ServiceInterrupt source step) (complete_interrupt_service_machine_cycle source step).
Proof. prove_counted. Qed.
Lemma counted_bugged_service step :
  counted (ServiceStopWakeBuggedInterrupt step)
    (complete_stop_wake_bugged_interrupt_service_machine_cycle step).
Proof. prove_counted. Qed.

Lemma run_instruction_tick fuel c (w : W) :
  run_instruction (S fuel) (c, w) =
    match tick_t_cycle (c, w) with
    | Panic why => Panic why
    | Done (_, (c', w')) =>
        if at_fetch c' then Done (Some 1, (c', w'))
        else match run_instruction fuel (c', w') with
             | Panic why => Panic why
             | Done (n, s) => Done (match n with Some n => Some (Z.succ n) | None => None end, s)
             end
    end.
Proof.
  cbn -[tick_t_cycle]. unfold mbind, ST_bind, gets_core, mret, ST_ret.
  destruct (tick_t_cycle (c, w)) as [[[] [c' w']]|]; [|done].
  destruct (at_fetch c'); [done|].
  by destruct (run_instruction fuel (c', w')) as [[n s]|].
Qed.

(** Four T-cycles complete one machine cycle. *)
Lemma run_counted_cycle mk complete fuel c (w : W) :
  counted mk complete -> execution_state c = mk 0 ->
  run_instruction (4 + fuel) (c, w) =
    match complete (last_t_cycle mk c, w) with
    | Panic why => Panic why
    | Done (_, (c', w')) =>
        if at_fetch c' then Done (Some 4, (c', w'))
        else match run_instruction fuel (c', w') with
             | Panic why => Panic why
             | Done (n, s) => Done (match n with Some n => Some (4 + n) | None => None end, s)
             end
    end.
Proof.
  intros [Htick Hbusy] Hs. change (4 + fuel)%nat with (S (S (S (S fuel)))).
  assert (Hnext : forall c t, execution_state (clear_observations (c <| execution_state := mk t |>)) = mk t)
    by (intros c0 t; by cpu_cases c0).
  rewrite run_instruction_tick, (Htick _ _ 0) by done. change (0 <? 3) with true. cbv iota.
  rewrite (Hbusy 1) by (done || apply Hnext).
  rewrite run_instruction_tick, (Htick _ _ 1) by apply Hnext. change (1 <? 3) with true. cbv iota.
  rewrite (Hbusy 2) by (done || apply Hnext).
  rewrite run_instruction_tick, (Htick _ _ 2) by apply Hnext. change (2 <? 3) with true. cbv iota.
  rewrite (Hbusy 3) by (done || apply Hnext).
  rewrite run_instruction_tick, (Htick _ _ 3) by apply Hnext. change (3 <? 3) with false. cbv iota.
  replace (clear_observations _) with (last_t_cycle mk c) by by cpu_cases c.
  destruct (complete (last_t_cycle mk c, w)) as [[[] [c' w']]|]; [|done].
  destruct (at_fetch c'); [done|].
  destruct (run_instruction fuel (c', w')) as [[[n|] s]|]; [|done|done].
  do 3 f_equal. lia.
Qed.
End MachineCycles.

Lemma advance_delayed_ime_enable_explicit c :
  advance_delayed_ime_enable c = c <| ime_state := ime_after_instruction (ime_state c) |>.
Proof. cpu_cases c. destruct c_ime; cbn -[Z.ltb]; case_tests; done. Qed.

(** A core that finishes its instruction is at a boundary. *)
Lemma finish_instruction_boundary c :
  halt_control c = HaltIdle ->
  at_boundary (finish_instruction c) /\ registers (finish_instruction c) = registers c /\
  ime_state (finish_instruction c) = ime_after_instruction (ime_state c).
Proof.
  intros Hh. unfold finish_instruction. rewrite advance_delayed_ime_enable_explicit.
  cpu_cases c. cbn in Hh. by subst c_halt.
Qed.

Section Finishes.
Context (mk : Z -> CpuExecutionState) (complete : CM FlatWorld unit).
Hypothesis Hcounted : counted mk complete.
Variables (fuel : nat) (c : CpuCore) (w : FlatWorld).
Hypothesis Hs : execution_state c = mk 0.

Lemma finishes_now c' w' :
  complete (last_t_cycle mk c, w) = Done (tt, (c', w')) -> at_boundary c' ->
  finishes (run_instruction (4 + fuel)) c w 4 (registers c') w' (ime_state c').
Proof using Hcounted Hs.
  intros Hc Hb. exists c'. rewrite (run_counted_cycle mk complete) by done.
  assert (Hf : at_fetch c' = true) by (unfold at_fetch; by rewrite (proj1 Hb)).
  by rewrite Hc, Hf.
Qed.

Lemma finishes_instruction c' w' :
  complete (last_t_cycle mk c, w) = Done (tt, (finish_instruction c', w')) ->
  halt_control c' = HaltIdle ->
  finishes (run_instruction (4 + fuel)) c w 4 (registers c') w' (ime_after_instruction (ime_state c')).
Proof using Hcounted Hs.
  intros Hc Hh. destruct (finish_instruction_boundary c' Hh) as (Hb & <- & <-).
  by apply finishes_now.
Qed.

Lemma finishes_later c' w' n r'' w'' ime'' :
  complete (last_t_cycle mk c, w) = Done (tt, (c', w')) -> at_fetch c' = false ->
  finishes (run_instruction fuel) c' w' n r'' w'' ime'' ->
  finishes (run_instruction (4 + fuel)) c w (4 + n) r'' w'' ime''.
Proof using Hcounted Hs.
  intros Hc Hf (c2 & Hrun & Hb). exists c2. rewrite (run_counted_cycle mk complete) by done.
  by rewrite Hc, Hf, Hrun.
Qed.
End Finishes.

Lemma finishes_eq m c w n r w' ime n' r' w'' ime' :
  finishes m c w n r w' ime -> n = n' -> r = r' -> w' = w'' -> ime = ime' ->
  finishes m c w n' r' w'' ime'.
Proof. by intros ? -> -> -> ->. Qed.

(** Symbolic execution: everything computes except the arithmetic of machine
    words, the memory, the ALU and the end of the instruction. *)
Ltac sym_eval t := eval
  cbv -[wrapping_add16 wrapping_sub16 wrapping_add8 wrapping_sub8 wrapping_add_signed16 as_i8
    from_be_bytes low_byte high_byte Z.lor Z.land Z.shiftl high_page flat_read flat_write has_bits
    apply_alu_operation update_inc_flags update_dec_flags add_to_hl sp_plus_signed_immediate
    finish_instruction decode_cb_opcode IsaTable.isa_decode_cb apply_cb_operation
    ime_after_instruction] in t.
Ltac sym_exec := match goal with |- ?G => let G' := sym_eval G in change G' end.
Ltac sym_exec_in H := match type of H with ?G => let G' := sym_eval G in change G' in H end.

(** Uses the known tests of the flags. *)
Ltac known_flags :=
  repeat match goal with H : has_bits _ _ = _ |- _ => rewrite H; clear H end.
Ltac known_flags_in He :=
  repeat match goal with H : has_bits _ _ = _ |- _ => rewrite H in He end.

Ltac machine_cycle :=
  first
  [ eapply finishes_instruction; [apply counted_execute | reflexivity | sym_exec; known_flags; reflexivity | reflexivity]
  | eapply finishes_later;
    [apply counted_execute | reflexivity | sym_exec; known_flags; reflexivity | reflexivity | machine_cycle] ].

Section Kinds.
Variables (w : FlatWorld) (m : ConsoleModel) (st : CpuStartupState).
Variables (opcode : Z) (ime : ImeState).
Variables (ba : option CpuTraceBusActivity) (ae : option CpuAddressEvent) (sd ss : bool).
Hypothesis Hw : flat_ok w.

Definition kind_refines (k : CpuInstructionKind) : Prop := forall r,
  regs_ok r ->
  let '(r', w', cycles) := isa_execute k r w in
  finishes (run_instruction 20) (executing opcode k r ime m st ba ae sd ss) w (4 * cycles - 4)
    r' w' (isa_ime_after (Execute k) ime).

Lemma flat_read_u8 a : u8 (flat_read w a).
Proof using Hw. apply Hw. Qed.

Ltac isa_kind :=
  intros [ra rf rb rc rd re rh rl rsp rpc] Hr; destruct Hr;
  destruct (isa_execute _ _ w) as [[r' w'] cycles] eqn:He;
  destruct (has_bits rf 128) eqn:Hzf, (has_bits rf 16) eqn:Hcf;
  sym_exec_in He; known_flags_in He; injection He as <- <- <-;
  (eapply finishes_eq; [machine_cycle | reflexivity | ..]);
  sym_exec; rewrite ?lor_shiftl_bytes, ?lor_high_page, ?wrapping_sub16_twice, ?wrapping_add16_twice
    by (apply flat_read_u8 || done); try reflexivity.

(** Every instruction but STOP and the CB prefix. *)
Lemma load_kinds_refine k : execution_group_of k = GroupLoad -> kind_refines k.
Proof using Hw.
  intros Hg.
  destruct k as [t|t|t|t| |d|d|d| | |d| | | | | | |t|t|t| | |o|o| |c| |c| |c| |c| | |v|s|s|];
    try discriminate Hg; try destruct t; try destruct d; isa_kind.
Qed.

Lemma arithmetic_kinds_refine k : execution_group_of k = GroupArithmetic -> kind_refines k.
Proof using Hw.
  intros Hg.
  destruct k as [t|t|t|t| |d|d|d| | |d| | | | | | |t|t|t| | |o|o| |c| |c| |c| |c| | |v|s|s|];
    try discriminate Hg; try destruct t; isa_kind.
Qed.

Lemma control_flow_kinds_refine k :
  execution_group_of k = GroupControlFlow -> k <> Stop -> kind_refines k.
Proof using Hw.
  intros Hg Hstop.
  destruct k as [t|t|t|t| |d|d|d| | |d| | | | | | |t|t|t| | |o|o| |c| |c| |c| |c| | |v|s|s|];
    try discriminate Hg; try done; try destruct c; isa_kind.
Qed.

Lemma stack_kinds_refine k : execution_group_of k = GroupStack -> kind_refines k.
Proof using Hw.
  intros Hg.
  destruct k as [t|t|t|t| |d|d|d| | |d| | | | | | |t|t|t| | |o|o| |c| |c| |c| |c| | |v|s|s|];
    try discriminate Hg; destruct s; isa_kind.
Qed.

Ltac sym_exec_cb :=
  cbv -[wrapping_add16 from_be_bytes Z.lor Z.land flat_read flat_write has_bits rotate_left8
    rotate_right8 shl8 shr8 not8 Z.eqb flag_if u8_from_bool finish_instruction decode_cb_opcode
    IsaTable.isa_decode_cb ime_after_instruction].

Lemma cb_prefixed_refines : kind_refines CbPrefixed.
Proof using Hw.
  intros [ra rf rb rc rd re rh rl rsp rpc] Hr. cbn [isa_execute].
  pose proof (decode_cb_opcode_ok (flat_read w rpc) (flat_read_u8 _)) as Hdec.
  unfold isa_cb, fetch8. cbn [r_pc].
  destruct (IsaTable.isa_decode_cb (flat_read w rpc)) as [t|t|t|t|t|t|t|t|b t|b t|b t];
    destruct t as [t|]; try destruct t; cbn [cb_target apply_cb_operation];
    (eapply finishes_eq;
     [ first
       [ eapply finishes_instruction; [apply counted_execute | reflexivity | sym_exec_cb; rewrite Hdec; reflexivity | reflexivity]
       | eapply finishes_later;
         [apply counted_execute | reflexivity | sym_exec_cb; rewrite Hdec; reflexivity | reflexivity |];
         first
         [ eapply finishes_instruction; [apply counted_execute | reflexivity | sym_exec_cb; reflexivity | reflexivity]
         | eapply finishes_later; [apply counted_execute | reflexivity | sym_exec_cb; reflexivity | reflexivity |];
           eapply finishes_instruction; [apply counted_execute | reflexivity | sym_exec_cb; reflexivity | reflexivity] ] ]
     | reflexivity | sym_exec_cb; reflexivity .. ]).

Qed.
End Kinds.

(** *** The opcode fetch *)

(** The core after the opcode read of a fetch. *)
Definition opcode_fetched (i : InFlightInstruction) (c : CpuCore) (w : FlatWorld) : CpuCore :=
  let pc := r_pc (registers c) in
  mkCpu (cpu_console_model c) (cpu_startup_state c)
    ((registers c) <| r_pc := wrapping_add16 pc 1 |>)
    (FetchOpcode 3) i (ime_state c) HaltIdle
    (Some (mkActivity OpcodeFetch pc (flat_read w pc)))
    (Some (event_read_with_incdec pc (wrapping_add16 pc 1) Increment))
    (stop_div_reset_requested c) (cgb_speed_switch_requested c).

Lemma read_opcode_flat c w :
  at_boundary c ->
  read_opcode_u8 (last_t_cycle FetchOpcode c, w) =
    Done (flat_read w (r_pc (registers c)), (opcode_fetched in_flight_default c w, w)).
Proof.
  intros (Hs & Hi & Hh).
  destruct c as [m st [ra rf rb rc rd re rh rl rsp rpc] s i ime h ba ae sd ss]. cbn in Hs, Hi, Hh.
  subst s i h. sym_exec. reflexivity.
Qed.

Lemma complete_fetch_opcode_flat c w :
  at_boundary c -> flat_ok w -> flat_read w (r_pc (registers c)) <> 0x10 ->
  let opcode := flat_read w (r_pc (registers c)) in
  complete_fetch_opcode (last_t_cycle FetchOpcode c, w) =
    Done (tt, (complete_decoded_opcode opcode (IsaTable.isa_decode opcode)
      (opcode_fetched (in_flight_default <| if_opcode := Some opcode |>) c w), w)).
Proof.
  intros Hb Hw Hstop opcode.
  pose proof (decode_fetched_opcode_ok opcode (Hw _)) as Hdec.
  unfold complete_fetch_opcode, mbind, ST_bind. rewrite read_opcode_flat by done. fold opcode.
  unfold modify_core, mret, ST_ret, st_lift. rewrite (proj2 (Z.eqb_neq opcode 0x10)) by done.
  by rewrite Hdec.
Qed.

Lemma ordinary_not_stop opcode : ordinary (IsaTable.isa_decode opcode) = true -> opcode <> 0x10.
Proof. by intros H ->. Qed.

Lemma kind_refines_all w m st opcode ime ba ae sd ss k :
  flat_ok w -> k <> Stop -> kind_refines w m st opcode ime ba ae sd ss k.
Proof.
  intros Hw Hstop. destruct (execution_group_of k) eqn:Hg.
  - by apply load_kinds_refine.
  - by apply arithmetic_kinds_refine.
  - by apply control_flow_kinds_refine.
  - by apply stack_kinds_refine.
  - destruct k; try discriminate. by apply cb_prefixed_refines.
Qed.

(** What a fetch completion leaves: the core finishes the instruction with the
    registers and the interrupt enable of the specification. *)
Lemma fetch_completion_finishes k c :
  ordinary (CompleteOnFetch k) = true -> halt_control c = HaltIdle -> ime_ok (ime_state c) ->
  exists c', complete_fetch_completion k c = c' /\ at_boundary c' /\
    registers c' = isa_complete k (registers c) /\
    ime_state c' = isa_ime_after (CompleteOnFetch k) (ime_state c).
Proof.
  intros Ho Hh Hime. eexists. split; [reflexivity|].
  unfold complete_fetch_completion, finish_instruction.
  destruct (fetch_completion_registers k) as [f|] eqn:Hf.
  - rewrite advance_delayed_ime_enable_explicit. cpu_cases c. cbn in Hh, Hime. subst c_halt.
    destruct k; try discriminate; injection Hf as <-; (split; [done|]);
      (split; [|done]); try done; by destruct c_regs.
  - rewrite ?advance_delayed_ime_enable_explicit. cpu_cases c. cbn in Hh, Hime. subst c_halt.
    destruct k; try discriminate; rewrite ?advance_delayed_ime_enable_explicit.
    + done.
    + destruct c_ime; done.
Qed.

Lemma begin_instruction_executing opcode k c w :
  begin_instruction opcode k (opcode_fetched (in_flight_default <| if_opcode := Some opcode |>) c w) =
  let pc := r_pc (registers c) in
  executing opcode k ((registers c) <| r_pc := wrapping_add16 pc 1 |>) (ime_state c)
    (cpu_console_model c) (cpu_startup_state c)
    (Some (mkActivity OpcodeFetch pc (flat_read w pc)))
    (Some (event_read_with_incdec pc (wrapping_add16 pc 1) Increment))
    (stop_div_reset_requested c) (cgb_speed_switch_requested c).
Proof. reflexivity. Qed.

(** The state of the specification that a core and its memory stand for. *)
Definition isa_state (c : CpuCore) (w : FlatWorld) : IsaState := mkIsa (registers c) w (ime_state c).

(** One instruction. *)
Lemma run_instruction_isa_step (c : CpuCore) (w : FlatWorld) :
  at_boundary c -> cpu_ok c -> flat_ok w ->
  ordinary (IsaTable.isa_decode (flat_read w (r_pc (registers c)))) = true ->
  let '(s', cycles) := isa_step (isa_state c w) in
  exists c', run_instruction 24 (c, w) = Done (Some (4 * cycles), (c', isa_memory s')) /\
    at_boundary c' /\ isa_state c' (isa_memory s') = s'.
Proof.
  intros Hb Hok Hw Ho. unfold isa_step, isa_state, fetch8. cbn [isa_memory isa_registers isa_ime].
  assert (Hd := proj1 Hok). assert (Hr := data_registers _ Hd). assert (Hime := data_ime _ Hd).
  pose proof (run_counted_cycle FetchOpcode complete_fetch_opcode 20 c w counted_fetch (proj1 Hb)) as Hrun.
  cbn [Nat.add] in Hrun.
  rewrite (complete_fetch_opcode_flat c w Hb Hw) in Hrun by by apply ordinary_not_stop.
  rewrite Hrun. clear Hrun. set (opcode := flat_read w (r_pc (registers c))) in *.
  destruct (IsaTable.isa_decode opcode) as [k | k |] eqn:Hdec; [| |discriminate].
  - cbn [complete_decoded_opcode].
    destruct (fetch_completion_finishes k
      (opcode_fetched (in_flight_default <| if_opcode := Some opcode |>) c w) Ho eq_refl Hime)
      as (c' & -> & Hb' & Hr' & Hi'). exists c'.
    assert (Hf : at_fetch c' = true) by (unfold at_fetch; by rewrite (proj1 Hb')).
    rewrite Hf. split; [done|]. split; [done|]. by rewrite Hr', Hi'.
  - cbn [complete_decoded_opcode]. rewrite begin_instruction_executing. cbv zeta.
    assert (Hstop : k <> Stop) by by intros ->.
    pose proof (kind_refines_all w (cpu_console_model c) (cpu_startup_state c) opcode (ime_state c)
      (Some (mkActivity OpcodeFetch (r_pc (registers c)) opcode))
      (Some (event_read_with_incdec (r_pc (registers c)) (wrapping_add16 (r_pc (registers c)) 1) Increment))
      (stop_div_reset_requested c) (cgb_speed_switch_requested c) k Hw Hstop
      ((registers c) <| r_pc := wrapping_add16 (r_pc (registers c)) 1 |>)) as Hk.
    destruct (isa_execute k _ w) as [[r' w'] cycles].
    destruct Hk as (c' & Hrun & Hb' & Hr' & Hi'); [auto with gb|].
    exists c'. cbn [at_fetch execution_state executing]. fold opcode. rewrite Hrun.
    split; [|split; [done | cbn [isa_memory]; by rewrite Hr', Hi']].
    cbn [isa_memory]. do 3 f_equal. lia.
Qed.

(** *** Runs of several instructions *)

Definition next_ordinary (s : IsaState) : bool :=
  ordinary (IsaTable.isa_decode (flat_read (isa_memory s) (r_pc (isa_registers s)))).

Lemma run_instruction_ok {W} `{CpuExternal W} (world_ok : W -> Prop) `{!CpuExternalLaws W world_ok}
    fuel c w :
  cpu_ok c -> world_ok w ->
  wp (run_instruction fuel) (c, w) (fun _ s => cpu_ok s.1 /\ world_ok s.2).
Proof.
  revert c w. induction fuel as [|fuel IH]; intros c w Hc Hw; [done|].
  cbn [run_instruction]. apply wp_bind. eapply wp_mono; [by apply (tick_t_cycle_ok world_ok)|].
  intros [] [c' w'] [Hc' Hw']. apply wp_bind. unfold gets_core, wp at 1.
  destruct (at_fetch c'); [done|]. apply wp_bind.
  eapply wp_mono; [by apply IH|]. by intros count s.
Qed.

Lemma run_instruction_preserves {W} `{CpuExternal W} (world_ok : W -> Prop)
    `{!CpuExternalLaws W world_ok} fuel c w n c' w' :
  cpu_ok c -> world_ok w -> run_instruction fuel (c, w) = Done (n, (c', w')) ->
  cpu_ok c' /\ world_ok w'.
Proof.
  intros Hc Hw Hrun. pose proof (run_instruction_ok world_ok fuel c w Hc Hw) as Hwp.
  unfold wp in Hwp. by rewrite Hrun in Hwp.
Qed.

(** The interrupt-enable state after an instruction, and an instruction that
    completes on its fetch. *)
Lemma run_instruction_ime c w :
  at_boundary c -> cpu_ok c -> flat_ok w -> next_ordinary (isa_state c w) = true ->
  exists n c' w', run_instruction 24 (c, w) = Done (Some n, (c', w')) /\ at_boundary c' /\
    ime_state c' = isa_ime_after (IsaTable.isa_decode (flat_read w (r_pc (registers c)))) (ime_state c).
Proof.
  intros Hb Hc Hw Ho. pose proof (run_instruction_isa_step c w Hb Hc Hw Ho) as Hstep.
  unfold isa_step, fetch8, isa_state in Hstep. cbn [isa_memory isa_registers isa_ime] in Hstep.
  unfold next_ordinary, isa_state in Ho. cbn [isa_memory isa_registers] in Ho.
  destruct (IsaTable.isa_decode _) as [k | k |]; [| |discriminate].
  - destruct Hstep as (c' & Hrun & Hb' & Hs'). injection Hs' as Hr Hi. eauto 7.
  - destruct (isa_execute k _ w) as [[r' w'] cycles].
    destruct Hstep as (c' & Hrun & Hb' & Hs'). injection Hs' as Hr Hi. eauto 7.
Qed.

Lemma run_fetch_completion c w k :
  at_boundary c -> cpu_ok c -> flat_ok w -> k <> Halt ->
  IsaTable.isa_decode (flat_read w (r_pc (registers c))) = CompleteOnFetch k ->
  exists c', run_instruction 24 (c, w) = Done (Some 4, (c', w)) /\ at_boundary c' /\
    registers c' = isa_complete k ((registers c) <| r_pc := wrapping_add16 (r_pc (registers c)) 1 |>) /\
    ime_state c' = isa_ime_after (CompleteOnFetch k) (ime_state c).
Proof.
  intros Hb Hc Hw Hk Hdec. pose proof (run_instruction_isa_step c w Hb Hc Hw) as Hstep.
  unfold isa_step, fetch8, isa_state in Hstep. cbn [isa_memory isa_registers isa_ime] in Hstep.
  rewrite Hdec in Hstep. destruct Hstep as (c' & Hrun & Hb' & Hs'); [by destruct k|].
  injection Hs' as Hr Hi. eauto 6.
Qed.

Lemma run_execute c w k r' w' cycles :
  at_boundary c -> cpu_ok c -> flat_ok w -> k <> Stop ->
  IsaTable.isa_decode (flat_read w (r_pc (registers c))) = Execute k ->
  isa_execute k ((registers c) <| r_pc := wrapping_add16 (r_pc (registers c)) 1 |>) w = (r', w', cycles) ->
  exists c', run_instruction 24 (c, w) = Done (Some (4 * cycles), (c', w')) /\ at_boundary c' /\
    registers c' = r' /\ cpu_ok c' /\ flat_ok w'.
Proof.
  intros Hb Hc Hw Hk Hdec He. pose proof (run_instruction_isa_step c w Hb Hc Hw) as Hstep.
  unfold isa_step, fetch8, isa_state in Hstep. cbn [isa_memory isa_registers isa_ime] in Hstep.
  rewrite Hdec, He in Hstep. destruct Hstep as (c' & Hrun & Hb' & Hs'); [by destruct k|].
  injection Hs' as Hr Hi. exists c'.
  destruct (run_instruction_preserves flat_ok 24 c w _ _ _ Hc Hw Hrun). done.
Qed.

Fixpoint run_instructions {W} `{CpuExternal W} (n : nat) : CM W (option Z) :=
  match n with
  | O => mret (Some 0)
  | S n =>
      first ← run_instruction 24;
      rest ← run_instructions n;
      mret (match first, rest with Some a, Some b => Some (a + b) | _, _ => None end)
  end.

Fixpoint isa_run (n : nat) (s : IsaState) : IsaState * Z :=
  match n with
  | O => (s, 0)
  | S n => let '(s', a) := isa_step s in let '(s'', b) := isa_run n s' in (s'', a + b)
  end.

Fixpoint isa_ordinary (n : nat) (s : IsaState) : bool :=
  match n with
  | O => true
  | S n => next_ordinary s && isa_ordinary n (isa_step s).1
  end.

(** C1. On a flat memory, a well-formed core at an instruction boundary runs
    any sequence of instructions other than HALT, STOP and the undefined
    opcodes exactly as the instruction-set semantics says: each instruction
    ends, after four T-cycles per machine cycle and not before, at the next
    boundary, with the registers, memory and interrupt-enable state of
    [isa_step]; 24 T-cycles are always enough for one instruction. *)
Theorem core_implements_instruction_set (n : nat) (c : CpuCore) (w : FlatWorld) :
  at_boundary c -> cpu_ok c -> flat_ok w -> isa_ordinary n (isa_state c w) = true ->
  let '(s', cycles) := isa_run n (isa_state c w) in
  exists c', run_instructions n (c, w) = Done (Some (4 * cycles), (c', isa_memory s')) /\
    at_boundary c' /\ isa_state c' (isa_memory s') = s'.
Proof.
  revert c w. induction n as [|n IH]; intros c w Hb Hc Hw Ho; [by exists c|].
  cbn [isa_ordinary isa_run] in *. apply andb_prop in Ho as [Ho Hrest].
  pose proof (run_instruction_isa_step c w Hb Hc Hw Ho) as Hstep.
  pose proof (run_instruction_ok flat_ok 24 c w Hc Hw) as Hok.
  destruct (isa_step (isa_state c w)) as [s1 a]. cbn [fst] in Hrest.
  destruct Hstep as (c1 & Hrun & Hb1 & Hs1). unfold wp in Hok. rewrite Hrun in Hok.
  destruct Hok as [Hc1 Hw1]. cbn [fst snd] in Hc1, Hw1. rewrite <- Hs1 in Hrest |- *.
  pose proof (IH c1 _ Hb1 Hc1 Hw1 Hrest) as Hn.
  destruct (isa_run n _) as [s2 b]. destruct Hn as (c2 & Hrun2 & Hb2 & Hs2). exists c2.
  split; [|done]. cbn [run_instructions]. unfold mbind, ST_bind. rewrite Hrun.
  cbn [isa_memory isa_state] in Hrun2 |- *. rewrite Hrun2. unfold mret, ST_ret. do 3 f_equal. lia.
Qed.

(** [LD A, 0x12; PUSH AF; NOP] takes seven machine cycles. *)
Lemma core_implements_instruction_set_witness :
  let c := cpu_new GameBoy in
  let w := flat_of 0 [0x3E; 0x12; 0xF5; 0x00] in
  at_boundary c /\ cpu_ok c /\ flat_ok w /\ isa_ordinary 3 (isa_state c w) = true /\
  exists c' w', run_instructions 3 (c, w) = Done (Some 28, (c', w')) /\ at_boundary c'.
Proof.
  assert (Hb : at_boundary (cpu_new GameBoy)) by (repeat split; reflexivity).
  assert (Hc : cpu_ok (cpu_new GameBoy)) by apply cpu_new_ok.
  assert (Hw : flat_ok (flat_of 0 [0x3E; 0x12; 0xF5; 0x00])) by apply flat_of_ok.
  assert (Ho : isa_ordinary 3 (isa_state (cpu_new GameBoy) (flat_of 0 [0x3E; 0x12; 0xF5; 0x00])) = true)
    by (vm_compute; reflexivity).
  destruct (core_implements_instruction_set 3 (cpu_new GameBoy)
              (flat_of 0 [0x3E; 0x12; 0xF5; 0x00]) Hb Hc Hw Ho)
    as (c' & Hrun & Hb' & _).
  exact (conj Hb (conj Hc (conj Hw (conj Ho (ex_intro _ c' (ex_intro _ _ (conj Hrun Hb'))))))).
Defined.

(** ** Stack discipline *)

Lemma flat_read_write_same a v w : u8 v -> flat_read (flat_write a v w) a = v.
Proof. unfold u8. intros. cbn. rewrite Z.eqb_refl. apply Z.mod_small. lia. Qed.
Lemma flat_read_write_other a b v w : a <> b -> flat_read (flat_write a v w) b = flat_read w b.
Proof. intros Hne. cbn. by rewrite (proj2 (Z.eqb_neq b a)) by done. Qed.

Lemma sub16_ne sp : u16 sp -> wrapping_sub16 sp 1 <> wrapping_sub16 sp 2.
Proof. unfold u16, wrapping_sub16. intros. divmod_lia. Qed.
Lemma add_sub16 sp k : u16 sp -> wrapping_add16 (wrapping_sub16 sp k) k = sp.
Proof.
  unfold u16, wrapping_add16, wrapping_sub16. intros.
  rewrite Zplus_mod_idemp_l, Z.sub_add. apply Z.mod_small. lia.
Qed.
Lemma add_sub16_one sp : u16 sp -> wrapping_add16 (wrapping_sub16 sp 2) 1 = wrapping_sub16 sp 1.
Proof. unfold u16, wrapping_add16, wrapping_sub16. intros. divmod_lia. Qed.

(** Popping what was pushed gives it back and restores SP. *)
Lemma pop_push v r w :
  u16 v -> u16 (r_sp r) ->
  let '(r1, w1) := push16 v r w in pop16 w1 r1 = (v, r).
Proof.
  intros Hv Hsp. unfold push16, pop16. destruct r as [ra rf rb rc rd re rh rl rsp rpc].
  cbn [r_sp update upd_r_sp] in *. rewrite add_sub16, add_sub16_one by done.
  rewrite flat_read_write_same by auto with gb.
  rewrite flat_read_write_other by (apply not_eq_sym, sub16_ne; done).
  rewrite flat_read_write_same by auto with gb. by rewrite from_be_bytes_split.
Qed.

(** A CALL whose target holds a RET comes back: after exactly 40 T-cycles
    the core is at the instruction after the CALL with every register but PC,
    SP included, as it was, and memory changed only in the two stack slots
    below SP, which hold the return address. *)
Theorem call_return_round_trip (c : CpuCore) (w : FlatWorld) :
  at_boundary c -> cpu_ok c -> flat_ok w ->
  let r := registers c in
  let pc := r_pc r in
  let target := from_be_bytes (flat_read w (wrapping_add16 pc 2)) (flat_read w (wrapping_add16 pc 1)) in
  flat_read w pc = 0xCD -> flat_read w target = 0xC9 ->
  target <> wrapping_sub16 (r_sp r) 1 -> target <> wrapping_sub16 (r_sp r) 2 ->
  let return_address := wrapping_add16 pc 3 in
  let w' := flat_write (wrapping_sub16 (r_sp r) 2) (low_byte return_address)
              (flat_write (wrapping_sub16 (r_sp r) 1) (high_byte return_address) w) in
  exists c', run_instructions 2 (c, w) = Done (Some 40, (c', w')) /\
    at_boundary c' /\ registers c' = r <| r_pc := return_address |>.
Proof.
  intros Hb Hc Hw r pc target Hcall Hret H1 H2 return_address w'.
  assert (Hr : regs_ok r) by apply Hc.
  assert (Hpc2 : forall x, wrapping_add16 (wrapping_add16 x 2) 1 = wrapping_add16 x 3)
    by (intros; unfold wrapping_add16; rewrite Zplus_mod_idemp_l; f_equal; lia).
  destruct (run_execute c w Call (r <| r_sp := wrapping_sub16 (r_sp r) 2 |> <| r_pc := target |>) w' 6)
    as (c1 & Hrun1 & Hb1 & Hr1 & Hc1 & Hw1); try done.
  { fold r pc. by rewrite Hcall. }
  { fold r pc. cbn [isa_execute]. unfold fetch16, fetch8, push16, jump.
    destruct r as [ra rf rb rc rd re rh rl rsp rpc].
    cbn [r_pc r_sp update upd_r_pc upd_r_sp] in *. rewrite wrapping_add16_twice, Hpc2. done. }
  assert (Hret' : flat_read w' target = 0xC9).
  { unfold w'. rewrite !flat_read_write_other by done. done. }
  pose proof (pop_push return_address (r <| r_pc := wrapping_add16 target 1 |>) w) as Hpop.
  unfold push16 in Hpop.
  destruct (run_execute c1 w' Return (r <| r_pc := return_address |>) w' 4)
    as (c2 & Hrun2 & Hb2 & Hr2 & _); try done.
  { rewrite Hr1. destruct r as [ra rf rb rc rd re rh rl rsp rpc].
    cbn [r_pc update upd_r_pc upd_r_sp]. by rewrite Hret'. }
  { rewrite Hr1. cbn [isa_execute].
    replace ((r <| r_sp := _ |> <| r_pc := target |>) <| r_pc := _ |>)
      with ((r <| r_pc := wrapping_add16 target 1 |>) <| r_sp := wrapping_sub16 (r_sp r) 2 |>)
      by by destruct r.
    replace (r_sp (r <| r_pc := wrapping_add16 target 1 |>)) with (r_sp r) in Hpop by by destruct r.
    fold w' in Hpop. rewrite Hpop by (apply u16_mod || apply Hr). by destruct r. }
  exists c2. split; [|done]. cbn [run_instructions]. unfold mbind, ST_bind.
  by rewrite Hrun1, Hrun2.
Qed.

(** CALL 0x0010 at 0, RET at 0x0010, the stack at 0xD000. *)
Lemma call_return_round_trip_witness :
  let c := (cpu_new GameBoy) <| registers := (registers (cpu_new GameBoy)) <| r_sp := 0xD000 |> |> in
  let w := flat_of 0 ([0xCD; 0x10; 0x00] ++ replicate 13 0 ++ [0xC9]) in
  at_boundary c /\ cpu_ok c /\ flat_ok w /\ flat_read w 0 = 0xCD /\ flat_read w 0x10 = 0xC9 /\
  exists c' w', run_instructions 2 (c, w) = Done (Some 40, (c', w')) /\ r_pc (registers c') = 3 /\
    r_sp (registers c') = 0xD000.
Proof.
  pose (c := (cpu_new GameBoy) <| registers := (registers (cpu_new GameBoy)) <| r_sp := 0xD000 |> |>).
  pose (w := flat_of 0 ([0xCD; 0x10; 0x00] ++ replicate 13 0 ++ [0xC9])).
  assert (Hb : at_boundary c) by (repeat split; reflexivity).
  assert (Hc : cpu_ok c).
  { split; [|cbn; lia]. split; cbn; auto with gb. split; cbn; auto with gb. }
  assert (Hw : flat_ok w) by apply flat_of_ok.
  destruct (call_return_round_trip c w Hb Hc Hw eq_refl eq_refl) as (c' & Hrun & _ & Hr);
    [vm_compute; congruence | vm_compute; congruence |].
  refine (conj Hb (conj Hc (conj Hw (conj eq_refl (conj eq_refl
    (ex_intro _ c' (ex_intro _ _ (conj Hrun (conj _ _)))))))));
    rewrite Hr; reflexivity.
Defined.
