(* ===== verification/CpuControl.v ===== *)
(** * Interrupts, HALT and STOP

    What the core does between instructions: interrupt acceptance and dispatch
    (with the cancellation and retargeting that a push over [IE] causes), the
    delayed [EI], the [HALT] states and their bug, [STOP] and its wake. *)

From Stdlib Require Import ZArith Lia Bool String.
From stdpp Require Import base list tactics decidable option numbers.
From S2P Require Import Prelude Model CpuData CpuAlu CpuDecode CpuBus CpuExec CpuCycle CpuSafety.
From S2P Require Import CpuIsa Interrupts Scheduler Joypad Speed.

Local Open Scope Z_scope.

(** ** Interrupt dispatch *)

(** The dispatch of [source] as a single transition: push PC and jump to the
    vector in five machine cycles.  When the push of the high byte lands on
    [IE] (address 0xFFFF), the pending and enabled sources are read again: the
    dispatch moves to the highest-priority one (the accepted source counts
    when it is still enabled), or is cancelled after four machine cycles with
    PC = 0. *)
Definition isa_dispatch (source : InterruptSource) (r : CpuRegisters) (w : FlatWorld)
    : CpuRegisters * FlatWorld * Z :=
  let pc := r_pc r in
  let sp1 := wrapping_sub16 (r_sp r) 1 in
  let sp2 := wrapping_sub16 (r_sp r) 2 in
  let w1 := flat_write sp1 (high_byte pc) w in
  let commit s w := (r <| r_sp := sp2 |> <| r_pc := vector s |>, flat_write sp2 (low_byte pc) w, 5) in
  if sp1 =? 0xFFFF then
    match highest_priority_from_mask
            (Z.lor (flat_pending_mask w) (Z.land (flat_enable_mask w) (mask source))) with
    | Some next =>
        commit next (if decide (next = source) then w1
                     else flat_log (AcknowledgeInterrupt next) (flat_log (RequestInterrupt source) w1))
    | None => (r <| r_sp := sp1 |> <| r_pc := 0x0000 |>, flat_log (RequestInterrupt source) w1, 4)
    end
  else commit source w1.

Lemma begin_interrupt_service_explicit s c :
  begin_interrupt_service s c =
    mkCpu (cpu_console_model c) (cpu_startup_state c) (registers c) (ServiceInterrupt s 0 0)
      in_flight_default ImeDisabled (halt_control c) (last_bus_activity c) (last_address_event c)
      (stop_div_reset_requested c) (cgb_speed_switch_requested c).
Proof. by cpu_cases c. Qed.

Lemma flat_pending_write a v w : flat_pending_mask (flat_write a v w) = flat_pending_mask w.
Proof. done. Qed.
Lemma flat_enable_write a v w : flat_enable_mask (flat_write a v w) = flat_enable_mask w.
Proof. done. Qed.

Ltac service_exec :=
  cbv -[wrapping_sub16 low_byte high_byte flat_read flat_write flat_log
        flat_pending_mask flat_enable_mask has_bits vector mask
        highest_priority_from_mask Z.lor Z.land Z.eqb decide
        InterruptSource_eq_dec].

(** Resolves the one source comparison of the retargeting. *)
Ltac known_decision :=
  match goal with |- context [@decide ?P ?D] => destruct (@decide P D); try (exfalso; congruence) end.

Ltac service_cycle counted_lemma tac :=
  eapply finishes_later; [apply counted_lemma | reflexivity | service_exec; tac; reflexivity | reflexivity |].

Lemma dispatch_finishes s m st r ime_ignored ba ae sd ss w :
  regs_ok r ->
  let c := mkCpu m st r (ServiceInterrupt s 0 0) in_flight_default ime_ignored HaltIdle ba ae sd ss in
  let '(r', w', cycles) := isa_dispatch s r w in
  finishes (run_instruction 24) c w (4 * cycles) r' w' ime_ignored.
Proof.
  intros Hr c. destruct r as [ra rf rb rc rd re rh rl rsp rpc]. unfold c, isa_dispatch.
  cbn [r_pc r_sp update upd_r_sp upd_r_pc].
  destruct (wrapping_sub16 rsp 1 =? 0xFFFF) eqn:Hie.
  - destruct (highest_priority_from_mask _) as [next|] eqn:Hnext.
    + destruct (decide (next = s)) as [Hsame | Hother].
      all: eapply finishes_eq;
        [ do 3 service_cycle counted_service idtac;
          service_cycle counted_service ltac:(rewrite Hie, flat_pending_write, flat_enable_write, Hnext; known_decision);
          eapply finishes_now; [apply counted_service | reflexivity | service_exec; reflexivity | done]
        | reflexivity | service_exec; by rewrite wrapping_sub16_twice
        | service_exec; by rewrite wrapping_sub16_twice | reflexivity ].
    + eapply finishes_eq;
        [ do 3 service_cycle counted_service idtac;
          eapply finishes_now;
          [apply counted_service | reflexivity | service_exec; rewrite Hie, flat_pending_write, flat_enable_write, Hnext; reflexivity | done]
        | reflexivity .. ].
  - eapply finishes_eq;
      [ do 3 service_cycle counted_service idtac;
        service_cycle counted_service ltac:(rewrite Hie);
        eapply finishes_now; [apply counted_service | reflexivity | service_exec; reflexivity | done]
      | reflexivity | service_exec; by rewrite wrapping_sub16_twice
      | service_exec; by rewrite wrapping_sub16_twice | reflexivity ].
Qed.

(** A core between instructions accepts the highest-priority pending source
    when interrupts are enabled. *)
Lemma boundary_accepts i j c s :
  at_boundary c -> ime c = true -> highest_pending i = Some s ->
  evaluate_wake_and_interrupts i j c =
    (clear s i, (consume_stop_wake_event j).1, begin_interrupt_service s c).
Proof.
  intros (Hs & Hi & Hh) Hime Hp. cpu_cases c. cbn in Hs, Hh. subst c_state c_halt.
  cbn in Hi. injection Hi as -> -> -> -> -> ->.
  unfold evaluate_wake_and_interrupts, wake_evaluation_needed, accept_pending_interrupt.
  rewrite Hp. destruct c_ime; try discriminate Hime; cbn; by rewrite orb_true_r.
Qed.

(** Without a pending source, or with interrupts disabled, it goes on. *)
Lemma boundary_continues i j c :
  at_boundary c -> ime c = false \/ highest_pending i = None ->
  (evaluate_wake_and_interrupts i j c).1.1 = i /\ (evaluate_wake_and_interrupts i j c).2 = c.
Proof.
  intros (Hs & Hi & Hh) Hor. cpu_cases c. cbn in Hs, Hh. subst c_state c_halt.
  cbn in Hi. injection Hi as -> -> -> -> -> ->.
  unfold evaluate_wake_and_interrupts, accept_pending_interrupt. destruct (negb _); [done|].
  destruct c_ime; cbn in Hor |- *; try done; (destruct Hor as [|Hp]; [done | by rewrite Hp]).
Qed.

(** C21. Between two instructions, with interrupts enabled and a source pending,
    the wake phase acknowledges the highest-priority source and disables
    interrupts, and the core then performs the dispatch of [isa_dispatch]: in
    five machine cycles it pushes PC and jumps to the vector, unless the high
    byte of PC overwrites [IE] and the dispatch is retargeted or, after four
    machine cycles, cancelled to address 0. *)
Theorem interrupt_service_dispatches (i : InterruptController) (j : Joypad) (c : CpuCore)
    (w : FlatWorld) (s : InterruptSource) :
  at_boundary c -> cpu_ok c -> ime c = true -> highest_pending i = Some s ->
  let '(i', j', c1) := evaluate_wake_and_interrupts i j c in
  let '(r', w', cycles) := isa_dispatch s (registers c) w in
  i' = clear s i /\ ime c1 = false /\
  exists c', run_instruction 24 (c1, w) = Done (Some (4 * cycles), (c', w')) /\
    at_boundary c' /\ registers c' = r' /\ ime_state c' = ImeDisabled.
Proof.
  intros Hb Hc Hime Hp. rewrite (boundary_accepts i j c s) by done.
  rewrite begin_interrupt_service_explicit.
  pose proof (dispatch_finishes s (cpu_console_model c) (cpu_startup_state c) (registers c)
    ImeDisabled (last_bus_activity c) (last_address_event c) (stop_div_reset_requested c)
    (cgb_speed_switch_requested c) w (data_registers _ (proj1 Hc))) as Hd.
  destruct Hb as (_ & _ & Hh). rewrite Hh.
  destruct (isa_dispatch s (registers c) w) as [[r' w'] cycles].
  split; [done|]. split; [done|]. exact Hd.
Qed.

(** A timer interrupt taken by a core at 0x1234 with its stack at 0xD000. *)
Definition enabled_core (pc sp : Z) : CpuCore :=
  set_ime_enabled ((cpu_new GameBoy)
    <| registers := (registers (cpu_new GameBoy)) <| r_pc := pc |> <| r_sp := sp |> |>).

Lemma enabled_core_ok pc sp : u16 pc -> u16 sp -> cpu_ok (enabled_core pc sp).
Proof.
  intros Hpc Hsp. split; [|cbn; lia]. split; cbn; auto with gb.
  split; cbn; auto with gb.
Qed.

Lemma interrupt_service_dispatches_witness :
  let i := request TimerIrq (write_ie 0x1F (interrupts_new GameBoy)) in
  at_boundary (enabled_core 0x1234 0xD000) /\ cpu_ok (enabled_core 0x1234 0xD000) /\
  ime (enabled_core 0x1234 0xD000) = true /\ highest_pending i = Some TimerIrq /\
  isa_dispatch TimerIrq (registers (enabled_core 0x1234 0xD000)) (flat_of 0 []) =
    ((registers (enabled_core 0x1234 0xD000)) <| r_sp := 0xCFFE |> <| r_pc := 0x50 |>,
     flat_write 0xCFFE 0x34 (flat_write 0xCFFF 0x12 (flat_of 0 [])), 5) /\
  read_if (evaluate_wake_and_interrupts i (joypad_new GameBoy) (enabled_core 0x1234 0xD000)).1.1 = 0xE0.
Proof.
  assert (Hb : at_boundary (enabled_core 0x1234 0xD000)) by (repeat split; reflexivity).
  assert (Hc : cpu_ok (enabled_core 0x1234 0xD000)) by (apply enabled_core_ok; unfold u16; lia).
  assert (Hp : highest_pending (request TimerIrq (write_ie 0x1F (interrupts_new GameBoy))) = Some TimerIrq)
    by reflexivity.
  pose proof (interrupt_service_dispatches (request TimerIrq (write_ie 0x1F (interrupts_new GameBoy)))
    (joypad_new GameBoy) (enabled_core 0x1234 0xD000) (flat_of 0 []) TimerIrq Hb Hc eq_refl Hp) as H.
  destruct (evaluate_wake_and_interrupts _ _ _) as [[i' j'] c1].
  destruct (isa_dispatch _ _ _) as [[r' w'] cycles] eqn:Hd. destruct H as (-> & _).
  split; [done|]. split; [done|]. split; [done|]. split; [done|]. split; [|reflexivity].
  rewrite <- Hd. reflexivity.
Defined.

(** ** The delayed EI *)

Definition is_di (d : DecodedOpcode) : bool :=
  match d with CompleteOnFetch DisableInterrupts => true | _ => false end.

(** EI takes effect after the next instruction: it leaves interrupts
    disabled, so that a pending source is not accepted between the two
    instructions, and they are enabled once the instruction after it has run,
    unless that instruction is DI. *)
Theorem ei_takes_effect_after_next_instruction (c : CpuCore) (w : FlatWorld) :
  at_boundary c -> cpu_ok c -> flat_ok w -> ime_state c = ImeDisabled ->
  flat_read w (r_pc (registers c)) = 0xFB ->
  exists c1, run_instruction 24 (c, w) = Done (Some 4, (c1, w)) /\
    (forall i j, (evaluate_wake_and_interrupts i j c1).1.1 = i /\
                 (evaluate_wake_and_interrupts i j c1).2 = c1) /\
    (next_ordinary (isa_state c1 w) = true ->
     exists n c2 w2, run_instruction 24 (c1, w) = Done (Some n, (c2, w2)) /\
       ime c2 = negb (is_di (IsaTable.isa_decode (flat_read w (r_pc (registers c1)))))).
Proof.
  intros Hb Hc Hw Hime Hop.
  destruct (run_fetch_completion c w EnableInterrupts Hb Hc Hw) as (c1 & Hrun & Hb1 & _ & Hi1);
    [done | by rewrite Hop|].
  rewrite Hime in Hi1. cbn in Hi1.
  destruct (run_instruction_preserves flat_ok 24 c w _ c1 w Hc Hw Hrun) as [Hc1 _].
  exists c1. split; [done|]. split.
  - intros i j. apply boundary_continues; [done|]. left. unfold ime, ime_enabled. by rewrite Hi1.
  - intros Hord. destruct (run_instruction_ime c1 w Hb1 Hc1 Hw Hord) as (n & c2 & w2 & Hrun2 & _ & Hi2).
    exists n, c2, w2. split; [done|]. unfold ime, ime_enabled. rewrite Hi2, Hi1.
    unfold next_ordinary, isa_state in Hord. cbn [isa_memory isa_registers] in Hord.
    destruct (IsaTable.isa_decode _) as [k | k |]; destruct k || idtac; done.
Qed.

(** EI at address 0 followed by a NOP. *)
Lemma ei_takes_effect_after_next_instruction_witness :
  let c := cpu_new GameBoy in
  let w := flat_of 0 [0xFB; 0x00] in
  at_boundary c /\ cpu_ok c /\ flat_ok w /\ ime_state c = ImeDisabled /\
  flat_read w (r_pc (registers c)) = 0xFB /\
  exists c1, run_instruction 24 (c, w) = Done (Some 4, (c1, w)) /\
    (evaluate_wake_and_interrupts (request TimerIrq (write_ie 4 (interrupts_new GameBoy)))
       (joypad_new GameBoy) c1).2 = c1.
Proof.
  assert (Hb : at_boundary (cpu_new GameBoy)) by (repeat split; reflexivity).
  assert (Hw : flat_ok (flat_of 0 [0xFB; 0x00])) by apply flat_of_ok.
  destruct (ei_takes_effect_after_next_instruction (cpu_new GameBoy) (flat_of 0 [0xFB; 0x00]) Hb
    (cpu_new_ok GameBoy) Hw eq_refl eq_refl) as (c1 & Hrun & Hno & _).
  exact (conj Hb (conj (cpu_new_ok GameBoy) (conj Hw (conj eq_refl (conj eq_refl
    (ex_intro _ c1 (conj Hrun (proj2 (Hno _ _))))))))).
Defined.

(** ** HALT *)

Lemma pending_mask_none i : interrupts_ok i ->
  (pending_mask i =? 0) = match highest_pending i with None => true | Some _ => false end.
Proof.
  intros [Hf He]. apply eqb_prop. unfold highest_pending.
  assert (Hm : 0 <= pending_mask i < Z.of_nat 32).
  { unfold pending_mask. rewrite Z.land_comm. apply (range_land 5); lia. }
  refine (forall_below 32 (fun m => Bool.eqb (m =? 0)
    match highest_priority_from_mask m with None => true | Some _ => false end) _ _ Hm).
  vm_compute. reflexivity.
Qed.

(** The core right after the HALT opcode fetch, its request still unresolved. *)
Definition halt_requested (c : CpuCore) (r : CpuRegisters) (ime_on ei_pending : bool) (ime : ImeState) : Prop :=
  execution_state c = fetch_opcode /\ in_flight c = in_flight_default /\ registers c = r /\
  halt_control c = PendingRequest (mkHaltRequest ime_on ei_pending) /\ ime_state c = ime.

Lemma run_halt c w :
  at_boundary c -> flat_ok w -> flat_read w (r_pc (registers c)) = 0x76 ->
  exists c1, run_instruction 24 (c, w) = Done (Some 4, (c1, w)) /\
    halt_requested c1 ((registers c) <| r_pc := wrapping_add16 (r_pc (registers c)) 1 |>)
      (ime c) (delayed_ime_enable c) (ime_after_instruction (ime_state c)).
Proof.
  intros Hb Hw Hop.
  pose proof (run_counted_cycle FetchOpcode complete_fetch_opcode 20 c w counted_fetch (proj1 Hb)) as Hrun.
  cbn [Nat.add] in Hrun. rewrite complete_fetch_opcode_flat in Hrun by (done || by rewrite Hop).
  rewrite Hop in Hrun. change (IsaTable.isa_decode 0x76) with (CompleteOnFetch Halt) in Hrun.
  cbn [complete_decoded_opcode] in Hrun. unfold complete_fetch_completion in Hrun.
  cbn [fetch_completion_registers] in Hrun. unfold finish_and_request_halt in Hrun.
  rewrite advance_delayed_ime_enable_explicit in Hrun.
  eexists. split; [exact Hrun|]. by cpu_cases c.
Qed.

(** What the wake phase makes of a HALT request: sleep without a pending
    source; service when interrupts were enabled, or when an EI just before
    HALT enables them now (then the return address is the HALT itself); the
    HALT bug otherwise. *)
Definition halt_outcome (i : InterruptController) (c : CpuCore) (halt_pc : Z) (ime_on ei_pending : bool)
    (i' : InterruptController) (c' : CpuCore) : Prop :=
  match highest_pending i with
  | None => i' = i /\ execution_state c' = Halted /\ registers c' = registers c
  | Some s =>
      if ime_on then
        i' = clear s i /\ execution_state c' = ServiceInterrupt s 0 0 /\ registers c' = registers c
      else if ei_pending && ime c then
        i' = clear s i /\ execution_state c' = ServiceInterrupt s 0 0 /\
        r_pc (registers c') = halt_pc
      else
        i' = i /\ registers c' = registers c /\
        forall w, exists c'', read_opcode_u8 (c', w) =
            Done (flat_read w (r_pc (registers c)), (c'', w)) /\
          r_pc (registers c'') = r_pc (registers c) /\ halt_control c'' = HaltIdle
  end.

Lemma halt_request_resolves i j c r ime_on ei_pending ime_now :
  interrupts_ok i -> halt_requested c r ime_on ei_pending ime_now ->
  halt_outcome i c (wrapping_sub16 (r_pc (registers c)) 1) ime_on ei_pending
    (evaluate_wake_and_interrupts i j c).1.1 (evaluate_wake_and_interrupts i j c).2.
Proof.
  intros Hi (Hs & Hf & Hr & Hh & Hime). pose proof (pending_mask_none i Hi) as Hp.
  unfold halt_outcome, evaluate_wake_and_interrupts, wake_evaluation_needed, take_halt_request,
    halt_request_pending, is_stop_sleep_state.
  rewrite Hs, Hh, Hp. cbn [fetch_opcode orb negb]. rewrite orb_true_r. cbn [negb orb].
  unfold resolve_halt_request, accept_pending_interrupt. cbn [hr_ime_enabled hr_had_pending_ei].
  destruct (highest_pending i) as [s|]; cbn [negb].
  - destruct ime_on; cbn [negb andb].
    + by cpu_cases c.
    + replace (ime (c <| halt_control := HaltIdle |>)) with (ime c) by by cpu_cases c.
      destruct (ei_pending && ime c); [by cpu_cases c; destruct c_regs|].
      cpu_cases c. destruct c_regs. split; [done|]. split; [done|]. intros w. eexists.
      split; [cbn in *; subst; sym_exec; reflexivity | done].
  - rewrite andb_false_r. by cpu_cases c.
Qed.

Lemma halt_request_taken i j c r ime_on ei_pending ime_now :
  halt_requested c r ime_on ei_pending ime_now ->
  halt_request_pending (evaluate_wake_and_interrupts i j c).2 = false.
Proof.
  intros (Hs & Hf & Hr & Hh & Hime).
  unfold evaluate_wake_and_interrupts, wake_evaluation_needed, take_halt_request,
    halt_request_pending, is_stop_sleep_state.
  rewrite Hs, Hh. cbn [fetch_opcode orb negb]. rewrite orb_true_r. cbn [negb orb].
  unfold resolve_halt_request, accept_pending_interrupt.
  destruct (highest_pending i); cpu_cases c; case_tests; done.
Qed.

Lemma halted_tick c (w : FlatWorld) :
  execution_state c = Halted -> tick_t_cycle (c, w) = Done (tt, (clear_observations c, w)).
Proof. intros Hs. cpu_cases c. cbn in Hs. by subst c_state. Qed.

Lemma halted_wakes i j c :
  interrupts_ok i -> execution_state c = Halted -> halt_request_pending c = false ->
  let '(i', j', c') := evaluate_wake_and_interrupts i j c in
  match highest_pending i with
  | None => i' = i /\ c' = c
  | Some s =>
      if ime c then i' = clear s i /\ c' = begin_interrupt_service s c
      else i' = i /\ c' = c <| execution_state := fetch_opcode |>
  end.
Proof.
  intros Hi Hs Hh. pose proof (pending_mask_none i Hi) as Hp.
  unfold evaluate_wake_and_interrupts, wake_evaluation_needed, is_stop_sleep_state.
  rewrite Hs, Hp. cbn [orb negb]. rewrite !orb_true_r. cbn [negb orb].
  assert (Htake : take_halt_request c = (None, c)).
  { unfold take_halt_request, halt_request_pending in *. by destruct (halt_control c). }
  rewrite Htake, Hs. unfold accept_pending_interrupt.
  destruct (highest_pending i); cbn [negb]; [|done]. by destruct (ime c).
Qed.

Lemma halt_outcome_pc i c c0 pc ime_on ei i' c' :
  halt_outcome i c pc ime_on ei i' c' -> pc = c0 -> halt_outcome i c c0 ime_on ei i' c'.
Proof. by intros ? ->. Qed.

Lemma wrapping_add_sub16 x : u16 x -> wrapping_sub16 (wrapping_add16 x 1) 1 = x.
Proof. unfold u16, wrapping_sub16, wrapping_add16. intros. divmod_lia. Qed.

(** C30. HALT: after its four T-cycles the request is resolved by the next wake
    phase as [halt_outcome] says, the HALT bug included (the next opcode is
    read without advancing PC); and a sleeping core does nothing until a
    source is pending, when it accepts the interrupt or, with interrupts
    disabled, goes on to the next opcode. *)
Theorem halt_resolves (c : CpuCore) (w : FlatWorld) :
  at_boundary c -> cpu_ok c -> flat_ok w -> flat_read w (r_pc (registers c)) = 0x76 ->
  exists c1, run_instruction 24 (c, w) = Done (Some 4, (c1, w)) /\
  forall i j, interrupts_ok i ->
    let '(i', j', c2) := evaluate_wake_and_interrupts i j c1 in
    halt_outcome i c1 (r_pc (registers c)) (ime c) (delayed_ime_enable c) i' c2 /\
    (highest_pending i = None ->
     tick_t_cycle (c2, w) = Done (tt, (clear_observations c2, w)) /\
     forall i2 j2, interrupts_ok i2 ->
       let '(i2', j2', c3) := evaluate_wake_and_interrupts i2 j2 c2 in
       match highest_pending i2 with
       | None => i2' = i2 /\ c3 = c2
       | Some s =>
           if ime c2 then i2' = clear s i2 /\ c3 = begin_interrupt_service s c2
           else i2' = i2 /\ c3 = c2 <| execution_state := fetch_opcode |>
       end).
Proof.
  intros Hb Hc Hw Hop. destruct (run_halt c w Hb Hw Hop) as (c1 & Hrun & Hreq).
  exists c1. split; [done|]. intros i j Hi.
  pose proof (halt_request_resolves i j c1 _ _ _ _ Hi Hreq) as Hout.
  destruct (evaluate_wake_and_interrupts i j c1) as [[i' j'] c2] eqn:He. cbn [fst snd] in Hout. split.
  - eapply halt_outcome_pc; [exact Hout|]. destruct Hreq as (_ & _ & -> & _).
    rewrite <- (wrapping_add_sub16 (r_pc (registers c))) at 2 by apply (data_registers _ (proj1 Hc)).
    by destruct (registers c).
  - intros Hnone. unfold halt_outcome in Hout. rewrite Hnone in Hout. destruct Hout as (_ & Hs2 & _).
    split; [by apply halted_tick|]. intros i2 j2 Hi2. apply halted_wakes; try done.
    assert (Hh2 : halt_request_pending (evaluate_wake_and_interrupts i j c1).2 = false)
      by (eapply halt_request_taken; exact Hreq).
    by rewrite He in Hh2.
Qed.

(** HALT with interrupts disabled and a pending source: the HALT bug. *)
Lemma halt_resolves_witness :
  let c := cpu_new GameBoy in
  let w := flat_of 0 [0x76; 0x3C] in
  let i := request TimerIrq (write_ie 4 (interrupts_new GameBoy)) in
  at_boundary c /\ cpu_ok c /\ flat_ok w /\ flat_read w (r_pc (registers c)) = 0x76 /\ interrupts_ok i /\
  exists c1 c2, run_instruction 24 (c, w) = Done (Some 4, (c1, w)) /\
    halt_outcome i c1 0 false false i c2.
Proof.
  assert (Hb : at_boundary (cpu_new GameBoy)) by (repeat split; reflexivity).
  assert (Hw : flat_ok (flat_of 0 [0x76; 0x3C])) by apply flat_of_ok.
  assert (Hi : interrupts_ok (request TimerIrq (write_ie 4 (interrupts_new GameBoy)))).
  { split; split; vm_compute; congruence. }
  destruct (halt_resolves (cpu_new GameBoy) (flat_of 0 [0x76; 0x3C]) Hb (cpu_new_ok GameBoy) Hw eq_refl)
    as (c1 & Hrun & Hres).
  specialize (Hres (request TimerIrq (write_ie 4 (interrupts_new GameBoy))) (joypad_new GameBoy) Hi).
  destruct (evaluate_wake_and_interrupts _ _ c1) as [[i' j'] c2]. destruct Hres as [Hout _].
  assert (Hi' : i' = request TimerIrq (write_ie 4 (interrupts_new GameBoy))) by apply Hout.
  subst i'.
  exact (conj Hb (conj (cpu_new_ok GameBoy) (conj Hw (conj eq_refl (conj Hi
    (ex_intro _ c1 (ex_intro _ c2 (conj Hrun Hout)))))))).
Defined.

(** ** STOP *)

Inductive StopOutcome :=
| StopAsNop              (** one-byte NOP, on the fetch machine cycle *)
| StopSpeedSwitch        (** CGB speed-switch pause *)
| StopSleep              (** padding byte fetched, [Stopped] *)
| StopZombie             (** no padding fetch, [ZombieStopped] *)
| StopHalts.             (** padding byte fetched, HALT requested *)

(** The STOP decision table. *)
Definition stop_outcome (prepared wake ime_on pending : bool) : StopOutcome :=
  match prepared, wake, ime_on, pending with
  | true, _, _, _ => StopSpeedSwitch
  | false, true, true, _ => StopAsNop
  | false, true, false, true => StopAsNop
  | false, true, false, false => StopHalts
  | false, false, false, true => StopZombie
  | false, false, _, _ => StopSleep
  end.

Definition stop_duration (o : StopOutcome) : nat :=
  match o with StopAsNop => 4 | _ => 8 end.

Definition stop_state (o : StopOutcome) : CpuExecutionState :=
  match o with
  | StopAsNop | StopHalts => fetch_opcode
  | StopSpeedSwitch => SpeedSwitchPause CGB_SPEED_SWITCH_PAUSE_T_CYCLES
  | StopSleep => Stopped
  | StopZombie => ZombieStopped
  end.

Definition stop_length (o : StopOutcome) : Z :=
  match o with StopAsNop | StopZombie => 1 | _ => 2 end.

Definition stop_halt_request (o : StopOutcome) (c : CpuCore) : HaltControlState :=
  match o with
  | StopHalts => PendingRequest (mkHaltRequest (ime c) (delayed_ime_enable c))
  | _ => HaltIdle
  end.

Definition flat_pending (w : FlatWorld) : bool :=
  match highest_priority_from_mask (flat_pending_mask w) with Some _ => true | None => false end.

(** The outcome in terms of the answers of the environment. *)
Definition stop_outcome_in (c : CpuCore) (w : FlatWorld) : StopOutcome :=
  stop_outcome (negb (flat_speed_switch w =? 0)) (negb (flat_wake_line w =? 0)) (ime c) (flat_pending w).

Lemma run_add {W} `{CpuExternal W} n m (s : CpuCore * W) :
  run (n + m) s = match run n s with Done (_, s') => run m s' | Panic why => Panic why end.
Proof.
  revert s. induction n as [|n IH]; intros s; [done|].
  cbn [run Nat.add]. unfold mbind, ST_bind. destruct (tick_t_cycle s) as [[[] s']|]; [apply IH | done].
Qed.

(** Four T-cycles of a counted state. *)
Lemma run_four {W} `{CpuExternal W} mk complete c (w : W) :
  counted mk complete -> execution_state c = mk 0 ->
  run 4 (c, w) = complete (last_t_cycle mk c, w).
Proof.
  intros [Htick _] Hs.
  assert (Hnext : forall c t, execution_state (clear_observations (c <| execution_state := mk t |>)) = mk t)
    by (intros c0 t; by cpu_cases c0).
  cbn [run]. unfold mbind, ST_bind, mret, ST_ret.
  rewrite (Htick _ _ 0) by done. change (0 <? 3) with true. cbv iota.
  rewrite (Htick _ _ 1) by apply Hnext. change (1 <? 3) with true. cbv iota.
  rewrite (Htick _ _ 2) by apply Hnext. change (2 <? 3) with true. cbv iota.
  rewrite (Htick _ _ 3) by apply Hnext. change (3 <? 3) with false. cbv iota.
  replace (clear_observations _) with (last_t_cycle mk c) by by cpu_cases c.
  by destruct (complete (last_t_cycle mk c, w)) as [[[] s]|].
Qed.

Ltac stop_exec :=
  cbv -[wrapping_add16 flat_read has_bits highest_priority_from_mask Z.eqb ime_after_instruction
        advance_delayed_ime_enable ime_state_enabled delayed_enable_pending].

Ltac stop_run :=
  stop_exec;
  repeat (match goal with
          | H : (_ =? 0) = _ |- _ => rewrite H
          | H : highest_priority_from_mask _ = _ |- _ => rewrite H
          | H : ime_state_enabled _ = _ |- _ => rewrite H
          end; stop_exec);
  reflexivity.

(** The two machine cycles of STOP. *)
Lemma stop_completes_flat c w :
  stop_completes_on_fetch_machine_cycle (c, w) =
    Done (match stop_outcome_in c w with StopAsNop => true | _ => false end, (c, w)).
Proof.
  cpu_cases c. destruct w as [mem pend en wk sp log].
  destruct (sp =? 0) eqn:H1, (wk =? 0) eqn:H2, (highest_priority_from_mask pend) eqn:H3,
    (ime_state_enabled c_ime) eqn:H4; stop_run.
Qed.

Lemma stop_fetch c w :
  at_boundary c -> flat_read w (r_pc (registers c)) = 0x10 ->
  let c1 := opcode_fetched (in_flight_default <| if_opcode := Some 0x10 |>) c w in
  run 4 (c, w) =
    Done (tt, (match stop_outcome_in c w with
               | StopAsNop => finish_instruction (request_stop_div_reset c1)
               | _ => begin_instruction 0x10 Stop c1
               end, w)).
Proof.
  intros Hb Hop c1. rewrite (run_four FetchOpcode complete_fetch_opcode)
    by (apply counted_fetch || apply Hb).
  unfold complete_fetch_opcode, mbind, ST_bind. rewrite read_opcode_flat, Hop by done.
  unfold modify_core. change (0x10 =? 0x10) with true. cbv iota.
  change ((opcode_fetched in_flight_default c w) <| in_flight := _ |>) with c1.
  rewrite stop_completes_flat.
  replace (stop_outcome_in c1 w) with (stop_outcome_in c w) by done.
  by destruct (stop_outcome_in c w).
Qed.

(** The second machine cycle, when the fetch did not complete the instruction. *)
Lemma stop_execute r m st ime ba ae sd ss w :
  let c := executing 0x10 Stop r ime m st ba ae sd ss in
  let o := stop_outcome_in c w in
  o <> StopAsNop ->
  exists c', run 4 (c, w) = Done (tt, (c', w)) /\
    execution_state c' = stop_state o /\
    registers c' = (match o with StopZombie => r | _ => r <| r_pc := wrapping_add16 (r_pc r) 1 |> end) /\
    stop_div_reset_requested c' = true /\
    cgb_speed_switch_requested c' = (match o with StopSpeedSwitch => true | _ => ss end) /\
    halt_control c' = stop_halt_request o c /\ ime_state c' = ime_after_instruction ime /\
    in_flight c' = in_flight_default.
Proof.
  intros c o Ho. rewrite (run_four (ExecuteState 0) (complete_execute_machine_cycle 0))
    by (apply counted_execute || done).
  unfold o, stop_outcome_in, flat_pending in *. unfold c in *. clear o c.
  destruct r as [ra rf rb rc rd re rh rl rsp rpc], w as [mem pend en wk sp log].
  destruct (sp =? 0) eqn:Hsp, (wk =? 0) eqn:Hwk,
    (highest_priority_from_mask pend) as [s|] eqn:Hpe, (ime_state_enabled ime) eqn:Him;
    try (exfalso; apply Ho; stop_run); clear Ho;
    (eexists; split; [stop_run |]);
    rewrite ?advance_delayed_ime_enable_explicit; repeat split; stop_run.
Qed.

(** The speed-switch pause counts its T-cycles down to the next fetch. *)
Definition pause_state (remaining : Z) : CpuExecutionState :=
  if remaining =? 0 then fetch_opcode else SpeedSwitchPause remaining.

Lemma pause_counts k n c (w : FlatWorld) :
  execution_state c = SpeedSwitchPause n -> 0 <= Z.of_nat k <= n ->
  exists c', run k (c, w) = Done (tt, (c', w)) /\ (0 < n -> execution_state c' = pause_state (n - Z.of_nat k)).
Proof.
  revert n c. induction k as [|k IH]; intros n c Hs Hk.
  - exists c. split; [done|]. intros Hn. unfold pause_state. rewrite Z.sub_0_r, Hs.
    destruct (Z.eqb_spec n 0); [lia | done].
  - assert (Htick : tick_t_cycle (c, w) = Done (tt, (advance_speed_switch_pause n (clear_observations c), w))).
    { cpu_cases c. cbn in Hs. by subst c_state. }
    cbn [run]. unfold mbind, ST_bind. rewrite Htick. unfold advance_speed_switch_pause.
    destruct (Z.leb_spec n 1).
    + assert (k = 0%nat) as -> by lia. eexists. split; [done|]. intros _.
      rewrite execution_state_set. unfold pause_state. by replace (n - Z.of_nat 1) with 0 by lia.
    + destruct (IH (n - 1) ((clear_observations c) <| execution_state := SpeedSwitchPause (n - 1) |>))
        as (c' & Hrun & Hs'); [apply execution_state_set | lia|].
      exists c'. split; [done|]. intros _. rewrite Hs' by lia. f_equal. lia.
Qed.

(** C31. STOP follows its decision table: it always requests the DIV reset;
    with a prepared speed switch it fetches the padding byte, requests the
    switch and pauses for exactly [CGB_SPEED_SWITCH_PAUSE_T_CYCLES]; with the
    wake line asserted it is a one-byte NOP, or a HALT when no interrupt is
    there to take; otherwise it sleeps, without the padding byte when an
    interrupt is pending but disabled. *)
Theorem stop_follows_decision_table (c : CpuCore) (w : FlatWorld) :
  at_boundary c -> flat_read w (r_pc (registers c)) = 0x10 ->
  let o := stop_outcome_in c w in
  exists c', run (stop_duration o) (c, w) = Done (tt, (c', w)) /\
    execution_state c' = stop_state o /\
    r_pc (registers c') = wrapping_add16 (r_pc (registers c)) (stop_length o) /\
    in_flight c' = in_flight_default /\ halt_control c' = stop_halt_request o c /\
    ime_state c' = ime_after_instruction (ime_state c) /\ stop_div_reset_requested c' = true /\
    cgb_speed_switch_requested c' =
      (match o with StopSpeedSwitch => true | _ => cgb_speed_switch_requested c end) /\
    (o = StopSpeedSwitch -> forall k w', 0 <= Z.of_nat k <= CGB_SPEED_SWITCH_PAUSE_T_CYCLES ->
      exists c'', run k (c', w') = Done (tt, (c'', w')) /\
        execution_state c'' = pause_state (CGB_SPEED_SWITCH_PAUSE_T_CYCLES - Z.of_nat k)).
Proof.
  intros Hb Hop o. pose proof (stop_fetch c w Hb Hop) as Hfetch. cbv zeta in Hfetch. fold o in Hfetch.
  assert (Hcases : o = StopAsNop \/ o <> StopAsNop) by (destruct o; auto; right; done).
  destruct Hcases as [Ho | Ho].
  - rewrite Ho in *. eexists. split; [exact Hfetch|]. unfold finish_instruction.
    rewrite advance_delayed_ime_enable_explicit. cpu_cases c. by destruct c_regs.
  - assert (Hfetch' : run 4 (c, w) = Done (tt, (begin_instruction 0x10 Stop
      (opcode_fetched (in_flight_default <| if_opcode := Some 0x10 |>) c w), w)))
      by (rewrite Hfetch; by destruct o).
    rewrite begin_instruction_executing in Hfetch'. cbv zeta in Hfetch'.
    match type of Hfetch' with _ = Done (_, (executing _ _ ?r ?i ?m ?st ?ba ?ae ?sd ?ss, _)) =>
      destruct (stop_execute r m st i ba ae sd ss w Ho)
        as (c' & Hrun & Hs & Hr & Hsd & Hss & Hh & Hi & Hf) end.
    change (stop_outcome_in (executing _ _ _ _ _ _ _ _ _ _) w) with o in *.
    exists c'. replace (stop_duration o) with (4 + 4)%nat by by destruct o.
    split; [rewrite run_add, Hfetch'; exact Hrun|].
    split; [done|]. split.
    { rewrite Hr. destruct (registers c), o; try done; apply wrapping_add16_twice. }
    split; [done|]. split; [by rewrite Hh; destruct o|]. split; [done|]. split; [done|].
    split; [done|]. intros Hsw k w' Hk. rewrite Hsw in Hs.
    destruct (pause_counts k _ c' w' Hs Hk) as (c'' & Hrun' & Hs''). exists c''.
    split; [done|]. by apply Hs''.
Qed.

(** A prepared speed switch: eight T-cycles, then the pause. *)
Lemma stop_follows_decision_table_witness :
  let c := cpu_new GameBoyColor in
  let w := mkFlat (memory_of 0 [0x10; 0x00]) 0 0 0 1 [] in
  at_boundary c /\ flat_read w (r_pc (registers c)) = 0x10 /\ stop_outcome_in c w = StopSpeedSwitch /\
  exists c', run 8 (c, w) = Done (tt, (c', w)) /\ cgb_speed_switch_requested c' = true.
Proof.
  assert (Hb : at_boundary (cpu_new GameBoyColor)) by (repeat split; reflexivity).
  destruct (stop_follows_decision_table (cpu_new GameBoyColor)
    (mkFlat (memory_of 0 [0x10; 0x00]) 0 0 0 1 []) Hb eq_refl)
    as (c' & Hrun & _ & _ & _ & _ & _ & _ & Hsw & _).
  exact (conj Hb (conj eq_refl (conj eq_refl (ex_intro _ c' (conj Hrun Hsw))))).
Defined.

(** ** Waking from STOP *)

(** What a wake event does to a sleeping core. *)
Definition woken (i : InterruptController) (c : CpuCore) : InterruptController * CpuExecutionState :=
  match execution_state c with
  | Stopped =>
      if ime c && enabled_request i JoypadIrq
      then (clear JoypadIrq i, ServiceStopWakeBuggedInterrupt 0 0)
      else (i, fetch_opcode)
  | _ => (i, fetch_opcode)
  end.

Lemma joypad_pending i : has_bits (pending_mask i) (mask JoypadIrq) = enabled_request i JoypadIrq.
Proof.
  rewrite has_bits_mask. unfold pending_mask, enabled_request. rewrite Z.land_spec. apply andb_comm.
Qed.

Lemma begin_stop_wake_explicit c :
  begin_stop_wake_bugged_interrupt_service c =
    mkCpu (cpu_console_model c) (cpu_startup_state c) (registers c) (ServiceStopWakeBuggedInterrupt 0 0)
      in_flight_default ImeDisabled (halt_control c) (last_bus_activity c) (last_address_event c)
      (stop_div_reset_requested c) (cgb_speed_switch_requested c).
Proof. by cpu_cases c. Qed.

Lemma bugged_service_finishes r m st ba ae sd ss w :
  finishes (run_instruction 24)
    (mkCpu m st r (ServiceStopWakeBuggedInterrupt 0 0) in_flight_default ImeDisabled HaltIdle ba ae sd ss)
    w 20 (r <| r_sp := wrapping_sub16 (r_sp r) 1 |> <| r_pc := 0x0000 |>)
    (flat_write (wrapping_sub16 (r_sp r) 1) (low_byte (r_pc r))
      (flat_write (wrapping_sub16 (r_sp r) 1) (high_byte (r_pc r)) w)) ImeDisabled.
Proof.
  destruct r as [ra rf rb rc rd re rh rl rsp rpc].
  eapply finishes_eq;
    [ do 4 service_cycle counted_bugged_service idtac;
      eapply finishes_now;
      [apply counted_bugged_service | reflexivity | service_exec; reflexivity | done]
    | reflexivity .. ].
Qed.

(** A core asleep in STOP does nothing on its T-cycles and ignores
    interrupts; only the joypad wake event, which it consumes, wakes it: to the
    next opcode fetch, or, from [Stopped] with interrupts enabled and the
    joypad interrupt pending, to the bugged service, which in five machine
    cycles writes both bytes of PC to the same stack slot, moves SP by one and
    jumps to address 0. *)
Theorem stop_wakes_on_joypad_only (i : InterruptController) (j : Joypad) (c : CpuCore) (w : FlatWorld) :
  execution_state c = Stopped \/ execution_state c = ZombieStopped ->
  halt_control c = HaltIdle ->
  tick_t_cycle (c, w) = Done (tt, (clear_observations c, w)) /\
  let '(i', j', c') := evaluate_wake_and_interrupts i j c in
  stop_wake_event_pending j' = false /\ registers c' = registers c /\
  (stop_wake_event_pending j = false -> i' = i /\ c' = c) /\
  (stop_wake_event_pending j = true ->
   (i', execution_state c') = woken i c /\
   (execution_state c' = ServiceStopWakeBuggedInterrupt 0 0 ->
    let r := registers c in
    let sp1 := wrapping_sub16 (r_sp r) 1 in
    exists c'', run_instruction 24 (c', w) =
        Done (Some 20, (c'', flat_write sp1 (low_byte (r_pc r)) (flat_write sp1 (high_byte (r_pc r)) w))) /\
      at_boundary c'' /\ registers c'' = r <| r_sp := sp1 |> <| r_pc := 0x0000 |> /\
      ime_state c'' = ImeDisabled)).
Proof.
  intros Hs Hh.
  assert (Htick : tick_t_cycle (c, w) = Done (tt, (clear_observations c, w))).
  { cpu_cases c. cbn in Hs. by destruct Hs as [-> | ->]. }
  split; [done|].
  unfold evaluate_wake_and_interrupts, wake_evaluation_needed, woken.
  assert (Hsleep : is_stop_sleep_state c = true).
  { unfold is_stop_sleep_state. by destruct Hs as [-> | ->]. }
  rewrite Hsleep, joypad_pending. cbn [orb negb].
  unfold consume_stop_wake_event, stop_wake_event_pending.
  destruct (stop_wake_pending j) eqn:Hj.
  - assert (Hawake : forall s, execution_state (c <| execution_state := s |>) = s /\
      registers (c <| execution_state := s |>) = registers c) by (intros; by cpu_cases c).
    destruct Hs as [-> | ->]; cbn [andb].
    + destruct (ime c && enabled_request i JoypadIrq).
      * rewrite begin_stop_wake_explicit, Hh. split; [by destruct j|]. split; [done|]. split; [done|]. intros _.
        split; [done|]. intros _. apply bugged_service_finishes.
      * destruct (Hawake fetch_opcode) as [H1 H2]. rewrite H1, H2.
        split; [by destruct j|]. split; [done|]. split; done.
    + destruct (Hawake fetch_opcode) as [H1 H2]. rewrite H1, H2.
        split; [by destruct j|]. split; [done|]. split; done.
  - destruct Hs as [-> | ->]; destruct j; done.
Qed.

(** A sleeping core with interrupts enabled, a joypad event and interrupt. *)
Definition sleeping_core : CpuCore := (enabled_core 0x1234 0xD000) <| execution_state := Stopped |>.
Definition woken_joypad : Joypad := set_button_pressed ButtonA true (write_p1 0x10 (joypad_new GameBoy)).

Lemma stop_wakes_on_joypad_only_witness :
  let i := request JoypadIrq (write_ie 0x10 (interrupts_new GameBoy)) in
  (execution_state sleeping_core = Stopped \/ execution_state sleeping_core = ZombieStopped) /\
  halt_control sleeping_core = HaltIdle /\ stop_wake_event_pending woken_joypad = true /\
  execution_state (evaluate_wake_and_interrupts i woken_joypad sleeping_core).2
    = ServiceStopWakeBuggedInterrupt 0 0.
Proof.
  assert (Hs : execution_state sleeping_core = Stopped \/ execution_state sleeping_core = ZombieStopped)
    by (left; reflexivity).
  pose proof (stop_wakes_on_joypad_only (request JoypadIrq (write_ie 0x10 (interrupts_new GameBoy)))
    woken_joypad sleeping_core (flat_of 0 []) Hs eq_refl) as [_ H].
  split; [done|]. split; [done|]. split; [vm_compute; reflexivity|].
  destruct (evaluate_wake_and_interrupts _ _ _) as [[i' j'] c']. destruct H as (_ & _ & _ & Hw).
  destruct (Hw eq_refl) as [Heq _]. exact (f_equal snd Heq).
Defined.
