(* ===== verification/Serial.v ===== *)
(** * Serial port ([crates/gb-core/src/serial.rs])

    The [SB]/[SC] registers, the eight-bit exchange with the attached peer,
    the internal clock derived from the port's own counter and the externally
    queued clock pulses. *)

From Stdlib Require Import ZArith Lia Bool String.
From stdpp Require Import base list decidable.
From S2P Require Import Prelude Model Scheduler Speed.

Local Open Scope Z_scope.

Definition SC_TRANSFER_REQUEST_BIT : Z := 0x80.
Definition SC_UNUSED_READ_MASK : Z := 0x7C.
Definition SC_CGB_HIGH_SPEED_BIT : Z := 0x02.
Definition SC_CLOCK_MODE_BIT : Z := 0x01.

Inductive SerialClockMode := External | Internal.

Inductive SerialPeer :=
| Disconnected
| Loopback
| StagedIncomingByte (byte : Z).

Inductive SerialTransferState :=
| TransferIdle
| TransferRequested (bits_shifted : Z).

Record SerialTickTelemetry := mkTelemetry {
  active_t_cycles : Z;
  internal_ticks : Z;
  external_ticks : Z;
  external_wait_ticks : Z;
  shift_edges : Z;
  completed_bytes : Z;
  external_port_ticks : Z
}.

Definition telemetry_default : SerialTickTelemetry := mkTelemetry 0 0 0 0 0 0 0.

Definition external_port_tick : SerialTickTelemetry := mkTelemetry 0 0 0 0 0 0 1.

Definition accumulate (other t : SerialTickTelemetry) : SerialTickTelemetry :=
  mkTelemetry
    (saturating_add64 (active_t_cycles t) (active_t_cycles other))
    (saturating_add64 (internal_ticks t) (internal_ticks other))
    (saturating_add64 (external_ticks t) (external_ticks other))
    (saturating_add64 (external_wait_ticks t) (external_wait_ticks other))
    (saturating_add64 (shift_edges t) (shift_edges other))
    (saturating_add64 (completed_bytes t) (completed_bytes other))
    (saturating_add64 (external_port_ticks t) (external_port_ticks other)).

(** The mode bits of a value written to [SC]. *)
Definition clock_mode_of_sc (sc : Z) : SerialClockMode :=
  if has_bits sc SC_CLOCK_MODE_BIT then Internal else External.

Definition transfer_state_of_sc (sc : Z) : SerialTransferState :=
  if has_bits sc SC_TRANSFER_REQUEST_BIT then TransferRequested 0 else TransferIdle.

Record SerialStartupState := mkSerialStartup {
  startup_sb : Z;
  startup_clock_mode : SerialClockMode;
  startup_cgb_high_speed_clock : bool;
  startup_transfer_state : SerialTransferState;
  startup_clock_counter : Z
}.

Definition from_registers (sb sc : Z) : SerialStartupState :=
  {| startup_sb := sb;
     startup_clock_mode := clock_mode_of_sc sc;
     startup_cgb_high_speed_clock := has_bits sc SC_CGB_HIGH_SPEED_BIT;
     startup_transfer_state := transfer_state_of_sc sc;
     startup_clock_counter := 0 |}.

Definition with_clock_counter (clock_counter : Z) (st : SerialStartupState) : SerialStartupState :=
  mkSerialStartup (startup_sb st) (startup_clock_mode st) (startup_cgb_high_speed_clock st)
    (startup_transfer_state st) clock_counter.

Record Serial := mkSerial {
  serial_console_model : ConsoleModel;
  serial_operating_mode : OperatingMode;
  sb : Z;
  clock_mode : SerialClockMode;
  raw_cgb_high_speed_clock : bool;
  transfer_state : SerialTransferState;
  peer : SerialPeer;
  clock_counter : Z;
  external_clock_pulses_pending : Z;
  staged_outgoing_byte : Z;
  current_outgoing_byte : Z;
  current_outgoing_shift_byte : Z;
  current_incoming_byte : Z;
  latest_completed_output_byte : option Z;
  completed_output_bytes : list Z
}.

#[export] Instance upd_serial_operating_mode : Update serial_operating_mode := fun v s =>
  let '(mkSerial m _ b c h t p k e so co cs ci l o) := s in mkSerial m v b c h t p k e so co cs ci l o.
#[export] Instance upd_sb : Update sb := fun v s =>
  let '(mkSerial m a _ c h t p k e so co cs ci l o) := s in mkSerial m a v c h t p k e so co cs ci l o.
#[export] Instance upd_clock_mode : Update clock_mode := fun v s =>
  let '(mkSerial m a b _ h t p k e so co cs ci l o) := s in mkSerial m a b v h t p k e so co cs ci l o.
#[export] Instance upd_raw_cgb_high_speed_clock : Update raw_cgb_high_speed_clock := fun v s =>
  let '(mkSerial m a b c _ t p k e so co cs ci l o) := s in mkSerial m a b c v t p k e so co cs ci l o.
#[export] Instance upd_transfer_state : Update transfer_state := fun v s =>
  let '(mkSerial m a b c h _ p k e so co cs ci l o) := s in mkSerial m a b c h v p k e so co cs ci l o.
#[export] Instance upd_peer : Update peer := fun v s =>
  let '(mkSerial m a b c h t _ k e so co cs ci l o) := s in mkSerial m a b c h t v k e so co cs ci l o.
#[export] Instance upd_clock_counter : Update clock_counter := fun v s =>
  let '(mkSerial m a b c h t p _ e so co cs ci l o) := s in mkSerial m a b c h t p v e so co cs ci l o.
#[export] Instance upd_external_clock_pulses_pending : Update external_clock_pulses_pending := fun v s =>
  let '(mkSerial m a b c h t p k _ so co cs ci l o) := s in mkSerial m a b c h t p k v so co cs ci l o.
#[export] Instance upd_staged_outgoing_byte : Update staged_outgoing_byte := fun v s =>
  let '(mkSerial m a b c h t p k e _ co cs ci l o) := s in mkSerial m a b c h t p k e v co cs ci l o.
#[export] Instance upd_current_outgoing_byte : Update current_outgoing_byte := fun v s =>
  let '(mkSerial m a b c h t p k e so _ cs ci l o) := s in mkSerial m a b c h t p k e so v cs ci l o.
#[export] Instance upd_current_outgoing_shift_byte : Update current_outgoing_shift_byte := fun v s =>
  let '(mkSerial m a b c h t p k e so co _ ci l o) := s in mkSerial m a b c h t p k e so co v ci l o.
#[export] Instance upd_current_incoming_byte : Update current_incoming_byte := fun v s =>
  let '(mkSerial m a b c h t p k e so co cs _ l o) := s in mkSerial m a b c h t p k e so co cs v l o.
#[export] Instance upd_latest_completed_output_byte : Update latest_completed_output_byte := fun v s =>
  let '(mkSerial m a b c h t p k e so co cs ci _ o) := s in mkSerial m a b c h t p k e so co cs ci v o.
#[export] Instance upd_completed_output_bytes : Update completed_output_bytes := fun v s =>
  let '(mkSerial m a b c h t p k e so co cs ci l _) := s in mkSerial m a b c h t p k e so co cs ci l v.

(** ** Construction and configuration *)

Definition serial_new_with_operating_mode (m : ConsoleModel) (o : OperatingMode) : Serial :=
  mkSerial m o 0 External false TransferIdle Disconnected 0 0 0 0 0 0 None [].

Definition serial_new (m : ConsoleModel) : Serial :=
  serial_new_with_operating_mode m (default_operating_mode m).

Definition cgb_high_speed_serial_enabled (s : Serial) : bool :=
  is_cgb_family (serial_console_model s) && enables_cgb_high_speed_serial (serial_operating_mode s).

Definition serial_apply_operating_mode_state (o : OperatingMode) (s : Serial) : Serial :=
  let s := s <| serial_operating_mode := o |> in
  if negb (cgb_high_speed_serial_enabled s) then s <| raw_cgb_high_speed_clock := false |> else s.

Definition cgb_high_speed_clock (s : Serial) : bool :=
  cgb_high_speed_serial_enabled s && raw_cgb_high_speed_clock s.

Definition transfer_requested (t : SerialTransferState) : bool :=
  match t with TransferRequested _ => true | TransferIdle => false end.

(** ** Registers *)

Definition read_sb (s : Serial) : Z := sb s.

Definition write_sb (value : Z) (s : Serial) : Serial :=
  s <| sb := value |> <| staged_outgoing_byte := value |>.

Definition read_sc_high_speed_bit (s : Serial) : Z :=
  if cgb_high_speed_serial_enabled s
  then u8_from_bool (raw_cgb_high_speed_clock s) * SC_CGB_HIGH_SPEED_BIT
  else SC_CGB_HIGH_SPEED_BIT.

Definition read_sc (s : Serial) : Z :=
  Z.lor (Z.lor (Z.lor SC_UNUSED_READ_MASK (read_sc_high_speed_bit s))
    match transfer_state s with
    | TransferIdle => 0
    | TransferRequested _ => SC_TRANSFER_REQUEST_BIT
    end)
    match clock_mode s with
    | External => 0
    | Internal => SC_CLOCK_MODE_BIT
    end.

Definition write_sc (value : Z) (s : Serial) : Serial :=
  s <| clock_mode := clock_mode_of_sc value |>
    <| raw_cgb_high_speed_clock :=
         cgb_high_speed_serial_enabled s && has_bits value SC_CGB_HIGH_SPEED_BIT |>
    <| transfer_state := transfer_state_of_sc value |>
    <| external_clock_pulses_pending := 0 |>
    <| current_outgoing_byte := 0 |>
    <| current_outgoing_shift_byte := 0 |>
    <| current_incoming_byte := 0 |>
    <| latest_completed_output_byte := None |>.

Definition serial_apply_startup_state (st : SerialStartupState) (s : Serial) : Serial :=
  s <| sb := startup_sb st |>
    <| clock_mode := startup_clock_mode st |>
    <| raw_cgb_high_speed_clock :=
         cgb_high_speed_serial_enabled s && startup_cgb_high_speed_clock st |>
    <| transfer_state := startup_transfer_state st |>
    <| peer := Disconnected |>
    <| clock_counter := startup_clock_counter st |>
    <| external_clock_pulses_pending := 0 |>
    <| staged_outgoing_byte := startup_sb st |>
    <| current_outgoing_byte := 0 |>
    <| current_outgoing_shift_byte := 0 |>
    <| current_incoming_byte := 0 |>
    <| latest_completed_output_byte := None |>
    <| completed_output_bytes := [] |>.

Definition set_peer (p : SerialPeer) (s : Serial) : Serial := s <| peer := p |>.

Definition accepts_external_clock_pulse (s : Serial) : bool :=
  match clock_mode s with External => transfer_requested (transfer_state s) | Internal => false end.

Definition queue_external_clock_pulse (s : Serial) : Serial * bool :=
  if negb (accepts_external_clock_pulse s) then (s, false)
  else
    let previous_pending := external_clock_pulses_pending s in
    let s := s <| external_clock_pulses_pending :=
                    saturating_add8 (external_clock_pulses_pending s) 1 |> in
    (s, negb (external_clock_pulses_pending s =? previous_pending)).

Definition take_completed_output_bytes (s : Serial) : Serial * list Z :=
  (s <| completed_output_bytes := [] |>, completed_output_bytes s).

Definition endpoint_outgoing_byte (s : Serial) : Z :=
  match transfer_state s with
  | TransferRequested bits_shifted =>
      if negb (bits_shifted =? 0) then current_outgoing_byte s else staged_outgoing_byte s
  | TransferIdle => staged_outgoing_byte s
  end.

(** ** The bit exchange *)

Definition staged_incoming_byte_for_peer (p : SerialPeer) : Z :=
  match p with
  | Disconnected | Loopback => 0
  | StagedIncomingByte byte => byte
  end.

(** The incoming bit and the incoming byte left to shift in. *)
Definition incoming_bit_from_peer (p : SerialPeer) (outgoing_bit : bool) (incoming : Z) : bool * Z :=
  match p with
  | Disconnected => (true, incoming)
  | Loopback => (outgoing_bit, incoming)
  | StagedIncomingByte _ => (has_bits incoming 0x80, shl8 incoming 1)
  end.

(** The result says whether the byte completed. *)
Definition shift_one_bit (s : Serial) : ST CycleContext (Serial * bool) :=
  match transfer_state s with
  | TransferIdle => mret (s, false)
  | TransferRequested bits_shifted =>
      let s :=
        if bits_shifted =? 0
        then s <| current_outgoing_byte := staged_outgoing_byte s |>
               <| current_outgoing_shift_byte := staged_outgoing_byte s |>
               <| current_incoming_byte := staged_incoming_byte_for_peer (peer s) |>
        else s in
      let outgoing_bit := has_bits (current_outgoing_shift_byte s) 0x80 in
      let s := s <| current_outgoing_shift_byte := shl8 (current_outgoing_shift_byte s) 1 |> in
      let '(incoming_bit, incoming) :=
        incoming_bit_from_peer (peer s) outgoing_bit (current_incoming_byte s) in
      let s := s <| current_incoming_byte := incoming |> in
      let s := s <| sb := Z.lor (shl8 (sb s) 1) (u8_from_bool incoming_bit) |> in
      if 255 <=? bits_shifted then st_panic "attempt to add with overflow"
      else if bits_shifted + 1 =? 8 then
        let s := s <| transfer_state := TransferIdle |>
                   <| external_clock_pulses_pending := 0 |>
                   <| completed_output_bytes := completed_output_bytes s ++ [current_outgoing_byte s] |>
                   <| latest_completed_output_byte := Some (current_outgoing_byte s) |>
                   <| current_outgoing_byte := 0 |>
                   <| current_outgoing_shift_byte := 0 |>
                   <| current_incoming_byte := 0 |> in
        queue_interrupt_request SerialIrq ≫= fun _ => mret (s, true)
      else mret (s <| transfer_state := TransferRequested (bits_shifted + 1) |>, false)
  end.

(** ** The clock *)

Definition serial_internal_clock_edge_bit (speed_mode : CgbSpeedMode) (high_speed : bool) : Z :=
  match speed_mode, high_speed with
  | Normal, false => 8
  | Double, false => 7
  | Normal, true => 3
  | Double, true => 2
  end.

Definition serial_internal_clock_edge (previous_clock_counter current_clock_counter : Z)
    (speed_mode : CgbSpeedMode) (high_speed : bool) : bool :=
  let edge_mask := Z.shiftl 1 (serial_internal_clock_edge_bit speed_mode high_speed) in
  has_bits previous_clock_counter edge_mask && negb (has_bits current_clock_counter edge_mask).

Definition requires_full_t_cycle_tick (s : Serial) : bool :=
  transfer_requested (transfer_state s) || negb (external_clock_pulses_pending s =? 0).

Definition external_wait_without_pending_clock (s : Serial) : bool :=
  match clock_mode s with External => true | Internal => false end
  && transfer_requested (transfer_state s) && (external_clock_pulses_pending s =? 0).

Definition tick_external_wait_t_cycle (s : Serial) : Serial * SerialTickTelemetry :=
  let s := s <| latest_completed_output_byte := None |> in
  let s := s <| clock_counter := wrapping_add16 (clock_counter s) 1 |> in
  (s, mkTelemetry 1 0 1 1 0 0 0).

Definition tick_idle_t_cycle (s : Serial) : Serial :=
  let s := s <| latest_completed_output_byte := None |> in
  s <| clock_counter := wrapping_add16 (clock_counter s) 1 |>.

Definition internal_clock_edge_pending_this_t_cycle_for_speed (speed_mode : CgbSpeedMode) (s : Serial)
    : bool :=
  match clock_mode s with Internal => true | External => false end
  && transfer_requested (transfer_state s)
  && serial_internal_clock_edge (clock_counter s) (wrapping_add16 (clock_counter s) 1)
       speed_mode (cgb_high_speed_clock s).

(** The shift of a tick and the telemetry fields [shift_edges] and
    [completed_bytes] it sets. *)
Definition tick_shift (s : Serial) (t : SerialTickTelemetry)
    : ST CycleContext (Serial * SerialTickTelemetry) :=
  shift_one_bit s ≫= fun '(s, completed) =>
  mret (s, mkTelemetry (active_t_cycles t) (internal_ticks t) (external_ticks t)
             (external_wait_ticks t) 1 (if completed : bool then 1 else completed_bytes t)
             (external_port_ticks t)).

Definition tick_t_cycle_for_speed (speed_mode : CgbSpeedMode) (s : Serial)
    : ST CycleContext (Serial * SerialTickTelemetry) :=
  let s := s <| latest_completed_output_byte := None |> in
  let previous_clock_counter := clock_counter s in
  let s := s <| clock_counter := wrapping_add16 (clock_counter s) 1 |> in
  match transfer_state s with
  | TransferIdle => mret (s, telemetry_default)
  | TransferRequested _ =>
      match clock_mode s with
      | Internal =>
          let telemetry := mkTelemetry 1 1 0 0 0 0 0 in
          if serial_internal_clock_edge previous_clock_counter (clock_counter s) speed_mode
               (cgb_high_speed_clock s)
          then tick_shift s telemetry
          else mret (s, telemetry)
      | External =>
          if negb (external_clock_pulses_pending s =? 0)
          then tick_shift (s <| external_clock_pulses_pending := external_clock_pulses_pending s - 1 |>)
                 (mkTelemetry 1 0 1 0 0 0 0)
          else mret (s, mkTelemetry 1 0 1 1 0 0 0)
      end
  end.

(** ** The port as a state machine *)

Definition serial_tick (speed_mode : CgbSpeedMode) (s : Serial) : ST CycleContext Serial :=
  tick_t_cycle_for_speed speed_mode s ≫= fun '(s, _) => mret s.

(** Consecutive T-cycles, each in a fresh cycle context; the list says in
    which of them the serial interrupt was queued. *)
Definition run_serial (speed_mode : CgbSpeedMode) (n : nat) : Serial -> outcome (Serial * list bool) :=
  run_fresh SerialIrq (serial_tick speed_mode) n.

Inductive serial_op :=
| OpTick (speed_mode : CgbSpeedMode)
| OpWriteSb (value : Z)
| OpWriteSc (value : Z)
| OpSetPeer (new_peer : SerialPeer)
| OpQueuePulse
| OpTakeOutput
| OpOperatingMode (mode : OperatingMode)
| OpStartup (sb_value sc_value counter : Z).

Definition serial_step (op : serial_op) (s : Serial) : outcome Serial :=
  match op with
  | OpTick speed_mode =>
      match fresh_tick SerialIrq (serial_tick speed_mode) s with
      | Done (s', _) => Done s'
      | Panic why => Panic why
      end
  | OpWriteSb v => Done (write_sb v s)
  | OpWriteSc v => Done (write_sc v s)
  | OpSetPeer p => Done (set_peer p s)
  | OpQueuePulse => Done (queue_external_clock_pulse s).1
  | OpTakeOutput => Done (take_completed_output_bytes s).1
  | OpOperatingMode o => Done (serial_apply_operating_mode_state o s)
  | OpStartup b sc n => Done (serial_apply_startup_state (with_clock_counter n (from_registers b sc)) s)
  end.

Definition peer_ok (p : SerialPeer) : Prop :=
  match p with StagedIncomingByte byte => u8 byte | _ => True end.

Definition serial_op_ok (op : serial_op) : Prop :=
  match op with
  | OpWriteSb v | OpWriteSc v => u8 v
  | OpSetPeer p => peer_ok p
  | OpStartup b sc n => u8 b /\ u8 sc /\ u16 n
  | _ => True
  end.

Inductive serial_reachable : Serial -> Prop :=
| serial_initial m o : serial_reachable (serial_new_with_operating_mode m o)
| serial_stepped op s s' :
    serial_op_ok op -> serial_reachable s -> serial_step op s = Done s' -> serial_reachable s'.

(** Registers in width, fewer than eight bits shifted, the part of the byte
    still to send what is left of the byte being sent, and clock pulses only
    waiting for a transfer that accepts them. *)
Definition transfer_ok (s : Serial) : Prop :=
  match transfer_state s with
  | TransferIdle => True
  | TransferRequested k =>
      0 <= k < 8 /\
      (k <> 0 -> current_outgoing_shift_byte s = (current_outgoing_byte s * 2 ^ k) mod 256)
  end.

Definition serial_ok (s : Serial) : Prop :=
  (u8 (sb s) /\ u8 (staged_outgoing_byte s) /\ u8 (current_outgoing_byte s) /\
   u8 (current_outgoing_shift_byte s) /\ u8 (current_incoming_byte s) /\
   u16 (clock_counter s) /\ peer_ok (peer s)) /\
  (Forall u8 (completed_output_bytes s) /\
   match latest_completed_output_byte s with Some b => u8 b | None => True end) /\
  u8 (external_clock_pulses_pending s) /\
  (external_clock_pulses_pending s <> 0 -> accepts_external_clock_pulse s = true) /\
  transfer_ok s.

(** ** A tick as a function of the port alone *)

Definition bits_shifted_of (s : Serial) : Z :=
  match transfer_state s with TransferRequested k => k | TransferIdle => 0 end.

(** The registers with the exchange loaded, as at the first bit. *)
Definition exchange_loaded (s : Serial) : Serial :=
  if bits_shifted_of s =? 0
  then s <| current_outgoing_byte := staged_outgoing_byte s |>
         <| current_outgoing_shift_byte := staged_outgoing_byte s |>
         <| current_incoming_byte := staged_incoming_byte_for_peer (peer s) |>
  else s.

Definition exchange_finished (s : Serial) : Serial :=
  s <| transfer_state := TransferIdle |>
    <| external_clock_pulses_pending := 0 |>
    <| completed_output_bytes := completed_output_bytes s ++ [current_outgoing_byte s] |>
    <| latest_completed_output_byte := Some (current_outgoing_byte s) |>
    <| current_outgoing_byte := 0 |>
    <| current_outgoing_shift_byte := 0 |>
    <| current_incoming_byte := 0 |>.

Definition bit_shifted (s0 : Serial) : Serial :=
  let s := exchange_loaded s0 in
  let '(bit, incoming) := incoming_bit_from_peer (peer s)
      (has_bits (current_outgoing_shift_byte s) 0x80) (current_incoming_byte s) in
  let s := s <| current_outgoing_shift_byte := shl8 (current_outgoing_shift_byte s) 1 |>
             <| current_incoming_byte := incoming |>
             <| sb := Z.lor (shl8 (sb s) 1) (u8_from_bool bit) |> in
  if bits_shifted_of s0 =? 7 then exchange_finished s
  else s <| transfer_state := TransferRequested (bits_shifted_of s0 + 1) |>.

(** A bit is shifted on this tick. *)
Definition shifts_now (speed_mode : CgbSpeedMode) (s : Serial) : bool :=
  transfer_requested (transfer_state s) &&
  match clock_mode s with
  | Internal => serial_internal_clock_edge (clock_counter s) (wrapping_add16 (clock_counter s) 1)
                  speed_mode (cgb_high_speed_clock s)
  | External => negb (external_clock_pulses_pending s =? 0)
  end.

Definition completes_now (speed_mode : CgbSpeedMode) (s : Serial) : bool :=
  shifts_now speed_mode s && (bits_shifted_of s =? 7).

Definition pulse_consumed (s : Serial) : Serial :=
  match clock_mode s with
  | External => s <| external_clock_pulses_pending := external_clock_pulses_pending s - 1 |>
  | Internal => s
  end.

Definition serial_next (speed_mode : CgbSpeedMode) (s : Serial) : Serial :=
  if shifts_now speed_mode s then bit_shifted (pulse_consumed (tick_idle_t_cycle s))
  else tick_idle_t_cycle s.

Definition serial_telemetry (speed_mode : CgbSpeedMode) (s : Serial) : SerialTickTelemetry :=
  let shifts := u8_from_bool (shifts_now speed_mode s) in
  let completed := u8_from_bool (completes_now speed_mode s) in
  if transfer_requested (transfer_state s) then
    match clock_mode s with
    | Internal => mkTelemetry 1 1 0 0 shifts completed 0
    | External => mkTelemetry 1 0 1 (1 - shifts) shifts completed 0
    end
  else telemetry_default.

(** ** Lemmas *)

(** Case analysis on the fields of a port. *)
Ltac serial_cases s := destruct s as [m o b c h t p q e so co cs ci l out]; simpl in *.

Lemma shift_one_bit_wp s i ctx (Q : Serial * bool -> CycleContext -> Prop) :
  context_room 0 (S i) ctx -> transfer_requested (transfer_state s) = true -> 0 <= bits_shifted_of s < 8 ->
  (forall ctx', context_room 0 i ctx' ->
     as_slice (interrupt_requests ctx') = as_slice (interrupt_requests ctx) ++
       (if bits_shifted_of s =? 7 then [SerialIrq] else []) ->
     Q (bit_shifted s, bits_shifted_of s =? 7) ctx') ->
  wp (shift_one_bit s) ctx Q.
Proof.
  intros Hr Ht Hk HQ. unfold shift_one_bit.
  destruct (transfer_state s) as [|n] eqn:E; [done|].
  assert (Hn : bits_shifted_of s = n) by (unfold bits_shifted_of; by rewrite E).
  unfold bit_shifted, exchange_loaded in HQ. rewrite Hn in *.
  destruct (Z.leb_spec 255 n); [lia|].
  set (s1 := if n =? 0 then _ else s) in *.
  replace (peer (_ <| current_outgoing_shift_byte := _ |>)) with (peer s1) by (by destruct s1).
  replace (current_incoming_byte (_ <| current_outgoing_shift_byte := _ |>))
    with (current_incoming_byte s1) by (by destruct s1).
  destruct (incoming_bit_from_peer _ _ _) as [bit incoming].
  replace (n + 1 =? 8) with (n =? 7) by (destruct (Z.eqb_spec n 7), (Z.eqb_spec (n + 1) 8); lia || done).
  assert (Hout : forall c1, sb (s1 <| current_outgoing_shift_byte := c1 |> <| current_incoming_byte := incoming |>)
                 = sb s1) by (by destruct s1).
  rewrite Hout. destruct (n =? 7).
  - apply wp_bind, (queue_interrupt_request_wp _ 0 i); [done|].
    intros c' Hr' Hi' _. apply wp_ret. by apply HQ.
  - apply wp_ret. apply HQ; [by apply (context_room_weaken 0 (S i)); [lia | lia |] | by rewrite app_nil_r].
Qed.

Lemma tick_idle_fields s :
  let s' := tick_idle_t_cycle s in
  transfer_state s' = transfer_state s /\ clock_mode s' = clock_mode s /\ peer s' = peer s /\
  external_clock_pulses_pending s' = external_clock_pulses_pending s /\
  clock_counter s' = wrapping_add16 (clock_counter s) 1 /\
  cgb_high_speed_clock s' = cgb_high_speed_clock s /\ bits_shifted_of s' = bits_shifted_of s.
Proof. by destruct s. Qed.

Lemma pulse_consumed_fields s :
  let s' := pulse_consumed s in
  transfer_state s' = transfer_state s /\ bits_shifted_of s' = bits_shifted_of s.
Proof. destruct s as [m o b [] h t p k e so co cs ci l out]; done. Qed.

Lemma serial_tick_wp speed_mode s i ctx (Q : Serial * SerialTickTelemetry -> CycleContext -> Prop) :
  context_room 0 (S i) ctx -> 0 <= bits_shifted_of s < 8 ->
  (forall ctx', context_room 0 i ctx' ->
     as_slice (interrupt_requests ctx') = as_slice (interrupt_requests ctx) ++
       (if completes_now speed_mode s then [SerialIrq] else []) ->
     Q (serial_next speed_mode s, serial_telemetry speed_mode s) ctx') ->
  wp (tick_t_cycle_for_speed speed_mode s) ctx Q.
Proof.
  intros Hr Hk HQ. unfold tick_t_cycle_for_speed.
  change ((s <| latest_completed_output_byte := None |>) <| clock_counter := _ |>)
    with (tick_idle_t_cycle s).
  destruct (tick_idle_fields s) as (Ht & Hm & _ & He & Hc & Hh & Hb).
  replace (clock_counter (s <| latest_completed_output_byte := None |>)) with (clock_counter s)
    by (by destruct s).
  rewrite Ht, Hm, He, Hc, Hh.
  unfold completes_now, serial_next, serial_telemetry, completes_now, shifts_now, pulse_consumed in *.
  rewrite Hm, He in HQ.
  assert (Hweak : context_room 0 i ctx) by (apply (context_room_weaken 0 (S i)); [lia | lia | done]).
  assert (Hshift : forall s1 tel, transfer_state s1 = transfer_state s ->
    transfer_requested (transfer_state s) = true ->
    (forall ctx', context_room 0 i ctx' ->
       as_slice (interrupt_requests ctx') = as_slice (interrupt_requests ctx) ++
         (if bits_shifted_of s =? 7 then [SerialIrq] else []) ->
       Q (bit_shifted s1, mkTelemetry (active_t_cycles tel) (internal_ticks tel) (external_ticks tel)
            (external_wait_ticks tel) 1 (if bits_shifted_of s =? 7 then 1 else completed_bytes tel)
            (external_port_ticks tel)) ctx') ->
    wp (tick_shift s1 tel) ctx Q).
  { intros s1 tel Ht1 Hreq HQ1.
    assert (Hb1 : bits_shifted_of s1 = bits_shifted_of s) by (unfold bits_shifted_of; by rewrite Ht1).
    unfold tick_shift. apply wp_bind, (shift_one_bit_wp _ i); [done | by rewrite Ht1 | lia |].
    rewrite Hb1. intros ctx' ??. apply wp_ret. by apply HQ1. }
  destruct (transfer_state s) as [|n] eqn:Et; simpl in HQ |- *.
  { apply wp_ret. apply HQ; [done | by rewrite app_nil_r]. }
  destruct (clock_mode s).
  - destruct (external_clock_pulses_pending s =? 0); simpl in HQ |- *.
    + apply wp_ret, HQ; [done | by rewrite app_nil_r].
    + apply Hshift; [by rewrite <- Ht; destruct s | done |].
      intros ctx' Hr' Hi'. specialize (HQ ctx' Hr' Hi').
      by destruct (bits_shifted_of s =? 7).
  - destruct (serial_internal_clock_edge _ _ _ _); simpl in HQ |- *.
    + apply Hshift; [done | done |].
      intros ctx' Hr' Hi'. specialize (HQ ctx' Hr' Hi').
      by destruct (bits_shifted_of s =? 7).
    + apply wp_ret, HQ; [done | by rewrite app_nil_r].
Qed.

Lemma serial_ok_bits s : serial_ok s -> 0 <= bits_shifted_of s < 8.
Proof.
  intros (_ & _ & _ & _ & H). unfold transfer_ok, bits_shifted_of in *.
  destruct (transfer_state s); [lia | apply H].
Qed.

Lemma fresh_serial_tick speed_mode s :
  serial_ok s ->
  fresh_tick SerialIrq (serial_tick speed_mode) s = Done (serial_next speed_mode s, completes_now speed_mode s).
Proof.
  intros Hok. unfold fresh_tick.
  assert (Hr : context_room 0 1 (for_cycle 0))
    by (apply (context_room_weaken 16 16); [lia | lia | apply for_cycle_room]).
  assert (Hwp : wp (tick_t_cycle_for_speed speed_mode s) (for_cycle 0) (fun r ctx' =>
      r.1 = serial_next speed_mode s /\
      as_slice (interrupt_requests ctx') = if completes_now speed_mode s then [SerialIrq] else []))
    by (apply (serial_tick_wp speed_mode s 0 (for_cycle 0)); auto using serial_ok_bits).
  destruct (wp_done _ _ _ Hwp) as ([s' tel] & ctx' & Hrun & Hs & Hi).
  unfold serial_tick, mbind, ST_bind. rewrite Hrun. simpl in *. rewrite Hi, Hs.
  by destruct (completes_now speed_mode s).
Qed.

Lemma shl8_1 x : shl8 x 1 = (2 * x) mod 256.
Proof. unfold shl8. rewrite Z.shiftl_mul_pow2 by lia. f_equal. lia. Qed.

Lemma incoming_ok p b incoming : u8 incoming -> u8 (incoming_bit_from_peer p b incoming).2.
Proof. destruct p; simpl; auto with gb. Qed.

Lemma bit_shifted_ok s :
  serial_ok s -> transfer_requested (transfer_state s) = true -> serial_ok (bit_shifted s).
Proof.
  intros Hok Hreq.
  assert (Hload : let s1 := exchange_loaded s in serial_ok s1 /\ transfer_state s1 = transfer_state s /\
    bits_shifted_of s1 = bits_shifted_of s /\
    current_outgoing_shift_byte s1 = (current_outgoing_byte s1 * 2 ^ bits_shifted_of s) mod 256).
  { unfold exchange_loaded, bits_shifted_of. serial_cases s. destruct t as [|k]; [done|].
    destruct Hok as ((? & ? & ? & ? & ? & ? & Hp) & [? ?] & ? & ? & Hk & Hshift).
    unfold accepts_external_clock_pulse in *. simpl in *.
    destruct (Z.eqb_spec k 0) as [->|Hne]; simpl.
    - unfold serial_ok, transfer_ok, accepts_external_clock_pulse. simpl.
      split_and!; try done; [by destruct p; simpl; auto with gb |].
      rewrite Z.mul_1_r. symmetry. by apply Z.mod_small.
    - unfold serial_ok, transfer_ok, accepts_external_clock_pulse. simpl.
      split_and!; auto; lia. }
  cbv zeta in Hload. unfold bit_shifted.
  set (s1 := exchange_loaded s) in *. set (k := bits_shifted_of s) in *.
  assert (Hk : 0 <= k < 8) by (by apply serial_ok_bits).
  destruct Hload as (((? & ? & ? & ? & Hci & ? & Hp) & [? ?] & ? & Hpend & ?) & Ht & _ & Hcs).
  pose proof (incoming_ok (peer s1) (has_bits (current_outgoing_shift_byte s1) 0x80) _ Hci) as Hinc.
  destruct (incoming_bit_from_peer _ _ _) as [bit incoming].
  clearbody k s1. clear Hok Ht.
  destruct s1 as [m o b c h t p q e so co cs ci l out]; simpl in *.
  unfold accepts_external_clock_pulse in *. simpl in *.
  unfold serial_ok, transfer_ok, accepts_external_clock_pulse.
  destruct (Z.eqb_spec k 7); simpl; split_and!; simpl; try done; auto with gb.
  - apply Forall_app. split; [done | by apply Forall_singleton].
  - destruct c; [done|]. intros Hq. exact (Hpend Hq).
  - lia.
  - lia.
  - intros _. rewrite shl8_1, Hcs, Z.pow_add_r by lia. rewrite Zmult_mod_idemp_r. f_equal. lia.
Qed.

Lemma serial_ok_idle_tick s : serial_ok s -> serial_ok (tick_idle_t_cycle s).
Proof.
  serial_cases s. intros ((? & ? & ? & ? & ? & ? & ?) & [? ?] & ? & ? & ?).
  unfold serial_ok. simpl. split_and!; auto with gb.
Qed.

Lemma serial_ok_next speed_mode s : serial_ok s -> serial_ok (serial_next speed_mode s).
Proof.
  intros Hok. unfold serial_next. apply serial_ok_idle_tick in Hok as Hidle.
  destruct (shifts_now speed_mode s) eqn:E; [|done]. unfold shifts_now in E.
  apply andb_prop in E as [Hreq E].
  destruct (tick_idle_fields s) as (Ht & Hm & _ & He & _).
  apply bit_shifted_ok; [|by rewrite (proj1 (pulse_consumed_fields _)), Ht].
  unfold pulse_consumed. rewrite Hm, He. destruct (clock_mode s); [|done].
  destruct (Z.eqb_spec (external_clock_pulses_pending s) 0) as [|Hne]; [done|].
  rewrite <- He, <- Ht in *. destruct (tick_idle_t_cycle s) as [m o b c h t p q e so co cs ci l out].
  simpl in *. destruct Hidle as ((? & ? & ? & ? & ? & ? & ?) & [? ?] & Hu & Hacc & ?).
  unfold serial_ok, u8, accepts_external_clock_pulse in *. simpl in *.
  split_and!; auto; lia.
Qed.

(** ** A byte exchange in closed form *)

(** The byte the peer sends against [outgoing]. *)
Definition incoming_byte (p : SerialPeer) (outgoing : Z) : Z :=
  match p with
  | Disconnected => 255
  | Loopback => outgoing
  | StagedIncomingByte byte => byte
  end.

(** The port after [k] bits of the transfer requested in [s]: the top [k]
    bits of the incoming byte have been shifted into [SB]; after the eighth
    the byte sent is recorded and the port is idle again. *)
Definition exchanged (k : Z) (s : Serial) : Serial :=
  let out := staged_outgoing_byte s in
  if k =? 0 then s
  else
    let s1 := s
      <| sb := (sb s * 2 ^ k) mod 256 + incoming_byte (peer s) out / 2 ^ (8 - k) |>
      <| transfer_state := TransferRequested k |>
      <| current_outgoing_byte := out |>
      <| current_outgoing_shift_byte := (out * 2 ^ k) mod 256 |>
      <| current_incoming_byte := (staged_incoming_byte_for_peer (peer s) * 2 ^ k) mod 256 |> in
    if k =? 8 then exchange_finished s1 else s1.

Lemma lor_even_bit x b : Z.lor (2 * x) (u8_from_bool b) = 2 * x + u8_from_bool b.
Proof. destruct b; simpl; [destruct x as [|[]|[]]; done | by rewrite Z.lor_0_r, Z.add_0_r]. Qed.

Lemma has_high_bit x : 0 <= x < 256 -> has_bits x 0x80 = (128 <=? x).
Proof.
  intros Hx. change 0x80 with (2 ^ 7). rewrite has_bits_pow2, Z.testbit_eqb by lia.
  change (2 ^ 7) with 128.
  destruct (Z.eqb_spec ((x / 128) mod 2) 1), (Z.leb_spec 128 x); try done; divmod_lia.
Qed.

(** One bit into [SB]: the next of the incoming byte's bits. *)
Lemma sb_shift b inc k :
  u8 b -> u8 inc -> 0 <= k < 8 ->
  Z.lor (shl8 ((b * 2 ^ k) mod 256 + inc / 2 ^ (8 - k)) 1)
        (u8_from_bool (has_bits ((inc * 2 ^ k) mod 256) 0x80)) =
  (b * 2 ^ (k + 1)) mod 256 + inc / 2 ^ (8 - (k + 1)).
Proof.
  unfold u8. intros Hb Hinc Hk. rewrite shl8_1.
  rewrite has_high_bit by (apply Z.mod_pos_bound; lia).
  assert (Hcases : k = 0 \/ k = 1 \/ k = 2 \/ k = 3 \/ k = 4 \/ k = 5 \/ k = 6 \/ k = 7) by lia.
  assert (Heven : forall y, (2 * y) mod 256 = 2 * (y mod 128))
    by (intros; rewrite <- Z.mul_mod_distr_l by lia; f_equal; lia).
  rewrite Heven, lor_even_bit.
  destruct Hcases as [-> | [-> | [-> | [-> | [-> | [-> | [-> | ->]]]]]]];
    cbn [Z.add Z.sub Z.pow Z.pow_pos Pos.iter Z.mul Z.opp Pos.mul Pos.add Z.pos_sub Pos.sub];
    match goal with |- context [128 <=? ?x] => destruct (Z.leb_spec 128 x) end;
    cbn [u8_from_bool]; divmod_lia.
Qed.

Lemma shl8_pow2 x k : 0 <= k -> shl8 ((x * 2 ^ k) mod 256) 1 = (x * 2 ^ (k + 1)) mod 256.
Proof.
  intros Hk. rewrite shl8_1, Z.pow_add_r by lia. rewrite Zmult_mod_idemp_r. f_equal. lia.
Qed.

(** The bit the peer presents after [k] bits is the next of [incoming_byte]. *)
Lemma incoming_bit_spec p out k :
  peer_ok p -> 0 <= k < 8 ->
  incoming_bit_from_peer p (has_bits ((out * 2 ^ k) mod 256) 0x80)
    ((staged_incoming_byte_for_peer p * 2 ^ k) mod 256) =
  (has_bits ((incoming_byte p out * 2 ^ k) mod 256) 0x80,
   (staged_incoming_byte_for_peer p * 2 ^ (k + 1)) mod 256).
Proof.
  intros Hp Hk. destruct p as [| |byte]; simpl.
  - f_equal. rewrite has_high_bit by (apply Z.mod_pos_bound; lia). symmetry. apply Z.leb_le.
    assert (Hcases : k = 0 \/ k = 1 \/ k = 2 \/ k = 3 \/ k = 4 \/ k = 5 \/ k = 6 \/ k = 7) by lia.
    by destruct Hcases as [-> | [-> | [-> | [-> | [-> | [-> | [-> | ->]]]]]]].
  - done.
  - by rewrite shl8_pow2 by lia.
Qed.

Lemma exchange_loaded_exchanged s k :
  serial_ok s -> transfer_state s = TransferRequested 0 -> 0 <= k < 8 ->
  exchange_loaded (exchanged k s) =
  s <| sb := (sb s * 2 ^ k) mod 256 + incoming_byte (peer s) (staged_outgoing_byte s) / 2 ^ (8 - k) |>
    <| transfer_state := TransferRequested k |>
    <| current_outgoing_byte := staged_outgoing_byte s |>
    <| current_outgoing_shift_byte := (staged_outgoing_byte s * 2 ^ k) mod 256 |>
    <| current_incoming_byte := (staged_incoming_byte_for_peer (peer s) * 2 ^ k) mod 256 |>.
Proof.
  intros ((Hb & Hso & _ & _ & _ & _ & Hp) & _) Ht Hk. unfold exchanged, exchange_loaded.
  serial_cases s. subst t. destruct (Z.eqb_spec k 8); [lia|].
  destruct (Z.eqb_spec k 0) as [->|Hne].
  - unfold bits_shifted_of. simpl.
    assert (Hi : u8 (incoming_byte p so)) by (destruct p; simpl; auto with gb).
    assert (Hs : u8 (staged_incoming_byte_for_peer p)) by (destruct p; simpl; auto with gb).
    change (Z.pow_pos 2 8) with 256. rewrite !Z.mul_1_r, !Z.mod_small, Z.div_small, Z.add_0_r by done.
    done.
  - unfold bits_shifted_of. simpl. destruct (Z.eqb_spec k 0); [lia | done].
Qed.

Lemma bits_shifted_exchanged s k :
  transfer_state s = TransferRequested 0 -> 0 <= k < 8 -> transfer_state (exchanged k s) = TransferRequested k.
Proof.
  intros Ht Hk. unfold exchanged. destruct (Z.eqb_spec k 0) as [->|]; [done|].
  destruct (Z.eqb_spec k 8); [lia | by destruct s].
Qed.

Lemma bit_shifted_exchanged s k :
  serial_ok s -> transfer_state s = TransferRequested 0 -> 0 <= k < 8 ->
  bit_shifted (exchanged k s) = exchanged (k + 1) s.
Proof.
  intros Hok Ht Hk. unfold bit_shifted. rewrite exchange_loaded_exchanged by done.
  assert (Hbits : bits_shifted_of (exchanged k s) = k)
    by (unfold bits_shifted_of; by rewrite bits_shifted_exchanged).
  rewrite Hbits. destruct Hok as ((Hb & Hso & _ & _ & _ & _ & Hp) & _).
  unfold exchanged. destruct (Z.eqb_spec (k + 1) 0); [lia|].
  replace (k + 1 =? 8) with (k =? 7) by (destruct (Z.eqb_spec k 7), (Z.eqb_spec (k + 1) 8); lia || done).
  serial_cases s. rewrite incoming_bit_spec by done. simpl.
  rewrite sb_shift, shl8_pow2 by (auto; destruct p; simpl; auto with gb; lia).
  done.
Qed.

Lemma tick_idle_exchanged s k : 0 <= k < 8 -> tick_idle_t_cycle (exchanged k s) = exchanged k (tick_idle_t_cycle s).
Proof.
  intros Hk. unfold exchanged. destruct (Z.eqb_spec k 0); [done|]. destruct (Z.eqb_spec k 8); [lia|].
  by destruct s.
Qed.

Lemma pulse_consumed_exchanged s k : 0 <= k < 8 -> pulse_consumed (exchanged k s) = exchanged k (pulse_consumed s).
Proof.
  intros Hk. unfold exchanged. destruct (Z.eqb_spec k 0); [done|]. destruct (Z.eqb_spec k 8); [lia|].
  destruct s as [m o b [] h t p q e so co cs ci l out]; done.
Qed.

Lemma shifts_now_exchanged speed_mode s k :
  transfer_state s = TransferRequested 0 -> 0 <= k < 8 ->
  shifts_now speed_mode (exchanged k s) = shifts_now speed_mode s.
Proof.
  intros Ht Hk. unfold shifts_now. rewrite bits_shifted_exchanged, Ht by done.
  unfold exchanged. destruct (Z.eqb_spec k 0); [done|]. destruct (Z.eqb_spec k 8); [lia|].
  by destruct s.
Qed.

(** One tick of an exchange in closed form. *)
Lemma serial_next_exchanged speed_mode s k :
  serial_ok s -> transfer_state s = TransferRequested 0 -> 0 <= k < 8 ->
  serial_next speed_mode (exchanged k s) =
    (if shifts_now speed_mode s then exchanged (k + 1) (pulse_consumed (tick_idle_t_cycle s))
     else exchanged k (tick_idle_t_cycle s)) /\
  completes_now speed_mode (exchanged k s) = shifts_now speed_mode s && (k =? 7).
Proof.
  intros Hok Ht Hk. unfold serial_next, completes_now. rewrite shifts_now_exchanged by done. split.
  - destruct (shifts_now speed_mode s) eqn:E; rewrite tick_idle_exchanged by done; [|done].
    rewrite pulse_consumed_exchanged by done.
    destruct (tick_idle_fields s) as (Ht' & _ & _ & He & _ & _ & _).
    set (s1 := pulse_consumed (tick_idle_t_cycle s)).
    assert (Hk1 : transfer_state s1 = TransferRequested 0)
      by (unfold s1; rewrite (proj1 (pulse_consumed_fields _)), Ht'; done).
    apply bit_shifted_exchanged; [|done|done].
    apply serial_ok_idle_tick in Hok. unfold shifts_now in E. apply andb_prop in E as [_ E].
    unfold s1, pulse_consumed in *.
    destruct (tick_idle_fields s) as (_ & Hm & _). rewrite <- Hm in E. rewrite <- He in E.
    destruct (tick_idle_t_cycle s) as [m o b [] h t p q e so co cs ci l out]; [|done].
    simpl in *. destruct Hok as ((? & ? & ? & ? & ? & ? & ?) & [? ?] & Hu & Hacc & Hto).
    destruct (Z.eqb_spec e 0); [done|].
    unfold serial_ok, transfer_ok, u8, accepts_external_clock_pulse in *. simpl in *.
    subst t. split_and!; auto; lia.
  - unfold bits_shifted_of. by rewrite bits_shifted_exchanged.
Qed.

(** ** The internal clock *)

Definition serial_period (speed_mode : CgbSpeedMode) (high_speed : bool) : Z :=
  2 ^ (serial_internal_clock_edge_bit speed_mode high_speed + 1).

Lemma serial_edge_spec c speed_mode high_speed :
  u16 c ->
  serial_internal_clock_edge c (wrapping_add16 c 1) speed_mode high_speed =
  ((c + 1) mod serial_period speed_mode high_speed =? 0).
Proof.
  intros Hc. unfold serial_internal_clock_edge, serial_period, u16, wrapping_add16 in *.
  set (bit := serial_internal_clock_edge_bit speed_mode high_speed).
  assert (Hbit : bit = 8 \/ bit = 7 \/ bit = 3 \/ bit = 2) by (destruct speed_mode, high_speed; auto).
  rewrite Z.shiftl_mul_pow2, Z.mul_1_l, !has_bits_pow2, !Z.testbit_eqb by lia.
  clearbody bit.
  destruct Hbit as [-> | [-> | [-> | ->]]]; simpl (2 ^ _);
    repeat match goal with |- context [?x =? ?y] => destruct (Z.eqb_spec x y) end;
    simpl; try done; divmod_lia.
Qed.

(** Bits shifted by an internal clock after [n] T-cycles. *)
Definition internal_shifts (speed_mode : CgbSpeedMode) (s : Serial) (n : Z) : Z :=
  let period := serial_period speed_mode (cgb_high_speed_clock s) in
  (clock_counter s mod period + n) / period.

Lemma serial_period_cases speed_mode high_speed :
  let period := serial_period speed_mode high_speed in
  period = 512 \/ period = 256 \/ period = 16 \/ period = 8.
Proof. destruct speed_mode, high_speed; vm_compute; auto. Qed.

Lemma iterate_idle_fields n s :
  let s' := iterate n tick_idle_t_cycle s in
  transfer_state s' = transfer_state s /\ clock_mode s' = clock_mode s /\
  cgb_high_speed_clock s' = cgb_high_speed_clock s /\
  (u16 (clock_counter s) -> clock_counter s' = (clock_counter s + Z.of_nat n) mod 65536).
Proof.
  revert s. induction n as [|n IH]; intros s; cbn [iterate].
  { simpl Z.of_nat. rewrite Z.add_0_r. split_and!; auto. intros. by rewrite Z.mod_small. }
  destruct (IH (tick_idle_t_cycle s)) as (-> & -> & -> & Hc).
  destruct (tick_idle_fields s) as (-> & -> & _ & _ & Hc' & -> & _).
  split_and!; auto. intros Hu. rewrite Hc, Hc' by (rewrite Hc'; apply u16_mod).
  unfold wrapping_add16. rewrite Zplus_mod_idemp_l. f_equal. lia.
Qed.

Lemma serial_ok_idle_run n s : serial_ok s -> serial_ok (iterate n tick_idle_t_cycle s).
Proof. apply iterate_ind, serial_ok_idle_tick. Qed.

Lemma internal_shift_step speed_mode s n :
  serial_ok s -> transfer_state s = TransferRequested 0 -> clock_mode s = Internal ->
  let m := internal_shifts speed_mode s (Z.of_nat n) in
  internal_shifts speed_mode s (Z.of_nat (S n)) =
    m + u8_from_bool (shifts_now speed_mode (iterate n tick_idle_t_cycle s)).
Proof.
  intros Hok Ht Hm. cbv zeta.
  destruct (iterate_idle_fields n s) as (Ht' & Hm' & Hh & Hc). unfold shifts_now.
  rewrite Ht', Ht, Hm', Hm, Hh, serial_edge_spec by (apply serial_ok_idle_run; done).
  simpl transfer_requested. rewrite andb_true_l.
  rewrite Hc by apply Hok. assert (Hu : u16 (clock_counter s)) by apply Hok.
  unfold internal_shifts. pose proof (serial_period_cases speed_mode (cgb_high_speed_clock s)) as Hp.
  cbv zeta in *. set (P := serial_period _ _) in *. unfold u16 in Hu.
  rewrite Nat2Z.inj_succ. set (z := Z.of_nat n). clearbody z P.
  destruct (Z.eqb_spec (((clock_counter s + z) mod 65536 + 1) mod P) 0); cbn [u8_from_bool];
    destruct Hp as [-> | [-> | [-> | ->]]]; divmod_lia.
Qed.

(** With an internal clock, [n] ticks shift [internal_shifts n] bits. *)
Lemma internal_run speed_mode s n :
  serial_ok s -> transfer_state s = TransferRequested 0 -> clock_mode s = Internal ->
  internal_shifts speed_mode s (Z.of_nat n) <= 7 ->
  let idle := iterate n tick_idle_t_cycle s in
  let k := internal_shifts speed_mode s (Z.of_nat n) in
  0 <= k /\
  iterate n (serial_next speed_mode) s = exchanged k idle /\
  serial_next speed_mode (exchanged k idle) =
    exchanged (internal_shifts speed_mode s (Z.of_nat (S n))) (tick_idle_t_cycle idle) /\
  completes_now speed_mode (exchanged k idle) =
    (internal_shifts speed_mode s (Z.of_nat (S n)) =? 8).
Proof.
  intros Hok Ht Hm Hle. cbv zeta.
  assert (Hpos : 0 <= internal_shifts speed_mode s (Z.of_nat n)).
  { unfold internal_shifts.
    destruct (serial_period_cases speed_mode (cgb_high_speed_clock s)) as [-> | [-> | [-> | ->]]]; divmod_lia. }
  split; [done|].
  assert (Hnext : forall n, 0 <= internal_shifts speed_mode s (Z.of_nat n) <= 7 ->
    let idle := iterate n tick_idle_t_cycle s in
    let k := internal_shifts speed_mode s (Z.of_nat n) in
    serial_next speed_mode (exchanged k idle) =
      exchanged (internal_shifts speed_mode s (Z.of_nat (S n))) (tick_idle_t_cycle idle) /\
    completes_now speed_mode (exchanged k idle) = (internal_shifts speed_mode s (Z.of_nat (S n)) =? 8)).
  { clear n Hle Hpos. intros n Hle. cbv zeta.
    destruct (iterate_idle_fields n s) as (Ht' & Hm' & _).
    pose proof (internal_shift_step speed_mode s n Hok Ht Hm) as Hstep. cbv zeta in Hstep. rewrite Hstep.
    destruct (serial_next_exchanged speed_mode (iterate n tick_idle_t_cycle s)
      (internal_shifts speed_mode s (Z.of_nat n))) as [-> ->];
      [by apply serial_ok_idle_run | congruence | lia |].
    destruct (tick_idle_fields (iterate n tick_idle_t_cycle s)) as (_ & Hm'' & _).
    unfold pulse_consumed. rewrite Hm'', Hm', Hm.
    destruct (shifts_now _ _); simpl u8_from_bool; rewrite ?Z.add_0_r; split; try done; simpl;
      match goal with |- (?a =? 7) = (?b =? 8) => destruct (Z.eqb_spec a 7), (Z.eqb_spec b 8); lia || done
                    | |- false = (?b =? 8) => destruct (Z.eqb_spec b 8); lia || done end. }
  split; [|by apply Hnext].
  induction n as [|n IH].
  - simpl. unfold internal_shifts. simpl Z.of_nat. rewrite Z.add_0_r.
    rewrite Z.div_small; [done|]. apply Z.mod_pos_bound.
    destruct (serial_period_cases speed_mode (cgb_high_speed_clock s)) as [-> | [-> | [-> | ->]]]; lia.
  - pose proof (internal_shift_step speed_mode s n Hok Ht Hm) as Hstep. cbv zeta in Hstep.
    assert (0 <= internal_shifts speed_mode s (Z.of_nat n)).
    { unfold internal_shifts.
      destruct (serial_period_cases speed_mode (cgb_high_speed_clock s)) as [-> | [-> | [-> | ->]]]; divmod_lia. }
    assert (internal_shifts speed_mode s (Z.of_nat n) <= 7)
      by (destruct (shifts_now _ _); simpl u8_from_bool in Hstep; lia).
    rewrite !iterate_S, IH by (done || lia). by apply Hnext.
Qed.

(** ** Externally clocked transfers *)

(** Ticks of an externally clocked port; before each of them a clock pulse
    may arrive. *)
Fixpoint run_external (speed_mode : CgbSpeedMode) (pulses : list bool) (s : Serial)
    : outcome (Serial * list bool) :=
  match pulses with
  | [] => Done (s, [])
  | pulse :: rest =>
      let s := if pulse : bool then (queue_external_clock_pulse s).1 else s in
      match fresh_tick SerialIrq (serial_tick speed_mode) s with
      | Panic why => Panic why
      | Done (s', irq) =>
          match run_external speed_mode rest s' with
          | Panic why => Panic why
          | Done (s'', irqs) => Done (s'', irq :: irqs)
          end
      end
  end.

Definition pulse_count (pulses : list bool) : Z := Z.of_nat (length (List.filter (fun b => b) pulses)).

Lemma pulse_count_cons b l : pulse_count (b :: l) = u8_from_bool b + pulse_count l.
Proof. unfold pulse_count. destruct b; simpl; lia. Qed.

Definition waiting_for_clock (s : Serial) : Prop :=
  transfer_state s = TransferRequested 0 /\ clock_mode s = External /\ external_clock_pulses_pending s = 0.

Lemma waiting_tick s : waiting_for_clock s -> waiting_for_clock (tick_idle_t_cycle s).
Proof. unfold waiting_for_clock. by destruct s. Qed.

Lemma queue_pulse_ok s : serial_ok s -> serial_ok (queue_external_clock_pulse s).1.
Proof.
  unfold queue_external_clock_pulse. destruct (accepts_external_clock_pulse s) eqn:E; [|done].
  serial_cases s. intros ((? & ? & ? & ? & ? & ? & ?) & [? ?] & ? & ? & ?).
  unfold serial_ok, u8, saturating_add8, accepts_external_clock_pulse in *. simpl in *.
  split_and!; auto; lia.
Qed.

(** One externally clocked T-cycle of an exchange. *)
Lemma external_step speed_mode s k pulse :
  serial_ok s -> waiting_for_clock s -> 0 <= k < 8 ->
  let s1 := if pulse : bool then (queue_external_clock_pulse (exchanged k s)).1 else exchanged k s in
  serial_next speed_mode s1 = exchanged (k + u8_from_bool pulse) (tick_idle_t_cycle s) /\
  completes_now speed_mode s1 = pulse && (k =? 7).
Proof.
  intros Hok (Ht & Hm & He) Hk.
  assert (Hq : forall pl : bool,
    (if pl then (queue_external_clock_pulse (exchanged k s)).1 else exchanged k s) =
    exchanged k (s <| external_clock_pulses_pending := u8_from_bool pl |>)).
  { intros pl. unfold queue_external_clock_pulse, accepts_external_clock_pulse, exchanged.
    serial_cases s. subst t e c. destruct (Z.eqb_spec k 8); [lia|].
    destruct pl, (k =? 0); done. }
  cbv zeta. rewrite (Hq pulse). set (s1 := s <| external_clock_pulses_pending := _ |>).
  assert (Hok1 : serial_ok s1).
  { unfold s1. destruct Hok as ((?&?&?&?&?&?&?)&[? ?]&?&Hacc&?). serial_cases s. subst t e c.
    unfold serial_ok, accepts_external_clock_pulse in *. simpl in *. split_and!; auto with gb; by apply u8_from_bool_range. }
  destruct (serial_next_exchanged speed_mode s1 k Hok1) as [-> ->]; [by destruct s | done |].
  assert (Hsh : shifts_now speed_mode s1 = pulse)
    by (unfold s1, shifts_now; serial_cases s; subst t c; by destruct pulse).
  rewrite Hsh. split; [|done].
  unfold s1. serial_cases s. subst t e c.
  destruct pulse; simpl u8_from_bool; unfold pulse_consumed; simpl; rewrite ?Z.add_0_r; done.
Qed.

Lemma exchanged_ok k s :
  serial_ok s -> transfer_state s = TransferRequested 0 -> 0 <= k <= 8 -> serial_ok (exchanged k s).
Proof.
  intros Hok Ht Hk. destruct (Z_of_nat_complete k) as (n & ->); [lia|].
  induction n as [|n IH]; [done|]. rewrite Nat2Z.inj_succ, <- Z.add_1_r in *.
  rewrite <- bit_shifted_exchanged by (done || lia). apply bit_shifted_ok; [apply IH; lia|].
  rewrite bits_shifted_exchanged by (done || lia). done.
Qed.

(** Without an eighth pulse the exchange stays open. *)
Lemma external_run speed_mode pulses s k :
  serial_ok s -> waiting_for_clock s -> 0 <= k -> k + pulse_count pulses <= 7 ->
  run_external speed_mode pulses (exchanged k s) =
    Done (exchanged (k + pulse_count pulses) (iterate (length pulses) tick_idle_t_cycle s),
          replicate (length pulses) false).
Proof.
  revert s k. induction pulses as [|pulse rest IH]; intros s k Hok Hw Hk Hle.
  { simpl. unfold pulse_count. simpl. by rewrite Z.add_0_r. }
  rewrite pulse_count_cons in *.
  assert (0 <= u8_from_bool pulse <= 1) by (destruct pulse; simpl; lia).
  assert (0 <= pulse_count rest) by (unfold pulse_count; lia).
  destruct (external_step speed_mode s k pulse Hok Hw) as [Hn Hc]; [lia|].
  cbn [run_external].
  assert (Hok1 : serial_ok (exchanged k s)) by (apply exchanged_ok; [done | apply Hw | lia]).
  rewrite fresh_serial_tick by (destruct pulse; [by apply queue_pulse_ok | done]).
  rewrite Hn, Hc, IH; [| by apply serial_ok_idle_tick | by apply waiting_tick | lia | lia].
  rewrite Z.add_assoc. cbn [length iterate replicate]. do 3 f_equal.
  destruct pulse; [|done]. simpl in *. destruct (Z.eqb_spec k 7); [lia | done].
Qed.

Lemma run_external_snoc speed_mode pulses s s' s'' irqs irq :
  run_external speed_mode pulses s = Done (s', irqs) ->
  fresh_tick SerialIrq (serial_tick speed_mode) (queue_external_clock_pulse s').1 = Done (s'', irq) ->
  run_external speed_mode (pulses ++ [true]) s = Done (s'', irqs ++ [irq]).
Proof.
  intros Hrun Htick. revert s irqs Hrun. induction pulses as [|pulse rest IH]; intros s irqs; cbn [run_external app].
  { intros [= <- <-]. cbv iota zeta. by rewrite Htick. }
  cbv zeta. destruct (fresh_tick _ _ (if pulse then _ else _)) as [[s1 i1]|]; [|done].
  destruct (run_external speed_mode rest s1) as [[s2 is2]|] eqn:E; [|done].
  intros [= -> <-]. by rewrite (IH _ _ E).
Qed.

Lemma exchanged_8 s :
  let s' := exchanged 8 s in
  transfer_state s' = TransferIdle /\ sb s' = incoming_byte (peer s) (staged_outgoing_byte s) /\
  completed_output_bytes s' = completed_output_bytes s ++ [staged_outgoing_byte s] /\
  latest_completed_output_byte s' = Some (staged_outgoing_byte s) /\
  has_bits (read_sc s') SC_TRANSFER_REQUEST_BIT = false.
Proof.
  serial_cases s. split_and!; try done.
  - change (2 ^ 8) with 256. rewrite Z.mod_mul by lia. change (2 ^ (8 - 8)) with 1.
    by rewrite Z.div_1_r.
  - unfold has_bits, read_sc, read_sc_high_speed_bit. simpl.
    by destruct (cgb_high_speed_serial_enabled _), h, c.
Qed.

Lemma idle_run_exchange_inputs n s :
  let s' := iterate n tick_idle_t_cycle s in
  peer s' = peer s /\ staged_outgoing_byte s' = staged_outgoing_byte s /\
  completed_output_bytes s' = completed_output_bytes s.
Proof.
  revert s. induction n as [|n IH]; intros s; cbn [iterate]; [done|].
  destruct (IH (tick_idle_t_cycle s)) as (-> & -> & ->). by destruct s.
Qed.

Lemma serial_ok_initial m o : serial_ok (serial_new_with_operating_mode m o).
Proof.
  unfold serial_ok, transfer_ok. simpl. split_and!; auto with gb; done.
Qed.

Lemma transfer_of_sc_ok sc :
  match transfer_state_of_sc sc with
  | TransferIdle => True
  | TransferRequested k => 0 <= k < 8 /\ (k <> 0 -> 0 = (0 * 2 ^ k) mod 256)
  end.
Proof. unfold transfer_state_of_sc. destruct (has_bits _ _); [split; [lia | done] | done]. Qed.

Lemma serial_ok_step op s s' : serial_op_ok op -> serial_ok s -> serial_step op s = Done s' -> serial_ok s'.
Proof.
  intros Hop Hok. destruct op; cbn [serial_step serial_op_ok] in *.
  1: { rewrite fresh_serial_tick by done. intros [= <-]. by apply serial_ok_next. }
  all: intros [= <-].
  4: by apply queue_pulse_ok.
  all: destruct Hok as ((?&?&?&?&?&?&?)&[? ?]&?&Hacc&?); serial_cases s;
    unfold serial_ok, transfer_ok, accepts_external_clock_pulse, serial_apply_operating_mode_state,
      clock_mode_of_sc, transfer_state_of_sc in *; simpl in *.
  - split_and!; auto.
  - split_and!; auto with gb. apply transfer_of_sc_ok.
  - split_and!; auto.
  - split_and!; auto.
  - destruct (negb _); simpl; split_and!; auto.
  - destruct Hop as (? & ? & ?). split_and!; auto with gb; try done.
    apply transfer_of_sc_ok.
Qed.

Lemma serial_ok_reachable s : serial_reachable s -> serial_ok s.
Proof. induction 1; [apply serial_ok_initial | by eapply serial_ok_step]. Qed.

(** ** Properties *)

(**  Safety of the port: every state reached from power-on or a boot
    handoff by register writes, peer changes, clock pulses and ticks is well
    formed; a tick from it never panics while the cycle context has room for
    one interrupt, keeps the port well formed, and queues the serial
    interrupt exactly when its telemetry reports a completed byte, in which
    case it also records the byte the endpoint was sending. *)
Theorem serial_reachable_safe (s : Serial) (speed_mode : CgbSpeedMode) (ctx : CycleContext) :
  serial_reachable s -> context_room 0 1 ctx ->
  serial_ok s /\
  wp (tick_t_cycle_for_speed speed_mode s) ctx (fun r ctx' =>
    let completed := completed_bytes r.2 =? 1 in
    serial_ok r.1 /\
    as_slice (interrupt_requests ctx') =
      as_slice (interrupt_requests ctx) ++ (if completed then [SerialIrq] else []) /\
    completed_output_bytes r.1 =
      completed_output_bytes s ++ (if completed then [endpoint_outgoing_byte s] else [])).
Proof.
  intros Hs Hr. apply serial_ok_reachable in Hs as Hok. split; [done|].
  apply (serial_tick_wp speed_mode s 0 ctx); [done | by apply serial_ok_bits |].
  intros ctx' _ Hi. cbn [fst snd].
  replace (completed_bytes (serial_telemetry speed_mode s) =? 1) with (completes_now speed_mode s).
  2: { unfold serial_telemetry, completes_now, shifts_now.
       destruct (transfer_requested _), (clock_mode s); simpl; try done;
         by destruct (_ && _). }
  split_and!; [by apply serial_ok_next | done |].
  unfold completes_now, serial_next. destruct (shifts_now speed_mode s) eqn:Hsh; simpl.
  2: { by destruct s; rewrite app_nil_r. }
  unfold shifts_now in Hsh. apply andb_prop in Hsh as [Hreq _].
  unfold bit_shifted, exchange_loaded, endpoint_outgoing_byte, pulse_consumed, bits_shifted_of, exchange_finished in *.
  serial_cases s. destruct t as [|n]; [done|]. simpl.
  destruct c; simpl; destruct (Z.eqb_spec n 0) as [->|Hn0]; simpl;
    try (destruct (incoming_bit_from_peer _ _ _) as [bit inc]); simpl; rewrite ?app_nil_r; try done;
    destruct (Z.eqb_spec n 7); simpl; rewrite ?app_nil_r; done.
Qed.

Lemma serial_reachable_safe_witness :
  serial_reachable (write_sc 0x81 (serial_new GameBoy)) /\ context_room 0 1 (for_cycle 0) /\
  serial_ok (write_sc 0x81 (serial_new GameBoy)).
Proof.
  assert (Hs : serial_reachable (write_sc 0x81 (serial_new GameBoy))).
  { apply (serial_stepped (OpWriteSc 0x81) (serial_new GameBoy));
      [simpl; unfold u8; lia | constructor | reflexivity]. }
  assert (Hr : context_room 0 1 (for_cycle 0))
    by (apply (context_room_weaken 16 16); [lia | lia | apply for_cycle_room]).
  split; [exact Hs | split; [exact Hr |]].
  exact (proj1 (serial_reachable_safe _ Normal _ Hs Hr)).
Defined.

(** C22.  A transfer on the internal clock takes exactly
    [8 * period - counter mod period] T-cycles, where the period is 512, 256,
    16 or 8 T-cycles by CPU speed and high-speed bit.  Before, the transfer is
    open with as many bits exchanged as periods have passed and no interrupt;
    at that T-cycle the interrupt is queued, [SB] holds the peer's byte (all
    ones without a peer), the byte sent is recorded and [SC] bit 7 is clear. *)
Theorem internal_transfer_exchanges_bytes (s : Serial) (speed_mode : CgbSpeedMode) (n : nat) :
  serial_ok s -> transfer_state s = TransferRequested 0 -> clock_mode s = Internal ->
  let period := serial_period speed_mode (cgb_high_speed_clock s) in
  let duration := 8 * period - clock_counter s mod period in
  (Z.of_nat n < duration ->
   exists s', run_serial speed_mode n s = Done (s', replicate n false) /\
     transfer_state s' = TransferRequested ((clock_counter s mod period + Z.of_nat n) / period)) /\
  (Z.of_nat (S n) = duration ->
   exists s', run_serial speed_mode (S n) s = Done (s', replicate n false ++ [true]) /\
     transfer_state s' = TransferIdle /\
     sb s' = incoming_byte (peer s) (staged_outgoing_byte s) /\
     completed_output_bytes s' = completed_output_bytes s ++ [staged_outgoing_byte s] /\
     has_bits (read_sc s') SC_TRANSFER_REQUEST_BIT = false).
Proof.
  intros Hok Ht Hm. cbv zeta.
  change ((_ + Z.of_nat n) / _) with (internal_shifts speed_mode s (Z.of_nat n)).
  assert (Hlt : forall j, Z.of_nat j < 8 * serial_period speed_mode (cgb_high_speed_clock s) -
      clock_counter s mod serial_period speed_mode (cgb_high_speed_clock s) ->
      internal_shifts speed_mode s (Z.of_nat j) <= 7).
  { intros j. unfold internal_shifts.
    destruct (serial_period_cases speed_mode (cgb_high_speed_clock s)) as [-> | [-> | [-> | ->]]]; divmod_lia. }
  assert (Hquiet : forall j, Z.of_nat j < 8 * serial_period speed_mode (cgb_high_speed_clock s) -
      clock_counter s mod serial_period speed_mode (cgb_high_speed_clock s) ->
      run_serial speed_mode j s = Done (iterate j (serial_next speed_mode) s, replicate j false)).
  { intros j Hj. apply (run_fresh_quiet _ _ serial_ok (serial_next speed_mode) (completes_now speed_mode));
      [apply fresh_serial_tick | apply serial_ok_next | done |].
    intros i Hi. destruct (internal_run speed_mode s i Hok Ht Hm) as (_ & -> & _ & ->); [apply Hlt; lia|].
    apply Z.eqb_neq. pose proof (Hlt (S i)). lia. }
  split.
  - intros Hn. eexists. split; [by apply Hquiet|].
    destruct (internal_run speed_mode s n Hok Ht Hm (Hlt n Hn)) as (Hk & -> & _).
    apply bits_shifted_exchanged; [by rewrite (proj1 (iterate_idle_fields n s))|]. specialize (Hlt n Hn). lia.
  - intros Hn. destruct (internal_run speed_mode s n Hok Ht Hm) as (_ & Hit & Hnext & Hdue); [apply Hlt; lia|].
    assert (H8 : internal_shifts speed_mode s (Z.of_nat (S n)) = 8).
    { rewrite Hn. unfold internal_shifts.
      destruct (serial_period_cases speed_mode (cgb_high_speed_clock s)) as [-> | [-> | [-> | ->]]]; divmod_lia. }
    rewrite H8 in Hnext, Hdue. eexists.
    split; [unfold run_serial; rewrite (run_fresh_snoc _ _ serial_ok (serial_next speed_mode) (completes_now speed_mode))
              by auto using fresh_serial_tick, serial_ok_next;
            change (run_fresh _ _ n s) with (run_serial speed_mode n s); rewrite Hquiet by lia;
            rewrite Hit, Hdue, Hnext; reflexivity|].
    destruct (idle_run_exchange_inputs (S n) s) as (Hp & Hso & Hout). rewrite iterate_S in Hp, Hso, Hout.
    destruct (exchanged_8 (tick_idle_t_cycle (iterate n tick_idle_t_cycle s))) as (? & -> & -> & _ & ?).
    rewrite Hp, Hso, Hout. done.
Qed.

Lemma internal_transfer_exchanges_bytes_witness :
  let s := write_sc 0x83 (write_sb 0x5A (set_peer (StagedIncomingByte 0xC3) (serial_new GameBoyColor))) in
  serial_ok s /\
  exists s', run_serial Normal 128 s = Done (s', replicate 127 false ++ [true]) /\
    transfer_state s' = TransferIdle /\ sb s' = 0xC3 /\ completed_output_bytes s' = [0x5A].
Proof.
  set (s := write_sc 0x83 _).
  assert (Hok : serial_ok s).
  { unfold serial_ok, transfer_ok. simpl. unfold u8, u16. split_and!; auto; lia. }
  split; [exact Hok|].
  destruct (internal_transfer_exchanges_bytes s Normal 127 Hok eq_refl eq_refl) as [_ H].
  destruct (H eq_refl) as (s' & Hrun & Hidle & Hsb & Hout & _).
  exists s'. split; [exact Hrun | split; [exact Hidle | split; [exact Hsb | exact Hout]]].
Defined.

(**  A transfer on the external clock moves only with the pulses that
    arrive: over any schedule of T-cycles with fewer than eight pulses it
    stays open, one bit per pulse exchanged, without an interrupt (with none
    it waits for ever); the T-cycle of the eighth pulse completes it as an
    internal clock would, with the only interrupt of the schedule. *)
Theorem external_transfer_follows_pulses (s : Serial) (speed_mode : CgbSpeedMode) (pulses : list bool) :
  serial_ok s -> waiting_for_clock s -> pulse_count pulses <= 7 ->
  (exists s', run_external speed_mode pulses s = Done (s', replicate (length pulses) false) /\
     transfer_state s' = TransferRequested (pulse_count pulses) /\
     (pulse_count pulses = 0 -> sb s' = sb s)) /\
  (pulse_count pulses = 7 ->
   exists s', run_external speed_mode (pulses ++ [true]) s =
       Done (s', replicate (length pulses) false ++ [true]) /\
     transfer_state s' = TransferIdle /\
     sb s' = incoming_byte (peer s) (staged_outgoing_byte s) /\
     completed_output_bytes s' = completed_output_bytes s ++ [staged_outgoing_byte s]).
Proof.
  intros Hok Hw Hle.
  assert (Hrun := external_run speed_mode pulses s 0 Hok Hw ltac:(lia) ltac:(lia)).
  change (exchanged 0 s) with s in Hrun. rewrite Z.add_0_l in Hrun.
  assert (0 <= pulse_count pulses) by (unfold pulse_count; lia).
  set (idle := iterate (length pulses) tick_idle_t_cycle s) in *.
  assert (Hidle : transfer_state idle = TransferRequested 0)
    by (unfold idle; rewrite (proj1 (iterate_idle_fields _ s)); apply Hw).
  split.
  - eexists. split; [exact Hrun|]. split; [by apply bits_shifted_exchanged; [|lia]|].
    intros H0. rewrite H0. unfold exchanged. simpl. unfold idle.
    clear -s. generalize (length pulses). intros n. revert s.
    induction n as [|n IH]; intros s; [done|]. cbn [iterate]. rewrite IH. by destruct s.
  - intros H7. rewrite H7 in Hrun.
    assert (Hok' : serial_ok idle) by (by apply serial_ok_idle_run).
    assert (Hw' : waiting_for_clock idle) by (apply iterate_ind; [apply waiting_tick | done]).
    destruct (external_step speed_mode idle 7 true Hok' Hw' ltac:(lia)) as [Hn Hc]. cbv iota zeta in Hn, Hc.
    assert (Htick : fresh_tick SerialIrq (serial_tick speed_mode)
              (queue_external_clock_pulse (exchanged 7 idle)).1 = Done (exchanged 8 (tick_idle_t_cycle idle), true)).
    { rewrite fresh_serial_tick by (by apply queue_pulse_ok, exchanged_ok). by rewrite Hn, Hc. }
    exists (exchanged 8 (tick_idle_t_cycle idle)). split.
    + apply run_external_snoc with (s' := exchanged 7 idle); done.
    + destruct (idle_run_exchange_inputs (S (length pulses)) s) as (Hp & Hso & Hout).
      rewrite iterate_S in Hp, Hso, Hout. fold idle in Hp, Hso, Hout.
      destruct (exchanged_8 (tick_idle_t_cycle idle)) as (? & -> & -> & _).
      rewrite Hp, Hso, Hout. done.
Qed.

Lemma external_transfer_follows_pulses_witness :
  let s := write_sc 0x80 (write_sb 0x5A (set_peer Loopback (serial_new GameBoy))) in
  let pulses := [true; false; true; true; false; true; true; true; false; true] in
  serial_ok s /\ waiting_for_clock s /\
  exists s', run_external Normal (pulses ++ [true]) s = Done (s', replicate 10 false ++ [true]) /\
    sb s' = 0x5A /\ completed_output_bytes s' = [0x5A].
Proof.
  set (s := write_sc 0x80 _). set (pulses := [true; false; true; true; false; true; true; true; false; true]).
  assert (Hok : serial_ok s).
  { unfold serial_ok, transfer_ok. simpl. unfold u8, u16. split_and!; auto; lia. }
  assert (Hw : waiting_for_clock s) by (split_and!; reflexivity).
  split; [exact Hok | split; [exact Hw |]].
  destruct (external_transfer_follows_pulses s Normal pulses Hok Hw) as [_ H]; [vm_compute; discriminate|].
  destruct (H eq_refl) as (s' & Hrun & _ & Hsb & Hout).
  exists s'. split; [exact Hrun | split; [exact Hsb | exact Hout]].
Defined.

(**  The reduced ticks are the full tick wherever the machine may take
    them: with no transfer and no pulse pending the full tick only advances
    the counter, as [tick_idle_t_cycle] does; waiting for an external clock it
    is [tick_external_wait_t_cycle], telemetry included; and the prediction
    [internal_clock_edge_pending_this_t_cycle_for_speed] is true exactly when
    the tick of an internally clocked port shifts a bit. *)
Theorem reduced_ticks_match_full_tick (s : Serial) (speed_mode : CgbSpeedMode) (ctx : CycleContext) :
  serial_ok s -> context_room 0 1 ctx ->
  (requires_full_t_cycle_tick s = false ->
   tick_t_cycle_for_speed speed_mode s ctx = Done ((tick_idle_t_cycle s, telemetry_default), ctx)) /\
  (external_wait_without_pending_clock s = true ->
   tick_t_cycle_for_speed speed_mode s ctx = Done (tick_external_wait_t_cycle s, ctx)) /\
  (clock_mode s = Internal ->
   wp (tick_t_cycle_for_speed speed_mode s) ctx (fun r _ =>
     (shift_edges r.2 =? 1) = internal_clock_edge_pending_this_t_cycle_for_speed speed_mode s)).
Proof.
  intros Hok Hr. split_and!.
  - unfold requires_full_t_cycle_tick, tick_t_cycle_for_speed. serial_cases s. by destruct t.
  - unfold external_wait_without_pending_clock, tick_t_cycle_for_speed. serial_cases s.
    destruct c, t as [|k]; simpl; try done. by intros ->.
  - intros Hm. apply (serial_tick_wp speed_mode s 0 ctx); [done | by apply serial_ok_bits |].
    intros ctx' _ _. cbn [fst snd]. unfold serial_telemetry, internal_clock_edge_pending_this_t_cycle_for_speed, shifts_now.
    rewrite Hm. destruct (transfer_requested _); simpl; [by destruct (serial_internal_clock_edge _ _ _ _) | done].
Qed.

Lemma reduced_ticks_match_full_tick_witness :
  let s := write_sc 0x80 (serial_new GameBoy) in
  serial_ok s /\ context_room 0 1 (for_cycle 0) /\
  tick_t_cycle_for_speed Normal s (for_cycle 0) = Done (tick_external_wait_t_cycle s, for_cycle 0).
Proof.
  set (s := write_sc 0x80 _).
  assert (Hok : serial_ok s).
  { unfold serial_ok, transfer_ok. simpl. unfold u8, u16. split_and!; auto; lia. }
  assert (Hr : context_room 0 1 (for_cycle 0))
    by (apply (context_room_weaken 16 16); [lia | lia | apply for_cycle_room]).
  split; [exact Hok | split; [exact Hr |]].
  destruct (reduced_ticks_match_full_tick s Normal (for_cycle 0) Hok Hr) as (_ & H & _).
  exact (H eq_refl).
Defined.
