(* ===== verification/Mbc3Rtc.v ===== *)
(** * The MBC3 real-time clock ([crates/gb-core/src/cartridge/persist.rs])

    The clock registers, the tick of one second with the counters' behaviour
    outside their ranges, and the bulk advance used for elapsed host time and
    for emulated clock ticks. *)

From Stdlib Require Import ZArith Lia Bool String.
From stdpp Require Import base list decidable.
From S2P Require Import Prelude.

Local Open Scope Z_scope.

Inductive Mbc3RtcRegister := Seconds | Minutes | Hours | DayLow | DayHigh.

#[export] Instance Mbc3RtcRegister_eq_dec : EqDecision Mbc3RtcRegister.
Proof. solve_decision. Defined.

Record Mbc3RtcState := mkRtc {
  seconds : Z;
  minutes : Z;
  hours : Z;
  day_counter : Z;
  halt : bool;
  carry : bool
}.

#[export] Instance upd_seconds : Update seconds := fun v r =>
  let '(mkRtc _ m h d t c) := r in mkRtc v m h d t c.
#[export] Instance upd_minutes : Update minutes := fun v r =>
  let '(mkRtc s _ h d t c) := r in mkRtc s v h d t c.
#[export] Instance upd_hours : Update hours := fun v r =>
  let '(mkRtc s m _ d t c) := r in mkRtc s m v d t c.
#[export] Instance upd_day_counter : Update day_counter := fun v r =>
  let '(mkRtc s m h _ t c) := r in mkRtc s m h v t c.
#[export] Instance upd_halt : Update halt := fun v r =>
  let '(mkRtc s m h d _ c) := r in mkRtc s m h d v c.
#[export] Instance upd_carry : Update carry := fun v r =>
  let '(mkRtc s m h d t _) := r in mkRtc s m h d t v.

Definition rtc_default : Mbc3RtcState := mkRtc 0 0 0 0 false false.

(** The saved copy has the same fields; the conversions are field by field. *)
Record Mbc3RtcPersistentState := mkRtcPersistent {
  p_seconds : Z;
  p_minutes : Z;
  p_hours : Z;
  p_day_counter : Z;
  p_halt : bool;
  p_carry : bool
}.

Definition rtc_to_persistent (r : Mbc3RtcState) : Mbc3RtcPersistentState :=
  mkRtcPersistent (seconds r) (minutes r) (hours r) (day_counter r) (halt r) (carry r).

Definition rtc_from_persistent (p : Mbc3RtcPersistentState) : Mbc3RtcState :=
  mkRtc (p_seconds p) (p_minutes p) (p_hours p) (p_day_counter p) (p_halt p) (p_carry p).

(** ** Register access *)

Definition rtc_read (register : Mbc3RtcRegister) (r : Mbc3RtcState) : Z :=
  match register with
  | Seconds => seconds r
  | Minutes => minutes r
  | Hours => hours r
  | DayLow => as_u8 (Z.land (day_counter r) 0x00FF)
  | DayHigh =>
      Z.lor (Z.lor (Z.land (as_u8 (Z.shiftr (day_counter r) 8)) 0x01)
                   (shl8 (u8_from_bool (halt r)) 6))
            (shl8 (u8_from_bool (carry r)) 7)
  end.

Definition rtc_write (register : Mbc3RtcRegister) (value : Z) (r : Mbc3RtcState) : Mbc3RtcState :=
  match register with
  | Seconds => r <| seconds := Z.land value 0x3F |>
  | Minutes => r <| minutes := Z.land value 0x3F |>
  | Hours => r <| hours := Z.land value 0x1F |>
  | DayLow => r <| day_counter := Z.lor (Z.land (day_counter r) 0x0100) value |>
  | DayHigh =>
      r <| day_counter := Z.lor (Z.land (day_counter r) 0x00FF) (Z.shiftl (Z.land value 0x01) 8) |>
        <| halt := has_bits value 0x40 |>
        <| carry := has_bits value 0x80 |>
  end.

(** ** One second *)

Definition mbc3_rtc_fields_are_canonical (r : Mbc3RtcState) : bool :=
  (seconds r <? 60) && (minutes r <? 60) && (hours r <? 24).

Definition mbc3_rtc_tick_one_day (r : Mbc3RtcState) : Mbc3RtcState :=
  let next_day := Z.land (day_counter r) 0x01FF + 1 in
  if 0x01FF <? next_day then r <| day_counter := 0 |> <| carry := true |>
  else r <| day_counter := next_day |>.

Definition mbc3_rtc_tick_one_hour (r : Mbc3RtcState) : Mbc3RtcState :=
  if hours r =? 23 then mbc3_rtc_tick_one_day (r <| hours := 0 |>)
  else if hours r =? 31 then r <| hours := 0 |>
  else r <| hours := Z.land (hours r + 1) 0x1F |>.

Definition mbc3_rtc_tick_one_minute (r : Mbc3RtcState) : Mbc3RtcState :=
  if minutes r =? 59 then mbc3_rtc_tick_one_hour (r <| minutes := 0 |>)
  else if minutes r =? 63 then r <| minutes := 0 |>
  else r <| minutes := Z.land (minutes r + 1) 0x3F |>.

Definition mbc3_rtc_tick_one_second (r : Mbc3RtcState) : Mbc3RtcState :=
  if seconds r =? 59 then mbc3_rtc_tick_one_minute (r <| seconds := 0 |>)
  else if seconds r =? 63 then r <| seconds := 0 |>
  else r <| seconds := Z.land (seconds r + 1) 0x3F |>.

(** ** The bulk advance *)

(** The loop [while remaining_seconds > 0 && !canonical], with fuel. *)
Fixpoint tick_until_canonical (fuel : nat) (remaining_seconds : Z) (r : Mbc3RtcState)
    : option (Z * Mbc3RtcState) :=
  if (0 <? remaining_seconds) && negb (mbc3_rtc_fields_are_canonical r) then
    match fuel with
    | O => None
    | S fuel' => tick_until_canonical fuel' (remaining_seconds - 1) (mbc3_rtc_tick_one_second r)
    end
  else Some (remaining_seconds, r).

(** Enough for the farthest registers: 8 hours, 64 minutes and 64 seconds. *)
Definition RTC_CANONICAL_FUEL : nat := Z.to_nat 33000.

Lemma RTC_CANONICAL_FUEL_value : Z.of_nat RTC_CANONICAL_FUEL = 33000.
Proof. by apply Z2Nat.id. Qed.
#[global] Opaque RTC_CANONICAL_FUEL.

Definition masked_fields (r : Mbc3RtcState) : Mbc3RtcState :=
  r <| seconds := Z.land (seconds r) 0x3F |>
    <| minutes := Z.land (minutes r) 0x3F |>
    <| hours := Z.land (hours r) 0x1F |>
    <| day_counter := Z.land (day_counter r) 0x01FF |>.

(** The closing computation of [advance_mbc3_rtc_fields], on [u64]. *)
Definition advance_canonical (remaining_seconds : Z) (r : Mbc3RtcState) : outcome Mbc3RtcState :=
  let current_total_seconds :=
    day_counter r * 86400 + hours r * 3600 + minutes r * 60 + seconds r in
  if 18446744073709551616 <=? current_total_seconds + remaining_seconds
  then Panic "attempt to add with overflow"
  else
    let advanced_total_seconds := current_total_seconds + remaining_seconds in
    let total_days := advanced_total_seconds / 86400 in
    let r := if 511 <? total_days then r <| carry := true |> else r in
    let wrapped_days := total_days mod 512 in
    let day_seconds := advanced_total_seconds mod 86400 in
    Done (r <| day_counter := wrapped_days |>
            <| hours := day_seconds / 3600 |>
            <| minutes := day_seconds mod 3600 / 60 |>
            <| seconds := day_seconds mod 60 |>).

Definition advance_mbc3_rtc_fields (elapsed_seconds : Z) (r : Mbc3RtcState) : outcome Mbc3RtcState :=
  if halt r || (elapsed_seconds =? 0) then Done r
  else
    match tick_until_canonical RTC_CANONICAL_FUEL elapsed_seconds (masked_fields r) with
    | None => Panic "fuel"
    | Some (remaining_seconds, r) =>
        if remaining_seconds =? 0 then Done r else advance_canonical remaining_seconds r
    end.

Definition apply_elapsed_seconds (elapsed_seconds : Z) (p : Mbc3RtcPersistentState)
    : outcome Mbc3RtcPersistentState :=
  r ← advance_mbc3_rtc_fields elapsed_seconds (rtc_from_persistent p);
  mret (rtc_to_persistent r).

(** ** Invariant *)

(** What the registers can hold: six, six and five bits, a nine-bit day. *)
Definition rtc_ok (r : Mbc3RtcState) : Prop :=
  0 <= seconds r < 64 /\ 0 <= minutes r < 64 /\ 0 <= hours r < 32 /\ 0 <= day_counter r < 512.

Definition rtc_canonical (r : Mbc3RtcState) : Prop :=
  0 <= seconds r < 60 /\ 0 <= minutes r < 60 /\ 0 <= hours r < 24 /\ 0 <= day_counter r < 512.

Lemma land_3F x : Z.land x 0x3F = x mod 64.
Proof. by apply (land_mask 6). Qed.
#[export] Hint Rewrite land_3F : masks.

Ltac rtc_cases r := destruct r as [s m h d t c]; simpl in *.

Lemma masked_fields_ok r : rtc_ok (masked_fields r).
Proof.
  rtc_cases r. unfold rtc_ok. simpl. autorewrite with masks. divmod_lia.
Qed.

Lemma masked_fields_id r : rtc_ok r -> masked_fields r = r.
Proof.
  rtc_cases r. unfold rtc_ok, masked_fields. simpl. autorewrite with masks. intros (? & ? & ? & ?).
  by rewrite !Z.mod_small by lia.
Qed.

Lemma canonical_spec r : rtc_ok r -> mbc3_rtc_fields_are_canonical r = true <-> rtc_canonical r.
Proof.
  unfold rtc_ok, rtc_canonical, mbc3_rtc_fields_are_canonical. intros (? & ? & ? & ?).
  rewrite !andb_true_iff, !Z.ltb_lt. lia.
Qed.

Lemma rtc_canonical_ok r : rtc_canonical r -> rtc_ok r.
Proof. unfold rtc_canonical, rtc_ok. lia. Qed.

(** A second in closed form on canonical registers. *)
Definition total_seconds (r : Mbc3RtcState) : Z :=
  day_counter r * 86400 + hours r * 3600 + minutes r * 60 + seconds r.

Definition of_total (total : Z) (carry halt : bool) : Mbc3RtcState :=
  let day_seconds := total mod 86400 in
  mkRtc (day_seconds mod 60) (day_seconds mod 3600 / 60) (day_seconds / 3600)
        (total / 86400 mod 512) halt (carry || (511 <? total / 86400)).

Lemma of_total_canonical r : rtc_canonical r -> of_total (total_seconds r) (carry r) (halt r) = r.
Proof.
  rtc_cases r. unfold rtc_canonical, of_total, total_seconds. simpl. intros (? & ? & ? & ?).
  replace (511 <? (d * 86400 + h * 3600 + m * 60 + s) / 86400) with false
    by (symmetry; apply Z.ltb_ge; divmod_lia).
  rewrite orb_false_r. f_equal; divmod_lia.
Qed.

Lemma of_total_parts days h m s carry halt :
  0 <= days -> 0 <= h < 24 -> 0 <= m < 60 -> 0 <= s < 60 ->
  of_total (days * 86400 + h * 3600 + m * 60 + s) carry halt =
  mkRtc s m h (days mod 512) halt (carry || (511 <? days)).
Proof.
  intros Hd Hh Hm Hs. unfold of_total.
  assert (Hdays : (days * 86400 + h * 3600 + m * 60 + s) / 86400 = days) by divmod_lia.
  assert (Hsecs : (days * 86400 + h * 3600 + m * 60 + s) mod 86400 = h * 3600 + m * 60 + s) by divmod_lia.
  rewrite Hdays, Hsecs. f_equal; divmod_lia.
Qed.

Lemma parts_of_total total :
  0 <= total ->
  exists days h m s, total = days * 86400 + h * 3600 + m * 60 + s /\
    0 <= days /\ 0 <= h < 24 /\ 0 <= m < 60 /\ 0 <= s < 60.
Proof.
  intros Ht. exists (total / 86400), (total mod 86400 / 3600), (total mod 3600 / 60), (total mod 60).
  divmod_lia.
Qed.

(** A second of the canonical clock is one more second in total. *)
Lemma tick_of_total total carry halt :
  0 <= total -> mbc3_rtc_tick_one_second (of_total total carry halt) = of_total (total + 1) carry halt.
Proof.
  intros Ht. destruct (parts_of_total total Ht) as (d & h & m & s & -> & Hd & Hh & Hm & Hs).
  rewrite of_total_parts by done.
  unfold mbc3_rtc_tick_one_second, mbc3_rtc_tick_one_minute, mbc3_rtc_tick_one_hour, mbc3_rtc_tick_one_day.
  cbn [seconds minutes hours day_counter update upd_seconds upd_minutes upd_hours upd_day_counter].
  autorewrite with masks.
  destruct (Z.eqb_spec s 59) as [->|Hs59].
  2: { destruct (Z.eqb_spec s 63); [lia|]. rewrite Z.mod_small by lia.
       replace (d * 86400 + h * 3600 + m * 60 + s + 1) with (d * 86400 + h * 3600 + m * 60 + (s + 1)) by lia.
       by rewrite of_total_parts by lia. }
  destruct (Z.eqb_spec m 59) as [->|Hm59].
  2: { destruct (Z.eqb_spec m 63); [lia|]. rewrite Z.mod_small by lia.
       replace (d * 86400 + h * 3600 + m * 60 + 59 + 1) with (d * 86400 + h * 3600 + (m + 1) * 60 + 0) by lia.
       by rewrite of_total_parts by lia. }
  destruct (Z.eqb_spec h 23) as [->|Hh23].
  2: { destruct (Z.eqb_spec h 31); [lia|]. rewrite Z.mod_small by lia.
       replace (d * 86400 + h * 3600 + 59 * 60 + 59 + 1) with (d * 86400 + (h + 1) * 3600 + 0 * 60 + 0) by lia.
       by rewrite of_total_parts by lia. }
  replace (d * 86400 + 23 * 3600 + 59 * 60 + 59 + 1) with ((d + 1) * 86400 + 0 * 3600 + 0 * 60 + 0) by lia.
  rewrite of_total_parts by lia. rewrite Z.mod_mod by lia.
  destruct (Z.ltb_spec 511 (d mod 512 + 1)); unfold update, upd_carry, upd_day_counter; simpl.
  - f_equal; [divmod_lia|]. replace (511 <? d + 1) with true by (symmetry; apply Z.ltb_lt; divmod_lia).
    by rewrite orb_true_r.
  - f_equal; [divmod_lia|]. f_equal.
    destruct (Z.ltb_spec 511 d), (Z.ltb_spec 511 (d + 1)); try done; divmod_lia.
Qed.

Lemma tick_ok r : rtc_ok r -> rtc_ok (mbc3_rtc_tick_one_second r).
Proof.
  rtc_cases r. unfold rtc_ok. simpl. intros (? & ? & ? & ?).
  unfold mbc3_rtc_tick_one_second, mbc3_rtc_tick_one_minute, mbc3_rtc_tick_one_hour, mbc3_rtc_tick_one_day.
  simpl. repeat case_match; simpl; prune; autorewrite with masks in *; divmod_lia.
Qed.

Lemma tick_halt r : halt (mbc3_rtc_tick_one_second r) = halt r.
Proof.
  rtc_cases r.
  unfold mbc3_rtc_tick_one_second, mbc3_rtc_tick_one_minute, mbc3_rtc_tick_one_hour, mbc3_rtc_tick_one_day.
  simpl. by repeat case_match.
Qed.

(** Seconds until the next carry out of the seconds, minutes until the next
    carry out of the minutes, hours until the hours are back in range. *)
Definition until_canonical (r : Mbc3RtcState) : Z :=
  let s := if seconds r <? 60 then 60 - seconds r else 124 - seconds r in
  let m := if minutes r <? 60 then 60 - minutes r else 124 - minutes r in
  let h := if hours r <? 24 then 0 else 32 - hours r in
  s + 60 * m + 3600 * h.

Lemma until_canonical_pos r : rtc_ok r -> 0 < until_canonical r <= 32704.
Proof.
  rtc_cases r. unfold rtc_ok, until_canonical. simpl. intros (? & ? & ? & ?). case_tests; prune; lia.
Qed.

Lemma until_canonical_tick r :
  rtc_ok r -> mbc3_rtc_fields_are_canonical r = false ->
  until_canonical (mbc3_rtc_tick_one_second r) = until_canonical r - 1 \/
  mbc3_rtc_fields_are_canonical (mbc3_rtc_tick_one_second r) = true.
Proof.
  rtc_cases r. unfold rtc_ok, mbc3_rtc_fields_are_canonical. simpl. intros (? & ? & ? & ?) Hc.
  apply andb_false_iff in Hc. rewrite andb_false_iff, !Z.ltb_ge in Hc.
  unfold until_canonical, mbc3_rtc_tick_one_second, mbc3_rtc_tick_one_minute, mbc3_rtc_tick_one_hour,
    mbc3_rtc_tick_one_day. simpl.
  rewrite !andb_true_iff, !Z.ltb_lt.
  repeat (case_match; prune; simpl in *; try lia); autorewrite with masks in *;
    rewrite ?Z.mod_small in * by lia; try lia.
Qed.

(** The loop stops within its fuel, having ticked as many seconds as it
    consumed. *)
Lemma tick_until_canonical_spec fuel remaining r :
  rtc_ok r -> 0 <= remaining ->
  (mbc3_rtc_fields_are_canonical r = false -> until_canonical r <= Z.of_nat fuel) ->
  exists n : nat,
    tick_until_canonical fuel remaining r =
      Some (remaining - Z.of_nat n, iterate n mbc3_rtc_tick_one_second r) /\
    Z.of_nat n <= remaining /\
    (remaining - Z.of_nat n = 0 \/ rtc_canonical (iterate n mbc3_rtc_tick_one_second r)).
Proof.
  revert remaining r. induction fuel as [|fuel IH]; intros remaining r Hok Hrem Hfuel;
    cbn [tick_until_canonical];
    destruct (mbc3_rtc_fields_are_canonical r) eqn:Hcan;
    [ | | | destruct (Z.ltb_spec 0 remaining) as [Hpos|Hzero]]; simpl.
  - exists O. rewrite andb_false_r, Z.sub_0_r. apply canonical_spec in Hcan; [|done]. simpl. auto.
  - pose proof (until_canonical_pos r Hok). specialize (Hfuel eq_refl). lia.
  - exists O. rewrite andb_false_r, Z.sub_0_r. apply canonical_spec in Hcan; [|done]. simpl. auto.
  - destruct (IH (remaining - 1) (mbc3_rtc_tick_one_second r)) as (n & Hn & Hle & Hend);
      [by apply tick_ok | lia | |].
    + intros Hcan'. destruct (until_canonical_tick r Hok Hcan) as [Hdec | Hc]; [|congruence].
      specialize (Hfuel eq_refl). lia.
    + exists (S n). rewrite Hn. cbn [iterate].
      replace (remaining - Z.of_nat (S n)) with (remaining - 1 - Z.of_nat n) by lia.
      split_and!; [done | lia | done].
  - exists O. simpl. rewrite Z.sub_0_r. split_and!; [done | lia | left; lia].
Qed.

Lemma iterate_of_total n total carry halt :
  0 <= total ->
  iterate n mbc3_rtc_tick_one_second (of_total total carry halt) = of_total (total + Z.of_nat n) carry halt.
Proof.
  revert total. induction n as [|n IH]; intros total Ht; cbn [iterate].
  - by rewrite Z.add_0_r.
  - rewrite tick_of_total, IH by lia. f_equal. lia.
Qed.

Lemma advance_canonical_spec remaining r :
  rtc_canonical r -> 0 <= remaining < 18446744073665314817 ->
  advance_canonical remaining r = Done (iterate (Z.to_nat remaining) mbc3_rtc_tick_one_second r).
Proof.
  intros Hc Hr. rewrite <- (of_total_canonical r Hc) at 2.
  assert (Ht : 0 <= total_seconds r < 44236800).
  { rtc_cases r. unfold rtc_canonical, total_seconds in *. simpl in *. lia. }
  rewrite iterate_of_total, Z2Nat.id by lia. unfold advance_canonical, of_total, total_seconds in *.
  rtc_cases r. destruct (Z.leb_spec 18446744073709551616 (d * 86400 + h * 3600 + m * 60 + s + remaining)); [lia|].
  f_equal. destruct (511 <? _) eqn:E; unfold update, upd_carry; simpl; [by rewrite orb_true_r | by rewrite orb_false_r].
Qed.

(** The bulk advance without its guard. *)
Lemma advance_spec elapsed r :
  0 <= elapsed < 18446744073665314817 -> halt r = false ->
  advance_mbc3_rtc_fields elapsed r =
    Done (if elapsed =? 0 then r
          else iterate (Z.to_nat elapsed) mbc3_rtc_tick_one_second (masked_fields r)).
Proof.
  intros He Hh. unfold advance_mbc3_rtc_fields. rewrite Hh, orb_false_l.
  destruct (Z.eqb_spec elapsed 0) as [|Hne]; [done|].
  destruct (tick_until_canonical_spec RTC_CANONICAL_FUEL elapsed (masked_fields r)) as (n & Hn & Hle & Hend);
    [apply masked_fields_ok | lia | |].
  { intros _. pose proof (until_canonical_pos _ (masked_fields_ok r)).
    rewrite RTC_CANONICAL_FUEL_value. lia. }
  rewrite Hn. destruct (Z.eqb_spec (elapsed - Z.of_nat n) 0) as [Hz|Hz].
  - do 2 f_equal. lia.
  - destruct Hend as [|Hcan]; [done|]. rewrite advance_canonical_spec by (done || lia).
    rewrite <- iterate_add. do 2 f_equal. lia.
Qed.

Lemma iterate_tick_ok n r : rtc_ok r -> rtc_ok (iterate n mbc3_rtc_tick_one_second r).
Proof. apply iterate_ind, tick_ok. Qed.

Lemma iterate_tick_halt n r : halt (iterate n mbc3_rtc_tick_one_second r) = halt r.
Proof. revert r. induction n as [|n IH]; intros r; [done|]. cbn [iterate]. by rewrite IH, tick_halt. Qed.

Lemma advance_ok elapsed r :
  0 <= elapsed < 18446744073665314817 -> rtc_ok r ->
  exists r', advance_mbc3_rtc_fields elapsed r = Done r' /\ rtc_ok r' /\
    r' = (if halt r then r else iterate (Z.to_nat elapsed) mbc3_rtc_tick_one_second r).
Proof.
  intros He Hok. destruct (halt r) eqn:Hh.
  - exists r. unfold advance_mbc3_rtc_fields. by rewrite Hh.
  - exists (iterate (Z.to_nat elapsed) mbc3_rtc_tick_one_second r).
    rewrite advance_spec, masked_fields_id by done.
    split_and!; [|by apply iterate_tick_ok | done].
    by destruct (Z.eqb_spec elapsed 0) as [->|].
Qed.

Lemma rtc_write_ok register value r : u8 value -> rtc_ok r -> rtc_ok (rtc_write register value r).
Proof.
  unfold u8, rtc_ok. rtc_cases r. intros Hv (? & ? & ? & ?).
  assert (Hlow : forall z, 0 <= Z.lor (Z.land z 0x0100) value < 512)
    by (intros; apply (range_lor 9); [lia | rewrite Z.land_comm; apply (range_land 9); lia | lia]).
  assert (Hhigh : forall z, 0 <= Z.lor (Z.land z 0x00FF) (Z.shiftl (Z.land value 1) 8) < 512).
  { intros. apply (range_lor 9); [lia | rewrite Z.land_comm; apply (range_land 9); lia |].
    rewrite Z.shiftl_mul_pow2 by lia. autorewrite with masks. divmod_lia. }
  destruct register; simpl; (refine (conj _ (conj _ (conj _ _))); [.. |]); try lia; auto;
    autorewrite with masks; divmod_lia.
Qed.

Lemma rtc_read_u8 register r : rtc_ok r -> u8 (rtc_read register r).
Proof.
  unfold rtc_ok, u8. rtc_cases r. intros (? & ? & ? & ?).
  destruct register; simpl; try lia; [apply u8_mod|].
  apply u8_lor; [apply u8_lor; [apply u8_land |] |]; try apply u8_mod.
Qed.

(** ** Properties *)

(** The period of the whole clock: 512 days. *)
Definition RTC_CYCLE_SECONDS : Z := 512 * 86400.

(** C33.  The bulk advance is the hardware's seconds, one by one: for every
    elapsed time short of overflowing 64 bits and every content of the
    registers, out-of-range fields included, it terminates without panic in
    the state of that many single-second ticks of the masked registers; a
    halted clock does not move.  On a canonical time this is calendar
    arithmetic: the time advances modulo 512 days and the carry is set
    exactly when the day counter overflows. *)
Theorem bulk_advance_is_repeated_seconds (elapsed : Z) (r : Mbc3RtcState) :
  0 <= elapsed -> elapsed + RTC_CYCLE_SECONDS <= 18446744073709551616 ->
  (halt r = true -> advance_mbc3_rtc_fields elapsed r = Done r) /\
  (halt r = false -> 0 < elapsed ->
   advance_mbc3_rtc_fields elapsed r =
     Done (iterate (Z.to_nat elapsed) mbc3_rtc_tick_one_second (masked_fields r))) /\
  (halt r = false -> rtc_canonical r ->
   exists r', advance_mbc3_rtc_fields elapsed r = Done r' /\ rtc_canonical r' /\
     total_seconds r' = (total_seconds r + elapsed) mod RTC_CYCLE_SECONDS /\
     carry r' = carry r || (RTC_CYCLE_SECONDS <=? total_seconds r + elapsed)).
Proof.
  unfold RTC_CYCLE_SECONDS. intros He Hmax. split_and!.
  - intros Hh. unfold advance_mbc3_rtc_fields. by rewrite Hh.
  - intros Hh Hpos. rewrite advance_spec by (done || lia).
    by destruct (Z.eqb_spec elapsed 0); [lia|].
  - intros Hh Hc. destruct (advance_ok elapsed r) as (r' & Hr' & _ & Heq); [lia | by apply rtc_canonical_ok |].
    exists r'. split; [done|]. rewrite Hh in Heq.
    assert (Ht : 0 <= total_seconds r)
      by (rtc_cases r; unfold rtc_canonical, total_seconds in *; simpl in *; lia).
    rewrite <- (of_total_canonical r Hc), iterate_of_total, Z2Nat.id in Heq by lia.
    destruct (parts_of_total (total_seconds r + elapsed)) as (d & h & m & s & E & ? & ? & ? & ?); [lia|].
    rewrite E in Heq |- *. rewrite of_total_parts in Heq by done. subst r'.
    unfold rtc_canonical, total_seconds. simpl. split; [divmod_lia|]. split; [divmod_lia|].
    f_equal. destruct (Z.ltb_spec 511 d), (Z.leb_spec (512 * 86400) (d * 86400 + h * 3600 + m * 60 + s)); lia.
Qed.

(** Seconds 61 (out of range), 23:59:61 on the last day: eight seconds on. *)
Lemma bulk_advance_is_repeated_seconds_witness :
  let r := mkRtc 61 59 23 511 false false in
  0 <= 8 /\ 8 + RTC_CYCLE_SECONDS <= 18446744073709551616 /\
  advance_mbc3_rtc_fields 8 r = Done (mkRtc 5 59 23 511 false false) /\
  exists r', advance_mbc3_rtc_fields 8 (mkRtc 59 59 23 511 false false) = Done r' /\
    total_seconds r' = 7 /\ carry r' = true.
Proof.
  assert (H0 : 0 <= 8) by lia.
  assert (H1 : 8 + RTC_CYCLE_SECONDS <= 18446744073709551616) by (unfold RTC_CYCLE_SECONDS; lia).
  split; [exact H0 | split; [exact H1 | split]].
  - exact (proj1 (proj2 (bulk_advance_is_repeated_seconds 8 (mkRtc 61 59 23 511 false false) H0 H1))
      eq_refl ltac:(lia)).
  - destruct (proj2 (proj2 (bulk_advance_is_repeated_seconds 8 (mkRtc 59 59 23 511 false false) H0 H1))
      eq_refl) as (r' & Hr & _ & Ht & Hc); [unfold rtc_canonical; simpl; lia|].
    exists r'. split; [exact Hr | split; [exact Ht | exact Hc]].
Defined.
