(* ===== verification/CartridgeHeader.v ===== *)
(** * Cartridge header ([crates/gb-core/src/cartridge/header.rs])

    The header fields, the size codes and flags, and the choice between the
    header at the start of the image and the trailing menu header of the MMM01
    boards.  A ROM image is a list of bytes; the decoded title is kept as the
    bytes that [String::from_utf8_lossy] receives. *)

From Stdlib Require Import ZArith Lia Bool String.
From stdpp Require Import base list decidable.
From S2P Require Import Prelude.

Local Open Scope Z_scope.

Definition HEADER_MINIMUM_ROM_LEN : Z := 0x0150.
Definition ENTRY_POINT_LEN : Z := 4.
Definition NINTENDO_LOGO_LEN : Z := 48.
Definition ENTRY_POINT_START : Z := 0x0100.
Definition NINTENDO_LOGO_START : Z := 0x0104.
Definition TITLE_START : Z := 0x0134.
Definition MANUFACTURER_CODE_START : Z := 0x013F.
Definition MANUFACTURER_CODE_END_INCLUSIVE : Z := 0x0142.
Definition TITLE_END_INCLUSIVE : Z := 0x0143.
Definition CGB_FLAG_ADDRESS : Z := 0x0143.
Definition NEW_LICENSEE_CODE_START : Z := 0x0144.
Definition SGB_FLAG_ADDRESS : Z := 0x0146.
Definition CARTRIDGE_TYPE_ADDRESS : Z := 0x0147.
Definition ROM_SIZE_ADDRESS : Z := 0x0148.
Definition RAM_SIZE_ADDRESS : Z := 0x0149.
Definition DESTINATION_CODE_ADDRESS : Z := 0x014A.
Definition OLD_LICENSEE_CODE_ADDRESS : Z := 0x014B.
Definition HEADER_CHECKSUM_ADDRESS : Z := 0x014D.
Definition TITLE_BYTES_LEN : Z := TITLE_END_INCLUSIVE - TITLE_START + 1.
Definition MANUFACTURER_CODE_LEN : Z := MANUFACTURER_CODE_END_INCLUSIVE - MANUFACTURER_CODE_START + 1.
Definition NEW_LICENSEE_CODE_LEN : Z := 2.

Definition ROM_BANK_BYTES : Z := 16 * 1024.
Definition MMM01_MENU_BYTES : Z := 32 * 1024.
Definition MMM01_MIN_ROM_BYTES : Z := 64 * 1024.
Definition MANI_MMM01_SUPPORTED_ROM_BYTES : list Z := [512 * 1024; 1024 * 1024].
Definition MANI_MMM01_MENU_TYPE : Z := 0x11.
Definition MANI_MMM01_MENU_SUFFIX : list Z := [0x20; 0x53; 0x45; 0x54].

(** ** Data *)

Inductive CgbFlag :=
| CgbNone
| CgbSupported
| CgbOnly
| CgbSupportedNonCanonical (value : Z)
| CgbUnknown (value : Z).

Inductive SgbFlag := SgbNone | SgbSupported | SgbUnknown (value : Z).

Record RomSizeInfo := mkRomSize {
  rom_raw_code : Z;
  rom_decoded_bytes : option Z;
  rom_bank_count : option Z
}.

Record RamSizeInfo := mkRamSize {
  ram_raw_code : Z;
  ram_decoded_bytes : option Z;
  ram_bank_count : option Z
}.

Record CartridgeHeader := mkHeader {
  entry_point : list Z;
  nintendo_logo : list Z;
  title_bytes : list Z;
  raw_title_suffix_or_manufacturer_code : list Z;
  title : list Z;
  cgb_flag : CgbFlag;
  sgb_flag : SgbFlag;
  cartridge_type : Z;
  rom_size : RomSizeInfo;
  ram_size : RamSizeInfo;
  new_licensee_code : list Z;
  destination_code : Z;
  old_licensee_code : Z;
  header_checksum : Z
}.

Inductive CartridgeHeaderParseError :=
| ImageTooSmall (actual_size minimum_size : Z).

(** ** Codes *)

Definition rom_size_decode (raw_code : Z) : RomSizeInfo :=
  if (0x00 <=? raw_code) && (raw_code <=? 0x08) then
    let bank_count := Z.shiftl 2 raw_code in
    mkRomSize raw_code (Some (16 * 1024 * bank_count)) (Some bank_count)
  else
    match raw_code with
    | 0x52 => mkRomSize raw_code (Some (72 * 16 * 1024)) (Some 72)
    | 0x53 => mkRomSize raw_code (Some (80 * 16 * 1024)) (Some 80)
    | 0x54 => mkRomSize raw_code (Some (96 * 16 * 1024)) (Some 96)
    | _ => mkRomSize raw_code None None
    end.

Definition ram_size_decode (raw_code : Z) : RamSizeInfo :=
  match raw_code with
  | 0x00 => mkRamSize raw_code (Some 0) (Some 0)
  | 0x01 => mkRamSize raw_code (Some (2 * 1024)) (Some 1)
  | 0x02 => mkRamSize raw_code (Some (8 * 1024)) (Some 1)
  | 0x03 => mkRamSize raw_code (Some (32 * 1024)) (Some 4)
  | 0x04 => mkRamSize raw_code (Some (128 * 1024)) (Some 16)
  | 0x05 => mkRamSize raw_code (Some (64 * 1024)) (Some 8)
  | _ => mkRamSize raw_code None None
  end.

Definition uses_cgb_title_layout (raw_flag : Z) : bool := has_bits raw_flag 0x80.

Definition decode_cgb_flag (raw_flag : Z) : CgbFlag :=
  match raw_flag with
  | 0x00 => CgbNone
  | 0x80 => CgbSupported
  | 0xC0 => CgbOnly
  | other => if uses_cgb_title_layout other then CgbSupportedNonCanonical other else CgbUnknown other
  end.

Definition decode_sgb_flag (raw_flag : Z) : SgbFlag :=
  match raw_flag with
  | 0x00 => SgbNone
  | 0x03 => SgbSupported
  | other => SgbUnknown other
  end.

Definition enables_cgb_native_mode (f : CgbFlag) : bool :=
  match f with CgbSupported | CgbOnly | CgbSupportedNonCanonical _ => true | _ => false end.

Definition is_cgb_only (f : CgbFlag) : bool := match f with CgbOnly => true | _ => false end.

Definition requests_cgb_dmg_ext_mode (f : CgbFlag) : bool :=
  match f with CgbSupportedNonCanonical value => has_bits value 0x08 | _ => false end.

Definition requests_cgb_dmg_compatibility_mode (f : CgbFlag) : bool :=
  match f with CgbSupportedNonCanonical value => has_bits value 0x04 | _ => false end.

(** ** Parsing *)

(** [rom_bytes[i]] and [rom_bytes[start..start + count]]. *)
Definition rom_byte (rom_bytes : list Z) (i : Z) : outcome Z :=
  match rom_bytes !! Z.to_nat i with
  | Some b => Done b
  | None => Panic "index out of bounds"
  end.

Definition rom_slice (rom_bytes : list Z) (start count : Z) : outcome (list Z) :=
  if start + count <=? Z.of_nat (length rom_bytes)
  then Done (take (Z.to_nat count) (drop (Z.to_nat start) rom_bytes))
  else Panic "range end index out of range".

(** The title up to its first [0x00] or [0xFF] terminator. *)
Fixpoint until_terminator (bytes : list Z) : list Z :=
  match bytes with
  | [] => []
  | b :: rest => if (b =? 0) || (b =? 0xFF) then [] else b :: until_terminator rest
  end.

Definition visible_title_bytes (raw_cgb_flag : Z) (title_bytes : list Z) : list Z :=
  if uses_cgb_title_layout raw_cgb_flag then take (Z.to_nat (TITLE_BYTES_LEN - 1)) title_bytes
  else title_bytes.

Definition parse_at_offset (rom_bytes : list Z) (base_offset : Z)
    : outcome (CartridgeHeader + CartridgeHeaderParseError) :=
  let minimum_size := base_offset + HEADER_MINIMUM_ROM_LEN in
  if Z.of_nat (length rom_bytes) <? minimum_size then
    Done (inr (ImageTooSmall (Z.of_nat (length rom_bytes)) minimum_size))
  else
    entry_point ← rom_slice rom_bytes (base_offset + ENTRY_POINT_START) ENTRY_POINT_LEN;
    nintendo_logo ← rom_slice rom_bytes (base_offset + NINTENDO_LOGO_START) NINTENDO_LOGO_LEN;
    title_bytes ← rom_slice rom_bytes (base_offset + TITLE_START) TITLE_BYTES_LEN;
    manufacturer ← rom_slice rom_bytes (base_offset + MANUFACTURER_CODE_START) MANUFACTURER_CODE_LEN;
    new_licensee_code ← rom_slice rom_bytes (base_offset + NEW_LICENSEE_CODE_START) NEW_LICENSEE_CODE_LEN;
    raw_cgb_flag ← rom_byte rom_bytes (base_offset + CGB_FLAG_ADDRESS);
    old_licensee_code ← rom_byte rom_bytes (base_offset + OLD_LICENSEE_CODE_ADDRESS);
    raw_sgb_flag ← rom_byte rom_bytes (base_offset + SGB_FLAG_ADDRESS);
    cartridge_type ← rom_byte rom_bytes (base_offset + CARTRIDGE_TYPE_ADDRESS);
    rom_code ← rom_byte rom_bytes (base_offset + ROM_SIZE_ADDRESS);
    ram_code ← rom_byte rom_bytes (base_offset + RAM_SIZE_ADDRESS);
    destination_code ← rom_byte rom_bytes (base_offset + DESTINATION_CODE_ADDRESS);
    header_checksum ← rom_byte rom_bytes (base_offset + HEADER_CHECKSUM_ADDRESS);
    mret (inl {|
      entry_point := entry_point;
      nintendo_logo := nintendo_logo;
      title_bytes := title_bytes;
      raw_title_suffix_or_manufacturer_code := manufacturer;
      title := until_terminator (visible_title_bytes raw_cgb_flag title_bytes);
      cgb_flag := decode_cgb_flag raw_cgb_flag;
      sgb_flag := decode_sgb_flag raw_sgb_flag;
      cartridge_type := cartridge_type;
      rom_size := rom_size_decode rom_code;
      ram_size := ram_size_decode ram_code;
      new_licensee_code := new_licensee_code;
      destination_code := destination_code;
      old_licensee_code := old_licensee_code;
      header_checksum := header_checksum
    |}).

Definition parse (rom_bytes : list Z) : outcome (CartridgeHeader + CartridgeHeaderParseError) :=
  parse_at_offset rom_bytes 0.

Definition uses_nintendo_licensee_for_cgb_compatibility (h : CartridgeHeader) : bool :=
  if old_licensee_code h =? 0x33 then bool_decide (new_licensee_code h = [0x30; 0x31])
  else old_licensee_code h =? 0x01.

Definition cgb_compatibility_title_checksum (h : CartridgeHeader) : option Z :=
  if negb (uses_nintendo_licensee_for_cgb_compatibility h) then None
  else Some (foldl wrapping_add8 0 (title_bytes h)).

(** ** The menu header of the MMM01 boards *)

(** [for base in (0..limit).step_by(0x4000)]. *)
Definition bank_starts (limit : Z) : list Z :=
  map (fun k => Z.of_nat k * 0x4000) (seq 0 (Z.to_nat ((limit + 0x3FFF) / 0x4000))).

Definition checked_sub (a b : Z) : option Z := if a <? b then None else Some (a - b).

(** The title is tested on its bytes: a lossy UTF-8 decoding keeps every ASCII
    byte, so emptiness and the ASCII suffix are the same tests. *)
Definition title_is_empty (h : CartridgeHeader) : bool := bool_decide (title h = []).
Definition title_ends_with (h : CartridgeHeader) (suffix : list Z) : bool :=
  bool_decide (suffix `suffix_of` title h).

(** The guard on one candidate, and the counting loop around it. *)
Section Count.
Variable rom_bytes : list Z.
Variable accept : CartridgeHeader -> Z -> bool.

Fixpoint count_subheaders (starts : list Z) : outcome Z :=
  match starts with
  | [] => mret 0
  | base_offset :: rest =>
      candidate ← parse_at_offset rom_bytes base_offset;
      n ← count_subheaders rest;
      mret (match candidate with
            | inr _ => n
            | inl h =>
                match rom_decoded_bytes (rom_size h) with
                | None => n
                | Some subrom_bytes => if accept h subrom_bytes then n + 1 else n
                end
            end)
  end.
End Count.

Definition mani_subheader (rom_len : Z) (expected_logo : list Z) (h : CartridgeHeader) (subrom_bytes : Z) : bool :=
  bool_decide (nintendo_logo h = expected_logo) &&
  ((0x00 <=? cartridge_type h) && (cartridge_type h <=? 0x03)) &&
  (ram_raw_code (ram_size h) =? 0x00) &&
  (subrom_bytes <? rom_len) &&
  negb (title_is_empty h) &&
  negb (title_ends_with h MANI_MMM01_MENU_SUFFIX).

Definition count_mani_mmm01_subheaders (rom_bytes expected_logo : list Z) : outcome Z :=
  let rom_len := Z.of_nat (length rom_bytes) in
  count_subheaders rom_bytes (mani_subheader rom_len expected_logo) (bank_starts rom_len).

Definition standard_subheader (rom_len : Z) (expected_logo : list Z) (h : CartridgeHeader) (subrom_bytes : Z) : bool :=
  bool_decide (nintendo_logo h = expected_logo) &&
  negb ((0x0B <=? cartridge_type h) && (cartridge_type h <=? 0x0D)) &&
  (subrom_bytes <? rom_len) &&
  negb (title_is_empty h).

Definition count_standard_mmm01_subheaders (rom_bytes expected_logo : list Z) : outcome Z :=
  let rom_len := Z.of_nat (length rom_bytes) in
  match checked_sub rom_len MMM01_MENU_BYTES with
  | None => Done 0
  | Some menu_offset =>
      count_subheaders rom_bytes (standard_subheader rom_len expected_logo) (bank_starts menu_offset)
  end.

Definition parse_mmm01_menu_header (rom_bytes : list Z) : outcome (option CartridgeHeader) :=
  let rom_len := Z.of_nat (length rom_bytes) in
  if rom_len <? MMM01_MIN_ROM_BYTES then Done None
  else
    match checked_sub rom_len MMM01_MENU_BYTES with
    | None => Done None
    | Some base_offset =>
        if base_offset =? 0 then Done None
        else
          parsed ← parse_at_offset rom_bytes base_offset;
          match parsed with
          | inr _ => Done None
          | inl candidate =>
              if negb ((0x0B <=? cartridge_type candidate) && (cartridge_type candidate <=? 0x0D)) then Done None
              else if negb (bool_decide (rom_decoded_bytes (rom_size candidate) = Some rom_len)) then Done None
              else if title_is_empty candidate then Done None
              else
                n ← count_standard_mmm01_subheaders rom_bytes (nintendo_logo candidate);
                if n <? 2 then Done None else Done (Some candidate)
          end
    end.

Definition parse_mani_mmm01_menu_header (rom_bytes : list Z) (primary : CartridgeHeader)
    : outcome (option CartridgeHeader) :=
  let rom_len := Z.of_nat (length rom_bytes) in
  if negb ((0x01 <=? cartridge_type primary) && (cartridge_type primary <=? 0x03)) ||
     negb (ram_raw_code (ram_size primary) =? 0x00) ||
     negb (bool_decide (rom_len ∈ MANI_MMM01_SUPPORTED_ROM_BYTES))
  then Done None
  else
    match checked_sub rom_len MMM01_MENU_BYTES with
    | None => Done None
    | Some base_offset =>
        if base_offset =? 0 then Done None
        else
          parsed ← parse_at_offset rom_bytes base_offset;
          match parsed with
          | inr _ => Done None
          | inl candidate =>
              if negb (cartridge_type candidate =? MANI_MMM01_MENU_TYPE) ||
                 negb (ram_raw_code (ram_size candidate) =? 0x00) ||
                 negb (bool_decide (ram_decoded_bytes (ram_size candidate) = Some 0)) ||
                 negb (bool_decide (rom_decoded_bytes (rom_size candidate) = Some rom_len)) ||
                 negb (title_ends_with candidate MANI_MMM01_MENU_SUFFIX) ||
                 negb (bool_decide (nintendo_logo candidate = nintendo_logo primary))
              then Done None
              else
                n ← count_mani_mmm01_subheaders rom_bytes (nintendo_logo candidate);
                if 4 <=? n then Done (Some candidate) else Done None
          end
    end.

Definition parse_for_load (rom_bytes : list Z) : outcome (CartridgeHeader + CartridgeHeaderParseError) :=
  primary ← parse rom_bytes;
  match primary with
  | inr e => Done (inr e)
  | inl primary =>
      menu_header ← parse_mmm01_menu_header rom_bytes;
      match menu_header with
      | Some menu_header => Done (inl menu_header)
      | None =>
          mani ← parse_mani_mmm01_menu_header rom_bytes primary;
          Done (inl (default primary mani))
      end
  end.

(** ** Specification *)

(** The header [h] is what the image holds at [base]. *)
Record header_at (rom_bytes : list Z) (base : Z) (h : CartridgeHeader) : Prop := {
  at_cartridge_type : rom_bytes !! Z.to_nat (base + 0x147) = Some (cartridge_type h);
  at_rom_size : exists code, rom_bytes !! Z.to_nat (base + 0x148) = Some code /\ rom_size h = rom_size_decode code;
  at_ram_size : exists code, rom_bytes !! Z.to_nat (base + 0x149) = Some code /\ ram_size h = ram_size_decode code;
  at_cgb_flag : exists flag, rom_bytes !! Z.to_nat (base + 0x143) = Some flag /\ cgb_flag h = decode_cgb_flag flag;
  at_destination : rom_bytes !! Z.to_nat (base + 0x14A) = Some (destination_code h);
  at_old_licensee : rom_bytes !! Z.to_nat (base + 0x14B) = Some (old_licensee_code h);
  at_checksum : rom_bytes !! Z.to_nat (base + 0x14D) = Some (header_checksum h);
  at_entry_point : entry_point h = take 4 (drop (Z.to_nat (base + 0x100)) rom_bytes);
  at_logo : nintendo_logo h = take 48 (drop (Z.to_nat (base + 0x104)) rom_bytes);
  at_title_bytes : title_bytes h = take 16 (drop (Z.to_nat (base + 0x134)) rom_bytes);
  at_arrays : length (entry_point h) = 4%nat /\ length (nintendo_logo h) = 48%nat /\
    length (title_bytes h) = 16%nat /\ length (new_licensee_code h) = 2%nat;
  at_title : title h `prefix_of` title_bytes h /\ Forall (fun b => b <> 0 /\ b <> 0xFF) (title h) /\
    (length (title h) <= (if enables_cgb_native_mode (cgb_flag h) then 15 else 16))%nat /\
    ((length (title h) < (if enables_cgb_native_mode (cgb_flag h) then 15 else 16))%nat ->
     exists b, title_bytes h !! length (title h) = Some b /\ (b = 0 \/ b = 0xFF))
}.

(** ** Lemmas *)

Lemma rom_size_decode_shape code :
  rom_decoded_bytes (rom_size_decode code) = (fun n => ROM_BANK_BYTES * n) <$> rom_bank_count (rom_size_decode code) /\
  (forall n, rom_bank_count (rom_size_decode code) = Some n -> 2 <= n <= 512).
Proof.
  unfold rom_size_decode. destruct ((0 <=? code) && (code <=? 8)) eqn:Hsmall.
  - prune. simpl. split; [done|]. intros n [= <-]. rewrite Z.shiftl_mul_pow2 by lia.
    pose proof (Z.pow_le_mono_r 2 0 code). pose proof (Z.pow_le_mono_r 2 code 8). lia.
  - repeat case_match; simpl; split; try done; intros n [= <-]; lia.
Qed.

Lemma ram_size_decode_shape code n :
  ram_bank_count (ram_size_decode code) = Some n ->
  0 <= n <= 16 /\
  (ram_decoded_bytes (ram_size_decode code) = Some (0x2000 * n) \/
   (code = 1 /\ n = 1 /\ ram_decoded_bytes (ram_size_decode code) = Some 2048)).
Proof.
  unfold ram_size_decode. repeat case_match; simpl; try done; intros [= <-]; split; auto; lia.
Qed.

Lemma cgb_flag_layout flag :
  enables_cgb_native_mode (decode_cgb_flag flag) = uses_cgb_title_layout flag.
Proof.
  unfold decode_cgb_flag.
  destruct (decide (flag = 0)) as [->|]; [done|]. destruct (decide (flag = 0x80)) as [->|]; [done|].
  destruct (decide (flag = 0xC0)) as [->|]; [done|].
  assert (Hother : decode_cgb_flag flag =
    if uses_cgb_title_layout flag then CgbSupportedNonCanonical flag else CgbUnknown flag).
  { unfold decode_cgb_flag. repeat case_match; congruence. }
  change (enables_cgb_native_mode (decode_cgb_flag flag) = uses_cgb_title_layout flag).
  rewrite Hother. by destruct (uses_cgb_title_layout flag).
Qed.

Lemma until_terminator_spec l :
  until_terminator l `prefix_of` l /\ Forall (fun b => b <> 0 /\ b <> 0xFF) (until_terminator l) /\
  ((length (until_terminator l) < length l)%nat ->
   exists b, l !! length (until_terminator l) = Some b /\ (b = 0 \/ b = 0xFF)).
Proof.
  induction l as [|b l (IHp & IHf & IHe)]; simpl.
  - split_and!; [apply prefix_nil | done | lia].
  - destruct ((b =? 0) || (b =? 0xFF)) eqn:Hb; simpl.
    + split_and!; [apply prefix_nil | constructor |]. intros _. exists b.
      apply orb_true_iff in Hb as [Hb|Hb]; apply Z.eqb_eq in Hb; auto.
    + apply orb_false_iff in Hb as [Hb1 Hb2]. prune.
      split_and!; [by apply prefix_cons | by constructor |]. intros Hlt. apply IHe. lia.
Qed.

Lemma visible_title_spec flag bytes (t := until_terminator (visible_title_bytes flag bytes))
    (n := if enables_cgb_native_mode (decode_cgb_flag flag) then 15%nat else 16%nat) :
  length bytes = 16%nat ->
  t `prefix_of` bytes /\ Forall (fun b => b <> 0 /\ b <> 0xFF) t /\ (length t <= n)%nat /\
  ((length t < n)%nat -> exists b, bytes !! length t = Some b /\ (b = 0 \/ b = 0xFF)).
Proof.
  intros Hlen. subst n t. rewrite cgb_flag_layout. unfold visible_title_bytes.
  destruct (uses_cgb_title_layout flag).
  - destruct (until_terminator_spec (take (Z.to_nat (TITLE_BYTES_LEN - 1)) bytes)) as (Hp & Hf & Hend).
    change (Z.to_nat (TITLE_BYTES_LEN - 1)) with 15%nat in *. rewrite length_take, Hlen in Hend.
    split_and!; [| done | |].
    + etrans; [exact Hp | apply prefix_take].
    + apply prefix_length in Hp. rewrite length_take in Hp. lia.
    + intros Hlt. destruct Hend as (b' & Hb & Hor); [lia|]. exists b'.
      by rewrite lookup_take_lt in Hb by lia.
  - destruct (until_terminator_spec bytes) as (Hp & Hf & Hend). rewrite Hlen in Hend.
    split_and!; [done | done | apply prefix_length in Hp; lia | done].
Qed.

Lemma rom_byte_ok rom i : 0 <= i < Z.of_nat (length rom) ->
  exists b, rom_byte rom i = Done b /\ rom !! Z.to_nat i = Some b.
Proof.
  intros Hi. unfold rom_byte. destruct (lookup_lt_is_Some_2 rom (Z.to_nat i)) as [b Hb]; [lia|].
  rewrite Hb. eauto.
Qed.

Lemma rom_slice_ok rom start count : 0 <= start -> 0 <= count -> start + count <= Z.of_nat (length rom) ->
  rom_slice rom start count = Done (take (Z.to_nat count) (drop (Z.to_nat start) rom)) /\
  length (take (Z.to_nat count) (drop (Z.to_nat start) rom)) = Z.to_nat count.
Proof.
  intros. unfold rom_slice. destruct (Z.leb_spec (start + count) (Z.of_nat (length rom))); [|lia].
  rewrite length_take, length_drop. split; [done|lia].
Qed.

Ltac parse_byte H := match goal with |- context [rom_byte ?rom ?i] =>
  let b := fresh "b" in destruct (rom_byte_ok rom i) as (b & -> & H); [lia|]; simpl end.
Ltac parse_slice H := match goal with |- context [rom_slice ?rom ?i ?n] =>
  destruct (rom_slice_ok rom i n) as (-> & H); [lia ..|]; simpl end.

Lemma parse_at_offset_small rom base :
  Z.of_nat (length rom) < base + 0x150 ->
  parse_at_offset rom base = Done (inr (ImageTooSmall (Z.of_nat (length rom)) (base + 0x150))).
Proof.
  intros Hlen. unfold parse_at_offset, HEADER_MINIMUM_ROM_LEN.
  by destruct (Z.ltb_spec (Z.of_nat (length rom)) (base + 0x150)); [|lia].
Qed.

Lemma parse_at_offset_spec rom base :
  0 <= base -> base + 0x150 <= Z.of_nat (length rom) ->
  exists h, parse_at_offset rom base = Done (inl h) /\ header_at rom base h.
Proof.
  intros Hbase Hlen. unfold parse_at_offset, HEADER_MINIMUM_ROM_LEN, ENTRY_POINT_START, ENTRY_POINT_LEN,
    NINTENDO_LOGO_START, NINTENDO_LOGO_LEN, TITLE_START, MANUFACTURER_CODE_START, NEW_LICENSEE_CODE_START,
    NEW_LICENSEE_CODE_LEN, CGB_FLAG_ADDRESS, OLD_LICENSEE_CODE_ADDRESS, SGB_FLAG_ADDRESS,
    CARTRIDGE_TYPE_ADDRESS, ROM_SIZE_ADDRESS, RAM_SIZE_ADDRESS, DESTINATION_CODE_ADDRESS, HEADER_CHECKSUM_ADDRESS.
  change MANUFACTURER_CODE_LEN with 4. change TITLE_BYTES_LEN with 16.
  destruct (Z.ltb_spec (Z.of_nat (length rom)) (base + 0x150)); [lia|].
  parse_slice He. parse_slice Hl. parse_slice Ht. parse_slice Hm. parse_slice Hn.
  parse_byte Hcgb. parse_byte Hold. parse_byte Hsgb. parse_byte Htype. parse_byte Hrom. parse_byte Hram.
  parse_byte Hdest. parse_byte Hsum.
  eexists. split; [reflexivity|].
  constructor; cbn -[until_terminator visible_title_bytes Z.to_nat Nat.lt Nat.le]; eauto.
  by apply visible_title_spec.
Qed.

Lemma parse_at_offset_total rom base : 0 <= base -> exists p, parse_at_offset rom base = Done p.
Proof.
  intros Hbase. destruct (Z.lt_ge_cases (Z.of_nat (length rom)) (base + 0x150)).
  - rewrite parse_at_offset_small by done. eauto.
  - destruct (parse_at_offset_spec rom base) as (h & -> & _); eauto.
Qed.

Lemma bank_starts_nonneg limit : Forall (fun b => 0 <= b) (bank_starts limit).
Proof. apply List.Forall_forall. intros b Hb. apply List.in_map_iff in Hb as (k & <- & _). lia. Qed.

Lemma count_subheaders_total rom accept starts :
  Forall (fun b => 0 <= b) starts -> exists n, count_subheaders rom accept starts = Done n.
Proof.
  induction 1 as [|b starts Hb _ [n IH]]; simpl; [eauto|].
  destruct (parse_at_offset_total rom b Hb) as [p ->]. simpl. rewrite IH. simpl. eauto.
Qed.

(** A menu header, when one is chosen, is the header at the last 32 KiB. *)
Definition menu_header_at (rom_bytes : list Z) (h : CartridgeHeader) : Prop :=
  0x8000 < Z.of_nat (length rom_bytes) /\
  header_at rom_bytes (Z.of_nat (length rom_bytes) - 0x8000) h /\
  rom_decoded_bytes (rom_size h) = Some (Z.of_nat (length rom_bytes)).

Lemma checked_sub_menu len : 0x8000 <= len -> checked_sub len MMM01_MENU_BYTES = Some (len - 0x8000).
Proof. intros. unfold checked_sub, MMM01_MENU_BYTES. by destruct (Z.ltb_spec len (32 * 1024)); [lia|]. Qed.

Lemma parse_mmm01_menu_header_spec rom :
  exists r, parse_mmm01_menu_header rom = Done r /\ (forall h, r = Some h -> menu_header_at rom h).
Proof.
  unfold parse_mmm01_menu_header, MMM01_MIN_ROM_BYTES. set (len := Z.of_nat (length rom)).
  destruct (Z.ltb_spec len (64 * 1024)); [by exists None|].
  rewrite checked_sub_menu by lia.
  destruct (Z.eqb_spec (len - 0x8000) 0); [lia|].
  destruct (parse_at_offset_spec rom (len - 0x8000)) as (h & -> & Hat); [lia ..|]. simpl.
  destruct (negb _); [by exists None|].
  case_bool_decide as Hsize; simpl; [|by exists None].
  destruct (title_is_empty h); [by exists None|].
  unfold count_standard_mmm01_subheaders. rewrite checked_sub_menu by lia.
  edestruct count_subheaders_total as [count ->]; [apply bank_starts_nonneg|]. simpl.
  destruct (count <? 2); eexists; (split; [done|]); intros h' [= <-]. split_and!; [lia | done | done].
Qed.

Lemma parse_mani_mmm01_menu_header_spec rom primary :
  exists r, parse_mani_mmm01_menu_header rom primary = Done r /\ (forall h, r = Some h -> menu_header_at rom h).
Proof.
  unfold parse_mani_mmm01_menu_header. set (len := Z.of_nat (length rom)).
  destruct (_ || _ || negb (bool_decide (len ∈ _))) eqn:Hguard; [by exists None|].
  apply orb_false_iff in Hguard as [_ Hguard]. apply negb_false_iff, bool_decide_eq_true in Hguard.
  assert (Hlen : 512 * 1024 <= len).
  { apply list_elem_of_In in Hguard. simpl in Hguard. lia. }
  rewrite checked_sub_menu by lia.
  destruct (Z.eqb_spec (len - 0x8000) 0); [lia|].
  destruct (parse_at_offset_spec rom (len - 0x8000)) as (h & -> & Hat); [lia ..|]. simpl.
  case_match eqn:Hc; [by exists None|].
  assert (Hsize : rom_decoded_bytes (rom_size h) = Some len).
  { repeat match goal with H : _ || _ = false |- _ => apply orb_false_iff in H as [? ?] end.
    repeat match goal with H : negb _ = false |- _ => apply negb_false_iff in H end.
    by repeat match goal with H : bool_decide _ = true |- _ => apply bool_decide_eq_true in H end. }
  unfold count_mani_mmm01_subheaders.
  edestruct count_subheaders_total as [count ->]; [apply bank_starts_nonneg|]. simpl.
  destruct (4 <=? count); eexists; (split; [done|]); intros h' [= <-]. split_and!; [lia | done | done].
Qed.

Lemma parse_for_load_total rom : exists r, parse_for_load rom = Done r.
Proof.
  unfold parse_for_load, parse. destruct (parse_at_offset_total rom 0) as [[h|e] ->]; [lia | | by eexists]. simpl.
  destruct (parse_mmm01_menu_header_spec rom) as ([h'|] & -> & _); [by eexists|]. simpl.
  destruct (parse_mani_mmm01_menu_header_spec rom h) as (r & -> & _). by eexists.
Qed.

(** ** Properties *)

(**  Loading reads the right header: an image below 0x150 bytes is
    refused with its size; otherwise parsing never indexes out of range and
    the header is the image's bytes at their fixed addresses, sizes and flags
    decoded and the title cut at its first terminator, either at the start of
    the image or, for an MMM01 menu, 32 KiB before its end, and then declares
    exactly the size of the image. *)
Theorem header_for_load_is_image_bytes (rom_bytes : list Z) :
  (Z.of_nat (length rom_bytes) < 0x150 ->
   parse_for_load rom_bytes = Done (inr (ImageTooSmall (Z.of_nat (length rom_bytes)) 0x150))) /\
  (0x150 <= Z.of_nat (length rom_bytes) ->
   exists h, parse_for_load rom_bytes = Done (inl h) /\
     ((header_at rom_bytes 0 h /\ parse rom_bytes = Done (inl h)) \/ menu_header_at rom_bytes h)).
Proof.
  unfold parse_for_load, parse. split; intros Hlen.
  - by rewrite parse_at_offset_small by lia.
  - destruct (parse_at_offset_spec rom_bytes 0) as (h & -> & Hat); [lia ..|]. simpl.
    destruct (parse_mmm01_menu_header_spec rom_bytes) as (r & -> & Hr). simpl.
    destruct r as [h'|]; [exists h'; eauto|].
    destruct (parse_mani_mmm01_menu_header_spec rom_bytes h) as (r & -> & Hr'). simpl.
    exists (default h r). split; [done|]. destruct r as [h'|]; simpl; eauto.
Qed.

(** A 336-byte image titled "AB" with a CGB flag, and a shorter one. *)
Definition sample_image : list Z :=
  repeat 0 0x134 ++ [0x41; 0x42; 0] ++ repeat 0x43 12 ++ [0x80; 0; 0; 0; 0x13; 0x01; 0x03; 0; 0x33; 0; 0x99; 0; 0].

Lemma header_for_load_is_image_bytes_witness :
  parse_for_load [0] = Done (inr (ImageTooSmall 1 0x150)) /\
  exists h, parse_for_load sample_image = Done (inl h) /\ title h = [0x41; 0x42] /\ cgb_flag h = CgbSupported /\
    cartridge_type h = 0x13 /\ rom_bank_count (rom_size h) = Some 4 /\ ram_decoded_bytes (ram_size h) = Some 32768.
Proof.
  split.
  - apply (proj1 (header_for_load_is_image_bytes [0])). reflexivity.
  - destruct (proj2 (header_for_load_is_image_bytes sample_image)) as (h & Hp & _); [vm_compute; discriminate|].
    exists h. split; [exact Hp|]. vm_compute in Hp. injection Hp as <-. repeat split; reflexivity.
Defined.
