(* ===== verification/Cartridge.v ===== *)
(** * Cartridge data and the mapper interface
    ([crates/gb-core/src/cartridge.rs], [cartridge/device.rs], [cartridge/validate.rs])

    The data every mapper shares, the validation context of the loader, the
    operations a mapper offers to the cartridge slot as a type class, and the
    contract each mapper promises the rest of the machine.  The contract is
    proved of every state reached by any sequence of operations, against the
    interface. *)

From Stdlib Require Import ZArith Lia Bool String.
From stdpp Require Import base list decidable.
From S2P Require Import Prelude.
From S2P Require Import Model.
From S2P Require Import Mbc3Rtc.
From S2P Require Import CartridgeHeader.

Local Open Scope Z_scope.

Definition RAM_ABSENT_READ_VALUE : Z := 0xFF.
Definition NO_MBC_SUPPORTED_ROM_BYTES : Z := 32 * 1024.
Definition NO_MBC_SUPPORTED_RAM_BYTES : Z := 8 * 1024.

(** ** ROM windows and external accesses *)

Inductive CartridgeMappedRomSource := SourceRom | SourceFlash.

Record CartridgeMappedRomWindow := mkWindow {
  source : CartridgeMappedRomSource;
  bank : Z;
  bank_size : Z;
  bank_offset : Z
}.

Definition rom_window (bank bank_size bank_offset : Z) : CartridgeMappedRomWindow :=
  mkWindow SourceRom bank bank_size bank_offset.

Inductive Mbc6Window := Mbc6WindowA | Mbc6WindowB.
Inductive Mbc7AccelerometerAxis := AxisX | AxisY.
Inductive Mbc7AccelerometerByte := ByteLow | ByteHigh.

Inductive CartridgeRtcRegister := RtcSeconds | RtcMinutes | RtcHours | RtcDayLow | RtcDayHigh.

Inductive CartridgeExternalTarget :=
| NoDevice
| LinearRam
| BankedRam (bank : Z)
| Mbc6Ram (window : Mbc6Window) (bank : Z)
| Mbc2InternalRam
| IrRegister
| Huc3CommandMailbox
| Huc3ResponseMailbox
| Huc3Semaphore
| Huc3InvalidSelector (selector : Z)
| TargetRtcRegister (register : CartridgeRtcRegister)
| TargetReservedSelector (selector : Z)
| Mbc7AccelerometerLatchReset
| Mbc7AccelerometerLatchCommit
| TargetMbc7AccelerometerAxis (axis : Mbc7AccelerometerAxis) (byte : Mbc7AccelerometerByte)
| Mbc7FixedRegister (value : Z)
| TargetMbc7EepromSerial
| Mbc7ReservedRegister (selector : Z)
| PocketCameraRegister (offset : Z).

Inductive CartridgeExternalAvailability := Accessible | Disabled | Absent | Reserved.

Inductive CartridgeExternalReadBehavior :=
| ReadStorage
| InfraredSensor
| OpenBus
| Huc3MailboxResponse
| Huc3SemaphoreReady
| RtcLatched
| Mbc7Accelerometer
| ReadMbc7EepromSerial
| FallbackValue (value : Z).

Inductive CartridgeExternalWriteBehavior :=
| WriteStorage
| InfraredTransmitter
| Huc3MailboxCommandArgument
| Huc3SemaphoreControl
| RtcLive
| Mbc7AccelerometerLatch
| WriteMbc7EepromSerial
| Ignored.

Record CartridgeExternalAccessInfo := mkAccess {
  access_address : Z;
  target : CartridgeExternalTarget;
  availability : CartridgeExternalAvailability;
  read_behavior : CartridgeExternalReadBehavior;
  write_behavior : CartridgeExternalWriteBehavior;
  access_rtc_ready_at : option Z
}.

Definition access_new (address : Z) (target : CartridgeExternalTarget)
    (availability : CartridgeExternalAvailability) (read_behavior : CartridgeExternalReadBehavior)
    (write_behavior : CartridgeExternalWriteBehavior) : CartridgeExternalAccessInfo :=
  mkAccess address target availability read_behavior write_behavior None.

Definition with_rtc_access_ready_at (ready_at : option Z) (i : CartridgeExternalAccessInfo)
    : CartridgeExternalAccessInfo :=
  mkAccess (access_address i) (target i) (availability i) (read_behavior i) (write_behavior i) ready_at.

(** ** Persistence *)

Inductive CartridgeRamPayloadKind :=
| Linear (byte_len : Z)
| Mbc2Nibbles (cell_count : Z).

Inductive CartridgePersistenceProfile :=
| ProfileNone
| NonPersistentRam (ram : CartridgeRamPayloadKind)
| PersistentRam (ram : CartridgeRamPayloadKind)
| PersistentRtc
| PersistentRamAndRtc (ram : CartridgeRamPayloadKind)
| PersistentRamAndFlash (ram : CartridgeRamPayloadKind) (flash_byte_len hidden_byte_len : Z)
| PersistentEeprom (byte_len : Z).

Record CartridgePersistenceMetadata := mkMetadata {
  metadata_has_battery : bool;
  metadata_has_rtc : bool;
  profile : CartridgePersistenceProfile
}.

Record Huc3RtcPersistentState := mkHuc3RtcPersistent {
  current_minutes_of_day : Z;
  current_days : Z;
  current_subminute_seconds : Z;
  event_minutes_of_day : Z;
  event_days : Z
}.

(** The saved state of a HuC-3 board. *)
Record Huc3Persistent := mkHuc3Persistent {
  huc3_ram : list Z;
  huc3_mcu_ram : list Z;
  huc3_rtc : Huc3RtcPersistentState;
  huc3_rom_bank : Z;
  huc3_ram_bank : Z;
  huc3_select_mode : Z;
  huc3_access_address : Z;
  huc3_mailbox_command : Z;
  huc3_mailbox_argument : Z;
  huc3_last_response_nybble : Z;
  huc3_semaphore_ready : bool;
  huc3_ir_emitter_on : bool;
  huc3_ir_light_detected : bool;
  huc3_last_control_write : option Z;
  huc3_last_unsupported_command : option Z;
  huc3_last_unsupported_argument : option Z
}.

Inductive PersistentCartState :=
| SavedNone
| NoMbcRam (ram : list Z)
| Mmm01Ram (ram : list Z)
| Huc1Ram (ram : list Z)
| SavedHuc3 (huc3 : Huc3Persistent)
| Mbc1Ram (ram : list Z)
| Mbc2Ram (ram_nibbles : list Z)
| SavedMbc3Rtc (rtc : Mbc3RtcPersistentState)
| Mbc3Ram (ram : list Z)
| Mbc3RamRtc (ram : list Z) (rtc : Mbc3RtcPersistentState)
| Mbc5Ram (ram : list Z)
| SavedMbc6 (ram flash hidden_region : list Z) (sector0_protected : bool)
| Mbc7Eeprom (eeprom : list Z)
| PocketCameraRam (ram : list Z).

Definition kind_name (s : PersistentCartState) : string :=
  match s with
  | SavedNone => "None"
  | NoMbcRam _ => "NoMbcRam"
  | Mmm01Ram _ => "Mmm01Ram"
  | Huc1Ram _ => "Huc1Ram"
  | SavedHuc3 _ => "Huc3"
  | Mbc1Ram _ => "Mbc1Ram"
  | Mbc2Ram _ => "Mbc2Ram"
  | SavedMbc3Rtc _ => "Mbc3Rtc"
  | Mbc3Ram _ => "Mbc3Ram"
  | Mbc3RamRtc _ _ => "Mbc3RamRtc"
  | Mbc5Ram _ => "Mbc5Ram"
  | SavedMbc6 _ _ _ _ => "Mbc6"
  | Mbc7Eeprom _ => "Mbc7Eeprom"
  | PocketCameraRam _ => "PocketCameraRam"
  end.

Inductive CartridgePersistentStateError :=
| KindMismatch (expected actual : string)
| RamLengthMismatch (expected actual : Z)
| EepromLengthMismatch (expected actual : Z)
| InvalidMbc2NibbleValue (index value : Z)
| InvalidHuc3NibbleValue (index value : Z).

(** ** Classification and load diagnostics *)

Inductive SupportedCartridgeFamily :=
| FamilyNoMbc | FamilyMmm01 | FamilyM161 | FamilyHuc1 | FamilyHuc3 | FamilyMbc1
| FamilyMbc2 | FamilyMbc3 | FamilyMbc5 | FamilyMbc6 | FamilyMbc7 | FamilyPocketCamera.

Inductive UnsupportedCartridgeCategory :=
| PlannedVariant | DocumentedButUnsupported | ExperimentalHeuristic | AccessorySpecialCase | UnknownCode.

Inductive CartridgeSelection :=
| Supported (family : SupportedCartridgeFamily)
| Unsupported (category : UnsupportedCartridgeCategory).

Record CartridgeClassification := mkClassification {
  raw_type : Z;
  detected_name : string;
  selection : CartridgeSelection;
  classification_reason : string
}.

Inductive CartridgeDiagnosticSeverity := SeverityWarning | SeverityError.

(** A formatted message is kept as its format string, without the values
    interpolated into it. *)
Record CartridgeDiagnostic := mkDiagnostic {
  severity : CartridgeDiagnosticSeverity;
  message : string
}.

Inductive CartridgeLoadError :=
| HeaderParse (error : CartridgeHeaderParseError)
| Rejected (classification : CartridgeClassification) (mode : ExecutionMode)
    (reason : string) (diagnostics : list CartridgeDiagnostic).

(** ** The validation context

    The loader's validators read the policy and the classification, append
    diagnostics, reject, and may reach [unreachable!]. *)

Definition V (A : Type) : Type :=
  CompatibilityPolicy -> CartridgeClassification -> list CartridgeDiagnostic ->
  outcome ((A * list CartridgeDiagnostic) + CartridgeLoadError).

#[export] Instance V_ret : MRet V := fun A a compat cls ds => Done (inl (a, ds)).
#[export] Instance V_bind : MBind V := fun A B k m compat cls ds =>
  match m compat cls ds with
  | Done (inl (a, ds)) => k a compat cls ds
  | Done (inr e) => Done (inr e)
  | Panic why => Panic why
  end.

Definition v_compatibility : V CompatibilityPolicy := fun compat cls ds => Done (inl (compat, ds)).
Definition v_classification : V CartridgeClassification := fun compat cls ds => Done (inl (cls, ds)).
Definition v_unreachable {A} (why : string) : V A := fun _ _ _ => Panic why.

Definition reject {A} (reason : string) : V A := fun compat cls ds =>
  Done (inr (Rejected cls (execution_mode compat) reason ds)).

Definition v_push (d : CartridgeDiagnostic) : V unit := fun compat cls ds =>
  Done (inl (tt, ds ++ [d])).

Definition record_degradable_issue (ds : list CartridgeDiagnostic) (policy : ValidationPolicy)
    (message : string) : (unit * list CartridgeDiagnostic) + string :=
  match policy with
  | ValidateStrict => inr message
  | ValidateWarn => inl (tt, ds ++ [mkDiagnostic SeverityWarning message])
  | ValidateIgnore => inl (tt, ds)
  end.

Definition check_degradable (message : string) : V unit := fun compat cls ds =>
  match record_degradable_issue ds (validation_policy compat) message with
  | inl r => Done (inl r)
  | inr reason => reject reason compat cls ds
  end.

(** [if guard { return Err(ctx.reject(reason)) }] and the degradable check. *)
Definition reject_if (guard : bool) (reason : string) : V unit :=
  if guard then reject reason else mret tt.
Definition degrade_if (guard : bool) (message : string) : V unit :=
  if guard then check_degradable message else mret tt.

(** The guards every banked family starts with. *)
Definition declared_exact_size (header : CartridgeHeader) (actual_rom_size : Z) : V Z :=
  match rom_decoded_bytes (rom_size header) with
  | None => reject "{} declared an unsupported ROM size code {:#04X}"
  | Some declared_rom_bytes =>
      reject_if (negb (actual_rom_size =? declared_rom_bytes))
        "{} expects a {}-byte image, but the loaded ROM is {} bytes";;
      mret declared_rom_bytes
  end.

(** ** Vectors *)

Definition vec_len (l : list Z) : Z := Z.of_nat (length l).
Definition vec_get (l : list Z) (i : Z) : option Z := l !! Z.to_nat i.
(** [l[i]], out of range a panic. *)
Definition vec_index (l : list Z) (i : Z) : outcome Z :=
  match vec_get l i with Some v => Done v | None => Panic "index out of bounds" end.
(** [if let Some(byte) = ram.get_mut(i) { *byte = v }]: nothing out of range. *)
Definition vec_set (l : list Z) (i v : Z) : list Z := <[Z.to_nat i := v]> l.
Definition vec_zeroed (n : Z) : list Z := replicate (Z.to_nat n) 0.
Definition byte_or_absent (b : option Z) : Z := default RAM_ABSENT_READ_VALUE b.

(** [address - 0xA000] on [u16]. *)
Definition ram_base_offset (address : Z) : outcome Z :=
  if address <? 0xA000 then Panic "attempt to subtract with overflow" else Done (address - 0xA000).

Definition checked_add64 (a b : Z) : outcome Z :=
  if a + b <? 18446744073709551616 then Done (a + b) else Panic "attempt to add with overflow".

(** ** Boards

    The variants of the mappers that come on several boards, and what never
    changes while a cartridge is inserted. *)

Inductive Mbc1Wiring := WiringStandard | LargeRom.
Inductive Mbc1Variant := Mbc1Standard | Mbc1M.
Inductive Mbc3Variant := Mbc3Standard | Mbc30.
Inductive Mbc5Variant := NoRam | Ram | RamBattery | Rumble | RumbleRam | RumbleRamBattery.

#[export] Instance Mbc1Wiring_eq_dec : EqDecision Mbc1Wiring.
Proof. solve_decision. Defined.
#[export] Instance Mbc1Variant_eq_dec : EqDecision Mbc1Variant.
Proof. solve_decision. Defined.
#[export] Instance Mbc3Variant_eq_dec : EqDecision Mbc3Variant.
Proof. solve_decision. Defined.

Inductive CartridgeRomLayoutSource := DeclaredExact | PermissiveRoundedActual.

Record CartridgeRomLayout := mkRomLayout {
  declared_bytes : option Z;
  actual_bytes : Z;
  effective_bytes : Z;
  effective_bank_count : Z;
  layout_source : CartridgeRomLayoutSource
}.

Inductive BoardKind :=
| BoardNoMbc | BoardMmm01 | BoardM161 | BoardHuc1 | BoardHuc3
| BoardMbc1 (variant : Mbc1Variant) (wiring : Mbc1Wiring)
| BoardMbc2
| BoardMbc3 (variant : Mbc3Variant)
| BoardMbc5 (variant : Mbc5Variant) (layout : CartridgeRomLayout) (rumble : bool)
| BoardMbc6 | BoardMbc7 | BoardPocketCamera.

Record Board := mkBoard {
  board_kind : BoardKind;
  board_header : CartridgeHeader;
  board_classification : CartridgeClassification;
  board_rom : list Z;
  board_ram_len : option Z;
  board_battery : bool;
  board_rtc : bool;
  (** [mapped_rom_window] reports the window that reads use. *)
  board_window_exact : bool;
  (** The image size from which every selectable bank lies inside the image. *)
  board_full_image : Z
}.

(** ** The mapper interface *)

(** The operations of [CartridgeDevice]; the first four are views for the
    specification: the board and the RAM of a state, the work that is due by a
    T-cycle, which timed accesses do first, and the form in which a saved state
    is taken up again. *)
Class Mapper (C : Type) := {
  m_board : C -> Board;
  m_ram : C -> option (list Z);
  m_settle : Z -> C -> C;
  m_taken_up : PersistentCartState -> PersistentCartState;
  m_read_rom : Z -> C -> outcome Z;
  m_mapped_rom_window : Z -> C -> option CartridgeMappedRomWindow;
  m_write_rom : Z -> Z -> C -> outcome C;
  m_read_ram : Z -> C -> outcome Z;
  m_read_ram_timed : Z -> Z -> C -> outcome (Z * C);
  m_write_ram : Z -> Z -> C -> outcome C;
  m_write_ram_timed : Z -> Z -> Z -> C -> outcome C;
  m_describe_external_access : Z -> C -> CartridgeExternalAccessInfo;
  m_advance_rtc_seconds : Z -> C -> outcome C;
  m_advance_mbc3_rtc_clock_ticks : Z -> C -> outcome C;
  m_persistence_metadata : C -> CartridgePersistenceMetadata;
  m_persistent_state : C -> PersistentCartState;
  m_restore_persistent_state : PersistentCartState -> C -> C * option CartridgePersistentStateError
}.

Definition rom_area (a : Z) : Prop := 0 <= a < 0x8000.
Definition external_area (a : Z) : Prop := 0xA000 <= a < 0xC000.
Definition bytes (l : list Z) : Prop := Forall u8 l.

(** A saved state as its Rust type allows it. *)
Definition rtc_typed (seconds minutes hours day_counter : Z) : Prop :=
  u8 seconds /\ u8 minutes /\ u8 hours /\ u16 day_counter.
Definition saved_rtc_typed (p : Mbc3RtcPersistentState) : Prop :=
  rtc_typed (p_seconds p) (p_minutes p) (p_hours p) (p_day_counter p).
Definition huc3_typed (h : Huc3Persistent) : Prop :=
  bytes (huc3_ram h) /\ bytes (huc3_mcu_ram h) /\ length (huc3_mcu_ram h) = 256%nat /\
  u16 (current_minutes_of_day (huc3_rtc h)) /\ u16 (current_days (huc3_rtc h)) /\
  u8 (current_subminute_seconds (huc3_rtc h)) /\
  u16 (event_minutes_of_day (huc3_rtc h)) /\ u16 (event_days (huc3_rtc h)) /\
  u8 (huc3_rom_bank h) /\ u8 (huc3_ram_bank h) /\ u8 (huc3_select_mode h) /\ u8 (huc3_access_address h) /\
  u8 (huc3_mailbox_command h) /\ u8 (huc3_mailbox_argument h) /\ u8 (huc3_last_response_nybble h).
Definition saved_typed (s : PersistentCartState) : Prop :=
  match s with
  | NoMbcRam ram | Mmm01Ram ram | Huc1Ram ram | Mbc1Ram ram | Mbc3Ram ram | Mbc5Ram ram
  | PocketCameraRam ram | Mbc7Eeprom ram => bytes ram
  | Mbc2Ram ram_nibbles => bytes ram_nibbles /\ length ram_nibbles = 512%nat
  | SavedMbc3Rtc rtc => saved_rtc_typed rtc
  | Mbc3RamRtc ram rtc => bytes ram /\ saved_rtc_typed rtc
  | SavedMbc6 ram flash hidden _ => bytes ram /\ bytes flash /\ bytes hidden
  | SavedHuc3 h => huc3_typed h
  | SavedNone => True
  end.

(** *** Operation sequences *)

Inductive cart_op :=
| OpWriteRom (address value : Z)
| OpWriteRam (address value : Z)
| OpWriteRamTimed (address value t_cycle : Z)
| OpReadRamTimed (address t_cycle : Z)
| OpRtcSeconds (seconds : Z)
| OpRtcClockTicks (ticks : Z)
| OpRestore (saved : PersistentCartState).

(** Operations as the bus and the host issue them; the time bounds keep 64-bit
    sums from overflowing. *)
Definition valid_op (op : cart_op) : Prop :=
  match op with
  | OpWriteRom a v => rom_area a /\ u8 v
  | OpWriteRam a v => external_area a /\ u8 v
  | OpWriteRamTimed a v t => external_area a /\ u8 v /\ 0 <= t < 2 ^ 63
  | OpReadRamTimed a t => external_area a /\ 0 <= t < 2 ^ 63
  | OpRtcSeconds n => 0 <= n < 2 ^ 63
  | OpRtcClockTicks n => 0 <= n < 2 ^ 63
  | OpRestore s => saved_typed s
  end.

Section Ops.
Context {C : Type} `{Mapper C}.

Definition run_op (op : cart_op) (c : C) : outcome C :=
  match op with
  | OpWriteRom a v => m_write_rom a v c
  | OpWriteRam a v => m_write_ram a v c
  | OpWriteRamTimed a v t => m_write_ram_timed a v t c
  | OpReadRamTimed a t => r ← m_read_ram_timed a t c; Done (snd r)
  | OpRtcSeconds n => m_advance_rtc_seconds n c
  | OpRtcClockTicks n => m_advance_mbc3_rtc_clock_ticks n c
  | OpRestore s => Done (fst (m_restore_persistent_state s c))
  end.

Fixpoint run_ops (ops : list cart_op) (c : C) : outcome C :=
  match ops with
  | [] => Done c
  | op :: rest => c' ← run_op op c; run_ops rest c'
  end.

(** *** The contract *)

(** A ROM read is the byte of the image that its bank window names, inside the
    image when the image is as large as the board needs; the reported window is
    that window.  A window may show flash memory instead, and says so. *)
Definition shows_flash (a : Z) (c : C) : Prop :=
  (exists v, m_read_rom a c = Done v /\ u8 v) /\ exists bank size offset,
    m_mapped_rom_window a c = Some (mkWindow SourceFlash bank size offset) /\ 0 <= bank /\ 0 <= offset < size.
Definition rom_contract (c : C) : Prop :=
  forall a, rom_area a ->
    shows_flash a c \/ exists bank size offset,
      0 <= bank /\ 0 <= offset < size /\
      m_read_rom a c = Done (byte_or_absent (vec_get (board_rom (m_board c)) (bank * size + offset))) /\
      (board_full_image (m_board c) <= vec_len (board_rom (m_board c)) ->
       bank * size + offset < vec_len (board_rom (m_board c))) /\
      (board_window_exact (m_board c) = true ->
       m_mapped_rom_window a c = Some (rom_window bank size offset)).

(** Reads of the external area give a byte without panic, a timed one the byte
    of the settled state, and the access description is true of reads and of
    writes. *)
Definition external_contract (c : C) : Prop :=
  forall a, external_area a ->
    exists v, m_read_ram a c = Done v /\ u8 v /\
      (forall t, 0 <= t < 2 ^ 63 -> exists w c', m_read_ram a (m_settle t c) = Done w /\ u8 w /\
         m_read_ram_timed a t c = Done (w, c')) /\
      (forall w, read_behavior (m_describe_external_access a c) = FallbackValue w -> v = w) /\
      (write_behavior (m_describe_external_access a c) = Ignored ->
       forall w, m_write_ram a w c = Done c).

(** Storage is memory: there is a cell for every address such that a write is
    read back there, through the width of the cell, and nowhere else. *)
Definition storage_contract (c : C) : Prop :=
  exists (cell : Z -> Z) (stored : Z -> Z),
    forall a w, external_area a -> u8 w ->
      read_behavior (m_describe_external_access a c) = ReadStorage ->
      write_behavior (m_describe_external_access a c) = WriteStorage ->
      exists c', m_write_ram a w c = Done c' /\
        forall a', external_area a' ->
          m_read_ram a' c' = if cell a' =? cell a then Done (stored w) else m_read_ram a' c.

(** Bank switching keeps the RAM. *)
Definition bank_switch_contract (c : C) : Prop :=
  forall a w, rom_area a -> u8 w -> exists c', m_write_rom a w c = Done c' /\ m_ram c' = m_ram c.

(** A saved state is well typed and restores, into any state of the same
    board, what it saved, in the form it is taken up in; a refused restore
    changes nothing. *)
Definition persistence_contract (ok : C -> Prop) (c : C) : Prop :=
  saved_typed (m_persistent_state c) /\
  (forall c0, ok c0 -> m_board c0 = m_board c ->
    exists c1, m_restore_persistent_state (m_persistent_state c) c0 = (c1, None) /\
      m_persistent_state c1 = m_taken_up (m_persistent_state c) /\
      (board_battery (m_board c) = true -> m_ram c1 = m_ram c)) /\
  (forall s c1 e, m_restore_persistent_state s c = (c1, Some e) -> c1 = c).

Record contract (ok : C -> Prop) (c : C) : Prop := {
  contract_rom : rom_contract c;
  contract_external : external_contract c;
  contract_storage : storage_contract c;
  contract_bank_switch : bank_switch_contract c;
  contract_persistence : persistence_contract ok c
}.
End Ops.

(** What a mapper proves: an invariant that every operation keeps, without
    panic and without touching the board, and that implies the contract. *)
Class MapperLaws (C : Type) `{Mapper C} := {
  m_ok : C -> Prop;
  m_step_ok : forall op c, m_ok c -> valid_op op ->
    exists c', run_op op c = Done c' /\ m_ok c' /\ m_board c' = m_board c;
  m_ok_contract : forall c, m_ok c -> contract m_ok c
}.

Section Reachable.
Context {C : Type} `{MapperLaws C}.

Lemma run_ops_ok ops c :
  m_ok c -> Forall valid_op ops ->
  exists c', run_ops ops c = Done c' /\ m_ok c' /\ m_board c' = m_board c.
Proof.
  intros Hok Hops. revert c Hok. induction Hops as [|op ops Hop _ IH]; intros c Hok; [by exists c|].
  destruct (m_step_ok op c Hok Hop) as (c' & Hrun & Hok' & Hb). cbn [run_ops]. rewrite Hrun. cbn.
  destruct (IH c' Hok') as (c'' & Hrun' & Hok'' & Hb'). exists c''. split_and!; [done | done | congruence].
Qed.

(** The contract holds in every reachable state. *)
Lemma reachable_contract ops c :
  m_ok c -> Forall valid_op ops ->
  exists c', run_ops ops c = Done c' /\ m_board c' = m_board c /\ contract m_ok c'.
Proof.
  intros Hok Hops. destruct (run_ops_ok ops c Hok Hops) as (c' & ? & ? & ?).
  exists c'. eauto using m_ok_contract.
Qed.
End Reachable.

(** ** Lemmas on vectors and linear RAM *)

Lemma vec_len_nonneg l : 0 <= vec_len l.
Proof. unfold vec_len. lia. Qed.

Lemma vec_len_set l i v : vec_len (vec_set l i v) = vec_len l.
Proof. unfold vec_len, vec_set. by rewrite length_insert. Qed.

Lemma vec_len_zeroed n : 0 <= n -> vec_len (vec_zeroed n) = n.
Proof. intros. unfold vec_len, vec_zeroed. rewrite length_replicate. lia. Qed.

Lemma bytes_set l i v : bytes l -> u8 v -> bytes (vec_set l i v).
Proof. intros. by apply Forall_insert. Qed.

Lemma bytes_zeroed n : bytes (vec_zeroed n).
Proof. apply Forall_replicate. unfold u8. lia. Qed.

Lemma byte_or_absent_u8 l i : bytes l -> u8 (byte_or_absent (vec_get l i)).
Proof.
  intros Hl. unfold vec_get. destruct (l !! Z.to_nat i) as [b|] eqn:E; simpl.
  - by eapply Forall_lookup_1 in E.
  - unfold RAM_ABSENT_READ_VALUE, u8. lia.
Qed.

Lemma vec_index_in (P : Z -> Prop) l i : Forall P l -> 0 <= i < vec_len l -> finishes (vec_index l i) P.
Proof.
  intros Hl Hi. unfold vec_index, vec_get, vec_len in *.
  destruct (lookup_lt_is_Some_2 l (Z.to_nat i)) as [b Hb]; [lia|]. rewrite Hb. by eapply Forall_lookup_1 in Hl.
Qed.

Lemma vec_get_set l i j v : 0 <= i < vec_len l -> 0 <= j ->
  byte_or_absent (vec_get (vec_set l i v) j) = if j =? i then v else byte_or_absent (vec_get l j).
Proof.
  unfold vec_len, vec_get, vec_set. intros Hi Hj. destruct (Z.eqb_spec j i) as [->|Hne].
  - rewrite list_lookup_insert_eq by lia. done.
  - by rewrite list_lookup_insert_ne by lia.
Qed.

Lemma ram_base_offset_ok a : external_area a -> ram_base_offset a = Done (a - 0xA000).
Proof. unfold external_area, ram_base_offset. intros. by destruct (Z.ltb_spec a 0xA000); [lia|]. Qed.

(** An optional RAM of the length the board has, holding bytes. *)
Definition ram_ok (len : option Z) (ram : option (list Z)) : Prop :=
  vec_len <$> ram = len /\ forall l, ram = Some l -> bytes l.

Lemma ram_ok_set l i v : u8 v -> ram_ok (Some (vec_len l)) (Some l) -> ram_ok (Some (vec_len l)) (Some (vec_set l i v)).
Proof.
  intros Hv [_ Hl]. split; simpl; [by rewrite vec_len_set|].
  intros l' [= <-]. by apply bytes_set; [apply Hl|].
Qed.

Lemma ram_ok_zeroed n : 0 <= n -> ram_ok (Some n) (Some (vec_zeroed n)).
Proof.
  intros. split; simpl; [by rewrite vec_len_zeroed|]. intros l [= <-]. apply bytes_zeroed.
Qed.
#[export] Hint Resolve bytes_set bytes_zeroed byte_or_absent_u8 : gb.

(** ** Inversion of accepted validations *)

Definition accepts {A} (m : V A) (compat : CompatibilityPolicy) (cls : CartridgeClassification)
    (ds : list CartridgeDiagnostic) (a : A) : Prop :=
  exists ds', m compat cls ds = Done (inl (a, ds')).

Lemma accepts_bind {A B} (m : V A) (k : A -> V B) compat cls ds b :
  accepts (m ≫= k) compat cls ds b ->
  exists a ds', accepts m compat cls ds a /\ accepts (k a) compat cls ds' b.
Proof.
  intros [ds' H]. unfold mbind, V_bind in H. unfold accepts.
  destruct (m compat cls ds) as [[[a ds1]|]|] eqn:E; try done.
  exists a, ds1. split; [by exists ds1 | by exists ds'].
Qed.

Lemma accepts_ret {A} (a b : A) compat cls ds : accepts (mret a) compat cls ds b -> b = a.
Proof. intros [ds' [=]]. congruence. Qed.

Lemma accepts_classification compat cls ds a : accepts v_classification compat cls ds a -> a = cls.
Proof. intros [ds' [=]]. congruence. Qed.

Lemma accepts_reject {A} r compat cls ds (a : A) : accepts (reject r) compat cls ds a -> False.
Proof. intros [ds' [=]]. Qed.

Lemma accepts_reject_if g r compat cls ds a : accepts (reject_if g r) compat cls ds a -> g = false.
Proof. unfold reject_if. destruct g; [|done]. by intros ?%accepts_reject. Qed.

Lemma accepts_exact_size h n compat cls ds a :
  accepts (declared_exact_size h n) compat cls ds a -> rom_decoded_bytes (rom_size h) = Some a /\ a = n.
Proof.
  unfold declared_exact_size. destruct (rom_decoded_bytes (rom_size h)) as [m|]; [|by intros ?%accepts_reject].
  intros (? & ? & Hg%accepts_reject_if & ->%accepts_ret)%accepts_bind.
  apply negb_false_iff in Hg. prune. done.
Qed.

(** Decomposes a hypothesis [accepts m _ _ _ a]. *)
Ltac accepts_inv :=
  repeat match goal with
  | H : accepts (_ ≫= _) _ _ _ _ |- _ =>
      let a := fresh "a" in let ds := fresh "ds" in let Hm := fresh "Hm" in
      apply accepts_bind in H as (a & ds & Hm & H)
  | H : accepts (mret _) _ _ _ _ |- _ => apply accepts_ret in H
  | H : accepts v_classification _ _ _ _ |- _ => apply accepts_classification in H
  | H : accepts (reject_if _ _) _ _ _ _ |- _ => apply accepts_reject_if in H
  | H : accepts (reject _) _ _ _ _ |- _ => destruct (accepts_reject _ _ _ _ _ H)
  | H : accepts (declared_exact_size _ _) _ _ _ _ |- _ => apply accepts_exact_size in H as [? ?]
  end.

(** ** Banked ROM

    The split every banked family shares: 16 KiB windows below and above
    0x4000. *)

Definition window_offset (a : Z) : Z := if a <? 0x4000 then a else a - 0x4000.

Lemma rom_contract_of_banks {C} `{Mapper C} (c : C) (bank_of : Z -> Z) (n : Z) :
  vec_len (board_rom (m_board c)) = ROM_BANK_BYTES * n ->
  (forall a, rom_area a -> 0 <= bank_of a < n) ->
  (forall a, rom_area a ->
    m_read_rom a c = Done (byte_or_absent (vec_get (board_rom (m_board c)) (bank_of a * 0x4000 + window_offset a)))) ->
  (board_window_exact (m_board c) = true -> forall a, rom_area a ->
    m_mapped_rom_window a c = Some (rom_window (bank_of a) 0x4000 (window_offset a))) ->
  rom_contract c.
Proof.
  intros Hlen Hbank Hread Hwin a Ha. pose proof (Hbank a Ha).
  assert (0 <= window_offset a < 0x4000) by (unfold window_offset, rom_area in *; case_match; prune; lia).
  right. exists (bank_of a), 0x4000, (window_offset a). unfold ROM_BANK_BYTES in *.
  split_and!; try lia; auto.
Qed.

(** ** Byte-wide external RAM

    The shape most families share: an optional RAM behind an enable, addressed
    by a cell of the external address; while the RAM is not selected the
    aperture is a port, closed in most families.  A mapper of this shape proves
    the laws below and gets the external and storage contracts. *)

Class LinearRamLaws (C : Type) `{Mapper C} (ok : C -> Prop) := {
  lr_enabled : C -> bool;
  lr_cell : Z -> C -> Z;
  lr_set : list Z -> C -> C;
  lr_port_read : Z -> C -> Z;
  lr_port_write : Z -> Z -> C -> C;
  lr_read : forall a c, ok c -> external_area a ->
    m_read_ram a c = Done (match m_ram c with
                           | Some r => if lr_enabled c then byte_or_absent (vec_get r (lr_cell a c)) else lr_port_read a c
                           | None => lr_port_read a c
                           end);
  lr_settle : forall t c, m_settle t c = c;
  lr_untimed : forall a v t c,
    m_read_ram_timed a t c = (v ← m_read_ram a c; Done (v, c)) /\
    m_write_ram_timed a v t c = m_write_ram a v c;
  lr_write : forall a v c, ok c -> external_area a ->
    m_write_ram a v c = Done (match m_ram c with
                              | Some r => if lr_enabled c then lr_set (vec_set r (lr_cell a c) v) c else lr_port_write a v c
                              | None => lr_port_write a v c
                              end);
  lr_describe : forall a c,
    let i := m_describe_external_access a c in
    if lr_enabled c && bool_decide (is_Some (m_ram c))
    then read_behavior i = ReadStorage /\ write_behavior i = WriteStorage
    else (forall w, read_behavior i = FallbackValue w -> lr_port_read a c = w) /\
         (write_behavior i = Ignored -> forall v, lr_port_write a v c = c) /\ write_behavior i <> WriteStorage;
  lr_port_ok : forall a v c, ok c -> u8 v ->
    u8 (lr_port_read a c) /\ ok (lr_port_write a v c) /\ m_board (lr_port_write a v c) = m_board c;
  lr_bytes : forall c r, ok c -> m_ram c = Some r -> bytes r;
  lr_cell_range : forall a c r, ok c -> m_ram c = Some r -> external_area a -> 0 <= lr_cell a c < vec_len r;
  lr_set_ok : forall c r l, ok c -> m_ram c = Some r -> vec_len l = vec_len r -> bytes l ->
    ok (lr_set l c) /\ m_board (lr_set l c) = m_board c /\ m_ram (lr_set l c) = Some l /\
    lr_enabled (lr_set l c) = lr_enabled c /\ (forall a, lr_cell a (lr_set l c) = lr_cell a c)
}.

(** The goals of a closed port: it reads as absent and ignores writes. *)
Lemma absent_u8 : u8 RAM_ABSENT_READ_VALUE.
Proof. unfold RAM_ABSENT_READ_VALUE, u8. lia. Qed.
Ltac closed_port := simpl in *; split_and!; solve [done | congruence | apply absent_u8].

Section LinearRam.
Context {C : Type} `{LinearRamLaws C ok}.

Lemma linear_write_ok a v c :
  ok c -> external_area a -> u8 v ->
  exists c', m_write_ram a v c = Done c' /\ ok c' /\ m_board c' = m_board c.
Proof.
  intros Hok Ha Hv. rewrite lr_write by done. eexists. split; [done|].
  destruct (lr_port_ok a v c) as (_ & ? & ?); [done..|].
  destruct (m_ram c) as [r|] eqn:Hr; [|done]. destruct (lr_enabled c); [|done].
  destruct (lr_set_ok c r (vec_set r (lr_cell a c) v)) as (? & ? & _);
    eauto using vec_len_set, bytes_set, lr_bytes.
Qed.

(** A step of a linear mapper, from its register writes, its restore and its
    clock; most have no clock. *)
Definition keeps_board (c : C) (o : outcome C) : Prop :=
  exists c', o = Done c' /\ ok c' /\ m_board c' = m_board c.

Lemma linear_step_ok op c :
  (forall a v, rom_area a -> u8 v -> keeps_board c (m_write_rom a v c)) ->
  (forall s, saved_typed s -> ok (fst (m_restore_persistent_state s c)) /\
     m_board (fst (m_restore_persistent_state s c)) = m_board c) ->
  (forall n, 0 <= n < 2 ^ 63 -> keeps_board c (m_advance_rtc_seconds n c) /\
     keeps_board c (m_advance_mbc3_rtc_clock_ticks n c)) ->
  ok c -> valid_op op ->
  exists c', run_op op c = Done c' /\ ok c' /\ m_board c' = m_board c.
Proof.
  intros Hrom Hrestore Hclock Hok Hop. destruct op; cbn [run_op valid_op] in *.
  - destruct Hop. by apply Hrom.
  - destruct Hop. by apply linear_write_ok.
  - destruct Hop as (? & ? & _), (lr_untimed address value t_cycle c) as (_ & ->).
    by apply linear_write_ok.
  - destruct Hop as [? _], (lr_untimed address 0 t_cycle c) as (-> & _). rewrite lr_read by done. by exists c.
  - by apply Hclock.
  - by apply Hclock.
  - eexists. split; [done|]. by apply Hrestore.
Qed.

(** Register writes [w] that cannot fail, and no clock. *)
Lemma linear_timeless_step_ok (w : Z -> Z -> C -> C) op c :
  (forall n, m_advance_rtc_seconds n c = Done c /\ m_advance_mbc3_rtc_clock_ticks n c = Done c) ->
  (forall a v, m_write_rom a v c = Done (w a v c)) ->
  (forall a v, u8 v -> m_board (w a v c) = m_board c /\ ok (w a v c)) ->
  (forall s, saved_typed s -> ok (fst (m_restore_persistent_state s c)) /\
     m_board (fst (m_restore_persistent_state s c)) = m_board c) ->
  ok c -> valid_op op ->
  exists c', run_op op c = Done c' /\ ok c' /\ m_board c' = m_board c.
Proof.
  intros Hclock Hw Hrom Hrestore Hok. apply linear_step_ok; try done.
  - intros a v _ Hv. rewrite Hw. destruct (Hrom a v Hv). by eexists.
  - intros n _. destruct (Hclock n) as [-> ->]. by split; exists c.
Qed.

Lemma linear_read_u8 a c : ok c -> external_area a -> exists v, m_read_ram a c = Done v /\ u8 v.
Proof.
  intros Hok Ha. rewrite lr_read by done. eexists. split; [done|].
  destruct (lr_port_ok a 0 c) as (? & _); [done|unfold u8; lia|].
  destruct (m_ram c) as [r|] eqn:Hr; [|done]. destruct (lr_enabled c); [|done].
  apply byte_or_absent_u8. by eapply lr_bytes.
Qed.

Lemma linear_external_contract c : ok c -> external_contract c.
Proof.
  intros Hok a Ha. pose proof (lr_describe a c) as Hd. simpl in Hd.
  destruct (linear_read_u8 a c Hok Ha) as (v & Hv & Hu). exists v. split_and!; [done..| | |].
  - intros t _. exists v, c. by rewrite (proj1 (lr_untimed a 0 t c)), lr_settle, Hv.
  - rewrite lr_read in Hv by done. injection Hv as <-. intros w Hw.
    destruct (m_ram c), (lr_enabled c); simpl in Hd; destruct Hd; [congruence | by eauto ..].
  - intros Hi w. rewrite lr_write by done.
    destruct (m_ram c), (lr_enabled c); simpl in Hd; destruct Hd as [? Hd]; [congruence | ..];
      by rewrite (proj1 Hd Hi).
Qed.

Lemma linear_storage_contract c : ok c -> storage_contract c.
Proof.
  intros Hok. exists (fun a => lr_cell a c), id. intros a w Ha Hw _ Hs.
  pose proof (lr_describe a c) as Hd. simpl in Hd. rewrite lr_write by done.
  destruct (m_ram c) as [r|] eqn:Hr, (lr_enabled c) eqn:He; simpl in Hd; destruct Hd as [_ Hd];
    try (by destruct Hd).
  eexists. split; [done|]. intros a' Ha'.
  destruct (lr_set_ok c r (vec_set r (lr_cell a c) w)) as (Hok' & _ & Hr' & He' & Hcell);
    eauto using vec_len_set, bytes_set, lr_bytes.
  rewrite !lr_read, Hr', He', Hr, He, Hcell by done.
  rewrite vec_get_set by (eapply lr_cell_range; done). by case_match.
Qed.
End LinearRam.

(** ** Persistence of a linear RAM

    The battery saves the RAM under the family's own kind; only that kind, at
    the same length, restores it. *)

Class LinearPersistence (C : Type) `{LinearRamLaws C ok} := {
  lp_wrap : list Z -> PersistentCartState;
  lp_unwrap : PersistentCartState -> option (list Z);
  lp_kind : string;
  lp_taken_up : forall s, m_taken_up s = s;
  lp_unwrap_wrap : forall r, lp_unwrap (lp_wrap r) = Some r;
  lp_wrap_typed : forall r, bytes r -> saved_typed (lp_wrap r);
  lp_unwrap_typed : forall s r, saved_typed s -> lp_unwrap s = Some r -> bytes r;
  lp_board_ram : forall c, board_ram_len (m_board c) = vec_len <$> m_ram c;
  lp_state : forall c, m_persistent_state c =
    if board_battery (m_board c) then match m_ram c with Some r => lp_wrap r | None => SavedNone end else SavedNone;
  lp_restore : forall s c, m_restore_persistent_state s c =
    match (if board_battery (m_board c) then m_ram c else None) with
    | Some r =>
        match lp_unwrap s with
        | Some p => if vec_len r =? vec_len p then (lr_set p c, None)
                    else (c, Some (RamLengthMismatch (vec_len r) (vec_len p)))
        | None => (c, Some (KindMismatch lp_kind (kind_name s)))
        end
    | None =>
        match s with
        | SavedNone => (c, None)
        | _ => (c, Some (KindMismatch "None" (kind_name s)))
        end
    end
}.

Section LinearPersistence.
Context {C : Type} `{LinearPersistence C}.

Lemma linear_restore_ok s c :
  ok c -> saved_typed s ->
  ok (fst (m_restore_persistent_state s c)) /\ m_board (fst (m_restore_persistent_state s c)) = m_board c.
Proof.
  intros Hok Hs. rewrite lp_restore.
  destruct (board_battery (m_board c)); [|by destruct s]. destruct (m_ram c) as [r|] eqn:Hr; [|by destruct s].
  destruct (lp_unwrap s) as [p|] eqn:Hp; [|done]. destruct (Z.eqb_spec (vec_len r) (vec_len p)); [|done].
  destruct (lr_set_ok c r p) as (? & ? & _); eauto using lp_unwrap_typed.
Qed.

Lemma linear_persistence_contract c : ok c -> persistence_contract ok c.
Proof.
  intros Hok. unfold persistence_contract. split_and!.
  - rewrite lp_state. destruct (board_battery _); [|done]. destruct (m_ram c) eqn:Hr; [|done].
    eauto using lp_wrap_typed, lr_bytes.
  - intros c0 Hok0 Hb. rewrite lp_restore, !lp_state, Hb.
    rewrite lp_taken_up. pose proof (lp_board_ram c0) as Hlen0. rewrite Hb, lp_board_ram in Hlen0.
    destruct (board_battery (m_board c)) eqn:Hbat; [|by exists c0; rewrite lp_state, Hb, Hbat].
    destruct (m_ram c) as [r|] eqn:Hr, (m_ram c0) as [r0|] eqn:Hr0; try done;
      [|by exists c0; rewrite lp_state, Hb, Hbat, Hr0].
    injection Hlen0 as Hlen. rewrite lp_unwrap_wrap, Hlen, Z.eqb_refl.
    destruct (lr_set_ok c0 r0 r) as (_ & Hb1 & Hr1 & _); eauto using lr_bytes.
    eexists. split; [done|]. by rewrite lp_state, Hb1, Hb, Hbat, Hr1.
  - intros s c1 e. rewrite lp_restore.
    destruct (if board_battery _ then _ else _); [destruct (lp_unwrap s); [case_match|]|destruct s]; congruence.
Qed.
End LinearPersistence.

(** ** Loaded headers *)

(** The sizes are decodings of their codes, as in every parsed header. *)
Definition header_sized (h : CartridgeHeader) : Prop :=
  rom_size h = rom_size_decode (rom_raw_code (rom_size h)) /\
  ram_size h = ram_size_decode (ram_raw_code (ram_size h)).

Lemma decode_raw_codes code :
  rom_raw_code (rom_size_decode code) = code /\ ram_raw_code (ram_size_decode code) = code.
Proof. unfold rom_size_decode, ram_size_decode. split; repeat case_match; done. Qed.

Lemma header_at_sized rom base h : header_at rom base h -> header_sized h.
Proof.
  intros Hat. destruct (at_rom_size _ _ _ Hat) as (a & _ & Ha), (at_ram_size _ _ _ Hat) as (b & _ & Hb).
  unfold header_sized. rewrite Ha, Hb.
  by rewrite (proj1 (decode_raw_codes a)), (proj2 (decode_raw_codes b)).
Qed.

Lemma parse_for_load_sized rom h : parse_for_load rom = Done (inl h) -> header_sized h.
Proof.
  intros Hp. unfold parse_for_load, parse in Hp.
  destruct (Z.lt_ge_cases (Z.of_nat (length rom)) 0x150) as [Hl|Hl];
    [by rewrite parse_at_offset_small in Hp by lia|].
  destruct (parse_at_offset_spec rom 0) as (h0 & Hp0 & Hat); [lia ..|]. rewrite Hp0 in Hp. simpl in Hp.
  destruct (parse_mmm01_menu_header_spec rom) as (r & Hr & Hm). rewrite Hr in Hp. simpl in Hp.
  destruct r as [h'|]; [injection Hp as <-; by eapply header_at_sized, Hm|].
  destruct (parse_mani_mmm01_menu_header_spec rom h0) as (r & Hr' & Hm'). rewrite Hr' in Hp. simpl in Hp.
  destruct r as [h'|]; injection Hp as <-; [by eapply header_at_sized, Hm' | by eapply header_at_sized].
Qed.

(** An accepted image of the declared size is whole banks. *)
Lemma exact_size_banks h n :
  header_sized h -> rom_decoded_bytes (rom_size h) = Some n ->
  exists banks, rom_bank_count (rom_size h) = Some banks /\ 2 <= banks <= 512 /\ n = ROM_BANK_BYTES * banks.
Proof.
  intros [Hr _] Hn. rewrite Hr in Hn |- *.
  destruct (rom_size_decode_shape (rom_raw_code (rom_size h))) as [Hd Hb]. rewrite Hn in Hd.
  destruct (rom_bank_count _) as [banks|] eqn:E; [|done]. injection Hd as ->. eauto.
Qed.

(** The RAM sizes a header can declare. *)
Lemma ram_decoded_sizes h n :
  header_sized h -> ram_decoded_bytes (ram_size h) = Some n ->
  n ∈ [0; 0x800; 0x2000; 0x8000; 0x20000; 0x10000].
Proof.
  intros [_ ->]. unfold ram_size_decode. repeat case_match; intros [= <-]; rewrite !elem_of_cons; auto 10.
Qed.

Lemma ram_decoded_nonneg h n :
  header_sized h -> ram_decoded_bytes (ram_size h) = Some n -> 0 <= n.
Proof. intros Hs Hn. pose proof (ram_decoded_sizes h n Hs Hn) as H. rewrite !elem_of_cons, elem_of_nil in H. lia. Qed.

(** A header with nothing but its type and size codes, for examples. *)
Definition blank_header (cart_type rom_code ram_code : Z) : CartridgeHeader :=
  mkHeader [] [] [] [] [] CgbNone SgbNone cart_type (rom_size_decode rom_code) (ram_size_decode ram_code)
    [] 0 0 0.
