(* ===== verification/NoMbc.v ===== *)
(** * Cartridges without a mapper ([crates/gb-core/src/cartridge/no_mbc.rs])

    A 32 KiB ROM and an optional linear 8 KiB RAM, with the loader's
    validation and construction. *)

From Stdlib Require Import ZArith Lia Bool String.
From stdpp Require Import base list decidable.
From S2P Require Import Prelude.
From S2P Require Import Model.
From S2P Require Import CartridgeHeader.
From S2P Require Import Cartridge.

Local Open Scope string_scope.
Local Open Scope Z_scope.

Record NoMbcCartridge := mkNoMbc {
  rom : list Z;
  ram : option (list Z);
  has_battery : bool;
  header : CartridgeHeader;
  classification : CartridgeClassification
}.

#[export] Instance upd_ram : Update ram := fun v c =>
  let '(mkNoMbc a _ b h k) := c in mkNoMbc a v b h k.

Definition describe_external_access (address : Z) (c : NoMbcCartridge) : CartridgeExternalAccessInfo :=
  let has_ram := bool_decide (is_Some (ram c)) in
  access_new address LinearRam
    (if has_ram then Accessible else Absent)
    (if has_ram then ReadStorage else FallbackValue RAM_ABSENT_READ_VALUE)
    (if has_ram then WriteStorage else Ignored).

Definition read_rom (address : Z) (c : NoMbcCartridge) : Z :=
  byte_or_absent (vec_get (rom c) address).

Definition mapped_rom_window (address : Z) (c : NoMbcCartridge) : option CartridgeMappedRomWindow :=
  if 0x8000 <=? address then None
  else Some (rom_window (address / 0x4000) 0x4000 (address mod 0x4000)).

Definition write_rom (_address _value : Z) (c : NoMbcCartridge) : NoMbcCartridge := c.

Definition read_ram (address : Z) (c : NoMbcCartridge) : outcome Z :=
  match ram c with
  | None => Done RAM_ABSENT_READ_VALUE
  | Some ram => offset ← ram_base_offset address; Done (byte_or_absent (vec_get ram offset))
  end.

Definition write_ram (address value : Z) (c : NoMbcCartridge) : outcome NoMbcCartridge :=
  match ram c with
  | None => Done c
  | Some r => offset ← ram_base_offset address; Done (c <| ram := Some (vec_set r offset value) |>)
  end.

Definition persistence_metadata (c : NoMbcCartridge) : CartridgePersistenceMetadata :=
  mkMetadata (has_battery c) false
    match ram c with
    | Some ram => if has_battery c then PersistentRam (Linear (vec_len ram)) else NonPersistentRam (Linear (vec_len ram))
    | None => ProfileNone
    end.

Definition persistent_state (c : NoMbcCartridge) : PersistentCartState :=
  if has_battery c then
    match ram c with Some ram => NoMbcRam ram | None => SavedNone end
  else SavedNone.

Definition restore_persistent_state (state : PersistentCartState) (c : NoMbcCartridge)
    : NoMbcCartridge * option CartridgePersistentStateError :=
  match has_battery c, ram c, state with
  | false, _, SavedNone | true, None, SavedNone => (c, None)
  | true, Some r, NoMbcRam persisted_ram =>
      if negb (vec_len r =? vec_len persisted_ram)
      then (c, Some (RamLengthMismatch (vec_len r) (vec_len persisted_ram)))
      else (c <| ram := Some persisted_ram |>, None)
  | true, Some _, other => (c, Some (KindMismatch "NoMbcRam" (kind_name other)))
  | false, _, other => (c, Some (KindMismatch "None" (kind_name other)))
  | true, None, other => (c, Some (KindMismatch "None" (kind_name other)))
  end.

(** ** Loading *)

Definition expected_ram_code_decompressed (code : Z) : Z :=
  match code with
  | 0x00 => 0
  | 0x02 => NO_MBC_SUPPORTED_RAM_BYTES
  | _ => 0
  end.

Definition validate_no_mbc (header : CartridgeHeader) (actual_rom_size : Z) : V unit :=
  classification ← v_classification;
  expected_ram_code ←
    match raw_type classification with
    | 0x00 => mret 0x00
    | 0x08 | 0x09 => mret 0x02
    | _ => v_unreachable "non-NoMbc type entered NoMbc validation"
    end;
  degrade_if (negb (ram_raw_code (ram_size header) =? expected_ram_code))
    "{} expects RAM size code {expected_ram_code:#04X}, but the header declared {:#04X}";;
  degrade_if (negb (bool_decide (ram_decoded_bytes (ram_size header) =
      Some (expected_ram_code_decompressed expected_ram_code))))
    "{} uses the fixed {}, but header RAM size code {:#04X} resolved to {resolved_ram_len}";;
  degrade_if (negb (rom_raw_code (rom_size header) =? 0x00))
    "{} expects ROM size code 0x00, but the header declared {:#04X}";;
  degrade_if (negb (bool_decide (rom_decoded_bytes (rom_size header) = Some NO_MBC_SUPPORTED_ROM_BYTES)))
    "{} expects a 32 KiB ROM declaration, but the header resolved to {:?} bytes";;
  degrade_if (negb (actual_rom_size =? NO_MBC_SUPPORTED_ROM_BYTES))
    "{} expects a 32 KiB image, but the loaded ROM is {} bytes";;
  match raw_type classification with
  | 0x08 | 0x09 => v_push (mkDiagnostic SeverityWarning "{} is rare but still treated as a valid No MBC variant")
  | _ => mret tt
  end.

(** The [NoMbc] arm of [CartridgeSlot::load]. *)
Definition load_no_mbc (header : CartridgeHeader) (rom_bytes : list Z) : V NoMbcCartridge :=
  validate_no_mbc header (vec_len rom_bytes);;
  classification ← v_classification;
  let has_battery := raw_type classification =? 0x09 in
  let has_ram := (raw_type classification =? 0x08) || (raw_type classification =? 0x09) in
  let ram := if has_ram then Some (vec_zeroed NO_MBC_SUPPORTED_RAM_BYTES) else None in
  mret (mkNoMbc rom_bytes ram has_battery header classification).

(** ** The mapper instance *)

Definition board (c : NoMbcCartridge) : Board :=
  mkBoard BoardNoMbc (header c) (classification c) (rom c) (vec_len <$> ram c) (has_battery c) false true 0x8000.

#[export] Instance no_mbc_mapper : Mapper NoMbcCartridge := {|
  m_board := board;
  m_ram := ram;
  m_settle := fun _ c => c;
  m_taken_up := fun s => s;
  m_read_rom := fun a c => Done (read_rom a c);
  m_mapped_rom_window := mapped_rom_window;
  m_write_rom := fun a v c => Done (write_rom a v c);
  m_read_ram := read_ram;
  m_read_ram_timed := fun a _ c => v ← read_ram a c; Done (v, c);
  m_write_ram := write_ram;
  m_write_ram_timed := fun a v _ c => write_ram a v c;
  m_describe_external_access := describe_external_access;
  m_advance_rtc_seconds := fun _ c => Done c;
  m_advance_mbc3_rtc_clock_ticks := fun _ c => Done c;
  m_persistence_metadata := persistence_metadata;
  m_persistent_state := persistent_state;
  m_restore_persistent_state := restore_persistent_state
|}.

(** The RAM, when there is one, is 8 KiB of bytes. *)
Definition ok (c : NoMbcCartridge) : Prop :=
  forall l, ram c = Some l -> vec_len l = NO_MBC_SUPPORTED_RAM_BYTES /\ bytes l.

(** ** The contract *)

Lemma no_mbc_set_ram_ok c r l : ok c -> ram c = Some r -> vec_len l = vec_len r -> bytes l ->
  ok (c <| ram := Some l |>) /\ board (c <| ram := Some l |>) = board c /\
  ram (c <| ram := Some l |>) = Some l /\ true = true /\ (forall a : Z, a - 0xA000 = a - 0xA000).
Proof.
  destruct c. simpl. intros Hok Hr Hlen Hb. simpl in *. subst. split_and!; try done.
  - intros ? [= <-]. split; [|done]. rewrite Hlen. by apply Hok.
  - unfold board. simpl. by rewrite Hlen.
Qed.

#[export, refine] Instance no_mbc_linear : LinearRamLaws NoMbcCartridge ok := {|
  lr_enabled := fun _ => true;
  lr_cell := fun a _ => a - 0xA000;
  lr_settle := fun _ _ => eq_refl;
  lr_set := fun l c => c <| ram := Some l |>;
  lr_port_read := fun _ _ => RAM_ABSENT_READ_VALUE;
  lr_port_write := fun _ _ c => c;
  lr_set_ok := no_mbc_set_ram_ok
|}.
Proof.
  - intros a c _ Ha. simpl. unfold read_ram. rewrite ram_base_offset_ok by done. by destruct (ram c).
  - done.
  - intros a v c _ Ha. simpl. unfold write_ram. rewrite ram_base_offset_ok by done. by destruct (ram c).
  - intros a c. simpl. unfold describe_external_access. destruct (bool_decide _); closed_port.
  - intros a v c Hok _. closed_port.
  - intros c r Hok Hr. by apply Hok.
  - intros a c r Hok Hr Ha. destruct (Hok r Hr) as [-> _].
    unfold external_area, NO_MBC_SUPPORTED_RAM_BYTES in *. lia.
Defined.

#[export, refine] Instance no_mbc_persistence : LinearPersistence NoMbcCartridge := {|
  lp_taken_up := fun _ => eq_refl;
  lp_wrap := NoMbcRam;
  lp_unwrap := fun s => match s with NoMbcRam r => Some r | _ => None end;
  lp_kind := "NoMbcRam"
|}.
Proof.
  - done.
  - done.
  - intros s r Hs Hr. destruct s; simplify_eq/=. done.
  - done.
  - done.
  - intros s c. simpl. unfold restore_persistent_state.
    destruct (has_battery c), (ram c), s; simpl; try done. by destruct (_ =? _).
Defined.

Lemma no_mbc_step_ok op c : ok c -> valid_op op ->
  exists c', run_op op c = Done c' /\ ok c' /\ m_board c' = m_board c.
Proof. intros Hok. apply (linear_timeless_step_ok write_rom); [done | done | done | | done]. intros s. by apply linear_restore_ok. Qed.

Lemma no_mbc_rom_contract_holds c : rom_contract c.
Proof.
  intros a Ha. right. exists (a / 0x4000), 0x4000, (a mod 0x4000). unfold rom_area in Ha. simpl.
  assert (E : a / 0x4000 * 0x4000 + a mod 0x4000 = a) by divmod_lia.
  rewrite E. split_and!; [divmod_lia | divmod_lia | divmod_lia | done | lia |].
  intros _. unfold mapped_rom_window. by destruct (Z.leb_spec 0x8000 a); [lia|].
Qed.

Lemma no_mbc_ok_contract c : ok c -> contract ok c.
Proof.
  intros Hok. constructor.
  - apply no_mbc_rom_contract_holds.
  - by apply linear_external_contract.
  - by apply linear_storage_contract.
  - intros a v _ _. by eexists.
  - by apply linear_persistence_contract.
Qed.

#[export] Instance no_mbc_laws : MapperLaws NoMbcCartridge := {|
  m_ok := ok;
  m_step_ok := no_mbc_step_ok;
  m_ok_contract := no_mbc_ok_contract
|}.

(** Whatever the loader accepts is sound. *)
Lemma load_no_mbc_ok header rom_bytes compat cls ds c :
  accepts (load_no_mbc header rom_bytes) compat cls ds c -> ok c /\ rom c = rom_bytes.
Proof.
  unfold load_no_mbc. intros H. accepts_inv. subst. split; [|done].
  intros l. simpl. case_match; [|done]. intros [= <-].
  split; [by rewrite vec_len_zeroed | apply bytes_zeroed].
Qed.
