(* ===== verification/Mbc1.v ===== *)
(** * MBC1 and MBC1M cartridges ([crates/gb-core/src/cartridge/mbc1.rs])

    Bank registers, the two wirings, the multicart variant, external RAM,
    persistence, and the loader's validation and construction. *)

From Stdlib Require Import ZArith Lia Bool String.
From stdpp Require Import base list decidable.
From S2P Require Import Prelude.
From S2P Require Import Model.
From S2P Require Import CartridgeHeader.
From S2P Require Import Cartridge.

Local Open Scope string_scope.
Local Open Scope Z_scope.

Definition MBC1_STANDARD_RAM_BYTES_MAX : Z := 32 * 1024.
Definition MBC1_LARGE_ROM_RAM_BYTES : Z := 8 * 1024.
Definition MBC1_STANDARD_ROM_SIZES : list Z := [32 * 1024; 64 * 1024; 128 * 1024; 256 * 1024; 512 * 1024].
Definition MBC1_LARGE_ROM_SIZES : list Z := [1024 * 1024; 2 * 1024 * 1024].

Record Mbc1Layout := mkLayout {
  layout_wiring : Mbc1Wiring;
  layout_variant : Mbc1Variant;
  layout_ram_len : Z
}.

Record Mbc1Cartridge := mkMbc1 {
  rom : list Z;
  ram : option (list Z);
  has_battery : bool;
  header : CartridgeHeader;
  classification : CartridgeClassification;
  variant : Mbc1Variant;
  wiring : Mbc1Wiring;
  ram_enabled : bool;
  rom_bank_low5 : Z;
  secondary_bank : Z;
  banking_mode : Z
}.

#[export] Instance upd_ram : Update ram := fun v c =>
  let '(mkMbc1 a _ b h k x w e l s m) := c in mkMbc1 a v b h k x w e l s m.
#[export] Instance upd_ram_enabled : Update ram_enabled := fun v c =>
  let '(mkMbc1 a r b h k x w _ l s m) := c in mkMbc1 a r b h k x w v l s m.
#[export] Instance upd_rom_bank_low5 : Update rom_bank_low5 := fun v c =>
  let '(mkMbc1 a r b h k x w e _ s m) := c in mkMbc1 a r b h k x w e v s m.
#[export] Instance upd_secondary_bank : Update secondary_bank := fun v c =>
  let '(mkMbc1 a r b h k x w e l _ m) := c in mkMbc1 a r b h k x w e l v m.
#[export] Instance upd_banking_mode : Update banking_mode := fun v c =>
  let '(mkMbc1 a r b h k x w e l s _) := c in mkMbc1 a r b h k x w e l s v.

(** ** Banking *)

Definition effective_ram_bank_count (c : Mbc1Cartridge) : Z :=
  match ram c with Some ram => Z.max (vec_len ram / 0x2000) 1 | None => 1 end.

Definition effective_high_rom_bank (bank_count : Z) (c : Mbc1Cartridge) : Z :=
  let raw_low5 := Z.land (rom_bank_low5 c) 0x1F in
  let translated_low5 := if raw_low5 =? 0 then 1 else raw_low5 in
  if bank_count =? 0 then 0
  else if decide (variant c = Mbc1M) then
    let raw_bank := Z.lor (Z.shiftl (secondary_bank c) 4) (Z.land translated_low5 0x0F) in
    raw_bank mod bank_count
  else
    match wiring c with
    | WiringStandard => translated_low5 mod bank_count
    | LargeRom =>
        let raw_bank := Z.lor (Z.shiftl (secondary_bank c) 5) translated_low5 in
        raw_bank mod bank_count
    end.

Definition effective_low_rom_bank (bank_count : Z) (c : Mbc1Cartridge) : Z :=
  if bank_count =? 0 then 0
  else if decide (variant c = Mbc1M) then
    if banking_mode c =? 0 then 0 else Z.shiftl (secondary_bank c) 4 mod bank_count
  else
    match wiring c with
    | WiringStandard => 0
    | LargeRom => if banking_mode c =? 0 then 0 else Z.shiftl (secondary_bank c) 5 mod bank_count
    end.

Definition effective_ram_bank (c : Mbc1Cartridge) : Z :=
  if decide (variant c = Mbc1M) then 0
  else
    match wiring c with
    | WiringStandard => if banking_mode c =? 0 then 0 else Z.land (secondary_bank c) 0x03
    | LargeRom => 0
    end.

Definition effective_ram_offset (address : Z) (c : Mbc1Cartridge) : outcome Z :=
  base_offset ← ram_base_offset address;
  let ram_bank_count := effective_ram_bank_count c in
  if decide (variant c = Mbc1M) then mret base_offset
  else
    match wiring c with
    | WiringStandard => mret (effective_ram_bank c mod ram_bank_count * 0x2000 + base_offset)
    | LargeRom => mret base_offset
    end.

(** ** Accesses *)

Definition describe_external_access (address : Z) (c : Mbc1Cartridge) : CartridgeExternalAccessInfo :=
  let has_ram := bool_decide (is_Some (ram c)) in
  let available := ram_enabled c && has_ram in
  access_new address (BankedRam (effective_ram_bank c))
    (if available then Accessible else if ram_enabled c then Absent else Disabled)
    (if available then ReadStorage else FallbackValue RAM_ABSENT_READ_VALUE)
    (if available then WriteStorage else Ignored).

Definition read_rom (address : Z) (c : Mbc1Cartridge) : Z :=
  let bank_count := default 0 (rom_bank_count (rom_size (header c))) in
  let rom_index :=
    if address <? 0x4000 then effective_low_rom_bank bank_count c * 0x4000 + address
    else effective_high_rom_bank bank_count c * 0x4000 + (address - 0x4000) in
  byte_or_absent (vec_get (rom c) rom_index).

Definition mapped_rom_window (address : Z) (c : Mbc1Cartridge) : option CartridgeMappedRomWindow :=
  if 0x8000 <=? address then None
  else
    let bank_count := default 0 (rom_bank_count (rom_size (header c))) in
    let bank := if address <? 0x4000 then effective_low_rom_bank bank_count c
                else effective_high_rom_bank bank_count c in
    let bank_offset := if address <? 0x4000 then address else address - 0x4000 in
    Some (rom_window bank 0x4000 bank_offset).

Definition write_rom (address value : Z) (c : Mbc1Cartridge) : Mbc1Cartridge :=
  if (0x0000 <=? address) && (address <=? 0x1FFF) then
    c <| ram_enabled := Z.land value 0x0F =? 0x0A |>
  else if (0x2000 <=? address) && (address <=? 0x3FFF) then
    c <| rom_bank_low5 := Z.land value 0x1F |>
  else if (0x4000 <=? address) && (address <=? 0x5FFF) then
    c <| secondary_bank := Z.land value 0x03 |>
  else if (0x6000 <=? address) && (address <=? 0x7FFF) then
    c <| banking_mode := Z.land value 0x01 |>
  else c.

Definition read_ram (address : Z) (c : Mbc1Cartridge) : outcome Z :=
  if negb (ram_enabled c) then Done RAM_ABSENT_READ_VALUE
  else
    match ram c with
    | None => Done RAM_ABSENT_READ_VALUE
    | Some ram => offset ← effective_ram_offset address c; Done (byte_or_absent (vec_get ram offset))
    end.

Definition write_ram (address value : Z) (c : Mbc1Cartridge) : outcome Mbc1Cartridge :=
  if negb (ram_enabled c) then Done c
  else
    offset ← effective_ram_offset address c;
    match ram c with
    | Some r => Done (c <| ram := Some (vec_set r offset value) |>)
    | None => Done c
    end.

(** ** Persistence *)

Definition persistence_metadata (c : Mbc1Cartridge) : CartridgePersistenceMetadata :=
  mkMetadata (has_battery c) false
    match ram c with
    | Some ram => if has_battery c then PersistentRam (Linear (vec_len ram)) else NonPersistentRam (Linear (vec_len ram))
    | None => ProfileNone
    end.

Definition persistent_state (c : Mbc1Cartridge) : PersistentCartState :=
  if has_battery c then
    match ram c with Some ram => Mbc1Ram ram | None => SavedNone end
  else SavedNone.

Definition restore_persistent_state (state : PersistentCartState) (c : Mbc1Cartridge)
    : Mbc1Cartridge * option CartridgePersistentStateError :=
  match has_battery c, ram c, state with
  | false, _, SavedNone | true, None, SavedNone => (c, None)
  | true, Some r, Mbc1Ram persisted_ram =>
      if negb (vec_len r =? vec_len persisted_ram)
      then (c, Some (RamLengthMismatch (vec_len r) (vec_len persisted_ram)))
      else (c <| ram := Some persisted_ram |>, None)
  | true, Some _, other => (c, Some (KindMismatch "Mbc1Ram" (kind_name other)))
  | false, _, other => (c, Some (KindMismatch "None" (kind_name other)))
  | true, None, other => (c, Some (KindMismatch "None" (kind_name other)))
  end.

(** ** Loading *)

Definition validate_mbc1 (header : CartridgeHeader) (actual_rom_size : Z) : V Mbc1Layout :=
  classification ← v_classification;
  declared_rom_bytes ← declared_exact_size header actual_rom_size;
  let has_ram := (raw_type classification =? 0x02) || (raw_type classification =? 0x03) in
  if String.eqb (detected_name classification) "MBC1M" then
    let expected_ram_code := if has_ram then 0x02 else 0x00 in
    reject_if (negb (ram_raw_code (ram_size header) =? expected_ram_code))
      "{} currently only supports the 1 MiB multicart baseline with {}";;
    mret (mkLayout LargeRom Mbc1M (if has_ram then 8 * 1024 else 0))
  else
    wiring ←
      (if bool_decide (declared_rom_bytes ∈ MBC1_STANDARD_ROM_SIZES) then mret WiringStandard
       else if bool_decide (declared_rom_bytes ∈ MBC1_LARGE_ROM_SIZES) then mret LargeRom
       else reject "{} declared a ROM size that is not valid for the current MBC1 baseline: {} bytes");
    let allowed_ram_codes :=
      match has_ram, wiring with
      | false, _ => [0x00]
      | true, WiringStandard => [0x02; 0x03]
      | true, LargeRom => [0x02]
      end in
    degrade_if (negb (bool_decide (ram_raw_code (ram_size header) ∈ allowed_ram_codes)))
      "{} declared RAM size code {:#04X}, which contradicts the current {} {:?} wiring baseline";;
    let ram_len :=
      match has_ram, wiring with
      | false, _ => 0
      | true, WiringStandard =>
          if (ram_raw_code (ram_size header) =? 0x02) || (ram_raw_code (ram_size header) =? 0x03)
          then default MBC1_STANDARD_RAM_BYTES_MAX (ram_decoded_bytes (ram_size header))
          else MBC1_STANDARD_RAM_BYTES_MAX
      | true, LargeRom => MBC1_LARGE_ROM_RAM_BYTES
      end in
    mret (mkLayout wiring Mbc1Standard ram_len).

(** The [Mbc1] arm of [CartridgeSlot::load]. *)
Definition load_mbc1 (header : CartridgeHeader) (rom_bytes : list Z) : V Mbc1Cartridge :=
  layout ← validate_mbc1 header (vec_len rom_bytes);
  classification ← v_classification;
  let has_battery := raw_type classification =? 0x03 in
  let ram := if negb (layout_ram_len layout =? 0) then Some (vec_zeroed (layout_ram_len layout)) else None in
  mret {|
    rom := rom_bytes;
    ram := ram;
    has_battery := has_battery;
    header := header;
    classification := classification;
    variant := layout_variant layout;
    wiring := layout_wiring layout;
    ram_enabled := false;
    rom_bank_low5 := 0;
    secondary_bank := 0;
    banking_mode := 0
  |}.

Definition board (c : Mbc1Cartridge) : Board :=
  mkBoard (BoardMbc1 (variant c) (wiring c)) (header c) (classification c) (rom c) (vec_len <$> ram c) (has_battery c) false true 0x8000.

#[export] Instance mbc1_mapper : Mapper Mbc1Cartridge := {|
  m_board := board;
  m_ram := ram;
  m_settle := fun _ c => c;
  m_taken_up := fun s => s;
  m_read_rom := fun a c => Done (read_rom a c);
  m_mapped_rom_window := mapped_rom_window;
  m_write_rom := fun a v c => Done (write_rom a v c);
  m_read_ram := read_ram;
  m_read_ram_timed := fun a _ c => v ← read_ram a c; Done (v, c);
  m_write_ram := write_ram;
  m_write_ram_timed := fun a v _ c => write_ram a v c;
  m_describe_external_access := describe_external_access;
  m_advance_rtc_seconds := fun _ c => Done c;
  m_advance_mbc3_rtc_clock_ticks := fun _ c => Done c;
  m_persistence_metadata := persistence_metadata;
  m_persistent_state := persistent_state;
  m_restore_persistent_state := restore_persistent_state
|}.

(** ** Invariant *)

(** The image is whole banks as declared; the RAM is 8 KiB of bytes, or 32 KiB
    where the second register banks it; the registers hold their widths. *)
Record ok (c : Mbc1Cartridge) : Prop := {
  ok_rom : exists n, rom_bank_count (rom_size (header c)) = Some n /\ 1 <= n /\
    vec_len (rom c) = ROM_BANK_BYTES * n;
  ok_ram : forall r, ram c = Some r -> bytes r /\
    (vec_len r = 0x2000 \/ (variant c = Mbc1Standard /\ wiring c = WiringStandard /\ vec_len r = 0x8000));
  ok_low5 : 0 <= rom_bank_low5 c < 32;
  ok_secondary : 0 <= secondary_bank c < 4;
  ok_mode : 0 <= banking_mode c < 2
}.

Definition low5_translated (c : Mbc1Cartridge) : Z := if rom_bank_low5 c =? 0 then 1 else rom_bank_low5 c.

(** The banks in arithmetic. *)
Lemma high_bank_spec n c : ok c -> 1 <= n ->
  effective_high_rom_bank n c =
    match variant c, wiring c with
    | Mbc1M, _ => (16 * secondary_bank c + low5_translated c mod 16) mod n
    | Mbc1Standard, LargeRom => (32 * secondary_bank c + low5_translated c) mod n
    | Mbc1Standard, WiringStandard => low5_translated c mod n
    end.
Proof.
  intros [_ _ Hl Hs _] Hn. unfold effective_high_rom_bank, low5_translated.
  destruct (Z.eqb_spec n 0); [lia|]. rewrite land_1F, (Z.mod_small (rom_bank_low5 c)) by lia.
  destruct (variant c), (wiring c); simpl; try done;
    rewrite ?land_0F, Z.lor_comm, lor_shiftl_add by (try case_match; prune; divmod_lia);
    f_equal; lia.
Qed.

Lemma low_bank_spec n c : ok c -> 1 <= n ->
  effective_low_rom_bank n c =
    match variant c, wiring c with
    | Mbc1M, _ => banking_mode c * (16 * secondary_bank c) mod n
    | Mbc1Standard, LargeRom => banking_mode c * (32 * secondary_bank c) mod n
    | Mbc1Standard, WiringStandard => 0
    end.
Proof.
  intros [_ _ _ Hs Hm] Hn. unfold effective_low_rom_bank. destruct (Z.eqb_spec n 0); [lia|].
  destruct (Z.eqb_spec (banking_mode c) 0) as [->|]; simpl.
  - destruct (variant c), (wiring c); done.
  - replace (banking_mode c) with 1 by lia. rewrite !Z.shiftl_mul_pow2 by lia.
    destruct (variant c), (wiring c); simpl; try done; f_equal; lia.
Qed.

(** The cell behind the aperture. *)
Definition ram_cell (a : Z) (c : Mbc1Cartridge) : Z :=
  match variant c, wiring c with
  | Mbc1Standard, WiringStandard => effective_ram_bank c mod effective_ram_bank_count c * 0x2000 + (a - 0xA000)
  | _, _ => a - 0xA000
  end.

Lemma mbc1_effective_ram_offset_ok a c : external_area a -> effective_ram_offset a c = Done (ram_cell a c).
Proof.
  intros Ha. unfold effective_ram_offset, ram_cell. rewrite ram_base_offset_ok by done. simpl.
  destruct (variant c), (wiring c); done.
Qed.

Lemma mbc1_ram_cell_range a c r : ok c -> ram c = Some r -> external_area a -> 0 <= ram_cell a c < vec_len r.
Proof.
  intros [_ Hram _ _ _] Hr Ha. destruct (Hram r Hr) as [_ Hlen].
  unfold ram_cell, effective_ram_bank_count, external_area in *. rewrite Hr.
  destruct Hlen as [-> | (-> & -> & ->)].
  - change (Z.max (0x2000 / 0x2000) 1) with 1. rewrite Z.mod_1_r.
    destruct (variant c), (wiring c); lia.
  - change (Z.max (0x8000 / 0x2000) 1) with 4. pose proof (Z.mod_pos_bound (effective_ram_bank c) 4). lia.
Qed.

Lemma mbc1_set_ram_ok c r l : ok c -> ram c = Some r -> vec_len l = vec_len r -> bytes l ->
  ok (c <| ram := Some l |>) /\ board (c <| ram := Some l |>) = board c /\
  ram (c <| ram := Some l |>) = Some l /\ ram_enabled (c <| ram := Some l |>) = ram_enabled c /\
  (forall a, ram_cell a (c <| ram := Some l |>) = ram_cell a c).
Proof.
  destruct c. simpl. intros [Hrom Hram Hl Hs Hm] Hr Hlen Hb. simpl in *. subst. split_and!; try done.
  - constructor; simpl; try done. intros ? [= <-]. rewrite Hlen. split; [done|]. by apply Hram.
  - unfold board. simpl. by rewrite Hlen.
  - intros a. unfold ram_cell, effective_ram_bank_count. simpl. by rewrite Hlen.
Qed.

#[export, refine] Instance mbc1_linear : LinearRamLaws Mbc1Cartridge ok := {|
  lr_enabled := ram_enabled;
  lr_cell := ram_cell;
  lr_settle := fun _ _ => eq_refl;
  lr_set := fun l c => c <| ram := Some l |>;
  lr_port_read := fun _ _ => RAM_ABSENT_READ_VALUE;
  lr_port_write := fun _ _ c => c;
  lr_cell_range := mbc1_ram_cell_range;
  lr_set_ok := mbc1_set_ram_ok
|}.
Proof.
  - intros a c _ Ha. simpl. unfold read_ram. rewrite mbc1_effective_ram_offset_ok by done.
    by destruct (ram_enabled c), (ram c).
  - done.
  - intros a v c _ Ha. simpl. unfold write_ram. rewrite mbc1_effective_ram_offset_ok by done.
    by destruct (ram_enabled c), (ram c).
  - intros a c. simpl. unfold describe_external_access. destruct (ram_enabled c && _); closed_port.
  - intros a v c Hok _. closed_port.
  - intros c r Hok Hr. by apply Hok.
Defined.

Lemma mbc1_write_rom_ok a v c : ok c -> ok (write_rom a v c).
Proof.
  destruct c. intros [Hrom Hram Hl Hs Hm]. unfold write_rom.
  repeat case_match; constructor; simpl in *; try done; autorewrite with masks; divmod_lia.
Qed.

Lemma mbc1_write_rom_board a v c : board (write_rom a v c) = board c /\ ram (write_rom a v c) = ram c.
Proof. destruct c. unfold write_rom. by repeat case_match. Qed.

#[export, refine] Instance mbc1_persistence : LinearPersistence Mbc1Cartridge := {|
  lp_taken_up := fun _ => eq_refl;
  lp_wrap := Mbc1Ram;
  lp_unwrap := fun s => match s with Mbc1Ram r => Some r | _ => None end;
  lp_kind := "Mbc1Ram"
|}.
Proof.
  - done.
  - done.
  - intros s r Hs Hr. destruct s; simplify_eq/=. done.
  - done.
  - done.
  - intros s c. simpl. unfold restore_persistent_state.
    destruct (has_battery c), (ram c), s; simpl; try done. by destruct (_ =? _).
Defined.

Lemma mbc1_step_ok op c : ok c -> valid_op op ->
  exists c', run_op op c = Done c' /\ ok c' /\ m_board c' = m_board c.
Proof.
  intros Hok. apply (linear_timeless_step_ok write_rom); [done | done | | | done].
  - intros a v _. split; [apply mbc1_write_rom_board | by apply mbc1_write_rom_ok].
  - intros s. by apply linear_restore_ok.
Qed.

Lemma mbc1_rom_contract_holds c : ok c -> rom_contract c.
Proof.
  intros Hok. destruct (ok_rom c Hok) as (n & Hn & Hpos & Hlen).
  apply (rom_contract_of_banks c (fun a => if a <? 0x4000 then effective_low_rom_bank n c
    else effective_high_rom_bank n c) n); [done | | |].
  - intros a _. rewrite high_bank_spec, low_bank_spec by done.
    case_match; destruct (variant c), (wiring c); try lia; apply Z.mod_pos_bound; lia.
  - intros a _. simpl. unfold read_rom, window_offset. rewrite Hn. simpl. by destruct (a <? 0x4000).
  - intros _ a Ha. simpl. unfold mapped_rom_window, window_offset, rom_area in *. rewrite Hn. simpl.
    by destruct (Z.leb_spec 0x8000 a); [lia|].
Qed.

Lemma mbc1_ok_contract c : ok c -> contract ok c.
Proof.
  intros Hok. constructor.
  - by apply mbc1_rom_contract_holds.
  - by apply linear_external_contract.
  - by apply linear_storage_contract.
  - intros a v _ _. eexists. split; [done|]. apply mbc1_write_rom_board.
  - by apply linear_persistence_contract.
Qed.

#[export] Instance mbc1_laws : MapperLaws Mbc1Cartridge := {|
  m_ok := ok;
  m_step_ok := mbc1_step_ok;
  m_ok_contract := mbc1_ok_contract
|}.

(** ** Loading establishes the invariant *)

Lemma validate_mbc1_layout h n compat cls ds layout :
  header_sized h -> accepts (validate_mbc1 h n) compat cls ds layout ->
  rom_decoded_bytes (rom_size h) = Some n /\
  (layout_ram_len layout = 0 \/ layout_ram_len layout = 0x2000 \/
   (layout_variant layout = Mbc1Standard /\ layout_wiring layout = WiringStandard /\ layout_ram_len layout = 0x8000)).
Proof.
  intros [_ Hram] H. unfold validate_mbc1 in H. accepts_inv. subst.
  set (has_ram := (_ =? 0x02) || _) in *. destruct (String.eqb _ _); accepts_inv; subst; (split; [done|]).
  - destruct has_ram; simpl; auto.
  - destruct has_ram; simpl; [|auto]. destruct a; [|auto].
    destruct (_ || _) eqn:Hcode; [|auto]. rewrite Hram. apply orb_true_iff in Hcode as [Hc|Hc]; prune; rewrite Hc; simpl; auto.
Qed.

Lemma load_mbc1_ok header rom_bytes compat cls ds c :
  header_sized header -> accepts (load_mbc1 header rom_bytes) compat cls ds c -> ok c /\ rom c = rom_bytes.
Proof.
  intros Hsized H. unfold load_mbc1 in H. accepts_inv. subst. split; [|done].
  destruct (validate_mbc1_layout _ _ _ _ _ _ Hsized Hm) as [Hn Hlen].
  destruct (exact_size_banks _ _ Hsized Hn) as (banks & Hb & Hr & Hl).
  constructor; simpl; try lia.
  - exists banks. split_and!; [done | lia | done].
  - intros r. case_match; [|done]. intros [= <-]. rewrite vec_len_zeroed by lia.
    split; [apply bytes_zeroed|]. apply negb_true_iff, Z.eqb_neq in H. destruct Hlen; [lia | done].
Qed.

(** ** Properties *)

(** Every MBC1 or MBC1M cartridge the loader accepts is sound: in every
    state reached from it by any sequence of register writes, RAM accesses,
    clock operations and restores, none of which panics, the ROM is still the
    loaded image, a ROM read is the byte of a bank inside it and of the window
    reported, external reads and the access description agree, an enabled RAM
    is memory, bank switching keeps the RAM, and saved states round-trip. *)
Theorem loaded_mbc1_sound header rom_bytes compat cls ds c ops :
  header_sized header -> accepts (load_mbc1 header rom_bytes) compat cls ds c -> Forall valid_op ops ->
  exists c', run_ops ops c = Done c' /\ board_rom (m_board c') = rom_bytes /\ contract ok c'.
Proof.
  intros Hsized Hload Hops. destruct (load_mbc1_ok _ _ _ _ _ _ Hsized Hload) as [Hok Hrom].
  destruct (@reachable_contract _ _ mbc1_laws ops c Hok Hops) as (c' & Hrun & Hb & Hc).
  exists c'. rewrite Hb. by rewrite <- Hrom.
Qed.

(** A blank 32 KiB image of an MBC1 with 8 KiB of battery RAM. *)
Lemma loaded_mbc1_sound_witness :
  let h := blank_header 0x03 0x00 0x02 in
  let cls := mkClassification 0x03 "MBC1+RAM+BATTERY" (Supported FamilyMbc1) "" in
  exists c c', accepts (load_mbc1 h (vec_zeroed 32768)) strict cls [] c /\
    run_ops [OpWriteRom 0 0x0A; OpWriteRam 0xA010 0x42] c = Done c' /\ contract ok c'.
Proof.
  intros h cls.
  assert (L : vec_len (vec_zeroed 32768) = 32768) by (apply vec_len_zeroed; discriminate).
  set (image := vec_zeroed 32768) in *.
  set (c := mkMbc1 image (Some (vec_zeroed 8192)) true h cls Mbc1Standard WiringStandard false 0 0 0).
  assert (H : accepts (load_mbc1 h image) strict cls [] c).
  { exists []. unfold load_mbc1. rewrite L. reflexivity. }
  assert (Hops : Forall valid_op [OpWriteRom 0 0x0A; OpWriteRam 0xA010 0x42]).
  { repeat constructor; discriminate. }
  destruct (loaded_mbc1_sound h image strict cls [] c _ (conj eq_refl eq_refl) H Hops) as (c' & Hrun & _ & Hc).
  exists c, c'. split; [exact H | split; [exact Hrun | exact Hc]].
Defined.

(** C34.  The bank registers select what the hardware documents: after writes
    to the three register areas the switchable window shows bank 32*hi + low,
    where a zero low register counts as 1, the fixed window follows only in
    mode 1, a multicart shifts the upper bits by 4 and drops the low
    register's top bit, the small wiring banks the RAM instead, and on the
    large wiring no multiple of 32 is ever visible in the switchable window. *)
Theorem mbc1_bank_selection c n a1 v1 a2 v2 a3 v3 :
  ok c -> rom_bank_count (rom_size (header c)) = Some n ->
  0x2000 <= a1 < 0x4000 -> 0x4000 <= a2 < 0x6000 -> 0x6000 <= a3 < 0x8000 ->
  let c' := write_rom a3 v3 (write_rom a2 v2 (write_rom a1 v1 c)) in
  let low := if v1 mod 32 =? 0 then 1 else v1 mod 32 in
  let hi := v2 mod 4 in
  let mode := v3 mod 2 in
  let high_bank := match variant c, wiring c with
                   | Mbc1M, _ => (16 * hi + low mod 16) mod n
                   | Mbc1Standard, LargeRom => (32 * hi + low) mod n
                   | Mbc1Standard, WiringStandard => low mod n
                   end in
  let low_bank := match variant c, wiring c with
                  | Mbc1M, _ => mode * (16 * hi) mod n
                  | Mbc1Standard, LargeRom => mode * (32 * hi) mod n
                  | Mbc1Standard, WiringStandard => 0
                  end in
  (forall a, 0x4000 <= a < 0x8000 ->
    read_rom a c' = byte_or_absent (vec_get (rom c) (high_bank * 0x4000 + (a - 0x4000)))) /\
  (forall a, 0 <= a < 0x4000 ->
    read_rom a c' = byte_or_absent (vec_get (rom c) (low_bank * 0x4000 + a))) /\
  effective_ram_bank c' =
    match variant c, wiring c with Mbc1Standard, WiringStandard => mode * hi | _, _ => 0 end /\
  (variant c = Mbc1Standard -> wiring c = LargeRom -> n mod 32 = 0 -> high_bank mod 32 <> 0).
Proof.
  intros Hok Hn Ha1 Ha2 Ha3 c' low hi mode high_bank low_bank.
  assert (Hok' : ok c') by (by repeat apply mbc1_write_rom_ok).
  destruct (ok_rom c Hok) as (n' & Hn' & Hpos & _). assert (n' = n) as -> by congruence.
  assert (Hregs : rom c' = rom c /\ header c' = header c /\ variant c' = variant c /\ wiring c' = wiring c /\
    rom_bank_low5 c' = v1 mod 32 /\ secondary_bank c' = hi /\ banking_mode c' = mode).
  { subst c' hi mode. unfold write_rom. destruct c. repeat (case_match; prune; try lia).
    simpl. by autorewrite with masks. }
  destruct Hregs as (Hrom & Hh & Hv & Hw & Hl & Hs & Hm).
  split_and!.
  - intros a Ha. unfold read_rom. rewrite Hrom, Hh, Hn. destruct (Z.ltb_spec a 0x4000); [lia|]. simpl.
    rewrite high_bank_spec by done. unfold low5_translated. by rewrite Hv, Hw, Hl, Hs.
  - intros a Ha. unfold read_rom. rewrite Hrom, Hh, Hn. destruct (Z.ltb_spec a 0x4000); [|lia]. simpl.
    rewrite low_bank_spec by done. by rewrite Hv, Hw, Hs, Hm.
  - unfold effective_ram_bank. rewrite Hv, Hw, Hs, Hm. destruct (variant c), (wiring c); simpl; try done.
    autorewrite with masks. assert (mode = 0 \/ mode = 1) as [-> | ->] by (subst mode; divmod_lia);
      cbn; subst hi; divmod_lia.
  - intros Hv' Hw' Hdiv. subst high_bank low. rewrite Hv', Hw', Z.mod_mod_divide by (apply Z.mod_divide; lia).
    case_match; prune; divmod_lia.
Qed.

Lemma mbc1_bank_selection_witness :
  let h := blank_header 0x01 0x05 0x00 in
  let c := mkMbc1 (vec_zeroed (1024 * 1024)) None false h (mkClassification 1 "MBC1" (Supported FamilyMbc1) "")
             Mbc1Standard LargeRom false 0 0 0 in
  let c' := write_rom 0x6000 1 (write_rom 0x4000 1 (write_rom 0x2000 0x20 c)) in
  ok c /\ read_rom 0x4005 c' = byte_or_absent (vec_get (rom c) (33 * 0x4000 + 5)) /\
  read_rom 0x0005 c' = byte_or_absent (vec_get (rom c) (32 * 0x4000 + 5)).
Proof.
  intros h c c'.
  assert (Hok : ok c).
  { subst c. constructor.
    - exists 64. split; [reflexivity | split; [discriminate | apply vec_len_zeroed; discriminate]].
    - discriminate.
    - split; [discriminate | reflexivity].
    - split; [discriminate | reflexivity].
    - split; [discriminate | reflexivity]. }
  assert (H : _) by (refine (mbc1_bank_selection c 64 0x2000 0x20 0x4000 1 0x6000 1 Hok eq_refl _ _ _); lia).
  split; [exact Hok | split].
  - apply (proj1 H). lia.
  - apply (proj1 (proj2 H)). lia.
Defined.
