(* ===== verification/Mbc2.v ===== *)
(** * MBC2 cartridges ([crates/gb-core/src/cartridge/mbc2.rs])

    The four-bit ROM bank, the 512 internal half-byte cells mirrored through
    the external area, persistence, and the loader's validation. *)

From Stdlib Require Import ZArith Lia Bool String.
From stdpp Require Import base list decidable.
From S2P Require Import Prelude.
From S2P Require Import Model.
From S2P Require Import CartridgeHeader.
From S2P Require Import Cartridge.

Local Open Scope string_scope.
Local Open Scope Z_scope.

Definition MBC2_SUPPORTED_ROM_BYTES_MAX : Z := 256 * 1024.
Definition MBC2_RAM_CELL_COUNT : Z := 512.
Definition MBC2_RAM_ADDRESS_MASK : Z := MBC2_RAM_CELL_COUNT - 1.
Definition MBC2_RAM_READ_HIGH_NIBBLE : Z := 0xF0.

Record Mbc2Cartridge := mkMbc2 {
  rom : list Z;
  ram_nibbles : list Z;
  has_battery : bool;
  header : CartridgeHeader;
  classification : CartridgeClassification;
  ram_enabled : bool;
  rom_bank_low4 : Z
}.

#[export] Instance upd_ram_nibbles : Update ram_nibbles := fun v c =>
  let '(mkMbc2 a _ b h k e l) := c in mkMbc2 a v b h k e l.
#[export] Instance upd_ram_enabled : Update ram_enabled := fun v c =>
  let '(mkMbc2 a r b h k _ l) := c in mkMbc2 a r b h k v l.
#[export] Instance upd_rom_bank_low4 : Update rom_bank_low4 := fun v c =>
  let '(mkMbc2 a r b h k e _) := c in mkMbc2 a r b h k e v.

Definition describe_external_access (address : Z) (c : Mbc2Cartridge) : CartridgeExternalAccessInfo :=
  access_new address Mbc2InternalRam
    (if ram_enabled c then Accessible else Disabled)
    (if ram_enabled c then ReadStorage else FallbackValue RAM_ABSENT_READ_VALUE)
    (if ram_enabled c then WriteStorage else Ignored).

Definition effective_high_rom_bank (bank_count : Z) (c : Mbc2Cartridge) : Z :=
  let raw_low4 := Z.land (rom_bank_low4 c) 0x0F in
  let translated_low4 := if raw_low4 =? 0 then 1 else raw_low4 in
  if bank_count =? 0 then 0 else translated_low4 mod bank_count.

Definition read_rom (address : Z) (c : Mbc2Cartridge) : Z :=
  let bank_count := default 0 (rom_bank_count (rom_size (header c))) in
  let rom_index :=
    if address <? 0x4000 then address
    else effective_high_rom_bank bank_count c * 0x4000 + (address - 0x4000) in
  byte_or_absent (vec_get (rom c) rom_index).

Definition mapped_rom_window (address : Z) (c : Mbc2Cartridge) : option CartridgeMappedRomWindow :=
  if 0x8000 <=? address then None
  else
    let bank := if address <? 0x4000 then 0
                else effective_high_rom_bank (default 0 (rom_bank_count (rom_size (header c)))) c in
    let bank_offset := if address <? 0x4000 then address else address - 0x4000 in
    Some (rom_window bank 0x4000 bank_offset).

Definition write_rom (address value : Z) (c : Mbc2Cartridge) : Mbc2Cartridge :=
  if 0x3FFF <? address then c
  else if Z.land address 0x0100 =? 0 then c <| ram_enabled := Z.land value 0x0F =? 0x0A |>
  else c <| rom_bank_low4 := Z.land value 0x0F |>.

Definition ram_index (address : Z) : outcome Z :=
  offset ← ram_base_offset address; Done (Z.land offset MBC2_RAM_ADDRESS_MASK).

Definition read_ram (address : Z) (c : Mbc2Cartridge) : outcome Z :=
  if negb (ram_enabled c) then Done RAM_ABSENT_READ_VALUE
  else
    index ← ram_index address;
    match vec_get (ram_nibbles c) index with
    | Some nibble => Done (Z.lor MBC2_RAM_READ_HIGH_NIBBLE nibble)
    | None => Panic "index out of bounds"
    end.

Definition write_ram (address value : Z) (c : Mbc2Cartridge) : outcome Mbc2Cartridge :=
  if negb (ram_enabled c) then Done c
  else
    index ← ram_index address;
    if index <? vec_len (ram_nibbles c)
    then Done (c <| ram_nibbles := vec_set (ram_nibbles c) index (Z.land value 0x0F) |>)
    else Panic "index out of bounds".

Definition persistence_metadata (c : Mbc2Cartridge) : CartridgePersistenceMetadata :=
  mkMetadata (has_battery c) false
    (if has_battery c then PersistentRam (Mbc2Nibbles MBC2_RAM_CELL_COUNT)
     else NonPersistentRam (Mbc2Nibbles MBC2_RAM_CELL_COUNT)).

Definition persistent_state (c : Mbc2Cartridge) : PersistentCartState :=
  if has_battery c then Mbc2Ram (ram_nibbles c) else SavedNone.

(** The loop over the saved cells: the first one with an upper nibble. *)
Fixpoint first_invalid_nibble (index : Z) (nibbles : list Z) : option (Z * Z) :=
  match nibbles with
  | [] => None
  | value :: rest =>
      if negb (Z.land value 0xF0 =? 0) then Some (index, value) else first_invalid_nibble (index + 1) rest
  end.

Definition restore_persistent_state (state : PersistentCartState) (c : Mbc2Cartridge)
    : Mbc2Cartridge * option CartridgePersistentStateError :=
  match has_battery c, state with
  | false, SavedNone => (c, None)
  | true, Mbc2Ram nibbles =>
      match first_invalid_nibble 0 nibbles with
      | Some (index, value) => (c, Some (InvalidMbc2NibbleValue index value))
      | None => (c <| ram_nibbles := nibbles |>, None)
      end
  | true, other => (c, Some (KindMismatch "Mbc2Ram" (kind_name other)))
  | false, other => (c, Some (KindMismatch "None" (kind_name other)))
  end.

(** ** Loading *)

Definition validate_mbc2 (header : CartridgeHeader) (actual_rom_size : Z) : V unit :=
  declared_rom_bytes ← declared_exact_size header actual_rom_size;
  reject_if (MBC2_SUPPORTED_ROM_BYTES_MAX <? declared_rom_bytes)
    "{} exceeds the current MBC2 ROM limit of {} bytes with {} bytes";;
  degrade_if (negb (ram_raw_code (ram_size header) =? 0x00))
    "{} expects RAM size code 0x00 because MBC2 RAM is internal, but the header declared {:#04X}".

(** The [Mbc2] arm of [CartridgeSlot::load]. *)
Definition load_mbc2 (header : CartridgeHeader) (rom_bytes : list Z) : V Mbc2Cartridge :=
  validate_mbc2 header (vec_len rom_bytes);;
  classification ← v_classification;
  let has_battery := raw_type classification =? 0x06 in
  mret {|
    rom := rom_bytes;
    ram_nibbles := vec_zeroed MBC2_RAM_CELL_COUNT;
    has_battery := has_battery;
    header := header;
    classification := classification;
    ram_enabled := false;
    rom_bank_low4 := 0
  |}.

Definition board (c : Mbc2Cartridge) : Board :=
  mkBoard BoardMbc2 (header c) (classification c) (rom c) (Some MBC2_RAM_CELL_COUNT) (has_battery c) false true 0x8000.

#[export] Instance mbc2_mapper : Mapper Mbc2Cartridge := {|
  m_board := board;
  m_ram := fun c => Some (ram_nibbles c);
  m_settle := fun _ c => c;
  m_taken_up := fun s => s;
  m_read_rom := fun a c => Done (read_rom a c);
  m_mapped_rom_window := mapped_rom_window;
  m_write_rom := fun a v c => Done (write_rom a v c);
  m_read_ram := read_ram;
  m_read_ram_timed := fun a _ c => v ← read_ram a c; Done (v, c);
  m_write_ram := write_ram;
  m_write_ram_timed := fun a v _ c => write_ram a v c;
  m_describe_external_access := describe_external_access;
  m_advance_rtc_seconds := fun _ c => Done c;
  m_advance_mbc3_rtc_clock_ticks := fun _ c => Done c;
  m_persistence_metadata := persistence_metadata;
  m_persistent_state := persistent_state;
  m_restore_persistent_state := restore_persistent_state
|}.

(** ** Invariant *)

Definition nibbles (l : list Z) : Prop := Forall (fun x => 0 <= x < 16) l.

Record ok (c : Mbc2Cartridge) : Prop := {
  ok_rom : exists n, rom_bank_count (rom_size (header c)) = Some n /\ 1 <= n /\
    vec_len (rom c) = ROM_BANK_BYTES * n;
  ok_nibbles : vec_len (ram_nibbles c) = MBC2_RAM_CELL_COUNT /\ nibbles (ram_nibbles c);
  ok_low4 : 0 <= rom_bank_low4 c < 16
}.

Definition ram_cell (a : Z) : Z := (a - 0xA000) mod 512.

Lemma ram_index_ok a : external_area a -> ram_index a = Done (ram_cell a).
Proof.
  intros Ha. unfold ram_index. rewrite ram_base_offset_ok by done. simpl.
  change MBC2_RAM_ADDRESS_MASK with 0x1FF. by rewrite land_1FF.
Qed.

Lemma mbc2_ram_cell_range a : 0 <= ram_cell a < 512.
Proof. apply Z.mod_pos_bound. lia. Qed.

Lemma nibble_at c i : ok c -> 0 <= i < 512 ->
  exists x, vec_get (ram_nibbles c) i = Some x /\ 0 <= x < 16.
Proof.
  intros [_ [Hlen Hn] _] Hi. unfold vec_get, vec_len, MBC2_RAM_CELL_COUNT in *.
  destruct (lookup_lt_is_Some_2 (ram_nibbles c) (Z.to_nat i)) as [x Hx]; [lia|].
  exists x. split; [done|]. exact (Forall_lookup_1 _ _ _ _ Hn Hx).
Qed.

Lemma set_nibbles_ok c l : ok c -> vec_len l = MBC2_RAM_CELL_COUNT -> nibbles l ->
  ok (c <| ram_nibbles := l |>) /\ board (c <| ram_nibbles := l |>) = board c.
Proof. destruct c. intros [Hrom _ Hlow] Hlen Hl. by split. Qed.

Lemma write_nibble_ok c i v : ok c ->
  let l := vec_set (ram_nibbles c) i (Z.land v 0x0F) in vec_len l = MBC2_RAM_CELL_COUNT /\ nibbles l.
Proof.
  intros [_ [Hlen Hn] _] l. split; [by unfold l; rewrite vec_len_set|].
  apply Forall_insert; [done|]. rewrite land_0F. apply Z.mod_pos_bound. lia.
Qed.

Lemma first_invalid_nibble_none l i : bytes l -> first_invalid_nibble i l = None <-> nibbles l.
Proof.
  intros Hl. revert i. induction Hl as [|x l Hx Hl IH]; intros i; simpl.
  - split; [constructor|done].
  - assert (Hbit : (Z.land x 0xF0 =? 0) = true <-> 0 <= x < 16).
    { assert (Hall : forall y, 0 <= y < Z.of_nat 256 -> Bool.eqb (Z.land y 0xF0 =? 0) (y <? 16) = true)
        by (apply forall_below; reflexivity).
      specialize (Hall x Hx). apply Bool.eqb_prop in Hall. rewrite Hall, Z.ltb_lt. unfold u8 in Hx. lia. }
    destruct (Z.land x 0xF0 =? 0); simpl.
    + rewrite IH. unfold nibbles. rewrite List.Forall_cons_iff. tauto.
    + split; [done|]. unfold nibbles. rewrite List.Forall_cons_iff. intros [Hx' _]. apply Hbit in Hx'. done.
Qed.

Lemma nibbles_bytes l : nibbles l -> bytes l.
Proof. apply Forall_impl. unfold u8. lia. Qed.

(** ** Steps *)

Lemma write_ram_ok a v c :
  ok c -> external_area a ->
  write_ram a v c =
    Done (if ram_enabled c then c <| ram_nibbles := vec_set (ram_nibbles c) (ram_cell a) (Z.land v 0x0F) |> else c).
Proof.
  intros Hok Ha. unfold write_ram. destruct (ram_enabled c); [|done]. simpl.
  rewrite ram_index_ok by done. simpl. pose proof (mbc2_ram_cell_range a). destruct (ok_nibbles c Hok) as [-> _].
  unfold MBC2_RAM_CELL_COUNT. by destruct (Z.ltb_spec (ram_cell a) 512); [|lia].
Qed.

Lemma read_ram_ok a c :
  ok c -> external_area a ->
  exists x, 0 <= x < 16 /\ vec_get (ram_nibbles c) (ram_cell a) = Some x /\
    read_ram a c = Done (if ram_enabled c then Z.lor MBC2_RAM_READ_HIGH_NIBBLE x else RAM_ABSENT_READ_VALUE).
Proof.
  intros Hok Ha. destruct (nibble_at c (ram_cell a) Hok (mbc2_ram_cell_range a)) as (x & Hx & Hr).
  exists x. split_and!; try done; try lia. unfold read_ram. destruct (ram_enabled c); [|done]. simpl.
  rewrite ram_index_ok by done. simpl. by rewrite Hx.
Qed.

Lemma mbc2_write_ram_step a v c :
  ok c -> external_area a -> exists c', write_ram a v c = Done c' /\ ok c' /\ board c' = board c.
Proof.
  intros Hok Ha. rewrite write_ram_ok by done. eexists. split; [done|]. destruct (ram_enabled c); [|done].
  destruct (write_nibble_ok c (ram_cell a) v Hok). by apply set_nibbles_ok.
Qed.

Lemma mbc2_write_rom_ok a v c : ok c -> ok (write_rom a v c) /\ board (write_rom a v c) = board c.
Proof.
  destruct c. intros [Hrom Hn Hlow]. unfold write_rom.
  repeat case_match; (split; [constructor|]); simpl in *; try done.
  rewrite land_0F. apply Z.mod_pos_bound. lia.
Qed.

Lemma mbc2_restore_ok s c :
  ok c -> saved_typed s ->
  ok (fst (restore_persistent_state s c)) /\ board (fst (restore_persistent_state s c)) = board c.
Proof.
  intros Hok Hs. unfold restore_persistent_state.
  destruct (has_battery c), s as [| | | | | |l| | | | | | |]; try done.
  destruct Hs as [Hl Hlen]. destruct (first_invalid_nibble 0 l) as [[??]|] eqn:E; [done|].
  apply first_invalid_nibble_none in E; [|done]. apply set_nibbles_ok; [done| |done].
  unfold vec_len. by rewrite Hlen.
Qed.

Lemma mbc2_step_ok op c : ok c -> valid_op op ->
  exists c', run_op op c = Done c' /\ ok c' /\ m_board c' = m_board c.
Proof.
  intros Hok Hop. destruct op; simpl in *; try (by exists c).
  - eexists. split; [done|]. by apply mbc2_write_rom_ok.
  - destruct Hop. by apply mbc2_write_ram_step.
  - destruct Hop as (? & _). by apply mbc2_write_ram_step.
  - destruct Hop as [Ha _]. destruct (read_ram_ok address c Hok Ha) as (x & _ & _ & ->). by exists c.
  - eexists. split; [done|]. by apply mbc2_restore_ok.
Qed.

(** ** Contract *)

Lemma mbc2_rom_contract_holds c : ok c -> rom_contract c.
Proof.
  intros Hok. destruct (ok_rom c Hok) as (n & Hn & Hpos & Hlen).
  apply (rom_contract_of_banks c (fun a => if a <? 0x4000 then 0 else effective_high_rom_bank n c) n);
    [done | | |].
  - intros a _. unfold effective_high_rom_bank. destruct (Z.eqb_spec n 0); [lia|].
    case_match; [lia|]. apply Z.mod_pos_bound. lia.
  - intros a _. simpl. unfold read_rom, window_offset. rewrite Hn. simpl. by destruct (a <? 0x4000).
  - intros _ a Ha. simpl. unfold mapped_rom_window, window_offset, rom_area in *. rewrite Hn. simpl.
    by destruct (Z.leb_spec 0x8000 a); [lia|].
Qed.

Lemma high_nibble_u8 x : 0 <= x < 16 -> u8 (Z.lor MBC2_RAM_READ_HIGH_NIBBLE x).
Proof. intros. apply u8_lor; unfold u8, MBC2_RAM_READ_HIGH_NIBBLE; lia. Qed.

Lemma mbc2_external_contract_holds c : ok c -> external_contract c.
Proof.
  intros Hok a Ha. destruct (read_ram_ok a c Hok Ha) as (x & Hx & _ & Hread). simpl. rewrite Hread.
  eexists. split_and!; [done | | | |]; rewrite ?Hread; unfold describe_external_access; simpl.
  - destruct (ram_enabled c); [by apply high_nibble_u8 | unfold RAM_ABSENT_READ_VALUE, u8; lia].
  - intros t _. eexists _, c. split_and!; [done | | done].
    destruct (ram_enabled c); [by apply high_nibble_u8 | unfold RAM_ABSENT_READ_VALUE, u8; lia].
  - destruct (ram_enabled c); congruence.
  - intros Hi w. rewrite write_ram_ok by done. destruct (ram_enabled c); congruence.
Qed.

Lemma mbc2_storage_contract_holds c : ok c -> storage_contract c.
Proof.
  intros Hok. exists ram_cell, (fun w => Z.lor MBC2_RAM_READ_HIGH_NIBBLE (Z.land w 0x0F)).
  intros a w Ha Hw _ Hd. simpl in *. unfold describe_external_access in Hd. simpl in Hd.
  rewrite write_ram_ok by done. destruct (ram_enabled c) eqn:He; [|done].
  eexists. split; [done|]. intros a' Ha'.
  destruct (write_nibble_ok c (ram_cell a) w Hok) as [Hl1 Hl2].
  destruct (set_nibbles_ok c _ Hok Hl1 Hl2) as [Hok' _].
  destruct (read_ram_ok a' _ Hok' Ha') as (x & _ & Hx & ->), (read_ram_ok a' c Hok Ha') as (y & _ & Hy & ->).
  destruct (ok_nibbles c Hok) as [Hlen _]. pose proof (mbc2_ram_cell_range a). pose proof (mbc2_ram_cell_range a').
  destruct c. simpl in *. subst. unfold vec_get, vec_set, vec_len, MBC2_RAM_CELL_COUNT in *.
  destruct (Z.eqb_spec (ram_cell a') (ram_cell a)) as [E|].
  - rewrite E, list_lookup_insert_eq in Hx by lia. by injection Hx as <-.
  - rewrite list_lookup_insert_ne in Hx by lia. congruence.
Qed.

Lemma mbc2_persistence_contract_holds c : ok c -> persistence_contract ok c.
Proof.
  intros Hok. unfold persistence_contract. simpl. destruct (ok_nibbles c Hok) as [Hlen Hn]. split_and!.
  - unfold persistent_state. destruct (has_battery c); [|done]. split; [by apply nibbles_bytes|].
    unfold vec_len, MBC2_RAM_CELL_COUNT in Hlen. lia.
  - intros c0 Hok0 Hb. apply (f_equal board_battery) in Hb as Hbat; simpl in Hbat. unfold persistent_state, restore_persistent_state. rewrite Hbat.
    destruct (has_battery c); [|by exists c0; rewrite Hbat].
    rewrite (proj2 (first_invalid_nibble_none (ram_nibbles c) 0 (nibbles_bytes _ Hn)) Hn).
    eexists. split; [done|]. destruct c0. simpl in *. by subst.
  - intros s c1 e. unfold restore_persistent_state.
    destruct (has_battery c), s; try congruence. destruct (first_invalid_nibble _ _) as [[??]|]; congruence.
Qed.

Lemma mbc2_ok_contract c : ok c -> contract ok c.
Proof.
  intros Hok. constructor.
  - by apply mbc2_rom_contract_holds.
  - by apply mbc2_external_contract_holds.
  - by apply mbc2_storage_contract_holds.
  - intros a v _ _. eexists. split; [done|]. simpl. destruct c. unfold write_rom. by repeat case_match.
  - by apply mbc2_persistence_contract_holds.
Qed.

#[export] Instance mbc2_laws : MapperLaws Mbc2Cartridge := {|
  m_ok := ok;
  m_step_ok := mbc2_step_ok;
  m_ok_contract := mbc2_ok_contract
|}.

Lemma load_mbc2_ok header rom_bytes compat cls ds c :
  header_sized header -> accepts (load_mbc2 header rom_bytes) compat cls ds c -> ok c /\ rom c = rom_bytes.
Proof.
  intros Hsized H. unfold load_mbc2, validate_mbc2 in H. accepts_inv. subst. split; [|done].
  destruct (exact_size_banks _ _ Hsized H0) as (banks & Hb & Hr & Hl).
  constructor; simpl; try lia.
  - exists banks. split_and!; [done | lia | done].
  - split; [by apply vec_len_zeroed|]. apply Forall_replicate. lia.
Qed.

(** ** Properties *)

(** Every MBC2 cartridge the loader accepts is sound: in every state
    reached from it, without panic, the ROM is the loaded image seen through
    its bank windows, the 512 internal cells are a memory of half bytes
    mirrored through the external area whose upper bits read as ones, the
    access description is true, bank switching keeps the cells, and saved
    states round-trip while a saved cell wider than four bits is refused
    without effect. *)
Theorem loaded_mbc2_sound header rom_bytes compat cls ds c ops :
  header_sized header -> accepts (load_mbc2 header rom_bytes) compat cls ds c -> Forall valid_op ops ->
  exists c', run_ops ops c = Done c' /\ board_rom (m_board c') = rom_bytes /\ contract ok c' /\
    (ram_enabled c' = true -> forall a v, external_area a -> u8 v ->
      exists c'', write_ram a v c' = Done c'' /\
        forall a', external_area a' -> a' mod 512 = a mod 512 -> read_ram a' c'' = Done (0xF0 + v mod 16)).
Proof.
  intros Hsized Hload Hops. destruct (load_mbc2_ok _ _ _ _ _ _ Hsized Hload) as [Hok Hrom].
  destruct (@run_ops_ok _ _ mbc2_laws ops c Hok Hops) as (c' & Hrun & Hok' & Hb).
  exists c'. rewrite Hb. split_and!; [done | by rewrite <- Hrom | by apply mbc2_ok_contract |].
  intros He a v Ha Hv. rewrite write_ram_ok, He by done. eexists. split; [done|]. intros a' Ha' Hmod.
  destruct (write_nibble_ok c' (ram_cell a) v Hok') as [Hl1 Hl2].
  destruct (set_nibbles_ok c' _ Hok' Hl1 Hl2) as [Hok'' _].
  destruct (read_ram_ok a' _ Hok'' Ha') as (x & Hxr & Hx & ->).
  assert (ram_cell a' = ram_cell a) as Hcell by (unfold ram_cell, external_area in *; divmod_lia).
  destruct (ok_nibbles c' Hok') as [Hlen _]. pose proof (mbc2_ram_cell_range a).
  destruct c'. simpl in *. subst. unfold vec_get, vec_set, vec_len, MBC2_RAM_CELL_COUNT in *.
  rewrite Hcell, list_lookup_insert_eq in Hx by lia. injection Hx as <-. rewrite land_0F. f_equal.
  change MBC2_RAM_READ_HIGH_NIBBLE with (Z.shiftl 0x0F 4).
  rewrite Z.lor_comm, lor_shiftl_add; [lia | lia | apply Z.mod_pos_bound; lia].
Qed.

(** A blank 32 KiB MBC2 with a battery: 0x27 written at 0xA010 reads 0xF7 at its mirror. *)
Lemma loaded_mbc2_sound_witness :
  let h := blank_header 0x06 0x00 0x00 in
  let cls := mkClassification 0x06 "MBC2+BATTERY" (Supported FamilyMbc2) "" in
  exists c c', accepts (load_mbc2 h (vec_zeroed 32768)) strict cls [] c /\
    run_ops [OpWriteRom 0 0x0A] c = Done c' /\
    exists c'', write_ram 0xA010 0x27 c' = Done c'' /\ read_ram 0xA210 c'' = Done 0xF7.
Proof.
  intros h cls.
  assert (L : vec_len (vec_zeroed 32768) = 32768) by (apply vec_len_zeroed; discriminate).
  set (image := vec_zeroed 32768) in *.
  set (c := mkMbc2 image (vec_zeroed 512) true h cls false 0).
  assert (H : accepts (load_mbc2 h image) strict cls [] c).
  { exists []. unfold load_mbc2. rewrite L. reflexivity. }
  assert (Hops : Forall valid_op [OpWriteRom 0 0x0A]) by (repeat constructor; discriminate).
  destruct (loaded_mbc2_sound h image strict cls [] c _ (conj eq_refl eq_refl) H Hops) as (c' & Hrun & _ & _ & Hw).
  exists c, c'. split; [exact H | split; [exact Hrun|]].
  assert (ram_enabled c' = true) as He by (injection Hrun as <-; reflexivity).
  destruct (Hw He 0xA010 0x27) as (c'' & Hw' & Hr); [unfold external_area; lia | unfold u8; lia |].
  exists c''. split; [exact Hw'|]. apply (Hr 0xA210); [unfold external_area; lia | reflexivity].
Defined.
