(* ===== verification/Mbc5.v ===== *)
(** * MBC5 cartridges ([crates/gb-core/src/cartridge/mbc5.rs])

    The nine-bit ROM bank, banked RAM, the rumble variants, persistence, and
    the loader's validation with its permissive ROM layout. *)

From Stdlib Require Import ZArith Lia Bool String.
From stdpp Require Import base list decidable.
From S2P Require Import Prelude.
From S2P Require Import Model.
From S2P Require Import CartridgeHeader.
From S2P Require Import Cartridge.

Local Open Scope string_scope.
Local Open Scope list_scope.
Local Open Scope Z_scope.

Definition MBC5_SUPPORTED_ROM_BYTES_MAX : Z := 8 * 1024 * 1024.

Definition declared_exact (declared_bytes actual_bytes : Z) : CartridgeRomLayout :=
  mkRomLayout (Some declared_bytes) actual_bytes declared_bytes (declared_bytes / ROM_BANK_BYTES) DeclaredExact.

Definition variant_has_ram (v : Mbc5Variant) : bool :=
  match v with Ram | RamBattery | RumbleRam | RumbleRamBattery => true | _ => false end.
Definition variant_has_battery (v : Mbc5Variant) : bool :=
  match v with RamBattery | RumbleRamBattery => true | _ => false end.
Definition variant_has_rumble (v : Mbc5Variant) : bool :=
  match v with Rumble | RumbleRam | RumbleRamBattery => true | _ => false end.

Record Mbc5ValidationLayout := mkLayout {
  layout_variant : Mbc5Variant;
  layout_rom : CartridgeRomLayout;
  layout_ram_len : Z
}.

Record Mbc5Cartridge := mkMbc5 {
  rom : list Z;
  ram : option (list Z);
  has_battery : bool;
  has_rumble : bool;
  header : CartridgeHeader;
  classification : CartridgeClassification;
  variant : Mbc5Variant;
  rom_layout : CartridgeRomLayout;
  ram_enabled : bool;
  rom_bank_low8 : Z;
  rom_bank_high1 : Z;
  ram_bank_raw : Z;
  rumble_on_flag : bool
}.

#[export] Instance upd_ram : Update ram := fun v c =>
  let '(mkMbc5 a _ b u h k x y e l g w o) := c in mkMbc5 a v b u h k x y e l g w o.
#[export] Instance upd_ram_enabled : Update ram_enabled := fun v c =>
  let '(mkMbc5 a r b u h k x y _ l g w o) := c in mkMbc5 a r b u h k x y v l g w o.
#[export] Instance upd_rom_bank_low8 : Update rom_bank_low8 := fun v c =>
  let '(mkMbc5 a r b u h k x y e _ g w o) := c in mkMbc5 a r b u h k x y e v g w o.
#[export] Instance upd_rom_bank_high1 : Update rom_bank_high1 := fun v c =>
  let '(mkMbc5 a r b u h k x y e l _ w o) := c in mkMbc5 a r b u h k x y e l v w o.
#[export] Instance upd_ram_bank_raw : Update ram_bank_raw := fun v c =>
  let '(mkMbc5 a r b u h k x y e l g _ o) := c in mkMbc5 a r b u h k x y e l g v o.
#[export] Instance upd_rumble_on : Update rumble_on_flag := fun v c =>
  let '(mkMbc5 a r b u h k x y e l g w _) := c in mkMbc5 a r b u h k x y e l g w v.

(** ** Banking *)

Definition effective_rom_bank (bank_count : Z) (c : Mbc5Cartridge) : Z :=
  if bank_count =? 0 then 0
  else
    let raw_bank := Z.lor (Z.shiftl (rom_bank_high1 c) 8) (rom_bank_low8 c) in
    raw_bank mod bank_count.

Definition effective_ram_bank (c : Mbc5Cartridge) : Z :=
  let bank_count := Z.max (default 0 (ram_bank_count (ram_size (header c)))) 1 in
  as_u8 (ram_bank_raw c mod bank_count).

Definition effective_ram_offset (address : Z) (c : Mbc5Cartridge) : outcome Z :=
  base_offset ← ram_base_offset address;
  mret (effective_ram_bank c * 0x2000 + base_offset).

Definition rumble_on (c : Mbc5Cartridge) : bool := has_rumble c && rumble_on_flag c.

(** ** Accesses *)

Definition describe_external_access (address : Z) (c : Mbc5Cartridge) : CartridgeExternalAccessInfo :=
  let has_ram := bool_decide (is_Some (ram c)) in
  let available := ram_enabled c && has_ram in
  access_new address (BankedRam (effective_ram_bank c))
    (if available then Accessible else if ram_enabled c then Absent else Disabled)
    (if available then ReadStorage else FallbackValue RAM_ABSENT_READ_VALUE)
    (if available then WriteStorage else Ignored).

Definition read_rom (address : Z) (c : Mbc5Cartridge) : Z :=
  let bank_count := effective_bank_count (rom_layout c) in
  let rom_index :=
    if address <? 0x4000 then address
    else effective_rom_bank bank_count c * 0x4000 + (address - 0x4000) in
  byte_or_absent (vec_get (rom c) rom_index).

Definition mapped_rom_window (address : Z) (c : Mbc5Cartridge) : option CartridgeMappedRomWindow :=
  if 0x8000 <=? address then None
  else
    let bank := if address <? 0x4000 then 0
                else effective_rom_bank (default 0 (rom_bank_count (rom_size (header c)))) c in
    let bank_offset := if address <? 0x4000 then address else address - 0x4000 in
    Some (rom_window bank 0x4000 bank_offset).

Definition write_rom (address value : Z) (c : Mbc5Cartridge) : Mbc5Cartridge :=
  if (0x0000 <=? address) && (address <=? 0x1FFF) then
    c <| ram_enabled := Z.land value 0x0F =? 0x0A |>
  else if (0x2000 <=? address) && (address <=? 0x2FFF) then
    c <| rom_bank_low8 := value |>
  else if (0x3000 <=? address) && (address <=? 0x3FFF) then
    c <| rom_bank_high1 := Z.land value 0x01 |>
  else if (0x4000 <=? address) && (address <=? 0x5FFF) then
    if has_rumble c then
      c <| rumble_on_flag := has_bits value 0x08 |> <| ram_bank_raw := Z.land value 0x07 |>
    else c <| ram_bank_raw := Z.land value 0x0F |>
  else c.

Definition read_ram (address : Z) (c : Mbc5Cartridge) : outcome Z :=
  if negb (ram_enabled c) then Done RAM_ABSENT_READ_VALUE
  else
    match ram c with
    | None => Done RAM_ABSENT_READ_VALUE
    | Some ram => offset ← effective_ram_offset address c; Done (byte_or_absent (vec_get ram offset))
    end.

Definition write_ram (address value : Z) (c : Mbc5Cartridge) : outcome Mbc5Cartridge :=
  if negb (ram_enabled c) then Done c
  else
    offset ← effective_ram_offset address c;
    match ram c with
    | Some r => Done (c <| ram := Some (vec_set r offset value) |>)
    | None => Done c
    end.

(** ** Persistence *)

Definition persistence_metadata (c : Mbc5Cartridge) : CartridgePersistenceMetadata :=
  mkMetadata (has_battery c) false
    match ram c with
    | Some ram => if has_battery c then PersistentRam (Linear (vec_len ram)) else NonPersistentRam (Linear (vec_len ram))
    | None => ProfileNone
    end.

Definition persistent_state (c : Mbc5Cartridge) : PersistentCartState :=
  if has_battery c then
    match ram c with Some ram => Mbc5Ram ram | None => SavedNone end
  else SavedNone.

Definition restore_persistent_state (state : PersistentCartState) (c : Mbc5Cartridge)
    : Mbc5Cartridge * option CartridgePersistentStateError :=
  match has_battery c, ram c, state with
  | false, _, SavedNone | true, None, SavedNone => (c, None)
  | true, Some r, Mbc5Ram persisted_ram =>
      if negb (vec_len r =? vec_len persisted_ram)
      then (c, Some (RamLengthMismatch (vec_len r) (vec_len persisted_ram)))
      else (c <| ram := Some persisted_ram |>, None)
  | true, Some _, other => (c, Some (KindMismatch "Mbc5Ram" (kind_name other)))
  | false, _, other => (c, Some (KindMismatch "None" (kind_name other)))
  | true, None, other => (c, Some (KindMismatch "None" (kind_name other)))
  end.

(** ** Loading *)

(** [usize::div_ceil] and [usize::next_power_of_two]. *)
Definition div_ceil (a b : Z) : Z := (a + b - 1) / b.
Definition next_power_of_two (x : Z) : Z := if x <=? 1 then 1 else 2 ^ Z.log2_up x.

Definition rounded_mbc5_actual_rom_capacity (actual_rom_size : Z) : Z :=
  let bank_rounded :=
    Z.max (div_ceil actual_rom_size ROM_BANK_BYTES) (NO_MBC_SUPPORTED_ROM_BYTES / ROM_BANK_BYTES) * ROM_BANK_BYTES in
  next_power_of_two bank_rounded.

Definition validate_mbc5_rom_layout (header : CartridgeHeader) (actual_rom_size : Z) : V CartridgeRomLayout :=
  compatibility ← v_compatibility;
  let strict := bool_decide (validation_policy compatibility = ValidateStrict) in
  let effective_rom_size := rounded_mbc5_actual_rom_capacity actual_rom_size in
  reject_if (MBC5_SUPPORTED_ROM_BYTES_MAX <? actual_rom_size)
    "{} exceeds the current MBC5 ROM limit of {} bytes with {} bytes";;
  match rom_decoded_bytes (rom_size header) with
  | Some declared_rom_bytes =>
      if actual_rom_size =? declared_rom_bytes then
        mret (declared_exact declared_rom_bytes actual_rom_size)
      else
        reject_if strict "{} expects a {}-byte image, but the loaded ROM is {} bytes";;
        check_degradable
          "{} declared a {}-byte ROM from size code {:#04X}, but the loaded ROM is {} bytes; using a {}-byte permissive ROM capacity padded with 0xFF";;
        mret (mkRomLayout (Some declared_rom_bytes) actual_rom_size effective_rom_size
                (effective_rom_size / ROM_BANK_BYTES) PermissiveRoundedActual)
  | None =>
      reject_if strict "{} declared an unsupported ROM size code {:#04X}";;
      check_degradable
        "{} declared unsupported ROM size code {:#04X}; using a {}-byte permissive ROM capacity derived from the {}-byte image and padded with 0xFF";;
      mret (mkRomLayout None actual_rom_size effective_rom_size
              (effective_rom_size / ROM_BANK_BYTES) PermissiveRoundedActual)
  end.

Definition validate_mbc5 (header : CartridgeHeader) (actual_rom_size : Z) : V Mbc5ValidationLayout :=
  classification ← v_classification;
  rom_layout ← validate_mbc5_rom_layout header actual_rom_size;
  variant ←
    match raw_type classification with
    | 0x19 => mret NoRam
    | 0x1A => mret Ram
    | 0x1B => mret RamBattery
    | 0x1C => mret Rumble
    | 0x1D => mret RumbleRam
    | 0x1E => mret RumbleRamBattery
    | _ => v_unreachable "non-MBC5 type entered MBC5 validation"
    end;
  ram_len ←
    (if variant_has_ram variant then
       let allowed_ram_codes :=
         if variant_has_rumble variant then [0x02; 0x03; 0x05] else [0x02; 0x03; 0x04; 0x05] in
       reject_if (negb (bool_decide (ram_raw_code (ram_size header) ∈ allowed_ram_codes)))
         "{} declared RAM size code {:#04X}, which is not valid for the current {} MBC5 baseline";;
       mret (default 0 (ram_decoded_bytes (ram_size header)))
     else
       degrade_if (negb (ram_raw_code (ram_size header) =? 0x00))
         "{} does not provide external RAM, but the header declared RAM size code {:#04X}";;
       mret 0);
  mret (mkLayout variant rom_layout ram_len).

(** [rom.resize(n, RAM_ABSENT_READ_VALUE)] when the image is shorter. *)
Definition pad_rom (rom : list Z) (effective_bytes : Z) : list Z :=
  if vec_len rom <? effective_bytes
  then rom ++ replicate (Z.to_nat (effective_bytes - vec_len rom)) RAM_ABSENT_READ_VALUE
  else rom.

(** The [Mbc5] arm of [CartridgeSlot::load]. *)
Definition load_mbc5 (header : CartridgeHeader) (rom_bytes : list Z) : V Mbc5Cartridge :=
  layout ← validate_mbc5 header (vec_len rom_bytes);
  classification ← v_classification;
  let rom := pad_rom rom_bytes (effective_bytes (layout_rom layout)) in
  let ram := if negb (layout_ram_len layout =? 0) then Some (vec_zeroed (layout_ram_len layout)) else None in
  mret {|
    rom := rom;
    ram := ram;
    has_battery := variant_has_battery (layout_variant layout);
    has_rumble := variant_has_rumble (layout_variant layout);
    header := header;
    classification := classification;
    variant := layout_variant layout;
    rom_layout := layout_rom layout;
    ram_enabled := false;
    rom_bank_low8 := 1;
    rom_bank_high1 := 0;
    ram_bank_raw := 0;
    rumble_on_flag := false
  |}.

Definition board (c : Mbc5Cartridge) : Board :=
  mkBoard (BoardMbc5 (variant c) (rom_layout c) (has_rumble c)) (header c) (classification c) (rom c) (vec_len <$> ram c) (has_battery c) false
    (bool_decide (rom_bank_count (rom_size (header c)) = Some (effective_bank_count (rom_layout c)))) 0x8000.

#[export] Instance mbc5_mapper : Mapper Mbc5Cartridge := {|
  m_board := board;
  m_ram := ram;
  m_settle := fun _ c => c;
  m_taken_up := fun s => s;
  m_read_rom := fun a c => Done (read_rom a c);
  m_mapped_rom_window := mapped_rom_window;
  m_write_rom := fun a v c => Done (write_rom a v c);
  m_read_ram := read_ram;
  m_read_ram_timed := fun a _ c => v ← read_ram a c; Done (v, c);
  m_write_ram := write_ram;
  m_write_ram_timed := fun a v _ c => write_ram a v c;
  m_describe_external_access := describe_external_access;
  m_advance_rtc_seconds := fun _ c => Done c;
  m_advance_mbc3_rtc_clock_ticks := fun _ c => Done c;
  m_persistence_metadata := persistence_metadata;
  m_persistent_state := persistent_state;
  m_restore_persistent_state := restore_persistent_state
|}.

(** ** Invariant *)

(** The padded image is whole banks as the layout counts them; the RAM is the
    banks the header declares; the low register is a byte. *)
Record ok (c : Mbc5Cartridge) : Prop := {
  ok_rom : 1 <= effective_bank_count (rom_layout c) /\
    vec_len (rom c) = ROM_BANK_BYTES * effective_bank_count (rom_layout c);
  ok_ram : forall r, ram c = Some r -> bytes r /\
    exists n, ram_bank_count (ram_size (header c)) = Some n /\ 1 <= n <= 16 /\ vec_len r = 0x2000 * n;
  ok_low8 : u8 (rom_bank_low8 c);
  ok_high1 : 0 <= rom_bank_high1 c < 2;
  ok_ram_bank : 0 <= ram_bank_raw c < 16
}.

Lemma rom_bank_spec n c : ok c -> 1 <= n ->
  effective_rom_bank n c = (256 * rom_bank_high1 c + rom_bank_low8 c) mod n.
Proof.
  intros [_ _ Hl Hh _] Hn. unfold effective_rom_bank, u8 in *. destruct (Z.eqb_spec n 0); [lia|].
  rewrite Z.lor_comm, lor_shiftl_add by lia. f_equal. lia.
Qed.

Definition ram_cell (a : Z) (c : Mbc5Cartridge) : Z := effective_ram_bank c * 0x2000 + (a - 0xA000).

Lemma mbc5_effective_ram_offset_ok a c : external_area a -> effective_ram_offset a c = Done (ram_cell a c).
Proof. intros Ha. unfold effective_ram_offset. by rewrite ram_base_offset_ok. Qed.

Lemma mbc5_ram_cell_range a c r : ok c -> ram c = Some r -> external_area a -> 0 <= ram_cell a c < vec_len r.
Proof.
  intros Hok Hr Ha. destruct (ok_ram c Hok r Hr) as (_ & n & Hn & Hpos & ->).
  unfold ram_cell, effective_ram_bank, as_u8, external_area in *. rewrite Hn. simpl.
  rewrite Z.max_l by lia. pose proof (Z.mod_pos_bound (ram_bank_raw c) n).
  rewrite (Z.mod_small _ 256) by lia. lia.
Qed.

Lemma mbc5_set_ram_ok c r l : ok c -> ram c = Some r -> vec_len l = vec_len r -> bytes l ->
  ok (c <| ram := Some l |>) /\ board (c <| ram := Some l |>) = board c /\
  ram (c <| ram := Some l |>) = Some l /\ ram_enabled (c <| ram := Some l |>) = ram_enabled c /\
  (forall a, ram_cell a (c <| ram := Some l |>) = ram_cell a c).
Proof.
  destruct c. simpl. intros [Hrom Hram Hl Hh Hb] Hr Hlen Hbytes. simpl in *. subst. split_and!; try done.
  - constructor; simpl; try done. intros ? [= <-]. rewrite Hlen. split; [done|]. by apply Hram.
  - unfold board. simpl. by rewrite Hlen.
Qed.

#[export, refine] Instance mbc5_linear : LinearRamLaws Mbc5Cartridge ok := {|
  lr_enabled := ram_enabled;
  lr_cell := ram_cell;
  lr_settle := fun _ _ => eq_refl;
  lr_set := fun l c => c <| ram := Some l |>;
  lr_port_read := fun _ _ => RAM_ABSENT_READ_VALUE;
  lr_port_write := fun _ _ c => c;
  lr_cell_range := mbc5_ram_cell_range;
  lr_set_ok := mbc5_set_ram_ok
|}.
Proof.
  - intros a c _ Ha. simpl. unfold read_ram. rewrite mbc5_effective_ram_offset_ok by done.
    by destruct (ram_enabled c), (ram c).
  - done.
  - intros a v c _ Ha. simpl. unfold write_ram. rewrite mbc5_effective_ram_offset_ok by done.
    by destruct (ram_enabled c), (ram c).
  - intros a c. simpl. unfold describe_external_access. destruct (ram_enabled c && _); closed_port.
  - intros a v c Hok _. closed_port.
  - intros c r Hok Hr. by apply (ok_ram c Hok).
Defined.

#[export, refine] Instance mbc5_persistence : LinearPersistence Mbc5Cartridge := {|
  lp_taken_up := fun _ => eq_refl;
  lp_wrap := Mbc5Ram;
  lp_unwrap := fun s => match s with Mbc5Ram r => Some r | _ => None end;
  lp_kind := "Mbc5Ram"
|}.
Proof.
  - done.
  - done.
  - intros s r Hs Hr. destruct s; simplify_eq/=. done.
  - done.
  - done.
  - intros s c. simpl. unfold restore_persistent_state.
    destruct (has_battery c), (ram c), s; simpl; try done. by destruct (_ =? _).
Defined.

Lemma mbc5_write_rom_board a v c : board (write_rom a v c) = board c /\ ram (write_rom a v c) = ram c.
Proof. destruct c. unfold write_rom. by repeat case_match. Qed.

Lemma mbc5_write_rom_ok a v c : u8 v -> ok c -> ok (write_rom a v c).
Proof.
  intros Hv. destruct c. intros [Hrom Hram Hl Hh Hb]. unfold write_rom. simpl in *.
  repeat case_match; constructor; simpl in *; try done; autorewrite with masks; divmod_lia.
Qed.

Lemma mbc5_step_ok op c : ok c -> valid_op op ->
  exists c', run_op op c = Done c' /\ ok c' /\ m_board c' = m_board c.
Proof.
  intros Hok. apply (linear_timeless_step_ok write_rom); [done | done | | | done].
  - intros a v Hv. split; [apply mbc5_write_rom_board | by apply mbc5_write_rom_ok].
  - intros s. by apply linear_restore_ok.
Qed.

Lemma mbc5_rom_contract_holds c : ok c -> rom_contract c.
Proof.
  intros Hok. destruct (ok_rom c Hok) as [Hpos Hlen]. set (n := effective_bank_count (rom_layout c)) in *.
  apply (rom_contract_of_banks c (fun a => if a <? 0x4000 then 0 else effective_rom_bank n c) n);
    [done | | |].
  - intros a _. case_match; [lia|]. rewrite rom_bank_spec by done. apply Z.mod_pos_bound. lia.
  - intros a _. simpl. unfold read_rom, window_offset. by destruct (a <? 0x4000).
  - intros Hexact a Ha. simpl in *. apply bool_decide_eq_true in Hexact.
    unfold mapped_rom_window, window_offset, rom_area in *. rewrite Hexact.
    by destruct (Z.leb_spec 0x8000 a); [lia|].
Qed.

Lemma mbc5_ok_contract c : ok c -> contract ok c.
Proof.
  intros Hok. constructor.
  - by apply mbc5_rom_contract_holds.
  - by apply linear_external_contract.
  - by apply linear_storage_contract.
  - intros a v _ _. eexists. split; [done|]. apply mbc5_write_rom_board.
  - by apply linear_persistence_contract.
Qed.

#[export] Instance mbc5_laws : MapperLaws Mbc5Cartridge := {|
  m_ok := ok;
  m_step_ok := mbc5_step_ok;
  m_ok_contract := mbc5_ok_contract
|}.

(** ** Loading establishes the invariant *)

Lemma next_power_of_two_spec x : 1 <= x ->
  exists k, 0 <= k /\ next_power_of_two x = 2 ^ k /\ x <= 2 ^ k /\ (x = 1 \/ 2 ^ k < 2 * x).
Proof.
  intros Hx. unfold next_power_of_two. destruct (Z.leb_spec x 1).
  - exists 0. simpl. lia.
  - exists (Z.log2_up x). pose proof (Z.log2_up_spec x). pose proof (Z.log2_up_nonneg x).
    split_and!; try lia. right.
    replace (Z.log2_up x) with (Z.pred (Z.log2_up x) + 1) by lia.
    rewrite Z.pow_add_r; [lia | | lia]. pose proof (Z.log2_up_pos x). lia.
Qed.

Lemma rounded_capacity_spec n : 0 <= n ->
  let m := rounded_mbc5_actual_rom_capacity n in
  n <= m /\ m mod ROM_BANK_BYTES = 0 /\ 0x8000 <= m /\ m < 2 * Z.max (n + ROM_BANK_BYTES) 0x8000.
Proof.
  intros Hn m. subst m. unfold rounded_mbc5_actual_rom_capacity, div_ceil, ROM_BANK_BYTES.
  change (NO_MBC_SUPPORTED_ROM_BYTES / (16 * 1024)) with 2.
  set (rounded := Z.max _ 2 * _).
  assert (Hr : n <= rounded /\ 0x8000 <= rounded /\ rounded <= Z.max (n + 16 * 1024 - 1) 0x8000) by (subst rounded; divmod_lia).
  destruct (next_power_of_two_spec rounded) as (k & Hk & -> & Hle & Hlt); [lia|].
  assert (15 <= k).
  { destruct (Z.lt_ge_cases k 15); [|done]. pose proof (Z.pow_lt_mono_r 2 k 15). lia. }
  split_and!; try lia. replace k with (k - 14 + 14) by lia. rewrite Z.pow_add_r by lia.
  change (16 * 1024) with (2 ^ 14). apply Z.mod_mul. lia.
Qed.

Lemma validate_rom_layout_ok h n compat cls ds l :
  header_sized h -> 0 <= n -> accepts (validate_mbc5_rom_layout h n) compat cls ds l ->
  n <= effective_bytes l /\ effective_bytes l = ROM_BANK_BYTES * effective_bank_count l /\ 1 <= effective_bank_count l /\
  (validation_policy compat = ValidateStrict ->
    effective_bytes l = n /\ rom_bank_count (rom_size h) = Some (effective_bank_count l)).
Proof.
  intros Hsized Hn H. unfold validate_mbc5_rom_layout in H. accepts_inv.
  assert (a = compat) as -> by (destruct Hm as [? [=]]; congruence).
  destruct (rounded_capacity_spec n Hn) as (Hle & Hmod & Hmin & _).
  destruct (rom_decoded_bytes (rom_size h)) as [d|] eqn:Hd; [destruct (Z.eqb_spec n d) as [<-|]|];
    accepts_inv; subst; simpl.
  - destruct (exact_size_banks h n Hsized Hd) as (b & Hb & Hr & ->).
    unfold ROM_BANK_BYTES in *. rewrite (Z.mul_comm (16 * 1024) b), Z.div_mul, Hb by lia.
    split_and!; try lia. intros _. split; [lia | done].
  - apply bool_decide_eq_false in Hm1. unfold ROM_BANK_BYTES in *. split_and!; [done | divmod_lia | divmod_lia | done].
  - apply bool_decide_eq_false in Hm1. unfold ROM_BANK_BYTES in *. split_and!; [done | divmod_lia | divmod_lia | done].
Qed.

Lemma validate_mbc5_ram h n compat cls ds l :
  header_sized h -> accepts (validate_mbc5 h n) compat cls ds l ->
  (exists ds', accepts (validate_mbc5_rom_layout h n) compat cls ds' (layout_rom l)) /\
  (layout_ram_len l = 0 \/ exists b, ram_bank_count (ram_size h) = Some b /\ 1 <= b <= 16 /\ layout_ram_len l = 0x2000 * b).
Proof.
  intros [_ Hram] H. unfold validate_mbc5 in H. accepts_inv. subst. split; [by exists ds0|]. simpl.
  destruct (variant_has_ram a1); accepts_inv; subst; [right | by left].
  match goal with H : negb _ = false |- _ => apply negb_false_iff, bool_decide_eq_true in H as Hin end.
  rewrite Hram.
  assert (Hcode : ram_raw_code (ram_size h) = 2 \/ ram_raw_code (ram_size h) = 3 \/
    ram_raw_code (ram_size h) = 4 \/ ram_raw_code (ram_size h) = 5).
  { apply list_elem_of_In in Hin. destruct (variant_has_rumble a1); simpl in Hin; lia. }
  destruct Hcode as [-> | [-> | [-> | ->]]]; simpl; eexists; (split; [done | lia]).
Qed.

Lemma vec_len_pad rom n : vec_len rom <= n -> vec_len (pad_rom rom n) = n.
Proof.
  intros Hle. unfold pad_rom. destruct (Z.ltb_spec (vec_len rom) n); [|lia].
  unfold vec_len in *. rewrite length_app, length_replicate. lia.
Qed.

Lemma pad_rom_exact rom n : vec_len rom = n -> pad_rom rom n = rom.
Proof. intros <-. unfold pad_rom. by rewrite Z.ltb_irrefl. Qed.

Lemma load_mbc5_ok header rom_bytes compat cls ds c :
  header_sized header -> accepts (load_mbc5 header rom_bytes) compat cls ds c ->
  ok c /\ rom c = pad_rom rom_bytes (effective_bytes (rom_layout c)) /\
  (validation_policy compat = ValidateStrict -> rom c = rom_bytes /\ board_window_exact (board c) = true).
Proof.
  intros Hsized H. unfold load_mbc5 in H. accepts_inv. subst.
  destruct (validate_mbc5_ram _ _ _ _ _ _ Hsized Hm) as [[ds' Hrom] Hram].
  destruct (validate_rom_layout_ok _ _ _ _ _ _ Hsized (vec_len_nonneg _) Hrom) as (Hle & Heff & Hpos & Hstrict).
  split; [constructor|split]; simpl; try lia; try done.
  - split; [done|]. by rewrite vec_len_pad.
  - intros r. case_match eqn:Hz; [|done]. intros [= <-]. apply negb_true_iff, Z.eqb_neq in Hz.
    destruct Hram as [|(b & Hb & Hr & Hlen)]; [done|]. split; [apply bytes_zeroed|].
    exists b. split_and!; try done; try lia. rewrite vec_len_zeroed; lia.
  - intros Hs. destruct (Hstrict Hs) as [Heq Hbank]. split; [by apply pad_rom_exact|]. by apply bool_decide_eq_true.
Qed.

(** ** Properties *)

(** Every MBC5 cartridge the loader accepts is sound: in every state
    reached from it, without panic, the contract holds on the loaded image,
    padded with 0xFF to whole banks (never padded under the strict policy,
    where the reported window is also exact); the two bank registers select
    bank 256*high + low, bank 0 included, modulo the bank count; and a rumble
    board takes bit 3 of the RAM bank register for its motor. *)
Theorem loaded_mbc5_sound header rom_bytes compat cls ds c ops :
  header_sized header -> accepts (load_mbc5 header rom_bytes) compat cls ds c -> Forall valid_op ops ->
  exists c', run_ops ops c = Done c' /\ contract ok c' /\
    (exists k, board_rom (m_board c') = rom_bytes ++ replicate k 0xFF /\
       (validation_policy compat = ValidateStrict -> k = 0%nat /\ board_window_exact (m_board c') = true)) /\
    (forall a1 v1 a2 v2 a, 0x2000 <= a1 < 0x3000 -> u8 v1 -> 0x3000 <= a2 < 0x4000 -> u8 v2 -> 0x4000 <= a < 0x8000 ->
       let bank := (256 * (v2 mod 2) + v1) mod (vec_len (board_rom (m_board c')) / 0x4000) in
       read_rom a (write_rom a2 v2 (write_rom a1 v1 c')) =
         byte_or_absent (vec_get (board_rom (m_board c')) (bank * 0x4000 + (a - 0x4000)))) /\
    (forall a v, 0x4000 <= a < 0x6000 ->
       rumble_on (write_rom a v c') = has_rumble c' && Z.testbit v 3).
Proof.
  intros Hsized Hload Hops. destruct (load_mbc5_ok _ _ _ _ _ _ Hsized Hload) as (Hok & Hrom & Hstrict).
  destruct (@run_ops_ok _ _ mbc5_laws ops c Hok Hops) as (c' & Hrun & Hok' & Hb).
  exists c'. split_and!; [done | by apply mbc5_ok_contract | | |].
  - rewrite Hb. unfold m_board, mbc5_mapper. simpl. rewrite Hrom. unfold pad_rom in *.
    destruct (_ <? _) eqn:E.
    + eexists. split; [done|]. intros Hs. destruct (Hstrict Hs) as [Heq ?]. split; [|done].
      rewrite Hrom in Heq. apply (f_equal length) in Heq. rewrite length_app, length_replicate in Heq. lia.
    + exists 0%nat. rewrite app_nil_r. split; [done|]. intros Hs. by destruct (Hstrict Hs).
  - intros a1 v1 a2 v2 a Ha1 Hv1 Ha2 Hv2 Ha bank. destruct (ok_rom c' Hok') as [Hpos Hlen].
    set (c'' := write_rom a2 v2 (write_rom a1 v1 c')).
    assert (Hok'' : ok c'') by (by repeat apply mbc5_write_rom_ok).
    assert (Hregs : rom c'' = rom c' /\ rom_layout c'' = rom_layout c' /\ rom_bank_low8 c'' = v1 /\
      rom_bank_high1 c'' = v2 mod 2).
    { subst c''. unfold write_rom. destruct c'. repeat (case_match; prune; try lia). simpl. by rewrite land_01. }
    destruct Hregs as (Hr & Hla & Hl & Hh).
    unfold read_rom. rewrite Hr, Hla. destruct (Z.ltb_spec a 0x4000); [lia|].
    rewrite rom_bank_spec, Hl, Hh by done. subst bank. simpl. rewrite Hlen. unfold ROM_BANK_BYTES.
    change (16 * 1024) with 0x4000. by rewrite (Z.mul_comm 0x4000 (effective_bank_count _)), Z.div_mul.
  - intros a v Ha. unfold write_rom. destruct c'. repeat (case_match; prune; try lia); simpl in *; subst;
      unfold rumble_on; simpl; [|done]. by apply (has_bits_pow2 v 3).
Qed.

Lemma loaded_mbc5_sound_witness :
  let h := blank_header 0x1E 0x00 0x03 in
  let cls := mkClassification 0x1E "MBC5+RUMBLE+RAM+BATTERY" (Supported FamilyMbc5) "" in
  exists c c', accepts (load_mbc5 h (vec_zeroed 32768)) strict cls [] c /\
    run_ops [OpWriteRom 0 0x0A; OpWriteRom 0x4000 2; OpWriteRam 0xA010 0x42] c = Done c' /\ contract ok c' /\
    rumble_on (write_rom 0x4000 0x0A c') = has_rumble c' && true.
Proof.
  intros h cls.
  assert (L : vec_len (vec_zeroed 32768) = 32768) by (apply vec_len_zeroed; discriminate).
  set (image := vec_zeroed 32768) in *.
  set (c := mkMbc5 image (Some (vec_zeroed 32768)) true true h cls RumbleRamBattery (declared_exact 32768 32768)
              false 1 0 0 false).
  assert (H : accepts (load_mbc5 h image) strict cls [] c).
  { exists []. unfold load_mbc5, pad_rom. rewrite L. reflexivity. }
  assert (Hops : Forall valid_op [OpWriteRom 0 0x0A; OpWriteRom 0x4000 2; OpWriteRam 0xA010 0x42]).
  { repeat constructor; discriminate. }
  destruct (loaded_mbc5_sound h image strict cls [] c _ (conj eq_refl eq_refl) H Hops)
    as (c' & Hrun & Hc & _ & _ & Hrumble).
  exists c, c'. split; [exact H | split; [exact Hrun | split; [exact Hc|]]].
  apply (Hrumble 0x4000 0x0A). lia.
Defined.

(** Under a policy that only warns, an image larger than its header declares
    is read through the effective bank count but reported through the
    declared one: bank 2 of three, declared as two. *)
Lemma mapped_window_ignores_effective_layout :
  let h := blank_header 0x19 0x00 0x00 in
  let cls := mkClassification 0x19 "MBC5" (Supported FamilyMbc5) "" in
  let rom_bytes := vec_zeroed 32768 ++ replicate (Z.to_nat 16384) 7 in
  exists c, accepts (load_mbc5 h rom_bytes) permissive cls [] c /\
    let c' := write_rom 0x2000 2 c in
    read_rom 0x4000 c' = 7 /\
    mapped_rom_window 0x4000 c' = Some (rom_window 0 0x4000 0) /\ vec_get (rom c') 0 = Some 0.
Proof.
  intros h cls rom_bytes.
  assert (L : vec_len rom_bytes = 49152).
  { unfold rom_bytes, vec_len, vec_zeroed. rewrite length_app, !length_replicate. lia. }
  eexists. split; [eexists; unfold load_mbc5; rewrite L; reflexivity|]. cbn zeta.
  assert (Hpad : pad_rom rom_bytes 65536 = rom_bytes ++ replicate (Z.to_nat 16384) 0xFF)
    by (unfold pad_rom; by rewrite L).
  split; [|split; [reflexivity|]].
  - change (byte_or_absent (vec_get (pad_rom rom_bytes 65536) 32768) = 7). rewrite Hpad. unfold vec_get, rom_bytes, vec_zeroed.
    rewrite lookup_app_l by (rewrite length_app, !length_replicate; lia).
    rewrite lookup_app_r by (rewrite length_replicate; lia).
    rewrite length_replicate, lookup_replicate_2 by lia. done.
  - change (vec_get (pad_rom rom_bytes 65536) 0 = Some 0). rewrite Hpad. unfold vec_get, rom_bytes, vec_zeroed.
    rewrite !lookup_app_l by (rewrite ?length_app, !length_replicate; lia). by rewrite lookup_replicate_2 by lia.
Qed.
