(* ===== verification/Mbc3.v ===== *)
(** * MBC3 and MBC30 cartridges ([crates/gb-core/src/cartridge/mbc3.rs])

    ROM and RAM banking, the RTC register selector, the latched clock, the
    emulated clock ticks, persistence, and the loader's validation. *)

From Stdlib Require Import ZArith Lia Bool String.
From stdpp Require Import base list decidable.
From S2P Require Import Prelude.
From S2P Require Import Model.
From S2P Require Import Mbc3Rtc.
From S2P Require Import CartridgeHeader.
From S2P Require Import Cartridge.

Local Open Scope string_scope.
Local Open Scope list_scope.
Local Open Scope Z_scope.

Definition MBC3_SUPPORTED_ROM_BYTES_MAX : Z := 2 * 1024 * 1024.
Definition MBC30_SUPPORTED_ROM_BYTES_MAX : Z := 4 * 1024 * 1024.
Definition MBC3_RTC_ACCESS_SPACING_T_CYCLES : Z := 16.
Definition MBC3_RTC_CLOCK_TICKS_PER_SECOND : Z := 32768.

Inductive Mbc3RamRtcSelect :=
| RamBank (raw_bank : Z)
| ReservedSelector (raw_selector : Z)
| RtcRegister (register : Mbc3RtcRegister).

Record Mbc3Cartridge := mkMbc3 {
  rom : list Z;
  ram : option (list Z);
  has_battery : bool;
  has_rtc : bool;
  header : CartridgeHeader;
  classification : CartridgeClassification;
  variant : Mbc3Variant;
  ram_rtc_enabled : bool;
  rom_bank : Z;
  ram_or_rtc_select : Mbc3RamRtcSelect;
  rtc_live : Mbc3RtcState;
  rtc_latched : Mbc3RtcState;
  rtc_latched_valid : bool;
  rtc_latch_armed : bool;
  rtc_subsecond_ticks : Z;
  rtc_access_ready_at : option Z
}.

#[export] Instance upd_ram : Update ram := fun z r =>
  let '(mkMbc3 a _ b t h k x e w s l d v m u y) := r in mkMbc3 a z b t h k x e w s l d v m u y.
#[export] Instance upd_ram_rtc_enabled : Update ram_rtc_enabled := fun z r =>
  let '(mkMbc3 a c b t h k x _ w s l d v m u y) := r in mkMbc3 a c b t h k x z w s l d v m u y.
#[export] Instance upd_rom_bank : Update rom_bank := fun z r =>
  let '(mkMbc3 a c b t h k x e _ s l d v m u y) := r in mkMbc3 a c b t h k x e z s l d v m u y.
#[export] Instance upd_ram_or_rtc_select : Update ram_or_rtc_select := fun z r =>
  let '(mkMbc3 a c b t h k x e w _ l d v m u y) := r in mkMbc3 a c b t h k x e w z l d v m u y.
#[export] Instance upd_rtc_live : Update rtc_live := fun z r =>
  let '(mkMbc3 a c b t h k x e w s _ d v m u y) := r in mkMbc3 a c b t h k x e w s z d v m u y.
#[export] Instance upd_rtc_latched : Update rtc_latched := fun z r =>
  let '(mkMbc3 a c b t h k x e w s l _ v m u y) := r in mkMbc3 a c b t h k x e w s l z v m u y.
#[export] Instance upd_rtc_latched_valid : Update rtc_latched_valid := fun z r =>
  let '(mkMbc3 a c b t h k x e w s l d _ m u y) := r in mkMbc3 a c b t h k x e w s l d z m u y.
#[export] Instance upd_rtc_latch_armed : Update rtc_latch_armed := fun z r =>
  let '(mkMbc3 a c b t h k x e w s l d v _ u y) := r in mkMbc3 a c b t h k x e w s l d v z u y.
#[export] Instance upd_rtc_subsecond_ticks : Update rtc_subsecond_ticks := fun z r =>
  let '(mkMbc3 a c b t h k x e w s l d v m _ y) := r in mkMbc3 a c b t h k x e w s l d v m z y.
#[export] Instance upd_rtc_access_ready_at : Update rtc_access_ready_at := fun z r =>
  let '(mkMbc3 a c b t h k x e w s l d v m u _) := r in mkMbc3 a c b t h k x e w s l d v m u z.

(** ** Selection and banking *)

Definition public_id (register : Mbc3RtcRegister) : CartridgeRtcRegister :=
  match register with
  | Seconds => RtcSeconds
  | Minutes => RtcMinutes
  | Hours => RtcHours
  | DayLow => RtcDayLow
  | DayHigh => RtcDayHigh
  end.

Definition select_from_value (value : Z) (variant : Mbc3Variant) : Mbc3RamRtcSelect :=
  let low_nibble := Z.land value 0x0F in
  if (0x00 <=? low_nibble) && (low_nibble <=? 0x03) then RamBank low_nibble
  else if (0x04 <=? low_nibble) && (low_nibble <=? 0x07) && bool_decide (variant = Mbc30) then RamBank low_nibble
  else
    match low_nibble with
    | 0x08 => RtcRegister Seconds
    | 0x09 => RtcRegister Minutes
    | 0x0A => RtcRegister Hours
    | 0x0B => RtcRegister DayLow
    | 0x0C => RtcRegister DayHigh
    | other => ReservedSelector other
    end.

Definition effective_rom_bank (bank_count : Z) (c : Mbc3Cartridge) : Z :=
  let raw_bank := match variant c with
                  | Mbc3Standard => Z.land (rom_bank c) 0x7F
                  | Mbc30 => rom_bank c
                  end in
  let translated_bank := if raw_bank =? 0 then 1 else raw_bank in
  if bank_count =? 0 then 0 else translated_bank mod bank_count.

Definition effective_ram_offset (address raw_bank : Z) (c : Mbc3Cartridge) : outcome Z :=
  base_offset ← ram_base_offset address;
  match ram c with
  | None => mret base_offset
  | Some r =>
      if vec_len r =? 0 then mret base_offset
      else mret ((base_offset + raw_bank * 0x2000) mod vec_len r)
  end.

Definition effective_ram_bank (raw_bank : Z) (c : Mbc3Cartridge) : Z :=
  let bank_count := Z.max (default 0 (ram_bank_count (ram_size (header c)))) 1 in
  as_u8 (raw_bank mod bank_count).

Definition describe_external_access (address : Z) (c : Mbc3Cartridge) : CartridgeExternalAccessInfo :=
  match ram_or_rtc_select c with
  | RamBank raw_bank =>
      let has_ram := bool_decide (is_Some (ram c)) in
      let available := ram_rtc_enabled c && has_ram in
      access_new address (BankedRam (effective_ram_bank raw_bank c))
        (if available then Accessible else if ram_rtc_enabled c then Absent else Disabled)
        (if available then ReadStorage else FallbackValue RAM_ABSENT_READ_VALUE)
        (if available then WriteStorage else Ignored)
  | ReservedSelector raw_selector =>
      access_new address (TargetReservedSelector raw_selector)
        (if ram_rtc_enabled c then Reserved else Disabled)
        (FallbackValue RAM_ABSENT_READ_VALUE) Ignored
  | RtcRegister register =>
      let available := ram_rtc_enabled c && has_rtc c in
      with_rtc_access_ready_at (rtc_access_ready_at c)
        (access_new address (TargetRtcRegister (public_id register))
           (if available then Accessible else if ram_rtc_enabled c then Absent else Disabled)
           (if available then RtcLatched else FallbackValue RAM_ABSENT_READ_VALUE)
           (if available then RtcLive else Ignored))
  end.

(** ** The clock *)

Definition clear_runtime_rtc_snapshot_state (c : Mbc3Cartridge) : Mbc3Cartridge :=
  c <| rtc_latched := rtc_default |>
    <| rtc_latched_valid := false |>
    <| rtc_latch_armed := false |>
    <| rtc_subsecond_ticks := 0 |>
    <| rtc_access_ready_at := None |>.

Definition note_rtc_access_timing (t_cycle : Z) (c : Mbc3Cartridge) : outcome Mbc3Cartridge :=
  ready ← checked_add64 t_cycle MBC3_RTC_ACCESS_SPACING_T_CYCLES;
  Done (c <| rtc_access_ready_at := Some ready |>).

Definition visible_rtc_state (c : Mbc3Cartridge) : Mbc3RtcState :=
  if rtc_latched_valid c then rtc_latched c else rtc_default.

Definition note_rtc_register_write (register : Mbc3RtcRegister) (c : Mbc3Cartridge) : Mbc3Cartridge :=
  if decide (register = Seconds) then c <| rtc_subsecond_ticks := 0 |> else c.

Definition latch_rtc_if_needed (value : Z) (c : Mbc3Cartridge) : Mbc3Cartridge :=
  if negb (has_rtc c) then c <| rtc_latch_armed := value =? 0x00 |>
  else if value =? 0x00 then c <| rtc_latch_armed := true |>
  else
    let c := if (rtc_latch_armed c && (value =? 0x01)) || rtc_latched_valid c
             then c <| rtc_latched := rtc_live c |> <| rtc_latched_valid := true |>
             else c in
    c <| rtc_latch_armed := false |>.

Definition advance_rtc_seconds (seconds : Z) (c : Mbc3Cartridge) : outcome Mbc3Cartridge :=
  if has_rtc c then
    live ← advance_mbc3_rtc_fields seconds (rtc_live c);
    Done (c <| rtc_live := live |>)
  else Done c.

Definition advance_rtc_clock_ticks (ticks : Z) (c : Mbc3Cartridge) : outcome Mbc3Cartridge :=
  if negb (has_rtc c) || halt (rtc_live c) || (ticks =? 0) then Done c
  else
    total_ticks ← checked_add64 (rtc_subsecond_ticks c) ticks;
    let elapsed_seconds := total_ticks / MBC3_RTC_CLOCK_TICKS_PER_SECOND in
    let c := c <| rtc_subsecond_ticks := as_u16 (total_ticks mod MBC3_RTC_CLOCK_TICKS_PER_SECOND) |> in
    live ← advance_mbc3_rtc_fields elapsed_seconds (rtc_live c);
    Done (c <| rtc_live := live |>).

(** ** Accesses *)

Definition read_rom (address : Z) (c : Mbc3Cartridge) : Z :=
  let bank_count := default 0 (rom_bank_count (rom_size (header c))) in
  let rom_index :=
    if address <? 0x4000 then address
    else effective_rom_bank bank_count c * 0x4000 + (address - 0x4000) in
  byte_or_absent (vec_get (rom c) rom_index).

Definition mapped_rom_window (address : Z) (c : Mbc3Cartridge) : option CartridgeMappedRomWindow :=
  if 0x8000 <=? address then None
  else
    let bank := if address <? 0x4000 then 0
                else effective_rom_bank (default 0 (rom_bank_count (rom_size (header c)))) c in
    let bank_offset := if address <? 0x4000 then address else address - 0x4000 in
    Some (rom_window bank 0x4000 bank_offset).

Definition write_rom (address value : Z) (c : Mbc3Cartridge) : Mbc3Cartridge :=
  if (0x0000 <=? address) && (address <=? 0x1FFF) then
    c <| ram_rtc_enabled := Z.land value 0x0F =? 0x0A |>
  else if (0x2000 <=? address) && (address <=? 0x3FFF) then
    c <| rom_bank := match variant c with Mbc3Standard => Z.land value 0x7F | Mbc30 => value end |>
  else if (0x4000 <=? address) && (address <=? 0x5FFF) then
    c <| ram_or_rtc_select := select_from_value value (variant c) |>
  else if (0x6000 <=? address) && (address <=? 0x7FFF) then
    latch_rtc_if_needed value c
  else c.

(** The RAM arm shared by the reads and by the writes. *)
Definition read_ram_bank (address raw_bank : Z) (c : Mbc3Cartridge) : outcome Z :=
  match ram c with
  | None => Done RAM_ABSENT_READ_VALUE
  | Some r => offset ← effective_ram_offset address raw_bank c; Done (byte_or_absent (vec_get r offset))
  end.

Definition write_ram_bank (address raw_bank value : Z) (c : Mbc3Cartridge) : outcome Mbc3Cartridge :=
  offset ← effective_ram_offset address raw_bank c;
  match ram c with
  | Some r => Done (c <| ram := Some (vec_set r offset value) |>)
  | None => Done c
  end.

Definition read_ram (address : Z) (c : Mbc3Cartridge) : outcome Z :=
  if negb (ram_rtc_enabled c) then Done RAM_ABSENT_READ_VALUE
  else
    match ram_or_rtc_select c with
    | RamBank raw_bank => read_ram_bank address raw_bank c
    | ReservedSelector _ => Done RAM_ABSENT_READ_VALUE
    | RtcRegister register =>
        if has_rtc c then Done (rtc_read register (visible_rtc_state c)) else Done RAM_ABSENT_READ_VALUE
    end.

Definition read_ram_timed (address t_cycle : Z) (c : Mbc3Cartridge) : outcome (Z * Mbc3Cartridge) :=
  if negb (ram_rtc_enabled c) then Done (RAM_ABSENT_READ_VALUE, c)
  else
    match ram_or_rtc_select c with
    | RamBank raw_bank => v ← read_ram_bank address raw_bank c; Done (v, c)
    | ReservedSelector _ => Done (RAM_ABSENT_READ_VALUE, c)
    | RtcRegister register =>
        if has_rtc c then
          c ← note_rtc_access_timing t_cycle c;
          Done (rtc_read register (visible_rtc_state c), c)
        else Done (RAM_ABSENT_READ_VALUE, c)
    end.

Definition write_rtc_register (register : Mbc3RtcRegister) (value : Z) (c : Mbc3Cartridge) : Mbc3Cartridge :=
  note_rtc_register_write register (c <| rtc_live := rtc_write register value (rtc_live c) |>).

Definition write_ram (address value : Z) (c : Mbc3Cartridge) : outcome Mbc3Cartridge :=
  if negb (ram_rtc_enabled c) then Done c
  else
    match ram_or_rtc_select c with
    | RamBank raw_bank => write_ram_bank address raw_bank value c
    | ReservedSelector _ => Done c
    | RtcRegister register =>
        if has_rtc c then Done (write_rtc_register register value c) else Done c
    end.

Definition write_ram_timed (address value t_cycle : Z) (c : Mbc3Cartridge) : outcome Mbc3Cartridge :=
  if negb (ram_rtc_enabled c) then Done c
  else
    match ram_or_rtc_select c with
    | RamBank raw_bank => write_ram_bank address raw_bank value c
    | ReservedSelector _ => Done c
    | RtcRegister register =>
        if has_rtc c then
          c ← note_rtc_access_timing t_cycle c;
          Done (write_rtc_register register value c)
        else Done c
    end.

(** ** Persistence *)

Definition persistence_metadata (c : Mbc3Cartridge) : CartridgePersistenceMetadata :=
  let ram_kind := (fun r => Linear (vec_len r)) <$> ram c in
  mkMetadata (has_battery c) (has_rtc c)
    match has_battery c, has_rtc c, ram_kind with
    | true, true, Some ram => PersistentRamAndRtc ram
    | true, true, None => PersistentRtc
    | true, false, Some ram => PersistentRam ram
    | false, false, Some ram => NonPersistentRam ram
    | _, _, _ => ProfileNone
    end.

Definition persistent_state (c : Mbc3Cartridge) : PersistentCartState :=
  if negb (has_battery c) then SavedNone
  else
    match ram c, has_rtc c with
    | Some ram, true => Mbc3RamRtc ram (rtc_to_persistent (rtc_live c))
    | Some ram, false => Mbc3Ram ram
    | None, true => SavedMbc3Rtc (rtc_to_persistent (rtc_live c))
    | None, false => SavedNone
    end.

Definition restore_persistent_state (state : PersistentCartState) (c : Mbc3Cartridge)
    : Mbc3Cartridge * option CartridgePersistentStateError :=
  match has_battery c, has_rtc c, ram c, state with
  | false, _, _, SavedNone => (c, None)
  | true, true, Some r, Mbc3RamRtc persisted_ram rtc =>
      if negb (vec_len r =? vec_len persisted_ram)
      then (c, Some (RamLengthMismatch (vec_len r) (vec_len persisted_ram)))
      else (clear_runtime_rtc_snapshot_state
              (c <| ram := Some persisted_ram |> <| rtc_live := rtc_from_persistent rtc |>), None)
  | true, false, Some r, Mbc3Ram persisted_ram =>
      if negb (vec_len r =? vec_len persisted_ram)
      then (c, Some (RamLengthMismatch (vec_len r) (vec_len persisted_ram)))
      else (c <| ram := Some persisted_ram |>, None)
  | true, true, None, SavedMbc3Rtc rtc =>
      (clear_runtime_rtc_snapshot_state (c <| rtc_live := rtc_from_persistent rtc |>), None)
  | true, false, None, SavedNone => (c, None)
  | true, true, Some _, other => (c, Some (KindMismatch "Mbc3RamRtc" (kind_name other)))
  | true, false, Some _, other => (c, Some (KindMismatch "Mbc3Ram" (kind_name other)))
  | true, true, None, other => (c, Some (KindMismatch "Mbc3Rtc" (kind_name other)))
  | true, false, None, other => (c, Some (KindMismatch "None" (kind_name other)))
  | false, _, _, other => (c, Some (KindMismatch "None" (kind_name other)))
  end.

(** ** Loading *)

Definition type_has_ram (raw_type : Z) : bool :=
  (raw_type =? 0x10) || (raw_type =? 0x12) || (raw_type =? 0x13).

Definition validate_mbc3 (header : CartridgeHeader) (actual_rom_size : Z) : V Mbc3Variant :=
  classification ← v_classification;
  declared_rom_bytes ← declared_exact_size header actual_rom_size;
  let has_ram := type_has_ram (raw_type classification) in
  let variant := if has_ram && (ram_raw_code (ram_size header) =? 0x05) then Mbc30 else Mbc3Standard in
  let rom_limit := match variant with
                   | Mbc3Standard => MBC3_SUPPORTED_ROM_BYTES_MAX
                   | Mbc30 => MBC30_SUPPORTED_ROM_BYTES_MAX
                   end in
  reject_if (rom_limit <? declared_rom_bytes)
    "{} exceeds the current {} ROM limit of {} bytes with {} bytes";;
  match has_ram, variant with
  | true, Mbc3Standard =>
      reject_if (negb ((0x01 <=? ram_raw_code (ram_size header)) && (ram_raw_code (ram_size header) <=? 0x03)))
        "{} declared RAM size code {:#04X}, which is not valid for the current standard MBC3 baseline"
  | true, Mbc30 =>
      reject_if (negb (bool_decide (ram_decoded_bytes (ram_size header) = Some (64 * 1024))) ||
                 negb (bool_decide (ram_bank_count (ram_size header) = Some 8)))
        "{} declared RAM size code {:#04X}, which did not resolve to the required MBC30 64 KiB / 8-bank SRAM shape"
  | false, _ =>
      degrade_if (negb (ram_raw_code (ram_size header) =? 0x00))
        "{} does not provide external RAM, but the header declared RAM size code {:#04X}"
  end;;
  mret variant.

(** The [Mbc3] arm of [CartridgeSlot::load]. *)
Definition load_mbc3 (header : CartridgeHeader) (rom_bytes : list Z) : V Mbc3Cartridge :=
  layout ← validate_mbc3 header (vec_len rom_bytes);
  classification ← v_classification;
  let ty := raw_type classification in
  let has_battery := (ty =? 0x0F) || (ty =? 0x10) || (ty =? 0x13) in
  let has_rtc := (ty =? 0x0F) || (ty =? 0x10) in
  let has_ram := type_has_ram ty in
  let decoded := default 0 (ram_decoded_bytes (ram_size header)) in
  let ram := if has_ram && negb (decoded =? 0) then Some (vec_zeroed decoded) else None in
  mret {|
    rom := rom_bytes;
    ram := ram;
    has_battery := has_battery;
    has_rtc := has_rtc;
    header := header;
    classification := classification;
    variant := layout;
    ram_rtc_enabled := false;
    rom_bank := 0;
    ram_or_rtc_select := RamBank 0;
    rtc_live := rtc_default;
    rtc_latched := rtc_default;
    rtc_latched_valid := false;
    rtc_latch_armed := false;
    rtc_subsecond_ticks := 0;
    rtc_access_ready_at := None
  |}.

Definition board (c : Mbc3Cartridge) : Board :=
  mkBoard (BoardMbc3 (variant c)) (header c) (classification c) (rom c) (vec_len <$> ram c) (has_battery c) (has_rtc c) true 0x8000.

#[export] Instance mbc3_mapper : Mapper Mbc3Cartridge := {|
  m_board := board;
  m_ram := ram;
  m_settle := fun _ c => c;
  m_taken_up := fun s => s;
  m_read_rom := fun a c => Done (read_rom a c);
  m_mapped_rom_window := mapped_rom_window;
  m_write_rom := fun a v c => Done (write_rom a v c);
  m_read_ram := read_ram;
  m_read_ram_timed := read_ram_timed;
  m_write_ram := write_ram;
  m_write_ram_timed := write_ram_timed;
  m_describe_external_access := describe_external_access;
  m_advance_rtc_seconds := advance_rtc_seconds;
  m_advance_mbc3_rtc_clock_ticks := advance_rtc_clock_ticks;
  m_persistence_metadata := persistence_metadata;
  m_persistent_state := persistent_state;
  m_restore_persistent_state := restore_persistent_state
|}.

(** ** Invariant *)

Definition rtc_state_typed (r : Mbc3RtcState) : Prop :=
  rtc_typed (seconds r) (minutes r) (hours r) (day_counter r).

Definition select_ok (s : Mbc3RamRtcSelect) : Prop :=
  match s with RamBank b => 0 <= b < 8 | _ => True end.

(** A restored clock may hold any byte in its registers until it next
    advances, so the registers are only typed. *)
Record ok (c : Mbc3Cartridge) : Prop := {
  ok_rom : exists n, rom_bank_count (rom_size (header c)) = Some n /\ 1 <= n /\
    vec_len (rom c) = ROM_BANK_BYTES * n;
  ok_ram : forall r, ram c = Some r -> bytes r /\ 0 < vec_len r;
  ok_rom_bank : u8 (rom_bank c);
  ok_select : select_ok (ram_or_rtc_select c);
  ok_live : rtc_state_typed (rtc_live c);
  ok_latched : rtc_state_typed (rtc_latched c);
  ok_subsecond : 0 <= rtc_subsecond_ticks c < 32768
}.

Lemma rtc_ok_typed r : rtc_ok r -> rtc_state_typed r.
Proof. unfold rtc_ok, rtc_state_typed, rtc_typed, u8, u16. lia. Qed.

Lemma rtc_default_typed : rtc_state_typed rtc_default.
Proof. apply rtc_ok_typed. unfold rtc_ok. simpl. lia. Qed.

Lemma rtc_read_byte register r : rtc_state_typed r -> u8 (rtc_read register r).
Proof.
  intros (Hs & Hm & Hh & _). destruct register; simpl; auto with gb.
Qed.

Lemma rtc_write_typed register v r : u8 v -> rtc_state_typed r -> rtc_state_typed (rtc_write register v r).
Proof.
  intros Hv (Hs & Hm & Hh & Hd). destruct r as [s m h day_counter0 ha ca]. unfold rtc_state_typed, rtc_typed in *.
  assert (Hlow : forall z, u16 (Z.lor (Z.land z 0x0100) v)).
  { intros. apply u16_lor; [rewrite Z.land_comm; apply u16_land; unfold u16; lia | by apply u8_u16]. }
  assert (Hhigh : u16 (Z.lor (Z.land (day_counter0) 0x00FF) (Z.shiftl (Z.land v 0x01) 8))).
  { apply u16_lor; [by apply u16_land|]. rewrite land_01, Z.shiftl_mul_pow2 by lia. unfold u16. divmod_lia. }
  destruct register; simpl in *; split_and!; try done; by apply u8_land.
Qed.

Lemma advance_typed n r : 0 <= n < 2 ^ 63 -> rtc_state_typed r ->
  exists r', advance_mbc3_rtc_fields n r = Done r' /\ rtc_state_typed r' /\
    (halt r = true -> r' = r) /\
    (halt r = false -> r' = if n =? 0 then r else iterate (Z.to_nat n) mbc3_rtc_tick_one_second (masked_fields r)).
Proof.
  intros Hn Hr. destruct (halt r) eqn:Hh.
  - exists r. unfold advance_mbc3_rtc_fields. by rewrite Hh.
  - rewrite advance_spec by (done || lia). eexists. split_and!; [done | | done | done].
    case_match; [done|]. apply rtc_ok_typed, iterate_tick_ok, masked_fields_ok.
Qed.

Lemma note_rtc_access_timing_ok t c : 0 <= t < 2 ^ 63 ->
  note_rtc_access_timing t c = Done (c <| rtc_access_ready_at := Some (t + 16) |>).
Proof.
  intros Ht. unfold note_rtc_access_timing, checked_add64, MBC3_RTC_ACCESS_SPACING_T_CYCLES.
  by destruct (Z.ltb_spec (t + 16) 18446744073709551616); [|lia].
Qed.

Definition ram_cell (a raw_bank : Z) (c : Mbc3Cartridge) : Z :=
  match ram c with
  | Some r => (a - 0xA000 + raw_bank * 0x2000) mod vec_len r
  | None => a - 0xA000
  end.

Lemma mbc3_effective_ram_offset_ok a b c : ok c -> external_area a -> effective_ram_offset a b c = Done (ram_cell a b c).
Proof.
  intros Hok Ha. unfold effective_ram_offset, ram_cell. rewrite ram_base_offset_ok by done. simpl.
  destruct (ram c) as [r|] eqn:Hr; [|done]. destruct (ok_ram c Hok r Hr) as [_ Hlen].
  by destruct (Z.eqb_spec (vec_len r) 0); [lia|].
Qed.

Lemma read_ram_bank_ok a b c : ok c -> external_area a ->
  read_ram_bank a b c = Done (match ram c with Some r => byte_or_absent (vec_get r (ram_cell a b c)) | None => RAM_ABSENT_READ_VALUE end).
Proof.
  intros Hok Ha. unfold read_ram_bank. rewrite mbc3_effective_ram_offset_ok by done. by destruct (ram c).
Qed.

Lemma write_ram_bank_ok a b v c : ok c -> external_area a ->
  write_ram_bank a b v c = Done (match ram c with Some r => c <| ram := Some (vec_set r (ram_cell a b c) v) |> | None => c end).
Proof.
  intros Hok Ha. unfold write_ram_bank. rewrite mbc3_effective_ram_offset_ok by done. by destruct (ram c).
Qed.

Lemma mbc3_ram_cell_range a b c r : ok c -> ram c = Some r -> 0 <= ram_cell a b c < vec_len r.
Proof.
  intros Hok Hr. destruct (ok_ram c Hok r Hr) as [_ Hlen]. unfold ram_cell. rewrite Hr.
  apply Z.mod_pos_bound. done.
Qed.

(** Splits an invariant goal on an updated cartridge into its fields. *)
Ltac ok_fields Hok :=
  match type of Hok with ok ?c => destruct c; destruct Hok as [Hrom Hram Hbank Hsel Hlive Hlatched Hsub] end;
  simpl in *; constructor; simpl; try done.

Lemma mbc3_set_ram_ok c r l : ok c -> ram c = Some r -> vec_len l = vec_len r -> bytes l ->
  ok (c <| ram := Some l |>) /\ board (c <| ram := Some l |>) = board c /\
  (forall a b, ram_cell a b (c <| ram := Some l |>) = ram_cell a b c).
Proof.
  intros Hok Hr Hlen Hb. split_and!.
  - ok_fields Hok. intros ? [= <-]. rewrite Hlen. split; [done|]. by apply Hram.
  - destruct c. unfold board. simpl in *. subst. simpl. by rewrite Hlen.
  - intros a b. unfold ram_cell. destruct c. simpl in *. by rewrite Hr, Hlen.
Qed.

Lemma set_live_ok c r : ok c -> rtc_state_typed r ->
  ok (c <| rtc_live := r |>) /\ board (c <| rtc_live := r |>) = board c.
Proof. intros Hok Hr. split; [by ok_fields Hok | by destruct c]. Qed.

Lemma set_ready_ok c t : ok c ->
  ok (c <| rtc_access_ready_at := t |>) /\ board (c <| rtc_access_ready_at := t |>) = board c.
Proof. intros Hok. split; [by ok_fields Hok | by destruct c]. Qed.

Lemma write_rtc_register_ok reg v c : u8 v -> ok c ->
  ok (write_rtc_register reg v c) /\ board (write_rtc_register reg v c) = board c.
Proof.
  intros Hv Hok. unfold write_rtc_register, note_rtc_register_write.
  assert (Hw : rtc_state_typed (rtc_write reg v (rtc_live c))) by (apply rtc_write_typed, Hok; done).
  destruct (decide (reg = Seconds)); (split; [ok_fields Hok | by destruct c]); lia.
Qed.

Lemma select_from_value_ok v x : select_ok (select_from_value v x).
Proof.
  unfold select_from_value.
  destruct ((0 <=? _) && _) eqn:E1; [simpl; prune; lia|].
  destruct ((4 <=? _) && _ && _) eqn:E2; [simpl; prune; lia|].
  by repeat case_match.
Qed.

Lemma latch_ok v c : ok c -> ok (latch_rtc_if_needed v c) /\ board (latch_rtc_if_needed v c) = board c.
Proof.
  intros Hok. unfold latch_rtc_if_needed. split; [|destruct c; by repeat case_match].
  destruct c. simpl. destruct Hok as [Hrom Hram Hbank Hsel Hlive Hlatched Hsub]. simpl in *.
  repeat case_match; constructor; done.
Qed.

Lemma mbc3_write_rom_ok a v c : u8 v -> ok c -> ok (write_rom a v c) /\ board (write_rom a v c) = board c.
Proof.
  intros Hv Hok. unfold write_rom.
  destruct ((0 <=? a) && _); [split; [by ok_fields Hok | by destruct c]|].
  destruct ((0x2000 <=? a) && _); [split; [ok_fields Hok | by destruct c]|].
  { case_match; auto with gb. }
  destruct ((0x4000 <=? a) && _).
  { split; [ok_fields Hok; apply select_from_value_ok | by destruct c]. }
  destruct ((0x6000 <=? a) && _); [by apply latch_ok | done].
Qed.

Lemma write_ram_bank_step a b v c : ok c -> external_area a -> u8 v ->
  exists c', write_ram_bank a b v c = Done c' /\ ok c' /\ board c' = board c.
Proof.
  intros Hok Ha Hv. rewrite write_ram_bank_ok by done. eexists. split; [done|].
  destruct (ram c) as [r|] eqn:Hr; [|done].
  destruct (mbc3_set_ram_ok c r (vec_set r (ram_cell a b c) v)) as (? & ? & _); try done.
  - apply vec_len_set.
  - apply bytes_set; [|done]. by apply (ok_ram c Hok).
Qed.

Lemma mbc3_write_ram_step a v c : ok c -> external_area a -> u8 v ->
  exists c', write_ram a v c = Done c' /\ ok c' /\ board c' = board c.
Proof.
  intros Hok Ha Hv. unfold write_ram. destruct (ram_rtc_enabled c); [|by exists c].
  destruct (ram_or_rtc_select c); simpl; [by apply write_ram_bank_step | by exists c |].
  destruct (has_rtc c); [|by exists c]. eexists. split; [done|]. by apply write_rtc_register_ok.
Qed.

Lemma write_ram_timed_step a v t c : ok c -> external_area a -> u8 v -> 0 <= t < 2 ^ 63 ->
  exists c', write_ram_timed a v t c = Done c' /\ ok c' /\ board c' = board c.
Proof.
  intros Hok Ha Hv Ht. unfold write_ram_timed. destruct (ram_rtc_enabled c); [|by exists c].
  destruct (ram_or_rtc_select c); simpl; [by apply write_ram_bank_step | by exists c |].
  destruct (has_rtc c); [|by exists c]. rewrite note_rtc_access_timing_ok by done. eexists. split; [done|].
  destruct (set_ready_ok c (Some (t + 16)) Hok) as [Hok' <-]. by apply write_rtc_register_ok.
Qed.

Lemma read_ram_timed_step a t c : ok c -> external_area a -> 0 <= t < 2 ^ 63 ->
  exists v c', read_ram a c = Done v /\ u8 v /\ read_ram_timed a t c = Done (v, c') /\ ok c' /\ board c' = board c.
Proof.
  intros Hok Ha Ht. assert (Habs : u8 RAM_ABSENT_READ_VALUE) by (unfold u8, RAM_ABSENT_READ_VALUE; lia).
  unfold read_ram, read_ram_timed. destruct (ram_rtc_enabled c); [|by exists RAM_ABSENT_READ_VALUE, c]. simpl.
  destruct (ram_or_rtc_select c) as [b| |reg]; [| by exists RAM_ABSENT_READ_VALUE, c |].
  - rewrite read_ram_bank_ok by done. eexists _, c. split_and!; try done.
    destruct (ram c) as [r|] eqn:Hr; [|done]. apply byte_or_absent_u8. by apply (ok_ram c Hok).
  - destruct (has_rtc c); [|by exists RAM_ABSENT_READ_VALUE, c]. rewrite note_rtc_access_timing_ok by done. simpl.
    eexists _, _. split_and!; [done | | by destruct c | |].
    + apply rtc_read_byte. unfold visible_rtc_state. case_match; [by apply Hok | apply rtc_default_typed].
    + by apply set_ready_ok.
    + by apply set_ready_ok.
Qed.

Lemma advance_rtc_seconds_step n c : ok c -> 0 <= n < 2 ^ 63 ->
  exists c', advance_rtc_seconds n c = Done c' /\ ok c' /\ board c' = board c.
Proof.
  intros Hok Hn. unfold advance_rtc_seconds. destruct (has_rtc c); [|by exists c].
  destruct (advance_typed n (rtc_live c) Hn (ok_live c Hok)) as (r & -> & Hr & _). simpl.
  eexists. split; [done|]. by apply set_live_ok.
Qed.

(** The tick operation in closed form: whole seconds leave the prescaler. *)
Lemma advance_rtc_clock_ticks_ok n c : ok c -> 0 <= n < 2 ^ 63 ->
  exists live, advance_mbc3_rtc_fields ((rtc_subsecond_ticks c + n) / 32768) (rtc_live c) = Done live /\
    rtc_state_typed live /\
    advance_rtc_clock_ticks n c =
      Done (if has_rtc c && negb (halt (rtc_live c)) && negb (n =? 0)
            then c <| rtc_subsecond_ticks := (rtc_subsecond_ticks c + n) mod 32768 |> <| rtc_live := live |>
            else c).
Proof.
  intros Hok Hn. pose proof (ok_subsecond c Hok) as Hsub.
  destruct (advance_typed ((rtc_subsecond_ticks c + n) / 32768) (rtc_live c)) as (live & Hl & Ht & _);
    [divmod_lia | by apply Hok |].
  exists live. split_and!; [done | done |]. unfold advance_rtc_clock_ticks, checked_add64, MBC3_RTC_CLOCK_TICKS_PER_SECOND.
  destruct (has_rtc c), (halt (rtc_live c)), (n =? 0); try done. simpl.
  destruct (Z.ltb_spec (rtc_subsecond_ticks c + n) 18446744073709551616); [|lia]. simpl.
  assert (Hsmall : as_u16 ((rtc_subsecond_ticks c + n) mod 32768) = (rtc_subsecond_ticks c + n) mod 32768)
    by (unfold as_u16; divmod_lia).
  rewrite Hsmall. destruct c. simpl in *. by rewrite Hl.
Qed.

Lemma advance_rtc_clock_ticks_step n c : ok c -> 0 <= n < 2 ^ 63 ->
  exists c', advance_rtc_clock_ticks n c = Done c' /\ ok c' /\ board c' = board c.
Proof.
  intros Hok Hn. destruct (advance_rtc_clock_ticks_ok n c Hok Hn) as (live & _ & Hl & ->).
  eexists. split; [done|]. case_match; [|done]. split; [|by destruct c].
  ok_fields Hok. apply Z.mod_pos_bound. lia.
Qed.

Lemma restore_rtc_ok c rtc (c' := clear_runtime_rtc_snapshot_state (c <| rtc_live := rtc_from_persistent rtc |>)) :
  ok c -> saved_rtc_typed rtc -> ok c' /\ board c' = board c.
Proof.
  intros Hok Ht. subst c'. split; [|by destruct c]. ok_fields Hok; apply rtc_default_typed.
Qed.

Lemma mbc3_restore_ok s c : ok c -> saved_typed s ->
  ok (fst (restore_persistent_state s c)) /\ board (fst (restore_persistent_state s c)) = board c.
Proof.
  intros Hok Hs. unfold restore_persistent_state.
  destruct (has_battery c), (has_rtc c), (ram c) as [r|] eqn:Hr, s; try done; simpl in *.
  - destruct Hs as [Hb Ht]. destruct (Z.eqb_spec (vec_len r) (vec_len ram0)); simpl; [|done].
    destruct (mbc3_set_ram_ok c r ram0 Hok Hr ltac:(done) Hb) as (Hok' & <- & _). by apply restore_rtc_ok.
  - by apply restore_rtc_ok.
  - destruct (Z.eqb_spec (vec_len r) (vec_len ram0)); simpl; [|done].
    by destruct (mbc3_set_ram_ok c r ram0 Hok Hr ltac:(done) Hs) as (? & ? & _).
Qed.

Lemma mbc3_step_ok op c : ok c -> valid_op op ->
  exists c', run_op op c = Done c' /\ ok c' /\ m_board c' = m_board c.
Proof.
  intros Hok Hop. destruct op; simpl in *.
  - eexists. split; [done|]. destruct Hop. by apply mbc3_write_rom_ok.
  - destruct Hop. by apply mbc3_write_ram_step.
  - destruct Hop as (? & ? & ?). by apply write_ram_timed_step.
  - destruct Hop. destruct (read_ram_timed_step address t_cycle c) as (v & c' & _ & _ & -> & ? & ?); try done.
    by exists c'.
  - by apply advance_rtc_seconds_step.
  - by apply advance_rtc_clock_ticks_step.
  - eexists. split; [done|]. by apply mbc3_restore_ok.
Qed.

(** ** Contract *)

Lemma rom_bank_range n c : ok c -> 1 <= n -> 0 <= effective_rom_bank n c < n.
Proof.
  intros Hok Hn. unfold effective_rom_bank. destruct (Z.eqb_spec n 0); [lia|]. apply Z.mod_pos_bound. lia.
Qed.

Lemma mbc3_rom_contract_holds c : ok c -> rom_contract c.
Proof.
  intros Hok. destruct (ok_rom c Hok) as (n & Hn & Hpos & Hlen).
  apply (rom_contract_of_banks c (fun a => if a <? 0x4000 then 0 else effective_rom_bank n c) n);
    [done | | |].
  - intros a _. case_match; [lia | by apply rom_bank_range].
  - intros a _. simpl. unfold read_rom, window_offset. rewrite Hn. simpl. by destruct (a <? 0x4000).
  - intros _ a Ha. simpl. unfold mapped_rom_window, window_offset, rom_area in *. rewrite Hn. simpl.
    by destruct (Z.leb_spec 0x8000 a); [lia|].
Qed.

Lemma mbc3_external_contract_holds c : ok c -> external_contract c.
Proof.
  intros Hok a Ha. destruct (read_ram_timed_step a 0 c Hok Ha) as (v & _ & Hread & Hv & _); [lia|].
  exists v. split_and!; [done | done | | |].
  - intros t Ht. destruct (read_ram_timed_step a t c Hok Ha Ht) as (v' & c' & Hread' & _ & Htimed & _).
    exists v, c'. simpl. split_and!; [done | done | congruence].
  - intros w Hw. simpl in *. unfold describe_external_access, read_ram in *.
    destruct (ram_rtc_enabled c), (ram_or_rtc_select c); simpl in *; try congruence.
    + rewrite read_ram_bank_ok in Hread by done. destruct (ram c); simpl in *; congruence.
    + destruct (has_rtc c); simpl in *; congruence.
  - intros Hi w. simpl in *. unfold describe_external_access, write_ram in *.
    destruct (ram_rtc_enabled c), (ram_or_rtc_select c); simpl in *; try done.
    + rewrite write_ram_bank_ok by done. by destruct (ram c).
    + by destruct (has_rtc c).
Qed.

Lemma mbc3_storage_contract_holds c : ok c -> storage_contract c.
Proof.
  intros Hok.
  set (b := match ram_or_rtc_select c with RamBank b => b | _ => 0 end).
  exists (fun a => ram_cell a b c), id. intros a w Ha Hw _ Hd. simpl in *.
  unfold describe_external_access in Hd. subst b.
  destruct (ram_or_rtc_select c) as [b|sel|reg] eqn:Hsel; simpl in Hd; [|done|by case_match].
  destruct (ram_rtc_enabled c) eqn:He, (ram c) as [r|] eqn:Hr; simpl in Hd; try done.
  unfold write_ram. rewrite He, Hsel. simpl. rewrite write_ram_bank_ok, Hr by done.
  eexists. split; [done|]. intros a' Ha'.
  destruct (mbc3_set_ram_ok c r (vec_set r (ram_cell a b c) w) Hok Hr) as (Hok' & _ & Hcell);
    [apply vec_len_set | apply bytes_set; [by apply (ok_ram c Hok) | done] |].
  set (c' := c <| ram := _ |>) in *.
  assert (Hregs : ram_rtc_enabled c' = true /\ ram_or_rtc_select c' = RamBank b /\
    ram c' = Some (vec_set r (ram_cell a b c) w)) by (subst c'; by destruct c).
  destruct Hregs as (He' & Hsel' & Hr'). clearbody c'.
  unfold read_ram. rewrite He', Hsel', He, Hsel. cbn [negb]. rewrite !read_ram_bank_ok, Hr', Hr, Hcell by done.
  rewrite vec_get_set; [by case_match | by apply mbc3_ram_cell_range | by eapply mbc3_ram_cell_range].
Qed.

Lemma rtc_persistent_round_trip r : rtc_from_persistent (rtc_to_persistent r) = r.
Proof. by destruct r. Qed.

Lemma mbc3_persistence_contract_holds c : ok c -> persistence_contract ok c.
Proof.
  intros Hok. unfold persistence_contract. simpl. split_and!.
  - unfold persistent_state. destruct (has_battery c), (ram c) eqn:Hr, (has_rtc c); simpl; try done;
      try (by apply (ok_ram c Hok)); [split; [by apply (ok_ram c Hok)|]|]; by apply Hok.
  - intros c0 _ Hb. unfold persistent_state, restore_persistent_state.
    injection Hb as _ _ _ _ Hlen Hbat Hrtc. rewrite Hbat, Hrtc.
    destruct (has_battery c) eqn:?, (has_rtc c) eqn:?, (ram c) as [r|], (ram c0) as [r0|] eqn:Hr0; try done;
      simpl in *; try (injection Hlen as Hlen; rewrite Hlen, Z.eqb_refl); simpl;
      eexists; (split; [done|]); destruct c0; simpl in *; subst; simpl; by rewrite ?rtc_persistent_round_trip.
  - intros s c1 e. unfold restore_persistent_state.
    destruct (has_battery c), (has_rtc c), (ram c), s; try congruence; case_match; congruence.
Qed.

Lemma mbc3_ok_contract c : ok c -> contract ok c.
Proof.
  intros Hok. constructor.
  - by apply mbc3_rom_contract_holds.
  - by apply mbc3_external_contract_holds.
  - by apply mbc3_storage_contract_holds.
  - intros a v _ _. eexists. split; [done|]. simpl. destruct c. unfold write_rom, latch_rtc_if_needed. by repeat case_match.
  - by apply mbc3_persistence_contract_holds.
Qed.

#[export] Instance mbc3_laws : MapperLaws Mbc3Cartridge := {|
  m_ok := ok;
  m_step_ok := mbc3_step_ok;
  m_ok_contract := mbc3_ok_contract
|}.

Lemma load_mbc3_ok header rom_bytes compat cls ds c :
  header_sized header -> accepts (load_mbc3 header rom_bytes) compat cls ds c ->
  ok c /\ rom c = rom_bytes /\ has_rtc c = ((raw_type cls =? 0x0F) || (raw_type cls =? 0x10)).
Proof.
  intros Hsized H. unfold load_mbc3 in H. accepts_inv. subst. split_and!; [|done..].
  unfold validate_mbc3 in Hm. accepts_inv. subst.
  match goal with H : rom_decoded_bytes _ = Some _ |- _ =>
    destruct (exact_size_banks _ _ Hsized H) as (banks & Hb & Hr & Hl) end.
  constructor; simpl; try lia; try apply rtc_default_typed.
  - exists banks. split_and!; [done | lia | done].
  - clear Hm2 Hm3. intros r. destruct (type_has_ram _ && _) eqn:Hram; [|done]. intros [= <-]. split; [apply bytes_zeroed|].
    apply andb_true_iff in Hram as [_ Hz]. apply negb_true_iff, Z.eqb_neq in Hz.
    destruct Hsized as [_ Hs]. rewrite Hs in *. unfold ram_size_decode in *.
    repeat case_match; simpl in *; try done; rewrite vec_len_zeroed; lia.
Qed.

(** ** Latching *)

(** Operations that leave the snapshot alone. *)
Definition keeps_latch (op : cart_op) : Prop :=
  match op with
  | OpWriteRom a _ => a < 0x6000
  | OpRestore _ => False
  | _ => True
  end.

Lemma write_rom_keeps_latch a v c : a < 0x6000 ->
  rtc_latched (write_rom a v c) = rtc_latched c /\ rtc_latched_valid (write_rom a v c) = rtc_latched_valid c.
Proof. intros Ha. unfold write_rom. destruct c. repeat (case_match; prune; try lia); done. Qed.

Lemma write_register_keeps_latch reg v c :
  rtc_latched (write_rtc_register reg v c) = rtc_latched c /\
  rtc_latched_valid (write_rtc_register reg v c) = rtc_latched_valid c.
Proof. unfold write_rtc_register, note_rtc_register_write. destruct c. by case_match. Qed.

Definition same_latch (c c' : Mbc3Cartridge) : Prop :=
  rtc_latched c' = rtc_latched c /\ rtc_latched_valid c' = rtc_latched_valid c /\ has_rtc c' = has_rtc c.

Lemma write_ram_bank_keeps_latch a b v c c' : ok c -> external_area a ->
  write_ram_bank a b v c = Done c' -> same_latch c c'.
Proof.
  intros Hok Ha. rewrite write_ram_bank_ok by done. intros [= <-].
  destruct (ram c); [by destruct c | done].
Qed.

Lemma write_ram_keeps_latch a v c c' : ok c -> external_area a -> write_ram a v c = Done c' -> same_latch c c'.
Proof.
  intros Hok Ha. unfold write_ram. destruct (ram_rtc_enabled c); simpl; [|by intros [= <-]].
  destruct (ram_or_rtc_select c); [by apply write_ram_bank_keeps_latch | by intros [= <-] |].
  destruct (has_rtc c) eqn:Hh; intros [= <-]; [|done].
  unfold same_latch, write_rtc_register, note_rtc_register_write. destruct c. by case_match.
Qed.

Lemma write_ram_timed_keeps_latch a v t c c' :
  ok c -> external_area a -> 0 <= t < 2 ^ 63 -> write_ram_timed a v t c = Done c' -> same_latch c c'.
Proof.
  intros Hok Ha Ht. unfold write_ram_timed. destruct (ram_rtc_enabled c); simpl; [|by intros [= <-]].
  destruct (ram_or_rtc_select c); [by apply write_ram_bank_keeps_latch | by intros [= <-] |].
  destruct (has_rtc c) eqn:Hh; [|by intros [= <-]]. rewrite note_rtc_access_timing_ok by done. intros [= <-].
  unfold same_latch, write_rtc_register, note_rtc_register_write. destruct c. by case_match.
Qed.

Lemma step_keeps_latch op c c' :
  ok c -> valid_op op -> keeps_latch op -> run_op op c = Done c' -> same_latch c c'.
Proof.
  intros Hok Hop Hk. destruct op; simpl in *; try done.
  - intros [= <-]. destruct (write_rom_keeps_latch address value c Hk) as [Hl Hv].
    split; [done|]. split; [done|]. destruct c. unfold write_rom, latch_rtc_if_needed. by repeat case_match.
  - destruct Hop. by apply write_ram_keeps_latch.
  - destruct Hop as (? & ? & ?). by apply write_ram_timed_keeps_latch.
  - destruct Hop as [Ha Ht]. unfold read_ram_timed. destruct (ram_rtc_enabled c); simpl; [|by intros [= <-]].
    destruct (ram_or_rtc_select c); simpl; [|by intros [= <-]|].
    + rewrite read_ram_bank_ok by done. by intros [= <-].
    + destruct (has_rtc c); [|by intros [= <-]]. rewrite note_rtc_access_timing_ok by done.
      intros [= <-]. by destruct c.
  - unfold advance_rtc_seconds. destruct (has_rtc c) eqn:Hh; [|by intros [= <-]].
    destruct (advance_typed seconds (rtc_live c) Hop (ok_live c Hok)) as (live & -> & _). intros [= <-].
    by destruct c.
  - destruct (advance_rtc_clock_ticks_ok ticks c Hok Hop) as (live & _ & _ & ->). intros [= <-].
    case_match; [by destruct c | done].
Qed.

Lemma run_keeps_latch ops c c' :
  ok c -> Forall valid_op ops -> Forall keeps_latch ops -> run_ops ops c = Done c' -> ok c' /\ same_latch c c'.
Proof.
  intros Hok Hops. revert c Hok. induction Hops as [|op ops Hop _ IH]; intros c Hok Hk Hrun.
  - by injection Hrun as <-.
  - apply List.Forall_cons_iff in Hk as [Hk Hks].
    destruct (mbc3_step_ok op c Hok Hop) as (c1 & H1 & Hok1 & _). cbn [run_ops] in Hrun. rewrite H1 in Hrun. simpl in Hrun.
    destruct (step_keeps_latch op c c1 Hok Hop Hk H1) as (? & ? & ?), (IH c1 Hok1 Hks Hrun) as (? & ? & ? & ?).
    split; [done|]. split_and!; congruence.
Qed.

(** ** Clock ticks *)

(** The live clock after [n] whole seconds. *)
Definition live_after (n : Z) (r : Mbc3RtcState) : Mbc3RtcState :=
  if n =? 0 then r else iterate (Z.to_nat n) mbc3_rtc_tick_one_second (masked_fields r).

Definition after_ticks (n : Z) (c : Mbc3Cartridge) : Mbc3Cartridge :=
  c <| rtc_subsecond_ticks := (rtc_subsecond_ticks c + n) mod 32768 |>
    <| rtc_live := live_after ((rtc_subsecond_ticks c + n) / 32768) (rtc_live c) |>.

Lemma live_after_halt n r : halt (live_after n r) = halt r.
Proof. unfold live_after. case_match; [done|]. rewrite iterate_tick_halt. by destruct r. Qed.

Lemma live_after_add n m r : 0 <= n -> 0 <= m -> live_after m (live_after n r) = live_after (n + m) r.
Proof.
  intros Hn Hm. unfold live_after. destruct (Z.eqb_spec n 0) as [->|]; [done|].
  destruct (Z.eqb_spec m 0) as [->|].
  - rewrite Z.add_0_r. by destruct (Z.eqb_spec n 0).
  - destruct (Z.eqb_spec (n + m) 0); [lia|].
    rewrite (masked_fields_id (iterate _ _ _)) by apply iterate_tick_ok, masked_fields_ok.
    rewrite <- iterate_add. f_equal. lia.
Qed.

Lemma advance_ticks_spec n c : ok c -> has_rtc c = true -> halt (rtc_live c) = false -> 0 <= n < 2 ^ 63 ->
  advance_rtc_clock_ticks n c = Done (after_ticks n c).
Proof.
  intros Hok Hrtc Hh Hn. destruct (advance_rtc_clock_ticks_ok n c Hok Hn) as (live & Hl & _ & ->).
  pose proof (ok_subsecond c Hok) as Hsub.
  destruct (advance_typed ((rtc_subsecond_ticks c + n) / 32768) (rtc_live c)) as (live' & Hl' & _ & _ & Hlive);
    [divmod_lia | by apply Hok |].
  assert (live' = live) as -> by congruence. specialize (Hlive Hh). fold (live_after ((rtc_subsecond_ticks c + n) / 32768) (rtc_live c)) in Hlive.
  unfold after_ticks. rewrite Hrtc, Hh, <- Hlive. simpl. destruct (Z.eqb_spec n 0) as [->|]; [|done]. simpl.
  rewrite Z.add_0_r in *. rewrite Z.div_small in Hlive by lia. unfold live_after in Hlive. simpl in Hlive.
  rewrite Z.mod_small by lia. subst live. by destruct c.
Qed.

Lemma after_ticks_ok n c : ok c -> has_rtc c = true -> halt (rtc_live c) = false -> 0 <= n < 2 ^ 63 -> ok (after_ticks n c).
Proof.
  intros Hok Hrtc Hh Hn. destruct (advance_rtc_clock_ticks_step n c Hok Hn) as (c' & Hc & Hok' & _).
  rewrite advance_ticks_spec in Hc by done. by injection Hc as ->.
Qed.

(** ** Properties *)

(** Every MBC3 or MBC30 cartridge the loader accepts is sound: in every
    state reached from it by register writes, timed and untimed accesses of
    RAM and clock, elapsed seconds, clock ticks and restores, without panic,
    the contract holds on the loaded image: ROM windows, true access
    descriptions, RAM as memory mirrored through the aperture, and saved RAM
    and clock that round-trip. *)
Theorem loaded_mbc3_sound header rom_bytes compat cls ds c ops :
  header_sized header -> accepts (load_mbc3 header rom_bytes) compat cls ds c -> Forall valid_op ops ->
  exists c', run_ops ops c = Done c' /\ board_rom (m_board c') = rom_bytes /\ contract ok c' /\
    0 <= rtc_subsecond_ticks c' < 32768.
Proof.
  intros Hsized Hload Hops. destruct (load_mbc3_ok _ _ _ _ _ _ Hsized Hload) as (Hok & Hrom & _).
  destruct (@run_ops_ok _ _ mbc3_laws ops c Hok Hops) as (c' & Hrun & Hok' & Hb).
  exists c'. rewrite Hb. split_and!; [done | by rewrite <- Hrom | by apply mbc3_ok_contract | apply Hok' | apply Hok'].
Qed.

(** A blank MBC3 with a clock and 8 KiB of RAM: some time passes, the clock is
    latched and its seconds are selected. *)
Lemma loaded_mbc3_sound_witness :
  let h := blank_header 0x10 0x00 0x02 in
  let cls := mkClassification 0x10 "MBC3+TIMER+RAM+BATTERY" (Supported FamilyMbc3) "" in
  let ops := [OpWriteRom 0 0x0A; OpWriteRamTimed 0xA010 0x42 7; OpRtcClockTicks 70000;
              OpWriteRom 0x6000 0; OpWriteRom 0x6000 1; OpWriteRom 0x4000 8; OpReadRamTimed 0xA000 90] in
  exists c c', accepts (load_mbc3 h (vec_zeroed 32768)) strict cls [] c /\
    run_ops ops c = Done c' /\ contract ok c'.
Proof.
  intros h cls ops.
  assert (L : vec_len (vec_zeroed 32768) = 32768) by (apply vec_len_zeroed; discriminate).
  set (image := vec_zeroed 32768) in *.
  set (c := mkMbc3 image (Some (vec_zeroed 8192)) true true h cls Mbc3Standard false 0 (RamBank 0)
              rtc_default rtc_default false false 0 None).
  assert (H : accepts (load_mbc3 h image) strict cls [] c).
  { exists []. unfold load_mbc3. rewrite L. reflexivity. }
  assert (Hops : Forall valid_op ops).
  { repeat constructor; discriminate. }
  destruct (loaded_mbc3_sound h image strict cls [] c ops (conj eq_refl eq_refl) H Hops) as (c' & Hrun & _ & Hc & _).
  exists c, c'. split; [exact H | split; [exact Hrun | exact Hc]].
Defined.

(** The selector value of a clock register. *)
Definition rtc_selector (register : Mbc3RtcRegister) : Z :=
  match register with Seconds => 0x08 | Minutes => 0x09 | Hours => 0x0A | DayLow => 0x0B | DayHigh => 0x0C end.

(** What software reads after enabling the area and selecting a register. *)
Definition read_rtc_register (register : Mbc3RtcRegister) (address : Z) (c : Mbc3Cartridge) : outcome Z :=
  read_ram address (write_rom 0x4000 (rtc_selector register) (write_rom 0x0000 0x0A c)).

Lemma read_rtc_register_spec register a c : has_rtc c = true ->
  read_rtc_register register a c = Done (rtc_read register (visible_rtc_state c)).
Proof.
  intros Hrtc. unfold read_rtc_register, read_ram. destruct c. simpl in *. subst. by destruct register.
Qed.

(**  The latch isolates reads from the running clock: once 0 then 1 is
    written to the latch area, every clock register reads as it stood at that
    moment, whatever accesses, register writes, bank switches and passing time
    follow, until the next latch or restore; before the first latch the
    registers read as zero. *)
Theorem rtc_latch_freezes_reads c a0 a1 ops :
  ok c -> has_rtc c = true -> 0x6000 <= a0 < 0x8000 -> 0x6000 <= a1 < 0x8000 ->
  Forall valid_op ops -> Forall keeps_latch ops ->
  (exists c', run_ops ops (write_rom a1 0x01 (write_rom a0 0x00 c)) = Done c' /\
    forall register a, external_area a ->
      read_rtc_register register a c' = Done (rtc_read register (rtc_live c))) /\
  (rtc_latched_valid c = false ->
   exists c', run_ops ops c = Done c' /\
     forall register a, external_area a -> read_rtc_register register a c' = Done 0).
Proof.
  intros Hok Hrtc Ha0 Ha1 Hops Hk. split.
  - set (c1 := write_rom a1 0x01 (write_rom a0 0x00 c)).
    assert (Hok1 : ok c1) by (repeat (apply mbc3_write_rom_ok; [unfold u8; lia|]); done).
    assert (Hl1 : rtc_latched c1 = rtc_live c /\ rtc_latched_valid c1 = true /\ has_rtc c1 = true).
    { subst c1. unfold write_rom, latch_rtc_if_needed. destruct c. simpl in *. subst.
      repeat (case_match; prune; simpl in *; try lia; try done). }
    destruct Hl1 as (Hl1 & Hv1 & Hr1).
    destruct (@run_ops_ok _ _ mbc3_laws ops c1 Hok1 Hops) as (c' & Hrun & _).
    exists c'. split; [done|]. intros register a _.
    destruct (run_keeps_latch ops c1 c' Hok1 Hops Hk Hrun) as (_ & Hl & Hv & Hr).
    rewrite read_rtc_register_spec by congruence. unfold visible_rtc_state. by rewrite Hv, Hv1, Hl, Hl1.
  - intros Hinvalid. destruct (@run_ops_ok _ _ mbc3_laws ops c Hok Hops) as (c' & Hrun & _).
    exists c'. split; [done|]. intros register a _.
    destruct (run_keeps_latch ops c c' Hok Hops Hk Hrun) as (_ & _ & Hv & Hr).
    rewrite read_rtc_register_spec by congruence. unfold visible_rtc_state. rewrite Hv, Hinvalid.
    by destruct register.
Qed.

(** A running clock at 12:34:56 keeps reading 56 seconds after two more pass. *)
Lemma rtc_latch_freezes_reads_witness :
  let h := blank_header 0x0F 0x00 0x00 in
  let cls := mkClassification 0x0F "MBC3+TIMER+BATTERY" (Supported FamilyMbc3) "" in
  let c := mkMbc3 (vec_zeroed 32768) None true true h cls Mbc3Standard false 0 (RamBank 0)
             (mkRtc 56 34 12 0 false false) rtc_default false false 0 None in
  exists c', run_ops [OpRtcClockTicks 65536; OpRtcSeconds 5] (write_rom 0x6000 1 (write_rom 0x6000 0 c)) = Done c' /\
    read_rtc_register Seconds 0xA000 c' = Done 56.
Proof.
  intros h cls c.
  assert (Hok : ok c).
  { subst c. constructor.
    - exists 2. split; [reflexivity | split; [discriminate | apply vec_len_zeroed; discriminate]].
    - discriminate.
    - split; [discriminate | reflexivity].
    - split; [discriminate | reflexivity].
    - repeat split; discriminate.
    - repeat split; discriminate.
    - split; [discriminate | reflexivity]. }
  destruct (proj1 (rtc_latch_freezes_reads c 0x6000 0x6000 [OpRtcClockTicks 65536; OpRtcSeconds 5] Hok eq_refl
    ltac:(lia) ltac:(lia) ltac:(repeat constructor; discriminate) ltac:(repeat constructor))) as (c' & Hrun & Hread).
  exists c'. split; [exact Hrun|]. apply (Hread Seconds 0xA000). unfold external_area. lia.
Defined.

(** The emulated clock loses no time: [n] ticks of the 32,768 Hz
    oscillator add up in the prescaler and move the live clock by exactly the
    whole seconds they complete, one hardware second at a time; ticks in two
    batches are ticks in one; and a halted clock, or a board without one, does
    not change at all. *)
Theorem rtc_clock_ticks_accumulate n m c :
  ok c -> 0 <= n -> 0 <= m -> n + m < 2 ^ 63 ->
  (has_rtc c = true -> halt (rtc_live c) = false ->
   advance_rtc_clock_ticks n c = Done (after_ticks n c) /\
   32768 * ((rtc_subsecond_ticks c + n) / 32768) + rtc_subsecond_ticks (after_ticks n c) =
     rtc_subsecond_ticks c + n /\
   (c1 ← advance_rtc_clock_ticks n c; advance_rtc_clock_ticks m c1) = advance_rtc_clock_ticks (n + m) c) /\
  (has_rtc c = false \/ halt (rtc_live c) = true -> advance_rtc_clock_ticks n c = Done c).
Proof.
  intros Hok Hn Hm Hmax. split.
  - intros Hrtc Hh. rewrite !advance_ticks_spec by (done || lia). cbn [mbind outcome_bind].
    pose proof (ok_subsecond c Hok) as Hsub. split_and!; [done | |].
    + unfold after_ticks. destruct c. simpl. symmetry. apply Z.div_mod. lia.
    + rewrite advance_ticks_spec; [| by apply after_ticks_ok; (done || lia) | by destruct c | | lia].
      2: { unfold after_ticks. destruct c. simpl in *. by rewrite live_after_halt. }
      f_equal. destruct c. unfold after_ticks. simpl in *. f_equal; [|divmod_lia].
      rewrite live_after_add by divmod_lia. f_equal. divmod_lia.
  - unfold advance_rtc_clock_ticks. intros [-> | ->]; [done|]. by rewrite orb_true_r.
Qed.

Lemma rtc_clock_ticks_accumulate_witness :
  let h := blank_header 0x0F 0x00 0x00 in
  let cls := mkClassification 0x0F "MBC3+TIMER+BATTERY" (Supported FamilyMbc3) "" in
  let c := mkMbc3 (vec_zeroed 32768) None true true h cls Mbc3Standard false 0 (RamBank 0)
             (mkRtc 59 59 23 511 false false) rtc_default false false 32000 None in
  (c1 ← advance_rtc_clock_ticks 700 c; advance_rtc_clock_ticks 100 c1) = advance_rtc_clock_ticks 800 c /\
  rtc_live (after_ticks 800 c) = mkRtc 0 0 0 0 false true.
Proof.
  intros h cls c.
  assert (Hok : ok c).
  { subst c. constructor.
    - exists 2. split; [reflexivity | split; [discriminate | apply vec_len_zeroed; discriminate]].
    - discriminate.
    - split; [discriminate | reflexivity].
    - split; [discriminate | reflexivity].
    - repeat split; discriminate.
    - repeat split; discriminate.
    - split; [discriminate | reflexivity]. }
  split; [|reflexivity].
  apply (proj1 (rtc_clock_ticks_accumulate 700 100 c Hok ltac:(lia) ltac:(lia) ltac:(lia)) eq_refl eq_refl).
Defined.
