(* ===== verification/M161.v ===== *)
(** * M161 multicarts ([crates/gb-core/src/cartridge/m161.rs])

    One 32 KiB bank register that locks after its first write, with the
    loader's validation and construction. *)

From Stdlib Require Import ZArith Lia Bool String.
From stdpp Require Import base list decidable.
From S2P Require Import Prelude.
From S2P Require Import Model.
From S2P Require Import CartridgeHeader.
From S2P Require Import Cartridge.

Local Open Scope string_scope.
Local Open Scope Z_scope.

Definition M161_BANK_BYTES : Z := 32 * 1024.
Definition M161_SUPPORTED_ROM_BANKS_MIN : Z := 5.
Definition M161_SUPPORTED_ROM_BANKS_MAX : Z := 8.
Definition M161_SUPPORTED_ROM_BYTES_MIN : Z := M161_SUPPORTED_ROM_BANKS_MIN * M161_BANK_BYTES.
Definition M161_SUPPORTED_ROM_BYTES_MAX : Z := M161_SUPPORTED_ROM_BANKS_MAX * M161_BANK_BYTES.

Record M161Cartridge := mkM161 {
  rom : list Z;
  header : CartridgeHeader;
  classification : CartridgeClassification;
  selected_bank : Z;
  bank_switch_locked : bool;
  last_bank_write : option Z
}.

#[export] Instance upd_selected_bank : Update selected_bank := fun v c =>
  let '(mkM161 a h k _ l w) := c in mkM161 a h k v l w.
#[export] Instance upd_bank_switch_locked : Update bank_switch_locked := fun v c =>
  let '(mkM161 a h k s _ w) := c in mkM161 a h k s v w.
#[export] Instance upd_last_bank_write : Update last_bank_write := fun v c =>
  let '(mkM161 a h k s l _) := c in mkM161 a h k s l v.

Definition describe_external_access (address : Z) (_c : M161Cartridge) : CartridgeExternalAccessInfo :=
  access_new address LinearRam Absent (FallbackValue RAM_ABSENT_READ_VALUE) Ignored.

Definition read_rom (address : Z) (c : M161Cartridge) : Z :=
  let bank_base := selected_bank c * M161_BANK_BYTES in
  byte_or_absent (vec_get (rom c) (bank_base + address)).

Definition mapped_rom_window (address : Z) (c : M161Cartridge) : option CartridgeMappedRomWindow :=
  if 0x8000 <=? address then None
  else Some (rom_window (selected_bank c) M161_BANK_BYTES address).

Definition write_rom (_address value : Z) (c : M161Cartridge) : M161Cartridge :=
  if bank_switch_locked c then c
  else
    let c := c <| selected_bank := Z.land value 0x07 |> <| bank_switch_locked := true |> in
    c <| last_bank_write := Some (selected_bank c) |>.

Definition read_ram (_address : Z) (_c : M161Cartridge) : Z := RAM_ABSENT_READ_VALUE.
Definition write_ram (_address _value : Z) (c : M161Cartridge) : M161Cartridge := c.

Definition persistence_metadata (_c : M161Cartridge) : CartridgePersistenceMetadata :=
  mkMetadata false false ProfileNone.
Definition persistent_state (_c : M161Cartridge) : PersistentCartState := SavedNone.

Definition restore_persistent_state (state : PersistentCartState) (c : M161Cartridge)
    : M161Cartridge * option CartridgePersistentStateError :=
  match state with
  | SavedNone => (c, None)
  | _ => (c, Some (KindMismatch "None" (kind_name state)))
  end.

(** ** Loading *)

Definition validate_m161 (header : CartridgeHeader) (actual_rom_size : Z) : V unit :=
  reject_if (negb (ram_raw_code (ram_size header) =? 0x00) ||
             negb (bool_decide (ram_decoded_bytes (ram_size header) = Some 0)))
    "{} expects no external RAM, but the header resolved to {:?} bytes from code {:#04X}";;
  reject_if (negb (actual_rom_size mod M161_BANK_BYTES =? 0))
    "{} expects a ROM image sized in 32 KiB banks, but the loaded ROM is {} bytes";;
  let bank_count := actual_rom_size / M161_BANK_BYTES in
  reject_if (negb ((M161_SUPPORTED_ROM_BANKS_MIN <=? bank_count) && (bank_count <=? M161_SUPPORTED_ROM_BANKS_MAX)))
    "{} expects between {} and {} total 32 KiB banks, but the loaded ROM resolves to {} banks".

(** The [M161] arm of [CartridgeSlot::load]. *)
Definition load_m161 (header : CartridgeHeader) (rom_bytes : list Z) : V M161Cartridge :=
  validate_m161 header (vec_len rom_bytes);;
  classification ← v_classification;
  mret (mkM161 rom_bytes header classification 0 false None).

Definition board (c : M161Cartridge) : Board :=
  mkBoard BoardM161 (header c) (classification c) (rom c) None false false true M161_SUPPORTED_ROM_BYTES_MAX.

#[export] Instance m161_mapper : Mapper M161Cartridge := {|
  m_board := board;
  m_ram := fun _ => None;
  m_settle := fun _ c => c;
  m_taken_up := fun s => s;
  m_read_rom := fun a c => Done (read_rom a c);
  m_mapped_rom_window := mapped_rom_window;
  m_write_rom := fun a v c => Done (write_rom a v c);
  m_read_ram := fun a c => Done (read_ram a c);
  m_read_ram_timed := fun a _ c => Done (read_ram a c, c);
  m_write_ram := fun a v c => Done (write_ram a v c);
  m_write_ram_timed := fun a v _ c => Done (write_ram a v c);
  m_describe_external_access := describe_external_access;
  m_advance_rtc_seconds := fun _ c => Done c;
  m_advance_mbc3_rtc_clock_ticks := fun _ c => Done c;
  m_persistence_metadata := persistence_metadata;
  m_persistent_state := persistent_state;
  m_restore_persistent_state := restore_persistent_state
|}.

(** ** Invariant and contract *)

Definition ok (c : M161Cartridge) : Prop := 0 <= selected_bank c < 8.

#[export, refine] Instance m161_linear : LinearRamLaws M161Cartridge ok := {|
  lr_enabled := fun _ => false;
  lr_cell := fun a _ => a;
  lr_settle := fun _ _ => eq_refl;
  lr_set := fun _ c => c;
  lr_port_read := fun _ _ => RAM_ABSENT_READ_VALUE;
  lr_port_write := fun _ _ c => c
|}.
Proof.
  - done.
  - done.
  - done.
  - intros a c. closed_port.
  - intros a v c Hok _. closed_port.
  - done.
  - done.
  - done.
Defined.

#[export, refine] Instance m161_persistence : LinearPersistence M161Cartridge := {|
  lp_taken_up := fun _ => eq_refl;
  lp_wrap := NoMbcRam;
  lp_unwrap := fun s => match s with NoMbcRam r => Some r | _ => None end;
  lp_kind := "None"
|}.
Proof.
  - done.
  - done.
  - intros s r Hs Hr. destruct s; simplify_eq/=. done.
  - done.
  - done.
  - intros s c. simpl. by destruct s.
Defined.

Lemma m161_write_rom_ok a v c : ok c -> board (write_rom a v c) = board c /\ ok (write_rom a v c).
Proof.
  destruct c as [? ? ? ? [] ?]; unfold ok, write_rom; simpl; intros Hok; [done|].
  rewrite land_07. split; [done | apply Z.mod_pos_bound; lia].
Qed.

Lemma m161_step_ok op c : ok c -> valid_op op ->
  exists c', run_op op c = Done c' /\ ok c' /\ m_board c' = m_board c.
Proof.
  intros Hok. apply (linear_timeless_step_ok write_rom); [done | done | | | done].
  - intros a v _. by apply m161_write_rom_ok.
  - intros s. by apply linear_restore_ok.
Qed.

Lemma m161_rom_contract_holds c : ok c -> rom_contract c.
Proof.
  unfold ok. intros Hok a Ha. unfold rom_area in Ha. right. exists (selected_bank c), M161_BANK_BYTES, a. simpl.
  unfold M161_SUPPORTED_ROM_BYTES_MAX, M161_SUPPORTED_ROM_BANKS_MAX, M161_BANK_BYTES.
  split_and!; try done; try lia.
  intros _. unfold mapped_rom_window. by destruct (Z.leb_spec 0x8000 a); [lia|].
Qed.

Lemma m161_ok_contract c : ok c -> contract ok c.
Proof.
  intros Hok. constructor.
  - by apply m161_rom_contract_holds.
  - by apply linear_external_contract.
  - by apply linear_storage_contract.
  - intros a v _ _. eexists. split; [done|]. simpl. destruct c. unfold write_rom. by repeat case_match.
  - by apply linear_persistence_contract.
Qed.

#[export] Instance m161_laws : MapperLaws M161Cartridge := {|
  m_ok := ok;
  m_step_ok := m161_step_ok;
  m_ok_contract := m161_ok_contract
|}.

(** Whatever the loader accepts is sound, and starts in its menu bank. *)
Lemma load_m161_ok header rom_bytes compat cls ds c :
  accepts (load_m161 header rom_bytes) compat cls ds c ->
  ok c /\ rom c = rom_bytes /\ selected_bank c = 0 /\
  5 * M161_BANK_BYTES <= vec_len rom_bytes <= 8 * M161_BANK_BYTES.
Proof.
  unfold load_m161, validate_m161. intros H. accepts_inv. subst.
  repeat match goal with H : negb _ = false |- _ => apply negb_false_iff in H end. prune.
  unfold M161_SUPPORTED_ROM_BANKS_MIN, M161_SUPPORTED_ROM_BANKS_MAX, M161_BANK_BYTES in *.
  split_and!; try done; divmod_lia.
Qed.
