(* ===== verification/Huc1.v ===== *)
(** * HuC1 cartridges ([crates/gb-core/src/cartridge/huc1.rs])

    ROM and RAM banks, the infrared port that takes the place of the RAM in
    the external area, persistence, and the loader's validation and
    construction. *)

From Stdlib Require Import ZArith Lia Bool String.
From stdpp Require Import base list decidable.
From S2P Require Import Prelude.
From S2P Require Import Model.
From S2P Require Import CartridgeHeader.
From S2P Require Import Cartridge.

Local Open Scope string_scope.
Local Open Scope Z_scope.

Definition HUC1_SUPPORTED_ROM_BYTES_MAX : Z := 1024 * 1024.
Definition HUC1_SUPPORTED_RAM_BYTES_MAX : Z := 32 * 1024.

Inductive Huc1IoMode := IoRam | IoIr.

#[export] Instance Huc1IoMode_eq_dec : EqDecision Huc1IoMode.
Proof. solve_decision. Defined.

Record Huc1Cartridge := mkHuc1 {
  rom : list Z;
  ram : option (list Z);
  has_battery : bool;
  header : CartridgeHeader;
  classification : CartridgeClassification;
  io_mode : Huc1IoMode;
  rom_bank : Z;
  ram_bank : Z;
  ir_emitter_on : bool;
  ir_light_detected : bool
}.

#[export] Instance upd_ram : Update ram := fun v c =>
  let '(mkHuc1 a _ b h k m r s e l) := c in mkHuc1 a v b h k m r s e l.
#[export] Instance upd_io_mode : Update io_mode := fun v c =>
  let '(mkHuc1 a x b h k _ r s e l) := c in mkHuc1 a x b h k v r s e l.
#[export] Instance upd_rom_bank : Update rom_bank := fun v c =>
  let '(mkHuc1 a x b h k m _ s e l) := c in mkHuc1 a x b h k m v s e l.
#[export] Instance upd_ram_bank : Update ram_bank := fun v c =>
  let '(mkHuc1 a x b h k m r _ e l) := c in mkHuc1 a x b h k m r v e l.
#[export] Instance upd_ir_emitter_on : Update ir_emitter_on := fun v c =>
  let '(mkHuc1 a x b h k m r s _ l) := c in mkHuc1 a x b h k m r s v l.

(** ** Banking *)

Definition effective_ram_bank_count (c : Huc1Cartridge) : Z :=
  match ram c with Some ram => Z.max (vec_len ram / 0x2000) 1 | None => 1 end.

Definition effective_rom_bank (bank_count : Z) (c : Huc1Cartridge) : Z :=
  if bank_count =? 0 then 0 else rom_bank c mod bank_count.

Definition effective_ram_bank (c : Huc1Cartridge) : Z :=
  let bank_count := effective_ram_bank_count c in as_u8 (ram_bank c mod bank_count).

Definition effective_ram_offset (address : Z) (c : Huc1Cartridge) : outcome Z :=
  base_offset ← ram_base_offset address;
  let bank := effective_ram_bank c in
  let offset := bank * 0x2000 + base_offset in
  mret match ram c with
       | None => offset
       | Some ram => if vec_len ram =? 0 then offset else offset mod vec_len ram
       end.

(** ** Accesses *)

Definition read_ir_register (c : Huc1Cartridge) : Z := if ir_light_detected c then 0xC1 else 0xC0.

Definition describe_external_access (address : Z) (c : Huc1Cartridge) : CartridgeExternalAccessInfo :=
  match io_mode c with
  | IoRam =>
      let has_ram := bool_decide (is_Some (ram c)) in
      access_new address (BankedRam (effective_ram_bank c))
        (if has_ram then Accessible else Absent)
        (if has_ram then ReadStorage else FallbackValue RAM_ABSENT_READ_VALUE)
        (if has_ram then WriteStorage else Ignored)
  | IoIr => access_new address IrRegister Accessible InfraredSensor InfraredTransmitter
  end.

Definition read_rom (address : Z) (c : Huc1Cartridge) : Z :=
  let bank_count := default 0 (rom_bank_count (rom_size (header c))) in
  let rom_index :=
    if address <? 0x4000 then address
    else
      let bank := effective_rom_bank bank_count c in
      bank * 0x4000 + (address - 0x4000) in
  byte_or_absent (vec_get (rom c) rom_index).

Definition mapped_rom_window (address : Z) (c : Huc1Cartridge) : option CartridgeMappedRomWindow :=
  if 0x8000 <=? address then None
  else
    let bank := if address <? 0x4000 then 0
                else effective_rom_bank (default 0 (rom_bank_count (rom_size (header c)))) c in
    let bank_offset := if address <? 0x4000 then address else address - 0x4000 in
    Some (rom_window bank 0x4000 bank_offset).

Definition write_rom (address value : Z) (c : Huc1Cartridge) : Huc1Cartridge :=
  if (0x0000 <=? address) && (address <=? 0x1FFF) then
    c <| io_mode := if value =? 0x0E then IoIr else IoRam |>
  else if (0x2000 <=? address) && (address <=? 0x3FFF) then
    c <| rom_bank := Z.land value 0x3F |>
  else if (0x4000 <=? address) && (address <=? 0x5FFF) then
    c <| ram_bank := Z.land value 0x03 |>
  else c.

Definition read_ram (address : Z) (c : Huc1Cartridge) : outcome Z :=
  match io_mode c with
  | IoRam =>
      match ram c with
      | None => Done RAM_ABSENT_READ_VALUE
      | Some ram => offset ← effective_ram_offset address c; Done (byte_or_absent (vec_get ram offset))
      end
  | IoIr => Done (read_ir_register c)
  end.

Definition write_ram (address value : Z) (c : Huc1Cartridge) : outcome Huc1Cartridge :=
  match io_mode c with
  | IoRam =>
      offset ← effective_ram_offset address c;
      match ram c with
      | Some r => Done (c <| ram := Some (vec_set r offset value) |>)
      | None => Done c
      end
  | IoIr => Done (c <| ir_emitter_on := negb (Z.land value 0x01 =? 0) |>)
  end.

(** ** Persistence *)

Definition persistence_metadata (c : Huc1Cartridge) : CartridgePersistenceMetadata :=
  mkMetadata (has_battery c) false
    match ram c with
    | Some ram => if has_battery c then PersistentRam (Linear (vec_len ram)) else NonPersistentRam (Linear (vec_len ram))
    | None => ProfileNone
    end.

Definition persistent_state (c : Huc1Cartridge) : PersistentCartState :=
  if has_battery c then
    match ram c with Some ram => Huc1Ram ram | None => SavedNone end
  else SavedNone.

Definition restore_persistent_state (state : PersistentCartState) (c : Huc1Cartridge)
    : Huc1Cartridge * option CartridgePersistentStateError :=
  match has_battery c, ram c, state with
  | false, _, SavedNone | true, None, SavedNone => (c, None)
  | true, Some r, Huc1Ram persisted_ram =>
      if negb (vec_len r =? vec_len persisted_ram)
      then (c, Some (RamLengthMismatch (vec_len r) (vec_len persisted_ram)))
      else (c <| ram := Some persisted_ram |>, None)
  | true, Some _, other => (c, Some (KindMismatch "Huc1Ram" (kind_name other)))
  | false, _, other => (c, Some (KindMismatch "None" (kind_name other)))
  | true, None, other => (c, Some (KindMismatch "None" (kind_name other)))
  end.

(** ** Loading *)

Definition validate_huc1 (header : CartridgeHeader) (actual_rom_size : Z) : V Z :=
  declared_rom_bytes ← declared_exact_size header actual_rom_size;
  reject_if (HUC1_SUPPORTED_ROM_BYTES_MAX <? declared_rom_bytes)
    "{} exceeds the current HuC1 ROM limit of {} bytes with {} bytes";;
  match ram_decoded_bytes (ram_size header) with
  | None => reject "{} declared an unsupported RAM size code {:#04X}"
  | Some ram_len =>
      reject_if ((ram_len =? 0) || (HUC1_SUPPORTED_RAM_BYTES_MAX <? ram_len))
        "{} expects cartridge RAM between 1 and {} bytes, but the header resolved to {} bytes";;
      mret ram_len
  end.

(** The [Huc1] arm of [CartridgeSlot::load]. *)
Definition load_huc1 (header : CartridgeHeader) (rom_bytes : list Z) : V Huc1Cartridge :=
  ram_len ← validate_huc1 header (vec_len rom_bytes);
  classification ← v_classification;
  mret {|
    rom := rom_bytes;
    ram := Some (vec_zeroed ram_len);
    has_battery := true;
    header := header;
    classification := classification;
    io_mode := IoRam;
    rom_bank := 0;
    ram_bank := 0;
    ir_emitter_on := false;
    ir_light_detected := false
  |}.

Definition board (c : Huc1Cartridge) : Board :=
  mkBoard BoardHuc1 (header c) (classification c) (rom c) (vec_len <$> ram c) (has_battery c) false true 0x8000.

#[export] Instance huc1_mapper : Mapper Huc1Cartridge := {|
  m_board := board;
  m_ram := ram;
  m_settle := fun _ c => c;
  m_taken_up := fun s => s;
  m_read_rom := fun a c => Done (read_rom a c);
  m_mapped_rom_window := mapped_rom_window;
  m_write_rom := fun a v c => Done (write_rom a v c);
  m_read_ram := read_ram;
  m_read_ram_timed := fun a _ c => v ← read_ram a c; Done (v, c);
  m_write_ram := write_ram;
  m_write_ram_timed := fun a v _ c => write_ram a v c;
  m_describe_external_access := describe_external_access;
  m_advance_rtc_seconds := fun _ c => Done c;
  m_advance_mbc3_rtc_clock_ticks := fun _ c => Done c;
  m_persistence_metadata := persistence_metadata;
  m_persistent_state := persistent_state;
  m_restore_persistent_state := restore_persistent_state
|}.

(** ** Invariant *)

Record ok (c : Huc1Cartridge) : Prop := {
  ok_rom : exists n, rom_bank_count (rom_size (header c)) = Some n /\ 1 <= n /\
    vec_len (rom c) = ROM_BANK_BYTES * n;
  ok_ram : forall r, ram c = Some r -> bytes r /\ 0 < vec_len r <= 0x8000;
  ok_rom_bank : 0 <= rom_bank c < 64;
  ok_ram_bank : 0 <= ram_bank c < 4
}.

Definition ram_cell (a : Z) (c : Huc1Cartridge) : Z :=
  let offset := effective_ram_bank c * 0x2000 + (a - 0xA000) in
  match ram c with
  | None => offset
  | Some ram => if vec_len ram =? 0 then offset else offset mod vec_len ram
  end.

Lemma huc1_effective_ram_offset_ok a c : external_area a -> effective_ram_offset a c = Done (ram_cell a c).
Proof. intros Ha. unfold effective_ram_offset, ram_cell. by rewrite ram_base_offset_ok. Qed.

Lemma huc1_ram_cell_range a c r : ok c -> ram c = Some r -> external_area a -> 0 <= ram_cell a c < vec_len r.
Proof.
  intros Hok Hr _. destruct (ok_ram c Hok r Hr) as [_ Hlen]. unfold ram_cell. rewrite Hr.
  destruct (Z.eqb_spec (vec_len r) 0); [lia|]. apply Z.mod_pos_bound. lia.
Qed.

Lemma huc1_set_ram_ok c r l : ok c -> ram c = Some r -> vec_len l = vec_len r -> bytes l ->
  ok (c <| ram := Some l |>) /\ board (c <| ram := Some l |>) = board c /\
  ram (c <| ram := Some l |>) = Some l /\
  bool_decide (io_mode (c <| ram := Some l |>) = IoRam) = bool_decide (io_mode c = IoRam) /\
  (forall a, ram_cell a (c <| ram := Some l |>) = ram_cell a c).
Proof.
  destruct c. simpl. intros [Hrom Hram Hl Hs] Hr Hlen Hb. simpl in *. subst. split_and!; try done.
  - constructor; simpl; try done. intros ? [= <-]. rewrite Hlen. split; [done|]. by apply Hram.
  - unfold board. simpl. by rewrite Hlen.
  - intros a. unfold ram_cell, effective_ram_bank, effective_ram_bank_count. simpl. by rewrite Hlen.
Qed.

(** Outside RAM mode the aperture is the infrared port. *)
Definition port_read (_a : Z) (c : Huc1Cartridge) : Z :=
  match io_mode c with IoRam => RAM_ABSENT_READ_VALUE | IoIr => read_ir_register c end.
Definition port_write (_a v : Z) (c : Huc1Cartridge) : Huc1Cartridge :=
  match io_mode c with IoRam => c | IoIr => c <| ir_emitter_on := negb (Z.land v 0x01 =? 0) |> end.

Lemma huc1_port_ok (a v : Z) c : ok c -> u8 v ->
  u8 (port_read a c) /\ ok (port_write a v c) /\ board (port_write a v c) = board c.
Proof.
  destruct c as [? ? ? ? ? [] ? ? ? []]; intros [? ? ? ?] _; simpl in *;
    split_and!; try done; unfold u8; simpl; lia.
Qed.

#[export, refine] Instance huc1_linear : LinearRamLaws Huc1Cartridge ok := {|
  lr_enabled := fun c => bool_decide (io_mode c = IoRam);
  lr_cell := ram_cell;
  lr_settle := fun _ _ => eq_refl;
  lr_set := fun l c => c <| ram := Some l |>;
  lr_port_read := port_read;
  lr_port_write := port_write;
  lr_port_ok := huc1_port_ok;
  lr_cell_range := huc1_ram_cell_range;
  lr_set_ok := huc1_set_ram_ok
|}.
Proof.
  - intros a c Hok Ha. simpl. unfold read_ram, port_read. rewrite huc1_effective_ram_offset_ok by done.
    by destruct (io_mode c), (ram c).
  - done.
  - intros a v c _ Ha. simpl. unfold write_ram, port_write. rewrite huc1_effective_ram_offset_ok by done.
    by destruct (io_mode c), (ram c).
  - intros a c. simpl. unfold describe_external_access, port_read, port_write.
    destruct (io_mode c); simpl; [destruct (bool_decide (is_Some (ram c)))|]; closed_port.
  - intros c r Hok Hr. by apply (ok_ram c Hok).
Defined.

Lemma huc1_write_rom_ok a v c : ok c -> ok (write_rom a v c).
Proof.
  destruct c. intros [Hrom Hram Hl Hs]. unfold write_rom.
  repeat case_match; constructor; simpl in *; try done; rewrite ?(land_mask 6), ?(land_mask 2) by lia;
    apply Z.mod_pos_bound; lia.
Qed.

Lemma huc1_write_rom_board a v c : board (write_rom a v c) = board c /\ ram (write_rom a v c) = ram c.
Proof. destruct c. unfold write_rom. by repeat case_match. Qed.

#[export, refine] Instance huc1_persistence : LinearPersistence Huc1Cartridge := {|
  lp_taken_up := fun _ => eq_refl;
  lp_wrap := Huc1Ram;
  lp_unwrap := fun s => match s with Huc1Ram r => Some r | _ => None end;
  lp_kind := "Huc1Ram"
|}.
Proof.
  - done.
  - done.
  - intros s r Hs Hr. destruct s; simplify_eq/=. done.
  - done.
  - done.
  - intros s c. simpl. unfold restore_persistent_state.
    destruct (has_battery c), (ram c), s; simpl; try done. by destruct (_ =? _).
Defined.

Lemma huc1_step_ok op c : ok c -> valid_op op ->
  exists c', run_op op c = Done c' /\ ok c' /\ m_board c' = m_board c.
Proof.
  intros Hok. apply (linear_timeless_step_ok write_rom); [done | done | | | done].
  - intros a v _. split; [apply huc1_write_rom_board | by apply huc1_write_rom_ok].
  - intros s. by apply linear_restore_ok.
Qed.

Lemma huc1_rom_contract_holds c : ok c -> rom_contract c.
Proof.
  intros Hok. destruct (ok_rom c Hok) as (n & Hn & Hpos & Hlen).
  apply (rom_contract_of_banks c (fun a => if a <? 0x4000 then 0 else rom_bank c mod n) n); [done | | |].
  - intros a _. case_match; [lia|]. apply Z.mod_pos_bound. lia.
  - intros a _. simpl. unfold read_rom, window_offset, effective_rom_bank. rewrite Hn. simpl.
    destruct (Z.eqb_spec n 0); [lia|]. by destruct (a <? 0x4000).
  - intros _ a Ha. simpl. unfold mapped_rom_window, window_offset, effective_rom_bank, rom_area in *.
    rewrite Hn. simpl. destruct (Z.leb_spec 0x8000 a); [lia|]. destruct (Z.eqb_spec n 0); [lia|done].
Qed.

Lemma huc1_ok_contract c : ok c -> contract ok c.
Proof.
  intros Hok. constructor.
  - by apply huc1_rom_contract_holds.
  - by apply linear_external_contract.
  - by apply linear_storage_contract.
  - intros a v _ _. eexists. split; [done|]. apply huc1_write_rom_board.
  - by apply linear_persistence_contract.
Qed.

#[export] Instance huc1_laws : MapperLaws Huc1Cartridge := {|
  m_ok := ok;
  m_step_ok := huc1_step_ok;
  m_ok_contract := huc1_ok_contract
|}.

(** ** Loading establishes the invariant *)

Lemma load_huc1_ok header rom_bytes compat cls ds c :
  header_sized header -> accepts (load_huc1 header rom_bytes) compat cls ds c -> ok c /\ rom c = rom_bytes.
Proof.
  intros Hsized H. unfold load_huc1, validate_huc1 in H. accepts_inv. subst. split; [|done].
  destruct (exact_size_banks header (vec_len rom_bytes)) as (banks & Hb & Hr & Hl); [done..|].
  destruct (ram_decoded_bytes _) as [len|] eqn:Hlen; accepts_inv; subst.
  pose proof (ram_decoded_nonneg _ _ Hsized Hlen).
  assert (0 < len <= 0x8000).
  { apply orb_false_iff in Hm0 as [? ?]. prune. unfold HUC1_SUPPORTED_RAM_BYTES_MAX in *.
    lia. }
  constructor; simpl; try lia.
  - exists banks. split_and!; [done | lia | done].
  - intros r [= <-]. rewrite vec_len_zeroed by lia. by split; [apply bytes_zeroed|].
Qed.
