(* ===== verification/Huc3.v ===== *)
(** * HuC-3 cartridges ([crates/gb-core/src/cartridge/huc3.rs])

    ROM and RAM banks, the selector that puts RAM, the clock mailbox, the
    semaphore or the infrared port into the external area, the microcontroller
    behind the mailbox with its 256 half-byte cells and its clock, persistence,
    and the loader's validation and construction. *)

From Stdlib Require Import ZArith Lia Bool String List.
From stdpp Require Import base list decidable.
From S2P Require Import Prelude.
From S2P Require Import Model.
From S2P Require Import CartridgeHeader.
From S2P Require Import Cartridge.

Local Open Scope string_scope.
Local Open Scope Z_scope.

Definition HUC3_SUPPORTED_ROM_BYTES_MAX : Z := 2 * 1024 * 1024.
Definition HUC3_SUPPORTED_RAM_BYTES_MAX : Z := 32 * 1024.
Definition HUC3_MCU_RAM_NIBBLE_COUNT : Z := 256.
Definition HUC3_DAY_COUNTER_MODULUS : Z := 0x1000.
Definition HUC3_MINUTES_PER_DAY : Z := 1440.

Inductive Huc3SelectMode :=
| RamReadOnly | RamReadWrite | RtcCommandArgument | RtcCommandResponse | RtcSemaphore | Ir | OpenBus (raw : Z).

Definition select_from_value (value : Z) : Huc3SelectMode :=
  let raw := Z.land value 0x0F in
  if raw =? 0x00 then RamReadOnly
  else if raw =? 0x0A then RamReadWrite
  else if raw =? 0x0B then RtcCommandArgument
  else if raw =? 0x0C then RtcCommandResponse
  else if raw =? 0x0D then RtcSemaphore
  else if raw =? 0x0E then Ir
  else OpenBus raw.

Definition raw_value (m : Huc3SelectMode) : Z :=
  match m with
  | RamReadOnly => 0x00
  | RamReadWrite => 0x0A
  | RtcCommandArgument => 0x0B
  | RtcCommandResponse => 0x0C
  | RtcSemaphore => 0x0D
  | Ir => 0x0E
  | OpenBus raw => Z.land raw 0x0F
  end.

Record Huc3Mailbox := mkMailbox {
  command : Z;
  argument : Z;
  last_response_nybble : Z;
  semaphore_ready : bool
}.

#[export] Instance upd_command : Update command := fun v s =>
  let '(mkMailbox _ x2 x3 x4) := s in mkMailbox v x2 x3 x4.
#[export] Instance upd_argument : Update argument := fun v s =>
  let '(mkMailbox x1 _ x3 x4) := s in mkMailbox x1 v x3 x4.
#[export] Instance upd_last_response_nybble : Update last_response_nybble := fun v s =>
  let '(mkMailbox x1 x2 _ x4) := s in mkMailbox x1 x2 v x4.
#[export] Instance upd_semaphore_ready : Update semaphore_ready := fun v s =>
  let '(mkMailbox x1 x2 x3 _) := s in mkMailbox x1 x2 x3 v.

Definition mailbox_default : Huc3Mailbox := mkMailbox 0 0 0 true.

Record Huc3RtcState := mkHuc3Rtc {
  current_minutes_of_day : Z;
  current_days : Z;
  current_subminute_seconds : Z;
  event_minutes_of_day : Z;
  event_days : Z
}.

#[export] Instance upd_current_minutes_of_day : Update current_minutes_of_day := fun v s =>
  let '(mkHuc3Rtc _ x2 x3 x4 x5) := s in mkHuc3Rtc v x2 x3 x4 x5.
#[export] Instance upd_current_days : Update current_days := fun v s =>
  let '(mkHuc3Rtc x1 _ x3 x4 x5) := s in mkHuc3Rtc x1 v x3 x4 x5.
#[export] Instance upd_current_subminute_seconds : Update current_subminute_seconds := fun v s =>
  let '(mkHuc3Rtc x1 x2 _ x4 x5) := s in mkHuc3Rtc x1 x2 v x4 x5.
#[export] Instance upd_event_minutes_of_day : Update event_minutes_of_day := fun v s =>
  let '(mkHuc3Rtc x1 x2 x3 _ x5) := s in mkHuc3Rtc x1 x2 x3 v x5.
#[export] Instance upd_event_days : Update event_days := fun v s =>
  let '(mkHuc3Rtc x1 x2 x3 x4 _) := s in mkHuc3Rtc x1 x2 x3 x4 v.

Definition huc3_rtc_default : Huc3RtcState := mkHuc3Rtc 0 0 0 0 0.

Definition huc3_rtc_to_persistent (r : Huc3RtcState) : Huc3RtcPersistentState :=
  mkHuc3RtcPersistent (current_minutes_of_day r) (current_days r) (current_subminute_seconds r)
    (event_minutes_of_day r) (event_days r).
Definition huc3_rtc_from_persistent (r : Huc3RtcPersistentState) : Huc3RtcState :=
  mkHuc3Rtc (Cartridge.current_minutes_of_day r) (Cartridge.current_days r)
    (Cartridge.current_subminute_seconds r) (Cartridge.event_minutes_of_day r) (Cartridge.event_days r).

Record Huc3Cartridge := mkHuc3 {
  rom : list Z;
  ram : list Z;
  has_battery : bool;
  header : CartridgeHeader;
  classification : CartridgeClassification;
  select_mode : Huc3SelectMode;
  rom_bank : Z;
  ram_bank : Z;
  access_address : Z;
  mailbox : Huc3Mailbox;
  mcu_ram : list Z;
  rtc : Huc3RtcState;
  ir_emitter_on : bool;
  ir_light_detected : bool;
  last_control_write : option Z;
  last_unsupported_command : option Z;
  last_unsupported_argument : option Z
}.

#[export] Instance upd_rom : Update rom := fun v s =>
  let '(mkHuc3 _ x2 x3 x4 x5 x6 x7 x8 x9 x10 x11 x12 x13 x14 x15 x16 x17) := s in mkHuc3 v x2 x3 x4 x5 x6 x7 x8 x9 x10 x11 x12 x13 x14 x15 x16 x17.
#[export] Instance upd_ram : Update ram := fun v s =>
  let '(mkHuc3 x1 _ x3 x4 x5 x6 x7 x8 x9 x10 x11 x12 x13 x14 x15 x16 x17) := s in mkHuc3 x1 v x3 x4 x5 x6 x7 x8 x9 x10 x11 x12 x13 x14 x15 x16 x17.
#[export] Instance upd_has_battery : Update has_battery := fun v s =>
  let '(mkHuc3 x1 x2 _ x4 x5 x6 x7 x8 x9 x10 x11 x12 x13 x14 x15 x16 x17) := s in mkHuc3 x1 x2 v x4 x5 x6 x7 x8 x9 x10 x11 x12 x13 x14 x15 x16 x17.
#[export] Instance upd_header : Update header := fun v s =>
  let '(mkHuc3 x1 x2 x3 _ x5 x6 x7 x8 x9 x10 x11 x12 x13 x14 x15 x16 x17) := s in mkHuc3 x1 x2 x3 v x5 x6 x7 x8 x9 x10 x11 x12 x13 x14 x15 x16 x17.
#[export] Instance upd_classification : Update classification := fun v s =>
  let '(mkHuc3 x1 x2 x3 x4 _ x6 x7 x8 x9 x10 x11 x12 x13 x14 x15 x16 x17) := s in mkHuc3 x1 x2 x3 x4 v x6 x7 x8 x9 x10 x11 x12 x13 x14 x15 x16 x17.
#[export] Instance upd_select_mode : Update select_mode := fun v s =>
  let '(mkHuc3 x1 x2 x3 x4 x5 _ x7 x8 x9 x10 x11 x12 x13 x14 x15 x16 x17) := s in mkHuc3 x1 x2 x3 x4 x5 v x7 x8 x9 x10 x11 x12 x13 x14 x15 x16 x17.
#[export] Instance upd_rom_bank : Update rom_bank := fun v s =>
  let '(mkHuc3 x1 x2 x3 x4 x5 x6 _ x8 x9 x10 x11 x12 x13 x14 x15 x16 x17) := s in mkHuc3 x1 x2 x3 x4 x5 x6 v x8 x9 x10 x11 x12 x13 x14 x15 x16 x17.
#[export] Instance upd_ram_bank : Update ram_bank := fun v s =>
  let '(mkHuc3 x1 x2 x3 x4 x5 x6 x7 _ x9 x10 x11 x12 x13 x14 x15 x16 x17) := s in mkHuc3 x1 x2 x3 x4 x5 x6 x7 v x9 x10 x11 x12 x13 x14 x15 x16 x17.
#[export] Instance upd_access_address : Update access_address := fun v s =>
  let '(mkHuc3 x1 x2 x3 x4 x5 x6 x7 x8 _ x10 x11 x12 x13 x14 x15 x16 x17) := s in mkHuc3 x1 x2 x3 x4 x5 x6 x7 x8 v x10 x11 x12 x13 x14 x15 x16 x17.
#[export] Instance upd_mailbox : Update mailbox := fun v s =>
  let '(mkHuc3 x1 x2 x3 x4 x5 x6 x7 x8 x9 _ x11 x12 x13 x14 x15 x16 x17) := s in mkHuc3 x1 x2 x3 x4 x5 x6 x7 x8 x9 v x11 x12 x13 x14 x15 x16 x17.
#[export] Instance upd_mcu_ram : Update mcu_ram := fun v s =>
  let '(mkHuc3 x1 x2 x3 x4 x5 x6 x7 x8 x9 x10 _ x12 x13 x14 x15 x16 x17) := s in mkHuc3 x1 x2 x3 x4 x5 x6 x7 x8 x9 x10 v x12 x13 x14 x15 x16 x17.
#[export] Instance upd_rtc : Update rtc := fun v s =>
  let '(mkHuc3 x1 x2 x3 x4 x5 x6 x7 x8 x9 x10 x11 _ x13 x14 x15 x16 x17) := s in mkHuc3 x1 x2 x3 x4 x5 x6 x7 x8 x9 x10 x11 v x13 x14 x15 x16 x17.
#[export] Instance upd_ir_emitter_on : Update ir_emitter_on := fun v s =>
  let '(mkHuc3 x1 x2 x3 x4 x5 x6 x7 x8 x9 x10 x11 x12 _ x14 x15 x16 x17) := s in mkHuc3 x1 x2 x3 x4 x5 x6 x7 x8 x9 x10 x11 x12 v x14 x15 x16 x17.
#[export] Instance upd_ir_light_detected : Update ir_light_detected := fun v s =>
  let '(mkHuc3 x1 x2 x3 x4 x5 x6 x7 x8 x9 x10 x11 x12 x13 _ x15 x16 x17) := s in mkHuc3 x1 x2 x3 x4 x5 x6 x7 x8 x9 x10 x11 x12 x13 v x15 x16 x17.
#[export] Instance upd_last_control_write : Update last_control_write := fun v s =>
  let '(mkHuc3 x1 x2 x3 x4 x5 x6 x7 x8 x9 x10 x11 x12 x13 x14 _ x16 x17) := s in mkHuc3 x1 x2 x3 x4 x5 x6 x7 x8 x9 x10 x11 x12 x13 x14 v x16 x17.
#[export] Instance upd_last_unsupported_command : Update last_unsupported_command := fun v s =>
  let '(mkHuc3 x1 x2 x3 x4 x5 x6 x7 x8 x9 x10 x11 x12 x13 x14 x15 _ x17) := s in mkHuc3 x1 x2 x3 x4 x5 x6 x7 x8 x9 x10 x11 x12 x13 x14 x15 v x17.
#[export] Instance upd_last_unsupported_argument : Update last_unsupported_argument := fun v s =>
  let '(mkHuc3 x1 x2 x3 x4 x5 x6 x7 x8 x9 x10 x11 x12 x13 x14 x15 x16 _) := s in mkHuc3 x1 x2 x3 x4 x5 x6 x7 x8 x9 x10 x11 x12 x13 x14 x15 x16 v.

Definition on_rtc (f : Huc3RtcState -> Huc3RtcState) (c : Huc3Cartridge) : Huc3Cartridge := c <| rtc := f (rtc c) |>.

(** ** The clock ([advance_huc3_rtc_fields] of [persist.rs]) *)

Definition advance_huc3_rtc_fields (elapsed_seconds : Z) (r : Huc3RtcPersistentState)
    : outcome Huc3RtcPersistentState :=
  let '(mkHuc3RtcPersistent minutes days seconds event_m event_d) := r in
  if elapsed_seconds =? 0 then Done r
  else
    let minutes := minutes mod HUC3_MINUTES_PER_DAY in
    let days := days mod HUC3_DAY_COUNTER_MODULUS in
    let seconds := seconds mod 60 in
    total_seconds ← checked_add64 seconds elapsed_seconds;
    let minute_delta := total_seconds / 60 in
    let seconds := total_seconds mod 60 in
    if minute_delta =? 0 then Done (mkHuc3RtcPersistent minutes days seconds event_m event_d)
    else
      let current_total_minutes := days * HUC3_MINUTES_PER_DAY + minutes in
      let wrapped_total_minutes :=
        (current_total_minutes + minute_delta) mod (HUC3_DAY_COUNTER_MODULUS * HUC3_MINUTES_PER_DAY) in
      Done (mkHuc3RtcPersistent (wrapped_total_minutes mod HUC3_MINUTES_PER_DAY)
              (wrapped_total_minutes / HUC3_MINUTES_PER_DAY) seconds event_m event_d).

(** ** The half-byte cells of the microcontroller

    The array has 256 cells and every index is a [u8] or a small constant. *)

Definition cell (l : list Z) (i : Z) : Z := default 0 (vec_get l i).

Definition get_triplet (start : Z) (l : list Z) : Z :=
  Z.lor (Z.lor (cell l start) (Z.shiftl (cell l (start + 1)) 4)) (Z.shiftl (cell l (start + 2)) 8).
Definition set_triplet (start value : Z) (l : list Z) : list Z :=
  let l := vec_set l start (Z.land value 0x0F) in
  let l := vec_set l (start + 1) (Z.land (Z.shiftr value 4) 0x0F) in
  vec_set l (start + 2) (Z.land (Z.shiftr value 8) 0x0F).

Definition read_triplet_nybbles (start : Z) (c : Huc3Cartridge) : Z := get_triplet start (mcu_ram c).
Definition write_triplet_nybbles (start value : Z) (c : Huc3Cartridge) : Huc3Cartridge :=
  c <| mcu_ram := set_triplet start value (mcu_ram c) |>.

Definition sync_current_time_from_mcu_window (c : Huc3Cartridge) : Huc3Cartridge :=
  on_rtc (fun r => r <| current_minutes_of_day := read_triplet_nybbles 0x10 c mod HUC3_MINUTES_PER_DAY |>
                     <| current_days := read_triplet_nybbles 0x13 c mod HUC3_DAY_COUNTER_MODULUS |>
                     <| current_subminute_seconds := 0 |>) c.

Definition sync_event_time_from_mcu_window (c : Huc3Cartridge) : Huc3Cartridge :=
  on_rtc (fun r => r <| event_minutes_of_day := read_triplet_nybbles 0x58 c mod HUC3_MINUTES_PER_DAY |>
                     <| event_days := read_triplet_nybbles 0x5B c mod HUC3_DAY_COUNTER_MODULUS |>) c.

Definition sync_tracked_rtc_locations (c : Huc3Cartridge) : Huc3Cartridge :=
  let c := write_triplet_nybbles 0x10 (current_minutes_of_day (rtc c)) c in
  let c := write_triplet_nybbles 0x13 (current_days (rtc c)) c in
  let c := write_triplet_nybbles 0x58 (event_minutes_of_day (rtc c)) c in
  write_triplet_nybbles 0x5B (event_days (rtc c)) c.

Definition mask_mcu_nibbles (c : Huc3Cartridge) : Huc3Cartridge :=
  c <| mcu_ram := map (fun value => Z.land value 0x0F) (mcu_ram c) |>.

Definition initialize_runtime_state (c : Huc3Cartridge) : Huc3Cartridge :=
  let c := on_rtc (fun r =>
    r <| current_minutes_of_day := current_minutes_of_day r mod HUC3_MINUTES_PER_DAY |>
      <| current_days := current_days r mod HUC3_DAY_COUNTER_MODULUS |>
      <| current_subminute_seconds := current_subminute_seconds r mod 60 |>
      <| event_minutes_of_day := event_minutes_of_day r mod HUC3_MINUTES_PER_DAY |>
      <| event_days := event_days r mod HUC3_DAY_COUNTER_MODULUS |>) c in
  sync_tracked_rtc_locations (mask_mcu_nibbles c).

Definition write_mcu_nibble (address value : Z) (c : Huc3Cartridge) : Huc3Cartridge :=
  let c := c <| mcu_ram := vec_set (mcu_ram c) address (Z.land value 0x0F) |> in
  if (0x10 <=? address) && (address <=? 0x15) then sync_current_time_from_mcu_window c
  else if (0x58 <=? address) && (address <=? 0x5D) then sync_event_time_from_mcu_window c
  else c.

(** ** Minutes since day zero *)

Definition rtc_cycle_minutes : Z := HUC3_DAY_COUNTER_MODULUS * HUC3_MINUTES_PER_DAY.
Definition current_total_minutes (c : Huc3Cartridge) : Z :=
  current_days (rtc c) * HUC3_MINUTES_PER_DAY + current_minutes_of_day (rtc c).
Definition event_total_minutes (c : Huc3Cartridge) : Z :=
  event_days (rtc c) * HUC3_MINUTES_PER_DAY + event_minutes_of_day (rtc c).

Definition remaining_event_delta_minutes (c : Huc3Cartridge) : outcome Z :=
  match checked_sub (event_total_minutes c + rtc_cycle_minutes) (current_total_minutes c) with
  | Some d => Done (d mod rtc_cycle_minutes)
  | None => Panic "attempt to subtract with overflow"
  end.

Definition set_event_total_minutes (total_minutes : Z) (c : Huc3Cartridge) : Huc3Cartridge :=
  let wrapped := total_minutes mod rtc_cycle_minutes in
  on_rtc (fun r => r <| event_days := as_u16 (wrapped / HUC3_MINUTES_PER_DAY) mod HUC3_DAY_COUNTER_MODULUS |>
                     <| event_minutes_of_day := as_u16 (wrapped mod HUC3_MINUTES_PER_DAY) |>) c.

(** ** Mailbox commands *)

Definition copy_current_time_to_io_window (c : Huc3Cartridge) : Huc3Cartridge :=
  let c := write_triplet_nybbles 0x00 (current_minutes_of_day (rtc c)) c in
  let c := write_triplet_nybbles 0x03 (current_days (rtc c)) c in
  c <| mcu_ram := vec_set (mcu_ram c) 0x06 0 |>.

Definition apply_io_window_current_time_preserving_event_delta (c : Huc3Cartridge) : outcome Huc3Cartridge :=
  remaining_minutes ← remaining_event_delta_minutes c;
  let c := on_rtc (fun r =>
    r <| current_minutes_of_day := read_triplet_nybbles 0x00 c mod HUC3_MINUTES_PER_DAY |>
      <| current_days := read_triplet_nybbles 0x03 c mod HUC3_DAY_COUNTER_MODULUS |>
      <| current_subminute_seconds := 0 |>) c in
  let new_event_total := (current_total_minutes c + remaining_minutes) mod rtc_cycle_minutes in
  Done (sync_tracked_rtc_locations (set_event_total_minutes new_event_total c)).

Definition unsupported (command argument : Z) (c : Huc3Cartridge) : Huc3Cartridge :=
  c <| last_unsupported_command := Some command |> <| last_unsupported_argument := Some argument |>.

Definition respond (nybble : Z) (c : Huc3Cartridge) : Huc3Cartridge :=
  c <| mailbox := (mailbox c) <| last_response_nybble := nybble |> |>.

Definition execute_extended_command (argument : Z) (c : Huc3Cartridge) : outcome Huc3Cartridge :=
  let argument := Z.land argument 0x0F in
  if argument =? 0x00 then Done (copy_current_time_to_io_window c)
  else if argument =? 0x01 then apply_io_window_current_time_preserving_event_delta c
  else if argument =? 0x02 then Done (respond 0x01 c)
  else Done (unsupported 0x06 argument c).

Definition execute_mailbox_command (c : Huc3Cartridge) : outcome Huc3Cartridge :=
  let c := c <| last_unsupported_command := None |> <| last_unsupported_argument := None |> in
  let argument := argument (mailbox c) in
  let address := access_address c in
  let command := Z.land (command (mailbox c)) 0x07 in
  if command =? 0x01 then
    let c := respond (Z.land (cell (mcu_ram c) address) 0x0F) c in
    Done (c <| access_address := wrapping_add8 address 1 |>)
  else if command =? 0x03 then
    let c := write_mcu_nibble address argument c in
    Done (c <| access_address := wrapping_add8 address 1 |>)
  else if command =? 0x04 then
    Done (c <| access_address := Z.lor (Z.land address 0xF0) (Z.land argument 0x0F) |>)
  else if command =? 0x05 then
    Done (c <| access_address := Z.lor (Z.land address 0x0F) (shl8 (Z.land argument 0x0F) 4) |>)
  else if command =? 0x06 then execute_extended_command argument c
  else Done (unsupported command (Z.land argument 0x0F) c).

Definition request_mcu_command_execution (c : Huc3Cartridge) : outcome Huc3Cartridge :=
  let c := c <| mailbox := (mailbox c) <| semaphore_ready := false |> |> in
  c ← execute_mailbox_command c;
  Done (c <| mailbox := (mailbox c) <| semaphore_ready := true |> |>).

(** ** Banking *)

Definition effective_rom_bank (bank_count : Z) (c : Huc3Cartridge) : Z :=
  if bank_count =? 0 then 0 else rom_bank c mod bank_count.
Definition effective_ram_bank_count (c : Huc3Cartridge) : Z := Z.max (vec_len (ram c) / 0x2000) 1.
Definition effective_ram_bank (c : Huc3Cartridge) : Z := as_u8 (ram_bank c mod effective_ram_bank_count c).
Definition effective_ram_offset (address : Z) (c : Huc3Cartridge) : outcome Z :=
  base_offset ← ram_base_offset address;
  Done ((base_offset + effective_ram_bank c * 0x2000) mod Z.max (vec_len (ram c)) 1).

(** ** Accesses *)

Definition describe_external_access (address : Z) (c : Huc3Cartridge) : CartridgeExternalAccessInfo :=
  match select_mode c with
  | RamReadOnly => access_new address (BankedRam (effective_ram_bank c)) Accessible ReadStorage Ignored
  | RamReadWrite => access_new address (BankedRam (effective_ram_bank c)) Accessible ReadStorage WriteStorage
  | RtcCommandArgument =>
      access_new address Huc3CommandMailbox Accessible Cartridge.OpenBus Huc3MailboxCommandArgument
  | RtcCommandResponse => access_new address Huc3ResponseMailbox Accessible Huc3MailboxResponse Ignored
  | RtcSemaphore => access_new address Huc3Semaphore Accessible Huc3SemaphoreReady Huc3SemaphoreControl
  | Ir => access_new address IrRegister Accessible InfraredSensor InfraredTransmitter
  | OpenBus raw => access_new address (Huc3InvalidSelector raw) Reserved Cartridge.OpenBus Ignored
  end.

Definition read_rom (address : Z) (c : Huc3Cartridge) : Z :=
  let bank_count := default 0 (rom_bank_count (rom_size (header c))) in
  let rom_index :=
    if address <? 0x4000 then address
    else effective_rom_bank bank_count c * 0x4000 + (address - 0x4000) in
  byte_or_absent (vec_get (rom c) rom_index).

Definition mapped_rom_window (address : Z) (c : Huc3Cartridge) : option CartridgeMappedRomWindow :=
  if 0x8000 <=? address then None
  else
    let bank := if address <? 0x4000 then 0
                else effective_rom_bank (default 0 (rom_bank_count (rom_size (header c)))) c in
    let bank_offset := if address <? 0x4000 then address else address - 0x4000 in
    Some (rom_window bank 0x4000 bank_offset).

Definition write_rom (address value : Z) (c : Huc3Cartridge) : Huc3Cartridge :=
  if (0x0000 <=? address) && (address <=? 0x1FFF) then c <| select_mode := select_from_value value |>
  else if (0x2000 <=? address) && (address <=? 0x3FFF) then c <| rom_bank := Z.land value 0x7F |>
  else if (0x4000 <=? address) && (address <=? 0x5FFF) then c <| ram_bank := Z.land value 0x03 |>
  else if (0x6000 <=? address) && (address <=? 0x7FFF) then c <| last_control_write := Some value |>
  else c.

Definition read_ram (address : Z) (c : Huc3Cartridge) : outcome Z :=
  match select_mode c with
  | RamReadOnly | RamReadWrite =>
      offset ← effective_ram_offset address c; Done (byte_or_absent (vec_get (ram c) offset))
  | RtcCommandArgument => Done 0xFF
  | RtcCommandResponse =>
      Done (Z.lor (Z.lor 0x80 (shl8 (Z.land (command (mailbox c)) 0x07) 4))
                  (Z.land (last_response_nybble (mailbox c)) 0x0F))
  | RtcSemaphore => Done (Z.lor 0x80 (u8_from_bool (semaphore_ready (mailbox c))))
  | Ir => Done (Z.lor 0x80 (u8_from_bool (ir_light_detected c)))
  | OpenBus _ => Done 0xFF
  end.

Definition write_ram (address value : Z) (c : Huc3Cartridge) : outcome Huc3Cartridge :=
  match select_mode c with
  | RamReadOnly => Done c
  | RamReadWrite =>
      offset ← effective_ram_offset address c; Done (c <| ram := vec_set (ram c) offset value |>)
  | RtcCommandArgument =>
      let c := c <| mailbox := (mailbox c) <| command := Z.land (shr8 value 4) 0x07 |>
                                           <| argument := Z.land value 0x0F |> |> in
      Done (c <| last_unsupported_command := None |> <| last_unsupported_argument := None |>)
  | RtcCommandResponse => Done c
  | RtcSemaphore => if Z.land value 0x01 =? 0 then request_mcu_command_execution c else Done c
  | Ir => Done (c <| ir_emitter_on := negb (Z.land value 0x01 =? 0) |>)
  | OpenBus _ => Done c
  end.

Definition advance_rtc_seconds (elapsed_seconds : Z) (c : Huc3Cartridge) : outcome Huc3Cartridge :=
  persisted ← advance_huc3_rtc_fields elapsed_seconds (huc3_rtc_to_persistent (rtc c));
  Done (sync_tracked_rtc_locations (c <| rtc := huc3_rtc_from_persistent persisted |>)).

(** ** Persistence *)

Definition persistence_metadata (c : Huc3Cartridge) : CartridgePersistenceMetadata :=
  mkMetadata (has_battery c) true (PersistentRamAndRtc (Linear (vec_len (ram c)))).

Definition saved_state (c : Huc3Cartridge) : Huc3Persistent := {|
  huc3_ram := ram c;
  huc3_mcu_ram := mcu_ram c;
  huc3_rtc := huc3_rtc_to_persistent (rtc c);
  huc3_rom_bank := rom_bank c;
  huc3_ram_bank := ram_bank c;
  huc3_select_mode := raw_value (select_mode c);
  huc3_access_address := access_address c;
  huc3_mailbox_command := command (mailbox c);
  huc3_mailbox_argument := argument (mailbox c);
  huc3_last_response_nybble := last_response_nybble (mailbox c);
  huc3_semaphore_ready := semaphore_ready (mailbox c);
  huc3_ir_emitter_on := ir_emitter_on c;
  huc3_ir_light_detected := ir_light_detected c;
  huc3_last_control_write := last_control_write c;
  huc3_last_unsupported_command := last_unsupported_command c;
  huc3_last_unsupported_argument := last_unsupported_argument c
|}.

Definition persistent_state (c : Huc3Cartridge) : PersistentCartState :=
  if negb (has_battery c) then SavedNone else SavedHuc3 (saved_state c).

Fixpoint first_oversized_nibble (index : Z) (l : list Z) : option (Z * Z) :=
  match l with
  | [] => None
  | value :: rest => if 0x0F <? value then Some (index, value) else first_oversized_nibble (index + 1) rest
  end.

Definition take_up (h : Huc3Persistent) (c : Huc3Cartridge) : Huc3Cartridge :=
  initialize_runtime_state
    (c <| ram := huc3_ram h |> <| mcu_ram := huc3_mcu_ram h |>
       <| rtc := huc3_rtc_from_persistent (huc3_rtc h) |>
       <| rom_bank := Z.land (huc3_rom_bank h) 0x7F |> <| ram_bank := Z.land (huc3_ram_bank h) 0x03 |>
       <| select_mode := select_from_value (huc3_select_mode h) |>
       <| access_address := huc3_access_address h |>
       <| mailbox := mkMailbox (Z.land (huc3_mailbox_command h) 0x07) (Z.land (huc3_mailbox_argument h) 0x0F)
                       (Z.land (huc3_last_response_nybble h) 0x0F) (huc3_semaphore_ready h) |>
       <| ir_emitter_on := huc3_ir_emitter_on h |> <| ir_light_detected := huc3_ir_light_detected h |>
       <| last_control_write := huc3_last_control_write h |>
       <| last_unsupported_command := (fun value => Z.land value 0x07) <$> huc3_last_unsupported_command h |>
       <| last_unsupported_argument := (fun value => Z.land value 0x0F) <$> huc3_last_unsupported_argument h |>).

Definition restore_persistent_state (state : PersistentCartState) (c : Huc3Cartridge)
    : Huc3Cartridge * option CartridgePersistentStateError :=
  match has_battery c, state with
  | false, SavedNone => (c, None)
  | true, SavedHuc3 h =>
      if negb (vec_len (ram c) =? vec_len (huc3_ram h))
      then (c, Some (RamLengthMismatch (vec_len (ram c)) (vec_len (huc3_ram h))))
      else match first_oversized_nibble 0 (huc3_mcu_ram h) with
           | Some (index, value) => (c, Some (InvalidHuc3NibbleValue index value))
           | None => (take_up h c, None)
           end
  | true, other => (c, Some (KindMismatch "Huc3" (kind_name other)))
  | false, other => (c, Some (KindMismatch "None" (kind_name other)))
  end.

(** ** Loading *)

Definition validate_huc3 (header : CartridgeHeader) (actual_rom_size : Z) : V Z :=
  declared_rom_bytes ← declared_exact_size header actual_rom_size;
  reject_if (HUC3_SUPPORTED_ROM_BYTES_MAX <? declared_rom_bytes)
    "{} exceeds the current HuC-3 ROM limit of {} bytes with {} bytes";;
  match ram_decoded_bytes (ram_size header) with
  | None => reject "{} declared an unsupported RAM size code {:#04X}"
  | Some ram_len =>
      reject_if ((ram_len =? 0) || (HUC3_SUPPORTED_RAM_BYTES_MAX <? ram_len))
        "{} expects cartridge RAM between 1 and {} bytes, but the header resolved to {} bytes";;
      mret ram_len
  end.

(** The [Huc3] arm of [CartridgeSlot::load]. *)
Definition load_huc3 (header : CartridgeHeader) (rom_bytes : list Z) : V Huc3Cartridge :=
  ram_len ← validate_huc3 header (vec_len rom_bytes);
  classification ← v_classification;
  mret (initialize_runtime_state {|
    rom := rom_bytes;
    ram := vec_zeroed ram_len;
    has_battery := true;
    header := header;
    classification := classification;
    select_mode := RamReadOnly;
    rom_bank := 0;
    ram_bank := 0;
    access_address := 0;
    mailbox := mailbox_default;
    mcu_ram := vec_zeroed HUC3_MCU_RAM_NIBBLE_COUNT;
    rtc := huc3_rtc_default;
    ir_emitter_on := false;
    ir_light_detected := false;
    last_control_write := None;
    last_unsupported_command := None;
    last_unsupported_argument := None
  |}).

(** A saved state is taken up with the tracked cells showing its clock. *)
Definition tracked (r : Huc3RtcPersistentState) (l : list Z) : list Z :=
  set_triplet 0x5B (Cartridge.event_days r) (set_triplet 0x58 (Cartridge.event_minutes_of_day r)
    (set_triplet 0x13 (Cartridge.current_days r) (set_triplet 0x10 (Cartridge.current_minutes_of_day r) l))).
Definition taken_up (s : PersistentCartState) : PersistentCartState :=
  match s with
  | SavedHuc3 (mkHuc3Persistent r l k b1 b2 m a x1 x2 x3 s1 s2 s3 o1 o2 o3) =>
      SavedHuc3 (mkHuc3Persistent r (tracked k l) k b1 b2 m a x1 x2 x3 s1 s2 s3 o1 o2 o3)
  | s => s
  end.

Definition board (c : Huc3Cartridge) : Board :=
  mkBoard BoardHuc3 (header c) (classification c) (rom c) (Some (vec_len (ram c))) (has_battery c) true true 0x8000.

#[export] Instance huc3_mapper : Mapper Huc3Cartridge := {|
  m_board := board;
  m_ram := fun c => Some (ram c);
  m_settle := fun _ c => c;
  m_taken_up := taken_up;
  m_read_rom := fun a c => Done (read_rom a c);
  m_mapped_rom_window := mapped_rom_window;
  m_write_rom := fun a v c => Done (write_rom a v c);
  m_read_ram := read_ram;
  m_read_ram_timed := fun a _ c => v ← read_ram a c; Done (v, c);
  m_write_ram := write_ram;
  m_write_ram_timed := fun a v _ c => write_ram a v c;
  m_describe_external_access := describe_external_access;
  m_advance_rtc_seconds := advance_rtc_seconds;
  m_advance_mbc3_rtc_clock_ticks := fun _ c => Done c;
  m_persistence_metadata := persistence_metadata;
  m_persistent_state := persistent_state;
  m_restore_persistent_state := restore_persistent_state
|}.

(** ** Cells and triplets *)

Definition nibbles (l : list Z) : Prop := Forall (fun v => 0 <= v < 16) l.

(** Settles the comparisons of cell indices. *)
Ltac decide_eqb :=
  repeat match goal with |- context [?a =? ?b] => destruct (Z.eqb_spec a b); [try lia | try lia] end.

Lemma cell_set l i j v :
  0 <= i < vec_len l -> 0 <= j -> cell (vec_set l i v) j = if j =? i then v else cell l j.
Proof.
  intros Hi Hj. unfold cell, vec_get, vec_set, vec_len in *. destruct (Z.eqb_spec j i) as [->|].
  - by rewrite list_lookup_insert_eq by lia.
  - by rewrite list_lookup_insert_ne by lia.
Qed.

Lemma cell_range l i : nibbles l -> 0 <= cell l i < 16.
Proof.
  intros Hl. unfold cell, vec_get. destruct (l !! Z.to_nat i) as [v|] eqn:E; simpl; [|lia].
  by apply (Forall_lookup_1 _ _ _ _ Hl E).
Qed.

Lemma nibble_land v : 0 <= Z.land v 0x0F < 16.
Proof. change 0x0F with (Z.ones 4). rewrite land_mask by lia. apply Z.mod_pos_bound. lia. Qed.

Lemma nibbles_set l i v : nibbles l -> 0 <= v < 16 -> nibbles (vec_set l i v).
Proof. intros Hl Hv. by apply Forall_insert. Qed.

Lemma set_triplet_shape start v l :
  nibbles l -> nibbles (set_triplet start v l) /\ vec_len (set_triplet start v l) = vec_len l.
Proof.
  intros Hl. unfold set_triplet. rewrite !vec_len_set.
  split; [|done]. repeat apply nibbles_set; auto using nibble_land.
Qed.

Lemma get_triplet_sum start l :
  nibbles l -> get_triplet start l = cell l start + cell l (start + 1) * 16 + cell l (start + 2) * 256.
Proof.
  intros Hl. unfold get_triplet.
  pose proof (cell_range l start Hl). pose proof (cell_range l (start + 1) Hl). pose proof (cell_range l (start + 2) Hl).
  rewrite (lor_shiftl_add 4) by lia. rewrite lor_shiftl_add by lia. lia.
Qed.

Lemma get_triplet_range start l : nibbles l -> 0 <= get_triplet start l < 4096.
Proof.
  intros Hl. rewrite get_triplet_sum by done.
  pose proof (cell_range l start Hl). pose proof (cell_range l (start + 1) Hl). pose proof (cell_range l (start + 2) Hl).
  lia.
Qed.

(** Reading back a triplet, and a triplet elsewhere. *)
Lemma get_set_triplet start start' v l :
  nibbles l -> 0 <= start -> start + 2 < vec_len l -> 0 <= start' -> 0 <= v < 4096 ->
  start' = start \/ 3 <= Z.abs (start' - start) ->
  get_triplet start' (set_triplet start v l) = if start' =? start then v else get_triplet start' l.
Proof.
  intros Hl Hs Hlen Hs' Hv Hd. rewrite !get_triplet_sum by (try done; by apply set_triplet_shape).
  unfold set_triplet. rewrite !cell_set by (rewrite ?vec_len_set; lia).
  destruct (Z.eqb_spec start' start) as [->|].
  - decide_eqb.
    change 0x0F with (Z.ones 4). rewrite !land_mask, !Z.shiftr_div_pow2 by lia.
    change (2 ^ 4) with 16. change (2 ^ 8) with 256. divmod_lia.
  - by decide_eqb.
Qed.

(** Other cells survive a triplet. *)
Lemma get_triplet_set start i v l :
  nibbles l -> 0 <= i < vec_len l -> 0 <= v < 16 -> 0 <= start -> i < start \/ start + 2 < i ->
  get_triplet start (vec_set l i v) = get_triplet start l.
Proof.
  intros Hl Hi Hv Hs Hd. rewrite !get_triplet_sum by auto using nibbles_set.
  rewrite !cell_set by lia. by decide_eqb.
Qed.

(** ** The microcontroller's invariant

    Its cells are half-bytes, its clock is canonical, and the tracked cells
    show the clock. *)

Record clock_ok (r : Huc3RtcState) : Prop := {
  clock_minutes : 0 <= current_minutes_of_day r < 1440;
  clock_days : 0 <= current_days r < 4096;
  clock_seconds : 0 <= current_subminute_seconds r < 60;
  clock_event_minutes : 0 <= event_minutes_of_day r < 1440;
  clock_event_days : 0 <= event_days r < 4096
}.

Definition shows (l : list Z) (r : Huc3RtcState) : Prop :=
  get_triplet 0x10 l mod HUC3_MINUTES_PER_DAY = current_minutes_of_day r /\
  get_triplet 0x13 l mod HUC3_DAY_COUNTER_MODULUS = current_days r /\
  get_triplet 0x58 l mod HUC3_MINUTES_PER_DAY = event_minutes_of_day r /\
  get_triplet 0x5B l mod HUC3_DAY_COUNTER_MODULUS = event_days r.

Record mcu_ok (l : list Z) (r : Huc3RtcState) : Prop := {
  mcu_len : vec_len l = 256;
  mcu_nibbles : nibbles l;
  mcu_clock : clock_ok r;
  mcu_shows : shows l r
}.

Definition sync_cells (r : Huc3RtcState) (l : list Z) : list Z :=
  set_triplet 0x5B (event_days r) (set_triplet 0x58 (event_minutes_of_day r)
    (set_triplet 0x13 (current_days r) (set_triplet 0x10 (current_minutes_of_day r) l))).

Lemma sync_tracked_eq c :
  sync_tracked_rtc_locations c = c <| mcu_ram := sync_cells (rtc c) (mcu_ram c) |>.
Proof. by destruct c. Qed.

Lemma set_triplet_256 start v l :
  nibbles l /\ vec_len l = 256 -> nibbles (set_triplet start v l) /\ vec_len (set_triplet start v l) = 256.
Proof. intros [Hl Hlen]. by destruct (set_triplet_shape start v l Hl) as [? ->]. Qed.

Lemma sync_cells_shape r l :
  nibbles l /\ vec_len l = 256 -> nibbles (sync_cells r l) /\ vec_len (sync_cells r l) = 256.
Proof. intros Hl. by repeat apply set_triplet_256. Qed.

Lemma sync_cells_ok r l : nibbles l /\ vec_len l = 256 -> clock_ok r -> mcu_ok (sync_cells r l) r.
Proof.
  intros Hl Hr. destruct (sync_cells_shape r l Hl) as [Hn' Hl']. constructor; try done.
  destruct Hr. unfold shows, sync_cells, HUC3_MINUTES_PER_DAY, HUC3_DAY_COUNTER_MODULUS.
  destruct (set_triplet_256 0x10 (current_minutes_of_day r) _ Hl) as [H1 L1].
  destruct (set_triplet_256 0x13 (current_days r) _ (conj H1 L1)) as [H2 L2].
  destruct (set_triplet_256 0x58 (event_minutes_of_day r) _ (conj H2 L2)) as [H3 L3]. destruct Hl as [Hn Hl].
  rewrite !get_set_triplet by (done || lia). simpl. rewrite !Z.mod_small by lia. done.
Qed.

(** Cells below the tracked ones survive. *)
Lemma sync_cells_elsewhere r l start :
  nibbles l /\ vec_len l = 256 -> clock_ok r -> 0 <= start < 0x0D -> get_triplet start (sync_cells r l) = get_triplet start l.
Proof.
  intros Hl [] Hs. unfold sync_cells.
  destruct (set_triplet_256 0x10 (current_minutes_of_day r) _ Hl) as [H1 L1].
  destruct (set_triplet_256 0x13 (current_days r) _ (conj H1 L1)) as [H2 L2].
  destruct (set_triplet_256 0x58 (event_minutes_of_day r) _ (conj H2 L2)) as [H3 L3]. destruct Hl as [Hn Hl].
  rewrite !get_set_triplet by (done || lia). by decide_eqb.
Qed.

(** A write to a cell keeps the clock and the cells in step. *)
Lemma write_mcu_nibble_ok a v c :
  u8 a -> mcu_ok (mcu_ram c) (rtc c) ->
  mcu_ok (mcu_ram (write_mcu_nibble a v c)) (rtc (write_mcu_nibble a v c)).
Proof.
  intros Ha [Hlen Hn Hr Hs]. pose proof (nibble_land v) as Hv. unfold u8 in Ha.
  assert (Hn' : nibbles (vec_set (mcu_ram c) a (Z.land v 0x0F))) by by apply nibbles_set.
  assert (Hlen' : vec_len (vec_set (mcu_ram c) a (Z.land v 0x0F)) = 256) by (rewrite vec_len_set; lia).
  pose proof (fun s => get_triplet_set s a (Z.land v 0x0F) (mcu_ram c) Hn ltac:(lia) Hv) as Hother.
  destruct Hr, Hs as (S1 & S2 & S3 & S4). unfold write_mcu_nibble, shows in *.
  destruct c as [? ? ? ? ? ? ? ? ? ? l r ? ? ? ? ?]; destruct r; simpl in *.
  unfold HUC3_MINUTES_PER_DAY, HUC3_DAY_COUNTER_MODULUS in *.
  repeat case_match; simpl; prune; constructor; simpl; try done; constructor; simpl;
    unfold HUC3_MINUTES_PER_DAY, HUC3_DAY_COUNTER_MODULUS in *;
    rewrite ?Hother by lia; try done; try (apply Z.mod_pos_bound; lia); try lia; split_and!; rewrite ?Hother by lia; done.
Qed.

(** ** Invariant *)

Definition mailbox_ok (b : Huc3Mailbox) : Prop :=
  0 <= command b < 8 /\ 0 <= argument b < 16 /\ 0 <= last_response_nybble b < 16.
Definition below (n : Z) (o : option Z) : Prop := match o with Some v => 0 <= v < n | None => True end.

Record ok (c : Huc3Cartridge) : Prop := {
  ok_rom : exists n, rom_bank_count (rom_size (header c)) = Some n /\ 1 <= n /\
    vec_len (rom c) = ROM_BANK_BYTES * n;
  ok_ram : bytes (ram c) /\ 0 < vec_len (ram c) <= 0x8000;
  ok_rom_bank : 0 <= rom_bank c < 128;
  ok_ram_bank : 0 <= ram_bank c < 4;
  ok_select : select_from_value (raw_value (select_mode c)) = select_mode c;
  ok_access_address : u8 (access_address c);
  ok_mailbox : mailbox_ok (mailbox c);
  ok_mcu : mcu_ok (mcu_ram c) (rtc c);
  ok_command : below 8 (last_unsupported_command c);
  ok_argument : below 16 (last_unsupported_argument c)
}.

Lemma land_07_range v : 0 <= Z.land v 0x07 < 8.
Proof. rewrite land_07. apply Z.mod_pos_bound. lia. Qed.
#[local] Hint Resolve land_07_range nibble_land : core.

(** The selectors a write can choose, by their raw value. *)
Definition selects_raw (r : Z) : bool := raw_value (select_from_value r) =? r.

Lemma selects_all_raw : forallb selects_raw (byte_range 16) = true.
Proof. reflexivity. Qed.

Lemma select_from_raw_value v : select_from_value (raw_value (select_from_value v)) = select_from_value v.
Proof.
  pose proof (nibble_land v) as Hr.
  assert (Hl : Z.land (Z.land v 0x0F) 0x0F = Z.land v 0x0F) by by rewrite <- Z.land_assoc.
  assert (E : select_from_value v = select_from_value (Z.land v 0x0F)) by (unfold select_from_value; by rewrite Hl).
  rewrite E. f_equal. by apply Z.eqb_eq, (forall_below 16 _ selects_all_raw).
Qed.

(** Commands change the mailbox, the cells and the clock; the rest stays. *)
Definition same_board (c c' : Huc3Cartridge) : Prop :=
  board c' = board c /\ header c' = header c /\ ram c' = ram c /\ rom_bank c' = rom_bank c /\
  ram_bank c' = ram_bank c /\ select_mode c' = select_mode c.

Lemma ok_rebuild c c' :
  ok c -> same_board c c' -> mailbox_ok (mailbox c') -> u8 (access_address c') -> mcu_ok (mcu_ram c') (rtc c') ->
  below 8 (last_unsupported_command c') -> below 16 (last_unsupported_argument c') -> ok c'.
Proof.
  intros [] (Hb & Hh & Hr & Hrb & Hab & Hs) ? ? ? ? ?. unfold board in Hb.
  constructor; rewrite ?Hh, ?Hr, ?Hrb, ?Hab, ?Hs; try done. by replace (rom c') with (rom c) by congruence.
Qed.

Lemma clock_totals r : clock_ok r ->
  0 <= current_days r * HUC3_MINUTES_PER_DAY + current_minutes_of_day r < rtc_cycle_minutes /\
  0 <= event_days r * HUC3_MINUTES_PER_DAY + event_minutes_of_day r < rtc_cycle_minutes.
Proof. intros []. unfold rtc_cycle_minutes, HUC3_MINUTES_PER_DAY, HUC3_DAY_COUNTER_MODULUS. lia. Qed.

Lemma remaining_ok c : clock_ok (rtc c) ->
  remaining_event_delta_minutes c = Done ((event_total_minutes c - current_total_minutes c) mod rtc_cycle_minutes).
Proof.
  intros Hr. destruct (clock_totals _ Hr) as [Hc He]. unfold remaining_event_delta_minutes, checked_sub.
  unfold event_total_minutes, current_total_minutes in *. destruct (Z.ltb_spec (event_days (rtc c) * HUC3_MINUTES_PER_DAY + event_minutes_of_day (rtc c) + rtc_cycle_minutes) (current_days (rtc c) * HUC3_MINUTES_PER_DAY + current_minutes_of_day (rtc c))); [lia|].
  f_equal. unfold rtc_cycle_minutes, HUC3_DAY_COUNTER_MODULUS, HUC3_MINUTES_PER_DAY in *. divmod_lia.
Qed.

(** The total of a clock determines its days and minutes. *)
Lemma event_total_set n c :
  event_total_minutes (set_event_total_minutes n c) = n mod rtc_cycle_minutes /\
  current_total_minutes (set_event_total_minutes n c) = current_total_minutes c /\
  0 <= event_days (rtc (set_event_total_minutes n c)) < 4096 /\
  0 <= event_minutes_of_day (rtc (set_event_total_minutes n c)) < 1440.
Proof.
  destruct c as [? ? ? ? ? ? ? ? ? ? ? [] ? ? ? ? ?].
  unfold event_total_minutes, current_total_minutes, set_event_total_minutes, as_u16; simpl.
  unfold rtc_cycle_minutes, HUC3_DAY_COUNTER_MODULUS, HUC3_MINUTES_PER_DAY in *. divmod_lia.
Qed.

(** The clock-setting command in closed form. *)
Lemma apply_io_window_ok c : mcu_ok (mcu_ram c) (rtc c) ->
  exists c', apply_io_window_current_time_preserving_event_delta c = Done c' /\
    mcu_ok (mcu_ram c') (rtc c') /\
    current_minutes_of_day (rtc c') = read_triplet_nybbles 0x00 c mod HUC3_MINUTES_PER_DAY /\
    current_days (rtc c') = read_triplet_nybbles 0x03 c /\
    current_subminute_seconds (rtc c') = 0 /\
    (event_total_minutes c' - current_total_minutes c') mod rtc_cycle_minutes =
      (event_total_minutes c - current_total_minutes c) mod rtc_cycle_minutes /\
    c' = c <| mcu_ram := mcu_ram c' |> <| rtc := rtc c' |>.
Proof.
  intros [Hlen Hn Hr _]. unfold apply_io_window_current_time_preserving_event_delta. rewrite remaining_ok by done.
  set (delta := (event_total_minutes c - current_total_minutes c) mod rtc_cycle_minutes). simpl mbind.
  eexists. split; [reflexivity|]. rewrite sync_tracked_eq.
  pose proof (get_triplet_range 0x00 (mcu_ram c) Hn) as T0. pose proof (get_triplet_range 0x03 (mcu_ram c) Hn) as T3.
  set (c1 := on_rtc _ c). set (total := (current_total_minutes c1 + delta) mod rtc_cycle_minutes).
  destruct (event_total_set total c1) as (He & Hc & Hd & Hm).
  assert (Hc1 : mcu_ram (set_event_total_minutes total c1) = mcu_ram c) by (subst c1; by destruct c).
  assert (Hclock : clock_ok (rtc (set_event_total_minutes total c1))).
  { constructor; try done; subst c1; destruct c as [? ? ? ? ? ? ? ? ? ? ? [] ? ? ? ? ?]; simpl in *;
      try (apply Z.mod_pos_bound; unfold HUC3_MINUTES_PER_DAY, HUC3_DAY_COUNTER_MODULUS; lia); lia. }
  assert (Hrest : set_event_total_minutes total c1 = c <| rtc := rtc (set_event_total_minutes total c1) |> /\
    current_minutes_of_day (rtc (set_event_total_minutes total c1)) = read_triplet_nybbles 0x00 c mod HUC3_MINUTES_PER_DAY /\
    current_days (rtc (set_event_total_minutes total c1)) = read_triplet_nybbles 0x03 c mod HUC3_DAY_COUNTER_MODULUS /\
    current_subminute_seconds (rtc (set_event_total_minutes total c1)) = 0).
  { subst c1; by destruct c as [? ? ? ? ? ? ? ? ? ? ? [] ? ? ? ? ?]. }
  assert (Hdelta : (event_total_minutes (set_event_total_minutes total c1) -
                    current_total_minutes (set_event_total_minutes total c1)) mod rtc_cycle_minutes = delta).
  { rewrite He, Hc. subst total delta. clear. unfold rtc_cycle_minutes, HUC3_DAY_COUNTER_MODULUS, HUC3_MINUTES_PER_DAY.
    divmod_lia. }
  revert Hc1 Hclock Hrest Hdelta. clear Hd Hm He Hc. generalize (set_event_total_minutes total c1). clear total c1.
  intros c2 Hc1 Hclock Hrest Hdelta.
  destruct Hrest as (Hrest & R1 & R2 & R3). rewrite Hc1 in *.
  assert (Hmcu : mcu_ok (sync_cells (rtc c2) (mcu_ram c)) (rtc c2)) by (by apply sync_cells_ok).
  assert (Hdays : current_days (rtc c2) = read_triplet_nybbles 0x03 c).
  { rewrite R2. unfold read_triplet_nybbles. apply Z.mod_small. unfold HUC3_DAY_COUNTER_MODULUS. lia. }
  split_and!; try done; [by destruct c2..|]. rewrite Hrest. by destruct c2, c.
Qed.

Lemma wrapping_add8_u8 a b : u8 (wrapping_add8 a b).
Proof. unfold u8, wrapping_add8. apply Z.mod_pos_bound. lia. Qed.

Lemma write_mcu_nibble_frame a v c :
  same_board c (write_mcu_nibble a v c) /\ mailbox (write_mcu_nibble a v c) = mailbox c /\
  last_unsupported_command (write_mcu_nibble a v c) = last_unsupported_command c /\
  last_unsupported_argument (write_mcu_nibble a v c) = last_unsupported_argument c.
Proof. destruct c. unfold write_mcu_nibble. by repeat case_match. Qed.

Lemma copy_current_time_ok c : mcu_ok (mcu_ram c) (rtc c) ->
  mcu_ok (mcu_ram (copy_current_time_to_io_window c)) (rtc (copy_current_time_to_io_window c)).
Proof.
  intros [Hlen Hn Hr (S1 & S2 & S3 & S4)]. destruct c as [? ? ? ? ? ? ? ? ? ? l r ? ? ? ? ?]. simpl in *. destruct Hr.
  destruct (set_triplet_256 0x00 (current_minutes_of_day r) l (conj Hn Hlen)) as [H1 L1].
  destruct (set_triplet_256 0x03 (current_days r) _ (conj H1 L1)) as [H2 L2].
  constructor; [by rewrite vec_len_set | by apply nibbles_set | done |].
  unfold shows. rewrite !get_triplet_set, !get_set_triplet by (done || lia). done.
Qed.

Lemma respond_ok n c : ok c -> 0 <= n < 16 -> ok (respond n c) /\ same_board c (respond n c).
Proof.
  destruct c as [? ? ? ? ? ? ? ? ? [] ? ? ? ? ? ? ?]. intros [? ? ? ? ? ? (? & ? & ?) ? ? ?] Hn.
  split; [by constructor | done].
Qed.

Lemma unsupported_ok k a c : ok c -> 0 <= k < 8 -> 0 <= a < 16 ->
  ok (unsupported k a c) /\ same_board c (unsupported k a c).
Proof. destruct c. intros [] ? ?. split; [by constructor | done]. Qed.

Lemma set_access_address_ok a c : ok c -> u8 a ->
  ok (c <| access_address := a |>) /\ same_board c (c <| access_address := a |>).
Proof. destruct c. intros [] ?. split; [by constructor | done]. Qed.

Lemma write_mcu_nibble_step a v c : ok c -> u8 a ->
  ok (write_mcu_nibble a v c) /\ same_board c (write_mcu_nibble a v c).
Proof.
  intros Hok Ha. destruct (write_mcu_nibble_frame a v c) as (Hs & Hm & Hk & Harg). split; [|done].
  pose proof (write_mcu_nibble_ok a v c Ha (ok_mcu c Hok)).
  assert (access_address (write_mcu_nibble a v c) = access_address c)
    by (destruct c; unfold write_mcu_nibble; by repeat case_match).
  destruct Hok. apply (ok_rebuild c); try done; congruence.
Qed.

Lemma same_board_trans c1 c2 c3 : same_board c1 c2 -> same_board c2 c3 -> same_board c1 c3.
Proof. unfold same_board. intros (-> & -> & -> & -> & -> & ->) (-> & -> & -> & -> & -> & ->). done. Qed.

(** A command returns a well-formed state of the same board. *)
Definition commands (c : Huc3Cartridge) (o : outcome Huc3Cartridge) : Prop :=
  exists c', o = Done c' /\ ok c' /\ same_board c c'.

Lemma commands_done c c' : ok c' /\ same_board c c' -> commands c (Done c').
Proof. intros []. by exists c'. Qed.

Lemma commands_then c c1 o : same_board c c1 -> commands c1 o -> commands c o.
Proof. intros Hs (c' & -> & Hok & Hs'). exists c'. split_and!; [done..|]. by eapply same_board_trans. Qed.

Lemma execute_extended_command_ok a c : ok c -> commands c (execute_extended_command a c).
Proof.
  intros Hok. unfold execute_extended_command. pose proof (nibble_land a).
  repeat case_match; try (apply commands_done).
  - split; [|by destruct c]. pose proof (copy_current_time_ok c (ok_mcu c Hok)).
    apply (ok_rebuild c); try done; destruct Hok; by destruct c.
  - destruct (apply_io_window_ok c (ok_mcu c Hok)) as (c' & Hc' & Hm & _ & _ & _ & _ & E). exists c'.
    assert (Hs : same_board c c') by (rewrite E; by destruct c).
    split_and!; [done| |done]. apply (ok_rebuild c); try done; rewrite E; destruct Hok; by destruct c.
  - apply respond_ok; [done | lia].
  - apply unsupported_ok; [done | lia | done].
Qed.

Lemma execute_mailbox_command_ok c : ok c -> commands c (execute_mailbox_command c).
Proof.
  intros Hok. unfold execute_mailbox_command.
  set (c1 := c <| last_unsupported_command := None |> <| last_unsupported_argument := None |>).
  assert (Hok1 : ok c1 /\ same_board c c1) by (subst c1; destruct c; split; [by destruct Hok; constructor | done]).
  clearbody c1. destruct Hok1 as [Hok1 Hs1]. apply (commands_then _ _ _ Hs1). clear c Hok Hs1.
  pose proof (ok_access_address c1 Hok1) as Ha. pose proof (nibble_land (argument (mailbox c1))) as Hn.
  pose proof (nibble_land (cell (mcu_ram c1) (access_address c1))) as Hc.
  destruct (respond_ok _ c1 Hok1 Hc) as [Hr Hsr].
  destruct (write_mcu_nibble_step (access_address c1) (argument (mailbox c1)) c1 Hok1 Ha) as [Hw Hsw].
  repeat case_match.
  - apply (commands_then _ _ _ Hsr), commands_done, set_access_address_ok; [done | apply wrapping_add8_u8].
  - apply (commands_then _ _ _ Hsw), commands_done, set_access_address_ok; [done | apply wrapping_add8_u8].
  - apply commands_done, set_access_address_ok; [done|]. unfold u8 in *.
    apply (range_lor 8); [lia | apply (range_land 8); lia | lia].
  - apply commands_done, set_access_address_ok; [done|]. unfold u8, shl8 in *.
    apply (range_lor 8); [lia | apply (range_land 8); lia | apply Z.mod_pos_bound; lia].
  - by apply execute_extended_command_ok.
  - apply commands_done, unsupported_ok; auto.
Qed.

(** The semaphore comes back up after the command. *)
Lemma request_mcu_command_ok c : ok c ->
  commands c (request_mcu_command_execution c).
Proof.
  intros Hok. unfold request_mcu_command_execution. set (c0 := c <| mailbox := _ |>).
  assert (Hsem : forall b x, ok x -> ok (x <| mailbox := (mailbox x) <| semaphore_ready := b |> |>) /\
                                  same_board x (x <| mailbox := (mailbox x) <| semaphore_ready := b |> |>)).
  { intros b [? ? ? ? ? ? ? ? ? [] ? ? ? ? ? ? ?] []. split; [by constructor | done]. }
  destruct (Hsem false c Hok) as [Hok0 Hs0]. fold c0 in Hok0, Hs0.
  destruct (execute_mailbox_command_ok c0 Hok0) as (c1 & -> & Hok1 & Hs1). simpl mbind.
  apply (commands_then _ c1); [by eapply same_board_trans|]. by apply commands_done, Hsem.
Qed.

(** ** The external area *)

Definition is_read_write (c : Huc3Cartridge) : bool :=
  match select_mode c with RamReadWrite => true | _ => false end.

Definition ram_cell (a : Z) (c : Huc3Cartridge) : Z :=
  (a - 0xA000 + effective_ram_bank c * 0x2000) mod Z.max (vec_len (ram c)) 1.

Lemma huc3_effective_ram_offset_ok a c : external_area a -> effective_ram_offset a c = Done (ram_cell a c).
Proof. intros Ha. unfold effective_ram_offset. by rewrite ram_base_offset_ok. Qed.

Lemma huc3_ram_cell_range a c r : ok c -> Some (ram c) = Some r -> external_area a -> 0 <= ram_cell a c < vec_len r.
Proof.
  intros Hok [= <-] _. destruct (ok_ram c Hok) as [_ Hlen]. unfold ram_cell.
  rewrite Z.max_l by lia. apply Z.mod_pos_bound. lia.
Qed.

Lemma huc3_set_ram_ok c r l : ok c -> Some (ram c) = Some r -> vec_len l = vec_len r -> bytes l ->
  ok (c <| ram := l |>) /\ board (c <| ram := l |>) = board c /\
  Some (ram (c <| ram := l |>)) = Some l /\
  is_read_write (c <| ram := l |>) = is_read_write c /\
  (forall a, ram_cell a (c <| ram := l |>) = ram_cell a c).
Proof.
  destruct c. simpl. intros [? [? ?] ? ? ? ? ? ? ? ?] [= <-] Hlen Hb. simpl in *. split_and!; try done.
  - constructor; try done. simpl. by rewrite Hlen.
  - unfold board. simpl. by rewrite Hlen.
  - intros a. unfold ram_cell, effective_ram_bank, effective_ram_bank_count. simpl. by rewrite Hlen.
Qed.

(** Outside read-write RAM the area reads RAM or a port and never stores. *)
Definition port_read (a : Z) (c : Huc3Cartridge) : Z :=
  match select_mode c with
  | RamReadOnly | RamReadWrite => byte_or_absent (vec_get (ram c) (ram_cell a c))
  | RtcCommandArgument => 0xFF
  | RtcCommandResponse => Z.lor (Z.lor 0x80 (shl8 (Z.land (command (mailbox c)) 0x07) 4))
                                (Z.land (last_response_nybble (mailbox c)) 0x0F)
  | RtcSemaphore => Z.lor 0x80 (u8_from_bool (semaphore_ready (mailbox c)))
  | Ir => Z.lor 0x80 (u8_from_bool (ir_light_detected c))
  | OpenBus _ => 0xFF
  end.
Definition port_write (_a v : Z) (c : Huc3Cartridge) : Huc3Cartridge :=
  match select_mode c with
  | RamReadWrite => c
  | _ => match write_ram 0xA000 v c with Done c' => c' | Panic _ => c end
  end.

Lemma huc3_write_port_ok a v c : ok c -> u8 v -> is_read_write c = false ->
  exists c', write_ram a v c = Done c' /\ port_write a v c = c' /\ ok c' /\ board c' = board c.
Proof.
  intros Hok Hv Hm. unfold is_read_write in Hm. unfold port_write, write_ram. destruct (select_mode c) eqn:Hs; try done; try (by exists c).
  - eexists. split_and!; [done..| |by destruct c]. destruct c as [? ? ? ? ? ? ? ? ? [] ? ? ? ? ? ? ?], Hok as [? ? ? ? ? ? [? []] ? ? ?].
    constructor; try done. simpl in *.
    pose proof (land_07_range (shr8 v 4)). pose proof (nibble_land v). repeat split; simpl; lia.
  - case_match; [|by exists c]. destruct (request_mcu_command_ok c Hok) as (c' & -> & Hok' & Hb & _). by exists c'.
  - eexists. split_and!; [done..| |by destruct c]. by destruct c, Hok; constructor.
Qed.

Lemma huc3_port_ok a v c : ok c -> u8 v ->
  u8 (port_read a c) /\ ok (port_write a v c) /\ board (port_write a v c) = board c.
Proof.
  intros Hok Hv. split.
  - pose proof (land_07_range (command (mailbox c))) as Hk. pose proof (nibble_land (last_response_nybble (mailbox c))) as Hl.
    unfold port_read. destruct (select_mode c); try (apply byte_or_absent_u8, (ok_ram c Hok)); try (unfold u8; lia).
    + unfold u8. apply (range_lor 8); [lia | apply (range_lor 8); [lia | lia | apply Z.mod_pos_bound; lia] | lia].
    + by destruct (semaphore_ready _); split; vm_compute.
    + by destruct (ir_light_detected c); split; vm_compute.
  - destruct (is_read_write c) eqn:E.
    + unfold port_write, is_read_write in *. by destruct (select_mode c).
    + by destruct (huc3_write_port_ok a v c Hok Hv E) as (c' & _ & -> & ?).
Qed.

#[export, refine] Instance huc3_linear : LinearRamLaws Huc3Cartridge ok := {|
  lr_enabled := is_read_write;
  lr_cell := ram_cell;
  lr_settle := fun _ _ => eq_refl;
  lr_set := fun l c => c <| ram := l |>;
  lr_port_read := port_read;
  lr_port_write := port_write;
  lr_port_ok := huc3_port_ok;
  lr_cell_range := huc3_ram_cell_range;
  lr_set_ok := huc3_set_ram_ok
|}.
Proof.
  - intros a c Hok Ha. simpl. unfold read_ram, port_read, is_read_write. rewrite huc3_effective_ram_offset_ok by done.
    by destruct (select_mode c).
  - done.
  - intros a v c Hok Ha. simpl. unfold port_write, write_ram, is_read_write.
    destruct (select_mode c) eqn:Hs; rewrite ?huc3_effective_ram_offset_ok by done; try done.
    case_match; [|done]. by destruct (request_mcu_command_ok c Hok) as (c' & -> & _).
  - intros a c. simpl. unfold describe_external_access, port_read, port_write, is_read_write.
    destruct (select_mode c) eqn:Hs; simpl; repeat split; try done; unfold write_ram; by rewrite ?Hs.
  - intros c r Hok [= <-]. by apply (ok_ram c Hok).
Defined.

(** ** Time *)

(** Seconds since day zero, modulo the 4096 days the counter holds. *)
Definition clock_seconds_total (r : Huc3RtcState) : Z :=
  (current_days r * HUC3_MINUTES_PER_DAY + current_minutes_of_day r) * 60 + current_subminute_seconds r.

Lemma advance_fields_ok n r : clock_ok r -> 0 <= n < 2 ^ 63 ->
  exists r', advance_huc3_rtc_fields n (huc3_rtc_to_persistent r) = Done r' /\
    clock_ok (huc3_rtc_from_persistent r') /\
    clock_seconds_total (huc3_rtc_from_persistent r') =
      (clock_seconds_total r + n) mod (rtc_cycle_minutes * 60) /\
    Cartridge.event_minutes_of_day r' = event_minutes_of_day r /\ Cartridge.event_days r' = event_days r.
Proof.
  intros [Hm Hd Hs He1 He2] Hn. destruct r as [m d s e1 e2].
  unfold advance_huc3_rtc_fields, huc3_rtc_to_persistent, clock_seconds_total, rtc_cycle_minutes, checked_add64,
    HUC3_MINUTES_PER_DAY, HUC3_DAY_COUNTER_MODULUS in *. simpl in *.
  destruct (Z.eqb_spec n 0) as [->|].
  { eexists. split_and!; [done | by constructor | simpl; rewrite Z.mod_small; lia | done | done]. }
  rewrite !(Z.mod_small m), !(Z.mod_small d), !(Z.mod_small s) by lia.
  destruct (Z.ltb_spec (s + n) 18446744073709551616); [|lia]. simpl.
  destruct (Z.eqb_spec ((s + n) / 60) 0).
  - eexists. split_and!; [done | constructor; simpl; try done; divmod_lia | simpl | done | done]. divmod_lia.
  - eexists. split_and!; [done | constructor; simpl; try done; divmod_lia | simpl | done | done].
    set (q := (s + n) / 60). set (k := (s + n) mod 60).
    assert (Hk : s + n = q * 60 + k) by (subst q k; divmod_lia).
    assert (0 <= k < 60) by (subst k; apply Z.mod_pos_bound; lia).
    replace ((d * 1440 + m) * 60 + s + n) with ((d * 1440 + m + q) * 60 + k) by lia.
    clearbody q k. set (t := d * 1440 + m + q). clearbody t. divmod_lia.
Qed.

Lemma advance_rtc_seconds_ok n c : ok c -> 0 <= n < 2 ^ 63 ->
  exists c', advance_rtc_seconds n c = Done c' /\ ok c' /\ board c' = board c /\
    clock_seconds_total (rtc c') = (clock_seconds_total (rtc c) + n) mod (rtc_cycle_minutes * 60) /\
    event_total_minutes c' = event_total_minutes c.
Proof.
  intros Hok Hn. destruct (ok_mcu c Hok) as [Hlen Hnib Hr _].
  destruct (advance_fields_ok n (rtc c) Hr Hn) as (r' & Hr' & Hclock & Htotal & He1 & He2).
  unfold advance_rtc_seconds. rewrite Hr'. simpl. eexists. split; [done|]. rewrite sync_tracked_eq.
  pose proof (sync_cells_ok _ (mcu_ram c) (conj Hnib Hlen) Hclock) as Hm.
  destruct c. simpl in *. split_and!; try done.
  - destruct Hok. by constructor.
  - unfold event_total_minutes. simpl. by rewrite He1, He2.
Qed.

(** ** Bank registers *)

Lemma huc3_write_rom_ok a v c : ok c -> board (write_rom a v c) = board c /\ ok (write_rom a v c).
Proof.
  intros Hok. split; [destruct c; unfold write_rom; by repeat case_match|].
  destruct c, Hok. unfold write_rom. simpl in *.
  repeat case_match; constructor; simpl; try done.
  - apply select_from_raw_value.
  - change 0x7F with (Z.ones 7). rewrite land_mask by lia. apply Z.mod_pos_bound. lia.
  - change 0x03 with (Z.ones 2). rewrite land_mask by lia. apply Z.mod_pos_bound. lia.
Qed.

(** ** Persistence *)

Lemma first_oversized_none l i : bytes l -> first_oversized_nibble i l = None <-> nibbles l.
Proof.
  intros Hl. revert i. induction Hl as [|v l Hv _ IH]; intros i; simpl; [by split; [constructor|]|].
  unfold nibbles in *. rewrite List.Forall_cons_iff. unfold u8 in Hv.
  destruct (Z.ltb_spec 0x0F v); [split; [done | intros [? _]; lia]|]. rewrite IH. split; [|by intros []]. split; [lia | done].
Qed.

Lemma masked_nibbles l : nibbles (map (fun v => Z.land v 0x0F) l) /\ length (map (fun v => Z.land v 0x0F) l) = length l.
Proof. split; [|by rewrite length_map]. induction l; constructor; auto using nibble_land. Qed.

Lemma masked_id l : nibbles l -> map (fun v => Z.land v 0x0F) l = l.
Proof.
  induction 1 as [|v l Hv _ IH]; [done|]. simpl. rewrite IH. f_equal.
  change 0x0F with (Z.ones 4). rewrite land_mask by lia. apply Z.mod_small. lia.
Qed.

Definition normal_clock (r : Huc3RtcPersistentState) : Huc3RtcState :=
  mkHuc3Rtc (Cartridge.current_minutes_of_day r mod HUC3_MINUTES_PER_DAY)
    (Cartridge.current_days r mod HUC3_DAY_COUNTER_MODULUS) (Cartridge.current_subminute_seconds r mod 60)
    (Cartridge.event_minutes_of_day r mod HUC3_MINUTES_PER_DAY) (Cartridge.event_days r mod HUC3_DAY_COUNTER_MODULUS).

Lemma normal_clock_ok r : clock_ok (normal_clock r).
Proof. by constructor; apply Z.mod_pos_bound. Qed.

Lemma below_masked n o : 0 <= n -> below (2 ^ n) ((fun v => Z.land v (Z.ones n)) <$> o).
Proof. intros Hn. destruct o; simpl; [|done]. rewrite land_mask by done. apply Z.mod_pos_bound. lia. Qed.

Lemma take_up_ok h c : ok c -> huc3_typed h -> vec_len (huc3_ram h) = vec_len (ram c) ->
  ok (take_up h c) /\ board (take_up h c) = board c.
Proof.
  intros Hok (Hram & Hmcu & Hlen & _ & _ & _ & _ & _ & _ & _ & _ & Ha & _) Hr.
  assert (Hb : board (take_up h c) = board c) by (destruct c; unfold board; simpl in *; by rewrite Hr).
  split; [|done]. unfold take_up, initialize_runtime_state. rewrite sync_tracked_eq.
  assert (Hm : mcu_ok (sync_cells (normal_clock (huc3_rtc h)) (map (fun v => Z.land v 0x0F) (huc3_mcu_ram h)))
                      (normal_clock (huc3_rtc h))).
  { apply sync_cells_ok; [|apply normal_clock_ok]. destruct (masked_nibbles (huc3_mcu_ram h)) as [Hn Hl].
    split; [done|]. unfold vec_len. rewrite Hl, Hlen. done. }
  pose proof (land_07_range (huc3_mailbox_command h)). pose proof (nibble_land (huc3_mailbox_argument h)).
  pose proof (nibble_land (huc3_last_response_nybble h)).
  destruct c, Hok as [? [_ ?] ? ? ? ? ? ? ? ?]. constructor; simpl in *; try done.
  - by rewrite Hr.
  - change 0x7F with (Z.ones 7). rewrite land_mask by lia. apply Z.mod_pos_bound. lia.
  - change 0x03 with (Z.ones 2). rewrite land_mask by lia. apply Z.mod_pos_bound. lia.
  - apply select_from_raw_value.
  - apply (below_masked 3). lia.
  - apply (below_masked 4). lia.
Qed.

Lemma huc3_restore_ok s c : ok c -> saved_typed s ->
  ok (fst (restore_persistent_state s c)) /\ board (fst (restore_persistent_state s c)) = board c.
Proof.
  intros Hok Hs. unfold restore_persistent_state. destruct (has_battery c), s; simpl; try done.
  destruct (Z.eqb_spec (vec_len (ram c)) (vec_len (huc3_ram huc3))); simpl; [|done].
  destruct (first_oversized_nibble _ _) as [[??]|]; [done|]. by apply take_up_ok.
Qed.

Lemma land_id k v : 0 <= k -> 0 <= v < 2 ^ k -> Z.land v (Z.ones k) = v.
Proof. intros Hk Hv. rewrite land_mask by done. by apply Z.mod_small. Qed.

Lemma below_id k o : 0 <= k -> below (2 ^ k) o -> (fun v => Z.land v (Z.ones k)) <$> o = o.
Proof. intros Hk. destruct o; simpl; [|done]. intros Hv. f_equal. by apply land_id. Qed.

Lemma normal_clock_id r : clock_ok r -> normal_clock (huc3_rtc_to_persistent r) = r.
Proof.
  destruct r. intros []. unfold normal_clock, HUC3_MINUTES_PER_DAY, HUC3_DAY_COUNTER_MODULUS. simpl in *.
  by rewrite !Z.mod_small by lia.
Qed.

Lemma cells_bytes l : nibbles l -> bytes l.
Proof. apply List.Forall_impl. unfold u8. intros. lia. Qed.

Lemma huc3_saved_typed c : ok c -> saved_typed (persistent_state c).
Proof.
  intros [? [? ?] ? ? ? ? (? & ? & ?) [Hlen Hn [] _] ? ?]. unfold persistent_state.
  destruct (has_battery c); [|done]. unfold saved_typed, huc3_typed, u8, u16 in *. simpl.
  assert (0 <= raw_value (select_mode c) < 256).
  { destruct (select_mode c); simpl; try lia. pose proof (nibble_land raw). lia. }
  split_and!; try done; try lia.
  - by apply cells_bytes.
  - unfold vec_len in Hlen. lia.
Qed.

(** What a restore takes up is what was saved, with the tracked cells showing
    the saved clock. *)
Lemma take_up_saved c c0 : ok c -> persistent_state (take_up (saved_state c) c0) =
  if has_battery c0 then taken_up (SavedHuc3 (saved_state c)) else SavedNone.
Proof.
  intros [_ _ Hrb Hab Hsel _ (Hk & Ha & Hl) [_ Hn Hr _] Hlc Hla].
  unfold persistent_state. replace (has_battery (take_up (saved_state c) c0)) with (has_battery c0) by by destruct c0.
  destruct (has_battery c0); [|done]. simpl. f_equal.
  pose proof (normal_clock_id _ Hr) as Hclock. pose proof (masked_id _ Hn) as Hmask.
  unfold take_up, initialize_runtime_state. rewrite sync_tracked_eq.
  destruct c0, c as [? ? ? ? ? ? ? ? ? [] ? [] ? ? ? ? ?].
  unfold normal_clock, huc3_rtc_to_persistent, saved_state, sync_cells, tracked, huc3_rtc_from_persistent in *. simpl in *.
  injection Hclock as E1 E2 E3 E4 E5. rewrite E1, E2, E3, E4, E5, Hmask, Hsel.
  change 0x03 with (Z.ones 2). change 0x07 with (Z.ones 3). change 0x0F with (Z.ones 4). change 0x7F with (Z.ones 7).
  rewrite !land_id by lia. rewrite !below_id by done. done.
Qed.

Lemma huc3_persistence_contract_holds c : ok c -> persistence_contract ok c.
Proof.
  intros Hok. unfold persistence_contract. split_and!; [by apply huc3_saved_typed | |].
  - intros c0 Hok0 Hb. pose proof (take_up_saved c c0 Hok) as Ht. injection Hb as _ _ _ Hram Hbat.
    assert (Hst : persistent_state c = if has_battery c then SavedHuc3 (saved_state c) else SavedNone)
      by (unfold persistent_state; by destruct (has_battery c)).
    simpl in *. rewrite Hst. unfold restore_persistent_state. rewrite Hbat in *.
    destruct (has_battery c) eqn:Hc; simpl.
    + rewrite Hram, Z.eqb_refl. simpl. destruct (ok_mcu c Hok) as [_ Hn _ _].
      rewrite (proj2 (first_oversized_none (mcu_ram c) 0 (cells_bytes _ Hn)) Hn).
      eexists. split_and!; [done | exact Ht |]. intros _. by destruct c0.
    + exists c0. unfold persistent_state. by rewrite Hbat.
  - intros s c1 e. simpl. unfold restore_persistent_state.
    destruct (has_battery c), s; try congruence. repeat case_match; congruence.
Qed.

Lemma huc3_rom_contract_holds c : ok c -> rom_contract c.
Proof.
  intros Hok. destruct (ok_rom c Hok) as (n & Hn & Hpos & Hlen).
  apply (rom_contract_of_banks c (fun a => if a <? 0x4000 then 0 else rom_bank c mod n) n); [done | | |].
  - intros a _. case_match; [lia|]. apply Z.mod_pos_bound. lia.
  - intros a _. simpl. unfold read_rom, window_offset, effective_rom_bank. rewrite Hn. simpl.
    destruct (Z.eqb_spec n 0); [lia|]. by destruct (a <? 0x4000).
  - intros _ a Ha. simpl. unfold mapped_rom_window, window_offset, effective_rom_bank, rom_area in *.
    rewrite Hn. simpl. destruct (Z.leb_spec 0x8000 a); [lia|]. destruct (Z.eqb_spec n 0); [lia|done].
Qed.

Lemma huc3_step_ok op c : ok c -> valid_op op ->
  exists c', run_op op c = Done c' /\ ok c' /\ m_board c' = m_board c.
Proof.
  intros Hok. apply linear_step_ok; [| | |done].
  - intros a v _ _. eexists. split; [done|]. apply and_comm. by apply huc3_write_rom_ok.
  - intros s. by apply huc3_restore_ok.
  - intros n Hn. split; [|by exists c].
    destruct (advance_rtc_seconds_ok n c Hok Hn) as (c' & ? & ? & ? & _). by exists c'.
Qed.

Lemma huc3_ok_contract c : ok c -> contract ok c.
Proof.
  intros Hok. constructor.
  - by apply huc3_rom_contract_holds.
  - by apply linear_external_contract.
  - by apply linear_storage_contract.
  - intros a v _ _. eexists. split; [done|]. simpl. destruct c. unfold write_rom. by repeat case_match.
  - by apply huc3_persistence_contract_holds.
Qed.

#[export] Instance huc3_laws : MapperLaws Huc3Cartridge := {|
  m_ok := ok;
  m_step_ok := huc3_step_ok;
  m_ok_contract := huc3_ok_contract
|}.

(** ** Loading *)

Lemma load_huc3_ok header rom_bytes compat cls ds c :
  header_sized header -> accepts (load_huc3 header rom_bytes) compat cls ds c -> ok c /\ rom c = rom_bytes.
Proof.
  intros Hsized H. unfold load_huc3, validate_huc3 in H. accepts_inv. subst. split; [|done].
  destruct (exact_size_banks header (vec_len rom_bytes)) as (banks & Hb & Hr & Hl); [done..|].
  destruct (ram_decoded_bytes _) as [len|] eqn:Hlen; accepts_inv; subst.
  pose proof (ram_decoded_nonneg _ _ Hsized Hlen).
  assert (0 < len <= 0x8000).
  { apply orb_false_iff in Hm0 as [? ?]. prune. unfold HUC3_SUPPORTED_RAM_BYTES_MAX in *. lia. }
  unfold initialize_runtime_state. rewrite sync_tracked_eq.
  assert (Hm : mcu_ok (sync_cells huc3_rtc_default (map (fun v => Z.land v 0x0F) (vec_zeroed 256))) huc3_rtc_default).
  { apply sync_cells_ok; [|by constructor]. split; [by apply masked_nibbles | done]. }
  constructor; try done; simpl; try lia.
  - exists banks. split_and!; [done | lia | done].
  - rewrite vec_len_zeroed by lia. by split; [apply bytes_zeroed|].
Qed.

(** ** Properties *)

(** C38. The HuC-3 clock keeps time: in every state reached from a loaded
    cartridge the tracked cells show the clock, advancing moves it by exactly
    that many seconds modulo 4096 days and leaves the event time, and the
    clock-setting command copies the input cells into the clock, clears the
    seconds and moves the event time along, at the same distance ahead. *)
Theorem huc3_clock_keeps_time header rom_bytes compat cls ds c0 ops :
  header_sized header -> accepts (load_huc3 header rom_bytes) compat cls ds c0 -> Forall valid_op ops ->
  exists c, run_ops ops c0 = Done c /\ shows (mcu_ram c) (rtc c) /\
    (forall n, 0 <= n < 2 ^ 63 -> exists c', advance_rtc_seconds n c = Done c' /\
       clock_seconds_total (rtc c') = (clock_seconds_total (rtc c) + n) mod (4096 * 24 * 60 * 60) /\
       event_total_minutes c' = event_total_minutes c) /\
    exists c', execute_extended_command 0x01 c = Done c' /\
      current_minutes_of_day (rtc c') = read_triplet_nybbles 0x00 c mod (24 * 60) /\
      current_days (rtc c') = read_triplet_nybbles 0x03 c /\
      current_subminute_seconds (rtc c') = 0 /\
      (event_total_minutes c' - current_total_minutes c') mod (4096 * 24 * 60) =
        (event_total_minutes c - current_total_minutes c) mod (4096 * 24 * 60).
Proof.
  intros Hsized Hload Hops. destruct (load_huc3_ok _ _ _ _ _ _ Hsized Hload) as [Hok0 _].
  destruct (@run_ops_ok _ _ huc3_laws ops c0 Hok0 Hops) as (c & Hrun & Hok & _). simpl in Hok.
  exists c. split_and!; [done | apply (ok_mcu c Hok) | |].
  - intros n Hn. destruct (advance_rtc_seconds_ok n c Hok Hn) as (c' & ? & _ & _ & ? & ?). by exists c'.
  - destruct (apply_io_window_ok c (ok_mcu c Hok)) as (c' & ? & _ & ? & ? & ? & ? & _). by exists c'.
Qed.

Lemma huc3_clock_keeps_time_witness :
  let h := blank_header 0xFE 0x00 0x02 in
  let cls := mkClassification 0xFE "HuC3" (Supported FamilyHuc3) "" in
  exists c0 c, accepts (load_huc3 h (vec_zeroed 32768)) strict cls [] c0 /\
    run_ops [OpWriteRom 0 0x0B; OpWriteRam 0xA000 0x61; OpRtcSeconds 90] c0 = Done c /\ shows (mcu_ram c) (rtc c).
Proof.
  intros h cls.
  assert (L : vec_len (vec_zeroed 32768) = 32768) by (apply vec_len_zeroed; discriminate).
  set (image := vec_zeroed 32768) in *.
  set (c0 := initialize_runtime_state (mkHuc3 image (vec_zeroed 8192) true h cls RamReadOnly 0 0 0 mailbox_default
               (vec_zeroed 256) huc3_rtc_default false false None None None)).
  assert (H : accepts (load_huc3 h image) strict cls [] c0).
  { exists []. unfold load_huc3. rewrite L. reflexivity. }
  assert (Hops : Forall valid_op [OpWriteRom 0 0x0B; OpWriteRam 0xA000 0x61; OpRtcSeconds 90]).
  { repeat constructor; discriminate. }
  destruct (huc3_clock_keeps_time h image strict cls [] c0 _ (conj eq_refl eq_refl) H Hops) as (c & Hrun & Hs & _).
  exists c0, c. split; [exact H | split; [exact Hrun | exact Hs]].
Defined.
