(* ===== verification/Mbc6.v ===== *)
(** * MBC6 cartridges ([crates/gb-core/src/cartridge/mbc6.rs])

    Two 8 KiB windows that show ROM or flash, two 4 KiB RAM windows, and the
    flash chip behind the windows: its unlock and command sequences, sector and
    chip erase, buffered programming, the hidden region and the protection of
    the first sector; persistence, and the loader's validation and
    construction. *)

From Stdlib Require Import ZArith Lia Bool String List.
From stdpp Require Import base list decidable.
From S2P Require Import Prelude.
From S2P Require Import Model.
From S2P Require Import CartridgeHeader.
From S2P Require Import Cartridge.

Local Open Scope string_scope.
Local Open Scope Z_scope.

Definition MBC6_SUPPORTED_ROM_BYTES : Z := 1024 * 1024.
Definition MBC6_SUPPORTED_RAM_BYTES : Z := 32 * 1024.
Definition MBC6_ROM_FLASH_BANK_BYTES : Z := 8 * 1024.
Definition MBC6_RAM_BANK_BYTES : Z := 4 * 1024.
Definition MBC6_FLASH_BYTES : Z := 1024 * 1024.
Definition MBC6_HIDDEN_BYTES : Z := 256.
Definition MBC6_FLASH_SECTOR_BYTES : Z := 128 * 1024.
Definition MBC6_FLASH_PROGRAM_BLOCK_BYTES : Z := 128.
Definition MBC6_FLASH_MANUFACTURER_ID : Z := 0xC2.
Definition MBC6_FLASH_DEVICE_ID : Z := 0x81.
Definition MBC6_FLASH_STATUS_DONE : Z := 0x80.
Definition MBC6_FLASH_STATUS_SECTOR0_PROTECTED : Z := 0x02.
Definition MBC6_FLASH_UNLOCK_AA_OFFSET : Z := 0x5555.
Definition MBC6_FLASH_UNLOCK_55_OFFSET : Z := 0x2AAA.
Definition MBC6_FLASH_BANK_COUNT : Z := MBC6_FLASH_BYTES / MBC6_ROM_FLASH_BANK_BYTES.
Definition MBC6_RAM_BANK_COUNT : Z := MBC6_SUPPORTED_RAM_BYTES / MBC6_RAM_BANK_BYTES.

#[local] Arguments MBC6_FLASH_BYTES : simpl never.
#[local] Arguments MBC6_HIDDEN_BYTES : simpl never.
#[local] Arguments MBC6_FLASH_SECTOR_BYTES : simpl never.
#[local] Arguments MBC6_FLASH_PROGRAM_BLOCK_BYTES : simpl never.

Inductive Mbc6WindowSelect := SelectRom | SelectFlash.
Inductive Mbc6ProgramTarget := MainFlash | HiddenRegion.

Record Mbc6ProgramState := mkProgram {
  program_target : Mbc6ProgramTarget;
  block_base : option Z;
  buffer : list Z;
  written : list bool;
  final_byte_seen : bool
}.

#[export] Instance upd_program_target : Update program_target := fun v s =>
  let '(mkProgram _ x2 x3 x4 x5) := s in mkProgram v x2 x3 x4 x5.
#[export] Instance upd_block_base : Update block_base := fun v s =>
  let '(mkProgram x1 _ x3 x4 x5) := s in mkProgram x1 v x3 x4 x5.
#[export] Instance upd_buffer : Update buffer := fun v s =>
  let '(mkProgram x1 x2 _ x4 x5) := s in mkProgram x1 x2 v x4 x5.
#[export] Instance upd_written : Update written := fun v s =>
  let '(mkProgram x1 x2 x3 _ x5) := s in mkProgram x1 x2 x3 v x5.
#[export] Instance upd_final_byte_seen : Update final_byte_seen := fun v s =>
  let '(mkProgram x1 x2 x3 x4 _) := s in mkProgram x1 x2 x3 x4 v.

Inductive Mbc6FlashStatusSource := SourceProgram | SourceErase | SourceProtect | IgnoredWriteProtected.

Inductive Mbc6FlashMode :=
| ReadArray | AwaitUnlock2 | AwaitCommand
| EraseAwaitUnlock1 | EraseAwaitUnlock2 | EraseAwaitCommand
| ExtendedAwaitUnlock1 | ExtendedAwaitUnlock2 | ExtendedAwaitCommand
| HiddenReadAwaitUnlock1 | HiddenReadAwaitUnlock2 | HiddenReadAwaitCommand
| IdMode | HiddenReadMode
| Program (state : Mbc6ProgramState) | HiddenProgram (state : Mbc6ProgramState)
| Status (source : Mbc6FlashStatusSource) (status : Z).

Record Mbc6Cartridge := mkMbc6 {
  rom : list Z;
  ram : list Z;
  flash : list Z;
  hidden_region : list Z;
  has_battery : bool;
  header : CartridgeHeader;
  classification : CartridgeClassification;
  ram_enabled : bool;
  flash_enabled : bool;
  flash_write_enabled : bool;
  ram_bank_a : Z;
  ram_bank_b : Z;
  rom_flash_bank_a : Z;
  rom_flash_bank_b : Z;
  window_select_a : Mbc6WindowSelect;
  window_select_b : Mbc6WindowSelect;
  sector0_protected : bool;
  flash_mode : Mbc6FlashMode
}.

#[export] Instance upd_rom : Update rom := fun v s =>
  let '(mkMbc6 _ x2 x3 x4 x5 x6 x7 x8 x9 x10 x11 x12 x13 x14 x15 x16 x17 x18) := s in mkMbc6 v x2 x3 x4 x5 x6 x7 x8 x9 x10 x11 x12 x13 x14 x15 x16 x17 x18.
#[export] Instance upd_ram : Update ram := fun v s =>
  let '(mkMbc6 x1 _ x3 x4 x5 x6 x7 x8 x9 x10 x11 x12 x13 x14 x15 x16 x17 x18) := s in mkMbc6 x1 v x3 x4 x5 x6 x7 x8 x9 x10 x11 x12 x13 x14 x15 x16 x17 x18.
#[export] Instance upd_flash : Update flash := fun v s =>
  let '(mkMbc6 x1 x2 _ x4 x5 x6 x7 x8 x9 x10 x11 x12 x13 x14 x15 x16 x17 x18) := s in mkMbc6 x1 x2 v x4 x5 x6 x7 x8 x9 x10 x11 x12 x13 x14 x15 x16 x17 x18.
#[export] Instance upd_hidden_region : Update hidden_region := fun v s =>
  let '(mkMbc6 x1 x2 x3 _ x5 x6 x7 x8 x9 x10 x11 x12 x13 x14 x15 x16 x17 x18) := s in mkMbc6 x1 x2 x3 v x5 x6 x7 x8 x9 x10 x11 x12 x13 x14 x15 x16 x17 x18.
#[export] Instance upd_has_battery : Update has_battery := fun v s =>
  let '(mkMbc6 x1 x2 x3 x4 _ x6 x7 x8 x9 x10 x11 x12 x13 x14 x15 x16 x17 x18) := s in mkMbc6 x1 x2 x3 x4 v x6 x7 x8 x9 x10 x11 x12 x13 x14 x15 x16 x17 x18.
#[export] Instance upd_header : Update header := fun v s =>
  let '(mkMbc6 x1 x2 x3 x4 x5 _ x7 x8 x9 x10 x11 x12 x13 x14 x15 x16 x17 x18) := s in mkMbc6 x1 x2 x3 x4 x5 v x7 x8 x9 x10 x11 x12 x13 x14 x15 x16 x17 x18.
#[export] Instance upd_classification : Update classification := fun v s =>
  let '(mkMbc6 x1 x2 x3 x4 x5 x6 _ x8 x9 x10 x11 x12 x13 x14 x15 x16 x17 x18) := s in mkMbc6 x1 x2 x3 x4 x5 x6 v x8 x9 x10 x11 x12 x13 x14 x15 x16 x17 x18.
#[export] Instance upd_ram_enabled : Update ram_enabled := fun v s =>
  let '(mkMbc6 x1 x2 x3 x4 x5 x6 x7 _ x9 x10 x11 x12 x13 x14 x15 x16 x17 x18) := s in mkMbc6 x1 x2 x3 x4 x5 x6 x7 v x9 x10 x11 x12 x13 x14 x15 x16 x17 x18.
#[export] Instance upd_flash_enabled : Update flash_enabled := fun v s =>
  let '(mkMbc6 x1 x2 x3 x4 x5 x6 x7 x8 _ x10 x11 x12 x13 x14 x15 x16 x17 x18) := s in mkMbc6 x1 x2 x3 x4 x5 x6 x7 x8 v x10 x11 x12 x13 x14 x15 x16 x17 x18.
#[export] Instance upd_flash_write_enabled : Update flash_write_enabled := fun v s =>
  let '(mkMbc6 x1 x2 x3 x4 x5 x6 x7 x8 x9 _ x11 x12 x13 x14 x15 x16 x17 x18) := s in mkMbc6 x1 x2 x3 x4 x5 x6 x7 x8 x9 v x11 x12 x13 x14 x15 x16 x17 x18.
#[export] Instance upd_ram_bank_a : Update ram_bank_a := fun v s =>
  let '(mkMbc6 x1 x2 x3 x4 x5 x6 x7 x8 x9 x10 _ x12 x13 x14 x15 x16 x17 x18) := s in mkMbc6 x1 x2 x3 x4 x5 x6 x7 x8 x9 x10 v x12 x13 x14 x15 x16 x17 x18.
#[export] Instance upd_ram_bank_b : Update ram_bank_b := fun v s =>
  let '(mkMbc6 x1 x2 x3 x4 x5 x6 x7 x8 x9 x10 x11 _ x13 x14 x15 x16 x17 x18) := s in mkMbc6 x1 x2 x3 x4 x5 x6 x7 x8 x9 x10 x11 v x13 x14 x15 x16 x17 x18.
#[export] Instance upd_rom_flash_bank_a : Update rom_flash_bank_a := fun v s =>
  let '(mkMbc6 x1 x2 x3 x4 x5 x6 x7 x8 x9 x10 x11 x12 _ x14 x15 x16 x17 x18) := s in mkMbc6 x1 x2 x3 x4 x5 x6 x7 x8 x9 x10 x11 x12 v x14 x15 x16 x17 x18.
#[export] Instance upd_rom_flash_bank_b : Update rom_flash_bank_b := fun v s =>
  let '(mkMbc6 x1 x2 x3 x4 x5 x6 x7 x8 x9 x10 x11 x12 x13 _ x15 x16 x17 x18) := s in mkMbc6 x1 x2 x3 x4 x5 x6 x7 x8 x9 x10 x11 x12 x13 v x15 x16 x17 x18.
#[export] Instance upd_window_select_a : Update window_select_a := fun v s =>
  let '(mkMbc6 x1 x2 x3 x4 x5 x6 x7 x8 x9 x10 x11 x12 x13 x14 _ x16 x17 x18) := s in mkMbc6 x1 x2 x3 x4 x5 x6 x7 x8 x9 x10 x11 x12 x13 x14 v x16 x17 x18.
#[export] Instance upd_window_select_b : Update window_select_b := fun v s =>
  let '(mkMbc6 x1 x2 x3 x4 x5 x6 x7 x8 x9 x10 x11 x12 x13 x14 x15 _ x17 x18) := s in mkMbc6 x1 x2 x3 x4 x5 x6 x7 x8 x9 x10 x11 x12 x13 x14 x15 v x17 x18.
#[export] Instance upd_sector0_protected : Update sector0_protected := fun v s =>
  let '(mkMbc6 x1 x2 x3 x4 x5 x6 x7 x8 x9 x10 x11 x12 x13 x14 x15 x16 _ x18) := s in mkMbc6 x1 x2 x3 x4 x5 x6 x7 x8 x9 x10 x11 x12 x13 x14 x15 x16 v x18.
#[export] Instance upd_flash_mode : Update flash_mode := fun v s =>
  let '(mkMbc6 x1 x2 x3 x4 x5 x6 x7 x8 x9 x10 x11 x12 x13 x14 x15 x16 x17 _) := s in mkMbc6 x1 x2 x3 x4 x5 x6 x7 x8 x9 x10 x11 x12 x13 x14 x15 x16 x17 v.

Definition program_new (target : Mbc6ProgramTarget) : Mbc6ProgramState :=
  mkProgram target None (replicate (Z.to_nat MBC6_FLASH_PROGRAM_BLOCK_BYTES) 0xFF)
    (replicate (Z.to_nat MBC6_FLASH_PROGRAM_BLOCK_BYTES) false) false.

(** ** Checked vector accesses *)

Definition checked_rem (a b : Z) : outcome Z :=
  if b =? 0 then Panic "attempt to calculate the remainder with a divisor of zero" else Done (a mod b).

(** [l[start..start + n]]. *)
Definition vec_slice (l : list Z) (start n : Z) : outcome (list Z) :=
  if start + n <=? vec_len l then Done (take (Z.to_nat n) (drop (Z.to_nat start) l))
  else Panic "range end index out of range for slice".
(** [l[start..start + n].fill(v)]. *)
Definition vec_fill (l : list Z) (start n v : Z) : outcome (list Z) :=
  if start + n <=? vec_len l then
    Done (take (Z.to_nat start) l ++ replicate (Z.to_nat n) v ++ drop (Z.to_nat (start + n)) l)%list
  else Panic "range end index out of range for slice".

(** ** Banking *)

Definition window_select (w : Mbc6Window) (c : Mbc6Cartridge) : Mbc6WindowSelect :=
  match w with Mbc6WindowA => window_select_a c | Mbc6WindowB => window_select_b c end.
Definition rom_flash_bank_count (c : Mbc6Cartridge) : Z := Z.max (vec_len (rom c) / MBC6_ROM_FLASH_BANK_BYTES) 1.
Definition effective_rom_flash_bank (w : Mbc6Window) (bank_count : Z) (c : Mbc6Cartridge) : Z :=
  if bank_count =? 0 then 0
  else match w with Mbc6WindowA => rom_flash_bank_a c | Mbc6WindowB => rom_flash_bank_b c end mod bank_count.
Definition flash_offset (w : Mbc6Window) (window_offset : Z) (c : Mbc6Cartridge) : Z :=
  effective_rom_flash_bank w MBC6_FLASH_BANK_COUNT c * MBC6_ROM_FLASH_BANK_BYTES + window_offset.
Definition effective_ram_bank (w : Mbc6Window) (c : Mbc6Cartridge) : Z :=
  match w with Mbc6WindowA => ram_bank_a c | Mbc6WindowB => ram_bank_b c end mod MBC6_RAM_BANK_COUNT.
Definition effective_ram_offset (address : Z) (c : Mbc6Cartridge) : outcome Z :=
  base_offset ← ram_base_offset address;
  let '(w, window_offset) :=
    if address <? 0xB000 then (Mbc6WindowA, base_offset) else (Mbc6WindowB, address - 0xB000) in
  Done (effective_ram_bank w c * MBC6_RAM_BANK_BYTES + window_offset).

(** ** The flash chip *)

Definition is_unlock_aa (offset value : Z) : bool := (offset =? MBC6_FLASH_UNLOCK_AA_OFFSET) && (value =? 0xAA).
Definition is_unlock_55 (offset value : Z) : bool := (offset =? MBC6_FLASH_UNLOCK_55_OFFSET) && (value =? 0x55).
Definition restart_or_idle (offset value : Z) : Mbc6FlashMode :=
  if is_unlock_aa offset value then AwaitUnlock2 else ReadArray.

Definition status_mode (source : Mbc6FlashStatusSource) (c : Mbc6Cartridge) : Mbc6FlashMode :=
  Status source (Z.lor MBC6_FLASH_STATUS_DONE
    (if sector0_protected c then MBC6_FLASH_STATUS_SECTOR0_PROTECTED else 0)).

Definition read_flash (offset : Z) (c : Mbc6Cartridge) : outcome Z :=
  match flash_mode c with
  | IdMode =>
      Done (let k := Z.land offset 0x000F in
            if k =? 0 then MBC6_FLASH_MANUFACTURER_ID
            else if k =? 1 then MBC6_FLASH_DEVICE_ID else RAM_ABSENT_READ_VALUE)
  | HiddenReadMode => vec_index (hidden_region c) (Z.land offset (MBC6_HIDDEN_BYTES - 1))
  | Status _ status => Done status
  | _ => i ← checked_rem offset (vec_len (flash c)); vec_index (flash c) i
  end.

(** Sector 0 is written only while writes are enabled and it is not protected. *)
Definition sector0_locked (c : Mbc6Cartridge) : bool := negb (flash_write_enabled c) || sector0_protected c.

Definition erase_sector_index (sector : Z) (c : Mbc6Cartridge) : outcome Mbc6Cartridge :=
  f ← vec_fill (flash c) (sector * MBC6_FLASH_SECTOR_BYTES) MBC6_FLASH_SECTOR_BYTES 0xFF;
  Done (c <| flash := f |>).

Definition erase_sector (offset : Z) (c : Mbc6Cartridge) : outcome Mbc6Cartridge :=
  let sector := (offset / MBC6_FLASH_SECTOR_BYTES) mod (MBC6_FLASH_BYTES / MBC6_FLASH_SECTOR_BYTES) in
  if (sector =? 0) && sector0_locked c then Done c else erase_sector_index sector c.

Fixpoint erase_sectors (sectors : list Z) (c : Mbc6Cartridge) : outcome Mbc6Cartridge :=
  match sectors with
  | [] => Done c
  | sector :: rest =>
      c ← (if (sector =? 0) && sector0_locked c then Done c else erase_sector_index sector c);
      erase_sectors rest c
  end.
Definition erase_chip (c : Mbc6Cartridge) : outcome Mbc6Cartridge :=
  erase_sectors (map Z.of_nat (seq 0 (Z.to_nat (MBC6_FLASH_BYTES / MBC6_FLASH_SECTOR_BYTES)))) c.

(** *** Programming *)

Definition program_block_base (target : Mbc6ProgramTarget) (offset : Z) (c : Mbc6Cartridge) : outcome Z :=
  match target with
  | MainFlash =>
      i ← checked_rem offset (vec_len (flash c)); Done (Z.ldiff i (MBC6_FLASH_PROGRAM_BLOCK_BYTES - 1))
  | HiddenRegion =>
      Done (Z.ldiff (Z.land offset (MBC6_HIDDEN_BYTES - 1)) (MBC6_FLASH_PROGRAM_BLOCK_BYTES - 1))
  end.
Definition program_byte_offset (offset : Z) : Z := Z.land offset (MBC6_FLASH_PROGRAM_BLOCK_BYTES - 1).

Definition memory_of_target (target : Mbc6ProgramTarget) (c : Mbc6Cartridge) : list Z :=
  match target with MainFlash => flash c | HiddenRegion => hidden_region c end.
Definition set_memory_of_target (target : Mbc6ProgramTarget) (l : list Z) (c : Mbc6Cartridge) : Mbc6Cartridge :=
  match target with MainFlash => c <| flash := l |> | HiddenRegion => c <| hidden_region := l |> end.

Definition seed_program_buffer (st : Mbc6ProgramState) (base : Z) (c : Mbc6Cartridge) : outcome Mbc6ProgramState :=
  s ← vec_slice (memory_of_target (program_target st) c) base MBC6_FLASH_PROGRAM_BLOCK_BYTES;
  if vec_len (buffer st) =? vec_len s then Done (st <| buffer := s |>)
  else Panic "copy_from_slice: source slice length does not match destination slice length".

(** [if written[i] { memory[base + i] &= buffer[i] }] over the block. *)
Fixpoint commit_bytes (indices : list Z) (base : Z) (st : Mbc6ProgramState) (memory : list Z) : outcome (list Z) :=
  match indices with
  | [] => Done memory
  | i :: rest =>
      match written st !! Z.to_nat i with
      | None => Panic "index out of bounds"
      | Some false => commit_bytes rest base st memory
      | Some true =>
          b ← vec_index (buffer st) i;
          old ← vec_index memory (base + i);
          commit_bytes rest base st (vec_set memory (base + i) (Z.land old b))
      end
  end.

Definition commit_program_buffer (st : Mbc6ProgramState) (base : Z) (c : Mbc6Cartridge) : outcome Mbc6Cartridge :=
  let refused := match program_target st with
                 | MainFlash => (base <? MBC6_FLASH_SECTOR_BYTES) && sector0_locked c
                 | HiddenRegion => negb (flash_write_enabled c)
                 end in
  if refused then Done c
  else
    m ← commit_bytes (map Z.of_nat (seq 0 (Z.to_nat MBC6_FLASH_PROGRAM_BLOCK_BYTES))) base st
          (memory_of_target (program_target st) c);
    Done (set_memory_of_target (program_target st) m c).

(** A write to another block starts that block afresh, seeded with what the
    memory holds. *)
Definition enter_block (base : Z) (st : Mbc6ProgramState) (c : Mbc6Cartridge) : outcome Mbc6ProgramState :=
  if decide (block_base st = Some base) then Done st
  else seed_program_buffer
         (st <| block_base := Some base |> <| final_byte_seen := false |>
             <| written := map (fun _ => false) (written st) |>) base c.

Definition store_byte (byte_offset value : Z) (st : Mbc6ProgramState) : Mbc6ProgramState :=
  st <| buffer := vec_set (buffer st) byte_offset value |>
     <| written := <[Z.to_nat byte_offset := true]> (written st) |>.

(** A byte of the block; the second write to its last byte programs it. *)
Definition program_write (st : Mbc6ProgramState) (offset value : Z) (c : Mbc6Cartridge)
    : outcome (bool * Mbc6ProgramState * Mbc6Cartridge) :=
  base ← program_block_base (program_target st) offset c;
  st ← enter_block base st c;
  let byte_offset := program_byte_offset offset in
  let st := store_byte byte_offset value st in
  if negb (byte_offset =? MBC6_FLASH_PROGRAM_BLOCK_BYTES - 1) then Done (false, st, c)
  else if final_byte_seen st then c ← commit_program_buffer st base c; Done (true, st, c)
  else Done (false, st <| final_byte_seen := true |>, c).

(** *** Commands *)

Definition execute_primary_command (offset value : Z) : Mbc6FlashMode :=
  if value =? 0x80 then EraseAwaitUnlock1
  else if value =? 0x90 then IdMode
  else if value =? 0xA0 then Program (program_new MainFlash)
  else if value =? 0x60 then ExtendedAwaitUnlock1
  else if value =? 0x77 then HiddenReadAwaitUnlock1
  else restart_or_idle offset value.

(** A command that works on the chip gives the mode it leaves the chip in. *)
Definition execute_erase_command (offset value : Z) (c : Mbc6Cartridge) : outcome (Mbc6FlashMode * Mbc6Cartridge) :=
  if (value =? 0x10) && (offset =? MBC6_FLASH_UNLOCK_AA_OFFSET) then
    c ← erase_chip c; Done (status_mode SourceErase c, c)
  else if value =? 0x30 then
    c ← erase_sector offset c; Done (status_mode SourceErase c, c)
  else Done (restart_or_idle offset value, c).

Definition execute_extended_command (value : Z) (c : Mbc6Cartridge) : Mbc6FlashMode * Mbc6Cartridge :=
  if value =? 0x04 then
    if flash_write_enabled c then
      let c := c <| hidden_region := map (fun _ => 0xFF) (hidden_region c) |> in
      (status_mode SourceErase c, c)
    else (status_mode IgnoredWriteProtected c, c)
  else if (value =? 0xE0) && flash_write_enabled c then (HiddenProgram (program_new HiddenRegion), c)
  else if value =? 0xE0 then (status_mode IgnoredWriteProtected c, c)
  else if (value =? 0x40) && flash_write_enabled c then
    let c := c <| sector0_protected := false |> in (status_mode SourceProtect c, c)
  else if (value =? 0x20) && flash_write_enabled c then
    let c := c <| sector0_protected := true |> in (status_mode SourceProtect c, c)
  else if (value =? 0x40) || (value =? 0x20) then (status_mode IgnoredWriteProtected c, c)
  else (ReadArray, c).

(** The mode after a write, taken from the mode before it. *)
Definition next_mode (mode : Mbc6FlashMode) (offset value : Z) (c : Mbc6Cartridge)
    : outcome (Mbc6FlashMode * Mbc6Cartridge) :=
  match mode with
  | ReadArray | IdMode | HiddenReadMode | Status _ _ => Done (restart_or_idle offset value, c)
  | AwaitUnlock2 =>
      Done (if is_unlock_55 offset value then AwaitCommand else restart_or_idle offset value, c)
  | AwaitCommand => Done (execute_primary_command offset value, c)
  | EraseAwaitUnlock1 =>
      Done (if is_unlock_aa offset value then EraseAwaitUnlock2 else restart_or_idle offset value, c)
  | EraseAwaitUnlock2 =>
      Done (if is_unlock_55 offset value then EraseAwaitCommand else restart_or_idle offset value, c)
  | EraseAwaitCommand => execute_erase_command offset value c
  | ExtendedAwaitUnlock1 =>
      Done (if is_unlock_aa offset value then ExtendedAwaitUnlock2 else restart_or_idle offset value, c)
  | ExtendedAwaitUnlock2 =>
      Done (if is_unlock_55 offset value then ExtendedAwaitCommand else restart_or_idle offset value, c)
  | ExtendedAwaitCommand => Done (execute_extended_command value c)
  | HiddenReadAwaitUnlock1 =>
      Done (if is_unlock_aa offset value then HiddenReadAwaitUnlock2 else restart_or_idle offset value, c)
  | HiddenReadAwaitUnlock2 =>
      Done (if is_unlock_55 offset value then HiddenReadAwaitCommand else restart_or_idle offset value, c)
  | HiddenReadAwaitCommand =>
      Done (if value =? 0x77 then HiddenReadMode else restart_or_idle offset value, c)
  | Program state =>
      r ← program_write state offset value c;
      let '(finished, state, c) := r : bool * Mbc6ProgramState * Mbc6Cartridge in
      Done (if finished then status_mode SourceProgram c else Program state, c)
  | HiddenProgram state =>
      r ← program_write state offset value c;
      let '(finished, state, c) := r : bool * Mbc6ProgramState * Mbc6Cartridge in
      Done (if finished then status_mode SourceProgram c else HiddenProgram state, c)
  end.

Definition write_flash (offset value : Z) (c : Mbc6Cartridge) : outcome Mbc6Cartridge :=
  if value =? 0xF0 then Done (c <| flash_mode := ReadArray |>)
  else
    r ← next_mode (flash_mode c) offset value (c <| flash_mode := ReadArray |>);
    let '(mode, c) := r : Mbc6FlashMode * Mbc6Cartridge in
    Done (c <| flash_mode := mode |>).

(** ** Accesses *)

Definition write_flash_window (w : Mbc6Window) (address value : Z) (c : Mbc6Cartridge) : outcome Mbc6Cartridge :=
  if negb (flash_enabled c) || (match window_select w c with SelectFlash => false | SelectRom => true end) then Done c
  else
    let window_offset := match w with Mbc6WindowA => address - 0x4000 | Mbc6WindowB => address - 0x6000 end in
    write_flash (flash_offset w window_offset c) value c.

Definition read_high_window (w : Mbc6Window) (window_offset : Z) (c : Mbc6Cartridge) : outcome Z :=
  match window_select w c with
  | SelectRom =>
      let bank := effective_rom_flash_bank w (rom_flash_bank_count c) c in
      Done (byte_or_absent (vec_get (rom c) (bank * MBC6_ROM_FLASH_BANK_BYTES + window_offset)))
  | SelectFlash =>
      if flash_enabled c then read_flash (flash_offset w window_offset c) c else Done RAM_ABSENT_READ_VALUE
  end.

Definition mapped_high_window (w : Mbc6Window) (window_offset : Z) (c : Mbc6Cartridge) : CartridgeMappedRomWindow :=
  match window_select w c with
  | SelectRom =>
      rom_window (effective_rom_flash_bank w (rom_flash_bank_count c) c) MBC6_ROM_FLASH_BANK_BYTES window_offset
  | SelectFlash =>
      mkWindow SourceFlash (effective_rom_flash_bank w MBC6_FLASH_BANK_COUNT c) MBC6_ROM_FLASH_BANK_BYTES window_offset
  end.

Definition read_rom (address : Z) (c : Mbc6Cartridge) : outcome Z :=
  if (0x0000 <=? address) && (address <=? 0x3FFF) then Done (byte_or_absent (vec_get (rom c) address))
  else if (0x4000 <=? address) && (address <=? 0x5FFF) then read_high_window Mbc6WindowA (address - 0x4000) c
  else if (0x6000 <=? address) && (address <=? 0x7FFF) then read_high_window Mbc6WindowB (address - 0x6000) c
  else Done RAM_ABSENT_READ_VALUE.

Definition mapped_rom_window (address : Z) (c : Mbc6Cartridge) : option CartridgeMappedRomWindow :=
  if (0x0000 <=? address) && (address <=? 0x3FFF) then Some (rom_window 0 0x4000 address)
  else if (0x4000 <=? address) && (address <=? 0x5FFF) then Some (mapped_high_window Mbc6WindowA (address - 0x4000) c)
  else if (0x6000 <=? address) && (address <=? 0x7FFF) then Some (mapped_high_window Mbc6WindowB (address - 0x6000) c)
  else None.

Definition window_select_from (value : Z) : Mbc6WindowSelect :=
  if has_bits value 0x08 then SelectFlash else SelectRom.

Definition write_rom (address value : Z) (c : Mbc6Cartridge) : outcome Mbc6Cartridge :=
  if (0x0000 <=? address) && (address <=? 0x03FF) then Done (c <| ram_enabled := Z.land value 0x0F =? 0x0A |>)
  else if (0x0400 <=? address) && (address <=? 0x07FF) then Done (c <| ram_bank_a := Z.land value 0x07 |>)
  else if (0x0800 <=? address) && (address <=? 0x0BFF) then Done (c <| ram_bank_b := Z.land value 0x07 |>)
  else if (0x0C00 <=? address) && (address <=? 0x0FFF) then
    let c := c <| flash_enabled := has_bits value 0x01 |> in
    Done (if negb (flash_enabled c) then c <| flash_mode := ReadArray |> else c)
  else if address =? 0x1000 then Done (c <| flash_write_enabled := has_bits value 0x01 |>)
  else if (0x2000 <=? address) && (address <=? 0x27FF) then Done (c <| rom_flash_bank_a := Z.land value 0x7F |>)
  else if (0x2800 <=? address) && (address <=? 0x2FFF) then Done (c <| window_select_a := window_select_from value |>)
  else if (0x3000 <=? address) && (address <=? 0x37FF) then Done (c <| rom_flash_bank_b := Z.land value 0x7F |>)
  else if (0x3800 <=? address) && (address <=? 0x3FFF) then Done (c <| window_select_b := window_select_from value |>)
  else if (0x4000 <=? address) && (address <=? 0x5FFF) then write_flash_window Mbc6WindowA address value c
  else if (0x6000 <=? address) && (address <=? 0x7FFF) then write_flash_window Mbc6WindowB address value c
  else Done c.

Definition describe_external_access (address : Z) (c : Mbc6Cartridge) : CartridgeExternalAccessInfo :=
  let w := if address <? 0xB000 then Mbc6WindowA else Mbc6WindowB in
  access_new address (Mbc6Ram w (effective_ram_bank w c))
    (if ram_enabled c then Accessible else Disabled)
    (if ram_enabled c then ReadStorage else FallbackValue RAM_ABSENT_READ_VALUE)
    (if ram_enabled c then WriteStorage else Ignored).

Definition read_ram (address : Z) (c : Mbc6Cartridge) : outcome Z :=
  if negb (ram_enabled c) then Done RAM_ABSENT_READ_VALUE
  else offset ← effective_ram_offset address c; Done (byte_or_absent (vec_get (ram c) offset)).

Definition write_ram (address value : Z) (c : Mbc6Cartridge) : outcome Mbc6Cartridge :=
  if negb (ram_enabled c) then Done c
  else offset ← effective_ram_offset address c; Done (c <| ram := vec_set (ram c) offset value |>).

(** ** Persistence *)

Definition persistence_metadata (c : Mbc6Cartridge) : CartridgePersistenceMetadata :=
  mkMetadata (has_battery c) false
    (PersistentRamAndFlash (Linear (vec_len (ram c))) (vec_len (flash c)) (vec_len (hidden_region c))).

Definition persistent_state (c : Mbc6Cartridge) : PersistentCartState :=
  if has_battery c then SavedMbc6 (ram c) (flash c) (hidden_region c) (sector0_protected c) else SavedNone.

Definition restore_persistent_state (state : PersistentCartState) (c : Mbc6Cartridge)
    : Mbc6Cartridge * option CartridgePersistentStateError :=
  match has_battery c, state with
  | true, SavedMbc6 r f h p =>
      if negb (vec_len (ram c) =? vec_len r) then (c, Some (RamLengthMismatch (vec_len (ram c)) (vec_len r)))
      else if negb (vec_len (flash c) =? vec_len f) then (c, Some (RamLengthMismatch (vec_len (flash c)) (vec_len f)))
      else if negb (vec_len (hidden_region c) =? vec_len h)
      then (c, Some (RamLengthMismatch (vec_len (hidden_region c)) (vec_len h)))
      else (c <| ram := r |> <| flash := f |> <| hidden_region := h |> <| sector0_protected := p |>, None)
  | true, other => (c, Some (KindMismatch "Mbc6" (kind_name other)))
  | false, SavedNone => (c, None)
  | false, other => (c, Some (KindMismatch "None" (kind_name other)))
  end.

(** ** Loading *)

Definition validate_mbc6 (header : CartridgeHeader) (actual_rom_size : Z) : V unit :=
  reject_if (negb (enables_cgb_native_mode (cgb_flag header)))
    "{} expects a CGB-capable header because the only documented MBC6 cartridge is a CGB-era Net de Get board";;
  reject_if (negb (rom_raw_code (rom_size header) =? 0x05) ||
             negb (bool_decide (rom_decoded_bytes (rom_size header) = Some MBC6_SUPPORTED_ROM_BYTES)))
    "{} expects the official 1 MiB ROM declaration (code 0x05), but the header declared code {:#04X} ({:?} bytes)";;
  reject_if (negb (actual_rom_size =? MBC6_SUPPORTED_ROM_BYTES))
    "{} expects a {}-byte image, but the loaded ROM is {} bytes";;
  reject_if (negb (ram_raw_code (ram_size header) =? 0x03) ||
             negb (bool_decide (ram_decoded_bytes (ram_size header) = Some MBC6_SUPPORTED_RAM_BYTES)))
    "{} expects the official 32 KiB SRAM declaration (code 0x03), but the header declared code {:#04X} ({:?} bytes)";;
  mret tt.

(** The [Mbc6] arm of [CartridgeSlot::load]. *)
Definition load_mbc6 (header : CartridgeHeader) (rom_bytes : list Z) : V Mbc6Cartridge :=
  _ ← validate_mbc6 header (vec_len rom_bytes);
  classification ← v_classification;
  mret {|
    rom := rom_bytes;
    ram := vec_zeroed MBC6_SUPPORTED_RAM_BYTES;
    flash := replicate (Z.to_nat MBC6_FLASH_BYTES) 0xFF;
    hidden_region := replicate (Z.to_nat MBC6_HIDDEN_BYTES) 0xFF;
    has_battery := true;
    header := header;
    classification := classification;
    ram_enabled := false;
    flash_enabled := false;
    flash_write_enabled := false;
    ram_bank_a := 0;
    ram_bank_b := 1;
    rom_flash_bank_a := 2;
    rom_flash_bank_b := 3;
    window_select_a := SelectRom;
    window_select_b := SelectRom;
    sector0_protected := false;
    flash_mode := ReadArray
  |}.

Definition board (c : Mbc6Cartridge) : Board :=
  mkBoard BoardMbc6 (header c) (classification c) (rom c) (Some (vec_len (ram c))) (has_battery c) false true MBC6_SUPPORTED_ROM_BYTES.

#[export] Instance mbc6_mapper : Mapper Mbc6Cartridge := {|
  m_board := board;
  m_ram := fun c => Some (ram c);
  m_settle := fun _ c => c;
  m_taken_up := fun s => s;
  m_read_rom := read_rom;
  m_mapped_rom_window := mapped_rom_window;
  m_write_rom := write_rom;
  m_read_ram := read_ram;
  m_read_ram_timed := fun a _ c => v ← read_ram a c; Done (v, c);
  m_write_ram := write_ram;
  m_write_ram_timed := fun a v _ c => write_ram a v c;
  m_describe_external_access := describe_external_access;
  m_advance_rtc_seconds := fun _ c => Done c;
  m_advance_mbc3_rtc_clock_ticks := fun _ c => Done c;
  m_persistence_metadata := persistence_metadata;
  m_persistent_state := persistent_state;
  m_restore_persistent_state := restore_persistent_state
|}.

(** ** Writes confined to a range

    [rewrites lo hi l l']: the same length, bytes still, and nothing changed
    outside [lo..hi]. *)

Definition rewrites (lo hi : Z) (l l' : list Z) : Prop :=
  vec_len l' = vec_len l /\ (bytes l -> bytes l') /\
  forall j, Z.of_nat j < lo \/ hi <= Z.of_nat j -> l' !! j = l !! j.

Lemma rewrites_refl lo hi l : rewrites lo hi l l.
Proof. by split_and!. Qed.

Lemma rewrites_trans lo hi l1 l2 l3 : rewrites lo hi l1 l2 -> rewrites lo hi l2 l3 -> rewrites lo hi l1 l3.
Proof.
  intros (Hl1 & Hb1 & Hj1) (Hl2 & Hb2 & Hj2). split_and!; [congruence | by auto |].
  intros j Hj. by rewrite Hj2, Hj1.
Qed.

Lemma rewrites_weaken lo hi lo' hi' l l' : lo' <= lo -> hi <= hi' -> rewrites lo hi l l' -> rewrites lo' hi' l l'.
Proof. intros ? ? (? & ? & Hj). split_and!; [done..|]. intros j ?. apply Hj. lia. Qed.

Lemma rewrites_take lo hi l l' : rewrites lo hi l l' -> take (Z.to_nat lo) l' = take (Z.to_nat lo) l.
Proof.
  intros (_ & _ & Hj). apply list_eq. intros j. rewrite !lookup_take. case_decide; [|done]. apply Hj. lia.
Qed.

Lemma rewrites_set l i v : 0 <= i -> u8 v -> rewrites i (i + 1) l (vec_set l i v).
Proof.
  intros Hi Hv. split_and!; [apply vec_len_set | intros; by apply bytes_set |].
  intros j Hj. unfold vec_set. apply list_lookup_insert_ne. lia.
Qed.

Lemma bytes_lookup l : bytes l <-> forall j b, l !! j = Some b -> u8 b.
Proof. apply Forall_lookup. Qed.

Lemma vec_fill_ok l start n v : 0 <= start -> 0 <= n -> start + n <= vec_len l -> u8 v ->
  finishes (vec_fill l start n v) (rewrites start (start + n) l).
Proof.
  intros Hs Hn Hl Hv. unfold vec_fill. destruct (Z.leb_spec (start + n) (vec_len l)); [|lia].
  unfold vec_len in *. split_and!.
  - unfold vec_len. rewrite !length_app, length_take, length_replicate, length_drop. lia.
  - intros Hb. apply Forall_app; split; [by apply Forall_take|].
    apply Forall_app; split; [by apply Forall_replicate | by apply Forall_drop].
  - intros j Hj. rewrite lookup_app, lookup_take. destruct Hj as [Hj|Hj].
    + rewrite decide_True by lia. destruct (l !! j) eqn:E; [done|]. apply lookup_ge_None in E. lia.
    + rewrite decide_False by lia. rewrite length_take, lookup_app_r by (rewrite length_replicate; lia).
      rewrite length_replicate, lookup_drop. f_equal. lia.
Qed.

(** ** Invariant *)

Record program_ok (target : Mbc6ProgramTarget) (st : Mbc6ProgramState) : Prop := {
  po_target : program_target st = target;
  po_buffer : vec_len (buffer st) = MBC6_FLASH_PROGRAM_BLOCK_BYTES /\ bytes (buffer st);
  po_written : Z.of_nat (length (written st)) = MBC6_FLASH_PROGRAM_BLOCK_BYTES
}.

Definition mode_ok (m : Mbc6FlashMode) : Prop :=
  match m with
  | Program st => program_ok MainFlash st
  | HiddenProgram st => program_ok HiddenRegion st
  | Status _ status => u8 status
  | _ => True
  end.

(** The memories have the sizes of the board, and a program buffer is a
    block. *)
Record ok (c : Mbc6Cartridge) : Prop := {
  ok_rom : vec_len (rom c) = MBC6_SUPPORTED_ROM_BYTES;
  ok_ram : vec_len (ram c) = MBC6_SUPPORTED_RAM_BYTES /\ bytes (ram c);
  ok_flash : vec_len (flash c) = MBC6_FLASH_BYTES /\ bytes (flash c);
  ok_hidden : vec_len (hidden_region c) = MBC6_HIDDEN_BYTES /\ bytes (hidden_region c);
  ok_mode : mode_ok (flash_mode c)
}.

(** What the write-enable line protects. *)
Definition shielded (c : Mbc6Cartridge) : list Z * list Z * bool :=
  (take (Z.to_nat MBC6_FLASH_SECTOR_BYTES) (flash c), hidden_region c, sector0_protected c).

Lemma shielded_eq c c' : shielded c' = shielded c ->
  take (Z.to_nat MBC6_FLASH_SECTOR_BYTES) (flash c') = take (Z.to_nat MBC6_FLASH_SECTOR_BYTES) (flash c) /\
  hidden_region c' = hidden_region c /\ sector0_protected c' = sector0_protected c.
Proof. unfold shielded. generalize (Z.to_nat MBC6_FLASH_SECTOR_BYTES). by intros n [= -> -> ->]. Qed.

(** A step of the flash chip: it changes the chip alone, and with writes
    disabled nothing of what is shielded. *)
Record chip_step (c c' : Mbc6Cartridge) : Prop := {
  cs_ok : ok c';
  cs_chip : c' = c <| flash := flash c' |> <| hidden_region := hidden_region c' |>
                   <| sector0_protected := sector0_protected c' |> <| flash_mode := flash_mode c' |>;
  cs_shield : flash_write_enabled c = false -> shielded c' = shielded c
}.

Lemma chip_step_refl c : ok c -> chip_step c c.
Proof. intros. constructor; [done | by destruct c | done]. Qed.

Lemma chip_step_trans c1 c2 c3 : chip_step c1 c2 -> chip_step c2 c3 -> chip_step c1 c3.
Proof.
  intros [Ho1 Hc1 Hs1] [Ho2 Hc2 Hs2]. constructor; [done | |].
  - rewrite Hc2, Hc1. by destruct c1, c2, c3.
  - intros Hw. rewrite Hs2, Hs1; [done..|]. rewrite Hc1. by destruct c1.
Qed.

Lemma chip_step_mode c m : ok c -> mode_ok m -> chip_step c (c <| flash_mode := m |>).
Proof. intros [] Hm. destruct c. by constructor; [constructor|..]. Qed.

Lemma chip_step_flash c l lo hi : ok c -> rewrites lo hi (flash c) l ->
  (flash_write_enabled c = false -> MBC6_FLASH_SECTOR_BYTES <= lo) -> chip_step c (c <| flash := l |>).
Proof.
  intros [Hr Hm [Hf Hb] Hh Ho] Hl Hw. pose proof Hl as (Hlen & Hbytes & _). destruct c. simpl in *.
  constructor; simpl; [constructor; simpl; try done | done |].
  - split; [congruence | by apply Hbytes].
  - intros Hd. unfold shielded. simpl. do 2 f_equal. apply (rewrites_take _ hi).
    by apply (rewrites_weaken lo hi); [apply Hw|..].
Qed.

Lemma chip_step_hidden c l lo hi : ok c -> rewrites lo hi (hidden_region c) l -> flash_write_enabled c = true ->
  chip_step c (c <| hidden_region := l |>).
Proof.
  intros [Hr Hm Hf [Hh Hb] Ho] Hl Hw. pose proof Hl as (Hlen & Hbytes & _). destruct c. simpl in *.
  constructor; simpl; [constructor; simpl; try done | done | congruence].
  split; [congruence | by apply Hbytes].
Qed.

Lemma chip_step_protect c b : ok c -> flash_write_enabled c = true -> chip_step c (c <| sector0_protected := b |>).
Proof. intros [] Hw. destruct c. simpl in *. constructor; [by constructor | done | simpl; congruence]. Qed.

(** ** Erasing *)

Lemma sector_bounds s : 0 <= s < 8 ->
  0 <= s * MBC6_FLASH_SECTOR_BYTES /\ s * MBC6_FLASH_SECTOR_BYTES + MBC6_FLASH_SECTOR_BYTES <= MBC6_FLASH_BYTES /\
  (s <> 0 -> MBC6_FLASH_SECTOR_BYTES <= s * MBC6_FLASH_SECTOR_BYTES).
Proof. unfold MBC6_FLASH_SECTOR_BYTES, MBC6_FLASH_BYTES. lia. Qed.

Lemma erase_unlocked_ok s c : ok c -> 0 <= s < 8 ->
  finishes (if (s =? 0) && sector0_locked c then Done c else erase_sector_index s c) (chip_step c).
Proof.
  intros Hok Hs. destruct ((s =? 0) && sector0_locked c) eqn:E; [by apply chip_step_refl|].
  destruct (sector_bounds s Hs) as (Hlo & Hhi & Hne). destruct (ok_flash c Hok) as [Hlen Hb].
  unfold erase_sector_index. apply finishes_bind.
  eapply finishes_mono; [apply vec_fill_ok; try done; by rewrite Hlen|].
  intros l Hl. eapply chip_step_flash; [done | exact Hl|].
  intros Hw. apply Hne. intros ->. unfold sector0_locked in E. by rewrite Hw in E.
Qed.

Lemma erase_sector_ok offset c : ok c -> 0 <= offset -> finishes (erase_sector offset c) (chip_step c).
Proof.
  intros Hok Ho. unfold erase_sector. apply erase_unlocked_ok; [done|].
  change (MBC6_FLASH_BYTES / MBC6_FLASH_SECTOR_BYTES) with 8. apply Z.mod_pos_bound. lia.
Qed.

Lemma erase_sectors_ok l c : ok c -> Forall (fun s => 0 <= s < 8) l -> finishes (erase_sectors l c) (chip_step c).
Proof.
  intros Hok Hl. revert c Hok. induction Hl as [|s l Hs _ IH]; intros c Hok; simpl; [by apply chip_step_refl|].
  apply finishes_bind. eapply finishes_mono; [by apply erase_unlocked_ok|]. intros c1 H1. simpl.
  eapply finishes_mono; [by apply IH, H1|]. intros c2. by apply chip_step_trans.
Qed.

Lemma erase_chip_ok c : ok c -> finishes (erase_chip c) (chip_step c).
Proof. intros Hok. apply erase_sectors_ok; [done|]. repeat constructor; done. Qed.

(** ** Programming *)

Lemma block_bounds len i : 0 <= i < len -> len mod MBC6_FLASH_PROGRAM_BLOCK_BYTES = 0 ->
  let base := Z.ldiff i (MBC6_FLASH_PROGRAM_BLOCK_BYTES - 1) in
  base = i - i mod MBC6_FLASH_PROGRAM_BLOCK_BYTES /\ 0 <= base /\ base + MBC6_FLASH_PROGRAM_BLOCK_BYTES <= len.
Proof.
  intros Hi Hlen base. subst base. unfold MBC6_FLASH_PROGRAM_BLOCK_BYTES in *.
  change (128 - 1) with (Z.ones 7).
  rewrite Z.ldiff_ones_r, Z.shiftr_div_pow2, Z.shiftl_mul_pow2 by done. change (2 ^ 7) with 128.
  divmod_lia.
Qed.

Lemma byte_offset_spec offset : program_byte_offset offset = offset mod MBC6_FLASH_PROGRAM_BLOCK_BYTES.
Proof. unfold program_byte_offset. change (MBC6_FLASH_PROGRAM_BLOCK_BYTES - 1) with (Z.ones 7). by rewrite land_mask. Qed.

Definition target_len (target : Mbc6ProgramTarget) : Z :=
  match target with MainFlash => MBC6_FLASH_BYTES | HiddenRegion => MBC6_HIDDEN_BYTES end.

Lemma memory_ok target c : ok c ->
  vec_len (memory_of_target target c) = target_len target /\ bytes (memory_of_target target c).
Proof. intros []. by destruct target. Qed.

Lemma program_block_base_ok target offset c : ok c -> 0 <= offset ->
  exists base, program_block_base target offset c = Done base /\
    base = offset mod target_len target - offset mod MBC6_FLASH_PROGRAM_BLOCK_BYTES /\
    0 <= base /\ base + MBC6_FLASH_PROGRAM_BLOCK_BYTES <= target_len target.
Proof.
  intros Hok Ho. destruct (ok_flash c Hok) as [Hlen _].
  assert (Hmod : forall len, 0 < len -> (128 | len) -> (offset mod len) mod 128 = offset mod 128).
  { intros len Hpos [k ->]. rewrite (Z.mul_comm k), Z.rem_mul_r, (Z.mul_comm 128), Z.mod_add by lia.
    by rewrite Z.mod_mod. }
  unfold program_block_base, target_len. destruct target.
  - rewrite Hlen. unfold checked_rem. simpl. eexists. split; [done|].
    edestruct (block_bounds MBC6_FLASH_BYTES (offset mod MBC6_FLASH_BYTES)) as (-> & ? & ?); [by apply Z.mod_pos_bound | done|].
    split_and!; try done. unfold MBC6_FLASH_PROGRAM_BLOCK_BYTES, MBC6_FLASH_BYTES. rewrite Hmod; [done | lia | by exists 8192].
  - eexists. split; [done|]. change (MBC6_HIDDEN_BYTES - 1) with (Z.ones 8). rewrite land_mask by done.
    edestruct (block_bounds MBC6_HIDDEN_BYTES (offset mod 2 ^ 8)) as (-> & ? & ?); [by apply Z.mod_pos_bound | done|].
    split_and!; try done. unfold MBC6_FLASH_PROGRAM_BLOCK_BYTES, MBC6_HIDDEN_BYTES. rewrite Hmod; [done | lia | by exists 2].
Qed.

(** A committed cell: what was there, narrowed by the buffer where it was
    written. *)
Definition commit_cell (st : Mbc6ProgramState) (base : Z) (j : nat) (old : Z) : Z :=
  let i := Z.to_nat (Z.of_nat j - base) in
  match written st !! i, buffer st !! i with
  | Some true, Some b => Z.land old b
  | _, _ => old
  end.

Lemma commit_bytes_spec n a base st memory target :
  program_ok target st -> 0 <= base -> Z.of_nat (a + n) <= MBC6_FLASH_PROGRAM_BLOCK_BYTES ->
  base + Z.of_nat (a + n) <= vec_len memory ->
  exists memory', commit_bytes (map Z.of_nat (seq a n)) base st memory = Done memory' /\
    vec_len memory' = vec_len memory /\
    forall j, memory' !! j = if decide (base + Z.of_nat a <= Z.of_nat j < base + Z.of_nat (a + n))
                            then commit_cell st base j <$> memory !! j else memory !! j.
Proof.
  intros Hst Hbase. revert a memory. induction n as [|n IH]; intros a memory Ha Hlen; cbn [seq map].
  { exists memory. split_and!; [done..|]. intros j. by rewrite decide_False by lia. }
  destruct Hst as [_ [Hbuf Hb] Hwr]. unfold vec_len in *.
  destruct (lookup_lt_is_Some_2 (written st) (Z.to_nat (Z.of_nat a))) as [w Hw]; [lia|].
  destruct (lookup_lt_is_Some_2 (buffer st) (Z.to_nat (Z.of_nat a))) as [b Hbv]; [lia|].
  destruct (lookup_lt_is_Some_2 memory (Z.to_nat (base + Z.of_nat a))) as [old Hold]; [lia|].
  set (m1 := if w then vec_set memory (base + Z.of_nat a) (Z.land old b) else memory).
  assert (Hm1 : commit_bytes (Z.of_nat a :: map Z.of_nat (seq (S a) n)) base st memory =
                commit_bytes (map Z.of_nat (seq (S a) n)) base st m1).
  { subst m1. cbn [commit_bytes]. rewrite Hw. destruct w; [|reflexivity]. unfold vec_index, vec_get. rewrite Hbv, Hold. reflexivity. }
  assert (Hl1 : length m1 = length memory) by (subst m1; destruct w; [apply length_insert | done]).
  rewrite Hm1. destruct (IH (S a) m1) as (m' & Hm' & Hl' & Hj'); [lia | lia |].
  exists m'. split_and!; [done | lia |]. intros j. rewrite Hj'.
  destruct (decide (j = Z.to_nat (base + Z.of_nat a))) as [->|Hne].
  - rewrite decide_False, decide_True, Hold by lia. simpl. unfold commit_cell.
    replace (Z.to_nat (Z.of_nat (Z.to_nat (base + Z.of_nat a)) - base)) with (Z.to_nat (Z.of_nat a)) by lia.
    rewrite Hw, Hbv. subst m1. destruct w; [|done]. unfold vec_set. by rewrite list_lookup_insert_eq by lia.
  - assert (Hsame : m1 !! j = memory !! j).
    { subst m1. destruct w; [|done]. unfold vec_set. apply list_lookup_insert_ne. lia. }
    rewrite Hsame. destruct (decide (base + Z.of_nat (S a) <= Z.of_nat j < base + Z.of_nat (S a + n))).
    + by rewrite decide_True by lia.
    + by rewrite decide_False by lia.
Qed.

Lemma commit_cell_u8 st base j old target : program_ok target st -> u8 old -> u8 (commit_cell st base j old).
Proof. intros _ Ho. unfold commit_cell. repeat case_match; auto with gb. Qed.

(** The commit of a block of its target. *)
Lemma commit_block st base target c : ok c -> program_ok target st -> 0 <= base ->
  base + MBC6_FLASH_PROGRAM_BLOCK_BYTES <= target_len target ->
  exists m, commit_bytes (map Z.of_nat (seq 0 (Z.to_nat MBC6_FLASH_PROGRAM_BLOCK_BYTES))) base st
      (memory_of_target target c) = Done m /\
    rewrites base (base + MBC6_FLASH_PROGRAM_BLOCK_BYTES) (memory_of_target target c) m /\
    forall j, base <= Z.of_nat j < base + MBC6_FLASH_PROGRAM_BLOCK_BYTES ->
      m !! j = commit_cell st base j <$> memory_of_target target c !! j.
Proof.
  intros Hok Hst Hbase Hlen. destruct (memory_ok target c Hok) as [Hl Hb].
  destruct (commit_bytes_spec (Z.to_nat MBC6_FLASH_PROGRAM_BLOCK_BYTES) 0 base st (memory_of_target target c) target)
    as (m & Hm & Hml & Hj); try done; [by rewrite Hl|].
  exists m. change (Z.of_nat (0 + Z.to_nat MBC6_FLASH_PROGRAM_BLOCK_BYTES)) with MBC6_FLASH_PROGRAM_BLOCK_BYTES in Hj.
  split_and!; [done | split_and!; [done | |] |].
  - intros _. apply bytes_lookup. intros j b. rewrite Hj. case_decide; [|by apply bytes_lookup].
    destruct (memory_of_target target c !! j) eqn:E; [|done]. intros [= <-].
    eapply commit_cell_u8; [done|]. by apply (proj1 (bytes_lookup _) Hb j).
  - intros j Hout. rewrite Hj. by rewrite decide_False by lia.
  - intros j Hin. rewrite Hj. by rewrite decide_True by lia.
Qed.

Lemma commit_program_buffer_ok st base target c : ok c -> program_ok target st -> 0 <= base ->
  base + MBC6_FLASH_PROGRAM_BLOCK_BYTES <= target_len target ->
  finishes (commit_program_buffer st base c) (chip_step c).
Proof.
  intros Hok Hst Hbase Hlen. unfold commit_program_buffer. rewrite (po_target _ _ Hst).
  set (refused := match target with MainFlash => _ | HiddenRegion => _ end).
  destruct refused eqn:Hr; [by apply chip_step_refl|].
  destruct (commit_block st base target c) as (m & Hm & Hrw & _); try done. rewrite Hm. clear Hm.
  cbn [mbind outcome_bind]. subst refused. destruct target; cbn [target_len memory_of_target set_memory_of_target] in *.
  - eapply chip_step_flash; [done | exact Hrw|]. intros Hw. unfold sector0_locked in Hr. rewrite Hw, andb_true_r in Hr.
    by apply Z.ltb_ge in Hr.
  - eapply chip_step_hidden; [done | exact Hrw|]. by apply negb_false_iff in Hr.
Qed.

Lemma length_slice l start n : 0 <= start -> 0 <= n -> start + n <= vec_len l ->
  vec_len (take (Z.to_nat n) (drop (Z.to_nat start) l)) = n.
Proof. unfold vec_len. intros. rewrite length_take, length_drop. lia. Qed.

Lemma seed_ok target st base c : ok c -> program_ok target st -> 0 <= base ->
  base + MBC6_FLASH_PROGRAM_BLOCK_BYTES <= target_len target ->
  finishes (seed_program_buffer st base c) (fun st' => program_ok target st' /\
    st' = st <| buffer := take (Z.to_nat MBC6_FLASH_PROGRAM_BLOCK_BYTES)
                            (drop (Z.to_nat base) (memory_of_target target c)) |>).
Proof.
  intros Hok Hst Hbase Hlen. destruct (memory_ok target c Hok) as [Hl Hb].
  unfold seed_program_buffer, vec_slice. rewrite (po_target _ _ Hst), Hl.
  destruct (Z.leb_spec (base + MBC6_FLASH_PROGRAM_BLOCK_BYTES) (target_len target)); [|lia]. simpl.
  set (s := take _ _).
  assert (Hs : vec_len s = MBC6_FLASH_PROGRAM_BLOCK_BYTES) by (apply length_slice; [done..|by rewrite Hl]).
  destruct Hst as [? [Hbuf ?] ?]. rewrite Hbuf, Hs. simpl. split; [|done].
  destruct st. constructor; simpl in *; try done. split; [done|]. by apply Forall_take, Forall_drop.
Qed.

Lemma enter_block_ok target st base c : ok c -> program_ok target st -> 0 <= base ->
  base + MBC6_FLASH_PROGRAM_BLOCK_BYTES <= target_len target ->
  finishes (enter_block base st c) (program_ok target).
Proof.
  intros Hok Hst Hbase Hlen. unfold enter_block. case_decide; [done|].
  eapply finishes_mono; [apply (seed_ok target); try done | by intros ? []].
  destruct Hst as [? ? ?], st. constructor; simpl in *; try done. by rewrite length_map.
Qed.

Lemma store_byte_ok target st i value : program_ok target st -> u8 value -> program_ok target (store_byte i value st).
Proof.
  intros [? [? ?] ?] Hv. destruct st. constructor; simpl in *; [done | | by rewrite length_insert].
  by rewrite vec_len_set; split; [|apply bytes_set].
Qed.

Lemma program_write_ok target st offset value c :
  ok c -> program_ok target st -> 0 <= offset -> u8 value ->
  finishes (program_write st offset value c) (fun r => program_ok target (snd (fst r)) /\ chip_step c (snd r)).
Proof.
  intros Hok Hst Ho Hv. unfold program_write. rewrite (po_target _ _ Hst).
  destruct (program_block_base_ok target offset c Hok Ho) as (base & -> & _ & Hb & Hlen).
  do 2 apply finishes_bind. eapply finishes_mono; [by apply (enter_block_ok target)|].
  clear st Hst. intros st Hst. apply (store_byte_ok _ _ (program_byte_offset offset) value) in Hst; [|done].
  cbv zeta. destruct (negb _); [by split; [|apply chip_step_refl]|].
  destruct (final_byte_seen _).
  - apply finishes_bind. eapply finishes_mono; [by apply (commit_program_buffer_ok _ _ target)|].
    by intros c'.
  - split; [|by apply chip_step_refl]. destruct Hst, (store_byte _ _ _). by constructor.
Qed.

(** ** Commands *)

Lemma restart_mode_ok offset value : mode_ok (restart_or_idle offset value).
Proof. unfold restart_or_idle. by destruct (is_unlock_aa _ _). Qed.

Lemma program_new_ok target : program_ok target (program_new target).
Proof. constructor; [done | | done]. split; [done|]. apply Forall_replicate. unfold u8. lia. Qed.

Lemma status_ok source c : mode_ok (status_mode source c).
Proof. simpl. by destruct (sector0_protected c). Qed.

Lemma primary_mode_ok offset value : mode_ok (execute_primary_command offset value).
Proof.
  unfold execute_primary_command. pose proof (program_new_ok MainFlash). repeat case_match; try done.
  apply restart_mode_ok.
Qed.

Lemma extended_ok value c : ok c ->
  mode_ok (fst (execute_extended_command value c)) /\ chip_step c (snd (execute_extended_command value c)).
Proof.
  intros Hok. pose proof (chip_step_refl c Hok). pose proof (program_new_ok HiddenRegion).
  pose proof (status_ok IgnoredWriteProtected c). unfold execute_extended_command.
  destruct (value =? 0x04).
  { destruct (flash_write_enabled c) eqn:Hw; [|done]. cbn [fst snd]. split; [apply status_ok|].
    apply (chip_step_hidden c _ 0 MBC6_HIDDEN_BYTES); [done | | done]. destruct (ok_hidden c Hok) as [Hl _].
    split_and!; [unfold vec_len; by rewrite length_map | |].
    - intros _. apply Forall_map, Forall_true. intros. unfold u8. lia.
    - intros j [Hj|Hj]; [lia|]. rewrite <- Hl in Hj. unfold vec_len in Hj.
      rewrite !lookup_ge_None_2; rewrite ?length_map; [done | lia..]. }
  destruct (flash_write_enabled c) eqn:Hw; rewrite ?andb_true_r, ?andb_false_r;
    repeat case_match; cbn [fst snd]; split; auto using status_ok, chip_step_protect.
  all: done.
Qed.

Lemma erase_command_ok offset value c : ok c -> 0 <= offset ->
  finishes (execute_erase_command offset value c) (fun r => mode_ok (fst r) /\ chip_step c (snd r)).
Proof.
  intros Hok Ho. unfold execute_erase_command.
  destruct ((value =? 0x10) && (offset =? MBC6_FLASH_UNLOCK_AA_OFFSET));
    [|destruct (value =? 0x30); [|by split; [apply restart_mode_ok | apply chip_step_refl]]]; apply finishes_bind.
  - eapply finishes_mono; [by apply erase_chip_ok|]. intros c' Hc'. by split; [apply status_ok|].
  - eapply finishes_mono; [by apply erase_sector_ok|]. intros c' Hc'. by split; [apply status_ok|].
Qed.

Lemma next_mode_ok mode offset value c : ok c -> mode_ok mode -> 0 <= offset -> u8 value ->
  finishes (next_mode mode offset value c) (fun r => mode_ok (fst r) /\ chip_step c (snd r)).
Proof.
  intros Hok Hm Ho Hv. pose proof (chip_step_refl c Hok). pose proof (restart_mode_ok offset value).
  destruct mode; unfold next_mode;
    try (split; [by try destruct (is_unlock_aa _ _); try destruct (is_unlock_55 _ _); try destruct (value =? 0x77) | done]).
  - split; [apply primary_mode_ok | done].
  - by apply erase_command_ok.
  - by apply extended_ok.
  - apply finishes_bind. eapply finishes_mono; [by apply (program_write_ok MainFlash)|].
    intros [[b st] c'] [??]. simpl in *. split; [destruct b; [apply (status_ok SourceProgram) | done] | done].
  - apply finishes_bind. eapply finishes_mono; [by apply (program_write_ok HiddenRegion)|].
    intros [[b st] c'] [??]. simpl in *. split; [destruct b; [apply (status_ok SourceProgram) | done] | done].
Qed.

Lemma write_flash_ok offset value c : ok c -> 0 <= offset -> u8 value ->
  finishes (write_flash offset value c) (chip_step c).
Proof.
  intros Hok Ho Hv. unfold write_flash. destruct (value =? 0xF0); [by apply chip_step_mode|].
  pose proof (chip_step_mode c ReadArray Hok I) as H0. apply finishes_bind.
  eapply finishes_mono; [apply next_mode_ok; try done; [apply H0 | by destruct Hok]|].
  intros [mode c'] [Hm Hc']. simpl in *. eapply chip_step_trans; [exact H0|].
  eapply chip_step_trans; [exact Hc'|]. by apply chip_step_mode; [apply Hc'|].
Qed.

(** ** Accesses *)

Lemma flash_offset_nonneg w offset c : 0 <= offset -> 0 <= flash_offset w offset c.
Proof.
  intros Ho. unfold flash_offset, effective_rom_flash_bank, MBC6_ROM_FLASH_BANK_BYTES.
  change (MBC6_FLASH_BANK_COUNT =? 0) with false. cbv iota.
  pose proof (Z.mod_pos_bound (match w with Mbc6WindowA => rom_flash_bank_a c | Mbc6WindowB => rom_flash_bank_b c end)
    MBC6_FLASH_BANK_COUNT eq_refl). lia.
Qed.

Lemma read_flash_ok offset c : ok c -> 0 <= offset -> finishes (read_flash offset c) u8.
Proof.
  intros [_ _ [Hf Hfb] [Hh Hhb] Hm] Ho. unfold read_flash, checked_rem. rewrite Hf.
  assert (Harray : finishes (i ← (if MBC6_FLASH_BYTES =? 0
      then Panic "attempt to calculate the remainder with a divisor of zero" else Done (offset mod MBC6_FLASH_BYTES));
    vec_index (flash c) i) u8).
  { apply vec_index_in; [done|]. rewrite Hf. by apply Z.mod_pos_bound. }
  destruct (flash_mode c); try exact Harray.
  - simpl. by repeat case_match.
  - apply vec_index_in; [done|]. rewrite Hh. change (MBC6_HIDDEN_BYTES - 1) with (Z.ones 8).
    rewrite land_mask by done. by apply Z.mod_pos_bound.
  - exact Hm.
Qed.

Lemma bank_range w n c : 0 < n -> 0 <= effective_rom_flash_bank w n c < n.
Proof. intros Hn. unfold effective_rom_flash_bank. destruct (Z.eqb_spec n 0); [lia|]. by apply Z.mod_pos_bound. Qed.

(** A window shows a bank of the image, or says that it shows flash. *)
Lemma high_window w a c : ok c -> 0 <= a < 0x2000 ->
  (exists v, read_high_window w a c = Done v /\ u8 v /\
     source (mapped_high_window w a c) = SourceFlash /\ 0 <= bank (mapped_high_window w a c) /\
     bank_size (mapped_high_window w a c) = 0x2000 /\ bank_offset (mapped_high_window w a c) = a) \/
  exists b, 0 <= b < 128 /\ read_high_window w a c = Done (byte_or_absent (vec_get (rom c) (b * 0x2000 + a))) /\
    mapped_high_window w a c = rom_window b 0x2000 a.
Proof.
  intros Hok Ha. unfold read_high_window, mapped_high_window. destruct (window_select w c).
  - right. unfold rom_flash_bank_count. rewrite (ok_rom c Hok). eexists. split_and!; [| | done..]; by apply bank_range.
  - left. assert (finishes (if flash_enabled c then read_flash (flash_offset w a c) c else Done RAM_ABSENT_READ_VALUE) u8)
      as (v & -> & Hv)%finishes_done.
    { destruct (flash_enabled c); [|done]. apply read_flash_ok; [done | apply flash_offset_nonneg; lia]. }
    exists v. split_and!; try done. by apply bank_range.
Qed.

Lemma mbc6_rom_contract_holds c : ok c -> rom_contract c.
Proof.
  intros Hok a Ha. unfold shows_flash. cbn [m_read_rom m_mapped_rom_window m_board mbc6_mapper board board_rom
    board_full_image board_window_exact]. rewrite (ok_rom c Hok).
  assert (Hwin : forall w o, 0 <= o < 0x2000 -> read_rom a c = read_high_window w o c ->
    mapped_rom_window a c = Some (mapped_high_window w o c) ->
    ((exists v, read_rom a c = Done v /\ u8 v) /\ (exists b size offset,
       mapped_rom_window a c = Some (mkWindow SourceFlash b size offset) /\ 0 <= b /\ 0 <= offset < size)) \/
    exists b size offset, 0 <= b /\ 0 <= offset < size /\
      read_rom a c = Done (byte_or_absent (vec_get (rom c) (b * size + offset))) /\
      (MBC6_SUPPORTED_ROM_BYTES <= MBC6_SUPPORTED_ROM_BYTES -> b * size + offset < MBC6_SUPPORTED_ROM_BYTES) /\
      (true = true -> mapped_rom_window a c = Some (rom_window b size offset))).
  { intros w o Ho Hread Hmap. rewrite Hread, Hmap.
    destruct (high_window w o c Hok Ho) as [(v & Hv & Hu & Hs & Hb & Hz & Hoff) | (b & Hb & Hv & Hw)].
    - left. split; [by exists v|]. destruct (mapped_high_window w o c). simpl in *. subst. by do 3 eexists.
    - right. exists b, 0x2000, o. rewrite Hv, Hw. unfold MBC6_SUPPORTED_ROM_BYTES. split_and!; try done; lia. }
  unfold rom_area, read_rom, mapped_rom_window in *.
  destruct (Z.leb_spec 0 a); [|lia]. destruct (Z.leb_spec a 0x3FFF).
  { right. exists 0, 0x4000, a. unfold MBC6_SUPPORTED_ROM_BYTES. split_and!; try done; lia. }
  destruct (Z.leb_spec 0x4000 a); [|lia]. destruct (Z.leb_spec a 0x5FFF).
  { apply (Hwin Mbc6WindowA (a - 0x4000)); [lia | done..]. }
  destruct (Z.leb_spec 0x6000 a); [|lia]. destruct (Z.leb_spec a 0x7FFF); [|lia].
  apply (Hwin Mbc6WindowB (a - 0x6000)); [lia | done..].
Qed.

(** ** RAM *)

Definition ram_cell (a : Z) (c : Mbc6Cartridge) : Z :=
  if a <? 0xB000 then effective_ram_bank Mbc6WindowA c * MBC6_RAM_BANK_BYTES + (a - 0xA000)
  else effective_ram_bank Mbc6WindowB c * MBC6_RAM_BANK_BYTES + (a - 0xB000).

Lemma mbc6_effective_ram_offset_ok a c : external_area a -> effective_ram_offset a c = Done (ram_cell a c).
Proof. intros Ha. unfold effective_ram_offset, ram_cell. rewrite ram_base_offset_ok by done. simpl. by destruct (a <? 0xB000). Qed.

Lemma mbc6_ram_cell_range a c r : ok c -> Some (ram c) = Some r -> external_area a -> 0 <= ram_cell a c < vec_len r.
Proof.
  intros Hok [= <-] Ha. destruct (ok_ram c Hok) as [-> _].
  unfold ram_cell, effective_ram_bank, external_area, MBC6_RAM_BANK_BYTES, MBC6_SUPPORTED_RAM_BYTES in *.
  change MBC6_RAM_BANK_COUNT with 8. case_match; prune; divmod_lia.
Qed.

Lemma mbc6_set_ram_ok c r l : ok c -> Some (ram c) = Some r -> vec_len l = vec_len r -> bytes l ->
  ok (c <| ram := l |>) /\ board (c <| ram := l |>) = board c /\ Some (ram (c <| ram := l |>)) = Some l /\
  ram_enabled (c <| ram := l |>) = ram_enabled c /\ (forall a, ram_cell a (c <| ram := l |>) = ram_cell a c).
Proof.
  destruct c. simpl. intros [? [? ?] ? ? ?] [= <-] Hlen Hb. simpl in *. split_and!; try done.
  - constructor; try done. simpl. by rewrite Hlen.
  - unfold board. simpl. by rewrite Hlen.
Qed.

#[export, refine] Instance mbc6_linear : LinearRamLaws Mbc6Cartridge ok := {|
  lr_enabled := ram_enabled;
  lr_cell := ram_cell;
  lr_settle := fun _ _ => eq_refl;
  lr_set := fun l c => c <| ram := l |>;
  lr_port_read := fun _ _ => RAM_ABSENT_READ_VALUE;
  lr_port_write := fun _ _ c => c;
  lr_cell_range := mbc6_ram_cell_range;
  lr_set_ok := mbc6_set_ram_ok
|}.
Proof.
  - intros a c _ Ha. simpl. unfold read_ram. rewrite mbc6_effective_ram_offset_ok by done. by destruct (ram_enabled c).
  - done.
  - intros a v c _ Ha. simpl. unfold write_ram. rewrite mbc6_effective_ram_offset_ok by done. by destruct (ram_enabled c).
  - intros a c. simpl. unfold describe_external_access. destruct (ram_enabled c); closed_port.
  - intros a v c Hok _. closed_port.
  - intros c r Hok [= <-]. by apply (ok_ram c Hok).
Defined.

(** ** Registers *)

(** A register write, or a step of the chip. *)
Definition register_step (a v : Z) (c c' : Mbc6Cartridge) : Prop :=
  ok c' /\ board c' = board c /\ ram c' = ram c /\
  (flash_write_enabled c = false -> a <> 0x1000 \/ Z.land v 1 = 0 ->
   shielded c' = shielded c /\ flash_write_enabled c' = false).

Lemma chip_register_step a v c c' : ok c -> chip_step c c' -> register_step a v c c'.
Proof.
  intros Hok [Hok' Hc Hs]. pose proof (ok_rom c' Hok'). pose proof (ok_ram c' Hok').
  assert (board c' = board c /\ ram c' = ram c /\ flash_write_enabled c' = flash_write_enabled c) as (? & ? & ?).
  { rewrite Hc. by destruct c. }
  split_and!; try done. intros Hw _. by rewrite Hs by done; split; [|congruence].
Qed.

Lemma write_flash_window_ok w a v c : ok c -> u8 v -> 0x4000 <= a -> (w = Mbc6WindowB -> 0x6000 <= a) ->
  finishes (write_flash_window w a v c) (register_step a v c).
Proof.
  intros Hok Hv Ha Hw. unfold write_flash_window.
  eapply finishes_mono; [|intros c'; by apply chip_register_step].
  destruct (_ || _); [by apply chip_step_refl|]. apply write_flash_ok; [done | | done].
  apply flash_offset_nonneg. destruct w; [lia|]. specialize (Hw eq_refl). lia.
Qed.

Lemma mbc6_write_rom_ok a v c : ok c -> u8 v -> finishes (write_rom a v c) (register_step a v c).
Proof.
  intros Hok Hv. unfold write_rom.
  repeat match goal with
  | |- finishes (if ?b then write_flash_window _ _ _ _ else _) _ =>
      destruct b eqn:?; [apply write_flash_window_ok; [done | done | prune; lia | intros; prune; try done; lia]|]
  | |- finishes (if ?b then Done _ else _) _ => destruct b eqn:?
  | |- finishes (if ?b then _ else _) _ => destruct b eqn:?
  end; try (destruct c; destruct Hok; simpl in *; split_and!; [by constructor | done | done | done]).
  - destruct c, Hok. simpl in *. destruct (has_bits v 0x01); simpl; split_and!; try done; by constructor.
  - destruct c, Hok. simpl in *. split_and!; try done; try by constructor. prune. intros _ [?|Hz]; [lia|].
    unfold has_bits. change 0x01 with 1. by rewrite Hz.
Qed.

(** ** Persistence *)

Lemma mbc6_restore_ok s c : ok c -> saved_typed s ->
  ok (fst (restore_persistent_state s c)) /\ board (fst (restore_persistent_state s c)) = board c.
Proof.
  intros Hok Hs. unfold restore_persistent_state. destruct (has_battery c), s; simpl; try done.
  destruct (Z.eqb_spec (vec_len (ram c)) (vec_len ram0)); simpl; [|done].
  destruct (Z.eqb_spec (vec_len (flash c)) (vec_len flash0)); simpl; [|done].
  destruct (Z.eqb_spec (vec_len (hidden_region c)) (vec_len hidden_region0)); simpl; [|done].
  destruct Hs as (? & ? & ?), c, Hok as [? [? ?] [? ?] [? ?] ?]. simpl in *.
  split; [constructor; simpl; try done; split; try done; congruence|]. unfold board. simpl. congruence.
Qed.

Lemma mbc6_persistence_contract_holds c : ok c -> persistence_contract ok c.
Proof.
  intros [Hr [Hm ?] [Hf ?] [Hh ?] _]. unfold persistence_contract. cbn [m_persistent_state m_board m_ram
    m_restore_persistent_state m_taken_up mbc6_mapper]. split_and!.
  - unfold persistent_state. by destruct (has_battery c).
  - intros c0 [_ [Hm0 _] [Hf0 _] [Hh0 _] _] [= _ _ _ _ Hb]. unfold persistent_state, restore_persistent_state. rewrite Hb.
    cbn [board_battery board]. destruct (has_battery c) eqn:Hc; [|exists c0; by rewrite Hb].
    rewrite Hm, Hm0, Hf, Hf0, Hh, Hh0, !Z.eqb_refl. cbn [negb]. eexists. split; [done|]. destruct c0. simpl in *. by rewrite Hb.
  - intros s c1 e. unfold restore_persistent_state. destruct (has_battery c), s; try congruence.
    repeat case_match; congruence.
Qed.

(** ** The laws of the mapper *)

Lemma mbc6_step_ok op c : ok c -> valid_op op ->
  exists c', run_op op c = Done c' /\ ok c' /\ m_board c' = m_board c.
Proof.
  intros Hok. apply linear_step_ok; [| | |done].
  - intros a v _ Hv. destruct (finishes_done _ _ (mbc6_write_rom_ok a v c Hok Hv)) as (c' & Hw & ? & ? & _). by exists c'.
  - intros s. by apply mbc6_restore_ok.
  - intros n _. by split; exists c.
Qed.

Lemma mbc6_ok_contract c : ok c -> contract ok c.
Proof.
  intros Hok. constructor.
  - by apply mbc6_rom_contract_holds.
  - by apply linear_external_contract.
  - by apply linear_storage_contract.
  - intros a v _ Hv. destruct (finishes_done _ _ (mbc6_write_rom_ok a v c Hok Hv)) as (c' & Hw & _ & _ & Hr & _).
    exists c'. split; [done|]. simpl. by rewrite Hr.
  - by apply mbc6_persistence_contract_holds.
Qed.

#[export] Instance mbc6_laws : MapperLaws Mbc6Cartridge := {|
  m_ok := ok;
  m_step_ok := mbc6_step_ok;
  m_ok_contract := mbc6_ok_contract
|}.

(** ** Loading *)

Lemma vec_len_erased n : 0 <= n -> vec_len (replicate (Z.to_nat n) 0xFF) = n.
Proof. intros. unfold vec_len. rewrite length_replicate. lia. Qed.

Lemma bytes_erased n : bytes (replicate n 0xFF).
Proof. apply Forall_replicate. unfold u8. lia. Qed.

Lemma load_mbc6_ok header rom_bytes compat cls ds c :
  accepts (load_mbc6 header rom_bytes) compat cls ds c ->
  ok c /\ rom c = rom_bytes /\ flash_write_enabled c = false.
Proof.
  intros H. unfold load_mbc6, validate_mbc6 in H. accepts_inv. subst. split_and!; [|done..].
  match goal with H : negb (vec_len _ =? _) = false |- _ => apply negb_false_iff, Z.eqb_eq in H as Hlen end.
  constructor; cbn [rom ram flash hidden_region flash_mode mode_ok].
  - exact Hlen.
  - split; [by rewrite vec_len_zeroed | apply bytes_zeroed].
  - split; [apply vec_len_erased | apply bytes_erased]. unfold MBC6_FLASH_BYTES. lia.
  - split; [apply vec_len_erased | apply bytes_erased]. unfold MBC6_HIDDEN_BYTES. lia.
  - exact I.
Qed.

(** ** Properties *)

(** An operation that cannot enable flash writes: not a write of an odd value
    to 0x1000, and not a restore from outside. *)
Definition keeps_writes_disabled (op : cart_op) : Prop :=
  match op with
  | OpWriteRom a v => a <> 0x1000 \/ Z.land v 1 = 0
  | OpRestore _ => False
  | _ => True
  end.

Lemma step_keeps_shield op c : ok c -> valid_op op -> keeps_writes_disabled op -> flash_write_enabled c = false ->
  exists c', run_op op c = Done c' /\ ok c' /\ shielded c' = shielded c /\ flash_write_enabled c' = false.
Proof.
  intros Hok Hop Hk Hw. destruct (mbc6_step_ok op c Hok Hop) as (c' & Hrun & Hok' & _).
  exists c'. split; [done|]. split; [done|].
  assert (Hram : forall a v, external_area a -> write_ram a v c = Done c' ->
    shielded c' = shielded c /\ flash_write_enabled c' = false).
  { intros a v Ha. unfold write_ram. destruct (negb (ram_enabled c)); [by intros [= <-]|].
    rewrite mbc6_effective_ram_offset_ok by done. intros [= <-]. by destruct c. }
  destruct op; simpl in *.
  - destruct Hop as [_ Hv]. pose proof (mbc6_write_rom_ok address value c Hok Hv) as Hstep. rewrite Hrun in Hstep.
    destruct Hstep as (_ & _ & _ & Hs). by apply Hs.
  - destruct Hop. by apply (Hram address value).
  - destruct Hop. by apply (Hram address value).
  - destruct (read_ram address c); by simplify_eq/=.
  - by simplify_eq.
  - by simplify_eq.
  - done.
Qed.

(** The MBC6 write-enable line shields sector 0: as long as no write sets
    bit 0 of 0x1000 and nothing is restored, a loaded cartridge never panics
    and its first flash sector, its hidden region and the protection flag stay
    as they were loaded, whatever commands, erases and programs the flash chip
    is given. *)
Theorem mbc6_write_enable_shields_sector0 header rom_bytes compat cls ds c ops :
  accepts (load_mbc6 header rom_bytes) compat cls ds c ->
  Forall valid_op ops -> Forall keeps_writes_disabled ops ->
  exists c', run_ops ops c = Done c' /\ contract ok c' /\
    take (Z.to_nat MBC6_FLASH_SECTOR_BYTES) (flash c') = take (Z.to_nat MBC6_FLASH_SECTOR_BYTES) (flash c) /\
    hidden_region c' = hidden_region c /\ sector0_protected c' = sector0_protected c.
Proof.
  intros Hload Hops Hk. destruct (load_mbc6_ok _ _ _ _ _ _ Hload) as (Hok & _ & Hw).
  assert (exists c', run_ops ops c = Done c' /\ ok c' /\ shielded c' = shielded c) as (c' & Hrun & Hok' & Hs).
  { clear Hload. revert c Hok Hw Hk. induction Hops as [|op ops Hop _ IH]; intros c Hok Hw Hk; [by exists c|].
    apply List.Forall_cons_iff in Hk as [Hk1 Hk]. cbn [run_ops].
    destruct (step_keeps_shield op c) as (c1 & -> & Hok1 & Hs1 & Hw1); try done.
    destruct (IH c1) as (c2 & ? & ? & ?); try done. exists c2. split_and!; [done | done | congruence]. }
  exists c'. split; [done|]. split; [by apply mbc6_ok_contract | by apply shielded_eq].
Qed.

(** The board of the witnesses. *)
Definition net_de_get : CartridgeHeader :=
  mkHeader [] [] [] [] [] CgbOnly SgbNone 0x20 (rom_size_decode 0x05) (ram_size_decode 0x03) [] 0 0 0.

Lemma load_net_de_get image : vec_len image = MBC6_SUPPORTED_ROM_BYTES ->
  let cls := mkClassification 0x20 "MBC6" (Supported FamilyMbc6) "" in
  exists c, accepts (load_mbc6 net_de_get image) strict cls [] c.
Proof. intros Hlen cls. eexists. exists []. unfold load_mbc6. rewrite Hlen. reflexivity. Qed.

Lemma mbc6_write_enable_shields_sector0_witness :
  let cls := mkClassification 0x20 "MBC6" (Supported FamilyMbc6) "" in
  let ops := [OpWriteRom 0x0C00 1; OpWriteRom 0x2800 8; OpWriteRom 0x5000 0x30; OpWriteRom 0x1000 2] in
  exists c c', accepts (load_mbc6 net_de_get (vec_zeroed MBC6_SUPPORTED_ROM_BYTES)) strict cls [] c /\
    run_ops ops c = Done c' /\ hidden_region c' = hidden_region c.
Proof.
  intros cls ops.
  destruct (load_net_de_get (vec_zeroed MBC6_SUPPORTED_ROM_BYTES)) as [c Hload];
    [apply vec_len_zeroed; discriminate|].
  assert (Hops : Forall valid_op ops) by (repeat constructor; discriminate).
  assert (Hk : Forall keeps_writes_disabled ops) by (repeat constructor; simpl; auto; left; discriminate).
  destruct (mbc6_write_enable_shields_sector0 _ _ _ _ _ c ops Hload Hops Hk) as (c' & Hrun & _ & _ & Hh & _).
  exists c, c'. split; [exact Hload | split; [exact Hrun | exact Hh]].
Defined.

(** *** Programming a block *)

Fixpoint flash_writes (ws : list (Z * Z)) (c : Mbc6Cartridge) : outcome Mbc6Cartridge :=
  match ws with
  | [] => Done c
  | (offset, value) :: rest => c ← write_flash offset value c; flash_writes rest c
  end.

Lemma flash_writes_app ws1 ws2 c : flash_writes (ws1 ++ ws2) c = (c ← flash_writes ws1 c; flash_writes ws2 c).
Proof.
  revert c. induction ws1 as [|[o v] ws1 IH]; intros c; [done|]. simpl.
  destruct (write_flash o v c); simpl; [apply IH | done].
Qed.

Definition block_of (base : Z) (c : Mbc6Cartridge) : list Z :=
  take (Z.to_nat MBC6_FLASH_PROGRAM_BLOCK_BYTES) (drop (Z.to_nat base) (flash c)).

Lemma replicate_middle {A} (x : A) k r : (replicate k x ++ x :: r = replicate (S k) x ++ r)%list.
Proof. induction k as [|k IH]; [done|]. simpl. by rewrite IH. Qed.

Section ProgramBlock.
Context (c : Mbc6Cartridge) (base : Z) (data : list Z).
Hypothesis c_ok : ok c.
Hypothesis base_range : 0 <= base < MBC6_FLASH_BYTES.
Hypothesis base_aligned : base mod MBC6_FLASH_PROGRAM_BLOCK_BYTES = 0.
Hypothesis data_len : vec_len data = MBC6_FLASH_PROGRAM_BLOCK_BYTES.
Hypothesis data_bytes : bytes data.
Hypothesis data_no_reset : Forall (fun d => d <> 0xF0) data.
Hypothesis mode_idle : flash_mode c = ReadArray.

(** The program state once the first [k] bytes are in. *)
Definition filled (k : nat) : Mbc6ProgramState :=
  mkProgram MainFlash (Some base) (take k data ++ drop k (block_of base c))
    (replicate k true ++ replicate (Z.to_nat MBC6_FLASH_PROGRAM_BLOCK_BYTES - k) false) false.

Lemma block_len : vec_len (block_of base c) = MBC6_FLASH_PROGRAM_BLOCK_BYTES.
Proof.
  apply length_slice; [lia | done|]. destruct (ok_flash c c_ok) as [-> _].
  unfold MBC6_FLASH_PROGRAM_BLOCK_BYTES, MBC6_FLASH_BYTES in *. divmod_lia.
Qed.

Lemma base_bound : base + MBC6_FLASH_PROGRAM_BLOCK_BYTES <= MBC6_FLASH_BYTES.
Proof. unfold MBC6_FLASH_PROGRAM_BLOCK_BYTES, MBC6_FLASH_BYTES in *. divmod_lia. Qed.

Lemma enter_new : enter_block base (program_new MainFlash) c = Done (filled 0).
Proof.
  unfold enter_block. rewrite decide_False by done.
  destruct (finishes_done _ _ (seed_ok MainFlash
    ((program_new MainFlash) <| block_base := Some base |> <| final_byte_seen := false |>
      <| written := map (fun _ => false) (written (program_new MainFlash)) |>) base c c_ok
    ltac:(constructor; try done; by apply (po_buffer _ _ (program_new_ok MainFlash))) ltac:(lia) base_bound))
    as (st & Hst & _ & ->).
  rewrite Hst. unfold filled, block_of. by rewrite drop_0.
Qed.

Lemma enter_filled k : enter_block base (filled k) c = Done (filled k).
Proof. unfold enter_block. by rewrite decide_True. Qed.

Lemma store_filled k d : data !! k = Some d -> store_byte (Z.of_nat k) d (filled k) = filled (S k).
Proof.
  intros Hd. pose proof (lookup_lt_Some _ _ _ Hd) as Hk. pose proof block_len as Hb.
  unfold store_byte, filled, vec_set, vec_len in *. simpl. rewrite Nat2Z.id. f_equal.
  - destruct (lookup_lt_is_Some_2 (block_of base c) k) as [b Hbk]; [lia|].
    rewrite (drop_S _ _ _ Hbk), (take_S_r _ _ _ Hd), <- app_assoc. simpl.
    rewrite insert_app_r_alt by (rewrite length_take; lia). rewrite length_take. by replace (k - k `min` length data)%nat with 0%nat by lia.
  - rewrite insert_app_r_alt by (rewrite length_replicate; lia). rewrite length_replicate, Nat.sub_diag.
    replace (Z.to_nat MBC6_FLASH_PROGRAM_BLOCK_BYTES - k)%nat with (S (Z.to_nat MBC6_FLASH_PROGRAM_BLOCK_BYTES - S k)) by lia.
    apply replicate_middle.
Qed.

Lemma at_byte k : (k < Z.to_nat MBC6_FLASH_PROGRAM_BLOCK_BYTES)%nat ->
  program_block_base MainFlash (base + Z.of_nat k) c = Done base /\ program_byte_offset (base + Z.of_nat k) = Z.of_nat k.
Proof.
  intros Hk. pose proof base_bound.
  destruct (program_block_base_ok MainFlash (base + Z.of_nat k) c c_ok) as (b & -> & -> & _ & _); [lia|].
  rewrite byte_offset_spec. simpl. rewrite (Z.mod_small _ MBC6_FLASH_BYTES) by lia.
  unfold MBC6_FLASH_PROGRAM_BLOCK_BYTES in *. split; [f_equal|]; divmod_lia.
Qed.

(** A byte before the last, with the block entered or not. *)
Lemma program_byte st k d : program_target st = MainFlash -> enter_block base st c = Done (filled k) ->
  data !! k = Some d ->
  program_write st (base + Z.of_nat k) d c =
    Done (false, if decide (S k = Z.to_nat MBC6_FLASH_PROGRAM_BLOCK_BYTES) then (filled (S k)) <| final_byte_seen := true |>
                 else filled (S k), c).
Proof.
  intros Ht He Hd. pose proof (lookup_lt_Some _ _ _ Hd) as Hk. unfold vec_len in data_len.
  destruct (at_byte k) as [Hbase Hoff]; [lia|]. unfold program_write. rewrite Ht, Hbase. cbn [mbind outcome_bind].
  rewrite He. cbn [mbind outcome_bind]. cbv zeta. rewrite Hoff, (store_filled _ _ Hd).
  change (final_byte_seen (filled (S k))) with false. unfold MBC6_FLASH_PROGRAM_BLOCK_BYTES in *.
  destruct (Z.eqb_spec (Z.of_nat k) (128 - 1)); cbn [negb]; [by rewrite decide_True by lia | by rewrite decide_False by lia].
Qed.

Definition data_writes (k n : nat) : list (Z * Z) :=
  map (fun i => (base + Z.of_nat i, default 0 (data !! i))) (seq k n).

Lemma programming_idle st : c <| flash_mode := Program st |> <| flash_mode := ReadArray |> = c.
Proof. destruct c. simpl in *. by rewrite mode_idle. Qed.

Lemma programming_mode st : flash_mode (c <| flash_mode := Program st |>) = Program st.
Proof. by destruct c. Qed.

Lemma write_programming st k d : program_target st = MainFlash -> enter_block base st c = Done (filled k) ->
  data !! k = Some d ->
  write_flash (base + Z.of_nat k) d (c <| flash_mode := Program st |>) =
    Done (c <| flash_mode := Program (if decide (S k = Z.to_nat MBC6_FLASH_PROGRAM_BLOCK_BYTES)
                                      then (filled (S k)) <| final_byte_seen := true |> else filled (S k)) |>).
Proof.
  intros Ht He Hd. unfold write_flash. assert (d <> 0xF0) as ->%Z.eqb_neq by (by eapply Forall_lookup_1 in data_no_reset).
  rewrite programming_idle.
  rewrite programming_mode.
  unfold next_mode. by rewrite (program_byte st k d Ht He Hd).
Qed.

Lemma write_data st k n : program_target st = MainFlash -> enter_block base st c = Done (filled k) ->
  Z.of_nat (k + S n) = MBC6_FLASH_PROGRAM_BLOCK_BYTES ->
  flash_writes (data_writes k (S n)) (c <| flash_mode := Program st |>) =
    Done (c <| flash_mode := Program ((filled (Z.to_nat MBC6_FLASH_PROGRAM_BLOCK_BYTES)) <| final_byte_seen := true |>) |>).
Proof.
  revert st k. induction n as [|n IH]; intros st k Ht He Hkn; unfold vec_len in data_len;
    (destruct (lookup_lt_is_Some_2 data k) as [d Hd]; [lia|]).
  - cbn [data_writes seq map flash_writes]. rewrite Hd. change (default 0 (Some d)) with d.
    rewrite (write_programming st k d Ht He Hd), <- Hkn, Nat2Z.id, Nat.add_1_r, decide_True by done. done.
  - change (data_writes k (S (S n))) with ((base + Z.of_nat k, default 0 (data !! k)) :: data_writes (S k) (S n)).
    cbn [flash_writes]. rewrite Hd. change (default 0 (Some d)) with d.
    rewrite (write_programming st k d Ht He Hd), decide_False by (rewrite <- Hkn, Nat2Z.id; lia). cbn [mbind outcome_bind].
    apply IH; [done | apply enter_filled | lia].
Qed.

(** The whole block is in, and its last byte has been written once. *)
Definition full : Mbc6ProgramState :=
  mkProgram MainFlash (Some base) data (replicate (Z.to_nat MBC6_FLASH_PROGRAM_BLOCK_BYTES) true) true.

Lemma filled_full : (filled (Z.to_nat MBC6_FLASH_PROGRAM_BLOCK_BYTES)) <| final_byte_seen := true |> = full.
Proof.
  pose proof block_len as Hb. unfold vec_len in *. unfold filled, full. cbn [update upd_final_byte_seen].
  rewrite Nat.sub_diag, take_ge, drop_ge by lia. by rewrite !app_nil_r.
Qed.

Lemma full_ok : program_ok MainFlash full.
Proof.
  constructor; [done | done |]. cbn [written full]. rewrite length_replicate. unfold MBC6_FLASH_PROGRAM_BLOCK_BYTES. lia.
Qed.

Lemma store_full last : data !! Z.to_nat (MBC6_FLASH_PROGRAM_BLOCK_BYTES - 1) = Some last ->
  store_byte (MBC6_FLASH_PROGRAM_BLOCK_BYTES - 1) last full = full.
Proof.
  intros Hl. unfold store_byte, full, vec_set. cbn [update upd_buffer upd_written buffer written].
  rewrite (list_insert_id data) by done. rewrite list_insert_id; [done|].
  apply lookup_replicate_2. unfold MBC6_FLASH_PROGRAM_BLOCK_BYTES. lia.
Qed.

Lemma final_write last :
  data !! Z.to_nat (MBC6_FLASH_PROGRAM_BLOCK_BYTES - 1) = Some last ->
  (base < MBC6_FLASH_SECTOR_BYTES -> sector0_locked c = false) ->
  exists m, write_flash (base + (MBC6_FLASH_PROGRAM_BLOCK_BYTES - 1)) last (c <| flash_mode := Program full |>) =
      Done (c <| flash := m |> <| flash_mode := status_mode SourceProgram c |>) /\
    vec_len m = vec_len (flash c) /\
    forall j, m !! j = if decide (base <= Z.of_nat j < base + MBC6_FLASH_PROGRAM_BLOCK_BYTES)
                      then (fun old => Z.land old (default old (data !! Z.to_nat (Z.of_nat j - base)))) <$> flash c !! j
                      else flash c !! j.
Proof.
  intros Hl Hun. destruct (at_byte (Z.to_nat (MBC6_FLASH_PROGRAM_BLOCK_BYTES - 1))) as [Hbase Hoff];
    [unfold MBC6_FLASH_PROGRAM_BLOCK_BYTES; lia|].
  change (Z.of_nat (Z.to_nat (MBC6_FLASH_PROGRAM_BLOCK_BYTES - 1))) with (MBC6_FLASH_PROGRAM_BLOCK_BYTES - 1) in *.
  destruct (commit_block full base MainFlash c c_ok full_ok) as (m & Hm & (Hlen & _ & Hout) & Hin);
    [lia | apply base_bound|].
  exists m. split_and!.
  - unfold write_flash. assert (last <> 0xF0) as ->%Z.eqb_neq by (by eapply Forall_lookup_1 in data_no_reset).
    rewrite programming_idle.
    rewrite programming_mode.
    unfold next_mode, program_write. change (program_target full) with MainFlash.
    rewrite Hbase. cbn [mbind outcome_bind]. unfold enter_block. rewrite decide_True by done.
    cbn [mbind outcome_bind]. cbv zeta. rewrite Hoff, (store_full _ Hl), Z.eqb_refl. cbn [negb].
    change (final_byte_seen full) with true. cbv iota. unfold commit_program_buffer.
    change (program_target full) with MainFlash. cbv iota.
    replace ((base <? MBC6_FLASH_SECTOR_BYTES) && sector0_locked c) with false.
    + cbv iota. rewrite Hm. cbn [mbind outcome_bind]. by destruct c.
    + destruct (Z.ltb_spec base MBC6_FLASH_SECTOR_BYTES) as [Hlt|]; [by rewrite (Hun Hlt) | done].
  - exact Hlen.
  - intros j. case_decide as Hj; [|apply Hout; lia]. rewrite (Hin j Hj). cbn [memory_of_target].
    unfold commit_cell. cbn [written buffer full]. rewrite lookup_replicate_2 by lia.
    destruct (flash c !! j); simpl; [|done]. destruct (data !! Z.to_nat (Z.of_nat j - base)); simpl; by rewrite ?Z.land_diag.
Qed.
End ProgramBlock.

Lemma lookup_last (l : list Z) d : l <> [] -> l !! pred (length l) = Some (List.last l d).
Proof.
  destruct l as [|x l _] using rev_ind; [done|]. intros _. rewrite List.last_last, length_app, Nat.add_1_r.
  rewrite lookup_app_r by done. by rewrite Nat.sub_diag.
Qed.

(** The command sequence: reset, the unlock cycles, the program command, the
    bytes of the block, and its last byte again. *)
Definition program_sequence (base : Z) (data : list Z) : list (Z * Z) :=
  ([(0, 0xF0); (MBC6_FLASH_UNLOCK_AA_OFFSET, 0xAA); (MBC6_FLASH_UNLOCK_55_OFFSET, 0x55);
    (MBC6_FLASH_UNLOCK_AA_OFFSET, 0xA0)] ++
   data_writes base data 0 (length data) ++ [(base + (vec_len data - 1), List.last data 0)])%list.

Lemma unlock_program c :
  flash_writes [(0, 0xF0); (MBC6_FLASH_UNLOCK_AA_OFFSET, 0xAA); (MBC6_FLASH_UNLOCK_55_OFFSET, 0x55);
                (MBC6_FLASH_UNLOCK_AA_OFFSET, 0xA0)] c = Done (c <| flash_mode := Program (program_new MainFlash) |>).
Proof. by destruct c. Qed.

Lemma program_sequence_ok c base data :
  ok c -> 0 <= base < MBC6_FLASH_BYTES -> base mod MBC6_FLASH_PROGRAM_BLOCK_BYTES = 0 ->
  vec_len data = MBC6_FLASH_PROGRAM_BLOCK_BYTES -> bytes data -> Forall (fun d => d <> 0xF0) data ->
  (base < MBC6_FLASH_SECTOR_BYTES -> sector0_locked c = false) ->
  exists m, flash_writes (program_sequence base data) c =
      Done (c <| flash := m |> <| flash_mode := status_mode SourceProgram c |>) /\
    vec_len m = vec_len (flash c) /\
    forall j, m !! j = if decide (base <= Z.of_nat j < base + MBC6_FLASH_PROGRAM_BLOCK_BYTES)
                      then (fun old => Z.land old (default old (data !! Z.to_nat (Z.of_nat j - base)))) <$> flash c !! j
                      else flash c !! j.
Proof.
  intros Hok Hbase Hal Hlen Hb Hreset Hun.
  set (c1 := c <| flash_mode := ReadArray |>).
  assert (Hok1 : ok c1) by (by apply chip_step_mode).
  assert (Hn : length data = 128%nat) by (unfold vec_len, MBC6_FLASH_PROGRAM_BLOCK_BYTES in Hlen; lia).
  assert (Hlast : data !! Z.to_nat (MBC6_FLASH_PROGRAM_BLOCK_BYTES - 1) = Some (List.last data 0)).
  { change (Z.to_nat (MBC6_FLASH_PROGRAM_BLOCK_BYTES - 1)) with (pred 128). rewrite <- Hn. apply lookup_last. by intros ->. }
  assert (Hidle : flash_mode c1 = ReadArray) by by destruct c.
  assert (Hun1 : base < MBC6_FLASH_SECTOR_BYTES -> sector0_locked c1 = false) by (intros Hlt; specialize (Hun Hlt); by destruct c).
  destruct (final_write c1 base data Hok1 Hbase Hal Hlen Hb Hreset Hidle _ Hlast Hun1) as (m & Hm & Hml & Hj).
  exists m. split; [|by destruct c]. unfold program_sequence. rewrite flash_writes_app, unlock_program.
  cbn [mbind outcome_bind]. replace (c <| flash_mode := Program (program_new MainFlash) |>)
    with (c1 <| flash_mode := Program (program_new MainFlash) |>) by by destruct c.
  rewrite flash_writes_app, Hn. rewrite (write_data c1 base data Hok1 Hbase Hal Hlen Hreset Hidle (program_new MainFlash) 0 127)
    by (done || by apply enter_new).
  cbn [mbind outcome_bind]. rewrite (filled_full c1) by done. cbn [flash_writes]. rewrite Hlen, Hm. by destruct c.
Qed.

(** C35. Programming works: from any state of a loaded MBC6 cartridge, the
    command sequence for a block of 128 bytes, none of them the reset command
    0xF0, ends with the chip reporting done, each flash byte of the block
    narrowed to the bits its data has, every other flash byte and everything
    else as it was; only sector 0 needs writes enabled and no protection. *)
Theorem mbc6_programs_block header rom_bytes compat cls ds c0 ops base data :
  accepts (load_mbc6 header rom_bytes) compat cls ds c0 -> Forall valid_op ops ->
  0 <= base < MBC6_FLASH_BYTES -> base mod MBC6_FLASH_PROGRAM_BLOCK_BYTES = 0 ->
  vec_len data = MBC6_FLASH_PROGRAM_BLOCK_BYTES -> bytes data -> Forall (fun d => d <> 0xF0) data ->
  exists c, run_ops ops c0 = Done c /\
    ((base < MBC6_FLASH_SECTOR_BYTES -> flash_write_enabled c = true /\ sector0_protected c = false) ->
     exists memory, flash_writes (program_sequence base data) c =
         Done (c <| flash := memory |> <| flash_mode := status_mode SourceProgram c |>) /\
       vec_len memory = vec_len (flash c) /\
       forall j, memory !! j =
         if decide (base <= Z.of_nat j < base + MBC6_FLASH_PROGRAM_BLOCK_BYTES)
         then (fun old => Z.land old (default old (data !! Z.to_nat (Z.of_nat j - base)))) <$> flash c !! j
         else flash c !! j).
Proof.
  intros Hload Hops Hbase Hal Hlen Hb Hreset. destruct (load_mbc6_ok _ _ _ _ _ _ Hload) as (Hok0 & _).
  destruct (@run_ops_ok _ _ mbc6_laws ops c0 Hok0 Hops) as (c & Hrun & Hok & _). simpl in Hok.
  exists c. split; [done|]. intros Hun.
  destruct (program_sequence_ok c base data Hok Hbase Hal Hlen Hb Hreset) as (m & Hm & Hml & Hj).
  - intros Hlt. destruct (Hun Hlt) as [Hw Hp]. unfold sector0_locked. by rewrite Hw, Hp.
  - by exists m.
Qed.

Lemma mbc6_programs_block_witness :
  let cls := mkClassification 0x20 "MBC6" (Supported FamilyMbc6) "" in
  let data := replicate 128 0x42 in
  exists c0 c memory, accepts (load_mbc6 net_de_get (vec_zeroed MBC6_SUPPORTED_ROM_BYTES)) strict cls [] c0 /\
    run_ops [OpWriteRom 0x0C00 1] c0 = Done c /\
    flash_writes (program_sequence 0x20000 data) c =
      Done (c <| flash := memory |> <| flash_mode := status_mode SourceProgram c |>) /\
    vec_len memory = vec_len (flash c).
Proof.
  intros cls data.
  destruct (load_net_de_get (vec_zeroed MBC6_SUPPORTED_ROM_BYTES)) as [c0 Hload];
    [apply vec_len_zeroed; discriminate|].
  assert (Hops : Forall valid_op [OpWriteRom 0x0C00 1]) by (repeat constructor; discriminate).
  assert (Hbase : 0 <= 0x20000 < MBC6_FLASH_BYTES) by (split; [discriminate | reflexivity]).
  assert (Hb : bytes data) by (apply Forall_replicate; split; [discriminate | reflexivity]).
  assert (Hreset : Forall (fun d => d <> 0xF0) data) by (apply Forall_replicate; discriminate).
  destruct (mbc6_programs_block _ _ _ _ _ c0 _ 0x20000 data Hload Hops Hbase eq_refl eq_refl Hb Hreset)
    as (c & Hrun & Hprog).
  destruct Hprog as (memory & Hm & Hl & _); [intros Hlt; discriminate|].
  exists c0, c, memory. split; [exact Hload | split; [exact Hrun | split; [exact Hm | exact Hl]]].
Defined.
