(* ===== verification/Mbc7.v ===== *)
(** * MBC7 cartridges ([crates/gb-core/src/cartridge/mbc7.rs])

    The accelerometer latch, the serial EEPROM clocked through its pins (its
    ten-bit commands, reads, writes, erases and the write-enable latch), the
    register window behind two enables, persistence, and the loader's
    validation and construction. *)

From Stdlib Require Import ZArith Lia Bool String List.
From stdpp Require Import base list decidable.
From S2P Require Import Prelude.
From S2P Require Import Model.
From S2P Require Import CartridgeHeader.
From S2P Require Import Cartridge.

Local Open Scope string_scope.
Local Open Scope Z_scope.

Definition MBC7_SUPPORTED_ROM_BYTES_MAX : Z := 2 * 1024 * 1024.
Definition MBC7_EEPROM_BYTES : Z := 256.
Definition MBC7_EEPROM_WORDS : Z := MBC7_EEPROM_BYTES / 2.
Definition MBC7_ACCELEROMETER_UNLATCHED_VALUE : Z := 0x8000.
Definition MBC7_ACCELEROMETER_NEUTRAL_VALUE : Z := 0x81D0.
Definition MBC7_ACCELEROMETER_DELTA_PER_G : Z := 0x0070.
Definition MBC7_ROM_BANK_BYTES : Z := 0x4000.
Definition MBC7_REGISTER_START : Z := 0xA000.
Definition MBC7_REGISTER_END : Z := 0xAFFF.
Definition MBC7_FIXED_OPEN_END : Z := 0xBFFF.
Definition MBC7_EEPROM_PIN_CS : Z := 0x80.
Definition MBC7_EEPROM_PIN_CLK : Z := 0x40.
Definition MBC7_EEPROM_PIN_DI : Z := 0x02.
Definition MBC7_EEPROM_PIN_DO : Z := 0x01.
Definition MBC7_EEPROM_COMMAND_BITS : Z := 10.
Definition MBC7_EEPROM_DATA_BITS : Z := 16.

Record Mbc7AccelerometerInput := mkAccelerometer { x_raw : Z; y_raw : Z }.

Definition accelerometer_neutral : Mbc7AccelerometerInput :=
  mkAccelerometer MBC7_ACCELEROMETER_NEUTRAL_VALUE MBC7_ACCELEROMETER_NEUTRAL_VALUE.

(** [i32] division truncates. *)
Definition mbc7_accelerometer_raw_from_milli_g (milli_g : Z) : Z :=
  let delta := Z.quot (milli_g * MBC7_ACCELEROMETER_DELTA_PER_G) 1000 in
  Z.max 0 (Z.min (MBC7_ACCELEROMETER_NEUTRAL_VALUE + delta) 65535).

Definition from_milli_g (x_milli_g y_milli_g : Z) : Mbc7AccelerometerInput :=
  mkAccelerometer (mbc7_accelerometer_raw_from_milli_g x_milli_g) (mbc7_accelerometer_raw_from_milli_g y_milli_g).

Record Mbc7EepromPins := mkPins {
  cs : bool;
  clk : bool;
  di : bool;
  do_pin : bool
}.

#[export] Instance upd_cs : Update cs := fun v s =>
  let '(mkPins _ x2 x3 x4) := s in mkPins v x2 x3 x4.
#[export] Instance upd_clk : Update clk := fun v s =>
  let '(mkPins x1 _ x3 x4) := s in mkPins x1 v x3 x4.
#[export] Instance upd_di : Update di := fun v s =>
  let '(mkPins x1 x2 _ x4) := s in mkPins x1 x2 v x4.
#[export] Instance upd_do_pin : Update do_pin := fun v s =>
  let '(mkPins x1 x2 x3 _) := s in mkPins x1 x2 x3 v.

Definition pins_default : Mbc7EepromPins := mkPins false false false true.

Inductive Mbc7EepromDataTarget := WriteWord (address : Z) | WriteAll.

Inductive Mbc7EepromCommand :=
| Idle
| ReceivingCommand (bits value : Z)
| ReceivingData (data_target : Mbc7EepromDataTarget) (bits value : Z)
| SendingRead (bits_remaining value : Z).

Record Mbc7Cartridge := mkMbc7 {
  rom : list Z;
  eeprom : list Z;
  header : CartridgeHeader;
  classification : CartridgeClassification;
  ram_enabled : bool;
  sensor_eeprom_enabled : bool;
  rom_bank : Z;
  accelerometer_input : Mbc7AccelerometerInput;
  accelerometer_latch_armed : bool;
  latched_x : Z;
  latched_y : Z;
  eeprom_pins : Mbc7EepromPins;
  eeprom_command : Mbc7EepromCommand;
  eeprom_write_enabled : bool
}.

#[export] Instance upd_rom : Update rom := fun v s =>
  let '(mkMbc7 _ x2 x3 x4 x5 x6 x7 x8 x9 x10 x11 x12 x13 x14) := s in mkMbc7 v x2 x3 x4 x5 x6 x7 x8 x9 x10 x11 x12 x13 x14.
#[export] Instance upd_eeprom : Update eeprom := fun v s =>
  let '(mkMbc7 x1 _ x3 x4 x5 x6 x7 x8 x9 x10 x11 x12 x13 x14) := s in mkMbc7 x1 v x3 x4 x5 x6 x7 x8 x9 x10 x11 x12 x13 x14.
#[export] Instance upd_header : Update header := fun v s =>
  let '(mkMbc7 x1 x2 _ x4 x5 x6 x7 x8 x9 x10 x11 x12 x13 x14) := s in mkMbc7 x1 x2 v x4 x5 x6 x7 x8 x9 x10 x11 x12 x13 x14.
#[export] Instance upd_classification : Update classification := fun v s =>
  let '(mkMbc7 x1 x2 x3 _ x5 x6 x7 x8 x9 x10 x11 x12 x13 x14) := s in mkMbc7 x1 x2 x3 v x5 x6 x7 x8 x9 x10 x11 x12 x13 x14.
#[export] Instance upd_ram_enabled : Update ram_enabled := fun v s =>
  let '(mkMbc7 x1 x2 x3 x4 _ x6 x7 x8 x9 x10 x11 x12 x13 x14) := s in mkMbc7 x1 x2 x3 x4 v x6 x7 x8 x9 x10 x11 x12 x13 x14.
#[export] Instance upd_sensor_eeprom_enabled : Update sensor_eeprom_enabled := fun v s =>
  let '(mkMbc7 x1 x2 x3 x4 x5 _ x7 x8 x9 x10 x11 x12 x13 x14) := s in mkMbc7 x1 x2 x3 x4 x5 v x7 x8 x9 x10 x11 x12 x13 x14.
#[export] Instance upd_rom_bank : Update rom_bank := fun v s =>
  let '(mkMbc7 x1 x2 x3 x4 x5 x6 _ x8 x9 x10 x11 x12 x13 x14) := s in mkMbc7 x1 x2 x3 x4 x5 x6 v x8 x9 x10 x11 x12 x13 x14.
#[export] Instance upd_accelerometer_input : Update accelerometer_input := fun v s =>
  let '(mkMbc7 x1 x2 x3 x4 x5 x6 x7 _ x9 x10 x11 x12 x13 x14) := s in mkMbc7 x1 x2 x3 x4 x5 x6 x7 v x9 x10 x11 x12 x13 x14.
#[export] Instance upd_accelerometer_latch_armed : Update accelerometer_latch_armed := fun v s =>
  let '(mkMbc7 x1 x2 x3 x4 x5 x6 x7 x8 _ x10 x11 x12 x13 x14) := s in mkMbc7 x1 x2 x3 x4 x5 x6 x7 x8 v x10 x11 x12 x13 x14.
#[export] Instance upd_latched_x : Update latched_x := fun v s =>
  let '(mkMbc7 x1 x2 x3 x4 x5 x6 x7 x8 x9 _ x11 x12 x13 x14) := s in mkMbc7 x1 x2 x3 x4 x5 x6 x7 x8 x9 v x11 x12 x13 x14.
#[export] Instance upd_latched_y : Update latched_y := fun v s =>
  let '(mkMbc7 x1 x2 x3 x4 x5 x6 x7 x8 x9 x10 _ x12 x13 x14) := s in mkMbc7 x1 x2 x3 x4 x5 x6 x7 x8 x9 x10 v x12 x13 x14.
#[export] Instance upd_eeprom_pins : Update eeprom_pins := fun v s =>
  let '(mkMbc7 x1 x2 x3 x4 x5 x6 x7 x8 x9 x10 x11 _ x13 x14) := s in mkMbc7 x1 x2 x3 x4 x5 x6 x7 x8 x9 x10 x11 v x13 x14.
#[export] Instance upd_eeprom_command : Update eeprom_command := fun v s =>
  let '(mkMbc7 x1 x2 x3 x4 x5 x6 x7 x8 x9 x10 x11 x12 _ x14) := s in mkMbc7 x1 x2 x3 x4 x5 x6 x7 x8 x9 x10 x11 x12 v x14.
#[export] Instance upd_eeprom_write_enabled : Update eeprom_write_enabled := fun v s =>
  let '(mkMbc7 x1 x2 x3 x4 x5 x6 x7 x8 x9 x10 x11 x12 x13 _) := s in mkMbc7 x1 x2 x3 x4 x5 x6 x7 x8 x9 x10 x11 x12 x13 v.

Definition on_pins (f : Mbc7EepromPins -> Mbc7EepromPins) (c : Mbc7Cartridge) : Mbc7Cartridge :=
  c <| eeprom_pins := f (eeprom_pins c) |>.
Definition set_do (b : bool) : Mbc7Cartridge -> Mbc7Cartridge := on_pins (fun p => p <| do_pin := b |>).

(** ** The EEPROM memory *)

Definition eeprom_word_offset (address : Z) : Z := (address mod MBC7_EEPROM_WORDS) * 2.

Definition read_eeprom_word (address : Z) (c : Mbc7Cartridge) : outcome Z :=
  let offset := eeprom_word_offset address in
  match vec_get (eeprom c) offset, vec_get (eeprom c) (offset + 1) with
  | Some high, Some low => Done (from_be_bytes high low)
  | _, _ => Panic "index out of bounds"
  end.

Definition write_eeprom_word (address value : Z) (c : Mbc7Cartridge) : outcome Mbc7Cartridge :=
  let offset := eeprom_word_offset address in
  if offset + 1 <? vec_len (eeprom c) then
    Done (c <| eeprom := vec_set (vec_set (eeprom c) offset (high_byte value)) (offset + 1) (low_byte value) |>)
  else Panic "index out of bounds".

Fixpoint write_eeprom_words (addresses : list Z) (value : Z) (c : Mbc7Cartridge) : outcome Mbc7Cartridge :=
  match addresses with
  | [] => Done c
  | address :: rest => c ← write_eeprom_word address value c; write_eeprom_words rest value c
  end.

(** ** Commands *)

Definition to_idle (c : Mbc7Cartridge) : Mbc7Cartridge := set_do true (c <| eeprom_command := Idle |>).

Definition commit_eeprom_data (data_target : Mbc7EepromDataTarget) (value : Z) (c : Mbc7Cartridge)
    : outcome Mbc7Cartridge :=
  c ← (if eeprom_write_enabled c then
         match data_target with
         | WriteWord address => write_eeprom_word address value c
         | WriteAll => write_eeprom_words (map Z.of_nat (seq 0 (Z.to_nat MBC7_EEPROM_WORDS))) value c
         end
       else Done c);
  Done (to_idle c).

Definition finish_eeprom_extended_command (command : Z) (c : Mbc7Cartridge) : outcome Mbc7Cartridge :=
  let k := Z.land (Z.shiftr command 6) 0x03 in
  if k =? 0 then Done (to_idle (c <| eeprom_write_enabled := false |>))
  else if k =? 1 then Done (c <| eeprom_command := ReceivingData WriteAll 0 0 |>)
  else if k =? 2 then
    Done (to_idle (if eeprom_write_enabled c then c <| eeprom := map (fun _ => 0xFF) (eeprom c) |> else c))
  else if k =? 3 then Done (to_idle (c <| eeprom_write_enabled := true |>))
  else Panic "two-bit MBC7 EEPROM extended opcode should be exhaustive".

Definition finish_eeprom_command (command : Z) (c : Mbc7Cartridge) : outcome Mbc7Cartridge :=
  let opcode := Z.land (Z.shiftr command 8) 0x03 in
  let address := Z.land command 0x7F in
  if opcode =? 2 then
    value ← read_eeprom_word address c;
    Done (set_do false (c <| eeprom_command := SendingRead MBC7_EEPROM_DATA_BITS value |>))
  else if opcode =? 1 then Done (c <| eeprom_command := ReceivingData (WriteWord address) 0 0 |>)
  else if opcode =? 3 then
    c ← (if eeprom_write_enabled c then write_eeprom_word address 65535 c else Done c);
    Done (to_idle c)
  else if opcode =? 0 then finish_eeprom_extended_command command c
  else Panic "two-bit MBC7 EEPROM opcode should be exhaustive".

(** [(value << 1) | u16::from(di)]. *)
Definition shift_in (value : Z) (b : bool) : Z := Z.lor (as_u16 (Z.shiftl value 1)) (u8_from_bool b).

Definition clock_eeprom (c : Mbc7Cartridge) : outcome Mbc7Cartridge :=
  match eeprom_command c with
  | Idle =>
      Done (if di (eeprom_pins c) then set_do true (c <| eeprom_command := ReceivingCommand 0 0 |>) else c)
  | ReceivingCommand bits value =>
      let value := shift_in value (di (eeprom_pins c)) in
      let bits := bits + 1 in
      if bits =? MBC7_EEPROM_COMMAND_BITS then finish_eeprom_command value c
      else Done (c <| eeprom_command := ReceivingCommand bits value |>)
  | ReceivingData data_target bits value =>
      let value := shift_in value (di (eeprom_pins c)) in
      let bits := bits + 1 in
      if bits =? MBC7_EEPROM_DATA_BITS then commit_eeprom_data data_target value c
      else Done (c <| eeprom_command := ReceivingData data_target bits value |>)
  | SendingRead bits_remaining value =>
      if bits_remaining =? 0 then Done (c <| eeprom_command := Idle |>)
      else
        let bit_index := bits_remaining - 1 in
        let c := set_do (has_bits (Z.shiftr value bit_index) 0x0001) c in
        let bits_remaining := bits_remaining - 1 in
        Done (c <| eeprom_command := if bits_remaining =? 0 then Idle else SendingRead bits_remaining value |>)
  end.

Definition read_eeprom_pins (c : Mbc7Cartridge) : Z :=
  let p := eeprom_pins c in
  Z.lor (Z.lor (Z.lor (shl8 (u8_from_bool (cs p)) 7) (shl8 (u8_from_bool (clk p)) 6)) (shl8 (u8_from_bool (di p)) 1))
    (if do_pin p then MBC7_EEPROM_PIN_DO else 0).

Definition write_eeprom_pins (value : Z) (c : Mbc7Cartridge) : outcome Mbc7Cartridge :=
  let previous_clk := clk (eeprom_pins c) in
  let new_cs := has_bits value MBC7_EEPROM_PIN_CS in
  let new_clk := has_bits value MBC7_EEPROM_PIN_CLK in
  let new_di := has_bits value MBC7_EEPROM_PIN_DI in
  let c := on_pins (fun p => p <| cs := new_cs |> <| clk := new_clk |> <| di := new_di |>) c in
  if negb new_cs then Done (to_idle c)
  else if negb previous_clk && new_clk then clock_eeprom c
  else Done c.

(** ** Registers *)

Definition registers_enabled (c : Mbc7Cartridge) : bool := ram_enabled c && sensor_eeprom_enabled c.
Definition register_selector (address : Z) : Z := Z.land (Z.shiftr address 4) 0x0F.
Definition in_registers (address : Z) : bool := (MBC7_REGISTER_START <=? address) && (address <=? MBC7_REGISTER_END).

Definition read_register (address : Z) (c : Mbc7Cartridge) : Z :=
  if negb (in_registers address) || negb (registers_enabled c) then RAM_ABSENT_READ_VALUE
  else
    let selector := register_selector address in
    if selector =? 0x02 then low_byte (latched_x c)
    else if selector =? 0x03 then high_byte (latched_x c)
    else if selector =? 0x04 then low_byte (latched_y c)
    else if selector =? 0x05 then high_byte (latched_y c)
    else if selector =? 0x06 then 0x00
    else if selector =? 0x08 then read_eeprom_pins c
    else RAM_ABSENT_READ_VALUE.

Definition write_register (address value : Z) (c : Mbc7Cartridge) : outcome Mbc7Cartridge :=
  if negb (in_registers address) || negb (registers_enabled c) then Done c
  else
    let selector := register_selector address in
    if (selector =? 0x00) && (value =? 0x55) then
      Done (c <| accelerometer_latch_armed := true |> <| latched_x := MBC7_ACCELEROMETER_UNLATCHED_VALUE |>
              <| latched_y := MBC7_ACCELEROMETER_UNLATCHED_VALUE |>)
    else if (selector =? 0x01) && (value =? 0xAA) && accelerometer_latch_armed c then
      Done (c <| latched_x := x_raw (accelerometer_input c) |> <| latched_y := y_raw (accelerometer_input c) |>
              <| accelerometer_latch_armed := false |>)
    else if selector =? 0x08 then write_eeprom_pins value c
    else Done c.

Definition set_accelerometer_input (input : Mbc7AccelerometerInput) (c : Mbc7Cartridge) : Mbc7Cartridge :=
  c <| accelerometer_input := input |>.

(** ** Accesses *)

Definition describe_external_access (address : Z) (c : Mbc7Cartridge) : CartridgeExternalAccessInfo :=
  let absent := FallbackValue RAM_ABSENT_READ_VALUE in
  if negb ((MBC7_REGISTER_START <=? address) && (address <=? MBC7_FIXED_OPEN_END)) then
    access_new address NoDevice Absent absent Ignored
  else if MBC7_REGISTER_END <? address then
    access_new address (Mbc7ReservedRegister 0x10) Reserved absent Ignored
  else
    let selector := register_selector address in
    let enabled := registers_enabled c in
    let availability :=
      if enabled then
        if ((0x00 <=? selector) && (selector <=? 0x06)) || (selector =? 0x08) then Accessible else Reserved
      else Disabled in
    let axis a b := (TargetMbc7AccelerometerAxis a b, Mbc7Accelerometer, Ignored) in
    let '(target, read_behavior, write_behavior) :=
      if selector =? 0x00 then (Mbc7AccelerometerLatchReset, absent, Mbc7AccelerometerLatch)
      else if selector =? 0x01 then (Mbc7AccelerometerLatchCommit, absent, Mbc7AccelerometerLatch)
      else if selector =? 0x02 then axis AxisX ByteLow
      else if selector =? 0x03 then axis AxisX ByteHigh
      else if selector =? 0x04 then axis AxisY ByteLow
      else if selector =? 0x05 then axis AxisY ByteHigh
      else if selector =? 0x06 then (Mbc7FixedRegister 0x00, FallbackValue 0x00, Ignored)
      else if selector =? 0x08 then (TargetMbc7EepromSerial, ReadMbc7EepromSerial, WriteMbc7EepromSerial)
      else (Mbc7ReservedRegister selector, absent, Ignored) in
    if enabled then access_new address target availability read_behavior write_behavior
    else access_new address target availability absent Ignored.

Definition effective_rom_bank (bank_count : Z) (c : Mbc7Cartridge) : Z := rom_bank c mod Z.max bank_count 1.

Definition read_rom (address : Z) (c : Mbc7Cartridge) : Z :=
  let bank_count := Z.max (default 0 (rom_bank_count (rom_size (header c)))) 1 in
  let rom_index :=
    if address <? MBC7_ROM_BANK_BYTES then address
    else effective_rom_bank bank_count c * MBC7_ROM_BANK_BYTES + (address - MBC7_ROM_BANK_BYTES) in
  byte_or_absent (vec_get (rom c) rom_index).

Definition mapped_rom_window (address : Z) (c : Mbc7Cartridge) : option CartridgeMappedRomWindow :=
  if 0x8000 <=? address then None
  else
    let bank := if address <? MBC7_ROM_BANK_BYTES then 0
                else effective_rom_bank (Z.max (default 0 (rom_bank_count (rom_size (header c)))) 1) c in
    let bank_offset := if address <? MBC7_ROM_BANK_BYTES then address else address - MBC7_ROM_BANK_BYTES in
    Some (rom_window bank MBC7_ROM_BANK_BYTES bank_offset).

Definition write_rom (address value : Z) (c : Mbc7Cartridge) : Mbc7Cartridge :=
  if (0x0000 <=? address) && (address <=? 0x1FFF) then c <| ram_enabled := Z.land value 0x0F =? 0x0A |>
  else if (0x2000 <=? address) && (address <=? 0x3FFF) then c <| rom_bank := Z.land value 0x7F |>
  else if (0x4000 <=? address) && (address <=? 0x5FFF) then c <| sensor_eeprom_enabled := value =? 0x40 |>
  else c.

(** ** Persistence *)

Definition persistence_metadata (c : Mbc7Cartridge) : CartridgePersistenceMetadata :=
  mkMetadata false false (PersistentEeprom (vec_len (eeprom c))).

Definition persistent_state (c : Mbc7Cartridge) : PersistentCartState := Mbc7Eeprom (eeprom c).

Definition restore_persistent_state (state : PersistentCartState) (c : Mbc7Cartridge)
    : Mbc7Cartridge * option CartridgePersistentStateError :=
  match state with
  | Mbc7Eeprom e =>
      if negb (vec_len (eeprom c) =? vec_len e)
      then (c, Some (EepromLengthMismatch (vec_len (eeprom c)) (vec_len e)))
      else (c <| eeprom := e |> <| eeprom_pins := pins_default |> <| eeprom_command := Idle |>
              <| eeprom_write_enabled := false |>, None)
  | other => (c, Some (KindMismatch "Mbc7Eeprom" (kind_name other)))
  end.

(** ** Loading *)

Definition validate_mbc7 (header : CartridgeHeader) (actual_rom_size : Z) : V unit :=
  declared_rom_bytes ← declared_exact_size header actual_rom_size;
  reject_if (MBC7_SUPPORTED_ROM_BYTES_MAX <? declared_rom_bytes)
    "{} exceeds the current MBC7 ROM limit of {} bytes with {} bytes";;
  reject_if (negb (enables_cgb_native_mode (cgb_flag header)))
    "{} requires a CGB-capable header flag, but the header decoded as {:?}";;
  reject_if (negb (ram_raw_code (ram_size header) =? 0x00) ||
             negb (bool_decide (ram_decoded_bytes (ram_size header) = Some 0)))
    "{} uses a fixed 256-byte serial EEPROM instead of decoded SRAM, but the header declared RAM code {:#04X} ({:?} bytes)";;
  mret tt.

(** The [Mbc7] arm of [CartridgeSlot::load]. *)
Definition load_mbc7 (header : CartridgeHeader) (rom_bytes : list Z) : V Mbc7Cartridge :=
  _ ← validate_mbc7 header (vec_len rom_bytes);
  classification ← v_classification;
  mret {|
    rom := rom_bytes;
    eeprom := replicate (Z.to_nat MBC7_EEPROM_BYTES) 0xFF;
    header := header;
    classification := classification;
    ram_enabled := false;
    sensor_eeprom_enabled := false;
    rom_bank := 1;
    accelerometer_input := accelerometer_neutral;
    accelerometer_latch_armed := false;
    latched_x := MBC7_ACCELEROMETER_UNLATCHED_VALUE;
    latched_y := MBC7_ACCELEROMETER_UNLATCHED_VALUE;
    eeprom_pins := pins_default;
    eeprom_command := Idle;
    eeprom_write_enabled := false
  |}.

(** The battery flag of the board is the one the metadata reports. *)
Definition board (c : Mbc7Cartridge) : Board := mkBoard BoardMbc7 (header c) (classification c) (rom c) None false false true 0x8000.

#[export] Instance mbc7_mapper : Mapper Mbc7Cartridge := {|
  m_board := board;
  m_ram := fun _ => None;
  m_settle := fun _ c => c;
  m_taken_up := fun s => s;
  m_read_rom := fun a c => Done (read_rom a c);
  m_mapped_rom_window := mapped_rom_window;
  m_write_rom := fun a v c => Done (write_rom a v c);
  m_read_ram := fun a c => Done (read_register a c);
  m_read_ram_timed := fun a _ c => Done (read_register a c, c);
  m_write_ram := write_register;
  m_write_ram_timed := fun a v _ c => write_register a v c;
  m_describe_external_access := describe_external_access;
  m_advance_rtc_seconds := fun _ c => Done c;
  m_advance_mbc3_rtc_clock_ticks := fun _ c => Done c;
  m_persistence_metadata := persistence_metadata;
  m_persistent_state := persistent_state;
  m_restore_persistent_state := restore_persistent_state
|}.

(** ** Invariant *)

Definition command_ok (cmd : Mbc7EepromCommand) : Prop :=
  match cmd with
  | Idle => True
  | ReceivingCommand bits value => 0 <= bits < MBC7_EEPROM_COMMAND_BITS /\ u16 value
  | ReceivingData _ bits value => 0 <= bits < MBC7_EEPROM_DATA_BITS /\ u16 value
  | SendingRead bits_remaining value => 0 <= bits_remaining <= MBC7_EEPROM_DATA_BITS /\ u16 value
  end.

Record ok (c : Mbc7Cartridge) : Prop := {
  ok_rom : exists n, rom_bank_count (rom_size (header c)) = Some n /\ 1 <= n /\ vec_len (rom c) = ROM_BANK_BYTES * n;
  ok_eeprom : vec_len (eeprom c) = MBC7_EEPROM_BYTES /\ bytes (eeprom c);
  ok_latched : u16 (latched_x c) /\ u16 (latched_y c);
  ok_input : u16 (x_raw (accelerometer_input c)) /\ u16 (y_raw (accelerometer_input c));
  ok_command : command_ok (eeprom_command c)
}.

Definition keeps (c : Mbc7Cartridge) (o : outcome Mbc7Cartridge) : Prop :=
  finishes o (fun c' => ok c' /\ board c' = board c).

#[local] Arguments keeps : simpl never.

Lemma keeps_bind c o k : keeps c o -> (forall c', ok c' -> keeps c' (k c')) -> keeps c (o ≫= k).
Proof.
  intros Ho Hk. apply finishes_bind. eapply finishes_mono; [exact Ho|]. intros c' [Hok Hb].
  eapply finishes_mono; [by apply Hk|]. intros c'' [??]. split; congruence.
Qed.

Lemma mbc7_keeps_after c c1 o : ok c1 /\ board c1 = board c -> (ok c1 -> keeps c1 o) -> keeps c o.
Proof. intros [H1 Hb] Ho. unfold keeps. rewrite <- Hb. by apply Ho. Qed.

Lemma word_offset_range address : 0 <= eeprom_word_offset address /\ eeprom_word_offset address + 1 < MBC7_EEPROM_BYTES.
Proof.
  unfold eeprom_word_offset, MBC7_EEPROM_BYTES. change MBC7_EEPROM_WORDS with 128.
  pose proof (Z.mod_pos_bound address 128). lia.
Qed.

Lemma eeprom_step c e : ok c -> vec_len e = vec_len (eeprom c) -> bytes e ->
  ok (c <| eeprom := e |>) /\ board (c <| eeprom := e |>) = board c.
Proof. intros [? [? ?] ? ? ?] Hl Hb. destruct c. simpl in *. split; [|done]. constructor; simpl; try done. split; [congruence | done]. Qed.

Lemma command_step c cmd : ok c -> command_ok cmd -> ok (c <| eeprom_command := cmd |>) /\
  board (c <| eeprom_command := cmd |>) = board c.
Proof. intros [] Hc. destruct c. by split; [constructor|]. Qed.

Lemma pins_step c f : ok c -> ok (on_pins f c) /\ board (on_pins f c) = board c.
Proof. intros []. destruct c. by split; [constructor|]. Qed.

Lemma idle_step c : ok c -> ok (to_idle c) /\ board (to_idle c) = board c.
Proof. intros []. destruct c. by split; [constructor|]. Qed.

Lemma enable_step c b : ok c -> ok (c <| eeprom_write_enabled := b |>) /\ board (c <| eeprom_write_enabled := b |>) = board c.
Proof. intros []. destruct c. by split; [constructor|]. Qed.

Lemma write_word_keeps address value c : ok c -> u16 value -> keeps c (write_eeprom_word address value c).
Proof.
  intros Hok Hv. destruct (ok_eeprom c Hok) as [Hl Hb]. pose proof (word_offset_range address).
  unfold write_eeprom_word. rewrite Hl. destruct (Z.ltb_spec (eeprom_word_offset address + 1) MBC7_EEPROM_BYTES); [|lia].
  apply eeprom_step; [done | by rewrite !vec_len_set | auto with gb].
Qed.

Lemma write_words_keeps l value c : ok c -> u16 value -> keeps c (write_eeprom_words l value c).
Proof.
  intros Hok Hv. revert c Hok. induction l as [|a l IH]; intros c Hok; [done|].
  apply keeps_bind; [by apply write_word_keeps | exact IH].
Qed.

Lemma read_word_ok address c : ok c -> finishes (read_eeprom_word address c) u16.
Proof.
  intros Hok. destruct (ok_eeprom c Hok) as [Hl Hb]. pose proof (word_offset_range address).
  unfold read_eeprom_word, vec_get. unfold vec_len in Hl.
  destruct (lookup_lt_is_Some_2 (eeprom c) (Z.to_nat (eeprom_word_offset address))) as [h Hh]; [lia|].
  destruct (lookup_lt_is_Some_2 (eeprom c) (Z.to_nat (eeprom_word_offset address + 1))) as [l Hlow]; [lia|].
  rewrite Hh, Hlow. simpl. apply u16_from_be_bytes; by eapply Forall_lookup_1 in Hb.
Qed.

Lemma shift_in_u16 value b : u16 (shift_in value b).
Proof. unfold shift_in. apply u16_lor; [apply u16_mod|]. destruct b; unfold u16; simpl; lia. Qed.

Lemma two_bits x : Z.land x 0x03 = 0 \/ Z.land x 0x03 = 1 \/ Z.land x 0x03 = 2 \/ Z.land x 0x03 = 3.
Proof. rewrite land_03. pose proof (Z.mod_pos_bound x 4). lia. Qed.

Lemma extended_keeps command c : ok c -> keeps c (finish_eeprom_extended_command command c).
Proof.
  intros Hok. unfold finish_eeprom_extended_command.
  destruct (two_bits (Z.shiftr command 6)) as [-> | [-> | [-> | ->]]]; simpl.
  - apply (mbc7_keeps_after _ _ _ (enable_step c false Hok)), idle_step.
  - by apply command_step.
  - destruct (eeprom_write_enabled c); [|by apply idle_step].
    eapply mbc7_keeps_after; [apply (eeprom_step c (map (fun _ => 0xFF) (eeprom c)) Hok) | apply idle_step].
    + unfold vec_len. by rewrite length_map.
    + by apply Forall_map, Forall_true.
  - apply (mbc7_keeps_after _ _ _ (enable_step c true Hok)), idle_step.
Qed.

Lemma finish_command_keeps command c : ok c -> keeps c (finish_eeprom_command command c).
Proof.
  intros Hok. unfold finish_eeprom_command.
  destruct (two_bits (Z.shiftr command 8)) as [-> | [-> | [-> | ->]]]; simpl.
  - by apply extended_keeps.
  - by apply command_step.
  - apply finishes_bind. eapply finishes_mono; [by apply read_word_ok|]. intros v Hv.
    eapply mbc7_keeps_after; [by apply (command_step c (SendingRead MBC7_EEPROM_DATA_BITS v)) | apply pins_step].
  - apply keeps_bind; [destruct (eeprom_write_enabled c); [by apply write_word_keeps | done] | apply idle_step].
Qed.

Lemma commit_keeps t value c : ok c -> u16 value -> keeps c (commit_eeprom_data t value c).
Proof.
  intros Hok Hv. apply keeps_bind; [|apply idle_step]. destruct (eeprom_write_enabled c); [|done].
  destruct t; [by apply write_word_keeps | by apply write_words_keeps].
Qed.

Lemma clock_keeps c : ok c -> keeps c (clock_eeprom c).
Proof.
  intros Hok. pose proof (ok_command c Hok) as Hc. unfold clock_eeprom. destruct (eeprom_command c) as [|n v|t n v|n v]; simpl in Hc.
  - destruct (di (eeprom_pins c)); [|done]. eapply mbc7_keeps_after; [by apply (command_step c (ReceivingCommand 0 0)) | apply pins_step].
  - destruct (Z.eqb_spec (n + 1) MBC7_EEPROM_COMMAND_BITS); [by apply finish_command_keeps|].
    apply command_step; [done|]. split; [unfold MBC7_EEPROM_COMMAND_BITS in *; lia | apply shift_in_u16].
  - destruct (Z.eqb_spec (n + 1) MBC7_EEPROM_DATA_BITS); [apply commit_keeps; [done | apply shift_in_u16]|].
    apply command_step; [done|]. split; [unfold MBC7_EEPROM_DATA_BITS in *; lia | apply shift_in_u16].
  - destruct (Z.eqb_spec n 0); [by apply command_step|]. unfold set_do.
    eapply mbc7_keeps_after; [by apply pins_step|]. intros H1. apply command_step; [done|]. destruct (Z.eqb_spec (n - 1) 0); [done|].
    split; [lia | apply Hc].
Qed.

Lemma write_pins_keeps value c : ok c -> keeps c (write_eeprom_pins value c).
Proof.
  intros Hok. unfold write_eeprom_pins. cbv zeta.
  eapply mbc7_keeps_after; [by apply pins_step|]. intros H1. destruct (negb _); [by apply idle_step|]. destruct (_ && _); [by apply clock_keeps | done].
Qed.

Lemma mbc7_write_register_keeps address value c : ok c -> keeps c (write_register address value c).
Proof.
  intros Hok. unfold write_register. destruct (_ || _); [done|]. cbv zeta.
  destruct (_ && _); [destruct c, Hok; by split; [constructor|]|].
  destruct (_ && _); [destruct c, Hok; by split; [constructor|]|].
  destruct (_ =? 0x08); [by apply write_pins_keeps | done].
Qed.

(** ** The mapper laws *)

Lemma land_nibble_range x : 0 <= Z.land x 0x0F < 16.
Proof. rewrite land_0F. by apply Z.mod_pos_bound. Qed.

Lemma read_pins_u8 c : u8 (read_eeprom_pins c).
Proof. unfold read_eeprom_pins. repeat apply u8_lor; try apply u8_mod. by destruct (do_pin _). Qed.

Lemma read_register_u8 a c : ok c -> u8 (read_register a c).
Proof.
  intros [_ _ [? ?] _ _]. unfold read_register. destruct (_ || _); [apply absent_u8|]. cbv zeta.
  repeat (destruct (_ =? _); [auto using u8_low_byte, u8_high_byte, read_pins_u8 with gb|]). apply absent_u8.
Qed.

(** The register area is a port without storage. *)
Definition port_write (a v : Z) (c : Mbc7Cartridge) : Mbc7Cartridge :=
  match write_register a v c with Done c' => c' | Panic _ => c end.

Lemma describe_port a c :
  let i := describe_external_access a c in
  (forall w, read_behavior i = FallbackValue w -> read_register a c = w) /\
  (write_behavior i = Ignored -> forall v, write_register a v c = Done c) /\ write_behavior i <> WriteStorage.
Proof.
  unfold describe_external_access, read_register, write_register, in_registers. cbv zeta.
  destruct (Z.leb_spec MBC7_REGISTER_START a) as [Hs|Hs]; simpl; [|split_and!; [intros ? [=]; congruence | done | done]].
  destruct (Z.leb_spec a MBC7_FIXED_OPEN_END), (Z.leb_spec a MBC7_REGISTER_END), (Z.ltb_spec MBC7_REGISTER_END a);
    unfold MBC7_REGISTER_END, MBC7_FIXED_OPEN_END in *; try lia; simpl;
    try (split_and!; [intros ? [=]; congruence | done | done]).
  generalize (register_selector a). intros s. destruct (registers_enabled c); simpl;
    repeat match goal with
    | |- context [s =? ?k] =>
        destruct (Z.eqb_spec s k) as [->|]; simpl; [split_and!; [intros ? [=]; congruence | done | done]|]
    end; (split_and!; [intros ? [=]; congruence | done | done]).
Qed.

#[export, refine] Instance mbc7_linear : LinearRamLaws Mbc7Cartridge ok := {|
  lr_enabled := fun _ => false;
  lr_cell := fun _ _ => 0;
  lr_settle := fun _ _ => eq_refl;
  lr_set := fun _ c => c;
  lr_port_read := read_register;
  lr_port_write := port_write
|}.
Proof.
  - done.
  - done.
  - intros a v c Hok _. simpl. unfold port_write. pose proof (mbc7_write_register_keeps a v c Hok) as Hk.
    by destruct (write_register a v c).
  - intros a c. cbn [m_describe_external_access mbc7_mapper andb]. destruct (describe_port a c) as (? & Hw & ?).
    split_and!; [done | | done]. intros Hi v. unfold port_write. by rewrite Hw.
  - intros a v c Hok _. split; [by apply read_register_u8|]. unfold port_write.
    pose proof (mbc7_write_register_keeps a v c Hok) as Hk. by destruct (write_register a v c).
  - done.
  - done.
  - done.
Defined.

Lemma mbc7_write_rom_ok a v c : ok c -> board (write_rom a v c) = board c /\ ok (write_rom a v c).
Proof. intros []. destruct c. unfold write_rom. repeat case_match; split; try done; by constructor. Qed.

Lemma mbc7_restore_ok s c : ok c -> saved_typed s ->
  ok (fst (restore_persistent_state s c)) /\ board (fst (restore_persistent_state s c)) = board c.
Proof.
  intros [? [? ?] ? ? ?] Hs. unfold restore_persistent_state. destruct s; try by split; [constructor|].
  destruct (Z.eqb_spec (vec_len (eeprom c)) (vec_len eeprom0)); simpl; [|by split; [constructor|]].
  destruct c. simpl in *. split; [|done]. constructor; simpl; try done. split; [congruence | done].
Qed.

Lemma mbc7_persistence_contract_holds c : ok c -> persistence_contract ok c.
Proof.
  intros [_ [Hl Hb] _ _ _]. unfold persistence_contract. split_and!.
  - done.
  - intros c0 [_ [Hl0 _] _ _ _] _. simpl. rewrite Hl, Hl0, Z.eqb_refl. simpl. eexists. by split; [|destruct c0].
  - intros s c1 e. simpl. unfold restore_persistent_state. destruct s; try congruence. case_match; congruence.
Qed.

Lemma mbc7_rom_contract_holds c : ok c -> rom_contract c.
Proof.
  intros Hok. destruct (ok_rom c Hok) as (n & Hn & Hpos & Hlen).
  apply (rom_contract_of_banks c (fun a => if a <? 0x4000 then 0 else rom_bank c mod n) n); [done | | |].
  - intros a _. case_match; [lia|]. apply Z.mod_pos_bound. lia.
  - intros a _. simpl. unfold read_rom, window_offset, effective_rom_bank. rewrite Hn. simpl.
    rewrite !Z.max_l by lia. unfold MBC7_ROM_BANK_BYTES. by destruct (a <? 0x4000).
  - intros _ a Ha. simpl. unfold mapped_rom_window, window_offset, effective_rom_bank, rom_area in *.
    rewrite Hn. simpl. destruct (Z.leb_spec 0x8000 a); [lia|]. by rewrite !Z.max_l by lia.
Qed.

Lemma mbc7_step_ok op c : ok c -> valid_op op ->
  exists c', run_op op c = Done c' /\ ok c' /\ m_board c' = m_board c.
Proof.
  intros Hok. apply (linear_timeless_step_ok write_rom); [done | done | | | done].
  - intros a v _. by apply mbc7_write_rom_ok.
  - intros s. by apply mbc7_restore_ok.
Qed.

Lemma mbc7_ok_contract c : ok c -> contract ok c.
Proof.
  intros Hok. constructor.
  - by apply mbc7_rom_contract_holds.
  - by apply linear_external_contract.
  - by apply linear_storage_contract.
  - intros a v _ _. by eexists.
  - by apply mbc7_persistence_contract_holds.
Qed.

#[export] Instance mbc7_laws : MapperLaws Mbc7Cartridge := {|
  m_ok := ok;
  m_step_ok := mbc7_step_ok;
  m_ok_contract := mbc7_ok_contract
|}.

Lemma load_mbc7_ok h rom_bytes compat cls ds c :
  header_sized h -> accepts (load_mbc7 h rom_bytes) compat cls ds c -> ok c /\ rom c = rom_bytes.
Proof.
  intros Hsized H. unfold load_mbc7, validate_mbc7 in H. accepts_inv. subst. split; [|done].
  destruct (exact_size_banks h (vec_len rom_bytes)) as (banks & Hb & Hr & Hl); [done..|].
  constructor; cbn [header rom eeprom latched_x latched_y accelerometer_input eeprom_command command_ok].
  - exists banks. split_and!; [done | lia | done].
  - split; [done | by apply Forall_replicate].
  - done.
  - done.
  - done.
Qed.

(** ** Driving the EEPROM

    Software clocks the EEPROM through the pin register: it sets the data pin,
    raises the clock, and reads the output pin back. *)

Definition EEPROM_PORT : Z := 0xA080.

Fixpoint msb_bits (n : nat) (v : Z) : list bool :=
  match n with
  | O => []
  | S m => Z.testbit v (Z.of_nat m) :: msb_bits m v
  end.

Definition clock_in (b : bool) (c : Mbc7Cartridge) : outcome Mbc7Cartridge :=
  c ← write_register EEPROM_PORT (if b then 0x82 else 0x80) c;
  write_register EEPROM_PORT (if b then 0xC2 else 0xC0) c.

Fixpoint send (bs : list bool) (c : Mbc7Cartridge) : outcome Mbc7Cartridge :=
  match bs with
  | [] => Done c
  | b :: bs => c ← clock_in b c; send bs c
  end.

(** Deselect, select, the start bit, and the bits of a command. *)
Definition transact (bs : list bool) (c : Mbc7Cartridge) : outcome Mbc7Cartridge :=
  c ← write_register EEPROM_PORT 0x00 c; send (true :: bs) c.

Fixpoint receive (n : nat) (c : Mbc7Cartridge) : outcome (list bool * Mbc7Cartridge) :=
  match n with
  | O => Done ([], c)
  | S n =>
      c ← clock_in false c;
      r ← receive n c;
      Done (has_bits (read_register EEPROM_PORT c) MBC7_EEPROM_PIN_DO :: fst r, snd r)
  end.

(** The cartridge with its serial interface in a given state. *)
Definition serial (c : Mbc7Cartridge) (p : Mbc7EepromPins) (cmd : Mbc7EepromCommand) : Mbc7Cartridge :=
  c <| eeprom_pins := p |> <| eeprom_command := cmd |>.

Lemma port_open c : registers_enabled c = true ->
  (forall v, write_register EEPROM_PORT v c = write_eeprom_pins v c) /\
  read_register EEPROM_PORT c = read_eeprom_pins c.
Proof. intros He. unfold write_register, read_register. by rewrite He. Qed.

Lemma clock_in_spec b c p cmd : registers_enabled c = true ->
  clock_in b (serial c p cmd) = clock_eeprom (serial c (mkPins true true b (do_pin p)) cmd).
Proof.
  intros He. unfold clock_in.
  assert (Hp : forall q k, registers_enabled (serial c q k) = true) by (intros; by destruct c).
  rewrite (proj1 (port_open _ (Hp _ _))).
  replace (write_eeprom_pins (if b then 0x82 else 0x80) (serial c p cmd))
    with (Done (serial c (mkPins true false b (do_pin p)) cmd)) by (by destruct c, p as [? [] ? ?], b).
  cbn [mbind outcome_bind]. rewrite (proj1 (port_open _ (Hp _ _))). by destruct c, p, b.
Qed.

Lemma do_read_back c p cmd : registers_enabled c = true ->
  has_bits (read_register EEPROM_PORT (serial c p cmd)) MBC7_EEPROM_PIN_DO = do_pin p.
Proof.
  intros He. assert (Hp : registers_enabled (serial c p cmd) = true) by by destruct c.
  rewrite (proj2 (port_open _ Hp)). destruct c, p as [[] [] [] []]; reflexivity.
Qed.

Lemma bind_done (o : outcome Mbc7Cartridge) : (c ← o; Done c) = o.
Proof. by destruct o. Qed.

(** The last of the ten command bits runs the command. *)
Lemma send_command bs c p v : registers_enabled c = true -> bs <> [] -> (length bs <= 10)%nat ->
  exists p' v', send bs (serial c p (ReceivingCommand (10 - Z.of_nat (length bs)) v)) =
    finish_eeprom_command (foldl shift_in v bs) (serial c p' (ReceivingCommand 9 v')).
Proof.
  intros He. revert p v. induction bs as [|b bs IH]; intros p v Hne Hlen; [done|]. cbn [send length] in *.
  rewrite clock_in_spec by done. unfold clock_eeprom.
  assert (Hc : forall q k, eeprom_command (serial c q k) = k) by (intros; by destruct c).
  assert (Hq : forall q k, eeprom_pins (serial c q k) = q) by (intros; by destruct c).
  rewrite Hc, Hq. cbn [di]. unfold MBC7_EEPROM_COMMAND_BITS. destruct bs as [|b' bs].
  - destruct (Z.eqb_spec (10 - Z.of_nat 1 + 1) 10); [|lia]. exists (mkPins true true b (do_pin p)), v.
    cbn [send]. rewrite bind_done. done.
  - destruct (Z.eqb_spec (10 - Z.of_nat (S (length (b' :: bs))) + 1) 10); [cbn [length] in *; lia|]. cbn [mbind outcome_bind].
    replace (10 - Z.of_nat (S (length (b' :: bs))) + 1) with (10 - Z.of_nat (length (b' :: bs))) by lia.
    destruct (IH (mkPins true true b (do_pin p)) (shift_in v b)) as (p' & v' & Hs); [done | lia|].
    exists p', v'. etrans; [|exact Hs]. f_equal. by destruct c.
Qed.

(** The last of the sixteen data bits commits the word. *)
Lemma send_data t bs c p v : registers_enabled c = true -> bs <> [] -> (length bs <= 16)%nat ->
  exists p' v', send bs (serial c p (ReceivingData t (16 - Z.of_nat (length bs)) v)) =
    commit_eeprom_data t (foldl shift_in v bs) (serial c p' (ReceivingData t 15 v')).
Proof.
  intros He. revert p v. induction bs as [|b bs IH]; intros p v Hne Hlen; [done|]. cbn [send length] in *.
  rewrite clock_in_spec by done. unfold clock_eeprom.
  assert (Hc : forall q k, eeprom_command (serial c q k) = k) by (intros; by destruct c).
  assert (Hq : forall q k, eeprom_pins (serial c q k) = q) by (intros; by destruct c).
  rewrite Hc, Hq. cbn [di]. unfold MBC7_EEPROM_DATA_BITS. destruct bs as [|b' bs].
  - destruct (Z.eqb_spec (16 - Z.of_nat 1 + 1) 16); [|lia]. exists (mkPins true true b (do_pin p)), v.
    cbn [send]. rewrite bind_done. done.
  - destruct (Z.eqb_spec (16 - Z.of_nat (S (length (b' :: bs))) + 1) 16); [cbn [length] in *; lia|]. cbn [mbind outcome_bind].
    replace (16 - Z.of_nat (S (length (b' :: bs))) + 1) with (16 - Z.of_nat (length (b' :: bs))) by lia.
    destruct (IH (mkPins true true b (do_pin p)) (shift_in v b)) as (p' & v' & Hs); [done | lia|].
    exists p', v'. etrans; [|exact Hs]. f_equal. by destruct c.
Qed.

Lemma shift_in_spec acc b : 0 <= acc < 32768 -> shift_in acc b = 2 * acc + Z.b2z b.
Proof.
  intros Ha. unfold shift_in, as_u16. rewrite Z.mod_small by (rewrite Z.shiftl_mul_pow2; lia).
  rewrite Z.lor_comm, lor_shiftl_add by (destruct b; simpl; lia). by destruct b; simpl; lia.
Qed.

Lemma foldl_shift_in n v acc : 0 <= acc -> (acc + 1) * 2 ^ Z.of_nat n <= 65536 ->
  foldl shift_in acc (msb_bits n v) = acc * 2 ^ Z.of_nat n + v mod 2 ^ Z.of_nat n.
Proof.
  revert acc. induction n as [|n IH]; intros acc Ha Hb.
  { simpl. rewrite Z.mod_1_r. lia. }
  rewrite Nat2Z.inj_succ, Z.pow_succ_r in * by lia. cbn [msb_bits foldl].
  pose proof (Z.pow_pos_nonneg 2 (Z.of_nat n)). rewrite shift_in_spec by nia.
  assert (Hbit : Z.b2z (Z.testbit v (Z.of_nat n)) = (v / 2 ^ Z.of_nat n) mod 2) by (apply Z.testbit_spec'; lia).
  pose proof (Z.mod_pos_bound (v / 2 ^ Z.of_nat n) 2).
  rewrite IH by nia. rewrite Hbit, (Z.mul_comm 2 (2 ^ Z.of_nat n)), Z.rem_mul_r by lia. nia.
Qed.

Lemma send_app bs1 bs2 c : send (bs1 ++ bs2)%list c = (c ← send bs1 c; send bs2 c).
Proof.
  revert c. induction bs1 as [|b bs1 IH]; intros c; [done|]. cbn [send app].
  destruct (clock_in b c); cbn [mbind outcome_bind]; [apply IH | done].
Qed.

Lemma serial_serial c p cmd p' cmd' : serial (serial c p cmd) p' cmd' = serial c p' cmd'.
Proof. by destruct c. Qed.

Lemma serial_enabled c p cmd : registers_enabled (serial c p cmd) = registers_enabled c.
Proof. by destruct c. Qed.

(** A ten-bit command reaches the EEPROM from any state. *)
Lemma transact_command k c : registers_enabled c = true -> 0 <= k < 1024 ->
  exists p v, forall rest, transact (msb_bits 10 k ++ rest)%list c =
    (c ← finish_eeprom_command k (serial c p (ReceivingCommand 9 v)); send rest c).
Proof.
  intros He Hk. set (p0 := mkPins true true true true).
  destruct (send_command (msb_bits 10 k) c p0 0 He) as (p & v & Hs); [done | simpl; lia|].
  exists p, v. intros rest. unfold transact. rewrite (proj1 (port_open c He)).
  replace (write_eeprom_pins 0x00 c) with (Done (serial c pins_default Idle)) by by destruct c as [? ? ? ? ? ? ? ? ? ? ? [] ? ?].
  cbn [mbind outcome_bind send]. rewrite clock_in_spec by done.
  replace (clock_eeprom (serial c (mkPins true true true (do_pin pins_default)) Idle))
    with (Done (serial c p0 (ReceivingCommand 0 0))) by by destruct c.
  cbn [mbind outcome_bind]. rewrite send_app. change (10 - Z.of_nat (length (msb_bits 10 k))) with 0 in Hs. rewrite Hs.
  rewrite (foldl_shift_in 10) by (simpl; lia). change (2 ^ Z.of_nat 10) with 1024. by rewrite Z.mod_small by lia.
Qed.

(** Erase/write enable. *)
Lemma transact_enable c : registers_enabled c = true ->
  exists p, transact (msb_bits 10 0x0C0) c = Done (serial (c <| eeprom_write_enabled := true |>) p Idle).
Proof.
  intros He. destruct (transact_command 0x0C0 c He) as (p & v & Ht); [lia|].
  exists (p <| do_pin := true |>). specialize (Ht []). rewrite app_nil_r in Ht. rewrite Ht. by destruct c, p.
Qed.

Lemma command_fields op a : 0 <= op < 4 -> 0 <= a < 128 ->
  Z.land (Z.shiftr (256 * op + a) 8) 0x03 = op /\ Z.land (256 * op + a) 0x7F = a.
Proof.
  intros Ho Ha. rewrite land_03, land_7F, Z.shiftr_div_pow2 by lia. change (2 ^ 8) with 256. divmod_lia.
Qed.

Lemma transact_write a v c : registers_enabled c = true -> eeprom_write_enabled c = true -> 0 <= a < 128 -> u16 v ->
  exists p, transact (msb_bits 10 (0x100 + a) ++ msb_bits 16 v)%list c =
    (c ← write_eeprom_word a v c; Done (serial c p Idle)).
Proof.
  intros He Hw Ha Hv. destruct (transact_command (0x100 + a) c He) as (p & v1 & Ht); [lia|].
  destruct (command_fields 1 a) as [Hop Had]; [lia | done|]. change (256 * 1) with 0x100 in *.
  set (c1 := serial c p (ReceivingData (WriteWord a) 0 0)).
  assert (Hf : finish_eeprom_command (0x100 + a) (serial c p (ReceivingCommand 9 v1)) = Done c1).
  { unfold finish_eeprom_command. rewrite Hop, Had. simpl. by destruct c. }
  destruct (send_data (WriteWord a) (msb_bits 16 v) c p 0 He) as (p' & v' & Hs); [done | simpl; lia|].
  change (16 - Z.of_nat (length (msb_bits 16 v))) with 0 in Hs.
  exists (p' <| do_pin := true |>). rewrite Ht, Hf. cbn [mbind outcome_bind]. subst c1. rewrite Hs.
  rewrite (foldl_shift_in 16) by (simpl; lia). change (2 ^ Z.of_nat 16) with 65536. rewrite Z.mod_small by apply Hv.
  change (0 * 65536 + v) with v. unfold commit_eeprom_data, write_eeprom_word.
  replace (eeprom_write_enabled (serial c p' (ReceivingData (WriteWord a) 15 v'))) with true by by destruct c.
  replace (eeprom (serial c p' (ReceivingData (WriteWord a) 15 v'))) with (eeprom c) by by destruct c.
  destruct (_ <? _); cbn [mbind outcome_bind]; [by destruct c, p' | done].
Qed.

Lemma transact_read a v c : registers_enabled c = true -> 0 <= a < 128 -> read_eeprom_word a c = Done v ->
  exists p, transact (msb_bits 10 (0x200 + a)) c = Done (serial c p (SendingRead 16 v)).
Proof.
  intros He Ha Hr. destruct (transact_command (0x200 + a) c He) as (p & v1 & Ht); [lia|].
  destruct (command_fields 2 a) as [Hop Had]; [lia | done|]. change (256 * 2) with 0x200 in *.
  exists (p <| do_pin := false |>). specialize (Ht []). rewrite app_nil_r in Ht. rewrite Ht.
  unfold finish_eeprom_command. rewrite Hop, Had. simpl.
  replace (read_eeprom_word a (serial c p (ReceivingCommand 9 v1))) with (read_eeprom_word a c) by by destruct c.
  rewrite Hr. simpl. by destruct c.
Qed.

(** The word comes out most significant bit first. *)
Lemma receive_bits n v c p : registers_enabled c = true -> (n <> 0)%nat ->
  exists p', receive n (serial c p (SendingRead (Z.of_nat n) v)) = Done (msb_bits n v, serial c p' Idle).
Proof.
  intros He. revert p. induction n as [|n IH]; intros p Hn; [done|].
  cbn [receive]. rewrite clock_in_spec by done.
  set (b := Z.testbit v (Z.of_nat n)). set (p1 := mkPins true true false b).
  assert (Hclock : clock_eeprom (serial c (mkPins true true false (do_pin p)) (SendingRead (Z.of_nat (S n)) v)) =
    Done (serial c p1 (if Z.of_nat n =? 0 then Idle else SendingRead (Z.of_nat n) v))).
  { unfold clock_eeprom. replace (eeprom_command (serial _ _ _)) with (SendingRead (Z.of_nat (S n)) v) by by destruct c.
    destruct (Z.eqb_spec (Z.of_nat (S n)) 0); [lia|]. cbv zeta. replace (Z.of_nat (S n) - 1) with (Z.of_nat n) by lia.
    assert (Hbit : has_bits (Z.shiftr v (Z.of_nat n)) 0x0001 = b).
    { etrans; [by apply (has_bits_pow2 _ 0)|]. by rewrite Z.shiftr_spec. }
    rewrite Hbit. by destruct c. }
  rewrite Hclock. cbn [mbind outcome_bind]. rewrite do_read_back by done.
  destruct (Z.eqb_spec (Z.of_nat n) 0).
  - destruct n; [|lia]. by exists p1.
  - destruct (IH p1) as (p' & Hr); [lia|]. exists p'. by rewrite Hr.
Qed.

Lemma read_after_write a b v c : vec_len (eeprom c) = MBC7_EEPROM_BYTES -> 0 <= a < 128 -> 0 <= b < 128 -> u16 v ->
  exists c', write_eeprom_word a v c = Done c' /\
    c' = c <| eeprom := eeprom c' |> /\
    read_eeprom_word b c' = if b =? a then Done v else read_eeprom_word b c.
Proof.
  intros Hl Ha Hb Hv. unfold write_eeprom_word, eeprom_word_offset. change MBC7_EEPROM_WORDS with 128.
  rewrite Hl. unfold MBC7_EEPROM_BYTES, vec_len in *. rewrite (Z.mod_small a) by lia.
  destruct (Z.ltb_spec (a * 2 + 1) 256); [|lia]. eexists. split; [done|]. split; [by destruct c|].
  unfold read_eeprom_word, eeprom_word_offset. change MBC7_EEPROM_WORDS with 128. rewrite (Z.mod_small b) by lia.
  replace (eeprom (c <| eeprom := _ |>)) with
    (vec_set (vec_set (eeprom c) (a * 2) (high_byte v)) (a * 2 + 1) (low_byte v)) by by destruct c.
  unfold vec_get, vec_set. destruct (Z.eqb_spec b a) as [->|Hne].
  - rewrite list_lookup_insert_ne, !list_lookup_insert_eq by (rewrite ?length_insert; lia).
    by rewrite from_be_bytes_split.
  - by rewrite !list_lookup_insert_ne by lia.
Qed.

(** ** Properties *)

(** C36. The EEPROM round-trips words through its pins: in every state reached
    from a loaded MBC7 cartridge in which the register area is enabled,
    whatever the serial interface was doing, clocking in the write-enable
    command and a write of a word stores that word and leaves the other 127,
    and clocking in a read of the same address and clocking sixteen times more
    yields the word, most significant bit first, changing nothing. *)
Theorem mbc7_eeprom_round_trip header rom_bytes compat cls ds c0 ops a v :
  header_sized header -> accepts (load_mbc7 header rom_bytes) compat cls ds c0 -> Forall valid_op ops ->
  0 <= a < MBC7_EEPROM_WORDS -> u16 v ->
  exists c, run_ops ops c0 = Done c /\
    (registers_enabled c = true ->
     exists c1 c2,
       (c ← transact (msb_bits 10 0x0C0) c; transact (msb_bits 10 (0x100 + a) ++ msb_bits 16 v) c)%list = Done c1 /\
       (forall b, 0 <= b < MBC7_EEPROM_WORDS ->
          read_eeprom_word b c1 = if b =? a then Done v else read_eeprom_word b c) /\
       (c ← transact (msb_bits 10 (0x200 + a)) c1; receive 16 c) = Done (msb_bits 16 v, c2) /\
       eeprom c2 = eeprom c1).
Proof.
  intros Hsized Hload Hops Ha Hv. destruct (load_mbc7_ok _ _ _ _ _ _ Hsized Hload) as [Hok0 _].
  destruct (@run_ops_ok _ _ mbc7_laws ops c0 Hok0 Hops) as (c & Hrun & Hok & _). simpl in Hok.
  exists c. split; [done|]. intros He. change MBC7_EEPROM_WORDS with 128 in *.
  destruct (transact_enable c He) as (p1 & H1). set (ce := serial (c <| eeprom_write_enabled := true |>) p1 Idle) in *.
  assert (Hce : registers_enabled ce = true /\ eeprom_write_enabled ce = true /\ eeprom ce = eeprom c) by by destruct c.
  destruct Hce as (He1 & Hw1 & Hmem).
  destruct (transact_write a v ce He1 Hw1 Ha Hv) as (p2 & H2).
  assert (Hl : vec_len (eeprom ce) = MBC7_EEPROM_BYTES) by (rewrite Hmem; apply (ok_eeprom c Hok)).
  destruct (read_after_write a a v ce Hl Ha Ha Hv) as (cw & Hcw & Hcw' & Hra). rewrite Z.eqb_refl in Hra.
  assert (Hread : forall c' c'' b, eeprom c'' = eeprom c' -> read_eeprom_word b c'' = read_eeprom_word b c').
  { intros c' c'' b E. unfold read_eeprom_word. by rewrite E. }
  set (c1 := serial cw p2 Idle).
  assert (Hc1 : registers_enabled c1 = true /\ eeprom c1 = eeprom cw) by (subst c1; rewrite Hcw'; by destruct c).
  destruct Hc1 as [He2 Hm1].
  destruct (transact_read a v c1 He2 Ha) as (p3 & H3); [by rewrite (Hread cw)|].
  destruct (receive_bits 16 v c1 p3 He2) as (p4 & H4); [done|].
  exists c1, (serial c1 p4 Idle). split_and!.
  - rewrite H1. cbn [mbind outcome_bind]. fold ce. by rewrite H2, Hcw.
  - intros b Hb. destruct (read_after_write a b v ce Hl Ha Hb Hv) as (cw2 & Hcw2 & _ & Hrb).
    rewrite Hcw in Hcw2. injection Hcw2 as <-. rewrite (Hread cw), Hrb by done. case_match; [done | by apply Hread].
  - rewrite H3. exact H4.
  - by destruct c1.
Qed.

(** The board of the witnesses. *)
Definition tilt_header : CartridgeHeader :=
  mkHeader [] [] [] [] [] CgbOnly SgbNone 0x22 (rom_size_decode 0x00) (ram_size_decode 0x00) [] 0 0 0.

Lemma mbc7_eeprom_round_trip_witness :
  let cls := mkClassification 0x22 "MBC7+SENSOR+RUMBLE+RAM+BATTERY" (Supported FamilyMbc7) "" in
  let ops := [OpWriteRom 0 0x0A; OpWriteRom 0x4000 0x40] in
  exists c0 c c1, accepts (load_mbc7 tilt_header (vec_zeroed 32768)) strict cls [] c0 /\
    run_ops ops c0 = Done c /\
    (c ← transact (msb_bits 10 0x0C0) c; transact (msb_bits 10 (0x100 + 5) ++ msb_bits 16 0xBEEF) c)%list = Done c1 /\
    read_eeprom_word 5 c1 = Done 0xBEEF.
Proof.
  intros cls ops.
  assert (L : vec_len (vec_zeroed 32768) = 32768) by (apply vec_len_zeroed; discriminate).
  set (image := vec_zeroed 32768) in *.
  set (c0 := mkMbc7 image (replicate (Z.to_nat MBC7_EEPROM_BYTES) 0xFF) tilt_header cls false false 1 accelerometer_neutral
               false 0x8000 0x8000 pins_default Idle false).
  assert (H : accepts (load_mbc7 tilt_header image) strict cls [] c0).
  { exists []. unfold load_mbc7. rewrite L. reflexivity. }
  assert (Hops : Forall valid_op ops) by (repeat constructor; discriminate).
  assert (Ha : 0 <= 5 < MBC7_EEPROM_WORDS) by (split; [discriminate | reflexivity]).
  assert (Hv : u16 0xBEEF) by (split; [discriminate | reflexivity]).
  destruct (mbc7_eeprom_round_trip tilt_header image strict cls [] c0 ops 5 0xBEEF (conj eq_refl eq_refl) H Hops Ha Hv)
    as (c & Hrun & Hrt).
  destruct Hrt as (c1 & c2 & Hw & Hr & _); [injection Hrun as <-; reflexivity|].
  exists c0, c, c1. split; [exact H | split; [exact Hrun | split; [exact Hw|]]]. exact (Hr 5 Ha).
Defined.

(** The accelerometer latch takes the input of the moment: reading gives the
    unlatched value after the reset, the input after the commit, and neither a
    second commit nor a new input shows before the next reset. *)
Theorem mbc7_accelerometer_latches c x y :
  registers_enabled c = true -> u16 x -> u16 y ->
  exists c1 c2, write_register 0xA000 0x55 c = Done c1 /\
    write_register 0xA010 0xAA (set_accelerometer_input (mkAccelerometer x y) c1) = Done c2 /\
    (from_be_bytes (read_register 0xA030 c1) (read_register 0xA020 c1) = MBC7_ACCELEROMETER_UNLATCHED_VALUE) /\
    forall input c3, write_register 0xA010 0xAA (set_accelerometer_input input c2) = Done c3 ->
      from_be_bytes (read_register 0xA030 c3) (read_register 0xA020 c3) = x /\
      from_be_bytes (read_register 0xA050 c3) (read_register 0xA040 c3) = y.
Proof.
  intros He Hx Hy. destruct c. unfold registers_enabled in He. apply andb_prop in He as [He1 He2]. simpl in *. subst.
  eexists _, _. split; [reflexivity|]. split; [reflexivity|]. split; [reflexivity|].
  intros input c3 [= <-]. unfold read_register. simpl. by rewrite !from_be_bytes_split.
Qed.

(** Tilt inputs stay within the sensor's range. *)
Lemma milli_g_range x y : -32768 <= x < 32768 -> -32768 <= y < 32768 ->
  u16 (x_raw (from_milli_g x y)) /\ u16 (y_raw (from_milli_g x y)).
Proof. unfold from_milli_g, mbc7_accelerometer_raw_from_milli_g, u16. simpl. lia. Qed.
