(* ===== verification/PocketCamera.v ===== *)
(** * Pocket Camera cartridges ([crates/gb-core/src/cartridge/pocket_camera.rs])

    The banked RAM and the sensor registers that share the external area, the
    capture state machine with its timed completion, pause and resume, the
    image pipeline from the host frame through exposure, edge filtering and the
    dithering matrix to tiles, persistence, and the loader's validation and
    construction.

    The [f32] products of the edge filter multiply an integer of at most eleven
    bits by a multiple of one quarter, so they are exact and are modelled as
    integers, with the truncation of [as i32]. *)

From Stdlib Require Import ZArith Lia Bool String List.
From stdpp Require Import base list decidable.
From S2P Require Import Prelude.
From S2P Require Import Model.
From S2P Require Import CartridgeHeader.
From S2P Require Import Cartridge.

Local Open Scope string_scope.
Local Open Scope Z_scope.

Definition POCKET_CAMERA_SUPPORTED_ROM_BYTES : Z := 1024 * 1024.
Definition POCKET_CAMERA_SUPPORTED_RAM_BYTES : Z := 128 * 1024.
Definition POCKET_CAMERA_RAM_BANK_BYTES : Z := 8 * 1024.
Definition POCKET_CAMERA_CAPTURE_TILE_BASE_OFFSET : Z := 0x0100.
Definition POCKET_CAMERA_CAPTURE_TILE_BYTES : Z := 14 * 16 * 16.
Definition POCKET_CAMERA_CAPTURE_TILE_WIDTH : Z := 16.
Definition POCKET_CAMERA_CAPTURE_WIDTH : Z := 128.
Definition POCKET_CAMERA_CAPTURE_HEIGHT : Z := 112.
Definition POCKET_CAMERA_CAPTURE_PIXEL_COUNT : Z := POCKET_CAMERA_CAPTURE_WIDTH * POCKET_CAMERA_CAPTURE_HEIGHT.
Definition POCKET_CAMERA_SENSOR_EXTRA_LINES : Z := 8.
Definition POCKET_CAMERA_SENSOR_HEIGHT : Z := POCKET_CAMERA_CAPTURE_HEIGHT + POCKET_CAMERA_SENSOR_EXTRA_LINES.
Definition POCKET_CAMERA_SENSOR_PIXEL_COUNT : Z := POCKET_CAMERA_CAPTURE_WIDTH * POCKET_CAMERA_SENSOR_HEIGHT.
Definition POCKET_CAMERA_REGISTER_COUNT : Z := 0x36.
Definition POCKET_CAMERA_REGISTER_MIRROR_MASK : Z := 0x7F.
Definition POCKET_CAMERA_WORKING_RAM_READ_VALUE : Z := 0x00.

#[local] Arguments POCKET_CAMERA_SUPPORTED_ROM_BYTES : simpl never.
#[local] Arguments POCKET_CAMERA_SUPPORTED_RAM_BYTES : simpl never.
#[local] Arguments POCKET_CAMERA_CAPTURE_TILE_BYTES : simpl never.
#[local] Arguments POCKET_CAMERA_CAPTURE_PIXEL_COUNT : simpl never.
#[local] Arguments POCKET_CAMERA_SENSOR_PIXEL_COUNT : simpl never.
#[local] Arguments POCKET_CAMERA_CAPTURE_WIDTH : simpl never.
#[local] Arguments POCKET_CAMERA_CAPTURE_HEIGHT : simpl never.
#[local] Arguments POCKET_CAMERA_SENSOR_HEIGHT : simpl never.

Record PocketCameraFrame := mkFrame { width : Z; height : Z; grayscale_pixels : list Z }.

Inductive PocketCameraFrameError :=
| UnsupportedCartridge
| InvalidDimensions (error_width error_height pixel_len : Z).

Inductive PocketCameraCaptureState :=
| CaptureIdle
| Working (ready_at : Z) (staged_tiles : list Z)
| Paused (remaining_t_cycles : Z) (staged_tiles : list Z).

Record PocketCameraCartridge := mkCamera {
  rom : list Z;
  ram : list Z;
  header : CartridgeHeader;
  classification : CartridgeClassification;
  ram_enabled : bool;
  rom_bank : Z;
  ram_bank_or_register_select : Z;
  registers : list Z;
  host_frame : list Z;
  capture_state : PocketCameraCaptureState
}.

#[export] Instance upd_rom : Update rom := fun v s =>
  let '(mkCamera _ x2 x3 x4 x5 x6 x7 x8 x9 x10) := s in mkCamera v x2 x3 x4 x5 x6 x7 x8 x9 x10.
#[export] Instance upd_ram : Update ram := fun v s =>
  let '(mkCamera x1 _ x3 x4 x5 x6 x7 x8 x9 x10) := s in mkCamera x1 v x3 x4 x5 x6 x7 x8 x9 x10.
#[export] Instance upd_header : Update header := fun v s =>
  let '(mkCamera x1 x2 _ x4 x5 x6 x7 x8 x9 x10) := s in mkCamera x1 x2 v x4 x5 x6 x7 x8 x9 x10.
#[export] Instance upd_classification : Update classification := fun v s =>
  let '(mkCamera x1 x2 x3 _ x5 x6 x7 x8 x9 x10) := s in mkCamera x1 x2 x3 v x5 x6 x7 x8 x9 x10.
#[export] Instance upd_ram_enabled : Update ram_enabled := fun v s =>
  let '(mkCamera x1 x2 x3 x4 _ x6 x7 x8 x9 x10) := s in mkCamera x1 x2 x3 x4 v x6 x7 x8 x9 x10.
#[export] Instance upd_rom_bank : Update rom_bank := fun v s =>
  let '(mkCamera x1 x2 x3 x4 x5 _ x7 x8 x9 x10) := s in mkCamera x1 x2 x3 x4 x5 v x7 x8 x9 x10.
#[export] Instance upd_ram_bank_or_register_select : Update ram_bank_or_register_select := fun v s =>
  let '(mkCamera x1 x2 x3 x4 x5 x6 _ x8 x9 x10) := s in mkCamera x1 x2 x3 x4 x5 x6 v x8 x9 x10.
#[export] Instance upd_registers : Update registers := fun v s =>
  let '(mkCamera x1 x2 x3 x4 x5 x6 x7 _ x9 x10) := s in mkCamera x1 x2 x3 x4 x5 x6 x7 v x9 x10.
#[export] Instance upd_host_frame : Update host_frame := fun v s =>
  let '(mkCamera x1 x2 x3 x4 x5 x6 x7 x8 _ x10) := s in mkCamera x1 x2 x3 x4 x5 x6 x7 x8 v x10.
#[export] Instance upd_capture_state : Update capture_state := fun v s =>
  let '(mkCamera x1 x2 x3 x4 x5 x6 x7 x8 x9 _) := s in mkCamera x1 x2 x3 x4 x5 x6 x7 x8 x9 v.

(** ** Vectors and loops *)

(** [l[i] = v], out of range a panic. *)
Definition vec_assign (l : list Z) (i v : Z) : outcome (list Z) :=
  if i <? vec_len l then Done (vec_set l i v) else Panic "index out of bounds".

Definition range (n : Z) : list Z := map Z.of_nat (seq 0 (Z.to_nat n)).

Fixpoint collect {A : Type} (f : A -> outcome Z) (l : list A) : outcome (list Z) :=
  match l with
  | [] => Done []
  | a :: l => v ← f a; r ← collect f l; Done (v :: r)
  end.

Fixpoint fold_outcome {A S : Type} (f : A -> S -> outcome S) (l : list A) (s : S) : outcome S :=
  match l with
  | [] => Done s
  | a :: l => s ← f a s; fold_outcome f l s
  end.

(** The loop over the rows and columns of an image [POCKET_CAMERA_CAPTURE_WIDTH]
    wide, each step giving the pixel at [y * width + x]. *)
Definition for_pixels (rows : Z) (f : Z -> Z -> outcome Z) : outcome (list Z) :=
  collect (fun i => f (i mod POCKET_CAMERA_CAPTURE_WIDTH) (i / POCKET_CAMERA_CAPTURE_WIDTH))
    (range (POCKET_CAMERA_CAPTURE_WIDTH * rows)).

Definition clamp (v low high : Z) : Z := Z.max low (Z.min v high).
Definition pixel_index (x y : Z) : Z := y * POCKET_CAMERA_CAPTURE_WIDTH + x.

(** ** Host frames *)

Definition normalize (frame : PocketCameraFrame) : outcome (list Z + PocketCameraFrameError) :=
  let w := width frame in
  let h := height frame in
  if (w =? 0) || (h =? 0) || negb (vec_len (grayscale_pixels frame) =? w * h) then
    Done (inr (InvalidDimensions w h (vec_len (grayscale_pixels frame))))
  else if (w =? POCKET_CAMERA_CAPTURE_WIDTH) && (h =? POCKET_CAMERA_CAPTURE_HEIGHT) then
    Done (inl (grayscale_pixels frame))
  else
    normalized ← for_pixels POCKET_CAMERA_CAPTURE_HEIGHT (fun x y =>
      let source_y := y * h / POCKET_CAMERA_CAPTURE_HEIGHT in
      let source_x := x * w / POCKET_CAMERA_CAPTURE_WIDTH in
      vec_index (grayscale_pixels frame) (source_y * w + source_x));
    Done (inl normalized).

Definition placeholder_pixel (x y : Z) : Z :=
  if (x =? 0) || (y =? 0) || (x + 1 =? POCKET_CAMERA_CAPTURE_WIDTH) || (y + 1 =? POCKET_CAMERA_CAPTURE_HEIGHT) then 0
  else
    let k := x * 4 / POCKET_CAMERA_CAPTURE_WIDTH in
    if k =? 0 then 0 else if k =? 1 then 85 else if k =? 2 then 170 else 255.
Definition placeholder_frame : list Z :=
  map (fun i => placeholder_pixel (i mod POCKET_CAMERA_CAPTURE_WIDTH) (i / POCKET_CAMERA_CAPTURE_WIDTH))
    (range POCKET_CAMERA_CAPTURE_PIXEL_COUNT).

Definition set_host_frame (frame : PocketCameraFrame) (c : PocketCameraCartridge)
    : outcome (PocketCameraCartridge * option PocketCameraFrameError) :=
  r ← normalize frame;
  Done match r : list Z + PocketCameraFrameError with
       | inl pixels => (c <| host_frame := pixels |>, None)
       | inr e => (c, Some e)
       end.
Definition clear_host_frame (c : PocketCameraCartridge) : PocketCameraCartridge :=
  c <| host_frame := placeholder_frame |>.

(** ** The image pipeline *)

Definition reg (i : Z) (c : PocketCameraCartridge) : Z := nth (Z.to_nat i) (registers c) 0.
Definition exposure (c : PocketCameraCartridge) : Z := Z.lor (Z.shiftl (reg 2 c) 8) (reg 3 c).

Definition build_sensor_image (c : PocketCameraCartridge) : outcome (list Z) :=
  let invert := has_bits (reg 4 c) 0x08 in
  for_pixels POCKET_CAMERA_SENSOR_HEIGHT (fun x y =>
    let source_y :=
      if y <? POCKET_CAMERA_SENSOR_EXTRA_LINES / 2 then 0
      else if POCKET_CAMERA_CAPTURE_HEIGHT + POCKET_CAMERA_SENSOR_EXTRA_LINES / 2 <=? y
      then POCKET_CAMERA_CAPTURE_HEIGHT - 1
      else y - POCKET_CAMERA_SENSOR_EXTRA_LINES / 2 in
    value ← vec_index (host_frame c) (pixel_index x source_y);
    let value := Z.quot (value * exposure c) 0x0300 in
    let value := 128 + Z.quot (value - 128) 8 in
    let value := clamp value 0 255 in
    Done (if invert then 255 - value else value)).

(** [edge_alpha] in quarters. *)
Definition edge_alpha_quarters (c : PocketCameraCartridge) : Z :=
  nth (Z.to_nat (Z.shiftr (Z.land (reg 4 c) 0x70) 4)) [2; 3; 4; 5; 8; 12; 16; 20] 0.
Definition sharpen (edge alpha_quarters : Z) : Z := Z.quot (edge * alpha_quarters) 4.

Definition west_of (pixels : list Z) (x y : Z) : outcome Z := vec_index pixels (pixel_index (Z.max (x - 1) 0) y).
Definition east_of (pixels : list Z) (x y : Z) : outcome Z :=
  vec_index pixels (pixel_index (Z.min (x + 1) (POCKET_CAMERA_CAPTURE_WIDTH - 1)) y).
Definition north_of (pixels : list Z) (x y : Z) : outcome Z := vec_index pixels (pixel_index x (Z.max (y - 1) 0)).
Definition south_of (pixels : list Z) (x y : Z) : outcome Z :=
  vec_index pixels (pixel_index x (Z.min (y + 1) (POCKET_CAMERA_SENSOR_HEIGHT - 1))).

(** The pass both one-dimensional modes end with. *)
Definition vertical_pass (p_bits m_bits : Z) (temp : list Z) : outcome (list Z) :=
  for_pixels POCKET_CAMERA_SENSOR_HEIGHT (fun x y =>
    south ← south_of temp x y;
    current ← vec_index temp (pixel_index x y);
    let value := (if has_bits p_bits 0x01 then current else 0) + (if has_bits p_bits 0x02 then south else 0)
                 - (if has_bits m_bits 0x01 then current else 0) - (if has_bits m_bits 0x02 then south else 0) in
    Done (clamp value (-128) 127)).

Definition filter_pass_2 (original : list Z) (alpha : Z) : outcome (list Z) :=
  for_pixels POCKET_CAMERA_SENSOR_HEIGHT (fun x y =>
    west ← west_of original x y;
    east ← east_of original x y;
    current ← vec_index original (pixel_index x y);
    Done (clamp (current + sharpen (2 * current - west - east) alpha) 0 255)).

Definition filter_pass_E (original : list Z) (alpha : Z) : outcome (list Z) :=
  for_pixels POCKET_CAMERA_SENSOR_HEIGHT (fun x y =>
    south ← south_of original x y;
    north ← north_of original x y;
    west ← west_of original x y;
    east ← east_of original x y;
    current ← vec_index original (pixel_index x y);
    Done (clamp (current + sharpen (4 * current - west - east - north - south) alpha) (-128) 127)).

Definition kernel_select (c : PocketCameraCartridge) : Z := Z.land (Z.shiftr (reg 0 c) 1) 0x03.
Definition kernel_p_bits (c : PocketCameraCartridge) : Z := if kernel_select c =? 0 then 0x00 else 0x01.
Definition kernel_m_bits (c : PocketCameraCartridge) : Z :=
  if kernel_select c =? 0 then 0x01 else if kernel_select c =? 1 then 0x00 else 0x02.
Definition filtering_mode (c : PocketCameraCartridge) : Z :=
  let n_bit := u8_from_bool (has_bits (reg 1 c) 0x80) in
  let vh_bits := Z.land (Z.shiftr (reg 1 c) 5) 0x03 in
  let e3_bit := u8_from_bool (has_bits (reg 4 c) 0x80) in
  Z.lor (Z.lor (Z.shiftl n_bit 3) (Z.shiftl vh_bits 1)) e3_bit.

Definition apply_filtering (pixels : list Z) (c : PocketCameraCartridge) : outcome (list Z) :=
  let p_bits := kernel_p_bits c in
  let m_bits := kernel_m_bits c in
  let edge_alpha := edge_alpha_quarters c in
  let mode := filtering_mode c in
  if mode =? 0x0 then vertical_pass p_bits m_bits pixels
  else if mode =? 0x2 then temp ← filter_pass_2 pixels edge_alpha; vertical_pass p_bits m_bits temp
  else if mode =? 0xE then filter_pass_E pixels edge_alpha
  else if mode =? 0x1 then Done (map (fun _ => 0) pixels)
  else Done pixels.

Definition matrix_map (value x y : Z) (c : PocketCameraCartridge) : outcome Z :=
  let base := 6 + ((Z.land y 3 * 4 + Z.land x 3) * 3) in
  r0 ← vec_index (registers c) base;
  r1 ← vec_index (registers c) (base + 1);
  r2 ← vec_index (registers c) (base + 2);
  Done (if value <? r0 then 0x00 else if value <? r1 then 0x40 else if value <? r2 then 0x80 else 0xC0).

(** The four-level image. *)
Definition capture_colors (c : PocketCameraCartridge) : outcome (list Z) :=
  sensor ← build_sensor_image c;
  processed ← apply_filtering (map (fun v => v - 128) sensor) c;
  let processed := map (fun v => v + 128) processed in
  for_pixels POCKET_CAMERA_CAPTURE_HEIGHT (fun x y =>
    let source_index := (y + POCKET_CAMERA_SENSOR_EXTRA_LINES / 2) * POCKET_CAMERA_CAPTURE_WIDTH + x in
    value ← vec_index processed source_index;
    matrix_map (clamp value 0 255) x y c).

(** [tiles[i] |= bit] when the plane's bit is set. *)
Definition or_tile (guard : bool) (i bit : Z) (tiles : list Z) : outcome (list Z) :=
  if guard then old ← vec_index tiles i; vec_assign tiles i (Z.lor old bit) else Done tiles.

Definition tile_offset (x y : Z) : Z :=
  let tile_index := (y / 8) * POCKET_CAMERA_CAPTURE_TILE_WIDTH + x / 8 in
  tile_index * 16 + Z.land y 7 * 2.

Definition pack_pixel (four_color : list Z) (i : Z) (tiles : list Z) : outcome (list Z) :=
  let x := i mod POCKET_CAMERA_CAPTURE_WIDTH in
  let y := i / POCKET_CAMERA_CAPTURE_WIDTH in
  color ← vec_index four_color (pixel_index x y);
  if 3 <? Z.shiftr color 6 then Panic "attempt to subtract with overflow"
  else
    let outcolor := 3 - Z.shiftr color 6 in
    let bit := shl8 1 (7 - Z.land x 7) in
    tiles ← or_tile (has_bits outcolor 0x01) (tile_offset x y) bit tiles;
    or_tile (has_bits outcolor 0x02) (tile_offset x y + 1) bit tiles.

Definition pack_tiles (four_color : list Z) : outcome (list Z) :=
  fold_outcome (pack_pixel four_color) (range POCKET_CAMERA_CAPTURE_PIXEL_COUNT)
    (vec_zeroed POCKET_CAMERA_CAPTURE_TILE_BYTES).

Definition build_capture_tiles (c : PocketCameraCartridge) : outcome (list Z) :=
  four_color ← capture_colors c; pack_tiles four_color.

Definition capture_duration_t_cycles (c : PocketCameraCartridge) : Z :=
  let n_bit_extra := if has_bits (reg 1 c) 0x80 then 0 else 512 in
  4 * (32446 + n_bit_extra + 16 * exposure c).

(** ** The capture state machine *)

Definition saturating_sub64 (a b : Z) : Z := Z.max (a - b) 0.

Definition capture_ready_at (c : PocketCameraCartridge) : option Z :=
  match capture_state c with Working ready_at _ => Some ready_at | _ => None end.
Definition registers_selected (c : PocketCameraCartridge) : bool := has_bits (ram_bank_or_register_select c) 0x10.
Definition capture_is_working (c : PocketCameraCartridge) : bool :=
  match capture_state c with Working _ _ => true | _ => false end.

(** A missing window leaves the RAM. *)
Definition commit_staged_tiles (staged_tiles : list Z) (c : PocketCameraCartridge) : PocketCameraCartridge :=
  let start := POCKET_CAMERA_CAPTURE_TILE_BASE_OFFSET in
  let stop := start + vec_len staged_tiles in
  if stop <=? vec_len (ram c) then
    c <| ram := (take (Z.to_nat start) (ram c) ++ staged_tiles ++ drop (Z.to_nat stop) (ram c))%list |>
  else c.

Definition maybe_complete_capture (t_cycle : option Z) (c : PocketCameraCartridge) : PocketCameraCartridge :=
  match t_cycle with
  | None => c
  | Some t_cycle =>
      match capture_state c with
      | Working ready_at staged_tiles =>
          if ready_at <=? t_cycle then commit_staged_tiles staged_tiles (c <| capture_state := CaptureIdle |>) else c
      | _ => c
      end
  end.

Definition start_new_capture (t_cycle : option Z) (c : PocketCameraCartridge) : outcome PocketCameraCartridge :=
  staged_tiles ← build_capture_tiles c;
  let duration := capture_duration_t_cycles c in
  let ready_at := match t_cycle with None => duration | Some cycle => saturating_add64 cycle duration end in
  Done (c <| capture_state := Working ready_at staged_tiles |>).

Definition pause_capture (t_cycle : option Z) (c : PocketCameraCartridge) : PocketCameraCartridge :=
  match capture_state c with
  | Working ready_at staged_tiles =>
      let remaining := match t_cycle with None => ready_at | Some cycle => saturating_sub64 ready_at cycle end in
      c <| capture_state := Paused remaining staged_tiles |>
  | _ => c
  end.

Definition resume_capture (t_cycle : option Z) (c : PocketCameraCartridge) : PocketCameraCartridge :=
  match capture_state c with
  | Paused remaining staged_tiles =>
      let ready_at := match t_cycle with None => remaining | Some cycle => saturating_add64 cycle remaining end in
      c <| capture_state := Working ready_at staged_tiles |>
  | _ => c
  end.

(** ** Accesses *)

(** [address as usize - 0xA000] panics below the area. *)
Definition register_offset (address : Z) : outcome Z :=
  base ← ram_base_offset address; Done (Z.land base POCKET_CAMERA_REGISTER_MIRROR_MASK).
Definition selected_ram_bank (c : PocketCameraCartridge) : Z := Z.land (ram_bank_or_register_select c) 0x0F.
Definition effective_ram_offset (address : Z) (c : PocketCameraCartridge) : outcome Z :=
  base ← ram_base_offset address; Done (selected_ram_bank c * POCKET_CAMERA_RAM_BANK_BYTES + base).
Definition effective_rom_bank (bank_count : Z) (c : PocketCameraCartridge) : Z := rom_bank c mod Z.max bank_count 1.

Definition read_register (address : Z) (c : PocketCameraCartridge) : outcome Z :=
  offset ← register_offset address;
  Done (if offset =? 0x00 then Z.lor (Z.land (reg 0 c) 0x06) (u8_from_bool (capture_is_working c)) else 0).

Definition write_register (address value : Z) (t_cycle : option Z) (c : PocketCameraCartridge)
    : outcome PocketCameraCartridge :=
  offset ← register_offset address;
  if offset =? 0x00 then
    let c := c <| registers := vec_set (registers c) 0 (Z.land value 0x06) |> in
    if has_bits value 0x01 then
      match capture_state c with
      | CaptureIdle => start_new_capture t_cycle c
      | Paused _ _ => Done (resume_capture t_cycle c)
      | Working _ _ => Done c
      end
    else Done (if capture_is_working c then pause_capture t_cycle c else c)
  else if (0x01 <=? offset) && (offset <=? 0x35) then Done (c <| registers := vec_set (registers c) offset value |>)
  else Done c.

Definition read_ram (address : Z) (c : PocketCameraCartridge) : outcome Z :=
  if registers_selected c then read_register address c
  else if capture_is_working c then Done POCKET_CAMERA_WORKING_RAM_READ_VALUE
  else offset ← effective_ram_offset address c; Done (byte_or_absent (vec_get (ram c) offset)).

Definition write_ram_after_ready_resolution (address value : Z) (t_cycle : option Z) (c : PocketCameraCartridge)
    : outcome PocketCameraCartridge :=
  if registers_selected c then write_register address value t_cycle c
  else if capture_is_working c || negb (ram_enabled c) then Done c
  else offset ← effective_ram_offset address c; Done (c <| ram := vec_set (ram c) offset value |>).

Definition read_ram_timed (address t_cycle : Z) (c : PocketCameraCartridge) : outcome (Z * PocketCameraCartridge) :=
  let c := maybe_complete_capture (Some t_cycle) c in
  v ← read_ram address c; Done (v, c).
Definition write_ram (address value : Z) (c : PocketCameraCartridge) : outcome PocketCameraCartridge :=
  write_ram_after_ready_resolution address value None c.
Definition write_ram_timed (address value t_cycle : Z) (c : PocketCameraCartridge) : outcome PocketCameraCartridge :=
  write_ram_after_ready_resolution address value (Some t_cycle) (maybe_complete_capture (Some t_cycle) c).

Definition describe_external_access (address : Z) (c : PocketCameraCartridge) : CartridgeExternalAccessInfo :=
  if registers_selected c then
    let offset := Z.land (address - 0xA000) POCKET_CAMERA_REGISTER_MIRROR_MASK in
    let defined := offset <? POCKET_CAMERA_REGISTER_COUNT in
    access_new address (PocketCameraRegister offset)
      (if defined then Accessible else Reserved)
      (if offset =? 0 then ReadStorage else FallbackValue 0)
      (if defined then WriteStorage else Ignored)
  else
    access_new address (BankedRam (selected_ram_bank c))
      (if capture_is_working c then Disabled else Accessible)
      (if capture_is_working c then FallbackValue POCKET_CAMERA_WORKING_RAM_READ_VALUE else ReadStorage)
      (if capture_is_working c || negb (ram_enabled c) then Ignored else WriteStorage).

Definition read_rom (address : Z) (c : PocketCameraCartridge) : Z :=
  let bank_count := Z.max (default 1 (rom_bank_count (rom_size (header c)))) 1 in
  let rom_index :=
    if address <? 0x4000 then address
    else effective_rom_bank bank_count c * 0x4000 + (address - 0x4000) in
  byte_or_absent (vec_get (rom c) rom_index).

Definition mapped_rom_window (address : Z) (c : PocketCameraCartridge) : option CartridgeMappedRomWindow :=
  if 0x8000 <=? address then None
  else
    let bank := if address <? 0x4000 then 0
                else effective_rom_bank (Z.max (default 1 (rom_bank_count (rom_size (header c)))) 1) c in
    let bank_offset := if address <? 0x4000 then address else address - 0x4000 in
    Some (rom_window bank 0x4000 bank_offset).

Definition write_rom (address value : Z) (c : PocketCameraCartridge) : PocketCameraCartridge :=
  if (0x0000 <=? address) && (address <=? 0x1FFF) then c <| ram_enabled := Z.land value 0x0F =? 0x0A |>
  else if (0x2000 <=? address) && (address <=? 0x3FFF) then c <| rom_bank := Z.land value 0x3F |>
  else if (0x4000 <=? address) && (address <=? 0x5FFF) then c <| ram_bank_or_register_select := Z.land value 0x1F |>
  else c.

(** ** Persistence *)

Definition persistence_metadata (c : PocketCameraCartridge) : CartridgePersistenceMetadata :=
  mkMetadata true false (PersistentRam (Linear (vec_len (ram c)))).

Definition persistent_state (c : PocketCameraCartridge) : PersistentCartState := PocketCameraRam (ram c).

Definition restore_persistent_state (state : PersistentCartState) (c : PocketCameraCartridge)
    : PocketCameraCartridge * option CartridgePersistentStateError :=
  match state with
  | PocketCameraRam r =>
      if negb (vec_len (ram c) =? vec_len r) then (c, Some (RamLengthMismatch (vec_len (ram c)) (vec_len r)))
      else (c <| ram := r |>, None)
  | other => (c, Some (KindMismatch "PocketCameraRam" (kind_name other)))
  end.

(** ** Loading *)

Definition validate_pocket_camera (header : CartridgeHeader) (actual_rom_size : Z) : V unit :=
  match rom_decoded_bytes (rom_size header) with
  | None => reject "{} declared an unsupported ROM size code {:#04X}"
  | Some declared_rom_bytes =>
      reject_if (negb (rom_raw_code (rom_size header) =? 0x05) ||
                 negb (declared_rom_bytes =? POCKET_CAMERA_SUPPORTED_ROM_BYTES))
        "{} expects the official 1 MiB ROM declaration (code 0x05), but the header declared code {:#04X} ({:?} bytes)";;
      reject_if (negb (actual_rom_size =? POCKET_CAMERA_SUPPORTED_ROM_BYTES))
        "{} expects a {}-byte image, but the loaded ROM is {} bytes";;
      reject_if (negb (ram_raw_code (ram_size header) =? 0x04) ||
                 negb (bool_decide (ram_decoded_bytes (ram_size header) = Some POCKET_CAMERA_SUPPORTED_RAM_BYTES)))
        "{} expects the official 128 KiB RAM declaration (code 0x04), but the header declared code {:#04X} ({:?} bytes)";;
      mret tt
  end.

(** The [PocketCamera] arm of [CartridgeSlot::load]. *)
Definition load_pocket_camera (header : CartridgeHeader) (rom_bytes : list Z) : V PocketCameraCartridge :=
  _ ← validate_pocket_camera header (vec_len rom_bytes);
  classification ← v_classification;
  mret {|
    rom := rom_bytes;
    ram := vec_zeroed POCKET_CAMERA_SUPPORTED_RAM_BYTES;
    header := header;
    classification := classification;
    ram_enabled := false;
    rom_bank := 1;
    ram_bank_or_register_select := 0;
    registers := vec_zeroed POCKET_CAMERA_REGISTER_COUNT;
    host_frame := placeholder_frame;
    capture_state := CaptureIdle
  |}.

Definition board (c : PocketCameraCartridge) : Board :=
  mkBoard BoardPocketCamera (header c) (classification c) (rom c) (Some (vec_len (ram c))) true false true 0x8000.

#[export] Instance pocket_camera_mapper : Mapper PocketCameraCartridge := {|
  m_board := board;
  m_ram := fun c => Some (ram c);
  m_settle := fun t => maybe_complete_capture (Some t);
  m_taken_up := fun s => s;
  m_read_rom := fun a c => Done (read_rom a c);
  m_mapped_rom_window := mapped_rom_window;
  m_write_rom := fun a v c => Done (write_rom a v c);
  m_read_ram := read_ram;
  m_read_ram_timed := read_ram_timed;
  m_write_ram := write_ram;
  m_write_ram_timed := write_ram_timed;
  m_describe_external_access := describe_external_access;
  m_advance_rtc_seconds := fun _ c => Done c;
  m_advance_mbc3_rtc_clock_ticks := fun _ c => Done c;
  m_persistence_metadata := persistence_metadata;
  m_persistent_state := persistent_state;
  m_restore_persistent_state := restore_persistent_state
|}.

(** ** Lemmas on the loops *)

Lemma in_range i n : In i (range n) -> 0 <= i < n.
Proof. unfold range. rewrite in_map_iff. intros (k & <- & Hk%in_seq). lia. Qed.

Lemma range_length n : 0 <= n -> vec_len (range n) = n.
Proof. intros. unfold vec_len, range. rewrite length_map, length_seq. lia. Qed.

Lemma lookup_range n i : 0 <= i < n -> range n !! Z.to_nat i = Some i.
Proof.
  intros Hi. unfold range. rewrite list_lookup_fmap, lookup_seq_lt by lia. simpl. f_equal. lia.
Qed.

Lemma collect_ok {A} (f : A -> outcome Z) P l :
  (forall a, In a l -> finishes (f a) P) ->
  finishes (collect f l) (fun r => vec_len r = Z.of_nat (length l) /\ Forall P r).
Proof.
  induction l as [|a l IH]; intros Hf; [by split|]. cbn [collect].
  apply finishes_bind. eapply finishes_mono; [apply Hf; by left|]. intros v Hv.
  apply finishes_bind. eapply finishes_mono; [apply IH; intros; apply Hf; by right|]. intros r [Hl Hr].
  split; [|by constructor]. unfold vec_len in *. simpl. lia.
Qed.

(** An image of [rows] rows whose pixels are in [P]. *)
Definition image (rows : Z) (P : Z -> Prop) (l : list Z) : Prop :=
  vec_len l = POCKET_CAMERA_CAPTURE_WIDTH * rows /\ Forall P l.

Lemma pixel_coordinates i rows : 0 <= i < POCKET_CAMERA_CAPTURE_WIDTH * rows ->
  0 <= i mod POCKET_CAMERA_CAPTURE_WIDTH < POCKET_CAMERA_CAPTURE_WIDTH /\
  0 <= i / POCKET_CAMERA_CAPTURE_WIDTH < rows.
Proof. unfold POCKET_CAMERA_CAPTURE_WIDTH. intros. divmod_lia. Qed.

Lemma for_pixels_ok rows f P : 0 <= rows ->
  (forall x y, 0 <= x < POCKET_CAMERA_CAPTURE_WIDTH -> 0 <= y < rows -> finishes (f x y) P) ->
  finishes (for_pixels rows f) (image rows P).
Proof.
  intros Hrows Hf. unfold for_pixels, image.
  assert (Hw : 0 <= POCKET_CAMERA_CAPTURE_WIDTH * rows) by (unfold POCKET_CAMERA_CAPTURE_WIDTH; lia).
  pose proof (range_length _ Hw) as Hlen.
  eapply finishes_mono; [apply (collect_ok _ P) | intros r [Hr HP]; split; [by rewrite Hr | done]].
  intros i Hi%in_range. destruct (pixel_coordinates i rows Hi). by apply Hf.
Qed.

Lemma image_index rows P l x y : image rows P l -> 0 <= x < POCKET_CAMERA_CAPTURE_WIDTH -> 0 <= y < rows ->
  finishes (vec_index l (pixel_index x y)) P.
Proof.
  intros [Hl HP] Hx Hy. apply vec_index_in; [done|]. rewrite Hl. unfold pixel_index, POCKET_CAMERA_CAPTURE_WIDTH in *. nia.
Qed.

Lemma image_map rows (P Q : Z -> Prop) (f : Z -> Z) l :
  image rows P l -> (forall v, P v -> Q (f v)) -> image rows Q (map f l).
Proof.
  intros [Hl HP] Hf. split; [unfold vec_len in *; by rewrite length_map|].
  apply List.Forall_map. by eapply List.Forall_impl; [|exact HP].
Qed.

Lemma clamp_range v low high : low <= high -> low <= clamp v low high <= high.
Proof. unfold clamp. lia. Qed.

(** ** The pipeline never fails *)

Definition registers_ok (l : list Z) : Prop := length l = 54%nat /\ bytes l.
Definition frame_ok (l : list Z) : Prop := image POCKET_CAMERA_CAPTURE_HEIGHT u8 l.

Lemma vec_index_reg P l i : Forall P l -> 0 <= i < Z.of_nat (length l) -> finishes (vec_index l i) P.
Proof. apply vec_index_in. Qed.

Lemma sensor_ok c : frame_ok (host_frame c) ->
  finishes (build_sensor_image c) (image POCKET_CAMERA_SENSOR_HEIGHT (fun v => 0 <= v <= 255)).
Proof.
  intros Hf. apply for_pixels_ok; [done|]. intros x y Hx Hy. cbv zeta. apply finishes_bind.
  eapply finishes_mono; [apply (image_index _ _ _ _ _ Hf Hx)|].
  - unfold POCKET_CAMERA_SENSOR_HEIGHT, POCKET_CAMERA_CAPTURE_HEIGHT in *.
    change (POCKET_CAMERA_SENSOR_EXTRA_LINES / 2) with 4. change POCKET_CAMERA_SENSOR_EXTRA_LINES with 8 in Hy.
    repeat case_match; prune; lia.
  - intros v _. cbv beta zeta. pose proof (clamp_range (128 + Z.quot (Z.quot (v * exposure c) 0x0300 - 128) 8) 0 255).
    destruct (has_bits _ _); simpl; lia.
Qed.

Definition centred (v : Z) : Prop := -128 <= v <= 127.

Section Neighbours.
Context (P : Z -> Prop) (l : list Z) (x y : Z).
Hypothesis l_image : image POCKET_CAMERA_SENSOR_HEIGHT P l.
Hypothesis x_range : 0 <= x < POCKET_CAMERA_CAPTURE_WIDTH.
Hypothesis y_range : 0 <= y < POCKET_CAMERA_SENSOR_HEIGHT.

Lemma west_ok : finishes (west_of l x y) P.
Proof. apply (image_index _ _ _ _ _ l_image); lia. Qed.
Lemma east_ok : finishes (east_of l x y) P.
Proof. apply (image_index _ _ _ _ _ l_image); lia. Qed.
Lemma north_ok : finishes (north_of l x y) P.
Proof. apply (image_index _ _ _ _ _ l_image); lia. Qed.
Lemma south_ok : finishes (south_of l x y) P.
Proof. apply (image_index _ _ _ _ _ l_image); lia. Qed.
Lemma current_ok : finishes (vec_index l (pixel_index x y)) P.
Proof. by apply (image_index _ _ _ _ _ l_image). Qed.
End Neighbours.

(** Reads a pixel and forgets it: the filters clamp what they write. *)
Ltac read_pixel :=
  apply finishes_bind; eapply finishes_mono;
  [first [by eapply west_ok | by eapply east_ok | by eapply north_ok | by eapply south_ok | by eapply current_ok]
  | intros ? _].

Lemma vertical_ok P p_bits m_bits l : image POCKET_CAMERA_SENSOR_HEIGHT P l ->
  finishes (vertical_pass p_bits m_bits l) (image POCKET_CAMERA_SENSOR_HEIGHT centred).
Proof. intros Hl. apply for_pixels_ok; [done|]. intros x y Hx Hy. do 2 read_pixel. by apply clamp_range. Qed.

Lemma filter_2_ok P l alpha : image POCKET_CAMERA_SENSOR_HEIGHT P l ->
  finishes (filter_pass_2 l alpha) (image POCKET_CAMERA_SENSOR_HEIGHT (fun v => 0 <= v <= 255)).
Proof. intros Hl. apply for_pixels_ok; [done|]. intros x y Hx Hy. do 3 read_pixel. by apply clamp_range. Qed.

Lemma filter_E_ok P l alpha : image POCKET_CAMERA_SENSOR_HEIGHT P l ->
  finishes (filter_pass_E l alpha) (image POCKET_CAMERA_SENSOR_HEIGHT centred).
Proof. intros Hl. apply for_pixels_ok; [done|]. intros x y Hx Hy. do 5 read_pixel. by apply clamp_range. Qed.

Lemma filtering_ok l c : image POCKET_CAMERA_SENSOR_HEIGHT centred l ->
  finishes (apply_filtering l c) (image POCKET_CAMERA_SENSOR_HEIGHT centred).
Proof.
  intros Hl. unfold apply_filtering. cbv zeta. destruct (filtering_mode c =? 0x0); [by eapply vertical_ok|].
  destruct (filtering_mode c =? 0x2).
  { apply finishes_bind. eapply finishes_mono; [by eapply filter_2_ok|]. intros t Ht. by eapply vertical_ok. }
  destruct (filtering_mode c =? 0xE); [by eapply filter_E_ok|].
  destruct (filtering_mode c =? 0x1); [|done]. apply (image_map _ _ _ _ _ Hl). done.
Qed.

(** The four levels. *)
Definition level (v : Z) : Prop := v = 0x00 \/ v = 0x40 \/ v = 0x80 \/ v = 0xC0.

Lemma matrix_ok v x y c : registers_ok (registers c) -> finishes (matrix_map v x y c) level.
Proof.
  intros [Hlen Hb]. unfold matrix_map. cbv zeta. rewrite !land_03.
  pose proof (Z.mod_pos_bound x 4 eq_refl). pose proof (Z.mod_pos_bound y 4 eq_refl).
  do 3 (apply finishes_bind; eapply finishes_mono; [apply (vec_index_reg u8); [done | rewrite Hlen; lia] | intros ? _]).
  unfold level. simpl. repeat case_match; auto.
Qed.

Lemma colors_ok c : registers_ok (registers c) -> frame_ok (host_frame c) ->
  finishes (capture_colors c) (image POCKET_CAMERA_CAPTURE_HEIGHT level).
Proof.
  intros Hr Hf. unfold capture_colors. apply finishes_bind. eapply finishes_mono; [by apply sensor_ok|]. intros s Hs.
  apply finishes_bind. eapply finishes_mono.
  { apply filtering_ok. apply (image_map _ _ _ _ _ Hs). unfold centred. intros. lia. }
  intros p Hp. cbv zeta. apply for_pixels_ok; [done|]. intros x y Hx Hy. apply finishes_bind.
  assert (Hp' : image POCKET_CAMERA_SENSOR_HEIGHT (fun v => 0 <= v <= 255) (map (fun v => v + 128) p)).
  { apply (image_map _ _ _ _ _ Hp). unfold centred. intros. lia. }
  eapply finishes_mono; [apply (image_index _ _ _ x (y + POCKET_CAMERA_SENSOR_EXTRA_LINES / 2) Hp' Hx)|].
  - unfold POCKET_CAMERA_SENSOR_HEIGHT. change (POCKET_CAMERA_SENSOR_EXTRA_LINES / 2) with 4.
    change POCKET_CAMERA_SENSOR_EXTRA_LINES with 8. lia.
  - intros v _. by apply matrix_ok.
Qed.

(** ** Tiles

    [tile_bit] reads a bitplane of a packed tile image back at a pixel. *)

Definition tile_bit (tiles : list Z) (x y plane : Z) : bool :=
  Z.testbit (byte_or_absent (vec_get tiles (tile_offset x y + plane))) (7 - Z.land x 7).

(** The colour index the hardware shows for a level. *)
Definition color_index (color : Z) : Z := 3 - Z.shiftr color 6.

Definition on_screen (x y : Z) : Prop :=
  0 <= x < POCKET_CAMERA_CAPTURE_WIDTH /\ 0 <= y < POCKET_CAMERA_CAPTURE_HEIGHT.

Definition tiles_ok (t : list Z) : Prop := vec_len t = POCKET_CAMERA_CAPTURE_TILE_BYTES /\ bytes t.

Lemma tile_offset_eq x y : tile_offset x y = ((y / 8) * 16 + x / 8) * 16 + (y mod 8) * 2.
Proof. unfold tile_offset. by rewrite land_07. Qed.

Lemma tile_offset_range x y p : on_screen x y -> 0 <= p <= 1 ->
  0 <= tile_offset x y + p < POCKET_CAMERA_CAPTURE_TILE_BYTES.
Proof.
  intros [Hx Hy] Hp. rewrite tile_offset_eq.
  unfold POCKET_CAMERA_CAPTURE_WIDTH, POCKET_CAMERA_CAPTURE_HEIGHT, POCKET_CAMERA_CAPTURE_TILE_BYTES in *. divmod_lia.
Qed.

Lemma tile_offset_inj x y p x' y' p' : on_screen x y -> on_screen x' y' -> 0 <= p <= 1 -> 0 <= p' <= 1 ->
  tile_offset x y + p = tile_offset x' y' + p' -> x mod 8 = x' mod 8 -> x = x' /\ y = y' /\ p = p'.
Proof.
  intros [Hx Hy] [Hx' Hy'] Hp Hp'. rewrite !tile_offset_eq.
  unfold POCKET_CAMERA_CAPTURE_WIDTH, POCKET_CAMERA_CAPTURE_HEIGHT in *. intros He Hm.
  assert (p = p') by divmod_lia. subst. assert (y mod 8 = y' mod 8) by divmod_lia.
  assert (x / 8 = x' / 8) by divmod_lia. assert (y / 8 = y' / 8) by divmod_lia. divmod_lia.
Qed.

Lemma or_tile_ok g i k t : tiles_ok t -> 0 <= i < POCKET_CAMERA_CAPTURE_TILE_BYTES -> 0 <= k <= 7 ->
  finishes (or_tile g i (2 ^ k) t) (fun t' => tiles_ok t' /\ forall j m, 0 <= j -> 0 <= m ->
    Z.testbit (byte_or_absent (vec_get t' j)) m =
    Z.testbit (byte_or_absent (vec_get t j)) m || (g && (j =? i) && (m =? k))).
Proof.
  intros [Hl Hb] Hi Hk. unfold or_tile. destruct g; [|split; [done|]; intros; by rewrite orb_false_r].
  assert (Hold : vec_get t i = Some (byte_or_absent (vec_get t i))).
  { unfold vec_get, vec_len in *. by destruct (lookup_lt_is_Some_2 t (Z.to_nat i)) as [b ->]; [lia|]. }
  unfold vec_index. rewrite Hold. simpl. unfold vec_assign. rewrite Hl.
  destruct (Z.ltb_spec i POCKET_CAMERA_CAPTURE_TILE_BYTES); [|lia]. split.
  - split; [by rewrite vec_len_set|]. apply bytes_set; [done|]. apply u8_lor; [by apply byte_or_absent_u8|].
    unfold u8. split; [lia|]. apply (Z.lt_le_trans _ (2 ^ 8)); [apply Z.pow_lt_mono_r; lia | done].
  - intros j m Hj Hm. rewrite vec_get_set by lia. destruct (Z.eqb_spec j i) as [->|]; simpl; [|by rewrite orb_false_r].
    by rewrite Z.lor_spec, Z.pow2_bits_eqb, (Z.eqb_sym m) by lia.
Qed.

Lemma bit_of_column x : shl8 1 (7 - Z.land x 7) = 2 ^ (7 - x mod 8).
Proof.
  rewrite land_07. unfold shl8. pose proof (Z.mod_pos_bound x 8 eq_refl).
  rewrite Z.shiftl_1_l, Z.mod_small; [done|]. split; [lia|].
  apply (Z.lt_le_trans _ (2 ^ 8)); [apply Z.pow_lt_mono_r; lia | done].
Qed.

(** Packing pixel [i] sets the bits of its colour and no other. *)
Lemma pack_pixel_ok colors i t : image POCKET_CAMERA_CAPTURE_HEIGHT level colors ->
  0 <= i < POCKET_CAMERA_CAPTURE_PIXEL_COUNT -> tiles_ok t ->
  finishes (pack_pixel colors i t) (fun t' => tiles_ok t' /\ forall x y p, on_screen x y -> 0 <= p <= 1 ->
    tile_bit t' x y p = tile_bit t x y p ||
      ((pixel_index x y =? i) && Z.testbit (color_index (byte_or_absent (vec_get colors i))) p)).
Proof.
  intros Hc Hi Ht. unfold pack_pixel. cbv zeta. destruct (pixel_coordinates i POCKET_CAMERA_CAPTURE_HEIGHT Hi) as [Hx Hy].
  set (xi := i mod POCKET_CAMERA_CAPTURE_WIDTH) in *. set (yi := i / POCKET_CAMERA_CAPTURE_WIDTH) in *.
  assert (Hpi : pixel_index xi yi = i).
  { unfold pixel_index, xi, yi. pose proof (Z.div_mod i POCKET_CAMERA_CAPTURE_WIDTH). unfold POCKET_CAMERA_CAPTURE_WIDTH in *. lia. }
  assert (Hin : vec_index colors (pixel_index xi yi) = Done (byte_or_absent (vec_get colors i)) /\
                level (byte_or_absent (vec_get colors i))).
  { pose proof (image_index _ _ _ _ _ Hc Hx Hy) as Hv. rewrite Hpi in *. unfold vec_index in *.
    destruct (vec_get colors i); by simpl in *. }
  destruct Hin as [-> Hlevel]. cbn [mbind outcome_bind]. set (color := byte_or_absent _) in *.
  assert (Hsmall : (3 <? Z.shiftr color 6) = false) by (destruct Hlevel as [-> | [-> | [-> | ->]]]; done).
  rewrite Hsmall, bit_of_column. fold (color_index color).
  assert (Hs : on_screen xi yi) by done. pose proof (Z.mod_pos_bound xi 8 eq_refl).
  apply finishes_bind. eapply finishes_mono.
  { apply or_tile_ok; [done | | lia]. rewrite <- (Z.add_0_r (tile_offset xi yi)). by apply tile_offset_range. }
  intros t1 [Ht1 Hb1]. eapply finishes_mono; [apply or_tile_ok; [done | by apply tile_offset_range | lia]|].
  intros t2 [Ht2 Hb2]. split; [done|]. intros x y p Hxy Hp. unfold tile_bit.
  pose proof (tile_offset_range x y p Hxy Hp). rewrite land_07. pose proof (Z.mod_pos_bound x 8 eq_refl).
  rewrite Hb2, Hb1 by lia. rewrite (has_bits_pow2 _ 0), (has_bits_pow2 _ 1) by done. rewrite <- orb_assoc. f_equal.
  destruct (Z.eqb_spec (pixel_index x y) i) as [Heq|Hne]; simpl.
  - assert (x = xi /\ y = yi) as [-> ->].
    { destruct Hxy. rewrite <- Hpi in Heq. unfold pixel_index, POCKET_CAMERA_CAPTURE_WIDTH in *. lia. }
    rewrite Z.eqb_refl, !andb_true_r. assert (p = 0 \/ p = 1) as [-> | ->] by lia.
    + rewrite Z.add_0_r, Z.eqb_refl. destruct (Z.eqb_spec (tile_offset xi yi) (tile_offset xi yi + 1)); [lia|].
      by rewrite andb_true_r, andb_false_r, orb_false_r.
    + rewrite Z.eqb_refl. destruct (Z.eqb_spec (tile_offset xi yi + 1) (tile_offset xi yi)); [lia|].
      by rewrite andb_true_r, andb_false_r.
  - assert (Hno : forall q, 0 <= q <= 1 -> (tile_offset x y + p =? tile_offset xi yi + q) && (7 - x mod 8 =? 7 - xi mod 8) = false).
    { intros q Hq. apply andb_false_iff. destruct (Z.eqb_spec (7 - x mod 8) (7 - xi mod 8)); [left | by right].
      apply Z.eqb_neq. intros He. apply Hne. rewrite <- Hpi.
      destruct (tile_offset_inj x y p xi yi q) as (-> & -> & _); try done; lia. }
    pose proof (Hno 0 ltac:(lia)) as Hno0. pose proof (Hno 1 ltac:(lia)) as Hno1. rewrite Z.add_0_r in Hno0.
    rewrite <- !andb_assoc, Hno0, Hno1. by rewrite !andb_false_r.
Qed.

Lemma pack_fold_ok colors l t : image POCKET_CAMERA_CAPTURE_HEIGHT level colors ->
  Forall (fun i => 0 <= i < POCKET_CAMERA_CAPTURE_PIXEL_COUNT) l -> tiles_ok t ->
  finishes (fold_outcome (pack_pixel colors) l t) (fun t' => tiles_ok t' /\ forall x y p, on_screen x y -> 0 <= p <= 1 ->
    tile_bit t' x y p = tile_bit t x y p ||
      (existsb (Z.eqb (pixel_index x y)) l &&
       Z.testbit (color_index (byte_or_absent (vec_get colors (pixel_index x y)))) p)).
Proof.
  intros Hc Hl. revert t. induction Hl as [|i l Hi _ IH]; intros t Ht.
  { split; [done|]. intros. by rewrite orb_false_r. }
  cbn [fold_outcome existsb]. apply finishes_bind. eapply finishes_mono; [by apply pack_pixel_ok|].
  intros t1 [Ht1 Hb1]. eapply finishes_mono; [by apply IH|]. intros t2 [Ht2 Hb2]. split; [done|].
  intros x y p Hxy Hp. rewrite Hb2, Hb1 by done. destruct (Z.eqb_spec (pixel_index x y) i) as [<-|]; simpl; [|by rewrite orb_false_r].
  destruct (tile_bit t x y p), (Z.testbit _ p), (existsb _ l); done.
Qed.

(** The tile image shows the colours. *)
Lemma pack_tiles_ok colors : image POCKET_CAMERA_CAPTURE_HEIGHT level colors ->
  finishes (pack_tiles colors) (fun t => tiles_ok t /\ forall x y p, on_screen x y -> 0 <= p <= 1 ->
    tile_bit t x y p = Z.testbit (color_index (byte_or_absent (vec_get colors (pixel_index x y)))) p).
Proof.
  intros Hc. eapply finishes_mono.
  { apply pack_fold_ok; [done | |].
    - apply List.Forall_forall. intros i. apply in_range.
    - split; [by apply vec_len_zeroed | apply bytes_zeroed]. }
  intros t [Ht Hb]. split; [done|]. intros x y p Hxy Hp. rewrite Hb by done.
  assert (Hz : tile_bit (vec_zeroed POCKET_CAMERA_CAPTURE_TILE_BYTES) x y p = false).
  { unfold tile_bit, vec_get, vec_zeroed. pose proof (tile_offset_range x y p Hxy Hp).
    rewrite lookup_replicate_2 by lia. apply Z.bits_0. }
  rewrite Hz, orb_false_l. replace (existsb _ _) with true; [by rewrite andb_true_l|]. symmetry. apply existsb_exists.
  exists (pixel_index x y). split; [|apply Z.eqb_refl]. unfold range. apply in_map_iff.
  destruct Hxy as [Hx Hy]. exists (Z.to_nat (pixel_index x y)). rewrite in_seq.
  unfold pixel_index, POCKET_CAMERA_CAPTURE_PIXEL_COUNT, POCKET_CAMERA_CAPTURE_WIDTH, POCKET_CAMERA_CAPTURE_HEIGHT in *. lia.
Qed.

(** ** Invariant *)

Definition capture_ok (s : PocketCameraCaptureState) : Prop :=
  match s with
  | CaptureIdle => True
  | Working t tiles | Paused t tiles => 0 <= t < 2 ^ 64 /\ tiles_ok tiles
  end.

Record ok (c : PocketCameraCartridge) : Prop := {
  ok_rom : rom_bank_count (rom_size (header c)) = Some 64 /\ vec_len (rom c) = POCKET_CAMERA_SUPPORTED_ROM_BYTES;
  ok_ram : vec_len (ram c) = POCKET_CAMERA_SUPPORTED_RAM_BYTES /\ bytes (ram c);
  ok_registers : registers_ok (registers c);
  ok_frame : frame_ok (host_frame c);
  ok_capture : capture_ok (capture_state c)
}.

Definition keeps (c : PocketCameraCartridge) (o : outcome PocketCameraCartridge) : Prop :=
  finishes o (fun c' => ok c' /\ board c' = board c).
#[local] Arguments keeps : simpl never.

Lemma capture_step c s : ok c -> capture_ok s ->
  ok (c <| capture_state := s |>) /\ board (c <| capture_state := s |>) = board c.
Proof. intros [] Hs. destruct c. by split; [constructor|]. Qed.

Lemma register_step c i v : ok c -> u8 v ->
  ok (c <| registers := vec_set (registers c) i v |>) /\ board (c <| registers := vec_set (registers c) i v |>) = board c.
Proof.
  intros [? ? [Hl Hb] ? ?] Hv. destruct c. simpl in *. split; [|done]. constructor; try done. simpl.
  split; [by unfold vec_set; rewrite length_insert | by apply bytes_set].
Qed.

Lemma ram_step c r : ok c -> vec_len r = vec_len (ram c) -> bytes r ->
  ok (c <| ram := r |>) /\ board (c <| ram := r |>) = board c.
Proof.
  intros [? [Hl Hb] ? ? ?] Hr Hbr. destruct c. simpl in *. split; [|unfold board; simpl; by rewrite Hr].
  constructor; try done. simpl. split; [congruence | done].
Qed.

(** The capture window of the RAM. *)
Lemma commit_spec tiles c : ok c -> tiles_ok tiles ->
  ok (commit_staged_tiles tiles c) /\ board (commit_staged_tiles tiles c) = board c /\
  (forall i, 0 <= i -> vec_get (ram (commit_staged_tiles tiles c)) i =
     if (0x100 <=? i) && (i <? 0x100 + POCKET_CAMERA_CAPTURE_TILE_BYTES) then vec_get tiles (i - 0x100)
     else vec_get (ram c) i) /\
  capture_state (commit_staged_tiles tiles c) = capture_state c.
Proof.
  intros Hok [Ht Hbt]. destruct (ok_ram c Hok) as [Hl Hb]. unfold commit_staged_tiles. cbv zeta. rewrite Ht, Hl.
  change (_ <=? POCKET_CAMERA_SUPPORTED_RAM_BYTES) with true. cbv iota.
  set (r := (_ ++ _ ++ _)%list).
  assert (Hr : vec_len r = vec_len (ram c)).
  { unfold r, vec_len in *. rewrite !length_app, length_take, length_drop.
    unfold POCKET_CAMERA_SUPPORTED_RAM_BYTES, POCKET_CAMERA_CAPTURE_TILE_BYTES, POCKET_CAMERA_CAPTURE_TILE_BASE_OFFSET in *. lia. }
  assert (Hbr : bytes r).
  { apply Forall_app; split; [by apply Forall_take|]. apply Forall_app; split; [done | by apply Forall_drop]. }
  destruct (ram_step c r Hok Hr Hbr) as [? ?]. split_and!; [done | done | | by destruct c].
  intros i Hi. replace (ram (c <| ram := r |>)) with r by by destruct c. clear Hr Hbr. subst r. unfold vec_get, vec_len in *.
  unfold POCKET_CAMERA_SUPPORTED_RAM_BYTES, POCKET_CAMERA_CAPTURE_TILE_BYTES, POCKET_CAMERA_CAPTURE_TILE_BASE_OFFSET in *.
  rewrite lookup_app, lookup_take, length_take. case_decide.
  - destruct (Z.leb_spec 0x100 i); [lia|]. cbn [andb]. destruct (ram c !! Z.to_nat i) eqn:E; [done|].
    apply lookup_ge_None in E. lia.
  - destruct (Z.leb_spec 0x100 i); [|lia]. cbn [andb]. rewrite lookup_app.
    replace (Z.to_nat i - Z.to_nat 256 `min` length (ram c))%nat with (Z.to_nat (i - 0x100)) by lia.
    destruct (Z.ltb_spec i (0x100 + 14 * 16 * 16)).
    + destruct (tiles !! Z.to_nat (i - 0x100)) eqn:E; [done|]. apply lookup_ge_None in E. lia.
    + rewrite lookup_ge_None_2 by lia. rewrite lookup_drop. f_equal. lia.
Qed.

Lemma settle_ok t c : ok c -> ok (maybe_complete_capture t c) /\ board (maybe_complete_capture t c) = board c.
Proof.
  intros Hok. destruct t as [t|]; [|done]. simpl. pose proof (ok_capture c Hok) as Hc.
  destruct (capture_state c) as [|r tiles|]; try done. destruct (r <=? t); [|done]. destruct Hc as [_ Ht].
  destruct (capture_step c CaptureIdle Hok I) as [Hok1 Hb1].
  destruct (commit_spec tiles _ Hok1 Ht) as (? & Hb2 & _). split; [done | by etrans; [exact Hb2|]].
Qed.

Lemma reg_u8 i c : ok c -> u8 (reg i c).
Proof.
  intros Hok. destruct (ok_registers c Hok) as [_ Hb]. unfold reg.
  destruct (nth_in_or_default (Z.to_nat i) (registers c) 0) as [Hin | ->]; [|done].
  by eapply List.Forall_forall in Hb.
Qed.

Lemma exposure_u16 c : ok c -> u16 (exposure c).
Proof.
  intros Hok. unfold exposure. rewrite Z.lor_comm, lor_shiftl_bytes by by apply reg_u8.
  apply u16_from_be_bytes; by apply reg_u8.
Qed.

Lemma duration_range c : ok c -> 0 <= capture_duration_t_cycles c < 2 ^ 63.
Proof.
  intros Hok. unfold capture_duration_t_cycles. pose proof (exposure_u16 c Hok). unfold u16 in *. case_match; lia.
Qed.

Lemma build_ok c : ok c -> finishes (build_capture_tiles c) tiles_ok.
Proof.
  intros Hok. unfold build_capture_tiles. apply finishes_bind.
  eapply finishes_mono; [apply colors_ok; [apply Hok | apply Hok]|]. intros colors Hc.
  eapply finishes_mono; [by apply pack_tiles_ok|]. by intros t [].
Qed.

Lemma start_keeps t c : ok c -> (forall k, t = Some k -> 0 <= k) -> keeps c (start_new_capture t c).
Proof.
  intros Hok Ht. apply finishes_bind. eapply finishes_mono; [by apply build_ok|]. intros tiles Htiles.
  pose proof (duration_range c Hok). apply capture_step; [done|]. split; [|done].
  destruct t as [k|]; [specialize (Ht k eq_refl); unfold saturating_add64|]; lia.
Qed.

Lemma pause_step t c : ok c -> (forall k, t = Some k -> 0 <= k) -> ok (pause_capture t c) /\ board (pause_capture t c) = board c.
Proof.
  intros Hok Ht. pose proof (ok_capture c Hok) as Hc. unfold pause_capture.
  destruct (capture_state c) as [|r tiles|r tiles]; [done | | done]. destruct Hc as [Hr Htiles].
  apply capture_step; [done|]. split; [|done].
  destruct t as [k|]; [specialize (Ht k eq_refl); unfold saturating_sub64; lia | done].
Qed.

Lemma resume_step t c : ok c -> (forall k, t = Some k -> 0 <= k) -> ok (resume_capture t c) /\ board (resume_capture t c) = board c.
Proof.
  intros Hok Ht. pose proof (ok_capture c Hok) as Hc. unfold resume_capture.
  destruct (capture_state c) as [|r tiles|r tiles]; [done | done |]. destruct Hc as [Hr Htiles].
  apply capture_step; [done|]. split; [|done].
  destruct t as [k|]; [specialize (Ht k eq_refl); unfold saturating_add64; lia | done].
Qed.

(** ** Accesses *)

Definition offset_of (a : Z) : Z := Z.land (a - 0xA000) POCKET_CAMERA_REGISTER_MIRROR_MASK.
Definition ram_cell (a : Z) (c : PocketCameraCartridge) : Z :=
  selected_ram_bank c * POCKET_CAMERA_RAM_BANK_BYTES + (a - 0xA000).

Lemma offsets_ok a c : external_area a ->
  register_offset a = Done (offset_of a) /\ effective_ram_offset a c = Done (ram_cell a c).
Proof. intros Ha. unfold register_offset, effective_ram_offset. by rewrite ram_base_offset_ok. Qed.

Lemma ram_cell_range a c : ok c -> external_area a -> 0 <= ram_cell a c < vec_len (ram c).
Proof.
  intros Hok Ha. destruct (ok_ram c Hok) as [-> _]. unfold ram_cell, selected_ram_bank. rewrite land_0F.
  unfold POCKET_CAMERA_SUPPORTED_RAM_BYTES, POCKET_CAMERA_RAM_BANK_BYTES, external_area in *. divmod_lia.
Qed.

Lemma camera_keeps_after c c1 o : ok c1 /\ board c1 = board c -> (ok c1 -> keeps c1 o) -> keeps c o.
Proof. intros [H1 Hb] Ho. unfold keeps. rewrite <- Hb. by apply Ho. Qed.

Lemma camera_write_register_keeps a v t c : ok c -> external_area a -> u8 v -> (forall k, t = Some k -> 0 <= k) ->
  keeps c (write_register a v t c).
Proof.
  intros Hok Ha Hv Ht. unfold write_register. rewrite (proj1 (offsets_ok a c Ha)). cbn [mbind outcome_bind].
  destruct (offset_of a =? 0).
  - eapply camera_keeps_after; [apply (register_step c 0 (Z.land v 0x06)); auto with gb|]. intros Hok1.
    set (c1 := c <| registers := _ |>) in *. destruct (has_bits v 0x01).
    + destruct (capture_state c1); [by apply start_keeps | done | by apply resume_step].
    + destruct (capture_is_working c1); [by apply pause_step | done].
  - destruct (_ && _); [by apply register_step | done].
Qed.

Lemma write_resolved_keeps a v t c : ok c -> external_area a -> u8 v -> (forall k, t = Some k -> 0 <= k) ->
  keeps c (write_ram_after_ready_resolution a v t c).
Proof.
  intros Hok Ha Hv Ht. unfold write_ram_after_ready_resolution.
  destruct (registers_selected c); [by apply camera_write_register_keeps|]. destruct (_ || _); [done|].
  rewrite (proj2 (offsets_ok a c Ha)). apply ram_step; [done | by rewrite vec_len_set|].
  apply bytes_set; [by apply (ok_ram c Hok) | done].
Qed.

Lemma read_ram_value a c : ok c -> external_area a -> exists v, read_ram a c = Done v /\ u8 v.
Proof.
  intros Hok Ha. unfold read_ram, read_register. destruct (offsets_ok a c Ha) as [-> ->]. cbn [mbind outcome_bind].
  destruct (registers_selected c).
  - eexists. split; [done|]. destruct (_ =? _); [|done]. apply u8_lor; [|by destruct (capture_is_working c)].
    apply u8_land. by apply reg_u8.
  - destruct (capture_is_working c); [by eexists|]. eexists. split; [done|]. apply byte_or_absent_u8, Hok.
Qed.

(** ** The mapper laws *)

Lemma camera_write_rom_ok a v c : ok c ->
  board (write_rom a v c) = board c /\ ram (write_rom a v c) = ram c /\ ok (write_rom a v c).
Proof. intros []. destruct c. unfold write_rom. repeat case_match; split_and!; try done; by constructor. Qed.

Lemma camera_restore_ok s c : ok c -> saved_typed s ->
  ok (fst (restore_persistent_state s c)) /\ board (fst (restore_persistent_state s c)) = board c.
Proof.
  intros Hok Hs. unfold restore_persistent_state. destruct s; try done.
  destruct (Z.eqb_spec (vec_len (ram c)) (vec_len ram0)); simpl; [|done]. by apply ram_step.
Qed.

Lemma camera_persistence_contract_holds c : ok c -> persistence_contract ok c.
Proof.
  intros [_ [Hl Hb] _ _ _]. unfold persistence_contract. split_and!.
  - done.
  - intros c0 [_ [Hl0 _] _ _ _] _. cbn [m_restore_persistent_state m_persistent_state m_taken_up m_ram pocket_camera_mapper].
    unfold persistent_state, restore_persistent_state. rewrite Hl, Hl0, Z.eqb_refl. cbn [negb].
    eexists. split; [done|]. by destruct c0.
  - intros s c1 e. simpl. unfold restore_persistent_state. destruct s; try congruence. case_match; congruence.
Qed.

Lemma camera_rom_contract_holds c : ok c -> rom_contract c.
Proof.
  intros Hok. destruct (ok_rom c Hok) as (Hn & Hlen).
  apply (rom_contract_of_banks c (fun a => if a <? 0x4000 then 0 else rom_bank c mod 64) 64); [done | | |].
  - intros a _. case_match; [lia|]. apply Z.mod_pos_bound. lia.
  - intros a _. simpl. unfold read_rom, window_offset, effective_rom_bank. rewrite Hn. simpl. by destruct (a <? 0x4000).
  - intros _ a Ha. simpl. unfold mapped_rom_window, window_offset, effective_rom_bank, rom_area in *.
    rewrite Hn. simpl. destruct (Z.leb_spec 0x8000 a); [lia | done].
Qed.

Lemma camera_external_contract_holds c : ok c -> external_contract c.
Proof.
  intros Hok a Ha. destruct (read_ram_value a c Hok Ha) as (v & Hv & Hu). exists v. split_and!; [done | done | | |].
  - intros t Ht. destruct (settle_ok (Some t) c Hok) as [Hok' _].
    destruct (read_ram_value a _ Hok' Ha) as (w & Hw & Hwu). exists w, (m_settle t c). split_and!; [done | done |].
    cbn [m_read_ram_timed m_settle pocket_camera_mapper]. unfold read_ram_timed. cbv zeta. by rewrite Hw.
  - cbn [m_describe_external_access pocket_camera_mapper]. unfold describe_external_access, read_ram, read_register in *.
    fold (offset_of a) in *. destruct (offsets_ok a c Ha) as [Ho _]. rewrite Ho in Hv. cbn [mbind outcome_bind] in Hv.
    destruct (registers_selected c); [destruct (offset_of a =? 0)|destruct (capture_is_working c)]; intros w [=]; simplify_eq; done.
  - cbn [m_describe_external_access m_write_ram pocket_camera_mapper].
    unfold describe_external_access, write_ram, write_ram_after_ready_resolution, write_register. fold (offset_of a).
    destruct (offsets_ok a c Ha) as [-> _]. cbn [mbind outcome_bind]. unfold POCKET_CAMERA_REGISTER_COUNT.
    destruct (registers_selected c).
    + destruct (Z.ltb_spec (offset_of a) 0x36); [done|]. intros _ w.
      destruct (Z.eqb_spec (offset_of a) 0); [lia|]. by destruct (Z.leb_spec (offset_of a) 0x35); [lia | rewrite andb_false_r].
    + by destruct (capture_is_working c || negb (ram_enabled c)).
Qed.

Lemma capture_fields c s : let c' := c <| capture_state := s |> in
  registers_selected c' = registers_selected c /\ reg 0 c' = reg 0 c /\ capture_state c' = s.
Proof. by destruct c. Qed.

(** The control register reads back its three low bits: bit 0 starts, resumes
    and pauses. *)
Lemma control_read_back a v t c : ok c -> external_area a -> offset_of a = 0 -> registers_selected c = true -> u8 v ->
  exists c', write_register a v t c = Done c' /\ registers_selected c' = true /\
    reg 0 c' = Z.land v 0x06 /\ capture_is_working c' = has_bits v 0x01.
Proof.
  intros Hok Ha Ho Hsel Hv. destruct (register_step c 0 (Z.land v 0x06) Hok) as [Hok1 _]; [auto with gb|].
  unfold write_register. rewrite (proj1 (offsets_ok a c Ha)), Ho. cbn [mbind outcome_bind].
  change (0 =? 0x00) with true. cbv iota. set (c1 := c <| registers := _ |>) in *.
  assert (Hc1 : registers_selected c1 = true /\ reg 0 c1 = Z.land v 0x06).
  { subst c1. destruct (ok_registers c Hok) as [Hlen _]. destruct c. simpl in *. split; [done|]. unfold reg. simpl.
    by destruct registers0. }
  destruct Hc1 as [Hs1 Hr1]. clearbody c1. destruct (has_bits v 0x01) eqn:Hbit; destruct (capture_state c1) as [|r tiles|r tiles] eqn:Hcap.
  - destruct (finishes_done _ _ (build_ok c1 Hok1)) as (tiles & Hb & _). unfold start_new_capture. rewrite Hb.
    cbn [mbind outcome_bind]. eexists. split; [done|]. destruct (capture_fields c1 (Working
      (match t with None => capture_duration_t_cycles c1 | Some k => saturating_add64 k (capture_duration_t_cycles c1) end) tiles))
      as (-> & -> & Hw). unfold capture_is_working. rewrite Hw. done.
  - exists c1. unfold capture_is_working. by rewrite Hcap.
  - unfold resume_capture. rewrite Hcap. eexists. split; [done|]. destruct (capture_fields c1 (Working
      (match t with None => r | Some k => saturating_add64 k r end) tiles)) as (-> & -> & Hw). unfold capture_is_working. by rewrite Hw.
  - unfold capture_is_working. rewrite Hcap. exists c1. by rewrite Hcap.
  - unfold capture_is_working, pause_capture. rewrite Hcap. eexists. split; [done|]. destruct (capture_fields c1 (Paused
      (match t with None => r | Some k => saturating_sub64 r k end) tiles)) as (-> & -> & Hw). by rewrite Hw.
  - unfold capture_is_working. rewrite Hcap. exists c1. by rewrite Hcap.
Qed.

Lemma low_three_bits v : Z.lor (Z.land v 0x06) (u8_from_bool (has_bits v 0x01)) = Z.land v 0x07.
Proof.
  replace (u8_from_bool (has_bits v 0x01)) with (Z.land v 0x01).
  - by rewrite <- Z.land_lor_distr_r.
  - unfold has_bits. rewrite land_01. pose proof (Z.mod_pos_bound v 2 eq_refl).
    assert (v mod 2 = 0 \/ v mod 2 = 1) as [-> | ->] by lia; done.
Qed.

Lemma camera_storage_contract_holds c : ok c -> storage_contract c.
Proof.
  intros Hok. exists (fun a => if registers_selected c then offset_of a else ram_cell a c),
    (fun w => if registers_selected c then Z.land w 0x07 else w).
  intros a w Ha Hw. cbn [m_describe_external_access m_write_ram m_read_ram pocket_camera_mapper].
  unfold describe_external_access, write_ram, write_ram_after_ready_resolution. fold (offset_of a).
  destruct (registers_selected c) eqn:Hsel.
  - destruct (Z.eqb_spec (offset_of a) 0) as [Ho|]; [|done]. intros _ _.
    destruct (control_read_back a w None c) as (c' & Hc' & Hs' & Hr' & Hw'); try done. exists c'. split; [done|].
    intros a' Ha'. unfold read_ram, read_register. rewrite Hs', Hsel, Ho, (proj1 (offsets_ok a' c Ha')).
    cbn [mbind outcome_bind]. rewrite Hr', Hw', <- Z.land_assoc. change (Z.land 0x06 0x06) with 0x06. rewrite low_three_bits. by destruct (offset_of a' =? 0).
  - destruct (capture_is_working c) eqn:Hcap; [done|]. destruct (ram_enabled c); [|done]. intros _ _. cbn [orb negb].
    rewrite (proj2 (offsets_ok a c Ha)). cbn [mbind outcome_bind]. eexists. split; [done|]. intros a' Ha'.
    set (c' := c <| ram := _ |>).
    assert (Hc' : registers_selected c' = false /\ capture_is_working c' = false /\
      ram c' = vec_set (ram c) (ram_cell a c) w /\ ram_cell a' c' = ram_cell a' c) by by destruct c.
    destruct Hc' as (Hs' & Hw' & Hr' & Hcell'). unfold read_ram. rewrite Hs', Hw', Hsel, Hcap.
    rewrite (proj2 (offsets_ok a' c' Ha')), (proj2 (offsets_ok a' c Ha')). cbn [mbind outcome_bind]. rewrite Hr', Hcell'.
    pose proof (ram_cell_range a c Hok Ha). pose proof (ram_cell_range a' c Hok Ha'). rewrite vec_get_set by lia.
    by destruct (ram_cell a' c =? ram_cell a c).
Qed.

Lemma camera_step_ok op c : ok c -> valid_op op ->
  exists c', run_op op c = Done c' /\ ok c' /\ m_board c' = m_board c.
Proof.
  intros Hok Hop. destruct op; cbn [run_op valid_op] in *.
  - eexists. split; [done|]. destruct (camera_write_rom_ok address value c Hok) as (? & _ & ?). done.
  - destruct Hop as [Ha Hv]. apply finishes_done, (write_resolved_keeps address value None c); done.
  - destruct Hop as (Ha & Hv & Ht). destruct (settle_ok (Some t_cycle) c Hok) as [Hok' Hb].
    destruct (finishes_done _ _ (write_resolved_keeps address value (Some t_cycle) _ Hok' Ha Hv ltac:(intros ? [= <-]; lia)))
      as (c' & Hc' & ? & Hb'). exists c'. split_and!; [exact Hc' | done | by etrans].
  - destruct Hop as [Ha Ht]. destruct (settle_ok (Some t_cycle) c Hok) as [Hok' Hb].
    destruct (read_ram_value address _ Hok' Ha) as (v & Hv & _). cbn [m_read_ram_timed pocket_camera_mapper].
    unfold read_ram_timed. cbv zeta. rewrite Hv. by eexists.
  - by exists c.
  - by exists c.
  - eexists. split; [done|]. by apply camera_restore_ok.
Qed.

Lemma camera_ok_contract c : ok c -> contract ok c.
Proof.
  intros Hok. constructor.
  - by apply camera_rom_contract_holds.
  - by apply camera_external_contract_holds.
  - by apply camera_storage_contract_holds.
  - intros a v _ _. eexists. split; [done|]. simpl. by destruct (camera_write_rom_ok a v c Hok) as (_ & -> & _).
  - by apply camera_persistence_contract_holds.
Qed.

#[export] Instance camera_laws : MapperLaws PocketCameraCartridge := {|
  m_ok := ok;
  m_step_ok := camera_step_ok;
  m_ok_contract := camera_ok_contract
|}.

(** ** Host frames *)

Lemma placeholder_ok : frame_ok placeholder_frame.
Proof.
  unfold frame_ok, image, placeholder_frame. split.
  - etrans; [|by apply (range_length POCKET_CAMERA_CAPTURE_PIXEL_COUNT)]. unfold vec_len. by rewrite length_map.
  - apply List.Forall_map, List.Forall_forall. intros i _. unfold placeholder_pixel. repeat case_match; unfold u8; lia.
Qed.

(** A frame of any size becomes a full image; a frame whose pixel count is
    not its area is refused. *)
Lemma normalize_ok frame : 0 <= width frame -> 0 <= height frame -> bytes (grayscale_pixels frame) ->
  finishes (normalize frame) (fun r => match r with
    | inl pixels => frame_ok pixels
    | inr e => e = InvalidDimensions (width frame) (height frame) (vec_len (grayscale_pixels frame)) /\
        (width frame = 0 \/ height frame = 0 \/ vec_len (grayscale_pixels frame) <> width frame * height frame)
    end).
Proof.
  intros Hw Hh Hb. unfold normalize. cbv zeta.
  destruct (Z.eqb_spec (width frame) 0); [by split; [|left]|].
  destruct (Z.eqb_spec (height frame) 0); [by split; [|right; left]|].
  destruct (Z.eqb_spec (vec_len (grayscale_pixels frame)) (width frame * height frame)) as [Hlen|]; cbn [orb negb];
    [|by split; [|right; right]].
  destruct (Z.eqb_spec (width frame) POCKET_CAMERA_CAPTURE_WIDTH) as [Ew|];
    destruct (Z.eqb_spec (height frame) POCKET_CAMERA_CAPTURE_HEIGHT) as [Eh|]; cbn [andb].
  1: split; [by rewrite Hlen, Ew, Eh | done].
  all: apply finishes_bind; eapply (finishes_mono _ frame_ok); [|done].
  all: apply for_pixels_ok; [done|]; intros x y Hx Hy; apply vec_index_in; [done|]; rewrite Hlen.
  all: unfold POCKET_CAMERA_CAPTURE_WIDTH, POCKET_CAMERA_CAPTURE_HEIGHT in *.
  all: assert (0 <= y * height frame / 112 < height frame)
    by (split; [apply Z.div_pos; nia | apply Z.div_lt_upper_bound; nia]).
  all: assert (0 <= x * width frame / 128 < width frame)
    by (split; [apply Z.div_pos; nia | apply Z.div_lt_upper_bound; nia]).
  all: nia.
Qed.

Lemma frame_step c l : ok c -> frame_ok l -> ok (c <| host_frame := l |>) /\ board (c <| host_frame := l |>) = board c.
Proof. intros [] Hl. destruct c. by split; [constructor|]. Qed.

Lemma set_host_frame_ok frame c : ok c -> 0 <= width frame -> 0 <= height frame -> bytes (grayscale_pixels frame) ->
  exists c' e, set_host_frame frame c = Done (c', e) /\ ok c' /\ board c' = board c /\ (e <> None -> c' = c).
Proof.
  intros Hok Hw Hh Hb. destruct (finishes_done _ _ (normalize_ok frame Hw Hh Hb)) as (r & Hr & Hn).
  unfold set_host_frame. rewrite Hr. cbn [mbind outcome_bind]. destruct r as [pixels|e].
  - destruct (frame_step c pixels Hok Hn) as [? ?]. by do 2 eexists.
  - by exists c, (Some e).
Qed.

(** ** Loading *)

Lemma load_camera_ok h rom_bytes compat cls ds c :
  header_sized h -> accepts (load_pocket_camera h rom_bytes) compat cls ds c -> ok c /\ rom c = rom_bytes.
Proof.
  intros [Hrom _] H. unfold load_pocket_camera, validate_pocket_camera in H. accepts_inv.
  destruct (rom_decoded_bytes (rom_size h)) as [d|]; accepts_inv; subst. split; [|done].
  apply orb_false_iff in Hm1 as [Hraw _]. apply negb_false_iff, Z.eqb_eq in Hraw, Hm2.
  constructor; cbn [header rom ram registers host_frame capture_state capture_ok].
  - rewrite Hrom, Hraw. by split.
  - split; [by apply vec_len_zeroed | apply bytes_zeroed].
  - by split; [|apply bytes_zeroed].
  - apply placeholder_ok.
  - done.
Qed.

(** ** The picture, pixel by pixel

    What a capture must show, as a function of the coordinates: [light x y] is
    the host frame's brightness, [R] the camera's registers. *)

Section Picture.
Context (R : Z -> Z) (light : Z -> Z -> Z).

(** The exposure scales the light by [1 / 768], the sensor keeps an eighth of
    its distance from mid-grey, register 4 inverts. The sensor's 120 lines are
    the frame's 112 with the outer ones repeated four times; levels are signed. *)
Definition sensed (x y : Z) : Z :=
  let lit := light x (Z.max 0 (Z.min (y - 4) 111)) * (256 * R 2 + R 3) / 768 in
  let level := Z.max 0 (Z.min 255 (128 + Z.quot (lit - 128) 8)) in
  if Z.testbit (R 4) 3 then 127 - level else level - 128.

(** The weights of a pixel and of the one below it, by bits 1 and 2 of register 0. *)
Definition weights : Z * Z :=
  match R 0 / 2 mod 4 with 0 => (-1, 0) | 1 => (1, 0) | _ => (1, -1) end.
Definition vertically (f : Z -> Z -> Z) (x y : Z) : Z :=
  Z.max (-128) (Z.min 127 (fst weights * f x y + snd weights * f x (Z.min 119 (y + 1)))).

(** The edge ratio 0.5, 0.75, 1, 1.25, 2, 3, 4 or 5, by bits 4 to 6 of register 4. *)
Definition edge_ratio_quarters : Z :=
  match R 4 / 16 mod 8 with 0 => 2 | 1 => 3 | 2 => 4 | 3 => 5 | 4 => 8 | 5 => 12 | 6 => 16 | _ => 20 end.
Definition enhanced (f difference : Z -> Z -> Z) (x y : Z) : Z :=
  f x y + Z.quot (difference x y * edge_ratio_quarters) 4.
Definition horizontally (f : Z -> Z -> Z) (x y : Z) : Z :=
  Z.max 0 (Z.min 255 (enhanced f (fun x y => 2 * f x y - f (Z.max 0 (x - 1)) y - f (Z.min 127 (x + 1)) y) x y)).
Definition around (f : Z -> Z -> Z) (x y : Z) : Z :=
  Z.max (-128) (Z.min 127 (enhanced f (fun x y =>
    4 * f x y - f (Z.max 0 (x - 1)) y - f (Z.min 127 (x + 1)) y - f x (Z.max 0 (y - 1)) - f x (Z.min 119 (y + 1))) x y)).

(** The filter, by bit N and the two bits VH of register 1 and bit E3 of register 4. *)
Definition filtered : Z -> Z -> Z :=
  match Z.testbit (R 1) 7, R 1 / 32 mod 4, Z.testbit (R 4) 7 with
  | false, 0, false => vertically sensed
  | false, 1, false => vertically (horizontally sensed)
  | true, 3, false => around sensed
  | false, 0, true => fun _ _ => 0
  | _, _, _ => sensed
  end.

(** The colour of a pixel: how many of the three thresholds of its place in the
    4 by 4 dithering matrix it stays below, in order. *)
Definition threshold (x y k : Z) : Z := R (6 + 3 * (4 * (y mod 4) + x mod 4) + k).
Definition pictured (x y : Z) : Z :=
  let v := Z.max 0 (Z.min 255 (filtered x (y + 4) + 128)) in
  if v <? threshold x y 0 then 3 else if v <? threshold x y 1 then 2 else if v <? threshold x y 2 then 1 else 0.
End Picture.

(** The camera's registers and the frame in front of it. *)
Definition register_of (c : PocketCameraCartridge) (i : Z) : Z := reg i c.
Definition light_of (c : PocketCameraCartridge) (x y : Z) : Z := byte_or_absent (vec_get (host_frame c) (128 * y + x)).

(** An image of [rows] rows that shows [f]. *)
Definition depicts (rows : Z) (f : Z -> Z -> Z) (l : list Z) : Prop :=
  vec_len l = POCKET_CAMERA_CAPTURE_WIDTH * rows /\
  forall x y, 0 <= x < POCKET_CAMERA_CAPTURE_WIDTH -> 0 <= y < rows -> vec_index l (pixel_index x y) = Done (f x y).

Lemma collect_Done {A} (f : A -> outcome Z) (g : A -> Z) l :
  (forall a, In a l -> f a = Done (g a)) -> collect f l = Done (map g l).
Proof.
  induction l as [|a l IH]; intros Hf; [done|]. cbn [collect map]. rewrite Hf by by left. cbn [mbind outcome_bind].
  rewrite IH; [done|]. intros b Hb. apply Hf. by right.
Qed.

Lemma for_pixels_depicts rows step f : 0 <= rows ->
  (forall x y, 0 <= x < POCKET_CAMERA_CAPTURE_WIDTH -> 0 <= y < rows -> step x y = Done (f x y)) ->
  exists l, for_pixels rows step = Done l /\ depicts rows f l.
Proof.
  intros Hrows Hstep. unfold for_pixels.
  set (g := fun i => f (i mod POCKET_CAMERA_CAPTURE_WIDTH) (i / POCKET_CAMERA_CAPTURE_WIDTH)).
  exists (map g (range (POCKET_CAMERA_CAPTURE_WIDTH * rows))). split.
  - apply collect_Done. intros i Hi%in_range. destruct (pixel_coordinates i rows Hi). by apply Hstep.
  - assert (Hw : 0 <= POCKET_CAMERA_CAPTURE_WIDTH * rows) by (unfold POCKET_CAMERA_CAPTURE_WIDTH; lia). split.
    + etrans; [|apply (range_length _ Hw)]. unfold vec_len. by rewrite length_map.
    + intros x y Hx Hy. unfold vec_index, vec_get.
      change (map g) with (fmap (M := list) g). rewrite list_lookup_fmap, lookup_range.
      2: unfold pixel_index, POCKET_CAMERA_CAPTURE_WIDTH in *; nia.
      simpl. unfold g, pixel_index, POCKET_CAMERA_CAPTURE_WIDTH in *.
      replace ((y * 128 + x) mod 128) with x by divmod_lia. by replace ((y * 128 + x) / 128) with y by divmod_lia.
Qed.

Lemma depicts_map rows f (h : Z -> Z) l : depicts rows f l -> depicts rows (fun x y => h (f x y)) (map h l).
Proof.
  intros [Hl Hf]. split; [unfold vec_len in *; by rewrite length_map|]. intros x y Hx Hy. specialize (Hf x y Hx Hy).
  unfold vec_index, vec_get in *. change (map h) with (fmap (M := list) h). rewrite list_lookup_fmap.
  destruct (l !! _); [|done]. simpl in *. by injection Hf as ->.
Qed.

Lemma depicts_ext rows f g l :
  (forall x y, 0 <= x < POCKET_CAMERA_CAPTURE_WIDTH -> 0 <= y < rows -> f x y = g x y) -> depicts rows f l -> depicts rows g l.
Proof. intros Hfg [Hl Hf]. split; [done|]. intros x y Hx Hy. rewrite <- Hfg by done. by apply Hf. Qed.

(** *** The pipeline computes that picture *)

Section Pipeline.
Context (c : PocketCameraCartridge).
Hypothesis c_registers : registers_ok (registers c).
Hypothesis c_frame : frame_ok (host_frame c).
#[local] Notation R := (register_of c).
#[local] Notation light := (light_of c).

Lemma register_u8 i : u8 (R i).
Proof.
  destruct c_registers as [_ Hb]. unfold register_of, reg.
  destruct (nth_in_or_default (Z.to_nat i) (registers c) 0) as [Hin | ->]; [|done].
  by eapply List.Forall_forall in Hb.
Qed.

Lemma register_index i : 0 <= i < 54 -> vec_index (registers c) i = Done (R i).
Proof.
  intros Hi. destruct c_registers as [Hl _]. unfold vec_index, vec_get, register_of, reg.
  rewrite nth_lookup. destruct (lookup_lt_is_Some_2 (registers c) (Z.to_nat i)) as [v ->]; [rewrite Hl; lia | done].
Qed.

Lemma exposure_eq : exposure c = 256 * R 2 + R 3.
Proof.
  unfold exposure. rewrite Z.lor_comm, lor_shiftl_bytes by apply register_u8. unfold from_be_bytes, register_of. lia.
Qed.

Lemma light_index x y : 0 <= x < POCKET_CAMERA_CAPTURE_WIDTH -> 0 <= y < POCKET_CAMERA_CAPTURE_HEIGHT ->
  vec_index (host_frame c) (pixel_index x y) = Done (light x y) /\ u8 (light x y).
Proof.
  intros Hx Hy. pose proof (image_index _ _ _ _ _ c_frame Hx Hy) as H. unfold light_of.
  replace (128 * y + x) with (pixel_index x y) by (unfold pixel_index, POCKET_CAMERA_CAPTURE_WIDTH; lia).
  unfold vec_index in *. by destruct (vec_get _ _).
Qed.

Lemma sensor_depicts : exists l, build_sensor_image c = Done l /\
  depicts POCKET_CAMERA_SENSOR_HEIGHT (fun x y => sensed R light x y + 128) l.
Proof.
  apply for_pixels_depicts; [done|]. intros x y Hx Hy. cbv zeta.
  change POCKET_CAMERA_SENSOR_HEIGHT with 120 in Hy. change (POCKET_CAMERA_SENSOR_EXTRA_LINES / 2) with 4.
  set (source_y := if y <? 4 then 0 else _).
  assert (Hs : source_y = Z.max 0 (Z.min (y - 4) 111)).
  { subst source_y. unfold POCKET_CAMERA_CAPTURE_HEIGHT. case_tests; prune; lia. }
  rewrite Hs. clear source_y Hs.
  destruct (light_index x (Z.max 0 (Z.min (y - 4) 111)) Hx) as [-> Hl]; [unfold POCKET_CAMERA_CAPTURE_HEIGHT; lia|].
  cbn [mbind outcome_bind]. rewrite exposure_eq. unfold sensed. cbv zeta.
  pose proof (register_u8 2). pose proof (register_u8 3). unfold u8 in *.
  change 0x0300 with 768. set (lit := light _ _ * _) in *.
  rewrite (Z.quot_div_nonneg lit 768) by (lia || (apply Z.mul_nonneg_nonneg; lia)).
  change (has_bits (reg 4 c) 0x08) with (has_bits (reg 4 c) (2 ^ 3)). rewrite has_bits_pow2 by done. unfold clamp.
  fold (register_of c 4). destruct (Z.testbit _ 3); f_equal; lia.
Qed.

Section Filters.
Context (f : Z -> Z -> Z) (l : list Z).
Hypothesis l_depicts : depicts POCKET_CAMERA_SENSOR_HEIGHT f l.

Section At.
Context (x y : Z).
Hypothesis x_range : 0 <= x < POCKET_CAMERA_CAPTURE_WIDTH.
Hypothesis y_range : 0 <= y < POCKET_CAMERA_SENSOR_HEIGHT.
Lemma current_is : vec_index l (pixel_index x y) = Done (f x y).
Proof. by apply l_depicts. Qed.
Lemma west_is : west_of l x y = Done (f (Z.max 0 (x - 1)) y).
Proof. unfold west_of. rewrite Z.max_comm. apply l_depicts; [lia | done]. Qed.
Lemma east_is : east_of l x y = Done (f (Z.min 127 (x + 1)) y).
Proof. unfold east_of. rewrite Z.min_comm. unfold POCKET_CAMERA_CAPTURE_WIDTH in *. apply l_depicts; [unfold POCKET_CAMERA_CAPTURE_WIDTH; lia | done]. Qed.
Lemma north_is : north_of l x y = Done (f x (Z.max 0 (y - 1))).
Proof. unfold north_of. rewrite Z.max_comm. apply l_depicts; [done | lia]. Qed.
Lemma south_is : south_of l x y = Done (f x (Z.min 119 (y + 1))).
Proof.
  unfold south_of. rewrite Z.min_comm. change (POCKET_CAMERA_SENSOR_HEIGHT - 1) with 119.
  apply l_depicts; [done|]. unfold POCKET_CAMERA_SENSOR_HEIGHT, POCKET_CAMERA_CAPTURE_HEIGHT, POCKET_CAMERA_SENSOR_EXTRA_LINES in *. lia.
Qed.
End At.

Lemma edge_ratio : edge_alpha_quarters c = edge_ratio_quarters R.
Proof.
  unfold edge_alpha_quarters, edge_ratio_quarters. fold (register_of c 4). pose proof (register_u8 4) as H.
  revert H. generalize (R 4). intros r Hr. apply Z.eqb_eq.
  apply (forall_below 256 (fun r => nth (Z.to_nat (Z.shiftr (Z.land r 0x70) 4)) [2; 3; 4; 5; 8; 12; 16; 20] 0 =?
    match r / 16 mod 8 with 0 => 2 | 1 => 3 | 2 => 4 | 3 => 5 | 4 => 8 | 5 => 12 | 6 => 16 | _ => 20 end)); [vm_compute; done | done].
Qed.

Lemma vertical_depicts : exists l', vertical_pass (kernel_p_bits c) (kernel_m_bits c) l = Done l' /\
  depicts POCKET_CAMERA_SENSOR_HEIGHT (vertically R f) l'.
Proof.
  apply for_pixels_depicts; [done|]. intros x y Hx Hy. rewrite south_is, current_is by done. cbn [mbind outcome_bind]. cbv zeta.
  unfold vertically, weights, kernel_p_bits, kernel_m_bits, kernel_select, clamp. fold (register_of c 0).
  rewrite land_03, Z.shiftr_div_pow2 by done. change (2 ^ 1) with 2.
  pose proof (Z.mod_pos_bound (R 0 / 2) 4 eq_refl). revert H. generalize (R 0 / 2 mod 4). intros k Hk.
  assert (k = 0 \/ k = 1 \/ k = 2 \/ k = 3) as [-> | [-> | [-> | ->]]] by lia;
    cbn [Z.eqb Pos.eqb fst snd]; f_equal;
    repeat match goal with |- context [has_bits ?a ?b] =>
      let v := eval vm_compute in (has_bits a b) in change (has_bits a b) with v end; cbv iota; lia.
Qed.

Lemma horizontal_depicts : exists l', filter_pass_2 l (edge_alpha_quarters c) = Done l' /\
  depicts POCKET_CAMERA_SENSOR_HEIGHT (horizontally R f) l'.
Proof.
  apply for_pixels_depicts; [done|]. intros x y Hx Hy. rewrite west_is, east_is, current_is by done.
  cbn [mbind outcome_bind]. rewrite edge_ratio. unfold horizontally, clamp. by rewrite (Z.min_comm 255).
Qed.

Lemma around_depicts : exists l', filter_pass_E l (edge_alpha_quarters c) = Done l' /\
  depicts POCKET_CAMERA_SENSOR_HEIGHT (around R f) l'.
Proof.
  apply for_pixels_depicts; [done|]. intros x y Hx Hy. rewrite south_is, north_is, west_is, east_is, current_is by done.
  cbn [mbind outcome_bind]. rewrite edge_ratio. unfold around, clamp. by rewrite (Z.min_comm 127 (enhanced _ _ _ _ _)).
Qed.
End Filters.

Lemma filtering_mode_eq : filtering_mode c =
  Z.lor (Z.lor (Z.shiftl (u8_from_bool (Z.testbit (R 1) 7)) 3) (Z.shiftl (R 1 / 32 mod 4) 1)) (u8_from_bool (Z.testbit (R 4) 7)).
Proof.
  unfold filtering_mode. cbv zeta. fold (register_of c 1) (register_of c 4).
  change 0x80 with (2 ^ 7). rewrite !has_bits_pow2, land_03, Z.shiftr_div_pow2 by done. done.
Qed.

Lemma filtering_depicts l : depicts POCKET_CAMERA_SENSOR_HEIGHT (sensed R light) l ->
  exists l', apply_filtering l c = Done l' /\ depicts POCKET_CAMERA_SENSOR_HEIGHT (filtered R light) l'.
Proof.
  intros Hl. unfold apply_filtering, filtered. cbv zeta. rewrite filtering_mode_eq.
  pose proof (Z.mod_pos_bound (R 1 / 32) 4 eq_refl) as Hk. revert Hk. generalize (R 1 / 32 mod 4). intros k Hk.
  assert (k = 0 \/ k = 1 \/ k = 2 \/ k = 3) as [-> | [-> | [-> | ->]]] by lia;
    destruct (Z.testbit (R 1) 7), (Z.testbit (R 4) 7); cbn [u8_from_bool Z.b2z];
    match goal with |- context [Z.lor ?a ?b] => let v := eval vm_compute in (Z.lor a b) in change (Z.lor a b) with v end;
    cbn [Z.eqb Pos.eqb];
    lazymatch goal with
    | |- exists l', Done l = _ /\ _ => exists l; split; [reflexivity | exact Hl]
    | |- exists l', vertical_pass _ _ _ = _ /\ _ => exact (vertical_depicts _ _ Hl)
    | |- exists l', filter_pass_E _ _ = _ /\ _ => exact (around_depicts _ _ Hl)
    | |- exists l', Done (map _ _) = _ /\ _ => eexists; split; [reflexivity | exact (depicts_map _ _ (fun _ => 0) _ Hl)]
    | |- _ => destruct (horizontal_depicts _ _ Hl) as (t & Et & Ht); rewrite Et; exact (vertical_depicts _ _ Ht)
    end.
Qed.

(** The colours written are the levels of the picture's colour indices. *)
Lemma matrix_is v x y : matrix_map v x y c =
  Done (0xC0 - 64 * (if v <? threshold R x y 0 then 3 else if v <? threshold R x y 1 then 2
                     else if v <? threshold R x y 2 then 1 else 0)).
Proof.
  unfold matrix_map, threshold. cbv zeta. rewrite !land_03.
  pose proof (Z.mod_pos_bound x 4 eq_refl). pose proof (Z.mod_pos_bound y 4 eq_refl).
  replace (6 + (y mod 4 * 4 + x mod 4) * 3) with (6 + 3 * (4 * (y mod 4) + x mod 4)) by lia.
  rewrite !register_index by lia. cbn [mbind outcome_bind]. rewrite Z.add_0_r. by repeat case_match.
Qed.

Lemma colors_depict : exists colors, capture_colors c = Done colors /\
  depicts POCKET_CAMERA_CAPTURE_HEIGHT (fun x y => 0xC0 - 64 * pictured R light x y) colors.
Proof.
  unfold capture_colors. destruct sensor_depicts as (s & -> & Hs). cbn [mbind outcome_bind].
  apply (depicts_map _ _ (fun v => v - 128)) in Hs.
  apply (depicts_ext _ _ (sensed R light)) in Hs; [|intros; lia].
  destruct (filtering_depicts _ Hs) as (p & -> & Hp). cbn [mbind outcome_bind]. cbv zeta.
  apply (depicts_map _ _ (fun v => v + 128)) in Hp.
  apply for_pixels_depicts; [done|]. intros x y Hx Hy. change (POCKET_CAMERA_SENSOR_EXTRA_LINES / 2) with 4.
  fold (pixel_index x (y + 4)). destruct Hp as [_ Hp].
  rewrite Hp; [|done|change POCKET_CAMERA_SENSOR_HEIGHT with 120; unfold POCKET_CAMERA_CAPTURE_HEIGHT in *; lia].
  cbn [mbind outcome_bind]. rewrite matrix_is. unfold pictured, clamp. by rewrite (Z.min_comm 255).
Qed.

Lemma duration_is :
  capture_duration_t_cycles c = 4 * (32446 + (if Z.testbit (R 1) 7 then 0 else 512) + 16 * (256 * R 2 + R 3)).
Proof.
  unfold capture_duration_t_cycles. cbv zeta. rewrite exposure_eq. fold (register_of c 1).
  change 0x80 with (2 ^ 7). by rewrite has_bits_pow2.
Qed.

End Pipeline.

(** ** Properties *)

(** A bit of a pixel in the RAM's capture window: 16 by 14 tiles of eight rows
    of two planes, the leftmost pixel in the top bit. *)
Definition captured_bit (c : PocketCameraCartridge) (x y plane : Z) : bool :=
  Z.testbit (byte_or_absent (vec_get (ram c) (0x100 + (16 * (16 * (y / 8) + x / 8) + 2 * (y mod 8) + plane)))) (7 - x mod 8).

Lemma captured_tile tiles c x y p : ok c -> tiles_ok tiles -> on_screen x y -> 0 <= p <= 1 ->
  captured_bit (commit_staged_tiles tiles c) x y p = tile_bit tiles x y p.
Proof.
  intros Hok Ht Hxy Hp. destruct (commit_spec tiles c Hok Ht) as (_ & _ & Hget & _).
  pose proof (tile_offset_range x y p Hxy Hp) as Hr. unfold captured_bit, tile_bit.
  replace (16 * (16 * (y / 8) + x / 8) + 2 * (y mod 8) + p) with (tile_offset x y + p) by (rewrite tile_offset_eq; lia).
  rewrite Hget, land_07 by lia.
  destruct (Z.leb_spec 0x100 (0x100 + (tile_offset x y + p))); [|lia].
  destruct (Z.ltb_spec (0x100 + (tile_offset x y + p)) (0x100 + POCKET_CAMERA_CAPTURE_TILE_BYTES)); [|lia]. simpl.
  by replace (0x100 + (tile_offset x y + p) - 0x100) with (tile_offset x y + p) by lia.
Qed.

(** The staged tiles show the picture. *)
Lemma tiles_show_picture c : registers_ok (registers c) -> frame_ok (host_frame c) ->
  exists tiles, build_capture_tiles c = Done tiles /\ tiles_ok tiles /\
    forall x y p, on_screen x y -> 0 <= p <= 1 ->
      tile_bit tiles x y p = Z.testbit (pictured (register_of c) (light_of c) x y) p.
Proof.
  intros Hr Hf. destruct (colors_depict c Hr Hf) as (colors & Hc & [_ Hshow]).
  pose proof (colors_ok c Hr Hf) as Himage. rewrite Hc in Himage.
  destruct (finishes_done _ _ (pack_tiles_ok colors Himage)) as (tiles & Hpack & Htiles & Hbits).
  exists tiles. split_and!; [unfold build_capture_tiles; by rewrite Hc | done|]. intros x y p [Hx Hy] Hp.
  rewrite Hbits by done. specialize (Hshow x y Hx Hy). unfold vec_index in Hshow.
  destruct (vec_get colors (pixel_index x y)) as [color|]; [|done]. injection Hshow as ->. f_equal.
  change (byte_or_absent (Some ?z)) with z. unfold pictured. by repeat case_match.
Qed.

(** With the registers deselected a working capture hides the RAM. *)
Lemma working_hides_ram c r tiles t a b w :
  capture_state c = Working r tiles -> t < r -> 0 <= b < 0x10 ->
  let banked := write_rom 0x4000 b c in
  read_ram_timed a t banked = Done (0, banked) /\ write_ram_timed a w t banked = Done banked.
Proof.
  intros Hw Ht Hb. set (cb := write_rom 0x4000 b c).
  assert (Hcb : registers_selected cb = false /\ capture_state cb = Working r tiles).
  { subst cb. unfold write_rom. simpl. split; [|by destruct c].
    replace (registers_selected _) with (has_bits (Z.land b 0x1F) 0x10) by by destruct c.
    etrans; [by apply (has_bits_pow2 _ 4)|]. rewrite land_1F, Z.mod_small by lia.
    rewrite <- (Z.mod_small b (2 ^ 4)) by lia. by rewrite Z.mod_pow2_bits_high. }
  destruct Hcb as [Hs Hcap]. clearbody cb.
  assert (Hsettled : maybe_complete_capture (Some t) cb = cb).
  { unfold maybe_complete_capture. rewrite Hcap. by destruct (Z.leb_spec r t); [lia|]. }
  unfold read_ram_timed, write_ram_timed, write_ram_after_ready_resolution, read_ram, capture_is_working.
  cbv zeta. by rewrite !Hsettled, Hs, Hcap.
Qed.

(** The control register during a capture. *)
Lemma working_shows_control c r tiles v t :
  capture_state c = Working r tiles -> t < r -> registers_selected c = true -> reg 0 c = Z.land v 0x06 -> has_bits v 0x01 = true ->
  maybe_complete_capture (Some t) c = c /\ read_ram_timed 0xA000 t c = Done (Z.land v 0x07, c).
Proof.
  intros Hw Ht Hsel Hreg Hbit.
  assert (Hsettled : maybe_complete_capture (Some t) c = c).
  { unfold maybe_complete_capture. rewrite Hw. by destruct (Z.leb_spec r t); [lia|]. }
  split; [done|]. unfold read_ram_timed. cbv zeta. rewrite Hsettled.
  unfold read_ram, read_register. rewrite Hsel. change (register_offset 0xA000) with (Done 0). cbn [mbind outcome_bind].
  change (0 =? 0x00) with true. cbv iota. rewrite Hreg, <- Z.land_assoc. change (Z.land 0x06 0x06) with 0x06.
  replace (capture_is_working c) with (has_bits v 0x01) by (unfold capture_is_working; by rewrite Hw, Hbit).
  by rewrite low_three_bits.
Qed.



(** Pausing keeps the time that is left, and resuming continues with it. *)
Theorem pause_resume_keeps_remaining c ready tiles t1 t2 :
  capture_state c = Working ready tiles -> 0 <= t1 <= ready -> 0 <= t2 -> t2 + (ready - t1) < 2 ^ 64 ->
  capture_state (resume_capture (Some t2) (pause_capture (Some t1) c)) = Working (t2 + (ready - t1)) tiles.
Proof.
  intros Hw H1 H2 Hb. unfold pause_capture. rewrite Hw. unfold resume_capture.
  destruct (capture_fields c (Paused (saturating_sub64 ready t1) tiles)) as (_ & _ & ->).
  rewrite (proj2 (proj2 (capture_fields _ _))). unfold saturating_add64, saturating_sub64. f_equal. lia.
Qed.
