(* ===== verification/Mmm01.v ===== *)
(** * MMM01 multicarts ([crates/gb-core/src/cartridge/mmm01.rs])

    The unmapped menu state, the one-way mapping of a game, the locked bank
    bits, multiplexing, external RAM and persistence, and the loader's
    validation and construction. *)

From Stdlib Require Import ZArith Lia Bool String.
From stdpp Require Import base list decidable.
From S2P Require Import Prelude.
From S2P Require Import Model.
From S2P Require Import CartridgeHeader.
From S2P Require Import Cartridge.

Local Open Scope string_scope.
Local Open Scope Z_scope.

Definition MMM01_SUPPORTED_ROM_BYTES_MAX : Z := 8 * 1024 * 1024.

Record Mmm01Cartridge := mkMmm01 {
  rom : list Z;
  ram : option (list Z);
  has_battery : bool;
  header : CartridgeHeader;
  classification : CartridgeClassification;
  mapped : bool;
  ram_enabled : bool;
  ram_bank_mask : Z;
  rom_bank_low : Z;
  rom_bank_mid : Z;
  ram_bank_low : Z;
  ram_bank_high : Z;
  rom_bank_high : Z;
  mode_write_disable : bool;
  banking_mode : Z;
  rom_bank_mask : Z;
  multiplex_enabled : bool
}.

#[export] Instance upd_ram : Update ram := fun v c =>
  let '(mkMmm01 a _ b h k m e rm rl ri al ah rh d g rk x) := c in mkMmm01 a v b h k m e rm rl ri al ah rh d g rk x.
#[export] Instance upd_mapped : Update mapped := fun v c =>
  let '(mkMmm01 a r b h k _ e rm rl ri al ah rh d g rk x) := c in mkMmm01 a r b h k v e rm rl ri al ah rh d g rk x.
#[export] Instance upd_ram_enabled : Update ram_enabled := fun v c =>
  let '(mkMmm01 a r b h k m _ rm rl ri al ah rh d g rk x) := c in mkMmm01 a r b h k m v rm rl ri al ah rh d g rk x.
#[export] Instance upd_ram_bank_mask : Update ram_bank_mask := fun v c =>
  let '(mkMmm01 a r b h k m e _ rl ri al ah rh d g rk x) := c in mkMmm01 a r b h k m e v rl ri al ah rh d g rk x.
#[export] Instance upd_rom_bank_low : Update rom_bank_low := fun v c =>
  let '(mkMmm01 a r b h k m e rm _ ri al ah rh d g rk x) := c in mkMmm01 a r b h k m e rm v ri al ah rh d g rk x.
#[export] Instance upd_rom_bank_mid : Update rom_bank_mid := fun v c =>
  let '(mkMmm01 a r b h k m e rm rl _ al ah rh d g rk x) := c in mkMmm01 a r b h k m e rm rl v al ah rh d g rk x.
#[export] Instance upd_ram_bank_low : Update ram_bank_low := fun v c =>
  let '(mkMmm01 a r b h k m e rm rl ri _ ah rh d g rk x) := c in mkMmm01 a r b h k m e rm rl ri v ah rh d g rk x.
#[export] Instance upd_ram_bank_high : Update ram_bank_high := fun v c =>
  let '(mkMmm01 a r b h k m e rm rl ri al _ rh d g rk x) := c in mkMmm01 a r b h k m e rm rl ri al v rh d g rk x.
#[export] Instance upd_rom_bank_high : Update rom_bank_high := fun v c =>
  let '(mkMmm01 a r b h k m e rm rl ri al ah _ d g rk x) := c in mkMmm01 a r b h k m e rm rl ri al ah v d g rk x.
#[export] Instance upd_mode_write_disable : Update mode_write_disable := fun v c =>
  let '(mkMmm01 a r b h k m e rm rl ri al ah rh _ g rk x) := c in mkMmm01 a r b h k m e rm rl ri al ah rh v g rk x.
#[export] Instance upd_banking_mode : Update banking_mode := fun v c =>
  let '(mkMmm01 a r b h k m e rm rl ri al ah rh d _ rk x) := c in mkMmm01 a r b h k m e rm rl ri al ah rh d v rk x.
#[export] Instance upd_rom_bank_mask : Update rom_bank_mask := fun v c =>
  let '(mkMmm01 a r b h k m e rm rl ri al ah rh d g _ x) := c in mkMmm01 a r b h k m e rm rl ri al ah rh d g v x.
#[export] Instance upd_multiplex_enabled : Update multiplex_enabled := fun v c =>
  let '(mkMmm01 a r b h k m e rm rl ri al ah rh d g rk _) := c in mkMmm01 a r b h k m e rm rl ri al ah rh d g rk v.

(** ** Banking *)

Definition mapped_rom_bank_count (c : Mmm01Cartridge) : Z :=
  Z.max (default (vec_len (rom c) / 0x4000) (rom_bank_count (rom_size (header c)))) 1.

Definition unmapped_rom_bank (address : Z) (c : Mmm01Cartridge) : Z :=
  let bank_count := mapped_rom_bank_count c in
  if bank_count <=? 1 then 0
  else if address <? 0x4000 then bank_count - 2 else bank_count - 1.

Definition masked_rom_bank_low (c : Mmm01Cartridge) : Z := Z.land (rom_bank_low c) (rom_bank_mask c).

Definition translated_rom_bank_low (c : Mmm01Cartridge) : Z :=
  let unmasked := Z.land (rom_bank_low c) (not8 (rom_bank_mask c)) in
  if unmasked =? 0 then Z.lor (rom_bank_low c) 1 else rom_bank_low c.

Definition effective_low_rom_bank (c : Mmm01Cartridge) : Z :=
  let bank_count := mapped_rom_bank_count c in
  if bank_count =? 0 then 0
  else
    let raw_bank :=
      if multiplex_enabled c then
        let mid_bits := if banking_mode c =? 0 then Z.land (ram_bank_low c) (ram_bank_mask c)
                        else Z.land (ram_bank_low c) 0x03 in
        Z.lor (Z.lor (Z.shiftl (rom_bank_high c) 7) (Z.shiftl mid_bits 5)) (masked_rom_bank_low c)
      else
        Z.lor (Z.lor (Z.shiftl (rom_bank_high c) 7) (Z.shiftl (rom_bank_mid c) 5)) (masked_rom_bank_low c) in
    raw_bank mod bank_count.

Definition effective_high_rom_bank (c : Mmm01Cartridge) : Z :=
  let bank_count := mapped_rom_bank_count c in
  if bank_count =? 0 then 0
  else
    let mid_bits := if multiplex_enabled c then Z.land (ram_bank_low c) 0x03
                    else Z.land (rom_bank_mid c) 0x03 in
    let raw_bank :=
      Z.lor (Z.lor (Z.shiftl (rom_bank_high c) 7) (Z.shiftl mid_bits 5)) (translated_rom_bank_low c) in
    raw_bank mod bank_count.

Definition effective_ram_bank_count (c : Mmm01Cartridge) : Z :=
  match ram c with Some ram => Z.max (vec_len ram / 0x2000) 1 | None => 1 end.

Definition effective_ram_bank (c : Mmm01Cartridge) : Z :=
  if multiplex_enabled c then
    Z.lor (shl8 (Z.land (ram_bank_high c) 0x03) 2) (Z.land (rom_bank_mid c) 0x03)
  else
    let low_bits := if banking_mode c =? 0 then Z.land (ram_bank_low c) (ram_bank_mask c)
                    else Z.land (ram_bank_low c) 0x03 in
    Z.lor (shl8 (Z.land (ram_bank_high c) 0x03) 2) low_bits.

Definition effective_ram_offset (address : Z) (c : Mmm01Cartridge) : outcome Z :=
  base_offset ← ram_base_offset address;
  let bank := effective_ram_bank c mod effective_ram_bank_count c in
  mret (bank * 0x2000 + base_offset).

Definition write_rom_bank_low (value : Z) (c : Mmm01Cartridge) : Mmm01Cartridge :=
  let lock_mask := Z.land (rom_bank_mask c) 0x1E in
  c <| rom_bank_low := Z.lor (Z.land (rom_bank_low c) lock_mask) (Z.land value (not8 lock_mask)) |>.

Definition write_ram_bank_low (value : Z) (c : Mmm01Cartridge) : Mmm01Cartridge :=
  let lock_mask := Z.land (ram_bank_mask c) 0x03 in
  c <| ram_bank_low := Z.lor (Z.land (ram_bank_low c) lock_mask) (Z.land value (not8 lock_mask)) |>.

(** ** Accesses *)

Definition describe_external_access (address : Z) (c : Mmm01Cartridge) : CartridgeExternalAccessInfo :=
  let has_ram := bool_decide (is_Some (ram c)) in
  let available := mapped c && ram_enabled c && has_ram in
  access_new address (BankedRam (effective_ram_bank c))
    (if available then Accessible else if mapped c && ram_enabled c then Absent else Disabled)
    (if available then ReadStorage else FallbackValue RAM_ABSENT_READ_VALUE)
    (if available then WriteStorage else Ignored).

(** The bank both readers compute. *)
Definition current_rom_bank (address : Z) (c : Mmm01Cartridge) : Z :=
  if negb (mapped c) then unmapped_rom_bank address c
  else if address <? 0x4000 then effective_low_rom_bank c
  else effective_high_rom_bank c.

Definition read_rom (address : Z) (c : Mmm01Cartridge) : Z :=
  let bank_count := mapped_rom_bank_count c in
  let bank := current_rom_bank address c in
  let rom_index := if address <? 0x4000 then bank * 0x4000 + address
                   else bank * 0x4000 + (address - 0x4000) in
  byte_or_absent (vec_get (rom c) (if bank_count =? 0 then 0 else rom_index mod vec_len (rom c))).

Definition mapped_rom_window (address : Z) (c : Mmm01Cartridge) : option CartridgeMappedRomWindow :=
  if 0x8000 <=? address then None
  else
    let bank := current_rom_bank address c in
    let bank_offset := if address <? 0x4000 then address else address - 0x4000 in
    Some (rom_window bank 0x4000 bank_offset).

Definition write_rom (address value : Z) (c : Mmm01Cartridge) : Mmm01Cartridge :=
  if (0x0000 <=? address) && (address <=? 0x1FFF) then
    let c := c <| ram_enabled := Z.land value 0x0F =? 0x0A |> in
    if negb (mapped c) then
      let c := c <| ram_bank_mask := Z.land (shr8 value 4) 0x03 |> in
      if has_bits value 0x40 then c <| mapped := true |> else c
    else c
  else if (0x2000 <=? address) && (address <=? 0x3FFF) then
    let c := write_rom_bank_low (Z.land value 0x1F) c in
    if negb (mapped c) then c <| rom_bank_mid := Z.land (shr8 value 5) 0x03 |> else c
  else if (0x4000 <=? address) && (address <=? 0x5FFF) then
    let c := write_ram_bank_low (Z.land value 0x03) c in
    if negb (mapped c) then
      c <| ram_bank_high := Z.land (shr8 value 2) 0x03 |>
        <| rom_bank_high := Z.land (shr8 value 4) 0x03 |>
        <| mode_write_disable := has_bits value 0x40 |>
    else c
  else if (0x6000 <=? address) && (address <=? 0x7FFF) then
    let c := if negb (mode_write_disable c) then c <| banking_mode := Z.land value 0x01 |> else c in
    if negb (mapped c) then
      c <| rom_bank_mask := Z.land (Z.land (shr8 value 1) 0x1F) 0x1E |>
        <| multiplex_enabled := has_bits value 0x40 |>
    else c
  else c.

Definition read_ram (address : Z) (c : Mmm01Cartridge) : outcome Z :=
  if negb (mapped c) || negb (ram_enabled c) then Done RAM_ABSENT_READ_VALUE
  else
    match ram c with
    | None => Done RAM_ABSENT_READ_VALUE
    | Some ram => offset ← effective_ram_offset address c; Done (byte_or_absent (vec_get ram offset))
    end.

Definition write_ram (address value : Z) (c : Mmm01Cartridge) : outcome Mmm01Cartridge :=
  if negb (mapped c) || negb (ram_enabled c) then Done c
  else
    offset ← effective_ram_offset address c;
    match ram c with
    | Some r => Done (c <| ram := Some (vec_set r offset value) |>)
    | None => Done c
    end.
(** ** Persistence *)

Definition persistence_metadata (c : Mmm01Cartridge) : CartridgePersistenceMetadata :=
  mkMetadata (has_battery c) false
    match ram c with
    | Some ram => if has_battery c then PersistentRam (Linear (vec_len ram)) else NonPersistentRam (Linear (vec_len ram))
    | None => ProfileNone
    end.

Definition persistent_state (c : Mmm01Cartridge) : PersistentCartState :=
  if has_battery c then
    match ram c with Some ram => Mmm01Ram ram | None => SavedNone end
  else SavedNone.

Definition restore_persistent_state (state : PersistentCartState) (c : Mmm01Cartridge)
    : Mmm01Cartridge * option CartridgePersistentStateError :=
  match has_battery c, ram c, state with
  | false, _, SavedNone | true, None, SavedNone => (c, None)
  | true, Some r, Mmm01Ram persisted_ram =>
      if negb (vec_len r =? vec_len persisted_ram)
      then (c, Some (RamLengthMismatch (vec_len r) (vec_len persisted_ram)))
      else (c <| ram := Some persisted_ram |>, None)
  | true, Some _, other => (c, Some (KindMismatch "Mmm01Ram" (kind_name other)))
  | false, _, other => (c, Some (KindMismatch "None" (kind_name other)))
  | true, None, other => (c, Some (KindMismatch "None" (kind_name other)))
  end.

(** ** Loading *)

Definition validate_mmm01 (header : CartridgeHeader) (actual_rom_size : Z) : V Z :=
  classification ← v_classification;
  declared_rom_bytes ← declared_exact_size header actual_rom_size;
  reject_if (negb ((MMM01_MIN_ROM_BYTES <=? declared_rom_bytes) && (declared_rom_bytes <=? MMM01_SUPPORTED_ROM_BYTES_MAX)))
    "{} expects a total ROM size between {} and {} bytes, but the header resolved to {} bytes";;
  let has_ram := (raw_type classification =? 0x0C) || (raw_type classification =? 0x0D) in
  let allowed_ram_codes := if has_ram then [0x02; 0x03; 0x04] else [0x00] in
  reject_if (negb (bool_decide (ram_raw_code (ram_size header) ∈ allowed_ram_codes)))
    "{} declared RAM size code {:#04X}, which contradicts the current {} baseline";;
  mret (default 0 (ram_decoded_bytes (ram_size header))).

(** The [Mmm01] arm of [CartridgeSlot::load]. *)
Definition load_mmm01 (header : CartridgeHeader) (rom_bytes : list Z) : V Mmm01Cartridge :=
  ram_len ← validate_mmm01 header (vec_len rom_bytes);
  classification ← v_classification;
  let has_battery := raw_type classification =? 0x0D in
  let ram := if negb (ram_len =? 0) then Some (vec_zeroed ram_len) else None in
  mret {|
    rom := rom_bytes;
    ram := ram;
    has_battery := has_battery;
    header := header;
    classification := classification;
    mapped := false;
    ram_enabled := false;
    ram_bank_mask := 0;
    rom_bank_low := 0;
    rom_bank_mid := 0;
    ram_bank_low := 0;
    ram_bank_high := 0;
    rom_bank_high := 0;
    mode_write_disable := false;
    banking_mode := 0;
    rom_bank_mask := 0;
    multiplex_enabled := false
  |}.

Definition board (c : Mmm01Cartridge) : Board :=
  mkBoard BoardMmm01 (header c) (classification c) (rom c) (vec_len <$> ram c) (has_battery c) false true 0x8000.

#[export] Instance mmm01_mapper : Mapper Mmm01Cartridge := {|
  m_board := board;
  m_ram := ram;
  m_settle := fun _ c => c;
  m_taken_up := fun s => s;
  m_read_rom := fun a c => Done (read_rom a c);
  m_mapped_rom_window := mapped_rom_window;
  m_write_rom := fun a v c => Done (write_rom a v c);
  m_read_ram := read_ram;
  m_read_ram_timed := fun a _ c => v ← read_ram a c; Done (v, c);
  m_write_ram := write_ram;
  m_write_ram_timed := fun a v _ c => write_ram a v c;
  m_describe_external_access := describe_external_access;
  m_advance_rtc_seconds := fun _ c => Done c;
  m_advance_mbc3_rtc_clock_ticks := fun _ c => Done c;
  m_persistence_metadata := persistence_metadata;
  m_persistent_state := persistent_state;
  m_restore_persistent_state := restore_persistent_state
|}.

(** ** Invariant *)

(** The image is whole banks as declared, the RAM whole 8 KiB banks of bytes,
    and the registers hold their widths. *)
Record ok (c : Mmm01Cartridge) : Prop := {
  ok_rom : exists n, rom_bank_count (rom_size (header c)) = Some n /\ 2 <= n /\
    vec_len (rom c) = ROM_BANK_BYTES * n;
  ok_ram : forall r, ram c = Some r -> bytes r /\ exists k, 1 <= k /\ vec_len r = 0x2000 * k;
  ok_rom_low : 0 <= rom_bank_low c < 32;
  ok_rom_mid : 0 <= rom_bank_mid c < 4;
  ok_rom_high : 0 <= rom_bank_high c < 4;
  ok_rom_mask : 0 <= rom_bank_mask c < 32;
  ok_ram_low : 0 <= ram_bank_low c < 4;
  ok_ram_high : 0 <= ram_bank_high c < 4;
  ok_ram_mask : 0 <= ram_bank_mask c < 4;
  ok_mode : 0 <= banking_mode c < 2
}.

Definition ram_cell (a : Z) (c : Mmm01Cartridge) : Z :=
  effective_ram_bank c mod effective_ram_bank_count c * 0x2000 + (a - 0xA000).

Lemma mmm01_effective_ram_offset_ok a c : external_area a -> effective_ram_offset a c = Done (ram_cell a c).
Proof. intros Ha. unfold effective_ram_offset, ram_cell. by rewrite ram_base_offset_ok. Qed.

Lemma mmm01_ram_cell_range a c r : ok c -> ram c = Some r -> external_area a -> 0 <= ram_cell a c < vec_len r.
Proof.
  intros Hok Hr Ha. destruct (ok_ram c Hok r Hr) as [_ (k & Hk & Hlen)].
  unfold ram_cell, effective_ram_bank_count, external_area in *. rewrite Hr, Hlen.
  replace (0x2000 * k / 0x2000) with k by divmod_lia. rewrite Z.max_l by lia.
  pose proof (Z.mod_pos_bound (effective_ram_bank c) k). lia.
Qed.

Lemma mmm01_set_ram_ok c r l : ok c -> ram c = Some r -> vec_len l = vec_len r -> bytes l ->
  ok (c <| ram := Some l |>) /\ board (c <| ram := Some l |>) = board c /\
  ram (c <| ram := Some l |>) = Some l /\
  mapped (c <| ram := Some l |>) && ram_enabled (c <| ram := Some l |>) = mapped c && ram_enabled c /\
  (forall a, ram_cell a (c <| ram := Some l |>) = ram_cell a c).
Proof.
  destruct c. simpl. intros [Hrom Hram ? ? ? ? ? ? ? ?] Hr Hlen Hb. simpl in *. subst. split_and!; try done.
  - constructor; simpl; try done. intros ? [= <-]. rewrite Hlen. split; [done|]. by apply Hram.
  - unfold board. simpl. by rewrite Hlen.
  - intros a. unfold ram_cell, effective_ram_bank, effective_ram_bank_count. simpl. by rewrite Hlen.
Qed.

#[export, refine] Instance mmm01_linear : LinearRamLaws Mmm01Cartridge ok := {|
  lr_enabled := fun c => mapped c && ram_enabled c;
  lr_cell := ram_cell;
  lr_settle := fun _ _ => eq_refl;
  lr_set := fun l c => c <| ram := Some l |>;
  lr_port_read := fun _ _ => RAM_ABSENT_READ_VALUE;
  lr_port_write := fun _ _ c => c;
  lr_cell_range := mmm01_ram_cell_range;
  lr_set_ok := mmm01_set_ram_ok
|}.
Proof.
  - intros a c _ Ha. simpl. unfold read_ram. rewrite mmm01_effective_ram_offset_ok by done.
    by destruct (mapped c), (ram_enabled c), (ram c).
  - done.
  - intros a v c _ Ha. simpl. unfold write_ram. rewrite mmm01_effective_ram_offset_ok by done.
    by destruct (mapped c), (ram_enabled c), (ram c).
  - intros a c. simpl. unfold describe_external_access. destruct (mapped c && ram_enabled c && _); closed_port.
  - intros a v c Hok _. closed_port.
  - intros c r Hok Hr. by apply (ok_ram c Hok).
Defined.

Lemma locked_write_range n low lock value mask :
  0 <= n -> 0 <= low < 2 ^ n -> 0 <= value < 2 ^ n ->
  0 <= Z.lor (Z.land low lock) (Z.land value mask) < 2 ^ n.
Proof. intros. by apply range_lor; [|apply range_land|apply range_land]. Qed.

Lemma mmm01_write_rom_ok a v c : ok c -> ok (write_rom a v c).
Proof.
  destruct c. intros [Hrom Hram ? ? ? ? ? ? ? ?]. unfold write_rom, write_rom_bank_low, write_ram_bank_low.
  simpl in *. repeat case_match; constructor; simpl in *; try done;
    first [ apply (locked_write_range 5); rewrite ?land_1F; (done || apply Z.mod_pos_bound; lia)
          | apply (locked_write_range 2); rewrite ?land_03; (done || apply Z.mod_pos_bound; lia)
          | apply (range_land 5); rewrite ?land_1F; (done || apply Z.mod_pos_bound; lia)
          | rewrite ?land_03, ?land_01; apply Z.mod_pos_bound; lia ].
Qed.

Lemma mmm01_write_rom_board a v c : board (write_rom a v c) = board c /\ ram (write_rom a v c) = ram c.
Proof. destruct c. unfold write_rom. simpl. by repeat case_match. Qed.

#[export, refine] Instance mmm01_persistence : LinearPersistence Mmm01Cartridge := {|
  lp_taken_up := fun _ => eq_refl;
  lp_wrap := Mmm01Ram;
  lp_unwrap := fun s => match s with Mmm01Ram r => Some r | _ => None end;
  lp_kind := "Mmm01Ram"
|}.
Proof.
  - done.
  - done.
  - intros s r Hs Hr. destruct s; simplify_eq/=. done.
  - done.
  - done.
  - intros s c. simpl. unfold restore_persistent_state.
    destruct (has_battery c), (ram c), s; simpl; try done. by destruct (_ =? _).
Defined.

Lemma mmm01_step_ok op c : ok c -> valid_op op ->
  exists c', run_op op c = Done c' /\ ok c' /\ m_board c' = m_board c.
Proof.
  intros Hok. apply (linear_timeless_step_ok write_rom); [done | done | | | done].
  - intros a v _. split; [apply mmm01_write_rom_board | by apply mmm01_write_rom_ok].
  - intros s. by apply linear_restore_ok.
Qed.

Lemma current_rom_bank_range a n c :
  ok c -> rom_bank_count (rom_size (header c)) = Some n -> 0 <= current_rom_bank a c < n.
Proof.
  intros Hok Hn. destruct (ok_rom c Hok) as (m & Hm & Hpos & _). assert (m = n) as -> by congruence.
  unfold current_rom_bank, unmapped_rom_bank, effective_low_rom_bank, effective_high_rom_bank, mapped_rom_bank_count.
  rewrite Hn. simpl. rewrite Z.max_l by lia.
  destruct (Z.eqb_spec n 0); [lia|]. destruct (Z.leb_spec n 1); [lia|].
  repeat case_match; try lia; apply Z.mod_pos_bound; lia.
Qed.

Lemma mmm01_rom_contract_holds c : ok c -> rom_contract c.
Proof.
  intros Hok. destruct (ok_rom c Hok) as (n & Hn & Hpos & Hlen).
  apply (rom_contract_of_banks c (fun a => current_rom_bank a c) n); [done | | |].
  - intros a _. by apply current_rom_bank_range.
  - intros a Ha. pose proof (current_rom_bank_range a n c Hok Hn). simpl.
    unfold read_rom, window_offset, mapped_rom_bank_count, rom_area, ROM_BANK_BYTES in *. rewrite Hn. simpl.
    rewrite Z.max_l by lia. destruct (Z.eqb_spec n 0); [lia|]. f_equal. f_equal.
    rewrite Z.mod_small; [by case_match | rewrite Hlen; case_match; prune; lia].
  - intros _ a Ha. simpl. unfold mapped_rom_window, window_offset, rom_area in *.
    by destruct (Z.leb_spec 0x8000 a); [lia|].
Qed.

Lemma mmm01_ok_contract c : ok c -> contract ok c.
Proof.
  intros Hok. constructor.
  - by apply mmm01_rom_contract_holds.
  - by apply linear_external_contract.
  - by apply linear_storage_contract.
  - intros a v _ _. eexists. split; [done|]. apply mmm01_write_rom_board.
  - by apply linear_persistence_contract.
Qed.

#[export] Instance mmm01_laws : MapperLaws Mmm01Cartridge := {|
  m_ok := ok;
  m_step_ok := mmm01_step_ok;
  m_ok_contract := mmm01_ok_contract
|}.

(** ** Loading establishes the invariant *)

Lemma load_mmm01_ok header rom_bytes compat cls ds c :
  header_sized header -> accepts (load_mmm01 header rom_bytes) compat cls ds c -> ok c /\ rom c = rom_bytes.
Proof.
  intros Hsized H. unfold load_mmm01, validate_mmm01 in H. accepts_inv. subst. split; [|done].
  destruct (exact_size_banks header (vec_len rom_bytes)) as (banks & Hb & Hr & Hl); [done..|].
  match goal with H : negb (bool_decide _) = false |- _ => apply negb_false_iff, bool_decide_eq_true in H as Hcodes end.
  assert (Hcode : ram_raw_code (ram_size header) ∈ [0; 2; 3; 4]).
  { revert Hcodes. case_match; rewrite !elem_of_cons, elem_of_nil; intuition. }
  destruct Hsized as [_ Hsize]. rewrite Hsize.
  rewrite !elem_of_cons, elem_of_nil in Hcode.
  constructor; simpl; try lia.
  - exists banks. split_and!; [done | lia | done].
  - intros r Hram.
    destruct Hcode as [E|[E|[E|[E|[]]]]]; rewrite E in Hram; simpl in Hram; [done|..];
      injection Hram as <-; rewrite vec_len_zeroed by lia; (split; [apply bytes_zeroed|]);
      [exists 1 | exists 4 | exists 16]; lia.
Qed.
