(* ===== verification/Classify.v ===== *)
(** * Cartridge classification ([crates/gb-core/src/cartridge/classify.rs])

    The table of cartridge type codes, the signatures of the multicarts that
    the code alone does not tell apart, and the experimental heuristics.  The
    M161 signature loop is proved equivalent to what it looks for, and the
    classification consistent with what each family's validator relies on. *)

From Stdlib Require Import ZArith Lia Bool String Ascii.
From stdpp Require Import base list decidable.
From S2P Require Import Prelude.
From S2P Require Import Model.
From S2P Require Import CartridgeHeader.
From S2P Require Import Cartridge.
From S2P Require Import M161.

Local Open Scope string_scope.
Local Open Scope Z_scope.

#[export] Instance SupportedCartridgeFamily_eq_dec : EqDecision SupportedCartridgeFamily.
Proof. solve_decision. Defined.

Definition ascii_bytes (s : string) : list Z := map (fun a => Z.of_nat (nat_of_ascii a)) (list_ascii_of_string s).

Definition M161_SYNTHETIC_MENU_TITLE : list Z := ascii_bytes "MANI 4 IN 1".
Definition M161_COMMERCIAL_MENU_TITLE : list Z := ascii_bytes "TETRIS SET".
Definition M161_KNOWN_SUBTITLE_SET : list (list Z) :=
  [ascii_bytes "TETRIS"; ascii_bytes "TENNIS"; ascii_bytes "ALLEY WAY"; ascii_bytes "YAKUMAN"].

(** ** The type table *)

Definition supported_with_reason (raw_type : Z) (detected_name : string) (family : SupportedCartridgeFamily)
    (reason : string) : CartridgeClassification :=
  mkClassification raw_type detected_name (Supported family) reason.

Definition supported (raw_type : Z) (detected_name : string) (family : SupportedCartridgeFamily)
    : CartridgeClassification :=
  supported_with_reason raw_type detected_name family "supported cartridge family".

Definition unsupported (raw_type : Z) (detected_name : string) (category : UnsupportedCartridgeCategory)
    (reason : string) : CartridgeClassification :=
  mkClassification raw_type detected_name (Unsupported category) reason.

Definition classify (raw_type : Z) : CartridgeClassification :=
  match raw_type with
  | 0x00 => supported raw_type "ROM ONLY" FamilyNoMbc
  | 0x08 => supported raw_type "ROM+RAM" FamilyNoMbc
  | 0x09 => supported raw_type "ROM+RAM+BATTERY" FamilyNoMbc
  | 0x01 => supported raw_type "MBC1" FamilyMbc1
  | 0x02 => supported raw_type "MBC1+RAM" FamilyMbc1
  | 0x03 => supported raw_type "MBC1+RAM+BATTERY" FamilyMbc1
  | 0x05 => supported raw_type "MBC2" FamilyMbc2
  | 0x06 => supported raw_type "MBC2+BATTERY" FamilyMbc2
  | 0x0F => supported raw_type "MBC3+TIMER+BATTERY" FamilyMbc3
  | 0x10 => supported raw_type "MBC3+TIMER+RAM+BATTERY" FamilyMbc3
  | 0x11 => supported raw_type "MBC3" FamilyMbc3
  | 0x12 => supported raw_type "MBC3+RAM" FamilyMbc3
  | 0x13 => supported raw_type "MBC3+RAM+BATTERY" FamilyMbc3
  | 0x19 => supported raw_type "MBC5" FamilyMbc5
  | 0x1A => supported raw_type "MBC5+RAM" FamilyMbc5
  | 0x1B => supported raw_type "MBC5+RAM+BATTERY" FamilyMbc5
  | 0x1C => supported raw_type "MBC5+RUMBLE" FamilyMbc5
  | 0x1D => supported raw_type "MBC5+RUMBLE+RAM" FamilyMbc5
  | 0x1E => supported raw_type "MBC5+RUMBLE+RAM+BATTERY" FamilyMbc5
  | 0xFC => supported raw_type "POCKET CAMERA" FamilyPocketCamera
  | 0x0B => supported raw_type "MMM01" FamilyMmm01
  | 0x0C => supported raw_type "MMM01+RAM" FamilyMmm01
  | 0x0D => supported raw_type "MMM01+RAM+BATTERY" FamilyMmm01
  | 0x20 => supported raw_type "MBC6" FamilyMbc6
  | 0x22 => supported raw_type "MBC7+SENSOR+RUMBLE+RAM+BATTERY" FamilyMbc7
  | 0xFD => unsupported raw_type "BANDAI TAMA5" AccessorySpecialCase
              "Bandai TAMA5 needs dedicated accessory hardware"
  | 0xFE => supported raw_type "HuC-3" FamilyHuc3
  | 0xFF => supported raw_type "HuC1+RAM+BATTERY" FamilyHuc1
  | _ => unsupported raw_type "UNKNOWN" UnknownCode "The cartridge type code is not recognized"
  end.

(** ** Signatures *)

(** [rom_bytes.get(start..start + count)]. *)
Definition rom_range (rom_bytes : list Z) (start count : Z) : option (list Z) :=
  if start + count <=? vec_len rom_bytes
  then Some (take (Z.to_nat count) (drop (Z.to_nat start) rom_bytes)) else None.

Definition matches_padded_title (title_bytes expected : list Z) : bool :=
  if vec_len title_bytes <? vec_len expected then false
  else bool_decide (expected `prefix_of` title_bytes) &&
       forallb (fun byte => (byte =? 0x00) || (byte =? 0xFF)) (drop (length expected) title_bytes).

Definition is_mbc1m_multicart_signature (header : CartridgeHeader) (rom_bytes : list Z) : bool :=
  if negb ((0x01 <=? cartridge_type header) && (cartridge_type header <=? 0x03)) then false
  else if negb (bool_decide (rom_decoded_bytes (rom_size header) = Some (1024 * 1024))) ||
          negb (vec_len rom_bytes =? 1024 * 1024) then false
  else
    2 <=? vec_len (filter (fun bank =>
            rom_range rom_bytes (bank * 0x4000 + NINTENDO_LOGO_START) NINTENDO_LOGO_LEN = Some (nintendo_logo header))
          [0x10; 0x20; 0x30]).

(** One title of the known set against one bank: [None] is the early
    [return false]. *)
Definition m161_title_step (header : CartridgeHeader) (rom_bytes : list Z) (bank_start : Z)
    (bank_logo bank_title : list Z) (title_index : nat) (expected_title : list Z) (seen_titles : list bool)
    : option (list bool) :=
  if negb (matches_padded_title bank_title expected_title) then Some seen_titles
  else if default false (seen_titles !! title_index) ||
          negb (bool_decide (bank_logo = nintendo_logo header)) ||
          negb (bool_decide (vec_get rom_bytes (bank_start + CARTRIDGE_TYPE_ADDRESS) = Some 0x00)) ||
          negb (bool_decide (vec_get rom_bytes (bank_start + ROM_SIZE_ADDRESS) = Some 0x00)) ||
          negb (bool_decide (vec_get rom_bytes (bank_start + RAM_SIZE_ADDRESS) = Some 0x00))
  then None
  else Some (<[title_index := true]> seen_titles).

Fixpoint m161_titles (header : CartridgeHeader) (rom_bytes : list Z) (bank_start : Z)
    (bank_logo bank_title : list Z) (title_index : nat) (titles : list (list Z)) (seen_titles : list bool)
    : option (list bool) :=
  match titles with
  | [] => Some seen_titles
  | expected_title :: rest =>
      seen ← m161_title_step header rom_bytes bank_start bank_logo bank_title title_index expected_title seen_titles;
      m161_titles header rom_bytes bank_start bank_logo bank_title (S title_index) rest seen
  end.

Fixpoint m161_banks (header : CartridgeHeader) (rom_bytes : list Z) (bank_starts : list Z) (seen_titles : list bool)
    : option (list bool) :=
  match bank_starts with
  | [] => Some seen_titles
  | bank_start :: rest =>
      bank_logo ← rom_range rom_bytes (bank_start + NINTENDO_LOGO_START) NINTENDO_LOGO_LEN;
      bank_title ← rom_range rom_bytes (bank_start + TITLE_START) TITLE_BYTES_LEN;
      seen ← m161_titles header rom_bytes bank_start bank_logo bank_title 0 M161_KNOWN_SUBTITLE_SET seen_titles;
      m161_banks header rom_bytes rest seen
  end.

(** [(0..rom_bytes.len()).step_by(M161_BANK_BYTES)]. *)
Definition m161_bank_starts (len : Z) : list Z :=
  map (fun k => Z.of_nat k * M161_BANK_BYTES) (seq 0 (Z.to_nat ((len + (M161_BANK_BYTES - 1)) / M161_BANK_BYTES))).

Definition is_m161_multicart_signature (header : CartridgeHeader) (rom_bytes : list Z) : bool :=
  if (vec_len rom_bytes <? M161_SUPPORTED_ROM_BYTES_MIN) || (M161_SUPPORTED_ROM_BYTES_MAX <? vec_len rom_bytes) ||
     negb (vec_len rom_bytes mod M161_BANK_BYTES =? 0) then false
  else if negb (matches_padded_title (title_bytes header) M161_SYNTHETIC_MENU_TITLE) &&
          negb (matches_padded_title (title_bytes header) M161_COMMERCIAL_MENU_TITLE) then false
  else if negb (ram_raw_code (ram_size header) =? 0x00) then false
  else
    match m161_banks header rom_bytes (m161_bank_starts (vec_len rom_bytes))
            (map (fun _ => false) M161_KNOWN_SUBTITLE_SET) with
    | None => false
    | Some seen_titles => forallb id seen_titles
    end.

Definition is_mani_mmm01_signature (header : CartridgeHeader) (rom_bytes : list Z) : outcome bool :=
  if negb (cartridge_type header =? MANI_MMM01_MENU_TYPE) ||
     negb (ram_raw_code (ram_size header) =? 0x00) ||
     negb (bool_decide (ram_decoded_bytes (ram_size header) = Some 0)) ||
     negb (bool_decide (rom_decoded_bytes (rom_size header) = Some (vec_len rom_bytes))) ||
     negb (title_ends_with header MANI_MMM01_MENU_SUFFIX) ||
     negb (bool_decide (vec_len rom_bytes ∈ MANI_MMM01_SUPPORTED_ROM_BYTES))
  then Done false
  else
    primary ← parse rom_bytes;
    match primary with
    | inr _ => Done false
    | inl primary_header =>
        if negb ((0x01 <=? cartridge_type primary_header) && (cartridge_type primary_header <=? 0x03)) ||
           negb (ram_raw_code (ram_size primary_header) =? 0x00) ||
           negb (bool_decide (nintendo_logo primary_header = nintendo_logo header))
        then Done false
        else
          game_header_count ← count_subheaders rom_bytes
            (mani_subheader (vec_len rom_bytes) (nintendo_logo header)) (bank_starts (vec_len rom_bytes));
          Done (4 <=? game_header_count)
    end.

Definition is_mbc30_header_variant (header : CartridgeHeader) : bool :=
  ((cartridge_type header =? 0x10) || (cartridge_type header =? 0x12) || (cartridge_type header =? 0x13)) &&
  (ram_raw_code (ram_size header) =? 0x05).

Definition classify_supported_signature_variant (header : CartridgeHeader) (rom_bytes : list Z)
    : outcome (option CartridgeClassification) :=
  if is_m161_multicart_signature header rom_bytes then
    Done (Some (supported_with_reason (cartridge_type header) "M161" FamilyM161
      "M161 multicart classification came from the explicit Mani 4-in-1 signature path"))
  else
    mani ← is_mani_mmm01_signature header rom_bytes;
    Done (if (mani : bool) then
            Some (supported_with_reason (cartridge_type header) "MMM01" FamilyMmm01
              "MMM01 classification came from the explicit later Mani trailing-menu signature path")
          else if is_mbc1m_multicart_signature header rom_bytes then
            Some (supported_with_reason (cartridge_type header) "MBC1M" FamilyMbc1
              "MBC1 multicart classification came from the explicit subheader signature path")
          else if is_mbc30_header_variant header then
            Some (supported_with_reason (cartridge_type header) "MBC30" FamilyMbc3
              "MBC30 classification came from the MBC3 64 KiB SRAM header shape")
          else None).

(** ** Heuristics *)

Definition is_ems_multicart_signature (title_bytes : list Z) (raw_type destination_code : Z) : bool :=
  matches_padded_title title_bytes (ascii_bytes "EMSMENU") ||
  matches_padded_title title_bytes (ascii_bytes "GB16M") ||
  ((raw_type =? 0x1B) && (destination_code =? 0xE1)).

Definition is_wisdom_tree_signature (title_bytes : list Z)
    (raw_type rom_size_code actual_rom_size destination_code : Z) : bool :=
  matches_padded_title title_bytes (ascii_bytes "WISDOM TREE") ||
  matches_padded_title title_bytes (ascii_bytes "WISDOM" ++ [0] ++ ascii_bytes "TREE")%list ||
  ((raw_type =? 0x00) && (rom_size_code =? 0x00) && (NO_MBC_SUPPORTED_ROM_BYTES <? actual_rom_size)) ||
  ((raw_type =? 0xC0) && (destination_code =? 0xD1)).

Definition classify_experimental_heuristic (header : CartridgeHeader) (rom_bytes : list Z)
    : option CartridgeClassification :=
  if cartridge_type header =? 0xBE then
    Some (unsupported (cartridge_type header) "BUNG" ExperimentalHeuristic
      "Bung multicart classification came from an explicit experimental heuristic path")
  else if is_ems_multicart_signature (title_bytes header) (cartridge_type header) (destination_code header) then
    Some (unsupported (cartridge_type header) "EMS" ExperimentalHeuristic
      "EMS multicart classification came from an explicit experimental heuristic path")
  else if is_wisdom_tree_signature (title_bytes header) (cartridge_type header) (rom_raw_code (rom_size header))
            (vec_len rom_bytes) (destination_code header) then
    Some (unsupported (cartridge_type header) "WISDOM TREE" ExperimentalHeuristic
      "Wisdom Tree classification came from an explicit experimental heuristic path")
  else None.

Definition classify_loaded_cartridge (header : CartridgeHeader) (rom_bytes : list Z)
    (compatibility : CompatibilityPolicy) : outcome CartridgeClassification :=
  variant ← classify_supported_signature_variant header rom_bytes;
  Done (match variant with
        | Some classification => classification
        | None =>
            match (if bool_decide (heuristic_policy compatibility = AllowExperimental)
                   then classify_experimental_heuristic header rom_bytes else None) with
            | Some classification => classification
            | None => classify (cartridge_type header)
            end
        end).

Definition unsupported_load_reason (category : UnsupportedCartridgeCategory) : string :=
  match category with
  | PlannedVariant => "{} is a known reserved variant that is not implemented yet: {}"
  | ExperimentalHeuristic =>
      "{} was identified through an explicit experimental heuristic path and is not implemented: {}"
  | DocumentedButUnsupported | AccessorySpecialCase | UnknownCode => "{} ({category:?}) is not implemented: {}"
  end.

(** ** Lemmas on titles and ranges *)

Definition padding (b : Z) : Prop := b = 0x00 \/ b = 0xFF.

Lemma matches_padded_title_spec title expected :
  matches_padded_title title expected = true <->
  exists pad, title = (expected ++ pad)%list /\ Forall padding pad.
Proof.
  unfold matches_padded_title, vec_len.
  assert (Hpad : forall l, forallb (fun byte => (byte =? 0) || (byte =? 255)) l = true <-> Forall padding l).
  { intros l. rewrite forallb_forall, List.Forall_forall. unfold padding.
    by setoid_rewrite orb_true_iff; setoid_rewrite Z.eqb_eq. }
  destruct (Z.ltb_spec (Z.of_nat (length title)) (Z.of_nat (length expected))) as [Hlt|Hge].
  - split; [done|]. intros (pad & -> & _). rewrite length_app in Hlt. lia.
  - rewrite andb_true_iff, bool_decide_eq_true, Hpad. split.
    + intros [[pad ->] H]. rewrite drop_app_length in H. eauto.
    + intros (pad & -> & H). rewrite drop_app_length. split; [by exists pad | done].
Qed.

Lemma rom_range_ok rom start count : start + count <= vec_len rom ->
  rom_range rom start count = Some (take (Z.to_nat count) (drop (Z.to_nat start) rom)).
Proof. intros. unfold rom_range. by destruct (Z.leb_spec (start + count) (vec_len rom)); [|lia]. Qed.

(** ** The M161 signature *)

Section M161Signature.
Context (header : CartridgeHeader) (rom : list Z).

Definition bank_titled (bank_start : Z) (t : list Z) : bool :=
  matches_padded_title (take 16 (drop (Z.to_nat (bank_start + TITLE_START)) rom)) t.
Definition bank_is_game (bank_start : Z) : bool :=
  bool_decide (take 48 (drop (Z.to_nat (bank_start + NINTENDO_LOGO_START)) rom) = nintendo_logo header) &&
  bool_decide (vec_get rom (bank_start + CARTRIDGE_TYPE_ADDRESS) = Some 0x00) &&
  bool_decide (vec_get rom (bank_start + ROM_SIZE_ADDRESS) = Some 0x00) &&
  bool_decide (vec_get rom (bank_start + RAM_SIZE_ADDRESS) = Some 0x00).

Let in_bank (bank_start : Z) : Prop := 0 <= bank_start /\ bank_start + 0x8000 <= vec_len rom.
Let logo_of b := take 48 (drop (Z.to_nat (b + NINTENDO_LOGO_START)) rom).
Let title_of b := take 16 (drop (Z.to_nat (b + TITLE_START)) rom).

Lemma m161_titles_zip b titles : forall pre seen,
  length seen = length titles ->
  m161_titles header rom b (logo_of b) (title_of b) (length pre) titles (pre ++ seen) =
  if existsb id (zip_with (fun t s => bank_titled b t && (s || negb (bank_is_game b))) titles seen) then None
  else Some (pre ++ zip_with (fun t s => bank_titled b t || s) titles seen)%list.
Proof.
  induction titles as [|t titles IH]; intros pre [|s seen] Hlen; try done.
  cbn [m161_titles zip_with existsb]. unfold m161_title_step.
  change (matches_padded_title (title_of b) t) with (bank_titled b t).
  rewrite list_lookup_middle by done. simpl in Hlen. injection Hlen as Hlen.
  assert (Happ : forall x (l : list bool), (pre ++ x :: l)%list = ((pre ++ [x]) ++ l)%list) by (intros; by rewrite <-app_assoc).
  assert (HS : forall x : bool, S (length pre) = length (pre ++ [x])%list) by (intros; rewrite length_app; simpl; lia).
  destruct (bank_titled b t); simpl.
  - assert (Hg : (s || negb (bool_decide (logo_of b = nintendo_logo header)) ||
               negb (bool_decide (vec_get rom (b + CARTRIDGE_TYPE_ADDRESS) = Some 0)) ||
               negb (bool_decide (vec_get rom (b + ROM_SIZE_ADDRESS) = Some 0)) ||
               negb (bool_decide (vec_get rom (b + RAM_SIZE_ADDRESS) = Some 0))) = s || negb (bank_is_game b)).
    { unfold bank_is_game. rewrite !negb_andb, !orb_assoc. done. }
    rewrite Hg. destruct (s || negb (bank_is_game b)); simpl; [done|].
    rewrite insert_app_r_alt, Nat.sub_diag by lia. cbn [insert list_insert].
    rewrite Happ, (HS true), IH by done. rewrite <-app_assoc. done.
  - rewrite Happ, (HS s), IH by done. rewrite <-app_assoc. done.
Qed.

(** What the loop demands of one title, seen before or not. *)
Definition title_demand (starts : list Z) (t : list Z) (s : bool) : Prop :=
  forall j b, starts !! j = Some b -> bank_titled b t = true ->
    bank_is_game b = true /\ s = false /\
    forall j' b', starts !! j' = Some b' -> bank_titled b' t = true -> j' = j.

Lemma title_demand_cons b starts t s :
  title_demand (b :: starts) t s <->
  (bank_titled b t = true -> bank_is_game b = true /\ s = false) /\
  title_demand starts t (bank_titled b t || s).
Proof.
  unfold title_demand. split.
  - intros H. split.
    + intros Ht. destruct (H 0%nat b eq_refl Ht) as (? & ? & _). done.
    + intros j b' Hb' Ht'. destruct (H (S j) b' Hb' Ht') as (? & -> & Hu). split_and!; [done| |].
      * destruct (bank_titled b t) eqn:E; [|done]. by specialize (Hu 0%nat b eq_refl E).
      * intros j' b'' Hb'' Ht''. specialize (Hu (S j') b'' Hb'' Ht''). lia.
  - intros [H0 H] [|j] b' Hb' Ht'; simpl in Hb'.
    + injection Hb' as <-. destruct (H0 Ht') as [? ?]. split_and!; [done..|].
      intros [|j'] b' Hb' Ht''; [done|]. destruct (H j' b' Hb' Ht'') as (_ & Hf & _). by rewrite Ht' in Hf.
    + destruct (H j b' Hb' Ht') as (? & Hf & Hu). apply orb_false_iff in Hf as [Hf ?]. split_and!; [done..|].
      intros [|j'] b'' Hb'' Ht''; simpl in Hb''; [congruence|]. by rewrite (Hu j' b'' Hb'' Ht'').
Qed.

Lemma m161_banks_spec starts : forall seen,
  Forall in_bank starts -> length seen = length M161_KNOWN_SUBTITLE_SET ->
  match m161_banks header rom starts seen with
  | None => exists i t s, M161_KNOWN_SUBTITLE_SET !! i = Some t /\ seen !! i = Some s /\ ~ title_demand starts t s
  | Some out => out = zip_with (fun t s => existsb (fun b => bank_titled b t) starts || s) M161_KNOWN_SUBTITLE_SET seen /\
      forall i t s, M161_KNOWN_SUBTITLE_SET !! i = Some t -> seen !! i = Some s -> title_demand starts t s
  end.
Proof.
  induction starts as [|b starts IH]; intros seen Hin Hlen.
  { cbn [m161_banks]. split; [|by intros ????? []].
    revert Hlen. generalize M161_KNOWN_SUBTITLE_SET. intros titles. revert seen.
    induction titles as [|t titles IHt]; intros [|s seen] Hlen; try done.
    simpl. f_equal. apply IHt. by injection Hlen. }
  apply List.Forall_cons_iff in Hin as [[Hb0 Hb] Hin]. cbn [m161_banks].
  rewrite !rom_range_ok by (unfold TITLE_BYTES_LEN, NINTENDO_LOGO_START, NINTENDO_LOGO_LEN, TITLE_START,
    TITLE_END_INCLUSIVE; lia).
  cbn [mbind option_bind]. change (Z.to_nat NINTENDO_LOGO_LEN) with 48%nat. change (Z.to_nat TITLE_BYTES_LEN) with 16%nat.
  pose proof (m161_titles_zip b M161_KNOWN_SUBTITLE_SET [] seen Hlen) as Hz. simpl app in Hz.
  change (length (@nil bool)) with 0%nat in Hz. unfold logo_of, title_of in Hz. rewrite Hz. clear Hz.
  destruct (existsb id _) eqn:Hbad.
  - cbn [mbind option_bind]. apply existsb_exists in Hbad as (x & Hx & Hid). apply list_elem_of_In in Hx.
    apply list_elem_of_lookup in Hx as [i Hi]. apply lookup_zip_with_Some in Hi as (t & s & -> & Ht & Hs).
    apply andb_true_iff in Hid as [Htb Hor]. exists i, t, s. split_and!; [done..|].
    rewrite title_demand_cons. intros [H0 _]. destruct (H0 Htb) as [Hg ->]. by rewrite Hg in Hor.
  - cbn [mbind option_bind].
    assert (Hok : forall i t s, M161_KNOWN_SUBTITLE_SET !! i = Some t -> seen !! i = Some s ->
        bank_titled b t = true -> bank_is_game b = true /\ s = false).
    { intros i t s Ht Hs Htb. assert (Hx : id (bank_titled b t && (s || negb (bank_is_game b))) = false).
      { destruct (id _) eqn:E; [|done]. exfalso. rewrite <-not_true_iff_false in Hbad. apply Hbad, existsb_exists.
        exists (bank_titled b t && (s || negb (bank_is_game b))). split; [|done].
        apply list_elem_of_In, list_elem_of_lookup. exists i. apply lookup_zip_with_Some. by exists t, s. }
      unfold id in Hx. rewrite Htb in Hx. simpl in Hx. apply orb_false_iff in Hx as [? Hx].
      by apply negb_false_iff in Hx. }
    specialize (IH (zip_with (fun t s => bank_titled b t || s) M161_KNOWN_SUBTITLE_SET seen) Hin).
    rewrite length_zip_with in IH. specialize (IH ltac:(lia)).
    destruct (m161_banks _ _ _ _) as [out|].
    + destruct IH as [-> IH]. split.
      * clear -Hlen. revert Hlen. generalize M161_KNOWN_SUBTITLE_SET. intros titles. revert seen.
        induction titles as [|t titles IHt]; intros [|s seen] Hlen; try done.
        cbn [zip_with existsb]. f_equal; [|apply IHt; by injection Hlen].
        by destruct (bank_titled b t), (existsb _ _), s.
      * intros i t s Ht Hs. apply title_demand_cons. split; [by apply (Hok i t s)|]. apply (IH i t); [done|].
        apply lookup_zip_with_Some. by exists t, s.
    + destruct IH as (i & t & s & Ht & Hs & Hn). apply lookup_zip_with_Some in Hs as (t' & s' & -> & Ht' & Hs').
      simplify_eq. exists i, t, s'. split_and!; [done..|]. rewrite title_demand_cons. by intros [_ ?].
Qed.
End M161Signature.

(** The signature as a picture of the image: between five and eight 32 KiB
    banks, a menu title, and for each of the four games exactly one bank with
    that title, which carries the menu's logo and plain codes. *)
Definition titled_in (rom : list Z) (bank : Z) (t : list Z) : Prop :=
  exists pad, take 16 (drop (Z.to_nat (bank * 0x8000 + 0x134)) rom) = (t ++ pad)%list /\ Forall padding pad.
Definition plain_game_in (header : CartridgeHeader) (rom : list Z) (bank : Z) : Prop :=
  take 48 (drop (Z.to_nat (bank * 0x8000 + 0x104)) rom) = nintendo_logo header /\
  forall a, 0x147 <= a <= 0x149 -> vec_get rom (bank * 0x8000 + a) = Some 0x00.

Record m161_image (header : CartridgeHeader) (rom : list Z) (banks : Z) : Prop := {
  m161_size : 5 <= banks <= 8 /\ vec_len rom = banks * 0x8000;
  m161_menu : exists menu pad, (menu = M161_SYNTHETIC_MENU_TITLE \/ menu = M161_COMMERCIAL_MENU_TITLE) /\
    title_bytes header = (menu ++ pad)%list /\ Forall padding pad;
  m161_no_ram : ram_raw_code (ram_size header) = 0x00;
  m161_games : forall t, t ∈ M161_KNOWN_SUBTITLE_SET -> exists bank,
    0 <= bank < banks /\ titled_in rom bank t /\ plain_game_in header rom bank /\
    forall bank', 0 <= bank' < banks -> titled_in rom bank' t -> bank' = bank
}.

Lemma bank_titled_spec rom bank t : bank_titled rom (bank * M161_BANK_BYTES) t = true <-> titled_in rom bank t.
Proof. apply matches_padded_title_spec. Qed.

Lemma bank_is_game_spec header rom bank :
  bank_is_game header rom (bank * M161_BANK_BYTES) = true <-> plain_game_in header rom bank.
Proof.
  unfold bank_is_game, plain_game_in, M161_BANK_BYTES, CARTRIDGE_TYPE_ADDRESS, ROM_SIZE_ADDRESS, RAM_SIZE_ADDRESS,
    NINTENDO_LOGO_START.
  rewrite !andb_true_iff, !bool_decide_eq_true. change (32 * 1024) with 0x8000. split.
  - intros [[[? ?] ?] ?]. split; [done|]. intros a Ha.
    assert (a = 0x147 \/ a = 0x148 \/ a = 0x149) as [->|[->| ->]] by lia; done.
  - intros [? H]. split_and!; [done | apply H; lia..].
Qed.

Lemma m161_bank_starts_lookup n j : 0 <= n ->
  m161_bank_starts (n * 0x8000) !! j = if decide (Z.of_nat j < n) then Some (Z.of_nat j * M161_BANK_BYTES) else None.
Proof.
  intros Hn. unfold m161_bank_starts.
  assert (Hk : (n * 0x8000 + (M161_BANK_BYTES - 1)) / M161_BANK_BYTES = n).
  { unfold M161_BANK_BYTES. rewrite Z.add_comm, Z.div_add by lia. rewrite Z.div_small by lia. lia. }
  rewrite Hk, list_lookup_fmap. case_decide.
  - rewrite lookup_seq_lt by lia. done.
  - rewrite lookup_seq_ge by lia. done.
Qed.

Lemma m161_demands_met header rom n t : 0 <= n ->
  title_demand header rom (m161_bank_starts (n * 0x8000)) t false /\
  existsb (fun b => bank_titled rom b t) (m161_bank_starts (n * 0x8000)) = true <->
  exists bank, 0 <= bank < n /\ titled_in rom bank t /\ plain_game_in header rom bank /\
    forall bank', 0 <= bank' < n -> titled_in rom bank' t -> bank' = bank.
Proof.
  intros Hn. split.
  - intros [Hd (b & Hb & Ht)%existsb_exists]. apply list_elem_of_In, list_elem_of_lookup in Hb as [j Hj].
    pose proof (Hd j b Hj Ht) as (Hg & _ & Hu).
    rewrite m161_bank_starts_lookup in Hj by done. case_decide; [|done]. injection Hj as <-.
    exists (Z.of_nat j). split_and!; [lia | lia | by apply bank_titled_spec | by apply bank_is_game_spec |].
    intros bank' Hb' Ht'%bank_titled_spec.
    assert (Hx : Z.to_nat bank' = j); [|lia]. eapply Hu; [|exact Ht'].
    rewrite m161_bank_starts_lookup by done. rewrite decide_True by lia. by rewrite Z2Nat.id by lia.
  - intros (bank & Hb & Ht & Hg & Hu). split.
    + intros j b Hj Hbt. rewrite m161_bank_starts_lookup in Hj by done. case_decide; [|done]. injection Hj as <-.
      rewrite bank_titled_spec in Hbt. assert (Z.of_nat j = bank) as Hjb by (apply Hu; [lia | done]).
      split_and!; [by rewrite Hjb; apply bank_is_game_spec | done |].
      intros j' b' Hj' Hbt'. rewrite m161_bank_starts_lookup in Hj' by done. case_decide; [|done]. injection Hj' as <-.
      rewrite bank_titled_spec in Hbt'. assert (Z.of_nat j' = bank) by (apply Hu; [lia | done]). lia.
    + apply existsb_exists. exists (bank * M161_BANK_BYTES). split; [|by apply bank_titled_spec].
      apply list_elem_of_In, list_elem_of_lookup. exists (Z.to_nat bank). rewrite m161_bank_starts_lookup by done.
      rewrite decide_True by lia. by rewrite Z2Nat.id by lia.
Qed.

Lemma m161_loop_spec header rom n : 0 <= n -> vec_len rom = n * 0x8000 ->
  match m161_banks header rom (m161_bank_starts (vec_len rom)) (map (fun _ => false) M161_KNOWN_SUBTITLE_SET) with
  | None => false
  | Some seen_titles => forallb id seen_titles
  end = true <->
  forall t, t ∈ M161_KNOWN_SUBTITLE_SET -> exists bank, 0 <= bank < n /\ titled_in rom bank t /\
    plain_game_in header rom bank /\ forall bank', 0 <= bank' < n -> titled_in rom bank' t -> bank' = bank.
Proof.
  intros Hn0 Hn.
  pose proof (m161_banks_spec header rom (m161_bank_starts (vec_len rom)) (map (fun _ => false) M161_KNOWN_SUBTITLE_SET)) as Hs.
  assert (Hin : Forall (fun b => 0 <= b /\ b + 0x8000 <= vec_len rom) (m161_bank_starts (vec_len rom))).
  { apply Forall_lookup_2. intros j b Hj. rewrite Hn, m161_bank_starts_lookup in Hj by lia. case_decide; [|done].
    injection Hj as <-. unfold M161_BANK_BYTES. lia. }
  specialize (Hs Hin ltac:(by rewrite length_map)). rewrite Hn in Hs |- *.
  assert (Hfalse : forall i t s, M161_KNOWN_SUBTITLE_SET !! i = Some t ->
      map (fun _ => false) M161_KNOWN_SUBTITLE_SET !! i = Some s -> s = false).
  { intros i t s Ht Hx. rewrite list_lookup_fmap, Ht in Hx. by injection Hx as <-. }
  assert (Hmap : forall i t, M161_KNOWN_SUBTITLE_SET !! i = Some t ->
      map (fun _ => false) M161_KNOWN_SUBTITLE_SET !! i = Some false).
  { intros i t Ht. by rewrite list_lookup_fmap, Ht. }
  transitivity (forall t, t ∈ M161_KNOWN_SUBTITLE_SET ->
    title_demand header rom (m161_bank_starts (n * 0x8000)) t false /\
    existsb (fun b => bank_titled rom b t) (m161_bank_starts (n * 0x8000)) = true).
  - destruct (m161_banks _ _ _ _) as [out|].
    + destruct Hs as [-> Hd]. rewrite forallb_forall. split.
      * intros H t [i Hi]%list_elem_of_lookup. split; [by apply (Hd i t); eauto|].
        specialize (H (existsb (fun b => bank_titled rom b t) (m161_bank_starts (n * 0x8000)) || false)).
        rewrite orb_false_r in H. apply H. apply list_elem_of_In, list_elem_of_lookup. exists i.
        apply lookup_zip_with_Some. exists t, false. rewrite orb_false_r. eauto.
      * intros H x Hx%list_elem_of_In. apply list_elem_of_lookup in Hx as [i Hi].
        apply lookup_zip_with_Some in Hi as (t & s & -> & Ht & Hx). unfold id.
        destruct (H t) as [_ ->]; [by eapply list_elem_of_lookup_2 | done].
    + split; [done|]. intros H. exfalso. destruct Hs as (i & t & s & Ht & Hx & Hn').
      rewrite (Hfalse i t s Ht Hx) in Hn'. apply Hn', H. by eapply list_elem_of_lookup_2.
  - by setoid_rewrite m161_demands_met.
Qed.

(** The M161 signature recognises what it describes: the loop over banks
    and titles, with its early exits, answers yes exactly for images of five
    to eight 32 KiB banks under a Mani menu title without RAM in which each of
    the four games has one and only one bank, with the menu's logo and plain
    codes. *)
Theorem m161_signature_recognises_image header rom :
  is_m161_multicart_signature header rom = true <-> exists banks, m161_image header rom banks.
Proof.
  unfold is_m161_multicart_signature.
  destruct (_ || _ || _) eqn:Hsize.
  { split; [done|]. intros [n [[Hn Hl] _ _ _]]. rewrite Hl in Hsize.
    change M161_BANK_BYTES with 0x8000 in Hsize. rewrite Z.mod_mul in Hsize by lia. simpl in Hsize.
    rewrite orb_false_r in Hsize. unfold M161_SUPPORTED_ROM_BYTES_MIN, M161_SUPPORTED_ROM_BYTES_MAX,
      M161_SUPPORTED_ROM_BANKS_MIN, M161_SUPPORTED_ROM_BANKS_MAX, M161_BANK_BYTES in Hsize.
    apply orb_true_iff in Hsize as [H%Z.ltb_lt|H%Z.ltb_lt]; lia. }
  apply orb_false_iff in Hsize as [[Hmin%Z.ltb_ge Hmax%Z.ltb_ge]%orb_false_iff Hmod].
  apply negb_false_iff, Z.eqb_eq in Hmod. change M161_BANK_BYTES with 0x8000 in Hmod.
  apply Z.mod_divide in Hmod as [n Hn]; [|lia].
  unfold M161_SUPPORTED_ROM_BYTES_MIN, M161_SUPPORTED_ROM_BYTES_MAX,
    M161_SUPPORTED_ROM_BANKS_MIN, M161_SUPPORTED_ROM_BANKS_MAX, M161_BANK_BYTES in *.
  assert (Huniq : forall k, m161_image header rom k -> k = n) by (intros k [[? ?] _ _ _]; lia).
  destruct (negb _ && negb _) eqn:Hmenu.
  { split; [done|]. intros [k [_ (menu & pad & Hm & Ht & Hp) _ _]]. apply andb_true_iff in Hmenu as [H1 H2].
    exfalso. destruct Hm as [->| ->]; [clear H2 | clear H1; rename H2 into H1]; apply negb_true_iff in H1;
      (rewrite (proj2 (matches_padded_title_spec _ _)) in H1; [done | by exists pad]). }
  destruct (Z.eqb_spec (ram_raw_code (ram_size header)) 0x00) as [Hram|Hram]; simpl;
    [|split; [done|]; by intros [k [_ _ ? _]]].
  assert (Hm : exists menu pad, (menu = M161_SYNTHETIC_MENU_TITLE \/ menu = M161_COMMERCIAL_MENU_TITLE) /\
      title_bytes header = (menu ++ pad)%list /\ Forall padding pad).
  { apply andb_false_iff in Hmenu as [H|H]; apply negb_false_iff, matches_padded_title_spec in H as (pad & ? & ?); eauto 7. }
  rewrite (m161_loop_spec header rom n) by lia. split.
  - intros H. exists n. constructor; [lia | done..].
  - intros [k Hk]. rewrite (Huniq k Hk) in Hk. by destruct Hk.
Qed.

(** A menu bank, four games and an image of them. *)
Definition m161_sample_bank (t : list Z) : list Z :=
  (replicate (Z.to_nat 0x104) 0 ++ replicate 48 0x4E ++ t ++ replicate (16 - length t) 0 ++
   replicate (Z.to_nat (0x8000 - 0x144)) 0)%list.
Definition m161_sample : list Z :=
  concat (map m161_sample_bank (M161_SYNTHETIC_MENU_TITLE :: M161_KNOWN_SUBTITLE_SET)).

Example m161_sample_recognised :
  match parse m161_sample with
  | Done (inl h) => is_m161_multicart_signature h m161_sample
  | _ => false
  end = true.
Proof. vm_compute. reflexivity. Qed.

(** ** What the validators rely on *)

(** A classification keeps the header's type code, and the two families whose
    validators take some codes for granted are chosen for those codes only. *)
Record classification_fits (header : CartridgeHeader) (cls : CartridgeClassification) : Prop := {
  fits_raw_type : raw_type cls = cartridge_type header;
  fits_no_mbc : selection cls = Supported FamilyNoMbc -> raw_type cls ∈ [0x00; 0x08; 0x09];
  fits_mbc5 : selection cls = Supported FamilyMbc5 -> 0x19 <= raw_type cls <= 0x1E
}.

Lemma classify_fits header : classification_fits header (classify (cartridge_type header)).
Proof.
  assert (H : forall ty, let cls := classify ty in raw_type cls = ty /\
    match selection cls with
    | Supported FamilyNoMbc => In ty [0x00; 0x08; 0x09]
    | Supported FamilyMbc5 => In ty [0x19; 0x1A; 0x1B; 0x1C; 0x1D; 0x1E]
    | _ => True
    end).
  { intros [|p|p]; [| do 8 try destruct p as [p|p|] |]; cbn; auto 12. }
  specialize (H (cartridge_type header)) as [Hr H]. constructor; [done | |]; intros Hs; rewrite Hs in H; rewrite Hr.
  - by apply list_elem_of_In.
  - simpl in H. lia.
Qed.

Lemma is_mani_mmm01_signature_total header rom :
  exists b, is_mani_mmm01_signature header rom = Done b.
Proof.
  unfold is_mani_mmm01_signature. destruct (_ || _); [by exists false|].
  unfold parse. destruct (parse_at_offset_total rom 0) as [p ->]; [lia|]. cbn [mbind outcome_bind].
  destruct p as [p|]; [|by exists false]. destruct (_ || _); [by exists false|].
  destruct (count_subheaders_total rom (mani_subheader (vec_len rom) (nintendo_logo header)) (bank_starts (vec_len rom))
    (bank_starts_nonneg _)) as [n ->]. by eexists.
Qed.

Lemma classify_loaded_fits header rom compat :
  finishes (classify_loaded_cartridge header rom compat) (classification_fits header).
Proof.
  unfold classify_loaded_cartridge, classify_supported_signature_variant.
  destruct (is_m161_multicart_signature header rom); [by constructor|].
  destruct (is_mani_mmm01_signature_total header rom) as [mani ->]. cbn [mbind outcome_bind finishes].
  destruct mani; [by constructor|]. destruct (is_mbc1m_multicart_signature header rom); [by constructor|].
  destruct (is_mbc30_header_variant header); [by constructor|].
  destruct (bool_decide _); [|apply classify_fits].
  unfold classify_experimental_heuristic. repeat case_match; simplify_eq; try apply classify_fits; by constructor.
Qed.
