(* ===== verification/CartridgeDevice.v ===== *)
(** * The inserted cartridge ([crates/gb-core/src/cartridge/device.rs])

    The sum of the mappers and the dispatch of every cartridge operation to
    the mapper inside.  The dispatch is itself a mapper: an embedding of one
    mapper into another that commutes with the operations transports its laws,
    so the contract of each mapper becomes the contract of the device. *)

From Stdlib Require Import ZArith Lia Bool String.
From stdpp Require Import base list decidable option.
From S2P Require Import Prelude.
From S2P Require Import Model.
From S2P Require Import CartridgeHeader.
From S2P Require Import Cartridge.
From S2P Require Import NoMbc.
From S2P Require Import Mbc1.
From S2P Require Import Mbc2.
From S2P Require Import Mbc5.
From S2P Require Import Mbc3.
From S2P Require Import M161.
From S2P Require Import Huc1.
From S2P Require Import Huc3.
From S2P Require Import Mbc6.
From S2P Require Import Mbc7.
From S2P Require Import PocketCamera.
From S2P Require Import Mmm01.

Local Open Scope string_scope.
Local Open Scope Z_scope.

Inductive CartridgeDevice :=
| DeviceNoMbc (cartridge : NoMbcCartridge)
| DeviceMmm01 (cartridge : Mmm01Cartridge)
| DeviceM161 (cartridge : M161Cartridge)
| DeviceHuc1 (cartridge : Huc1Cartridge)
| DeviceHuc3 (cartridge : Huc3Cartridge)
| DeviceMbc1 (cartridge : Mbc1Cartridge)
| DeviceMbc2 (cartridge : Mbc2Cartridge)
| DeviceMbc3 (cartridge : Mbc3Cartridge)
| DeviceMbc5 (cartridge : Mbc5Cartridge)
| DeviceMbc6 (cartridge : Mbc6Cartridge)
| DeviceMbc7 (cartridge : Mbc7Cartridge)
| DevicePocketCamera (cartridge : PocketCameraCartridge).

(** ** Dispatch

    A query answers what the mapper inside answers; an update rebuilds the
    device around the mapper's new state.  [r] is the result's shape. *)

Definition query {A : Type} (f : forall C : Type, Mapper C -> C -> A) (d : CartridgeDevice) : A :=
  match d with
  | DeviceNoMbc c => f _ _ c
  | DeviceMmm01 c => f _ _ c
  | DeviceM161 c => f _ _ c
  | DeviceHuc1 c => f _ _ c
  | DeviceHuc3 c => f _ _ c
  | DeviceMbc1 c => f _ _ c
  | DeviceMbc2 c => f _ _ c
  | DeviceMbc3 c => f _ _ c
  | DeviceMbc5 c => f _ _ c
  | DeviceMbc6 c => f _ _ c
  | DeviceMbc7 c => f _ _ c
  | DevicePocketCamera c => f _ _ c
  end.

Definition update {r : Type -> Type} (fmap_r : forall C, (C -> CartridgeDevice) -> r C -> r CartridgeDevice)
    (f : forall C : Type, Mapper C -> C -> r C) (d : CartridgeDevice) : r CartridgeDevice :=
  match d with
  | DeviceNoMbc c => fmap_r _ DeviceNoMbc (f _ _ c)
  | DeviceMmm01 c => fmap_r _ DeviceMmm01 (f _ _ c)
  | DeviceM161 c => fmap_r _ DeviceM161 (f _ _ c)
  | DeviceHuc1 c => fmap_r _ DeviceHuc1 (f _ _ c)
  | DeviceHuc3 c => fmap_r _ DeviceHuc3 (f _ _ c)
  | DeviceMbc1 c => fmap_r _ DeviceMbc1 (f _ _ c)
  | DeviceMbc2 c => fmap_r _ DeviceMbc2 (f _ _ c)
  | DeviceMbc3 c => fmap_r _ DeviceMbc3 (f _ _ c)
  | DeviceMbc5 c => fmap_r _ DeviceMbc5 (f _ _ c)
  | DeviceMbc6 c => fmap_r _ DeviceMbc6 (f _ _ c)
  | DeviceMbc7 c => fmap_r _ DeviceMbc7 (f _ _ c)
  | DevicePocketCamera c => fmap_r _ DevicePocketCamera (f _ _ c)
  end.

(** The shapes: a new state, a value and a new state, a new state and an
    optional error. *)
Definition outcome_map {A B : Type} (f : A -> B) (m : outcome A) : outcome B :=
  match m with Done a => Done (f a) | Panic why => Panic why end.
Definition read_map {A B : Type} (f : A -> B) : outcome (Z * A) -> outcome (Z * B) :=
  outcome_map (fun r => (fst r, f (snd r))).
Definition result_map {A B E : Type} (f : A -> B) (r : A * option E) : B * option E := (f (fst r), snd r).

Definition rom_bytes : CartridgeDevice -> list Z := query (fun C _ c => board_rom (m_board c)).
Definition header : CartridgeDevice -> CartridgeHeader := query (fun C _ c => board_header (m_board c)).
Definition classification : CartridgeDevice -> CartridgeClassification :=
  query (fun C _ c => board_classification (m_board c)).

Definition read_rom (address : Z) : CartridgeDevice -> outcome Z := query (fun C _ => m_read_rom address).
Definition mapped_rom_window (address : Z) : CartridgeDevice -> option CartridgeMappedRomWindow :=
  query (fun C _ => m_mapped_rom_window address).
Definition write_rom (address value : Z) : CartridgeDevice -> outcome CartridgeDevice :=
  update (fun C => outcome_map) (fun C _ => m_write_rom address value).
Definition read_ram (address : Z) : CartridgeDevice -> outcome Z := query (fun C _ => m_read_ram address).
Definition read_ram_timed (address t_cycle : Z) : CartridgeDevice -> outcome (Z * CartridgeDevice) :=
  update (fun C => read_map) (fun C _ => m_read_ram_timed address t_cycle).
Definition write_ram (address value : Z) : CartridgeDevice -> outcome CartridgeDevice :=
  update (fun C => outcome_map) (fun C _ => m_write_ram address value).
Definition write_ram_timed (address value t_cycle : Z) : CartridgeDevice -> outcome CartridgeDevice :=
  update (fun C => outcome_map) (fun C _ => m_write_ram_timed address value t_cycle).
Definition describe_external_access (address : Z) : CartridgeDevice -> CartridgeExternalAccessInfo :=
  query (fun C _ => m_describe_external_access address).
Definition advance_rtc_seconds (seconds : Z) : CartridgeDevice -> outcome CartridgeDevice :=
  update (fun C => outcome_map) (fun C _ => m_advance_rtc_seconds seconds).
Definition advance_mbc3_rtc_clock_ticks (ticks : Z) : CartridgeDevice -> outcome CartridgeDevice :=
  update (fun C => outcome_map) (fun C _ => m_advance_mbc3_rtc_clock_ticks ticks).
Definition persistence_metadata : CartridgeDevice -> CartridgePersistenceMetadata :=
  query (fun C _ => m_persistence_metadata).
Definition persistent_state : CartridgeDevice -> PersistentCartState := query (fun C _ => m_persistent_state).
Definition restore_persistent_state (state : PersistentCartState)
    : CartridgeDevice -> CartridgeDevice * option CartridgePersistentStateError :=
  update (fun C => result_map) (fun C _ => m_restore_persistent_state state).

(** ** What only some mappers have *)

Definition loaded_image (header : CartridgeHeader) (actual_bytes : Z) : CartridgeRomLayout :=
  let exact_declared := bool_decide (rom_decoded_bytes (rom_size header) = Some actual_bytes) in
  let at_least_two_banks := Z.max ((actual_bytes + ROM_BANK_BYTES - 1) / ROM_BANK_BYTES)
                              (NO_MBC_SUPPORTED_ROM_BYTES / ROM_BANK_BYTES) in
  mkRomLayout (rom_decoded_bytes (rom_size header)) actual_bytes
    (if exact_declared then default actual_bytes (rom_decoded_bytes (rom_size header)) else actual_bytes)
    (if exact_declared then default at_least_two_banks (rom_bank_count (rom_size header)) else at_least_two_banks)
    (if exact_declared then DeclaredExact else PermissiveRoundedActual).

Definition rom_layout (d : CartridgeDevice) : CartridgeRomLayout :=
  match d with
  | DeviceMbc5 cartridge => Mbc5.rom_layout cartridge
  | _ => loaded_image (header d) (vec_len (rom_bytes d))
  end.

Definition advance_huc3_rtc_seconds (seconds : Z) (d : CartridgeDevice) : outcome CartridgeDevice :=
  match d with
  | DeviceHuc3 cartridge => outcome_map DeviceHuc3 (Huc3.advance_rtc_seconds seconds cartridge)
  | _ => Done d
  end.

Definition rumble_on (d : CartridgeDevice) : bool :=
  match d with DeviceMbc5 cartridge => Mbc5.rumble_on cartridge | _ => false end.
Definition has_rumble (d : CartridgeDevice) : bool :=
  match d with DeviceMbc5 cartridge => Mbc5.has_rumble cartridge | _ => false end.
Definition rtc_access_ready_at (d : CartridgeDevice) : option Z :=
  match d with DeviceMbc3 cartridge => Mbc3.rtc_access_ready_at cartridge | _ => None end.
Definition camera_capture_ready_at (d : CartridgeDevice) : option Z :=
  match d with DevicePocketCamera cartridge => capture_ready_at cartridge | _ => None end.
Definition camera_registers_selected (d : CartridgeDevice) : bool :=
  match d with DevicePocketCamera cartridge => registers_selected cartridge | _ => false end.
Definition has_pocket_camera (d : CartridgeDevice) : bool :=
  match d with DevicePocketCamera _ => true | _ => false end.
Definition has_mbc7_accelerometer (d : CartridgeDevice) : bool :=
  match d with DeviceMbc7 _ => true | _ => false end.

Inductive Mbc7AccelerometerError := UnsupportedAccelerometer.

Definition set_mbc7_accelerometer_input (input : Mbc7AccelerometerInput) (d : CartridgeDevice)
    : CartridgeDevice * option Mbc7AccelerometerError :=
  match d with
  | DeviceMbc7 cartridge => (DeviceMbc7 (set_accelerometer_input input cartridge), None)
  | _ => (d, Some UnsupportedAccelerometer)
  end.
Definition set_pocket_camera_frame (frame : PocketCameraFrame) (d : CartridgeDevice)
    : outcome (CartridgeDevice * option PocketCameraFrameError) :=
  match d with
  | DevicePocketCamera cartridge => outcome_map (result_map DevicePocketCamera) (set_host_frame frame cartridge)
  | _ => Done (d, Some UnsupportedCartridge)
  end.
Definition clear_pocket_camera_frame (d : CartridgeDevice) : CartridgeDevice * option PocketCameraFrameError :=
  match d with
  | DevicePocketCamera cartridge => (DevicePocketCamera (clear_host_frame cartridge), None)
  | _ => (d, Some UnsupportedCartridge)
  end.

(** ** The device as a mapper *)

Definition taken_up (s : PersistentCartState) : PersistentCartState :=
  match s with SavedHuc3 _ => Huc3.taken_up s | _ => s end.

#[export] Instance device_mapper : Mapper CartridgeDevice := {|
  m_board := query (fun C _ => m_board);
  m_ram := query (fun C _ => m_ram);
  m_settle := fun t => update (r := fun C => C) (fun C f c => f c) (fun C _ => m_settle t);
  m_taken_up := taken_up;
  m_read_rom := read_rom;
  m_mapped_rom_window := mapped_rom_window;
  m_write_rom := write_rom;
  m_read_ram := read_ram;
  m_read_ram_timed := read_ram_timed;
  m_write_ram := write_ram;
  m_write_ram_timed := write_ram_timed;
  m_describe_external_access := describe_external_access;
  m_advance_rtc_seconds := advance_rtc_seconds;
  m_advance_mbc3_rtc_clock_ticks := advance_mbc3_rtc_clock_ticks;
  m_persistence_metadata := persistence_metadata;
  m_persistent_state := persistent_state;
  m_restore_persistent_state := restore_persistent_state
|}.

(** ** Embeddings of mappers *)

Section Embedding.
Context {C D : Type} `{MapperLaws C} {device : Mapper D} (inj : C -> D) (okD : D -> Prop).

Record embeds : Prop := {
  emb_board : forall c, m_board (inj c) = m_board c;
  emb_ram : forall c, m_ram (inj c) = m_ram c;
  emb_settle : forall t c, m_settle t (inj c) = inj (m_settle t c);
  emb_taken_up : forall c : C, m_taken_up (C := D) (m_persistent_state c) = m_taken_up (C := C) (m_persistent_state c);
  emb_read_rom : forall a c, m_read_rom a (inj c) = m_read_rom a c;
  emb_window : forall a c, m_mapped_rom_window a (inj c) = m_mapped_rom_window a c;
  emb_write_rom : forall a v c, m_write_rom a v (inj c) = outcome_map inj (m_write_rom a v c);
  emb_read_ram : forall a c, m_read_ram a (inj c) = m_read_ram a c;
  emb_read_ram_timed : forall a t c, m_read_ram_timed a t (inj c) = read_map inj (m_read_ram_timed a t c);
  emb_write_ram : forall a v c, m_write_ram a v (inj c) = outcome_map inj (m_write_ram a v c);
  emb_write_ram_timed : forall a v t c, m_write_ram_timed a v t (inj c) = outcome_map inj (m_write_ram_timed a v t c);
  emb_describe : forall a c, m_describe_external_access a (inj c) = m_describe_external_access a c;
  emb_rtc_seconds : forall n c, m_advance_rtc_seconds n (inj c) = outcome_map inj (m_advance_rtc_seconds n c);
  emb_rtc_ticks : forall n c, m_advance_mbc3_rtc_clock_ticks n (inj c) = outcome_map inj (m_advance_mbc3_rtc_clock_ticks n c);
  emb_persistent_state : forall c, m_persistent_state (inj c) = m_persistent_state c;
  emb_restore : forall s c, m_restore_persistent_state s (inj c) = result_map inj (m_restore_persistent_state s c);
  emb_ok : forall c, okD (inj c) <-> m_ok c;
  emb_same_kind : forall (d : D) (c : C), okD d -> board_kind (m_board d) = board_kind (m_board c) ->
    exists c0, d = inj c0 /\ m_ok c0
}.

Context (He : embeds).

Lemma embed_run_op op c : run_op op (inj c) = outcome_map inj (run_op op c).
Proof.
  destruct He, op; simpl; auto.
  - rewrite emb_read_ram_timed0. by destruct (m_read_ram_timed address t_cycle c).
  - by rewrite emb_restore0.
Qed.

Lemma embed_step op c : m_ok c -> valid_op op ->
  exists d, run_op op (inj c) = Done d /\ okD d /\ m_board d = m_board (inj c).
Proof.
  intros Hok Hop. destruct (m_step_ok op c Hok Hop) as (c' & Hrun & Hok' & Hb).
  exists (inj c'). rewrite embed_run_op, Hrun. split_and!; [done | by apply (emb_ok He)|]. by rewrite !(emb_board He).
Qed.

Lemma embed_contract c : m_ok c -> contract okD (inj c).
Proof.
  intros Hok. destruct (m_ok_contract c Hok) as [Hrom Hext Hst Hbank (Hty & Hback & Hrefuse)]. constructor.
  - intros a Ha. unfold shows_flash. rewrite (emb_read_rom He), (emb_window He), (emb_board He). by apply Hrom.
  - intros a Ha. rewrite (emb_read_ram He), (emb_describe He).
    destruct (Hext a Ha) as (v & Hv & Hu & Htimed & Hfall & Hign). exists v. split_and!; [done | done | | done |].
    + intros t Ht. destruct (Htimed t Ht) as (w & c' & Hw & ? & Hr). exists w, (inj c').
      rewrite (emb_settle He), (emb_read_ram He), (emb_read_ram_timed He), Hr. done.
    + intros Hi w. by rewrite (emb_write_ram He), Hign.
  - destruct Hst as (cell & stored & Hst). exists cell, stored. intros a w Ha Hw. rewrite !(emb_describe He).
    intros Hr Hwr. destruct (Hst a w Ha Hw Hr Hwr) as (c' & Hc' & Hback'). exists (inj c').
    rewrite (emb_write_ram He), Hc'. split; [done|]. intros a' Ha'. rewrite !(emb_read_ram He). by apply Hback'.
  - intros a w Ha Hw. destruct (Hbank a w Ha Hw) as (c' & Hc' & Hr). exists (inj c').
    by rewrite (emb_write_rom He), Hc', !(emb_ram He).
  - unfold persistence_contract. rewrite (emb_persistent_state He). split_and!; [done | |].
    + intros d Hd Hb. rewrite (emb_board He) in Hb. destruct (emb_same_kind He d c Hd) as (c0 & -> & Hok0); [by rewrite Hb|].
      rewrite (emb_board He) in Hb. destruct (Hback c0 Hok0 Hb) as (c1 & Hc1 & Hp & Hr). exists (inj c1).
      rewrite (emb_restore He), Hc1, (emb_persistent_state He), Hp, (emb_taken_up He), (emb_board He), !(emb_ram He). done.
    + intros s d e. rewrite (emb_restore He). destruct (m_restore_persistent_state s c) as [c1 r] eqn:E.
      unfold result_map. simpl. intros [= <- ->]. by rewrite (Hrefuse s c1 e E).
Qed.
End Embedding.

(** ** The laws of the device *)

Definition device_ok (d : CartridgeDevice) : Prop :=
  match d with
  | DeviceNoMbc c => m_ok c
  | DeviceMmm01 c => m_ok c
  | DeviceM161 c => m_ok c
  | DeviceHuc1 c => m_ok c
  | DeviceHuc3 c => m_ok c
  | DeviceMbc1 c => m_ok c
  | DeviceMbc2 c => m_ok c
  | DeviceMbc3 c => m_ok c
  | DeviceMbc5 c => m_ok c
  | DeviceMbc6 c => m_ok c
  | DeviceMbc7 c => m_ok c
  | DevicePocketCamera c => m_ok c
  end.

(** Every constructor is an embedding: the dispatch computes, a mapper saves
    only its own kind of state, and the board names the constructor. *)
Ltac solve_embeds persistent :=
  constructor; try reflexivity;
  lazymatch goal with
  | |- forall c, m_taken_up _ = _ => intros c; cbn; unfold persistent, taken_up; repeat case_match; simplify_eq; reflexivity
  | |- _ => intros d c; destruct d; cbn; intros; try discriminate; eexists; (split; [reflexivity | done])
  end.

Lemma embeds_no_mbc : embeds DeviceNoMbc device_ok.
Proof. solve_embeds NoMbc.persistent_state. Qed.
Lemma embeds_mmm01 : embeds DeviceMmm01 device_ok.
Proof. solve_embeds Mmm01.persistent_state. Qed.
Lemma embeds_m161 : embeds DeviceM161 device_ok.
Proof. solve_embeds M161.persistent_state. Qed.
Lemma embeds_huc1 : embeds DeviceHuc1 device_ok.
Proof. solve_embeds Huc1.persistent_state. Qed.
Lemma embeds_huc3 : embeds DeviceHuc3 device_ok.
Proof. solve_embeds Huc3.persistent_state. Qed.
Lemma embeds_mbc1 : embeds DeviceMbc1 device_ok.
Proof. solve_embeds Mbc1.persistent_state. Qed.
Lemma embeds_mbc2 : embeds DeviceMbc2 device_ok.
Proof. solve_embeds Mbc2.persistent_state. Qed.
Lemma embeds_mbc3 : embeds DeviceMbc3 device_ok.
Proof. solve_embeds Mbc3.persistent_state. Qed.
Lemma embeds_mbc5 : embeds DeviceMbc5 device_ok.
Proof. solve_embeds Mbc5.persistent_state. Qed.
Lemma embeds_mbc6 : embeds DeviceMbc6 device_ok.
Proof. solve_embeds Mbc6.persistent_state. Qed.
Lemma embeds_mbc7 : embeds DeviceMbc7 device_ok.
Proof. solve_embeds Mbc7.persistent_state. Qed.
Lemma embeds_pocket_camera : embeds DevicePocketCamera device_ok.
Proof. solve_embeds PocketCamera.persistent_state. Qed.

Lemma device_step_ok op d : device_ok d -> valid_op op ->
  exists d', run_op op d = Done d' /\ device_ok d' /\ m_board d' = m_board d.
Proof.
  intros Hok Hop. destruct d.
  - by apply (embed_step _ _ embeds_no_mbc).
  - by apply (embed_step _ _ embeds_mmm01).
  - by apply (embed_step _ _ embeds_m161).
  - by apply (embed_step _ _ embeds_huc1).
  - by apply (embed_step _ _ embeds_huc3).
  - by apply (embed_step _ _ embeds_mbc1).
  - by apply (embed_step _ _ embeds_mbc2).
  - by apply (embed_step _ _ embeds_mbc3).
  - by apply (embed_step _ _ embeds_mbc5).
  - by apply (embed_step _ _ embeds_mbc6).
  - by apply (embed_step _ _ embeds_mbc7).
  - by apply (embed_step _ _ embeds_pocket_camera).
Qed.

Lemma device_ok_contract d : device_ok d -> contract device_ok d.
Proof.
  destruct d.
  - apply (embed_contract _ _ embeds_no_mbc).
  - apply (embed_contract _ _ embeds_mmm01).
  - apply (embed_contract _ _ embeds_m161).
  - apply (embed_contract _ _ embeds_huc1).
  - apply (embed_contract _ _ embeds_huc3).
  - apply (embed_contract _ _ embeds_mbc1).
  - apply (embed_contract _ _ embeds_mbc2).
  - apply (embed_contract _ _ embeds_mbc3).
  - apply (embed_contract _ _ embeds_mbc5).
  - apply (embed_contract _ _ embeds_mbc6).
  - apply (embed_contract _ _ embeds_mbc7).
  - apply (embed_contract _ _ embeds_pocket_camera).
Qed.

#[export] Instance device_laws : MapperLaws CartridgeDevice := {|
  m_ok := device_ok;
  m_step_ok := device_step_ok;
  m_ok_contract := device_ok_contract
|}.
