(* ===== verification/CartridgeSlot.v ===== *)
(** * The cartridge slot ([crates/gb-core/src/cartridge/slot.rs])

    Loading: header, classification, the validator and constructor of the
    chosen family, or the reason of the refusal.  The operations of a slot with
    or without a cartridge.  Whatever bytes are loaded, loading returns, and
    what it accepts keeps the cartridge contract for good. *)

From Stdlib Require Import ZArith Lia Bool String.
From stdpp Require Import base list decidable option.
From S2P Require Import Prelude.
From S2P Require Import Model.
From S2P Require Import CartridgeHeader.
From S2P Require Import Cartridge.
From S2P Require Import NoMbc.
From S2P Require Import Mbc1.
From S2P Require Import Mbc2.
From S2P Require Import Mbc5.
From S2P Require Import Mbc3.
From S2P Require Import M161.
From S2P Require Import Huc1.
From S2P Require Import Huc3.
From S2P Require Import Mbc6.
From S2P Require Import Mbc7.
From S2P Require Import PocketCamera.
From S2P Require Import Mmm01.
From S2P Require Import Classify.
From S2P Require Import CartridgeDevice.

Local Open Scope string_scope.
Local Open Scope Z_scope.

(** ** The fingerprint of an image ([save_state.rs]) *)

Record SaveStateByteFingerprint := mkFingerprint { fingerprint_len : Z; fnv1a64 : Z }.

Definition FNV_OFFSET_BASIS : Z := 0xcbf29ce484222325.
Definition FNV_PRIME : Z := 0x00000100000001b3.

Definition from_bytes (bytes : list Z) : SaveStateByteFingerprint :=
  mkFingerprint (vec_len bytes)
    (foldl (fun hash byte => (Z.lxor hash byte * FNV_PRIME) mod 2 ^ 64) FNV_OFFSET_BASIS bytes).

(** ** The slot *)

Record CartridgeSlot := mkSlot {
  device : option CartridgeDevice;
  rom_fingerprint_field : option SaveStateByteFingerprint
}.

#[export] Instance upd_device : Update device := fun v s => let '(mkSlot _ f) := s in mkSlot v f.

Inductive CartridgeSlotState :=
| SlotEmpty | SlotNoMbc | SlotMmm01 | SlotM161 | SlotHuc1 | SlotHuc3 | SlotMbc1
| SlotMbc2 | SlotMbc3 | SlotMbc5 | SlotMbc6 | SlotMbc7 | SlotPocketCamera.

#[export] Instance CartridgeSlotState_eq_dec : EqDecision CartridgeSlotState.
Proof. solve_decision. Defined.

Definition slot_empty : CartridgeSlot := mkSlot None None.
Definition with_loaded_device (d : CartridgeDevice) (fingerprint : SaveStateByteFingerprint) : CartridgeSlot :=
  mkSlot (Some d) (Some fingerprint).

Definition state (s : CartridgeSlot) : CartridgeSlotState :=
  match device s with
  | None => SlotEmpty
  | Some (DeviceNoMbc _) => SlotNoMbc
  | Some (DeviceMmm01 _) => SlotMmm01
  | Some (DeviceM161 _) => SlotM161
  | Some (DeviceHuc1 _) => SlotHuc1
  | Some (DeviceHuc3 _) => SlotHuc3
  | Some (DeviceMbc1 _) => SlotMbc1
  | Some (DeviceMbc2 _) => SlotMbc2
  | Some (DeviceMbc3 _) => SlotMbc3
  | Some (DeviceMbc5 _) => SlotMbc5
  | Some (DeviceMbc6 _) => SlotMbc6
  | Some (DeviceMbc7 _) => SlotMbc7
  | Some (DevicePocketCamera _) => SlotPocketCamera
  end.

(** ** Loading *)

(** The arms of the [match] on the supported family. *)
Definition load_family (family : SupportedCartridgeFamily) (header : CartridgeHeader) (rom_bytes : list Z)
    : V CartridgeDevice :=
  match family with
  | FamilyNoMbc => c ← load_no_mbc header rom_bytes; mret (DeviceNoMbc c)
  | FamilyMmm01 => c ← load_mmm01 header rom_bytes; mret (DeviceMmm01 c)
  | FamilyM161 => c ← load_m161 header rom_bytes; mret (DeviceM161 c)
  | FamilyHuc1 => c ← load_huc1 header rom_bytes; mret (DeviceHuc1 c)
  | FamilyHuc3 => c ← load_huc3 header rom_bytes; mret (DeviceHuc3 c)
  | FamilyMbc1 => c ← load_mbc1 header rom_bytes; mret (DeviceMbc1 c)
  | FamilyMbc2 => c ← load_mbc2 header rom_bytes; mret (DeviceMbc2 c)
  | FamilyMbc3 => c ← load_mbc3 header rom_bytes; mret (DeviceMbc3 c)
  | FamilyMbc5 => c ← load_mbc5 header rom_bytes; mret (DeviceMbc5 c)
  | FamilyMbc6 => c ← load_mbc6 header rom_bytes; mret (DeviceMbc6 c)
  | FamilyMbc7 => c ← load_mbc7 header rom_bytes; mret (DeviceMbc7 c)
  | FamilyPocketCamera => c ← load_pocket_camera header rom_bytes; mret (DevicePocketCamera c)
  end.

Definition load (rom_bytes : list Z) (compatibility : CompatibilityPolicy)
    : outcome ((CartridgeSlot * list CartridgeDiagnostic) + CartridgeLoadError) :=
  parsed ← parse_for_load rom_bytes;
  match parsed with
  | inr error => Done (inr (HeaderParse error))
  | inl header =>
      let rom_fingerprint := from_bytes rom_bytes in
      classification ← classify_loaded_cartridge header rom_bytes compatibility;
      match selection classification with
      | Supported family =>
          loaded ← load_family family header rom_bytes compatibility classification [];
          Done match (loaded : (CartridgeDevice * list CartridgeDiagnostic) + CartridgeLoadError) with
               | inl (d, diagnostics) => inl (with_loaded_device d rom_fingerprint, diagnostics)
               | inr error => inr error
               end
      | Unsupported category =>
          Done (inr (Rejected classification (execution_mode compatibility) (unsupported_load_reason category) []))
      end
  end.

(** ** Operations *)

Definition is_empty (s : CartridgeSlot) : bool := match device s with None => true | Some _ => false end.
Definition slot_header (s : CartridgeSlot) : option CartridgeHeader := CartridgeDevice.header <$> device s.
Definition slot_classification (s : CartridgeSlot) : option CartridgeClassification :=
  CartridgeDevice.classification <$> device s.
Definition effective_rom_layout (s : CartridgeSlot) : option CartridgeRomLayout :=
  CartridgeDevice.rom_layout <$> device s.
Definition rom_fingerprint (s : CartridgeSlot) : option SaveStateByteFingerprint :=
  match rom_fingerprint_field s with
  | Some fingerprint => Some fingerprint
  | None => (fun d => from_bytes (CartridgeDevice.rom_bytes d)) <$> device s
  end.

(** A query, with its answer for an empty slot; an update of the device. *)
Definition ask {A : Type} (empty : A) (f : CartridgeDevice -> A) (s : CartridgeSlot) : A :=
  match device s with None => empty | Some d => f d end.
Definition on_device (f : CartridgeDevice -> outcome CartridgeDevice) (s : CartridgeSlot) : outcome CartridgeSlot :=
  match device s with None => Done s | Some d => d' ← f d; Done (s <| device := Some d' |>) end.

Definition slot_read_rom (address : Z) : CartridgeSlot -> outcome Z :=
  ask (Done RAM_ABSENT_READ_VALUE) (CartridgeDevice.read_rom address).
Definition slot_mapped_rom_window (address : Z) : CartridgeSlot -> option CartridgeMappedRomWindow :=
  ask None (CartridgeDevice.mapped_rom_window address).
Definition slot_write_rom (address value : Z) : CartridgeSlot -> outcome CartridgeSlot :=
  on_device (CartridgeDevice.write_rom address value).
Definition slot_read_ram (address : Z) : CartridgeSlot -> outcome Z :=
  ask (Done RAM_ABSENT_READ_VALUE) (CartridgeDevice.read_ram address).
Definition no_device (address : Z) : CartridgeExternalAccessInfo :=
  access_new address NoDevice Absent (FallbackValue RAM_ABSENT_READ_VALUE) Ignored.
Definition slot_describe_external_access (address : Z) : CartridgeSlot -> CartridgeExternalAccessInfo :=
  ask (no_device address) (CartridgeDevice.describe_external_access address).
Definition slot_rtc_access_ready_at : CartridgeSlot -> option Z := ask None CartridgeDevice.rtc_access_ready_at.
Definition slot_read_ram_timed (address t_cycle : Z) (s : CartridgeSlot) : outcome (Z * CartridgeSlot) :=
  match device s with
  | None => Done (RAM_ABSENT_READ_VALUE, s)
  | Some d => r ← CartridgeDevice.read_ram_timed address t_cycle d; Done (fst r, s <| device := Some (snd r) |>)
  end.
Definition slot_write_ram (address value : Z) : CartridgeSlot -> outcome CartridgeSlot :=
  on_device (CartridgeDevice.write_ram address value).
Definition slot_write_ram_timed (address value t_cycle : Z) : CartridgeSlot -> outcome CartridgeSlot :=
  on_device (CartridgeDevice.write_ram_timed address value t_cycle).
Definition slot_advance_rtc_seconds (seconds : Z) : CartridgeSlot -> outcome CartridgeSlot :=
  on_device (CartridgeDevice.advance_rtc_seconds seconds).
Definition slot_advance_mbc3_rtc_clock_ticks (ticks : Z) : CartridgeSlot -> outcome CartridgeSlot :=
  on_device (CartridgeDevice.advance_mbc3_rtc_clock_ticks ticks).
Definition slot_advance_huc3_rtc_seconds (seconds : Z) : CartridgeSlot -> outcome CartridgeSlot :=
  on_device (CartridgeDevice.advance_huc3_rtc_seconds seconds).

Record CartridgeSnapshot := mkSnapshot {
  snapshot_state : CartridgeSlotState;
  snapshot_rtc_access_ready_at : option Z;
  snapshot_camera_capture_ready_at : option Z;
  snapshot_camera_registers_selected : bool
}.
Definition snapshot (s : CartridgeSlot) : CartridgeSnapshot :=
  mkSnapshot (state s) (slot_rtc_access_ready_at s) (ask None CartridgeDevice.camera_capture_ready_at s)
    (ask false CartridgeDevice.camera_registers_selected s).

Definition slot_persistence_metadata : CartridgeSlot -> CartridgePersistenceMetadata :=
  ask (mkMetadata false false ProfileNone) CartridgeDevice.persistence_metadata.
Definition slot_has_rumble : CartridgeSlot -> bool := ask false CartridgeDevice.has_rumble.
Definition slot_rumble_on : CartridgeSlot -> bool := ask false CartridgeDevice.rumble_on.
Definition slot_has_pocket_camera : CartridgeSlot -> bool := ask false CartridgeDevice.has_pocket_camera.
Definition slot_has_mbc7_accelerometer : CartridgeSlot -> bool := ask false CartridgeDevice.has_mbc7_accelerometer.
Definition slot_persistent_state : CartridgeSlot -> PersistentCartState := ask SavedNone CartridgeDevice.persistent_state.

Definition slot_restore_persistent_state (saved : PersistentCartState) (s : CartridgeSlot)
    : CartridgeSlot * option CartridgePersistentStateError :=
  match device s with
  | Some d => let '(d', e) := CartridgeDevice.restore_persistent_state saved d in (s <| device := Some d' |>, e)
  | None =>
      match saved with
      | SavedNone => (s, None)
      | _ => (s, Some (KindMismatch "None" (kind_name saved)))
      end
  end.

Definition slot_set_mbc7_accelerometer_input (input : Mbc7AccelerometerInput) (s : CartridgeSlot)
    : CartridgeSlot * option Mbc7AccelerometerError :=
  match device s with
  | Some d => let '(d', e) := set_mbc7_accelerometer_input input d in (s <| device := Some d' |>, e)
  | None => (s, Some UnsupportedAccelerometer)
  end.
Definition slot_set_pocket_camera_frame (frame : PocketCameraFrame) (s : CartridgeSlot)
    : outcome (CartridgeSlot * option PocketCameraFrameError) :=
  match device s with
  | Some d => r ← set_pocket_camera_frame frame d; Done (s <| device := Some (fst r) |>, snd r)
  | None => Done (s, Some UnsupportedCartridge)
  end.
Definition slot_clear_pocket_camera_frame (s : CartridgeSlot) : CartridgeSlot * option PocketCameraFrameError :=
  match device s with
  | Some d => let '(d', e) := clear_pocket_camera_frame d in (s <| device := Some d' |>, e)
  | None => (s, Some UnsupportedCartridge)
  end.

Example fingerprint_of_name : from_bytes (ascii_bytes "gb-cycle") = mkFingerprint 8 0x9a41fbc672672fdb.
Proof. vm_compute. reflexivity. Qed.

(** ** Loading returns *)

(** A validation that returns under a classification. *)
Definition total_for {A} (cls : CartridgeClassification) (m : V A) : Prop :=
  forall compat ds, exists r, m compat cls ds = Done r.

Section Total.
Context (cls : CartridgeClassification).

Lemma total_ret {A} (a : A) : total_for cls (mret a).
Proof. by eexists. Qed.
Lemma total_bind {A B} (m : V A) (k : A -> V B) :
  total_for cls m -> (forall a, total_for cls (k a)) -> total_for cls (m ≫= k).
Proof.
  intros Hm Hk compat ds. unfold mbind, V_bind. destruct (Hm compat ds) as [[[a ds']|e] ->]; [apply Hk | by eexists].
Qed.
Lemma total_classification {B} (k : CartridgeClassification -> V B) :
  total_for cls (k cls) -> total_for cls (v_classification ≫= k).
Proof. intros Hk compat ds. apply Hk. Qed.
Lemma total_compatibility : total_for cls v_compatibility.
Proof. by eexists. Qed.
Lemma total_push d : total_for cls (v_push d).
Proof. by eexists. Qed.
Lemma total_reject {A} r : total_for cls (reject (A := A) r).
Proof. by eexists. Qed.
Lemma total_reject_if g r : total_for cls (reject_if g r).
Proof. destruct g; [apply total_reject | apply total_ret]. Qed.
Lemma total_check_degradable r : total_for cls (check_degradable r).
Proof. intros compat ds. unfold check_degradable, record_degradable_issue. destruct (validation_policy compat); by eexists. Qed.
Lemma total_degrade_if g r : total_for cls (degrade_if g r).
Proof. destruct g; [apply total_check_degradable | apply total_ret]. Qed.
Lemma total_exact_size h n : total_for cls (declared_exact_size h n).
Proof.
  unfold declared_exact_size. destruct (rom_decoded_bytes _); [|apply total_reject].
  apply total_bind; [apply total_reject_if | intros; apply total_ret].
Qed.
End Total.

Create HintDb total discriminated.
#[export] Hint Resolve total_ret total_compatibility total_push total_reject total_reject_if total_check_degradable
  total_degrade_if total_exact_size : total.

(** Walks a validator: binds, the classification, its case distinctions. *)
Ltac total :=
  repeat (cbv beta zeta; lazymatch goal with
  | |- forall _, total_for _ _ => intros ?
  | |- total_for _ (v_classification ≫= _) => apply total_classification
  | |- total_for _ (_ ≫= _) => apply total_bind
  | |- total_for _ (match ?x with _ => _ end) => destruct x
  | |- _ => solve [auto with total]
  end).

Lemma load_no_mbc_total header rom cls : raw_type cls ∈ [0x00; 0x08; 0x09] -> total_for cls (load_no_mbc header rom).
Proof.
  intros Hr%list_elem_of_In. unfold load_no_mbc, validate_no_mbc.
  apply total_bind; [|total]. apply total_classification.
  destruct Hr as [<-|[<-|[<-|[]]]]; cbv beta iota; total.
Qed.

Lemma load_mbc5_total header rom cls : 0x19 <= raw_type cls <= 0x1E -> total_for cls (load_mbc5 header rom).
Proof.
  intros Hr. unfold load_mbc5, validate_mbc5, validate_mbc5_rom_layout.
  assert (Hc : In (raw_type cls) [0x19; 0x1A; 0x1B; 0x1C; 0x1D; 0x1E]) by (simpl; lia).
  apply total_bind; [|total]. apply total_classification. cbv beta. apply total_bind; [total|]. intros layout. cbv beta.
  destruct Hc as [<-|[<-|[<-|[<-|[<-|[<-|[]]]]]]]; cbv beta iota; total.
Qed.

Lemma load_family_total family header rom cls :
  classification_fits header cls -> selection cls = Supported family -> total_for cls (load_family family header rom).
Proof.
  intros Hfit Hsel. destruct family; simpl; (apply total_bind; [|intros; apply total_ret]).
  - by apply load_no_mbc_total, (fits_no_mbc _ _ Hfit).
  - unfold load_mmm01, validate_mmm01. total.
  - unfold load_m161, validate_m161. total.
  - unfold load_huc1, validate_huc1. total.
  - unfold load_huc3, validate_huc3. total.
  - unfold load_mbc1, validate_mbc1. total.
  - unfold load_mbc2, validate_mbc2. total.
  - unfold load_mbc3, validate_mbc3. total.
  - by apply load_mbc5_total, (fits_mbc5 _ _ Hfit).
  - unfold load_mbc6, validate_mbc6. total.
  - unfold load_mbc7, validate_mbc7. total.
  - unfold load_pocket_camera, validate_pocket_camera. total.
Qed.

(** ** What is loaded is sound *)

Lemma accepts_device {C} (m : V C) (inj : C -> CartridgeDevice) compat cls ds d :
  accepts (c ← m; mret (inj c)) compat cls ds d -> exists c, accepts m compat cls ds c /\ d = inj c.
Proof. intros (c & ds' & Hc & ->%accepts_ret)%accepts_bind. eauto. Qed.

(** The device holds the image, which only an MBC5 board pads. *)
Lemma load_family_ok family header rom compat cls ds d :
  header_sized header -> accepts (load_family family header rom) compat cls ds d ->
  device_ok d /\ exists pad, CartridgeDevice.rom_bytes d = (rom ++ pad)%list /\ (family <> FamilyMbc5 -> pad = []) /\
    Forall (eq 0xFF) pad.
Proof.
  intros Hsized Hacc. destruct family; simpl in Hacc; apply accepts_device in Hacc as (c & Hacc & ->).
  all: cbn [device_ok CartridgeDevice.rom_bytes query].
  9: { destruct (load_mbc5_ok _ _ _ _ _ _ Hsized Hacc) as (Hok & Hrom & _). split; [done|].
       unfold pad_rom in Hrom. destruct (_ <? _); simpl; rewrite Hrom.
       - eexists. split; [done|]. split; [done | by apply Forall_replicate].
       - exists []. by rewrite app_nil_r. }
  all: assert (Hok : m_ok c /\ board_rom (m_board c) = rom); [|destruct Hok as [? ->]; split; [done|]; exists []; by rewrite app_nil_r].
  - by apply (load_no_mbc_ok _ _ _ _ _ _ Hacc).
  - by apply (load_mmm01_ok _ _ _ _ _ _ Hsized Hacc).
  - by destruct (load_m161_ok _ _ _ _ _ _ Hacc) as (? & ? & _).
  - by apply (load_huc1_ok _ _ _ _ _ _ Hsized Hacc).
  - by apply (load_huc3_ok _ _ _ _ _ _ Hsized Hacc).
  - by apply (load_mbc1_ok _ _ _ _ _ _ Hsized Hacc).
  - by apply (load_mbc2_ok _ _ _ _ _ _ Hsized Hacc).
  - by destruct (load_mbc3_ok _ _ _ _ _ _ Hsized Hacc) as (? & ? & _).
  - by destruct (load_mbc6_ok _ _ _ _ _ _ Hacc) as (? & ? & _).
  - by apply (load_mbc7_ok _ _ _ _ _ _ Hsized Hacc).
  - by apply (load_camera_ok _ _ _ _ _ _ Hsized Hacc).
Qed.

(** ** Runs of slot operations *)

Inductive slot_op :=
| SlotCart (op : cart_op)
| SlotHuc3Seconds (seconds : Z)
| SlotAccelerometer (input : Mbc7AccelerometerInput)
| SlotFrame (frame : PocketCameraFrame)
| SlotClearFrame.

Definition valid_slot_op (op : slot_op) : Prop :=
  match op with
  | SlotCart op => valid_op op
  | SlotHuc3Seconds n => 0 <= n < 2 ^ 63
  | SlotAccelerometer input => u16 (x_raw input) /\ u16 (y_raw input)
  | SlotFrame frame => 0 <= width frame /\ 0 <= height frame /\ bytes (grayscale_pixels frame)
  | SlotClearFrame => True
  end.

Definition slot_cart_op (op : cart_op) (s : CartridgeSlot) : outcome CartridgeSlot :=
  match op with
  | OpWriteRom a v => slot_write_rom a v s
  | OpWriteRam a v => slot_write_ram a v s
  | OpWriteRamTimed a v t => slot_write_ram_timed a v t s
  | OpReadRamTimed a t => r ← slot_read_ram_timed a t s; Done (snd r)
  | OpRtcSeconds n => slot_advance_rtc_seconds n s
  | OpRtcClockTicks n => slot_advance_mbc3_rtc_clock_ticks n s
  | OpRestore saved => Done (fst (slot_restore_persistent_state saved s))
  end.

Definition slot_step (op : slot_op) (s : CartridgeSlot) : outcome CartridgeSlot :=
  match op with
  | SlotCart op => slot_cart_op op s
  | SlotHuc3Seconds n => slot_advance_huc3_rtc_seconds n s
  | SlotAccelerometer input => Done (fst (slot_set_mbc7_accelerometer_input input s))
  | SlotFrame frame => r ← slot_set_pocket_camera_frame frame s; Done (fst r)
  | SlotClearFrame => Done (fst (slot_clear_pocket_camera_frame s))
  end.

Fixpoint run_slot (ops : list slot_op) (s : CartridgeSlot) : outcome CartridgeSlot :=
  match ops with
  | [] => Done s
  | op :: rest => s' ← slot_step op s; run_slot rest s'
  end.

(** A slot runs an operation of the cartridge as the device does. *)
Lemma slot_cart_op_device op s d : device s = Some d ->
  slot_cart_op op s = outcome_map (fun d' => s <| device := Some d' |>) (run_op op d).
Proof.
  destruct s as [? f]. simpl. intros ->. destruct op; simpl; unfold slot_write_rom, slot_write_ram, slot_write_ram_timed,
    slot_read_ram_timed, slot_advance_rtc_seconds, slot_advance_mbc3_rtc_clock_ticks, on_device,
    slot_restore_persistent_state; cbn [device].
  1-3, 5-6: (set (m := _ d); by destruct m).
  - by destruct (CartridgeDevice.read_ram_timed address t_cycle d) as [[]|].
  - by destruct (CartridgeDevice.restore_persistent_state saved d).
Qed.

Lemma host_step_ok op d : device_ok d -> valid_slot_op op -> (forall c, op <> SlotCart c) ->
  forall f, exists d', slot_step op (mkSlot (Some d) f) = Done (mkSlot (Some d') f) /\ device_ok d' /\ m_board d' = m_board d.
Proof.
  intros Hok Hop Hc f. destruct op as [c|n|input|frame|]; [by destruct (Hc c)|..]; destruct d;
    try (by eexists); simpl in Hok, Hop.
  - destruct (advance_rtc_seconds_ok n cartridge Hok Hop) as (c' & Hr & Hok' & Hb & _).
    unfold slot_step, slot_advance_huc3_rtc_seconds, on_device. simpl. rewrite Hr. by eexists (DeviceHuc3 c').
  - eexists. split; [reflexivity|]. split; [|by destruct cartridge]. destruct Hok. by destruct cartridge.
  - destruct Hop as (Hw & Hh & Hb). destruct (set_host_frame_ok frame cartridge Hok Hw Hh Hb) as (c' & e & Hr & ? & ? & _).
    unfold slot_step, slot_set_pocket_camera_frame. simpl. rewrite Hr. by exists (DevicePocketCamera c').
  - eexists. split; [reflexivity|]. apply (frame_step cartridge placeholder_frame Hok placeholder_ok).
Qed.

Lemma slot_step_ok op d f : device_ok d -> valid_slot_op op ->
  exists d', slot_step op (mkSlot (Some d) f) = Done (mkSlot (Some d') f) /\ device_ok d' /\ m_board d' = m_board d.
Proof.
  intros Hok Hop. destruct op as [op| | | |]; [|by apply host_step_ok..].
  destruct (device_step_ok op d Hok Hop) as (d1 & Hr & ? & ?). exists d1. split; [|done].
  unfold slot_step. rewrite (slot_cart_op_device _ _ d) by done. by rewrite Hr.
Qed.

Lemma run_slot_ok ops d f : device_ok d -> Forall valid_slot_op ops ->
  exists d', run_slot ops (mkSlot (Some d) f) = Done (mkSlot (Some d') f) /\ device_ok d' /\ m_board d' = m_board d.
Proof.
  intros Hok Hops. revert d Hok. induction Hops as [|op ops Hop _ IH]; intros d Hok; [by exists d|].
  destruct (slot_step_ok op d f Hok Hop) as (d1 & Hr & Hok1 & Hb1). cbn [run_slot]. rewrite Hr. cbn.
  destruct (IH d1 Hok1) as (d2 & ? & ? & ?). exists d2. split_and!; [done | done | by etrans].
Qed.

(** A load that accepts, in parts. *)
Lemma load_inv rom compat s ds : load rom compat = Done (inl (s, ds)) ->
  exists h cls family d, parse_for_load rom = Done (inl h) /\
    classify_loaded_cartridge h rom compat = Done cls /\ selection cls = Supported family /\
    accepts (load_family family h rom) compat cls [] d /\ s = with_loaded_device d (from_bytes rom).
Proof.
  unfold load. destruct (parse_for_load rom) as [[h|e]|] eqn:Hp; cbn [mbind outcome_bind]; try done.
  destruct (classify_loaded_cartridge h rom compat) as [cls|] eqn:Hc; cbn [mbind outcome_bind]; [|done].
  destruct (selection cls) as [family|category] eqn:Hs; [|done].
  destruct (load_family family h rom compat cls []) as [[[d ds']|e]|] eqn:Hl; cbn [mbind outcome_bind]; try done.
  intros [= <- <-]. exists h, cls, family, d. split_and!; try done. by exists ds'.
Qed.

Lemma load_total rom compat : exists r, load rom compat = Done r.
Proof.
  unfold load. destruct (parse_for_load_total rom) as [[h|e] ->]; cbn [mbind outcome_bind]; [|by eexists].
  destruct (finishes_done _ _ (classify_loaded_fits h rom compat)) as (cls & -> & Hfit). cbn [mbind outcome_bind].
  destruct (selection cls) as [family|category] eqn:Hsel; [|by eexists].
  destruct (load_family_total family h rom cls Hfit Hsel compat []) as [l ->]. by eexists.
Qed.

Lemma board_rom_bytes d : CartridgeDevice.rom_bytes d = board_rom (m_board d).
Proof. by destruct d. Qed.

(** ** Properties *)

(** C11. Loading never fails and what it accepts is sound: for any image and
    any policy [load] returns, with a slot or with a refusal; an accepted slot
    runs any sequence of bus accesses, clock ticks, restores, camera frames and
    accelerometer inputs without a panic, and stays on the same board, with the
    loaded image in its ROM, satisfying the cartridge contract. *)
Theorem loaded_cartridge_sound rom compat :
  exists r, load rom compat = Done r /\
  match r with
  | inr _ => True
  | inl (s, _) => forall ops, Forall valid_slot_op ops -> exists d0 d f,
      s = mkSlot (Some d0) f /\ run_slot ops s = Done (mkSlot (Some d) f) /\
      contract device_ok d /\ m_board d = m_board d0 /\
      exists pad, CartridgeDevice.rom_bytes d = (rom ++ pad)%list
  end.
Proof.
  destruct (load_total rom compat) as [r Hr].
  exists r. split; [done|]. destruct r as [[s ds]|]; [|done]. intros ops Hops.
  destruct (load_inv _ _ _ _ Hr) as (h & cls & family & d0 & Hp & _ & _ & Hacc & ->).
  destruct (load_family_ok _ _ _ _ _ _ _ (parse_for_load_sized _ _ Hp) Hacc) as (Hok & pad & Hrom & _).
  destruct (run_slot_ok ops d0 (Some (from_bytes rom)) Hok Hops) as (d & Hrun & Hok' & Hb).
  exists d0, d, (Some (from_bytes rom)). split_and!; [done | done | by apply device_ok_contract | done |].
  exists pad. by rewrite <-Hrom, !board_rom_bytes, Hb.
Qed.

(** A 64 KiB MBC1 image titled "W", and its second bank. *)
Definition witness_image : list Z :=
  (replicate (Z.to_nat 0x134) 0 ++ [0x57] ++ replicate 18 0 ++ [0x01; 0x01; 0x00] ++ replicate (Z.to_nat (0x4000 - 0x14A)) 0 ++
   replicate (Z.to_nat 0x4000) 0x11 ++ replicate (Z.to_nat 0x4000) 0x22 ++ replicate (Z.to_nat 0x4000) 0x33)%list.

Definition witness_ops : list slot_op := [SlotCart (OpWriteRom 0x2000 0x02); SlotClearFrame].
(** What the sample run checks: the family, and bank 2 after the switch. *)
Definition sample_run (r : (CartridgeSlot * list CartridgeDiagnostic) + CartridgeLoadError) : bool :=
  match r with
  | inl (s, _) =>
      bool_decide (state s = SlotMbc1) &&
      match run_slot witness_ops s with
      | Done (mkSlot (Some d) _) => match CartridgeDevice.read_rom 0x4000 d with Done v => v =? 0x22 | Panic _ => false end
      | _ => false
      end
  | inr _ => false
  end.

Lemma sample_run_inv r : sample_run r = true -> exists s ds, r = inl (s, ds) /\ state s = SlotMbc1 /\
  forall d f, run_slot witness_ops s = Done (mkSlot (Some d) f) -> CartridgeDevice.read_rom 0x4000 d = Done 0x22.
Proof.
  destruct r as [[s ds]|]; [|done]. unfold sample_run. intros [Hs H]%andb_true_iff. apply bool_decide_eq_true in Hs.
  exists s, ds. split_and!; [done | done |]. intros d f Hrun. rewrite Hrun in H.
  destruct (CartridgeDevice.read_rom 0x4000 d); [|done]. by apply Z.eqb_eq in H as ->.
Qed.

Lemma sample_run_true : match load witness_image strict with Done r => sample_run r | Panic _ => false end = true.
Proof. unfold load. generalize (from_bytes witness_image). intros fingerprint. vm_compute. reflexivity. Qed.

Lemma loaded_cartridge_sound_witness : exists s ds d f,
  load witness_image strict = Done (inl (s, ds)) /\ state s = SlotMbc1 /\
  run_slot witness_ops s = Done (mkSlot (Some d) f) /\
  contract device_ok d /\ CartridgeDevice.read_rom 0x4000 d = Done 0x22.
Proof.
  pose proof sample_run_true as Hrun. destruct (loaded_cartridge_sound witness_image strict) as (r & Hr & Hs).
  rewrite Hr in Hrun. apply sample_run_inv in Hrun as (s & ds & -> & Hst & Hread).
  destruct (Hs witness_ops) as (d0 & d & f & Hs0 & Hrun & Hc & _ & _).
  { repeat constructor; discriminate. }
  exists s, ds, d, f. split; [exact Hr|]. split; [exact Hst|]. split; [exact Hrun|]. split; [exact Hc | exact (Hread d f Hrun)].
Defined.
