(* ===== verification/CartridgeSaveState.v ===== *)
(** * Cartridge save states
    ([crates/gb-core/src/cartridge.rs], [cartridge/slot.rs])

    What a save state keeps of each mapper, capturing and restoring it, the
    validation of its shape against the inserted cartridge, and the size of its
    payload.  The parts of a mapper that a save state leaves out are fixed by
    its board, so a state captured from a cartridge restores into any later
    state of it as it was. *)

From Stdlib Require Import ZArith Lia Bool String.
From stdpp Require Import base list decidable option.
From S2P Require Import Prelude.
From S2P Require Import Model.
From S2P Require Import Mbc3Rtc.
From S2P Require Import CartridgeHeader.
From S2P Require Import Cartridge.
From S2P Require Import NoMbc.
From S2P Require Import Mbc1.
From S2P Require Import Mbc2.
From S2P Require Import Mbc5.
From S2P Require Import Mbc3.
From S2P Require Import M161.
From S2P Require Import Huc1.
From S2P Require Import Huc3.
From S2P Require Import Mbc6.
From S2P Require Import Mbc7.
From S2P Require Import PocketCamera.
From S2P Require Import Mmm01.
From S2P Require Import Classify.
From S2P Require Import CartridgeDevice.
From S2P Require Import CartridgeSlot.

Local Open Scope string_scope.
Local Open Scope Z_scope.

Definition optional_bytes_len (bytes : option (list Z)) : Z := default 0 (vec_len <$> bytes).

(** Two states of one board differ only in what a save state keeps. *)
Ltac same_board c0 c :=
  let H := fresh in intros H; destruct c0, c; injection H; intros; simpl in *; subst; reflexivity.

(** ** The saved part of each mapper *)

Module NoMbcSave.
Record NoMbcCartridgeSaveState := mk {
  ram : option (list Z)
}.

Definition no_mbc_capture (c : NoMbcCartridge) : NoMbcCartridgeSaveState :=
  mk (NoMbc.ram c).
Definition no_mbc_restore (s : NoMbcCartridgeSaveState) (c : NoMbcCartridge) : NoMbcCartridge := {|
  NoMbc.rom := NoMbc.rom c; NoMbc.ram := ram s; NoMbc.has_battery := NoMbc.has_battery c;
  NoMbc.header := NoMbc.header c; NoMbc.classification := NoMbc.classification c
|}.
Definition no_mbc_payload_bytes (s : NoMbcCartridgeSaveState) : Z := optional_bytes_len (ram s).

Lemma no_mbc_capture_restore s c : no_mbc_capture (no_mbc_restore s c) = s.
Proof. by destruct s. Qed.
Lemma no_mbc_restore_capture c0 c : NoMbc.board c0 = NoMbc.board c -> no_mbc_restore (no_mbc_capture c0) c = c0.
Proof. same_board c0 c. Qed.
End NoMbcSave.

Module Mmm01Save.
Record Mmm01CartridgeSaveState := mk {
  ram : option (list Z);
  mapped : bool;
  ram_enabled : bool;
  ram_bank_mask : Z;
  rom_bank_low : Z;
  rom_bank_mid : Z;
  ram_bank_low : Z;
  ram_bank_high : Z;
  rom_bank_high : Z;
  mode_write_disable : bool;
  banking_mode : Z;
  rom_bank_mask : Z;
  multiplex_enabled : bool
}.

Definition mmm01_capture (c : Mmm01Cartridge) : Mmm01CartridgeSaveState :=
  mk (Mmm01.ram c) (Mmm01.mapped c) (Mmm01.ram_enabled c) (Mmm01.ram_bank_mask c) (Mmm01.rom_bank_low c)
  (Mmm01.rom_bank_mid c) (Mmm01.ram_bank_low c) (Mmm01.ram_bank_high c) (Mmm01.rom_bank_high c)
  (Mmm01.mode_write_disable c) (Mmm01.banking_mode c) (Mmm01.rom_bank_mask c) (Mmm01.multiplex_enabled c).
Definition mmm01_restore (s : Mmm01CartridgeSaveState) (c : Mmm01Cartridge) : Mmm01Cartridge := {|
  Mmm01.rom := Mmm01.rom c; Mmm01.ram := ram s; Mmm01.has_battery := Mmm01.has_battery c;
  Mmm01.header := Mmm01.header c; Mmm01.classification := Mmm01.classification c; Mmm01.mapped := mapped s;
  Mmm01.ram_enabled := ram_enabled s; Mmm01.ram_bank_mask := ram_bank_mask s;
  Mmm01.rom_bank_low := rom_bank_low s; Mmm01.rom_bank_mid := rom_bank_mid s;
  Mmm01.ram_bank_low := ram_bank_low s; Mmm01.ram_bank_high := ram_bank_high s;
  Mmm01.rom_bank_high := rom_bank_high s; Mmm01.mode_write_disable := mode_write_disable s;
  Mmm01.banking_mode := banking_mode s; Mmm01.rom_bank_mask := rom_bank_mask s;
  Mmm01.multiplex_enabled := multiplex_enabled s
|}.
Definition mmm01_payload_bytes (s : Mmm01CartridgeSaveState) : Z := optional_bytes_len (ram s).

Lemma mmm01_capture_restore s c : mmm01_capture (mmm01_restore s c) = s.
Proof. by destruct s. Qed.
Lemma mmm01_restore_capture c0 c : Mmm01.board c0 = Mmm01.board c -> mmm01_restore (mmm01_capture c0) c = c0.
Proof. same_board c0 c. Qed.
End Mmm01Save.

Module M161Save.
Record M161CartridgeSaveState := mk {
  selected_bank : Z;
  bank_switch_locked : bool;
  last_bank_write : option Z
}.

Definition m161_capture (c : M161Cartridge) : M161CartridgeSaveState :=
  mk (M161.selected_bank c) (M161.bank_switch_locked c) (M161.last_bank_write c).
Definition m161_restore (s : M161CartridgeSaveState) (c : M161Cartridge) : M161Cartridge := {|
  M161.rom := M161.rom c; M161.header := M161.header c; M161.classification := M161.classification c;
  M161.selected_bank := selected_bank s; M161.bank_switch_locked := bank_switch_locked s;
  M161.last_bank_write := last_bank_write s
|}.
Definition m161_payload_bytes (_s : M161CartridgeSaveState) : Z := 0.

Lemma m161_capture_restore s c : m161_capture (m161_restore s c) = s.
Proof. by destruct s. Qed.
Lemma m161_restore_capture c0 c : M161.board c0 = M161.board c -> m161_restore (m161_capture c0) c = c0.
Proof. same_board c0 c. Qed.
End M161Save.

Module Huc1Save.
Record Huc1CartridgeSaveState := mk {
  ram : option (list Z);
  io_mode : Huc1IoMode;
  rom_bank : Z;
  ram_bank : Z;
  ir_emitter_on : bool;
  ir_light_detected : bool
}.

Definition huc1_capture (c : Huc1Cartridge) : Huc1CartridgeSaveState :=
  mk (Huc1.ram c) (Huc1.io_mode c) (Huc1.rom_bank c) (Huc1.ram_bank c) (Huc1.ir_emitter_on c)
  (Huc1.ir_light_detected c).
Definition huc1_restore (s : Huc1CartridgeSaveState) (c : Huc1Cartridge) : Huc1Cartridge := {|
  Huc1.rom := Huc1.rom c; Huc1.ram := ram s; Huc1.has_battery := Huc1.has_battery c;
  Huc1.header := Huc1.header c; Huc1.classification := Huc1.classification c; Huc1.io_mode := io_mode s;
  Huc1.rom_bank := rom_bank s; Huc1.ram_bank := ram_bank s; Huc1.ir_emitter_on := ir_emitter_on s;
  Huc1.ir_light_detected := ir_light_detected s
|}.
Definition huc1_payload_bytes (s : Huc1CartridgeSaveState) : Z := optional_bytes_len (ram s).

Lemma huc1_capture_restore s c : huc1_capture (huc1_restore s c) = s.
Proof. by destruct s. Qed.
Lemma huc1_restore_capture c0 c : Huc1.board c0 = Huc1.board c -> huc1_restore (huc1_capture c0) c = c0.
Proof. same_board c0 c. Qed.
End Huc1Save.

Module Huc3Save.
Record Huc3CartridgeSaveState := mk {
  ram : list Z;
  select_mode : Huc3SelectMode;
  rom_bank : Z;
  ram_bank : Z;
  access_address : Z;
  mailbox : Huc3Mailbox;
  mcu_ram : list Z;
  rtc : Huc3RtcState;
  ir_emitter_on : bool;
  ir_light_detected : bool;
  last_control_write : option Z;
  last_unsupported_command : option Z;
  last_unsupported_argument : option Z
}.

Definition huc3_capture (c : Huc3Cartridge) : Huc3CartridgeSaveState :=
  mk (Huc3.ram c) (Huc3.select_mode c) (Huc3.rom_bank c) (Huc3.ram_bank c) (Huc3.access_address c)
  (Huc3.mailbox c) (Huc3.mcu_ram c) (Huc3.rtc c) (Huc3.ir_emitter_on c) (Huc3.ir_light_detected c)
  (Huc3.last_control_write c) (Huc3.last_unsupported_command c) (Huc3.last_unsupported_argument c).
Definition huc3_restore (s : Huc3CartridgeSaveState) (c : Huc3Cartridge) : Huc3Cartridge := {|
  Huc3.rom := Huc3.rom c; Huc3.ram := ram s; Huc3.has_battery := Huc3.has_battery c;
  Huc3.header := Huc3.header c; Huc3.classification := Huc3.classification c;
  Huc3.select_mode := select_mode s; Huc3.rom_bank := rom_bank s; Huc3.ram_bank := ram_bank s;
  Huc3.access_address := access_address s; Huc3.mailbox := mailbox s; Huc3.mcu_ram := mcu_ram s;
  Huc3.rtc := rtc s; Huc3.ir_emitter_on := ir_emitter_on s; Huc3.ir_light_detected := ir_light_detected s;
  Huc3.last_control_write := last_control_write s; Huc3.last_unsupported_command := last_unsupported_command s;
  Huc3.last_unsupported_argument := last_unsupported_argument s
|}.
Definition huc3_payload_bytes (s : Huc3CartridgeSaveState) : Z := vec_len (ram s).

Lemma huc3_capture_restore s c : huc3_capture (huc3_restore s c) = s.
Proof. by destruct s. Qed.
Lemma huc3_restore_capture c0 c : Huc3.board c0 = Huc3.board c -> huc3_restore (huc3_capture c0) c = c0.
Proof. same_board c0 c. Qed.
End Huc3Save.

Module Mbc1Save.
Record Mbc1CartridgeSaveState := mk {
  ram : option (list Z);
  ram_enabled : bool;
  rom_bank_low5 : Z;
  secondary_bank : Z;
  banking_mode : Z
}.

Definition mbc1_capture (c : Mbc1Cartridge) : Mbc1CartridgeSaveState :=
  mk (Mbc1.ram c) (Mbc1.ram_enabled c) (Mbc1.rom_bank_low5 c) (Mbc1.secondary_bank c) (Mbc1.banking_mode c).
Definition mbc1_restore (s : Mbc1CartridgeSaveState) (c : Mbc1Cartridge) : Mbc1Cartridge := {|
  Mbc1.rom := Mbc1.rom c; Mbc1.ram := ram s; Mbc1.has_battery := Mbc1.has_battery c;
  Mbc1.header := Mbc1.header c; Mbc1.classification := Mbc1.classification c; Mbc1.variant := Mbc1.variant c;
  Mbc1.wiring := Mbc1.wiring c; Mbc1.ram_enabled := ram_enabled s; Mbc1.rom_bank_low5 := rom_bank_low5 s;
  Mbc1.secondary_bank := secondary_bank s; Mbc1.banking_mode := banking_mode s
|}.
Definition mbc1_payload_bytes (s : Mbc1CartridgeSaveState) : Z := optional_bytes_len (ram s).

Lemma mbc1_capture_restore s c : mbc1_capture (mbc1_restore s c) = s.
Proof. by destruct s. Qed.
Lemma mbc1_restore_capture c0 c : Mbc1.board c0 = Mbc1.board c -> mbc1_restore (mbc1_capture c0) c = c0.
Proof. same_board c0 c. Qed.
End Mbc1Save.

Module Mbc2Save.
Record Mbc2CartridgeSaveState := mk {
  ram_nibbles : list Z;
  ram_enabled : bool;
  rom_bank_low4 : Z
}.

Definition mbc2_capture (c : Mbc2Cartridge) : Mbc2CartridgeSaveState :=
  mk (Mbc2.ram_nibbles c) (Mbc2.ram_enabled c) (Mbc2.rom_bank_low4 c).
Definition mbc2_restore (s : Mbc2CartridgeSaveState) (c : Mbc2Cartridge) : Mbc2Cartridge := {|
  Mbc2.rom := Mbc2.rom c; Mbc2.ram_nibbles := ram_nibbles s; Mbc2.has_battery := Mbc2.has_battery c;
  Mbc2.header := Mbc2.header c; Mbc2.classification := Mbc2.classification c;
  Mbc2.ram_enabled := ram_enabled s; Mbc2.rom_bank_low4 := rom_bank_low4 s
|}.
Definition mbc2_payload_bytes (_s : Mbc2CartridgeSaveState) : Z := 0.

Lemma mbc2_capture_restore s c : mbc2_capture (mbc2_restore s c) = s.
Proof. by destruct s. Qed.
Lemma mbc2_restore_capture c0 c : Mbc2.board c0 = Mbc2.board c -> mbc2_restore (mbc2_capture c0) c = c0.
Proof. same_board c0 c. Qed.
End Mbc2Save.

Module Mbc3Save.
Record Mbc3CartridgeSaveState := mk {
  ram : option (list Z);
  ram_rtc_enabled : bool;
  rom_bank : Z;
  ram_or_rtc_select : Mbc3RamRtcSelect;
  rtc_live : Mbc3RtcState;
  rtc_latched : Mbc3RtcState;
  rtc_latched_valid : bool;
  rtc_latch_armed : bool;
  rtc_subsecond_ticks : Z;
  rtc_access_ready_at : option Z
}.

Definition mbc3_capture (c : Mbc3Cartridge) : Mbc3CartridgeSaveState :=
  mk (Mbc3.ram c) (Mbc3.ram_rtc_enabled c) (Mbc3.rom_bank c) (Mbc3.ram_or_rtc_select c) (Mbc3.rtc_live c)
  (Mbc3.rtc_latched c) (Mbc3.rtc_latched_valid c) (Mbc3.rtc_latch_armed c) (Mbc3.rtc_subsecond_ticks c)
  (Mbc3.rtc_access_ready_at c).
Definition mbc3_restore (s : Mbc3CartridgeSaveState) (c : Mbc3Cartridge) : Mbc3Cartridge := {|
  Mbc3.rom := Mbc3.rom c; Mbc3.ram := ram s; Mbc3.has_battery := Mbc3.has_battery c;
  Mbc3.has_rtc := Mbc3.has_rtc c; Mbc3.header := Mbc3.header c; Mbc3.classification := Mbc3.classification c;
  Mbc3.variant := Mbc3.variant c; Mbc3.ram_rtc_enabled := ram_rtc_enabled s; Mbc3.rom_bank := rom_bank s;
  Mbc3.ram_or_rtc_select := ram_or_rtc_select s; Mbc3.rtc_live := rtc_live s;
  Mbc3.rtc_latched := rtc_latched s; Mbc3.rtc_latched_valid := rtc_latched_valid s;
  Mbc3.rtc_latch_armed := rtc_latch_armed s; Mbc3.rtc_subsecond_ticks := rtc_subsecond_ticks s;
  Mbc3.rtc_access_ready_at := rtc_access_ready_at s
|}.
Definition mbc3_payload_bytes (s : Mbc3CartridgeSaveState) : Z := optional_bytes_len (ram s).

Lemma mbc3_capture_restore s c : mbc3_capture (mbc3_restore s c) = s.
Proof. by destruct s. Qed.
Lemma mbc3_restore_capture c0 c : Mbc3.board c0 = Mbc3.board c -> mbc3_restore (mbc3_capture c0) c = c0.
Proof. same_board c0 c. Qed.
End Mbc3Save.

Module Mbc5Save.
Record Mbc5CartridgeSaveState := mk {
  ram : option (list Z);
  ram_enabled : bool;
  rom_bank_low8 : Z;
  rom_bank_high1 : Z;
  ram_bank_raw : Z;
  rumble_on_flag : bool
}.

Definition mbc5_capture (c : Mbc5Cartridge) : Mbc5CartridgeSaveState :=
  mk (Mbc5.ram c) (Mbc5.ram_enabled c) (Mbc5.rom_bank_low8 c) (Mbc5.rom_bank_high1 c) (Mbc5.ram_bank_raw c)
  (Mbc5.rumble_on_flag c).
Definition mbc5_restore (s : Mbc5CartridgeSaveState) (c : Mbc5Cartridge) : Mbc5Cartridge := {|
  Mbc5.rom := Mbc5.rom c; Mbc5.ram := ram s; Mbc5.has_battery := Mbc5.has_battery c;
  Mbc5.has_rumble := Mbc5.has_rumble c; Mbc5.header := Mbc5.header c;
  Mbc5.classification := Mbc5.classification c; Mbc5.variant := Mbc5.variant c;
  Mbc5.rom_layout := Mbc5.rom_layout c; Mbc5.ram_enabled := ram_enabled s;
  Mbc5.rom_bank_low8 := rom_bank_low8 s; Mbc5.rom_bank_high1 := rom_bank_high1 s;
  Mbc5.ram_bank_raw := ram_bank_raw s; Mbc5.rumble_on_flag := rumble_on_flag s
|}.
Definition mbc5_payload_bytes (s : Mbc5CartridgeSaveState) : Z := optional_bytes_len (ram s).

Lemma mbc5_capture_restore s c : mbc5_capture (mbc5_restore s c) = s.
Proof. by destruct s. Qed.
Lemma mbc5_restore_capture c0 c : Mbc5.board c0 = Mbc5.board c -> mbc5_restore (mbc5_capture c0) c = c0.
Proof. same_board c0 c. Qed.
End Mbc5Save.

Module Mbc6Save.
Record Mbc6CartridgeSaveState := mk {
  ram : list Z;
  flash : list Z;
  hidden_region : list Z;
  ram_enabled : bool;
  flash_enabled : bool;
  flash_write_enabled : bool;
  ram_bank_a : Z;
  ram_bank_b : Z;
  rom_flash_bank_a : Z;
  rom_flash_bank_b : Z;
  window_select_a : Mbc6WindowSelect;
  window_select_b : Mbc6WindowSelect;
  sector0_protected : bool;
  flash_mode : Mbc6FlashMode
}.

Definition mbc6_capture (c : Mbc6Cartridge) : Mbc6CartridgeSaveState :=
  mk (Mbc6.ram c) (Mbc6.flash c) (Mbc6.hidden_region c) (Mbc6.ram_enabled c) (Mbc6.flash_enabled c)
  (Mbc6.flash_write_enabled c) (Mbc6.ram_bank_a c) (Mbc6.ram_bank_b c) (Mbc6.rom_flash_bank_a c)
  (Mbc6.rom_flash_bank_b c) (Mbc6.window_select_a c) (Mbc6.window_select_b c) (Mbc6.sector0_protected c)
  (Mbc6.flash_mode c).
Definition mbc6_restore (s : Mbc6CartridgeSaveState) (c : Mbc6Cartridge) : Mbc6Cartridge := {|
  Mbc6.rom := Mbc6.rom c; Mbc6.ram := ram s; Mbc6.flash := flash s; Mbc6.hidden_region := hidden_region s;
  Mbc6.has_battery := Mbc6.has_battery c; Mbc6.header := Mbc6.header c;
  Mbc6.classification := Mbc6.classification c; Mbc6.ram_enabled := ram_enabled s;
  Mbc6.flash_enabled := flash_enabled s; Mbc6.flash_write_enabled := flash_write_enabled s;
  Mbc6.ram_bank_a := ram_bank_a s; Mbc6.ram_bank_b := ram_bank_b s;
  Mbc6.rom_flash_bank_a := rom_flash_bank_a s; Mbc6.rom_flash_bank_b := rom_flash_bank_b s;
  Mbc6.window_select_a := window_select_a s; Mbc6.window_select_b := window_select_b s;
  Mbc6.sector0_protected := sector0_protected s; Mbc6.flash_mode := flash_mode s
|}.
Definition mbc6_payload_bytes (s : Mbc6CartridgeSaveState) : Z :=
  saturating_add64 (saturating_add64 (saturating_add64 (vec_len (ram s)) (vec_len (flash s))) (vec_len (hidden_region s)))
    match flash_mode s with
    | Program st | HiddenProgram st =>
        saturating_add64 (vec_len (buffer st)) (Z.of_nat (length (written st)))
    | _ => 0
    end.

Lemma mbc6_capture_restore s c : mbc6_capture (mbc6_restore s c) = s.
Proof. by destruct s. Qed.
Lemma mbc6_restore_capture c0 c : Mbc6.board c0 = Mbc6.board c -> mbc6_restore (mbc6_capture c0) c = c0.
Proof. same_board c0 c. Qed.
End Mbc6Save.

Module Mbc7Save.
Record Mbc7CartridgeSaveState := mk {
  eeprom : list Z;
  ram_enabled : bool;
  sensor_eeprom_enabled : bool;
  rom_bank : Z;
  accelerometer_input : Mbc7AccelerometerInput;
  accelerometer_latch_armed : bool;
  latched_x : Z;
  latched_y : Z;
  eeprom_pins : Mbc7EepromPins;
  eeprom_command : Mbc7EepromCommand;
  eeprom_write_enabled : bool
}.

Definition mbc7_capture (c : Mbc7Cartridge) : Mbc7CartridgeSaveState :=
  mk (Mbc7.eeprom c) (Mbc7.ram_enabled c) (Mbc7.sensor_eeprom_enabled c) (Mbc7.rom_bank c)
  (Mbc7.accelerometer_input c) (Mbc7.accelerometer_latch_armed c) (Mbc7.latched_x c) (Mbc7.latched_y c)
  (Mbc7.eeprom_pins c) (Mbc7.eeprom_command c) (Mbc7.eeprom_write_enabled c).
Definition mbc7_restore (s : Mbc7CartridgeSaveState) (c : Mbc7Cartridge) : Mbc7Cartridge := {|
  Mbc7.rom := Mbc7.rom c; Mbc7.eeprom := eeprom s; Mbc7.header := Mbc7.header c;
  Mbc7.classification := Mbc7.classification c; Mbc7.ram_enabled := ram_enabled s;
  Mbc7.sensor_eeprom_enabled := sensor_eeprom_enabled s; Mbc7.rom_bank := rom_bank s;
  Mbc7.accelerometer_input := accelerometer_input s;
  Mbc7.accelerometer_latch_armed := accelerometer_latch_armed s; Mbc7.latched_x := latched_x s;
  Mbc7.latched_y := latched_y s; Mbc7.eeprom_pins := eeprom_pins s; Mbc7.eeprom_command := eeprom_command s;
  Mbc7.eeprom_write_enabled := eeprom_write_enabled s
|}.
Definition mbc7_payload_bytes (s : Mbc7CartridgeSaveState) : Z := vec_len (eeprom s).

Lemma mbc7_capture_restore s c : mbc7_capture (mbc7_restore s c) = s.
Proof. by destruct s. Qed.
Lemma mbc7_restore_capture c0 c : Mbc7.board c0 = Mbc7.board c -> mbc7_restore (mbc7_capture c0) c = c0.
Proof. same_board c0 c. Qed.
End Mbc7Save.

Module PocketCameraSave.
Record PocketCameraCartridgeSaveState := mk {
  ram : list Z;
  ram_enabled : bool;
  rom_bank : Z;
  ram_bank_or_register_select : Z;
  registers : list Z;
  host_frame : list Z;
  capture_state : PocketCameraCaptureState
}.

Definition pocket_camera_capture (c : PocketCameraCartridge) : PocketCameraCartridgeSaveState :=
  mk (PocketCamera.ram c) (PocketCamera.ram_enabled c) (PocketCamera.rom_bank c)
  (PocketCamera.ram_bank_or_register_select c) (PocketCamera.registers c) (PocketCamera.host_frame c)
  (PocketCamera.capture_state c).
Definition pocket_camera_restore (s : PocketCameraCartridgeSaveState) (c : PocketCameraCartridge) : PocketCameraCartridge := {|
  PocketCamera.rom := PocketCamera.rom c; PocketCamera.ram := ram s;
  PocketCamera.header := PocketCamera.header c; PocketCamera.classification := PocketCamera.classification c;
  PocketCamera.ram_enabled := ram_enabled s; PocketCamera.rom_bank := rom_bank s;
  PocketCamera.ram_bank_or_register_select := ram_bank_or_register_select s;
  PocketCamera.registers := registers s; PocketCamera.host_frame := host_frame s;
  PocketCamera.capture_state := capture_state s
|}.
Definition pocket_camera_payload_bytes (s : PocketCameraCartridgeSaveState) : Z :=
  saturating_add64 (saturating_add64 (vec_len (ram s)) (vec_len (host_frame s)))
    match capture_state s with
    | CaptureIdle => 0
    | Working _ staged_tiles | Paused _ staged_tiles => vec_len staged_tiles
    end.

Lemma pocket_camera_capture_restore s c : pocket_camera_capture (pocket_camera_restore s c) = s.
Proof. by destruct s. Qed.
Lemma pocket_camera_restore_capture c0 c : PocketCamera.board c0 = PocketCamera.board c -> pocket_camera_restore (pocket_camera_capture c0) c = c0.
Proof. same_board c0 c. Qed.
End PocketCameraSave.

Import NoMbcSave.
Import Mmm01Save.
Import M161Save.
Import Huc1Save.
Import Huc3Save.
Import Mbc1Save.
Import Mbc2Save.
Import Mbc3Save.
Import Mbc5Save.
Import Mbc6Save.
Import Mbc7Save.
Import PocketCameraSave.

(** ** Save states of the slot *)

Inductive CartridgeDeviceSaveState :=
| RuntimeNoMbc (saved : NoMbcCartridgeSaveState)
| RuntimeMmm01 (saved : Mmm01CartridgeSaveState)
| RuntimeM161 (saved : M161CartridgeSaveState)
| RuntimeHuc1 (saved : Huc1CartridgeSaveState)
| RuntimeHuc3 (saved : Huc3CartridgeSaveState)
| RuntimeMbc1 (saved : Mbc1CartridgeSaveState)
| RuntimeMbc2 (saved : Mbc2CartridgeSaveState)
| RuntimeMbc3 (saved : Mbc3CartridgeSaveState)
| RuntimeMbc5 (saved : Mbc5CartridgeSaveState)
| RuntimeMbc6 (saved : Mbc6CartridgeSaveState)
| RuntimeMbc7 (saved : Mbc7CartridgeSaveState)
| RuntimePocketCamera (saved : PocketCameraCartridgeSaveState).

Record CartridgeRuntimeSaveState := mkSaveState { saved_device : option CartridgeDeviceSaveState }.

Inductive CartridgeRuntimeSaveStateError :=
| SlotStateMismatch (expected actual : CartridgeSlotState)
| RamShapeMismatch (field : string) (expected actual : option Z).

Definition device_slot_state (s : CartridgeDeviceSaveState) : CartridgeSlotState :=
  match s with
  | RuntimeNoMbc _ => SlotNoMbc
  | RuntimeMmm01 _ => SlotMmm01
  | RuntimeM161 _ => SlotM161
  | RuntimeHuc1 _ => SlotHuc1
  | RuntimeHuc3 _ => SlotHuc3
  | RuntimeMbc1 _ => SlotMbc1
  | RuntimeMbc2 _ => SlotMbc2
  | RuntimeMbc3 _ => SlotMbc3
  | RuntimeMbc5 _ => SlotMbc5
  | RuntimeMbc6 _ => SlotMbc6
  | RuntimeMbc7 _ => SlotMbc7
  | RuntimePocketCamera _ => SlotPocketCamera
  end.
Definition slot_state (s : CartridgeRuntimeSaveState) : CartridgeSlotState :=
  default SlotEmpty (device_slot_state <$> saved_device s).

Definition device_payload_bytes (s : CartridgeDeviceSaveState) : Z :=
  match s with
  | RuntimeNoMbc saved => no_mbc_payload_bytes saved
  | RuntimeMmm01 saved => mmm01_payload_bytes saved
  | RuntimeM161 saved => m161_payload_bytes saved
  | RuntimeHuc1 saved => huc1_payload_bytes saved
  | RuntimeHuc3 saved => huc3_payload_bytes saved
  | RuntimeMbc1 saved => mbc1_payload_bytes saved
  | RuntimeMbc2 saved => mbc2_payload_bytes saved
  | RuntimeMbc3 saved => mbc3_payload_bytes saved
  | RuntimeMbc5 saved => mbc5_payload_bytes saved
  | RuntimeMbc6 saved => mbc6_payload_bytes saved
  | RuntimeMbc7 saved => mbc7_payload_bytes saved
  | RuntimePocketCamera saved => pocket_camera_payload_bytes saved
  end.
Definition dynamic_payload_bytes (s : CartridgeRuntimeSaveState) : Z :=
  default 0 (device_payload_bytes <$> saved_device s).

(** ** Capture *)

Definition capture_device (d : CartridgeDevice) : CartridgeDeviceSaveState :=
  match d with
  | DeviceNoMbc cartridge => RuntimeNoMbc (no_mbc_capture cartridge)
  | DeviceMmm01 cartridge => RuntimeMmm01 (mmm01_capture cartridge)
  | DeviceM161 cartridge => RuntimeM161 (m161_capture cartridge)
  | DeviceHuc1 cartridge => RuntimeHuc1 (huc1_capture cartridge)
  | DeviceHuc3 cartridge => RuntimeHuc3 (huc3_capture cartridge)
  | DeviceMbc1 cartridge => RuntimeMbc1 (mbc1_capture cartridge)
  | DeviceMbc2 cartridge => RuntimeMbc2 (mbc2_capture cartridge)
  | DeviceMbc3 cartridge => RuntimeMbc3 (mbc3_capture cartridge)
  | DeviceMbc5 cartridge => RuntimeMbc5 (mbc5_capture cartridge)
  | DeviceMbc6 cartridge => RuntimeMbc6 (mbc6_capture cartridge)
  | DeviceMbc7 cartridge => RuntimeMbc7 (mbc7_capture cartridge)
  | DevicePocketCamera cartridge => RuntimePocketCamera (pocket_camera_capture cartridge)
  end.
Definition capture_save_state (s : CartridgeSlot) : CartridgeRuntimeSaveState :=
  mkSaveState (capture_device <$> device s).

(** ** Validation: [None] is [Ok(())] *)

Definition validate_optional_ram_shape (field : string) (expected actual : option (list Z))
    : option CartridgeRuntimeSaveStateError :=
  if bool_decide (vec_len <$> expected = vec_len <$> actual) then None
  else Some (RamShapeMismatch field (vec_len <$> expected) (vec_len <$> actual)).
Definition validate_ram_shape (field : string) (expected actual : list Z) : option CartridgeRuntimeSaveStateError :=
  if vec_len expected =? vec_len actual then None
  else Some (RamShapeMismatch field (Some (vec_len expected)) (Some (vec_len actual))).

(** [validate(..)?; rest]. *)
Definition and_then (first rest : option CartridgeRuntimeSaveStateError) : option CartridgeRuntimeSaveStateError :=
  match first with Some error => Some error | None => rest end.

Definition validate_mbc6_program_vec_shape (field : string) (actual : Z) : option CartridgeRuntimeSaveStateError :=
  if actual =? MBC6_FLASH_PROGRAM_BLOCK_BYTES then None
  else Some (RamShapeMismatch field (Some MBC6_FLASH_PROGRAM_BLOCK_BYTES) (Some actual)).
Definition validate_mbc6_program_state_shape (st : Mbc6ProgramState) : option CartridgeRuntimeSaveStateError :=
  and_then (validate_mbc6_program_vec_shape "MBC6 program buffer" (vec_len (buffer st)))
    (validate_mbc6_program_vec_shape "MBC6 program written bitmap" (Z.of_nat (length (written st)))).
Definition validate_mbc6_flash_mode_shape (mode : Mbc6FlashMode) : option CartridgeRuntimeSaveStateError :=
  match mode with
  | Program st | HiddenProgram st => validate_mbc6_program_state_shape st
  | _ => None
  end.

Definition validate_save_state (saved_state : CartridgeRuntimeSaveState) (s : CartridgeSlot)
    : outcome (option CartridgeRuntimeSaveStateError) :=
  let expected := state s in
  let actual := slot_state saved_state in
  if negb (bool_decide (expected = actual)) then Done (Some (SlotStateMismatch expected actual))
  else
    match device s, saved_device saved_state with
    | None, None => Done None
    | Some (DeviceNoMbc current), Some (RuntimeNoMbc saved) =>
        Done (validate_optional_ram_shape "NoMBC RAM" (NoMbc.ram current) (NoMbcSave.ram saved))
    | Some (DeviceMmm01 current), Some (RuntimeMmm01 saved) =>
        Done (validate_optional_ram_shape "MMM01 RAM" (Mmm01.ram current) (Mmm01Save.ram saved))
    | Some (DeviceM161 _), Some (RuntimeM161 _) => Done None
    | Some (DeviceHuc1 current), Some (RuntimeHuc1 saved) =>
        Done (validate_optional_ram_shape "HuC-1 RAM" (Huc1.ram current) (Huc1Save.ram saved))
    | Some (DeviceHuc3 current), Some (RuntimeHuc3 saved) =>
        Done (validate_ram_shape "HuC-3 RAM" (Huc3.ram current) (Huc3Save.ram saved))
    | Some (DeviceMbc1 current), Some (RuntimeMbc1 saved) =>
        Done (validate_optional_ram_shape "MBC1 RAM" (Mbc1.ram current) (Mbc1Save.ram saved))
    | Some (DeviceMbc2 _), Some (RuntimeMbc2 _) => Done None
    | Some (DeviceMbc3 current), Some (RuntimeMbc3 saved) =>
        Done (validate_optional_ram_shape "MBC3 RAM" (Mbc3.ram current) (Mbc3Save.ram saved))
    | Some (DeviceMbc5 current), Some (RuntimeMbc5 saved) =>
        Done (validate_optional_ram_shape "MBC5 RAM" (Mbc5.ram current) (Mbc5Save.ram saved))
    | Some (DeviceMbc6 current), Some (RuntimeMbc6 saved) =>
        Done (and_then (validate_ram_shape "MBC6 RAM" (Mbc6.ram current) (Mbc6Save.ram saved))
             (and_then (validate_ram_shape "MBC6 flash" (Mbc6.flash current) (Mbc6Save.flash saved))
             (and_then (validate_ram_shape "MBC6 hidden flash" (Mbc6.hidden_region current) (Mbc6Save.hidden_region saved))
                (validate_mbc6_flash_mode_shape (Mbc6Save.flash_mode saved)))))
    | Some (DeviceMbc7 current), Some (RuntimeMbc7 saved) =>
        Done (validate_ram_shape "MBC7 EEPROM" (Mbc7.eeprom current) (Mbc7Save.eeprom saved))
    | Some (DevicePocketCamera current), Some (RuntimePocketCamera saved) =>
        Done (and_then (validate_ram_shape "Pocket Camera RAM" (PocketCamera.ram current) (PocketCameraSave.ram saved))
                (validate_ram_shape "Pocket Camera host frame" (PocketCamera.host_frame current)
                   (PocketCameraSave.host_frame saved)))
    | _, _ => Panic "slot state precheck should cover cartridge variant mismatches"
    end.

(** ** Restoring *)

(** The match of [restore_save_state], after its assertion. *)
Definition restore_device (saved_state : CartridgeRuntimeSaveState) (s : CartridgeSlot) : outcome CartridgeSlot :=
  match device s, saved_device saved_state with
  | None, None => Done s
  | Some (DeviceNoMbc cartridge), Some (RuntimeNoMbc saved) =>
      Done (s <| device := Some (DeviceNoMbc (no_mbc_restore saved cartridge)) |>)
  | Some (DeviceMmm01 cartridge), Some (RuntimeMmm01 saved) =>
      Done (s <| device := Some (DeviceMmm01 (mmm01_restore saved cartridge)) |>)
  | Some (DeviceM161 cartridge), Some (RuntimeM161 saved) =>
      Done (s <| device := Some (DeviceM161 (m161_restore saved cartridge)) |>)
  | Some (DeviceHuc1 cartridge), Some (RuntimeHuc1 saved) =>
      Done (s <| device := Some (DeviceHuc1 (huc1_restore saved cartridge)) |>)
  | Some (DeviceHuc3 cartridge), Some (RuntimeHuc3 saved) =>
      Done (s <| device := Some (DeviceHuc3 (huc3_restore saved cartridge)) |>)
  | Some (DeviceMbc1 cartridge), Some (RuntimeMbc1 saved) =>
      Done (s <| device := Some (DeviceMbc1 (mbc1_restore saved cartridge)) |>)
  | Some (DeviceMbc2 cartridge), Some (RuntimeMbc2 saved) =>
      Done (s <| device := Some (DeviceMbc2 (mbc2_restore saved cartridge)) |>)
  | Some (DeviceMbc3 cartridge), Some (RuntimeMbc3 saved) =>
      Done (s <| device := Some (DeviceMbc3 (mbc3_restore saved cartridge)) |>)
  | Some (DeviceMbc5 cartridge), Some (RuntimeMbc5 saved) =>
      Done (s <| device := Some (DeviceMbc5 (mbc5_restore saved cartridge)) |>)
  | Some (DeviceMbc6 cartridge), Some (RuntimeMbc6 saved) =>
      Done (s <| device := Some (DeviceMbc6 (mbc6_restore saved cartridge)) |>)
  | Some (DeviceMbc7 cartridge), Some (RuntimeMbc7 saved) =>
      Done (s <| device := Some (DeviceMbc7 (mbc7_restore saved cartridge)) |>)
  | Some (DevicePocketCamera cartridge), Some (RuntimePocketCamera saved) =>
      Done (s <| device := Some (DevicePocketCamera (pocket_camera_restore saved cartridge)) |>)
  | _, _ => Panic "validated cartridge save-state should match loaded cartridge"
  end.

(** [debug_assert!(self.validate_save_state(state).is_ok())] first. *)
Definition restore_save_state (saved_state : CartridgeRuntimeSaveState) (s : CartridgeSlot) : outcome CartridgeSlot :=
  validated ← validate_save_state saved_state s;
  match validated with
  | Some _ => Panic "assertion failed: self.validate_save_state(state).is_ok()"
  | None => restore_device saved_state s
  end.

(** ** Round trip *)

Lemma validated_restore saved_state s :
  validate_save_state saved_state s = Done None -> restore_save_state saved_state s = restore_device saved_state s.
Proof. intros H. unfold restore_save_state. by rewrite H. Qed.

Lemma capture_restore saved_state s s' :
  restore_device saved_state s = Done s' -> capture_save_state s' = saved_state.
Proof.
  unfold restore_device, capture_save_state. destruct saved_state as [saved], s as [d f]. simpl.
  destruct d as [[]|], saved as [[]|]; intros [= <-]; simpl; do 2 f_equal;
    by rewrite ?no_mbc_capture_restore, ?mmm01_capture_restore, ?m161_capture_restore, ?huc1_capture_restore,
      ?huc3_capture_restore, ?mbc1_capture_restore, ?mbc2_capture_restore, ?mbc3_capture_restore,
      ?mbc5_capture_restore, ?mbc6_capture_restore, ?mbc7_capture_restore, ?pocket_camera_capture_restore.
Qed.

(** Two devices on one board are the same mapper. *)
Lemma restore_capture d0 d f : m_board d0 = m_board d ->
  restore_device (capture_save_state (mkSlot (Some d0) f)) (mkSlot (Some d) f) = Done (mkSlot (Some d0) f).
Proof.
  intros Hb. assert (Hk : board_kind (m_board d0) = board_kind (m_board d)) by by rewrite Hb.
  destruct d0, d; simpl in Hk; try discriminate; cbn in Hb; unfold restore_device; simpl.
  - by rewrite no_mbc_restore_capture.
  - by rewrite mmm01_restore_capture.
  - by rewrite m161_restore_capture.
  - by rewrite huc1_restore_capture.
  - by rewrite huc3_restore_capture.
  - by rewrite mbc1_restore_capture.
  - by rewrite mbc2_restore_capture.
  - by rewrite mbc3_restore_capture.
  - by rewrite mbc5_restore_capture.
  - by rewrite mbc6_restore_capture.
  - by rewrite mbc7_restore_capture.
  - by rewrite pocket_camera_restore_capture.
Qed.

Lemma same_shape field (a b : list Z) : vec_len a = vec_len b -> validate_ram_shape field a b = None.
Proof. intros H. unfold validate_ram_shape. by rewrite H, Z.eqb_refl. Qed.
Lemma same_optional_shape field (a b : option (list Z)) :
  vec_len <$> a = vec_len <$> b -> validate_optional_ram_shape field a b = None.
Proof. intros H. unfold validate_optional_ram_shape. by rewrite bool_decide_eq_true_2. Qed.

Lemma program_shape target st : program_ok target st -> validate_mbc6_program_state_shape st = None.
Proof.
  intros [_ [Hb _] Hw]. unfold validate_mbc6_program_state_shape, validate_mbc6_program_vec_shape.
  by rewrite Hb, Hw, !Z.eqb_refl.
Qed.
Lemma flash_mode_shape m : mode_ok m -> validate_mbc6_flash_mode_shape m = None.
Proof. destruct m; simpl; try done; apply program_shape. Qed.

(** The state of one sound device has the shape another one on its board
    expects. *)
Lemma captured_shape d0 d f : device_ok d0 -> device_ok d -> m_board d0 = m_board d ->
  validate_save_state (capture_save_state (mkSlot (Some d0) f)) (mkSlot (Some d) f) = Done None.
Proof.
  intros H0 H1 Hb. assert (Hk : board_kind (m_board d0) = board_kind (m_board d)) by by rewrite Hb.
  assert (Hram : board_ram_len (m_board d) = board_ram_len (m_board d0)) by by rewrite Hb.
  destruct d0, d; simpl in Hk; try discriminate; cbn in Hram; unfold validate_save_state; simpl.
  all: try (by rewrite same_optional_shape). all: try done.
  - rewrite same_shape; [done|]. by injection Hram.
  - simpl in H0, H1. destruct H0 as [_ [? _] [? _] [? _] Hm], H1 as [_ [? _] [? _] [? _] _].
    rewrite !same_shape by congruence. by rewrite flash_mode_shape.
  - simpl in H0, H1. destruct H0 as [_ [? _] _ _ _], H1 as [_ [? _] _ _ _]. by rewrite same_shape by congruence.
  - simpl in H0, H1. destruct H0 as [_ [? _] _ [? _] _], H1 as [_ [? _] _ [? _] _]. by rewrite !same_shape by congruence.
Qed.

(** Errors about shapes only. *)
Definition only_shapes (r : option CartridgeRuntimeSaveStateError) : Prop :=
  forall e a, r <> Some (SlotStateMismatch e a).

Lemma only_shapes_None : only_shapes None.
Proof. done. Qed.
Lemma only_shapes_if (b : bool) field e a : only_shapes (if b then None else Some (RamShapeMismatch field e a)).
Proof. by destruct b. Qed.
Lemma only_shapes_and_then r1 r2 : only_shapes r1 -> only_shapes r2 -> only_shapes (and_then r1 r2).
Proof. by destruct r1. Qed.
Lemma only_shapes_flash_mode m : only_shapes (validate_mbc6_flash_mode_shape m).
Proof. destruct m; try apply only_shapes_None; apply only_shapes_and_then; apply only_shapes_if. Qed.
Create HintDb shapes discriminated.
#[export] Hint Resolve only_shapes_None only_shapes_if only_shapes_and_then only_shapes_flash_mode : shapes.
#[export] Hint Extern 1 (only_shapes (validate_optional_ram_shape _ _ _)) => apply only_shapes_if : shapes.
#[export] Hint Extern 1 (only_shapes (validate_ram_shape _ _ _)) => apply only_shapes_if : shapes.

(** Between a slot and a save state of one family validation and restoring
    reach no mismatch. *)
Lemma same_family saved_state s : state s = slot_state saved_state ->
  (exists r, validate_save_state saved_state s = Done r /\ only_shapes r) /\
  exists s', restore_device saved_state s = Done s' /\ state s' = state s /\
    CartridgeDevice.rom_bytes <$> device s' = CartridgeDevice.rom_bytes <$> device s.
Proof.
  destruct s as [d f], saved_state as [saved].
  destruct d as [[]|], saved as [[]|]; intros Hst; try discriminate Hst; clear Hst;
    (split; eexists; (split; [reflexivity|])); first [done | auto 6 with shapes].
Qed.

(** ** Properties *)

(** C14. A captured state restores: of any two states a loaded cartridge can
    reach, the one's save state passes the validation of the other and
    restores into it the one exactly, ROM, registers, clocks, flash command
    state and all. *)
Theorem save_state_round_trip rom compat s ds ops0 ops :
  load rom compat = Done (inl (s, ds)) -> Forall valid_slot_op ops0 -> Forall valid_slot_op ops ->
  exists s0 s1, run_slot ops0 s = Done s0 /\ run_slot ops s = Done s1 /\
    validate_save_state (capture_save_state s0) s1 = Done None /\
    restore_save_state (capture_save_state s0) s1 = Done s0.
Proof.
  intros Hl H0 H1. destruct (load_inv _ _ _ _ Hl) as (h & cls & family & d & Hp & _ & _ & Hacc & ->).
  destruct (load_family_ok _ _ _ _ _ _ _ (parse_for_load_sized _ _ Hp) Hacc) as (Hok & _).
  set (f := Some (from_bytes rom)).
  destruct (run_slot_ok ops0 d f Hok H0) as (d0 & Hr0 & Hok0 & Hb0).
  destruct (run_slot_ok ops d f Hok H1) as (d1 & Hr1 & Hok1 & Hb1).
  assert (Hb : m_board d0 = m_board d1) by (etrans; [exact Hb0 | by symmetry]).
  exists (mkSlot (Some d0) f), (mkSlot (Some d1) f). split_and!; [done | done | |].
  - by apply captured_shape.
  - rewrite validated_restore by by apply captured_shape. by apply restore_capture.
Qed.

(** Bank 2 and an enabled RAM, saved, and restored over bank 3. *)
Lemma save_state_round_trip_witness : exists s ds s0 s1,
  load witness_image strict = Done (inl (s, ds)) /\ run_slot witness_ops s = Done s0 /\
  run_slot [SlotCart (OpWriteRom 0x2000 0x03)] s = Done s1 /\
  restore_save_state (capture_save_state s0) s1 = Done s0.
Proof.
  pose proof sample_run_true as Hrun. destruct (load witness_image strict) as [r|why] eqn:Hl; [|discriminate].
  apply sample_run_inv in Hrun as (s & ds & -> & _ & _).
  destruct (save_state_round_trip witness_image strict s ds witness_ops [SlotCart (OpWriteRom 0x2000 0x03)] Hl)
    as (s0 & s1 & H0 & H1 & _ & Hr); [repeat constructor; discriminate..|].
  exists s, ds, s0, s1. split; [reflexivity|]. split; [exact H0|]. split; [exact H1 | exact Hr].
Defined.

(** C39. Validation protects restoring: validating any save state against any
    slot returns; it reports a slot mismatch exactly when the families differ,
    and when it finds nothing wrong restoring it returns as well, gives a slot
    of the same family with the same image, and capturing that slot gives the
    save state back. *)
Theorem validated_state_restores saved_state s :
  exists r, validate_save_state saved_state s = Done r /\
    ((exists e a, r = Some (SlotStateMismatch e a)) <-> state s <> slot_state saved_state) /\
    (r = None -> exists s', restore_save_state saved_state s = Done s' /\ state s' = state s /\
       CartridgeDevice.rom_bytes <$> device s' = CartridgeDevice.rom_bytes <$> device s /\
       capture_save_state s' = saved_state).
Proof.
  destruct (decide (state s = slot_state saved_state)) as [Hst|Hst].
  - destruct (same_family saved_state s Hst) as [(r & Hr & Hs) (s' & Hs' & Hst' & Hrom)]. exists r.
    split_and!; [done | | intros ->; exists s'; rewrite validated_restore by done; by eauto using capture_restore].
    split; [|done]. intros (e & a & ->). by destruct (Hs e a eq_refl).
  - unfold validate_save_state. rewrite bool_decide_eq_false_2 by done. eexists. split; [done|]. split; [|done].
    split; [done|]. intros _. by eexists _, _.
Qed.
