(* ===== verification/ApuCommon.v ===== *)
(** * Shared rules of the sound channels
    ([crates/gb-core/src/apu/common.rs], [apu/frame_sequencer.rs])

    Register constants, the frame sequencer, the volume envelope with its
    live-write quirks, length counters, and the reload values of the channel
    timers.  Arithmetic that stays inside its Rust width for every value the
    invariants allow is written without reduction. *)

From Stdlib Require Import ZArith Lia Bool List.
From stdpp Require Import base list decidable.
From S2P Require Import Prelude.
From S2P Require Import Model.
From S2P Require Import Speed.

Import ListNotations.
Local Open Scope Z_scope.

(** ** Constants *)

Definition CHANNEL_ACTIVE_CH1 : Z := 0x01.
Definition CHANNEL_ACTIVE_CH2 : Z := 0x02.
Definition CHANNEL_ACTIVE_CH3 : Z := 0x04.
Definition CHANNEL_ACTIVE_CH4 : Z := 0x08.
Definition CHANNEL_ACTIVE_MASK : Z := 0x0F.
Definition APU_UNMAPPED_READ_VALUE : Z := 0xFF.
Definition NR10_FORCED_HIGH_MASK : Z := 0x80.
Definition NR10_WRITABLE_MASK : Z := not8 NR10_FORCED_HIGH_MASK.
Definition NR11_WRITE_ONLY_MASK : Z := 0x3F.
Definition NR13_WRITE_ONLY_READ_VALUE : Z := 0xFF.
Definition NR23_WRITE_ONLY_READ_VALUE : Z := 0xFF.
Definition NR14_READ_MASK : Z := 0x40.
Definition NR14_FORCED_HIGH_MASK : Z := 0xBF.
Definition NR30_FORCED_HIGH_MASK : Z := 0x7F.
Definition NR31_WRITE_ONLY_READ_VALUE : Z := 0xFF.
Definition NR32_READ_MASK : Z := 0x60.
Definition NR32_FORCED_HIGH_MASK : Z := 0x9F.
Definition NR33_WRITE_ONLY_READ_VALUE : Z := 0xFF.
Definition NR41_WRITE_ONLY_READ_VALUE : Z := 0xFF.
Definition NR44_READ_MASK : Z := 0x40.
Definition NR44_FORCED_HIGH_MASK : Z := 0xBF.
Definition NR52_FORCED_HIGH_MASK : Z := 0x70.
Definition NR52_MASTER_POWER_BIT : Z := 0x80.
Definition NR30_DAC_POWER_BIT : Z := 0x80.
Definition CHANNEL_TRIGGER_BIT : Z := 0x80.
Definition LENGTH_ENABLE_BIT : Z := 0x40.
Definition NRX4_WRITABLE_MASK : Z := 0x47.
Definition NR44_WRITABLE_MASK : Z := 0x40.
Definition PERIOD_HIGH_MASK : Z := 0x07.
Definition PULSE_DUTY_MASK : Z := 0xC0.
Definition PULSE_DUTY_SHIFT : Z := 6.
Definition PULSE_DUTY_STEP_MASK : Z := 0x07.
Definition CGB_PULSE_POWER_ON_PHASE_MASK : Z := 0x07.
Definition CGB_PULSE_INACTIVE_TRIGGER_DELAY_BASE_T_CYCLES : Z := 8.
Definition CGB_PULSE_ACTIVE_RETRIGGER_DELAY_BASE_T_CYCLES : Z := 4.
Definition PULSE_LENGTH_LOAD_MASK : Z := 0x3F.
Definition PULSE_PERIOD_TIMER_LOW_BITS_MASK : Z := 0x03.
Definition SWEEP_PACE_MASK : Z := 0x70.
Definition SWEEP_PACE_SHIFT : Z := 4.
Definition SWEEP_DIRECTION_BIT : Z := 0x08.
Definition SWEEP_SHIFT_MASK : Z := 0x07.
Definition DAC_ENABLE_REGISTER_MASK : Z := 0xF8.
Definition ENVELOPE_INITIAL_VOLUME_MASK : Z := 0xF0.
Definition ENVELOPE_INITIAL_VOLUME_SHIFT : Z := 4.
Definition ENVELOPE_DIRECTION_BIT : Z := 0x08.
Definition ENVELOPE_PACE_MASK : Z := 0x07.
Definition PULSE_LENGTH_COUNTER_RELOAD : Z := 64.
Definition WAVE_LENGTH_COUNTER_RELOAD : Z := 256.
Definition PULSE_PERIOD_MAX : Z := 0x07FF.
Definition MAX_ENVELOPE_VOLUME : Z := 0x0F.
Definition NOISE_CLOCK_SHIFT_SHIFT : Z := 4.
Definition NOISE_CLOCK_SHIFT_MASK : Z := 0x0F.
Definition NOISE_SHORT_WIDTH_BIT : Z := 0x08.
Definition NOISE_DIVIDER_CODE_MASK : Z := 0x07.
Definition NOISE_COUNTER_MASK : Z := 0x3FFF.

Definition PULSE_DUTY_PATTERNS : list (list bool) :=
  [[false; false; false; false; false; false; false; true];
   [true; false; false; false; false; false; false; true];
   [true; false; false; false; false; true; true; true];
   [false; true; true; true; true; true; true; false]].

(** ** Frame sequencer *)

Definition FRAME_SEQUENCER_STEP_MASK : Z := 0x07.

Record FrameSequencerState := mkFrameSequencer {
  fs_step : Z;
  length_clock_count : Z;
  sweep_clock_count : Z;
  envelope_clock_count : Z
}.

#[export] Instance upd_fs_step : Update fs_step := fun v s =>
  let '(mkFrameSequencer _ x2 x3 x4) := s in mkFrameSequencer v x2 x3 x4.
#[export] Instance upd_length_clock_count : Update length_clock_count := fun v s =>
  let '(mkFrameSequencer x1 _ x3 x4) := s in mkFrameSequencer x1 v x3 x4.
#[export] Instance upd_sweep_clock_count : Update sweep_clock_count := fun v s =>
  let '(mkFrameSequencer x1 x2 _ x4) := s in mkFrameSequencer x1 x2 v x4.
#[export] Instance upd_envelope_clock_count : Update envelope_clock_count := fun v s =>
  let '(mkFrameSequencer x1 x2 x3 _) := s in mkFrameSequencer x1 x2 x3 v.

Record FrameSequencerClocks := mkClocks {
  clocks_length : bool;
  clocks_sweep : bool;
  clocks_envelope : bool
}.

#[export] Instance upd_clocks_length : Update clocks_length := fun v s =>
  let '(mkClocks _ x2 x3) := s in mkClocks v x2 x3.
#[export] Instance upd_clocks_sweep : Update clocks_sweep := fun v s =>
  let '(mkClocks x1 _ x3) := s in mkClocks x1 v x3.
#[export] Instance upd_clocks_envelope : Update clocks_envelope := fun v s =>
  let '(mkClocks x1 x2 _) := s in mkClocks x1 x2 v.

Definition div_apu_phase_from_system_counter (system_counter : Z) : Z :=
  as_u8 (Z.land (Z.shiftr system_counter 13) FRAME_SEQUENCER_STEP_MASK).

Definition frame_sequencer_step_clocks_length (step : Z) : bool :=
  match Z.land step FRAME_SEQUENCER_STEP_MASK with 0 | 2 | 4 | 6 => true | _ => false end.
Definition frame_sequencer_step_clocks_sweep (step : Z) : bool :=
  match Z.land step FRAME_SEQUENCER_STEP_MASK with 2 | 6 => true | _ => false end.
Definition frame_sequencer_step_clocks_envelope (step : Z) : bool :=
  Z.land step FRAME_SEQUENCER_STEP_MASK =? 7.

Definition frame_sequencer_clocks (step : Z) : FrameSequencerClocks :=
  mkClocks (frame_sequencer_step_clocks_length step) (frame_sequencer_step_clocks_sweep step)
    (frame_sequencer_step_clocks_envelope step).

Definition frame_sequencer_default : FrameSequencerState := mkFrameSequencer 0 0 0 0.

Definition apply_startup_phase (div_apu : Z) (f : FrameSequencerState) : FrameSequencerState :=
  f <| fs_step := Z.land div_apu FRAME_SEQUENCER_STEP_MASK |>
    <| length_clock_count := 0 |> <| sweep_clock_count := 0 |> <| envelope_clock_count := 0 |>.

(** The three counters are [u64] statistics that nothing reads. *)
Definition frame_sequencer_advance (f : FrameSequencerState) : FrameSequencerClocks * FrameSequencerState :=
  let clocks := frame_sequencer_clocks (fs_step f) in
  let f := if clocks_length clocks then f <| length_clock_count := length_clock_count f + 1 |> else f in
  let f := if clocks_sweep clocks then f <| sweep_clock_count := sweep_clock_count f + 1 |> else f in
  let f := if clocks_envelope clocks then f <| envelope_clock_count := envelope_clock_count f + 1 |> else f in
  (clocks, f <| fs_step := Z.land (fs_step f + 1) FRAME_SEQUENCER_STEP_MASK |>).

(** ** Policies and write plans *)

Inductive WaveRamMmioPolicy :=
| DmgCurrentByteDuringFetchOnly | CgbCurrentByteWhileActive | AgbInaccessibleWhileActive.
Inductive ExtraLengthClockingPolicy := CurrentDmgBaseline | DeferredCgbRevisionBehavior.

Definition wave_ram_mmio_policy (m : ConsoleModel) : WaveRamMmioPolicy :=
  if is_dmg_family m then DmgCurrentByteDuringFetchOnly
  else if bool_decide (m = GameBoyAdvance) then AgbInaccessibleWhileActive
  else CgbCurrentByteWhileActive.

Definition extra_length_clocking_policy (m : ConsoleModel) : ExtraLengthClockingPolicy :=
  if is_cgb_family m then DeferredCgbRevisionBehavior else CurrentDmgBaseline.

Record Nrx4WriteContext := mkNrx4Context {
  ctx_trigger : bool;
  ctx_length_enabled : bool;
  ctx_next_step_clocks_length : bool;
  ctx_next_step_clocks_envelope : bool
}.

#[export] Instance upd_ctx_trigger : Update ctx_trigger := fun v s =>
  let '(mkNrx4Context _ x2 x3 x4) := s in mkNrx4Context v x2 x3 x4.
#[export] Instance upd_ctx_length_enabled : Update ctx_length_enabled := fun v s =>
  let '(mkNrx4Context x1 _ x3 x4) := s in mkNrx4Context x1 v x3 x4.
#[export] Instance upd_ctx_next_step_clocks_length : Update ctx_next_step_clocks_length := fun v s =>
  let '(mkNrx4Context x1 x2 _ x4) := s in mkNrx4Context x1 x2 v x4.
#[export] Instance upd_ctx_next_step_clocks_envelope : Update ctx_next_step_clocks_envelope := fun v s =>
  let '(mkNrx4Context x1 x2 x3 _) := s in mkNrx4Context x1 x2 x3 v.

Record Nrx4WritePlan := mkNrx4Plan {
  plan_context : Nrx4WriteContext;
  plan_was_length_enabled : bool;
  plan_trigger_reloaded_zero_length : bool
}.

#[export] Instance upd_plan_context : Update plan_context := fun v s =>
  let '(mkNrx4Plan _ x2 x3) := s in mkNrx4Plan v x2 x3.
#[export] Instance upd_plan_was_length_enabled : Update plan_was_length_enabled := fun v s =>
  let '(mkNrx4Plan x1 _ x3) := s in mkNrx4Plan x1 v x3.
#[export] Instance upd_plan_trigger_reloaded_zero_length : Update plan_trigger_reloaded_zero_length := fun v s =>
  let '(mkNrx4Plan x1 x2 _) := s in mkNrx4Plan x1 x2 v.

Definition nrx4_write_context (value next_frame_sequencer_step : Z) : Nrx4WriteContext :=
  mkNrx4Context (has_bits value CHANNEL_TRIGGER_BIT) (has_bits value LENGTH_ENABLE_BIT)
    (frame_sequencer_step_clocks_length next_frame_sequencer_step)
    (frame_sequencer_step_clocks_envelope next_frame_sequencer_step).

(** The new register and the plan. *)
Definition begin_nrx4_write (value writable_mask next_frame_sequencer_step : Z) (was_length_enabled : bool)
    : Z * Nrx4WritePlan :=
  (Z.land value writable_mask,
   mkNrx4Plan (nrx4_write_context value next_frame_sequencer_step) was_length_enabled false).

Definition observe_trigger_reloaded_zero_length (b : bool) (p : Nrx4WritePlan) : Nrx4WritePlan :=
  p <| plan_trigger_reloaded_zero_length := b |>.
Definition observe_length_enabled_after_trigger (b : bool) (p : Nrx4WritePlan) : Nrx4WritePlan :=
  p <| plan_was_length_enabled := b |>.

(** ** Volume envelope *)

Record EnvelopeState := mkEnvelope {
  initial_volume : Z;
  increase : bool;
  pace : Z;
  automatic_updates_enabled : bool;
  env_timer : Z;
  current_volume : Z;
  cgb_live_write_short_reload : bool;
  cgb_live_write_pending_even_tick : bool
}.

#[export] Instance upd_initial_volume : Update initial_volume := fun v s =>
  let '(mkEnvelope _ x2 x3 x4 x5 x6 x7 x8) := s in mkEnvelope v x2 x3 x4 x5 x6 x7 x8.
#[export] Instance upd_increase : Update increase := fun v s =>
  let '(mkEnvelope x1 _ x3 x4 x5 x6 x7 x8) := s in mkEnvelope x1 v x3 x4 x5 x6 x7 x8.
#[export] Instance upd_pace : Update pace := fun v s =>
  let '(mkEnvelope x1 x2 _ x4 x5 x6 x7 x8) := s in mkEnvelope x1 x2 v x4 x5 x6 x7 x8.
#[export] Instance upd_automatic_updates_enabled : Update automatic_updates_enabled := fun v s =>
  let '(mkEnvelope x1 x2 x3 _ x5 x6 x7 x8) := s in mkEnvelope x1 x2 x3 v x5 x6 x7 x8.
#[export] Instance upd_env_timer : Update env_timer := fun v s =>
  let '(mkEnvelope x1 x2 x3 x4 _ x6 x7 x8) := s in mkEnvelope x1 x2 x3 x4 v x6 x7 x8.
#[export] Instance upd_current_volume : Update current_volume := fun v s =>
  let '(mkEnvelope x1 x2 x3 x4 x5 _ x7 x8) := s in mkEnvelope x1 x2 x3 x4 x5 v x7 x8.
#[export] Instance upd_cgb_live_write_short_reload : Update cgb_live_write_short_reload := fun v s =>
  let '(mkEnvelope x1 x2 x3 x4 x5 x6 _ x8) := s in mkEnvelope x1 x2 x3 x4 x5 x6 v x8.
#[export] Instance upd_cgb_live_write_pending_even_tick : Update cgb_live_write_pending_even_tick := fun v s =>
  let '(mkEnvelope x1 x2 x3 x4 x5 x6 x7 _) := s in mkEnvelope x1 x2 x3 x4 x5 x6 x7 v.

Definition envelope_default : EnvelopeState := mkEnvelope 0 false 0 false 0 0 false false.

Definition envelope_timer_reload (envelope_pace : Z) : Z := if envelope_pace =? 0 then 8 else envelope_pace.

Definition envelope_apply_write (value : Z) (e : EnvelopeState) : EnvelopeState :=
  e <| initial_volume := Z.shiftr (Z.land value ENVELOPE_INITIAL_VOLUME_MASK) ENVELOPE_INITIAL_VOLUME_SHIFT |>
    <| increase := has_bits value ENVELOPE_DIRECTION_BIT |>
    <| pace := Z.land value ENVELOPE_PACE_MASK |>.

Definition encode_envelope_register (initial_volume : Z) (envelope_increase : bool) (envelope_pace : Z) : Z :=
  Z.lor (Z.lor (shl8 (Z.land initial_volume MAX_ENVELOPE_VOLUME) ENVELOPE_INITIAL_VOLUME_SHIFT)
               (if envelope_increase then ENVELOPE_DIRECTION_BIT else 0))
        (Z.land envelope_pace ENVELOPE_PACE_MASK).

Definition envelope_write_uses_consistent_zombie_increment (value : Z) : bool :=
  Z.land value (Z.lor ENVELOPE_DIRECTION_BIT ENVELOPE_PACE_MASK) =? ENVELOPE_DIRECTION_BIT.

Definition apply_consistent_zombie_mode_increment (volume value : Z) : Z :=
  if negb (envelope_write_uses_consistent_zombie_increment value) then volume
  else Z.land (volume + 1) MAX_ENVELOPE_VOLUME.

Definition apply_cgb_zombie_mode_write (volume new_value old_value : Z) (volume_updates_locked : bool) : Z :=
  let should_tick :=
    has_bits new_value ENVELOPE_PACE_MASK && negb (has_bits old_value ENVELOPE_PACE_MASK) &&
    negb volume_updates_locked in
  let should_invert := has_bits (Z.lxor new_value old_value) ENVELOPE_DIRECTION_BIT in
  let should_tick :=
    if (Z.land new_value (Z.lor ENVELOPE_DIRECTION_BIT ENVELOPE_PACE_MASK) =? ENVELOPE_DIRECTION_BIT) &&
       (Z.land old_value (Z.lor ENVELOPE_DIRECTION_BIT ENVELOPE_PACE_MASK) =? ENVELOPE_DIRECTION_BIT) &&
       negb volume_updates_locked
    then true else should_tick in
  let '(volume, should_tick) :=
    if should_invert then
      if has_bits new_value ENVELOPE_DIRECTION_BIT then
        if negb (has_bits old_value ENVELOPE_PACE_MASK) && negb volume_updates_locked
        then (Z.lxor volume MAX_ENVELOPE_VOLUME, false)
        else (Z.land (wrapping_sub8 0x0E volume) MAX_ENVELOPE_VOLUME, false)
      else (Z.land (wrapping_sub8 0x10 volume) MAX_ENVELOPE_VOLUME, should_tick)
    else (volume, should_tick) in
  if should_tick then
    if has_bits new_value ENVELOPE_DIRECTION_BIT
    then Z.land (volume + 1) MAX_ENVELOPE_VOLUME
    else Z.land (wrapping_sub8 volume 1) MAX_ENVELOPE_VOLUME
  else volume.

Definition apply_live_write_effect (m : ConsoleModel) (active : bool) (value : Z) (e : EnvelopeState)
    : EnvelopeState :=
  if negb active then e
  else if is_cgb_family m then
    let old_value := encode_envelope_register (initial_volume e) (increase e) (pace e) in
    let old_pace := pace e in
    let old_increase := increase e in
    let volume_updates_locked := negb (pace e =? 0) && negb (automatic_updates_enabled e) in
    let e := e <| current_volume :=
      apply_cgb_zombie_mode_write (current_volume e) value old_value volume_updates_locked |> in
    let e := envelope_apply_write value e in
    let e := e <| cgb_live_write_short_reload := false |> <| cgb_live_write_pending_even_tick := false |>
               <| automatic_updates_enabled := negb (pace e =? 0) && negb volume_updates_locked |> in
    if (old_pace =? 0) && negb (pace e =? 0) && negb volume_updates_locked then
      e <| env_timer := if Bool.eqb old_increase (increase e) then pace e else 1 |>
        <| cgb_live_write_short_reload := true |> <| cgb_live_write_pending_even_tick := true |>
    else e
  else e <| current_volume := apply_consistent_zombie_mode_increment (current_volume e) value |>.

Definition envelope_reload (next_step_clocks_envelope : bool) (e : EnvelopeState) : EnvelopeState :=
  e <| automatic_updates_enabled := negb (pace e =? 0) |>
    <| env_timer := envelope_timer_reload (pace e) + u8_from_bool next_step_clocks_envelope |>
    <| current_volume := initial_volume e |>
    <| cgb_live_write_short_reload := false |> <| cgb_live_write_pending_even_tick := false |>.

Definition envelope_clock (e : EnvelopeState) : EnvelopeState :=
  if (pace e =? 0) || negb (automatic_updates_enabled e) then e
  else
    let e := if 0 <? env_timer e then e <| env_timer := env_timer e - 1 |> else e in
    if negb (env_timer e =? 0) then e
    else
      let e :=
        if cgb_live_write_short_reload e
        then e <| cgb_live_write_short_reload := false |>
               <| env_timer := Z.max 0 (envelope_timer_reload (pace e) - 1) |>
        else e <| env_timer := envelope_timer_reload (pace e) |> in
      if increase e then
        if current_volume e <? MAX_ENVELOPE_VOLUME then e <| current_volume := current_volume e + 1 |>
        else e <| automatic_updates_enabled := false |>
      else if 0 <? current_volume e then e <| current_volume := current_volume e - 1 |>
      else e <| automatic_updates_enabled := false |>.

Definition clock_cgb_live_write_pending_even_tick (e : EnvelopeState) : EnvelopeState :=
  if negb (cgb_live_write_pending_even_tick e) then e
  else envelope_clock (e <| cgb_live_write_pending_even_tick := false |>).

(** ** Channel activity *)

Record ChannelRuntimeState := mkRuntime {
  dac_enabled : bool;
  active : bool
}.

#[export] Instance upd_dac_enabled : Update dac_enabled := fun v s =>
  let '(mkRuntime _ x2) := s in mkRuntime v x2.
#[export] Instance upd_active : Update active := fun v s =>
  let '(mkRuntime x1 _) := s in mkRuntime x1 v.

Definition runtime_default : ChannelRuntimeState := mkRuntime false false.

Definition set_dac_enabled (d : bool) (r : ChannelRuntimeState) : ChannelRuntimeState :=
  let r := r <| dac_enabled := d |> in
  if negb d then r <| active := false |> else r.

Definition set_active_from_startup (a : bool) (r : ChannelRuntimeState) : ChannelRuntimeState :=
  r <| active := dac_enabled r && a |>.

Definition runtime_trigger (r : ChannelRuntimeState) : ChannelRuntimeState :=
  if dac_enabled r then r <| active := true |> else r.

(** ** Length counters

    The [u8] and [u16] versions are the same code at two widths: one
    definition, with the counter and its reload. *)

Record ExtraLengthClockingContext := mkExtra {
  extra_console_model : ConsoleModel;
  extra_length_enabled : bool;
  extra_was_length_enabled : bool;
  extra_next_step_clocks_length : bool;
  extra_trigger : bool;
  extra_trigger_reloaded_zero_length : bool
}.

#[export] Instance upd_extra_console_model : Update extra_console_model := fun v s =>
  let '(mkExtra _ x2 x3 x4 x5 x6) := s in mkExtra v x2 x3 x4 x5 x6.
#[export] Instance upd_extra_length_enabled : Update extra_length_enabled := fun v s =>
  let '(mkExtra x1 _ x3 x4 x5 x6) := s in mkExtra x1 v x3 x4 x5 x6.
#[export] Instance upd_extra_was_length_enabled : Update extra_was_length_enabled := fun v s =>
  let '(mkExtra x1 x2 _ x4 x5 x6) := s in mkExtra x1 x2 v x4 x5 x6.
#[export] Instance upd_extra_next_step_clocks_length : Update extra_next_step_clocks_length := fun v s =>
  let '(mkExtra x1 x2 x3 _ x5 x6) := s in mkExtra x1 x2 x3 v x5 x6.
#[export] Instance upd_extra_trigger : Update extra_trigger := fun v s =>
  let '(mkExtra x1 x2 x3 x4 _ x6) := s in mkExtra x1 x2 x3 x4 v x6.
#[export] Instance upd_extra_trigger_reloaded_zero_length : Update extra_trigger_reloaded_zero_length := fun v s =>
  let '(mkExtra x1 x2 x3 x4 x5 _) := s in mkExtra x1 x2 x3 x4 x5 v.

Definition should_apply_extra_length_clocking_on_enable (m : ConsoleModel)
    (length_enabled length_counter_is_zero was_length_enabled next_step_clocks_length
     trigger_reloaded_zero_length : bool) : bool :=
  if next_step_clocks_length || negb length_enabled || length_counter_is_zero then false
  else
    let enabling_length := negb was_length_enabled in
    match extra_length_clocking_policy m with
    | CurrentDmgBaseline => enabling_length || trigger_reloaded_zero_length
    | DeferredCgbRevisionBehavior => enabling_length || trigger_reloaded_zero_length
    end.

Definition apply_extra_length_clocking (context : ExtraLengthClockingContext) (reload_value : Z)
    (length_counter : Z) (r : ChannelRuntimeState) : Z * ChannelRuntimeState :=
  if negb (should_apply_extra_length_clocking_on_enable (extra_console_model context)
             (extra_length_enabled context) (length_counter =? 0) (extra_was_length_enabled context)
             (extra_next_step_clocks_length context) (extra_trigger_reloaded_zero_length context))
  then (length_counter, r)
  else
    let length_counter := length_counter - 1 in
    if length_counter =? 0 then
      if extra_trigger context then (reload_value - 1, r) else (length_counter, r <| active := false |>)
    else (length_counter, r).

Definition clock_length_counter (length_enabled : bool) (length_counter : Z) (r : ChannelRuntimeState)
    : Z * ChannelRuntimeState :=
  if negb length_enabled || (length_counter =? 0) then (length_counter, r)
  else
    let length_counter := length_counter - 1 in
    (length_counter, if length_counter =? 0 then r <| active := false |> else r).

(** ** Timer reloads *)

Definition pulse_period_from_registers (period_low period_high : Z) : Z :=
  Z.land (Z.lor (Z.shiftl (Z.land period_high PERIOD_HIGH_MASK) 8) period_low) PULSE_PERIOD_MAX.

Definition pulse_length_counter_from_load (value : Z) : Z :=
  PULSE_LENGTH_COUNTER_RELOAD - Z.land value PULSE_LENGTH_LOAD_MASK.

Definition pulse_timer_reload (period_value : Z) : Z := (2048 - Z.land period_value PULSE_PERIOD_MAX) * 4.

Definition pulse_timer_reload_preserving_trigger_phase (period_value current_period_timer : Z) : Z :=
  let reload := pulse_timer_reload period_value in
  let preserved_phase :=
    Z.land (4 - Z.land current_period_timer PULSE_PERIOD_TIMER_LOW_BITS_MASK) PULSE_PERIOD_TIMER_LOW_BITS_MASK in
  reload - preserved_phase.

Definition cgb_pulse_trigger_delay_t_cycles (m : ConsoleModel) (speed_mode : CgbSpeedMode) (was_active : bool)
    (power_on_phase : Z) : Z :=
  if negb (is_cgb_family m) then 0
  else
    match was_active, speed_mode with
    | true, Normal => CGB_PULSE_ACTIVE_RETRIGGER_DELAY_BASE_T_CYCLES
    | true, Double => CGB_PULSE_ACTIVE_RETRIGGER_DELAY_BASE_T_CYCLES * 2
    | false, Normal => CGB_PULSE_INACTIVE_TRIGGER_DELAY_BASE_T_CYCLES
    | false, Double =>
        CGB_PULSE_INACTIVE_TRIGGER_DELAY_BASE_T_CYCLES * 2 + Z.land power_on_phase CGB_PULSE_POWER_ON_PHASE_MASK
    end.

Definition wave_length_counter_from_load (value : Z) : Z := WAVE_LENGTH_COUNTER_RELOAD - value.
Definition wave_timer_reload (period_value : Z) : Z := (2048 - Z.land period_value PULSE_PERIOD_MAX) * 2.

Definition noise_divisor_base (clock_divider_code : Z) : Z :=
  match Z.land clock_divider_code NOISE_DIVIDER_CODE_MASK with
  | 0 => 8 | 1 => 16 | 2 => 32 | 3 => 48 | 4 => 64 | 5 => 80 | 6 => 96 | _ => 112
  end.

Definition noise_timer_reload (clock_shift clock_divider_code : Z) : Z :=
  Z.shiftl (noise_divisor_base clock_divider_code) (Z.land clock_shift NOISE_CLOCK_SHIFT_MASK).

Definition noise_counter_timer_reload (clock_divider_code : Z) : Z :=
  let divisor := Z.shiftl (Z.land clock_divider_code NOISE_DIVIDER_CODE_MASK) 2 in
  if divisor =? 0 then 2 else divisor.

Definition noise_clocking_suppressed (clock_shift : Z) : bool := 14 <=? clock_shift.

Definition noise_counter_bit (counter clock_shift : Z) : bool :=
  if noise_clocking_suppressed clock_shift then false
  else has_bits counter (Z.shiftl 1 (Z.land clock_shift NOISE_CLOCK_SHIFT_MASK)).

(** The indices are masked to the table's 4 by 8. *)
Definition pulse_waveform_high (duty duty_step : Z) : bool :=
  nth (Z.to_nat (Z.land duty_step PULSE_DUTY_STEP_MASK))
    (nth (Z.to_nat (Z.land duty 0x03)) PULSE_DUTY_PATTERNS []) false.

Definition sweep_pace_from_nr10 (nr10 : Z) : Z := Z.shiftr (Z.land nr10 SWEEP_PACE_MASK) SWEEP_PACE_SHIFT.
Definition sweep_shift_from_nr10 (nr10 : Z) : Z := Z.land nr10 SWEEP_SHIFT_MASK.
Definition sweep_decreases_from_nr10 (nr10 : Z) : bool := has_bits nr10 SWEEP_DIRECTION_BIT.

(** ** Automation for the invariants

    An invariant of a record is a [Record] of its components' ranges.
    [upd_ok I] proves [I] of an updated record from [I] of the record it
    updates, splitting the conditionals on the way; [leaf] closes the ranges
    left over. *)

Create HintDb apu discriminated.

Lemma land_bound x m : 0 <= m -> 0 <= Z.land x m <= m.
Proof.
  intros Hm. split; [apply Z.land_nonneg; lia|].
  destruct (Z.eq_dec m 0) as [->|]; [rewrite Z.land_0_r; lia|].
  rewrite Z.land_comm. apply Z.ldiff_le; [done|].
  apply Z.bits_inj'. intros i Hi. rewrite Z.ldiff_spec, Z.land_spec, Z.bits_0.
  by destruct (Z.testbit m i), (Z.testbit x i).
Qed.

Ltac land_bounds :=
  repeat match goal with
  | |- context [Z.land ?x (Zpos ?m)] =>
      lazymatch goal with
      | _ : 0 <= Z.land x (Zpos m) <= _ |- _ => fail
      | _ => pose proof (land_bound x (Zpos m) ltac:(lia))
      end
  | _ : context [Z.land ?x (Zpos ?m)] |- _ =>
      lazymatch goal with
      | _ : 0 <= Z.land x (Zpos m) <= _ |- _ => fail
      | _ => pose proof (land_bound x (Zpos m) ltac:(lia))
      end
  end.

Create HintDb apu_consts.

#[export] Hint Unfold NR10_WRITABLE_MASK NR10_FORCED_HIGH_MASK PULSE_DUTY_MASK PULSE_DUTY_SHIFT PULSE_DUTY_STEP_MASK
  CGB_PULSE_POWER_ON_PHASE_MASK PULSE_LENGTH_LOAD_MASK PULSE_PERIOD_TIMER_LOW_BITS_MASK
  SWEEP_PACE_MASK SWEEP_PACE_SHIFT SWEEP_SHIFT_MASK ENVELOPE_INITIAL_VOLUME_MASK
  ENVELOPE_INITIAL_VOLUME_SHIFT ENVELOPE_PACE_MASK PULSE_LENGTH_COUNTER_RELOAD WAVE_LENGTH_COUNTER_RELOAD
  PULSE_PERIOD_MAX MAX_ENVELOPE_VOLUME NOISE_CLOCK_SHIFT_SHIFT NOISE_CLOCK_SHIFT_MASK
  NOISE_DIVIDER_CODE_MASK NOISE_COUNTER_MASK FRAME_SEQUENCER_STEP_MASK PERIOD_HIGH_MASK
  NRX4_WRITABLE_MASK NR44_WRITABLE_MASK NR30_DAC_POWER_BIT NR32_READ_MASK shr8 u8 u16
  envelope_timer_reload u8_from_bool : apu_consts.

Lemma pulse_length_load_range v : 0 < pulse_length_counter_from_load v <= 64.
Proof. unfold pulse_length_counter_from_load. autounfold with apu_consts. land_bounds. lia. Qed.
Lemma wave_length_load_range v : u8 v -> 0 < wave_length_counter_from_load v <= 256.
Proof. unfold wave_length_counter_from_load. autounfold with apu_consts. lia. Qed.

Lemma pulse_timer_reload_range p : 4 <= pulse_timer_reload p <= 8192.
Proof. unfold pulse_timer_reload. autounfold with apu_consts. land_bounds. lia. Qed.
Lemma pulse_timer_preserving_range p t : 1 <= pulse_timer_reload_preserving_trigger_phase p t <= 8192.
Proof.
  pose proof (pulse_timer_reload_range p).
  unfold pulse_timer_reload_preserving_trigger_phase. autounfold with apu_consts. land_bounds. lia.
Qed.
Lemma trigger_delay_range m s b p : 0 <= cgb_pulse_trigger_delay_t_cycles m s b p <= 23.
Proof.
  unfold cgb_pulse_trigger_delay_t_cycles, CGB_PULSE_INACTIVE_TRIGGER_DELAY_BASE_T_CYCLES,
    CGB_PULSE_ACTIVE_RETRIGGER_DELAY_BASE_T_CYCLES.
  destruct (negb _), b, s; autounfold with apu_consts; land_bounds; lia.
Qed.
Lemma wave_timer_reload_range p : 2 <= wave_timer_reload p <= 4096.
Proof. unfold wave_timer_reload. autounfold with apu_consts. land_bounds. lia. Qed.
Lemma period_range a b : 0 <= pulse_period_from_registers a b <= 0x7FF.
Proof. unfold pulse_period_from_registers. autounfold with apu_consts. land_bounds. lia. Qed.

Ltac pose_once p := let T := type of p in lazymatch goal with _ : T |- _ => fail | _ => pose proof p end.
Ltac range_facts :=
  repeat match goal with
  | |- context [pulse_length_counter_from_load ?v] => pose_once (pulse_length_load_range v)
  | |- context [pulse_timer_reload ?p] => pose_once (pulse_timer_reload_range p)
  | |- context [pulse_timer_reload_preserving_trigger_phase ?p ?t] => pose_once (pulse_timer_preserving_range p t)
  | |- context [cgb_pulse_trigger_delay_t_cycles ?m ?s ?b ?p] => pose_once (trigger_delay_range m s b p)
  | H : u8 ?v |- context [wave_length_counter_from_load ?v] => pose_once (wave_length_load_range v H)
  | |- context [wave_timer_reload ?p] => pose_once (wave_timer_reload_range p)
  | |- context [pulse_period_from_registers ?a ?b] => pose_once (period_range a b)
  end.

Ltac shift_values :=
  repeat match goal with
  | |- context [Z.shiftr ?x (Zpos ?k)] =>
      rewrite (Z.shiftr_div_pow2 x (Zpos k)) by lia;
      let d := eval compute in (2 ^ Zpos k) in change (2 ^ Zpos k) with d
  end.

Ltac known_options :=
  repeat match goal with H : ?t = Some _, H' : context [default _ ?t] |- _ => rewrite H in H'; cbn in H' end.

Ltac leaf :=
  first [ assumption | solve [auto with apu] | solve [auto with gb]
        | simplify_eq/=; known_options; range_facts; autounfold with apu_consts in *; case_tests; prune; shift_values; land_bounds;
          first [ lia | divmod_lia | solve [auto with apu gb] ] ].

(** [forget s] replaces the record [s] by a variable; [open_state I s] also
    opens it, with every instance of the invariant [I]. *)
Ltac forget s := let x := fresh "st" in set (x := s) in *; clearbody x.
Ltac open_state I s :=
  let x := fresh "st" in set (x := s) in *; clearbody x;
  repeat match goal with H : I _ |- _ => destruct H end; destruct x; cbn in *.

(** What a component knows of a value it has found; components redefine it. *)
Ltac on_some := idtac.

(** [upd_ok I] goes through the [let]s of an operation in order: a bound
    record is proved to satisfy [I] and then forgotten. *)
Ltac upd_ok I :=
  let named_let t e b :=
    tryif (let _ := constr:(I e) in idtac)
    then let H := fresh "Hok" in
         assert (H : I e); [upd_ok I | change t with (b e); forget e; upd_ok I]
    else (change t with (b e); upd_ok I) in
  let computed t :=
    lazymatch t with
    | let c := ?e in @?b c => named_let t e b
    | if ?b then _ else _ => destruct b eqn:?; upd_ok I
    | (_, _) => cbv iota; upd_ok I
    | _ =>
        tryif (let _ := constr:(I (snd t)) in idtac)
        then let H := fresh "Hok" in
             assert (H : I (snd t)); [upd_ok I | destruct t as [? ?]; cbn [snd] in H; upd_ok I]
        else (destruct t as [? ?]; upd_ok I)
    end in
  cbv beta;
  lazymatch goal with
  | |- I (snd (_, ?q)) => change (I q); upd_ok I
  | |- I (match ?e with (_, _) => _ end) => computed e
  | |- I (snd (match ?e with (_, _) => _ end)) => computed e
  | |- I (snd ?t) => 
      lazymatch t with
      | let c := ?e in @?b c => named_let t e b
      | if ?b then _ else _ => destruct b eqn:?; upd_ok I
      | _ => try (first [assumption | solve [auto with apu]])
      end
  | |- I (update ?f ?v ?s) =>
      let H := fresh "Hok" in
      assert (H : I s); [upd_ok I | open_state I s; constructor; cbn; try leaf]
  | |- I (match ?o with Some _ => _ | None => _ end) => destruct o eqn:?; on_some; upd_ok I
  | |- I ?t =>
      lazymatch t with
      | ?u ?v ?s =>
          lazymatch type of u with
          | Update ?f => change (I (update f v s)); upd_ok I
          | _ => try (first [assumption | solve [auto with apu]])
          end
      | let c := ?e in @?b c => named_let t e b
      | if ?b then _ else _ => destruct b eqn:?; upd_ok I
      | _ => try (first [assumption | solve [auto with apu]])
      end
  end.

(** For [Hint Extern]: only on an update, whose class [cbn] may have unfolded. *)
Ltac upd_hint I :=
  lazymatch goal with
  | |- I (update _ _ _) => upd_ok I
  | |- I (?u _ _) => lazymatch type of u with Update _ => upd_ok I end
  end.

#[global] Arguments envelope_apply_write : simpl never.
#[global] Arguments envelope_reload : simpl never.
#[global] Arguments envelope_clock : simpl never.
#[global] Arguments clock_cgb_live_write_pending_even_tick : simpl never.
#[global] Arguments apply_live_write_effect : simpl never.
#[global] Arguments set_dac_enabled : simpl never.
#[global] Arguments set_active_from_startup : simpl never.
#[global] Arguments runtime_trigger : simpl never.
#[global] Arguments apply_extra_length_clocking : simpl never.
#[global] Arguments clock_length_counter : simpl never.
#[global] Arguments pulse_period_from_registers : simpl never.
#[global] Arguments pulse_timer_reload : simpl never.
#[global] Arguments wave_timer_reload : simpl never.

(** ** Ranges of the shared state *)

Record envelope_ok (e : EnvelopeState) : Prop := {
  envelope_initial_range : 0 <= initial_volume e < 16;
  envelope_pace_range : 0 <= pace e < 8;
  envelope_timer_range : 0 <= env_timer e <= 9;
  envelope_volume_range : 0 <= current_volume e < 16
}.

Lemma envelope_default_ok : envelope_ok envelope_default.
Proof. constructor; simpl; lia. Qed.

Lemma envelope_apply_write_ok v e : u8 v -> envelope_ok e -> envelope_ok (envelope_apply_write v e).
Proof. intros Hv He. cbv delta [envelope_apply_write]. upd_ok envelope_ok. Qed.

#[export] Hint Resolve envelope_default_ok envelope_apply_write_ok : apu.

#[export] Hint Extern 3 (envelope_ok (_ _ _)) => upd_hint envelope_ok : apu.

Lemma envelope_reload_ok b e : envelope_ok e -> envelope_ok (envelope_reload b e).
Proof.
  intros He. cbv delta [envelope_reload]. upd_ok envelope_ok.
Qed.

Lemma envelope_clock_ok e : envelope_ok e -> envelope_ok (envelope_clock e).
Proof.
  intros He. cbv delta [envelope_clock]. upd_ok envelope_ok.
Qed.

#[export] Hint Resolve envelope_reload_ok envelope_clock_ok : apu.

Lemma clock_cgb_live_write_pending_even_tick_ok e :
  envelope_ok e -> envelope_ok (clock_cgb_live_write_pending_even_tick e).
Proof.
  intros He. cbv delta [clock_cgb_live_write_pending_even_tick]. upd_ok envelope_ok.
Qed.

Lemma cgb_zombie_write_range v n o b :
  0 <= v < 16 -> 0 <= apply_cgb_zombie_mode_write v n o b < 16.
Proof.
  intros Hv. assert (Hx : 0 <= Z.lxor v 15 < 16) by (apply (range_lxor 4); lia).
  unfold apply_cgb_zombie_mode_write. autounfold with apu_consts. case_tests; land_bounds; lia.
Qed.
Lemma consistent_zombie_range v n : 0 <= v < 16 -> 0 <= apply_consistent_zombie_mode_increment v n < 16.
Proof.
  unfold apply_consistent_zombie_mode_increment. autounfold with apu_consts. case_tests; land_bounds; lia.
Qed.
#[export] Hint Resolve cgb_zombie_write_range consistent_zombie_range : apu.

Lemma apply_live_write_effect_ok m a v e :
  u8 v -> envelope_ok e -> envelope_ok (apply_live_write_effect m a v e).
Proof.
  intros Hv He. cbv delta [apply_live_write_effect]. upd_ok envelope_ok.
Qed.
#[export] Hint Resolve clock_cgb_live_write_pending_even_tick_ok apply_live_write_effect_ok : apu.

(** A channel never plays with its DAC off. *)
Record runtime_ok (r : ChannelRuntimeState) : Prop := {
  active_has_dac : active r = true -> dac_enabled r = true
}.

Lemma runtime_default_ok : runtime_ok runtime_default.
Proof. constructor. done. Qed.
Lemma set_dac_enabled_ok d r : runtime_ok r -> runtime_ok (set_dac_enabled d r).
Proof. intros [Hr]. constructor. destruct r, d; simpl in *; auto. Qed.
Lemma set_active_from_startup_ok a r : runtime_ok (set_active_from_startup a r).
Proof. constructor. destruct r as [[] b], a; simpl; auto. Qed.
Lemma runtime_trigger_ok r : runtime_ok r -> runtime_ok (runtime_trigger r).
Proof. intros [Hr]. constructor. destruct r as [[] b]; simpl in *; auto. Qed.
Lemma runtime_stop_ok r : runtime_ok r -> runtime_ok (r <| active := false |>).
Proof. intros [Hr]. constructor. destruct r; simpl. done. Qed.
#[export] Hint Resolve runtime_default_ok set_dac_enabled_ok set_active_from_startup_ok runtime_trigger_ok
  runtime_stop_ok : apu.

(** A length counter and its channel after an operation on both. *)
Definition length_ok (n : Z) (lr : Z * ChannelRuntimeState) : Prop := 0 <= fst lr <= n /\ runtime_ok (snd lr).

Lemma apply_extra_length_clocking_ok k n l r :
  0 < n -> 0 <= l <= n -> runtime_ok r -> length_ok n (apply_extra_length_clocking k n l r).
Proof.
  intros Hn Hl Hr. unfold apply_extra_length_clocking, should_apply_extra_length_clocking_on_enable.
  destruct (l =? 0) eqn:H0; [by rewrite orb_true_r|]. prune.
  case_tests; split; simpl; prune; auto with apu; lia.
Qed.

Lemma clock_length_counter_ok b n l r :
  0 <= l <= n -> runtime_ok r -> length_ok n (clock_length_counter b l r).
Proof.
  intros Hl Hr. unfold clock_length_counter.
  destruct (negb b || (l =? 0)) eqn:H0; [done|]. apply orb_false_elim in H0 as [_ H0].
  split; simpl; prune; [lia|]. case_tests; auto with apu.
Qed.

(** *** Frame sequencer *)

Record frame_ok (f : FrameSequencerState) : Prop := { fs_step_range : 0 <= fs_step f < 8 }.

Lemma frame_default_ok : frame_ok frame_sequencer_default.
Proof. constructor. simpl. lia. Qed.
Lemma apply_startup_phase_ok d f : frame_ok (apply_startup_phase d f).
Proof.
  constructor. destruct f. cbn. autounfold with apu_consts. land_bounds. lia.
Qed.
Lemma frame_advance_ok f : frame_ok (snd (frame_sequencer_advance f)).
Proof.
  constructor. unfold frame_sequencer_advance. cbn [snd]. case_tests; destruct f; cbn;
    autounfold with apu_consts; land_bounds; lia.
Qed.
#[export] Hint Resolve frame_default_ok apply_startup_phase_ok frame_advance_ok : apu.

(** ** The envelope in closed form *)

(** The steps [k] clocks make after a trigger; a trigger just before an
    envelope clock loses it. *)
Definition envelope_steps (lost : bool) (p : Z) (k : nat) : Z := Z.max 0 (Z.of_nat k - u8_from_bool lost) / p.

Definition envelope_volume (up : bool) (v0 steps : Z) : Z :=
  if up then Z.min MAX_ENVELOPE_VOLUME (v0 + steps) else Z.max 0 (v0 - steps).

Inductive envelope_phase (up lost : bool) (p v0 : Z) (k : Z) (e : EnvelopeState) : Prop :=
| envelope_moving s :
    automatic_updates_enabled e = true -> 0 <= s ->
    1 <= env_timer e -> (env_timer e <= p \/ (s = 0 /\ env_timer e = p + u8_from_bool lost)) ->
    k = u8_from_bool lost + s * p + p - env_timer e ->
    current_volume e = (if up then v0 + s else v0 - s) -> 0 <= current_volume e <= MAX_ENVELOPE_VOLUME ->
    envelope_phase up lost p v0 k e
| envelope_rested s :
    automatic_updates_enabled e = false -> 0 <= s -> u8_from_bool lost + s * p <= k ->
    (if up then MAX_ENVELOPE_VOLUME <= v0 + s else v0 - s <= 0) ->
    current_volume e = (if up then MAX_ENVELOPE_VOLUME else 0) ->
    envelope_phase up lost p v0 k e.

Definition envelope_shape (up : bool) (p : Z) (e : EnvelopeState) : Prop :=
  pace e = p /\ increase e = up /\ cgb_live_write_short_reload e = false.

Lemma envelope_clock_shape up p e : envelope_shape up p e -> envelope_shape up p (envelope_clock e).
Proof.
  intros (Hp & Hu & Hs). destruct e as [iv i p' au et cv sr ev]. simpl in *. subst.
  unfold envelope_clock. simpl. case_tests; by repeat split.
Qed.

Lemma envelope_clock_phase up lost p v0 k e :
  0 < p -> envelope_shape up p e -> envelope_phase up lost p v0 k e ->
  envelope_phase up lost p v0 (k + 1) (envelope_clock e).
Proof.
  intros Hp (Hpe & Hue & Hse) He. destruct e as [iv i p' au et cv sr ev]. simpl in *. subst p' i sr.
  assert (Hp0 : (p =? 0) = false) by (by apply Z.eqb_neq; lia).
  assert (Hl : 0 <= u8_from_bool lost <= 1) by (destruct lost; simpl; lia).
  destruct He as [s Ha Hs H1 Ht Hk Hv Hr | s Ha Hs Hk Hv Hc]; simpl in *; subst au;
    unfold envelope_clock; simpl; rewrite Hp0; simpl.
  2: { apply (envelope_rested _ _ _ _ _ _ s); simpl; (done || lia). }
  destruct (Z.ltb_spec 0 et); [|lia]. simpl.
  destruct (Z.eqb_spec (et - 1) 0) as [He1|He1]; simpl.
  2: { apply (envelope_moving _ _ _ _ _ _ s); simpl; (done || lia). }
  unfold envelope_timer_reload. simpl. rewrite Hp0. unfold MAX_ENVELOPE_VOLUME in *.
  destruct up; simpl.
  - destruct (Z.ltb_spec cv 15); simpl.
    + apply (envelope_moving _ _ _ _ _ _ (s + 1)); simpl; unfold MAX_ENVELOPE_VOLUME; (done || lia).
    + apply (envelope_rested _ _ _ _ _ _ (s + 1)); simpl; unfold MAX_ENVELOPE_VOLUME; (done || lia).
  - destruct (Z.ltb_spec 0 cv); simpl.
    + apply (envelope_moving _ _ _ _ _ _ (s + 1)); simpl; unfold MAX_ENVELOPE_VOLUME; (done || lia).
    + apply (envelope_rested _ _ _ _ _ _ (s + 1)); simpl; unfold MAX_ENVELOPE_VOLUME; (done || lia).
Qed.

Lemma envelope_phase_volume up lost p v0 k e :
  0 < p -> envelope_phase up lost p v0 (Z.of_nat k) e ->
  current_volume e = envelope_volume up v0 (envelope_steps lost p k).
Proof.
  intros Hp He. unfold envelope_volume, envelope_steps, MAX_ENVELOPE_VOLUME in *.
  assert (Hl : 0 <= u8_from_bool lost <= 1) by (destruct lost; simpl; lia).
  destruct He as [s Ha Hs H1 Ht Hk Hv Hr | s Ha Hs Hk Hv Hc]; unfold MAX_ENVELOPE_VOLUME in *.
  - assert (Hq : Z.max 0 (Z.of_nat k - u8_from_bool lost) / p = s).
    { destruct Ht as [Ht | [-> Ht]].
      - symmetry. apply (Z.div_unique _ _ _ (p - env_timer e)); lia.
      - symmetry. apply (Z.div_unique _ _ _ 0); lia. }
    rewrite Hq, Hv. destruct up; lia.
  - assert (Hq : s <= Z.max 0 (Z.of_nat k - u8_from_bool lost) / p).
    { apply Z.div_le_lower_bound; [lia|]. rewrite Z.mul_comm. lia. }
    rewrite Hc. destruct up; lia.
Qed.

Lemma envelope_reload_phase lost e :
  envelope_ok e -> 0 < pace e ->
  envelope_shape (increase e) (pace e) (envelope_reload lost e) /\
  envelope_phase (increase e) lost (pace e) (initial_volume e) 0 (envelope_reload lost e).
Proof.
  intros [Hi Hpa _ _] Hp. destruct e as [iv i p au et cv sr ev]. simpl in *.
  assert (Hp0 : (p =? 0) = false) by (by apply Z.eqb_neq; lia).
  unfold envelope_reload, envelope_timer_reload. simpl. split; [by repeat split|].
  apply (envelope_moving _ _ _ _ _ _ 0); simpl; rewrite ?Hp0; try done; try lia;
    try (destruct lost; simpl; lia).
  - destruct i; lia.
  - unfold MAX_ENVELOPE_VOLUME. lia.
Qed.

(** The volume envelope in closed form: after a trigger, [k] envelope
    clocks move the volume by one step in its direction per [pace] clocks,
    saturating at [0] and [15]; with pace zero the volume never moves. *)
Theorem envelope_follows_its_ramp (lost : bool) (k : nat) (e : EnvelopeState) :
  envelope_ok e ->
  current_volume (iterate k envelope_clock (envelope_reload lost e)) =
    if pace e =? 0 then initial_volume e
    else envelope_volume (increase e) (initial_volume e) (envelope_steps lost (pace e) k).
Proof.
  intros He. destruct (Z.eqb_spec (pace e) 0) as [H0|H0].
  - assert (Hfix : envelope_clock (envelope_reload lost e) = envelope_reload lost e).
    { destruct e. simpl in *. subst. done. }
    assert (Hk : iterate k envelope_clock (envelope_reload lost e) = envelope_reload lost e)
      by (induction k; simpl; congruence).
    rewrite Hk. by destruct e.
  - assert (Hp : 0 < pace e) by (destruct He; lia).
    destruct (envelope_reload_phase lost e He Hp) as [Hs Hph].
    apply (envelope_phase_volume _ lost (pace e) _ k); [done|].
    assert (H : envelope_shape (increase e) (pace e) (iterate k envelope_clock (envelope_reload lost e)) /\
                envelope_phase (increase e) lost (pace e) (initial_volume e) (Z.of_nat k)
                  (iterate k envelope_clock (envelope_reload lost e))).
    { induction k as [|k [IHs IHp]]; [done|]. rewrite iterate_S.
      split; [by apply envelope_clock_shape|].
      replace (Z.of_nat (S k)) with (Z.of_nat k + 1) by lia. by apply envelope_clock_phase. }
    apply H.
Qed.

Definition attack : EnvelopeState := mkEnvelope 9 true 3 false 0 0 false false.

Lemma envelope_follows_its_ramp_witness :
  envelope_ok attack /\ current_volume (iterate 7 envelope_clock (envelope_reload true attack)) = 11.
Proof.
  assert (H : envelope_ok attack) by (constructor; simpl; lia).
  split; [exact H | exact (envelope_follows_its_ramp true 7 attack H)].
Defined.
