(* ===== verification/ApuPulse.v ===== *)
(** * The pulse generator and channel 2
    ([crates/gb-core/src/apu/channels/pulse.rs], [ch2.rs])

    The square-wave generator the first two channels share, and the second
    channel, which is that generator behind four registers. *)

From Stdlib Require Import ZArith Lia Bool List.
From stdpp Require Import base list decidable.
From S2P Require Import Prelude.
From S2P Require Import Model.
From S2P Require Import Speed.
From S2P Require Import ApuCommon.

Local Open Scope Z_scope.

Record PulseChannelState := mkPulse {
  runtime : ChannelRuntimeState;
  duty : Z;
  pending_duty : option Z;
  duty_step : Z;
  first_trigger_after_power_on_pending : bool;
  power_on_phase : Z;
  suppress_initial_trigger_output : bool;
  trigger_delay_t_cycles : Z;
  just_sampled : bool;
  just_sampled_reload_clocks_remaining : Z;
  timer_stopped_by_dac_disable : bool;
  period_timer : Z;
  length_counter : Z;
  length_enabled : bool;
  envelope : EnvelopeState
}.

#[export] Instance upd_runtime : Update runtime := fun v s =>
  let '(mkPulse _ x2 x3 x4 x5 x6 x7 x8 x9 x10 x11 x12 x13 x14 x15) := s in mkPulse v x2 x3 x4 x5 x6 x7 x8 x9 x10 x11 x12 x13 x14 x15.
#[export] Instance upd_duty : Update duty := fun v s =>
  let '(mkPulse x1 _ x3 x4 x5 x6 x7 x8 x9 x10 x11 x12 x13 x14 x15) := s in mkPulse x1 v x3 x4 x5 x6 x7 x8 x9 x10 x11 x12 x13 x14 x15.
#[export] Instance upd_pending_duty : Update pending_duty := fun v s =>
  let '(mkPulse x1 x2 _ x4 x5 x6 x7 x8 x9 x10 x11 x12 x13 x14 x15) := s in mkPulse x1 x2 v x4 x5 x6 x7 x8 x9 x10 x11 x12 x13 x14 x15.
#[export] Instance upd_duty_step : Update duty_step := fun v s =>
  let '(mkPulse x1 x2 x3 _ x5 x6 x7 x8 x9 x10 x11 x12 x13 x14 x15) := s in mkPulse x1 x2 x3 v x5 x6 x7 x8 x9 x10 x11 x12 x13 x14 x15.
#[export] Instance upd_first_trigger_after_power_on_pending : Update first_trigger_after_power_on_pending := fun v s =>
  let '(mkPulse x1 x2 x3 x4 _ x6 x7 x8 x9 x10 x11 x12 x13 x14 x15) := s in mkPulse x1 x2 x3 x4 v x6 x7 x8 x9 x10 x11 x12 x13 x14 x15.
#[export] Instance upd_power_on_phase : Update power_on_phase := fun v s =>
  let '(mkPulse x1 x2 x3 x4 x5 _ x7 x8 x9 x10 x11 x12 x13 x14 x15) := s in mkPulse x1 x2 x3 x4 x5 v x7 x8 x9 x10 x11 x12 x13 x14 x15.
#[export] Instance upd_suppress_initial_trigger_output : Update suppress_initial_trigger_output := fun v s =>
  let '(mkPulse x1 x2 x3 x4 x5 x6 _ x8 x9 x10 x11 x12 x13 x14 x15) := s in mkPulse x1 x2 x3 x4 x5 x6 v x8 x9 x10 x11 x12 x13 x14 x15.
#[export] Instance upd_trigger_delay_t_cycles : Update trigger_delay_t_cycles := fun v s =>
  let '(mkPulse x1 x2 x3 x4 x5 x6 x7 _ x9 x10 x11 x12 x13 x14 x15) := s in mkPulse x1 x2 x3 x4 x5 x6 x7 v x9 x10 x11 x12 x13 x14 x15.
#[export] Instance upd_just_sampled : Update just_sampled := fun v s =>
  let '(mkPulse x1 x2 x3 x4 x5 x6 x7 x8 _ x10 x11 x12 x13 x14 x15) := s in mkPulse x1 x2 x3 x4 x5 x6 x7 x8 v x10 x11 x12 x13 x14 x15.
#[export] Instance upd_just_sampled_reload_clocks_remaining : Update just_sampled_reload_clocks_remaining := fun v s =>
  let '(mkPulse x1 x2 x3 x4 x5 x6 x7 x8 x9 _ x11 x12 x13 x14 x15) := s in mkPulse x1 x2 x3 x4 x5 x6 x7 x8 x9 v x11 x12 x13 x14 x15.
#[export] Instance upd_timer_stopped_by_dac_disable : Update timer_stopped_by_dac_disable := fun v s =>
  let '(mkPulse x1 x2 x3 x4 x5 x6 x7 x8 x9 x10 _ x12 x13 x14 x15) := s in mkPulse x1 x2 x3 x4 x5 x6 x7 x8 x9 x10 v x12 x13 x14 x15.
#[export] Instance upd_period_timer : Update period_timer := fun v s =>
  let '(mkPulse x1 x2 x3 x4 x5 x6 x7 x8 x9 x10 x11 _ x13 x14 x15) := s in mkPulse x1 x2 x3 x4 x5 x6 x7 x8 x9 x10 x11 v x13 x14 x15.
#[export] Instance upd_length_counter : Update length_counter := fun v s =>
  let '(mkPulse x1 x2 x3 x4 x5 x6 x7 x8 x9 x10 x11 x12 _ x14 x15) := s in mkPulse x1 x2 x3 x4 x5 x6 x7 x8 x9 x10 x11 x12 v x14 x15.
#[export] Instance upd_length_enabled : Update length_enabled := fun v s =>
  let '(mkPulse x1 x2 x3 x4 x5 x6 x7 x8 x9 x10 x11 x12 x13 _ x15) := s in mkPulse x1 x2 x3 x4 x5 x6 x7 x8 x9 x10 x11 x12 x13 v x15.
#[export] Instance upd_envelope : Update envelope := fun v s =>
  let '(mkPulse x1 x2 x3 x4 x5 x6 x7 x8 x9 x10 x11 x12 x13 x14 _) := s in mkPulse x1 x2 x3 x4 x5 x6 x7 x8 x9 x10 x11 x12 x13 x14 v.

Record PulseStartupState := mkPulseStartup {
  st_length_duty_value : Z;
  st_envelope_value : Z;
  st_nrx4 : Z;
  st_period_value : Z;
  st_runtime : ChannelRuntimeState;
  st_first_trigger_after_power_on_pending : bool
}.

#[export] Instance upd_st_length_duty_value : Update st_length_duty_value := fun v s =>
  let '(mkPulseStartup _ x2 x3 x4 x5 x6) := s in mkPulseStartup v x2 x3 x4 x5 x6.
#[export] Instance upd_st_envelope_value : Update st_envelope_value := fun v s =>
  let '(mkPulseStartup x1 _ x3 x4 x5 x6) := s in mkPulseStartup x1 v x3 x4 x5 x6.
#[export] Instance upd_st_nrx4 : Update st_nrx4 := fun v s =>
  let '(mkPulseStartup x1 x2 _ x4 x5 x6) := s in mkPulseStartup x1 x2 v x4 x5 x6.
#[export] Instance upd_st_period_value : Update st_period_value := fun v s =>
  let '(mkPulseStartup x1 x2 x3 _ x5 x6) := s in mkPulseStartup x1 x2 x3 v x5 x6.
#[export] Instance upd_st_runtime : Update st_runtime := fun v s =>
  let '(mkPulseStartup x1 x2 x3 x4 _ x6) := s in mkPulseStartup x1 x2 x3 x4 v x6.
#[export] Instance upd_st_first_trigger_after_power_on_pending : Update st_first_trigger_after_power_on_pending := fun v s =>
  let '(mkPulseStartup x1 x2 x3 x4 x5 _) := s in mkPulseStartup x1 x2 x3 x4 x5 v.

Definition pulse_default : PulseChannelState :=
  mkPulse runtime_default 0 None 0 false 0 false 0 false 0 false 0 0 false envelope_default.

Definition clear (_p : PulseChannelState) : PulseChannelState := pulse_default.

Definition clear_preserving_length (p : PulseChannelState) : PulseChannelState :=
  let l := length_counter p in
  (clear p) <| length_counter := l |>.

Definition pulse_mark_powered_on (p : PulseChannelState) : PulseChannelState :=
  p <| first_trigger_after_power_on_pending := true |>
    <| power_on_phase := 0 |>
    <| suppress_initial_trigger_output := false |>
    <| trigger_delay_t_cycles := 0 |>
    <| just_sampled := false |>
    <| just_sampled_reload_clocks_remaining := 0 |>
    <| timer_stopped_by_dac_disable := negb (dac_enabled (runtime p)) |>.

Definition apply_length_duty_write (value : Z) (p : PulseChannelState) : PulseChannelState :=
  let d := Z.shiftr (Z.land value PULSE_DUTY_MASK) PULSE_DUTY_SHIFT in
  let p := if active (runtime p) then p <| pending_duty := Some d |>
           else p <| duty := d |> <| pending_duty := None |> in
  p <| length_counter := pulse_length_counter_from_load value |>.

Definition write_length_counter_while_powered_off (value : Z) (p : PulseChannelState) : PulseChannelState :=
  p <| length_counter := pulse_length_counter_from_load value |>.

Definition apply_envelope_write (value : Z) (p : PulseChannelState) : PulseChannelState :=
  p <| envelope := envelope_apply_write value (envelope p) |>.

Definition apply_live_envelope_write_effect (m : ConsoleModel) (value : Z) (p : PulseChannelState)
    : PulseChannelState :=
  p <| envelope := apply_live_write_effect m (active (runtime p)) value (envelope p) |>.

Definition apply_dac_enabled (d : bool) (p : PulseChannelState) : PulseChannelState :=
  let p := if negb d then
             p <| timer_stopped_by_dac_disable := true |>
               <| trigger_delay_t_cycles := 0 |>
               <| just_sampled := false |>
               <| just_sampled_reload_clocks_remaining := 0 |>
           else p in
  p <| runtime := set_dac_enabled d (runtime p) |>.

Definition apply_length_enable (value : Z) (p : PulseChannelState) : PulseChannelState :=
  p <| length_enabled := has_bits value LENGTH_ENABLE_BIT |>.

Definition apply_extra_length_clocking_on_enable (m : ConsoleModel)
    (was_length_enabled next_step_clocks_length trigger trigger_reloaded_zero_length : bool)
    (p : PulseChannelState) : PulseChannelState :=
  let '(l, r) := apply_extra_length_clocking
    (mkExtra m (length_enabled p) was_length_enabled next_step_clocks_length trigger trigger_reloaded_zero_length)
    PULSE_LENGTH_COUNTER_RELOAD (length_counter p) (runtime p) in
  p <| length_counter := l |> <| runtime := r |>.

Definition pulse_apply_powered_startup (s : PulseStartupState) (p : PulseChannelState) : PulseChannelState :=
  let p := clear p in
  let p := apply_length_duty_write (st_length_duty_value s) p in
  let p := apply_envelope_write (st_envelope_value s) p in
  let p := apply_length_enable (st_nrx4 s) p in
  let p := p <| first_trigger_after_power_on_pending := st_first_trigger_after_power_on_pending s |>
             <| period_timer := pulse_timer_reload (st_period_value s) |> in
  let p := p <| envelope := envelope_reload false (envelope p) |> in
  let p := p <| runtime := st_runtime s |> in
  let p := p <| timer_stopped_by_dac_disable := negb (dac_enabled (runtime p)) |> in
  let p := if negb (first_trigger_after_power_on_pending p) then p <| power_on_phase := 0 |> else p in
  p <| just_sampled := false |> <| just_sampled_reload_clocks_remaining := 0 |>.

Definition apply_channel_startup (length_duty_value envelope_value nrx4 period_value : Z)
    (d a : bool) (p : PulseChannelState) : PulseChannelState :=
  let r := set_active_from_startup a (set_dac_enabled d runtime_default) in
  pulse_apply_powered_startup
    (mkPulseStartup length_duty_value envelope_value nrx4 period_value r (negb a)) p.

Definition pulse_power_off (m : ConsoleModel) (p : PulseChannelState) : PulseChannelState :=
  if is_dmg_family m then clear_preserving_length p else clear p.

(** Returns whether a zero length counter was reloaded. *)
Definition pulse_trigger (m : ConsoleModel) (speed_mode : CgbSpeedMode) (period_value envelope_value : Z)
    (next_step_clocks_envelope : bool) (p : PulseChannelState) : bool * PulseChannelState :=
  let was_active := active (runtime p) in
  let reloaded_zero_length := length_counter p =? 0 in
  let p := if length_counter p =? 0
           then p <| length_counter := PULSE_LENGTH_COUNTER_RELOAD |> <| length_enabled := false |> else p in
  let p := apply_envelope_write envelope_value p in
  let p := p <| period_timer := pulse_timer_reload_preserving_trigger_phase period_value (period_timer p) |>
             <| trigger_delay_t_cycles :=
                  cgb_pulse_trigger_delay_t_cycles m speed_mode was_active (power_on_phase p) |> in
  let p := p <| envelope := envelope_reload next_step_clocks_envelope (envelope p) |> in
  let p := p <| runtime := runtime_trigger (runtime p) |> in
  let p := if active (runtime p) && negb was_active then p <| suppress_initial_trigger_output := true |> else p in
  let p := if active (runtime p) then p <| timer_stopped_by_dac_disable := false |> else p in
  let p := if first_trigger_after_power_on_pending p
           then p <| first_trigger_after_power_on_pending := false |> else p in
  (reloaded_zero_length, p).

Definition reload_period_after_write_if_just_sampled (period_value : Z) (p : PulseChannelState)
    : PulseChannelState :=
  if just_sampled p then p <| period_timer := pulse_timer_reload period_value |> else p.

Definition pulse_tick_fast_timer_with_clock_gate (period_value : Z) (clock_period_timer : bool)
    (p : PulseChannelState) : PulseChannelState :=
  let p :=
    if clock_period_timer && just_sampled p then
      let p := p <| just_sampled_reload_clocks_remaining :=
                      Z.max 0 (just_sampled_reload_clocks_remaining p - 1) |> in
      if just_sampled_reload_clocks_remaining p =? 0 then p <| just_sampled := false |> else p
    else p in
  if first_trigger_after_power_on_pending p then
    p <| power_on_phase := Z.land (power_on_phase p + 1) CGB_PULSE_POWER_ON_PHASE_MASK |>
  else if 0 <? trigger_delay_t_cycles p then
    p <| trigger_delay_t_cycles := trigger_delay_t_cycles p - 1 |>
  else if negb clock_period_timer then p
  else if timer_stopped_by_dac_disable p then p
  else
    let p := if 0 <? period_timer p then p <| period_timer := period_timer p - 1 |> else p in
    if period_timer p =? 0 then
      let p := p <| period_timer := pulse_timer_reload period_value |>
                 <| duty_step := Z.land (duty_step p + 1) PULSE_DUTY_STEP_MASK |> in
      let p := match pending_duty p with
               | Some d => p <| pending_duty := None |> <| duty := d |>
               | None => p
               end in
      p <| suppress_initial_trigger_output := false |>
        <| just_sampled := true |>
        <| just_sampled_reload_clocks_remaining := 3 |>
    else p.

Definition pulse_clock_length (p : PulseChannelState) : PulseChannelState :=
  let '(l, r) := clock_length_counter (length_enabled p) (length_counter p) (runtime p) in
  p <| length_counter := l |> <| runtime := r |>.

Definition pulse_clock_envelope (p : PulseChannelState) : PulseChannelState :=
  p <| envelope := envelope_clock (envelope p) |>.

Definition pulse_clock_cgb_live_write_pending_even_envelope_tick (p : PulseChannelState) : PulseChannelState :=
  p <| envelope := clock_cgb_live_write_pending_even_tick (envelope p) |>.

Definition pulse_current_digital_output (p : PulseChannelState) : Z :=
  if negb (active (runtime p)) then 0
  else if suppress_initial_trigger_output p then 0
  else if pulse_waveform_high (duty p) (duty_step p) then current_volume (envelope p) else 0.

(** ** Channel 2 *)

Inductive Channel2Register := Nr21 | Nr22 | Nr23 | Nr24.

Record Channel2State := mkChannel2 {
  nr21 : Z;
  nr22 : Z;
  nr23 : Z;
  nr24 : Z;
  pulse2 : PulseChannelState
}.

#[export] Instance upd_nr21 : Update nr21 := fun v s =>
  let '(mkChannel2 _ x2 x3 x4 x5) := s in mkChannel2 v x2 x3 x4 x5.
#[export] Instance upd_nr22 : Update nr22 := fun v s =>
  let '(mkChannel2 x1 _ x3 x4 x5) := s in mkChannel2 x1 v x3 x4 x5.
#[export] Instance upd_nr23 : Update nr23 := fun v s =>
  let '(mkChannel2 x1 x2 _ x4 x5) := s in mkChannel2 x1 x2 v x4 x5.
#[export] Instance upd_nr24 : Update nr24 := fun v s =>
  let '(mkChannel2 x1 x2 x3 _ x5) := s in mkChannel2 x1 x2 x3 v x5.
#[export] Instance upd_pulse2 : Update pulse2 := fun v s =>
  let '(mkChannel2 x1 x2 x3 x4 _) := s in mkChannel2 x1 x2 x3 x4 v.

Definition ch2_default : Channel2State := mkChannel2 0 0 0 0 pulse_default.

Definition ch2_derived_dac_enabled (c : Channel2State) : bool := has_bits (nr22 c) DAC_ENABLE_REGISTER_MASK.
Definition ch2_period_value (c : Channel2State) : Z := pulse_period_from_registers (nr23 c) (nr24 c).

Definition read_nr21 (c : Channel2State) : Z := Z.lor (Z.land (nr21 c) PULSE_DUTY_MASK) NR11_WRITE_ONLY_MASK.
Definition read_nr24 (c : Channel2State) : Z := Z.lor (Z.land (nr24 c) NR14_READ_MASK) NR14_FORCED_HIGH_MASK.

Definition ch2_read_register (r : Channel2Register) (c : Channel2State) : Z :=
  match r with
  | Nr21 => read_nr21 c
  | Nr22 => nr22 c
  | Nr23 => NR23_WRITE_ONLY_READ_VALUE
  | Nr24 => read_nr24 c
  end.

Definition write_nr21 (value : Z) (c : Channel2State) : Channel2State :=
  let c := c <| nr21 := value |> in
  c <| pulse2 := apply_length_duty_write value (pulse2 c) |>.

Definition write_nr22 (value : Z) (m : ConsoleModel) (c : Channel2State) : Channel2State :=
  let c := c <| pulse2 := apply_live_envelope_write_effect m value (pulse2 c) |> in
  let c := c <| nr22 := value |> in
  c <| pulse2 := apply_dac_enabled (ch2_derived_dac_enabled c) (pulse2 c) |>.

Definition write_nr23 (value : Z) (m : ConsoleModel) (c : Channel2State) : Channel2State :=
  let c := c <| nr23 := value |> in
  if is_cgb_family m
  then c <| pulse2 := reload_period_after_write_if_just_sampled (ch2_period_value c) (pulse2 c) |>
  else c.

Definition ch2_trigger (m : ConsoleModel) (speed_mode : CgbSpeedMode) (next_step_clocks_envelope : bool)
    (c : Channel2State) : bool * Channel2State :=
  let '(b, p) := pulse_trigger m speed_mode (ch2_period_value c) (nr22 c) next_step_clocks_envelope (pulse2 c) in
  (b, c <| pulse2 := p |>).

Definition write_nr24 (value : Z) (m : ConsoleModel) (speed_mode : CgbSpeedMode) (next_frame_sequencer_step : Z)
    (c : Channel2State) : Channel2State :=
  let '(r, plan) := begin_nrx4_write value NRX4_WRITABLE_MASK next_frame_sequencer_step
    (length_enabled (pulse2 c)) in
  let c := c <| nr24 := r |> in
  let '(plan, c) :=
    if ctx_trigger (plan_context plan) then
      let '(b, c) := ch2_trigger m speed_mode (ctx_next_step_clocks_envelope (plan_context plan)) c in
      (observe_length_enabled_after_trigger (length_enabled (pulse2 c))
         (observe_trigger_reloaded_zero_length b plan), c)
    else if is_cgb_family m then
      (plan, c <| pulse2 := reload_period_after_write_if_just_sampled (ch2_period_value c) (pulse2 c) |>)
    else (plan, c) in
  let c := c <| pulse2 := (pulse2 c) <| length_enabled := ctx_length_enabled (plan_context plan) |> |> in
  c <| pulse2 := apply_extra_length_clocking_on_enable m (plan_was_length_enabled plan)
         (ctx_next_step_clocks_length (plan_context plan)) (ctx_trigger (plan_context plan))
         (plan_trigger_reloaded_zero_length plan) (pulse2 c) |>.

Definition ch2_write_register (r : Channel2Register) (value : Z) (m : ConsoleModel) (speed_mode : CgbSpeedMode)
    (next_frame_sequencer_step : Z) (c : Channel2State) : Channel2State :=
  match r with
  | Nr21 => write_nr21 value c
  | Nr22 => write_nr22 value m c
  | Nr23 => write_nr23 value m c
  | Nr24 => write_nr24 value m speed_mode next_frame_sequencer_step c
  end.

Definition ch2_write_length_while_powered_off (value : Z) (c : Channel2State) : Channel2State :=
  c <| pulse2 := write_length_counter_while_powered_off value (pulse2 c) |>.

Definition ch2_write_powered_off_register (r : Channel2Register) (value : Z) (m : ConsoleModel)
    (c : Channel2State) : Channel2State :=
  if negb (is_dmg_family m) then c
  else match r with Nr21 => ch2_write_length_while_powered_off value c | _ => c end.

Definition ch2_apply_powered_startup (v21 v22 v23 v24 : Z) (a : bool) (c : Channel2State) : Channel2State :=
  let c := c <| nr21 := v21 |> <| nr22 := v22 |> <| nr23 := v23 |>
             <| nr24 := Z.land v24 NRX4_WRITABLE_MASK |> in
  c <| pulse2 := apply_channel_startup (nr21 c) (nr22 c) (nr24 c) (ch2_period_value c)
         (ch2_derived_dac_enabled c) a (pulse2 c) |>.

Definition ch2_power_off_registers (m : ConsoleModel) (c : Channel2State) : Channel2State :=
  let c := c <| nr21 := 0 |> <| nr22 := 0 |> <| nr23 := 0 |> <| nr24 := 0 |> in
  c <| pulse2 := pulse_power_off m (pulse2 c) |>.

Definition ch2_mark_powered_on (c : Channel2State) : Channel2State :=
  c <| pulse2 := pulse_mark_powered_on (pulse2 c) |>.

Definition ch2_tick_fast_timer_with_clock_gate (clock_period_timer : bool) (c : Channel2State) : Channel2State :=
  c <| pulse2 := pulse_tick_fast_timer_with_clock_gate (ch2_period_value c) clock_period_timer (pulse2 c) |>.

Definition ch2_clock_length (c : Channel2State) : Channel2State := c <| pulse2 := pulse_clock_length (pulse2 c) |>.
Definition ch2_clock_envelope (c : Channel2State) : Channel2State :=
  c <| pulse2 := pulse_clock_envelope (pulse2 c) |>.
Definition ch2_clock_cgb_live_write_pending_even_envelope_tick (c : Channel2State) : Channel2State :=
  c <| pulse2 := pulse_clock_cgb_live_write_pending_even_envelope_tick (pulse2 c) |>.

Definition ch2_current_digital_output (c : Channel2State) : Z := pulse_current_digital_output (pulse2 c).

(** ** Invariants *)

Record pulse_ok (p : PulseChannelState) : Prop := {
  pulse_runtime_ok : runtime_ok (runtime p);
  pulse_duty_range : 0 <= duty p < 4;
  pulse_pending_duty_range : 0 <= default 0 (pending_duty p) < 4;
  pulse_duty_step_range : 0 <= duty_step p < 8;
  pulse_power_on_phase_range : 0 <= power_on_phase p < 8;
  pulse_trigger_delay_range : 0 <= trigger_delay_t_cycles p <= 23;
  pulse_just_sampled_range : 0 <= just_sampled_reload_clocks_remaining p <= 3;
  pulse_period_timer_range : 0 <= period_timer p <= 8192;
  pulse_length_counter_range : 0 <= length_counter p <= 64;
  pulse_envelope_ok : envelope_ok (envelope p)
}.

#[export] Hint Extern 3 (pulse_ok (_ _ _)) => upd_hint pulse_ok : apu.

Lemma pulse_default_ok : pulse_ok pulse_default.
Proof. constructor; simpl; auto with apu; (done || lia). Qed.
#[export] Hint Resolve pulse_default_ok : apu.

(** A channel whose DAC has been switched off keeps nothing but its registers. *)
Lemma clear_ok p : pulse_ok (clear p).
Proof. apply pulse_default_ok. Qed.

Lemma pulse_mark_powered_on_ok p : pulse_ok p -> pulse_ok (pulse_mark_powered_on p).
Proof. intros Hp. cbv delta [pulse_mark_powered_on]. upd_ok pulse_ok. Qed.

Lemma apply_length_duty_write_ok v p : u8 v -> pulse_ok p -> pulse_ok (apply_length_duty_write v p).
Proof. intros Hv Hp. cbv delta [apply_length_duty_write]. upd_ok pulse_ok. Qed.

Lemma write_length_counter_while_powered_off_ok v p :
  pulse_ok p -> pulse_ok (write_length_counter_while_powered_off v p).
Proof. intros Hp. cbv delta [write_length_counter_while_powered_off]. upd_ok pulse_ok. Qed.

Lemma apply_envelope_write_ok v p : u8 v -> pulse_ok p -> pulse_ok (apply_envelope_write v p).
Proof. intros Hv Hp. cbv delta [apply_envelope_write]. upd_ok pulse_ok. Qed.

Lemma apply_live_envelope_write_effect_ok m v p :
  u8 v -> pulse_ok p -> pulse_ok (apply_live_envelope_write_effect m v p).
Proof. intros Hv Hp. cbv delta [apply_live_envelope_write_effect]. upd_ok pulse_ok. Qed.

Lemma apply_dac_enabled_ok d p : pulse_ok p -> pulse_ok (apply_dac_enabled d p).
Proof. intros Hp. cbv delta [apply_dac_enabled]. upd_ok pulse_ok. Qed.

Lemma apply_length_enable_ok v p : pulse_ok p -> pulse_ok (apply_length_enable v p).
Proof. intros Hp. cbv delta [apply_length_enable]. upd_ok pulse_ok. Qed.

Lemma set_length_runtime_ok p lr :
  pulse_ok p -> length_ok 64 lr -> pulse_ok (p <| length_counter := fst lr |> <| runtime := snd lr |>).
Proof. intros Hp [Hl Hr]. upd_ok pulse_ok. Qed.

Lemma apply_extra_length_clocking_on_enable_ok m w n t z p :
  pulse_ok p -> pulse_ok (apply_extra_length_clocking_on_enable m w n t z p).
Proof.
  intros Hp. unfold apply_extra_length_clocking_on_enable.
  rewrite (surjective_pairing (apply_extra_length_clocking _ _ _ _)).
  apply set_length_runtime_ok; [done|]. destruct Hp.
  apply apply_extra_length_clocking_ok; (done || lia).
Qed.

Lemma pulse_clock_length_ok p : pulse_ok p -> pulse_ok (pulse_clock_length p).
Proof.
  intros Hp. unfold pulse_clock_length.
  rewrite (surjective_pairing (clock_length_counter _ _ _)).
  apply set_length_runtime_ok; [done|]. destruct Hp. by apply clock_length_counter_ok.
Qed.

Lemma pulse_clock_envelope_ok p : pulse_ok p -> pulse_ok (pulse_clock_envelope p).
Proof. intros Hp. cbv delta [pulse_clock_envelope]. upd_ok pulse_ok. Qed.

Lemma pulse_clock_pending_ok p :
  pulse_ok p -> pulse_ok (pulse_clock_cgb_live_write_pending_even_envelope_tick p).
Proof. intros Hp. cbv delta [pulse_clock_cgb_live_write_pending_even_envelope_tick]. upd_ok pulse_ok. Qed.

Lemma reload_if_just_sampled_ok v p : pulse_ok p -> pulse_ok (reload_period_after_write_if_just_sampled v p).
Proof. intros Hp. cbv delta [reload_period_after_write_if_just_sampled]. upd_ok pulse_ok. Qed.

Lemma pulse_power_off_ok m p : pulse_ok p -> pulse_ok (pulse_power_off m p).
Proof.
  intros Hp. cbv delta [pulse_power_off clear_preserving_length clear]. upd_ok pulse_ok.
Qed.

#[export] Hint Resolve pulse_mark_powered_on_ok apply_length_duty_write_ok
  write_length_counter_while_powered_off_ok apply_envelope_write_ok apply_live_envelope_write_effect_ok
  apply_dac_enabled_ok apply_length_enable_ok apply_extra_length_clocking_on_enable_ok pulse_clock_length_ok
  pulse_clock_envelope_ok pulse_clock_pending_ok reload_if_just_sampled_ok pulse_power_off_ok : apu.

Lemma pulse_trigger_ok m s v e b p : u8 e -> pulse_ok p -> pulse_ok (snd (pulse_trigger m s v e b p)).
Proof.
  intros He Hp. cbv delta [pulse_trigger]. cbv beta. upd_ok pulse_ok.
Qed.

Lemma pulse_tick_ok v g p : pulse_ok p -> pulse_ok (pulse_tick_fast_timer_with_clock_gate v g p).
Proof. intros Hp. cbv delta [pulse_tick_fast_timer_with_clock_gate]. upd_ok pulse_ok. Qed.

Lemma apply_channel_startup_ok ld e n v d a p :
  u8 ld -> u8 e -> pulse_ok (apply_channel_startup ld e n v d a p).
Proof.
  intros Hld He. cbv delta [apply_channel_startup pulse_apply_powered_startup]. cbv beta.
  assert (pulse_ok (clear p)) by apply clear_ok. cbn [st_length_duty_value st_envelope_value st_nrx4 st_period_value
    st_runtime st_first_trigger_after_power_on_pending].
  upd_ok pulse_ok.
Qed.
#[export] Hint Resolve pulse_trigger_ok pulse_tick_ok apply_channel_startup_ok : apu.

(** The digital level is a volume. *)
Lemma pulse_output_range p : pulse_ok p -> 0 <= pulse_current_digital_output p < 16.
Proof.
  intros [? ? ? ? ? ? ? ? ? [? ? ? ?]]. unfold pulse_current_digital_output. case_tests; lia.
Qed.

#[global] Arguments apply_length_duty_write : simpl never.
#[global] Arguments apply_envelope_write : simpl never.
#[global] Arguments apply_live_envelope_write_effect : simpl never.
#[global] Arguments apply_dac_enabled : simpl never.
#[global] Arguments apply_extra_length_clocking_on_enable : simpl never.
#[global] Arguments reload_period_after_write_if_just_sampled : simpl never.
#[global] Arguments pulse_trigger : simpl never.
#[global] Arguments pulse_tick_fast_timer_with_clock_gate : simpl never.
#[global] Arguments apply_channel_startup : simpl never.
#[global] Arguments pulse_power_off : simpl never.

(** ** Channel 2 *)

Record ch2_ok (c : Channel2State) : Prop := {
  nr21_u8 : u8 (nr21 c);
  nr22_u8 : u8 (nr22 c);
  nr23_u8 : u8 (nr23 c);
  nr24_u8 : u8 (nr24 c);
  ch2_pulse_ok : pulse_ok (pulse2 c)
}.

#[export] Hint Extern 3 (ch2_ok (_ _ _)) => upd_hint ch2_ok : apu.

Lemma ch2_default_ok : ch2_ok ch2_default.
Proof. constructor; simpl; auto with apu gb. Qed.

Lemma begin_nrx4_register_u8 v mask step b : u8 v -> u8 (fst (begin_nrx4_write v mask step b)).
Proof. intros. simpl. auto with gb. Qed.

Lemma write_nr21_ok v c : u8 v -> ch2_ok c -> ch2_ok (write_nr21 v c).
Proof. intros Hv Hc. cbv delta [write_nr21]. upd_ok ch2_ok. Qed.
Lemma write_nr22_ok v m c : u8 v -> ch2_ok c -> ch2_ok (write_nr22 v m c).
Proof. intros Hv Hc. cbv delta [write_nr22]. upd_ok ch2_ok. Qed.
Lemma write_nr23_ok v m c : u8 v -> ch2_ok c -> ch2_ok (write_nr23 v m c).
Proof. intros Hv Hc. cbv delta [write_nr23]. upd_ok ch2_ok. Qed.

Lemma ch2_trigger_ok m s b c : ch2_ok c -> ch2_ok (snd (ch2_trigger m s b c)).
Proof.
  intros Hc. unfold ch2_trigger. rewrite (surjective_pairing (pulse_trigger _ _ _ _ _ _)). cbn [snd].
  upd_ok ch2_ok.
Qed.
#[export] Hint Resolve ch2_default_ok write_nr21_ok write_nr22_ok write_nr23_ok ch2_trigger_ok : apu.

Lemma write_nr24_ok v m s n c : u8 v -> ch2_ok c -> ch2_ok (write_nr24 v m s n c).
Proof.
  intros Hv Hc. cbv delta [write_nr24 begin_nrx4_write]. cbv beta.
  upd_ok ch2_ok.
Qed.

Lemma ch2_write_register_ok r v m s n c : u8 v -> ch2_ok c -> ch2_ok (ch2_write_register r v m s n c).
Proof. intros Hv Hc. destruct r; simpl; auto using write_nr24_ok with apu. Qed.

Lemma ch2_write_powered_off_register_ok r v m c :
  ch2_ok c -> ch2_ok (ch2_write_powered_off_register r v m c).
Proof.
  intros Hc. unfold ch2_write_powered_off_register. destruct (negb _), r; try done.
  cbv delta [ch2_write_length_while_powered_off]. upd_ok ch2_ok.
Qed.

Lemma ch2_apply_powered_startup_ok v1 v2 v3 v4 a c :
  u8 v1 -> u8 v2 -> u8 v3 -> u8 v4 -> ch2_ok c -> ch2_ok (ch2_apply_powered_startup v1 v2 v3 v4 a c).
Proof. intros H1 H2 H3 H4 Hc. cbv delta [ch2_apply_powered_startup]. upd_ok ch2_ok. Qed.

Lemma ch2_power_off_registers_ok m c : ch2_ok c -> ch2_ok (ch2_power_off_registers m c).
Proof. intros Hc. cbv delta [ch2_power_off_registers]. upd_ok ch2_ok. Qed.

Lemma ch2_on_pulse_ok c p : ch2_ok c -> pulse_ok p -> ch2_ok (c <| pulse2 := p |>).
Proof. intros Hc Hp. upd_ok ch2_ok. Qed.

Lemma ch2_mark_powered_on_ok c : ch2_ok c -> ch2_ok (ch2_mark_powered_on c).
Proof. intros Hc. cbv delta [ch2_mark_powered_on]. upd_ok ch2_ok. Qed.
Lemma ch2_tick_ok g c : ch2_ok c -> ch2_ok (ch2_tick_fast_timer_with_clock_gate g c).
Proof. intros Hc. cbv delta [ch2_tick_fast_timer_with_clock_gate]. upd_ok ch2_ok. Qed.
Lemma ch2_clock_length_ok c : ch2_ok c -> ch2_ok (ch2_clock_length c).
Proof. intros Hc. cbv delta [ch2_clock_length]. upd_ok ch2_ok. Qed.
Lemma ch2_clock_envelope_ok c : ch2_ok c -> ch2_ok (ch2_clock_envelope c).
Proof. intros Hc. cbv delta [ch2_clock_envelope]. upd_ok ch2_ok. Qed.
Lemma ch2_clock_pending_ok c :
  ch2_ok c -> ch2_ok (ch2_clock_cgb_live_write_pending_even_envelope_tick c).
Proof. intros Hc. cbv delta [ch2_clock_cgb_live_write_pending_even_envelope_tick]. upd_ok ch2_ok. Qed.

Lemma ch2_output_range c : ch2_ok c -> 0 <= ch2_current_digital_output c < 16.
Proof. intros Hc. apply pulse_output_range, Hc. Qed.

Lemma ch2_read_u8 r c : ch2_ok c -> u8 (ch2_read_register r c).
Proof.
  intros [H1 H2 H3 H4 _].
  destruct r; simpl; unfold read_nr21, read_nr24, PULSE_DUTY_MASK, NR11_WRITE_ONLY_MASK,
    NR23_WRITE_ONLY_READ_VALUE, NR14_READ_MASK, NR14_FORCED_HIGH_MASK; auto 6 with gb.
Qed.
#[export] Hint Resolve write_nr24_ok ch2_write_register_ok ch2_write_powered_off_register_ok
  ch2_apply_powered_startup_ok ch2_power_off_registers_ok ch2_mark_powered_on_ok ch2_tick_ok
  ch2_clock_length_ok ch2_clock_envelope_ok ch2_clock_pending_ok ch2_output_range ch2_read_u8 : apu.

(** ** The waveform in time *)

(** The generator is clocked and nothing holds it back. *)
Record running (p : PulseChannelState) : Prop := {
  running_started : first_trigger_after_power_on_pending p = false;
  running_undelayed : trigger_delay_t_cycles p = 0;
  running_unstopped : timer_stopped_by_dac_disable p = false
}.

Definition pulse_ticks (n : nat) (v : Z) (p : PulseChannelState) : PulseChannelState :=
  iterate n (pulse_tick_fast_timer_with_clock_gate v true) p.

(** Aging the just-sampled window leaves timer and phase alone. *)
Lemma tick_countdown v p :
  running p -> 1 < period_timer p ->
  let p' := pulse_tick_fast_timer_with_clock_gate v true p in
  running p' /\ period_timer p' = period_timer p - 1 /\ duty_step p' = duty_step p.
Proof.
  intros [H1 H2 H3] Ht. destruct p as [rt du pd ds ft ph su td js jr ts pt lc le en]. simpl in *. subst.
  unfold pulse_tick_fast_timer_with_clock_gate. destruct js; simpl.
  - destruct (Z.max 0 (jr - 1) =? 0); simpl;
      (destruct (Z.ltb_spec 0 pt); [|lia]); simpl; (destruct (Z.eqb_spec (pt - 1) 0); [lia|]); by repeat split.
  - (destruct (Z.ltb_spec 0 pt); [|lia]); simpl. (destruct (Z.eqb_spec (pt - 1) 0); [lia|]). by repeat split.
Qed.

Lemma tick_expiry v p :
  running p -> period_timer p = 1 ->
  let p' := pulse_tick_fast_timer_with_clock_gate v true p in
  running p' /\ period_timer p' = pulse_timer_reload v /\ duty_step p' = Z.land (duty_step p + 1) PULSE_DUTY_STEP_MASK.
Proof.
  intros [H1 H2 H3] Ht. destruct p as [rt du pd ds ft ph su td js jr ts pt lc le en]. simpl in *. subst.
  unfold pulse_tick_fast_timer_with_clock_gate. destruct js; simpl.
  - destruct (Z.max 0 (jr - 1) =? 0), pd; by repeat split.
  - destruct pd; by repeat split.
Qed.

Lemma ticks_countdown v n p :
  running p -> Z.of_nat n < period_timer p ->
  running (pulse_ticks n v p) /\ period_timer (pulse_ticks n v p) = period_timer p - Z.of_nat n /\
  duty_step (pulse_ticks n v p) = duty_step p.
Proof.
  revert p. induction n as [|n IH]; intros p Hr Hn.
  - unfold pulse_ticks. cbn [iterate]. split; [done|]. split; [lia | done].
  - destruct (tick_countdown v p Hr ltac:(lia)) as (Hr' & Ht & Hd).
    destruct (IH _ Hr' ltac:(lia)) as (Hr'' & Ht'' & Hd''). unfold pulse_ticks in *. simpl.
    split; [done|]. split; [lia | congruence].
Qed.

Definition period_ticks (v : Z) : nat := Z.to_nat (pulse_timer_reload v).

Lemma one_period v p :
  running p -> period_timer p = pulse_timer_reload v ->
  running (pulse_ticks (period_ticks v) v p) /\
  period_timer (pulse_ticks (period_ticks v) v p) = pulse_timer_reload v /\
  duty_step (pulse_ticks (period_ticks v) v p) = (duty_step p + 1) mod 8.
Proof.
  intros Hr Ht. pose proof (pulse_timer_reload_range v) as Hv.
  replace (period_ticks v) with ((period_ticks v - 1) + 1)%nat by (unfold period_ticks; lia).
  destruct (ticks_countdown v (period_ticks v - 1) p Hr) as (Hr' & Ht' & Hd'); [unfold period_ticks; lia|].
  unfold pulse_ticks in *. rewrite iterate_add. simpl.
  destruct (tick_expiry v _ Hr') as (Hr'' & Ht'' & Hd''); [unfold period_ticks in *; lia|].
  split; [done|]. split; [done|]. rewrite Hd'', Hd'. unfold PULSE_DUTY_STEP_MASK. apply land_07.
Qed.

(** A running pulse channel plays its duty pattern at the rate its period
    registers set: the step advances once every [(2048 - period) * 4] T-cycles,
    so after [n] periods it has advanced [n] steps modulo eight, and the whole
    waveform repeats every eight periods. *)
Theorem pulse_plays_at_its_period (v : Z) (n : nat) (p : PulseChannelState) :
  pulse_ok p -> running p -> period_timer p = pulse_timer_reload v ->
  let p' := pulse_ticks (n * period_ticks v) v p in
  duty_step p' = (duty_step p + Z.of_nat n) mod 8 /\
  period_timer p' = pulse_timer_reload v /\
  Z.of_nat (period_ticks v) = (2048 - v mod 2048) * 4.
Proof.
  intros Hok Hr Ht. assert (Hs := pulse_duty_step_range p Hok).
  assert (H : running (pulse_ticks (n * period_ticks v) v p) /\
              period_timer (pulse_ticks (n * period_ticks v) v p) = pulse_timer_reload v /\
              duty_step (pulse_ticks (n * period_ticks v) v p) = (duty_step p + Z.of_nat n) mod 8).
  { induction n as [|n (Hr' & Ht' & Hd')].
    - change (pulse_ticks _ v p) with p. change (Z.of_nat 0) with 0.
      split; [done|]. split; [done|]. rewrite Z.add_0_r, Z.mod_small; lia.
    - replace (S n * period_ticks v)%nat with (n * period_ticks v + period_ticks v)%nat by lia.
      unfold pulse_ticks in *. rewrite iterate_add.
      destruct (one_period v _ Hr' Ht') as (Hr'' & Ht'' & Hd''). split; [done|]. split; [done|].
      unfold pulse_ticks in Hd''. rewrite Hd'', Hd'. divmod_lia. }
  destruct H as (_ & Ht' & Hd'). split; [done|]. split; [done|].
  unfold period_ticks. pose proof (pulse_timer_reload_range v). rewrite Z2Nat.id by lia.
  unfold pulse_timer_reload, PULSE_PERIOD_MAX. by rewrite (land_mask 11).
Qed.

Definition playing : PulseChannelState :=
  pulse_default <| runtime := mkRuntime true true |> <| duty := 2 |> <| duty_step := 6 |>
    <| period_timer := 8 |> <| envelope := envelope_default <| current_volume := 15 |> |>.

Lemma pulse_plays_at_its_period_witness :
  running playing /\ duty_step (pulse_ticks (3 * period_ticks 0x7FE) 0x7FE playing) = 1.
Proof.
  assert (Hr : running playing) by (constructor; reflexivity).
  assert (Hok : pulse_ok playing) by (unfold playing; upd_ok pulse_ok; constructor; simpl; auto; lia).
  split; [exact Hr|].
  apply (proj1 (pulse_plays_at_its_period 0x7FE 3 playing Hok Hr eq_refl)).
Defined.
