(* ===== verification/ApuSweep.v ===== *)
(** * Channel 1 and its frequency sweep ([crates/gb-core/src/apu/channels/ch1.rs])

    The sweep unit borrows the period registers and the activity flag of the
    channel it belongs to; its operations are functions of the whole channel
    here.  The first models and the color models run different pipelines. *)

From Stdlib Require Import ZArith Lia Bool List.
From stdpp Require Import base list decidable.
From S2P Require Import Prelude.
From S2P Require Import Model.
From S2P Require Import Speed.
From S2P Require Import ApuCommon.
From S2P Require Import ApuPulse.

Local Open Scope Z_scope.

Definition SWEEP_PHASE_MASK : Z := 0x07.
Definition SWEEP_PHASE_BOUNDARY : Z := 7.
Definition SWEEP_TIMER_RELOAD : Z := 8.
Definition CGB_SWEEP_DELAYED_CALCULATION_MIN_T_CYCLES : Z := 8.
Definition CGB_SWEEP_UNSHIFTED_DELAYED_CALCULATION_T_CYCLES : Z := 4.
Definition CGB_SWEEP_DELAYED_CALCULATION_T_CYCLES_PER_SHIFT_STEP : Z := 4.
Definition CGB_SWEEP_TRIGGER_DELAYED_CALCULATION_EXTRA_T_CYCLES : Z := 4.
Definition CGB_STANDARD_CH1_SWEEP_RESTART_HOLD_T_CYCLES : Z := 9.
Definition CGB_E_CH1_SWEEP_RESTART_HOLD_T_CYCLES : Z := CGB_STANDARD_CH1_SWEEP_RESTART_HOLD_T_CYCLES.
Definition DMG_SWEEP_RESTART_DELAY_T_CYCLES : Z := 5.
Definition DMG_SWEEP_TRIGGER_TARGET_COUNTER_BASE : Z := 2.

Definition cgb_ch1_sweep_restart_hold_t_cycles (revision : HardwareRevision) : Z :=
  match revision with
  | CpuCgbE => CGB_E_CH1_SWEEP_RESTART_HOLD_T_CYCLES
  | CpuCgbC | CpuCgbD => CGB_STANDARD_CH1_SWEEP_RESTART_HOLD_T_CYCLES
  | _ => CGB_STANDARD_CH1_SWEEP_RESTART_HOLD_T_CYCLES
  end.

Record SweepCalculation := mkSweepCalculation {
  candidate_sum : Z;
  addend : Z;
  decreases : bool
}.

#[export] Instance upd_candidate_sum : Update candidate_sum := fun v s =>
  let '(mkSweepCalculation _ x2 x3) := s in mkSweepCalculation v x2 x3.
#[export] Instance upd_addend : Update addend := fun v s =>
  let '(mkSweepCalculation x1 _ x3) := s in mkSweepCalculation x1 v x3.
#[export] Instance upd_decreases : Update decreases := fun v s =>
  let '(mkSweepCalculation x1 x2 _) := s in mkSweepCalculation x1 x2 v.

Record Ch1SweepRecalculation := mkRecalculation {
  countdown : Z;
  target_trigger_counter : Z;
  trigger_counter : Z;
  instant : bool;
  increment : Z;
  from_trigger : bool;
  reload_countdown : Z;
  reload_period_reloaded : bool;
  reload_period_pending : bool
}.

#[export] Instance upd_countdown : Update countdown := fun v s =>
  let '(mkRecalculation _ x2 x3 x4 x5 x6 x7 x8 x9) := s in mkRecalculation v x2 x3 x4 x5 x6 x7 x8 x9.
#[export] Instance upd_target_trigger_counter : Update target_trigger_counter := fun v s =>
  let '(mkRecalculation x1 _ x3 x4 x5 x6 x7 x8 x9) := s in mkRecalculation x1 v x3 x4 x5 x6 x7 x8 x9.
#[export] Instance upd_trigger_counter : Update trigger_counter := fun v s =>
  let '(mkRecalculation x1 x2 _ x4 x5 x6 x7 x8 x9) := s in mkRecalculation x1 x2 v x4 x5 x6 x7 x8 x9.
#[export] Instance upd_instant : Update instant := fun v s =>
  let '(mkRecalculation x1 x2 x3 _ x5 x6 x7 x8 x9) := s in mkRecalculation x1 x2 x3 v x5 x6 x7 x8 x9.
#[export] Instance upd_increment : Update increment := fun v s =>
  let '(mkRecalculation x1 x2 x3 x4 _ x6 x7 x8 x9) := s in mkRecalculation x1 x2 x3 x4 v x6 x7 x8 x9.
#[export] Instance upd_from_trigger : Update from_trigger := fun v s =>
  let '(mkRecalculation x1 x2 x3 x4 x5 _ x7 x8 x9) := s in mkRecalculation x1 x2 x3 x4 x5 v x7 x8 x9.
#[export] Instance upd_reload_countdown : Update reload_countdown := fun v s =>
  let '(mkRecalculation x1 x2 x3 x4 x5 x6 _ x8 x9) := s in mkRecalculation x1 x2 x3 x4 x5 x6 v x8 x9.
#[export] Instance upd_reload_period_reloaded : Update reload_period_reloaded := fun v s =>
  let '(mkRecalculation x1 x2 x3 x4 x5 x6 x7 _ x9) := s in mkRecalculation x1 x2 x3 x4 x5 x6 x7 v x9.
#[export] Instance upd_reload_period_pending : Update reload_period_pending := fun v s =>
  let '(mkRecalculation x1 x2 x3 x4 x5 x6 x7 x8 _) := s in mkRecalculation x1 x2 x3 x4 x5 x6 x7 x8 v.

Record Channel1SweepState := mkSweep {
  sw_timer : Z;
  sw_phase : Z;
  sw_enabled : bool;
  shadow_period : Z;
  completed_addend : Z;
  negate_calculated_since_trigger : bool;
  delayed_calculation_t_cycles : Z;
  delayed_calculation_shadow_period : Z;
  delayed_calculation_addend : Z;
  delayed_calculation_decreases : bool;
  restart_hold_t_cycles : Z;
  recalculation : Ch1SweepRecalculation;
  restart_countdown_t_cycles : Z;
  period_increment : Z
}.

#[export] Instance upd_sw_timer : Update sw_timer := fun v s =>
  let '(mkSweep _ x2 x3 x4 x5 x6 x7 x8 x9 x10 x11 x12 x13 x14) := s in mkSweep v x2 x3 x4 x5 x6 x7 x8 x9 x10 x11 x12 x13 x14.
#[export] Instance upd_sw_phase : Update sw_phase := fun v s =>
  let '(mkSweep x1 _ x3 x4 x5 x6 x7 x8 x9 x10 x11 x12 x13 x14) := s in mkSweep x1 v x3 x4 x5 x6 x7 x8 x9 x10 x11 x12 x13 x14.
#[export] Instance upd_sw_enabled : Update sw_enabled := fun v s =>
  let '(mkSweep x1 x2 _ x4 x5 x6 x7 x8 x9 x10 x11 x12 x13 x14) := s in mkSweep x1 x2 v x4 x5 x6 x7 x8 x9 x10 x11 x12 x13 x14.
#[export] Instance upd_shadow_period : Update shadow_period := fun v s =>
  let '(mkSweep x1 x2 x3 _ x5 x6 x7 x8 x9 x10 x11 x12 x13 x14) := s in mkSweep x1 x2 x3 v x5 x6 x7 x8 x9 x10 x11 x12 x13 x14.
#[export] Instance upd_completed_addend : Update completed_addend := fun v s =>
  let '(mkSweep x1 x2 x3 x4 _ x6 x7 x8 x9 x10 x11 x12 x13 x14) := s in mkSweep x1 x2 x3 x4 v x6 x7 x8 x9 x10 x11 x12 x13 x14.
#[export] Instance upd_negate_calculated_since_trigger : Update negate_calculated_since_trigger := fun v s =>
  let '(mkSweep x1 x2 x3 x4 x5 _ x7 x8 x9 x10 x11 x12 x13 x14) := s in mkSweep x1 x2 x3 x4 x5 v x7 x8 x9 x10 x11 x12 x13 x14.
#[export] Instance upd_delayed_calculation_t_cycles : Update delayed_calculation_t_cycles := fun v s =>
  let '(mkSweep x1 x2 x3 x4 x5 x6 _ x8 x9 x10 x11 x12 x13 x14) := s in mkSweep x1 x2 x3 x4 x5 x6 v x8 x9 x10 x11 x12 x13 x14.
#[export] Instance upd_delayed_calculation_shadow_period : Update delayed_calculation_shadow_period := fun v s =>
  let '(mkSweep x1 x2 x3 x4 x5 x6 x7 _ x9 x10 x11 x12 x13 x14) := s in mkSweep x1 x2 x3 x4 x5 x6 x7 v x9 x10 x11 x12 x13 x14.
#[export] Instance upd_delayed_calculation_addend : Update delayed_calculation_addend := fun v s =>
  let '(mkSweep x1 x2 x3 x4 x5 x6 x7 x8 _ x10 x11 x12 x13 x14) := s in mkSweep x1 x2 x3 x4 x5 x6 x7 x8 v x10 x11 x12 x13 x14.
#[export] Instance upd_delayed_calculation_decreases : Update delayed_calculation_decreases := fun v s =>
  let '(mkSweep x1 x2 x3 x4 x5 x6 x7 x8 x9 _ x11 x12 x13 x14) := s in mkSweep x1 x2 x3 x4 x5 x6 x7 x8 x9 v x11 x12 x13 x14.
#[export] Instance upd_restart_hold_t_cycles : Update restart_hold_t_cycles := fun v s =>
  let '(mkSweep x1 x2 x3 x4 x5 x6 x7 x8 x9 x10 _ x12 x13 x14) := s in mkSweep x1 x2 x3 x4 x5 x6 x7 x8 x9 x10 v x12 x13 x14.
#[export] Instance upd_recalculation : Update recalculation := fun v s =>
  let '(mkSweep x1 x2 x3 x4 x5 x6 x7 x8 x9 x10 x11 _ x13 x14) := s in mkSweep x1 x2 x3 x4 x5 x6 x7 x8 x9 x10 x11 v x13 x14.
#[export] Instance upd_restart_countdown_t_cycles : Update restart_countdown_t_cycles := fun v s =>
  let '(mkSweep x1 x2 x3 x4 x5 x6 x7 x8 x9 x10 x11 x12 _ x14) := s in mkSweep x1 x2 x3 x4 x5 x6 x7 x8 x9 x10 x11 x12 v x14.
#[export] Instance upd_period_increment : Update period_increment := fun v s =>
  let '(mkSweep x1 x2 x3 x4 x5 x6 x7 x8 x9 x10 x11 x12 x13 _) := s in mkSweep x1 x2 x3 x4 x5 x6 x7 x8 x9 x10 x11 x12 x13 v.

Definition recalculation_default : Ch1SweepRecalculation := mkRecalculation 0 0 0 false 0 false 0 false false.
Definition sweep_default : Channel1SweepState :=
  mkSweep 0 0 false 0 0 false 0 0 0 false 0 recalculation_default 0 0.

Inductive Channel1Register := Nr10 | Nr11 | Nr12 | Nr13 | Nr14.

Record Channel1State := mkChannel1 {
  nr10 : Z;
  nr11 : Z;
  nr12 : Z;
  nr13 : Z;
  nr14 : Z;
  pulse : PulseChannelState;
  sweep : Channel1SweepState
}.

#[export] Instance upd_nr10 : Update nr10 := fun v s =>
  let '(mkChannel1 _ x2 x3 x4 x5 x6 x7) := s in mkChannel1 v x2 x3 x4 x5 x6 x7.
#[export] Instance upd_nr11 : Update nr11 := fun v s =>
  let '(mkChannel1 x1 _ x3 x4 x5 x6 x7) := s in mkChannel1 x1 v x3 x4 x5 x6 x7.
#[export] Instance upd_nr12 : Update nr12 := fun v s =>
  let '(mkChannel1 x1 x2 _ x4 x5 x6 x7) := s in mkChannel1 x1 x2 v x4 x5 x6 x7.
#[export] Instance upd_nr13 : Update nr13 := fun v s =>
  let '(mkChannel1 x1 x2 x3 _ x5 x6 x7) := s in mkChannel1 x1 x2 x3 v x5 x6 x7.
#[export] Instance upd_nr14 : Update nr14 := fun v s =>
  let '(mkChannel1 x1 x2 x3 x4 _ x6 x7) := s in mkChannel1 x1 x2 x3 x4 v x6 x7.
#[export] Instance upd_pulse : Update pulse := fun v s =>
  let '(mkChannel1 x1 x2 x3 x4 x5 _ x7) := s in mkChannel1 x1 x2 x3 x4 x5 v x7.
#[export] Instance upd_sweep : Update sweep := fun v s =>
  let '(mkChannel1 x1 x2 x3 x4 x5 x6 _) := s in mkChannel1 x1 x2 x3 x4 x5 x6 v.

Definition ch1_default : Channel1State := mkChannel1 0 0 0 0 0 pulse_default sweep_default.

(** What the sweep unit does to its parts of the channel. *)
Definition on_sweep (f : Channel1SweepState -> Channel1SweepState) (c : Channel1State) : Channel1State :=
  c <| sweep := f (sweep c) |>.
Definition on_recalculation (f : Ch1SweepRecalculation -> Ch1SweepRecalculation) (s : Channel1SweepState)
    : Channel1SweepState := s <| recalculation := f (recalculation s) |>.
Definition deactivate (c : Channel1State) : Channel1State :=
  c <| pulse := (pulse c) <| runtime := (runtime (pulse c)) <| active := false |> |> |>.

Definition not11 (x : Z) : Z := Z.land (Z.lxor x 0xFFFF) PULSE_PERIOD_MAX.

Definition phase_from_pace (p : Z) : Z := Z.lxor p SWEEP_PHASE_MASK.
Definition timer_from_phase (phase : Z) : Z :=
  if phase =? SWEEP_PHASE_BOUNDARY then SWEEP_TIMER_RELOAD
  else SWEEP_PHASE_BOUNDARY - Z.land phase SWEEP_PHASE_MASK.

Definition calculate_candidate_sum (r10 shadow : Z) (allow_shift_zero : bool) : option SweepCalculation :=
  let shift := sweep_shift_from_nr10 r10 in
  if (shift =? 0) && negb allow_shift_zero then None
  else
    let delta := Z.shiftr shadow shift in
    let d := sweep_decreases_from_nr10 r10 in
    let a := if d then not11 delta else delta in
    Some (mkSweepCalculation (shadow + a + u8_from_bool d) a d).

Definition observe_calculation (k : SweepCalculation) (s : Channel1SweepState) : Channel1SweepState :=
  s <| completed_addend := addend k |>
    <| negate_calculated_since_trigger := negate_calculated_since_trigger s || decreases k |>.

Definition schedule_delayed_calculation (r10 shadow : Z) (k : SweepCalculation) (extra_t_cycles : Z)
    (s : Channel1SweepState) : Channel1SweepState :=
  let shift := sweep_shift_from_nr10 r10 in
  let shift_delay :=
    if shift =? 0 then CGB_SWEEP_UNSHIFTED_DELAYED_CALCULATION_T_CYCLES
    else Z.max ((shift + 1) * CGB_SWEEP_DELAYED_CALCULATION_T_CYCLES_PER_SHIFT_STEP)
               CGB_SWEEP_DELAYED_CALCULATION_MIN_T_CYCLES in
  s <| delayed_calculation_t_cycles := shift_delay + extra_t_cycles |>
    <| delayed_calculation_shadow_period := shadow |>
    <| delayed_calculation_addend := addend k |>
    <| delayed_calculation_decreases := decreases k |>.

Definition clear_delayed_calculation (s : Channel1SweepState) : Channel1SweepState :=
  s <| delayed_calculation_t_cycles := 0 |> <| delayed_calculation_shadow_period := 0 |>
    <| delayed_calculation_addend := 0 |> <| delayed_calculation_decreases := false |>.

Definition dmg_schedule_recalculation_post_writeback (r10 : Z) (s : Channel1SweepState) : Channel1SweepState :=
  let s := if 0 <? countdown (recalculation s)
           then (on_recalculation (fun r => r <| increment := 0 |>) s) <| period_increment := 0 |> else s in
  let step := sweep_shift_from_nr10 r10 in
  on_recalculation (fun r => r <| reload_countdown := 2 |>
                               <| reload_period_reloaded := negb (step =? 0) |>
                               <| reload_period_pending := true |>) s.

(** Stores a candidate in the shadow and in NR13 and NR14. *)
Definition write_back_period (candidate : Z) (c : Channel1State) : Channel1State :=
  let c := on_sweep (fun s => s <| shadow_period := candidate |>) c in
  let c := c <| nr13 := as_u8 candidate |> in
  c <| nr14 := Z.lor (Z.land (nr14 c) (not8 PERIOD_HIGH_MASK))
                     (Z.land (as_u8 (Z.shiftr candidate 8)) PERIOD_HIGH_MASK) |>.

Definition maybe_fire_sweep_boundary (m : ConsoleModel) (r10 : Z) (c : Channel1State) : Channel1State :=
  let p := sweep_pace_from_nr10 r10 in
  if negb (sw_phase (sweep c) =? SWEEP_PHASE_BOUNDARY) || (p =? 0) || negb (sw_enabled (sweep c)) then c
  else
    let c := on_sweep (fun s => s <| sw_phase := phase_from_pace p |>
                                  <| sw_timer := timer_from_phase (phase_from_pace p) |>) c in
    let shift := sweep_shift_from_nr10 r10 in
    if (shift =? 0) && is_cgb_family m && (0 <? restart_hold_t_cycles (sweep c)) then c
    else
      match calculate_candidate_sum r10 (shadow_period (sweep c)) true with
      | None => c
      | Some k =>
          if is_cgb_family m then
            let c := on_sweep (observe_calculation k) c in
            if (negb (decreases k) && (PULSE_PERIOD_MAX <? candidate_sum k)) || (shift =? 0) then
              on_sweep (fun s => schedule_delayed_calculation r10 (shadow_period s) k 0 s) c
            else
              let candidate := Z.land (candidate_sum k) PULSE_PERIOD_MAX in
              let c := write_back_period candidate c in
              match calculate_candidate_sum r10 (shadow_period (sweep c)) true with
              | None => c
              | Some k' =>
                  on_sweep (fun s => schedule_delayed_calculation r10 (shadow_period s) k' 0
                                       (observe_calculation k' s)) c
              end
          else
            let d := sweep_decreases_from_nr10 r10 in
            let dmg_addend := if d then not11 (period_increment (sweep c)) else period_increment (sweep c) in
            let dmg_candidate_sum :=
              wrapping_add16 (wrapping_add16 (shadow_period (sweep c)) dmg_addend) (u8_from_bool d) in
            let c := on_sweep (observe_calculation (mkSweepCalculation dmg_candidate_sum dmg_addend d)) c in
            if shift =? 0 then
              on_sweep (on_recalculation (fun r => r <| reload_countdown := 2 |>
                                                     <| reload_period_reloaded := false |>
                                                     <| reload_period_pending := true |>)) c
            else
              let candidate := Z.land dmg_candidate_sum PULSE_PERIOD_MAX in
              on_sweep (dmg_schedule_recalculation_post_writeback r10) (write_back_period candidate c)
      end.

(** The period the registers hold: [(nr14 & 0x07) << 8 | nr13]. *)
Definition live_period (c : Channel1State) : Z :=
  Z.lor (Z.shiftl (Z.land (nr14 c) PERIOD_HIGH_MASK) 8) (nr13 c).

Definition period_sweep_recalculation_done (r10 : Z) (c : Channel1State) : Channel1State :=
  let d := sweep_decreases_from_nr10 r10 in
  let live := live_period c in
  let raw_increment := period_increment (sweep c) in
  let signed_increment := if d then not11 raw_increment else raw_increment in
  let complement_bit := if from_trigger (recalculation (sweep c)) then 0 else 1 in
  let c := on_sweep (fun s => on_recalculation (fun r => r <| increment := signed_increment |>)
                                (s <| shadow_period := live |>)) c in
  let c := if negb d && (PULSE_PERIOD_MAX <? wrapping_add16 (wrapping_add16 live signed_increment) complement_bit)
           then deactivate c else c in
  on_sweep (fun s =>
    on_recalculation (fun r => r <| from_trigger := false |>)
      (if d then s <| negate_calculated_since_trigger := true |> else s)) c.

Definition period_sweep_reload_done (r10 : Z) (c : Channel1State) : Channel1State :=
  let step := sweep_shift_from_nr10 r10 in
  let d := sweep_decreases_from_nr10 r10 in
  let raw_increment := Z.shiftr (live_period c) step in
  on_sweep (fun s =>
    let s := s <| period_increment := raw_increment |> in
    let s := on_recalculation (fun r => r <| increment := if d then not11 raw_increment else raw_increment |>) s in
    let s := if restart_countdown_t_cycles s =? 0 then
               if step =? 0 then on_recalculation (fun r => r <| instant := true |> <| countdown := 0 |>) s
               else on_recalculation (fun r => r <| countdown := step |>) s
             else s in
    on_recalculation (fun r => r <| reload_period_reloaded := false |> <| reload_period_pending := false |>) s) c.

Definition apply_dmg_nr10_glitches (old_nr10 new_nr10 : Z) (c : Channel1State) : Channel1State :=
  let prev_step := sweep_shift_from_nr10 old_nr10 in
  let new_step := sweep_shift_from_nr10 new_nr10 in
  let new_decreases := sweep_decreases_from_nr10 new_nr10 in
  let c :=
    if negb new_decreases then
      let complement_bit := if from_trigger (recalculation (sweep c)) then 0 else 1 in
      let candidate := wrapping_add16
        (wrapping_add16 (shadow_period (sweep c)) (increment (recalculation (sweep c)))) complement_bit in
      if PULSE_PERIOD_MAX <? candidate then deactivate c else c
    else c in
  if negb (active (runtime (pulse c))) then c
  else
    let r := recalculation (sweep c) in
    let c :=
      if (0 <? target_trigger_counter r) && (trigger_counter r <? 2) then
        on_sweep (on_recalculation (fun r =>
          let r := r <| countdown := new_step |> in
          if new_step =? 0
          then r <| trigger_counter := 0 |> <| target_trigger_counter := 0 |> <| countdown := 0 |>
          else r)) c
      else if (0 <? countdown r) && (prev_step =? 0) && negb (new_step =? 0) then
        let c := on_sweep (on_recalculation (fun r => r <| countdown := countdown r - 1 |>)) c in
        if countdown (recalculation (sweep c)) =? 0 then period_sweep_recalculation_done new_nr10 c else c
      else c in
    if sw_enabled (sweep c) && (sw_phase (sweep c) =? SWEEP_PHASE_BOUNDARY)
    then maybe_fire_sweep_boundary GameBoy new_nr10 c
    else c.

Definition sweep_write_nr10 (m : ConsoleModel) (old_nr10 new_nr10 : Z) (c : Channel1State) : Channel1State :=
  let c := if is_cgb_family m && (sweep_pace_from_nr10 new_nr10 =? 0) && (sweep_shift_from_nr10 new_nr10 =? 0)
           then on_sweep clear_delayed_calculation c else c in
  let c := if sweep_decreases_from_nr10 old_nr10 && negb (sweep_decreases_from_nr10 new_nr10) &&
              negate_calculated_since_trigger (sweep c)
           then deactivate c else c in
  let c := if is_dmg_family m && active (runtime (pulse c)) then
             let c := on_sweep (fun s => s <| sw_enabled :=
               negb (sweep_pace_from_nr10 new_nr10 =? 0) || negb (sweep_shift_from_nr10 new_nr10 =? 0) |>) c in
             apply_dmg_nr10_glitches old_nr10 new_nr10 c
           else c in
  maybe_fire_sweep_boundary m new_nr10 c.

Definition dmg_apply_trigger_recalculation (r10 : Z) (s : Channel1SweepState) : Channel1SweepState :=
  let step := sweep_shift_from_nr10 r10 in
  let prev_target := target_trigger_counter (recalculation s) in
  let prev_trigger_counter := trigger_counter (recalculation s) in
  let prev_countdown_m := countdown (recalculation s) in
  let s := on_recalculation (fun r => r <| from_trigger := true |> <| increment := 0 |> <| instant := false |>) s in
  let s := s <| period_increment := 0 |> in
  let s := if (prev_target =? 0) || (prev_trigger_counter =? prev_target)
           then s <| restart_countdown_t_cycles := DMG_SWEEP_RESTART_DELAY_T_CYCLES |> else s in
  if negb (step =? 0) then
    let s := s <| period_increment := Z.shiftr (shadow_period s) step |> in
    let s :=
      if negb ((0 <? prev_target) && (prev_trigger_counter <? 2)) then
        let new_target := DMG_SWEEP_TRIGGER_TARGET_COUNTER_BASE in
        let new_target := if prev_countdown_m <? 2 then saturating_add8 new_target 1 else new_target in
        let new_target := if (prev_trigger_counter =? 2) && (prev_countdown_m =? step)
                          then saturating_add8 new_target 1 else new_target in
        on_recalculation (fun r => r <| target_trigger_counter := new_target |> <| trigger_counter := 0 |>) s
      else s in
    on_recalculation (fun r => r <| countdown := step |>) s
  else s.

Definition sweep_trigger (m : ConsoleModel) (revision : HardwareRevision) (r10 period_value : Z)
    (s : Channel1SweepState) : Channel1SweepState :=
  let p := sweep_pace_from_nr10 r10 in
  let s := s <| shadow_period := period_value |>
             <| sw_phase := phase_from_pace p |>
             <| sw_timer := timer_from_phase (phase_from_pace p) |>
             <| sw_enabled := negb (p =? 0) || negb (sweep_shift_from_nr10 r10 =? 0) |>
             <| completed_addend := 0 |>
             <| negate_calculated_since_trigger := false |>
             <| restart_hold_t_cycles :=
                  if is_cgb_family m then cgb_ch1_sweep_restart_hold_t_cycles revision else 0 |> in
  let s := clear_delayed_calculation s in
  let s := if is_dmg_family m
           then (dmg_apply_trigger_recalculation r10 s) <| shadow_period := 0 |> else s in
  if is_cgb_family m then
    match calculate_candidate_sum r10 (shadow_period s) false with
    | Some k => schedule_delayed_calculation r10 (shadow_period s) k
                  CGB_SWEEP_TRIGGER_DELAYED_CALCULATION_EXTRA_T_CYCLES (observe_calculation k s)
    | None => s
    end
  else s.

Definition tick_period_sweep_recalculation (r10 apu_clock : Z) (c : Channel1State) : Channel1State :=
  let r := recalculation (sweep c) in
  if instant r then
    period_sweep_recalculation_done r10 (on_sweep (on_recalculation (fun r => r <| instant := false |>)) c)
  else if Z.land apu_clock 0x01 =? 0 then c
  else if trigger_counter r <? target_trigger_counter r then
    on_sweep (on_recalculation (fun r => r <| trigger_counter := trigger_counter r + 1 |>)) c
  else if countdown r =? 0 then c
  else if sweep_shift_from_nr10 r10 =? 0 then c
  else
    let c := on_sweep (on_recalculation (fun r => r <| countdown := countdown r - 1 |>)) c in
    if countdown (recalculation (sweep c)) =? 0 then period_sweep_recalculation_done r10 c else c.

Definition tick_period_sweep_reload (r10 : Z) (c : Channel1State) : Channel1State :=
  let c := if 0 <? restart_countdown_t_cycles (sweep c)
           then on_sweep (fun s => s <| restart_countdown_t_cycles := restart_countdown_t_cycles s - 1 |>) c else c in
  if 0 <? reload_countdown (recalculation (sweep c)) then
    let c := on_sweep (on_recalculation (fun r => r <| reload_countdown := reload_countdown r - 1 |>)) c in
    if reload_countdown (recalculation (sweep c)) =? 0 then period_sweep_reload_done r10 c else c
  else c.

Definition tick_recalculation (r10 apu_clock t_cycle_phase : Z) (c : Channel1State) : Channel1State :=
  let is_tick_odd := Z.land t_cycle_phase 0x01 =? 1 in
  if negb is_tick_odd then c
  else tick_period_sweep_reload r10 (tick_period_sweep_recalculation r10 apu_clock c).

Definition tick_delayed_calculation (clock_generation_timer : bool) (c : Channel1State) : Channel1State :=
  if negb clock_generation_timer then c
  else
    let c := on_sweep (fun s => s <| restart_hold_t_cycles := Z.max 0 (restart_hold_t_cycles s - 1) |>) c in
    if delayed_calculation_t_cycles (sweep c) =? 0 then c
    else
      let c := on_sweep (fun s => s <| delayed_calculation_t_cycles := delayed_calculation_t_cycles s - 1 |>) c in
      if negb (delayed_calculation_t_cycles (sweep c) =? 0) then c
      else
        let c := if negb (delayed_calculation_decreases (sweep c)) &&
                    (PULSE_PERIOD_MAX <?
                     delayed_calculation_shadow_period (sweep c) + delayed_calculation_addend (sweep c))
                 then deactivate c else c in
        on_sweep (fun s => clear_delayed_calculation (s <| completed_addend := delayed_calculation_addend s |>)) c.

Definition sweep_clock (m : ConsoleModel) (r10 : Z) (c : Channel1State) : Channel1State :=
  let c := on_sweep (fun s =>
    let s := s <| sw_phase := Z.land (sw_phase s + 1) SWEEP_PHASE_MASK |> in
    s <| sw_timer := timer_from_phase (sw_phase s) |>) c in
  if negb (sw_phase (sweep c) =? SWEEP_PHASE_BOUNDARY) then c
  else if negb (sw_enabled (sweep c)) then c
  else maybe_fire_sweep_boundary m r10 c.

Definition sweep_apply_powered_startup (r10 period_value : Z) (a : bool) (_s : Channel1SweepState)
    : Channel1SweepState :=
  let p := sweep_pace_from_nr10 r10 in
  let s := sweep_default <| shadow_period := period_value |> <| sw_phase := phase_from_pace p |> in
  s <| sw_timer := timer_from_phase (sw_phase s) |>
    <| sw_enabled := a && (negb (p =? 0) || negb (sweep_shift_from_nr10 r10 =? 0)) |>.

(** ** The channel *)

Definition ch1_derived_dac_enabled (c : Channel1State) : bool := has_bits (nr12 c) DAC_ENABLE_REGISTER_MASK.
Definition ch1_period_value (c : Channel1State) : Z := pulse_period_from_registers (nr13 c) (nr14 c).

Definition read_nr10 (c : Channel1State) : Z := Z.lor (nr10 c) NR10_FORCED_HIGH_MASK.
Definition read_nr11 (c : Channel1State) : Z := Z.lor (Z.land (nr11 c) PULSE_DUTY_MASK) NR11_WRITE_ONLY_MASK.
Definition read_nr14 (c : Channel1State) : Z := Z.lor (Z.land (nr14 c) NR14_READ_MASK) NR14_FORCED_HIGH_MASK.

Definition ch1_read_register (r : Channel1Register) (c : Channel1State) : Z :=
  match r with
  | Nr10 => read_nr10 c
  | Nr11 => read_nr11 c
  | Nr12 => nr12 c
  | Nr13 => NR13_WRITE_ONLY_READ_VALUE
  | Nr14 => read_nr14 c
  end.

Definition write_nr10 (value : Z) (m : ConsoleModel) (c : Channel1State) : Channel1State :=
  let old_nr10 := nr10 c in
  let c := c <| nr10 := Z.land value NR10_WRITABLE_MASK |> in
  sweep_write_nr10 m old_nr10 (nr10 c) c.

Definition write_nr11 (value : Z) (c : Channel1State) : Channel1State :=
  let c := c <| nr11 := value |> in
  c <| pulse := apply_length_duty_write value (pulse c) |>.

Definition write_nr12 (value : Z) (m : ConsoleModel) (c : Channel1State) : Channel1State :=
  let c := c <| pulse := apply_live_envelope_write_effect m value (pulse c) |> in
  let c := c <| nr12 := value |> in
  c <| pulse := apply_dac_enabled (ch1_derived_dac_enabled c) (pulse c) |>.

(** NR13 and the period bits of NR14 are held while a DMG reload is in its first cycle. *)
Definition reload_window_first_cycle (c : Channel1State) : bool :=
  (reload_countdown (recalculation (sweep c)) =? 2) && reload_period_reloaded (recalculation (sweep c)).
Definition clear_reload_pending : Channel1State -> Channel1State :=
  on_sweep (on_recalculation (fun r => r <| reload_period_pending := false |>)).
Definition ch1_reload_if_just_sampled (m : ConsoleModel) (c : Channel1State) : Channel1State :=
  if is_cgb_family m
  then c <| pulse := reload_period_after_write_if_just_sampled (ch1_period_value c) (pulse c) |>
  else c.

Definition write_nr13 (value : Z) (m : ConsoleModel) (c : Channel1State) : Channel1State :=
  if reload_window_first_cycle c then clear_reload_pending c
  else ch1_reload_if_just_sampled m (clear_reload_pending (c <| nr13 := value |>)).

Definition ch1_trigger (m : ConsoleModel) (revision : HardwareRevision) (speed_mode : CgbSpeedMode)
    (next_step_clocks_envelope : bool) (c : Channel1State) : bool * Channel1State :=
  let period_value := ch1_period_value c in
  let '(b, p) := pulse_trigger m speed_mode period_value (nr12 c) next_step_clocks_envelope (pulse c) in
  let c := c <| pulse := p |> in
  (b, on_sweep (sweep_trigger m revision (nr10 c) period_value) c).

Definition write_nr14 (value : Z) (m : ConsoleModel) (revision : HardwareRevision) (speed_mode : CgbSpeedMode)
    (next_frame_sequencer_step : Z) (c : Channel1State) : Channel1State :=
  let effective_value :=
    if reload_window_first_cycle c
    then Z.lor (Z.land value (not8 PERIOD_HIGH_MASK)) (Z.land (nr14 c) PERIOD_HIGH_MASK) else value in
  let '(r, plan) := begin_nrx4_write effective_value NRX4_WRITABLE_MASK next_frame_sequencer_step
    (length_enabled (pulse c)) in
  let c := c <| nr14 := r |> in
  let '(plan, c) :=
    if ctx_trigger (plan_context plan) then
      let '(b, c) := ch1_trigger m revision speed_mode (ctx_next_step_clocks_envelope (plan_context plan)) c in
      (observe_length_enabled_after_trigger (length_enabled (pulse c))
         (observe_trigger_reloaded_zero_length b plan), c)
    else
      let c :=
        if is_dmg_family m && (0 <? reload_countdown (recalculation (sweep c))) &&
           reload_period_reloaded (recalculation (sweep c))
        then
          let step := sweep_shift_from_nr10 (nr10 c) in
          let raw_increment := if step =? 0 then 0 else Z.shiftr (ch1_period_value c) step in
          on_sweep (on_recalculation (fun r => r <| increment :=
            if sweep_decreases_from_nr10 (nr10 c) then not11 raw_increment else raw_increment |>)) c
        else c in
      (plan, ch1_reload_if_just_sampled m c) in
  let c := clear_reload_pending c in
  let c := c <| pulse := (pulse c) <| length_enabled := ctx_length_enabled (plan_context plan) |> |> in
  c <| pulse := apply_extra_length_clocking_on_enable m (plan_was_length_enabled plan)
         (ctx_next_step_clocks_length (plan_context plan)) (ctx_trigger (plan_context plan))
         (plan_trigger_reloaded_zero_length plan) (pulse c) |>.

Definition ch1_write_register (r : Channel1Register) (value : Z) (m : ConsoleModel) (revision : HardwareRevision)
    (speed_mode : CgbSpeedMode) (next_frame_sequencer_step : Z) (c : Channel1State) : Channel1State :=
  match r with
  | Nr10 => write_nr10 value m c
  | Nr11 => write_nr11 value c
  | Nr12 => write_nr12 value m c
  | Nr13 => write_nr13 value m c
  | Nr14 => write_nr14 value m revision speed_mode next_frame_sequencer_step c
  end.

Definition ch1_write_length_while_powered_off (value : Z) (c : Channel1State) : Channel1State :=
  c <| pulse := write_length_counter_while_powered_off value (pulse c) |>.

Definition ch1_write_powered_off_register (r : Channel1Register) (value : Z) (m : ConsoleModel)
    (c : Channel1State) : Channel1State :=
  if negb (is_dmg_family m) then c
  else match r with Nr11 => ch1_write_length_while_powered_off value c | _ => c end.

Definition ch1_apply_powered_startup (v10 v11 v12 v13 v14 : Z) (a : bool) (c : Channel1State) : Channel1State :=
  let c := c <| nr10 := Z.land v10 NR10_WRITABLE_MASK |> <| nr11 := v11 |> <| nr12 := v12 |> <| nr13 := v13 |>
             <| nr14 := Z.land v14 NRX4_WRITABLE_MASK |> in
  let c := c <| pulse := apply_channel_startup (nr11 c) (nr12 c) (nr14 c) (ch1_period_value c)
                 (ch1_derived_dac_enabled c) a (pulse c) |> in
  on_sweep (sweep_apply_powered_startup (nr10 c) (ch1_period_value c) (active (runtime (pulse c)))) c.

Definition ch1_power_off_registers (m : ConsoleModel) (c : Channel1State) : Channel1State :=
  let c := c <| nr10 := 0 |> <| nr11 := 0 |> <| nr12 := 0 |> <| nr13 := 0 |> <| nr14 := 0 |> in
  let c := c <| pulse := pulse_power_off m (pulse c) |> in
  c <| sweep := sweep_default |>.

Definition ch1_mark_powered_on (c : Channel1State) : Channel1State :=
  c <| pulse := pulse_mark_powered_on (pulse c) |>.

Definition ch1_tick_fast_timer_with_clock_gate (m : ConsoleModel) (clock_period_timer : bool)
    (apu_clock t_cycle_phase : Z) (c : Channel1State) : Channel1State :=
  let c := tick_delayed_calculation clock_period_timer c in
  let c := if clock_period_timer && is_dmg_family m
           then tick_recalculation (nr10 c) apu_clock t_cycle_phase c else c in
  c <| pulse := pulse_tick_fast_timer_with_clock_gate (ch1_period_value c) clock_period_timer (pulse c) |>.

Definition ch1_clock_length (c : Channel1State) : Channel1State := c <| pulse := pulse_clock_length (pulse c) |>.
Definition ch1_clock_envelope (c : Channel1State) : Channel1State :=
  c <| pulse := pulse_clock_envelope (pulse c) |>.
Definition ch1_clock_cgb_live_write_pending_even_envelope_tick (c : Channel1State) : Channel1State :=
  c <| pulse := pulse_clock_cgb_live_write_pending_even_envelope_tick (pulse c) |>.
Definition ch1_clock_sweep (m : ConsoleModel) (c : Channel1State) : Channel1State := sweep_clock m (nr10 c) c.

Definition ch1_current_digital_output (c : Channel1State) : Z := pulse_current_digital_output (pulse c).

(** ** Invariants

    Periods and addends are 11-bit, so a candidate sum is below [4096] and the
    16-bit additions of the calculation never wrap. *)

Definition period11 (x : Z) : Prop := 0 <= x <= 0x7FF.

Record recalculation_ok (r : Ch1SweepRecalculation) : Prop := {
  countdown_range : 0 <= countdown r <= 7;
  target_range : 0 <= target_trigger_counter r <= 4;
  trigger_counter_range : 0 <= trigger_counter r <= 4;
  increment_range : period11 (increment r);
  reload_countdown_range : 0 <= reload_countdown r <= 2
}.

Record sweep_ok (s : Channel1SweepState) : Prop := {
  sw_timer_range : 0 <= sw_timer s <= 8;
  sw_phase_range : 0 <= sw_phase s <= 7;
  shadow_range : period11 (shadow_period s);
  completed_range : period11 (completed_addend s);
  delayed_range : 0 <= delayed_calculation_t_cycles s <= 36;
  delayed_shadow_range : period11 (delayed_calculation_shadow_period s);
  delayed_addend_range : period11 (delayed_calculation_addend s);
  restart_hold_range : 0 <= restart_hold_t_cycles s <= 9;
  sweep_recalculation_ok : recalculation_ok (recalculation s);
  restart_countdown_range : 0 <= restart_countdown_t_cycles s <= 5;
  period_increment_range : period11 (period_increment s)
}.

Record ch1_ok (c : Channel1State) : Prop := {
  nr10_u8 : u8 (nr10 c);
  nr11_u8 : u8 (nr11 c);
  nr12_u8 : u8 (nr12 c);
  nr13_u8 : u8 (nr13 c);
  nr14_u8 : u8 (nr14 c);
  ch1_pulse_ok : pulse_ok (pulse c);
  ch1_sweep_ok : sweep_ok (sweep c)
}.

Record calculation_ok (k : SweepCalculation) : Prop := { addend_range : period11 (addend k) }.

#[export] Hint Extern 3 (recalculation_ok (_ _ _)) => upd_hint recalculation_ok : apu.
#[export] Hint Extern 3 (sweep_ok (_ _ _)) => upd_hint sweep_ok : apu.
#[export] Hint Extern 3 (ch1_ok (_ _ _)) => upd_hint ch1_ok : apu.
#[export] Hint Unfold period11 SWEEP_PHASE_MASK SWEEP_PHASE_BOUNDARY SWEEP_TIMER_RELOAD
  CGB_SWEEP_DELAYED_CALCULATION_MIN_T_CYCLES CGB_SWEEP_UNSHIFTED_DELAYED_CALCULATION_T_CYCLES
  CGB_SWEEP_DELAYED_CALCULATION_T_CYCLES_PER_SHIFT_STEP CGB_SWEEP_TRIGGER_DELAYED_CALCULATION_EXTRA_T_CYCLES
  CGB_STANDARD_CH1_SWEEP_RESTART_HOLD_T_CYCLES CGB_E_CH1_SWEEP_RESTART_HOLD_T_CYCLES
  DMG_SWEEP_RESTART_DELAY_T_CYCLES DMG_SWEEP_TRIGGER_TARGET_COUNTER_BASE saturating_add8 : apu_consts.

Lemma period11_not11 x : period11 (not11 x).
Proof. unfold period11, not11. autounfold with apu_consts. land_bounds. lia. Qed.
Lemma period11_mask x : period11 (Z.land x PULSE_PERIOD_MAX).
Proof. unfold period11. autounfold with apu_consts. land_bounds. lia. Qed.
Lemma period11_shiftr x n : 0 <= n -> period11 x -> period11 (Z.shiftr x n).
Proof.
  unfold period11. intros Hn Hx. rewrite Z.shiftr_div_pow2 by lia.
  assert (0 < 2 ^ n) by (apply Z.pow_pos_nonneg; lia).
  split; [apply Z.div_pos; lia|]. apply Z.div_le_upper_bound; [lia|]. nia.
Qed.
Lemma period11_if (b : bool) x y : period11 x -> period11 y -> period11 (if b then x else y).
Proof. by destruct b. Qed.
Lemma period11_0 : period11 0.
Proof. unfold period11. lia. Qed.
Lemma sweep_shift_range r : 0 <= sweep_shift_from_nr10 r <= 7.
Proof. unfold sweep_shift_from_nr10. autounfold with apu_consts. land_bounds. lia. Qed.
Lemma sweep_pace_range r : 0 <= sweep_pace_from_nr10 r <= 7.
Proof.
  unfold sweep_pace_from_nr10. autounfold with apu_consts. land_bounds. shift_values. divmod_lia.
Qed.
Lemma phase_from_pace_range p : 0 <= p <= 7 -> 0 <= phase_from_pace p <= 7.
Proof.
  intros Hp. unfold phase_from_pace. autounfold with apu_consts.
  pose proof (range_lxor 3 p 7 ltac:(lia) ltac:(lia) ltac:(lia)). lia.
Qed.
Lemma timer_from_phase_range p : 0 <= timer_from_phase p <= 8.
Proof. unfold timer_from_phase. autounfold with apu_consts. case_tests; land_bounds; lia. Qed.
Lemma live_period_range c : ch1_ok c -> period11 (live_period c).
Proof.
  intros [_ _ _ H13 _ _ _]. unfold period11, live_period. autounfold with apu_consts in *. land_bounds.
  rewrite Z.lor_comm, lor_shiftl_add by lia. lia.
Qed.
Lemma ch1_period_range c : period11 (ch1_period_value c).
Proof. apply period_range. Qed.
Lemma ch1_shadow_range c : ch1_ok c -> period11 (shadow_period (sweep c)).
Proof. intros Hc. apply Hc. Qed.
Lemma ch1_increment_range c : ch1_ok c -> period11 (period_increment (sweep c)).
Proof. intros Hc. apply Hc. Qed.
#[export] Hint Resolve period11_not11 period11_mask period11_if period11_0 live_period_range ch1_period_range
  ch1_shadow_range ch1_increment_range phase_from_pace_range sweep_pace_range sweep_shift_range timer_from_phase_range : apu.
#[export] Hint Extern 2 (period11 (Z.shiftr _ _)) =>
  apply period11_shiftr; [first [lia | apply sweep_shift_range]|] : apu.

Lemma calculate_candidate_sum_ok r s z k :
  calculate_candidate_sum r s z = Some k -> period11 s -> calculation_ok k.
Proof.
  unfold calculate_candidate_sum. pose proof (sweep_shift_range r). intros Hk Hs.
  destruct (_ && _); [done|]. injection Hk as <-.
  assert (Ha : period11 (if sweep_decreases_from_nr10 r then not11 (Z.shiftr s (sweep_shift_from_nr10 r))
                         else Z.shiftr s (sweep_shift_from_nr10 r))) by auto with apu.
  by constructor.
Qed.

Lemma candidate_sum_range r s z k :
  calculate_candidate_sum r s z = Some k -> period11 s -> 0 <= candidate_sum k < 4096.
Proof.
  intros Hk Hs. pose proof (calculate_candidate_sum_ok _ _ _ _ Hk Hs) as [Ha].
  unfold calculate_candidate_sum in Hk. destruct (_ && _); [done|]. injection Hk as <-.
  unfold period11 in *. simpl in *. destruct (sweep_decreases_from_nr10 r); simpl in *; lia.
Qed.
Ltac on_some ::=
  repeat match goal with
  | H : calculate_candidate_sum _ ?s _ = Some ?k |- _ =>
      lazymatch goal with
      | _ : calculation_ok k |- _ => fail
      | _ => assert (calculation_ok k) by (eapply calculate_candidate_sum_ok; [exact H | auto with apu])
      end
  end.

Lemma sweep_shadow_range s : sweep_ok s -> period11 (shadow_period s).
Proof. intros Hs. apply Hs. Qed.
Lemma calculation_addend_range k : calculation_ok k -> period11 (addend k).
Proof. intros Hk. apply Hk. Qed.
Lemma make_calculation_ok s a d : period11 a -> calculation_ok (mkSweepCalculation s a d).
Proof. by constructor. Qed.
#[export] Hint Resolve sweep_shadow_range calculation_addend_range make_calculation_ok : apu.
#[export] Hint Extern 4 (0 <= _ <= 4) => autounfold with apu_consts; lia : apu.

Lemma observe_calculation_ok k s : calculation_ok k -> sweep_ok s -> sweep_ok (observe_calculation k s).
Proof. intros [Hk] Hs. cbv delta [observe_calculation]. upd_ok sweep_ok. Qed.

Lemma schedule_delayed_calculation_ok r sh k x s :
  period11 sh -> calculation_ok k -> 0 <= x <= 4 -> sweep_ok s -> sweep_ok (schedule_delayed_calculation r sh k x s).
Proof.
  intros Hsh [Hk] Hx Hs. pose proof (sweep_shift_range r).
  cbv delta [schedule_delayed_calculation]. upd_ok sweep_ok.
Qed.

Lemma clear_delayed_calculation_ok s : sweep_ok s -> sweep_ok (clear_delayed_calculation s).
Proof. intros Hs. cbv delta [clear_delayed_calculation]. upd_ok sweep_ok. Qed.

Lemma on_recalculation_ok f s :
  (recalculation_ok (recalculation s) -> recalculation_ok (f (recalculation s))) ->
  sweep_ok s -> sweep_ok (on_recalculation f s).
Proof. intros Hf Hs. assert (Hr := Hf (sweep_recalculation_ok s Hs)). cbv delta [on_recalculation]. upd_ok sweep_ok. Qed.

Lemma on_sweep_ok f c :
  (sweep_ok (sweep c) -> sweep_ok (f (sweep c))) -> ch1_ok c -> ch1_ok (on_sweep f c).
Proof. intros Hf Hc. assert (Hs := Hf (ch1_sweep_ok c Hc)). cbv delta [on_sweep]. upd_ok ch1_ok. Qed.

Lemma on_ch1_pulse_ok p c : pulse_ok p -> ch1_ok c -> ch1_ok (c <| pulse := p |>).
Proof. intros Hp Hc. upd_ok ch1_ok. Qed.

Lemma deactivate_ok c : ch1_ok c -> ch1_ok (deactivate c).
Proof. intros Hc. cbv delta [deactivate]. upd_ok ch1_ok. Qed.

#[export] Hint Extern 3 (sweep_ok (on_recalculation _ _)) =>
  apply on_recalculation_ok; [intros ?; upd_ok recalculation_ok | upd_ok sweep_ok] : apu.
#[export] Hint Extern 3 (ch1_ok (on_sweep _ _)) =>
  apply on_sweep_ok; [intros ?; upd_ok sweep_ok | upd_ok ch1_ok] : apu.
#[export] Hint Resolve observe_calculation_ok schedule_delayed_calculation_ok clear_delayed_calculation_ok
  deactivate_ok : apu.
#[global] Arguments observe_calculation : simpl never.
#[global] Arguments schedule_delayed_calculation : simpl never.
#[global] Arguments clear_delayed_calculation : simpl never.
#[global] Arguments on_recalculation : simpl never.
#[global] Arguments phase_from_pace : simpl never.
#[global] Arguments timer_from_phase : simpl never.

Lemma dmg_schedule_post_writeback_ok r s : sweep_ok s -> sweep_ok (dmg_schedule_recalculation_post_writeback r s).
Proof. intros Hs. cbv delta [dmg_schedule_recalculation_post_writeback]. upd_ok sweep_ok. Qed.

Lemma write_back_period_ok p c : period11 p -> ch1_ok c -> ch1_ok (write_back_period p c).
Proof. intros Hp Hc. cbv delta [write_back_period]. upd_ok ch1_ok. Qed.
#[export] Hint Resolve dmg_schedule_post_writeback_ok write_back_period_ok : apu.

Lemma maybe_fire_sweep_boundary_ok m r c : ch1_ok c -> ch1_ok (maybe_fire_sweep_boundary m r c).
Proof. intros Hc. cbv delta [maybe_fire_sweep_boundary]. upd_ok ch1_ok. Qed.

Lemma period_sweep_recalculation_done_ok r c : ch1_ok c -> ch1_ok (period_sweep_recalculation_done r c).
Proof. intros Hc. cbv delta [period_sweep_recalculation_done]. upd_ok ch1_ok. Qed.

Lemma period_sweep_reload_done_ok r c : ch1_ok c -> ch1_ok (period_sweep_reload_done r c).
Proof. intros Hc. cbv delta [period_sweep_reload_done]. upd_ok ch1_ok. Qed.
#[export] Hint Resolve maybe_fire_sweep_boundary_ok period_sweep_recalculation_done_ok
  period_sweep_reload_done_ok : apu.

Lemma apply_dmg_nr10_glitches_ok o n c : ch1_ok c -> ch1_ok (apply_dmg_nr10_glitches o n c).
Proof. intros Hc. cbv delta [apply_dmg_nr10_glitches]. upd_ok ch1_ok. Qed.
#[export] Hint Resolve apply_dmg_nr10_glitches_ok : apu.

Lemma sweep_write_nr10_ok m o n c : ch1_ok c -> ch1_ok (sweep_write_nr10 m o n c).
Proof. intros Hc. cbv delta [sweep_write_nr10]. upd_ok ch1_ok. Qed.

Lemma dmg_apply_trigger_recalculation_ok r s : sweep_ok s -> sweep_ok (dmg_apply_trigger_recalculation r s).
Proof. intros Hs. cbv delta [dmg_apply_trigger_recalculation]. upd_ok sweep_ok. Qed.
#[export] Hint Resolve sweep_write_nr10_ok dmg_apply_trigger_recalculation_ok : apu.

Lemma restart_hold_value r : 0 <= cgb_ch1_sweep_restart_hold_t_cycles r <= 9.
Proof. destruct r; vm_compute; split; discriminate. Qed.

Lemma sweep_trigger_ok m rev r p s : period11 p -> sweep_ok s -> sweep_ok (sweep_trigger m rev r p s).
Proof.
  intros Hp Hs. pose proof (restart_hold_value rev). cbv delta [sweep_trigger]. upd_ok sweep_ok.
Qed.
#[export] Hint Resolve sweep_trigger_ok : apu.

Lemma tick_period_sweep_recalculation_ok r a c : ch1_ok c -> ch1_ok (tick_period_sweep_recalculation r a c).
Proof. intros Hc. cbv delta [tick_period_sweep_recalculation]. upd_ok ch1_ok. Qed.
Lemma tick_period_sweep_reload_ok r c : ch1_ok c -> ch1_ok (tick_period_sweep_reload r c).
Proof. intros Hc. cbv delta [tick_period_sweep_reload]. upd_ok ch1_ok. Qed.
#[export] Hint Resolve tick_period_sweep_recalculation_ok tick_period_sweep_reload_ok : apu.
Lemma tick_recalculation_ok r a t c : ch1_ok c -> ch1_ok (tick_recalculation r a t c).
Proof. intros Hc. cbv delta [tick_recalculation]. upd_ok ch1_ok. Qed.
Lemma tick_delayed_calculation_ok g c : ch1_ok c -> ch1_ok (tick_delayed_calculation g c).
Proof. intros Hc. cbv delta [tick_delayed_calculation]. upd_ok ch1_ok. Qed.
Lemma sweep_clock_ok m r c : ch1_ok c -> ch1_ok (sweep_clock m r c).
Proof. intros Hc. cbv delta [sweep_clock]. upd_ok ch1_ok. Qed.
Lemma sweep_default_ok : sweep_ok sweep_default.
Proof. repeat constructor; simpl; auto with apu; lia. Qed.
#[export] Hint Resolve tick_recalculation_ok tick_delayed_calculation_ok sweep_clock_ok sweep_default_ok : apu.
Lemma sweep_startup_ok r p a s : period11 p -> sweep_ok (sweep_apply_powered_startup r p a s).
Proof. intros Hp. cbv delta [sweep_apply_powered_startup]. upd_ok sweep_ok. Qed.
#[export] Hint Resolve sweep_startup_ok : apu.

Lemma ch1_default_ok : ch1_ok ch1_default.
Proof. constructor; simpl; auto with apu gb. Qed.

Lemma write_nr10_ok v m c : u8 v -> ch1_ok c -> ch1_ok (write_nr10 v m c).
Proof. intros Hv Hc. cbv delta [write_nr10]. upd_ok ch1_ok. Qed.
Lemma write_nr11_ok v c : u8 v -> ch1_ok c -> ch1_ok (write_nr11 v c).
Proof. intros Hv Hc. cbv delta [write_nr11]. upd_ok ch1_ok. Qed.
Lemma write_nr12_ok v m c : u8 v -> ch1_ok c -> ch1_ok (write_nr12 v m c).
Proof. intros Hv Hc. cbv delta [write_nr12]. upd_ok ch1_ok. Qed.
Lemma clear_reload_pending_ok c : ch1_ok c -> ch1_ok (clear_reload_pending c).
Proof. intros Hc. cbv delta [clear_reload_pending]. upd_ok ch1_ok. Qed.
Lemma ch1_reload_if_just_sampled_ok m c : ch1_ok c -> ch1_ok (ch1_reload_if_just_sampled m c).
Proof. intros Hc. cbv delta [ch1_reload_if_just_sampled]. upd_ok ch1_ok. Qed.
#[export] Hint Resolve ch1_default_ok write_nr10_ok write_nr11_ok write_nr12_ok clear_reload_pending_ok
  ch1_reload_if_just_sampled_ok : apu.
Lemma write_nr13_ok v m c : u8 v -> ch1_ok c -> ch1_ok (write_nr13 v m c).
Proof. intros Hv Hc. cbv delta [write_nr13]. upd_ok ch1_ok. Qed.

Lemma ch1_trigger_ok m rev s b c : ch1_ok c -> ch1_ok (snd (ch1_trigger m rev s b c)).
Proof.
  intros Hc. unfold ch1_trigger. rewrite (surjective_pairing (pulse_trigger _ _ _ _ _ _)). cbn [snd].
  assert (Hp : pulse_ok (snd (pulse_trigger m s (ch1_period_value c) (nr12 c) b (pulse c))))
    by (destruct Hc; auto with apu).
  pose proof (ch1_period_range c). upd_ok ch1_ok.
Qed.
#[export] Hint Resolve write_nr13_ok ch1_trigger_ok : apu.

Lemma kept_period_u8 v n : u8 v -> u8 (Z.lor (Z.land v (not8 PERIOD_HIGH_MASK)) (Z.land n PERIOD_HIGH_MASK)).
Proof. intros Hv. apply u8_lor; [auto with gb|]. unfold PERIOD_HIGH_MASK. auto with gb. Qed.

Lemma write_nr14_ok v m rev s n c : u8 v -> ch1_ok c -> ch1_ok (write_nr14 v m rev s n c).
Proof.
  intros Hv Hc. pose proof (kept_period_u8 v (nr14 c) Hv).
  cbv delta [write_nr14 begin_nrx4_write]. cbv beta. upd_ok ch1_ok.
Qed.
#[export] Hint Resolve write_nr14_ok : apu.

Lemma ch1_write_register_ok r v m rev s n c :
  u8 v -> ch1_ok c -> ch1_ok (ch1_write_register r v m rev s n c).
Proof. intros Hv Hc. destruct r; simpl; auto with apu. Qed.

Lemma ch1_write_powered_off_register_ok r v m c : ch1_ok c -> ch1_ok (ch1_write_powered_off_register r v m c).
Proof.
  intros Hc. unfold ch1_write_powered_off_register. destruct (negb _), r; try done.
  cbv delta [ch1_write_length_while_powered_off]. upd_ok ch1_ok.
Qed.

Lemma ch1_apply_powered_startup_ok v0 v1 v2 v3 v4 a c :
  u8 v0 -> u8 v1 -> u8 v2 -> u8 v3 -> u8 v4 -> ch1_ok c ->
  ch1_ok (ch1_apply_powered_startup v0 v1 v2 v3 v4 a c).
Proof. intros H0 H1 H2 H3 H4 Hc. cbv delta [ch1_apply_powered_startup]. upd_ok ch1_ok. Qed.

Lemma ch1_power_off_registers_ok m c : ch1_ok c -> ch1_ok (ch1_power_off_registers m c).
Proof. intros Hc. cbv delta [ch1_power_off_registers]. upd_ok ch1_ok. Qed.
Lemma ch1_mark_powered_on_ok c : ch1_ok c -> ch1_ok (ch1_mark_powered_on c).
Proof. intros Hc. cbv delta [ch1_mark_powered_on]. upd_ok ch1_ok. Qed.
Lemma ch1_tick_ok m g a t c : ch1_ok c -> ch1_ok (ch1_tick_fast_timer_with_clock_gate m g a t c).
Proof. intros Hc. cbv delta [ch1_tick_fast_timer_with_clock_gate]. upd_ok ch1_ok. Qed.
Lemma ch1_clock_length_ok c : ch1_ok c -> ch1_ok (ch1_clock_length c).
Proof. intros Hc. cbv delta [ch1_clock_length]. upd_ok ch1_ok. Qed.
Lemma ch1_clock_envelope_ok c : ch1_ok c -> ch1_ok (ch1_clock_envelope c).
Proof. intros Hc. cbv delta [ch1_clock_envelope]. upd_ok ch1_ok. Qed.
Lemma ch1_clock_pending_ok c : ch1_ok c -> ch1_ok (ch1_clock_cgb_live_write_pending_even_envelope_tick c).
Proof. intros Hc. cbv delta [ch1_clock_cgb_live_write_pending_even_envelope_tick]. upd_ok ch1_ok. Qed.
Lemma ch1_clock_sweep_ok m c : ch1_ok c -> ch1_ok (ch1_clock_sweep m c).
Proof. intros Hc. unfold ch1_clock_sweep. auto with apu. Qed.

Lemma ch1_output_range c : ch1_ok c -> 0 <= ch1_current_digital_output c < 16.
Proof. intros Hc. apply pulse_output_range, Hc. Qed.

Lemma ch1_read_u8 r c : ch1_ok c -> u8 (ch1_read_register r c).
Proof.
  intros [H0 H1 H2 H3 H4 _ _].
  destruct r; simpl; unfold read_nr10, read_nr11, read_nr14, NR10_FORCED_HIGH_MASK, PULSE_DUTY_MASK,
    NR11_WRITE_ONLY_MASK, NR13_WRITE_ONLY_READ_VALUE, NR14_READ_MASK, NR14_FORCED_HIGH_MASK; auto 6 with gb.
Qed.
#[export] Hint Resolve ch1_write_register_ok ch1_write_powered_off_register_ok
  ch1_apply_powered_startup_ok ch1_power_off_registers_ok ch1_mark_powered_on_ok ch1_tick_ok
  ch1_clock_length_ok ch1_clock_envelope_ok ch1_clock_pending_ok ch1_clock_sweep_ok ch1_output_range
  ch1_read_u8 : apu.
