(* ===== verification/ApuWave.v ===== *)
(** * The wave channel ([crates/gb-core/src/apu/channels/ch3.rs])

    Registers, the sample fetch with its wave RAM access window, and the
    retrigger corruption of wave RAM on the first models.  The 16-byte array
    is a list; an index outside it is a panic. *)

From Stdlib Require Import ZArith Lia Bool List String.
From stdpp Require Import base list decidable.
From S2P Require Import Prelude.
From S2P Require Import Model.
From S2P Require Import ApuCommon.

Local Open Scope Z_scope.

Definition WAVE_RAM_LEN : Z := 0x10.
Definition WAVE_SAMPLE_COUNT : Z := 32.
Definition WAVE_RAM_INACCESSIBLE_READ_VALUE : Z := 0xFF.
Definition WAVE_TRIGGER_STARTUP_DELAY_T_CYCLES : Z := 6.
Definition WAVE_SAMPLE_BYTE_SHIFT : Z := 1.
Definition WAVE_SAMPLE_LOW_BIT : Z := 0x01.
Definition WAVE_SAMPLE_NIBBLE_MASK : Z := 0x0F.
Definition WAVE_HIGH_NIBBLE_SHIFT : Z := 4.
Definition WAVE_RETRIGGER_CORRUPTION_BLOCK_MASK : Z := 0x03.
Definition WAVE_RETRIGGER_CORRUPTION_BLOCK_LEN : Z := 4.
Definition WAVE_DMG_RETRIGGER_CORRUPTION_WINDOW_T_CYCLES : Z := 2.
Definition WAVE_OUTPUT_LEVEL_SHIFT : Z := 5.
Definition WAVE_OUTPUT_LEVEL_HALF_SHIFT : Z := 1.
Definition WAVE_OUTPUT_LEVEL_QUARTER_SHIFT : Z := 2.

Inductive Channel3Register := Nr30 | Nr31 | Nr32 | Nr33 | Nr34.

Record Channel3State := mkChannel3 {
  nr30 : Z;
  nr31 : Z;
  nr32 : Z;
  nr33 : Z;
  nr34 : Z;
  wave_ram : list Z;
  w_runtime : ChannelRuntimeState;
  sample_index : Z;
  sample_buffer : Z;
  w_period_timer : Z;
  w_length_counter : Z;
  w_length_enabled : bool;
  wave_ram_access_window_byte_index : option Z
}.

#[export] Instance upd_nr30 : Update nr30 := fun v s =>
  let '(mkChannel3 _ x2 x3 x4 x5 x6 x7 x8 x9 x10 x11 x12 x13) := s in mkChannel3 v x2 x3 x4 x5 x6 x7 x8 x9 x10 x11 x12 x13.
#[export] Instance upd_nr31 : Update nr31 := fun v s =>
  let '(mkChannel3 x1 _ x3 x4 x5 x6 x7 x8 x9 x10 x11 x12 x13) := s in mkChannel3 x1 v x3 x4 x5 x6 x7 x8 x9 x10 x11 x12 x13.
#[export] Instance upd_nr32 : Update nr32 := fun v s =>
  let '(mkChannel3 x1 x2 _ x4 x5 x6 x7 x8 x9 x10 x11 x12 x13) := s in mkChannel3 x1 x2 v x4 x5 x6 x7 x8 x9 x10 x11 x12 x13.
#[export] Instance upd_nr33 : Update nr33 := fun v s =>
  let '(mkChannel3 x1 x2 x3 _ x5 x6 x7 x8 x9 x10 x11 x12 x13) := s in mkChannel3 x1 x2 x3 v x5 x6 x7 x8 x9 x10 x11 x12 x13.
#[export] Instance upd_nr34 : Update nr34 := fun v s =>
  let '(mkChannel3 x1 x2 x3 x4 _ x6 x7 x8 x9 x10 x11 x12 x13) := s in mkChannel3 x1 x2 x3 x4 v x6 x7 x8 x9 x10 x11 x12 x13.
#[export] Instance upd_wave_ram : Update wave_ram := fun v s =>
  let '(mkChannel3 x1 x2 x3 x4 x5 _ x7 x8 x9 x10 x11 x12 x13) := s in mkChannel3 x1 x2 x3 x4 x5 v x7 x8 x9 x10 x11 x12 x13.
#[export] Instance upd_w_runtime : Update w_runtime := fun v s =>
  let '(mkChannel3 x1 x2 x3 x4 x5 x6 _ x8 x9 x10 x11 x12 x13) := s in mkChannel3 x1 x2 x3 x4 x5 x6 v x8 x9 x10 x11 x12 x13.
#[export] Instance upd_sample_index : Update sample_index := fun v s =>
  let '(mkChannel3 x1 x2 x3 x4 x5 x6 x7 _ x9 x10 x11 x12 x13) := s in mkChannel3 x1 x2 x3 x4 x5 x6 x7 v x9 x10 x11 x12 x13.
#[export] Instance upd_sample_buffer : Update sample_buffer := fun v s =>
  let '(mkChannel3 x1 x2 x3 x4 x5 x6 x7 x8 _ x10 x11 x12 x13) := s in mkChannel3 x1 x2 x3 x4 x5 x6 x7 x8 v x10 x11 x12 x13.
#[export] Instance upd_w_period_timer : Update w_period_timer := fun v s =>
  let '(mkChannel3 x1 x2 x3 x4 x5 x6 x7 x8 x9 _ x11 x12 x13) := s in mkChannel3 x1 x2 x3 x4 x5 x6 x7 x8 x9 v x11 x12 x13.
#[export] Instance upd_w_length_counter : Update w_length_counter := fun v s =>
  let '(mkChannel3 x1 x2 x3 x4 x5 x6 x7 x8 x9 x10 _ x12 x13) := s in mkChannel3 x1 x2 x3 x4 x5 x6 x7 x8 x9 x10 v x12 x13.
#[export] Instance upd_w_length_enabled : Update w_length_enabled := fun v s =>
  let '(mkChannel3 x1 x2 x3 x4 x5 x6 x7 x8 x9 x10 x11 _ x13) := s in mkChannel3 x1 x2 x3 x4 x5 x6 x7 x8 x9 x10 x11 v x13.
#[export] Instance upd_wave_ram_access_window_byte_index : Update wave_ram_access_window_byte_index := fun v s =>
  let '(mkChannel3 x1 x2 x3 x4 x5 x6 x7 x8 x9 x10 x11 x12 _) := s in mkChannel3 x1 x2 x3 x4 x5 x6 x7 x8 x9 x10 x11 x12 v.

Definition ch3_default : Channel3State :=
  mkChannel3 0 0 0 0 0 (replicate 16 0) runtime_default 0 0 0 0 false None.

(** Array accesses. *)
Definition array_get (l : list Z) (i : Z) : outcome Z :=
  match l !! Z.to_nat i with Some b => Done b | None => Panic "index out of bounds" end.
Definition array_set (l : list Z) (i v : Z) : outcome (list Z) :=
  if i <? Z.of_nat (length l) then Done (<[Z.to_nat i := v]> l) else Panic "index out of bounds".

Definition ch3_derived_dac_enabled (c : Channel3State) : bool := has_bits (nr30 c) NR30_DAC_POWER_BIT.
Definition ch3_period_value (c : Channel3State) : Z := pulse_period_from_registers (nr33 c) (nr34 c).

Definition read_nr30 (c : Channel3State) : Z := Z.lor (Z.land (nr30 c) NR30_DAC_POWER_BIT) NR30_FORCED_HIGH_MASK.
Definition read_nr32 (c : Channel3State) : Z := Z.lor (Z.land (nr32 c) NR32_READ_MASK) NR32_FORCED_HIGH_MASK.
Definition read_nr34 (c : Channel3State) : Z := Z.lor (Z.land (nr34 c) NR14_READ_MASK) NR14_FORCED_HIGH_MASK.

Definition ch3_read_register (r : Channel3Register) (c : Channel3State) : Z :=
  match r with
  | Nr30 => read_nr30 c
  | Nr31 => NR31_WRITE_ONLY_READ_VALUE
  | Nr32 => read_nr32 c
  | Nr33 => NR33_WRITE_ONLY_READ_VALUE
  | Nr34 => read_nr34 c
  end.

Definition write_nr30 (value : Z) (c : Channel3State) : Channel3State :=
  let c := c <| nr30 := Z.land value NR30_DAC_POWER_BIT |> in
  c <| w_runtime := set_dac_enabled (ch3_derived_dac_enabled c) (w_runtime c) |>.
Definition write_nr31 (value : Z) (c : Channel3State) : Channel3State :=
  c <| nr31 := value |> <| w_length_counter := wave_length_counter_from_load value |>.
Definition write_nr32 (value : Z) (c : Channel3State) : Channel3State :=
  c <| nr32 := Z.land value NR32_READ_MASK |>.
Definition write_nr33 (value : Z) (c : Channel3State) : Channel3State := c <| nr33 := value |>.

(** The byte being fetched when a playing channel is triggered again. *)
Definition apply_dmg_retrigger_wave_ram_corruption (m : ConsoleModel) (c : Channel3State)
    : outcome Channel3State :=
  if negb (is_dmg_family m) || negb (active (w_runtime c)) ||
     negb (w_period_timer c =? WAVE_DMG_RETRIGGER_CORRUPTION_WINDOW_T_CYCLES)
  then mret c
  else
    let current_byte_index := Z.shiftr (sample_index c + 1) WAVE_SAMPLE_BYTE_SHIFT mod WAVE_RAM_LEN in
    if current_byte_index <? WAVE_RETRIGGER_CORRUPTION_BLOCK_LEN then
      b ← array_get (wave_ram c) current_byte_index;
      r ← array_set (wave_ram c) 0 b;
      mret (c <| wave_ram := r |>)
    else
      let block_start := Z.ldiff current_byte_index WAVE_RETRIGGER_CORRUPTION_BLOCK_MASK in
      b0 ← array_get (wave_ram c) block_start;
      b1 ← array_get (wave_ram c) (block_start + 1);
      b2 ← array_get (wave_ram c) (block_start + 2);
      b3 ← array_get (wave_ram c) (block_start + 3);
      if Z.of_nat (length (wave_ram c)) <? 4 then Panic "range end index out of range"
      else mret (c <| wave_ram := [b0; b1; b2; b3] ++ drop 4 (wave_ram c) |>).

Definition ch3_trigger (m : ConsoleModel) (c : Channel3State) : outcome (bool * Channel3State) :=
  c ← apply_dmg_retrigger_wave_ram_corruption m c;
  let reloaded_zero_length := w_length_counter c =? 0 in
  let c := if w_length_counter c =? 0
           then c <| w_length_counter := WAVE_LENGTH_COUNTER_RELOAD |> <| w_length_enabled := false |> else c in
  let c := c <| w_period_timer := wave_timer_reload (ch3_period_value c) + WAVE_TRIGGER_STARTUP_DELAY_T_CYCLES |>
             <| sample_index := 0 |>
             <| w_runtime := runtime_trigger (w_runtime c) |> in
  mret (reloaded_zero_length, c).

Definition ch3_apply_extra_length_clocking_on_enable (m : ConsoleModel)
    (was_length_enabled next_step_clocks_length trigger trigger_reloaded_zero_length : bool)
    (c : Channel3State) : Channel3State :=
  let '(l, r) := apply_extra_length_clocking
    (mkExtra m (w_length_enabled c) was_length_enabled next_step_clocks_length trigger trigger_reloaded_zero_length)
    WAVE_LENGTH_COUNTER_RELOAD (w_length_counter c) (w_runtime c) in
  c <| w_length_counter := l |> <| w_runtime := r |>.

Definition write_nr34 (value : Z) (m : ConsoleModel) (next_frame_sequencer_step : Z) (c : Channel3State)
    : outcome Channel3State :=
  let '(r, plan) := begin_nrx4_write value NRX4_WRITABLE_MASK next_frame_sequencer_step (w_length_enabled c) in
  let c := c <| nr34 := r |> in
  pc ← (if ctx_trigger (plan_context plan) then
          t ← ch3_trigger m c;
          mret (observe_trigger_reloaded_zero_length (fst t) plan, snd t)
        else mret (plan, c));
  let '(plan, c) := pc in
  let c := c <| w_length_enabled := ctx_length_enabled (plan_context plan) |> in
  mret (ch3_apply_extra_length_clocking_on_enable m (plan_was_length_enabled plan)
          (ctx_next_step_clocks_length (plan_context plan)) (ctx_trigger (plan_context plan))
          (plan_trigger_reloaded_zero_length plan) c).

Definition ch3_write_register (r : Channel3Register) (value : Z) (m : ConsoleModel)
    (next_frame_sequencer_step : Z) (c : Channel3State) : outcome Channel3State :=
  match r with
  | Nr30 => mret (write_nr30 value c)
  | Nr31 => mret (write_nr31 value c)
  | Nr32 => mret (write_nr32 value c)
  | Nr33 => mret (write_nr33 value c)
  | Nr34 => write_nr34 value m next_frame_sequencer_step c
  end.

Definition ch3_write_length_while_powered_off (value : Z) (c : Channel3State) : Channel3State :=
  c <| w_length_counter := wave_length_counter_from_load value |>.

Definition ch3_write_powered_off_register (r : Channel3Register) (value : Z) (m : ConsoleModel)
    (c : Channel3State) : Channel3State :=
  if negb (is_dmg_family m) then c
  else match r with Nr31 => ch3_write_length_while_powered_off value c | _ => c end.

Definition ch3_apply_powered_startup (v30 v31 v32 v33 v34 : Z) (a : bool) (c : Channel3State) : Channel3State :=
  let c := c <| nr30 := Z.land v30 NR30_DAC_POWER_BIT |> <| nr31 := v31 |>
             <| nr32 := Z.land v32 NR32_READ_MASK |> <| nr33 := v33 |>
             <| nr34 := Z.land v34 NRX4_WRITABLE_MASK |> <| sample_index := 0 |> <| sample_buffer := 0 |> in
  let c := c <| w_period_timer := wave_timer_reload (ch3_period_value c) |>
             <| w_length_counter := wave_length_counter_from_load (nr31 c) |>
             <| w_length_enabled := has_bits (nr34 c) LENGTH_ENABLE_BIT |>
             <| wave_ram_access_window_byte_index := None |> in
  c <| w_runtime := set_active_from_startup a (set_dac_enabled (ch3_derived_dac_enabled c) runtime_default) |>.

Definition ch3_clear_registers (c : Channel3State) : Channel3State :=
  mkChannel3 0 0 0 0 0 (wave_ram c) runtime_default 0 0 0 0 false None.

Definition ch3_power_off_registers (m : ConsoleModel) (c : Channel3State) : Channel3State :=
  let preserved_length := if is_dmg_family m then w_length_counter c else 0 in
  let c := ch3_clear_registers c in
  c <| w_length_counter := preserved_length |>.

Definition begin_t_cycle (c : Channel3State) : Channel3State := c <| wave_ram_access_window_byte_index := None |>.

Definition current_wave_ram_byte_index (c : Channel3State) : Z :=
  Z.shiftr (sample_index c) WAVE_SAMPLE_BYTE_SHIFT mod WAVE_RAM_LEN.

Definition wave_sample (index : Z) (c : Channel3State) : outcome Z :=
  byte ← array_get (wave_ram c) (Z.shiftr index WAVE_SAMPLE_BYTE_SHIFT mod WAVE_RAM_LEN);
  mret (if Z.land index WAVE_SAMPLE_LOW_BIT =? 0 then shr8 byte WAVE_HIGH_NIBBLE_SHIFT
        else Z.land byte WAVE_SAMPLE_NIBBLE_MASK).

Definition advance_sample (c : Channel3State) : outcome Channel3State :=
  let c := c <| sample_index := (sample_index c + 1) mod WAVE_SAMPLE_COUNT |> in
  let c := c <| wave_ram_access_window_byte_index := Some (as_u8 (current_wave_ram_byte_index c)) |> in
  b ← wave_sample (sample_index c) c;
  mret (c <| sample_buffer := b |>).

Definition ch3_tick_fast_timer (c : Channel3State) : outcome Channel3State :=
  if negb (active (w_runtime c)) then mret c
  else
    let c := if 0 <? w_period_timer c then c <| w_period_timer := w_period_timer c - 1 |> else c in
    if w_period_timer c =? 0 then
      advance_sample (c <| w_period_timer := wave_timer_reload (ch3_period_value c) |>)
    else mret c.

Definition ch3_clock_length (c : Channel3State) : Channel3State :=
  let '(l, r) := clock_length_counter (w_length_enabled c) (w_length_counter c) (w_runtime c) in
  c <| w_length_counter := l |> <| w_runtime := r |>.

Definition active_wave_ram_access_byte_index (m : ConsoleModel) (c : Channel3State) : option Z :=
  if active (w_runtime c) && is_dmg_family m then wave_ram_access_window_byte_index c else None.

Definition read_wave_ram (m : ConsoleModel) (index : Z) (c : Channel3State) : outcome Z :=
  match active_wave_ram_access_byte_index m c with
  | Some i => array_get (wave_ram c) i
  | None =>
      if active (w_runtime c) then
        match wave_ram_mmio_policy m with
        | DmgCurrentByteDuringFetchOnly => mret WAVE_RAM_INACCESSIBLE_READ_VALUE
        | CgbCurrentByteWhileActive => array_get (wave_ram c) (current_wave_ram_byte_index c)
        | AgbInaccessibleWhileActive => mret WAVE_RAM_INACCESSIBLE_READ_VALUE
        end
      else array_get (wave_ram c) index
  end.

Definition write_wave_ram (m : ConsoleModel) (index value : Z) (c : Channel3State) : outcome Channel3State :=
  let store i := r ← array_set (wave_ram c) i value; mret (c <| wave_ram := r |>) in
  match active_wave_ram_access_byte_index m c with
  | Some i => store i
  | None =>
      if active (w_runtime c) then
        match wave_ram_mmio_policy m with
        | DmgCurrentByteDuringFetchOnly => mret c
        | CgbCurrentByteWhileActive => store (current_wave_ram_byte_index c)
        | AgbInaccessibleWhileActive => mret c
        end
      else store index
  end.

Definition initialize_wave_ram (r : list Z) (c : Channel3State) : Channel3State := c <| wave_ram := r |>.

Definition ch3_current_digital_output (c : Channel3State) : outcome Z :=
  if negb (active (w_runtime c)) then mret 0
  else
    match Z.shiftr (Z.land (nr32 c) NR32_READ_MASK) WAVE_OUTPUT_LEVEL_SHIFT with
    | 0 => mret 0
    | 1 => mret (sample_buffer c)
    | 2 => mret (shr8 (sample_buffer c) WAVE_OUTPUT_LEVEL_HALF_SHIFT)
    | 3 => mret (shr8 (sample_buffer c) WAVE_OUTPUT_LEVEL_QUARTER_SHIFT)
    | _ => Panic "internal error: entered unreachable code"
    end.

(** ** Invariant *)

Definition wave_bytes (l : list Z) : Prop := length l = 16%nat /\ Forall u8 l.

Record ch3_ok (c : Channel3State) : Prop := {
  nr30_u8 : u8 (nr30 c);
  nr31_u8 : u8 (nr31 c);
  nr32_u8 : u8 (nr32 c);
  nr33_u8 : u8 (nr33 c);
  nr34_u8 : u8 (nr34 c);
  wave_ram_ok : wave_bytes (wave_ram c);
  ch3_runtime_ok : runtime_ok (w_runtime c);
  sample_index_range : 0 <= sample_index c < 32;
  sample_buffer_range : 0 <= sample_buffer c < 16;
  w_period_timer_range : 0 <= w_period_timer c <= 4102;
  w_length_counter_range : 0 <= w_length_counter c <= 256;
  window_range : 0 <= default 0 (wave_ram_access_window_byte_index c) < 16
}.

#[export] Hint Extern 3 (ch3_ok (_ _ _)) => upd_hint ch3_ok : apu.
#[export] Hint Unfold WAVE_RAM_LEN WAVE_SAMPLE_COUNT WAVE_TRIGGER_STARTUP_DELAY_T_CYCLES WAVE_SAMPLE_BYTE_SHIFT
  WAVE_SAMPLE_LOW_BIT WAVE_SAMPLE_NIBBLE_MASK WAVE_HIGH_NIBBLE_SHIFT WAVE_RETRIGGER_CORRUPTION_BLOCK_MASK
  WAVE_RETRIGGER_CORRUPTION_BLOCK_LEN WAVE_OUTPUT_LEVEL_SHIFT WAVE_OUTPUT_LEVEL_HALF_SHIFT
  WAVE_OUTPUT_LEVEL_QUARTER_SHIFT as_u8 : apu_consts.

Lemma wave_bytes_zero : wave_bytes (replicate 16 0).
Proof. split; [done|]. apply Forall_replicate. auto with gb. Qed.

Lemma ch3_default_ok : ch3_ok ch3_default.
Proof. constructor; simpl; auto using wave_bytes_zero with apu gb; lia. Qed.

Lemma array_get_ok l i : wave_bytes l -> 0 <= i < 16 -> finishes (array_get l i) u8.
Proof.
  intros [Hl Hb] Hi. unfold array_get.
  destruct (lookup_lt_is_Some_2 l (Z.to_nat i)) as [b Hlk]; [lia|].
  rewrite Hlk. simpl. by eapply Forall_lookup_1.
Qed.

Lemma array_set_ok l i v : wave_bytes l -> 0 <= i < 16 -> u8 v -> finishes (array_set l i v) wave_bytes.
Proof.
  intros [Hl Hb] Hi Hv. unfold array_set. rewrite Hl. destruct (Z.ltb_spec i (Z.of_nat 16)); [|lia].
  split; [by rewrite length_insert | by apply Forall_insert].
Qed.

Lemma set_wave_ram_ok l c : wave_bytes l -> ch3_ok c -> ch3_ok (c <| wave_ram := l |>).
Proof. intros Hl Hc. upd_ok ch3_ok. Qed.

Lemma store_ok c i v :
  ch3_ok c -> 0 <= i < 16 -> u8 v ->
  finishes (r ← array_set (wave_ram c) i v; mret (c <| wave_ram := r |>)) ch3_ok.
Proof.
  intros Hc Hi Hv. apply finishes_bind. eapply finishes_mono; [apply array_set_ok; [apply Hc | done..]|].
  intros l Hl. by apply set_wave_ram_ok.
Qed.

Lemma byte_index_range i : 0 <= Z.shiftr i WAVE_SAMPLE_BYTE_SHIFT mod WAVE_RAM_LEN < 16.
Proof. apply Z.mod_pos_bound. done. Qed.

Lemma block_start_range i : 0 <= i < 16 -> 0 <= Z.ldiff i WAVE_RETRIGGER_CORRUPTION_BLOCK_MASK <= 12.
Proof.
  intros Hi.
  pose proof (forall_below 16 (fun i => (0 <=? Z.ldiff i 3) && (Z.ldiff i 3 <=? 12)) eq_refl i ltac:(lia)) as H.
  cbv beta in H. prune. autounfold with apu_consts. lia.
Qed.

(** The retrigger corruption copies one byte, or one aligned block of four. *)
Lemma retrigger_corruption_ok m c :
  ch3_ok c -> finishes (apply_dmg_retrigger_wave_ram_corruption m c) ch3_ok.
Proof.
  intros Hc. unfold apply_dmg_retrigger_wave_ram_corruption.
  destruct (_ || _ || _); [done|].
  pose proof (byte_index_range (sample_index c + 1)) as Hi.
  set (i := _ mod WAVE_RAM_LEN) in *. clearbody i. pose proof (block_start_range i Hi) as Hb.
  assert (Hget : forall j, 0 <= j < 16 -> finishes (array_get (wave_ram c) j) u8)
    by (intros; apply array_get_ok; [apply Hc | done]).
  destruct (i <? WAVE_RETRIGGER_CORRUPTION_BLOCK_LEN).
  { apply finishes_bind. eapply finishes_mono; [by apply Hget|]. intros b Hb'. apply store_ok; (done || lia). }
  do 4 (apply finishes_bind; eapply finishes_mono; [apply Hget; lia|]; intros ? ?).
  destruct (wave_ram_ok c Hc) as [Hl Hf].
  destruct (Z.ltb_spec (Z.of_nat (length (wave_ram c))) 4); [lia|].
  apply set_wave_ram_ok; [|done]. split.
  - rewrite length_app, length_drop, Hl. done.
  - apply Forall_app. split; [repeat apply Forall_cons_2; auto using Forall_nil_2 | by apply Forall_drop].
Qed.

Lemma ch3_start_ok c (b : bool) :
  ch3_ok c ->
  ch3_ok (let c := if b then c <| w_length_counter := WAVE_LENGTH_COUNTER_RELOAD |> <| w_length_enabled := false |>
                   else c in
          c <| w_period_timer := wave_timer_reload (ch3_period_value c) + WAVE_TRIGGER_STARTUP_DELAY_T_CYCLES |>
            <| sample_index := 0 |> <| w_runtime := runtime_trigger (w_runtime c) |>).
Proof. intros Hc. upd_ok ch3_ok. Qed.

Lemma ch3_trigger_ok m c : ch3_ok c -> finishes (ch3_trigger m c) (fun t => ch3_ok (snd t)).
Proof.
  intros Hc. unfold ch3_trigger. apply finishes_bind.
  eapply finishes_mono; [by apply retrigger_corruption_ok|]. intros c' Hc'. by apply ch3_start_ok.
Qed.

Lemma set_w_length_runtime_ok c lr :
  ch3_ok c -> length_ok 256 lr -> ch3_ok (c <| w_length_counter := fst lr |> <| w_runtime := snd lr |>).
Proof. intros Hc [Hl Hr]. upd_ok ch3_ok. Qed.

Lemma ch3_extra_length_ok m w n t z c :
  ch3_ok c -> ch3_ok (ch3_apply_extra_length_clocking_on_enable m w n t z c).
Proof.
  intros Hc. unfold ch3_apply_extra_length_clocking_on_enable.
  rewrite (surjective_pairing (apply_extra_length_clocking _ _ _ _)).
  apply set_w_length_runtime_ok; [done|]. destruct Hc.
  apply apply_extra_length_clocking_ok; (done || lia).
Qed.

Lemma ch3_clock_length_ok c : ch3_ok c -> ch3_ok (ch3_clock_length c).
Proof.
  intros Hc. unfold ch3_clock_length. rewrite (surjective_pairing (clock_length_counter _ _ _)).
  apply set_w_length_runtime_ok; [done|]. destruct Hc. by apply clock_length_counter_ok.
Qed.

Lemma set_w_length_enabled_ok b c : ch3_ok c -> ch3_ok (c <| w_length_enabled := b |>).
Proof. intros Hc. upd_ok ch3_ok. Qed.
Lemma set_nr34_ok v c : u8 v -> ch3_ok c -> ch3_ok (c <| nr34 := v |>).
Proof. intros Hv Hc. upd_ok ch3_ok. Qed.
#[export] Hint Resolve ch3_default_ok ch3_extra_length_ok ch3_clock_length_ok set_w_length_enabled_ok
  set_nr34_ok : apu.

Lemma write_nr30_ok v c : ch3_ok c -> ch3_ok (write_nr30 v c).
Proof. intros Hc. cbv delta [write_nr30]. upd_ok ch3_ok. Qed.
Lemma write_nr31_ok v c : u8 v -> ch3_ok c -> ch3_ok (write_nr31 v c).
Proof. intros Hv Hc. cbv delta [write_nr31]. upd_ok ch3_ok. Qed.
Lemma write_nr32_ok v c : ch3_ok c -> ch3_ok (write_nr32 v c).
Proof. intros Hc. cbv delta [write_nr32]. upd_ok ch3_ok. Qed.
Lemma write_nr33_ok v c : u8 v -> ch3_ok c -> ch3_ok (write_nr33 v c).
Proof. intros Hv Hc. cbv delta [write_nr33]. upd_ok ch3_ok. Qed.

Lemma write_nr34_ok v m n c : u8 v -> ch3_ok c -> finishes (write_nr34 v m n c) ch3_ok.
Proof.
  intros Hv Hc. unfold write_nr34, begin_nrx4_write. apply finishes_bind.
  assert (H34 : ch3_ok (c <| nr34 := Z.land v NRX4_WRITABLE_MASK |>)) by auto with apu gb.
  destruct (ctx_trigger _).
  - apply finishes_bind. eapply finishes_mono; [by apply ch3_trigger_ok|]. intros [b c'] Hc'. simpl in *. auto with apu.
  - simpl. auto with apu.
Qed.

Lemma ch3_write_register_ok r v m n c :
  u8 v -> ch3_ok c -> finishes (ch3_write_register r v m n c) ch3_ok.
Proof.
  intros Hv Hc. destruct r; simpl; auto using write_nr30_ok, write_nr31_ok, write_nr32_ok, write_nr33_ok, write_nr34_ok.
Qed.

Lemma ch3_write_powered_off_register_ok r v m c :
  u8 v -> ch3_ok c -> ch3_ok (ch3_write_powered_off_register r v m c).
Proof.
  intros Hv Hc. unfold ch3_write_powered_off_register.
  destruct (negb _), r; try done. cbv delta [ch3_write_length_while_powered_off]. upd_ok ch3_ok.
Qed.

Lemma ch3_apply_powered_startup_ok v0 v1 v2 v3 v4 a c :
  u8 v0 -> u8 v1 -> u8 v2 -> u8 v3 -> u8 v4 -> ch3_ok c -> ch3_ok (ch3_apply_powered_startup v0 v1 v2 v3 v4 a c).
Proof.
  intros H0 H1 H2 H3 H4 Hc. cbv delta [ch3_apply_powered_startup]. upd_ok ch3_ok.
Qed.

Lemma ch3_clear_registers_ok c : ch3_ok c -> ch3_ok (ch3_clear_registers c).
Proof. intros Hc. constructor; simpl; auto with apu gb; try lia. apply Hc. Qed.
#[export] Hint Resolve ch3_clear_registers_ok : apu.

Lemma ch3_power_off_registers_ok m c : ch3_ok c -> ch3_ok (ch3_power_off_registers m c).
Proof. intros Hc. cbv delta [ch3_power_off_registers]. upd_ok ch3_ok. Qed.

Lemma begin_t_cycle_ok c : ch3_ok c -> ch3_ok (begin_t_cycle c).
Proof. intros Hc. cbv delta [begin_t_cycle]. upd_ok ch3_ok. Qed.
#[export] Hint Resolve write_nr30_ok write_nr31_ok write_nr32_ok write_nr33_ok
  ch3_write_powered_off_register_ok ch3_apply_powered_startup_ok ch3_power_off_registers_ok begin_t_cycle_ok : apu.

Lemma current_byte_range c : 0 <= current_wave_ram_byte_index c < 16.
Proof. apply byte_index_range. Qed.

Lemma nibble_range i b :
  u8 b -> 0 <= (if Z.land i WAVE_SAMPLE_LOW_BIT =? 0 then shr8 b WAVE_HIGH_NIBBLE_SHIFT
                else Z.land b WAVE_SAMPLE_NIBBLE_MASK) < 16.
Proof. intros Hb. autounfold with apu_consts in *. case_tests; shift_values; land_bounds; divmod_lia. Qed.

Lemma wave_sample_ok i c : ch3_ok c -> finishes (wave_sample i c) (fun b => 0 <= b < 16).
Proof.
  intros Hc. unfold wave_sample. apply finishes_bind.
  eapply finishes_mono; [apply array_get_ok; [apply Hc | apply byte_index_range]|].
  intros b Hb. by apply nibble_range.
Qed.

(** The sample taken when the timer runs out. *)
Lemma advance_sample_ok c : ch3_ok c -> finishes (advance_sample c) ch3_ok.
Proof.
  intros Hc. unfold advance_sample.
  set (c1 := c <| sample_index := _ |>). set (c2 := c1 <| wave_ram_access_window_byte_index := _ |>).
  assert (H1 : ch3_ok c1).
  { pose proof (Z.mod_pos_bound (sample_index c + 1) WAVE_SAMPLE_COUNT eq_refl). subst c1. clear c2.
    autounfold with apu_consts in *. upd_ok ch3_ok. }
  assert (H2 : ch3_ok c2).
  { pose proof (current_byte_range c1) as Hb. subst c2. clearbody c1. upd_ok ch3_ok. }
  clearbody c2. apply finishes_bind. eapply finishes_mono; [by apply wave_sample_ok|].
  intros b Hb. simpl. upd_ok ch3_ok.
Qed.

Lemma ch3_tick_ok c : ch3_ok c -> finishes (ch3_tick_fast_timer c) ch3_ok.
Proof.
  intros Hc. unfold ch3_tick_fast_timer. destruct (negb _); [done|].
  match goal with |- finishes (if w_period_timer ?c1 =? 0 then _ else _) _ =>
    assert (H1 : ch3_ok c1) by upd_ok ch3_ok; forget c1 end.
  destruct (_ =? 0); [|done]. apply advance_sample_ok. upd_ok ch3_ok.
Qed.

(** While the channel plays, an access reaches the byte being played or none. *)
Lemma access_index_range m c i :
  ch3_ok c -> active_wave_ram_access_byte_index m c = Some i -> 0 <= i < 16.
Proof.
  intros Hc. unfold active_wave_ram_access_byte_index. destruct (_ && _); [|done]. intros Hi.
  pose proof (window_range c Hc) as Hw. by rewrite Hi in Hw.
Qed.

Lemma read_wave_ram_ok m i c : ch3_ok c -> 0 <= i < 16 -> finishes (read_wave_ram m i c) u8.
Proof.
  intros Hc Hi. unfold read_wave_ram.
  assert (Hget : forall j, 0 <= j < 16 -> finishes (array_get (wave_ram c) j) u8)
    by (intros; apply array_get_ok; [apply Hc | done]).
  destruct (active_wave_ram_access_byte_index m c) eqn:Ha; [by eapply Hget, access_index_range|].
  destruct (active (w_runtime c)); [|by apply Hget].
  destruct (wave_ram_mmio_policy m); [done | apply Hget, current_byte_range | done].
Qed.

Lemma write_wave_ram_ok m i v c : ch3_ok c -> 0 <= i < 16 -> u8 v -> finishes (write_wave_ram m i v c) ch3_ok.
Proof.
  intros Hc Hi Hv. unfold write_wave_ram.
  destruct (active_wave_ram_access_byte_index m c) eqn:Ha.
  { apply store_ok; [done | by eapply access_index_range | done]. }
  destruct (active (w_runtime c)); [|by apply store_ok].
  destruct (wave_ram_mmio_policy m); [done | apply store_ok; auto using current_byte_range | done].
Qed.

Lemma initialize_wave_ram_ok l c : wave_bytes l -> ch3_ok c -> ch3_ok (initialize_wave_ram l c).
Proof. apply set_wave_ram_ok. Qed.

(** The output level code has two bits: the [unreachable!] arm is. *)
Lemma ch3_output_range c : ch3_ok c -> finishes (ch3_current_digital_output c) (fun o => 0 <= o < 16).
Proof.
  intros Hc. pose proof (sample_buffer_range c Hc) as Hs. unfold ch3_current_digital_output.
  destruct (negb _); [simpl; lia|].
  assert (Hl : 0 <= Z.shiftr (Z.land (nr32 c) NR32_READ_MASK) WAVE_OUTPUT_LEVEL_SHIFT <= 3).
  { autounfold with apu_consts. land_bounds. shift_values. divmod_lia. }
  assert (Hhalf : forall k, 0 <= k -> 0 <= shr8 (sample_buffer c) k < 16).
  { intros k Hk. unfold shr8. rewrite Z.shiftr_div_pow2 by lia.
    assert (0 < 2 ^ k) by (apply Z.pow_pos_nonneg; lia).
    split; [apply Z.div_pos; lia | apply Z.div_lt_upper_bound; nia]. }
  destruct (Z.shiftr _ _) as [|[[]|[]|]|]; simpl; try lia; apply Hhalf; done.
Qed.

Lemma ch3_read_u8 r c : ch3_ok c -> u8 (ch3_read_register r c).
Proof.
  intros Hc. destruct r; simpl; unfold read_nr30, read_nr32, read_nr34, NR30_DAC_POWER_BIT, NR30_FORCED_HIGH_MASK,
    NR31_WRITE_ONLY_READ_VALUE, NR32_READ_MASK, NR32_FORCED_HIGH_MASK, NR33_WRITE_ONLY_READ_VALUE, NR14_READ_MASK,
    NR14_FORCED_HIGH_MASK; auto 6 with gb.
Qed.
#[export] Hint Resolve ch3_output_range ch3_read_u8 initialize_wave_ram_ok : apu.
