(* ===== verification/ApuNoise.v ===== *)
(** * The noise channel
    ([crates/gb-core/src/apu/channels/ch4.rs], [ch4_live_write.rs])

    The shift register, the hidden counter that clocks it, and what a write of
    NR43 does to a playing channel: the value passes through glitch values on
    its way to the new one, each pass a possible clock of the shift register,
    recorded in a trace.  The write resolver borrows the signal state; its
    methods take it and return it. *)

From Stdlib Require Import ZArith Lia Bool List.
From stdpp Require Import base list option decidable.
From S2P Require Import Prelude.
From S2P Require Import Model.
From S2P Require Import ApuCommon.

Import ListNotations.
Local Open Scope Z_scope.

Definition NOISE_LFSR_INITIAL_STATE : Z := 0x0000.
Definition NOISE_LFSR_OUTPUT_BIT : Z := 0.
Definition NOISE_LFSR_TAP_BIT : Z := 1.
Definition NOISE_LFSR_FEEDBACK_BIT : Z := 14.
Definition NOISE_LFSR_SHORT_WIDTH_FEEDBACK_BIT : Z := 6.

(** [!x] on a [u16]. *)
Definition not16 (x : Z) : Z := Z.lxor x 0xFFFF.

(** ** Traces *)

Inductive ApuCh4Nr43LiveWriteCategory :=
| NoCategory | Category1 | Category2 | RisingEdgeForcedShort | LowShiftFollowupCategory.

Inductive ApuCh4Nr43LfsrAction :=
| NoAction | PlainStep | ForcedShortStep | ForcedShortStepThenLowShiftCorruption
| StepThenAndPrevious | StepThenSetFeedbackBits | SetFeedbackBits.
#[export] Instance ApuCh4Nr43LfsrAction_eq_dec : EqDecision ApuCh4Nr43LfsrAction.
Proof. solve_decision. Defined.

Inductive ApuCh4Nr43PassKind := ReloadSeam | OldToFf | FfToGlitch1 | Glitch1ToGlitch2 | GlitchToNew | LowShiftFollowup.

Record ApuCh4Nr43PassTrace := mkPass {
  pass_kind : ApuCh4Nr43PassKind;
  value_from : Z;
  value_to : Z;
  shift_from : Z;
  shift_to : Z;
  bit_from : bool;
  bit_to : bool;
  pass_category : ApuCh4Nr43LiveWriteCategory;
  pass_action : ApuCh4Nr43LfsrAction;
  pass_lfsr_before : Z;
  pass_lfsr_after : Z
}.

#[export] Instance upd_pass_kind : Update pass_kind := fun v s =>
  let '(mkPass _ x2 x3 x4 x5 x6 x7 x8 x9 x10 x11) := s in mkPass v x2 x3 x4 x5 x6 x7 x8 x9 x10 x11.
#[export] Instance upd_value_from : Update value_from := fun v s =>
  let '(mkPass x1 _ x3 x4 x5 x6 x7 x8 x9 x10 x11) := s in mkPass x1 v x3 x4 x5 x6 x7 x8 x9 x10 x11.
#[export] Instance upd_value_to : Update value_to := fun v s =>
  let '(mkPass x1 x2 _ x4 x5 x6 x7 x8 x9 x10 x11) := s in mkPass x1 x2 v x4 x5 x6 x7 x8 x9 x10 x11.
#[export] Instance upd_shift_from : Update shift_from := fun v s =>
  let '(mkPass x1 x2 x3 _ x5 x6 x7 x8 x9 x10 x11) := s in mkPass x1 x2 x3 v x5 x6 x7 x8 x9 x10 x11.
#[export] Instance upd_shift_to : Update shift_to := fun v s =>
  let '(mkPass x1 x2 x3 x4 _ x6 x7 x8 x9 x10 x11) := s in mkPass x1 x2 x3 x4 v x6 x7 x8 x9 x10 x11.
#[export] Instance upd_bit_from : Update bit_from := fun v s =>
  let '(mkPass x1 x2 x3 x4 x5 _ x7 x8 x9 x10 x11) := s in mkPass x1 x2 x3 x4 x5 v x7 x8 x9 x10 x11.
#[export] Instance upd_bit_to : Update bit_to := fun v s =>
  let '(mkPass x1 x2 x3 x4 x5 x6 _ x8 x9 x10 x11) := s in mkPass x1 x2 x3 x4 x5 x6 v x8 x9 x10 x11.
#[export] Instance upd_pass_category : Update pass_category := fun v s =>
  let '(mkPass x1 x2 x3 x4 x5 x6 x7 _ x9 x10 x11) := s in mkPass x1 x2 x3 x4 x5 x6 x7 v x9 x10 x11.
#[export] Instance upd_pass_action : Update pass_action := fun v s =>
  let '(mkPass x1 x2 x3 x4 x5 x6 x7 x8 _ x10 x11) := s in mkPass x1 x2 x3 x4 x5 x6 x7 x8 v x10 x11.
#[export] Instance upd_pass_lfsr_before : Update pass_lfsr_before := fun v s =>
  let '(mkPass x1 x2 x3 x4 x5 x6 x7 x8 x9 _ x11) := s in mkPass x1 x2 x3 x4 x5 x6 x7 x8 x9 v x11.
#[export] Instance upd_pass_lfsr_after : Update pass_lfsr_after := fun v s =>
  let '(mkPass x1 x2 x3 x4 x5 x6 x7 x8 x9 x10 _) := s in mkPass x1 x2 x3 x4 x5 x6 x7 x8 x9 x10 v.

Record ApuCh4Nr43LiveWriteTrace := mkTrace {
  tr_runtime_active : bool;
  tr_same_shift_group : bool;
  tr_old_nr43 : Z;
  ff_value : Z;
  glitch_1_value : Z;
  glitch_2_value : option Z;
  old_shift : Z;
  ff_shift : Z;
  glitch_1_shift : Z;
  glitch_2_shift : option Z;
  new_shift : Z;
  tr_new_nr43 : Z;
  effective_counter : Z;
  tr_countdown_reloaded : bool;
  old_bit : bool;
  ff_bit : bool;
  glitch_1_bit : bool;
  glitch_2_bit : option bool;
  new_bit : bool;
  decision_category : ApuCh4Nr43LiveWriteCategory;
  lfsr_action : ApuCh4Nr43LfsrAction;
  reload_seam : option ApuCh4Nr43PassTrace;
  old_to_ff : option ApuCh4Nr43PassTrace;
  ff_to_glitch_1 : option ApuCh4Nr43PassTrace;
  glitch_1_to_glitch_2 : option ApuCh4Nr43PassTrace;
  glitch_to_new : option ApuCh4Nr43PassTrace;
  low_shift_followup : option ApuCh4Nr43PassTrace;
  lfsr_before : Z;
  lfsr_after : Z
}.

#[export] Instance upd_tr_runtime_active : Update tr_runtime_active := fun v s =>
  let '(mkTrace _ x2 x3 x4 x5 x6 x7 x8 x9 x10 x11 x12 x13 x14 x15 x16 x17 x18 x19 x20 x21 x22 x23 x24 x25 x26 x27 x28 x29) := s in mkTrace v x2 x3 x4 x5 x6 x7 x8 x9 x10 x11 x12 x13 x14 x15 x16 x17 x18 x19 x20 x21 x22 x23 x24 x25 x26 x27 x28 x29.
#[export] Instance upd_tr_same_shift_group : Update tr_same_shift_group := fun v s =>
  let '(mkTrace x1 _ x3 x4 x5 x6 x7 x8 x9 x10 x11 x12 x13 x14 x15 x16 x17 x18 x19 x20 x21 x22 x23 x24 x25 x26 x27 x28 x29) := s in mkTrace x1 v x3 x4 x5 x6 x7 x8 x9 x10 x11 x12 x13 x14 x15 x16 x17 x18 x19 x20 x21 x22 x23 x24 x25 x26 x27 x28 x29.
#[export] Instance upd_tr_old_nr43 : Update tr_old_nr43 := fun v s =>
  let '(mkTrace x1 x2 _ x4 x5 x6 x7 x8 x9 x10 x11 x12 x13 x14 x15 x16 x17 x18 x19 x20 x21 x22 x23 x24 x25 x26 x27 x28 x29) := s in mkTrace x1 x2 v x4 x5 x6 x7 x8 x9 x10 x11 x12 x13 x14 x15 x16 x17 x18 x19 x20 x21 x22 x23 x24 x25 x26 x27 x28 x29.
#[export] Instance upd_ff_value : Update ff_value := fun v s =>
  let '(mkTrace x1 x2 x3 _ x5 x6 x7 x8 x9 x10 x11 x12 x13 x14 x15 x16 x17 x18 x19 x20 x21 x22 x23 x24 x25 x26 x27 x28 x29) := s in mkTrace x1 x2 x3 v x5 x6 x7 x8 x9 x10 x11 x12 x13 x14 x15 x16 x17 x18 x19 x20 x21 x22 x23 x24 x25 x26 x27 x28 x29.
#[export] Instance upd_glitch_1_value : Update glitch_1_value := fun v s =>
  let '(mkTrace x1 x2 x3 x4 _ x6 x7 x8 x9 x10 x11 x12 x13 x14 x15 x16 x17 x18 x19 x20 x21 x22 x23 x24 x25 x26 x27 x28 x29) := s in mkTrace x1 x2 x3 x4 v x6 x7 x8 x9 x10 x11 x12 x13 x14 x15 x16 x17 x18 x19 x20 x21 x22 x23 x24 x25 x26 x27 x28 x29.
#[export] Instance upd_glitch_2_value : Update glitch_2_value := fun v s =>
  let '(mkTrace x1 x2 x3 x4 x5 _ x7 x8 x9 x10 x11 x12 x13 x14 x15 x16 x17 x18 x19 x20 x21 x22 x23 x24 x25 x26 x27 x28 x29) := s in mkTrace x1 x2 x3 x4 x5 v x7 x8 x9 x10 x11 x12 x13 x14 x15 x16 x17 x18 x19 x20 x21 x22 x23 x24 x25 x26 x27 x28 x29.
#[export] Instance upd_old_shift : Update old_shift := fun v s =>
  let '(mkTrace x1 x2 x3 x4 x5 x6 _ x8 x9 x10 x11 x12 x13 x14 x15 x16 x17 x18 x19 x20 x21 x22 x23 x24 x25 x26 x27 x28 x29) := s in mkTrace x1 x2 x3 x4 x5 x6 v x8 x9 x10 x11 x12 x13 x14 x15 x16 x17 x18 x19 x20 x21 x22 x23 x24 x25 x26 x27 x28 x29.
#[export] Instance upd_ff_shift : Update ff_shift := fun v s =>
  let '(mkTrace x1 x2 x3 x4 x5 x6 x7 _ x9 x10 x11 x12 x13 x14 x15 x16 x17 x18 x19 x20 x21 x22 x23 x24 x25 x26 x27 x28 x29) := s in mkTrace x1 x2 x3 x4 x5 x6 x7 v x9 x10 x11 x12 x13 x14 x15 x16 x17 x18 x19 x20 x21 x22 x23 x24 x25 x26 x27 x28 x29.
#[export] Instance upd_glitch_1_shift : Update glitch_1_shift := fun v s =>
  let '(mkTrace x1 x2 x3 x4 x5 x6 x7 x8 _ x10 x11 x12 x13 x14 x15 x16 x17 x18 x19 x20 x21 x22 x23 x24 x25 x26 x27 x28 x29) := s in mkTrace x1 x2 x3 x4 x5 x6 x7 x8 v x10 x11 x12 x13 x14 x15 x16 x17 x18 x19 x20 x21 x22 x23 x24 x25 x26 x27 x28 x29.
#[export] Instance upd_glitch_2_shift : Update glitch_2_shift := fun v s =>
  let '(mkTrace x1 x2 x3 x4 x5 x6 x7 x8 x9 _ x11 x12 x13 x14 x15 x16 x17 x18 x19 x20 x21 x22 x23 x24 x25 x26 x27 x28 x29) := s in mkTrace x1 x2 x3 x4 x5 x6 x7 x8 x9 v x11 x12 x13 x14 x15 x16 x17 x18 x19 x20 x21 x22 x23 x24 x25 x26 x27 x28 x29.
#[export] Instance upd_new_shift : Update new_shift := fun v s =>
  let '(mkTrace x1 x2 x3 x4 x5 x6 x7 x8 x9 x10 _ x12 x13 x14 x15 x16 x17 x18 x19 x20 x21 x22 x23 x24 x25 x26 x27 x28 x29) := s in mkTrace x1 x2 x3 x4 x5 x6 x7 x8 x9 x10 v x12 x13 x14 x15 x16 x17 x18 x19 x20 x21 x22 x23 x24 x25 x26 x27 x28 x29.
#[export] Instance upd_tr_new_nr43 : Update tr_new_nr43 := fun v s =>
  let '(mkTrace x1 x2 x3 x4 x5 x6 x7 x8 x9 x10 x11 _ x13 x14 x15 x16 x17 x18 x19 x20 x21 x22 x23 x24 x25 x26 x27 x28 x29) := s in mkTrace x1 x2 x3 x4 x5 x6 x7 x8 x9 x10 x11 v x13 x14 x15 x16 x17 x18 x19 x20 x21 x22 x23 x24 x25 x26 x27 x28 x29.
#[export] Instance upd_effective_counter : Update effective_counter := fun v s =>
  let '(mkTrace x1 x2 x3 x4 x5 x6 x7 x8 x9 x10 x11 x12 _ x14 x15 x16 x17 x18 x19 x20 x21 x22 x23 x24 x25 x26 x27 x28 x29) := s in mkTrace x1 x2 x3 x4 x5 x6 x7 x8 x9 x10 x11 x12 v x14 x15 x16 x17 x18 x19 x20 x21 x22 x23 x24 x25 x26 x27 x28 x29.
#[export] Instance upd_tr_countdown_reloaded : Update tr_countdown_reloaded := fun v s =>
  let '(mkTrace x1 x2 x3 x4 x5 x6 x7 x8 x9 x10 x11 x12 x13 _ x15 x16 x17 x18 x19 x20 x21 x22 x23 x24 x25 x26 x27 x28 x29) := s in mkTrace x1 x2 x3 x4 x5 x6 x7 x8 x9 x10 x11 x12 x13 v x15 x16 x17 x18 x19 x20 x21 x22 x23 x24 x25 x26 x27 x28 x29.
#[export] Instance upd_old_bit : Update old_bit := fun v s =>
  let '(mkTrace x1 x2 x3 x4 x5 x6 x7 x8 x9 x10 x11 x12 x13 x14 _ x16 x17 x18 x19 x20 x21 x22 x23 x24 x25 x26 x27 x28 x29) := s in mkTrace x1 x2 x3 x4 x5 x6 x7 x8 x9 x10 x11 x12 x13 x14 v x16 x17 x18 x19 x20 x21 x22 x23 x24 x25 x26 x27 x28 x29.
#[export] Instance upd_ff_bit : Update ff_bit := fun v s =>
  let '(mkTrace x1 x2 x3 x4 x5 x6 x7 x8 x9 x10 x11 x12 x13 x14 x15 _ x17 x18 x19 x20 x21 x22 x23 x24 x25 x26 x27 x28 x29) := s in mkTrace x1 x2 x3 x4 x5 x6 x7 x8 x9 x10 x11 x12 x13 x14 x15 v x17 x18 x19 x20 x21 x22 x23 x24 x25 x26 x27 x28 x29.
#[export] Instance upd_glitch_1_bit : Update glitch_1_bit := fun v s =>
  let '(mkTrace x1 x2 x3 x4 x5 x6 x7 x8 x9 x10 x11 x12 x13 x14 x15 x16 _ x18 x19 x20 x21 x22 x23 x24 x25 x26 x27 x28 x29) := s in mkTrace x1 x2 x3 x4 x5 x6 x7 x8 x9 x10 x11 x12 x13 x14 x15 x16 v x18 x19 x20 x21 x22 x23 x24 x25 x26 x27 x28 x29.
#[export] Instance upd_glitch_2_bit : Update glitch_2_bit := fun v s =>
  let '(mkTrace x1 x2 x3 x4 x5 x6 x7 x8 x9 x10 x11 x12 x13 x14 x15 x16 x17 _ x19 x20 x21 x22 x23 x24 x25 x26 x27 x28 x29) := s in mkTrace x1 x2 x3 x4 x5 x6 x7 x8 x9 x10 x11 x12 x13 x14 x15 x16 x17 v x19 x20 x21 x22 x23 x24 x25 x26 x27 x28 x29.
#[export] Instance upd_new_bit : Update new_bit := fun v s =>
  let '(mkTrace x1 x2 x3 x4 x5 x6 x7 x8 x9 x10 x11 x12 x13 x14 x15 x16 x17 x18 _ x20 x21 x22 x23 x24 x25 x26 x27 x28 x29) := s in mkTrace x1 x2 x3 x4 x5 x6 x7 x8 x9 x10 x11 x12 x13 x14 x15 x16 x17 x18 v x20 x21 x22 x23 x24 x25 x26 x27 x28 x29.
#[export] Instance upd_decision_category : Update decision_category := fun v s =>
  let '(mkTrace x1 x2 x3 x4 x5 x6 x7 x8 x9 x10 x11 x12 x13 x14 x15 x16 x17 x18 x19 _ x21 x22 x23 x24 x25 x26 x27 x28 x29) := s in mkTrace x1 x2 x3 x4 x5 x6 x7 x8 x9 x10 x11 x12 x13 x14 x15 x16 x17 x18 x19 v x21 x22 x23 x24 x25 x26 x27 x28 x29.
#[export] Instance upd_lfsr_action : Update lfsr_action := fun v s =>
  let '(mkTrace x1 x2 x3 x4 x5 x6 x7 x8 x9 x10 x11 x12 x13 x14 x15 x16 x17 x18 x19 x20 _ x22 x23 x24 x25 x26 x27 x28 x29) := s in mkTrace x1 x2 x3 x4 x5 x6 x7 x8 x9 x10 x11 x12 x13 x14 x15 x16 x17 x18 x19 x20 v x22 x23 x24 x25 x26 x27 x28 x29.
#[export] Instance upd_reload_seam : Update reload_seam := fun v s =>
  let '(mkTrace x1 x2 x3 x4 x5 x6 x7 x8 x9 x10 x11 x12 x13 x14 x15 x16 x17 x18 x19 x20 x21 _ x23 x24 x25 x26 x27 x28 x29) := s in mkTrace x1 x2 x3 x4 x5 x6 x7 x8 x9 x10 x11 x12 x13 x14 x15 x16 x17 x18 x19 x20 x21 v x23 x24 x25 x26 x27 x28 x29.
#[export] Instance upd_old_to_ff : Update old_to_ff := fun v s =>
  let '(mkTrace x1 x2 x3 x4 x5 x6 x7 x8 x9 x10 x11 x12 x13 x14 x15 x16 x17 x18 x19 x20 x21 x22 _ x24 x25 x26 x27 x28 x29) := s in mkTrace x1 x2 x3 x4 x5 x6 x7 x8 x9 x10 x11 x12 x13 x14 x15 x16 x17 x18 x19 x20 x21 x22 v x24 x25 x26 x27 x28 x29.
#[export] Instance upd_ff_to_glitch_1 : Update ff_to_glitch_1 := fun v s =>
  let '(mkTrace x1 x2 x3 x4 x5 x6 x7 x8 x9 x10 x11 x12 x13 x14 x15 x16 x17 x18 x19 x20 x21 x22 x23 _ x25 x26 x27 x28 x29) := s in mkTrace x1 x2 x3 x4 x5 x6 x7 x8 x9 x10 x11 x12 x13 x14 x15 x16 x17 x18 x19 x20 x21 x22 x23 v x25 x26 x27 x28 x29.
#[export] Instance upd_glitch_1_to_glitch_2 : Update glitch_1_to_glitch_2 := fun v s =>
  let '(mkTrace x1 x2 x3 x4 x5 x6 x7 x8 x9 x10 x11 x12 x13 x14 x15 x16 x17 x18 x19 x20 x21 x22 x23 x24 _ x26 x27 x28 x29) := s in mkTrace x1 x2 x3 x4 x5 x6 x7 x8 x9 x10 x11 x12 x13 x14 x15 x16 x17 x18 x19 x20 x21 x22 x23 x24 v x26 x27 x28 x29.
#[export] Instance upd_glitch_to_new : Update glitch_to_new := fun v s =>
  let '(mkTrace x1 x2 x3 x4 x5 x6 x7 x8 x9 x10 x11 x12 x13 x14 x15 x16 x17 x18 x19 x20 x21 x22 x23 x24 x25 _ x27 x28 x29) := s in mkTrace x1 x2 x3 x4 x5 x6 x7 x8 x9 x10 x11 x12 x13 x14 x15 x16 x17 x18 x19 x20 x21 x22 x23 x24 x25 v x27 x28 x29.
#[export] Instance upd_low_shift_followup : Update low_shift_followup := fun v s =>
  let '(mkTrace x1 x2 x3 x4 x5 x6 x7 x8 x9 x10 x11 x12 x13 x14 x15 x16 x17 x18 x19 x20 x21 x22 x23 x24 x25 x26 _ x28 x29) := s in mkTrace x1 x2 x3 x4 x5 x6 x7 x8 x9 x10 x11 x12 x13 x14 x15 x16 x17 x18 x19 x20 x21 x22 x23 x24 x25 x26 v x28 x29.
#[export] Instance upd_lfsr_before : Update lfsr_before := fun v s =>
  let '(mkTrace x1 x2 x3 x4 x5 x6 x7 x8 x9 x10 x11 x12 x13 x14 x15 x16 x17 x18 x19 x20 x21 x22 x23 x24 x25 x26 x27 _ x29) := s in mkTrace x1 x2 x3 x4 x5 x6 x7 x8 x9 x10 x11 x12 x13 x14 x15 x16 x17 x18 x19 x20 x21 x22 x23 x24 x25 x26 x27 v x29.
#[export] Instance upd_lfsr_after : Update lfsr_after := fun v s =>
  let '(mkTrace x1 x2 x3 x4 x5 x6 x7 x8 x9 x10 x11 x12 x13 x14 x15 x16 x17 x18 x19 x20 x21 x22 x23 x24 x25 x26 x27 x28 _) := s in mkTrace x1 x2 x3 x4 x5 x6 x7 x8 x9 x10 x11 x12 x13 x14 x15 x16 x17 x18 x19 x20 x21 x22 x23 x24 x25 x26 x27 x28 v.

(** ** State *)

Record Channel4NoiseSignalState := mkSignal {
  clock_shift : Z;
  short_width_mode : bool;
  clock_divider_code : Z;
  n_period_timer : Z;
  lfsr_state : Z
}.

#[export] Instance upd_clock_shift : Update clock_shift := fun v s =>
  let '(mkSignal _ x2 x3 x4 x5) := s in mkSignal v x2 x3 x4 x5.
#[export] Instance upd_short_width_mode : Update short_width_mode := fun v s =>
  let '(mkSignal x1 _ x3 x4 x5) := s in mkSignal x1 v x3 x4 x5.
#[export] Instance upd_clock_divider_code : Update clock_divider_code := fun v s =>
  let '(mkSignal x1 x2 _ x4 x5) := s in mkSignal x1 x2 v x4 x5.
#[export] Instance upd_n_period_timer : Update n_period_timer := fun v s =>
  let '(mkSignal x1 x2 x3 _ x5) := s in mkSignal x1 x2 x3 v x5.
#[export] Instance upd_lfsr_state : Update lfsr_state := fun v s =>
  let '(mkSignal x1 x2 x3 x4 _) := s in mkSignal x1 x2 x3 x4 v.

Record Channel4Nr43LiveWriteState := mkLive {
  alignment : Z;
  alignment_subphase : bool;
  counter_timer : Z;
  noise_counter : Z;
  countdown_reloaded : bool;
  did_step_counter : bool;
  counter_active : bool;
  background_counting : bool;
  started_with_dac_disabled : bool;
  last_trace : option ApuCh4Nr43LiveWriteTrace
}.

#[export] Instance upd_alignment : Update alignment := fun v s =>
  let '(mkLive _ x2 x3 x4 x5 x6 x7 x8 x9 x10) := s in mkLive v x2 x3 x4 x5 x6 x7 x8 x9 x10.
#[export] Instance upd_alignment_subphase : Update alignment_subphase := fun v s =>
  let '(mkLive x1 _ x3 x4 x5 x6 x7 x8 x9 x10) := s in mkLive x1 v x3 x4 x5 x6 x7 x8 x9 x10.
#[export] Instance upd_counter_timer : Update counter_timer := fun v s =>
  let '(mkLive x1 x2 _ x4 x5 x6 x7 x8 x9 x10) := s in mkLive x1 x2 v x4 x5 x6 x7 x8 x9 x10.
#[export] Instance upd_noise_counter : Update noise_counter := fun v s =>
  let '(mkLive x1 x2 x3 _ x5 x6 x7 x8 x9 x10) := s in mkLive x1 x2 x3 v x5 x6 x7 x8 x9 x10.
#[export] Instance upd_countdown_reloaded : Update countdown_reloaded := fun v s =>
  let '(mkLive x1 x2 x3 x4 _ x6 x7 x8 x9 x10) := s in mkLive x1 x2 x3 x4 v x6 x7 x8 x9 x10.
#[export] Instance upd_did_step_counter : Update did_step_counter := fun v s =>
  let '(mkLive x1 x2 x3 x4 x5 _ x7 x8 x9 x10) := s in mkLive x1 x2 x3 x4 x5 v x7 x8 x9 x10.
#[export] Instance upd_counter_active : Update counter_active := fun v s =>
  let '(mkLive x1 x2 x3 x4 x5 x6 _ x8 x9 x10) := s in mkLive x1 x2 x3 x4 x5 x6 v x8 x9 x10.
#[export] Instance upd_background_counting : Update background_counting := fun v s =>
  let '(mkLive x1 x2 x3 x4 x5 x6 x7 _ x9 x10) := s in mkLive x1 x2 x3 x4 x5 x6 x7 v x9 x10.
#[export] Instance upd_started_with_dac_disabled : Update started_with_dac_disabled := fun v s =>
  let '(mkLive x1 x2 x3 x4 x5 x6 x7 x8 _ x10) := s in mkLive x1 x2 x3 x4 x5 x6 x7 x8 v x10.
#[export] Instance upd_last_trace : Update last_trace := fun v s =>
  let '(mkLive x1 x2 x3 x4 x5 x6 x7 x8 x9 _) := s in mkLive x1 x2 x3 x4 x5 x6 x7 x8 x9 v.

Record Channel4State := mkChannel4 {
  nr41 : Z;
  nr42 : Z;
  nr43 : Z;
  nr44 : Z;
  dmg_delayed_start : Z;
  pending_trigger_envelope_reload : bool;
  n_runtime : ChannelRuntimeState;
  n_length_counter : Z;
  n_length_enabled : bool;
  n_envelope : EnvelopeState;
  noise : Channel4NoiseSignalState;
  nr43_live_write : Channel4Nr43LiveWriteState
}.

#[export] Instance upd_nr41 : Update nr41 := fun v s =>
  let '(mkChannel4 _ x2 x3 x4 x5 x6 x7 x8 x9 x10 x11 x12) := s in mkChannel4 v x2 x3 x4 x5 x6 x7 x8 x9 x10 x11 x12.
#[export] Instance upd_nr42 : Update nr42 := fun v s =>
  let '(mkChannel4 x1 _ x3 x4 x5 x6 x7 x8 x9 x10 x11 x12) := s in mkChannel4 x1 v x3 x4 x5 x6 x7 x8 x9 x10 x11 x12.
#[export] Instance upd_nr43 : Update nr43 := fun v s =>
  let '(mkChannel4 x1 x2 _ x4 x5 x6 x7 x8 x9 x10 x11 x12) := s in mkChannel4 x1 x2 v x4 x5 x6 x7 x8 x9 x10 x11 x12.
#[export] Instance upd_nr44 : Update nr44 := fun v s =>
  let '(mkChannel4 x1 x2 x3 _ x5 x6 x7 x8 x9 x10 x11 x12) := s in mkChannel4 x1 x2 x3 v x5 x6 x7 x8 x9 x10 x11 x12.
#[export] Instance upd_dmg_delayed_start : Update dmg_delayed_start := fun v s =>
  let '(mkChannel4 x1 x2 x3 x4 _ x6 x7 x8 x9 x10 x11 x12) := s in mkChannel4 x1 x2 x3 x4 v x6 x7 x8 x9 x10 x11 x12.
#[export] Instance upd_pending_trigger_envelope_reload : Update pending_trigger_envelope_reload := fun v s =>
  let '(mkChannel4 x1 x2 x3 x4 x5 _ x7 x8 x9 x10 x11 x12) := s in mkChannel4 x1 x2 x3 x4 x5 v x7 x8 x9 x10 x11 x12.
#[export] Instance upd_n_runtime : Update n_runtime := fun v s =>
  let '(mkChannel4 x1 x2 x3 x4 x5 x6 _ x8 x9 x10 x11 x12) := s in mkChannel4 x1 x2 x3 x4 x5 x6 v x8 x9 x10 x11 x12.
#[export] Instance upd_n_length_counter : Update n_length_counter := fun v s =>
  let '(mkChannel4 x1 x2 x3 x4 x5 x6 x7 _ x9 x10 x11 x12) := s in mkChannel4 x1 x2 x3 x4 x5 x6 x7 v x9 x10 x11 x12.
#[export] Instance upd_n_length_enabled : Update n_length_enabled := fun v s =>
  let '(mkChannel4 x1 x2 x3 x4 x5 x6 x7 x8 _ x10 x11 x12) := s in mkChannel4 x1 x2 x3 x4 x5 x6 x7 x8 v x10 x11 x12.
#[export] Instance upd_n_envelope : Update n_envelope := fun v s =>
  let '(mkChannel4 x1 x2 x3 x4 x5 x6 x7 x8 x9 _ x11 x12) := s in mkChannel4 x1 x2 x3 x4 x5 x6 x7 x8 x9 v x11 x12.
#[export] Instance upd_noise : Update noise := fun v s =>
  let '(mkChannel4 x1 x2 x3 x4 x5 x6 x7 x8 x9 x10 _ x12) := s in mkChannel4 x1 x2 x3 x4 x5 x6 x7 x8 x9 x10 v x12.
#[export] Instance upd_nr43_live_write : Update nr43_live_write := fun v s =>
  let '(mkChannel4 x1 x2 x3 x4 x5 x6 x7 x8 x9 x10 x11 _) := s in mkChannel4 x1 x2 x3 x4 x5 x6 x7 x8 x9 x10 x11 v.

Definition signal_default : Channel4NoiseSignalState := mkSignal 0 false 0 0 0.
Definition live_default : Channel4Nr43LiveWriteState := mkLive 0 false 0 0 false false false false false None.
Definition ch4_default : Channel4State :=
  mkChannel4 0 0 0 0 0 false runtime_default 0 false envelope_default signal_default live_default.

(** ** The shift register *)

Definition step_channel4_lfsr (n : Channel4NoiseSignalState) : Channel4NoiseSignalState :=
  let feedback_bit := u8_from_bool
    (Z.land (lfsr_state n) (Z.shiftl 1 NOISE_LFSR_OUTPUT_BIT) =?
     Z.land (Z.shiftr (lfsr_state n) NOISE_LFSR_TAP_BIT) (Z.shiftl 1 NOISE_LFSR_OUTPUT_BIT)) in
  let n := n <| lfsr_state := Z.shiftr (lfsr_state n) 1 |> in
  let n := n <| lfsr_state := Z.lor (Z.land (lfsr_state n) (not16 (Z.shiftl 1 NOISE_LFSR_FEEDBACK_BIT)))
                                    (Z.shiftl feedback_bit NOISE_LFSR_FEEDBACK_BIT) |> in
  if short_width_mode n then
    n <| lfsr_state := Z.lor (Z.land (lfsr_state n) (not16 (Z.shiftl 1 NOISE_LFSR_SHORT_WIDTH_FEEDBACK_BIT)))
                             (Z.shiftl feedback_bit NOISE_LFSR_SHORT_WIDTH_FEEDBACK_BIT) |>
  else n.

Definition step_channel4_lfsr_with_forced_short_width (n : Channel4NoiseSignalState) : Channel4NoiseSignalState :=
  let mode := short_width_mode n in
  (step_channel4_lfsr (n <| short_width_mode := true |>)) <| short_width_mode := mode |>.

Definition apply_channel4_feedback_bit_corruption (n : Channel4NoiseSignalState) : Channel4NoiseSignalState :=
  let feedback_mask := if short_width_mode n then 0x4040 else 0x4000 in
  let previous_feedback_mask := if short_width_mode n then 0x2020 else 0x2000 in
  let n := n <| lfsr_state := Z.land (lfsr_state n) (not16 feedback_mask) |> in
  n <| lfsr_state := Z.lor (lfsr_state n) (Z.shiftl (Z.land (lfsr_state n) previous_feedback_mask) 1 mod 65536) |>.

Definition set_channel4_feedback_bits (n : Channel4NoiseSignalState) : Channel4NoiseSignalState :=
  let feedback_mask := if short_width_mode n then 0x4040 else 0x4000 in
  n <| lfsr_state := Z.lor (lfsr_state n) feedback_mask |>.

(** ** Writing NR43 while the channel plays *)

Inductive Channel4Nr43LiveWriteProfile := DmgPreCgbD | CgbDirect.

Definition decode_nr43_clock_shift (value : Z) : Z :=
  Z.land (shr8 value NOISE_CLOCK_SHIFT_SHIFT) NOISE_CLOCK_SHIFT_MASK.
Definition decode_nr43_noise_counter_reload (value : Z) : Z :=
  let divisor := Z.shiftl (Z.land value 0x07) 2 in
  if divisor =? 0 then 2 else divisor.
Definition first_glitch_value (old_nr43 new_nr43 : Z) : Z := Z.lor (Z.land old_nr43 0x7F) (Z.land new_nr43 0x80).
Definition second_glitch_value (old_nr43 new_nr43 : Z) : option Z :=
  if negb (Z.land old_nr43 0x80 =? Z.land new_nr43 0x80) then None
  else Some (Z.lor (Z.land old_nr43 0xCF) (Z.land new_nr43 0x30)).

Definition resolve_channel4_noise_counter_timer_after_live_write (profile : Channel4Nr43LiveWriteProfile)
    (new_nr43 : Z) (l : Channel4Nr43LiveWriteState) : Z :=
  if negb (countdown_reloaded l) && negb (counter_timer l =? 0) then counter_timer l
  else
    let divisor := decode_nr43_noise_counter_reload new_nr43 in
    if divisor =? 2 then divisor
    else
      let alignment_offsets :=
        match profile with DmgPreCgbD => [2; 1; 4; 3] | CgbDirect => [2; 1; 0; 3] end in
      divisor + nth (Z.to_nat (Z.land (alignment l) 0x03)) alignment_offsets 0.

Record Channel4Stage := mkStage {
  st_value : Z;
  st_shift : Z;
  st_bit : bool;
  st_short_width_mode : bool
}.

#[export] Instance upd_st_value : Update st_value := fun v s =>
  let '(mkStage _ x2 x3 x4) := s in mkStage v x2 x3 x4.
#[export] Instance upd_st_shift : Update st_shift := fun v s =>
  let '(mkStage x1 _ x3 x4) := s in mkStage x1 v x3 x4.
#[export] Instance upd_st_bit : Update st_bit := fun v s =>
  let '(mkStage x1 x2 _ x4) := s in mkStage x1 x2 v x4.
#[export] Instance upd_st_short_width_mode : Update st_short_width_mode := fun v s =>
  let '(mkStage x1 x2 x3 _) := s in mkStage x1 x2 x3 v.

Definition from_nr43 (value counter : Z) : Channel4Stage :=
  let shift := decode_nr43_clock_shift value in
  mkStage value shift (noise_counter_bit counter shift) (has_bits value NOISE_SHORT_WIDTH_BIT).
Definition synthetic_ff (counter : Z) : Channel4Stage := mkStage 0xFF 15 (noise_counter_bit counter 15) true.

Record Channel4ActualWriteResolution := mkResolution {
  category : ApuCh4Nr43LiveWriteCategory;
  action : ApuCh4Nr43LfsrAction;
  res_low_shift_followup : bool
}.

#[export] Instance upd_category : Update category := fun v s =>
  let '(mkResolution _ x2 x3) := s in mkResolution v x2 x3.
#[export] Instance upd_action : Update action := fun v s =>
  let '(mkResolution x1 _ x3) := s in mkResolution x1 v x3.
#[export] Instance upd_res_low_shift_followup : Update res_low_shift_followup := fun v s =>
  let '(mkResolution x1 x2 _) := s in mkResolution x1 x2 v.

Definition apply_lfsr_action (a : ApuCh4Nr43LfsrAction) (n : Channel4NoiseSignalState) : Channel4NoiseSignalState :=
  match a with
  | NoAction => n
  | PlainStep => step_channel4_lfsr n
  | ForcedShortStep => step_channel4_lfsr_with_forced_short_width n
  | ForcedShortStepThenLowShiftCorruption =>
      apply_channel4_feedback_bit_corruption (step_channel4_lfsr (step_channel4_lfsr_with_forced_short_width n))
  | StepThenAndPrevious =>
      let previous_lfsr := lfsr_state n in
      let n := step_channel4_lfsr n in
      n <| lfsr_state := Z.land (lfsr_state n) (Z.lor previous_lfsr 1) |>
  | StepThenSetFeedbackBits => set_channel4_feedback_bits (step_channel4_lfsr n)
  | SetFeedbackBits => set_channel4_feedback_bits n
  end.

Definition resolve_basic_live_write_transition (old_stage new_stage : Channel4Stage) (counter : Z)
    : Channel4ActualWriteResolution :=
  let glitch_stage := from_nr43 (first_glitch_value (st_value old_stage) (st_value new_stage)) counter in
  if Bool.eqb (st_bit old_stage) (st_bit new_stage) && negb (Bool.eqb (st_bit new_stage) (st_bit glitch_stage)) then
    if st_bit new_stage then mkResolution Category1 NoAction false
    else mkResolution Category2 PlainStep false
  else if negb (st_bit old_stage) && st_bit new_stage then
    mkResolution RisingEdgeForcedShort
      (if (st_shift new_stage <=? 2) && st_bit glitch_stage && (Z.land counter 0x08 =? 0)
       then ForcedShortStepThenLowShiftCorruption else ForcedShortStep) false
  else
    mkResolution NoCategory NoAction
      ((st_shift new_stage <=? 2) && negb (st_bit glitch_stage) && negb (st_bit new_stage) &&
       negb (st_bit old_stage) && negb (Z.land counter 0x08 =? 0)).

Definition classify_adjacent_pass (from to : Channel4Stage) : ApuCh4Nr43LiveWriteCategory :=
  if st_bit from && negb (st_bit to) then
    if has_bits (st_value to) 0x80 then Category1 else Category2
  else if negb (st_bit from) && st_bit to then RisingEdgeForcedShort
  else NoCategory.

Definition materialize_actionable_pass_trace (kind : ApuCh4Nr43PassKind) (from to : Channel4Stage)
    (resolution : Channel4ActualWriteResolution) (action_short_width_mode : bool)
    (n : Channel4NoiseSignalState) : ApuCh4Nr43PassTrace * Channel4NoiseSignalState :=
  let before := lfsr_state n in
  let n := n <| short_width_mode := action_short_width_mode |> in
  let n := apply_lfsr_action (action resolution) n in
  (mkPass kind (st_value from) (st_value to) (st_shift from) (st_shift to) (st_bit from) (st_bit to)
     (category resolution) (action resolution) before (lfsr_state n), n).

Definition materialize_descriptive_pass_trace (kind : ApuCh4Nr43PassKind) (from to : Channel4Stage)
    (n : Channel4NoiseSignalState) : ApuCh4Nr43PassTrace :=
  mkPass kind (st_value from) (st_value to) (st_shift from) (st_shift to) (st_bit from) (st_bit to)
    (classify_adjacent_pass from to) NoAction (lfsr_state n) (lfsr_state n).

Definition execute_low_shift_followup_pass (new_stage : Channel4Stage) (n : Channel4NoiseSignalState)
    : ApuCh4Nr43PassTrace * Channel4NoiseSignalState :=
  materialize_actionable_pass_trace LowShiftFollowup new_stage new_stage
    (mkResolution LowShiftFollowupCategory PlainStep true) (st_short_width_mode new_stage) n.

Definition effective_noise_counter (l : Channel4Nr43LiveWriteState) : Z :=
  if countdown_reloaded l
  then Z.lor (noise_counter l) (Z.land (wrapping_sub16 (noise_counter l) 1) NOISE_COUNTER_MASK)
  else noise_counter l.

Definition apply_reload_seam_pass (old_nr43 new_nr43 : Z) (old_stage : Channel4Stage)
    (l : Channel4Nr43LiveWriteState) (n : Channel4NoiseSignalState)
    : ApuCh4Nr43PassTrace * Channel4NoiseSignalState :=
  let current_counter := noise_counter l in
  let previous_counter := Z.land (wrapping_sub16 current_counter 1) NOISE_COUNTER_MASK in
  let current_glitch_bit := noise_counter_bit current_counter 7 in
  let n_shift := decode_nr43_clock_shift new_nr43 in
  let before := lfsr_state n in
  let should_step :=
    negb (noise_counter_bit current_counter (st_shift old_stage)) &&
    noise_counter_bit current_counter n_shift &&
    current_glitch_bit &&
    noise_counter_bit previous_counter (st_shift old_stage) &&
    negb (noise_counter_bit previous_counter n_shift) &&
    noise_counter_bit previous_counter 7 in
  let '(a, n) := if should_step then (PlainStep, step_channel4_lfsr n) else (NoAction, n) in
  (mkPass ReloadSeam old_nr43 old_nr43 (st_shift old_stage) (st_shift old_stage)
     (st_bit old_stage) (st_bit old_stage) NoCategory a before (lfsr_state n), n).

Definition derive_compatibility_aliases (t : ApuCh4Nr43LiveWriteTrace)
    : ApuCh4Nr43LiveWriteCategory * ApuCh4Nr43LfsrAction :=
  let ordered_passes :=
    [low_shift_followup t; ff_to_glitch_1 t; old_to_ff t; glitch_to_new t; glitch_1_to_glitch_2 t; reload_seam t] in
  match List.find (fun p => negb (bool_decide (pass_action p = NoAction))) (omap id ordered_passes) with
  | Some p => (pass_category p, pass_action p)
  | None => (NoCategory, NoAction)
  end.

(** Both resolvers close by storing the final register and the summary. *)
Definition close_trace (n : Channel4NoiseSignalState) (t : ApuCh4Nr43LiveWriteTrace) : ApuCh4Nr43LiveWriteTrace :=
  let t := t <| lfsr_after := lfsr_state n |> in
  let '(c, a) := derive_compatibility_aliases t in
  t <| decision_category := c |> <| lfsr_action := a |>.

Definition resolve_dmg_pre_cgb_d (runtime_active : bool) (old_nr43 new_nr43 : Z)
    (l : Channel4Nr43LiveWriteState) (n : Channel4NoiseSignalState)
    : ApuCh4Nr43LiveWriteTrace * Channel4NoiseSignalState :=
  let same_shift_group := Z.land old_nr43 0xF0 =? Z.land new_nr43 0xF0 in
  let counter := effective_noise_counter l in
  let old_stage := from_nr43 old_nr43 counter in
  let ff_stage := synthetic_ff counter in
  let glitch_1_stage := from_nr43 (first_glitch_value (st_value ff_stage) new_nr43) counter in
  let glitch_2_stage := (fun value => from_nr43 value counter) <$> second_glitch_value (st_value ff_stage) new_nr43 in
  let new_stage := from_nr43 new_nr43 counter in
  let before := lfsr_state n in
  let trace := mkTrace runtime_active same_shift_group old_nr43 (st_value ff_stage) (st_value glitch_1_stage)
    (st_value <$> glitch_2_stage) (st_shift old_stage) (st_shift ff_stage) (st_shift glitch_1_stage)
    (st_shift <$> glitch_2_stage) (st_shift new_stage) new_nr43 counter (countdown_reloaded l)
    (st_bit old_stage) (st_bit ff_stage) (st_bit glitch_1_stage) (st_bit <$> glitch_2_stage) (st_bit new_stage)
    NoCategory NoAction None None None None None None before before in
  if negb runtime_active || same_shift_group then (trace, n)
  else
    let '(seam, n) :=
      if countdown_reloaded l then
        let '(p, n) := apply_reload_seam_pass old_nr43 new_nr43 old_stage l n in (Some p, n)
      else (None, n) in
    let old_to_ff_action := resolve_basic_live_write_transition old_stage ff_stage counter in
    let ff_to_new_action := resolve_basic_live_write_transition ff_stage new_stage counter in
    let '(p1, n) := materialize_actionable_pass_trace OldToFf old_stage ff_stage old_to_ff_action
                      (st_short_width_mode ff_stage) n in
    let '(p2, n) := materialize_actionable_pass_trace FfToGlitch1 ff_stage glitch_1_stage ff_to_new_action
                      (st_short_width_mode new_stage) n in
    let p3 := (fun stage => materialize_descriptive_pass_trace Glitch1ToGlitch2 glitch_1_stage stage n)
              <$> glitch_2_stage in
    let pre_new_stage := default glitch_1_stage glitch_2_stage in
    let p4 := materialize_descriptive_pass_trace GlitchToNew pre_new_stage new_stage n in
    let '(p5, n) :=
      if res_low_shift_followup ff_to_new_action then
        let '(p, n) := execute_low_shift_followup_pass new_stage n in (Some p, n)
      else (None, n) in
    let n := n <| short_width_mode := st_short_width_mode new_stage |> in
    (close_trace n
       (trace <| reload_seam := seam |> <| old_to_ff := Some p1 |> <| ff_to_glitch_1 := Some p2 |>
              <| glitch_1_to_glitch_2 := p3 |> <| glitch_to_new := Some p4 |> <| low_shift_followup := p5 |>), n).

Definition resolve_cgb_direct (runtime_active : bool) (old_nr43 new_nr43 : Z)
    (l : Channel4Nr43LiveWriteState) (n : Channel4NoiseSignalState)
    : ApuCh4Nr43LiveWriteTrace * Channel4NoiseSignalState :=
  let same_shift_group := Z.land old_nr43 0xF0 =? Z.land new_nr43 0xF0 in
  let counter := noise_counter l in
  let old_stage := from_nr43 old_nr43 counter in
  let ff_stage := synthetic_ff counter in
  let glitch_stage := from_nr43 (first_glitch_value old_nr43 new_nr43) counter in
  let new_stage := from_nr43 new_nr43 counter in
  let before := lfsr_state n in
  let trace := mkTrace runtime_active same_shift_group old_nr43 (st_value ff_stage) (st_value glitch_stage)
    None (st_shift old_stage) (st_shift ff_stage) (st_shift glitch_stage)
    None (st_shift new_stage) new_nr43 counter (countdown_reloaded l)
    (st_bit old_stage) (st_bit ff_stage) (st_bit glitch_stage) None (st_bit new_stage)
    NoCategory NoAction None None None None None None before before in
  if negb runtime_active || same_shift_group
  then (trace, n <| short_width_mode := st_short_width_mode new_stage |>)
  else
    let direct_action := resolve_basic_live_write_transition old_stage new_stage counter in
    let '(p, n) := materialize_actionable_pass_trace GlitchToNew old_stage new_stage direct_action
                     (st_short_width_mode new_stage) n in
    let n := n <| short_width_mode := st_short_width_mode new_stage |> in
    (close_trace n (trace <| glitch_to_new := Some p |>), n).

Definition resolve (profile : Channel4Nr43LiveWriteProfile) (runtime_active : bool) (old_nr43 new_nr43 : Z)
    (l : Channel4Nr43LiveWriteState) (n : Channel4NoiseSignalState)
    : ApuCh4Nr43LiveWriteTrace * Channel4NoiseSignalState :=
  match profile with
  | DmgPreCgbD => resolve_dmg_pre_cgb_d runtime_active old_nr43 new_nr43 l n
  | CgbDirect => resolve_cgb_direct runtime_active old_nr43 new_nr43 l n
  end.

(** The seeding step before the resolver is empty. *)
Definition trace_channel4_live_nr43_write (profile : Channel4Nr43LiveWriteProfile) (runtime_active : bool)
    (old_nr43 new_nr43 : Z) (n : Channel4NoiseSignalState) (l : Channel4Nr43LiveWriteState)
    : ApuCh4Nr43LiveWriteTrace * Channel4NoiseSignalState :=
  resolve profile runtime_active old_nr43 new_nr43 l n.

Definition channel4_nr43_live_write_profile (m : ConsoleModel) : Channel4Nr43LiveWriteProfile :=
  if is_cgb_family m then CgbDirect else DmgPreCgbD.

(** ** The channel *)

Inductive Channel4Register := Nr41 | Nr42 | Nr43 | Nr44.

Definition on_noise (f : Channel4NoiseSignalState -> Channel4NoiseSignalState) (c : Channel4State) : Channel4State :=
  c <| noise := f (noise c) |>.
Definition on_live (f : Channel4Nr43LiveWriteState -> Channel4Nr43LiveWriteState) (c : Channel4State)
    : Channel4State := c <| nr43_live_write := f (nr43_live_write c) |>.

Definition read_nr44 (c : Channel4State) : Z := Z.lor (Z.land (nr44 c) NR44_READ_MASK) NR44_FORCED_HIGH_MASK.

Definition ch4_read_register (r : Channel4Register) (c : Channel4State) : Z :=
  match r with
  | Nr41 => NR41_WRITE_ONLY_READ_VALUE
  | Nr42 => nr42 c
  | Nr43 => nr43 c
  | Nr44 => read_nr44 c
  end.

Definition ch4_derived_dac_enabled (c : Channel4State) : bool := has_bits (nr42 c) DAC_ENABLE_REGISTER_MASK.

Definition decode_nr43 (value : Z) : Channel4State -> Channel4State :=
  on_noise (fun n =>
    n <| clock_shift := Z.land (shr8 value NOISE_CLOCK_SHIFT_SHIFT) NOISE_CLOCK_SHIFT_MASK |>
      <| short_width_mode := has_bits value NOISE_SHORT_WIDTH_BIT |>
      <| clock_divider_code := Z.land value NOISE_DIVIDER_CODE_MASK |>).

Definition ch4_noise_timer_reload (c : Channel4State) : Z :=
  noise_timer_reload (clock_shift (noise c)) (clock_divider_code (noise c)).
Definition ch4_noise_counter_timer_reload (c : Channel4State) : Z :=
  noise_counter_timer_reload (clock_divider_code (noise c)).

Definition hidden_counter_running (c : Channel4State) : bool :=
  counter_active (nr43_live_write c) || background_counting (nr43_live_write c).
Definition hidden_counter_divisor_code (c : Channel4State) : Z :=
  Z.land (clock_divider_code (noise c)) NOISE_DIVIDER_CODE_MASK.
Definition add_noise_counter (k : Z) : Channel4State -> Channel4State :=
  on_live (fun l => l <| noise_counter := Z.land (wrapping_add16 (noise_counter l) k) NOISE_COUNTER_MASK |>).
Definition increment_hidden_counter : Channel4State -> Channel4State := add_noise_counter 1.

Definition handle_hidden_counter_dac_disable (c : Channel4State) : Channel4State :=
  let c :=
    if active (n_runtime c) && negb (clock_divider_code (noise c) =? 0) then
      let c := if (0 <? counter_timer (nr43_live_write c)) && (counter_timer (nr43_live_write c) <=? 2)
               then increment_hidden_counter c else c in
      on_live (fun l => l <| background_counting := false |>) c
    else c in
  on_live (fun l => l <| counter_active := false |>) c.

(** [prepare_hidden_counter_start] in its parts: the flags, a collision with a
    counter about to step, the countdown, and the shift register. *)
Definition start_counter_flags (c : Channel4State) : Channel4State :=
  let was_background_counting := background_counting (nr43_live_write c) in
  let running := ch4_derived_dac_enabled c in
  let c := on_live (fun l => l <| counter_active := running |> <| started_with_dac_disabled := negb running |>
                               <| background_counting := true |>) c in
  if negb was_background_counting && negb running && negb (active (n_runtime c)) &&
     (noise_counter (nr43_live_write c) =? 0) && negb (did_step_counter (nr43_live_write c))
  then add_noise_counter 8 c else c.

Definition start_counter_timer (divisor alignment : Z) (runtime_active counter_running was_background_counting
    was_started_with_dac_disabled div_1_glitch : bool) (nr43_value : Z) : Z :=
  let timer := if divisor =? 0 then 6 else divisor * 4 + 6 in
  let timer :=
    if negb (Z.land alignment 1 =? 0) then
      if divisor =? 0 then timer + 1
      else if negb (Z.land alignment 2 =? 0) then
        if (divisor =? 1) && negb runtime_active then timer + 1 else timer - 3
      else
        let timer := timer - 1 in
        if (divisor =? 1) && runtime_active then timer - 4 else timer
    else if negb (divisor =? 0) then
      if negb (Z.land alignment 2 =? 0) then timer - 2
      else if (1 <? divisor) || ((divisor =? 1) && runtime_active && (Z.land nr43_value 0xF0 =? 0)) then timer - 4
      else timer
    else timer in
  let timer :=
    if 1 <? divisor then
      if negb counter_running && (alignment =? 0) then timer + 4 else timer
    else if was_background_counting && negb runtime_active && (alignment =? 0) then
      if divisor =? 0 then (if was_started_with_dac_disabled then timer + 28 else timer) else timer - 4
    else timer in
  if div_1_glitch then timer - 4 else timer.

(** The divisor in effect, whether the shift register steps at once, and the divisor-one glitch. *)
Definition start_counter_collision (divisor al : Z) (c : Channel4State) : Z * bool * bool * Channel4State :=
  if (1 <? divisor) && (counter_timer (nr43_live_write c) =? 1) then
    (divisor, false, false, increment_hidden_counter c)
  else if (counter_timer (nr43_live_write c) =? 2) && (al =? 0) && active (n_runtime c) then
    if divisor =? 0 then (8, false, false, c)
    else if divisor =? 1 then
      let glitch := negb (did_step_counter (nr43_live_write c)) in
      let bit_before := noise_counter_bit (noise_counter (nr43_live_write c)) (clock_shift (noise c)) in
      let c := increment_hidden_counter c in
      let bit_after := noise_counter_bit (noise_counter (nr43_live_write c)) (clock_shift (noise c)) in
      (divisor, bit_after && negb bit_before, glitch, c)
    else (divisor, false, false, c)
  else (divisor, false, false, c).

Definition prepare_hidden_counter_start (_m : ConsoleModel) (c : Channel4State) : Channel4State :=
  let was_started_with_dac_disabled := started_with_dac_disabled (nr43_live_write c) in
  let was_background_counting := background_counting (nr43_live_write c) in
  let c := start_counter_flags c in
  let al := Z.land (alignment (nr43_live_write c)) 0x03 in
  let '(divisor, instant_step, div_1_glitch, c) := start_counter_collision (hidden_counter_divisor_code c) al c in
  let timer := start_counter_timer divisor al (active (n_runtime c)) (counter_active (nr43_live_write c))
    was_background_counting was_started_with_dac_disabled div_1_glitch (nr43 c) in
  let c := on_noise (fun n => n <| lfsr_state :=
    if (divisor =? 0) && active (n_runtime c) && (al =? 3) then 0x0055 else NOISE_LFSR_INITIAL_STATE |>) c in
  let c := on_live (fun l => l <| counter_timer := Z.max timer 0 |> <| countdown_reloaded := false |>
                               <| did_step_counter := al =? 2 |>) c in
  if instant_step then on_noise step_channel4_lfsr c else c.

Definition ch4_trigger (m : ConsoleModel) (next_step_clocks_envelope : bool) (c : Channel4State)
    : bool * Channel4State :=
  let reloaded_zero_length := n_length_counter c =? 0 in
  let c := if n_length_counter c =? 0
           then c <| n_length_counter := PULSE_LENGTH_COUNTER_RELOAD |> <| n_length_enabled := false |> else c in
  let c := c <| n_envelope := envelope_apply_write (nr42 c) (n_envelope c) |> in
  let c := prepare_hidden_counter_start m c in
  let c := on_noise (fun n => n <| n_period_timer := ch4_noise_timer_reload c |>) c in
  let c := c <| n_envelope := envelope_reload next_step_clocks_envelope (n_envelope c) |> in
  (reloaded_zero_length, c <| n_runtime := runtime_trigger (n_runtime c) |>).

Definition write_nr41 (value : Z) (c : Channel4State) : Channel4State :=
  c <| nr41 := value |> <| n_length_counter := pulse_length_counter_from_load value |>.

Definition write_nr42 (value : Z) (m : ConsoleModel) (c : Channel4State) : Channel4State :=
  let dac_disabling := dac_enabled (n_runtime c) && (Z.land value DAC_ENABLE_REGISTER_MASK =? 0) in
  let c := if dac_disabling then handle_hidden_counter_dac_disable c else c in
  let c := c <| n_envelope := apply_live_write_effect m (active (n_runtime c)) value (n_envelope c) |> in
  let c := c <| nr42 := value |> in
  c <| n_runtime := set_dac_enabled (ch4_derived_dac_enabled c) (n_runtime c) |>.

Definition write_nr43_for_model (value : Z) (m : ConsoleModel) (c : Channel4State) : Channel4State :=
  let old_nr43 := nr43 c in
  let profile := channel4_nr43_live_write_profile m in
  let '(trace, n) := trace_channel4_live_nr43_write profile (active (n_runtime c)) old_nr43 value
                       (noise c) (nr43_live_write c) in
  let c := on_live (fun l => l <| last_trace := Some trace |>) (c <| noise := n |>) in
  let c := decode_nr43 value (c <| nr43 := value |>) in
  let c := on_live (fun l => l <| counter_timer :=
             resolve_channel4_noise_counter_timer_after_live_write profile value l |>
                               <| countdown_reloaded := false |>) c in
  on_noise (fun n => n <| n_period_timer := ch4_noise_timer_reload c |>) c.

Definition ch4_apply_extra_length_clocking_on_enable (m : ConsoleModel)
    (was_length_enabled next_step_clocks_length trigger trigger_reloaded_zero_length : bool)
    (c : Channel4State) : Channel4State :=
  let '(l, r) := apply_extra_length_clocking
    (mkExtra m (n_length_enabled c) was_length_enabled next_step_clocks_length trigger trigger_reloaded_zero_length)
    PULSE_LENGTH_COUNTER_RELOAD (n_length_counter c) (n_runtime c) in
  c <| n_length_counter := l |> <| n_runtime := r |>.

(** On the first models a trigger off the 1 MHz alignment starts six half-steps later. *)
Definition ch4_delay_trigger (next_step_clocks_envelope : bool) (c : Channel4State) : bool * Channel4State :=
  let reloaded := n_length_counter c =? 0 in
  let c := if reloaded then c <| n_length_counter := PULSE_LENGTH_COUNTER_RELOAD |> <| n_length_enabled := false |>
           else c in
  (reloaded, c <| dmg_delayed_start := 6 |> <| pending_trigger_envelope_reload := next_step_clocks_envelope |>).

Definition write_nr44 (value : Z) (m : ConsoleModel) (next_frame_sequencer_step : Z) (c : Channel4State)
    : Channel4State :=
  let '(r, plan) := begin_nrx4_write value NR44_WRITABLE_MASK next_frame_sequencer_step (n_length_enabled c) in
  let c := c <| nr44 := r |> in
  let '(plan, c) :=
    if ctx_trigger (plan_context plan) then
      let delayed_dmg_trigger :=
        is_dmg_family m && negb (Z.land (alignment (nr43_live_write c)) 0x03 =? 0) in
      let '(reloaded, c) :=
        if delayed_dmg_trigger then ch4_delay_trigger (ctx_next_step_clocks_envelope (plan_context plan)) c
        else ch4_trigger m (ctx_next_step_clocks_envelope (plan_context plan)) c in
      (observe_length_enabled_after_trigger (n_length_enabled c)
         (observe_trigger_reloaded_zero_length reloaded plan), c)
    else (plan, c) in
  let c := c <| n_length_enabled := ctx_length_enabled (plan_context plan) |> in
  ch4_apply_extra_length_clocking_on_enable m (plan_was_length_enabled plan)
    (ctx_next_step_clocks_length (plan_context plan)) (ctx_trigger (plan_context plan))
    (plan_trigger_reloaded_zero_length plan) c.

Definition ch4_write_register (r : Channel4Register) (value : Z) (m : ConsoleModel)
    (next_frame_sequencer_step : Z) (c : Channel4State) : Channel4State :=
  match r with
  | Nr41 => write_nr41 value c
  | Nr42 => write_nr42 value m c
  | Nr43 => write_nr43_for_model value m c
  | Nr44 => write_nr44 value m next_frame_sequencer_step c
  end.

Definition ch4_write_length_while_powered_off (value : Z) (c : Channel4State) : Channel4State :=
  c <| n_length_counter := pulse_length_counter_from_load value |>.

Definition ch4_write_powered_off_register (r : Channel4Register) (value : Z) (m : ConsoleModel)
    (c : Channel4State) : Channel4State :=
  if negb (is_dmg_family m) then c
  else match r with Nr41 => ch4_write_length_while_powered_off value c | _ => c end.

Definition ch4_apply_powered_startup (v41 v42 v43 v44 : Z) (a : bool) (c : Channel4State) : Channel4State :=
  let c := c <| nr41 := v41 |> <| nr42 := v42 |> <| nr43 := v43 |> <| nr44 := Z.land v44 NR44_WRITABLE_MASK |>
             <| dmg_delayed_start := 0 |> <| pending_trigger_envelope_reload := false |> in
  let c := c <| n_length_counter := pulse_length_counter_from_load (nr41 c) |>
             <| n_length_enabled := has_bits (nr44 c) LENGTH_ENABLE_BIT |>
             <| n_envelope := envelope_apply_write (nr42 c) (n_envelope c) |> in
  let c := decode_nr43 (nr43 c) c in
  let c := c <| n_envelope := envelope_reload false (n_envelope c) |> in
  let c := c <| nr43_live_write :=
             mkLive 0 false 0 0 false false (a && ch4_derived_dac_enabled c) a false None |> in
  let c := on_noise (fun n => n <| n_period_timer := ch4_noise_timer_reload c |>
                                <| lfsr_state := NOISE_LFSR_INITIAL_STATE |>) c in
  c <| n_runtime := set_active_from_startup a (set_dac_enabled (ch4_derived_dac_enabled c) runtime_default) |>.

Definition ch4_clear_registers (_c : Channel4State) : Channel4State := ch4_default.

Definition ch4_power_off_registers (m : ConsoleModel) (c : Channel4State) : Channel4State :=
  let preserved_length := if is_dmg_family m then n_length_counter c else 0 in
  (ch4_clear_registers c) <| n_length_counter := preserved_length |>.

Definition ch4_mark_powered_on (c : Channel4State) : Channel4State :=
  (on_live (fun l => l <| alignment := 0 |> <| alignment_subphase := false |>) c)
    <| dmg_delayed_start := 0 |> <| pending_trigger_envelope_reload := false |>.

Definition tick_alignment_phase_only (c : Channel4State) : bool * Channel4State :=
  let c := on_live (fun l => l <| alignment_subphase := negb (alignment_subphase l) |>) c in
  let apu_2mhz_step := alignment_subphase (nr43_live_write c) in
  (apu_2mhz_step,
   if apu_2mhz_step then on_live (fun l => l <| alignment := Z.land (alignment l + 1) 0x03 |>) c else c).

Definition tick_noise_counter_phase (c : Channel4State) : Channel4State :=
  if negb (hidden_counter_running c) then on_live (fun l => l <| countdown_reloaded := false |>) c
  else
    let divisor := ch4_noise_counter_timer_reload c in
    let c := if counter_timer (nr43_live_write c) =? 0
             then on_live (fun l => l <| counter_timer := divisor |>) c else c in
    if 1 <? counter_timer (nr43_live_write c) then
      on_live (fun l => l <| counter_timer := counter_timer l - 1 |> <| countdown_reloaded := false |>) c
    else
      let bit_before := noise_counter_bit (noise_counter (nr43_live_write c)) (clock_shift (noise c)) in
      let c := on_live (fun l => l <| counter_timer := divisor |>) c in
      let c := on_live (fun l => l <| did_step_counter := true |>) (increment_hidden_counter c) in
      let bit_after := noise_counter_bit (noise_counter (nr43_live_write c)) (clock_shift (noise c)) in
      let c := if bit_after && negb bit_before && active (n_runtime c) then on_noise step_channel4_lfsr c else c in
      on_live (fun l => l <| countdown_reloaded := true |>) c.

Definition ch4_tick_fast_timer (c : Channel4State) : Channel4State :=
  let '(apu_2mhz_step, c) := tick_alignment_phase_only c in
  let '(start_after_tick, c) :=
    if apu_2mhz_step && negb (dmg_delayed_start c =? 0) then
      let c := c <| dmg_delayed_start := dmg_delayed_start c - 1 |> in (dmg_delayed_start c =? 0, c)
    else (false, c) in
  let c := if apu_2mhz_step then tick_noise_counter_phase c else c in
  let c :=
    if start_after_tick then
      let e := pending_trigger_envelope_reload c in
      snd (ch4_trigger GameBoy e (c <| pending_trigger_envelope_reload := false |>))
    else c in
  if noise_clocking_suppressed (clock_shift (noise c)) then c
  else
    let c := if 0 <? n_period_timer (noise c)
             then on_noise (fun n => n <| n_period_timer := n_period_timer n - 1 |>) c else c in
    if n_period_timer (noise c) =? 0
    then on_noise (fun n => n <| n_period_timer := ch4_noise_timer_reload c |>) c else c.

Definition ch4_clock_length (c : Channel4State) : Channel4State :=
  let '(l, r) := clock_length_counter (n_length_enabled c) (n_length_counter c) (n_runtime c) in
  c <| n_length_counter := l |> <| n_runtime := r |>.
Definition ch4_clock_envelope (c : Channel4State) : Channel4State :=
  c <| n_envelope := envelope_clock (n_envelope c) |>.
Definition ch4_clock_cgb_live_write_pending_even_envelope_tick (c : Channel4State) : Channel4State :=
  c <| n_envelope := clock_cgb_live_write_pending_even_tick (n_envelope c) |>.

Definition ch4_current_digital_output (c : Channel4State) : Z :=
  if negb (active (n_runtime c)) then 0
  else if has_bits (lfsr_state (noise c)) (Z.shiftl 1 NOISE_LFSR_OUTPUT_BIT)
       then current_volume (n_envelope c) else 0.

(** ** Invariant *)

Definition lfsr15 (x : Z) : Prop := 0 <= x < 32768.

Record noise_ok (n : Channel4NoiseSignalState) : Prop := {
  clock_shift_range : 0 <= clock_shift n < 16;
  divider_range : 0 <= clock_divider_code n < 8;
  n_period_timer_range : 0 <= n_period_timer n <= 3670016;
  lfsr_range : lfsr15 (lfsr_state n)
}.

Record live_ok (l : Channel4Nr43LiveWriteState) : Prop := {
  alignment_range : 0 <= alignment l < 4;
  counter_timer_range : 0 <= counter_timer l <= 80;
  noise_counter_range : 0 <= noise_counter l <= 0x3FFF
}.

Record ch4_ok (c : Channel4State) : Prop := {
  nr41_u8 : u8 (nr41 c);
  nr42_u8 : u8 (nr42 c);
  nr43_u8 : u8 (nr43 c);
  nr44_u8 : u8 (nr44 c);
  delayed_start_range : 0 <= dmg_delayed_start c <= 6;
  ch4_runtime_ok : runtime_ok (n_runtime c);
  n_length_counter_range : 0 <= n_length_counter c <= 64;
  ch4_envelope_ok : envelope_ok (n_envelope c);
  ch4_noise_ok : noise_ok (noise c);
  ch4_live_ok : live_ok (nr43_live_write c)
}.

#[export] Hint Extern 3 (noise_ok (_ _ _)) => upd_hint noise_ok : apu.
#[export] Hint Extern 3 (live_ok (_ _ _)) => upd_hint live_ok : apu.
#[export] Hint Extern 3 (ch4_ok (_ _ _)) => upd_hint ch4_ok : apu.

Lemma lfsr15_lor x y : lfsr15 x -> lfsr15 y -> lfsr15 (Z.lor x y).
Proof. apply (range_lor 15). lia. Qed.
Lemma lfsr15_land x y : lfsr15 x -> lfsr15 (Z.land x y).
Proof. apply (range_land 15). lia. Qed.
Lemma lfsr15_half x : lfsr15 x -> lfsr15 (Z.shiftr x 1).
Proof. unfold lfsr15. intros Hx. rewrite Z.shiftr_div_pow2 by lia. change (2 ^ 1) with 2. divmod_lia. Qed.
Lemma lfsr15_feedback (b : bool) k : (k = 14 \/ k = 6) -> lfsr15 (Z.shiftl (u8_from_bool b) k).
Proof. unfold lfsr15. intros [-> | ->]; destruct b; vm_compute; split; (discriminate || reflexivity). Qed.
Lemma lfsr15_carry x m : m = 0x2000 \/ m = 0x2020 -> lfsr15 (Z.shiftl (Z.land x m) 1 mod 65536).
Proof.
  unfold lfsr15. intros Hm. rewrite Z.shiftl_mul_pow2 by lia. change (2 ^ 1) with 2.
  pose proof (land_bound x m ltac:(destruct Hm; lia)). rewrite Z.mod_small by (destruct Hm; lia).
  destruct Hm as [->| ->]; lia.
Qed.
Lemma lfsr15_const k : 0 <= k < 32768 -> lfsr15 k.
Proof. done. Qed.
Lemma lfsr15_initial : lfsr15 NOISE_LFSR_INITIAL_STATE.
Proof. done. Qed.
#[export] Hint Resolve lfsr15_lor lfsr15_land lfsr15_half lfsr15_initial : apu.
#[export] Hint Extern 2 (lfsr15 (Z.shiftl (u8_from_bool _) _)) => apply lfsr15_feedback; auto : apu.
#[export] Hint Extern 2 (lfsr15 (_ mod 65536)) => apply lfsr15_carry; case_tests; auto : apu.
#[export] Hint Extern 2 (lfsr15 (Zpos _)) => apply lfsr15_const; lia : apu.
#[export] Hint Extern 2 (lfsr15 (if _ then _ else _)) => case_tests; apply lfsr15_const; vm_compute; (split; (discriminate || reflexivity)) : apu.

Lemma step_channel4_lfsr_ok n : noise_ok n -> noise_ok (step_channel4_lfsr n).
Proof. intros Hn. cbv delta [step_channel4_lfsr]. upd_ok noise_ok. Qed.
#[export] Hint Resolve step_channel4_lfsr_ok : apu.
Lemma step_forced_short_ok n : noise_ok n -> noise_ok (step_channel4_lfsr_with_forced_short_width n).
Proof. intros Hn. cbv delta [step_channel4_lfsr_with_forced_short_width]. upd_ok noise_ok. Qed.
Lemma feedback_corruption_ok n : noise_ok n -> noise_ok (apply_channel4_feedback_bit_corruption n).
Proof. intros Hn. cbv delta [apply_channel4_feedback_bit_corruption]. upd_ok noise_ok. Qed.
Lemma set_feedback_bits_ok n : noise_ok n -> noise_ok (set_channel4_feedback_bits n).
Proof. intros Hn. cbv delta [set_channel4_feedback_bits]. upd_ok noise_ok. Qed.
#[export] Hint Resolve step_forced_short_ok feedback_corruption_ok set_feedback_bits_ok : apu.
#[global] Arguments step_channel4_lfsr : simpl never.

Lemma apply_lfsr_action_ok a n : noise_ok n -> noise_ok (apply_lfsr_action a n).
Proof. intros Hn. destruct a; simpl; auto with apu. Qed.
#[export] Hint Resolve apply_lfsr_action_ok : apu.

Lemma materialize_actionable_ok k f t r b n :
  noise_ok n -> noise_ok (snd (materialize_actionable_pass_trace k f t r b n)).
Proof. intros Hn. cbv delta [materialize_actionable_pass_trace]. upd_ok noise_ok. Qed.
#[export] Hint Resolve materialize_actionable_ok : apu.
Lemma low_shift_followup_ok s n : noise_ok n -> noise_ok (snd (execute_low_shift_followup_pass s n)).
Proof. intros Hn. unfold execute_low_shift_followup_pass. auto with apu. Qed.
Lemma reload_seam_ok o v s l n : noise_ok n -> noise_ok (snd (apply_reload_seam_pass o v s l n)).
Proof. intros Hn. unfold apply_reload_seam_pass. case_tests; simpl; auto with apu. Qed.
#[export] Hint Resolve low_shift_followup_ok reload_seam_ok : apu.
#[global] Arguments materialize_actionable_pass_trace : simpl never.
#[global] Arguments materialize_descriptive_pass_trace : simpl never.
#[global] Arguments execute_low_shift_followup_pass : simpl never.
#[global] Arguments apply_reload_seam_pass : simpl never.

Lemma resolve_dmg_ok a o v l n : noise_ok n -> noise_ok (snd (resolve_dmg_pre_cgb_d a o v l n)).
Proof.
  intros Hn. cbv delta [resolve_dmg_pre_cgb_d]. upd_ok noise_ok.
Qed.
Lemma resolve_cgb_ok a o v l n : noise_ok n -> noise_ok (snd (resolve_cgb_direct a o v l n)).
Proof. intros Hn. cbv delta [resolve_cgb_direct]. upd_ok noise_ok. Qed.

Lemma trace_write_ok p a o v n l : noise_ok n -> noise_ok (snd (trace_channel4_live_nr43_write p a o v n l)).
Proof. intros Hn. destruct p; simpl; [by apply resolve_dmg_ok | by apply resolve_cgb_ok]. Qed.
#[export] Hint Resolve trace_write_ok : apu.

Lemma noise_timer_reload_range s d : 0 <= noise_timer_reload s d <= 3670016.
Proof.
  unfold noise_timer_reload. assert (Hb : 8 <= noise_divisor_base d <= 112).
  { unfold noise_divisor_base. destruct (Z.land d NOISE_DIVIDER_CODE_MASK) as [|p|]; [lia| |lia].
    do 3 (destruct p as [p|p|]; try lia). }
  autounfold with apu_consts. pose proof (land_bound s 15 ltac:(lia)) as Hs.
  rewrite Z.shiftl_mul_pow2 by lia.
  pose proof (Z.pow_le_mono_r 2 _ _ ltac:(lia) (proj2 Hs)) as Hp. change (2 ^ 15) with 32768 in Hp.
  assert (0 < 2 ^ Z.land s 15) by (apply Z.pow_pos_nonneg; lia). nia.
Qed.

Lemma counter_reload_range d : 2 <= noise_counter_timer_reload d <= 28.
Proof.
  unfold noise_counter_timer_reload. autounfold with apu_consts. land_bounds.
  rewrite Z.shiftl_mul_pow2 by lia. change (2 ^ 2) with 4. case_tests; prune; lia.
Qed.

Lemma live_timer_range p v l :
  live_ok l -> 0 <= resolve_channel4_noise_counter_timer_after_live_write p v l <= 80.
Proof.
  intros [_ Ht _]. unfold resolve_channel4_noise_counter_timer_after_live_write, decode_nr43_noise_counter_reload.
  assert (Hn : forall k, 0 <= nth k (match p with DmgPreCgbD => [2; 1; 4; 3] | CgbDirect => [2; 1; 0; 3] end) 0 <= 4)
    by (intros k; destruct p; do 5 (destruct k as [|k]; simpl; try lia)).
  specialize (Hn (Z.to_nat (Z.land (alignment l) 3))).
  rewrite Z.shiftl_mul_pow2 by lia. change (2 ^ 2) with 4. land_bounds. case_tests; prune; lia.
Qed.

(** The largest start value: a zero divisor restarted in the background. *)
Lemma start_timer_range d a r k b s g v :
  0 <= d <= 8 -> 0 <= Z.max (start_counter_timer d a r k b s g v) 0 <= 80.
Proof. intros Hd. unfold start_counter_timer. case_tests; prune; lia. Qed.

Lemma divisor_code_range c : 0 <= hidden_counter_divisor_code c <= 7.
Proof. unfold hidden_counter_divisor_code. autounfold with apu_consts. land_bounds. lia. Qed.
#[export] Hint Extern 2 (live_ok (mkLive _ _ _ _ _ _ _ _ _ _)) => constructor; assumption : apu.
#[export] Hint Resolve noise_timer_reload_range live_timer_range start_timer_range : apu.
#[global] Arguments noise_timer_reload : simpl never.
#[global] Arguments resolve_channel4_noise_counter_timer_after_live_write : simpl never.
#[global] Arguments trace_channel4_live_nr43_write : simpl never.

Lemma on_noise_ok f c : (noise_ok (noise c) -> noise_ok (f (noise c))) -> ch4_ok c -> ch4_ok (on_noise f c).
Proof. intros Hf Hc. assert (Hs := Hf (ch4_noise_ok c Hc)). cbv delta [on_noise]. upd_ok ch4_ok. Qed.
Lemma on_live_ok f c :
  (live_ok (nr43_live_write c) -> live_ok (f (nr43_live_write c))) -> ch4_ok c -> ch4_ok (on_live f c).
Proof. intros Hf Hc. assert (Hs := Hf (ch4_live_ok c Hc)). cbv delta [on_live]. upd_ok ch4_ok. Qed.
#[export] Hint Extern 3 (ch4_ok (on_noise _ _)) =>
  apply on_noise_ok; [intros ?; upd_ok noise_ok | upd_ok ch4_ok] : apu.
#[export] Hint Extern 3 (ch4_ok (on_live _ _)) =>
  apply on_live_ok; [intros ?; upd_ok live_ok | upd_ok ch4_ok] : apu.

Lemma decode_nr43_ok v c : ch4_ok c -> ch4_ok (decode_nr43 v c).
Proof. intros Hc. cbv delta [decode_nr43]. upd_ok ch4_ok. Qed.
Lemma add_noise_counter_ok k c : ch4_ok c -> ch4_ok (add_noise_counter k c).
Proof. intros Hc. cbv delta [add_noise_counter]. upd_ok ch4_ok. Qed.
Lemma increment_hidden_counter_ok c : ch4_ok c -> ch4_ok (increment_hidden_counter c).
Proof. apply add_noise_counter_ok. Qed.
#[export] Hint Resolve decode_nr43_ok add_noise_counter_ok increment_hidden_counter_ok : apu.
#[global] Arguments add_noise_counter : simpl never.
#[global] Arguments increment_hidden_counter : simpl never.
#[global] Arguments start_counter_timer : simpl never.

Lemma dac_disable_ok c : ch4_ok c -> ch4_ok (handle_hidden_counter_dac_disable c).
Proof. intros Hc. cbv delta [handle_hidden_counter_dac_disable]. upd_ok ch4_ok. Qed.
Lemma start_counter_flags_ok c : ch4_ok c -> ch4_ok (start_counter_flags c).
Proof. intros Hc. cbv delta [start_counter_flags]. upd_ok ch4_ok. Qed.
#[export] Hint Resolve dac_disable_ok start_counter_flags_ok : apu.

Lemma start_counter_collision_ok d a c :
  0 <= d <= 7 -> ch4_ok c ->
  0 <= fst (fst (fst (start_counter_collision d a c))) <= 8 /\ ch4_ok (snd (start_counter_collision d a c)).
Proof. intros Hd Hc. unfold start_counter_collision. case_tests; simpl; split; auto with apu; lia. Qed.

Lemma prepare_hidden_counter_start_ok m c : ch4_ok c -> ch4_ok (prepare_hidden_counter_start m c).
Proof.
  intros Hc. unfold prepare_hidden_counter_start.
  assert (H1 : ch4_ok (start_counter_flags c)) by auto with apu.
  forget (start_counter_flags c).
  pose proof (start_counter_collision_ok _ (Z.land (alignment (nr43_live_write st)) 0x03) st
                (divisor_code_range st) H1) as [Hd Hc'].
  destruct (start_counter_collision _ _ st) as [[[d i] g] c']. simpl in Hd, Hc'. clear H1.
  destruct i; auto 8 with apu.
Qed.
Lemma ch4_timer_reload_range c : 0 <= ch4_noise_timer_reload c <= 3670016.
Proof. apply noise_timer_reload_range. Qed.
Lemma ch4_counter_reload_range c : 0 <= ch4_noise_counter_timer_reload c <= 80.
Proof. unfold ch4_noise_counter_timer_reload. pose proof (counter_reload_range (clock_divider_code (noise c))). lia. Qed.
#[export] Hint Resolve prepare_hidden_counter_start_ok ch4_timer_reload_range ch4_counter_reload_range : apu.
#[global] Arguments ch4_noise_timer_reload : simpl never.
#[global] Arguments ch4_noise_counter_timer_reload : simpl never.
#[global] Arguments prepare_hidden_counter_start : simpl never.

Lemma ch4_trigger_ok m b c : ch4_ok c -> ch4_ok (snd (ch4_trigger m b c)).
Proof. intros Hc. cbv delta [ch4_trigger]. upd_ok ch4_ok. Qed.
Lemma ch4_delay_trigger_ok b c : ch4_ok c -> ch4_ok (snd (ch4_delay_trigger b c)).
Proof. intros Hc. cbv delta [ch4_delay_trigger]. upd_ok ch4_ok. Qed.
Lemma ch4_default_ok : ch4_ok ch4_default.
Proof. repeat constructor; simpl; auto with apu gb; (done || lia || vm_compute; done). Qed.
Lemma ch4_clear_registers_ok c : ch4_ok (ch4_clear_registers c).
Proof. apply ch4_default_ok. Qed.

Lemma set_n_length_runtime_ok c lr :
  ch4_ok c -> length_ok 64 lr -> ch4_ok (c <| n_length_counter := fst lr |> <| n_runtime := snd lr |>).
Proof. intros Hc [Hl Hr]. upd_ok ch4_ok. Qed.
Lemma ch4_extra_length_ok m w n t z c : ch4_ok c -> ch4_ok (ch4_apply_extra_length_clocking_on_enable m w n t z c).
Proof.
  intros Hc. unfold ch4_apply_extra_length_clocking_on_enable.
  rewrite (surjective_pairing (apply_extra_length_clocking _ _ _ _)).
  apply set_n_length_runtime_ok; [done|]. destruct Hc. apply apply_extra_length_clocking_ok; (done || lia).
Qed.
Lemma ch4_clock_length_ok c : ch4_ok c -> ch4_ok (ch4_clock_length c).
Proof.
  intros Hc. unfold ch4_clock_length. rewrite (surjective_pairing (clock_length_counter _ _ _)).
  apply set_n_length_runtime_ok; [done|]. destruct Hc. by apply clock_length_counter_ok.
Qed.
#[export] Hint Resolve ch4_trigger_ok ch4_delay_trigger_ok ch4_default_ok ch4_clear_registers_ok
  ch4_extra_length_ok ch4_clock_length_ok : apu.

Lemma write_nr41_ok v c : u8 v -> ch4_ok c -> ch4_ok (write_nr41 v c).
Proof. intros Hv Hc. cbv delta [write_nr41]. upd_ok ch4_ok. Qed.
Lemma write_nr42_ok v m c : u8 v -> ch4_ok c -> ch4_ok (write_nr42 v m c).
Proof. intros Hv Hc. cbv delta [write_nr42]. upd_ok ch4_ok. Qed.

Lemma write_nr43_ok v m c : u8 v -> ch4_ok c -> ch4_ok (write_nr43_for_model v m c).
Proof.
  intros Hv Hc. unfold write_nr43_for_model.
  pose proof (trace_write_ok (channel4_nr43_live_write_profile m) (active (n_runtime c)) (nr43 c) v (noise c)
    (nr43_live_write c) (ch4_noise_ok c Hc)) as Hn.
  destruct (trace_channel4_live_nr43_write _ _ _ _ _ _) as [tr n]. cbn [snd] in Hn.
  assert (H1 : ch4_ok (c <| noise := n |>)) by auto with apu. forget (c <| noise := n |>).
  auto 8 with apu.
Qed.

Lemma write_nr44_ok v m n c : u8 v -> ch4_ok c -> ch4_ok (write_nr44 v m n c).
Proof. intros Hv Hc. cbv delta [write_nr44 begin_nrx4_write]. cbv beta. upd_ok ch4_ok. Qed.
#[export] Hint Resolve write_nr41_ok write_nr42_ok write_nr43_ok write_nr44_ok : apu.

Lemma ch4_write_register_ok r v m n c : u8 v -> ch4_ok c -> ch4_ok (ch4_write_register r v m n c).
Proof. intros Hv Hc. destruct r; simpl; auto with apu. Qed.

Lemma ch4_write_powered_off_register_ok r v m c : ch4_ok c -> ch4_ok (ch4_write_powered_off_register r v m c).
Proof.
  intros Hc. unfold ch4_write_powered_off_register. destruct (negb _), r; try done.
  cbv delta [ch4_write_length_while_powered_off]. upd_ok ch4_ok.
Qed.

Lemma live_start_ok a b : live_ok (mkLive 0 false 0 0 false false a b false None).
Proof. constructor; simpl; lia. Qed.
#[export] Hint Resolve live_start_ok : apu.

Lemma ch4_apply_powered_startup_ok v1 v2 v3 v4 a c :
  u8 v1 -> u8 v2 -> u8 v3 -> u8 v4 -> ch4_ok c -> ch4_ok (ch4_apply_powered_startup v1 v2 v3 v4 a c).
Proof. intros H1 H2 H3 H4 Hc. cbv delta [ch4_apply_powered_startup]. upd_ok ch4_ok. Qed.

Lemma ch4_power_off_registers_ok m c : ch4_ok c -> ch4_ok (ch4_power_off_registers m c).
Proof. intros Hc. cbv delta [ch4_power_off_registers]. upd_ok ch4_ok. Qed.
Lemma ch4_mark_powered_on_ok c : ch4_ok c -> ch4_ok (ch4_mark_powered_on c).
Proof. intros Hc. cbv delta [ch4_mark_powered_on]. upd_ok ch4_ok. Qed.
Lemma tick_alignment_ok c : ch4_ok c -> ch4_ok (snd (tick_alignment_phase_only c)).
Proof. intros Hc. cbv delta [tick_alignment_phase_only]. upd_ok ch4_ok. Qed.
Lemma tick_noise_counter_phase_ok c : ch4_ok c -> ch4_ok (tick_noise_counter_phase c).
Proof. intros Hc. cbv delta [tick_noise_counter_phase]. upd_ok ch4_ok. Qed.
#[export] Hint Resolve ch4_write_register_ok ch4_write_powered_off_register_ok ch4_apply_powered_startup_ok
  ch4_power_off_registers_ok ch4_mark_powered_on_ok tick_alignment_ok tick_noise_counter_phase_ok : apu.
Lemma ch4_tick_ok c : ch4_ok c -> ch4_ok (ch4_tick_fast_timer c).
Proof. intros Hc. cbv delta [ch4_tick_fast_timer]. upd_ok ch4_ok. Qed.
Lemma ch4_clock_envelope_ok c : ch4_ok c -> ch4_ok (ch4_clock_envelope c).
Proof. intros Hc. cbv delta [ch4_clock_envelope]. upd_ok ch4_ok. Qed.
Lemma ch4_clock_pending_ok c : ch4_ok c -> ch4_ok (ch4_clock_cgb_live_write_pending_even_envelope_tick c).
Proof. intros Hc. cbv delta [ch4_clock_cgb_live_write_pending_even_envelope_tick]. upd_ok ch4_ok. Qed.

Lemma ch4_output_range c : ch4_ok c -> 0 <= ch4_current_digital_output c < 16.
Proof. intros [_ _ _ _ _ _ _ [_ _ _ Hv] _ _]. unfold ch4_current_digital_output. case_tests; lia. Qed.

Lemma ch4_read_u8 r c : ch4_ok c -> u8 (ch4_read_register r c).
Proof.
  intros Hc. destruct r; simpl; unfold read_nr44, NR41_WRITE_ONLY_READ_VALUE, NR44_READ_MASK, NR44_FORCED_HIGH_MASK;
    try apply Hc; auto 6 with gb.
Qed.
#[export] Hint Resolve ch4_tick_ok ch4_clock_envelope_ok ch4_clock_pending_ok ch4_output_range ch4_read_u8 : apu.

(** ** The shift register's sequence *)

Definition lfsr_step (short : bool) (x : Z) : Z := lfsr_state (step_channel4_lfsr (mkSignal 0 short 0 0 x)).

Lemma step_channel4_lfsr_state n :
  lfsr_state (step_channel4_lfsr n) = lfsr_step (short_width_mode n) (lfsr_state n) /\
  short_width_mode (step_channel4_lfsr n) = short_width_mode n.
Proof. destruct n as [? [] ? ? ?]; done. Qed.

Lemma iterate_lfsr k n :
  lfsr_state (iterate k step_channel4_lfsr n) = iterate k (lfsr_step (short_width_mode n)) (lfsr_state n).
Proof.
  revert n. induction k as [|k IH]; intros n; [done|]. simpl. rewrite IH.
  destruct (step_channel4_lfsr_state n) as [-> ->]. done.
Qed.

(** A walk from a state: all of its next [n] states satisfy [ok]. *)
Fixpoint walk (ok : Z -> bool) (short : bool) (n : nat) (x : Z) : bool :=
  match n with
  | O => true
  | S n' => ok (lfsr_step short x) && walk ok short n' (lfsr_step short x)
  end.

Lemma walk_sound ok short n x :
  walk ok short n x = true -> forall k, (1 <= k <= n)%nat -> ok (iterate k (lfsr_step short) x) = true.
Proof.
  revert x. induction n as [|n IH]; intros x Hw k Hk; [lia|]. simpl in Hw. prune.
  destruct k as [|[|k]]; [lia | done |]. apply (IH _ H0 (S k)). lia.
Qed.

(** All states of a cycle are met in its first turn. *)
Lemma cycle_states p (f : Z -> Z) x (P : Z -> Prop) :
  (0 < p)%nat -> iterate p f x = x -> (forall k, (1 <= k <= p)%nat -> P (iterate k f x)) ->
  forall n, P (iterate n f x).
Proof.
  intros Hp Hx Hall n. rewrite (Nat.div_mod_eq n p), Nat.add_comm.
  destruct (n mod p)%nat as [|r] eqn:Hr.
  - assert (Ht : iterate (p * (n / p)) f x = x).
    { induction (n / p)%nat as [|q IHq]; [by rewrite Nat.mul_0_r|].
      by rewrite Nat.mul_succ_r, iterate_add, IHq. }
    simpl. rewrite Ht, <- Hx. apply Hall. lia.
  - assert (Ht : forall y, iterate p f y = y -> iterate (p * (n / p)) f y = y).
    { intros y Hy. induction (n / p)%nat as [|q IHq]; [by rewrite Nat.mul_0_r|].
      by rewrite Nat.mul_succ_r, iterate_add, IHq. }
    rewrite Nat.add_comm, iterate_add, Ht by done. apply Hall.
    pose proof (Nat.mod_upper_bound n p ltac:(lia)). lia.
Qed.

Definition long_period : nat := Z.to_nat 32767.
Definition short_period : nat := 127.

Definition fresh (start x : Z) : bool := negb (x =? start) && negb (x =? 0x7FFF).

Lemma long_walk : walk (fresh 0) false (Z.to_nat 32766) 0 = true.
Proof. vm_compute. reflexivity. Qed.
Lemma long_return : iterate long_period (lfsr_step false) 0 = 0.
Proof. vm_compute. reflexivity. Qed.
Lemma short_walk : walk (fresh 0x4040) true 126 0x4040 = true.
Proof. vm_compute. reflexivity. Qed.
Lemma short_return : iterate short_period (lfsr_step true) 0x4040 = 0x4040.
Proof. vm_compute. reflexivity. Qed.

Definition after_trigger (short : bool) (n : Channel4NoiseSignalState) : Channel4NoiseSignalState :=
  n <| lfsr_state := NOISE_LFSR_INITIAL_STATE |> <| short_width_mode := short |>.

(** The register a trigger leaves, after [k] clocks. *)
Definition lfsr_after_trigger (short : bool) (k : nat) (n : Channel4NoiseSignalState) : Z :=
  lfsr_state (iterate k step_channel4_lfsr (after_trigger short n)).

Lemma lfsr_after_trigger_eq short k n : lfsr_after_trigger short k n = iterate k (lfsr_step short) 0.
Proof. unfold lfsr_after_trigger. rewrite iterate_lfsr. by destruct n. Qed.

(** C25. The noise generator's shift register has the hardware's sequence: from
    the state a trigger leaves, the 15-bit mode repeats after exactly [32767]
    clocks and not before, the 7-bit mode, once its first clock has filled the
    feedback bit, after exactly [127]; neither ever reaches the state the
    register cannot leave. *)
Theorem noise_sequence_periods (n : Channel4NoiseSignalState) :
  (forall k, lfsr_after_trigger false (k + long_period) n = lfsr_after_trigger false k n) /\
  (forall k, (0 < k < long_period)%nat -> lfsr_after_trigger false k n <> lfsr_after_trigger false 0 n) /\
  (forall k, (0 < k)%nat -> lfsr_after_trigger true (k + short_period) n = lfsr_after_trigger true k n) /\
  (forall k, (0 < k < short_period)%nat -> lfsr_after_trigger true (1 + k) n <> lfsr_after_trigger true 1 n) /\
  (forall short k, lfsr_after_trigger short k n <> 0x7FFF).
Proof.
  assert (Hshort : forall k, iterate (S k) (lfsr_step true) 0 = iterate k (lfsr_step true) 0x4040) by done.
  split; [|split; [|split; [|split]]].
  - intros k. rewrite !lfsr_after_trigger_eq. by rewrite Nat.add_comm, iterate_add, long_return.
  - intros k Hk. rewrite !lfsr_after_trigger_eq.
    pose proof (walk_sound _ _ _ _ long_walk k ltac:(unfold long_period in *; lia)) as Hf. unfold fresh in Hf. prune.
    by apply negb_true_iff, Z.eqb_neq in H.
  - intros [|k] Hk; [lia|]. rewrite !lfsr_after_trigger_eq. rewrite Nat.add_succ_l, !Hshort.
    by rewrite Nat.add_comm, iterate_add, short_return.
  - intros k Hk. rewrite !lfsr_after_trigger_eq, Nat.add_1_l, !Hshort.
    pose proof (walk_sound _ _ _ _ short_walk k ltac:(unfold short_period in *; lia)) as Hf. unfold fresh in Hf. prune.
    by apply negb_true_iff, Z.eqb_neq in H.
  - intros short k. rewrite lfsr_after_trigger_eq. destruct short.
    + destruct k as [|k]; [done|]. rewrite Hshort.
      apply (cycle_states short_period _ _ (fun x => x <> 0x7FFF)); [unfold short_period; lia | apply short_return|].
      intros j Hj. destruct (decide (j = short_period)) as [->|]; [by rewrite short_return|].
      unfold short_period in *. pose proof (walk_sound _ _ _ _ short_walk j ltac:(lia)) as Hf. unfold fresh in Hf. prune.
      by apply negb_true_iff, Z.eqb_neq in H0.
    + apply (cycle_states long_period _ _ (fun x => x <> 0x7FFF)); [unfold long_period; lia | apply long_return|].
      intros j Hj. destruct (decide (j = long_period)) as [->|]; [by rewrite long_return|].
      unfold long_period in *. pose proof (walk_sound _ _ _ _ long_walk j ltac:(lia)) as Hf. unfold fresh in Hf. prune.
      by apply negb_true_iff, Z.eqb_neq in H0.
Qed.
