(* ===== verification/ApuChannels.v ===== *)
(** * The four channels together
    ([crates/gb-core/src/apu/channels.rs], [control.rs])

    Clocking, power and startup of the channels as a group, and the masks and
    digital levels they present to the mixer. *)

From Stdlib Require Import ZArith Lia Bool List.
From stdpp Require Import base list decidable.
From S2P Require Import Prelude.
From S2P Require Import Model.
From S2P Require Import Speed.
From S2P Require Import ApuCommon.
From S2P Require Import ApuPulse.
From S2P Require Import ApuSweep.
From S2P Require Import ApuWave.
From S2P Require Import ApuNoise.

Import ListNotations.
Local Open Scope Z_scope.

Definition CHANNEL_MASKS : list Z :=
  [CHANNEL_ACTIVE_CH1; CHANNEL_ACTIVE_CH2; CHANNEL_ACTIVE_CH3; CHANNEL_ACTIVE_CH4].

Record ApuChannels := mkChannels {
  channel_1 : Channel1State;
  channel_2 : Channel2State;
  channel_3 : Channel3State;
  channel_4 : Channel4State
}.

#[export] Instance upd_channel_1 : Update channel_1 := fun v s =>
  let '(mkChannels _ x2 x3 x4) := s in mkChannels v x2 x3 x4.
#[export] Instance upd_channel_2 : Update channel_2 := fun v s =>
  let '(mkChannels x1 _ x3 x4) := s in mkChannels x1 v x3 x4.
#[export] Instance upd_channel_3 : Update channel_3 := fun v s =>
  let '(mkChannels x1 x2 _ x4) := s in mkChannels x1 x2 v x4.
#[export] Instance upd_channel_4 : Update channel_4 := fun v s =>
  let '(mkChannels x1 x2 x3 _) := s in mkChannels x1 x2 x3 v.

Definition channels_default : ApuChannels := mkChannels ch1_default ch2_default ch3_default ch4_default.

(** The four levels in channel order. *)
Record ChannelOutputState := mkChannelOutput {
  active_mask : Z;
  dac_mask : Z;
  digital_outputs : list Z
}.

#[export] Instance upd_active_mask : Update active_mask := fun v s =>
  let '(mkChannelOutput _ x2 x3) := s in mkChannelOutput v x2 x3.
#[export] Instance upd_dac_mask : Update dac_mask := fun v s =>
  let '(mkChannelOutput x1 _ x3) := s in mkChannelOutput x1 v x3.
#[export] Instance upd_digital_outputs : Update digital_outputs := fun v s =>
  let '(mkChannelOutput x1 x2 _) := s in mkChannelOutput x1 x2 v.

Record ChannelResolvedOutput := mkResolved {
  resolved_runtime : ChannelRuntimeState;
  resolved_digital_output : Z
}.

#[export] Instance upd_resolved_runtime : Update resolved_runtime := fun v s =>
  let '(mkResolved _ x2) := s in mkResolved v x2.
#[export] Instance upd_resolved_digital_output : Update resolved_digital_output := fun v s =>
  let '(mkResolved x1 _) := s in mkResolved x1 v.

Inductive WaveRamStartupPolicy := DeterministicZeroed | CgbRealBootAlternating.

Definition initial_bytes (p : WaveRamStartupPolicy) : list Z :=
  match p with
  | DeterministicZeroed => replicate 16 0
  | CgbRealBootAlternating =>
      [0x00; 0xFF; 0x00; 0xFF; 0x00; 0xFF; 0x00; 0xFF; 0x00; 0xFF; 0x00; 0xFF; 0x00; 0xFF; 0x00; 0xFF]
  end.

Record ApuStartupState := mkApuStartup {
  su_powered : bool;
  su_nr10 : Z;
  su_nr11 : Z;
  su_nr12 : Z;
  su_nr13 : Z;
  su_nr14 : Z;
  su_nr21 : Z;
  su_nr22 : Z;
  su_nr23 : Z;
  su_nr24 : Z;
  su_nr30 : Z;
  su_nr31 : Z;
  su_nr32 : Z;
  su_nr33 : Z;
  su_nr34 : Z;
  su_nr41 : Z;
  su_nr42 : Z;
  su_nr43 : Z;
  su_nr44 : Z;
  su_nr50 : Z;
  su_nr51 : Z;
  su_channel_active_mask : Z;
  su_startup_silent_channel_mask : Z;
  su_div_apu : Z;
  su_wave_ram_startup_policy : WaveRamStartupPolicy
}.

#[export] Instance upd_su_powered : Update su_powered := fun v s =>
  let '(mkApuStartup _ x2 x3 x4 x5 x6 x7 x8 x9 x10 x11 x12 x13 x14 x15 x16 x17 x18 x19 x20 x21 x22 x23 x24 x25) := s in mkApuStartup v x2 x3 x4 x5 x6 x7 x8 x9 x10 x11 x12 x13 x14 x15 x16 x17 x18 x19 x20 x21 x22 x23 x24 x25.
#[export] Instance upd_su_nr10 : Update su_nr10 := fun v s =>
  let '(mkApuStartup x1 _ x3 x4 x5 x6 x7 x8 x9 x10 x11 x12 x13 x14 x15 x16 x17 x18 x19 x20 x21 x22 x23 x24 x25) := s in mkApuStartup x1 v x3 x4 x5 x6 x7 x8 x9 x10 x11 x12 x13 x14 x15 x16 x17 x18 x19 x20 x21 x22 x23 x24 x25.
#[export] Instance upd_su_nr11 : Update su_nr11 := fun v s =>
  let '(mkApuStartup x1 x2 _ x4 x5 x6 x7 x8 x9 x10 x11 x12 x13 x14 x15 x16 x17 x18 x19 x20 x21 x22 x23 x24 x25) := s in mkApuStartup x1 x2 v x4 x5 x6 x7 x8 x9 x10 x11 x12 x13 x14 x15 x16 x17 x18 x19 x20 x21 x22 x23 x24 x25.
#[export] Instance upd_su_nr12 : Update su_nr12 := fun v s =>
  let '(mkApuStartup x1 x2 x3 _ x5 x6 x7 x8 x9 x10 x11 x12 x13 x14 x15 x16 x17 x18 x19 x20 x21 x22 x23 x24 x25) := s in mkApuStartup x1 x2 x3 v x5 x6 x7 x8 x9 x10 x11 x12 x13 x14 x15 x16 x17 x18 x19 x20 x21 x22 x23 x24 x25.
#[export] Instance upd_su_nr13 : Update su_nr13 := fun v s =>
  let '(mkApuStartup x1 x2 x3 x4 _ x6 x7 x8 x9 x10 x11 x12 x13 x14 x15 x16 x17 x18 x19 x20 x21 x22 x23 x24 x25) := s in mkApuStartup x1 x2 x3 x4 v x6 x7 x8 x9 x10 x11 x12 x13 x14 x15 x16 x17 x18 x19 x20 x21 x22 x23 x24 x25.
#[export] Instance upd_su_nr14 : Update su_nr14 := fun v s =>
  let '(mkApuStartup x1 x2 x3 x4 x5 _ x7 x8 x9 x10 x11 x12 x13 x14 x15 x16 x17 x18 x19 x20 x21 x22 x23 x24 x25) := s in mkApuStartup x1 x2 x3 x4 x5 v x7 x8 x9 x10 x11 x12 x13 x14 x15 x16 x17 x18 x19 x20 x21 x22 x23 x24 x25.
#[export] Instance upd_su_nr21 : Update su_nr21 := fun v s =>
  let '(mkApuStartup x1 x2 x3 x4 x5 x6 _ x8 x9 x10 x11 x12 x13 x14 x15 x16 x17 x18 x19 x20 x21 x22 x23 x24 x25) := s in mkApuStartup x1 x2 x3 x4 x5 x6 v x8 x9 x10 x11 x12 x13 x14 x15 x16 x17 x18 x19 x20 x21 x22 x23 x24 x25.
#[export] Instance upd_su_nr22 : Update su_nr22 := fun v s =>
  let '(mkApuStartup x1 x2 x3 x4 x5 x6 x7 _ x9 x10 x11 x12 x13 x14 x15 x16 x17 x18 x19 x20 x21 x22 x23 x24 x25) := s in mkApuStartup x1 x2 x3 x4 x5 x6 x7 v x9 x10 x11 x12 x13 x14 x15 x16 x17 x18 x19 x20 x21 x22 x23 x24 x25.
#[export] Instance upd_su_nr23 : Update su_nr23 := fun v s =>
  let '(mkApuStartup x1 x2 x3 x4 x5 x6 x7 x8 _ x10 x11 x12 x13 x14 x15 x16 x17 x18 x19 x20 x21 x22 x23 x24 x25) := s in mkApuStartup x1 x2 x3 x4 x5 x6 x7 x8 v x10 x11 x12 x13 x14 x15 x16 x17 x18 x19 x20 x21 x22 x23 x24 x25.
#[export] Instance upd_su_nr24 : Update su_nr24 := fun v s =>
  let '(mkApuStartup x1 x2 x3 x4 x5 x6 x7 x8 x9 _ x11 x12 x13 x14 x15 x16 x17 x18 x19 x20 x21 x22 x23 x24 x25) := s in mkApuStartup x1 x2 x3 x4 x5 x6 x7 x8 x9 v x11 x12 x13 x14 x15 x16 x17 x18 x19 x20 x21 x22 x23 x24 x25.
#[export] Instance upd_su_nr30 : Update su_nr30 := fun v s =>
  let '(mkApuStartup x1 x2 x3 x4 x5 x6 x7 x8 x9 x10 _ x12 x13 x14 x15 x16 x17 x18 x19 x20 x21 x22 x23 x24 x25) := s in mkApuStartup x1 x2 x3 x4 x5 x6 x7 x8 x9 x10 v x12 x13 x14 x15 x16 x17 x18 x19 x20 x21 x22 x23 x24 x25.
#[export] Instance upd_su_nr31 : Update su_nr31 := fun v s =>
  let '(mkApuStartup x1 x2 x3 x4 x5 x6 x7 x8 x9 x10 x11 _ x13 x14 x15 x16 x17 x18 x19 x20 x21 x22 x23 x24 x25) := s in mkApuStartup x1 x2 x3 x4 x5 x6 x7 x8 x9 x10 x11 v x13 x14 x15 x16 x17 x18 x19 x20 x21 x22 x23 x24 x25.
#[export] Instance upd_su_nr32 : Update su_nr32 := fun v s =>
  let '(mkApuStartup x1 x2 x3 x4 x5 x6 x7 x8 x9 x10 x11 x12 _ x14 x15 x16 x17 x18 x19 x20 x21 x22 x23 x24 x25) := s in mkApuStartup x1 x2 x3 x4 x5 x6 x7 x8 x9 x10 x11 x12 v x14 x15 x16 x17 x18 x19 x20 x21 x22 x23 x24 x25.
#[export] Instance upd_su_nr33 : Update su_nr33 := fun v s =>
  let '(mkApuStartup x1 x2 x3 x4 x5 x6 x7 x8 x9 x10 x11 x12 x13 _ x15 x16 x17 x18 x19 x20 x21 x22 x23 x24 x25) := s in mkApuStartup x1 x2 x3 x4 x5 x6 x7 x8 x9 x10 x11 x12 x13 v x15 x16 x17 x18 x19 x20 x21 x22 x23 x24 x25.
#[export] Instance upd_su_nr34 : Update su_nr34 := fun v s =>
  let '(mkApuStartup x1 x2 x3 x4 x5 x6 x7 x8 x9 x10 x11 x12 x13 x14 _ x16 x17 x18 x19 x20 x21 x22 x23 x24 x25) := s in mkApuStartup x1 x2 x3 x4 x5 x6 x7 x8 x9 x10 x11 x12 x13 x14 v x16 x17 x18 x19 x20 x21 x22 x23 x24 x25.
#[export] Instance upd_su_nr41 : Update su_nr41 := fun v s =>
  let '(mkApuStartup x1 x2 x3 x4 x5 x6 x7 x8 x9 x10 x11 x12 x13 x14 x15 _ x17 x18 x19 x20 x21 x22 x23 x24 x25) := s in mkApuStartup x1 x2 x3 x4 x5 x6 x7 x8 x9 x10 x11 x12 x13 x14 x15 v x17 x18 x19 x20 x21 x22 x23 x24 x25.
#[export] Instance upd_su_nr42 : Update su_nr42 := fun v s =>
  let '(mkApuStartup x1 x2 x3 x4 x5 x6 x7 x8 x9 x10 x11 x12 x13 x14 x15 x16 _ x18 x19 x20 x21 x22 x23 x24 x25) := s in mkApuStartup x1 x2 x3 x4 x5 x6 x7 x8 x9 x10 x11 x12 x13 x14 x15 x16 v x18 x19 x20 x21 x22 x23 x24 x25.
#[export] Instance upd_su_nr43 : Update su_nr43 := fun v s =>
  let '(mkApuStartup x1 x2 x3 x4 x5 x6 x7 x8 x9 x10 x11 x12 x13 x14 x15 x16 x17 _ x19 x20 x21 x22 x23 x24 x25) := s in mkApuStartup x1 x2 x3 x4 x5 x6 x7 x8 x9 x10 x11 x12 x13 x14 x15 x16 x17 v x19 x20 x21 x22 x23 x24 x25.
#[export] Instance upd_su_nr44 : Update su_nr44 := fun v s =>
  let '(mkApuStartup x1 x2 x3 x4 x5 x6 x7 x8 x9 x10 x11 x12 x13 x14 x15 x16 x17 x18 _ x20 x21 x22 x23 x24 x25) := s in mkApuStartup x1 x2 x3 x4 x5 x6 x7 x8 x9 x10 x11 x12 x13 x14 x15 x16 x17 x18 v x20 x21 x22 x23 x24 x25.
#[export] Instance upd_su_nr50 : Update su_nr50 := fun v s =>
  let '(mkApuStartup x1 x2 x3 x4 x5 x6 x7 x8 x9 x10 x11 x12 x13 x14 x15 x16 x17 x18 x19 _ x21 x22 x23 x24 x25) := s in mkApuStartup x1 x2 x3 x4 x5 x6 x7 x8 x9 x10 x11 x12 x13 x14 x15 x16 x17 x18 x19 v x21 x22 x23 x24 x25.
#[export] Instance upd_su_nr51 : Update su_nr51 := fun v s =>
  let '(mkApuStartup x1 x2 x3 x4 x5 x6 x7 x8 x9 x10 x11 x12 x13 x14 x15 x16 x17 x18 x19 x20 _ x22 x23 x24 x25) := s in mkApuStartup x1 x2 x3 x4 x5 x6 x7 x8 x9 x10 x11 x12 x13 x14 x15 x16 x17 x18 x19 x20 v x22 x23 x24 x25.
#[export] Instance upd_su_channel_active_mask : Update su_channel_active_mask := fun v s =>
  let '(mkApuStartup x1 x2 x3 x4 x5 x6 x7 x8 x9 x10 x11 x12 x13 x14 x15 x16 x17 x18 x19 x20 x21 _ x23 x24 x25) := s in mkApuStartup x1 x2 x3 x4 x5 x6 x7 x8 x9 x10 x11 x12 x13 x14 x15 x16 x17 x18 x19 x20 x21 v x23 x24 x25.
#[export] Instance upd_su_startup_silent_channel_mask : Update su_startup_silent_channel_mask := fun v s =>
  let '(mkApuStartup x1 x2 x3 x4 x5 x6 x7 x8 x9 x10 x11 x12 x13 x14 x15 x16 x17 x18 x19 x20 x21 x22 _ x24 x25) := s in mkApuStartup x1 x2 x3 x4 x5 x6 x7 x8 x9 x10 x11 x12 x13 x14 x15 x16 x17 x18 x19 x20 x21 x22 v x24 x25.
#[export] Instance upd_su_div_apu : Update su_div_apu := fun v s =>
  let '(mkApuStartup x1 x2 x3 x4 x5 x6 x7 x8 x9 x10 x11 x12 x13 x14 x15 x16 x17 x18 x19 x20 x21 x22 x23 _ x25) := s in mkApuStartup x1 x2 x3 x4 x5 x6 x7 x8 x9 x10 x11 x12 x13 x14 x15 x16 x17 x18 x19 x20 x21 x22 x23 v x25.
#[export] Instance upd_su_wave_ram_startup_policy : Update su_wave_ram_startup_policy := fun v s =>
  let '(mkApuStartup x1 x2 x3 x4 x5 x6 x7 x8 x9 x10 x11 x12 x13 x14 x15 x16 x17 x18 x19 x20 x21 x22 x23 x24 _) := s in mkApuStartup x1 x2 x3 x4 x5 x6 x7 x8 x9 x10 x11 x12 x13 x14 x15 x16 x17 x18 x19 x20 x21 x22 x23 x24 v.

Definition channels_begin_t_cycle (c : ApuChannels) : ApuChannels :=
  c <| channel_3 := begin_t_cycle (channel_3 c) |>.

Definition tick_fast_timers (m : ConsoleModel) (clock_generation_timers : bool) (apu_clock t_cycle_phase : Z)
    (c : ApuChannels) : outcome ApuChannels :=
  let c := c <| channel_1 := ch1_tick_fast_timer_with_clock_gate m clock_generation_timers apu_clock
                               t_cycle_phase (channel_1 c) |> in
  let c := c <| channel_2 := ch2_tick_fast_timer_with_clock_gate clock_generation_timers (channel_2 c) |> in
  if clock_generation_timers then
    c3 ← ch3_tick_fast_timer (channel_3 c);
    let c := c <| channel_3 := c3 |> in
    mret (c <| channel_4 := ch4_tick_fast_timer (channel_4 c) |>)
  else mret c.

Definition tick_powered_off_timebase (c : ApuChannels) : ApuChannels :=
  c <| channel_4 := snd (tick_alignment_phase_only (channel_4 c)) |>.

Definition clock_length_all (c : ApuChannels) : ApuChannels :=
  c <| channel_1 := ch1_clock_length (channel_1 c) |> <| channel_2 := ch2_clock_length (channel_2 c) |>
    <| channel_3 := ch3_clock_length (channel_3 c) |> <| channel_4 := ch4_clock_length (channel_4 c) |>.

Definition clock_envelope_all (c : ApuChannels) : ApuChannels :=
  c <| channel_1 := ch1_clock_envelope (channel_1 c) |> <| channel_2 := ch2_clock_envelope (channel_2 c) |>
    <| channel_4 := ch4_clock_envelope (channel_4 c) |>.

Definition clock_cgb_live_write_pending_even_envelope_all (c : ApuChannels) : ApuChannels :=
  c <| channel_1 := ch1_clock_cgb_live_write_pending_even_envelope_tick (channel_1 c) |>
    <| channel_2 := ch2_clock_cgb_live_write_pending_even_envelope_tick (channel_2 c) |>
    <| channel_4 := ch4_clock_cgb_live_write_pending_even_envelope_tick (channel_4 c) |>.

Definition clock_sweep_ch1 (m : ConsoleModel) (c : ApuChannels) : ApuChannels :=
  c <| channel_1 := ch1_clock_sweep m (channel_1 c) |>.

Definition channels_initialize_wave_ram (wave : list Z) (c : ApuChannels) : ApuChannels :=
  c <| channel_3 := initialize_wave_ram wave (channel_3 c) |>.

Definition power_off_registers (m : ConsoleModel) (c : ApuChannels) : ApuChannels :=
  c <| channel_1 := ch1_power_off_registers m (channel_1 c) |>
    <| channel_2 := ch2_power_off_registers m (channel_2 c) |>
    <| channel_3 := ch3_power_off_registers m (channel_3 c) |>
    <| channel_4 := ch4_power_off_registers m (channel_4 c) |>.

Definition channels_apply_startup (m : ConsoleModel) (s : ApuStartupState) (c : ApuChannels) : ApuChannels :=
  let c := channels_initialize_wave_ram (initial_bytes (su_wave_ram_startup_policy s)) c in
  if negb (su_powered s) then power_off_registers m c
  else
    let started mask := has_bits (su_channel_active_mask s) mask in
    c <| channel_1 := ch1_apply_powered_startup (su_nr10 s) (su_nr11 s) (su_nr12 s) (su_nr13 s) (su_nr14 s)
                        (started CHANNEL_ACTIVE_CH1) (channel_1 c) |>
      <| channel_2 := ch2_apply_powered_startup (su_nr21 s) (su_nr22 s) (su_nr23 s) (su_nr24 s)
                        (started CHANNEL_ACTIVE_CH2) (channel_2 c) |>
      <| channel_3 := ch3_apply_powered_startup (su_nr30 s) (su_nr31 s) (su_nr32 s) (su_nr33 s) (su_nr34 s)
                        (started CHANNEL_ACTIVE_CH3) (channel_3 c) |>
      <| channel_4 := ch4_apply_powered_startup (su_nr41 s) (su_nr42 s) (su_nr43 s) (su_nr44 s)
                        (started CHANNEL_ACTIVE_CH4) (channel_4 c) |>.

Definition channels_mark_powered_on (c : ApuChannels) : ApuChannels :=
  c <| channel_1 := ch1_mark_powered_on (channel_1 c) |>
    <| channel_2 := ch2_mark_powered_on (channel_2 c) |>
    <| channel_4 := ch4_mark_powered_on (channel_4 c) |>.

(** One round of the loop over the resolved channels. *)
Definition add_resolved (mask : Z) (r : ChannelResolvedOutput) (o : ChannelOutputState) : ChannelOutputState :=
  o <| active_mask := if active (resolved_runtime r) then Z.lor (active_mask o) mask else active_mask o |>
    <| dac_mask := if dac_enabled (resolved_runtime r) then Z.lor (dac_mask o) mask else dac_mask o |>
    <| digital_outputs := digital_outputs o ++ [resolved_digital_output r] |>.

Definition output_state (c : ApuChannels) : outcome ChannelOutputState :=
  o3 ← ch3_current_digital_output (channel_3 c);
  let resolved :=
    [mkResolved (runtime (pulse (channel_1 c))) (ch1_current_digital_output (channel_1 c));
     mkResolved (runtime (pulse2 (channel_2 c))) (ch2_current_digital_output (channel_2 c));
     mkResolved (w_runtime (channel_3 c)) o3;
     mkResolved (n_runtime (channel_4 c)) (ch4_current_digital_output (channel_4 c))] in
  let o := fold_left (fun o mr => add_resolved (fst mr) (snd mr) o) (combine CHANNEL_MASKS resolved)
             (mkChannelOutput 0 0 []) in
  mret (o <| active_mask := Z.land (active_mask o) CHANNEL_ACTIVE_MASK |>
          <| dac_mask := Z.land (dac_mask o) CHANNEL_ACTIVE_MASK |>).

Definition wave_ram_snapshot (c : ApuChannels) : list Z := wave_ram (channel_3 c).

(** ** Invariant *)

Record channels_ok (c : ApuChannels) : Prop := {
  channel_1_ok : ch1_ok (channel_1 c);
  channel_2_ok : ch2_ok (channel_2 c);
  channel_3_ok : ch3_ok (channel_3 c);
  channel_4_ok : ch4_ok (channel_4 c)
}.

#[export] Hint Extern 3 (channels_ok (_ _ _)) => upd_hint channels_ok : apu.
#[export] Hint Resolve channel_1_ok channel_2_ok channel_3_ok channel_4_ok : apu.
#[global] Arguments ch1_default : simpl never.
#[global] Arguments ch2_default : simpl never.
#[global] Arguments ch3_default : simpl never.
#[global] Arguments ch4_default : simpl never.
#[global] Arguments ch1_apply_powered_startup : simpl never.
#[global] Arguments ch2_apply_powered_startup : simpl never.
#[global] Arguments ch3_apply_powered_startup : simpl never.
#[global] Arguments ch4_apply_powered_startup : simpl never.
#[global] Arguments ch1_power_off_registers : simpl never.
#[global] Arguments ch2_power_off_registers : simpl never.
#[global] Arguments ch3_power_off_registers : simpl never.
#[global] Arguments ch4_power_off_registers : simpl never.
#[global] Arguments ch1_clock_length : simpl never.
#[global] Arguments ch2_clock_length : simpl never.
#[global] Arguments ch3_clock_length : simpl never.
#[global] Arguments ch4_clock_length : simpl never.
#[global] Arguments ch1_clock_envelope : simpl never.
#[global] Arguments ch2_clock_envelope : simpl never.
#[global] Arguments ch4_clock_envelope : simpl never.
#[global] Arguments ch1_clock_cgb_live_write_pending_even_envelope_tick : simpl never.
#[global] Arguments ch2_clock_cgb_live_write_pending_even_envelope_tick : simpl never.
#[global] Arguments ch4_clock_cgb_live_write_pending_even_envelope_tick : simpl never.
#[global] Arguments ch1_mark_powered_on : simpl never.
#[global] Arguments ch2_mark_powered_on : simpl never.
#[global] Arguments ch4_mark_powered_on : simpl never.
#[global] Arguments ch1_tick_fast_timer_with_clock_gate : simpl never.
#[global] Arguments ch2_tick_fast_timer_with_clock_gate : simpl never.
#[global] Arguments ch4_tick_fast_timer : simpl never.
#[global] Arguments ch1_clock_sweep : simpl never.
#[global] Arguments tick_alignment_phase_only : simpl never.
#[global] Arguments begin_t_cycle : simpl never.
#[global] Arguments initialize_wave_ram : simpl never.

(** The bytes of a startup state. *)
Record startup_ok (s : ApuStartupState) : Prop := {
  su_bytes : Forall u8
    [su_nr10 s; su_nr11 s; su_nr12 s; su_nr13 s; su_nr14 s; su_nr21 s; su_nr22 s; su_nr23 s; su_nr24 s;
     su_nr30 s; su_nr31 s; su_nr32 s; su_nr33 s; su_nr34 s; su_nr41 s; su_nr42 s; su_nr43 s; su_nr44 s;
     su_nr50 s; su_nr51 s; su_channel_active_mask s; su_startup_silent_channel_mask s]
}.

Lemma channels_default_ok : channels_ok channels_default.
Proof. constructor; simpl; auto with apu. Qed.

Lemma initial_bytes_ok p : wave_bytes (initial_bytes p).
Proof.
  split; [by destruct p|]. destruct p; [apply Forall_replicate; auto with gb|].
  repeat apply Forall_cons_2; auto using Forall_nil_2 with gb.
Qed.
#[export] Hint Resolve channels_default_ok initial_bytes_ok : apu.
#[global] Arguments initial_bytes : simpl never.

Lemma channels_begin_t_cycle_ok c : channels_ok c -> channels_ok (channels_begin_t_cycle c).
Proof. intros Hc. cbv delta [channels_begin_t_cycle]. upd_ok channels_ok. Qed.

Lemma tick_fast_timers_ok m g a t c : channels_ok c -> finishes (tick_fast_timers m g a t c) channels_ok.
Proof.
  intros Hc. unfold tick_fast_timers.
  set (c1 := c <| channel_1 := _ |>). assert (H1 : channels_ok c1) by (subst c1; upd_ok channels_ok). clearbody c1.
  set (c2 := c1 <| channel_2 := _ |>). assert (H2 : channels_ok c2) by (subst c2; upd_ok channels_ok). clearbody c2.
  destruct g; [|done].
  apply finishes_bind. eapply finishes_mono; [apply ch3_tick_ok, H2|]. intros c3 H3. simpl. upd_ok channels_ok.
Qed.

Lemma tick_powered_off_timebase_ok c : channels_ok c -> channels_ok (tick_powered_off_timebase c).
Proof. intros Hc. cbv delta [tick_powered_off_timebase]. upd_ok channels_ok. Qed.
Lemma clock_length_all_ok c : channels_ok c -> channels_ok (clock_length_all c).
Proof. intros Hc. cbv delta [clock_length_all]. upd_ok channels_ok. Qed.
Lemma clock_envelope_all_ok c : channels_ok c -> channels_ok (clock_envelope_all c).
Proof. intros Hc. cbv delta [clock_envelope_all]. upd_ok channels_ok. Qed.
Lemma clock_pending_all_ok c : channels_ok c -> channels_ok (clock_cgb_live_write_pending_even_envelope_all c).
Proof. intros Hc. cbv delta [clock_cgb_live_write_pending_even_envelope_all]. upd_ok channels_ok. Qed.
Lemma clock_sweep_ch1_ok m c : channels_ok c -> channels_ok (clock_sweep_ch1 m c).
Proof. intros Hc. cbv delta [clock_sweep_ch1]. upd_ok channels_ok. Qed.
Lemma channels_initialize_wave_ram_ok l c : wave_bytes l -> channels_ok c -> channels_ok (channels_initialize_wave_ram l c).
Proof. intros Hl Hc. cbv delta [channels_initialize_wave_ram]. upd_ok channels_ok. Qed.
Lemma power_off_registers_ok m c : channels_ok c -> channels_ok (power_off_registers m c).
Proof. intros Hc. cbv delta [power_off_registers]. upd_ok channels_ok. Qed.
Lemma channels_mark_powered_on_ok c : channels_ok c -> channels_ok (channels_mark_powered_on c).
Proof. intros Hc. cbv delta [channels_mark_powered_on]. upd_ok channels_ok. Qed.
#[export] Hint Resolve channels_begin_t_cycle_ok tick_powered_off_timebase_ok clock_length_all_ok
  clock_envelope_all_ok clock_pending_all_ok clock_sweep_ch1_ok channels_initialize_wave_ram_ok
  power_off_registers_ok channels_mark_powered_on_ok : apu.

Lemma channels_apply_startup_ok m s c : startup_ok s -> channels_ok c -> channels_ok (channels_apply_startup m s c).
Proof.
  intros [Hs] Hc. repeat (apply Forall_cons_1 in Hs as [? Hs]).
  cbv delta [channels_apply_startup]. upd_ok channels_ok.
Qed.

(** The masks are four bits wide and the levels are volumes. *)
Record levels_ok (o : ChannelOutputState) : Prop := {
  active_mask_range : 0 <= active_mask o <= 15;
  dac_mask_range : 0 <= dac_mask o <= 15;
  levels_length : length (digital_outputs o) = 4%nat;
  levels_range : Forall (fun l => 0 <= l < 16) (digital_outputs o)
}.

Lemma output_state_ok c : channels_ok c -> finishes (output_state c) levels_ok.
Proof.
  intros Hc. unfold output_state. apply finishes_bind.
  eapply finishes_mono; [apply ch3_output_range, Hc|]. intros o3 H3.
  assert (H1 : 0 <= ch1_current_digital_output (channel_1 c) < 16) by auto with apu.
  assert (H2 : 0 <= ch2_current_digital_output (channel_2 c) < 16) by auto with apu.
  assert (H4 : 0 <= ch4_current_digital_output (channel_4 c) < 16) by auto with apu.
  simpl. constructor; simpl.
  - apply land_bound. done.
  - apply land_bound. done.
  - done.
  - repeat apply Forall_cons_2; auto using Forall_nil_2.
Qed.
