(* ===== verification/ApuOutput.v ===== *)
(** * The analog path ([crates/gb-core/src/apu/output.rs])

    Digital levels become analog ones with a fade when a DAC is switched off,
    are routed and summed per side, scaled by the master volume, and pass the
    high-pass filter.  Values are signed fixed-point integers.  [+], [-] and
    [*] on an [i32] that leave its range are panics; [as i32] wraps; signed
    division truncates.  Four-element arrays are lists. *)

From Stdlib Require Import ZArith Lia Bool List String.
From stdpp Require Import base list decidable.
From S2P Require Import Prelude.
From S2P Require Import Model.
From S2P Require Import ApuCommon.
From S2P Require Import ApuChannels.

Import ListNotations.
Local Open Scope Z_scope.

(** ** Signed integers *)

Definition i32 (x : Z) : Prop := -2147483648 <= x < 2147483648.
Definition i64 (x : Z) : Prop := -9223372036854775808 <= x < 9223372036854775808.
Definition as_i32 (x : Z) : Z := (x + 2147483648) mod 4294967296 - 2147483648.
Definition checked_i32 (x : Z) : outcome Z :=
  if (-2147483648 <=? x) && (x <? 2147483648) then Done x else Panic "arithmetic overflow".
Definition checked_i64 (x : Z) : outcome Z :=
  if (-9223372036854775808 <=? x) && (x <? 9223372036854775808) then Done x else Panic "arithmetic overflow".

(** ** Constants *)

Definition NR50_VIN_LEFT_BIT : Z := 0x80.
Definition NR50_VIN_RIGHT_BIT : Z := 0x08.
Definition NR51_LEFT_ROUTE_BITS : list Z := [0x10; 0x20; 0x40; 0x80].
Definition NR51_RIGHT_ROUTE_BITS : list Z := [0x01; 0x02; 0x04; 0x08].
Definition DAC_DIGITAL_OUTPUT_MASK : Z := 0x0F.
Definition NR50_VOLUME_MASK : Z := 0x07.
Definition NR50_LEFT_VOLUME_SHIFT : Z := 4.
Definition NR50_VOLUME_BIAS : Z := 1.
Definition NR50_MAX_VOLUME_FACTOR : Z := NR50_VOLUME_MASK + NR50_VOLUME_BIAS.
Definition ANALOG_ONE : Z := 15000000.
Definition DAC_ANALOG_STEP : Z := 2000000.
Definition DMG_FAMILY_HPF_CHARGE_FACTOR_NUMERATOR : Z := 999958.
Definition MGB_CGB_HPF_CHARGE_FACTOR_NUMERATOR : Z := 998943.
Definition HPF_CHARGE_FACTOR_DENOMINATOR : Z := 1000000.
Definition DMG_FAMILY_APU_CAPTURE_CLOCK_HZ : Z := 4194304.
Definition MAX_ROUTED_CHANNELS_PER_OUTPUT_BUS : Z := 4.
Definition APU_INTERNAL_MAX_ABS_OUTPUT_SAMPLE : Z :=
  ANALOG_ONE * MAX_ROUTED_CHANNELS_PER_OUTPUT_BUS * NR50_MAX_VOLUME_FACTOR.
Definition DAC_FADE_REFERENCE_RATE_HZ : Z := 20000.
Definition DAC_FADE_FACTOR_ONE : Z := 65536.
(** [div_ceil]. *)
Definition DAC_OFF_FADE_T_CYCLES : Z :=
  (DMG_FAMILY_APU_CAPTURE_CLOCK_HZ + DAC_FADE_REFERENCE_RATE_HZ - 1) / DAC_FADE_REFERENCE_RATE_HZ.

(** ** State *)

Record ApuStereoOutputSnapshot := mkStereo {
  left : Z;
  right : Z
}.

#[export] Instance upd_left : Update left := fun v s =>
  let '(mkStereo _ x2) := s in mkStereo v x2.
#[export] Instance upd_right : Update right := fun v s =>
  let '(mkStereo x1 _) := s in mkStereo x1 v.

Definition stereo_default : ApuStereoOutputSnapshot := mkStereo 0 0.

Record MasterControlState := mkMaster {
  powered : bool;
  nr50 : Z;
  nr51 : Z;
  vin_input : ApuStereoOutputSnapshot
}.

#[export] Instance upd_powered : Update powered := fun v s =>
  let '(mkMaster _ x2 x3 x4) := s in mkMaster v x2 x3 x4.
#[export] Instance upd_nr50 : Update nr50 := fun v s =>
  let '(mkMaster x1 _ x3 x4) := s in mkMaster x1 v x3 x4.
#[export] Instance upd_nr51 : Update nr51 := fun v s =>
  let '(mkMaster x1 x2 _ x4) := s in mkMaster x1 x2 v x4.
#[export] Instance upd_vin_input : Update vin_input := fun v s =>
  let '(mkMaster x1 x2 x3 _) := s in mkMaster x1 x2 x3 v.

Definition master_default : MasterControlState := mkMaster false 0 0 stereo_default.

Inductive HpfChargeModel := Dmg0Dmg | MgbCgb.

Definition hpf_for_console_model (m : ConsoleModel) : HpfChargeModel :=
  match m with GameBoy => Dmg0Dmg | _ => MgbCgb end.
Definition numerator (h : HpfChargeModel) : Z :=
  match h with
  | Dmg0Dmg => DMG_FAMILY_HPF_CHARGE_FACTOR_NUMERATOR
  | MgbCgb => MGB_CGB_HPF_CHARGE_FACTOR_NUMERATOR
  end.

Record DacChannelState := mkDac {
  current_output : Z;
  discharge_source_output : Z;
  discharge_remaining_t_cycles : Z
}.

#[export] Instance upd_current_output : Update current_output := fun v s =>
  let '(mkDac _ x2 x3) := s in mkDac v x2 x3.
#[export] Instance upd_discharge_source_output : Update discharge_source_output := fun v s =>
  let '(mkDac x1 _ x3) := s in mkDac x1 v x3.
#[export] Instance upd_discharge_remaining_t_cycles : Update discharge_remaining_t_cycles := fun v s =>
  let '(mkDac x1 x2 _) := s in mkDac x1 x2 v.

Definition dac_default : DacChannelState := mkDac 0 0 0.

(** The fade model of every console is the same duration. *)
Record OutputPathState := mkOutputPath {
  hpf_charge_model : HpfChargeModel;
  dac_off_fade_duration : Z;
  channel_dac_states : list DacChannelState;
  channel_dac_outputs : list Z;
  vin_analog_out : ApuStereoOutputSnapshot;
  mixer_out : ApuStereoOutputSnapshot;
  master_out : ApuStereoOutputSnapshot;
  hpf_capacitor : ApuStereoOutputSnapshot;
  current_out : ApuStereoOutputSnapshot
}.

#[export] Instance upd_hpf_charge_model : Update hpf_charge_model := fun v s =>
  let '(mkOutputPath _ x2 x3 x4 x5 x6 x7 x8 x9) := s in mkOutputPath v x2 x3 x4 x5 x6 x7 x8 x9.
#[export] Instance upd_dac_off_fade_duration : Update dac_off_fade_duration := fun v s =>
  let '(mkOutputPath x1 _ x3 x4 x5 x6 x7 x8 x9) := s in mkOutputPath x1 v x3 x4 x5 x6 x7 x8 x9.
#[export] Instance upd_channel_dac_states : Update channel_dac_states := fun v s =>
  let '(mkOutputPath x1 x2 _ x4 x5 x6 x7 x8 x9) := s in mkOutputPath x1 x2 v x4 x5 x6 x7 x8 x9.
#[export] Instance upd_channel_dac_outputs : Update channel_dac_outputs := fun v s =>
  let '(mkOutputPath x1 x2 x3 _ x5 x6 x7 x8 x9) := s in mkOutputPath x1 x2 x3 v x5 x6 x7 x8 x9.
#[export] Instance upd_vin_analog_out : Update vin_analog_out := fun v s =>
  let '(mkOutputPath x1 x2 x3 x4 _ x6 x7 x8 x9) := s in mkOutputPath x1 x2 x3 x4 v x6 x7 x8 x9.
#[export] Instance upd_mixer_out : Update mixer_out := fun v s =>
  let '(mkOutputPath x1 x2 x3 x4 x5 _ x7 x8 x9) := s in mkOutputPath x1 x2 x3 x4 x5 v x7 x8 x9.
#[export] Instance upd_master_out : Update master_out := fun v s =>
  let '(mkOutputPath x1 x2 x3 x4 x5 x6 _ x8 x9) := s in mkOutputPath x1 x2 x3 x4 x5 x6 v x8 x9.
#[export] Instance upd_hpf_capacitor : Update hpf_capacitor := fun v s =>
  let '(mkOutputPath x1 x2 x3 x4 x5 x6 x7 _ x9) := s in mkOutputPath x1 x2 x3 x4 x5 x6 x7 v x9.
#[export] Instance upd_current_out : Update current_out := fun v s =>
  let '(mkOutputPath x1 x2 x3 x4 x5 x6 x7 x8 _) := s in mkOutputPath x1 x2 x3 x4 x5 x6 x7 x8 v.

Definition output_path_new (m : ConsoleModel) : OutputPathState :=
  mkOutputPath (hpf_for_console_model m) DAC_OFF_FADE_T_CYCLES (replicate 4 dac_default) (replicate 4 0)
    stereo_default stereo_default stereo_default stereo_default stereo_default.

(** ** DACs *)

Definition dac_analog_output (digital_output : Z) : Z :=
  ANALOG_ONE - Z.land digital_output DAC_DIGITAL_OUTPUT_MASK * DAC_ANALOG_STEP.

Definition smooth_factor_q16 (remaining_t_cycles total_t_cycles : Z) : Z :=
  if remaining_t_cycles =? 0 then 0
  else if total_t_cycles <=? remaining_t_cycles then DAC_FADE_FACTOR_ONE
  else
    let x := Z.quot (Z.shiftl remaining_t_cycles 16) total_t_cycles in
    let x2 := Z.quot (x * x) DAC_FADE_FACTOR_ONE in
    let x3 := Z.quot (x2 * x) DAC_FADE_FACTOR_ONE in
    as_i32 (3 * x2 - 2 * x3).

Definition divide_and_round_i64 (value divisor : Z) : Z :=
  if 0 <=? value then as_i32 (Z.quot (value + Z.quot divisor 2) divisor)
  else as_i32 (Z.quot (value - Z.quot divisor 2) divisor).

Definition scale_by_q16 (value factor_q16 : Z) : Z := divide_and_round_i64 (value * factor_q16) DAC_FADE_FACTOR_ONE.

Definition set_enabled_output (digital_output duration : Z) (d : DacChannelState) : Z * DacChannelState :=
  let analog_output := dac_analog_output digital_output in
  (analog_output,
   d <| current_output := analog_output |> <| discharge_source_output := analog_output |>
     <| discharge_remaining_t_cycles := duration |>).

Definition dac_preview (enabled : bool) (digital_output duration : Z) (d : DacChannelState)
    : Z * DacChannelState :=
  if enabled then set_enabled_output digital_output duration d else (current_output d, d).

Definition dac_tick (enabled : bool) (digital_output duration : Z) (d : DacChannelState) : Z * DacChannelState :=
  if enabled then set_enabled_output digital_output duration d
  else if (current_output d =? 0) || (discharge_remaining_t_cycles d =? 0) then (0, dac_default)
  else
    let d := d <| discharge_remaining_t_cycles := discharge_remaining_t_cycles d - 1 |> in
    if discharge_remaining_t_cycles d =? 0 then
      (0, d <| current_output := 0 |> <| discharge_source_output := 0 |>)
    else
      let d := d <| current_output :=
        scale_by_q16 (discharge_source_output d)
          (smooth_factor_q16 (discharge_remaining_t_cycles d) duration) |> in
      (current_output d, d).

(** ** Mixer and master volume *)

Definition nr50_left_volume_factor (v : Z) : Z :=
  Z.land (shr8 v NR50_LEFT_VOLUME_SHIFT) NR50_VOLUME_MASK + NR50_VOLUME_BIAS.
Definition nr50_right_volume_factor (v : Z) : Z := Z.land v NR50_VOLUME_MASK + NR50_VOLUME_BIAS.

Definition vin_analog_output (m : MasterControlState) : ApuStereoOutputSnapshot :=
  mkStereo (if has_bits (nr50 m) NR50_VIN_LEFT_BIT then left (vin_input m) else 0)
           (if has_bits (nr50 m) NR50_VIN_RIGHT_BIT then right (vin_input m) else 0).

(** The loop over the channels, with the running sum checked at each addition. *)
Fixpoint routed_sum_from (r51 : Z) (routes : list (Z * Z)) (sum : Z) : outcome Z :=
  match routes with
  | [] => mret sum
  | (route_bit, out) :: rest =>
      if has_bits r51 route_bit then s ← checked_i32 (sum + out); routed_sum_from r51 rest s
      else routed_sum_from r51 rest sum
  end.

Definition routed_channel_sum (r51 : Z) (route_bits dac_outputs : list Z) : outcome Z :=
  routed_sum_from r51 (combine route_bits dac_outputs) 0.

Definition mixer_output (r51 : Z) (vin : ApuStereoOutputSnapshot) (dac_outputs : list Z)
    : outcome ApuStereoOutputSnapshot :=
  sl ← routed_channel_sum r51 NR51_LEFT_ROUTE_BITS dac_outputs;
  l ← checked_i32 (left vin + sl);
  sr ← routed_channel_sum r51 NR51_RIGHT_ROUTE_BITS dac_outputs;
  r ← checked_i32 (right vin + sr);
  mret (mkStereo l r).

Definition master_output (r50 : Z) (mixer : ApuStereoOutputSnapshot) (any_channel_output_connected : bool)
    : outcome ApuStereoOutputSnapshot :=
  if negb any_channel_output_connected then mret stereo_default
  else
    l ← checked_i32 (left mixer * nr50_left_volume_factor r50);
    r ← checked_i32 (right mixer * nr50_right_volume_factor r50);
    mret (mkStereo l r).

Definition reset_analog_path (o : OutputPathState) : OutputPathState :=
  o <| channel_dac_states := replicate 4 dac_default |> <| channel_dac_outputs := replicate 4 0 |>
    <| vin_analog_out := stereo_default |> <| mixer_out := stereo_default |> <| master_out := stereo_default |>.

(** The loop over the channels: each DAC sees its enable bit and level. *)
Definition resolve_dacs (advance_fade : bool) (c : ChannelOutputState) (duration : Z)
    (states : list DacChannelState) : list (Z * DacChannelState) :=
  map (fun '(mask, level, d) =>
         (if advance_fade then dac_tick else dac_preview) (has_bits (dac_mask c) mask) level duration d)
      (combine (combine CHANNEL_MASKS (digital_outputs c)) states).

Definition resolve_mix_state (m : MasterControlState) (c : ChannelOutputState) (advance_fade : bool)
    (o : OutputPathState) : outcome (bool * OutputPathState) :=
  if negb (powered m) then mret (false, reset_analog_path o)
  else
    let resolved := resolve_dacs advance_fade c (dac_off_fade_duration o) (channel_dac_states o) in
    let o := o <| channel_dac_states := map snd resolved |> <| channel_dac_outputs := map fst resolved |> in
    let connected := existsb (fun value => negb (value =? 0)) (channel_dac_outputs o) in
    let o := o <| vin_analog_out := vin_analog_output m |> in
    mix ← mixer_output (nr51 m) (vin_analog_out o) (channel_dac_outputs o);
    let o := o <| mixer_out := mix |> in
    out ← master_output (nr50 m) mix connected;
    mret (connected, o <| master_out := out |>).

(** ** High-pass filter *)

Definition preview (m : MasterControlState) (c : ChannelOutputState) (o : OutputPathState)
    : outcome OutputPathState :=
  bo ← resolve_mix_state m c false o;
  let '(connected, o) := bo in
  if negb connected then mret (o <| current_out := stereo_default |>)
  else
    l ← checked_i64 (left (master_out o) - left (hpf_capacitor o));
    r ← checked_i64 (right (master_out o) - right (hpf_capacitor o));
    mret (o <| current_out := mkStereo (as_i32 l) (as_i32 r) |>).

(** [input - (input - capacitor) * numerator / denominator]. *)
Definition recharge (h : HpfChargeModel) (input output : Z) : outcome Z :=
  p ← checked_i64 (output * numerator h);
  checked_i64 (input - Z.quot p HPF_CHARGE_FACTOR_DENOMINATOR).

Definition output_tick (m : MasterControlState) (c : ChannelOutputState) (o : OutputPathState)
    : outcome OutputPathState :=
  bo ← resolve_mix_state m c true o;
  let '(connected, o) := bo in
  if negb connected then mret (o <| current_out := stereo_default |>)
  else
    l ← checked_i64 (left (master_out o) - left (hpf_capacitor o));
    r ← checked_i64 (right (master_out o) - right (hpf_capacitor o));
    let o := o <| current_out := mkStereo (as_i32 l) (as_i32 r) |> in
    cl ← recharge (hpf_charge_model o) (left (master_out o)) l;
    let o := o <| hpf_capacitor := (hpf_capacitor o) <| left := cl |> |> in
    cr ← recharge (hpf_charge_model o) (right (master_out o)) r;
    mret (o <| hpf_capacitor := (hpf_capacitor o) <| right := cr |> |>).

(** The filter a front end runs on its own mix of the channels. *)
Record ApuHostHpf := mkHostHpf {
  charge_model : HpfChargeModel;
  capacitor : ApuStereoOutputSnapshot
}.

#[export] Instance upd_charge_model : Update charge_model := fun v s =>
  let '(mkHostHpf _ x2) := s in mkHostHpf v x2.
#[export] Instance upd_capacitor : Update capacitor := fun v s =>
  let '(mkHostHpf x1 _) := s in mkHostHpf x1 v.

Definition host_hpf_new (m : ConsoleModel) : ApuHostHpf := mkHostHpf (hpf_for_console_model m) stereo_default.
Definition host_hpf_reset (h : ApuHostHpf) : ApuHostHpf := h <| capacitor := stereo_default |>.

Definition filter_t_cycle (sample : ApuStereoOutputSnapshot) (any_output_connected : bool) (h : ApuHostHpf)
    : outcome (ApuStereoOutputSnapshot * ApuHostHpf) :=
  if negb any_output_connected then mret (stereo_default, h)
  else
    l ← checked_i64 (left sample - left (capacitor h));
    r ← checked_i64 (right sample - right (capacitor h));
    cl ← recharge (charge_model h) (left sample) l;
    cr ← recharge (charge_model h) (right sample) r;
    mret (mkStereo (as_i32 l) (as_i32 r), h <| capacitor := mkStereo cl cr |>).

(** What a snapshot shows of the path. *)
Record ApuOutputSnapshot := mkOutputSnapshot {
  snap_digital_outputs : list Z;
  snap_dac_outputs : list Z;
  snap_vin : ApuStereoOutputSnapshot;
  snap_mixer : ApuStereoOutputSnapshot;
  snap_master : ApuStereoOutputSnapshot;
  snap_hpf_output : ApuStereoOutputSnapshot;
  snap_hpf_capacitor : ApuStereoOutputSnapshot
}.

#[export] Instance upd_snap_digital_outputs : Update snap_digital_outputs := fun v s =>
  let '(mkOutputSnapshot _ x2 x3 x4 x5 x6 x7) := s in mkOutputSnapshot v x2 x3 x4 x5 x6 x7.
#[export] Instance upd_snap_dac_outputs : Update snap_dac_outputs := fun v s =>
  let '(mkOutputSnapshot x1 _ x3 x4 x5 x6 x7) := s in mkOutputSnapshot x1 v x3 x4 x5 x6 x7.
#[export] Instance upd_snap_vin : Update snap_vin := fun v s =>
  let '(mkOutputSnapshot x1 x2 _ x4 x5 x6 x7) := s in mkOutputSnapshot x1 x2 v x4 x5 x6 x7.
#[export] Instance upd_snap_mixer : Update snap_mixer := fun v s =>
  let '(mkOutputSnapshot x1 x2 x3 _ x5 x6 x7) := s in mkOutputSnapshot x1 x2 x3 v x5 x6 x7.
#[export] Instance upd_snap_master : Update snap_master := fun v s =>
  let '(mkOutputSnapshot x1 x2 x3 x4 _ x6 x7) := s in mkOutputSnapshot x1 x2 x3 x4 v x6 x7.
#[export] Instance upd_snap_hpf_output : Update snap_hpf_output := fun v s =>
  let '(mkOutputSnapshot x1 x2 x3 x4 x5 _ x7) := s in mkOutputSnapshot x1 x2 x3 x4 x5 v x7.
#[export] Instance upd_snap_hpf_capacitor : Update snap_hpf_capacitor := fun v s =>
  let '(mkOutputSnapshot x1 x2 x3 x4 x5 x6 _) := s in mkOutputSnapshot x1 x2 x3 x4 x5 x6 v.

Definition output_snapshot (o : OutputPathState) (levels : list Z) : ApuOutputSnapshot :=
  mkOutputSnapshot levels (channel_dac_outputs o) (vin_analog_out o) (mixer_out o) (master_out o)
    (current_out o) (hpf_capacitor o).

(** ** Bounds *)

Definition within (b x : Z) : Prop := - b <= x <= b.
Definition stereo_within (b : Z) (s : ApuStereoOutputSnapshot) : Prop := within b (left s) /\ within b (right s).

Definition MAX_OUTPUT : Z := APU_INTERNAL_MAX_ABS_OUTPUT_SAMPLE.

Record dac_ok (d : DacChannelState) : Prop := {
  dac_current_range : within ANALOG_ONE (current_output d);
  dac_source_range : within ANALOG_ONE (discharge_source_output d);
  dac_remaining_range : 0 <= discharge_remaining_t_cycles d <= DAC_OFF_FADE_T_CYCLES
}.

(** The core never drives the external input. *)
Record master_ok (m : MasterControlState) : Prop := {
  master_nr50_u8 : u8 (nr50 m);
  master_nr51_u8 : u8 (nr51 m);
  master_vin_silent : vin_input m = stereo_default
}.

Record path_ok (o : OutputPathState) : Prop := {
  path_duration : dac_off_fade_duration o = DAC_OFF_FADE_T_CYCLES;
  path_states_length : length (channel_dac_states o) = 4%nat;
  path_states_ok : Forall dac_ok (channel_dac_states o);
  path_outputs_length : length (channel_dac_outputs o) = 4%nat;
  path_outputs_range : Forall (within ANALOG_ONE) (channel_dac_outputs o);
  path_master_range : stereo_within MAX_OUTPUT (master_out o);
  path_capacitor_range : stereo_within MAX_OUTPUT (hpf_capacitor o);
  path_current_range : stereo_within (2 * MAX_OUTPUT) (current_out o)
}.

Lemma within_0 b : 0 <= b -> within b 0.
Proof. unfold within. lia. Qed.
Lemma stereo_default_within b : 0 <= b -> stereo_within b stereo_default.
Proof. intros. split; by apply within_0. Qed.
Lemma as_i32_id x : i32 x -> as_i32 x = x.
Proof. unfold i32, as_i32. intros. rewrite Z.mod_small; lia. Qed.
Lemma checked_i32_ok x (Q : Z -> Prop) : i32 x -> Q x -> finishes (checked_i32 x) Q.
Proof.
  unfold i32, checked_i32. intros Hx HQ.
  destruct (Z.leb_spec (-2147483648) x), (Z.ltb_spec x 2147483648); simpl; (done || lia).
Qed.
Lemma checked_i64_ok x (Q : Z -> Prop) : i64 x -> Q x -> finishes (checked_i64 x) Q.
Proof.
  unfold i64, checked_i64. intros Hx HQ.
  destruct (Z.leb_spec (-9223372036854775808) x), (Z.ltb_spec x 9223372036854775808); simpl; (done || lia).
Qed.

Lemma dac_default_ok : dac_ok dac_default.
Proof. constructor; vm_compute; split; discriminate. Qed.

Lemma dac_analog_range l : within ANALOG_ONE (dac_analog_output l).
Proof.
  unfold within, dac_analog_output, ANALOG_ONE, DAC_ANALOG_STEP, DAC_DIGITAL_OUTPUT_MASK. land_bounds. lia.
Qed.

Lemma smooth_factor_range k : 0 <= k <= DAC_OFF_FADE_T_CYCLES -> 0 <= smooth_factor_q16 k DAC_OFF_FADE_T_CYCLES <= 65536.
Proof.
  intros Hk. change DAC_OFF_FADE_T_CYCLES with 210 in Hk.
  pose proof (forall_below 211
    (fun k => (0 <=? smooth_factor_q16 k DAC_OFF_FADE_T_CYCLES) && (smooth_factor_q16 k DAC_OFF_FADE_T_CYCLES <=? 65536))
    ltac:(vm_compute; reflexivity) k ltac:(lia)) as H.
  cbv beta in H. by prune.
Qed.

(** Scaling by a factor of at most one keeps the range; the rounding cannot leave it. *)
Lemma scale_range b v f : 0 <= b <= ANALOG_ONE -> within b v -> 0 <= f <= 65536 -> within b (scale_by_q16 v f).
Proof.
  unfold within, ANALOG_ONE, scale_by_q16, divide_and_round_i64, DAC_FADE_FACTOR_ONE. intros Hb Hv Hf.
  assert (Hp : - (b * 65536) <= v * f <= b * 65536) by nia.
  change (Z.quot 65536 2) with 32768. set (p := v * f) in *. clearbody p.
  assert (Hq : forall q, - b <= q <= b -> - b <= as_i32 q <= b).
  { intros q Hq. rewrite as_i32_id; [done | unfold i32; lia]. }
  destruct (Z.leb_spec 0 p); apply Hq; divmod_lia.
Qed.

Lemma set_enabled_ok l d :
  dac_ok d -> within ANALOG_ONE (fst (set_enabled_output l DAC_OFF_FADE_T_CYCLES d)) /\
              dac_ok (snd (set_enabled_output l DAC_OFF_FADE_T_CYCLES d)).
Proof.
  intros Hd. pose proof (dac_analog_range l). split; [done|].
  destruct d. constructor; simpl; try done.
Qed.

Lemma dac_preview_ok e l d :
  dac_ok d -> within ANALOG_ONE (fst (dac_preview e l DAC_OFF_FADE_T_CYCLES d)) /\
              dac_ok (snd (dac_preview e l DAC_OFF_FADE_T_CYCLES d)).
Proof. intros Hd. destruct e; [by apply set_enabled_ok | split; [apply Hd | done]]. Qed.

Lemma dac_tick_ok e l d :
  dac_ok d -> within ANALOG_ONE (fst (dac_tick e l DAC_OFF_FADE_T_CYCLES d)) /\
              dac_ok (snd (dac_tick e l DAC_OFF_FADE_T_CYCLES d)).
Proof.
  intros Hd. destruct e; [by apply set_enabled_ok|]. unfold dac_tick.
  destruct ((current_output d =? 0) || (discharge_remaining_t_cycles d =? 0)) eqn:H0;
    [split; [by apply within_0 | apply dac_default_ok]|].
  apply orb_false_elim in H0 as [_ H0]. prune. destruct Hd as [Hc Hs Hr], d as [c s r]. simpl in *.
  case_tests; prune; simpl.
  - split; [by apply within_0|]. constructor; simpl; [by apply within_0..|lia].
  - assert (Hw : within ANALOG_ONE (scale_by_q16 s (smooth_factor_q16 (r - 1) DAC_OFF_FADE_T_CYCLES))).
    { apply scale_range; [done | done | apply smooth_factor_range; lia]. }
    split; [done|]. constructor; simpl; (done || lia).
Qed.

Lemma volume_factor_range v : 1 <= nr50_left_volume_factor v <= 8 /\ 1 <= nr50_right_volume_factor v <= 8.
Proof.
  unfold nr50_left_volume_factor, nr50_right_volume_factor, NR50_VOLUME_MASK, NR50_VOLUME_BIAS. land_bounds. lia.
Qed.

Lemma routed_sum_ok r51 routes sum n :
  Forall (fun p => within ANALOG_ONE (snd p)) routes -> within (n * ANALOG_ONE) sum ->
  0 <= n -> n + Z.of_nat (length routes) <= 4 ->
  finishes (routed_sum_from r51 routes sum) (within (4 * ANALOG_ONE)).
Proof.
  unfold within, ANALOG_ONE. revert sum n.
  induction routes as [|[b out] rest IH]; intros sum n Hr Hs Hn Hl; simpl in *; [lia|].
  apply Forall_cons_1 in Hr as [Ho Hr]. simpl in Ho.
  destruct (has_bits r51 b).
  - apply finishes_bind, checked_i32_ok; [unfold i32; lia|]. apply (IH _ (n + 1)); (done || lia).
  - apply (IH _ (n + 1)); (done || lia).
Qed.

Lemma routed_channel_sum_ok r51 bits outs :
  Forall (within ANALOG_ONE) outs -> length outs = 4%nat -> length bits = 4%nat ->
  finishes (routed_channel_sum r51 bits outs) (within (4 * ANALOG_ONE)).
Proof.
  intros Ho Hl Hb. apply (routed_sum_ok _ _ _ 0).
  - apply List.Forall_forall. intros [b out] Hin. apply in_combine_r in Hin.
    rewrite List.Forall_forall in Ho. by apply Ho.
  - unfold within, ANALOG_ONE. lia.
  - done.
  - rewrite length_combine. lia.
Qed.

Lemma vin_silent m : master_ok m -> vin_analog_output m = stereo_default.
Proof. intros [_ _ Hv]. unfold vin_analog_output. rewrite Hv. simpl. by do 2 case_match. Qed.

Lemma mixer_ok r51 outs :
  Forall (within ANALOG_ONE) outs -> length outs = 4%nat ->
  finishes (mixer_output r51 stereo_default outs) (stereo_within (4 * ANALOG_ONE)).
Proof.
  intros Ho Hl. unfold mixer_output.
  apply finishes_bind. eapply finishes_mono; [by apply routed_channel_sum_ok|]. intros sl Hsl.
  apply finishes_bind, checked_i32_ok; [unfold within, ANALOG_ONE, i32 in *; simpl; lia|].
  apply finishes_bind. eapply finishes_mono; [by apply routed_channel_sum_ok|]. intros sr Hsr.
  apply finishes_bind, checked_i32_ok; [unfold within, ANALOG_ONE, i32 in *; simpl; lia|].
  done.
Qed.

Lemma master_output_ok r50 mix b :
  stereo_within (4 * ANALOG_ONE) mix -> finishes (master_output r50 mix b) (stereo_within MAX_OUTPUT).
Proof.
  intros [Hl Hr]. unfold master_output. destruct (negb b).
  { by apply stereo_default_within. }
  destruct (volume_factor_range r50) as [Hfl Hfr].
  unfold stereo_within, within, ANALOG_ONE in *. change MAX_OUTPUT with 480000000.
  apply finishes_bind, checked_i32_ok; [unfold i32; nia|].
  apply finishes_bind, checked_i32_ok; [unfold i32; nia|].
  simpl. split; nia.
Qed.

Lemma resolve_dacs_ok adv c states :
  length (digital_outputs c) = 4%nat -> length states = 4%nat -> Forall dac_ok states ->
  let r := resolve_dacs adv c DAC_OFF_FADE_T_CYCLES states in
  length r = 4%nat /\ Forall (fun p => within ANALOG_ONE (fst p) /\ dac_ok (snd p)) r.
Proof.
  intros Hd Hl Hs r. split.
  - subst r. unfold resolve_dacs. rewrite length_map, !length_combine, Hd, Hl. done.
  - apply List.Forall_forall. intros p Hp. apply in_map_iff in Hp as ([[mask l] d] & <- & Hin).
    apply in_combine_r in Hin. rewrite List.Forall_forall in Hs.
    assert (Hdac : dac_ok d) by by apply Hs.
    destruct adv; [by apply dac_tick_ok | by apply dac_preview_ok].
Qed.

Lemma reset_analog_path_ok o : path_ok o -> path_ok (reset_analog_path o).
Proof.
  intros [? ? ? ? ? ? ? ?]. destruct o. constructor; simpl in *; try done.
  - apply (Forall_replicate _ 4), dac_default_ok.
  - by apply (Forall_replicate _ 4), within_0.
Qed.

Lemma output_path_new_ok m : path_ok (output_path_new m).
Proof.
  constructor; simpl; try done.
  - apply (Forall_replicate _ 4), dac_default_ok.
  - by apply (Forall_replicate _ 4), within_0.
Qed.

(** Resolving the mix keeps the path in range; a powered path has just
    recomputed its master output. *)
Lemma resolve_mix_state_ok m c adv o :
  master_ok m -> length (digital_outputs c) = 4%nat -> path_ok o ->
  finishes (resolve_mix_state m c adv o) (fun bo => path_ok (snd bo)).
Proof.
  intros Hm Hc Ho. unfold resolve_mix_state. destruct (powered m); simpl negb; cbv iota.
  2: { by apply reset_analog_path_ok. }
  rewrite (vin_silent m Hm). rewrite (path_duration o Ho).
  destruct (resolve_dacs_ok adv c (channel_dac_states o) Hc) as [Hlen Hall]; [apply Ho..|].
  set (r := resolve_dacs _ _ _ _) in *. clearbody r.
  assert (Hfst : Forall (within ANALOG_ONE) (map fst r)).
  { apply Forall_map. eapply Forall_impl; [|exact Hall]. by intros ? [? ?]. }
  assert (Hsnd : Forall dac_ok (map snd r)).
  { apply Forall_map. eapply Forall_impl; [|exact Hall]. by intros ? [? ?]. }
  apply finishes_bind.
  eapply finishes_mono.
  { destruct o. simpl. apply mixer_ok; [done | by rewrite length_map]. }
  intros mix Hmix. apply finishes_bind.
  eapply finishes_mono; [by apply master_output_ok|]. intros out Hout.
  destruct Ho, o. constructor; simpl in *; rewrite ?length_map; done.
Qed.

(** The capacitor moves towards the input and never past it. *)
Lemma recharge_between h input cap :
  within MAX_OUTPUT input -> within MAX_OUTPUT cap ->
  finishes (recharge h input (input - cap))
    (fun cap' => Z.min input cap <= cap' <= Z.max input cap).
Proof.
  unfold within, recharge, HPF_CHARGE_FACTOR_DENOMINATOR. change MAX_OUTPUT with 480000000. intros Hi Hc.
  assert (Hn : 0 < numerator h < 1000000) by (destruct h; split; reflexivity).
  set (n := numerator h) in *. clearbody n. set (d := input - cap).
  assert (Hd : - 960000000 <= d <= 960000000) by lia.
  assert (Hp : -960000000000000 <= d * n <= 960000000000000) by nia.
  apply finishes_bind, checked_i64_ok; [unfold i64; lia|].
  assert (Hq : Z.min 0 d <= Z.quot (d * n) 1000000 <= Z.max 0 d).
  { assert (Hdn : Z.min 0 (d * 1000000) <= d * n <= Z.max 0 (d * 1000000)) by nia.
    set (p := d * n) in *. clearbody p. divmod_lia. }
  apply checked_i64_ok; [unfold i64; lia|]. lia.
Qed.

(** What a tick shows: the master output less the charge the capacitor had. *)
Definition connected (m : MasterControlState) (o : OutputPathState) : bool :=
  powered m && existsb (fun value => negb (value =? 0)) (channel_dac_outputs o).
Definition stereo_sub (a b : ApuStereoOutputSnapshot) : ApuStereoOutputSnapshot :=
  mkStereo (left a - left b) (right a - right b).

Lemma resolve_mix_state_frame m c adv o :
  finishes (resolve_mix_state m c adv o)
    (fun bo => fst bo = connected m (snd bo) /\ hpf_capacitor (snd bo) = hpf_capacitor o) \/
  exists why, resolve_mix_state m c adv o = Panic why.
Proof.
  unfold resolve_mix_state, connected. destruct (powered m); simpl negb; cbv iota.
  2: { left. by destruct o. }
  set (o1 := _ <| vin_analog_out := _ |>).
  destruct (mixer_output _ _ _) as [mix|why]; [|right; by exists why]. cbn [mbind outcome_bind].
  destruct (master_output _ _ _) as [out|why] eqn:Hout; [|right; by exists why].
  left. subst o1. destruct o. done.
Qed.

Lemma resolve_mix_state_spec m c adv o :
  master_ok m -> length (digital_outputs c) = 4%nat -> path_ok o ->
  finishes (resolve_mix_state m c adv o)
    (fun bo => path_ok (snd bo) /\ fst bo = connected m (snd bo) /\ hpf_capacitor (snd bo) = hpf_capacitor o).
Proof.
  intros Hm Hc Ho. pose proof (resolve_mix_state_ok m c adv o Hm Hc Ho) as H.
  destruct (resolve_mix_state_frame m c adv o) as [Hf | [why Hw]].
  - by destruct (resolve_mix_state m c adv o).
  - by rewrite Hw in H.
Qed.

Definition tick_shows (m : MasterControlState) (o o' : OutputPathState) : Prop :=
  current_out o' = if connected m o' then stereo_sub (master_out o') (hpf_capacitor o) else stereo_default.

Lemma set_current_ok s o : stereo_within (2 * MAX_OUTPUT) s -> path_ok o -> path_ok (o <| current_out := s |>).
Proof. intros Hs [? ? ? ? ? ? ? ?]. destruct o. by constructor. Qed.
Lemma set_capacitor_ok s o : stereo_within MAX_OUTPUT s -> path_ok o -> path_ok (o <| hpf_capacitor := s |>).
Proof. intros Hs [? ? ? ? ? ? ? ?]. destruct o. by constructor. Qed.
Lemma connected_set_current m s o : connected m (o <| current_out := s |>) = connected m o.
Proof. by destruct o. Qed.

Lemma output_difference o :
  path_ok o ->
  (i64 (left (master_out o) - left (hpf_capacitor o)) /\ i32 (left (master_out o) - left (hpf_capacitor o))) /\
  (i64 (right (master_out o) - right (hpf_capacitor o)) /\ i32 (right (master_out o) - right (hpf_capacitor o))) /\
  stereo_within (2 * MAX_OUTPUT) (stereo_sub (master_out o) (hpf_capacitor o)).
Proof.
  intros Ho. destruct (path_master_range o Ho), (path_capacitor_range o Ho).
  unfold stereo_within, within, i64, i32, stereo_sub in *. change MAX_OUTPUT with 480000000 in *. simpl. lia.
Qed.

Lemma output_tick_ok m c o :
  master_ok m -> length (digital_outputs c) = 4%nat -> path_ok o ->
  finishes (output_tick m c o) (fun o' => path_ok o' /\ tick_shows m o o').
Proof.
  intros Hm Hc Ho. unfold output_tick. apply finishes_bind.
  eapply finishes_mono; [by apply resolve_mix_state_spec|]. intros [b o1] (H1 & Hb & Hcap). simpl in H1, Hb, Hcap.
  unfold tick_shows. destruct b; simpl negb; cbv iota.
  2: { split; [by apply set_current_ok|]. rewrite connected_set_current, <- Hb. by destruct o1. }
  destruct (output_difference o1 H1) as ((Hl64 & Hl32) & (Hr64 & Hr32) & Hw).
  destruct (path_master_range o1 H1) as [Hml Hmr], (path_capacitor_range o1 H1) as [Hcl Hcr].
  pose proof (recharge_between (hpf_charge_model o1) _ _ Hml Hcl) as Hrl.
  pose proof (recharge_between (hpf_charge_model o1) _ _ Hmr Hcr) as Hrr.
  do 2 (apply finishes_bind, checked_i64_ok; [done|]). rewrite !as_i32_id by done.
  change (mkStereo _ _) with (stereo_sub (master_out o1) (hpf_capacitor o1)).
  rewrite <- Hcap. clear o Ho Hcap. destruct H1, o1 as [h d s os v mx ms [capl capr] cu]. simpl in *.
  apply finishes_bind. eapply finishes_mono; [exact Hrl|]. intros cl Hl'.
  apply finishes_bind. eapply finishes_mono; [exact Hrr|]. intros cr Hr'. simpl in *.
  split; [|unfold connected in *; simpl in *; by rewrite <- Hb].
  constructor; simpl; try done.
  unfold stereo_within, within in *. change MAX_OUTPUT with 480000000 in *. simpl. lia.
Qed.

Lemma preview_ok m c o :
  master_ok m -> length (digital_outputs c) = 4%nat -> path_ok o ->
  finishes (preview m c o) (fun o' => path_ok o' /\ tick_shows m o o').
Proof.
  intros Hm Hc Ho. unfold preview. apply finishes_bind.
  eapply finishes_mono; [by apply resolve_mix_state_spec|]. intros [b o1] (H1 & Hb & Hcap). simpl in H1, Hb, Hcap.
  unfold tick_shows. destruct b; simpl negb; cbv iota.
  2: { split; [by apply set_current_ok|]. rewrite connected_set_current, <- Hb. by destruct o1. }
  destruct (output_difference o1 H1) as ((Hl64 & Hl32) & (Hr64 & Hr32) & Hw).
  do 2 (apply finishes_bind, checked_i64_ok; [done|]). rewrite !as_i32_id by done.
  simpl. split; [by apply set_current_ok|]. rewrite connected_set_current, <- Hb, <- Hcap. by destruct o1.
Qed.

(** The front end's own filter has the same bounds. *)
Lemma filter_t_cycle_ok s b h :
  stereo_within MAX_OUTPUT s -> stereo_within MAX_OUTPUT (capacitor h) ->
  finishes (filter_t_cycle s b h)
    (fun r => stereo_within (2 * MAX_OUTPUT) (fst r) /\ stereo_within MAX_OUTPUT (capacitor (snd r))).
Proof.
  intros [Hsl Hsr] [Hcl Hcr]. unfold filter_t_cycle. destruct b; simpl negb; cbv iota.
  2: { split; [by apply stereo_default_within | done]. }
  pose proof (recharge_between (charge_model h) _ _ Hsl Hcl) as Hrl.
  pose proof (recharge_between (charge_model h) _ _ Hsr Hcr) as Hrr.
  unfold within in *. change MAX_OUTPUT with 480000000 in *.
  do 2 (apply finishes_bind, checked_i64_ok; [unfold i64; lia|]). rewrite !as_i32_id by (unfold i32; lia).
  apply finishes_bind. eapply finishes_mono; [exact Hrl|]. intros cl Hl'.
  apply finishes_bind. eapply finishes_mono; [exact Hrr|]. intros cr Hr'.
  destruct h. unfold stereo_within, within. change MAX_OUTPUT with 480000000. simpl in *. lia.
Qed.

(** ** Runs of the path *)

Record output_frame := mkFrame { frame_advances : bool; frame_master : MasterControlState; frame_levels : ChannelOutputState }.

Definition output_frame_ok (f : output_frame) : Prop :=
  master_ok (frame_master f) /\ length (digital_outputs (frame_levels f)) = 4%nat.

Definition output_step (f : output_frame) (o : OutputPathState) : outcome OutputPathState :=
  if frame_advances f then output_tick (frame_master f) (frame_levels f) o
  else preview (frame_master f) (frame_levels f) o.

Fixpoint output_run (frames : list output_frame) (o : OutputPathState) : outcome OutputPathState :=
  match frames with
  | [] => mret o
  | f :: rest => o ← output_step f o; output_run rest o
  end.

Lemma output_run_ok frames o : Forall output_frame_ok frames -> path_ok o -> finishes (output_run frames o) path_ok.
Proof.
  intros Hf. revert o. induction Hf as [|f rest [Hm Hl] _ IH]; intros o Ho; [done|]. simpl.
  apply finishes_bind. unfold output_step.
  eapply finishes_mono; [destruct (frame_advances f); [by apply output_tick_ok | by apply preview_ok]|].
  intros o' [Ho' _]. by apply IH.
Qed.

(** C29. Whatever the registers, the channel levels and the mix of ticks and
    previews, the 32-bit and 64-bit arithmetic of the analog path never
    overflows: every run returns, the DAC outputs stay within
    [ANALOG_ONE], the master output and the filter's charge within
    [APU_INTERNAL_MAX_ABS_OUTPUT_SAMPLE], and the sample within twice that. *)
Theorem output_path_never_overflows (m : ConsoleModel) (frames : list output_frame) :
  Forall output_frame_ok frames ->
  exists o, output_run frames (output_path_new m) = Done o /\
    Forall (within ANALOG_ONE) (channel_dac_outputs o) /\
    stereo_within APU_INTERNAL_MAX_ABS_OUTPUT_SAMPLE (master_out o) /\
    stereo_within APU_INTERNAL_MAX_ABS_OUTPUT_SAMPLE (hpf_capacitor o) /\
    stereo_within (2 * APU_INTERNAL_MAX_ABS_OUTPUT_SAMPLE) (current_out o).
Proof.
  intros Hf. destruct (finishes_done _ _ (output_run_ok frames _ Hf (output_path_new_ok m))) as (o & Ho & Hok).
  exists o. split; [done|]. by destruct Hok.
Qed.

Definition loud : output_frame :=
  mkFrame true (mkMaster true 0x77 0xFF stereo_default) (mkChannelOutput 15 15 [0; 0; 0; 15]).

Lemma output_path_never_overflows_witness :
  Forall output_frame_ok [loud; loud] /\
  exists o, output_run [loud; loud] (output_path_new GameBoy) = Done o /\
    Forall (within ANALOG_ONE) (channel_dac_outputs o) /\
    stereo_within APU_INTERNAL_MAX_ABS_OUTPUT_SAMPLE (master_out o) /\
    stereo_within APU_INTERNAL_MAX_ABS_OUTPUT_SAMPLE (hpf_capacitor o) /\
    stereo_within (2 * APU_INTERNAL_MAX_ABS_OUTPUT_SAMPLE) (current_out o).
Proof.
  assert (Hf : Forall output_frame_ok [loud; loud]).
  { repeat apply Forall_cons_2; [| |apply Forall_nil_2]; (split; [constructor|]; vm_compute; done). }
  split; [exact Hf | exact (output_path_never_overflows GameBoy [loud; loud] Hf)].
Defined.

(** ** Switching a DAC off *)

Definition fade_step (d : DacChannelState) : DacChannelState := snd (dac_tick false 0 DAC_OFF_FADE_T_CYCLES d).
Definition enabled_at (l : Z) (d : DacChannelState) : DacChannelState :=
  snd (set_enabled_output l DAC_OFF_FADE_T_CYCLES d).
Definition fade_length : nat := 210.

#[export] Instance DacChannelState_eq_dec : EqDecision DacChannelState.
Proof. solve_decision. Defined.

(** [n] steps that never get louder and end in silence. *)
Fixpoint fade_check (n : nat) (d : DacChannelState) : bool :=
  match n with
  | O => bool_decide (d = dac_default)
  | S n' => (Z.abs (current_output (fade_step d)) <=? Z.abs (current_output d)) && fade_check n' (fade_step d)
  end.

Lemma fade_check_sound n d :
  fade_check n d = true ->
  (forall k, Z.abs (current_output (iterate (S k) fade_step d)) <= Z.abs (current_output (iterate k fade_step d))) /\
  forall k, (n <= k)%nat -> iterate k fade_step d = dac_default.
Proof.
  assert (Hoff : forall k, iterate k fade_step dac_default = dac_default) by (induction k; done).
  revert d. induction n as [|n IH]; intros d Hd; simpl in Hd.
  - apply bool_decide_eq_true in Hd as ->. split; intros; by rewrite !Hoff.
  - prune. destruct (IH _ H0) as [Hm He]. split.
    + intros [|k]; [done | apply Hm].
    + intros [|k] Hk; [lia|]. apply He. lia.
Qed.

Lemma fade_checks : forallb (fun l => fade_check fade_length (enabled_at l dac_default)) (byte_range 16) = true.
Proof. vm_compute. reflexivity. Qed.

(** A DAC that is switched off fades: from whatever level it was playing,
    each T-cycle is at most as loud as the one before, and after
    [DAC_OFF_FADE_T_CYCLES] it is exactly silent and stays so. *)
Theorem dac_fades_to_silence (l : Z) (d : DacChannelState) :
  0 <= l < 16 ->
  (forall k, Z.abs (current_output (iterate (S k) fade_step (enabled_at l d))) <=
             Z.abs (current_output (iterate k fade_step (enabled_at l d)))) /\
  forall k, DAC_OFF_FADE_T_CYCLES <= Z.of_nat k -> iterate k fade_step (enabled_at l d) = dac_default.
Proof.
  intros Hl. replace (enabled_at l d) with (enabled_at l dac_default) by (by destruct d).
  pose proof (fade_check_sound _ _ (forall_below 16 _ fade_checks l ltac:(lia))) as [Hm He].
  split; [exact Hm|]. intros k Hk. apply He. change DAC_OFF_FADE_T_CYCLES with 210 in Hk. unfold fade_length. lia.
Qed.

Lemma dac_fades_to_silence_witness :
  0 <= 3 < 16 /\ iterate 210 fade_step (enabled_at 3 dac_default) = dac_default.
Proof.
  assert (H : 0 <= 3 < 16) by lia. split; [exact H|].
  apply (proj2 (dac_fades_to_silence 3 dac_default H)). vm_compute. discriminate.
Defined.
