(* ===== verification/Apu.v ===== *)
(** * The APU
    ([crates/gb-core/src/apu.rs], [apu/control.rs], [mmio.rs], [registers.rs])

    The register file with its power switch, the T-cycle step, the frame
    sequencer's clocks, and the taps a front end records from. *)

From Stdlib Require Import ZArith Lia Bool List.
From stdpp Require Import base list decidable.
From S2P Require Import Prelude.
From S2P Require Import Model.
From S2P Require Import Scheduler.
From S2P Require Import Speed.
From S2P Require Import ApuCommon.
From S2P Require Import ApuPulse.
From S2P Require Import ApuSweep.
From S2P Require Import ApuWave.
From S2P Require Import ApuNoise.
From S2P Require Import ApuChannels.
From S2P Require Import ApuOutput.

Import ListNotations.
Local Open Scope Z_scope.

Definition POWER_ON_DIV_APU_SIGNAL_HIGH_PHASE : Z := 7.
Definition WAVE_RAM_START_ADDRESS : Z := 0xFF30.
Definition WAVE_RAM_END_ADDRESS : Z := 0xFF3F.

(** ** Registers *)

Module Registers.

Inductive ApuRegister :=
| Nr10 | Nr11 | Nr12 | Nr13 | Nr14 | UnusedNr15 | Nr21 | Nr22 | Nr23 | Nr24
| Nr30 | Nr31 | Nr32 | Nr33 | Nr34 | UnusedNr1f | Nr41 | Nr42 | Nr43 | Nr44
| Nr50 | Nr51 | Nr52.

Inductive ApuMmioRegister := Register (r : ApuRegister) | WaveRam (index : Z) | Unmapped.

Definition address (r : ApuRegister) : Z :=
  match r with
  | Nr10 => 0xFF10 | Nr11 => 0xFF11 | Nr12 => 0xFF12 | Nr13 => 0xFF13 | Nr14 => 0xFF14
  | UnusedNr15 => 0xFF15
  | Nr21 => 0xFF16 | Nr22 => 0xFF17 | Nr23 => 0xFF18 | Nr24 => 0xFF19
  | Nr30 => 0xFF1A | Nr31 => 0xFF1B | Nr32 => 0xFF1C | Nr33 => 0xFF1D | Nr34 => 0xFF1E
  | UnusedNr1f => 0xFF1F
  | Nr41 => 0xFF20 | Nr42 => 0xFF21 | Nr43 => 0xFF22 | Nr44 => 0xFF23
  | Nr50 => 0xFF24 | Nr51 => 0xFF25 | Nr52 => 0xFF26
  end.

Definition decode (a : Z) : ApuMmioRegister :=
  match a with
  | 0xFF10 => Register Nr10 | 0xFF11 => Register Nr11 | 0xFF12 => Register Nr12
  | 0xFF13 => Register Nr13 | 0xFF14 => Register Nr14 | 0xFF15 => Register UnusedNr15
  | 0xFF16 => Register Nr21 | 0xFF17 => Register Nr22 | 0xFF18 => Register Nr23
  | 0xFF19 => Register Nr24
  | 0xFF1A => Register Nr30 | 0xFF1B => Register Nr31 | 0xFF1C => Register Nr32
  | 0xFF1D => Register Nr33 | 0xFF1E => Register Nr34 | 0xFF1F => Register UnusedNr1f
  | 0xFF20 => Register Nr41 | 0xFF21 => Register Nr42 | 0xFF22 => Register Nr43
  | 0xFF23 => Register Nr44
  | 0xFF24 => Register Nr50 | 0xFF25 => Register Nr51 | 0xFF26 => Register Nr52
  | _ =>
      if (WAVE_RAM_START_ADDRESS <=? a) && (a <=? WAVE_RAM_END_ADDRESS)
      then WaveRam (a - WAVE_RAM_START_ADDRESS) else Unmapped
  end.

Definition should_observe_register_write (r : ApuMmioRegister) : bool :=
  match r with Register _ => true | _ => false end.

End Registers.

Inductive MasterRegister := Nr50 | Nr51 | Nr52.

Inductive ApuRegisterOwner :=
| Channel1 (r : Channel1Register) | Channel2 (r : Channel2Register) | Channel3 (r : Channel3Register)
| Channel4 (r : Channel4Register) | Master (r : MasterRegister) | Unused.

Definition owner (r : Registers.ApuRegister) : ApuRegisterOwner :=
  match r with
  | Registers.Nr10 => Channel1 Nr10
  | Registers.Nr11 => Channel1 Nr11
  | Registers.Nr12 => Channel1 Nr12
  | Registers.Nr13 => Channel1 Nr13
  | Registers.Nr14 => Channel1 Nr14
  | Registers.UnusedNr15 => Unused
  | Registers.Nr21 => Channel2 Nr21
  | Registers.Nr22 => Channel2 Nr22
  | Registers.Nr23 => Channel2 Nr23
  | Registers.Nr24 => Channel2 Nr24
  | Registers.Nr30 => Channel3 Nr30
  | Registers.Nr31 => Channel3 Nr31
  | Registers.Nr32 => Channel3 Nr32
  | Registers.Nr33 => Channel3 Nr33
  | Registers.Nr34 => Channel3 Nr34
  | Registers.UnusedNr1f => Unused
  | Registers.Nr41 => Channel4 Nr41
  | Registers.Nr42 => Channel4 Nr42
  | Registers.Nr43 => Channel4 Nr43
  | Registers.Nr44 => Channel4 Nr44
  | Registers.Nr50 => Master Nr50
  | Registers.Nr51 => Master Nr51
  | Registers.Nr52 => Master Nr52
  end.

(** ** State *)

Record ApuRegisterWriteState := mkWriteState {
  ws_powered : bool;
  ws_nr50 : Z;
  ws_nr51 : Z;
  ws_nr52 : Z;
  ws_channel_active_mask : Z;
  ws_channel_dac_mask : Z;
  ws_output : ApuOutputSnapshot
}.

#[export] Instance upd_ws_powered : Update ws_powered := fun v s =>
  let '(mkWriteState _ x2 x3 x4 x5 x6 x7) := s in mkWriteState v x2 x3 x4 x5 x6 x7.
#[export] Instance upd_ws_nr50 : Update ws_nr50 := fun v s =>
  let '(mkWriteState x1 _ x3 x4 x5 x6 x7) := s in mkWriteState x1 v x3 x4 x5 x6 x7.
#[export] Instance upd_ws_nr51 : Update ws_nr51 := fun v s =>
  let '(mkWriteState x1 x2 _ x4 x5 x6 x7) := s in mkWriteState x1 x2 v x4 x5 x6 x7.
#[export] Instance upd_ws_nr52 : Update ws_nr52 := fun v s =>
  let '(mkWriteState x1 x2 x3 _ x5 x6 x7) := s in mkWriteState x1 x2 x3 v x5 x6 x7.
#[export] Instance upd_ws_channel_active_mask : Update ws_channel_active_mask := fun v s =>
  let '(mkWriteState x1 x2 x3 x4 _ x6 x7) := s in mkWriteState x1 x2 x3 x4 v x6 x7.
#[export] Instance upd_ws_channel_dac_mask : Update ws_channel_dac_mask := fun v s =>
  let '(mkWriteState x1 x2 x3 x4 x5 _ x7) := s in mkWriteState x1 x2 x3 x4 x5 v x7.
#[export] Instance upd_ws_output : Update ws_output := fun v s =>
  let '(mkWriteState x1 x2 x3 x4 x5 x6 _) := s in mkWriteState x1 x2 x3 x4 x5 x6 v.

Record ApuRegisterWriteObservation := mkObservation {
  obs_address : Z;
  obs_value : Z;
  obs_before : ApuRegisterWriteState;
  obs_after : ApuRegisterWriteState
}.

#[export] Instance upd_obs_address : Update obs_address := fun v s =>
  let '(mkObservation _ x2 x3 x4) := s in mkObservation v x2 x3 x4.
#[export] Instance upd_obs_value : Update obs_value := fun v s =>
  let '(mkObservation x1 _ x3 x4) := s in mkObservation x1 v x3 x4.
#[export] Instance upd_obs_before : Update obs_before := fun v s =>
  let '(mkObservation x1 x2 _ x4) := s in mkObservation x1 x2 v x4.
#[export] Instance upd_obs_after : Update obs_after := fun v s =>
  let '(mkObservation x1 x2 x3 _) := s in mkObservation x1 x2 x3 v.

Record Apu := mkApu {
  apu_console_model : ConsoleModel;
  apu_revision : HardwareRevision;
  master : MasterControlState;
  frame_sequencer : FrameSequencerState;
  output_path : OutputPathState;
  channels : ApuChannels;
  last_register_write : option ApuRegisterWriteObservation;
  wave_ram_startup_policy : WaveRamStartupPolicy;
  startup_silent_channel_mask : Z;
  apu_clock : Z;
  t_cycle_phase : Z;
  skip_next_frame_sequencer_edge : bool
}.

#[export] Instance upd_apu_console_model : Update apu_console_model := fun v s =>
  let '(mkApu _ x2 x3 x4 x5 x6 x7 x8 x9 x10 x11 x12) := s in mkApu v x2 x3 x4 x5 x6 x7 x8 x9 x10 x11 x12.
#[export] Instance upd_apu_revision : Update apu_revision := fun v s =>
  let '(mkApu x1 _ x3 x4 x5 x6 x7 x8 x9 x10 x11 x12) := s in mkApu x1 v x3 x4 x5 x6 x7 x8 x9 x10 x11 x12.
#[export] Instance upd_master : Update master := fun v s =>
  let '(mkApu x1 x2 _ x4 x5 x6 x7 x8 x9 x10 x11 x12) := s in mkApu x1 x2 v x4 x5 x6 x7 x8 x9 x10 x11 x12.
#[export] Instance upd_frame_sequencer : Update frame_sequencer := fun v s =>
  let '(mkApu x1 x2 x3 _ x5 x6 x7 x8 x9 x10 x11 x12) := s in mkApu x1 x2 x3 v x5 x6 x7 x8 x9 x10 x11 x12.
#[export] Instance upd_output_path : Update output_path := fun v s =>
  let '(mkApu x1 x2 x3 x4 _ x6 x7 x8 x9 x10 x11 x12) := s in mkApu x1 x2 x3 x4 v x6 x7 x8 x9 x10 x11 x12.
#[export] Instance upd_channels : Update channels := fun v s =>
  let '(mkApu x1 x2 x3 x4 x5 _ x7 x8 x9 x10 x11 x12) := s in mkApu x1 x2 x3 x4 x5 v x7 x8 x9 x10 x11 x12.
#[export] Instance upd_last_register_write : Update last_register_write := fun v s =>
  let '(mkApu x1 x2 x3 x4 x5 x6 _ x8 x9 x10 x11 x12) := s in mkApu x1 x2 x3 x4 x5 x6 v x8 x9 x10 x11 x12.
#[export] Instance upd_wave_ram_startup_policy : Update wave_ram_startup_policy := fun v s =>
  let '(mkApu x1 x2 x3 x4 x5 x6 x7 _ x9 x10 x11 x12) := s in mkApu x1 x2 x3 x4 x5 x6 x7 v x9 x10 x11 x12.
#[export] Instance upd_startup_silent_channel_mask : Update startup_silent_channel_mask := fun v s =>
  let '(mkApu x1 x2 x3 x4 x5 x6 x7 x8 _ x10 x11 x12) := s in mkApu x1 x2 x3 x4 x5 x6 x7 x8 v x10 x11 x12.
#[export] Instance upd_apu_clock : Update apu_clock := fun v s =>
  let '(mkApu x1 x2 x3 x4 x5 x6 x7 x8 x9 _ x11 x12) := s in mkApu x1 x2 x3 x4 x5 x6 x7 x8 x9 v x11 x12.
#[export] Instance upd_t_cycle_phase : Update t_cycle_phase := fun v s =>
  let '(mkApu x1 x2 x3 x4 x5 x6 x7 x8 x9 x10 _ x12) := s in mkApu x1 x2 x3 x4 x5 x6 x7 x8 x9 x10 v x12.
#[export] Instance upd_skip_next_frame_sequencer_edge : Update skip_next_frame_sequencer_edge := fun v s =>
  let '(mkApu x1 x2 x3 x4 x5 x6 x7 x8 x9 x10 x11 _) := s in mkApu x1 x2 x3 x4 x5 x6 x7 x8 x9 x10 x11 v.

Definition apu_new_with_revision (m : ConsoleModel) (r : HardwareRevision) : Apu :=
  mkApu m r master_default frame_sequencer_default (output_path_new m) channels_default None
    DeterministicZeroed 0 0 0 false.
Definition apu_new (m : ConsoleModel) : Apu := apu_new_with_revision m (default_revision m).

(** ** Outputs *)

(** The loop over the channels that started silent. *)
Definition silence (mask : Z) (o : ChannelOutputState) : ChannelOutputState :=
  o <| digital_outputs :=
         map (fun '(channel_mask, level) => if has_bits mask channel_mask then 0 else level)
           (combine CHANNEL_MASKS (digital_outputs o)) |>
    <| dac_mask := fold_left (fun d channel_mask =>
                     if has_bits mask channel_mask then Z.land d (not8 channel_mask) else d)
                     CHANNEL_MASKS (dac_mask o) |>.

Definition channel_output_state (a : Apu) : outcome ChannelOutputState :=
  o ← output_state (channels a);
  let mask := Z.land (startup_silent_channel_mask a) CHANNEL_ACTIVE_MASK in
  mret (if negb (mask =? 0) then silence mask o else o).

(** The elements of [digital_outputs]. *)
Definition level (o : ChannelOutputState) (i : nat) : Z := nth i (digital_outputs o) 0.

Definition read_pcm12 (a : Apu) : outcome Z :=
  o ← channel_output_state a;
  mret (Z.lor (shl8 (level o 1) 4) (level o 0)).
Definition read_pcm34 (a : Apu) : outcome Z :=
  o ← channel_output_state a;
  mret (Z.lor (shl8 (level o 3) 4) (level o 2)).

Definition preview_output_path (a : Apu) : outcome Apu :=
  o ← channel_output_state a;
  p ← preview (master a) o (output_path a);
  mret (a <| output_path := p |>).

Definition tick_output_path (a : Apu) : outcome Apu :=
  o ← channel_output_state a;
  p ← output_tick (master a) o (output_path a);
  mret (a <| output_path := p |>).

Definition host_output_sample (a : Apu) : ApuStereoOutputSnapshot := current_out (output_path a).

(** ** Time *)

Definition on_channels (f : ApuChannels -> ApuChannels) (a : Apu) : Apu := a <| channels := f (channels a) |>.

Definition advance_frame_sequencer (a : Apu) : outcome Apu :=
  if skip_next_frame_sequencer_edge a then
    preview_output_path (a <| skip_next_frame_sequencer_edge := false |>)
  else
    let '(clocks, f) := frame_sequencer_advance (frame_sequencer a) in
    let a := a <| frame_sequencer := f |> in
    if negb (powered (master a)) then preview_output_path a
    else
      let a := if clocks_length clocks then on_channels clock_length_all a else a in
      let a := if clocks_sweep clocks then on_channels (clock_sweep_ch1 (apu_console_model a)) a else a in
      let a := if negb (clocks_length clocks) && is_cgb_family (apu_console_model a)
               then on_channels clock_cgb_live_write_pending_even_envelope_all a else a in
      let a := if clocks_envelope clocks then on_channels clock_envelope_all a else a in
      preview_output_path a.

(** The loop over the derived edges of the cycle. *)
Fixpoint advance_on_edges (edges : list DerivedEdge) (a : Apu) : outcome Apu :=
  match edges with
  | [] => mret a
  | e :: rest =>
      a ← (match e with ApuFrameSequencerEdge => advance_frame_sequencer a | _ => mret a end);
      advance_on_edges rest a
  end.

(** The part before the edges: wave access window, channel timers, phase. *)
Definition tick_timers (clock_generation_timers : bool) (a : Apu) : outcome Apu :=
  let a := a <| last_register_write := None |> in
  let a := on_channels channels_begin_t_cycle a in
  let phase := t_cycle_phase a in
  a ← (if powered (master a) then
         let a := if (Z.land phase 0x01 =? 0) && clock_generation_timers
                  then a <| apu_clock := Z.land (apu_clock a + 1) 0x03 |> else a in
         c ← tick_fast_timers (apu_console_model a) clock_generation_timers (apu_clock a) phase (channels a);
         mret (a <| channels := c |>)
       else if clock_generation_timers then mret (on_channels tick_powered_off_timebase a)
       else mret a);
  mret (if clock_generation_timers then a <| t_cycle_phase := Z.land (phase + 1) 0x03 |> else a).

Definition apu_tick_t_cycle_for_speed (context : CycleContext) (speed_mode : CgbSpeedMode) (a : Apu) : outcome Apu :=
  a ← tick_timers (apu_tick_due_at_scheduler_t_cycle speed_mode (t_cycle context)) a;
  a ← advance_on_edges (as_slice (derived_edges context)) a;
  tick_output_path a.

Definition on_div_apu_edge (a : Apu) : outcome Apu := advance_frame_sequencer a.

(** ** Power and startup *)

Definition apu_apply_startup_state (s : ApuStartupState) (a : Apu) : outcome Apu :=
  let a := a <| last_register_write := None |>
             <| wave_ram_startup_policy := su_wave_ram_startup_policy s |>
             <| startup_silent_channel_mask :=
                  if su_powered s then Z.land (su_startup_silent_channel_mask s) CHANNEL_ACTIVE_MASK else 0 |>
             <| output_path := output_path_new (apu_console_model a) |> in
  let a := a <| master := if su_powered s
                  then (master a) <| powered := true |> <| nr50 := su_nr50 s |> <| nr51 := su_nr51 s |>
                  else (master a) <| powered := false |> <| nr50 := 0 |> <| nr51 := 0 |> |> in
  let a := on_channels (channels_apply_startup (apu_console_model a) s) a in
  let a := a <| frame_sequencer := apply_startup_phase (su_div_apu s) (frame_sequencer a) |>
             <| apu_clock := 0 |> <| t_cycle_phase := 0 |> <| skip_next_frame_sequencer_edge := false |> in
  preview_output_path a.

Definition apply_div_apu_startup_phase_from_system_counter (system_counter : Z) (a : Apu) : outcome Apu :=
  preview_output_path
    (a <| frame_sequencer :=
       apply_startup_phase (div_apu_phase_from_system_counter system_counter) (frame_sequencer a) |>).

Definition power_off (a : Apu) : Apu :=
  let a := a <| startup_silent_channel_mask := 0 |>
             <| master := (master a) <| powered := false |> <| nr50 := 0 |> <| nr51 := 0 |> |> in
  on_channels (power_off_registers (apu_console_model a)) a.

Definition write_nr52 (value : Z) (div_apu_signal_high : bool) (a : Apu) : Apu :=
  match powered (master a), has_bits value NR52_MASTER_POWER_BIT with
  | true, false => power_off a
  | false, true =>
      let a := a <| startup_silent_channel_mask := 0 |>
                 <| master := (master a) <| powered := true |> |> in
      let cgb := is_cgb_family (apu_console_model a) in
      let a := a <| frame_sequencer := apply_startup_phase
                      (if div_apu_signal_high && cgb then POWER_ON_DIV_APU_SIGNAL_HIGH_PHASE else 0)
                      (frame_sequencer a) |>
                 <| skip_next_frame_sequencer_edge := div_apu_signal_high && negb cgb |> in
      let a := on_channels channels_mark_powered_on a in
      a <| apu_clock := 0 |> <| t_cycle_phase := 0 |>
  | _, _ => a
  end.

Definition read_nr52_from_channel_output (o : ChannelOutputState) (a : Apu) : Z :=
  Z.lor (Z.lor NR52_FORCED_HIGH_MASK (if powered (master a) then NR52_MASTER_POWER_BIT else 0)) (active_mask o).
Definition read_nr52 (a : Apu) : outcome Z :=
  o ← channel_output_state a;
  mret (read_nr52_from_channel_output o a).

Definition clear_startup_silent_channel_mask (channel_mask : Z) (a : Apu) : Apu :=
  a <| startup_silent_channel_mask := Z.land (startup_silent_channel_mask a) (not8 channel_mask) |>.

Definition register_write_state (a : Apu) : outcome ApuRegisterWriteState :=
  o ← channel_output_state a;
  mret (mkWriteState (powered (master a)) (nr50 (master a)) (nr51 (master a))
          (read_nr52_from_channel_output o a) (active_mask o) (dac_mask o)
          (output_snapshot (output_path a) (digital_outputs o))).

Definition record_register_write_observation (address value : Z) (before : ApuRegisterWriteState) (a : Apu)
    : outcome Apu :=
  after ← register_write_state a;
  mret (a <| last_register_write := Some (mkObservation address value before after) |>).

(** ** Register reads *)

Definition read_master_register (r : MasterRegister) (a : Apu) : outcome Z :=
  match r with
  | Nr50 => mret (nr50 (master a))
  | Nr51 => mret (nr51 (master a))
  | Nr52 => read_nr52 a
  end.

Definition read_apu_register (r : Registers.ApuRegister) (a : Apu) : outcome Z :=
  match owner r with
  | Channel1 r => mret (ch1_read_register r (channel_1 (channels a)))
  | Channel2 r => mret (ch2_read_register r (channel_2 (channels a)))
  | Channel3 r => mret (ch3_read_register r (channel_3 (channels a)))
  | Channel4 r => mret (ch4_read_register r (channel_4 (channels a)))
  | Master r => read_master_register r a
  | Unused => mret APU_UNMAPPED_READ_VALUE
  end.

Definition apu_read_register (address : Z) (a : Apu) : outcome Z :=
  match Registers.decode address with
  | Registers.Register r => read_apu_register r a
  | Registers.WaveRam index => read_wave_ram (apu_console_model a) index (channel_3 (channels a))
  | Registers.Unmapped => mret APU_UNMAPPED_READ_VALUE
  end.

(** ** Register writes *)

Definition effective_frame_sequencer_step (a : Apu) : Z :=
  if skip_next_frame_sequencer_edge a then 1 else fs_step (frame_sequencer a).

Definition write_channel_1_register (r : Channel1Register) (value : Z) (speed_mode : CgbSpeedMode) (a : Apu) : Apu :=
  on_channels (fun c => c <| channel_1 :=
    if powered (master a)
    then ch1_write_register r value (apu_console_model a) (apu_revision a) speed_mode
           (effective_frame_sequencer_step a) (channel_1 c)
    else ch1_write_powered_off_register r value (apu_console_model a) (channel_1 c) |>) a.

Definition write_channel_2_register (r : Channel2Register) (value : Z) (speed_mode : CgbSpeedMode) (a : Apu) : Apu :=
  on_channels (fun c => c <| channel_2 :=
    if powered (master a)
    then ch2_write_register r value (apu_console_model a) speed_mode
           (effective_frame_sequencer_step a) (channel_2 c)
    else ch2_write_powered_off_register r value (apu_console_model a) (channel_2 c) |>) a.

Definition write_channel_3_register (r : Channel3Register) (value : Z) (a : Apu) : outcome Apu :=
  c3 ← (if powered (master a)
        then ch3_write_register r value (apu_console_model a) (effective_frame_sequencer_step a)
               (channel_3 (channels a))
        else mret (ch3_write_powered_off_register r value (apu_console_model a) (channel_3 (channels a))));
  mret (on_channels (fun c => c <| channel_3 := c3 |>) a).

Definition write_channel_4_register (r : Channel4Register) (value : Z) (a : Apu) : Apu :=
  on_channels (fun c => c <| channel_4 :=
    if powered (master a)
    then ch4_write_register r value (apu_console_model a) (effective_frame_sequencer_step a) (channel_4 c)
    else ch4_write_powered_off_register r value (apu_console_model a) (channel_4 c) |>) a.

Definition write_master_register (r : MasterRegister) (value : Z) (div_apu_signal_high : bool) (a : Apu) : Apu :=
  match r with
  | Nr50 => if powered (master a) then a <| master := (master a) <| nr50 := value |> |> else a
  | Nr51 => if powered (master a) then a <| master := (master a) <| nr51 := value |> |> else a
  | Nr52 => write_nr52 value div_apu_signal_high a
  end.

Definition unsilence_on_trigger (is_control : bool) (value channel_mask : Z) (a : Apu) : Apu :=
  if is_control && has_bits value CHANNEL_TRIGGER_BIT
  then clear_startup_silent_channel_mask channel_mask a else a.

Definition write_apu_register (r : Registers.ApuRegister) (value : Z) (speed_mode : CgbSpeedMode)
    (div_apu_signal_high : bool) (a : Apu) : outcome Apu :=
  match owner r with
  | Channel1 r =>
      mret (unsilence_on_trigger (match r with Nr14 => true | _ => false end) value CHANNEL_ACTIVE_CH1
              (write_channel_1_register r value speed_mode a))
  | Channel2 r =>
      mret (unsilence_on_trigger (match r with Nr24 => true | _ => false end) value CHANNEL_ACTIVE_CH2
              (write_channel_2_register r value speed_mode a))
  | Channel3 r =>
      a ← write_channel_3_register r value a;
      mret (unsilence_on_trigger (match r with Nr34 => true | _ => false end) value CHANNEL_ACTIVE_CH3 a)
  | Channel4 r =>
      mret (unsilence_on_trigger (match r with Nr44 => true | _ => false end) value CHANNEL_ACTIVE_CH4
              (write_channel_4_register r value a))
  | Master r => mret (write_master_register r value div_apu_signal_high a)
  | Unused => mret a
  end.

Definition write_register_for_speed_with_div_apu_signal (address value : Z) (speed_mode : CgbSpeedMode)
    (div_apu_signal_high : bool) (a : Apu) : outcome Apu :=
  let a := a <| last_register_write := None |> in
  match Registers.decode address with
  | Registers.WaveRam index =>
      c3 ← write_wave_ram (apu_console_model a) index value (channel_3 (channels a));
      preview_output_path (on_channels (fun c => c <| channel_3 := c3 |>) a)
  | Registers.Register r =>
      before ← register_write_state a;
      a ← write_apu_register r value speed_mode div_apu_signal_high a;
      a ← preview_output_path a;
      record_register_write_observation address value before a
  | Registers.Unmapped => preview_output_path a
  end.

Definition write_register_for_speed (address value : Z) (speed_mode : CgbSpeedMode) (a : Apu) : outcome Apu :=
  write_register_for_speed_with_div_apu_signal address value speed_mode false a.
Definition apu_write_register (address value : Z) (a : Apu) : outcome Apu :=
  write_register_for_speed address value Normal a.

(** ** Recording taps *)

Inductive ApuRecordedChannel := Ch1 | Ch2 | Ch3 | Ch4.

Definition all_recorded_channels : list ApuRecordedChannel := [Ch1; Ch2; Ch3; Ch4].
Definition recorded_index (c : ApuRecordedChannel) : nat :=
  match c with Ch1 => 0 | Ch2 => 1 | Ch3 => 2 | Ch4 => 3 end.
Definition channel_mask_bit (c : ApuRecordedChannel) : Z := Z.shiftl 1 (Z.of_nat (recorded_index c)).

(** A mask is its bits. *)
Definition mask_is_empty (bits : Z) : bool := bits =? 0.
Definition mask_is_all (bits : Z) : bool := bits =? 0x0F.
Definition mask_contains (bits : Z) (c : ApuRecordedChannel) : bool := has_bits bits (channel_mask_bit c).
Definition mask_with_channel (bits : Z) (c : ApuRecordedChannel) (enabled : bool) : Z :=
  if enabled then Z.lor bits (channel_mask_bit c) else Z.land bits (not8 (channel_mask_bit c)).
Definition mask_toggled (bits : Z) (c : ApuRecordedChannel) : Z := Z.lxor bits (channel_mask_bit c).

Definition routed_recorded_channel_output (r51 route_bit channel_dac_output factor : Z) : outcome Z :=
  if (channel_dac_output =? 0) || negb (has_bits r51 route_bit) then mret 0
  else checked_i32 (channel_dac_output * factor).

Definition recorded_channel_sample_pre_hpf (a : Apu) (c : ApuRecordedChannel) : outcome ApuStereoOutputSnapshot :=
  let i := recorded_index c in
  let out := nth i (channel_dac_outputs (output_path a)) 0 in
  l ← routed_recorded_channel_output (nr51 (master a)) (nth i NR51_LEFT_ROUTE_BITS 0) out
        (nr50_left_volume_factor (nr50 (master a)));
  r ← routed_recorded_channel_output (nr51 (master a)) (nth i NR51_RIGHT_ROUTE_BITS 0) out
        (nr50_right_volume_factor (nr50 (master a)));
  mret (mkStereo l r).

Definition sample_connected (s : ApuStereoOutputSnapshot) : bool := negb (left s =? 0) || negb (right s =? 0).

(** The loop over the channels of the mask: the running mix and its connection. *)
Fixpoint recorded_mix_from (a : Apu) (bits : Z) (cs : list ApuRecordedChannel)
    (mixed : ApuStereoOutputSnapshot) (connected : bool) : outcome (ApuStereoOutputSnapshot * bool) :=
  match cs with
  | [] => mret (mixed, connected)
  | c :: rest =>
      if negb (mask_contains bits c) then recorded_mix_from a bits rest mixed connected
      else
        s ← recorded_channel_sample_pre_hpf a c;
        l ← checked_i32 (left mixed + left s);
        r ← checked_i32 (right mixed + right s);
        recorded_mix_from a bits rest (mkStereo l r) (connected || sample_connected s)
  end.

Definition recorded_channel_mix_tap_pre_hpf (a : Apu) (bits : Z) : outcome (ApuStereoOutputSnapshot * bool) :=
  if mask_is_empty bits then mret (stereo_default, false)
  else if mask_is_all bits then
    mret (master_out (output_path a),
          existsb (fun value => negb (value =? 0)) (channel_dac_outputs (output_path a)))
  else recorded_mix_from a bits all_recorded_channels stereo_default false.

(** ** Invariant *)

Record apu_ok (a : Apu) : Prop := {
  apu_master_ok : master_ok (master a);
  apu_frame_ok : frame_ok (frame_sequencer a);
  apu_path_ok : path_ok (output_path a);
  apu_channels_ok : channels_ok (channels a);
  apu_silent_range : 0 <= startup_silent_channel_mask a <= 15;
  apu_clock_range : 0 <= apu_clock a < 4;
  t_cycle_phase_range : 0 <= t_cycle_phase a < 4
}.

#[export] Hint Extern 3 (apu_ok (_ _ _)) => upd_hint apu_ok : apu.
#[global] Arguments output_path_new : simpl never.
#[global] Arguments channels_apply_startup : simpl never.
#[global] Arguments channels_begin_t_cycle : simpl never.
#[global] Arguments channels_mark_powered_on : simpl never.
#[global] Arguments power_off_registers : simpl never.
#[global] Arguments clock_length_all : simpl never.
#[global] Arguments clock_envelope_all : simpl never.
#[global] Arguments clock_cgb_live_write_pending_even_envelope_all : simpl never.
#[global] Arguments clock_sweep_ch1 : simpl never.
#[global] Arguments tick_powered_off_timebase : simpl never.
#[global] Arguments apply_startup_phase : simpl never.
#[global] Arguments ch1_write_register : simpl never.
#[global] Arguments ch2_write_register : simpl never.
#[global] Arguments ch4_write_register : simpl never.
#[global] Arguments ch1_write_powered_off_register : simpl never.
#[global] Arguments ch2_write_powered_off_register : simpl never.
#[global] Arguments ch3_write_powered_off_register : simpl never.
#[global] Arguments ch4_write_powered_off_register : simpl never.

Lemma master_default_ok : master_ok master_default.
Proof. constructor; simpl; auto with gb. Qed.
#[export] Hint Resolve master_default_ok output_path_new_ok : apu.

Lemma apu_new_ok m r : apu_ok (apu_new_with_revision m r).
Proof. constructor; simpl; auto with apu; lia. Qed.

Lemma set_channels_ok c a : channels_ok c -> apu_ok a -> apu_ok (a <| channels := c |>).
Proof. intros Hc Ha. upd_ok apu_ok. Qed.
Lemma on_channels_ok f a :
  (channels_ok (channels a) -> channels_ok (f (channels a))) -> apu_ok a -> apu_ok (on_channels f a).
Proof. intros Hf Ha. apply set_channels_ok; [apply Hf, Ha | done]. Qed.
#[export] Hint Extern 3 (apu_ok (on_channels _ _)) =>
  apply on_channels_ok; [intros ?; auto with apu | upd_ok apu_ok] : apu.

(** Silencing only lowers levels and masks. *)
Lemma silence_ok k o : levels_ok o -> levels_ok (silence k o).
Proof.
  intros [Ha Hd Hl Hr]. destruct o as [a d l]. simpl in *.
  destruct l as [|l1 [|l2 [|l3 [|l4 [|]]]]]; try done.
  repeat (apply Forall_cons_1 in Hr as [? Hr]).
  constructor; simpl; try done.
  - assert (Hm : forall x c, 0 <= x <= 15 -> 0 <= Z.land x c <= 15).
    { intros x c Hx. pose proof (range_land 4 x c ltac:(lia) ltac:(lia)). lia. }
    repeat case_match; repeat apply Hm; done.
  - repeat apply Forall_cons_2; auto using Forall_nil_2; case_match; lia.
Qed.

Lemma channel_output_state_ok a : apu_ok a -> finishes (channel_output_state a) levels_ok.
Proof.
  intros Ha. unfold channel_output_state. apply finishes_bind.
  eapply finishes_mono; [apply output_state_ok, Ha|]. intros o Ho. simpl. case_match; auto using silence_ok.
Qed.

Lemma set_output_path_ok p a : path_ok p -> apu_ok a -> apu_ok (a <| output_path := p |>).
Proof. intros Hp Ha. upd_ok apu_ok. Qed.

Lemma preview_output_path_ok a : apu_ok a -> finishes (preview_output_path a) apu_ok.
Proof.
  intros Ha. unfold preview_output_path. apply finishes_bind.
  eapply finishes_mono; [by apply channel_output_state_ok|]. intros o Ho. apply finishes_bind.
  eapply finishes_mono; [apply preview_ok; [apply Ha | apply Ho | apply Ha]|]. intros p [Hp _].
  by apply set_output_path_ok.
Qed.

Lemma tick_output_path_ok a : apu_ok a -> finishes (tick_output_path a) apu_ok.
Proof.
  intros Ha. unfold tick_output_path. apply finishes_bind.
  eapply finishes_mono; [by apply channel_output_state_ok|]. intros o Ho. apply finishes_bind.
  eapply finishes_mono; [apply output_tick_ok; [apply Ha | apply Ho | apply Ha]|]. intros p [Hp _].
  by apply set_output_path_ok.
Qed.

(** *** Time *)

Lemma clock_channels_ok clocks a :
  apu_ok a ->
  apu_ok (let a := if clocks_length clocks then on_channels clock_length_all a else a in
          let a := if clocks_sweep clocks then on_channels (clock_sweep_ch1 (apu_console_model a)) a else a in
          let a := if negb (clocks_length clocks) && is_cgb_family (apu_console_model a)
                   then on_channels clock_cgb_live_write_pending_even_envelope_all a else a in
          if clocks_envelope clocks then on_channels clock_envelope_all a else a).
Proof. intros Ha. upd_ok apu_ok. Qed.

Lemma advance_frame_sequencer_ok a : apu_ok a -> finishes (advance_frame_sequencer a) apu_ok.
Proof.
  intros Ha. unfold advance_frame_sequencer. destruct (skip_next_frame_sequencer_edge a).
  { apply preview_output_path_ok. upd_ok apu_ok. }
  pose proof (frame_advance_ok (frame_sequencer a)) as Hf.
  destruct (frame_sequencer_advance _) as [clocks f]. simpl in Hf.
  assert (H1 : apu_ok (a <| frame_sequencer := f |>)) by upd_ok apu_ok.
  forget (a <| frame_sequencer := f |>).
  destruct (negb _); apply preview_output_path_ok; [done | by apply clock_channels_ok].
Qed.

Lemma advance_on_edges_ok edges a : apu_ok a -> finishes (advance_on_edges edges a) apu_ok.
Proof.
  revert a. induction edges as [|e rest IH]; intros a Ha; [done|]. simpl. apply finishes_bind.
  eapply finishes_mono; [|intros a'; apply IH].
  destruct e; [done | done | by apply advance_frame_sequencer_ok].
Qed.

Lemma begin_tick_ok a :
  apu_ok a -> apu_ok (on_channels channels_begin_t_cycle (a <| last_register_write := None |>)).
Proof. intros Ha. auto with apu. Qed.
Lemma set_phase_ok p a : apu_ok a -> apu_ok (a <| t_cycle_phase := Z.land p 0x03 |>).
Proof. intros Ha. upd_ok apu_ok. Qed.
Lemma set_clock_ok p a : apu_ok a -> apu_ok (a <| apu_clock := Z.land p 0x03 |>).
Proof. intros Ha. upd_ok apu_ok. Qed.

Lemma tick_timers_ok g a : apu_ok a -> finishes (tick_timers g a) apu_ok.
Proof.
  intros Ha. unfold tick_timers. pose proof (begin_tick_ok a Ha) as H1.
  forget (on_channels channels_begin_t_cycle (a <| last_register_write := None |>)).
  apply finishes_bind.
  eapply finishes_mono with (Q := apu_ok).
  2: { intros a' Ha'. simpl. destruct g; [by apply set_phase_ok | done]. }
  destruct (powered (master st)).
  - match goal with |- finishes (c ← tick_fast_timers (apu_console_model ?x) _ _ _ _; _) _ =>
      assert (H2 : apu_ok x) by (case_match; auto using set_clock_ok); forget x end.
    apply finishes_bind. eapply finishes_mono; [apply tick_fast_timers_ok, H2|]. intros c Hc.
    by apply set_channels_ok.
  - destruct g; simpl; auto with apu.
Qed.

Lemma apu_tick_ok context s a : apu_ok a -> finishes (apu_tick_t_cycle_for_speed context s a) apu_ok.
Proof.
  intros Ha. unfold apu_tick_t_cycle_for_speed.
  apply finishes_bind. eapply finishes_mono; [by apply tick_timers_ok|]. intros a1 H1.
  apply finishes_bind. eapply finishes_mono; [by apply advance_on_edges_ok|]. intros a2 H2.
  by apply tick_output_path_ok.
Qed.

(** *** Power and startup *)

Lemma set_powered_ok b x y v a :
  u8 x -> u8 y -> v = stereo_default -> apu_ok a -> apu_ok (a <| master := mkMaster b x y v |>).
Proof.
  intros Hx Hy Hv Ha. assert (master_ok (mkMaster b x y v)) by (constructor; done). upd_ok apu_ok.
Qed.

Lemma apply_startup_state_ok s a : startup_ok s -> apu_ok a -> finishes (apu_apply_startup_state s a) apu_ok.
Proof.
  intros Hs Ha. unfold apu_apply_startup_state. apply preview_output_path_ok.
  assert (Hm : master_ok (if su_powered s
                 then (master a) <| powered := true |> <| nr50 := su_nr50 s |> <| nr51 := su_nr51 s |>
                 else (master a) <| powered := false |> <| nr50 := 0 |> <| nr51 := 0 |>)).
  { destruct Hs as [Hs]. repeat (apply Forall_cons_1 in Hs as [? Hs]).
    destruct (apu_master_ok a Ha), (master a). destruct (su_powered s); constructor; simpl in *; auto with gb. }
  assert (Hsil : 0 <= (if su_powered s then Z.land (su_startup_silent_channel_mask s) CHANNEL_ACTIVE_MASK else 0) <= 15).
  { destruct (su_powered s); [apply land_bound; done | lia]. }
  assert (Hc : channels_ok (channels_apply_startup (apu_console_model a) s (channels a)))
    by (apply channels_apply_startup_ok; [done | apply Ha]).
  destruct Ha, a. constructor; simpl in *; auto with apu; lia.
Qed.

Lemma apply_div_startup_ok n a :
  apu_ok a -> finishes (apply_div_apu_startup_phase_from_system_counter n a) apu_ok.
Proof.
  intros Ha. apply preview_output_path_ok. destruct Ha, a. constructor; simpl in *; auto with apu.
Qed.

Lemma power_off_ok a : apu_ok a -> apu_ok (power_off a).
Proof.
  intros [[? ? ?] ? ? ? ? ? ?]. unfold power_off. apply on_channels_ok; [by apply power_off_registers_ok|].
  destruct a as [m r [p x y v] f o c l w s k t sk]. constructor; simpl in *; (done || lia).
Qed.

Lemma write_nr52_ok v h a : apu_ok a -> apu_ok (write_nr52 v h a).
Proof.
  intros Ha. unfold write_nr52. destruct (powered (master a)) eqn:Hp, (has_bits v NR52_MASTER_POWER_BIT); try done;
    [by apply power_off_ok|].
  destruct Ha as [[? ? ?] ? ? Hc ? ? ?], a as [m r [p x y vin] f o c l w s k t sk].
  constructor; simpl in *; (done || auto with apu || lia).
Qed.

Lemma clear_silent_ok k a : apu_ok a -> apu_ok (clear_startup_silent_channel_mask k a).
Proof.
  intros Ha. pose proof (range_land 4 (startup_silent_channel_mask a) (not8 k) ltac:(lia)
    ltac:(pose proof (apu_silent_range a Ha); lia)) as Hk.
  cbv delta [clear_startup_silent_channel_mask]. destruct Ha, a. constructor; simpl in *; (done || lia).
Qed.

(** *** Registers *)

Lemma decode_wave_range address i : Registers.decode address = Registers.WaveRam i -> 0 <= i < 16.
Proof.
  intros Hd.
  assert (Hif : (if (WAVE_RAM_START_ADDRESS <=? address) && (address <=? WAVE_RAM_END_ADDRESS)
                 then Registers.WaveRam (address - WAVE_RAM_START_ADDRESS) else Registers.Unmapped)
                = Registers.WaveRam i -> 0 <= i < 16).
  { destruct (_ && _) eqn:Hr; [|done]. intros [= <-]. prune.
    unfold WAVE_RAM_START_ADDRESS, WAVE_RAM_END_ADDRESS in *. lia. }
  apply Hif. rewrite <- Hd. unfold Registers.decode in *. repeat (case_match; try done).
Qed.

Lemma read_nr52_u8 o a : levels_ok o -> u8 (read_nr52_from_channel_output o a).
Proof.
  intros [Ha _ _ _]. unfold read_nr52_from_channel_output, NR52_FORCED_HIGH_MASK, NR52_MASTER_POWER_BIT.
  apply u8_lor; [destruct (powered _); auto with gb | unfold u8; lia].
Qed.

Lemma read_register_ok address a : apu_ok a -> finishes (apu_read_register address a) u8.
Proof.
  intros Ha. pose proof (apu_channels_ok a Ha) as [H1 H2 H3 H4]. unfold apu_read_register.
  destruct (Registers.decode address) as [r|i|] eqn:Hd; [|by apply read_wave_ram_ok, (decode_wave_range address)|done].
  unfold read_apu_register. destruct (owner r) as [r1|r2|r3|r4|rm|].
  - by apply ch1_read_u8.
  - by apply ch2_read_u8.
  - by apply ch3_read_u8.
  - by apply ch4_read_u8.
  - destruct rm; simpl; [apply Ha.. |].
    apply finishes_bind. eapply finishes_mono; [by apply channel_output_state_ok|]. intros o Ho. by apply read_nr52_u8.
  - done.
Qed.

Lemma set_channel_1_ok c1 a : ch1_ok c1 -> apu_ok a -> apu_ok (on_channels (fun c => c <| channel_1 := c1 |>) a).
Proof. intros H Ha. apply on_channels_ok; [|done]. intros Hc. upd_ok channels_ok. Qed.
Lemma set_channel_3_ok c3 a : ch3_ok c3 -> apu_ok a -> apu_ok (on_channels (fun c => c <| channel_3 := c3 |>) a).
Proof. intros H Ha. apply on_channels_ok; [|done]. intros Hc. upd_ok channels_ok. Qed.

Lemma write_channel_1_ok r v s a : u8 v -> apu_ok a -> apu_ok (write_channel_1_register r v s a).
Proof. intros Hv Ha. apply on_channels_ok; [|done]. intros Hc. case_match; upd_ok channels_ok. Qed.
Lemma write_channel_2_ok r v s a : u8 v -> apu_ok a -> apu_ok (write_channel_2_register r v s a).
Proof. intros Hv Ha. apply on_channels_ok; [|done]. intros Hc. case_match; upd_ok channels_ok. Qed.
Lemma write_channel_3_ok r v a : u8 v -> apu_ok a -> finishes (write_channel_3_register r v a) apu_ok.
Proof.
  intros Hv Ha. pose proof (channel_3_ok _ (apu_channels_ok a Ha)) as H3. unfold write_channel_3_register.
  apply finishes_bind. eapply finishes_mono with (Q := ch3_ok).
  - case_match; [by apply ch3_write_register_ok | simpl; auto with apu].
  - intros c3 Hc3. by apply set_channel_3_ok.
Qed.
Lemma write_channel_4_ok r v a : u8 v -> apu_ok a -> apu_ok (write_channel_4_register r v a).
Proof. intros Hv Ha. apply on_channels_ok; [|done]. intros Hc. case_match; upd_ok channels_ok. Qed.

Lemma write_master_ok r v h a : u8 v -> apu_ok a -> apu_ok (write_master_register r v h a).
Proof.
  intros Hv Ha. destruct r; simpl; [| |by apply write_nr52_ok]; (case_match; [|done]);
    destruct Ha as [[? ? ?] ? ? ? ? ? ?], a as [m r [p x y vin] f o c l w s k t sk]; constructor; simpl in *; try done;
    by constructor.
Qed.

Lemma unsilence_ok b v k a : apu_ok a -> apu_ok (unsilence_on_trigger b v k a).
Proof. intros Ha. unfold unsilence_on_trigger. case_match; auto using clear_silent_ok. Qed.

Lemma write_apu_register_ok r v s h a : u8 v -> apu_ok a -> finishes (write_apu_register r v s h a) apu_ok.
Proof.
  intros Hv Ha. unfold write_apu_register. destruct (owner r).
  - by apply unsilence_ok, write_channel_1_ok.
  - by apply unsilence_ok, write_channel_2_ok.
  - apply finishes_bind. eapply finishes_mono; [by apply write_channel_3_ok|]. intros. by apply unsilence_ok.
  - by apply unsilence_ok, write_channel_4_ok.
  - by apply write_master_ok.
  - done.
Qed.

Lemma register_write_state_ok a : apu_ok a -> finishes (register_write_state a) (fun _ => True).
Proof.
  intros Ha. unfold register_write_state. apply finishes_bind.
  eapply finishes_mono; [by apply channel_output_state_ok|]. done.
Qed.

Lemma set_observation_ok w a : apu_ok a -> apu_ok (a <| last_register_write := w |>).
Proof. intros Ha. upd_ok apu_ok. Qed.

Lemma write_register_ok address v s h a :
  u8 v -> apu_ok a -> finishes (write_register_for_speed_with_div_apu_signal address v s h a) apu_ok.
Proof.
  intros Hv Ha. unfold write_register_for_speed_with_div_apu_signal.
  pose proof (set_observation_ok None a Ha) as H1. forget (a <| last_register_write := None |>).
  destruct (Registers.decode address) as [r|i|] eqn:Hd.
  - apply finishes_bind. eapply finishes_mono; [by apply register_write_state_ok|]. intros before _.
    apply finishes_bind. eapply finishes_mono; [by apply write_apu_register_ok|]. intros a1 Ha1.
    apply finishes_bind. eapply finishes_mono; [by apply preview_output_path_ok|]. intros a2 Ha2.
    unfold record_register_write_observation. apply finishes_bind.
    eapply finishes_mono; [by apply register_write_state_ok|]. intros after _. by apply set_observation_ok.
  - apply finishes_bind. eapply finishes_mono.
    { apply write_wave_ram_ok; [apply (channel_3_ok _ (apu_channels_ok st H1)) | by eapply decode_wave_range | done]. }
    intros c3 Hc3. by apply preview_output_path_ok, set_channel_3_ok.
  - by apply preview_output_path_ok.
Qed.

(** ** Runs *)

Inductive apu_event :=
| EvTick (context : CycleContext) (speed : CgbSpeedMode)
| EvDivEdge
| EvWrite (address value : Z) (speed : CgbSpeedMode) (div_apu_signal_high : bool)
| EvStartup (s : ApuStartupState)
| EvStartupPhase (system_counter : Z).

Definition event_ok (e : apu_event) : Prop :=
  match e with
  | EvWrite _ value _ _ => u8 value
  | EvStartup s => startup_ok s
  | _ => True
  end.

Definition apu_step (e : apu_event) (a : Apu) : outcome Apu :=
  match e with
  | EvTick context speed => apu_tick_t_cycle_for_speed context speed a
  | EvDivEdge => on_div_apu_edge a
  | EvWrite address value speed high => write_register_for_speed_with_div_apu_signal address value speed high a
  | EvStartup s => apu_apply_startup_state s a
  | EvStartupPhase n => apply_div_apu_startup_phase_from_system_counter n a
  end.

Fixpoint apu_run (es : list apu_event) (a : Apu) : outcome Apu :=
  match es with
  | [] => mret a
  | e :: rest => a ← apu_step e a; apu_run rest a
  end.

Lemma apu_step_ok e a : event_ok e -> apu_ok a -> finishes (apu_step e a) apu_ok.
Proof.
  destruct e; simpl; intros He Ha.
  - by apply apu_tick_ok.
  - by apply advance_frame_sequencer_ok.
  - by apply write_register_ok.
  - by apply apply_startup_state_ok.
  - by apply apply_div_startup_ok.
Qed.

Lemma apu_run_ok es a : Forall event_ok es -> apu_ok a -> finishes (apu_run es a) apu_ok.
Proof.
  intros He. revert a. induction He as [|e rest He _ IH]; intros a Ha; [done|]. simpl.
  apply finishes_bind. eapply finishes_mono; [by apply apu_step_ok|]. intros a' Ha'. by apply IH.
Qed.

Lemma nibbles_u8 h l : 0 <= h < 16 -> 0 <= l < 16 -> u8 (Z.lor (shl8 h 4) l).
Proof. intros Hh Hl. apply u8_lor; [auto with gb | unfold u8; lia]. Qed.

Lemma level_range o i : levels_ok o -> 0 <= level o i < 16.
Proof.
  intros [_ _ _ Hr]. unfold level. destruct (nth_in_or_default i (digital_outputs o) 0) as [Hin | ->]; [|lia].
  rewrite List.Forall_forall in Hr. by apply Hr.
Qed.

Lemma read_pcm_ok a :
  apu_ok a -> finishes (read_pcm12 a) u8 /\ finishes (read_pcm34 a) u8.
Proof.
  intros Ha. split; (apply finishes_bind; eapply finishes_mono; [by apply channel_output_state_ok|]; intros o Ho;
    apply nibbles_u8; by apply level_range).
Qed.

(** C10. The APU never fails: from power-on, whatever the sequence of T-cycles,
    divider edges, startup states and register writes of bytes at any address,
    no array index or checked signed operation panics, every counter and
    register of every state reached lies within its machine width (so that the
    guarded decrements never pass zero), all registers, wave RAM bytes and PCM
    levels read as bytes, and the host sample is within its bound. *)
Theorem apu_never_fails (m : ConsoleModel) (r : HardwareRevision) (es : list apu_event) :
  Forall event_ok es ->
  exists a, apu_run es (apu_new_with_revision m r) = Done a /\ apu_ok a /\
    (forall address, exists b, apu_read_register address a = Done b /\ u8 b) /\
    (exists p q, read_pcm12 a = Done p /\ read_pcm34 a = Done q /\ u8 p /\ u8 q) /\
    stereo_within (2 * APU_INTERNAL_MAX_ABS_OUTPUT_SAMPLE) (host_output_sample a).
Proof.
  intros He. destruct (finishes_done _ _ (apu_run_ok es _ He (apu_new_ok m r))) as (a & Hrun & Ha).
  exists a. split; [done|]. split; [done|]. split; [|split].
  - intros address. apply finishes_done, (read_register_ok address a Ha).
  - destruct (read_pcm_ok a Ha) as [H12 H34].
    destruct (finishes_done _ _ H12) as (p & Hp & Hpu), (finishes_done _ _ H34) as (q & Hq & Hqu). eauto 6.
  - apply (path_current_range _ (apu_path_ok a Ha)).
Qed.

Definition melody : list apu_event :=
  [EvWrite 0xFF26 0x80 Normal false; EvWrite 0xFF25 0xFF Normal false; EvWrite 0xFF24 0x77 Normal false;
   EvWrite 0xFF12 0xF3 Normal false; EvWrite 0xFF14 0x87 Normal false; EvTick (for_cycle 4) Normal; EvDivEdge].

Lemma apu_never_fails_witness :
  Forall event_ok melody /\ exists a, apu_run melody (apu_new GameBoy) = Done a.
Proof.
  assert (H : Forall event_ok melody).
  { unfold melody. repeat apply Forall_cons_2; try apply Forall_nil_2; try exact I; unfold event_ok, u8; lia. }
  split; [exact H|].
  destruct (apu_never_fails GameBoy (default_revision GameBoy) melody H) as (a & Ha & _). exists a. exact Ha.
Defined.

(** ** The power switch *)

(** What each register reads as while the APU is off: its unreadable bits. *)
Definition off_register_value (r : Registers.ApuRegister) : Z :=
  match r with
  | Registers.Nr10 => 0x80 | Registers.Nr11 => 0x3F | Registers.Nr12 => 0x00 | Registers.Nr13 => 0xFF
  | Registers.Nr14 => 0xBF | Registers.UnusedNr15 => 0xFF
  | Registers.Nr21 => 0x3F | Registers.Nr22 => 0x00 | Registers.Nr23 => 0xFF | Registers.Nr24 => 0xBF
  | Registers.Nr30 => 0x7F | Registers.Nr31 => 0xFF | Registers.Nr32 => 0x9F | Registers.Nr33 => 0xFF
  | Registers.Nr34 => 0xBF | Registers.UnusedNr1f => 0xFF
  | Registers.Nr41 => 0xFF | Registers.Nr42 => 0x00 | Registers.Nr43 => 0x00 | Registers.Nr44 => 0xBF
  | Registers.Nr50 => 0x00 | Registers.Nr51 => 0x00 | Registers.Nr52 => 0x70
  end.

Definition length_counters (c : ApuChannels) : list Z :=
  [length_counter (pulse (channel_1 c)); length_counter (pulse2 (channel_2 c));
   w_length_counter (channel_3 c); n_length_counter (channel_4 c)].

(** Two states that a preview of the output path cannot tell apart. *)
Definition same_core (a a' : Apu) : Prop :=
  channels a' = channels a /\ master a' = master a /\ apu_console_model a' = apu_console_model a /\
  startup_silent_channel_mask a' = startup_silent_channel_mask a.

Lemma preview_same_core a :
  apu_ok a ->
  finishes (preview_output_path a) (fun a' => apu_ok a' /\ same_core a a' /\
    (powered (master a) = false -> host_output_sample a' = stereo_default)).
Proof.
  intros Ha. unfold preview_output_path. apply finishes_bind.
  eapply finishes_mono; [by apply channel_output_state_ok|]. intros o Ho. apply finishes_bind.
  eapply finishes_mono; [apply preview_ok; [apply Ha | apply Ho | apply Ha]|]. intros p [Hp Hs].
  simpl. split; [by apply set_output_path_ok|]. split; [by destruct a|]. intros Hoff. unfold tick_shows, connected in Hs. rewrite Hoff in Hs.
  by destruct a.
Qed.

Lemma off_reads r c a :
  powered (master a) = false -> nr50 (master a) = 0 -> nr51 (master a) = 0 ->
  channels a = power_off_registers (apu_console_model a) c -> startup_silent_channel_mask a = 0 ->
  read_apu_register r a = Done (off_register_value r).
Proof.
  intros Hp H50 H51 Hc Hs. destruct a as [m rv [p x y v] f o ch l w s k t sk]. simpl in *. subst p x y s ch.
  destruct c as [c1 c2 c3 c4], c1, c2, c3, c4, m, r; reflexivity.
Qed.

Lemma decode_address r : Registers.decode (Registers.address r) = Registers.Register r.
Proof. by destruct r. Qed.

Lemma power_off_lengths m c :
  length_counters (power_off_registers m c) = if is_dmg_family m then length_counters c else [0; 0; 0; 0].
Proof. destruct c as [c1 c2 c3 c4], c1 as [? ? ? ? ? []], c2 as [? ? ? ? []], c3, c4. by destruct m. Qed.

Lemma power_off_wave_ram m c : wave_ram_snapshot (power_off_registers m c) = wave_ram_snapshot c.
Proof. destruct c as [c1 c2 c3 c4], c3. by destruct m. Qed.

(** Switching the APU off through NR52 silences the output, clears every
    register (each reads as its unreadable bits), keeps wave RAM, and keeps the
    length counters on the first models only. *)
Theorem power_off_clears_the_registers (v : Z) (s : CgbSpeedMode) (h : bool) (a : Apu) :
  apu_ok a -> u8 v -> powered (master a) = true -> has_bits v NR52_MASTER_POWER_BIT = false ->
  exists a', write_register_for_speed_with_div_apu_signal 0xFF26 v s h a = Done a' /\
    (forall r, apu_read_register (Registers.address r) a' = Done (off_register_value r)) /\
    wave_ram_snapshot (channels a') = wave_ram_snapshot (channels a) /\
    length_counters (channels a') =
      (if is_dmg_family (apu_console_model a) then length_counters (channels a) else [0; 0; 0; 0]) /\
    host_output_sample a' = stereo_default.
Proof.
  intros Ha Hv Hp Hoff. apply finishes_done. unfold write_register_for_speed_with_div_apu_signal.
  set (a0 := a <| last_register_write := None |>).
  assert (H0 : apu_ok a0) by by apply set_observation_ok.
  assert (Hcore0 : same_core a a0) by (subst a0; by destruct a). clearbody a0.
  destruct Hcore0 as (Hc0 & Hm0 & Hmod0 & _). rewrite <- Hc0, <- Hmod0. rewrite <- Hm0 in Hp. clear a Ha Hc0 Hm0 Hmod0.
  simpl Registers.decode. cbv iota.
  apply finishes_bind. eapply finishes_mono; [by apply register_write_state_ok|]. intros before _.
  unfold write_apu_register. simpl. unfold write_nr52. rewrite Hp, Hoff.
  assert (H1 : apu_ok (power_off a0)) by by apply power_off_ok.
  assert (Hpo : powered (master (power_off a0)) = false /\ nr50 (master (power_off a0)) = 0 /\
                nr51 (master (power_off a0)) = 0 /\ startup_silent_channel_mask (power_off a0) = 0 /\
                channels (power_off a0) = power_off_registers (apu_console_model a0) (channels a0) /\
                apu_console_model (power_off a0) = apu_console_model a0).
  { destruct a0 as [m rv [p x y vin] f o c l w sm k t sk]. by repeat split. }
  set (a1 := power_off a0) in *. clearbody a1. destruct Hpo as (Hp1 & H50 & H51 & Hs1 & Hc1 & Hm1).
  apply finishes_bind. eapply finishes_mono; [by apply preview_same_core|].
  intros a2 (H2 & (Hc2 & Hm2 & Hmod2 & Hs2) & Hsample). specialize (Hsample Hp1).
  unfold record_register_write_observation. apply finishes_bind.
  eapply finishes_mono; [by apply register_write_state_ok|]. intros after _.
  apply finishes_ret. set (a3 := a2 <| last_register_write := _ |>).
  assert (Hcore3 : same_core a2 a3 /\ host_output_sample a3 = host_output_sample a2) by (subst a3; by destruct a2).
  clearbody a3. destruct Hcore3 as [(Hc3 & Hm3 & Hmod3 & Hs3) Hsample3].
  assert (Hch : channels a3 = power_off_registers (apu_console_model a0) (channels a0)) by congruence.
  split; [|split; [|split]].
  - intros r. unfold apu_read_register. rewrite decode_address.
    apply (off_reads r (channels a0)); congruence.
  - rewrite Hch. apply power_off_wave_ram.
  - rewrite Hch. apply power_off_lengths.
  - congruence.
Qed.

Definition powered_apu : Apu := (apu_new GameBoyColor) <| master := mkMaster true 0x77 0xF3 stereo_default |>.

Lemma power_off_clears_the_registers_witness :
  apu_ok powered_apu /\ powered (master powered_apu) = true /\
  exists a', write_register_for_speed_with_div_apu_signal 0xFF26 0 Normal false powered_apu = Done a' /\
    apu_read_register 0xFF24 a' = Done 0.
Proof.
  assert (Hok : apu_ok powered_apu).
  { unfold powered_apu. apply set_powered_ok; [unfold u8; lia.. | done | apply apu_new_ok]. }
  split; [exact Hok|]. split; [reflexivity|].
  destruct (power_off_clears_the_registers 0 Normal false powered_apu Hok ltac:(unfold u8; lia) eq_refl eq_refl)
    as (a' & Hw & Hr & _).
  exists a'. split; [exact Hw | exact (Hr Registers.Nr50)].
Defined.

(** The length a write of an NRx1 register loads, and into which channel. *)
Definition length_load (r : Registers.ApuRegister) (v : Z) : option (nat * Z) :=
  match r with
  | Registers.Nr11 => Some (0%nat, pulse_length_counter_from_load v)
  | Registers.Nr21 => Some (1%nat, pulse_length_counter_from_load v)
  | Registers.Nr31 => Some (2%nat, wave_length_counter_from_load v)
  | Registers.Nr41 => Some (3%nat, pulse_length_counter_from_load v)
  | _ => None
  end.

Definition lengths_after (m : ConsoleModel) (r : Registers.ApuRegister) (v : Z) (ls : list Z) : list Z :=
  match length_load r v with
  | Some (i, l) => if is_dmg_family m then <[i := l]> ls else ls
  | None => ls
  end.

(** While the APU is off it ignores register writes: whatever is written to
    any register but NR52, every register still reads the same, wave RAM is
    untouched, and only the first models load a length counter from NRx1. *)
Theorem powered_off_writes_are_ignored (r : Registers.ApuRegister) (v : Z) (s : CgbSpeedMode) (h : bool) (a : Apu) :
  powered (master a) = false -> r <> Registers.Nr52 ->
  exists a', write_apu_register r v s h a = Done a' /\
    master a' = master a /\
    (forall r', r' <> Registers.Nr52 -> read_apu_register r' a' = read_apu_register r' a) /\
    wave_ram_snapshot (channels a') = wave_ram_snapshot (channels a) /\
    length_counters (channels a') = lengths_after (apu_console_model a) r v (length_counters (channels a)).
Proof.
  intros Hp Hr. destruct a as [m rv [p x y vin] f o [c1 c2 c3 c4] l w sm k t sk]. simpl in Hp. subst p.
  destruct c1 as [? ? ? ? ? [] ?], c2 as [? ? ? ? []], c3, c4.
  destruct r; try done; (eexists; split; [reflexivity|]); unfold unsilence_on_trigger; simpl;
    try (destruct (has_bits v CHANNEL_TRIGGER_BIT)); simpl; (split; [done|]);
    (split; [intros r' Hr'; destruct r'; try done; by destruct m | by destruct m]).
Qed.

Lemma powered_off_writes_are_ignored_witness :
  powered (master (apu_new GameBoy)) = false /\
  exists a', write_apu_register Registers.Nr11 0x3F Normal false (apu_new GameBoy) = Done a' /\
    length_counters (channels a') = [1; 0; 0; 0].
Proof.
  split; [reflexivity|].
  destruct (powered_off_writes_are_ignored Registers.Nr11 0x3F Normal false (apu_new GameBoy) eq_refl
              ltac:(discriminate)) as (a' & Hw & _ & _ & _ & Hl).
  exists a'. split; [exact Hw | exact Hl].
Defined.
