(* ===== verification/BusState.v ===== *)
(** * Bus data ([crates/gb-core/src/bus/map.rs], [bus/state.rs], [ppu.rs])

    The address classification the bus speaks in, the arbitration state its
    masters publish and the outcome of resolving one access. *)

From Stdlib Require Import ZArith Lia Bool String.
From stdpp Require Import base decidable list option.
From S2P Require Import Prelude.
From S2P Require Import Cartridge.

Local Open Scope Z_scope.

(** ** Regions and their owners *)

Inductive BusRegion :=
| RegionBootRom | RegionCartridgeRomBank0 | RegionCartridgeRomBankN | RegionVram
| RegionCartridgeExternal | RegionWramBank0 | RegionWramBankN | RegionEchoRam | RegionOam
| RegionUnusable | RegionMmio | RegionHram | RegionInterruptEnable.

Inductive BusDomain :=
| DomainBootRom | DomainCartridge | DomainVram | DomainWram | DomainOam | DomainUnusable | DomainIoHram.

Inductive BusRegionOwner :=
| OwnerBoot | OwnerBus | OwnerCartridge | OwnerPpu | OwnerMmio | OwnerInterruptController.

#[export] Instance BusRegion_eq_dec : EqDecision BusRegion.
Proof. solve_decision. Defined.
#[export] Instance BusDomain_eq_dec : EqDecision BusDomain.
Proof. solve_decision. Defined.
#[export] Instance BusRegionOwner_eq_dec : EqDecision BusRegionOwner.
Proof. solve_decision. Defined.

Definition region_domain (r : BusRegion) : BusDomain :=
  match r with
  | RegionBootRom => DomainBootRom
  | RegionCartridgeRomBank0 | RegionCartridgeRomBankN | RegionCartridgeExternal => DomainCartridge
  | RegionVram => DomainVram
  | RegionWramBank0 | RegionWramBankN | RegionEchoRam => DomainWram
  | RegionOam => DomainOam
  | RegionUnusable => DomainUnusable
  | RegionMmio | RegionHram | RegionInterruptEnable => DomainIoHram
  end.

Definition region_owner (r : BusRegion) : BusRegionOwner :=
  match r with
  | RegionBootRom => OwnerBoot
  | RegionCartridgeRomBank0 | RegionCartridgeRomBankN | RegionCartridgeExternal => OwnerCartridge
  | RegionVram | RegionOam => OwnerPpu
  | RegionWramBank0 | RegionWramBankN | RegionEchoRam | RegionUnusable | RegionHram => OwnerBus
  | RegionMmio => OwnerMmio
  | RegionInterruptEnable => OwnerInterruptController
  end.

Record BusAddressInfo := mkAddress { address : Z; region : BusRegion; region_offset : Z }.

Definition domain (i : BusAddressInfo) : BusDomain := region_domain (region i).
Definition owner (i : BusAddressInfo) : BusRegionOwner := region_owner (region i).

(** ** The unusable area *)

Inductive UnusableAreaReadProfile := DmgFamilyFixedZero | ReadCgbRevisionDependent.
Inductive UnusableAreaWriteProfile := WritesIgnored | CgbRevisionDependentRam.

Record UnusableAreaInfo := mkUnusable {
  unusable_address : Z;
  read_profile : UnusableAreaReadProfile;
  write_profile : UnusableAreaWriteProfile;
  runtime_fallback_read_value : Z;
  runtime_fallback_writes_ignored : bool
}.

(** ** I/O registers *)

Inductive IoRegisterOwner :=
| IoOwnedByJoypad | IoOwnedBySerial | IoOwnedByTimer | IoOwnedByInterruptController | IoOwnedByApu
| IoOwnedByPpu | IoOwnedByDma | IoOwnedByBoot | IoOwnedByMemoryController | IoOwnedByInfrared
| IoOwnedByCgbSystem | IoOwnedByReserved.

Inductive IoRegisterAvailability := IoShared | IoDmgCompatible | IoCgbOnly.
Inductive IoRegisterImplementation := IoImplemented | IoStubbed | IoUnavailable.
Inductive IoRegisterAccess := IoReadWrite | IoReadOnly | IoWriteOnly | IoMixed.

Inductive IoRegisterKind :=
| IoJoyp | IoSerialData | IoSerialControl | IoDiv | IoTima | IoTma | IoTac | IoInterruptFlag
| IoNr10 | IoNr11 | IoNr12 | IoNr13 | IoNr14 | IoNr21 | IoNr22 | IoNr23 | IoNr24
| IoNr30 | IoNr31 | IoNr32 | IoNr33 | IoNr34 | IoNr41 | IoNr42 | IoNr43 | IoNr44
| IoNr50 | IoNr51 | IoNr52 | IoWaveRam
| IoLcdc | IoStat | IoScy | IoScx | IoLy | IoLyc | IoBgp | IoObp0 | IoObp1 | IoWy | IoWx
| IoOamDma | IoBootRomDisable | IoKey0 | IoKey1 | IoVbk
| IoHdma1 | IoHdma2 | IoHdma3 | IoHdma4 | IoHdma5 | IoRp
| IoBcps | IoBcpd | IoOcps | IoOcpd | IoOpri | IoSvbk
| IoCgbUndocumented72 | IoCgbUndocumented73 | IoCgbUndocumented74 | IoCgbUndocumented75
| IoPcm12 | IoPcm34 | IoCgbUndocumented | IoReserved | IoInterruptEnable.

#[export] Instance IoRegisterOwner_eq_dec : EqDecision IoRegisterOwner.
Proof. solve_decision. Defined.
#[export] Instance IoRegisterAvailability_eq_dec : EqDecision IoRegisterAvailability.
Proof. solve_decision. Defined.
#[export] Instance IoRegisterImplementation_eq_dec : EqDecision IoRegisterImplementation.
Proof. solve_decision. Defined.
#[export] Instance IoRegisterKind_eq_dec : EqDecision IoRegisterKind.
Proof. solve_decision. Defined.

Record IoRegisterInfo := mkIoRegister {
  io_address : Z;
  io_owner : IoRegisterOwner;
  io_availability : IoRegisterAvailability;
  io_implementation : IoRegisterImplementation;
  io_access : IoRegisterAccess;
  io_kind : IoRegisterKind
}.

Definition io_register_new (address : Z) (owner : IoRegisterOwner) (availability : IoRegisterAvailability)
    (access : IoRegisterAccess) (kind : IoRegisterKind) : IoRegisterInfo :=
  mkIoRegister address owner availability IoImplemented access kind.

(** ** Who asks, and what stops it *)

Inductive BusRequester :=
| RequesterCpu | RequesterDma | RequesterPpu | RequesterApu | RequesterSerial | RequesterBoot
| RequesterCartridge.

Inductive BusAccessKind := AccessRead | AccessWrite.

Inductive BusBlockReason :=
| DmaExternalBusConflict | DmaVideoBusConflict | DmaWramBusConflict
| PpuVramBlockedDuringMode3 | PpuOamBlockedDuringMode2 | PpuOamBlockedDuringMode3
| UnusableRegion | UnusableRegionDuringOamBlock | UnusableRegionDuringDmaVideoBusConflict.

Inductive BusAccessDisposition :=
| Allowed
| BlockedRead (value : Z) (reason : BusBlockReason)
| IgnoredWrite (reason : BusBlockReason).

#[export] Instance BusRequester_eq_dec : EqDecision BusRequester.
Proof. solve_decision. Defined.
#[export] Instance BusAccessKind_eq_dec : EqDecision BusAccessKind.
Proof. solve_decision. Defined.
#[export] Instance BusBlockReason_eq_dec : EqDecision BusBlockReason.
Proof. solve_decision. Defined.

Definition is_allowed (d : BusAccessDisposition) : bool :=
  match d with Allowed => true | _ => false end.

Definition blocked_reason (d : BusAccessDisposition) : option BusBlockReason :=
  match d with
  | Allowed => None
  | BlockedRead _ reason | IgnoredWrite reason => Some reason
  end.

Definition blocked_read_value (d : BusAccessDisposition) : option Z :=
  match d with
  | BlockedRead value _ => Some value
  | Allowed | IgnoredWrite _ => None
  end.

(** ** What the PPU, the DMA engine and the boot ROM publish *)

Inductive PpuAccessMode := HBlank | VBlankMode | OamScan | Drawing.

#[export] Instance PpuAccessMode_eq_dec : EqDecision PpuAccessMode.
Proof. solve_decision. Defined.

Definition from_stat_bits (bits : Z) : PpuAccessMode :=
  let b := Z.land bits 0x03 in
  if b =? 0 then HBlank else if b =? 1 then VBlankMode else if b =? 2 then OamScan else Drawing.

Definition stat_bits (m : PpuAccessMode) : Z :=
  match m with HBlank => 0 | VBlankMode => 1 | OamScan => 2 | Drawing => 3 end.

Record PpuBusState := mkPpuBus { is_lcd_enabled : bool; ppu_mode : PpuAccessMode }.

Definition lcd_enabled (mode : PpuAccessMode) : PpuBusState := mkPpuBus true mode.
Definition lcd_disabled : PpuBusState := mkPpuBus false HBlank.

Inductive DmaCpuAccessPolicy :=
| Unrestricted | ExternalBusBlocked | ExternalBusOnlyBlocked | VideoBusBlocked | WramBusBlocked.

Inductive DmaMemoryRegionImpact := ImpactOam | ImpactVram.

#[export] Instance DmaCpuAccessPolicy_eq_dec : EqDecision DmaCpuAccessPolicy.
Proof. solve_decision. Defined.
#[export] Instance DmaMemoryRegionImpact_eq_dec : EqDecision DmaMemoryRegionImpact.
Proof. solve_decision. Defined.

Record DmaBusState := mkDmaBus {
  cpu_access_policy : DmaCpuAccessPolicy;
  active_region : option DmaMemoryRegionImpact;
  cpu_conflict_source_address : option Z
}.

Definition unrestricted : DmaBusState := mkDmaBus Unrestricted None None.
Definition external_bus_blocked (r : option DmaMemoryRegionImpact) : DmaBusState :=
  mkDmaBus ExternalBusBlocked r None.
Definition external_bus_only_blocked (r : option DmaMemoryRegionImpact) : DmaBusState :=
  mkDmaBus ExternalBusOnlyBlocked r None.
Definition video_bus_blocked (r : option DmaMemoryRegionImpact) : DmaBusState :=
  mkDmaBus VideoBusBlocked r None.
Definition wram_bus_blocked (r : option DmaMemoryRegionImpact) : DmaBusState :=
  mkDmaBus WramBusBlocked r None.
Definition with_cpu_conflict_source_address (a : option Z) (s : DmaBusState) : DmaBusState :=
  mkDmaBus (cpu_access_policy s) (active_region s) a.

Record BootRomBusState := mkBootBus { low_window_mapped : bool; cgb_upper_window_mapped : bool }.

Definition unmapped : BootRomBusState := mkBootBus false false.
Definition map_dmg_low_bytes : BootRomBusState := mkBootBus true false.
Definition map_cgb_windows : BootRomBusState := mkBootBus true true.

Definition overlays_read (s : BootRomBusState) (address : Z) : bool :=
  (low_window_mapped s && (address <=? 0x00FF)) ||
  (cgb_upper_window_mapped s && (0x0200 <=? address) && (address <=? 0x08FF)).

Record BusArbitrationState := mkArbitration {
  boot_rom : BootRomBusState;
  ppu : PpuBusState;
  dma : DmaBusState
}.

Definition arbitration_default : BusArbitrationState := mkArbitration unmapped lcd_disabled unrestricted.
Definition with_boot_rom (b : BootRomBusState) (s : BusArbitrationState) : BusArbitrationState :=
  mkArbitration b (ppu s) (dma s).
Definition with_ppu (p : PpuBusState) (s : BusArbitrationState) : BusArbitrationState :=
  mkArbitration (boot_rom s) p (dma s).
Definition with_dma (d : DmaBusState) (s : BusArbitrationState) : BusArbitrationState :=
  mkArbitration (boot_rom s) (ppu s) d.

(** ** A resolved access *)

Record BusAccessResolution := mkResolution {
  requester : BusRequester;
  kind : BusAccessKind;
  requested_address : Z;
  nominal_target : BusAddressInfo;
  target : BusAddressInfo;
  nominal_cartridge_external : option CartridgeExternalAccessInfo;
  cartridge_external : option CartridgeExternalAccessInfo;
  nominal_disposition : BusAccessDisposition;
  disposition : BusAccessDisposition
}.

Definition is_redirected (r : BusAccessResolution) : bool :=
  negb (address (target r) =? requested_address r).

Definition redirected_source_address (r : BusAccessResolution) : option Z :=
  if is_redirected r then Some (address (target r)) else None.

(** ** The masters' states are well formed *)

(** A published conflict address is an address of the bus. *)
Definition dma_bus_ok (s : DmaBusState) : Prop :=
  match cpu_conflict_source_address s with Some a => u16 a | None => True end.

Lemma stat_bits_round_trip m : from_stat_bits (stat_bits m) = m.
Proof. by destruct m. Qed.

Lemma stat_bits_range m : 0 <= stat_bits m < 4.
Proof. destruct m; simpl; lia. Qed.
