(* ===== verification/Dma.v ===== *)
(** * DMA ([crates/gb-core/src/dma.rs])

    The OAM DMA engine behind [FF46] and the CGB VRAM DMA engine behind
    [FF51]-[FF55]: general-purpose bursts that stall the CPU, and HBlank DMA
    that moves one block per HBlank window.  A tick advances the transfer in
    flight by one T-cycle and names the byte that is due, if any. *)

From Stdlib Require Import ZArith Lia Bool String.
From stdpp Require Import base decidable list option.
From S2P Require Import Prelude.
From S2P Require Import Model.
From S2P Require Import Speed.
From S2P Require Import BusState.

Local Open Scope Z_scope.

Definition OAM_DMA_DESTINATION_START : Z := 0xFE00.
Definition OAM_DMA_TRANSFER_BYTES : Z := 160.
Definition OAM_DMA_FIRST_BYTE_DELAY_T_CYCLES : Z := 8.
Definition OAM_DMA_CPU_BUS_RESTRICTION_DELAY_T_CYCLES : Z := 5.
Definition OAM_DMA_T_CYCLES_PER_BYTE : Z := 4.
Definition OAM_DMA_TOTAL_T_CYCLES : Z := 648.
Definition DMG_OAM_DMA_ECHO_ALIAS_OFFSET : Z := 0x2000.
Definition VRAM_DMA_BLOCK_BYTES : Z := 0x10.
Definition VRAM_DMA_NORMAL_SPEED_FIRST_BYTE_DELAY_T_CYCLES : Z := 2.
Definition VRAM_DMA_CPU_BUS_RESTRICTION_DELAY_T_CYCLES : Z := 0.
Definition VRAM_DMA_NORMAL_SPEED_T_CYCLES_PER_BYTE : Z := 2.
Definition VRAM_DMA_CPU_RELEASE_T_CYCLES : Z := 5.
Definition VRAM_DMA_PUBLICATION_T_CYCLES : Z := 12.
Definition VRAM_DMA_DESTINATION_END : Z := 0x9FFF.
Definition VRAM_DMA_INVALID_SOURCE_READ_VALUE : Z := 0xFF.
Definition HDMA5_TRANSFER_LENGTH_MASK : Z := 0x7F.
Definition HDMA5_MODE_BIT : Z := 0x80.
Definition HDMA5_INACTIVE_READ_BIT : Z := 0x80.
Definition HDMA5_COMPLETED_READ : Z := 0xFF.

(** [+] and [-] on [u16], which panic on overflow in a checked build. *)
Definition checked_add_u16 (a b : Z) : outcome Z :=
  if a + b <? 65536 then Done (a + b) else Panic "attempt to add with overflow".
Definition checked_sub_u16 (a b : Z) : outcome Z :=
  if b <=? a then Done (a - b) else Panic "attempt to subtract with overflow".

(** ** VRAM DMA registers and transfers *)

Inductive VramDmaMode := ModeGeneralPurpose | ModeHBlank.

Record VramDmaRegisters := mkVramRegs {
  source_high : Z; source_low : Z; destination_high : Z; destination_low : Z
}.

Definition vram_dma_registers_default : VramDmaRegisters := mkVramRegs 0xFF 0xF0 0x1F 0xF0.

Definition registers_source_start (r : VramDmaRegisters) : Z :=
  Z.lor (Z.shiftl (source_high r) 8) (source_low r).
Definition registers_destination_start (r : VramDmaRegisters) : Z :=
  Z.lor (Z.lor 0x8000 (Z.shiftl (destination_high r) 8)) (destination_low r).

Definition registers_write_hdma1 (value : Z) (r : VramDmaRegisters) : VramDmaRegisters :=
  mkVramRegs value (source_low r) (destination_high r) (destination_low r).
Definition registers_write_hdma2 (value : Z) (r : VramDmaRegisters) : VramDmaRegisters :=
  mkVramRegs (source_high r) (Z.land value 0xF0) (destination_high r) (destination_low r).
Definition registers_write_hdma3 (value : Z) (r : VramDmaRegisters) : VramDmaRegisters :=
  mkVramRegs (source_high r) (source_low r) (Z.land value 0x1F) (destination_low r).
Definition registers_write_hdma4 (value : Z) (r : VramDmaRegisters) : VramDmaRegisters :=
  mkVramRegs (source_high r) (source_low r) (destination_high r) (Z.land value 0xF0).

Definition set_endpoints (source destination : Z) : VramDmaRegisters :=
  mkVramRegs (as_u8 (Z.shiftr source 8)) (Z.land (as_u8 source) 0xF0)
    (Z.land (as_u8 (Z.shiftr destination 8)) 0x1F) (Z.land (as_u8 destination) 0xF0).

Record VramDmaTransfer := mkVramTransfer {
  vram_mode : VramDmaMode;
  vram_source_start : Z;
  vram_destination_start : Z;
  vram_total_blocks : Z;
  vram_remaining_blocks : Z
}.

Definition clip_vram_dma_blocks_for_destination (destination_start requested_blocks : Z) : Z :=
  let bytes_until_overflow := VRAM_DMA_DESTINATION_END + 1 - destination_start in
  let blocks_until_overflow := bytes_until_overflow / VRAM_DMA_BLOCK_BYTES in
  if blocks_until_overflow <? requested_blocks then blocks_until_overflow else requested_blocks.

Definition vram_transfer_new (mode : VramDmaMode) (registers : VramDmaRegisters) (blocks : Z) : VramDmaTransfer :=
  let total_blocks := clip_vram_dma_blocks_for_destination (registers_destination_start registers) blocks in
  mkVramTransfer mode (registers_source_start registers) (registers_destination_start registers)
    total_blocks total_blocks.

Definition vram_remaining_bytes (t : VramDmaTransfer) : Z := vram_remaining_blocks t * VRAM_DMA_BLOCK_BYTES.
Definition vram_total_bytes (t : VramDmaTransfer) : Z := vram_total_blocks t * VRAM_DMA_BLOCK_BYTES.
Definition remaining_blocks_minus_one (t : VramDmaTransfer) : Z :=
  as_u8 (Z.max 0 (vram_remaining_blocks t - 1)).

Definition advance_completed_blocks (completed_blocks : Z) (t : VramDmaTransfer) : VramDmaTransfer :=
  let completed_blocks :=
    if vram_remaining_blocks t <? completed_blocks then vram_remaining_blocks t else completed_blocks in
  let completed_bytes := completed_blocks * VRAM_DMA_BLOCK_BYTES in
  mkVramTransfer (vram_mode t) (wrapping_add16 (vram_source_start t) completed_bytes)
    (wrapping_add16 (vram_destination_start t) completed_bytes) (vram_total_blocks t)
    (vram_remaining_blocks t - completed_blocks).

Inductive VramDmaState :=
| VramInactive (hdma5_read_low : Z)
| GeneralPurposeActive (transfer : VramDmaTransfer)
| GeneralPurposeComplete (transfer : VramDmaTransfer)
| HBlankActive (transfer : VramDmaTransfer).

Definition vram_dma_state_default : VramDmaState := VramInactive HDMA5_TRANSFER_LENGTH_MASK.

Definition vram_is_active (s : VramDmaState) : bool :=
  match s with GeneralPurposeActive _ | HBlankActive _ => true | _ => false end.

Definition active_transfer (s : VramDmaState) : option VramDmaTransfer :=
  match s with
  | GeneralPurposeActive transfer | HBlankActive transfer => Some transfer
  | VramInactive _ | GeneralPurposeComplete _ => None
  end.

Definition hblank_active_transfer (s : VramDmaState) : option VramDmaTransfer :=
  match s with
  | HBlankActive transfer => Some transfer
  | VramInactive _ | GeneralPurposeActive _ | GeneralPurposeComplete _ => None
  end.

Definition state_read_hdma5 (s : VramDmaState) : Z :=
  match s with
  | VramInactive low => Z.lor HDMA5_INACTIVE_READ_BIT (Z.land low HDMA5_TRANSFER_LENGTH_MASK)
  | GeneralPurposeActive transfer => remaining_blocks_minus_one transfer
  | GeneralPurposeComplete _ => HDMA5_COMPLETED_READ
  | HBlankActive transfer => remaining_blocks_minus_one transfer
  end.

(** ** Transfers in flight

    [DmaTransferSpec], whose fields [from_spec] copies, is [DmaTransfer] itself. *)

Inductive DmaTransferKind := Oam | Gdma | Hdma.
Inductive DmaCpuImpactPolicy := NoCpuStallButBusRestriction | CpuFullyStalledUntilDone | CpuStalledPerBlock.
Inductive DmaTransferFamily := FullBurst | BlockWindowed.
Inductive DmaAdvanceCondition := EveryTCycle | AdvanceInHBlank | ExternalGate.
Inductive DmaSourceBus := SourceExternal | SourceVideoRam | SourceWorkRam.

#[export] Instance DmaTransferKind_eq_dec : EqDecision DmaTransferKind.
Proof. solve_decision. Defined.

Record DmaTransferTiming := mkTiming {
  total_t_cycles : Z;
  first_byte_delay_t_cycles : Z;
  cpu_bus_restriction_delay_t_cycles : Z;
  t_cycles_per_byte : Z
}.

Record DmaTransfer := mkTransfer {
  transfer_kind : DmaTransferKind;
  source_start : Z;
  destination_start : Z;
  total_bytes : Z;
  block_size : Z;
  transfer_family : DmaTransferFamily;
  timing : DmaTransferTiming;
  oam_speed_mode : CgbSpeedMode;
  cpu_impact_policy : DmaCpuImpactPolicy;
  memory_region_impact : DmaMemoryRegionImpact;
  advance_condition : DmaAdvanceCondition
}.

Definition oam_for_speed (source_page : Z) (speed_mode : CgbSpeedMode) : DmaTransfer :=
  mkTransfer Oam (Z.shiftl source_page 8) OAM_DMA_DESTINATION_START OAM_DMA_TRANSFER_BYTES 1 FullBurst
    (mkTiming OAM_DMA_TOTAL_T_CYCLES OAM_DMA_FIRST_BYTE_DELAY_T_CYCLES
       OAM_DMA_CPU_BUS_RESTRICTION_DELAY_T_CYCLES OAM_DMA_T_CYCLES_PER_BYTE)
    speed_mode NoCpuStallButBusRestriction ImpactOam EveryTCycle.

Definition vram_dma_first_byte_delay_t_cycles (speed_mode : CgbSpeedMode) : Z :=
  match speed_mode with
  | Normal => VRAM_DMA_NORMAL_SPEED_FIRST_BYTE_DELAY_T_CYCLES
  | Double => VRAM_DMA_NORMAL_SPEED_FIRST_BYTE_DELAY_T_CYCLES * 2
  end.

Definition vram_dma_t_cycles_per_byte (speed_mode : CgbSpeedMode) : Z :=
  match speed_mode with
  | Normal => VRAM_DMA_NORMAL_SPEED_T_CYCLES_PER_BYTE
  | Double => VRAM_DMA_NORMAL_SPEED_T_CYCLES_PER_BYTE * 2
  end.

Definition vram_dma_body_t_cycles (total_bytes : Z) (speed_mode : CgbSpeedMode) : Z :=
  if total_bytes =? 0 then 0
  else vram_dma_first_byte_delay_t_cycles speed_mode + (total_bytes - 1) * vram_dma_t_cycles_per_byte speed_mode.

Definition vram_dma_timing (total_bytes : Z) (speed_mode : CgbSpeedMode) : DmaTransferTiming :=
  mkTiming
    (if total_bytes =? 0 then 0
     else vram_dma_body_t_cycles total_bytes speed_mode + VRAM_DMA_CPU_RELEASE_T_CYCLES)
    (vram_dma_first_byte_delay_t_cycles speed_mode) VRAM_DMA_CPU_BUS_RESTRICTION_DELAY_T_CYCLES
    (vram_dma_t_cycles_per_byte speed_mode).

Definition gdma_for_speed (transfer : VramDmaTransfer) (speed_mode : CgbSpeedMode) : DmaTransfer :=
  let total_bytes := vram_remaining_bytes transfer in
  mkTransfer Gdma (vram_source_start transfer) (vram_destination_start transfer) total_bytes
    VRAM_DMA_BLOCK_BYTES FullBurst (vram_dma_timing total_bytes speed_mode) speed_mode
    CpuFullyStalledUntilDone ImpactVram EveryTCycle.

Definition hdma_block_for_speed (transfer : VramDmaTransfer) (speed_mode : CgbSpeedMode) : DmaTransfer :=
  mkTransfer Hdma (vram_source_start transfer) (vram_destination_start transfer) VRAM_DMA_BLOCK_BYTES
    VRAM_DMA_BLOCK_BYTES BlockWindowed (vram_dma_timing VRAM_DMA_BLOCK_BYTES speed_mode) speed_mode
    CpuStalledPerBlock ImpactVram AdvanceInHBlank.

Definition source_end_inclusive (t : DmaTransfer) : outcome Z :=
  e ← checked_add_u16 (source_start t) (total_bytes t); checked_sub_u16 e 1.
Definition destination_end_inclusive (t : DmaTransfer) : outcome Z :=
  e ← checked_add_u16 (destination_start t) (total_bytes t); checked_sub_u16 e 1.
Definition total_blocks (t : DmaTransfer) : Z := (total_bytes t + block_size t - 1) / block_size t.

Definition normalize_oam_source_address (address : Z) : Z :=
  if 0xE000 <=? address then address - DMG_OAM_DMA_ECHO_ALIAS_OFFSET else address.

Definition source_address_for_byte (t : DmaTransfer) (byte_index : Z) : outcome Z :=
  a ← checked_add_u16 (source_start t) byte_index;
  mret (match transfer_kind t with
        | Oam => normalize_oam_source_address a
        | Gdma | Hdma => a
        end).

Definition destination_address_for_byte (t : DmaTransfer) (byte_index : Z) : outcome Z :=
  checked_add_u16 (destination_start t) byte_index.

Definition lcd_domain_duration_dots (t : DmaTransfer) : Z :=
  match oam_speed_mode t with
  | Double => (total_t_cycles (timing t) + 1) / 2
  | Normal => total_t_cycles (timing t)
  end.

Definition source_bus (t : DmaTransfer) : outcome DmaSourceBus :=
  a ← source_address_for_byte t 0;
  mret (if (0x8000 <=? a) && (a <=? 0x9FFF) then SourceVideoRam
        else if (0xC000 <=? a) && (a <=? 0xFDFF) then SourceWorkRam else SourceExternal).

(** ** Progress of a transfer *)

Record DmaTransferProgress := mkProgress { transfer : DmaTransfer; elapsed_t_cycles : Z }.

Definition progress_new (t : DmaTransfer) : DmaTransferProgress := mkProgress t 0.

Definition first_byte_delay_remaining_t_cycles (p : DmaTransferProgress) : Z :=
  let delay := first_byte_delay_t_cycles (timing (transfer p)) in
  if delay <=? elapsed_t_cycles p then 0 else as_u8 (delay - elapsed_t_cycles p).

Definition cpu_bus_restriction_delay_remaining_t_cycles (p : DmaTransferProgress) : Z :=
  let delay := cpu_bus_restriction_delay_t_cycles (timing (transfer p)) in
  if delay <=? elapsed_t_cycles p then 0 else as_u8 (delay - elapsed_t_cycles p).

Definition is_cpu_bus_restriction_active (p : DmaTransferProgress) : bool :=
  cpu_bus_restriction_delay_t_cycles (timing (transfer p)) <=? elapsed_t_cycles p.

Definition completed_bytes (p : DmaTransferProgress) : Z :=
  let delay := first_byte_delay_t_cycles (timing (transfer p)) in
  if elapsed_t_cycles p <? delay then 0
  else
    let completed := 1 + (elapsed_t_cycles p - delay) / t_cycles_per_byte (timing (transfer p)) in
    if total_bytes (transfer p) <? completed then total_bytes (transfer p) else completed.

Definition remaining_bytes (p : DmaTransferProgress) : Z := total_bytes (transfer p) - completed_bytes p.
Definition completed_blocks (p : DmaTransferProgress) : Z := completed_bytes p / block_size (transfer p).

Definition published_completed_blocks (p : DmaTransferProgress) : Z :=
  let completed_blocks := completed_blocks p in
  if completed_blocks =? 0 then 0
  else
    let completed_bytes := completed_blocks * block_size (transfer p) in
    let last_byte_elapsed_t_cycles :=
      first_byte_delay_t_cycles (timing (transfer p)) +
      (completed_bytes - 1) * t_cycles_per_byte (timing (transfer p)) in
    let release_elapsed_t_cycles := last_byte_elapsed_t_cycles + VRAM_DMA_PUBLICATION_T_CYCLES in
    if release_elapsed_t_cycles <=? elapsed_t_cycles p then completed_blocks else completed_blocks - 1.

Definition has_unpublished_completed_blocks (p : DmaTransferProgress) : bool :=
  published_completed_blocks p <? completed_blocks p.

Definition remaining_blocks (p : DmaTransferProgress) : Z := total_blocks (transfer p) - completed_blocks p.

Definition byte_phase_t_cycles (p : DmaTransferProgress) : Z :=
  let delay := first_byte_delay_t_cycles (timing (transfer p)) in
  if elapsed_t_cycles p <? delay then as_u8 (elapsed_t_cycles p)
  else as_u8 ((elapsed_t_cycles p - delay) mod t_cycles_per_byte (timing (transfer p))).

Definition is_complete (p : DmaTransferProgress) : bool :=
  total_t_cycles (timing (transfer p)) <=? elapsed_t_cycles p.

Definition advance_one_t_cycle (p : DmaTransferProgress) : DmaTransferProgress :=
  mkProgress (transfer p) (Z.min 65535 (elapsed_t_cycles p + 1)).

(** ** The transfer's life cycle *)

Inductive DmaTransferState :=
| Idle
| Starting (progress : DmaTransferProgress)
| Active (progress : DmaTransferProgress)
| Completed (progress : DmaTransferProgress).

Inductive DmaTransferLifecycle :=
| LifecycleIdle | LifecycleStarting | LifecycleActive | LifecycleCompleted | LifecycleCancelled.

Definition state_progress (s : DmaTransferState) : option DmaTransferProgress :=
  match s with
  | Idle => None
  | Starting progress | Active progress | Completed progress => Some progress
  end.

Definition state_current_transfer (s : DmaTransferState) : option DmaTransfer :=
  match state_progress s with
  | Some progress => Some (transfer progress)
  | None => None
  end.

Definition state_label (s : DmaTransferState) : string :=
  match s with
  | Idle => "Idle" | Starting _ => "Starting" | Active _ => "Active" | Completed _ => "Completed"
  end.

Definition state_lifecycle (s : DmaTransferState) : DmaTransferLifecycle :=
  match s with
  | Idle => LifecycleIdle
  | Starting _ => LifecycleStarting
  | Active _ => LifecycleActive
  | Completed _ => LifecycleCompleted
  end.

Definition is_in_flight (s : DmaTransferState) : bool :=
  match s with Starting _ | Active _ => true | _ => false end.

(** A byte that is due in the current T-cycle. *)
Record DmaTransferWork := mkWork { work_transfer : DmaTransfer; byte_index : Z }.

Definition work_source_address (w : DmaTransferWork) : outcome Z :=
  source_address_for_byte (work_transfer w) (byte_index w).

Definition vram_dma_source_address_is_supported (address : Z) : bool :=
  ((0 <=? address) && (address <=? 0x7FFF)) || ((0xA000 <=? address) && (address <=? 0xDFFF)).

Definition source_read_value_override (w : DmaTransferWork) : outcome (option Z) :=
  match transfer_kind (work_transfer w) with
  | Gdma | Hdma =>
      a ← work_source_address w;
      mret (if vram_dma_source_address_is_supported a then None
            else Some VRAM_DMA_INVALID_SOURCE_READ_VALUE)
  | Oam => mret None
  end.

Definition work_destination_address (w : DmaTransferWork) : outcome Z :=
  destination_address_for_byte (work_transfer w) (byte_index w).

(** ** The HBlank window *)

Inductive VramDmaHBlankWindow := WindowNone | LcdDisabled | VisibleHBlank (ly : Z).

#[export] Instance VramDmaHBlankWindow_eq_dec : EqDecision VramDmaHBlankWindow.
Proof. solve_decision. Defined.

Definition from_ppu_bus_state (ppu : PpuBusState) (ly line_dot mode0_start_dot : Z)
    : outcome VramDmaHBlankWindow :=
  if negb (is_lcd_enabled ppu) then mret LcdDisabled
  else if (ly <? 144) && bool_decide (ppu_mode ppu = HBlank) then
    threshold ← checked_add_u16 mode0_start_dot 2;
    mret (if threshold <? line_dot then VisibleHBlank ly else WindowNone)
  else mret WindowNone.

Record VramDmaRuntimeContext := mkRuntime {
  ppu_bus_state : PpuBusState;
  ppu_ly : Z;
  ppu_line_dot : Z;
  ppu_mode0_start_dot : Z;
  cpu_halted : bool;
  speed_mode : CgbSpeedMode
}.

Definition new_for_speed (ppu_bus_state : PpuBusState) (ppu_ly : Z) (cpu_halted : bool)
    (speed_mode : CgbSpeedMode) : VramDmaRuntimeContext :=
  mkRuntime ppu_bus_state ppu_ly 3 0 cpu_halted speed_mode.
Definition runtime_new (ppu_bus_state : PpuBusState) (ppu_ly : Z) (cpu_halted : bool) : VramDmaRuntimeContext :=
  new_for_speed ppu_bus_state ppu_ly cpu_halted Normal.
Definition runtime_default : VramDmaRuntimeContext := runtime_new lcd_disabled 0 false.

Definition hblank_window (c : VramDmaRuntimeContext) : outcome VramDmaHBlankWindow :=
  from_ppu_bus_state (ppu_bus_state c) (ppu_ly c) (ppu_line_dot c) (ppu_mode0_start_dot c).

(** ** The controller *)

Record DmaController := mkDma {
  dma_console_model : ConsoleModel;
  source_page_latch : Z;
  transfer_state : DmaTransferState;
  pending_restart : option DmaTransferProgress;
  vram_dma_registers : VramDmaRegisters;
  vram_dma_state : VramDmaState;
  vram_dma_last_served_window : VramDmaHBlankWindow
}.

#[export] Instance upd_source_page_latch : Update source_page_latch := fun v d =>
  let '(mkDma m _ t p r s w) := d in mkDma m v t p r s w.
#[export] Instance upd_transfer_state : Update transfer_state := fun v d =>
  let '(mkDma m l _ p r s w) := d in mkDma m l v p r s w.
#[export] Instance upd_pending_restart : Update pending_restart := fun v d =>
  let '(mkDma m l t _ r s w) := d in mkDma m l t v r s w.
#[export] Instance upd_vram_dma_registers : Update vram_dma_registers := fun v d =>
  let '(mkDma m l t p _ s w) := d in mkDma m l t p v s w.
#[export] Instance upd_vram_dma_state : Update vram_dma_state := fun v d =>
  let '(mkDma m l t p r _ w) := d in mkDma m l t p r v w.
#[export] Instance upd_vram_dma_last_served_window : Update vram_dma_last_served_window := fun v d =>
  let '(mkDma m l t p r s _) := d in mkDma m l t p r s v.

Definition dma_new (m : ConsoleModel) : DmaController :=
  mkDma m 0 Idle None vram_dma_registers_default vram_dma_state_default WindowNone.

Definition current_transfer (d : DmaController) : option DmaTransfer := state_current_transfer (transfer_state d).
Definition transfer_progress (d : DmaController) : option DmaTransferProgress := state_progress (transfer_state d).
Definition transfer_lifecycle (d : DmaController) : DmaTransferLifecycle := state_lifecycle (transfer_state d).
Definition has_in_flight_transfer (d : DmaController) : bool := is_in_flight (transfer_state d).

Definition requires_t_cycle_tick (d : DmaController) : bool :=
  is_in_flight (transfer_state d) || bool_decide (is_Some (pending_restart d)) || vram_is_active (vram_dma_state d).

Definition progress_bus_state (m : ConsoleModel) (p : DmaTransferProgress) : outcome DmaBusState :=
  let impact := Some (memory_region_impact (transfer p)) in
  if negb (is_cpu_bus_restriction_active p) then mret unrestricted
  else match transfer_kind (transfer p) with
  | Gdma | Hdma => mret (video_bus_blocked impact)
  | Oam =>
      conflict ← (if 0 <? completed_bytes p
                  then a ← source_address_for_byte (transfer p) (completed_bytes p - 1); mret (Some a)
                  else mret None);
      b ← source_bus (transfer p);
      mret (with_cpu_conflict_source_address conflict
        match b with
        | SourceExternal => if is_cgb_family m then external_bus_only_blocked impact else external_bus_blocked impact
        | SourceVideoRam => video_bus_blocked impact
        | SourceWorkRam => if is_cgb_family m then wram_bus_blocked impact else external_bus_blocked impact
        end)
  end.

Definition dma_bus_state (d : DmaController) : outcome DmaBusState :=
  match transfer_state d with
  | Idle | Completed _ => mret unrestricted
  | Starting progress | Active progress => progress_bus_state (dma_console_model d) progress
  end.

Record DmaTransferStatusView := mkStatusView {
  view_lifecycle : DmaTransferLifecycle;
  view_transfer : option DmaTransfer;
  view_progress : option DmaTransferProgress;
  view_bus_state : DmaBusState
}.

Definition transfer_status (d : DmaController) : outcome DmaTransferStatusView :=
  b ← dma_bus_state d;
  mret (mkStatusView (transfer_lifecycle d) (current_transfer d) (transfer_progress d) b).

Definition cpu_stall_active (d : DmaController) : bool :=
  if negb (is_in_flight (transfer_state d)) then false
  else match state_progress (transfer_state d) with
  | None => false
  | Some progress =>
      if negb (is_cpu_bus_restriction_active progress) then false
      else match cpu_impact_policy (transfer progress) with
      | CpuFullyStalledUntilDone | CpuStalledPerBlock => true
      | NoCpuStallButBusRestriction => false
      end
  end.

(** *** Register writes *)

Definition read_ff46 (d : DmaController) : Z := source_page_latch d.

Definition write_ff46_for_speed (value : Z) (speed_mode : CgbSpeedMode) (d : DmaController) : DmaController :=
  let d := d <| source_page_latch := value |> in
  let speed_mode := if is_cgb_family (dma_console_model d) then speed_mode else Normal in
  let restarted_transfer := progress_new (oam_for_speed value speed_mode) in
  if is_in_flight (transfer_state d) then d <| pending_restart := Some restarted_transfer |>
  else d <| transfer_state := Starting restarted_transfer |> <| pending_restart := None |>.

Definition write_ff46 (value : Z) : DmaController -> DmaController := write_ff46_for_speed value Normal.

Definition read_hdma5 (d : DmaController) : Z := state_read_hdma5 (vram_dma_state d).

Definition write_hdma1 (value : Z) (d : DmaController) : DmaController :=
  d <| vram_dma_registers := registers_write_hdma1 value (vram_dma_registers d) |>.
Definition write_hdma2 (value : Z) (d : DmaController) : DmaController :=
  d <| vram_dma_registers := registers_write_hdma2 value (vram_dma_registers d) |>.
Definition write_hdma3 (value : Z) (d : DmaController) : DmaController :=
  d <| vram_dma_registers := registers_write_hdma3 value (vram_dma_registers d) |>.
Definition write_hdma4 (value : Z) (d : DmaController) : DmaController :=
  d <| vram_dma_registers := registers_write_hdma4 value (vram_dma_registers d) |>.

Definition cancel_hblank (value : Z) (d : DmaController) : DmaController :=
  let d := d <| vram_dma_state := VramInactive (Z.land value HDMA5_TRANSFER_LENGTH_MASK) |> in
  match transfer_kind <$> state_current_transfer (transfer_state d) with
  | Some Hdma => d <| transfer_state := Idle |>
  | _ => d
  end.

Definition write_hdma5_for_speed (value : Z) (speed_mode : CgbSpeedMode) (d : DmaController) : DmaController :=
  match vram_dma_state d with
  | HBlankActive _ => if Z.land value HDMA5_MODE_BIT =? 0 then cancel_hblank value d else d
  | _ =>
      let blocks := Z.land value HDMA5_TRANSFER_LENGTH_MASK + 1 in
      if Z.land value HDMA5_MODE_BIT =? 0 then
        let transfer := vram_transfer_new ModeGeneralPurpose (vram_dma_registers d) blocks in
        d <| vram_dma_state := GeneralPurposeActive transfer |>
          <| vram_dma_last_served_window := WindowNone |>
          <| transfer_state := Starting (progress_new (gdma_for_speed transfer speed_mode)) |>
          <| pending_restart := None |>
      else
        d <| vram_dma_state := HBlankActive (vram_transfer_new ModeHBlank (vram_dma_registers d) blocks) |>
          <| vram_dma_last_served_window := WindowNone |>
  end.

Definition write_hdma5 (value : Z) : DmaController -> DmaController := write_hdma5_for_speed value Normal.

Definition apply_startup_state (source_page : Z) (d : DmaController) : DmaController :=
  d <| source_page_latch := source_page |> <| transfer_state := Idle |> <| pending_restart := None |>
    <| vram_dma_registers := vram_dma_registers_default |> <| vram_dma_state := vram_dma_state_default |>
    <| vram_dma_last_served_window := WindowNone |>.

(** *** One T-cycle *)

Definition start_hdma_block_if_eligible (ctx : VramDmaRuntimeContext) (d : DmaController) : outcome DmaController :=
  if is_in_flight (transfer_state d) || cpu_halted ctx then mret d
  else match vram_dma_state d with
  | HBlankActive transfer =>
      window ← hblank_window ctx;
      mret (if bool_decide (window = WindowNone) || bool_decide (vram_dma_last_served_window d = window) then d
            else
              d <| vram_dma_last_served_window := window |>
                <| transfer_state := Starting (progress_new (hdma_block_for_speed transfer (speed_mode ctx))) |>)
  | _ => mret d
  end.

Definition advance_transfer_state (s : DmaTransferState) : DmaTransferState :=
  match s with
  | Idle => Idle
  | Completed progress =>
      match transfer_kind (transfer progress) with
      | Gdma | Hdma =>
          if has_unpublished_completed_blocks progress then Completed (advance_one_t_cycle progress)
          else Completed progress
      | Oam => Completed progress
      end
  | Starting progress =>
      let advanced_progress := advance_one_t_cycle progress in
      if is_cpu_bus_restriction_active advanced_progress then Active advanced_progress
      else Starting advanced_progress
  | Active progress =>
      let advanced_progress := advance_one_t_cycle progress in
      if is_complete advanced_progress then Completed advanced_progress else Active advanced_progress
  end.

Definition apply_published_blocks (t : DmaTransfer) (blocks : Z) (d : DmaController) : DmaController :=
  match vram_dma_state d, transfer_kind t with
  | GeneralPurposeActive active, Gdma =>
      let updated := advance_completed_blocks blocks active in
      d <| vram_dma_registers := set_endpoints (vram_source_start updated) (vram_destination_start updated) |>
        <| vram_dma_state := if vram_remaining_blocks updated =? 0
                             then GeneralPurposeComplete updated else GeneralPurposeActive updated |>
  | HBlankActive active, Hdma =>
      let updated := advance_completed_blocks blocks active in
      d <| vram_dma_registers := set_endpoints (vram_source_start updated) (vram_destination_start updated) |>
        <| vram_dma_state := if vram_remaining_blocks updated =? 0
                             then VramInactive HDMA5_TRANSFER_LENGTH_MASK else HBlankActive updated |>
  | _, _ => d
  end.

Definition apply_vram_dma_progress_side_effects (previous_state current_state : DmaTransferState)
    (d : DmaController) : outcome DmaController :=
  match state_progress current_state with
  | None => mret d
  | Some current_progress =>
      match transfer_kind (transfer current_progress) with
      | Oam => mret d
      | Gdma | Hdma =>
          blocks ← checked_sub_u16 (published_completed_blocks current_progress)
                     (from_option published_completed_blocks 0 (state_progress previous_state));
          mret (if blocks =? 0 then d
                else apply_published_blocks (transfer current_progress) blocks d)
      end
  end.

Definition transfer_work_for_current_t_cycle (previous_state current_state : DmaTransferState)
    : option DmaTransferWork :=
  previous_progress ← state_progress previous_state;
  current_progress ← state_progress current_state;
  if completed_bytes current_progress <=? completed_bytes previous_progress then None
  else Some (mkWork (transfer current_progress) (completed_bytes current_progress - 1)).

Definition tick_transfer (d : DmaController) : outcome (option DmaTransferWork * DmaController) :=
  let previous_state := transfer_state d in
  let d := d <| transfer_state := advance_transfer_state previous_state |> in
  let transfer_work := transfer_work_for_current_t_cycle previous_state (transfer_state d) in
  d ← apply_vram_dma_progress_side_effects previous_state (transfer_state d) d;
  mret (transfer_work, d).

Definition tick_t_cycle_with_vram_dma_context (ctx : VramDmaRuntimeContext) (d : DmaController)
    : outcome (option DmaTransferWork * DmaController) :=
  d ← start_hdma_block_if_eligible ctx d;
  match pending_restart d with
  | Some pending =>
      let advanced_restart := advance_one_t_cycle pending in
      if negb (is_cpu_bus_restriction_active advanced_restart)
      then tick_transfer (d <| pending_restart := Some advanced_restart |>)
      else mret (None, (d <| pending_restart := None |>) <| transfer_state := Active advanced_restart |>)
  | None => tick_transfer d
  end.

(** ** Invariant

    Every transfer comes from [FF46] or from an HDMA transfer whose
    destination stays inside video RAM. *)

Definition vram_transfer_ok (v : VramDmaTransfer) : Prop :=
  u16 (vram_source_start v) /\ vram_source_start v mod 16 = 0 /\
  0x8000 <= vram_destination_start v /\ vram_destination_start v mod 16 = 0 /\
  0 <= vram_remaining_blocks v <= vram_total_blocks v /\ vram_total_blocks v <= 128 /\
  vram_destination_start v + vram_remaining_bytes v <= 0xA000.

Definition transfer_ok (t : DmaTransfer) : Prop :=
  (exists page s, u8 page /\ t = oam_for_speed page s) \/
  (exists v s, vram_transfer_ok v /\ 1 <= vram_remaining_blocks v /\
     (t = gdma_for_speed v s \/ t = hdma_block_for_speed v s)).

Definition progress_ok (p : DmaTransferProgress) : Prop :=
  transfer_ok (transfer p) /\ 0 <= elapsed_t_cycles p <= 65535.

Definition restart_ok (p : DmaTransferProgress) : Prop :=
  (exists page s, u8 page /\ transfer p = oam_for_speed page s) /\ 0 <= elapsed_t_cycles p < 5.

Definition option_ok {A} (P : A -> Prop) (o : option A) : Prop := match o with Some a => P a | None => True end.

Definition registers_ok (r : VramDmaRegisters) : Prop :=
  u8 (source_high r) /\ u8 (source_low r) /\ source_low r mod 16 = 0 /\
  0 <= destination_high r < 32 /\ u8 (destination_low r) /\ destination_low r mod 16 = 0.

Definition vram_state_ok (s : VramDmaState) : Prop :=
  match s with
  | VramInactive low => u8 low
  | GeneralPurposeActive v | HBlankActive v => vram_transfer_ok v /\ 1 <= vram_remaining_blocks v
  | GeneralPurposeComplete v => vram_transfer_ok v
  end.

Record dma_ok (d : DmaController) : Prop := {
  dma_latch_ok : u8 (source_page_latch d);
  dma_progress_ok : option_ok progress_ok (state_progress (transfer_state d));
  dma_restart_ok : option_ok restart_ok (pending_restart d);
  dma_registers_ok : registers_ok (vram_dma_registers d);
  dma_vram_ok : vram_state_ok (vram_dma_state d)
}.

(** ** Arithmetic of the registers *)

Lemma checked_add_u16_done a b : a + b < 65536 -> checked_add_u16 a b = Done (a + b).
Proof. intros H. unfold checked_add_u16. destruct (Z.ltb_spec (a + b) 65536); [done|lia]. Qed.

Lemma land_F0 x : u8 x -> Z.land x 0xF0 = x - x mod 16.
Proof.
  intros Hx. apply Z.eqb_eq.
  apply (forall_below 256 (fun x => Z.land x 0xF0 =? x - x mod 16)); [vm_compute; done|done].
Qed.

Lemma lor_80 x : 0 <= x < 32 -> Z.lor 0x80 x = 0x80 + x.
Proof.
  intros Hx. apply Z.eqb_eq.
  apply (forall_below 32 (fun x => Z.lor 0x80 x =? 0x80 + x)); [vm_compute; done|done].
Qed.

Lemma registers_source r : registers_ok r -> registers_source_start r = source_high r * 256 + source_low r.
Proof.
  intros (Hh & Hl & _). unfold registers_source_start.
  rewrite Z.lor_comm, lor_shiftl_bytes by done. reflexivity.
Qed.

Lemma registers_destination r :
  registers_ok r -> registers_destination_start r = 0x8000 + destination_high r * 256 + destination_low r.
Proof.
  intros (_ & _ & _ & Hh & Hl & _). unfold registers_destination_start.
  rewrite (eq_refl : 0x8000 = Z.shiftl 0x80 8) at 1. rewrite <- Z.shiftl_lor, lor_80, Z.lor_comm by done.
  rewrite lor_shiftl_bytes by (unfold u8 in *; lia). unfold from_be_bytes. lia.
Qed.

Lemma set_endpoints_values s t :
  u16 s -> u16 t ->
  set_endpoints s t = mkVramRegs (s / 256) (s mod 256 - s mod 16) (t / 256 mod 32) (t mod 256 - t mod 16).
Proof.
  unfold u16, set_endpoints, as_u8. intros Hs Ht. rewrite !land_F0, land_1F by apply u8_mod.
  rewrite !Z.shiftr_div_pow2 by lia. f_equal; divmod_lia.
Qed.

Lemma set_endpoints_ok s t : u16 s -> u16 t -> registers_ok (set_endpoints s t).
Proof.
  intros Hs Ht. rewrite set_endpoints_values by done. unfold registers_ok, u8, u16 in *; simpl.
  repeat split; divmod_lia.
Qed.

Lemma set_endpoints_source s t :
  u16 s -> u16 t -> s mod 16 = 0 -> registers_source_start (set_endpoints s t) = s.
Proof.
  intros Hs Ht Hm. rewrite registers_source by (by apply set_endpoints_ok).
  rewrite set_endpoints_values by done. simpl. unfold u16 in *. divmod_lia.
Qed.

Lemma set_endpoints_destination s t :
  u16 s -> u16 t -> t mod 16 = 0 -> registers_destination_start (set_endpoints s t) = 0x8000 + t mod 0x2000.
Proof.
  intros Hs Ht Hm. rewrite registers_destination by (by apply set_endpoints_ok).
  rewrite set_endpoints_values by done. simpl. unfold u16 in *. divmod_lia.
Qed.

Lemma vram_transfer_new_ok mode r blocks :
  registers_ok r -> 1 <= blocks <= 128 ->
  vram_transfer_ok (vram_transfer_new mode r blocks) /\ 1 <= vram_remaining_blocks (vram_transfer_new mode r blocks).
Proof.
  intros Hr Hb. pose proof (registers_source r Hr) as Hs. pose proof (registers_destination r Hr) as Hd.
  destruct Hr as (Hsh & Hsl & Hsm & Hdh & Hdl & Hdm). unfold u8 in *.
  assert (Hk : 1 <= clip_vram_dma_blocks_for_destination (registers_destination_start r) blocks <= 128 /\
    registers_destination_start r +
      clip_vram_dma_blocks_for_destination (registers_destination_start r) blocks * 16 <= 0xA000).
  { unfold clip_vram_dma_blocks_for_destination, VRAM_DMA_DESTINATION_END, VRAM_DMA_BLOCK_BYTES.
    rewrite Hd. case_tests; prune; divmod_lia. }
  unfold vram_transfer_ok, vram_remaining_bytes, VRAM_DMA_BLOCK_BYTES, vram_transfer_new, u16; cbn [
    vram_source_start vram_destination_start vram_total_blocks vram_remaining_blocks].
  rewrite Hs. rewrite Hd in *. repeat split; try lia; divmod_lia.
Qed.

Lemma advance_completed_blocks_small n v :
  vram_transfer_ok v -> 0 <= n <= vram_remaining_blocks v ->
  vram_source_start (advance_completed_blocks n v) = (vram_source_start v + 16 * n) mod 65536 /\
  vram_destination_start (advance_completed_blocks n v) = vram_destination_start v + 16 * n /\
  vram_remaining_blocks (advance_completed_blocks n v) = vram_remaining_blocks v - n.
Proof.
  intros (Hs & Hsm & Hd & Hdm & Hr & Ht & He) Hn.
  unfold advance_completed_blocks, wrapping_add16, vram_remaining_bytes, VRAM_DMA_BLOCK_BYTES in *.
  destruct (Z.ltb_spec (vram_remaining_blocks v) n); [lia|]. cbn.
  split; [f_equal; lia|]. split; [|done]. rewrite Z.mod_small by lia. lia.
Qed.

Lemma advance_completed_blocks_ok n v :
  vram_transfer_ok v -> 0 <= n -> vram_transfer_ok (advance_completed_blocks n v).
Proof.
  intros Hv Hn.
  assert (H : exists m, 0 <= m <= vram_remaining_blocks v /\
    advance_completed_blocks n v = advance_completed_blocks m v).
  { destruct Hv as (_ & _ & _ & _ & Hr & _).
    exists (if vram_remaining_blocks v <? n then vram_remaining_blocks v else n).
    split; [case_tests; prune; lia|]. unfold advance_completed_blocks.
    destruct (Z.ltb_spec (vram_remaining_blocks v) n); [|case_tests; prune; [lia|done]].
    by rewrite Z.ltb_irrefl. }
  destruct H as (m & Hm & ->). pose proof (advance_completed_blocks_small m v Hv Hm) as (E1 & E2 & E3).
  destruct Hv as (Hs & Hsm & Hd & Hdm & Hr & Ht & He).
  unfold vram_transfer_ok, vram_remaining_bytes, VRAM_DMA_BLOCK_BYTES, u16 in *. rewrite E1, E2, E3.
  change (vram_total_blocks (advance_completed_blocks m v)) with (vram_total_blocks v).
  repeat split; try lia; divmod_lia.
Qed.

(** ** Bytes and blocks as closed forms of the elapsed time *)

(** A VRAM transfer of [k] blocks with one byte every [c] T-cycles. *)
Record vram_shape (t : DmaTransfer) (k c : Z) : Prop := {
  shape_kind : transfer_kind t <> Oam;
  shape_blocks : 1 <= k <= 128;
  shape_speed : c = 2 \/ c = 4;
  shape_bytes : total_bytes t = 16 * k;
  shape_block_size : block_size t = 16;
  shape_timing : timing t = mkTiming (16 * k * c + 5) c 0 c;
  shape_policy : cpu_impact_policy t <> NoCpuStallButBusRestriction
}.

Definition speed_cycles (s : CgbSpeedMode) : Z := match s with Normal => 2 | Double => 4 end.

Lemma vram_dma_timing_shape n s :
  1 <= n -> vram_dma_timing n s = mkTiming (n * speed_cycles s + 5) (speed_cycles s) 0 (speed_cycles s).
Proof.
  intros Hn. unfold vram_dma_timing, vram_dma_body_t_cycles.
  unfold vram_dma_first_byte_delay_t_cycles, vram_dma_t_cycles_per_byte, speed_cycles,
    VRAM_DMA_NORMAL_SPEED_FIRST_BYTE_DELAY_T_CYCLES, VRAM_DMA_NORMAL_SPEED_T_CYCLES_PER_BYTE,
    VRAM_DMA_CPU_RELEASE_T_CYCLES, VRAM_DMA_CPU_BUS_RESTRICTION_DELAY_T_CYCLES.
  destruct (Z.eqb_spec n 0); [lia|]. destruct s; f_equal; lia.
Qed.

Lemma gdma_shape v s :
  vram_transfer_ok v -> 1 <= vram_remaining_blocks v ->
  vram_shape (gdma_for_speed v s) (vram_remaining_blocks v) (speed_cycles s).
Proof.
  intros (_ & _ & _ & _ & Hr & Ht & _) Hk. unfold gdma_for_speed.
  constructor; cbn [transfer_kind total_bytes block_size timing cpu_impact_policy];
    unfold vram_remaining_bytes, VRAM_DMA_BLOCK_BYTES; try done; try lia.
  - destruct s; cbn; auto.
  - rewrite vram_dma_timing_shape by lia. f_equal; lia.
Qed.

Lemma hdma_shape v s : vram_shape (hdma_block_for_speed v s) 1 (speed_cycles s).
Proof.
  constructor; cbn [hdma_block_for_speed transfer_kind total_bytes block_size timing cpu_impact_policy];
    try done; try lia.
  - destruct s; cbn; auto.
  - by destruct s.
Qed.

Lemma transfer_ok_cases t :
  transfer_ok t ->
  (exists page s, u8 page /\ t = oam_for_speed page s) \/ (exists k c, vram_shape t k c).
Proof.
  intros [?|(v & s & Hv & Hk & [-> | ->])]; [by left|right..].
  - eexists _, _. by apply gdma_shape.
  - eexists _, _. apply hdma_shape.
Qed.

Lemma oam_completed_bytes page s e :
  0 <= e -> completed_bytes (mkProgress (oam_for_speed page s) e) = Z.max 0 (Z.min 160 (e / 4 - 1)).
Proof.
  intros He. unfold completed_bytes, oam_for_speed. cbn.
  unfold OAM_DMA_FIRST_BYTE_DELAY_T_CYCLES, OAM_DMA_T_CYCLES_PER_BYTE, OAM_DMA_TRANSFER_BYTES.
  case_tests; prune; divmod_lia.
Qed.

Lemma vram_completed_bytes t k c e :
  vram_shape t k c -> 0 <= e -> completed_bytes (mkProgress t e) = Z.min (16 * k) (e / c).
Proof.
  intros [Hkind Hk Hc Hn Hb Ht _] He. unfold completed_bytes. cbn. rewrite Ht, Hn. cbn.
  destruct Hc as [-> | ->]; case_tests; prune; divmod_lia.
Qed.

Lemma vram_completed_blocks t k c e :
  vram_shape t k c -> 0 <= e -> completed_blocks (mkProgress t e) = Z.min k (e / (16 * c)).
Proof.
  intros Hs He. unfold completed_blocks. rewrite (vram_completed_bytes t k c) by done.
  destruct Hs as [Hkind Hk Hc Hn Hb Ht _]. cbn. rewrite Hb.
  destruct Hc as [-> | ->]; divmod_lia.
Qed.

Lemma vram_published_blocks t k c e :
  vram_shape t k c -> 0 <= e ->
  published_completed_blocks (mkProgress t e) = Z.max 0 (Z.min k ((e - 12) / (16 * c))).
Proof.
  intros Hs He. unfold published_completed_blocks. cbv zeta.
  rewrite (vram_completed_blocks t k c) by done.
  destruct Hs as [Hkind Hk Hc Hn Hb Ht _]. cbn. rewrite Hb, Ht. cbn.
  unfold VRAM_DMA_PUBLICATION_T_CYCLES.
  destruct Hc as [-> | ->]; case_tests; prune; divmod_lia.
Qed.

Lemma completed_bytes_next t e :
  transfer_ok t -> 0 <= e ->
  completed_bytes (mkProgress t (e + 1)) = completed_bytes (mkProgress t e) \/
  completed_bytes (mkProgress t (e + 1)) = completed_bytes (mkProgress t e) + 1.
Proof.
  intros Ht He. destruct (transfer_ok_cases t Ht) as [(page & s & _ & ->)|(k & c & Hs)].
  - rewrite !oam_completed_bytes by lia. divmod_lia.
  - rewrite !(vram_completed_bytes t k c) by (done || lia).
    destruct Hs as [_ Hk Hc _ _ _ _]. destruct Hc as [-> | ->]; divmod_lia.
Qed.

Lemma completed_bytes_range t e :
  transfer_ok t -> 0 <= e -> 0 <= completed_bytes (mkProgress t e) <= total_bytes t.
Proof.
  intros Ht He. destruct (transfer_ok_cases t Ht) as [(page & s & _ & ->)|(k & c & Hs)].
  - rewrite !oam_completed_bytes by lia. cbn. unfold OAM_DMA_TRANSFER_BYTES. lia.
  - rewrite !(vram_completed_bytes t k c) by (done || lia).
    destruct Hs as [_ Hk Hc Hn _ _ _]. rewrite Hn. destruct Hc as [-> | ->]; divmod_lia.
Qed.

Lemma total_bytes_range t : transfer_ok t -> 1 <= total_bytes t <= 2048.
Proof.
  intros Ht. destruct (transfer_ok_cases t Ht) as [(page & s & _ & ->)|(k & c & [])].
  - cbn. unfold OAM_DMA_TRANSFER_BYTES. lia.
  - lia.
Qed.

(** Publishing never goes back, and by at most one block per T-cycle. *)
Lemma published_next t k c e :
  vram_shape t k c -> 0 <= e ->
  0 <= published_completed_blocks (mkProgress t (e + 1)) - published_completed_blocks (mkProgress t e) <= 1.
Proof.
  intros Hs He. rewrite !(vram_published_blocks t k c) by (done || lia).
  destruct Hs as [_ Hk Hc _ _ _ _]. destruct Hc as [-> | ->]; divmod_lia.
Qed.

(** ** Every operation keeps the invariant *)

Lemma advance_one_ok p : progress_ok p -> progress_ok (advance_one_t_cycle p).
Proof. intros [Ht He]. split; [done|]. cbn. lia. Qed.

Lemma progress_new_ok t : transfer_ok t -> progress_ok (progress_new t).
Proof. intros Ht. split; [done|]. cbn. lia. Qed.

Lemma oam_transfer_ok page s : u8 page -> transfer_ok (oam_for_speed page s).
Proof. intros Hp. left. eauto. Qed.

Lemma restart_progress_ok p : restart_ok p -> progress_ok p.
Proof. intros [(page & s & Hp & Ht) He]. split; [rewrite Ht; by apply oam_transfer_ok | lia]. Qed.

Lemma registers_default_ok : registers_ok vram_dma_registers_default.
Proof. repeat split; done. Qed.

Lemma dma_new_ok m : dma_ok (dma_new m).
Proof. by split. Qed.

Lemma dma_apply_startup_state_ok page d : u8 page -> dma_ok d -> dma_ok (apply_startup_state page d).
Proof.
  intros Hp H. destruct d. by split.
Qed.

Lemma write_ff46_ok v s d : u8 v -> dma_ok d -> dma_ok (write_ff46_for_speed v s d).
Proof.
  intros Hv [Hl Ht Hp Hr Hs]. destruct d as [m l t p r vs w]. cbn in *.
  unfold write_ff46_for_speed. cbn.
  assert (forall s, restart_ok (progress_new (oam_for_speed v s))).
  { intros s'. split; [eauto|]. cbn. lia. }
  destruct (is_in_flight t); split; cbn; try done; try apply H; by apply restart_progress_ok.
Qed.

Lemma write_hdma_registers_ok v d :
  u8 v -> dma_ok d ->
  dma_ok (write_hdma1 v d) /\ dma_ok (write_hdma2 v d) /\ dma_ok (write_hdma3 v d) /\ dma_ok (write_hdma4 v d).
Proof.
  intros Hv [Hl Ht Hp (H1 & H2 & H2' & H3 & H4 & H4') Hs]. destruct d as [m l t p r vs w]. cbn in *.
  assert (Hm : u8 (Z.land v 0xF0) /\ Z.land v 0xF0 mod 16 = 0).
  { rewrite land_F0 by done. unfold u8 in *. divmod_lia. }
  assert (Hm' : 0 <= Z.land v 0x1F < 32) by (rewrite land_1F; apply Z.mod_pos_bound; lia).
  split_and!; (split; cbn [source_page_latch transfer_state pending_restart vram_dma_registers vram_dma_state];
    [done | done | done | unfold registers_ok; cbn; tauto | done]).
Qed.

Lemma write_hdma5_ok v s d : u8 v -> dma_ok d -> dma_ok (write_hdma5_for_speed v s d).
Proof.
  intros Hv [Hl Ht Hp Hr Hs]. destruct d as [m l t p r vs w]. cbn in *.
  assert (Hb : 1 <= Z.land v HDMA5_TRANSFER_LENGTH_MASK + 1 <= 128).
  { unfold HDMA5_TRANSFER_LENGTH_MASK. rewrite land_7F. divmod_lia. }
  assert (Hlow : u8 (Z.land v HDMA5_TRANSFER_LENGTH_MASK)) by (by apply u8_land).
  pose proof (fun mode => vram_transfer_new_ok mode r _ Hr Hb) as Hnew.
  unfold write_hdma5_for_speed, cancel_hblank. cbn.
  destruct vs; case_tests; try (split; cbn; try done; try apply Hnew;
    apply progress_new_ok; right; eexists _, _; split_and!; try apply Hnew; by left).
  destruct (transfer_kind <$> state_current_transfer t) as [[]|]; by split.
Qed.

(** Contexts whose mode-0 dot is far enough from the end of [u16]. *)
Definition context_ok (ctx : VramDmaRuntimeContext) : Prop := 0 <= ppu_mode0_start_dot ctx <= 0xFFFD.

Lemma hblank_window_done ctx : context_ok ctx -> exists w, hblank_window ctx = Done w.
Proof.
  unfold context_ok, hblank_window, from_ppu_bus_state. intros Hc.
  destruct (negb _); [by eexists|]. destruct (_ && _); [|by eexists].
  rewrite checked_add_u16_done by lia. by eexists.
Qed.

Lemma start_hdma_block_ok ctx d :
  context_ok ctx -> dma_ok d -> finishes (start_hdma_block_if_eligible ctx d) dma_ok.
Proof.
  intros Hc Hd. pose proof Hd as [Hl Ht Hp Hr Hs]. unfold start_hdma_block_if_eligible.
  destruct (_ || _); [done|]. destruct (vram_dma_state d) eqn:Ev; try done.
  destruct (hblank_window_done ctx Hc) as [window ->]. cbn.
  destruct (_ || _); [done|]. destruct d as [m l t p r vs w]. cbn in *. subst.
  split; cbn; try done. apply progress_new_ok. right. eexists _, _. split_and!; [apply Hs|apply Hs|by right].
Qed.

Lemma advance_transfer_state_ok s :
  option_ok progress_ok (state_progress s) -> option_ok progress_ok (state_progress (advance_transfer_state s)).
Proof.
  intros Hs. destruct s as [|p|p|p]; cbn in Hs; [done|..]; pose proof (advance_one_ok p Hs); cbn.
  - by case_tests.
  - by case_tests.
  - destruct (transfer_kind (transfer p)); case_tests; done.
Qed.

Lemma updated_endpoints_ok v :
  vram_transfer_ok v -> registers_ok (set_endpoints (vram_source_start v) (vram_destination_start v)).
Proof.
  intros (Hs & _ & Hd & _ & Hr & _ & He). unfold vram_remaining_bytes, VRAM_DMA_BLOCK_BYTES in He.
  apply set_endpoints_ok; [done | unfold u16; lia].
Qed.

Lemma apply_published_blocks_ok t n d : 0 <= n -> dma_ok d -> dma_ok (apply_published_blocks t n d).
Proof.
  intros Hn Hd. pose proof Hd as [Hl Ht Hp Hr Hs]. unfold apply_published_blocks.
  destruct (vram_dma_state d) as [|v|v|v] eqn:Ev; [done| |done|];
    destruct (transfer_kind t); try exact Hd; destruct Hs as [Hv _];
    pose proof (advance_completed_blocks_ok n v Hv Hn) as Ha;
    revert Ha; generalize (advance_completed_blocks n v); intros u Ha; cbv zeta;
    pose proof Ha as (_ & _ & _ & _ & Hrem & _);
    destruct d; cbn in Hl, Ht, Hp, Hr |- *; (split; cbn;
      [done | done | done | by apply updated_endpoints_ok|]);
    destruct (Z.eqb_spec (vram_remaining_blocks u) 0); cbn; first [done | by split; [|lia]].
Qed.

(** The previous and the current state of one tick belong to the same transfer. *)
Lemma advance_transfer_state_progress s q :
  state_progress (advance_transfer_state s) = Some q ->
  exists p, state_progress s = Some p /\ (q = p \/ q = advance_one_t_cycle p).
Proof.
  destruct s as [|p|p|p]; cbn; [done|..].
  - case_tests; cbn; intros [= <-]; eauto.
  - case_tests; cbn; intros [= <-]; eauto.
  - destruct (transfer_kind (transfer p)); case_tests; cbn; intros [= <-]; eauto.
Qed.

Lemma published_advance p :
  progress_ok p -> transfer_kind (transfer p) <> Oam ->
  0 <= published_completed_blocks (advance_one_t_cycle p) - published_completed_blocks p <= 1.
Proof.
  destruct p as [t e]. intros [Ht He] Hk. cbn [transfer elapsed_t_cycles] in *.
  destruct (transfer_ok_cases t Ht) as [(page & s & _ & ->)|(k & c & Hs)]; [done|].
  unfold advance_one_t_cycle. cbn [transfer elapsed_t_cycles].
  destruct (Z.ltb_spec e 65535).
  - rewrite Z.min_r by lia. by apply (published_next t k c); [|lia].
  - rewrite Z.min_l by lia. replace e with 65535 by lia. lia.
Qed.

Lemma side_effects_ok s d :
  option_ok progress_ok (state_progress s) -> dma_ok d ->
  finishes (apply_vram_dma_progress_side_effects s (advance_transfer_state s) d)
    (fun d' => dma_ok d' /\ transfer_state d' = transfer_state d /\ pending_restart d' = pending_restart d).
Proof.
  intros Hs Hd. unfold apply_vram_dma_progress_side_effects.
  destruct (state_progress (advance_transfer_state s)) as [q|] eqn:Eq; [|done].
  destruct (advance_transfer_state_progress _ _ Eq) as (p & Ep & Hq). rewrite Ep in *. cbn in Hs |- *.
  assert (Hdiff : transfer_kind (transfer q) <> Oam ->
    0 <= published_completed_blocks q - published_completed_blocks p <= 1).
  { destruct Hq as [-> | ->]; intros Hk; [lia|]. by apply published_advance. }
  unfold checked_sub_u16.
  destruct (transfer_kind (transfer q)) eqn:Ek; [done|..];
    (destruct (Z.leb_spec (published_completed_blocks p) (published_completed_blocks q));
      [|specialize (Hdiff ltac:(done)); lia]; cbn; case_tests; [done|];
      split; [by apply apply_published_blocks_ok; [lia|]|];
      unfold apply_published_blocks; destruct (vram_dma_state d); rewrite ?Ek; by destruct d).
Qed.

Definition work_ok (w : DmaTransferWork) : Prop :=
  transfer_ok (work_transfer w) /\ 0 <= byte_index w < total_bytes (work_transfer w).

Lemma transfer_work_ok s :
  option_ok progress_ok (state_progress s) ->
  option_ok work_ok (transfer_work_for_current_t_cycle s (advance_transfer_state s)).
Proof.
  intros Hs. unfold transfer_work_for_current_t_cycle.
  destruct (state_progress (advance_transfer_state s)) as [q|] eqn:Eq; [|by destruct (state_progress s)].
  destruct (advance_transfer_state_progress _ _ Eq) as (p & Ep & Hq). rewrite Ep in *. cbn in Hs |- *.
  assert (Hq' : progress_ok q) by (destruct Hq as [-> | ->]; [done|by apply advance_one_ok]).
  case_tests; prune; [done|]. destruct q as [t e], p as [t' e']. destruct Hs as [Ht' He'], Hq' as [Ht He].
  cbn [transfer elapsed_t_cycles] in *. split; [done|]. cbn [work_transfer byte_index].
  pose proof (completed_bytes_range t e Ht ltac:(lia)). pose proof (completed_bytes_range t' e' Ht' ltac:(lia)). lia.
Qed.

Lemma tick_transfer_ok d :
  dma_ok d ->
  finishes (tick_transfer d) (fun r => dma_ok r.2 /\ option_ok work_ok r.1 /\
    r.1 = transfer_work_for_current_t_cycle (transfer_state d) (advance_transfer_state (transfer_state d)) /\
    transfer_state r.2 = advance_transfer_state (transfer_state d) /\ pending_restart r.2 = pending_restart d).
Proof.
  intros Hd. pose proof Hd as [Hl Ht Hp Hr Hs]. unfold tick_transfer. apply finishes_bind.
  assert (Hd' : dma_ok (d <| transfer_state := advance_transfer_state (transfer_state d) |>)).
  { destruct d. split; cbn in *; try done. by apply advance_transfer_state_ok. }
  eapply finishes_mono.
  - replace (transfer_state (d <| transfer_state := advance_transfer_state (transfer_state d) |>))
      with (advance_transfer_state (transfer_state d)) by (by destruct d).
    by apply side_effects_ok.
  - cbn. intros d' (Hok & -> & ->). destruct d; cbn in *. split_and!; try done. by apply transfer_work_ok.
Qed.

Lemma dma_tick_ok ctx d :
  context_ok ctx -> dma_ok d ->
  finishes (tick_t_cycle_with_vram_dma_context ctx d) (fun r => dma_ok r.2 /\ option_ok work_ok r.1).
Proof.
  intros Hc Hd0. unfold tick_t_cycle_with_vram_dma_context. apply finishes_bind.
  eapply finishes_mono; [by apply start_hdma_block_ok|]. intros d1 Hd. pose proof Hd as [Hl Ht Hp Hr Hs].
  destruct (pending_restart d1) as [q|] eqn:Eq.
  - cbn in Hp. case_tests.
    + eapply finishes_mono; [apply tick_transfer_ok|by intros ? (? & ? & _)].
      destruct d1; cbn in *. split; cbn; try done.
      destruct Hp as [(page & s & Hpg & Htr) He]. unfold is_cpu_bus_restriction_active in Heqb.
      cbn in Heqb. rewrite Htr in Heqb. cbn in Heqb. unfold OAM_DMA_CPU_BUS_RESTRICTION_DELAY_T_CYCLES in Heqb.
      split; [cbn; rewrite Htr; eauto|]. cbn.
      destruct (Z.leb_spec 5 (Z.min 65535 (elapsed_t_cycles q + 1))); [done|]. lia.
    + apply restart_progress_ok, advance_one_ok in Hp. destruct d1; cbn in *. by split.
  - eapply finishes_mono; [by apply tick_transfer_ok|by intros ? (? & ? & _)].
Qed.

(** ** Addresses of a due byte *)

Lemma oam_source_start page s : source_start (oam_for_speed page s) = page * 256.
Proof. cbn. rewrite Z.shiftl_mul_pow2 by lia. reflexivity. Qed.

Lemma oam_source_address page s i :
  u8 page -> 0 <= i < 160 ->
  source_address_for_byte (oam_for_speed page s) i = Done (normalize_oam_source_address (page * 256 + i)).
Proof.
  intros Hp Hi. unfold source_address_for_byte. rewrite oam_source_start.
  rewrite checked_add_u16_done by (unfold u8 in *; lia). done.
Qed.

Lemma normalize_range a : 0 <= a < 0xFFA0 -> 0 <= normalize_oam_source_address a < 0xE000.
Proof.
  intros Ha. unfold normalize_oam_source_address, DMG_OAM_DMA_ECHO_ALIAS_OFFSET. case_tests; prune; lia.
Qed.

(** The bytes a transfer may write: object memory, or the video RAM. *)
Definition dma_writable (a : Z) : Prop := 0xFE00 <= a < 0xFEA0 \/ 0x8000 <= a < 0xA000.

Lemma work_destination w :
  work_ok w ->
  work_destination_address w = Done (destination_start (work_transfer w) + byte_index w) /\
  dma_writable (destination_start (work_transfer w) + byte_index w).
Proof.
  destruct w as [t i]. intros [Ht Hi]. cbn [work_transfer byte_index] in *.
  unfold work_destination_address, destination_address_for_byte, dma_writable. cbn [work_transfer byte_index].
  destruct Ht as [(page & s & Hp & ->)|(v & s & (_ & _ & Hd & _ & _ & _ & He) & Hk & [-> | ->])];
    cbn [gdma_for_speed hdma_block_for_speed oam_for_speed destination_start total_bytes] in *;
    unfold vram_remaining_bytes, OAM_DMA_TRANSFER_BYTES, VRAM_DMA_BLOCK_BYTES, OAM_DMA_DESTINATION_START in *;
    rewrite checked_add_u16_done by lia; (split; [done | lia]).
Qed.

Lemma conflict_address_ok page s n b :
  u8 page -> 0 <= n <= 160 ->
  finishes (conflict ← (if 0 <? n then a ← source_address_for_byte (oam_for_speed page s) (n - 1); mret (Some a)
                        else mret None);
            mret (with_cpu_conflict_source_address conflict b)) dma_bus_ok.
Proof.
  intros Hp Hn. destruct (Z.ltb_spec 0 n); [|done]. rewrite oam_source_address by (done || lia). cbn.
  pose proof (normalize_range (page * 256 + (n - 1))). unfold dma_bus_ok, u16, u8 in *. cbn. lia.
Qed.

Lemma progress_bus_state_ok m p : progress_ok p -> finishes (progress_bus_state m p) dma_bus_ok.
Proof.
  destruct p as [t e]. intros [Hok He]. cbn [transfer elapsed_t_cycles] in *. unfold progress_bus_state. cbv zeta.
  destruct (negb _); [done|]. cbn [transfer].
  destruct (transfer_ok_cases t Hok) as [(page & s & Hp & ->)|(k & c & Hs)].
  - change (transfer_kind (oam_for_speed page s)) with Oam. cbv iota.
    pose proof (completed_bytes_range _ e (oam_transfer_ok page s Hp) ltac:(lia)) as Hc.
    revert Hc. generalize (completed_bytes (mkProgress (oam_for_speed page s) e)). intros n Hc.
    unfold source_bus. rewrite (oam_source_address page s 0) by (done || lia).
    cbn -[source_address_for_byte]. by apply (conflict_address_ok page s n).
  - destruct (transfer_kind t) eqn:Ek; [by destruct (shape_kind _ _ _ Hs)|done..].
Qed.

(** The bus state is published without a panic and names an address of the bus. *)
Lemma dma_bus_state_ok d : dma_ok d -> finishes (dma_bus_state d) dma_bus_ok.
Proof.
  intros [_ Ht _ _ _]. unfold dma_bus_state.
  destruct (transfer_state d); cbn in Ht; try done; by apply progress_bus_state_ok.
Qed.

(** ** Any sequence of operations *)

Inductive dma_op :=
| WriteFf46 (value : Z) (speed : CgbSpeedMode)
| WriteHdma1 (value : Z) | WriteHdma2 (value : Z) | WriteHdma3 (value : Z) | WriteHdma4 (value : Z)
| WriteHdma5 (value : Z) (speed : CgbSpeedMode)
| Startup (source_page : Z)
| Tick (ctx : VramDmaRuntimeContext).

Definition valid_dma_op (o : dma_op) : Prop :=
  match o with
  | WriteFf46 v _ | WriteHdma1 v | WriteHdma2 v | WriteHdma3 v | WriteHdma4 v | WriteHdma5 v _ | Startup v => u8 v
  | Tick ctx => context_ok ctx
  end.

Definition dma_step (o : dma_op) (d : DmaController) : outcome (option DmaTransferWork * DmaController) :=
  match o with
  | WriteFf46 v s => mret (None, write_ff46_for_speed v s d)
  | WriteHdma1 v => mret (None, write_hdma1 v d)
  | WriteHdma2 v => mret (None, write_hdma2 v d)
  | WriteHdma3 v => mret (None, write_hdma3 v d)
  | WriteHdma4 v => mret (None, write_hdma4 v d)
  | WriteHdma5 v s => mret (None, write_hdma5_for_speed v s d)
  | Startup v => mret (None, apply_startup_state v d)
  | Tick ctx => tick_t_cycle_with_vram_dma_context ctx d
  end.

(** The bytes due along a run, in order. *)
Fixpoint dma_ops (ops : list dma_op) (d : DmaController) : outcome (list DmaTransferWork * DmaController) :=
  match ops with
  | [] => mret ([], d)
  | o :: rest =>
      r ← dma_step o d;
      r' ← dma_ops rest r.2;
      mret (option_list r.1 ++ r'.1, r'.2)
  end.

Lemma dma_step_ok o d :
  valid_dma_op o -> dma_ok d -> finishes (dma_step o d) (fun r => dma_ok r.2 /\ option_ok work_ok r.1).
Proof.
  intros Ho Hd. destruct o; cbn in Ho; cbn [dma_step]; try (apply finishes_ret; split; [|done]);
    cbn [snd].
  - by apply write_ff46_ok.
  - by apply write_hdma_registers_ok.
  - by apply write_hdma_registers_ok.
  - by apply write_hdma_registers_ok.
  - by apply write_hdma_registers_ok.
  - by apply write_hdma5_ok.
  - by apply dma_apply_startup_state_ok.
  - by apply dma_tick_ok.
Qed.

Lemma dma_ops_ok ops d :
  Forall valid_dma_op ops -> dma_ok d ->
  finishes (dma_ops ops d) (fun r => Forall work_ok r.1 /\ dma_ok r.2).
Proof.
  intros Hops. revert d. induction Hops as [|o rest Ho Hrest IH]; intros d Hd; [by split|].
  cbn [dma_ops]. apply finishes_bind. eapply finishes_mono; [by apply dma_step_ok|].
  intros [w d'] [Hd' Hw]. cbn in *. apply finishes_bind. eapply finishes_mono; [by apply IH|].
  intros [ws d''] [Hws Hd'']. cbn in *. split; [|done]. apply Forall_app. split; [|done].
  by destruct w; [apply Forall_singleton|].
Qed.

(** *** The moves of a run

    For each byte that falls due the machine computes the address it comes from
    and the address it goes to; both are [u16] additions. *)

Definition work_move (w : DmaTransferWork) : outcome (Z * Z) :=
  a ← work_source_address w; b ← work_destination_address w; mret (a, b).

(** A run of the controller with the addresses of every due byte, in order. *)
Fixpoint dma_moves (ops : list dma_op) (d : DmaController) : outcome (list (Z * Z) * DmaController) :=
  match ops with
  | [] => mret ([], d)
  | o :: rest =>
      r ← dma_step o d;
      moved ← (match r.1 with Some w => x ← work_move w; mret [x] | None => mret [] end);
      r' ← dma_moves rest r.2;
      mret (moved ++ r'.1, r'.2)
  end.

(** A byte of a VRAM transfer that lies past the end of the address space. *)
Definition source_overruns (w : DmaTransferWork) : bool :=
  negb (bool_decide (transfer_kind (work_transfer w) = Oam)) &&
  (0xFFFF <? source_start (work_transfer w) + byte_index w).

(** Where a byte comes from and goes to, as plain arithmetic: object DMA reads
    the echo of work RAM and what lies above it 0x2000 lower. *)
Definition plain_move (w : DmaTransferWork) : Z * Z :=
  let a := source_start (work_transfer w) + byte_index w in
  (if bool_decide (transfer_kind (work_transfer w) = Oam) && (0xE000 <=? a) then a - 0x2000 else a,
   destination_start (work_transfer w) + byte_index w).

Lemma source_start_range t : transfer_ok t -> 0 <= source_start t.
Proof.
  intros [(page & s & Hp & ->)|(v & s & (Hs & _) & _ & [-> | ->])]; cbn; unfold u8, u16 in *;
    rewrite ?Z.shiftl_mul_pow2; lia.
Qed.

Lemma work_move_cases w :
  work_ok w ->
  work_move w = (if source_overruns w then Panic "attempt to add with overflow" else Done (plain_move w)) /\
  dma_writable (plain_move w).2.
Proof.
  intros Hw. pose proof Hw as [Ht Hi]. destruct (work_destination w Hw) as [Ed Hd].
  pose proof (source_start_range _ Ht) as Hs. unfold work_move. rewrite Ed.
  unfold work_source_address, source_address_for_byte, source_overruns, plain_move, checked_add_u16. cbn [snd].
  destruct Ht as [(page & s & Hp & E)|(v & s & Hv & Hk & Hor)].
  - rewrite E in *. rewrite oam_source_start in *. cbn [transfer_kind oam_for_speed total_bytes] in *.
    unfold OAM_DMA_TRANSFER_BYTES, u8 in *. rewrite (proj2 (Z.ltb_lt _ 65536)) by lia. cbn.
    unfold normalize_oam_source_address, DMG_OAM_DMA_ECHO_ALIAS_OFFSET.
    split; [by case_tests|done].
  - assert (Hkind : transfer_kind (work_transfer w) <> Oam) by (by destruct Hor as [-> | ->]).
    rewrite (bool_decide_eq_false_2 _ Hkind). cbn.
    destruct (transfer_kind (work_transfer w)); [done|..];
      destruct (Z.ltb_spec 0xFFFF (source_start (work_transfer w) + byte_index w));
      destruct (Z.ltb_spec (source_start (work_transfer w) + byte_index w) 65536); try lia;
      by split.
Qed.

Lemma plain_source_range w : work_ok w -> source_overruns w = false ->
  0 <= (plain_move w).1 < (if bool_decide (transfer_kind (work_transfer w) = Oam) then 0xE000 else 0x10000).
Proof.
  intros [Ht Hi]. pose proof (source_start_range _ Ht) as Hs. unfold plain_move, source_overruns. cbn [fst].
  case_bool_decide as Hk; cbn [negb andb].
  - destruct Ht as [(page & s & Hp & E)|(v & s & Hv & Hk' & [E | E])]; rewrite E in *; try done.
    rewrite oam_source_start in *. cbn [total_bytes oam_for_speed] in Hi. unfold OAM_DMA_TRANSFER_BYTES, u8 in *.
    intros _. case_tests; prune; lia.
  - intros Hno%Z.ltb_ge. lia.
Qed.

(** The run with addresses is the run of the controller, cut at the first byte
    that overruns the address space. *)
Lemma dma_moves_of_ops ops d works d' :
  Forall valid_dma_op ops -> dma_ok d -> dma_ops ops d = Done (works, d') ->
  dma_moves ops d = if existsb source_overruns works then Panic "attempt to add with overflow"
                    else Done (map plain_move works, d').
Proof.
  intros Hops. revert d works. induction Hops as [|o rest Ho _ IH]; intros d works Hd; [by intros [= <- <-]|].
  cbn [dma_ops dma_moves]. pose proof (dma_step_ok o d Ho Hd) as Hstep.
  destruct (dma_step o d) as [[w d1]|]; [|done]. destruct Hstep as [Hd1 Hw]. cbn in Hd1, Hw |- *.
  destruct (dma_ops rest d1) as [[ws d2]|] eqn:E; [|done]. cbn. intros [= <- <-]. specialize (IH _ _ Hd1 E).
  destruct w as [w|]; cbn; [|rewrite IH; by destruct (existsb source_overruns ws)].
  destruct (work_move_cases w Hw) as [-> _]. destruct (source_overruns w); [done|]. cbn. rewrite IH.
  by destruct (existsb source_overruns ws).
Qed.

(** C40. Whatever the CPU writes and however the picture unit (whose mode-0 dot
    plus two stays a [u16]), HALT and the clock speed interleave, every
    operation and every T-cycle of the DMA controller of any model returns, its
    status can be published, and computing the two addresses of each byte it
    moves panics exactly when some byte of a VRAM transfer lies past 0xFFFF
    (the unchecked addition of [source_address_for_byte]). In every other run
    the moves are the plain ones: they read from the 16-bit address space, object
    DMA below 0xE000, and write to object memory or video RAM only. *)
Theorem dma_run_panics_only_past_the_address_space (m : ConsoleModel) (ops : list dma_op) :
  Forall valid_dma_op ops ->
  exists works d, dma_ops ops (dma_new m) = Done (works, d) /\
    finishes (transfer_status d) (fun _ => True) /\
    dma_moves ops (dma_new m) =
      (if existsb source_overruns works then Panic "attempt to add with overflow" else Done (map plain_move works, d)) /\
    Forall (fun w =>
      (source_overruns w = false -> 0 <= (plain_move w).1 < (if bool_decide (transfer_kind (work_transfer w) = Oam)
                                                           then 0xE000 else 0x10000)) /\
      dma_writable (plain_move w).2) works.
Proof.
  intros Hops. destruct (finishes_done _ _ (dma_ops_ok ops _ Hops (dma_new_ok m))) as ([works d] & E & Hw & Hd).
  exists works, d. split; [done|]. split_and!.
  - unfold transfer_status. apply finishes_bind. eapply finishes_mono; [by apply dma_bus_state_ok|done].
  - apply dma_moves_of_ops; [done|apply dma_new_ok|done].
  - eapply Forall_impl; [|exact Hw]. cbn. intros w Hwk. destruct (work_move_cases w Hwk) as [_ Hwr].
    split; [|done]. intros Hno. by apply plain_source_range.
Qed.

Lemma dma_run_panics_only_past_the_address_space_witness :
  let ops := [WriteFf46 0xC1 Normal; Tick runtime_default; WriteHdma5 0x81 Double; Tick runtime_default] in
  exists works d, dma_ops ops (dma_new GameBoyColor) = Done (works, d) /\
    finishes (transfer_status d) (fun _ => True) /\
    dma_moves ops (dma_new GameBoyColor) =
      (if existsb source_overruns works then Panic "attempt to add with overflow" else Done (map plain_move works, d)) /\
    Forall (fun w =>
      (source_overruns w = false -> 0 <= (plain_move w).1 < (if bool_decide (transfer_kind (work_transfer w) = Oam)
                                                           then 0xE000 else 0x10000)) /\
      dma_writable (plain_move w).2) works.
Proof.
  apply (dma_run_panics_only_past_the_address_space GameBoyColor).
  repeat constructor; cbn; unfold u8; lia.
Defined.

(** The overrun is reached: two blocks from 0xFFF0 panic on their seventeenth byte. *)
Example gdma_past_the_address_space :
  let ops := [WriteHdma1 0xFF; WriteHdma2 0xF0; WriteHdma3 0; WriteHdma4 0; WriteHdma5 0x01 Normal] ++ replicate 40 (Tick runtime_default) in
  dma_moves ops (dma_new GameBoyColor) = Panic "attempt to add with overflow".
Proof. vm_compute. reflexivity. Qed.
