(* ===== verification/DmaTransfers.v ===== *)
(** * DMA transfers from start to end ([crates/gb-core/src/dma.rs])

    The closed form of a transfer in flight, tick by tick, and what follows for
    an OAM transfer, a general-purpose burst and HBlank DMA. *)

From Stdlib Require Import ZArith Lia Bool String.
From stdpp Require Import base decidable list option.
From S2P Require Import Prelude.
From S2P Require Import Model.
From S2P Require Import Speed.
From S2P Require Import BusState.
From S2P Require Import Dma.

Local Open Scope Z_scope.

(** ** A transfer from its first tick to its last *)

(** The transfer [t], [e] T-cycles after it was started. *)
Definition phase (t : DmaTransfer) (e : Z) : DmaTransferState :=
  let p := mkProgress t e in
  if (e =? 0) || negb (is_cpu_bus_restriction_active p) then Starting p
  else if is_complete p then Completed p else Active p.

Lemma phase_progress t e : state_progress (phase t e) = Some (mkProgress t e).
Proof. unfold phase. by case_tests. Qed.

Lemma phase_in_flight t e :
  transfer_ok t -> 0 <= e -> is_in_flight (phase t e) = (e <? total_t_cycles (timing t)).
Proof.
  intros Ht He. unfold phase, is_cpu_bus_restriction_active, is_complete. cbn [transfer elapsed_t_cycles].
  destruct (transfer_ok_cases t Ht) as [(page & s & _ & ->)|(k & c & Hs)].
  - cbn. unfold OAM_DMA_TOTAL_T_CYCLES, OAM_DMA_CPU_BUS_RESTRICTION_DELAY_T_CYCLES.
    case_tests; cbn; rewrite ?orb_true_iff, ?negb_true_iff, ?orb_false_iff in *; prune; lia.
  - destruct Hs as [_ Hk Hc _ _ -> _]. cbn.
    case_tests; cbn; rewrite ?orb_true_iff, ?negb_true_iff, ?orb_false_iff in *; prune; lia.
Qed.

(** The bytes of [t] due in the T-cycles [e + 1 .. e + n]. *)
Definition works_between (t : DmaTransfer) (e n : Z) : list DmaTransferWork :=
  map (mkWork t) (seqZ (completed_bytes (mkProgress t e))
                       (completed_bytes (mkProgress t (e + n)) - completed_bytes (mkProgress t e))).

(** T-cycles until the transfer changes nothing any more: a VRAM transfer
    publishes its last block seven T-cycles after releasing the CPU. *)
Definition lifetime (t : DmaTransfer) : Z :=
  match transfer_kind t with
  | Oam => total_t_cycles (timing t)
  | Gdma | Hdma => total_t_cycles (timing t) + 7
  end.

Lemma vram_lifetime t k c : vram_shape t k c -> lifetime t = 16 * k * c + 12.
Proof. intros [Hk _ _ _ _ Ht _]. unfold lifetime. rewrite Ht. cbn. destruct (transfer_kind t); [done|lia..]. Qed.

Lemma vram_unpublished t k c e :
  vram_shape t k c -> 16 * k * c + 5 <= e ->
  has_unpublished_completed_blocks (mkProgress t e) = (e <? 16 * k * c + 12).
Proof.
  intros Hs He. unfold has_unpublished_completed_blocks.
  pose proof Hs as [_ Hk Hc _ _ _ _].
  rewrite (vram_published_blocks t k c), (vram_completed_blocks t k c) by (done || lia).
  destruct (Z.ltb_spec e (16 * k * c + 12)); [apply Z.ltb_lt|apply Z.ltb_ge]; destruct Hc as [-> | ->]; divmod_lia.
Qed.

Lemma advance_phase t e :
  transfer_ok t -> 0 <= e < lifetime t -> advance_transfer_state (phase t e) = phase t (e + 1).
Proof.
  intros Hok He.
  assert (Hadv : e + 1 <= 65535 -> advance_one_t_cycle (mkProgress t e) = mkProgress t (e + 1)).
  { intros. unfold advance_one_t_cycle. cbn. f_equal. lia. }
  destruct (transfer_ok_cases t Hok) as [(page & s & _ & Eq)|(k & c & Hs)].
  - assert (Ht : timing t = mkTiming 648 8 5 4) by (by rewrite Eq).
    assert (Hk : transfer_kind t = Oam) by (by rewrite Eq). clear Eq.
    unfold lifetime in He. rewrite Hk, Ht in He. cbn in He. specialize (Hadv ltac:(lia)).
    unfold phase. unfold is_cpu_bus_restriction_active at 1, is_complete at 1.
    cbn [transfer elapsed_t_cycles]. rewrite Ht. cbn [total_t_cycles cpu_bus_restriction_delay_t_cycles].
    destruct (Z.leb_spec 648 e); [lia|]. destruct (Z.eqb_spec (e + 1) 0); [lia|]. cbn [orb].
    case_match; cbn [advance_transfer_state]; rewrite Hadv;
      unfold is_cpu_bus_restriction_active, is_complete; cbn [transfer elapsed_t_cycles];
      rewrite Ht; cbn [total_t_cycles cpu_bus_restriction_delay_t_cycles];
      destruct (Z.eqb_spec e 0), (Z.leb_spec 5 e), (Z.leb_spec 5 (e + 1)), (Z.leb_spec 648 (e + 1));
      try done; lia.
  - rewrite (vram_lifetime t k c Hs) in He. pose proof Hs as [Hk Hb Hc _ _ Ht _].
    specialize (Hadv ltac:(destruct Hc; subst; lia)).
    unfold phase, is_cpu_bus_restriction_active, is_complete. cbn [transfer elapsed_t_cycles]. rewrite Ht.
    cbn [total_t_cycles cpu_bus_restriction_delay_t_cycles].
    destruct (Z.eqb_spec (e + 1) 0), (Z.leb_spec 0 (e + 1)), (Z.leb_spec 0 e); try lia. cbn [negb orb].
    destruct (Z.eqb_spec e 0) as [->|]; cbn [orb].
    + cbn [advance_transfer_state]. rewrite Hadv. unfold is_cpu_bus_restriction_active.
      cbn [transfer elapsed_t_cycles]. rewrite Ht. cbn. destruct (Z.leb_spec (16 * k * c + 5) (0 + 1)); [|done].
      destruct Hc; subst; lia.
    + destruct (Z.leb_spec (16 * k * c + 5) e); cbn [advance_transfer_state transfer].
      * rewrite (vram_unpublished t k c) by done. destruct (Z.ltb_spec e (16 * k * c + 12)); [|lia].
        rewrite Hadv. destruct (Z.leb_spec (16 * k * c + 5) (e + 1)); [|lia].
        by destruct (transfer_kind t).
      * rewrite Hadv. unfold is_complete. cbn [transfer elapsed_t_cycles]. rewrite Ht. done.
Qed.

(** What [advance_transfer_state] leaves alone. *)
Definition quiet (d : DmaController) : Prop :=
  is_in_flight (transfer_state d) = false /\ pending_restart d = None /\
  advance_transfer_state (transfer_state d) = transfer_state d.

Lemma phase_settled t :
  transfer_ok t ->
  is_in_flight (phase t (lifetime t)) = false /\
  advance_transfer_state (phase t (lifetime t)) = phase t (lifetime t).
Proof.
  intros Hok.
  assert (Hl : total_t_cycles (timing t) <= lifetime t /\ 0 < lifetime t).
  { unfold lifetime. destruct (transfer_ok_cases t Hok) as [(page & s & _ & ->)|(k & c & [Hk Hb Hc _ _ Ht _])].
    - cbn. unfold OAM_DMA_TOTAL_T_CYCLES. lia.
    - rewrite Ht. cbn. destruct (transfer_kind t), Hc; subst; lia. }
  assert (Hf : is_in_flight (phase t (lifetime t)) = false).
  { rewrite phase_in_flight by (done || lia). apply Z.ltb_ge. lia. }
  split; [done|]. unfold phase in *. case_tests; try done. cbn [advance_transfer_state transfer].
  destruct (transfer_ok_cases t Hok) as [(page & s & _ & ->)|(k & c & Hs)]; [done|].
  pose proof Hs as [Hk Hb Hc _ _ Ht _].
  rewrite (vram_lifetime t k c Hs), (vram_unpublished t k c) by (done || lia).
  rewrite Z.ltb_irrefl. by destruct (transfer_kind t).
Qed.

(** Ticking through a list of contexts, with nothing else happening. *)
Definition dma_run (ctxs : list VramDmaRuntimeContext) : DmaController -> outcome (list DmaTransferWork * DmaController) :=
  dma_ops (map Tick ctxs).

Lemma dma_run_cons ctx ctxs d w d' ws d'' :
  tick_t_cycle_with_vram_dma_context ctx d = Done (w, d') ->
  dma_run ctxs d' = Done (ws, d'') -> dma_run (ctx :: ctxs) d = Done (option_list w ++ ws, d'').
Proof. unfold dma_run. intros E1 E2. cbn. rewrite E1. cbn. by rewrite E2. Qed.

Lemma dma_run_app c1 c2 d ws1 d1 ws2 d2 :
  dma_run c1 d = Done (ws1, d1) -> dma_run c2 d1 = Done (ws2, d2) ->
  dma_run (c1 ++ c2) d = Done (ws1 ++ ws2, d2).
Proof.
  revert d ws1. induction c1 as [|ctx c1 IH]; intros d ws1 E1 E2; [by injection E1 as <- <-|].
  unfold dma_run in E1. cbn in E1. fold (dma_run c1) in E1.
  destruct (tick_t_cycle_with_vram_dma_context ctx d) as [[w d']|] eqn:Et; [|done]. cbn in E1.
  destruct (dma_run c1 d') as [[ws d'']|] eqn:Er; [|done]. cbn in E1. injection E1 as <- <-.
  cbn [app]. rewrite <- app_assoc. eapply dma_run_cons; [done|]. by apply IH.
Qed.

Lemma work_of_phase t e :
  transfer_ok t -> 0 <= e ->
  option_list (transfer_work_for_current_t_cycle (phase t e) (phase t (e + 1))) = works_between t e 1.
Proof.
  intros Hok He. unfold transfer_work_for_current_t_cycle, works_between. rewrite !phase_progress. cbn.
  destruct (completed_bytes_next t e Hok He) as [-> | ->].
  - by rewrite Z.leb_refl, Z.sub_diag.
  - destruct (Z.leb_spec (completed_bytes (mkProgress t e) + 1) (completed_bytes (mkProgress t e))); [lia|].
    rewrite Z.add_simpl_l. generalize (completed_bytes (mkProgress t e)). intros n.
    change (map (mkWork t) (seqZ n 1)) with [mkWork t (0 + n)]. cbn. do 2 f_equal. lia.
Qed.

Lemma completed_bytes_mono t e n :
  transfer_ok t -> 0 <= e -> 0 <= n ->
  completed_bytes (mkProgress t e) <= completed_bytes (mkProgress t (e + n)).
Proof.
  intros Hok He Hn. revert n Hn. apply natlike_ind; [by rewrite Z.add_0_r|].
  intros n Hn IH. unfold Z.succ. rewrite Z.add_assoc.
  destruct (completed_bytes_next t (e + n) Hok ltac:(lia)) as [-> | ->]; lia.
Qed.

Lemma works_between_app t e m n :
  transfer_ok t -> 0 <= e -> 0 <= m -> 0 <= n ->
  works_between t e m ++ works_between t (e + m) n = works_between t e (m + n).
Proof.
  intros Hok He Hm Hn. unfold works_between. rewrite <- map_app, Z.add_assoc.
  pose proof (completed_bytes_mono t e m Hok He Hm).
  pose proof (completed_bytes_mono t (e + m) n Hok ltac:(lia) Hn).
  set (a := completed_bytes (mkProgress t e)) in *.
  set (b := completed_bytes (mkProgress t (e + m))) in *.
  set (c := completed_bytes (mkProgress t (e + m + n))) in *.
  replace (c - a) with ((b - a) + (c - b)) by lia. rewrite seqZ_app by lia.
  by replace (a + (b - a)) with b by lia.
Qed.

(** A family of states, one per T-cycle, that every tick moves along, runs. *)
Lemma dma_run_family t (at_time : Z -> DmaController) (good : VramDmaRuntimeContext -> Prop) last :
  transfer_ok t ->
  (forall ctx e, good ctx -> 0 <= e < last ->
     tick_t_cycle_with_vram_dma_context ctx (at_time e) =
     Done (transfer_work_for_current_t_cycle (phase t e) (phase t (e + 1)), at_time (e + 1))) ->
  forall ctxs e, Forall good ctxs -> 0 <= e -> e + Z.of_nat (length ctxs) <= last ->
    dma_run ctxs (at_time e) =
    Done (works_between t e (Z.of_nat (length ctxs)), at_time (e + Z.of_nat (length ctxs))).
Proof.
  intros Hok Hstep ctxs. induction ctxs as [|ctx ctxs IH]; intros e Hg He Hl.
  - cbn. unfold works_between. by rewrite Z.add_0_r, Z.sub_diag.
  - inversion_clear Hg. cbn [length] in *.
    erewrite dma_run_cons; [|apply Hstep; [done|lia] | apply IH; [done|lia|lia]].
    rewrite work_of_phase by (done || lia). rewrite works_between_app by (done || lia).
    do 2 f_equal; f_equal; lia.
Qed.

(** *** OAM DMA *)

Definition oam_at (t : DmaTransfer) (d : DmaController) (e : Z) : DmaController :=
  d <| transfer_state := phase t e |>.

Lemma oam_tick page s d ctx e :
  u8 page -> pending_restart d = None -> 0 <= e < 648 ->
  tick_t_cycle_with_vram_dma_context ctx (oam_at (oam_for_speed page s) d e) =
  Done (transfer_work_for_current_t_cycle (phase (oam_for_speed page s) e) (phase (oam_for_speed page s) (e + 1)),
        oam_at (oam_for_speed page s) d (e + 1)).
Proof.
  intros Hpage Hp He. pose proof (oam_transfer_ok page s Hpage) as Hok.
  set (t := oam_for_speed page s) in *. destruct d as [m l ts p r vs w]. cbn in Hp. subst p.
  unfold tick_t_cycle_with_vram_dma_context, start_hdma_block_if_eligible, oam_at. cbn.
  rewrite phase_in_flight by (done || lia). change (total_t_cycles (timing t)) with 648.
  destruct (Z.ltb_spec e 648); [|lia]. cbn. unfold tick_transfer. cbn.
  rewrite advance_phase by done. unfold apply_vram_dma_progress_side_effects. rewrite phase_progress. done.
Qed.

Lemma oam_work_move page s i :
  u8 page -> 0 <= i < 160 ->
  work_move (mkWork (oam_for_speed page s) i) = Done (normalize_oam_source_address (page * 256 + i), 0xFE00 + i).
Proof.
  intros Hp Hi. unfold work_move, work_source_address. cbn [work_transfer byte_index].
  rewrite oam_source_address by done.
  destruct (work_destination (mkWork (oam_for_speed page s) i)) as [E _]; [|rewrite E; done].
  split; [by apply oam_transfer_ok|done].
Qed.

(** Whether the CPU is kept off some bus. *)
Definition restricts_cpu (d : DmaController) : outcome bool :=
  b ← dma_bus_state d; mret (negb (bool_decide (cpu_access_policy b = Unrestricted))).

Lemma oam_restricts_cpu page s d e :
  u8 page -> 0 <= e < 648 -> restricts_cpu (oam_at (oam_for_speed page s) d e) = Done (5 <=? e).
Proof.
  intros Hp He. pose proof (oam_transfer_ok page s Hp) as Hok. set (t := oam_for_speed page s) in *.
  assert (Hb : forall m, (b ← progress_bus_state m (mkProgress t e);
    mret (negb (bool_decide (cpu_access_policy b = Unrestricted)))) = Done (5 <=? e)).
  { intros m. unfold progress_bus_state, is_cpu_bus_restriction_active. cbv zeta. cbn [transfer elapsed_t_cycles].
    change (cpu_bus_restriction_delay_t_cycles (timing t)) with 5. destruct (Z.leb_spec 5 e); [|done].
    cbn [negb]. change (transfer_kind t) with Oam. cbv iota.
    pose proof (completed_bytes_range t e Hok ltac:(lia)) as Hc. change (total_bytes t) with 160 in Hc.
    revert Hc. generalize (completed_bytes (mkProgress t e)). intros n Hc.
    assert (Ha : forall i, 0 <= i < 160 -> source_address_for_byte t i =
      Done (normalize_oam_source_address (page * 256 + i))) by (intros; by apply oam_source_address).
    unfold source_bus. rewrite (Ha 0) by lia.
    destruct (Z.ltb_spec 0 n); [rewrite (Ha (n - 1)) by lia|]; cbn; by case_tests. }
  unfold restricts_cpu, dma_bus_state, oam_at. pose proof (phase_in_flight t e Hok ltac:(lia)) as Hf.
  change (total_t_cycles (timing t)) with 648 in Hf.
  destruct d as [m l ts q r vs w]. cbn. pose proof (phase_progress t e) as Hpp.
  destruct (phase t e); cbn in Hf, Hpp; try (destruct (Z.ltb_spec e 648); [done|lia]);
    injection Hpp as ->; apply Hb.
Qed.

Lemma oam_never_stalls page s d e : cpu_stall_active (oam_at (oam_for_speed page s) d e) = false.
Proof.
  unfold cpu_stall_active, oam_at. destruct d. cbn. rewrite phase_progress. cbn. by case_tests.
Qed.

Lemma write_ff46_starts page s d :
  is_in_flight (transfer_state d) = false ->
  exists s', write_ff46_for_speed page s d =
    oam_at (oam_for_speed page s') (d <| source_page_latch := page |> <| pending_restart := None |>) 0.
Proof.
  intros Hf. unfold write_ff46_for_speed. destruct d as [m l ts p r vs w]. cbn in *. rewrite Hf. by eexists.
Qed.

Lemma mapM_Done {A B} (f : A -> outcome B) (g : A -> B) l :
  Forall (fun a => f a = Done (g a)) l -> mapM f l = Done (map g l).
Proof. induction 1 as [|a l Ha _ IH]; [done|]. cbn. rewrite Ha. cbn. by rewrite IH. Qed.

(** C15. A write of a page to [FF46] copies the 160 bytes of that page, echo
    addresses folded back, to object memory in order within 648 T-cycles,
    whatever the picture unit does; the CPU is never stalled and is kept off
    the bus from the fifth T-cycle to the last. *)
Theorem oam_dma_copies_its_page (d : DmaController) (page : Z) (s : CgbSpeedMode) (ctxs : list VramDmaRuntimeContext) :
  u8 page -> has_in_flight_transfer d = false -> length ctxs = 648%nat ->
  let d0 := write_ff46_for_speed page s d in
  exists works d',
    dma_run ctxs d0 = Done (works, d') /\
    mapM work_move works =
      Done (map (fun i => (normalize_oam_source_address (page * 256 + i), 0xFE00 + i)) (seqZ 0 160)) /\
    has_in_flight_transfer d' = false /\ read_ff46 d' = page /\
    vram_dma_state d' = vram_dma_state d /\ vram_dma_registers d' = vram_dma_registers d /\
    forall n, (n < 648)%nat -> exists ws dn,
      dma_run (take n ctxs) d0 = Done (ws, dn) /\ cpu_stall_active dn = false /\
      restricts_cpu dn = Done (5 <=? Z.of_nat n).
Proof.
  intros Hp Hf Hl d0. destruct (write_ff46_starts page s d Hf) as [s' E]. unfold d0. rewrite E. clear d0 E.
  set (t := oam_for_speed page s') in *. set (d1 := d <| source_page_latch := page |> <| pending_restart := None |>).
  assert (Hok : transfer_ok t) by (by apply oam_transfer_ok).
  assert (Hp1 : pending_restart d1 = None) by (unfold d1; by destruct d).
  pose proof (dma_run_family t (oam_at t d1) (fun _ => True) 648 Hok
    (fun ctx e _ He => oam_tick page s' d1 ctx e Hp Hp1 He)) as Hrun.
  assert (Hall : forall l, Forall (fun _ : VramDmaRuntimeContext => True) l) by (intros; by apply Forall_true).
  exists (works_between t 0 648), (oam_at t d1 648). split_and!.
  - rewrite Hrun by (auto; lia). by rewrite Hl.
  - change (works_between t 0 648) with (map (mkWork t) (seqZ 0 160)).
    rewrite mapM_Done with (g := fun w =>
      (normalize_oam_source_address (page * 256 + byte_index w), 0xFE00 + byte_index w)).
    + by rewrite map_map.
    + apply Forall_map, Forall_seqZ. intros i Hi. apply oam_work_move; [done|cbn; lia].
  - replace (has_in_flight_transfer (oam_at t d1 648)) with (is_in_flight (phase t 648)) by (unfold oam_at, d1; by destruct d).
    by rewrite (phase_in_flight t) by (done || lia).
  - unfold oam_at, d1. by destruct d.
  - unfold oam_at, d1. by destruct d.
  - unfold oam_at, d1. by destruct d.
  - intros n Hn. exists (works_between t 0 (Z.of_nat n)), (oam_at t d1 (Z.of_nat n)). split_and!.
    + rewrite Hrun by (auto; rewrite ?length_take; lia). rewrite length_take, Hl. by replace (n `min` 648)%nat with n by lia.
    + apply oam_never_stalls.
    + apply oam_restricts_cpu; [done|lia].
Qed.

Lemma oam_dma_copies_its_page_witness :
  let d0 := write_ff46_for_speed 0xE1 Normal (dma_new GameBoy) in
  exists works d',
    dma_run (replicate 648 runtime_default) d0 = Done (works, d') /\
    mapM work_move works =
      Done (map (fun i => (normalize_oam_source_address (0xE1 * 256 + i), 0xFE00 + i)) (seqZ 0 160)) /\
    has_in_flight_transfer d' = false /\ read_ff46 d' = 0xE1 /\
    vram_dma_state d' = vram_dma_state (dma_new GameBoy) /\
    vram_dma_registers d' = vram_dma_registers (dma_new GameBoy) /\
    forall n, (n < 648)%nat -> exists ws dn,
      dma_run (take n (replicate 648 runtime_default)) d0 = Done (ws, dn) /\ cpu_stall_active dn = false /\
      restricts_cpu dn = Done (5 <=? Z.of_nat n).
Proof.
  apply (oam_dma_copies_its_page (dma_new GameBoy) 0xE1 Normal); [unfold u8; lia | reflexivity | reflexivity].
Defined.

(** *** VRAM DMA *)

Definition wrap (hdma : bool) (v : VramDmaTransfer) : VramDmaState :=
  if hdma then HBlankActive v else GeneralPurposeActive v.

Definition settle (hdma : bool) (v : VramDmaTransfer) : VramDmaState :=
  if vram_remaining_blocks v =? 0
  then (if hdma then VramInactive HDMA5_TRANSFER_LENGTH_MASK else GeneralPurposeComplete v)
  else wrap hdma v.

(** The controller [e] T-cycles after it started [t] for the HDMA transfer [v]. *)
Definition vram_at (hdma : bool) (t : DmaTransfer) (v : VramDmaTransfer) (d : DmaController) (e : Z) : DmaController :=
  let published := published_completed_blocks (mkProgress t e) in
  let u := advance_completed_blocks published v in
  let d := d <| transfer_state := phase t e |> in
  if published =? 0 then d
  else d <| vram_dma_registers := set_endpoints (vram_source_start u) (vram_destination_start u) |>
         <| vram_dma_state := settle hdma u |>.

(** The setting [vram_at] starts from. *)
Record vram_start (hdma : bool) (t : DmaTransfer) (k c : Z) (v : VramDmaTransfer) (d : DmaController) : Prop := {
  start_ok : transfer_ok t;
  start_shape : vram_shape t k c;
  start_kind : transfer_kind t = if hdma then Hdma else Gdma;
  start_transfer : vram_transfer_ok v;
  start_blocks : k <= vram_remaining_blocks v;
  start_state : vram_dma_state d = wrap hdma v;
  start_restart : pending_restart d = None
}.

(** A context in which no other HBlank block may start. *)
Definition keeps_window (hdma : bool) (d : DmaController) (ctx : VramDmaRuntimeContext) : Prop :=
  hdma = true -> hblank_window ctx = Done WindowNone \/ hblank_window ctx = Done (vram_dma_last_served_window d).

Lemma advance_completed_blocks_step n v :
  vram_transfer_ok v -> 0 <= n < vram_remaining_blocks v ->
  advance_completed_blocks 1 (advance_completed_blocks n v) = advance_completed_blocks (n + 1) v.
Proof.
  intros (Hs & _ & Hd & _ & Hr & _ & He) Hn.
  unfold vram_remaining_bytes, VRAM_DMA_BLOCK_BYTES, u16 in *.
  unfold advance_completed_blocks, wrapping_add16, VRAM_DMA_BLOCK_BYTES.
  destruct (Z.ltb_spec (vram_remaining_blocks v) n), (Z.ltb_spec (vram_remaining_blocks v) (n + 1)); try lia.
  cbn. destruct (Z.ltb_spec (vram_remaining_blocks v - n) 1); [lia|]. f_equal; divmod_lia.
Qed.

Lemma advance_completed_blocks_0 v : vram_transfer_ok v -> advance_completed_blocks 0 v = v.
Proof.
  intros (Hs & _ & Hd & _ & Hr & _ & He).
  unfold vram_remaining_bytes, VRAM_DMA_BLOCK_BYTES, u16 in *.
  unfold advance_completed_blocks, wrapping_add16, VRAM_DMA_BLOCK_BYTES.
  destruct (Z.ltb_spec (vram_remaining_blocks v) 0); [lia|]. destruct v; cbn in *. f_equal; divmod_lia.
Qed.

Lemma published_bounds t k c e :
  vram_shape t k c -> 0 <= e ->
  0 <= published_completed_blocks (mkProgress t e) <= k /\
  (e < 16 * k * c + 12 -> published_completed_blocks (mkProgress t e) < k) /\
  (e = 16 * k * c + 12 -> published_completed_blocks (mkProgress t e) = k).
Proof.
  intros Hs He. rewrite (vram_published_blocks t k c) by done. destruct Hs as [_ Hk Hc _ _ _ _].
  destruct Hc as [-> | ->]; split_and!; try intros; divmod_lia.
Qed.

Lemma vram_at_fields hdma t v d e :
  transfer_state (vram_at hdma t v d e) = phase t e /\
  pending_restart (vram_at hdma t v d e) = pending_restart d /\
  vram_dma_last_served_window (vram_at hdma t v d e) = vram_dma_last_served_window d /\
  source_page_latch (vram_at hdma t v d e) = source_page_latch d.
Proof. unfold vram_at. cbv zeta. destruct d. by case_match. Qed.

Lemma vram_at_state hdma t k c v d e :
  vram_start hdma t k c v d -> 0 <= e < 16 * k * c + 12 ->
  vram_dma_state (vram_at hdma t v d e) =
  wrap hdma (advance_completed_blocks (published_completed_blocks (mkProgress t e)) v).
Proof.
  intros [Hok Hs Hk Hv Hb Hst Hp] He. unfold vram_at. cbv zeta.
  destruct (published_bounds t k c e Hs ltac:(lia)) as (Hr & Hlt & _).
  revert Hr Hlt. generalize (published_completed_blocks (mkProgress t e)). intros n Hr Hlt.
  specialize (Hlt ltac:(lia)).
  destruct (Z.eqb_spec n 0) as [->|Hn].
  - rewrite advance_completed_blocks_0 by done. by destruct d.
  - destruct (advance_completed_blocks_small n v Hv ltac:(lia)) as (_ & _ & Hrem).
    destruct d. cbn. unfold settle. rewrite Hrem. destruct (Z.eqb_spec (vram_remaining_blocks v - n) 0); [lia|done].
Qed.

Lemma vram_not_eligible hdma t k c v d ctx e :
  vram_start hdma t k c v d -> keeps_window hdma d ctx -> 0 <= e < 16 * k * c + 12 ->
  start_hdma_block_if_eligible ctx (vram_at hdma t v d e) = Done (vram_at hdma t v d e).
Proof.
  intros Hst Hw He. unfold start_hdma_block_if_eligible.
  rewrite (vram_at_state hdma t k c) by done. destruct (vram_at_fields hdma t v d e) as (_ & _ & -> & _).
  case_match; [done|]. destruct hdma; [|done]. cbn.
  destruct (Hw eq_refl) as [-> | ->]; [done|]. cbn. rewrite (bool_decide_eq_true_2 (_ = vram_dma_last_served_window d)) by done.
  by rewrite orb_true_r.
Qed.

Lemma apply_published_blocks_settles hdma t n w d :
  vram_dma_state d = wrap hdma w -> transfer_kind t = (if hdma then Hdma else Gdma) ->
  apply_published_blocks t n d =
  (let u := advance_completed_blocks n w in
   d <| vram_dma_registers := set_endpoints (vram_source_start u) (vram_destination_start u) |>
     <| vram_dma_state := settle hdma u |>).
Proof. intros Hd Hk. unfold apply_published_blocks. rewrite Hd, Hk. by destruct hdma. Qed.

Lemma vram_side_effects hdma t k c v d e :
  vram_start hdma t k c v d -> 0 <= e < 16 * k * c + 12 ->
  apply_vram_dma_progress_side_effects (phase t e) (phase t (e + 1))
    ((vram_at hdma t v d e) <| transfer_state := phase t (e + 1) |>) = Done (vram_at hdma t v d (e + 1)).
Proof.
  intros Hst He. pose proof (vram_at_state _ _ _ _ _ _ _ Hst He) as Hvs.
  pose proof Hst as [Hok Hs Hk Hv Hb Hd Hp].
  unfold apply_vram_dma_progress_side_effects. rewrite !phase_progress. cbn [transfer from_option id].
  pose proof (published_next t k c e Hs ltac:(lia)) as Hn.
  destruct (published_bounds t k c e Hs ltac:(lia)) as (Hr & Hlt & _). specialize (Hlt ltac:(lia)).
  unfold vram_at in *. cbv zeta in *.
  revert Hn Hr Hlt Hvs. generalize (published_completed_blocks (mkProgress t e)).
  generalize (published_completed_blocks (mkProgress t (e + 1))). intros m n Hn Hr Hlt Hvs.
  unfold checked_sub_u16. destruct (Z.leb_spec n m); [|lia].
  rewrite Hk. replace (if hdma then Hdma else Gdma) with (transfer_kind t) by done.
  assert (Hcase : m = n \/ m = n + 1) by lia. destruct Hcase as [-> | ->].
  - rewrite Z.sub_diag, Hk. destruct hdma; cbn; case_match; by destruct d.
  - rewrite Z.add_simpl_l. destruct (Z.eqb_spec (n + 1) 0); [lia|].
    match goal with |- context [apply_published_blocks t _ ?d1] => set (d' := d1) end.
    assert (Ed : apply_published_blocks t 1 d' = _)
      by (apply (apply_published_blocks_settles hdma t 1 (advance_completed_blocks n v)); [|done];
          unfold d'; case_match; by destruct d).
    rewrite advance_completed_blocks_step in Ed by (done || lia).
    transitivity (Done (apply_published_blocks t 1 d')); [by rewrite Hk; destruct hdma|]. rewrite Ed.
    unfold d'. cbv zeta. case_match; by destruct d.
Qed.

Lemma vram_tick hdma t k c v d ctx e :
  vram_start hdma t k c v d -> keeps_window hdma d ctx -> 0 <= e < 16 * k * c + 12 ->
  tick_t_cycle_with_vram_dma_context ctx (vram_at hdma t v d e) =
  Done (transfer_work_for_current_t_cycle (phase t e) (phase t (e + 1)), vram_at hdma t v d (e + 1)).
Proof.
  intros Hst Hw He. unfold tick_t_cycle_with_vram_dma_context. rewrite (vram_not_eligible hdma t k c) by done.
  cbn [mbind outcome_bind].
  destruct (vram_at_fields hdma t v d e) as (Ht & -> & _). rewrite (start_restart _ _ _ _ _ _ Hst).
  unfold tick_transfer. rewrite Ht.
  assert (Ha : advance_transfer_state (phase t e) = phase t (e + 1)).
  { apply advance_phase; [apply Hst|]. rewrite (vram_lifetime t k c); [done|apply Hst]. }
  rewrite Ha. pose proof (vram_side_effects hdma t k c v d e Hst He) as Hse.
  replace (transfer_state ((vram_at hdma t v d e) <| transfer_state := phase t (e + 1) |>))
    with (phase t (e + 1)) by (by destruct (vram_at hdma t v d e)).
  by rewrite Hse.
Qed.

(** A VRAM transfer that is left alone moves its blocks and settles. *)
Lemma vram_run hdma t k c v d ctxs :
  vram_start hdma t k c v d -> Forall (keeps_window hdma d) ctxs -> Z.of_nat (length ctxs) <= 16 * k * c + 12 ->
  dma_run ctxs (vram_at hdma t v d 0) =
  Done (works_between t 0 (Z.of_nat (length ctxs)), vram_at hdma t v d (Z.of_nat (length ctxs))).
Proof.
  intros Hst Hw Hl. apply (dma_run_family t (vram_at hdma t v d) (keeps_window hdma d) (16 * k * c + 12)); try done; try lia.
  - apply Hst.
  - intros ctx e Hc He. by apply (vram_tick hdma t k c).
Qed.

Lemma vram_settled hdma t k c v d :
  vram_start hdma t k c v d ->
  let d' := vram_at hdma t v d (16 * k * c + 12) in
  let u := advance_completed_blocks k v in
  quiet d' /\ vram_dma_state d' = settle hdma u /\
  vram_dma_registers d' = set_endpoints (vram_source_start u) (vram_destination_start u) /\
  vram_dma_last_served_window d' = vram_dma_last_served_window d /\ source_page_latch d' = source_page_latch d.
Proof.
  intros Hst. pose proof Hst as [Hok Hs _ _ _ _ Hp]. cbv zeta.
  destruct (vram_at_fields hdma t v d (16 * k * c + 12)) as (Ht & Hpr & Hw & Hl).
  destruct (phase_settled t Hok) as [Hf Ha]. rewrite (vram_lifetime t k c Hs) in Hf, Ha.
  pose proof Hs as [_ Hk Hc _ _ _ _].
  destruct (published_bounds t k c (16 * k * c + 12) Hs ltac:(destruct Hc; subst; lia)) as (_ & _ & Hpub).
  specialize (Hpub eq_refl).
  split_and!; try done.
  - unfold quiet. by rewrite Ht, Hpr.
  - unfold vram_at. cbv zeta. rewrite Hpub. destruct (Z.eqb_spec k 0); [lia|]. by destruct d.
  - unfold vram_at. cbv zeta. rewrite Hpub. destruct (Z.eqb_spec k 0); [lia|]. by destruct d.
Qed.

Lemma vram_stall hdma t k c v d e :
  vram_start hdma t k c v d -> 0 <= e ->
  cpu_stall_active (vram_at hdma t v d e) = (e <? 16 * k * c + 5).
Proof.
  intros Hst He. pose proof Hst as [Hok Hs _ _ _ _ _]. unfold cpu_stall_active.
  destruct (vram_at_fields hdma t v d e) as (-> & _). rewrite phase_progress, phase_in_flight by done.
  destruct Hs as [_ Hk Hc _ _ Ht Hpol]. rewrite Ht. cbn [total_t_cycles].
  destruct (Z.ltb_spec e (16 * k * c + 5)); [|done]. cbn [negb].
  unfold is_cpu_bus_restriction_active. cbn [transfer elapsed_t_cycles]. rewrite Ht. cbn.
  destruct (Z.leb_spec 0 e); [|lia]. cbn. by destruct (cpu_impact_policy t).
Qed.

Lemma works_between_all t k c :
  transfer_ok t -> vram_shape t k c -> works_between t 0 (16 * k * c + 12) = map (mkWork t) (seqZ 0 (16 * k)).
Proof.
  intros Hok Hs. unfold works_between. pose proof Hs as [_ Hk Hc _ _ _ _].
  rewrite !(vram_completed_bytes t k c) by (done || (destruct Hc; subst; lia)).
  do 2 f_equal; destruct Hc; subst; divmod_lia.
Qed.

Lemma vram_work_move t v n i :
  vram_transfer_ok v ->
  (exists s, t = gdma_for_speed v s /\ n = vram_remaining_bytes v \/
             t = hdma_block_for_speed v s /\ n = 16 /\ 1 <= vram_remaining_blocks v) ->
  0 <= i < n -> vram_source_start v + i < 65536 ->
  work_move (mkWork t i) = Done (vram_source_start v + i, vram_destination_start v + i).
Proof.
  intros Hv [s Ht] Hi Ho. unfold work_move, work_source_address, source_address_for_byte. cbn [work_transfer byte_index].
  assert (Hw : work_ok (mkWork t i) /\ source_start t = vram_source_start v /\
    destination_start t = vram_destination_start v /\ transfer_kind t <> Oam).
  { pose proof Hv as (_ & _ & _ & _ & Hr & _). unfold vram_remaining_bytes, VRAM_DMA_BLOCK_BYTES in *.
    destruct Ht as [[-> ->]|(-> & -> & Hr')]; (split; [split|done]); cbn [work_transfer byte_index].
    - right. exists v, s. split_and!; [done|lia|by left].
    - cbn. unfold vram_remaining_bytes, VRAM_DMA_BLOCK_BYTES. lia.
    - right. exists v, s. split_and!; [done|lia|by right].
    - cbn. unfold VRAM_DMA_BLOCK_BYTES. lia. }
  destruct Hw as (Hw & Es & Ed & Hk). destruct (work_destination _ Hw) as [-> _]. cbn [work_transfer byte_index].
  rewrite Es, Ed, checked_add_u16_done by lia. cbn. by destruct (transfer_kind t).
Qed.

(** The settings of a general-purpose burst. *)
Lemma write_hdma5_starts_gdma value s d :
  dma_ok d -> Z.land value HDMA5_MODE_BIT = 0 -> hblank_active_transfer (vram_dma_state d) = None ->
  let v := vram_transfer_new ModeGeneralPurpose (vram_dma_registers d) (Z.land value HDMA5_TRANSFER_LENGTH_MASK + 1) in
  exists d1, write_hdma5_for_speed value s d = vram_at false (gdma_for_speed v s) v d1 0 /\
    vram_start false (gdma_for_speed v s) (vram_remaining_blocks v) (speed_cycles s) v d1.
Proof.
  intros Hd Hm Hh v.
  assert (Hv : vram_transfer_ok v /\ 1 <= vram_remaining_blocks v).
  { apply vram_transfer_new_ok; [apply Hd|]. unfold HDMA5_TRANSFER_LENGTH_MASK. rewrite land_7F. divmod_lia. }
  assert (Hok : transfer_ok (gdma_for_speed v s)) by (right; exists v, s; split_and!; [apply Hv|apply Hv|by left]).
  pose proof (gdma_shape v s (proj1 Hv) (proj2 Hv)) as Hs.
  exists (d <| vram_dma_state := GeneralPurposeActive v |> <| vram_dma_last_served_window := WindowNone |>
            <| pending_restart := None |>). split.
  - unfold vram_at. rewrite (vram_published_blocks _ _ _ 0 Hs) by lia.
    replace (Z.max 0 _) with 0 by (destruct Hs as [_ Hk Hc _ _ _ _]; destruct Hc as [-> | ->]; divmod_lia).
    unfold write_hdma5_for_speed. rewrite Hm. destruct d as [dm dl dt dp dr dv dw]. cbn in Hh |- *. by destruct dv.
  - constructor; try done; try apply Hv; by destruct d.
Qed.

(** C16. A write of [HDMA5] with the mode bit clear moves the clipped number of
    blocks from the source to the destination registers, byte by byte in order;
    the CPU is stalled for exactly two (four at double speed) T-cycles a byte
    and five more, and seven T-cycles later [HDMA5] reads [FF] and the
    registers point behind the block. *)
Theorem gdma_moves_its_blocks (d : DmaController) (value : Z) (s : CgbSpeedMode) (ctxs : list VramDmaRuntimeContext) :
  dma_ok d -> Z.land value HDMA5_MODE_BIT = 0 -> hblank_active_transfer (vram_dma_state d) = None ->
  let source := registers_source_start (vram_dma_registers d) in
  let destination := registers_destination_start (vram_dma_registers d) in
  let n := 16 * Z.min (Z.land value HDMA5_TRANSFER_LENGTH_MASK + 1) ((0xA000 - destination) / 16) in
  source + n <= 65536 -> Z.of_nat (length ctxs) = n * speed_cycles s + 12 ->
  let d0 := write_hdma5_for_speed value s d in
  exists works d',
    dma_run ctxs d0 = Done (works, d') /\
    mapM work_move works = Done (map (fun i => (source + i, destination + i)) (seqZ 0 n)) /\
    quiet d' /\ read_hdma5 d' = 0xFF /\
    registers_source_start (vram_dma_registers d') = (source + n) mod 65536 /\
    registers_destination_start (vram_dma_registers d') = 0x8000 + (destination + n) mod 0x2000 /\
    forall m, (m <= length ctxs)%nat -> exists ws dm,
      dma_run (take m ctxs) d0 = Done (ws, dm) /\
      cpu_stall_active dm = (Z.of_nat m <? n * speed_cycles s + 5).
Proof.
  intros Hd Hm Hh source destination n Hn Hl d0.
  destruct (write_hdma5_starts_gdma value s d Hd Hm Hh) as (d1 & E & Hst).
  unfold d0. rewrite E. clear d0 E. revert Hst.
  set (v := vram_transfer_new _ _ _). set (k := vram_remaining_blocks v). intros Hst.
  assert (Hk : n = 16 * k).
  { unfold n, k, v, vram_transfer_new, clip_vram_dma_blocks_for_destination, VRAM_DMA_DESTINATION_END,
      VRAM_DMA_BLOCK_BYTES. cbn [vram_remaining_blocks]. fold destination.
    change (0x9FFF + 1) with 0xA000.
    destruct (Z.ltb_spec ((0xA000 - destination) / 16) (Z.land value HDMA5_TRANSFER_LENGTH_MASK + 1)); lia. }
  pose proof Hst as [Hok Hs _ Hv _ _ _].
  assert (Hall : forall l, Forall (keeps_window false d1) l) by (intros; apply Forall_true; done).
  assert (Hlk : Z.of_nat (length ctxs) = 16 * k * speed_cycles s + 12) by lia.
  set (t := gdma_for_speed v s) in *.
  exists (works_between t 0 (16 * k * speed_cycles s + 12)), (vram_at false t v d1 (16 * k * speed_cycles s + 12)).
  destruct (vram_settled _ _ _ _ _ _ Hst) as (Hq & Hvs & Hreg & _ & _).
  destruct (advance_completed_blocks_small k v Hv ltac:(destruct Hs; lia)) as (E1 & E2 & E3).
  pose proof Hv as (Hsu & Hsm & Hd1 & Hdm & Hrem & _ & Hend).
  unfold vram_remaining_bytes, VRAM_DMA_BLOCK_BYTES in Hend. fold k in Hend.
  change (vram_source_start v) with source in *. change (vram_destination_start v) with destination in *.
  split_and!; try done.
  - rewrite (vram_run false t k (speed_cycles s)) by (auto; lia). by rewrite Hlk.
  - rewrite (works_between_all t k (speed_cycles s) Hok Hs), <- Hk.
    rewrite mapM_Done with (g := fun w => (source + byte_index w, destination + byte_index w)); [by rewrite map_map|].
    apply Forall_map, Forall_seqZ. intros i Hi.
    cbn [byte_index]. apply (vram_work_move t v (vram_remaining_bytes v));
      [done| |unfold vram_remaining_bytes, VRAM_DMA_BLOCK_BYTES; fold k; lia|].
    + exists s. by left.
    + change (vram_source_start v) with source. lia.
  - unfold read_hdma5. rewrite Hvs. unfold settle. rewrite E3, Z.sub_diag. done.
  - rewrite Hreg, E1, E2, set_endpoints_source; [by rewrite Hk|apply u16_mod|unfold u16; lia|].
    destruct Hs. divmod_lia.
  - rewrite Hreg, E1, E2, set_endpoints_destination; [by rewrite Hk|apply u16_mod|unfold u16; lia|].
    divmod_lia.
  - intros m Hm'. eexists _, _. split; [|].
    + apply (vram_run false t k (speed_cycles s)); [done|auto|]. rewrite length_take. lia.
    + rewrite (vram_stall false t k (speed_cycles s)) by (done || lia). rewrite length_take. f_equal; [|lia]. lia.
Qed.

Lemma gdma_moves_its_blocks_witness :
  let d := write_hdma1 0xC0 (write_hdma2 0x00 (write_hdma3 0x00 (write_hdma4 0x00 (dma_new GameBoyColor)))) in
  let d0 := write_hdma5_for_speed 0x01 Normal d in
  exists works d',
    dma_run (replicate 76 runtime_default) d0 = Done (works, d') /\
    mapM work_move works = Done (map (fun i => (0xC000 + i, 0x8000 + i)) (seqZ 0 32)) /\
    quiet d' /\ read_hdma5 d' = 0xFF /\
    registers_source_start (vram_dma_registers d') = (0xC000 + 32) mod 65536 /\
    registers_destination_start (vram_dma_registers d') = 0x8000 + (0x8000 + 32) mod 0x2000 /\
    forall m, (m <= 76)%nat -> exists ws dm,
      dma_run (take m (replicate 76 runtime_default)) d0 = Done (ws, dm) /\
      cpu_stall_active dm = (Z.of_nat m <? 32 * 2 + 5).
Proof.
  apply (gdma_moves_its_blocks
    (write_hdma1 0xC0 (write_hdma2 0x00 (write_hdma3 0x00 (write_hdma4 0x00 (dma_new GameBoyColor)))))
    0x01 Normal (replicate 76 runtime_default)); [|reflexivity|reflexivity|vm_compute; discriminate|reflexivity].
  by split.
Defined.

(** *** HBlank DMA *)

(** The contexts of one HBlank window [w], followed by the dots up to the next. *)
Definition window_segment (s : CgbSpeedMode) (w : VramDmaHBlankWindow) (l : list VramDmaRuntimeContext) : Prop :=
  exists busy gap, l = busy ++ gap /\ 16 * speed_cycles s + 12 <= Z.of_nat (length busy) /\
    Forall (fun c => hblank_window c = Done w /\ cpu_halted c = false /\ speed_mode c = s) busy /\
    Forall (fun c => hblank_window c = Done WindowNone) gap.

Lemma tick_transfer_quiet d :
  quiet d -> tick_transfer d = Done (None, d).
Proof.
  intros (Hf & _ & Ha). unfold tick_transfer. rewrite Ha.
  replace (d <| transfer_state := transfer_state d |>) with d by (by destruct d).
  unfold apply_vram_dma_progress_side_effects, transfer_work_for_current_t_cycle.
  destruct (state_progress (transfer_state d)) as [p|]; [|done]. cbn. rewrite Z.leb_refl.
  unfold checked_sub_u16. rewrite Z.leb_refl, Z.sub_diag. by destruct (transfer_kind (transfer p)).
Qed.

Lemma quiet_tick ctx d :
  quiet d -> start_hdma_block_if_eligible ctx d = Done d ->
  tick_t_cycle_with_vram_dma_context ctx d = Done (None, d).
Proof.
  intros Hq Hs. unfold tick_t_cycle_with_vram_dma_context. rewrite Hs. cbn [mbind outcome_bind]. pose proof Hq as (_ & -> & _).
  by apply tick_transfer_quiet.
Qed.

Lemma quiet_run ctxs d :
  quiet d ->
  Forall (fun c => hblank_window c = Done WindowNone \/ hblank_window c = Done (vram_dma_last_served_window d)) ctxs ->
  dma_run ctxs d = Done ([], d).
Proof.
  intros Hq. induction 1 as [|ctx ctxs Hc _ IH]; [done|].
  assert (Hs : start_hdma_block_if_eligible ctx d = Done d).
  { unfold start_hdma_block_if_eligible. case_match; [done|]. destruct (vram_dma_state d); try done. cbv zeta.
    destruct Hc as [-> | ->]; [done|]. cbn.
    rewrite (bool_decide_eq_true_2 (vram_dma_last_served_window d = vram_dma_last_served_window d)) by done.
    by rewrite orb_true_r. }
  rewrite (dma_run_cons ctx ctxs d None d [] d); [done|by apply quiet_tick|done].
Qed.

(** A window that was not served yet starts a block, in the same T-cycle. *)
Lemma hdma_block_starts ctx d v s w :
  quiet d -> vram_dma_state d = HBlankActive v -> vram_transfer_ok v -> 1 <= vram_remaining_blocks v ->
  hblank_window ctx = Done w -> w <> WindowNone -> w <> vram_dma_last_served_window d ->
  cpu_halted ctx = false -> speed_mode ctx = s ->
  exists d1,
    vram_start true (hdma_block_for_speed v s) 1 (speed_cycles s) v d1 /\
    vram_dma_last_served_window d1 = w /\
    tick_t_cycle_with_vram_dma_context ctx d =
    tick_t_cycle_with_vram_dma_context ctx (vram_at true (hdma_block_for_speed v s) v d1 0).
Proof.
  intros (Hf & Hp & _) Hv Hok Hk Hwin Hn Hw Hh Hs. pose proof (hdma_shape v s) as Hsh.
  assert (Hst : vram_start true (hdma_block_for_speed v s) 1 (speed_cycles s) v
                  (d <| vram_dma_last_served_window := w |>)).
  { constructor; try done; [right; exists v, s; split_and!; [done|done|by right]|destruct d; cbn in *; done..]. }
  exists (d <| vram_dma_last_served_window := w |>). split_and!; [done|by destruct d|].
  assert (E : start_hdma_block_if_eligible ctx d =
    Done (vram_at true (hdma_block_for_speed v s) v (d <| vram_dma_last_served_window := w |>) 0)).
  { unfold start_hdma_block_if_eligible. rewrite Hf, Hh, Hv, Hs, Hwin. cbn [orb mbind outcome_bind].
    rewrite !bool_decide_eq_false_2 by congruence. cbn [orb].
    unfold vram_at. rewrite (vram_published_blocks _ _ _ 0 Hsh) by lia.
    replace (Z.max 0 _) with 0 by (destruct s; cbn; divmod_lia). by destruct d. }
  unfold tick_t_cycle_with_vram_dma_context at 1. rewrite E.
  unfold tick_t_cycle_with_vram_dma_context at 1.
  rewrite (vram_not_eligible _ _ _ _ _ _ _ _ Hst); [done| |destruct s; cbn; lia].
  intros _. right. by destruct d.
Qed.

Lemma window_run d v s w l :
  quiet d -> vram_dma_state d = HBlankActive v -> vram_transfer_ok v -> 1 <= vram_remaining_blocks v ->
  w <> WindowNone -> w <> vram_dma_last_served_window d -> window_segment s w l ->
  let u := advance_completed_blocks 1 v in
  exists d', dma_run l d = Done (map (mkWork (hdma_block_for_speed v s)) (seqZ 0 16), d') /\
    quiet d' /\ vram_dma_state d' = settle true u /\ vram_dma_last_served_window d' = w /\
    vram_dma_registers d' = set_endpoints (vram_source_start u) (vram_destination_start u).
Proof.
  intros Hq Hv Hok Hk Hn Hw (busy & gap & -> & Hlen & Hbusy & Hgap) u.
  destruct busy as [|ctx rest]; [cbn in Hlen; destruct s; cbn in Hlen; lia|].
  inversion Hbusy as [|? ? (Hcw & Hch & Hcs) Hrest]; subst s.
  destruct (hdma_block_starts ctx d v (speed_mode ctx) w Hq Hv Hok Hk Hcw Hn Hw Hch eq_refl) as (d1 & Hst & Hlast & Etick).
  set (s := speed_mode ctx) in *. set (t := hdma_block_for_speed v s) in *.
  set (N := Z.to_nat (16 * 1 * speed_cycles s + 12)).
  assert (HN : Z.of_nat N = 16 * 1 * speed_cycles s + 12) by (unfold N; destruct s; cbn; lia).
  exists (vram_at true t v d1 (16 * 1 * speed_cycles s + 12)).
  destruct (vram_settled _ _ _ _ _ _ Hst) as (Hq' & Hvs & Hreg & Hlw & _). split_and!; try done; [|congruence].
  rewrite <- (take_drop N (ctx :: rest)), <- app_assoc, <- (app_nil_r (map _ _)).
  apply dma_run_app with (d1 := vram_at true t v d1 (16 * 1 * speed_cycles s + 12)).
  - assert (Ew : works_between t 0 (16 * 1 * speed_cycles s + 12) = map (mkWork t) (seqZ 0 16))
      by (apply (works_between_all t 1); apply Hst).
    rewrite <- Ew.
    assert (Hb : Forall (keeps_window true d1) (take N (ctx :: rest))).
    { apply Forall_take. eapply Forall_impl; [|exact Hbusy]. intros c (Hc & _) _. right. by rewrite Hc, Hlast. }
    assert (Hlt : length (take N (ctx :: rest)) = N) by (rewrite length_take; cbn [length] in *; lia).
    rewrite <- HN. rewrite <- Hlt at 2 3. rewrite <- (vram_run _ _ _ _ _ _ _ Hst Hb) by lia.
    destruct N as [|n']; [destruct s; cbn in HN; lia|]. unfold dma_run. cbn [take map dma_ops dma_step].
    by rewrite Etick.
  - apply quiet_run; [done|]. apply Forall_app. rewrite Hlw, Hlast. split.
    + apply Forall_drop. eapply Forall_impl; [|exact Hbusy]. intros c (Hc & _). by right.
    + eapply Forall_impl; [|exact Hgap]. intros c Hc. by left.
Qed.

(** Segments whose windows were not served just before. *)
Fixpoint fresh_windows (s : CgbSpeedMode) (last : VramDmaHBlankWindow)
    (segments : list (VramDmaHBlankWindow * list VramDmaRuntimeContext)) : Prop :=
  match segments with
  | [] => True
  | (w, l) :: rest => w <> WindowNone /\ w <> last /\ window_segment s w l /\ fresh_windows s w rest
  end.

Definition moves (source destination n : Z) : list (Z * Z) :=
  map (fun i => (source + i, destination + i)) (seqZ 0 n).

Lemma moves_app source destination m n :
  0 <= m -> 0 <= n ->
  moves source destination m ++ moves (source + m) (destination + m) n = moves source destination (m + n).
Proof.
  intros Hm Hn. unfold moves. rewrite seqZ_app, map_app by lia. f_equal.
  rewrite (Z.add_comm 0 m), <- (fmap_add_seqZ m 0 n). unfold fmap. change list_fmap with @map.
  rewrite map_map. apply map_ext. intros i. f_equal; lia.
Qed.

Lemma mapM_app_Done {A B} (f : A -> outcome B) l1 l2 r1 r2 :
  mapM f l1 = Done r1 -> mapM f l2 = Done r2 -> mapM f (l1 ++ l2) = Done (r1 ++ r2).
Proof.
  revert r1. induction l1 as [|a l1 IH]; intros r1 E1 E2; [by injection E1 as <-|].
  cbn in E1 |- *. destruct (f a) as [b|]; [|done]. cbn in E1 |- *.
  destruct (mapM f l1) as [r|]; [|done]. injection E1 as <-. by rewrite (IH r).
Qed.

Lemma hdma_block_moves v s :
  vram_transfer_ok v -> 1 <= vram_remaining_blocks v -> vram_source_start v + 16 <= 65536 ->
  mapM work_move (map (mkWork (hdma_block_for_speed v s)) (seqZ 0 16)) =
  Done (moves (vram_source_start v) (vram_destination_start v) 16).
Proof.
  intros Hv Hk Ho.
  rewrite mapM_Done with (g := fun w => (vram_source_start v + byte_index w, vram_destination_start v + byte_index w)).
  - by rewrite map_map.
  - apply Forall_map, Forall_seqZ. intros i Hi. cbn [byte_index].
    apply (vram_work_move _ v 16); [done|exists s; by right|lia|lia].
Qed.

Lemma hdma_windows s segments d v :
  quiet d -> vram_dma_state d = HBlankActive v -> vram_transfer_ok v ->
  1 <= vram_remaining_blocks v -> Z.of_nat (length segments) = vram_remaining_blocks v ->
  vram_source_start v + vram_remaining_bytes v <= 65536 ->
  fresh_windows s (vram_dma_last_served_window d) segments ->
  exists works d', dma_run (concat (map snd segments)) d = Done (works, d') /\
    mapM work_move works =
      Done (moves (vram_source_start v) (vram_destination_start v) (vram_remaining_bytes v)) /\
    quiet d' /\ read_hdma5 d' = 0xFF /\ vram_is_active (vram_dma_state d') = false /\
    registers_source_start (vram_dma_registers d') = (vram_source_start v + vram_remaining_bytes v) mod 65536.
Proof.
  revert d v. induction segments as [|[w l] rest IH]; intros d v Hq Hst Hv Hk Hl Ho Hf; [cbn in Hl; lia|].
  destruct Hf as (Hn & Hw & Hseg & Hrest).
  destruct (window_run d v s w l Hq Hst Hv Hk Hn Hw Hseg) as (d1 & Hrun & Hq1 & Hst1 & Hw1 & Hr1).
  pose proof (advance_completed_blocks_small 1 v Hv ltac:(lia)) as (E1 & E2 & E3).
  pose proof (advance_completed_blocks_ok 1 v Hv ltac:(lia)) as Hu.
  pose proof Hv as (Hs1 & Hsm & Hd1 & _). unfold vram_remaining_bytes, VRAM_DMA_BLOCK_BYTES, u16 in *.
  pose proof (hdma_block_moves v s Hv Hk ltac:(lia)) as Hm1.
  set (u := advance_completed_blocks 1 v) in *. cbn [length] in Hl. cbn [map concat snd].
  destruct (Z.eq_dec (vram_remaining_blocks v) 1) as [Hlast|Hmore].
  - destruct rest; [|cbn in Hl; lia]. cbn [map concat]. rewrite app_nil_r.
    exists (map (mkWork (hdma_block_for_speed v s)) (seqZ 0 16)), d1. rewrite Hlast in *.
    unfold settle in Hst1. rewrite E3 in Hst1. cbn in Hst1.
    assert (Hend : u16 (vram_destination_start u)).
    { destruct Hu as (_ & _ & Hu1 & _ & Hu2 & _ & Hu3).
      unfold vram_remaining_bytes, VRAM_DMA_BLOCK_BYTES, u16 in *. lia. }
    unfold read_hdma5. rewrite Hst1, Hr1. split_and!; try done.
    rewrite set_endpoints_source, E1; try done; [rewrite E1; apply u16_mod|rewrite E1; divmod_lia].
  - unfold settle in Hst1. rewrite E3 in Hst1.
    destruct (Z.eqb_spec (vram_remaining_blocks v - 1) 0); [lia|]. cbn in Hst1.
    rewrite <- Hw1 in Hrest.
    assert (E1' : vram_source_start u = vram_source_start v + 16) by (rewrite E1, Z.mod_small by lia; lia).
    assert (E2' : vram_destination_start u = vram_destination_start v + 16) by (rewrite E2; lia).
    destruct (IH d1 u Hq1 Hst1 Hu ltac:(lia) ltac:(lia) ltac:(lia) Hrest) as (ws & d2 & Hrun2 & Hm2 & Hq2 & Hh2 & Ha2 & Hr2).
    rewrite E1', E2', E3 in *.
    exists (map (mkWork (hdma_block_for_speed v s)) (seqZ 0 16) ++ ws), d2. split_and!; try done.
    + by apply dma_run_app with d1.
    + rewrite (mapM_app_Done _ _ _ _ _ Hm1 Hm2), moves_app by lia. do 2 f_equal. lia.
    + rewrite Hr2. f_equal. lia.
Qed.

(** C20. A write of [HDMA5] with the mode bit set moves one block in each of
    the next HBlank windows in which the CPU runs, and after as many windows as
    blocks every byte has been moved in order, [HDMA5] reads [FF] and nothing
    is left in flight. *)
Theorem hdma_moves_a_block_per_window (d : DmaController) (value : Z) (s speed : CgbSpeedMode)
    (segments : list (VramDmaHBlankWindow * list VramDmaRuntimeContext)) :
  dma_ok d -> quiet d -> Z.land value HDMA5_MODE_BIT <> 0 -> hblank_active_transfer (vram_dma_state d) = None ->
  let source := registers_source_start (vram_dma_registers d) in
  let destination := registers_destination_start (vram_dma_registers d) in
  let blocks := Z.min (Z.land value HDMA5_TRANSFER_LENGTH_MASK + 1) ((0xA000 - destination) / 16) in
  source + 16 * blocks <= 65536 -> Z.of_nat (length segments) = blocks ->
  fresh_windows s WindowNone segments ->
  exists works d', dma_run (concat (map snd segments)) (write_hdma5_for_speed value speed d) = Done (works, d') /\
    mapM work_move works = Done (moves source destination (16 * blocks)) /\
    quiet d' /\ read_hdma5 d' = 0xFF /\ vram_is_active (vram_dma_state d') = false /\
    registers_source_start (vram_dma_registers d') = (source + 16 * blocks) mod 65536.
Proof.
  intros Hd Hq Hm Hh source destination blocks Ho Hl Hf.
  set (v := vram_transfer_new ModeHBlank (vram_dma_registers d) (Z.land value HDMA5_TRANSFER_LENGTH_MASK + 1)).
  assert (Hv : vram_transfer_ok v /\ 1 <= vram_remaining_blocks v).
  { apply vram_transfer_new_ok; [apply Hd|]. unfold HDMA5_TRANSFER_LENGTH_MASK. rewrite land_7F. divmod_lia. }
  assert (Hk : vram_remaining_blocks v = blocks).
  { unfold blocks, v, vram_transfer_new, clip_vram_dma_blocks_for_destination, VRAM_DMA_DESTINATION_END,
      VRAM_DMA_BLOCK_BYTES. cbn [vram_remaining_blocks]. fold destination. change (0x9FFF + 1) with 0xA000.
    destruct (Z.ltb_spec ((0xA000 - destination) / 16) (Z.land value HDMA5_TRANSFER_LENGTH_MASK + 1)); lia. }
  assert (E : write_hdma5_for_speed value speed d =
    d <| vram_dma_state := HBlankActive v |> <| vram_dma_last_served_window := WindowNone |>).
  { unfold write_hdma5_for_speed. destruct (Z.eqb_spec (Z.land value HDMA5_MODE_BIT) 0); [done|].
    destruct (vram_dma_state d); done. }
  rewrite E. replace (16 * blocks) with (vram_remaining_bytes v)
    by (unfold vram_remaining_bytes, VRAM_DMA_BLOCK_BYTES; lia).
  change source with (vram_source_start v). change destination with (vram_destination_start v).
  apply (hdma_windows s segments _ v); try (by destruct d); try apply Hv; try lia.
  unfold vram_remaining_bytes, VRAM_DMA_BLOCK_BYTES. change (vram_source_start v) with source. lia.
Qed.

(** A dot of the HBlank of line [ly], and a dot outside HBlank. *)
Definition hblank_dot (ly : Z) : VramDmaRuntimeContext := mkRuntime (lcd_enabled HBlank) ly 300 250 false Normal.
Definition busy_dot (ly : Z) : VramDmaRuntimeContext := mkRuntime (lcd_enabled Drawing) ly 100 250 false Normal.

Lemma hblank_segment ly n :
  ly <? 144 = true ->
  window_segment Normal (VisibleHBlank ly) (replicate 44 (hblank_dot ly) ++ replicate n (busy_dot (ly + 1))).
Proof.
  intros Hly. eexists _, _. split; [done|]. split; [done|]. split; apply Forall_replicate.
  - split; [|done]. unfold hblank_window, from_ppu_bus_state. cbn. by rewrite Hly.
  - unfold hblank_window, from_ppu_bus_state. cbn. by rewrite andb_false_r.
Qed.

Definition witness_segments : list (VramDmaHBlankWindow * list VramDmaRuntimeContext) :=
  [(VisibleHBlank 3, replicate 44 (hblank_dot 3) ++ replicate 100 (busy_dot (3 + 1)));
   (VisibleHBlank 4, replicate 44 (hblank_dot 4) ++ replicate 5 (busy_dot (4 + 1)))].

Lemma hdma_moves_a_block_per_window_witness :
  let d := write_hdma1 0xD1 (write_hdma4 0x20 (write_hdma3 0x08 (dma_new GameBoyColor))) in
  exists works d', dma_run (concat (map snd witness_segments)) (write_hdma5_for_speed 0x81 Normal d) = Done (works, d') /\
    mapM work_move works = Done (moves 0xD1F0 0x8820 (16 * 2)) /\
    quiet d' /\ read_hdma5 d' = 0xFF /\ vram_is_active (vram_dma_state d') = false /\
    registers_source_start (vram_dma_registers d') = (0xD1F0 + 16 * 2) mod 65536.
Proof.
  apply (hdma_moves_a_block_per_window (write_hdma1 0xD1 (write_hdma4 0x20 (write_hdma3 0x08 (dma_new GameBoyColor))))
    0x81 Normal Normal witness_segments);
    [by split|done|done|done|vm_compute; discriminate|done|].
  repeat split; try done; by apply hblank_segment.
Defined.

(** *** Where the code and the hardware contract part *)

(** A burst whose source runs past [FFFF] adds two [u16] values that overflow:
    the last byte of the block at [FFF0] is moved, the next one panics. *)
Lemma gdma_source_past_the_end_panics :
  finishes (dma_run (replicate 76 runtime_default) (write_hdma5 0x01 (write_hdma3 0x00 (dma_new GameBoyColor))))
    (fun r => (work_source_address <$> r.1 !! 15%nat) = Some (Done 0xFFFF) /\
              (work_source_address <$> r.1 !! 16%nat) = Some (Panic "attempt to add with overflow")).
Proof. vm_compute. by split. Qed.

(** An OAM transfer requested in the seven T-cycles between the release of the
    CPU and the publication of an HBlank block replaces the block's progress:
    the block is never counted and the next window moves it again. *)
Lemma oam_request_before_publication_repeats_the_block :
  finishes (dma_run (replicate 38 (hblank_dot 3))
              (write_hdma5 0x81 (write_hdma1 0xC0 (write_hdma3 0x00 (dma_new GameBoyColor)))))
    (fun r1 => cpu_stall_active r1.2 = false /\
      finishes (dma_run (replicate 700 (busy_dot 4)) (write_ff46 0xC1 r1.2)) (fun r2 =>
        finishes (dma_run (replicate 50 (hblank_dot 4)) r2.2) (fun r3 =>
          r3.1 = r1.1 /\ vram_remaining_blocks <$> active_transfer (vram_dma_state r3.2) = Some 1))).
Proof. vm_compute. by repeat split. Qed.
