(* ===== verification/Boot.v ===== *)
(** * Boot control ([crates/gb-core/src/boot.rs])

    The boot ROM images and their windows, the one-way unmapping behind [FF50],
    the memory a boot ROM leaves behind, and the register states of a machine
    that skips its boot ROM.  Reading images from a directory is file input and
    output; a rejected image keeps its length instead of its path. *)

From Stdlib Require Import ZArith Lia Bool String.
From stdpp Require Import base decidable list option.
From S2P Require Import Prelude.
From S2P Require Import Model.
From S2P Require Import Interrupts.
From S2P Require Import Joypad.
From S2P Require Import Timer.
From S2P Require Import CpuData.
From S2P Require Import Serial.
From S2P Require Import CartridgeHeader.
From S2P Require Import Cartridge.
From S2P Require Import CartridgeDevice.
From S2P Require Import CartridgeSlot.
From S2P Require Import ApuCommon.
From S2P Require Import ApuChannels.
From S2P Require Import BusState.
From S2P Require Import CpuSafety.

Local Open Scope Z_scope.

Definition DMG_FAMILY_BOOT_ROM_LEN : Z := 0x0100.
Definition CGB_BOOT_ROM_RAW_LEN : Z := 0x0800.
Definition CGB_BOOT_ROM_MAPPED_LEN : Z := 0x0900.
Definition CGB_BOOT_ROM_UPPER_WINDOW_START : Z := 0x0200.

(** ** Boot ROM images *)

Inductive BootRomAssetKind :=
| AssetDmg0 | AssetDmg | AssetMgb | AssetSgb | AssetSgb2
| AssetCgb0 | AssetCgb | AssetCgbE | AssetCgbAgb0 | AssetCgbAgb.

#[export] Instance BootRomAssetKind_eq_dec : EqDecision BootRomAssetKind.
Proof. solve_decision. Defined.

Definition from_revision (r : HardwareRevision) : BootRomAssetKind :=
  match r with
  | DmgCpu0 => AssetDmg0
  | DmgCpuA | DmgCpuB | DmgCpuC => AssetDmg
  | CpuMgb => AssetMgb
  | CpuCgb0 => AssetCgb0
  | CpuCgbA | CpuCgbB | CpuCgbC | CpuCgbD => AssetCgb
  | CpuCgbE => AssetCgbE
  | CpuAgb0 => AssetCgbAgb0
  | CpuAgbA => AssetCgbAgb
  end.

Definition from_sgb_profile (p : SgbHostProfile) : BootRomAssetKind :=
  match p with SgbNtsc | SgbPal => AssetSgb | Sgb2Ntsc => AssetSgb2 end.

Definition from_machine_profile (r : HardwareRevision) (p : option SgbHostProfile) : BootRomAssetKind :=
  match p with Some profile => from_sgb_profile profile | None => from_revision r end.

Definition filename (k : BootRomAssetKind) : string :=
  match k with
  | AssetDmg0 => "dmg0_boot.bin" | AssetDmg => "dmg_boot.bin" | AssetMgb => "mgb_boot.bin"
  | AssetSgb => "sgb_boot.bin" | AssetSgb2 => "sgb2_boot.bin" | AssetCgb0 => "cgb0_boot.bin"
  | AssetCgb => "cgb_boot.bin" | AssetCgbE => "cgbE_boot.bin"
  | AssetCgbAgb0 => "cgb_agb0_boot.bin" | AssetCgbAgb => "cgb_agb_boot.bin"
  end.

Definition minimum_len (k : BootRomAssetKind) : Z :=
  match k with
  | AssetDmg0 | AssetDmg | AssetMgb | AssetSgb | AssetSgb2 => DMG_FAMILY_BOOT_ROM_LEN
  | _ => CGB_BOOT_ROM_RAW_LEN
  end.

Definition expected_size (k : BootRomAssetKind) : Z :=
  match k with
  | AssetDmg0 | AssetDmg | AssetMgb | AssetSgb | AssetSgb2 => DMG_FAMILY_BOOT_ROM_LEN
  | _ => CGB_BOOT_ROM_MAPPED_LEN
  end.

Definition uses_cgb_mapping (k : BootRomAssetKind) : bool :=
  match k with AssetCgb0 | AssetCgb | AssetCgbE | AssetCgbAgb0 | AssetCgbAgb => true | _ => false end.

Record BootRomAssets := mkAssets {
  asset_dmg0 : option (list Z); asset_dmg : option (list Z); asset_mgb : option (list Z);
  asset_sgb : option (list Z); asset_sgb2 : option (list Z); asset_cgb0 : option (list Z);
  asset_cgb : option (list Z); asset_cgb_e : option (list Z); asset_cgb_agb0 : option (list Z);
  asset_cgb_agb : option (list Z)
}.

Definition assets_none : BootRomAssets := mkAssets None None None None None None None None None None.

Definition bytes_for (k : BootRomAssetKind) (a : BootRomAssets) : option (list Z) :=
  match k with
  | AssetDmg0 => asset_dmg0 a | AssetDmg => asset_dmg a | AssetMgb => asset_mgb a
  | AssetSgb => asset_sgb a | AssetSgb2 => asset_sgb2 a | AssetCgb0 => asset_cgb0 a
  | AssetCgb => asset_cgb a | AssetCgbE => asset_cgb_e a
  | AssetCgbAgb0 => asset_cgb_agb0 a | AssetCgbAgb => asset_cgb_agb a
  end.

(** Writing through [bytes_slot_mut]. *)
Definition set_bytes_for (k : BootRomAssetKind) (v : option (list Z)) (a : BootRomAssets) : BootRomAssets :=
  let '(mkAssets d0 d m s s2 c0 c ce a0 ag) := a in
  match k with
  | AssetDmg0 => mkAssets v d m s s2 c0 c ce a0 ag
  | AssetDmg => mkAssets d0 v m s s2 c0 c ce a0 ag
  | AssetMgb => mkAssets d0 d v s s2 c0 c ce a0 ag
  | AssetSgb => mkAssets d0 d m v s2 c0 c ce a0 ag
  | AssetSgb2 => mkAssets d0 d m s v c0 c ce a0 ag
  | AssetCgb0 => mkAssets d0 d m s s2 v c ce a0 ag
  | AssetCgb => mkAssets d0 d m s s2 c0 v ce a0 ag
  | AssetCgbE => mkAssets d0 d m s s2 c0 c v a0 ag
  | AssetCgbAgb0 => mkAssets d0 d m s s2 c0 c ce v ag
  | AssetCgbAgb => mkAssets d0 d m s s2 c0 c ce a0 v
  end.

(** [ImageTooShort], without the path. *)
Inductive BootRomAssetError := ImageTooShort (expected_at_least actual : Z).

Definition validate_boot_rom_len (minimum_len : Z) (bytes : list Z) : option BootRomAssetError :=
  if vec_len bytes <? minimum_len then Some (ImageTooShort minimum_len (vec_len bytes)) else None.

Definition insert_asset_bytes (k : BootRomAssetKind) (bytes : list Z) (a : BootRomAssets)
    : BootRomAssets + BootRomAssetError :=
  match validate_boot_rom_len (minimum_len k) bytes with
  | Some e => inr e
  | None => inl (set_bytes_for k (Some bytes) a)
  end.
Definition insert_bytes (r : HardwareRevision) : list Z -> BootRomAssets -> BootRomAssets + BootRomAssetError :=
  insert_asset_bytes (from_revision r).

Definition has_asset (k : BootRomAssetKind) (a : BootRomAssets) : bool := bool_decide (is_Some (bytes_for k a)).
Definition has_image (r : HardwareRevision) (a : BootRomAssets) : bool := has_asset (from_revision r) a.

Definition all_assets : list BootRomAssetKind :=
  [AssetDmg0; AssetDmg; AssetMgb; AssetSgb; AssetSgb2; AssetCgb0; AssetCgb; AssetCgbE; AssetCgbAgb0; AssetCgbAgb].

Definition assets_is_empty (a : BootRomAssets) : bool :=
  forallb (fun k => bool_decide (bytes_for k a = None)) all_assets.

Definition dynamic_payload_bytes (a : BootRomAssets) : Z :=
  foldl (fun n k => n + from_option vec_len 0 (bytes_for k a)) 0 all_assets.

Definition read_cgb_boot_rom_byte (bytes : list Z) (address : Z) : option Z :=
  if (0 <=? address) && (address <=? 0x00FF) then vec_get bytes address
  else if (0x0200 <=? address) && (address <=? 0x08FF) then
    let source_address :=
      if CGB_BOOT_ROM_MAPPED_LEN <=? vec_len bytes then address
      else address - (CGB_BOOT_ROM_UPPER_WINDOW_START - DMG_FAMILY_BOOT_ROM_LEN) in
    vec_get bytes source_address
  else None.

Definition read_asset_byte (k : BootRomAssetKind) (address : Z) (a : BootRomAssets) : option Z :=
  bytes ← bytes_for k a;
  if uses_cgb_mapping k then read_cgb_boot_rom_byte bytes address else vec_get bytes address.
Definition read_byte (r : HardwareRevision) (address : Z) (a : BootRomAssets) : option Z :=
  read_asset_byte (from_revision r) address a.

Definition fingerprint_asset (k : BootRomAssetKind) (a : BootRomAssets) : option SaveStateByteFingerprint :=
  from_bytes <$> bytes_for k a.

(** ** Startup memory *)

Inductive StartupMemoryPolicy :=
| DeterministicPatterned
| DmgBootLogoVram
| CgbRealBootEntry
| CgbRealBootEntryWithDmgBootLogoVram
| CgbRealBootEntryWithDmgBootLogoTiles.

Definition DMG_BOOT_LOGO_TILE_VRAM_START : Z := 0x8010.
Definition DMG_BOOT_LOGO_MAP_VRAM_START : Z := 0x9904.

(** The byte tables, sixteen bytes to a row, written as one number. *)
Definition be_bytes (n : nat) (x : Z) : list Z :=
  map (fun i => as_u8 (Z.shiftr x (8 * Z.of_nat (n - 1 - i)))) (seq 0 n).
Definition byte_rows (rows : list Z) : list Z := flat_map (be_bytes 16) rows.

Definition DMG_BOOT_LOGO_TILE_BYTES : list Z :=
  (byte_rows [0xF0F0FCFCFCFCF3F33C3C3C3C3C3C3C3C;
              0xF0F0F0F00000F3F3000000000000CFCF;
              0x00000F0F3F3F0F0F00000000C0C00F0F;
              0x000000000000F0F0000000000000F3F3;
              0x000000000000C0C0030303030303FFFF;
              0xC0C0C0C0C0C0C3C3000000000000FCFC;
              0xF3F3F0F0F0F0F0F03C3CFCFCFCFC3C3C;
              0xF3F3F3F3F3F3F3F3F3F3C3C3C3C3C3C3;
              0xCFCFCFCFCFCFCFCF3C3C3F3F3C3C0F0F;
              0x3C3CFCFC0000FCFCFCFCF0F0F0F0F0F0;
              0xF3F3F3F3F3F3F0F0C3C3C3C3C3C3FFFF;
              0xCFCFCFCFCFCFC3C30F0F0F0F0F0FFCFC] ++
   be_bytes 8 0x3C42B9A5B9A5423C)%list.
Definition DMG_BOOT_LOGO_MAP_BYTES : list Z :=
  (byte_rows [0x0102030405060708090A0B0C19000000;
              0x00000000000000000000000000000000] ++
   be_bytes 12 0x0D0E0F101112131415161718)%list.
Definition CGB_BOOT_LOGO_HRAM_PREFIX : list Z :=
  byte_rows [0xCEED6666CC0D000B03730083000C000D;
             0x0008111F8889000EDCCC6EE6DDDDD999;
             0xBBBB67636E0EECCCDDDC999FBBB9333E].
Definition CGB_REAL_BOOT_VRAM_PREFIX : list Z :=
  byte_rows [0x00000000000000000000000000000000;
             0xF000F000FC00FC00FC00FC00F300F300].

Definition write_vram_backing_byte (bytes : list Z) (address value : Z) : list Z :=
  if 0x8000 <=? address then
    let offset := address - 0x8000 in
    if offset <? vec_len bytes then vec_set bytes offset value else bytes
  else bytes.

(** [for (index, byte) in table.iter().enumerate()], writing at [start + index * stride]. *)
Fixpoint write_table (start stride : Z) (table : list Z) (bytes : list Z) : list Z :=
  match table with
  | [] => bytes
  | byte :: rest => write_table (start + stride) stride rest (write_vram_backing_byte bytes start byte)
  end.

Definition apply_dmg_boot_logo_tile_vram : list Z -> list Z :=
  write_table DMG_BOOT_LOGO_TILE_VRAM_START 2 DMG_BOOT_LOGO_TILE_BYTES.
Definition apply_dmg_boot_logo_tilemap_vram : list Z -> list Z :=
  write_table DMG_BOOT_LOGO_MAP_VRAM_START 1 DMG_BOOT_LOGO_MAP_BYTES.
Definition apply_dmg_boot_logo_vram (bytes : list Z) : list Z :=
  apply_dmg_boot_logo_tilemap_vram (apply_dmg_boot_logo_tile_vram bytes).

(** [bytes.fill(0)] and copying as much of a prefix as fits. *)
Definition zeroed_with_prefix (prefix bytes : list Z) : list Z :=
  let copy_len := Nat.min (length prefix) (length bytes) in
  take copy_len prefix ++ replicate (length bytes - copy_len) 0.
Definition initialize_cgb_real_boot_entry_vram : list Z -> list Z := zeroed_with_prefix CGB_REAL_BOOT_VRAM_PREFIX.
Definition initialize_cgb_real_boot_entry_hram : list Z -> list Z := zeroed_with_prefix CGB_BOOT_LOGO_HRAM_PREFIX.

Definition wrapping_mul8 (a b : Z) : Z := (a * b) mod 256.

Definition deterministic_startup_byte (address : Z) : Z :=
  let low := as_u8 address in
  let high := as_u8 (Z.shiftr address 8) in
  let mixed := Z.lxor (Z.lxor (wrapping_mul8 low 0x3D) (wrapping_mul8 high 0xA7)) 0x5A in
  Z.lxor (rotate_left8 mixed (Z.land (Z.shiftr address 1) 0x07)) 0xA5.

Definition fill_deterministic_startup_pattern (bytes : list Z) (base_address : Z) : list Z :=
  imap (fun offset _ => deterministic_startup_byte (wrapping_add16 base_address (as_u16 (Z.of_nat offset)))) bytes.

Definition fill_bytes (p : StartupMemoryPolicy) (bytes : list Z) (base_address : Z) : list Z :=
  match p with
  | DeterministicPatterned | DmgBootLogoVram => fill_deterministic_startup_pattern bytes base_address
  | _ => bytes
  end.

Definition initialize_vram (p : StartupMemoryPolicy) (bytes : list Z) : list Z :=
  match p with
  | DeterministicPatterned => bytes
  | DmgBootLogoVram => apply_dmg_boot_logo_vram bytes
  | CgbRealBootEntry => initialize_cgb_real_boot_entry_vram bytes
  | CgbRealBootEntryWithDmgBootLogoTiles =>
      apply_dmg_boot_logo_tile_vram (initialize_cgb_real_boot_entry_vram bytes)
  | CgbRealBootEntryWithDmgBootLogoVram =>
      apply_dmg_boot_logo_vram (initialize_cgb_real_boot_entry_vram bytes)
  end.

Definition initialize_wram (p : StartupMemoryPolicy) (bytes : list Z) : list Z :=
  match p with
  | DeterministicPatterned | DmgBootLogoVram => fill_bytes p bytes 0xC000
  | _ => replicate (length bytes) 0
  end.

Definition initialize_hram (p : StartupMemoryPolicy) (bytes : list Z) : list Z :=
  match p with
  | DeterministicPatterned | DmgBootLogoVram => fill_bytes p bytes 0xFF80
  | _ => initialize_cgb_real_boot_entry_hram bytes
  end.

(** ** Register snapshots at the cartridge entry point *)

Record BootAudioSnapshot := mkAudio {
  audio_nr10 : Z; audio_nr11 : Z; audio_nr12 : Z; audio_nr13 : Z; audio_nr14 : Z; audio_nr21 : Z; audio_nr22 : Z; audio_nr23 : Z; audio_nr24 : Z;
  audio_nr30 : Z; audio_nr31 : Z; audio_nr32 : Z; audio_nr33 : Z; audio_nr34 : Z; audio_nr41 : Z; audio_nr42 : Z; audio_nr43 : Z; audio_nr44 : Z;
  audio_nr50 : Z; audio_nr51 : Z; audio_nr52 : Z
}.

Record BootIoSnapshot := mkIo {
  snap_p1 : Z; snap_sb : Z; snap_sc : Z; snap_div : Z; snap_tima : Z; snap_tma : Z; snap_tac : Z; snap_interrupt_flag : Z;
  snap_lcdc : Z; snap_stat : Z; snap_scy : Z; snap_scx : Z; snap_ly : Z; snap_lyc : Z; snap_dma : Z; snap_bgp : Z; snap_wy : Z; snap_wx : Z; snap_interrupt_enable : Z;
  snap_audio : BootAudioSnapshot
}.

#[export] Instance upd_snap_p1 : Update snap_p1 := fun v s =>
  let '(mkIo _ x1 x2 x3 x4 x5 x6 x7 x8 x9 x10 x11 x12 x13 x14 x15 x16 x17 x18 x19) := s in mkIo v x1 x2 x3 x4 x5 x6 x7 x8 x9 x10 x11 x12 x13 x14 x15 x16 x17 x18 x19.
#[export] Instance upd_snap_div : Update snap_div := fun v s =>
  let '(mkIo x0 x1 x2 _ x4 x5 x6 x7 x8 x9 x10 x11 x12 x13 x14 x15 x16 x17 x18 x19) := s in mkIo x0 x1 x2 v x4 x5 x6 x7 x8 x9 x10 x11 x12 x13 x14 x15 x16 x17 x18 x19.
#[export] Instance upd_snap_dma : Update snap_dma := fun v s =>
  let '(mkIo x0 x1 x2 x3 x4 x5 x6 x7 x8 x9 x10 x11 x12 x13 _ x15 x16 x17 x18 x19) := s in mkIo x0 x1 x2 x3 x4 x5 x6 x7 x8 x9 x10 x11 x12 x13 v x15 x16 x17 x18 x19.
#[export] Instance upd_snap_audio : Update snap_audio := fun v s =>
  let '(mkIo x0 x1 x2 x3 x4 x5 x6 x7 x8 x9 x10 x11 x12 x13 x14 x15 x16 x17 x18 _) := s in mkIo x0 x1 x2 x3 x4 x5 x6 x7 x8 x9 x10 x11 x12 x13 x14 x15 x16 x17 x18 v.
#[export] Instance upd_audio_nr52 : Update audio_nr52 := fun v s =>
  let '(mkAudio x0 x1 x2 x3 x4 x5 x6 x7 x8 x9 x10 x11 x12 x13 x14 x15 x16 x17 x18 x19 _) := s in mkAudio x0 x1 x2 x3 x4 x5 x6 x7 x8 x9 x10 x11 x12 x13 x14 x15 x16 x17 x18 x19 v.

(** [PpuStartupState]; [DmgObjPaletteReadPolicy] has a single constructor. *)
Record PpuStartupState := mkPpuStartup {
  ppu_lcdc : Z; ppu_stat : Z; ppu_scy : Z; ppu_scx : Z; ppu_startup_ly : Z; ppu_lyc : Z; ppu_bgp : Z;
  ppu_wy : Z; ppu_wx : Z
}.

(** [DmaStartupState] is its only field, the source page latch. *)
Record BootDirectBootState := mkDirectBoot {
  boot_cpu : CpuStartupState;
  boot_io : BootIoSnapshot;
  boot_apu : ApuStartupState;
  boot_ppu : PpuStartupState;
  boot_serial : SerialStartupState;
  boot_timer : TimerStartupState;
  boot_dma : Z;
  boot_interrupts : InterruptStartupState;
  boot_joypad : JoypadStartupState;
  boot_memory_policy : StartupMemoryPolicy
}.

Record BootRealBootPowerOnState := mkRealBoot {
  real_timer : TimerStartupState;
  real_serial : SerialStartupState;
  real_dma : Z;
  real_joypad : JoypadStartupState
}.

(** ** The snapshots *)

Definition dmg_family_skip_boot_audio_snapshot : BootAudioSnapshot :=
  mkAudio 0x80 0xBF 0xF3 0xFF 0xBF 0x3F 0x00 0xFF 0xBF 0x7F 0xFF 0x9F 0xFF 0xBF 0xFF 0x00 0x00 0xBF 0x77 0xF3 0xF1.

Definition dmg_family_synthetic_skip_boot_io_snapshot : BootIoSnapshot :=
  mkIo 0xCF 0x00 0x7E 0xAB 0x00 0x00 0xF8 0xE1 0x91 0x85 0x00 0x00 0x00 0x00 0xFF 0xFC 0x00 0x00 0x00
    dmg_family_skip_boot_audio_snapshot.

Definition dmg0_synthetic_skip_boot_io_snapshot : BootIoSnapshot :=
  mkIo 0xCF 0x00 0x7E 0x18 0x00 0x00 0xF8 0xE1 0x91 0x83 0x00 0x00 0x01 0x00 0xFF 0xFC 0x00 0x00 0x00
    dmg_family_skip_boot_audio_snapshot.

Definition sgb_synthetic_skip_boot_io_snapshot : BootIoSnapshot :=
  let io := dmg_family_synthetic_skip_boot_io_snapshot in
  let io := io <| snap_p1 := 0xFF |> in
  io <| snap_audio := (snap_audio io) <| audio_nr52 := 0xF0 |> |>.

Definition CGB_SKIP_BOOT_DIV : Z := 0x26.

Definition is_dmg_cpu_0 (r : HardwareRevision) : bool := match r with DmgCpu0 => true | _ => false end.

Definition synthetic_skip_boot_io_snapshot (m : ConsoleModel) (r : HardwareRevision) (p : option SgbHostProfile)
    : BootIoSnapshot :=
  match p with
  | Some _ => sgb_synthetic_skip_boot_io_snapshot
  | None =>
      match m with
      | GameBoy =>
          if is_dmg_cpu_0 r then dmg0_synthetic_skip_boot_io_snapshot
          else dmg_family_synthetic_skip_boot_io_snapshot
      | GameBoyPocket | GameBoyLight => dmg_family_synthetic_skip_boot_io_snapshot
      | GameBoyColor | GameBoyAdvance =>
          dmg_family_synthetic_skip_boot_io_snapshot
            <| snap_p1 := 0xFF |> <| snap_div := CGB_SKIP_BOOT_DIV |> <| snap_dma := 0x00 |>
      end
  end.

Definition verified_dmg_io_snapshot : BootIoSnapshot :=
  mkIo 0xCF 0x00 0x7E 0xAB 0x00 0x00 0xF8 0xE1 0x91 0x81 0x00 0x00 153 0x00 0xFF 0xFC 0x00 0x00 0x00
    dmg_family_skip_boot_audio_snapshot.

Definition verified_boot_entry_io_snapshot (m : ConsoleModel) (r : HardwareRevision) (p : option SgbHostProfile)
    : BootIoSnapshot :=
  match p with
  | Some _ => sgb_synthetic_skip_boot_io_snapshot
  | None =>
      match m with
      | GameBoy => if is_dmg_cpu_0 r then dmg0_synthetic_skip_boot_io_snapshot else verified_dmg_io_snapshot
      | GameBoyPocket | GameBoyLight => verified_dmg_io_snapshot
      | GameBoyColor | GameBoyAdvance => synthetic_skip_boot_io_snapshot m r p
      end
  end.

(** ** The system counter at the entry point *)

Definition DMG_FAMILY_SKIP_BOOT_SYSTEM_COUNTER_LOW : Z := 0xC8.
Definition DMG0_SKIP_BOOT_SYSTEM_COUNTER_LOW : Z := 0x2C.
Definition DMG_FAMILY_SKIP_BOOT_SERIAL_CLOCK_COUNTER : Z := 0xABCC.
Definition CARTRIDGE_ENTRY_HEADER_START : Z := 0x0100.
Definition CARTRIDGE_ENTRY_HEADER_END_INCLUSIVE : Z := 0x014F.
Definition SGB_DIRECT_BOOT_SET_BIT_T_CYCLES : Z := 4.
Definition SGB_DIRECT_BOOT_ZERO_HEADER_SYSTEM_COUNTER : Z := 0xDCA0.
Definition CGB0_DIRECT_BOOT_SYSTEM_COUNTER : Z := 0x2880.
Definition CGB_DEFAULT_DIRECT_BOOT_SYSTEM_COUNTER : Z := 0x2674.
Definition AGB_DMG_COMPATIBLE_DIRECT_BOOT_SYSTEM_COUNTER : Z := 0x2678.
Definition CGB_NATIVE_NON_NINTENDO_DIRECT_BOOT_SYSTEM_COUNTER : Z := 0x1E84.
Definition CGB_NATIVE_BINARY_ZERO_NEW_LICENSEE_DIRECT_BOOT_SYSTEM_COUNTER : Z := 0x1E98.
Definition CGB_NATIVE_BINARY_ZERO_NEW_LICENSEE_HANDOFF_CORRECTION_T_CYCLES : Z := 24.
Definition OLD_LICENSEE_NINTENDO : Z := 0x01.
Definition OLD_LICENSEE_USE_NEW_LICENSEE_CODE : Z := 0x33.
Definition DMG_FAMILY_REAL_BOOT_POWER_ON_SYSTEM_COUNTER : Z := 0x0064.
Definition DMG_FAMILY_REAL_BOOT_POWER_ON_SERIAL_CLOCK_COUNTER : Z := 0x0068.
Definition CGB_REAL_BOOT_POWER_ON_SYSTEM_COUNTER : Z := 0xFFFB.
Definition DMG_FAMILY_SYNTHETIC_SKIP_BOOT_SYSTEM_COUNTER : Z :=
  Z.lor (Z.shiftl (snap_div dmg_family_synthetic_skip_boot_io_snapshot) 8)
    DMG_FAMILY_SKIP_BOOT_SYSTEM_COUNTER_LOW.
Definition DMG0_SYNTHETIC_SKIP_BOOT_SYSTEM_COUNTER : Z :=
  Z.lor (Z.shiftl (snap_div dmg0_synthetic_skip_boot_io_snapshot) 8) DMG0_SKIP_BOOT_SYSTEM_COUNTER_LOW.

Definition cgb_native_binary_zero_new_licensee_boot_bucket (header : option CartridgeHeader) : bool :=
  match header with
  | None => false
  | Some h =>
      enables_cgb_native_mode (cgb_flag h) && (old_licensee_code h =? OLD_LICENSEE_USE_NEW_LICENSEE_CODE) &&
      bool_decide (new_licensee_code h = [0x00; 0x00])
  end.

Definition cgb_direct_start_system_counter (header : option CartridgeHeader) : Z :=
  match header with
  | None => CGB_DEFAULT_DIRECT_BOOT_SYSTEM_COUNTER
  | Some h =>
      if negb (enables_cgb_native_mode (cgb_flag h)) then CGB_DEFAULT_DIRECT_BOOT_SYSTEM_COUNTER
      else if cgb_native_binary_zero_new_licensee_boot_bucket (Some h)
      then CGB_NATIVE_BINARY_ZERO_NEW_LICENSEE_DIRECT_BOOT_SYSTEM_COUNTER
      else if (old_licensee_code h =? OLD_LICENSEE_NINTENDO) ||
              (old_licensee_code h =? OLD_LICENSEE_USE_NEW_LICENSEE_CODE)
      then CGB_DEFAULT_DIRECT_BOOT_SYSTEM_COUNTER
      else CGB_NATIVE_NON_NINTENDO_DIRECT_BOOT_SYSTEM_COUNTER
  end.

Definition agb_direct_start_system_counter (header : option CartridgeHeader) : Z :=
  match header with
  | None => CGB_DEFAULT_DIRECT_BOOT_SYSTEM_COUNTER
  | Some h =>
      if negb (enables_cgb_native_mode (cgb_flag h)) then AGB_DMG_COMPATIBLE_DIRECT_BOOT_SYSTEM_COUNTER
      else cgb_direct_start_system_counter (Some h)
  end.

Definition direct_start_system_counter (m : ConsoleModel) (r : HardwareRevision) (header : option CartridgeHeader) : Z :=
  match m with
  | GameBoy =>
      if is_dmg_cpu_0 r then DMG0_SYNTHETIC_SKIP_BOOT_SYSTEM_COUNTER
      else DMG_FAMILY_SYNTHETIC_SKIP_BOOT_SYSTEM_COUNTER
  | GameBoyPocket | GameBoyLight => DMG_FAMILY_SYNTHETIC_SKIP_BOOT_SYSTEM_COUNTER
  | GameBoyColor =>
      match r with
      | CpuCgb0 => CGB0_DIRECT_BOOT_SYSTEM_COUNTER
      | _ => cgb_direct_start_system_counter header
      end
  | GameBoyAdvance => agb_direct_start_system_counter header
  end.

Definition dmg0_direct_boot_system_counter : Z := DMG0_SYNTHETIC_SKIP_BOOT_SYSTEM_COUNTER.

(** [u8::count_ones]. *)
Definition count_ones (x : Z) : Z := Z.of_nat (length (filter (fun i => Z.testbit x i = true) (seqZ 0 8))).

Definition header_addresses : list Z :=
  seqZ CARTRIDGE_ENTRY_HEADER_START (CARTRIDGE_ENTRY_HEADER_END_INCLUSIVE - CARTRIDGE_ENTRY_HEADER_START + 1).

(** At most eight bits of each of the 80 header bytes: the [u16] sum is exact. *)
Definition sgb_direct_start_system_counter (cartridge : option CartridgeSlot) : outcome Z :=
  header ← mapM (fun a => match cartridge with
                          | None => mret 0xFF
                          | Some slot => slot_read_rom a slot
                          end) header_addresses;
  let header_set_bits := foldr Z.add 0 (map count_ones header) in
  mret (wrapping_sub16 SGB_DIRECT_BOOT_ZERO_HEADER_SYSTEM_COUNTER
          ((header_set_bits * SGB_DIRECT_BOOT_SET_BIT_T_CYCLES) mod 65536)).

Definition slot_header_of (cartridge : option CartridgeSlot) : option CartridgeHeader :=
  slot ← cartridge; slot_header slot.

Definition direct_start_system_counter_for_cartridge (m : ConsoleModel) (r : HardwareRevision)
    (p : option SgbHostProfile) (cartridge : option CartridgeSlot) : outcome Z :=
  match p with
  | Some _ => sgb_direct_start_system_counter cartridge
  | None => mret (direct_start_system_counter m r (slot_header_of cartridge))
  end.

Definition cgb_real_boot_handoff_correction_t_cycles (header : option CartridgeHeader) : Z :=
  if cgb_native_binary_zero_new_licensee_boot_bucket header
  then CGB_NATIVE_BINARY_ZERO_NEW_LICENSEE_HANDOFF_CORRECTION_T_CYCLES else 0.

Definition div_from_system_counter (system_counter : Z) : Z := as_u8 (Z.shiftr system_counter 8).

Definition verified_boot_entry_div_apu (m : ConsoleModel) (r : HardwareRevision) (system_counter : Z) : Z :=
  match m with
  | GameBoy => if is_dmg_cpu_0 r then div_apu_phase_from_system_counter system_counter else 0x01
  | GameBoyPocket | GameBoyLight => 0x01
  | GameBoyColor | GameBoyAdvance => div_apu_phase_from_system_counter system_counter
  end.

(** ** CPU, sound and picture state at the entry point *)

Definition dmg_family_skip_boot_flags (header_checksum : option Z) : Z :=
  if bool_decide (header_checksum = Some 0x00) then 0x80 else 0xB0.

Definition agb_dmg_mode_boot_f (cgb_dmg_mode_b : Z) : Z :=
  let result := wrapping_add8 cgb_dmg_mode_b 1 in
  let zero_flag := if result =? 0 then 0x80 else 0x00 in
  let half_carry_flag := if Z.land cgb_dmg_mode_b 0x0F =? 0x0F then 0x20 else 0x00 in
  Z.lor zero_flag half_carry_flag.

Definition cgb_dmg_mode_boot_b (header : option CartridgeHeader) : Z :=
  default 0 (h ← header; cgb_compatibility_title_checksum h).

Definition cgb_family_boot_b (cgb_native agb : bool) (cgb_dmg_mode_b : Z) : Z :=
  match cgb_native, agb with
  | true, true => 0x01
  | true, false => 0x00
  | false, true => wrapping_add8 cgb_dmg_mode_b 1
  | false, false => cgb_dmg_mode_b
  end.

Definition cgb_family_boot_f (cgb_native agb : bool) (cgb_dmg_mode_b : Z) : Z :=
  match cgb_native, agb with
  | true, true => 0x00
  | true, false | false, false => 0x80
  | false, true => agb_dmg_mode_boot_f cgb_dmg_mode_b
  end.

Definition cgb_family_boot_hl (cgb_native agb : bool) (b : Z) : Z * Z :=
  if cgb_native then (0x00, 0x0D)
  else if (negb agb && ((b =? 0x43) || (b =? 0x58))) || (agb && ((b =? 0x44) || (b =? 0x59)))
  then (0x99, 0x1A) else (0x00, 0x7C).

Definition build_skip_boot_cpu_state (m : ConsoleModel) (r : HardwareRevision) (p : option SgbHostProfile)
    (header : option CartridgeHeader) : CpuStartupState :=
  match p with
  | Some (SgbNtsc | SgbPal) => mkCpuStartup 0x01 0x00 0x00 0x14 0x00 0x00 0xC0 0x60 0xFFFE 0x0100
  | Some Sgb2Ntsc => mkCpuStartup 0xFF 0x00 0x00 0x14 0x00 0x00 0xC0 0x60 0xFFFE 0x0100
  | None =>
      let flags := dmg_family_skip_boot_flags (header_checksum <$> header) in
      match m with
      | GameBoy =>
          if is_dmg_cpu_0 r then mkCpuStartup 0x01 0x00 0xFF 0x13 0x00 0xC1 0x84 0x03 0xFFFE 0x0100
          else mkCpuStartup 0x01 flags 0x00 0x13 0x00 0xD8 0x01 0x4D 0xFFFE 0x0100
      | GameBoyPocket | GameBoyLight => mkCpuStartup 0xFF flags 0x00 0x13 0x00 0xD8 0x01 0x4D 0xFFFE 0x0100
      | GameBoyColor | GameBoyAdvance =>
          let cgb_native := from_option (fun h => enables_cgb_native_mode (cgb_flag h)) false header in
          let agb := match m with GameBoyAdvance => true | _ => false end in
          let cgb_dmg_mode_b := cgb_dmg_mode_boot_b header in
          let b := cgb_family_boot_b cgb_native agb cgb_dmg_mode_b in
          let f := cgb_family_boot_f cgb_native agb cgb_dmg_mode_b in
          let '(h, l) := cgb_family_boot_hl cgb_native agb b in
          mkCpuStartup 0x11 f b 0x00 (if cgb_native then 0xFF else 0x00) (if cgb_native then 0x56 else 0x08)
            h l 0xFFFE 0x0100
      end
  end.

Definition build_skip_boot_ppu_state (io : BootIoSnapshot) : PpuStartupState :=
  mkPpuStartup (snap_lcdc io) (snap_stat io) (snap_scy io) (snap_scx io) (snap_ly io) (snap_lyc io) (snap_bgp io)
    (snap_wy io) (snap_wx io).

Definition cgb_family_direct_start_silent_channel_mask (m : ConsoleModel) (audio : BootAudioSnapshot) : Z :=
  if is_cgb_family m then Z.land (audio_nr52 audio) 0x0F else 0.

Definition build_skip_boot_apu_state (m : ConsoleModel) (r : HardwareRevision) (system_counter : Z)
    (io : BootIoSnapshot) : ApuStartupState :=
  let audio := snap_audio io in
  {| su_powered := has_bits (audio_nr52 audio) 0x80;
     su_nr10 := Z.land (audio_nr10 audio) 0x7F;
     su_nr11 := Z.land (audio_nr11 audio) 0xC0;
     su_nr12 := audio_nr12 audio;
     su_nr13 := 0x00;
     su_nr14 := Z.land (audio_nr14 audio) 0x40;
     su_nr21 := Z.land (audio_nr21 audio) 0xC0;
     su_nr22 := audio_nr22 audio;
     su_nr23 := 0x00;
     su_nr24 := Z.land (audio_nr24 audio) 0x40;
     su_nr30 := Z.land (audio_nr30 audio) 0x80;
     su_nr31 := 0x00;
     su_nr32 := Z.land (audio_nr32 audio) 0x60;
     su_nr33 := 0x00;
     su_nr34 := Z.land (audio_nr34 audio) 0x40;
     su_nr41 := 0x00;
     su_nr42 := audio_nr42 audio;
     su_nr43 := audio_nr43 audio;
     su_nr44 := Z.land (audio_nr44 audio) 0x40;
     su_nr50 := audio_nr50 audio;
     su_nr51 := audio_nr51 audio;
     su_channel_active_mask := Z.land (audio_nr52 audio) 0x0F;
     su_startup_silent_channel_mask := cgb_family_direct_start_silent_channel_mask m audio;
     su_div_apu := div_apu_phase_from_system_counter system_counter;
     su_wave_ram_startup_policy :=
       match m, r with
       | GameBoyColor, CpuCgb0 => DeterministicZeroed
       | _, _ => if is_cgb_family m then CgbRealBootAlternating else DeterministicZeroed
       end |}.

Definition build_verified_boot_entry_apu_state (m : ConsoleModel) (r : HardwareRevision) (system_counter : Z)
    (io : BootIoSnapshot) : ApuStartupState :=
  (build_skip_boot_apu_state m r system_counter io)
    <| su_div_apu := verified_boot_entry_div_apu m r system_counter |>.

(** ** The controller *)

Record BootController := mkBoot {
  boot_console_model : ConsoleModel;
  boot_revision : HardwareRevision;
  boot_sgb_profile : option SgbHostProfile;
  boot_startup_mode : StartupMode;
  boot_rom_mapped : bool;
  boot_rom_assets : BootRomAssets
}.

#[export] Instance upd_boot_rom_mapped : Update boot_rom_mapped := fun v b =>
  let '(mkBoot m r p s _ a) := b in mkBoot m r p s v a.

Definition new_with_sgb_profile (m : ConsoleModel) (r : HardwareRevision) (p : option SgbHostProfile)
    (s : StartupMode) (a : BootRomAssets) : BootController :=
  mkBoot m r p s (requires_boot_rom s) a.
Definition boot_new (m : ConsoleModel) (r : HardwareRevision) : StartupMode -> BootRomAssets -> BootController :=
  new_with_sgb_profile m r None.

Definition boot_rom_asset (b : BootController) : BootRomAssetKind :=
  from_machine_profile (boot_revision b) (boot_sgb_profile b).
Definition boot_rom_fingerprint (b : BootController) : option SaveStateByteFingerprint :=
  fingerprint_asset (boot_rom_asset b) (boot_rom_assets b).
Definition has_boot_rom_asset (b : BootController) : bool := has_asset (boot_rom_asset b) (boot_rom_assets b).

Definition boot_bus_state (b : BootController) : BootRomBusState :=
  if negb (boot_rom_mapped b) then unmapped
  else match boot_console_model b with
  | GameBoyColor | GameBoyAdvance => map_cgb_windows
  | GameBoy | GameBoyPocket | GameBoyLight => map_dmg_low_bytes
  end.

Definition read_ff50 (b : BootController) : Z := 0xFF.

Definition startup_memory_policy (b : BootController) : StartupMemoryPolicy :=
  match boot_startup_mode b, is_cgb_family (boot_console_model b) with
  | (SkipBoot | CustomBoot), true => CgbRealBootEntryWithDmgBootLogoTiles
  | (SkipBoot | CustomBoot), false => DmgBootLogoVram
  | _, _ => DeterministicPatterned
  end.

Definition read_boot_rom (address : Z) (b : BootController) : Z :=
  default 0xFF (read_asset_byte (boot_rom_asset b) address (boot_rom_assets b)).

(** The result is whether the boot ROM was unmapped just now. *)
Definition write_ff50 (value : Z) (b : BootController) : BootController * bool :=
  if negb (value =? 0) && boot_rom_mapped b then (b <| boot_rom_mapped := false |>, true) else (b, false).

Definition build_skip_boot_state (cartridge : option CartridgeSlot) (io : BootIoSnapshot) (apu : ApuStartupState)
    (system_counter : Z) (b : BootController) : BootDirectBootState :=
  {| boot_cpu := build_skip_boot_cpu_state (boot_console_model b) (boot_revision b) (boot_sgb_profile b)
                   (slot_header_of cartridge);
     boot_io := io;
     boot_apu := apu;
     boot_ppu := build_skip_boot_ppu_state io;
     boot_serial := with_clock_counter DMG_FAMILY_SKIP_BOOT_SERIAL_CLOCK_COUNTER
                      (from_registers (snap_sb io) (snap_sc io));
     boot_timer := mkTimerStartup system_counter (snap_tima io) (snap_tma io) (Z.land (snap_tac io) 0x07);
     boot_dma := snap_dma io;
     boot_interrupts := mkInterruptStartup (Z.land (snap_interrupt_flag io) 0x1F) (snap_interrupt_enable io);
     boot_joypad := mkJoypadStartup (Z.land (snap_p1 io) 0x30) 0;
     boot_memory_policy := startup_memory_policy b |}.

Definition direct_boot_state (cartridge : option CartridgeSlot) (b : BootController)
    : outcome (option BootDirectBootState) :=
  match boot_startup_mode b with
  | SkipBoot =>
      let m := boot_console_model b in let r := boot_revision b in let p := boot_sgb_profile b in
      system_counter ← direct_start_system_counter_for_cartridge m r p cartridge;
      let io := (verified_boot_entry_io_snapshot m r p) <| snap_div := div_from_system_counter system_counter |> in
      let apu := build_verified_boot_entry_apu_state m r system_counter io in
      mret (Some (build_skip_boot_state cartridge io apu system_counter b))
  | _ => mret None
  end.

Definition machine_skip_boot_state (cartridge : option CartridgeSlot) (b : BootController)
    : outcome (option BootDirectBootState) :=
  if negb (uses_direct_boot_state (boot_startup_mode b)) then mret None
  else
    let m := boot_console_model b in let r := boot_revision b in let p := boot_sgb_profile b in
    system_counter ← direct_start_system_counter_for_cartridge m r p cartridge;
    let io := (synthetic_skip_boot_io_snapshot m r p) <| snap_div := div_from_system_counter system_counter |> in
    let apu := build_skip_boot_apu_state m r system_counter io in
    mret (Some (build_skip_boot_state cartridge io apu system_counter b)).

Definition real_boot_power_on_system_counter (m : ConsoleModel) : Z :=
  match m with
  | GameBoy | GameBoyPocket | GameBoyLight => DMG_FAMILY_REAL_BOOT_POWER_ON_SYSTEM_COUNTER
  | GameBoyColor | GameBoyAdvance => CGB_REAL_BOOT_POWER_ON_SYSTEM_COUNTER
  end.

Definition real_boot_power_on_serial_clock_counter (m : ConsoleModel) : Z :=
  match m with
  | GameBoy | GameBoyPocket | GameBoyLight => DMG_FAMILY_REAL_BOOT_POWER_ON_SERIAL_CLOCK_COUNTER
  | GameBoyColor | GameBoyAdvance => 0
  end.

Definition real_boot_power_on_joypad_state (m : ConsoleModel) : JoypadStartupState :=
  match m with
  | GameBoy | GameBoyPocket | GameBoyLight => mkJoypadStartup 0x00 0x00
  | GameBoyColor | GameBoyAdvance => mkJoypadStartup 0x30 0x00
  end.

Definition real_boot_power_on_state (b : BootController) : option BootRealBootPowerOnState :=
  match boot_startup_mode b with
  | RealBoot =>
      let m := boot_console_model b in
      Some {| real_timer := mkTimerStartup (real_boot_power_on_system_counter m) 0x00 0x00 0x00;
              real_serial := with_clock_counter (real_boot_power_on_serial_clock_counter m) (from_registers 0x00 0x00);
              real_dma := if is_cgb_family m then 0x00 else 0xFF;
              real_joypad := real_boot_power_on_joypad_state m |}
  | _ => None
  end.

Record BootSnapshot := mkBootSnapshot {
  snapshot_model : ConsoleModel;
  snapshot_revision : HardwareRevision;
  snapshot_sgb_profile : option SgbHostProfile;
  snapshot_asset : BootRomAssetKind;
  snapshot_startup_mode : StartupMode;
  snapshot_rom_mapped : bool;
  snapshot_asset_configured : bool;
  snapshot_memory_policy : StartupMemoryPolicy
}.

Definition boot_snapshot (b : BootController) : BootSnapshot :=
  mkBootSnapshot (boot_console_model b) (boot_revision b) (boot_sgb_profile b) (boot_rom_asset b)
    (boot_startup_mode b) (boot_rom_mapped b) (has_boot_rom_asset b) (startup_memory_policy b).

(** ** Startup states are well typed *)

Definition audio_bytes (a : BootAudioSnapshot) : list Z :=
  [audio_nr10 a; audio_nr11 a; audio_nr12 a; audio_nr13 a; audio_nr14 a; audio_nr21 a; audio_nr22 a; audio_nr23 a;
   audio_nr24 a; audio_nr30 a; audio_nr31 a; audio_nr32 a; audio_nr33 a; audio_nr34 a; audio_nr41 a; audio_nr42 a;
   audio_nr43 a; audio_nr44 a; audio_nr50 a; audio_nr51 a; audio_nr52 a].
Definition io_bytes (io : BootIoSnapshot) : list Z :=
  [snap_p1 io; snap_sb io; snap_sc io; snap_div io; snap_tima io; snap_tma io; snap_tac io; snap_interrupt_flag io;
   snap_lcdc io; snap_stat io; snap_scy io; snap_scx io; snap_ly io; snap_lyc io; snap_dma io; snap_bgp io;
   snap_wy io; snap_wx io; snap_interrupt_enable io].
Definition io_ok (io : BootIoSnapshot) : Prop := Forall u8 (io_bytes io) /\ Forall u8 (audio_bytes (snap_audio io)).
Definition ppu_bytes (s : PpuStartupState) : list Z :=
  [ppu_lcdc s; ppu_stat s; ppu_scy s; ppu_scx s; ppu_startup_ly s; ppu_lyc s; ppu_bgp s; ppu_wy s; ppu_wx s].

(** A boot state puts every component of the console [m] into a good state at
    the cartridge entry point, with a divider that shows the system counter. *)
Record direct_boot_ok (m : ConsoleModel) (o : OperatingMode) (s : BootDirectBootState) : Prop := {
  boot_cpu_typed : CpuSafety.startup_ok (boot_cpu s);
  boot_cpu_entry : startup_pc (boot_cpu s) = 0x0100 /\ startup_sp (boot_cpu s) = 0xFFFE;
  boot_apu_typed : ApuChannels.startup_ok (boot_apu s);
  boot_timer_typed : timer_ok (timer_apply_startup_state (boot_timer s) (timer_new m));
  boot_divider : read_div (timer_apply_startup_state (boot_timer s) (timer_new m)) = snap_div (boot_io s);
  boot_serial_typed : serial_ok (serial_apply_startup_state (boot_serial s) (serial_new_with_operating_mode m o));
  boot_interrupts_typed :
    interrupts_ok (interrupts_apply_startup_state (boot_interrupts s) (interrupts_new m));
  boot_joypad_typed : joypad_ok (joypad_apply_startup_state (boot_joypad s) (joypad_new m));
  boot_io_typed : io_ok (boot_io s);
  boot_dma_typed : u8 (boot_dma s);
  boot_ppu_typed : Forall u8 (ppu_bytes (boot_ppu s))
}.

(** An inserted cartridge is sound when its device keeps the mapper laws, as
    every loaded one does. *)
Definition slot_sound (cartridge : option CartridgeSlot) : Prop :=
  forall s d, cartridge = Some s -> device s = Some d -> device_ok d.

Lemma io_ok_div io n : io_ok io -> u8 n -> io_ok (io <| snap_div := n |>).
Proof.
  intros [Hio Ha] Hn. split; [|by destruct io]. destruct io. unfold io_bytes in *. cbn in *.
  repeat (apply Forall_cons_1 in Hio as [? Hio]). repeat (apply Forall_cons_2; [done|]). apply Forall_nil_2.
Qed.

Lemma io_snapshots_ok m r p :
  io_ok (synthetic_skip_boot_io_snapshot m r p) /\ io_ok (verified_boot_entry_io_snapshot m r p).
Proof.
  assert (H : forall io, forallb (fun b => (0 <=? b) && (b <? 256)) (io_bytes io ++ audio_bytes (snap_audio io)) = true -> io_ok io).
  { intros io Hall. apply Forall_app. apply Forall_forall. intros b Hb. rewrite forallb_forall in Hall.
    apply Hall in Hb. prune. unfold u8. lia. }
  split; apply H; destruct p, m; try reflexivity; destruct r; reflexivity.
Qed.

Lemma handheld_system_counter_u16 m r header : u16 (direct_start_system_counter m r header).
Proof.
  unfold direct_start_system_counter, agb_direct_start_system_counter, cgb_direct_start_system_counter.
  repeat case_match; try (unfold u16; vm_compute; intuition congruence).
Qed.

(** The header bytes of a sound cartridge can be read, so the counter of a
    Super Game Boy exists too. *)
Lemma sgb_header_readable cartridge addresses : slot_sound cartridge -> Forall (fun a => 0 <= a < 0x8000) addresses ->
  finishes (mapM (fun a => match cartridge with
                           | None => mret 0xFF
                           | Some slot => slot_read_rom a slot
                           end) addresses) (fun _ => True).
Proof.
  intros Hs Ha. induction Ha as [|a rest Ha Hrest IH]; [done|]. cbn [mapM]. apply finishes_bind.
  assert (Hread : finishes match cartridge with None => mret 0xFF | Some slot => slot_read_rom a slot end (fun _ => True)).
  { destruct cartridge as [s|]; [|done]. unfold slot_read_rom, ask. destruct (device s) as [d|] eqn:Hd; [|done].
    destruct (contract_rom _ _ (device_ok_contract d (Hs s d eq_refl Hd)) a Ha) as [[(v & Hv & _) _]|(? & ? & ? & _ & _ & Hv & _)];
      change (m_read_rom a d) with (CartridgeDevice.read_rom a d) in Hv; by rewrite Hv. }
  eapply finishes_mono; [exact Hread|]. intros v _. apply finishes_bind. eapply finishes_mono; [exact IH|]. done.
Qed.

Lemma system_counter_total m r p cartridge : slot_sound cartridge ->
  finishes (direct_start_system_counter_for_cartridge m r p cartridge) u16.
Proof.
  intros Hs. unfold direct_start_system_counter_for_cartridge. destruct p; [|apply handheld_system_counter_u16].
  apply finishes_bind. eapply finishes_mono.
  - apply (sgb_header_readable cartridge header_addresses Hs). apply Forall_forall. intros a Ha.
    apply list_elem_of_In, elem_of_seqZ in Ha.
    unfold CARTRIDGE_ENTRY_HEADER_START, CARTRIDGE_ENTRY_HEADER_END_INCLUSIVE in Ha. lia.
  - intros bytes _. cbn. unfold wrapping_sub16. apply u16_mod.
Qed.

Lemma title_checksum_u8 header : u8 (cgb_dmg_mode_boot_b header).
Proof.
  unfold cgb_dmg_mode_boot_b. destruct header as [h|]; cbn; [|auto with gb].
  unfold cgb_compatibility_title_checksum. destruct (negb _); cbn; [auto with gb|].
  assert (H : forall l a, u8 a -> u8 (foldl wrapping_add8 a l)).
  { induction l as [|b l IH]; [done|]. intros a Ha. cbn. apply IH. auto with gb. }
  apply H. auto with gb.
Qed.

Lemma boot_cpu_state_typed m r p header (s := build_skip_boot_cpu_state m r p header) :
  CpuSafety.startup_ok s /\ startup_pc s = 0x0100 /\ startup_sp s = 0xFFFE.
Proof.
  subst s. unfold build_skip_boot_cpu_state. pose proof (title_checksum_u8 header) as Hb.
  unfold dmg_family_skip_boot_flags, agb_dmg_mode_boot_f, cgb_family_boot_hl, cgb_family_boot_b, cgb_family_boot_f,
    agb_dmg_mode_boot_f, CpuSafety.startup_ok.
  repeat case_match; simplify_eq; cbn [startup_a startup_f startup_b startup_c startup_d startup_e startup_h startup_l
    startup_sp startup_pc]; split_and!; auto with gb.
Qed.

Lemma land_low_byte x m : 0 <= m < 256 -> u8 (Z.land x m).
Proof. intros Hm. rewrite Z.land_comm. by apply u8_land. Qed.

Lemma boot_apu_state_typed m r n io : io_ok io -> ApuChannels.startup_ok (build_skip_boot_apu_state m r n io).
Proof.
  intros [_ Ha]. unfold audio_bytes in Ha. repeat (apply Forall_cons_1 in Ha as [? Ha]).
  constructor. unfold build_skip_boot_apu_state, cgb_family_direct_start_silent_channel_mask.
  cbn [su_nr10 su_nr11 su_nr12 su_nr13 su_nr14 su_nr21 su_nr22 su_nr23 su_nr24 su_nr30 su_nr31 su_nr32 su_nr33 su_nr34
    su_nr41 su_nr42 su_nr43 su_nr44 su_nr50 su_nr51 su_channel_active_mask su_startup_silent_channel_mask].
  repeat (apply Forall_cons_2; [first [apply u8_land | idtac]; try done; destruct (is_cgb_family m); auto with gb|]).
  apply Forall_nil_2.
Qed.

Lemma serial_startup_ok m o b sc n : u8 b -> u8 sc -> u16 n ->
  serial_ok (serial_apply_startup_state (with_clock_counter n (from_registers b sc)) (serial_new_with_operating_mode m o)).
Proof.
  intros. apply serial_ok_reachable. eapply (serial_stepped (OpStartup b sc n)); [done | apply serial_initial | reflexivity].
Qed.

Lemma skip_boot_state_ok cartridge b io apu n m o :
  boot_console_model b = m -> io_ok io -> ApuChannels.startup_ok apu -> u16 n -> snap_div io = div_from_system_counter n ->
  direct_boot_ok m o (build_skip_boot_state cartridge io apu n b).
Proof.
  intros <- Hio Hapu Hn Hdiv. pose proof Hio as [Hbytes _]. unfold io_bytes in Hbytes.
  repeat (apply Forall_cons_1 in Hbytes as [? Hbytes]).
  unfold build_skip_boot_state. constructor; cbn [boot_cpu boot_io boot_apu boot_ppu boot_serial boot_timer boot_dma
    boot_interrupts boot_joypad].
  - apply boot_cpu_state_typed.
  - apply boot_cpu_state_typed.
  - done.
  - by apply timer_ok_startup.
  - by rewrite Hdiv.
  - apply serial_startup_ok; auto with gb. unfold u16. vm_compute. intuition congruence.
  - split; [|done]. unfold interrupts_apply_startup_state. cbn. change INTERRUPT_REQUEST_MASK with 0x1F.
    rewrite land_1F. apply Z.mod_pos_bound. lia.
  - apply joypad_ok_reachable, joypad_started. cbn; auto with gb.
  - done.
  - done.
  - unfold ppu_bytes, build_skip_boot_ppu_state. cbn. repeat (apply Forall_cons_2; [done|]). apply Forall_nil_2.
Qed.

Definition real_boot_ok (m : ConsoleModel) (o : OperatingMode) (s : BootRealBootPowerOnState) : Prop :=
  timer_ok (timer_apply_startup_state (real_timer s) (timer_new m)) /\
  serial_ok (serial_apply_startup_state (real_serial s) (serial_new_with_operating_mode m o)) /\
  joypad_ok (joypad_apply_startup_state (real_joypad s) (joypad_new m)) /\ u8 (real_dma s).

(** Starting a machine is total and well typed: for every model, revision,
    Super Game Boy profile and sound (or missing) cartridge, each startup mode
    has exactly its state, and that state puts the core at [0100] with the
    stack at [FFFE] and every component in the invariant its own theorems
    start from; DIV shows the upper byte of the published system counter. *)
Theorem boot_states_are_typed cartridge b o : slot_sound cartridge ->
  finishes (direct_boot_state cartridge b) (fun r =>
    match r with
    | Some s => boot_startup_mode b = SkipBoot /\ direct_boot_ok (boot_console_model b) o s
    | None => boot_startup_mode b <> SkipBoot
    end) /\
  finishes (machine_skip_boot_state cartridge b) (fun r =>
    match r with
    | Some s => boot_startup_mode b <> RealBoot /\ direct_boot_ok (boot_console_model b) o s
    | None => boot_startup_mode b = RealBoot
    end) /\
  match real_boot_power_on_state b with
  | Some s => boot_startup_mode b = RealBoot /\ real_boot_ok (boot_console_model b) o s
  | None => boot_startup_mode b <> RealBoot
  end.
Proof.
  intros Hs. destruct (io_snapshots_ok (boot_console_model b) (boot_revision b) (boot_sgb_profile b)) as [Hsyn Hver].
  assert (Hdiv : forall n, u8 (div_from_system_counter n)) by (intros; unfold div_from_system_counter; auto with gb).
  split_and!.
  - unfold direct_boot_state. destruct (boot_startup_mode b) eqn:Hmode; [|done..].
    apply finishes_bind. eapply finishes_mono; [by apply system_counter_total|]. intros n Hn. cbn. split; [done|].
    apply skip_boot_state_ok; [done | by apply io_ok_div | | done | by destruct (verified_boot_entry_io_snapshot _ _ _)].
    unfold build_verified_boot_entry_apu_state. destruct (boot_apu_state_typed (boot_console_model b) (boot_revision b) n
      ((verified_boot_entry_io_snapshot (boot_console_model b) (boot_revision b) (boot_sgb_profile b))
         <| snap_div := div_from_system_counter n |>)) as [Hapu]; [by apply io_ok_div|]. by constructor.
  - unfold machine_skip_boot_state. destruct (boot_startup_mode b) eqn:Hmode; cbn [uses_direct_boot_state negb]; [| |done].
    all: apply finishes_bind; eapply finishes_mono; [by apply system_counter_total|]; intros n Hn; cbn; split; [done|].
    all: apply skip_boot_state_ok; [done | by apply io_ok_div | | done | by destruct (synthetic_skip_boot_io_snapshot _ _ _)].
    all: apply boot_apu_state_typed; by apply io_ok_div.
  - unfold real_boot_power_on_state. destruct (boot_startup_mode b) eqn:Hmode; [done..|]. split; [done|].
    split_and!; cbn [real_timer real_serial real_joypad real_dma].
    + apply timer_ok_startup; cbn [startup_system_counter startup_tima startup_tma]; [destruct (boot_console_model b); unfold u16; vm_compute; intuition congruence|auto with gb..].
    + apply serial_startup_ok; [auto with gb..|].
      destruct (boot_console_model b); unfold u16; vm_compute; intuition congruence.
    + apply joypad_ok_reachable, joypad_started. destruct (boot_console_model b); cbn; auto with gb.
    + destruct (boot_console_model b); cbn; auto with gb.
Qed.

Lemma boot_states_are_typed_witness :
  slot_sound None /\ finishes (direct_boot_state None (new_with_sgb_profile GameBoy DmgCpuC (Some SgbNtsc) SkipBoot assets_none))
    (fun r => match r with
              | Some s => startup_system_counter (boot_timer s) = 0xD2A0 /\ direct_boot_ok GameBoy ModeDmg s
              | None => False
              end).
Proof.
  assert (Hs : slot_sound None) by (intros s d; discriminate). split; [exact Hs|].
  destruct (boot_states_are_typed None (new_with_sgb_profile GameBoy DmgCpuC (Some SgbNtsc) SkipBoot assets_none) ModeDmg Hs)
    as [Hd _].
  destruct (direct_boot_state None (new_with_sgb_profile GameBoy DmgCpuC (Some SgbNtsc) SkipBoot assets_none)) as [[s|]|] eqn:E;
    [| vm_compute in E; discriminate.. ].
  destruct Hd as [_ Hok]. split; [|exact Hok]. revert E. vm_compute. intros [= <-]. reflexivity.
Defined.

(** ** Images and windows *)

Lemma bytes_for_set k k' v a : bytes_for k' (set_bytes_for k v a) = if bool_decide (k' = k) then v else bytes_for k' a.
Proof. destruct a, k, k'; reflexivity. Qed.

Definition raw_form (image : list Z) : list Z := (take (Z.to_nat 0x100) image ++ drop (Z.to_nat 0x200) image)%list.

Lemma raw_form_len image : vec_len image = CGB_BOOT_ROM_MAPPED_LEN -> vec_len (raw_form image) = CGB_BOOT_ROM_RAW_LEN.
Proof.
  unfold vec_len, raw_form, CGB_BOOT_ROM_MAPPED_LEN, CGB_BOOT_ROM_RAW_LEN. intros.
  rewrite length_app, length_take, length_drop. lia.
Qed.

Lemma raw_form_get image i : vec_len image = CGB_BOOT_ROM_MAPPED_LEN ->
  (0 <= i < 0x100 -> vec_get (raw_form image) i = vec_get image i) /\
  (0x200 <= i -> vec_get (raw_form image) (i - 0x100) = vec_get image i).
Proof.
  unfold vec_len, CGB_BOOT_ROM_MAPPED_LEN, vec_get, raw_form. intros Hlen. split; intros Hi.
  - rewrite lookup_app_l by (rewrite length_take; lia). apply lookup_take_lt. lia.
  - rewrite lookup_app_r by (rewrite length_take; lia). rewrite lookup_drop, length_take. f_equal. lia.
Qed.

(** The two file layouts of a Game Boy Color boot ROM are the same boot
    ROM: a [0x900]-byte dump with the cartridge header hole and the same dump
    without the hole are both accepted, and every address reads the same byte
    from either, the addresses under the hole reading none. *)
Theorem cgb_image_forms_read_alike k a image :
  uses_cgb_mapping k = true -> vec_len image = CGB_BOOT_ROM_MAPPED_LEN ->
  exists a1 a2, insert_asset_bytes k image a = inl a1 /\ insert_asset_bytes k (raw_form image) a = inl a2 /\
    forall address, 0 <= address ->
      read_asset_byte k address a2 = read_asset_byte k address a1 /\
      (read_asset_byte k address a1 = None <-> 0x100 <= address < 0x200 \/ 0x900 <= address).
Proof.
  intros Hk Hlen. assert (Hmin : minimum_len k = CGB_BOOT_ROM_RAW_LEN) by (by destruct k).
  unfold insert_asset_bytes, validate_boot_rom_len. rewrite (raw_form_len _ Hlen), Hmin, Hlen. cbn.
  do 2 eexists. split_and!; [done..|]. intros address Hpos.
  unfold read_asset_byte. rewrite !bytes_for_set, bool_decide_true by done. cbn. rewrite Hk.
  unfold read_cgb_boot_rom_byte. rewrite (raw_form_len _ Hlen), Hlen. destruct (raw_form_get image address Hlen) as [Hlow Hhigh].
  assert (Hin : forall i, 0 <= i < 0x900 -> vec_get image i <> None).
  { intros i Hi Hnone%lookup_ge_None. unfold vec_len, CGB_BOOT_ROM_MAPPED_LEN in Hlen. lia. }
  change (CGB_BOOT_ROM_MAPPED_LEN <=? CGB_BOOT_ROM_MAPPED_LEN) with true.
  change (CGB_BOOT_ROM_MAPPED_LEN <=? CGB_BOOT_ROM_RAW_LEN) with false.
  change (CGB_BOOT_ROM_UPPER_WINDOW_START - DMG_FAMILY_BOOT_ROM_LEN) with 0x100. cbv zeta iota.
  destruct ((0 <=? address) && (address <=? 0xFF)) eqn:El; [|destruct ((0x200 <=? address) && (address <=? 0x8FF)) eqn:Eh].
  - prune. rewrite Hlow by lia. split; [done|]. split; [|lia]. intros []%Hin. lia.
  - prune. rewrite Hhigh by lia. split; [done|]. split; [|lia].
    intros []%Hin. lia.
  - split; [done|]. split; [|done]. intros _. apply andb_false_iff in El, Eh. rewrite !Z.leb_gt in El, Eh. lia.
Qed.

Lemma cgb_image_forms_read_alike_witness :
  exists a1 a2, insert_asset_bytes AssetCgb (replicate (Z.to_nat 0x900) 0x31) assets_none = inl a1 /\
    insert_asset_bytes AssetCgb (raw_form (replicate (Z.to_nat 0x900) 0x31)) assets_none = inl a2 /\
    read_asset_byte AssetCgb 0x8FF a2 = Some 0x31.
Proof.
  destruct (cgb_image_forms_read_alike AssetCgb assets_none (replicate (Z.to_nat 0x900) 0x31)) as (a1 & a2 & H1 & H2 & H);
    [reflexivity | vm_compute; reflexivity |].
  exists a1, a2. split; [exact H1|]. split; [exact H2|]. destruct (H 0x8FF ltac:(lia)) as [Heq _]. rewrite Heq.
  revert H1. vm_compute. intros [= <-]. reflexivity.
Defined.

(** The FF50 writes of a program, and how often a write reported the unmapping. *)
Fixpoint run_ff50 (values : list Z) (b : BootController) : BootController * Z :=
  match values with
  | [] => (b, 0)
  | v :: rest =>
      let '(b, now) := write_ff50 v b in
      let '(b, n) := run_ff50 rest b in
      (b, n + Z.b2z now)
  end.

(** The image of a machine fits its console: a colour console has the two
    windows of a colour image. *)
Definition boot_coherent (b : BootController) : Prop :=
  uses_cgb_mapping (boot_rom_asset b) = is_cgb_family (boot_console_model b).

Lemma boot_coherent_new m r p s a :
  match p with
  | None => supports_revision m r = true
  | Some profile => supports_revision_on_host m (profile_host_platform profile) r = true /\ is_cgb_family m = false
  end -> boot_coherent (new_with_sgb_profile m r p s a).
Proof.
  unfold boot_coherent, boot_rom_asset. destruct p as [[]|], m, r; cbn; try reflexivity; try discriminate;
    intros [H1 H2]; discriminate.
Qed.

Lemma mapped_overlay_reads_image b address :
  boot_coherent b -> boot_rom_mapped b = true -> 0 <= address ->
  (exists image, bytes_for (boot_rom_asset b) (boot_rom_assets b) = Some image /\
     minimum_len (boot_rom_asset b) <= vec_len image) ->
  overlays_read (boot_bus_state b) address = true ->
  exists v, read_asset_byte (boot_rom_asset b) address (boot_rom_assets b) = Some v /\ read_boot_rom address b = v.
Proof.
  unfold boot_coherent, boot_bus_state. intros Hco Hmap Hpos (image & Him & Hlen) Hover. rewrite Hmap in Hover. cbn in Hover.
  assert (Hin : forall i, 0 <= i < vec_len image -> exists v, vec_get image i = Some v).
  { intros i Hi. apply lookup_lt_is_Some. unfold vec_len in Hi. lia. }
  assert (Hread : exists v, read_asset_byte (boot_rom_asset b) address (boot_rom_assets b) = Some v).
  { unfold read_asset_byte. rewrite Him. cbn. rewrite Hco. unfold read_cgb_boot_rom_byte.
    destruct (boot_console_model b), (boot_rom_asset b); cbn in Hco, Hlen, Hover |- *; try discriminate;
      unfold DMG_FAMILY_BOOT_ROM_LEN, CGB_BOOT_ROM_RAW_LEN, CGB_BOOT_ROM_MAPPED_LEN, CGB_BOOT_ROM_UPPER_WINDOW_START in *;
      try (apply orb_true_iff in Hover as [Hover|Hover]; [|done]); try (apply Hin; prune; lia).
    all: apply orb_true_iff in Hover as [Hover|Hover]; prune; case_tests; prune; try (apply Hin; lia); lia. }
  destruct Hread as [v Hv]. exists v. unfold read_boot_rom. by rewrite Hv.
Qed.

(** The boot ROM can only be taken away: through any sequence of FF50
    writes it stays mapped exactly while every value is 0, the unmapping is
    reported once, nothing but the mapping changes and FF50 keeps reading
    [FF]; an unmapped boot ROM overlays no address, and while it is mapped every
    overlaid address of an accepted image is a byte of the image. *)
Theorem boot_rom_unmaps_once values b :
  boot_coherent b ->
  (exists image, bytes_for (boot_rom_asset b) (boot_rom_assets b) = Some image /\
     minimum_len (boot_rom_asset b) <= vec_len image) ->
  let '(b', reported) := run_ff50 values b in
  b' = b <| boot_rom_mapped := boot_rom_mapped b && forallb (fun v => v =? 0) values |> /\
  reported = Z.b2z (boot_rom_mapped b && negb (boot_rom_mapped b')) /\
  read_ff50 b' = 0xFF /\
  forall address, 0 <= address ->
    if boot_rom_mapped b'
    then overlays_read (boot_bus_state b') address = true ->
         exists v, read_asset_byte (boot_rom_asset b) address (boot_rom_assets b) = Some v /\ read_boot_rom address b' = v
    else overlays_read (boot_bus_state b') address = false.
Proof.
  intros Hco Him. destruct (run_ff50 values b) as [b' reported] eqn:E.
  assert (Hb : b' = b <| boot_rom_mapped := boot_rom_mapped b && forallb (fun v => v =? 0) values |> /\
          reported = Z.b2z (boot_rom_mapped b && negb (boot_rom_mapped b'))).
  { clear Hco Him. revert b b' reported E. induction values as [|v rest IH]; intros b b' reported; cbn.
    - intros [= <- <-]. destruct b as [m r p s [] a]; done.
    - unfold write_ff50. destruct b as [m r p s [] a]; cbn; destruct (v =? 0); cbn;
        match goal with |- context [run_ff50 rest ?x] => destruct (run_ff50 rest x) as [b2 n] eqn:E end;
        apply IH in E as [-> ->]; intros [= <- <-]; cbn; destruct (forallb _ rest); done. }
  destruct Hb as [-> ->]. split_and!; [done | done | done |]. intros address Hpos.
  set (b' := b <| boot_rom_mapped := _ |>). destruct (boot_rom_mapped b') eqn:Hmap.
  - intros Hover. destruct b. by apply (mapped_overlay_reads_image b').
  - unfold boot_bus_state. by rewrite Hmap.
Qed.

Definition witness_boot : BootController :=
  boot_new GameBoy DmgCpuC RealBoot (set_bytes_for AssetDmg (Some (replicate (Z.to_nat 0x100) 0x31)) assets_none).

Lemma boot_rom_unmaps_once_witness :
  boot_coherent witness_boot /\ (run_ff50 [0; 1; 0] witness_boot).2 = 1 /\
  boot_rom_mapped (run_ff50 [0; 1; 0] witness_boot).1 = false.
Proof.
  assert (Hco : boot_coherent witness_boot) by reflexivity.
  pose proof (boot_rom_unmaps_once [0; 1; 0] witness_boot Hco) as H.
  destruct (run_ff50 [0; 1; 0] witness_boot) as [b' n]. cbn [fst snd].
  destruct H as (-> & -> & _); [eexists; split; [reflexivity | vm_compute; discriminate]|].
  split; [exact Hco|]. split; reflexivity.
Defined.
