(* ===== verification/Config.v ===== *)
(** * Machine configuration ([crates/gb-core/src/model.rs])

    The configuration a machine is built from, its builder methods, and the
    coherence of its axes. *)

From Stdlib Require Import ZArith Lia Bool.
From stdpp Require Import base decidable list option.
From S2P Require Import Prelude.
From S2P Require Import Model.
From S2P Require Import CartridgeHeader.
From S2P Require Import Boot.

Local Open Scope Z_scope.

(** ** Operating mode of a skipped boot ROM *)

Definition direct_boot_operating_mode_for_cgb_flag (flag : CgbFlag) (m : ConsoleModel) : OperatingMode :=
  match family m with
  | FamilyDmg => ModeDmg
  | FamilyCgb => if enables_cgb_native_mode flag then ModeCgb else ModeGbCompatible
  end.

Definition direct_boot_operating_mode_for_cgb_flag_with_heuristic (flag : CgbFlag) (heuristic : HeuristicPolicy)
    (m : ConsoleModel) : OperatingMode :=
  match family m with
  | FamilyDmg => ModeDmg
  | FamilyCgb =>
      let experimental := match heuristic with AllowExperimental => true | HeuristicDisabled => false end in
      if experimental && requests_cgb_dmg_ext_mode flag then ModeCgbDmgExt
      else if experimental && requests_cgb_dmg_compatibility_mode flag then ModeGbCompatible
      else direct_boot_operating_mode_for_cgb_flag flag m
  end.

(** ** The configuration *)

Record MachineConfig := mkConfig {
  config_console_model : ConsoleModel;
  config_operating_mode : OperatingMode;
  config_revision : HardwareRevision;
  config_host_platform : HostPlatform;
  config_sgb_profile : option SgbHostProfile;
  config_startup_mode : StartupMode;
  config_boot_rom_assets : BootRomAssets;
  config_compatibility : CompatibilityPolicy
}.

#[export] Instance upd_config_console_model : Update config_console_model := fun v c =>
  let '(mkConfig _ o r h p s a k) := c in mkConfig v o r h p s a k.
#[export] Instance upd_config_operating_mode : Update config_operating_mode := fun v c =>
  let '(mkConfig m _ r h p s a k) := c in mkConfig m v r h p s a k.
#[export] Instance upd_config_revision : Update config_revision := fun v c =>
  let '(mkConfig m o _ h p s a k) := c in mkConfig m o v h p s a k.
#[export] Instance upd_config_host_platform : Update config_host_platform := fun v c =>
  let '(mkConfig m o r _ p s a k) := c in mkConfig m o r v p s a k.
#[export] Instance upd_config_sgb_profile : Update config_sgb_profile := fun v c =>
  let '(mkConfig m o r h _ s a k) := c in mkConfig m o r h v s a k.
#[export] Instance upd_config_startup_mode : Update config_startup_mode := fun v c =>
  let '(mkConfig m o r h p _ a k) := c in mkConfig m o r h p v a k.
#[export] Instance upd_config_boot_rom_assets : Update config_boot_rom_assets := fun v c =>
  let '(mkConfig m o r h p s _ k) := c in mkConfig m o r h p s v k.
#[export] Instance upd_config_compatibility : Update config_compatibility := fun v c =>
  let '(mkConfig m o r h p s a _) := c in mkConfig m o r h p s a v.

Definition config_default : MachineConfig :=
  mkConfig GameBoy (default_operating_mode GameBoy) (default_revision GameBoy) Handheld None SkipBoot assets_none strict.

Definition config_new (m : ConsoleModel) : MachineConfig :=
  config_default <| config_console_model := m |> <| config_operating_mode := default_operating_mode m |>
    <| config_revision := default_revision m |>.

Definition with_console_model (m : ConsoleModel) (c : MachineConfig) : MachineConfig :=
  let c := c <| config_console_model := m |> in
  let c := if negb (supports_operating_mode m (config_operating_mode c))
           then c <| config_operating_mode := default_operating_mode m |> else c in
  if negb (supports_revision_on_host m (config_host_platform c) (config_revision c))
  then c <| config_revision := default_revision m |> else c.

Definition with_operating_mode (o : OperatingMode) (c : MachineConfig) : MachineConfig :=
  c <| config_operating_mode := o |>.
Definition with_revision (r : HardwareRevision) (c : MachineConfig) : MachineConfig := c <| config_revision := r |>.

Definition normalize_revision_for_profile (c : MachineConfig) : MachineConfig :=
  if negb (supports_revision_on_host (config_console_model c) (config_host_platform c) (config_revision c))
  then c <| config_revision := default_revision (config_console_model c) |> else c.

Definition with_host_platform (h : HostPlatform) (c : MachineConfig) : MachineConfig :=
  normalize_revision_for_profile
    (c <| config_host_platform := h |> <| config_sgb_profile := default_for_host_platform h |>).
Definition with_sgb_profile (p : SgbHostProfile) (c : MachineConfig) : MachineConfig :=
  normalize_revision_for_profile
    (c <| config_host_platform := profile_host_platform p |> <| config_sgb_profile := Some p |>).
Definition with_startup_mode (s : StartupMode) (c : MachineConfig) : MachineConfig := c <| config_startup_mode := s |>.
Definition with_boot_rom_assets (a : BootRomAssets) (c : MachineConfig) : MachineConfig :=
  c <| config_boot_rom_assets := a |>.
Definition with_compatibility (k : CompatibilityPolicy) (c : MachineConfig) : MachineConfig :=
  c <| config_compatibility := k |>.
Definition with_execution_mode (e : ExecutionMode) (c : MachineConfig) : MachineConfig :=
  let '(mkPolicy _ v h o d) := config_compatibility c in c <| config_compatibility := mkPolicy e v h o d |>.

Definition boot_rom_asset_kind (c : MachineConfig) : BootRomAssetKind :=
  from_machine_profile (config_revision c) (config_sgb_profile c).
Definition capability_set (c : MachineConfig) : CapabilitySet :=
  from_model_axes (config_console_model c) (config_operating_mode c) (config_host_platform c).

Definition uses_handheld_dmg0_revision (c : MachineConfig) : bool :=
  match config_console_model c, config_revision c, config_host_platform c, config_sgb_profile c with
  | GameBoy, DmgCpu0, Handheld, None => true
  | _, _, _, _ => false
  end.

Definition apply_direct_boot_cartridge_header (header : option CartridgeHeader) (c : MachineConfig) : MachineConfig :=
  if negb (uses_direct_boot_state (config_startup_mode c)) then c
  else
    let flag := from_option cgb_flag CgbNone header in
    c <| config_operating_mode :=
           default (direct_boot_operating_mode_for_cgb_flag_with_heuristic flag
                      (heuristic_policy (config_compatibility c)) (config_console_model c))
             (forced_operating_mode (override_policy (config_compatibility c))) |>.

Definition sgb_profile_matches_host_platform (c : MachineConfig) : bool :=
  match config_host_platform c, config_sgb_profile c with
  | Handheld, None => true
  | Handheld, Some _ => false
  | Sgb, Some p => match profile_host_platform p with Sgb => true | _ => false end
  | Sgb2, Some p => match profile_host_platform p with Sgb2 => true | _ => false end
  | _, None => false
  end.

Definition model_axes_are_coherent (c : MachineConfig) : bool :=
  supports_operating_mode (config_console_model c) (config_operating_mode c) &&
  supports_revision_on_host (config_console_model c) (config_host_platform c) (config_revision c) &&
  sgb_profile_matches_host_platform c.

(** ** Coherence *)

(** What a host does to a configuration. *)
Inductive config_op :=
| WithConsoleModel (m : ConsoleModel) | WithOperatingMode (o : OperatingMode) | WithRevision (r : HardwareRevision)
| WithHostPlatform (h : HostPlatform) | WithSgbProfile (p : SgbHostProfile) | WithStartupMode (s : StartupMode)
| WithBootRomAssets (a : BootRomAssets) | WithCompatibility (k : CompatibilityPolicy)
| WithExecutionMode (e : ExecutionMode) | ApplyDirectBootHeader (h : option CartridgeHeader).

Definition config_step (op : config_op) (c : MachineConfig) : MachineConfig :=
  match op with
  | WithConsoleModel m => with_console_model m c
  | WithOperatingMode o => with_operating_mode o c
  | WithRevision r => with_revision r c
  | WithHostPlatform h => with_host_platform h c
  | WithSgbProfile p => with_sgb_profile p c
  | WithStartupMode s => with_startup_mode s c
  | WithBootRomAssets a => with_boot_rom_assets a c
  | WithCompatibility k => with_compatibility k c
  | WithExecutionMode e => with_execution_mode e c
  | ApplyDirectBootHeader h => apply_direct_boot_cartridge_header h c
  end.

(** The three settings that are stored unchecked have to fit the configuration
    they are stored in; every other operation repairs what it disturbs. *)
Definition config_op_fits (op : config_op) (c : MachineConfig) : Prop :=
  match op with
  | WithOperatingMode o => supports_operating_mode (config_console_model c) o = true
  | WithRevision r => supports_revision_on_host (config_console_model c) (config_host_platform c) r = true
  | ApplyDirectBootHeader _ =>
      from_option (supports_operating_mode (config_console_model c)) true
        (forced_operating_mode (override_policy (config_compatibility c))) = true
  | _ => True
  end.

Inductive config_reachable : MachineConfig -> Prop :=
| config_initial m : config_reachable (config_new m)
| config_stepped op c : config_reachable c -> config_op_fits op c -> config_reachable (config_step op c).

Lemma direct_boot_mode_supported flag h m :
  supports_operating_mode m (direct_boot_operating_mode_for_cgb_flag_with_heuristic flag h m) = true.
Proof.
  unfold direct_boot_operating_mode_for_cgb_flag_with_heuristic, direct_boot_operating_mode_for_cgb_flag.
  by destruct m; cbn; case_tests.
Qed.

Lemma default_revision_supported m h : supports_revision_on_host m h (default_revision m) = true.
Proof. by destruct m, h. Qed.

Lemma default_mode_supported m : supports_operating_mode m (default_operating_mode m) = true.
Proof. by destruct m. Qed.

Lemma config_step_coherent op c :
  config_op_fits op c -> model_axes_are_coherent c = true -> model_axes_are_coherent (config_step op c) = true.
Proof.
  destruct c as [m o r h p s a k]. unfold model_axes_are_coherent. rewrite !andb_true_iff. cbn.
  intros Hfit [[Ho Hr] Hp]. destruct op; cbn in *; try done.
  - unfold with_console_model. cbn. destruct (supports_operating_mode m0 o) eqn:E1; cbn;
      destruct (supports_revision_on_host m0 h r) eqn:E2; cbn;
      rewrite ?E1, ?E2, ?default_revision_supported, ?default_mode_supported; split_and!; done.
  - unfold with_host_platform, normalize_revision_for_profile. cbn.
    destruct (supports_revision_on_host m h0 r) eqn:E; cbn; rewrite ?E, ?default_revision_supported;
      split_and!; try done; by destruct h0.
  - unfold with_sgb_profile, normalize_revision_for_profile. cbn.
    destruct (supports_revision_on_host m (profile_host_platform p0) r) eqn:E; cbn; rewrite ?E, ?default_revision_supported;
      split_and!; try done; by destruct p0.
  - unfold with_execution_mode. cbn. by destruct k.
  - unfold apply_direct_boot_cartridge_header. cbn. destruct (uses_direct_boot_state s); cbn; [|done]. split_and!; [|done..].
    destruct (forced_operating_mode _); cbn in *; [done | apply direct_boot_mode_supported].
Qed.

(** A configuration built from any model stays coherent: whatever sequence
    of builder calls made it, the operating mode and the revision are ones the
    console has on its host, and a Super Game Boy profile is there exactly when
    the host is the one it names; on a handheld, or a console of the DMG family,
    the boot ROM image chosen fits the console's boot windows. *)
Theorem reachable_configs_are_coherent c (b := new_with_sgb_profile (config_console_model c) (config_revision c)
    (config_sgb_profile c) (config_startup_mode c) (config_boot_rom_assets c)) :
  config_reachable c ->
  model_axes_are_coherent c = true /\
  match config_host_platform c with
  | Handheld => config_sgb_profile c = None
  | h => exists p, config_sgb_profile c = Some p /\ profile_host_platform p = h
  end /\
  (is_cgb_family (config_console_model c) = false \/ config_host_platform c = Handheld -> boot_coherent b) /\
  (enables_cgb_extensions (config_operating_mode c) = true -> cgb_extensions_enabled (capability_set c) = true).
Proof.
  intros Hreach. assert (Hc : model_axes_are_coherent c = true).
  { induction Hreach as [m|op c _ IH Hfit]; [by destruct m | by apply config_step_coherent]. }
  split; [done|]. subst b. clear Hreach. destruct c as [m o r h p s a k]. unfold model_axes_are_coherent in Hc.
  apply andb_prop in Hc as [[Ho Hr]%andb_prop Hp]. cbn in *. split_and!.
  - destruct h, p as [[]|]; try done; by eexists.
  - intros Hh. destruct m, r, h, p as [[]|]; cbn in *; try discriminate; try done; by destruct Hh.
  - intros He. unfold capability_set. destruct m, o; cbn in *; done.
Qed.

Lemma reachable_configs_are_coherent_witness :
  config_reachable (with_console_model GameBoyColor (with_sgb_profile Sgb2Ntsc (config_new GameBoy))) /\
  model_axes_are_coherent (with_console_model GameBoyColor (with_sgb_profile Sgb2Ntsc (config_new GameBoy))) = true.
Proof.
  assert (H : config_reachable (with_console_model GameBoyColor (with_sgb_profile Sgb2Ntsc (config_new GameBoy)))).
  { apply (config_stepped (WithConsoleModel GameBoyColor)); [|exact I].
    apply (config_stepped (WithSgbProfile Sgb2Ntsc)); [apply config_initial | exact I]. }
  split; [exact H|]. destruct (reachable_configs_are_coherent _ H) as [Hc _]. exact Hc.
Defined.
