(* ===== verification/Vectors.v ===== *)
(** * Vectors and loops

    Slices, checked stores and counted loops on the byte vectors of the bus, the
    external port, the Super Game Boy and the picture unit. *)

From Stdlib Require Import ZArith Lia Bool String.
From stdpp Require Import base decidable list option.
From S2P Require Import Prelude.
From S2P Require Import Cartridge.

Local Open Scope Z_scope.

(** [bytes[..len]] handed out for writing, and put back. *)
Definition slice_update (len : Z) (f : list Z -> list Z) (bytes : list Z) : list Z :=
  (f (take (Z.to_nat len) bytes) ++ drop (Z.to_nat len) bytes)%list.
(** [bytes.fill(0)] and copying as much as fits. *)
Definition refill (len : Z) (source : list Z) : list Z :=
  let copy_len := Nat.min (length source) (Z.to_nat len) in
  (take copy_len source ++ replicate (Z.to_nat len - copy_len) 0)%list.

Definition store (bytes : list Z) (index value : Z) : outcome (list Z) :=
  if (0 <=? index) && (index <? vec_len bytes) then Done (vec_set bytes index value) else Panic "index out of bounds".


(** ** Counted loops *)

Section Loops.
Context {S : Type}.

(** [for i in start..start + n]. *)
Fixpoint for_from (n : nat) (start : Z) (body : Z -> S -> outcome S) (s : S) : outcome S :=
  match n with
  | O => Done s
  | Datatypes.S n => s ← body start s; for_from n (start + 1) body s
  end.
(** [for i in 0..n]. *)
Definition for_range (n : Z) : (Z -> S -> outcome S) -> S -> outcome S := for_from (Z.to_nat n) 0.

(** A loop keeps an invariant that mentions the counter. *)
Lemma for_from_ok (I : Z -> S -> Prop) body n start s :
  I start s -> (forall i s, start <= i < start + Z.of_nat n -> I i s -> finishes (body i s) (I (i + 1))) ->
  finishes (for_from n start body s) (I (start + Z.of_nat n)).
Proof.
  revert start s. induction n as [|n IH]; intros start s Hs Hbody; cbn [for_from].
  - cbn. by rewrite Z.add_0_r.
  - apply finishes_bind. eapply finishes_mono; [apply Hbody; [lia | done]|]. intros s' Hs'.
    replace (start + Z.of_nat (Datatypes.S n)) with (start + 1 + Z.of_nat n) by lia.
    apply IH; [done|]. intros i s1 Hi. apply Hbody. lia.
Qed.

Lemma for_range_ok (I : Z -> S -> Prop) body n s : 0 <= n ->
  I 0 s -> (forall i s, 0 <= i < n -> I i s -> finishes (body i s) (I (i + 1))) -> finishes (for_range n body s) (I n).
Proof.
  intros Hn Hs Hbody. unfold for_range. pose proof (for_from_ok I body (Z.to_nat n) 0 s Hs) as H.
  rewrite Z2Nat.id, Z.add_0_l in H by done. by apply H.
Qed.
End Loops.

(** ** Lemmas *)

Lemma store_done l i v : 0 <= i < vec_len l -> store l i v = Done (vec_set l i v).
Proof. intros Hi. unfold store. by rewrite (proj2 (Z.leb_le 0 i)), (proj2 (Z.ltb_lt i _)) by lia. Qed.

Lemma vec_index_get l i v : vec_get l i = Some v -> vec_index l i = Done v.
Proof. unfold vec_index. by intros ->. Qed.

Lemma vec_index_set l i j v : 0 <= i < vec_len l -> 0 <= j < vec_len l ->
  vec_index (vec_set l i v) j = if j =? i then Done v else vec_index l j.
Proof.
  intros Hi Hj. unfold vec_index, vec_get, vec_set, vec_len in *. destruct (Z.eqb_spec j i) as [->|Hne].
  - rewrite list_lookup_insert_eq by lia. done.
  - rewrite list_lookup_insert_ne by lia. done.
Qed.

Lemma byte_store_ok l i v : 0 <= i < vec_len l -> bytes l -> u8 v ->
  finishes (store l i v) (fun l' => vec_len l' = vec_len l /\ bytes l').
Proof. intros Hi Hl Hv. rewrite store_done by done. cbn. rewrite vec_len_set. split; [done | by apply bytes_set]. Qed.
