(* ===== verification/BusRouter.v ===== *)
(** * Address decoding ([crates/gb-core/src/bus/router.rs])

    The static memory map: the region of every address, the descriptors of the
    I/O registers, the unusable area, and the overlay of the boot ROM on reads. *)

From Stdlib Require Import ZArith Lia Bool String.
From stdpp Require Import base decidable list option.
From S2P Require Import Prelude.
From S2P Require Import Model.
From S2P Require Import BusState.

Local Open Scope Z_scope.

Definition BLOCKED_READ_VALUE : Z := 0xFF.
Definition DMG_UNUSABLE_READ_VALUE : Z := 0x00.

(** The pattern [low..=high]. *)
Definition in_range (a low high : Z) : bool := (low <=? a) && (a <=? high).

Definition implemented_io := io_register_new.
Definition non_functional_io (address : Z) (owner : IoRegisterOwner) (availability : IoRegisterAvailability)
    (implementation : IoRegisterImplementation) (access : IoRegisterAccess) (kind : IoRegisterKind)
    : IoRegisterInfo :=
  mkIoRegister address owner availability implementation access kind.

Definition cgb_e_extra_oam_read_value (address : Z) : Z :=
  let low_address := as_u8 address in
  Z.lor (Z.land low_address 0xF0) (Z.shiftr low_address 4).

(** A [match] on all of [u16]: the last arm is [0xFFFF]. *)
Definition decode_address (a : Z) : BusAddressInfo :=
  if in_range a 0x0000 0x3FFF then mkAddress a RegionCartridgeRomBank0 a
  else if in_range a 0x4000 0x7FFF then mkAddress a RegionCartridgeRomBankN (a - 0x4000)
  else if in_range a 0x8000 0x9FFF then mkAddress a RegionVram (a - 0x8000)
  else if in_range a 0xA000 0xBFFF then mkAddress a RegionCartridgeExternal (a - 0xA000)
  else if in_range a 0xC000 0xCFFF then mkAddress a RegionWramBank0 (a - 0xC000)
  else if in_range a 0xD000 0xDFFF then mkAddress a RegionWramBankN (a - 0xD000)
  else if in_range a 0xE000 0xFDFF then mkAddress a RegionEchoRam (a - 0xE000)
  else if in_range a 0xFE00 0xFE9F then mkAddress a RegionOam (a - 0xFE00)
  else if in_range a 0xFEA0 0xFEFF then mkAddress a RegionUnusable (a - 0xFEA0)
  else if in_range a 0xFF00 0xFF7F then mkAddress a RegionMmio (a - 0xFF00)
  else if in_range a 0xFF80 0xFFFE then mkAddress a RegionHram (a - 0xFF80)
  else mkAddress a RegionInterruptEnable 0.

Definition describe_io_register (a : Z) : option IoRegisterInfo :=
  if a =? 0xFF00 then Some (io_register_new a IoOwnedByJoypad IoShared IoMixed IoJoyp)
  else if a =? 0xFF01 then Some (io_register_new a IoOwnedBySerial IoShared IoReadWrite IoSerialData)
  else if a =? 0xFF02 then Some (io_register_new a IoOwnedBySerial IoShared IoMixed IoSerialControl)
  else if a =? 0xFF03 then Some (non_functional_io a IoOwnedByReserved IoShared IoUnavailable IoMixed IoReserved)
  else if a =? 0xFF04 then Some (io_register_new a IoOwnedByTimer IoShared IoMixed IoDiv)
  else if a =? 0xFF05 then Some (io_register_new a IoOwnedByTimer IoShared IoReadWrite IoTima)
  else if a =? 0xFF06 then Some (io_register_new a IoOwnedByTimer IoShared IoReadWrite IoTma)
  else if a =? 0xFF07 then Some (io_register_new a IoOwnedByTimer IoShared IoMixed IoTac)
  else if in_range a 0xFF08 0xFF0E then Some (non_functional_io a IoOwnedByReserved IoShared IoUnavailable IoMixed IoReserved)
  else if a =? 0xFF0F then Some (io_register_new a IoOwnedByInterruptController IoShared IoMixed IoInterruptFlag)
  else if a =? 0xFF10 then Some (io_register_new a IoOwnedByApu IoShared IoMixed IoNr10)
  else if a =? 0xFF11 then Some (io_register_new a IoOwnedByApu IoShared IoMixed IoNr11)
  else if a =? 0xFF12 then Some (io_register_new a IoOwnedByApu IoShared IoReadWrite IoNr12)
  else if a =? 0xFF13 then Some (io_register_new a IoOwnedByApu IoShared IoWriteOnly IoNr13)
  else if a =? 0xFF14 then Some (io_register_new a IoOwnedByApu IoShared IoMixed IoNr14)
  else if a =? 0xFF15 then Some (non_functional_io a IoOwnedByReserved IoShared IoUnavailable IoMixed IoReserved)
  else if a =? 0xFF16 then Some (io_register_new a IoOwnedByApu IoShared IoMixed IoNr21)
  else if a =? 0xFF17 then Some (io_register_new a IoOwnedByApu IoShared IoReadWrite IoNr22)
  else if a =? 0xFF18 then Some (io_register_new a IoOwnedByApu IoShared IoWriteOnly IoNr23)
  else if a =? 0xFF19 then Some (io_register_new a IoOwnedByApu IoShared IoMixed IoNr24)
  else if a =? 0xFF1A then Some (io_register_new a IoOwnedByApu IoShared IoMixed IoNr30)
  else if a =? 0xFF1B then Some (io_register_new a IoOwnedByApu IoShared IoWriteOnly IoNr31)
  else if a =? 0xFF1C then Some (io_register_new a IoOwnedByApu IoShared IoMixed IoNr32)
  else if a =? 0xFF1D then Some (io_register_new a IoOwnedByApu IoShared IoWriteOnly IoNr33)
  else if a =? 0xFF1E then Some (io_register_new a IoOwnedByApu IoShared IoMixed IoNr34)
  else if a =? 0xFF1F then Some (non_functional_io a IoOwnedByReserved IoShared IoUnavailable IoMixed IoReserved)
  else if a =? 0xFF20 then Some (io_register_new a IoOwnedByApu IoShared IoWriteOnly IoNr41)
  else if a =? 0xFF21 then Some (io_register_new a IoOwnedByApu IoShared IoReadWrite IoNr42)
  else if a =? 0xFF22 then Some (io_register_new a IoOwnedByApu IoShared IoReadWrite IoNr43)
  else if a =? 0xFF23 then Some (io_register_new a IoOwnedByApu IoShared IoMixed IoNr44)
  else if a =? 0xFF24 then Some (io_register_new a IoOwnedByApu IoShared IoReadWrite IoNr50)
  else if a =? 0xFF25 then Some (io_register_new a IoOwnedByApu IoShared IoReadWrite IoNr51)
  else if a =? 0xFF26 then Some (io_register_new a IoOwnedByApu IoShared IoMixed IoNr52)
  else if in_range a 0xFF27 0xFF2F then Some (non_functional_io a IoOwnedByReserved IoShared IoUnavailable IoMixed IoReserved)
  else if in_range a 0xFF30 0xFF3F then Some (io_register_new a IoOwnedByApu IoShared IoReadWrite IoWaveRam)
  else if a =? 0xFF40 then Some (io_register_new a IoOwnedByPpu IoShared IoReadWrite IoLcdc)
  else if a =? 0xFF41 then Some (io_register_new a IoOwnedByPpu IoShared IoMixed IoStat)
  else if a =? 0xFF42 then Some (io_register_new a IoOwnedByPpu IoShared IoReadWrite IoScy)
  else if a =? 0xFF43 then Some (io_register_new a IoOwnedByPpu IoShared IoReadWrite IoScx)
  else if a =? 0xFF44 then Some (io_register_new a IoOwnedByPpu IoShared IoReadOnly IoLy)
  else if a =? 0xFF45 then Some (io_register_new a IoOwnedByPpu IoShared IoReadWrite IoLyc)
  else if a =? 0xFF46 then Some (io_register_new a IoOwnedByDma IoShared IoReadWrite IoOamDma)
  else if a =? 0xFF47 then Some (implemented_io a IoOwnedByPpu IoDmgCompatible IoReadWrite IoBgp)
  else if a =? 0xFF48 then Some (implemented_io a IoOwnedByPpu IoDmgCompatible IoReadWrite IoObp0)
  else if a =? 0xFF49 then Some (implemented_io a IoOwnedByPpu IoDmgCompatible IoReadWrite IoObp1)
  else if a =? 0xFF4A then Some (io_register_new a IoOwnedByPpu IoShared IoReadWrite IoWy)
  else if a =? 0xFF4B then Some (io_register_new a IoOwnedByPpu IoShared IoReadWrite IoWx)
  else if a =? 0xFF4C then Some (implemented_io a IoOwnedByCgbSystem IoCgbOnly IoMixed IoKey0)
  else if a =? 0xFF4D then Some (implemented_io a IoOwnedByCgbSystem IoCgbOnly IoMixed IoKey1)
  else if a =? 0xFF4F then Some (implemented_io a IoOwnedByPpu IoCgbOnly IoMixed IoVbk)
  else if a =? 0xFF51 then Some (non_functional_io a IoOwnedByDma IoCgbOnly IoImplemented IoWriteOnly IoHdma1)
  else if a =? 0xFF52 then Some (non_functional_io a IoOwnedByDma IoCgbOnly IoImplemented IoWriteOnly IoHdma2)
  else if a =? 0xFF53 then Some (non_functional_io a IoOwnedByDma IoCgbOnly IoImplemented IoWriteOnly IoHdma3)
  else if a =? 0xFF54 then Some (non_functional_io a IoOwnedByDma IoCgbOnly IoImplemented IoWriteOnly IoHdma4)
  else if a =? 0xFF55 then Some (non_functional_io a IoOwnedByDma IoCgbOnly IoImplemented IoMixed IoHdma5)
  else if a =? 0xFF56 then Some (implemented_io a IoOwnedByInfrared IoCgbOnly IoMixed IoRp)
  else if a =? 0xFF68 then Some (implemented_io a IoOwnedByPpu IoCgbOnly IoReadWrite IoBcps)
  else if a =? 0xFF69 then Some (implemented_io a IoOwnedByPpu IoCgbOnly IoReadWrite IoBcpd)
  else if a =? 0xFF6A then Some (implemented_io a IoOwnedByPpu IoCgbOnly IoReadWrite IoOcps)
  else if a =? 0xFF6B then Some (implemented_io a IoOwnedByPpu IoCgbOnly IoReadWrite IoOcpd)
  else if a =? 0xFF6C then Some (implemented_io a IoOwnedByPpu IoCgbOnly IoReadWrite IoOpri)
  else if a =? 0xFF70 then Some (implemented_io a IoOwnedByMemoryController IoCgbOnly IoMixed IoSvbk)
  else if a =? 0xFF72 then Some (implemented_io a IoOwnedByCgbSystem IoCgbOnly IoReadWrite IoCgbUndocumented72)
  else if a =? 0xFF73 then Some (implemented_io a IoOwnedByCgbSystem IoCgbOnly IoReadWrite IoCgbUndocumented73)
  else if a =? 0xFF74 then Some (implemented_io a IoOwnedByCgbSystem IoCgbOnly IoReadWrite IoCgbUndocumented74)
  else if a =? 0xFF75 then Some (implemented_io a IoOwnedByCgbSystem IoCgbOnly IoMixed IoCgbUndocumented75)
  else if a =? 0xFF76 then Some (implemented_io a IoOwnedByApu IoCgbOnly IoReadOnly IoPcm12)
  else if a =? 0xFF77 then Some (implemented_io a IoOwnedByApu IoCgbOnly IoReadOnly IoPcm34)
  else if in_range a 0xFF6D 0xFF6F then Some (non_functional_io a IoOwnedByCgbSystem IoCgbOnly IoStubbed IoMixed IoCgbUndocumented)
  else if (a =? 0xFF4E) || in_range a 0xFF57 0xFF67 || (a =? 0xFF71) || in_range a 0xFF78 0xFF7F then Some (non_functional_io a IoOwnedByReserved IoShared IoUnavailable IoMixed IoReserved)
  else if a =? 0xFF50 then Some (io_register_new a IoOwnedByBoot IoShared IoWriteOnly IoBootRomDisable)
  else if a =? 0xFFFF then Some (io_register_new a IoOwnedByInterruptController IoShared IoReadWrite IoInterruptEnable)
  else None.

Definition describe_unusable_area (m : ConsoleModel) (r : HardwareRevision) (a : Z) : option UnusableAreaInfo :=
  if negb (in_range a 0xFEA0 0xFEFF) then None
  else Some match m with
  | GameBoy | GameBoyPocket | GameBoyLight =>
      mkUnusable a DmgFamilyFixedZero WritesIgnored DMG_UNUSABLE_READ_VALUE true
  | GameBoyColor | GameBoyAdvance =>
      let fallback_read_value :=
        match r with
        | CpuCgbE | CpuAgb0 | CpuAgbA => cgb_e_extra_oam_read_value a
        | _ => BLOCKED_READ_VALUE
        end in
      mkUnusable a ReadCgbRevisionDependent CgbRevisionDependentRam fallback_read_value true
  end.

Definition router_resolve_nominal_target (kind : BusAccessKind) (a : Z) (state : BusArbitrationState) : BusAddressInfo :=
  if bool_decide (kind = AccessRead) && overlays_read (boot_rom state) a then mkAddress a RegionBootRom a
  else decode_address a.

(** ** Lemmas *)

(** The first address and the size of each region of the memory map. *)
Definition region_base (r : BusRegion) : Z :=
  match r with
  | RegionBootRom | RegionCartridgeRomBank0 => 0x0000
  | RegionCartridgeRomBankN => 0x4000 | RegionVram => 0x8000 | RegionCartridgeExternal => 0xA000
  | RegionWramBank0 => 0xC000 | RegionWramBankN => 0xD000 | RegionEchoRam => 0xE000
  | RegionOam => 0xFE00 | RegionUnusable => 0xFEA0 | RegionMmio => 0xFF00 | RegionHram => 0xFF80
  | RegionInterruptEnable => 0xFFFF
  end.
Definition region_size (r : BusRegion) : Z :=
  match r with
  | RegionBootRom => 0x0900
  | RegionCartridgeRomBank0 | RegionCartridgeRomBankN => 0x4000
  | RegionVram | RegionCartridgeExternal => 0x2000
  | RegionWramBank0 | RegionWramBankN => 0x1000 | RegionEchoRam => 0x1E00
  | RegionOam => 0xA0 | RegionUnusable => 0x60 | RegionMmio => 0x80 | RegionHram => 0x7F
  | RegionInterruptEnable => 1
  end.

Lemma in_range_spec a low high : in_range a low high = true <-> low <= a <= high.
Proof. unfold in_range. rewrite andb_true_iff, !Z.leb_le. done. Qed.
Lemma in_range_false a low high : in_range a low high = false <-> a < low \/ high < a.
Proof. unfold in_range. rewrite andb_false_iff, !Z.leb_gt. done. Qed.

(** [ranges] turns the range tests of hypotheses into inequalities. *)
Ltac ranges :=
  repeat match goal with
  | H : in_range _ _ _ = true |- _ => apply in_range_spec in H
  | H : in_range _ _ _ = false |- _ => apply in_range_false in H
  end.

(** Decoding is the inverse of laying the regions out one after the other. *)
Lemma decode_address_spec a : u16 a ->
  let i := decode_address a in
  address i = a /\ region_offset i = a - region_base (region i) /\ 0 <= region_offset i < region_size (region i) /\
  region i <> RegionBootRom.
Proof. unfold u16, decode_address. intros Ha. case_tests; ranges; cbn; split_and!; (lia || done). Qed.

Lemma decode_address_region a r : u16 a -> r <> RegionBootRom ->
  region (decode_address a) = r <-> region_base r <= a < region_base r + region_size r.
Proof.
  intros Ha Hr. unfold u16 in Ha. unfold decode_address. split.
  - case_tests; ranges; cbn; intros <-; cbn; lia.
  - intros Hin. destruct r; cbn in Hin; try done; case_tests; ranges; cbn; try done; lia.
Qed.

(** Every descriptor sits at its own address. *)
Lemma describe_io_register_address a i : describe_io_register a = Some i -> io_address i = a.
Proof. unfold describe_io_register. intros H. repeat case_match; congruence || (injection H as <-; reflexivity). Qed.

(** The table covers the I/O page up to [0xFF7F] and [0xFFFF], nothing else. *)
Lemma io_page_described a : u16 a ->
  (is_Some (describe_io_register a) <-> 0xFF00 <= a < 0xFF80 \/ a = 0xFFFF).
Proof.
  intros Ha. unfold u16 in Ha. destruct (Z.leb_spec 0xFF00 a) as [Hhi|Hlo].
  - pose proof (forall_below 256 (fun k => Bool.eqb (match describe_io_register (0xFF00 + k) with Some _ => true | None => false end)
      ((k <? 0x80) || (k =? 0xFF))) ltac:(vm_compute; reflexivity) (a - 0xFF00) ltac:(lia)) as H.
    cbn beta in H. replace (0xFF00 + (a - 0xFF00)) with a in H by lia. apply Bool.eqb_prop in H.
    destruct (describe_io_register a); split; intros Hx; first [lia | done].
  - split; [|lia]. intros [i Hi]. exfalso. revert Hi. unfold describe_io_register, in_range.
    repeat match goal with
    | |- context [?x =? ?n] => rewrite (proj2 (Z.eqb_neq x n)) by lia
    | |- context [?n <=? a] => rewrite (proj2 (Z.leb_gt n a)) by lia
    end. done.
Qed.

(** Wave RAM is sixteen registers of the sound unit. *)
Lemma wave_ram_described a : 0xFF30 <= a <= 0xFF3F ->
  describe_io_register a = Some (io_register_new a IoOwnedByApu IoShared IoReadWrite IoWaveRam).
Proof.
  intros Ha. unfold describe_io_register, in_range.
  repeat match goal with |- context [a =? ?n] => rewrite (proj2 (Z.eqb_neq a n)) by lia end.
  case_tests; prune; (done || lia).
Qed.

(** A property of all I/O registers is checked register by register. *)
Lemma forall_io_registers (f : Z -> option IoRegisterInfo -> bool) :
  forallb (fun k => f (0xFF00 + k) (describe_io_register (0xFF00 + k))) (byte_range 256) = true ->
  forall a, 0xFF00 <= a < 0x10000 -> f a (describe_io_register a) = true.
Proof.
  intros Hall a Ha. pose proof (forall_below 256 (fun k => f (0xFF00 + k) (describe_io_register (0xFF00 + k))) Hall (a - 0xFF00)) as H.
  cbn beta in H. replace (0xFF00 + (a - 0xFF00)) with a in H by lia. apply H. lia.
Qed.

Lemma unusable_read_u8 m r a i : describe_unusable_area m r a = Some i -> u8 (runtime_fallback_read_value i).
Proof.
  assert (H : u8 (cgb_e_extra_oam_read_value a)).
  { unfold cgb_e_extra_oam_read_value. apply u8_lor; [auto with gb|]. rewrite Z.shiftr_div_pow2 by lia.
    pose proof (u8_mod a). unfold as_u8, u8 in *. split; [apply Z.div_pos; lia | apply Z.div_lt_upper_bound; lia]. }
  unfold describe_unusable_area. destruct (negb _); [done|]. intros [= <-]. destruct m, r; cbn; (exact H || (vm_compute; intuition congruence)).
Qed.
