(* ===== verification/BusMemory.v ===== *)
(** * Work, video and object memory ([crates/gb-core/src/bus/wram.rs], [bus/video.rs], [bus/view.rs])

    The three memories the bus owns, their banks and echo, who holds the video
    memories, the views the picture unit reads through, and save states. *)

From Stdlib Require Import ZArith Lia Bool String.
From stdpp Require Import base decidable list option.
From S2P Require Import Prelude.
From S2P Require Import Model.
From S2P Require Import Cartridge.
From S2P Require Import Vectors.
From S2P Require Import BusState.
From S2P Require Import BusRouter.
From S2P Require Import Boot.

Local Open Scope Z_scope.

Definition DMG_VRAM_LEN : Z := 0x2000.
Definition CGB_VRAM_LEN : Z := 0x4000.
Definition DMG_WRAM_LEN : Z := 0x2000.
Definition CGB_WRAM_LEN : Z := 0x8000.
Definition OAM_LEN : Z := 0x00A0.

(** ** Work RAM *)

Record WramDomain := mkWram {
  wram_console_model : ConsoleModel;
  selected_bank_register : Z;
  wram_bytes : list Z
}.

#[export] Instance upd_selected_bank_register : Update selected_bank_register := fun v w =>
  let '(mkWram m _ b) := w in mkWram m v b.
#[export] Instance upd_wram_bytes : Update wram_bytes := fun v w =>
  let '(mkWram m s _) := w in mkWram m s v.

Record DebugWramAddressSample := mkSample {
  sample_address : Z; sample_bank : Z; sample_bank_offset : Z; sample_value : Z
}.

Definition wram_new_for_model (m : ConsoleModel) : WramDomain := mkWram m 0 (vec_zeroed CGB_WRAM_LEN).

Definition wram_len (w : WramDomain) : Z := if is_cgb_family (wram_console_model w) then CGB_WRAM_LEN else DMG_WRAM_LEN.
Definition wram_debug_bytes (w : WramDomain) : list Z := take (Z.to_nat (wram_len w)) (wram_bytes w).
Definition wram_apply_startup_memory_policy (p : StartupMemoryPolicy) (w : WramDomain) : WramDomain :=
  w <| wram_bytes := slice_update (wram_len w) (initialize_wram p) (wram_bytes w) |>.

Definition selected_wram_bank (w : WramDomain) : Z :=
  let bank := Z.land (selected_bank_register w) 0x07 in if bank =? 0 then 1 else bank.
Definition read_svbk (w : WramDomain) : Z := Z.lor 0xF8 (Z.land (selected_bank_register w) 0x07).
Definition write_svbk (value : Z) (w : WramDomain) : WramDomain :=
  if is_cgb_family (wram_console_model w) then w <| selected_bank_register := Z.land value 0x07 |> else w.
Definition wram_reset_bank_select (w : WramDomain) : WramDomain := w <| selected_bank_register := 0 |>.

Definition switchable_bank_index (offset : Z) (w : WramDomain) : Z :=
  if is_cgb_family (wram_console_model w) then selected_wram_bank w * 0x1000 + offset else 0x1000 + offset.

Definition wram_index (a : Z) (w : WramDomain) : outcome Z :=
  if in_range a 0xC000 0xCFFF then mret (a - 0xC000)
  else if in_range a 0xD000 0xDFFF then mret (switchable_bank_index (a - 0xD000) w)
  else if in_range a 0xE000 0xEFFF then mret (a - 0xE000)
  else if in_range a 0xF000 0xFDFF then mret (switchable_bank_index (a - 0xF000) w)
  else Panic "address does not map to WRAM storage".

Definition wram_read (a : Z) (w : WramDomain) : outcome Z :=
  index ← wram_index a w; vec_index (wram_bytes w) index.

(** [bytes[index] = value]. *)
Definition wram_write (a value : Z) (w : WramDomain) : outcome WramDomain :=
  index ← wram_index a w;
  bytes ← store (wram_bytes w) index value;
  mret (w <| wram_bytes := bytes |>).

Definition debug_address_bank_and_offset (a : Z) (w : WramDomain) : option (Z * Z) :=
  if in_range a 0xC000 0xCFFF then Some (0, a - 0xC000)
  else if in_range a 0xD000 0xDFFF then Some (selected_wram_bank w, a - 0xD000)
  else if in_range a 0xE000 0xEFFF then Some (0, a - 0xE000)
  else if in_range a 0xF000 0xFDFF then Some (selected_wram_bank w, a - 0xF000)
  else None.
Definition debug_address_sample (a : Z) (w : WramDomain) : outcome (option DebugWramAddressSample) :=
  match debug_address_bank_and_offset a w with
  | None => mret None
  | Some (bank, offset) => value ← wram_read a w; mret (Some (mkSample a bank offset value))
  end.

Record WramSaveState := mkWramSave { wram_save_model : ConsoleModel; wram_save_bank : Z; wram_save_bytes : list Z }.
Definition wram_payload_bytes (s : WramSaveState) : Z := vec_len (wram_save_bytes s).
Definition wram_capture_save_state (w : WramDomain) : WramSaveState :=
  mkWramSave (wram_console_model w) (selected_bank_register w) (wram_debug_bytes w).
Definition wram_restore_save_state (s : WramSaveState) (w : WramDomain) : WramDomain :=
  mkWram (wram_save_model s) (Z.land (wram_save_bank s) 0x07) (refill (vec_len (wram_bytes w)) (wram_save_bytes s)).

(** ** Who holds the video memories *)

(** [BusMaster] is another name of [BusRequester]. *)

Definition master_bit (m : BusRequester) : Z :=
  match m with
  | RequesterCpu => 0 | RequesterDma => 1 | RequesterPpu => 2 | RequesterApu => 3 | RequesterSerial => 4
  | RequesterBoot => 5 | RequesterCartridge => 6
  end.
Definition master_mask (m : BusRequester) : Z := Z.shiftl 1 (master_bit m).

(** The mask operations of both domains, on the [u16] mask. *)
Definition mask_acquire (m : BusRequester) (acquired_by : Z) : Z := Z.lor acquired_by (master_mask m).
Definition mask_release (m : BusRequester) (acquired_by : Z) : Z := Z.land acquired_by (Z.lxor 0xFFFF (master_mask m)).
Definition mask_set_acquired (m : BusRequester) (acquired : bool) (acquired_by : Z) : Z :=
  if acquired then mask_acquire m acquired_by else mask_release m acquired_by.
Definition mask_is_acquired (acquired_by : Z) : bool := negb (acquired_by =? 0).
Definition mask_is_acquired_by (m : BusRequester) (acquired_by : Z) : bool := has_bits acquired_by (master_mask m).

Definition block_access (kind : BusAccessKind) (reason : BusBlockReason) : BusAccessDisposition :=
  match kind with
  | AccessRead => BlockedRead BLOCKED_READ_VALUE reason
  | AccessWrite => IgnoredWrite reason
  end.

(** ** Object memory *)

Record OamDomain := mkOam { oam_bytes : list Z; oam_acquired_by : Z }.

#[export] Instance upd_oam_bytes : Update oam_bytes := fun v o => mkOam v (oam_acquired_by o).
#[export] Instance upd_oam_acquired_by : Update oam_acquired_by := fun v o => mkOam (oam_bytes o) v.

Definition oam_new : OamDomain := mkOam (vec_zeroed OAM_LEN) 0.
Definition oam_read (offset : Z) (o : OamDomain) : outcome Z := vec_index (oam_bytes o) offset.
Definition oam_write (offset value : Z) (o : OamDomain) : outcome OamDomain :=
  bytes ← store (oam_bytes o) offset value; mret (o <| oam_bytes := bytes |>).
Definition oam_acquire (m : BusRequester) (o : OamDomain) : OamDomain :=
  o <| oam_acquired_by := mask_acquire m (oam_acquired_by o) |>.
Definition oam_release (m : BusRequester) (o : OamDomain) : OamDomain :=
  o <| oam_acquired_by := mask_release m (oam_acquired_by o) |>.
Definition oam_set_acquired (m : BusRequester) (acquired : bool) (o : OamDomain) : OamDomain :=
  o <| oam_acquired_by := mask_set_acquired m acquired (oam_acquired_by o) |>.
Definition oam_is_acquired (o : OamDomain) : bool := mask_is_acquired (oam_acquired_by o).
Definition oam_is_acquired_by (m : BusRequester) (o : OamDomain) : bool := mask_is_acquired_by m (oam_acquired_by o).

Definition oam_evaluate_access (requester : BusRequester) (kind : BusAccessKind) (ppu : PpuBusState) (dma : DmaBusState)
    : option BusAccessDisposition :=
  if negb (bool_decide (requester = RequesterCpu)) then None
  else if bool_decide (cpu_access_policy dma = VideoBusBlocked) then Some (block_access kind DmaVideoBusConflict)
  else if negb (is_lcd_enabled ppu) then None
  else match ppu_mode ppu with
  | OamScan => Some (block_access kind PpuOamBlockedDuringMode2)
  | Drawing => Some (block_access kind PpuOamBlockedDuringMode3)
  | HBlank | VBlankMode => None
  end.

(** ** Video RAM *)

Record VramDomain := mkVram {
  vram_console_model : ConsoleModel;
  selected_bank : Z;
  vram_bytes : list Z;
  vram_acquired_by : Z
}.

#[export] Instance upd_selected_bank : Update selected_bank := fun v d =>
  let '(mkVram m _ b a) := d in mkVram m v b a.
#[export] Instance upd_vram_bytes : Update vram_bytes := fun v d =>
  let '(mkVram m s _ a) := d in mkVram m s v a.
#[export] Instance upd_vram_acquired_by : Update vram_acquired_by := fun v d =>
  let '(mkVram m s b _) := d in mkVram m s b v.

Definition vram_new_for_model (m : ConsoleModel) : VramDomain := mkVram m 0 (vec_zeroed CGB_VRAM_LEN) 0.
Definition vram_len (d : VramDomain) : Z := if is_cgb_family (vram_console_model d) then CGB_VRAM_LEN else DMG_VRAM_LEN.
Definition vram_debug_bytes (d : VramDomain) : list Z := take (Z.to_nat (vram_len d)) (vram_bytes d).
(** [bytes()], the first bank. *)
Definition vram_first_bank (d : VramDomain) : list Z := take (Z.to_nat DMG_VRAM_LEN) (vram_bytes d).
Definition vram_apply_startup_memory_policy (p : StartupMemoryPolicy) (d : VramDomain) : VramDomain :=
  d <| vram_bytes := slice_update (vram_len d) (initialize_vram p) (vram_bytes d) |>.

Definition storage_index_for_bank (bank offset : Z) (d : VramDomain) : Z :=
  (if is_cgb_family (vram_console_model d) then Z.land bank 0x01 else 0) * DMG_VRAM_LEN + offset.
Definition storage_index (offset : Z) (d : VramDomain) : Z := storage_index_for_bank (selected_bank d) offset d.
Definition vram_read (offset : Z) (d : VramDomain) : outcome Z := vec_index (vram_bytes d) (storage_index offset d).
Definition vram_read_bank (bank offset : Z) (d : VramDomain) : outcome Z :=
  vec_index (vram_bytes d) (storage_index_for_bank bank offset d).
Definition vram_write (offset value : Z) (d : VramDomain) : outcome VramDomain :=
  bytes ← store (vram_bytes d) (storage_index offset d) value; mret (d <| vram_bytes := bytes |>).

Definition read_vbk (d : VramDomain) : Z := Z.lor 0xFE (selected_bank d).
Definition write_vbk (value : Z) (d : VramDomain) : VramDomain :=
  if is_cgb_family (vram_console_model d) then d <| selected_bank := Z.land value 0x01 |> else d.
Definition vram_reset_bank_select (d : VramDomain) : VramDomain := d <| selected_bank := 0 |>.

Definition vram_acquire (m : BusRequester) (d : VramDomain) : VramDomain :=
  d <| vram_acquired_by := mask_acquire m (vram_acquired_by d) |>.
Definition vram_release (m : BusRequester) (d : VramDomain) : VramDomain :=
  d <| vram_acquired_by := mask_release m (vram_acquired_by d) |>.
Definition vram_set_acquired (m : BusRequester) (acquired : bool) (d : VramDomain) : VramDomain :=
  d <| vram_acquired_by := mask_set_acquired m acquired (vram_acquired_by d) |>.
Definition vram_is_acquired (d : VramDomain) : bool := mask_is_acquired (vram_acquired_by d).
Definition vram_is_acquired_by (m : BusRequester) (d : VramDomain) : bool := mask_is_acquired_by m (vram_acquired_by d).

Definition vram_evaluate_access (requester : BusRequester) (kind : BusAccessKind) (ppu : PpuBusState) (dma : DmaBusState)
    : option BusAccessDisposition :=
  if negb (bool_decide (requester = RequesterCpu)) then None
  else if bool_decide (cpu_access_policy dma = VideoBusBlocked) then Some (block_access kind DmaVideoBusConflict)
  else if is_lcd_enabled ppu && bool_decide (ppu_mode ppu = Drawing)
  then Some (block_access kind PpuVramBlockedDuringMode3)
  else None.

Record VramSaveState := mkVramSave {
  vram_save_model : ConsoleModel; vram_save_bank : Z; vram_save_bytes : list Z; vram_save_acquired_by : Z
}.
Definition vram_payload_bytes (s : VramSaveState) : Z := vec_len (vram_save_bytes s).
Definition vram_capture_save_state (d : VramDomain) : VramSaveState :=
  mkVramSave (vram_console_model d) (selected_bank d) (vram_debug_bytes d) (vram_acquired_by d).
Definition vram_restore_save_state (s : VramSaveState) (d : VramDomain) : VramDomain :=
  mkVram (vram_save_model s) (Z.land (vram_save_bank s) 0x01) (refill (vec_len (vram_bytes d)) (vram_save_bytes s))
    (vram_save_acquired_by s).

(** ** The picture unit's views *)

(** What a view needs of its domain. *)
Class VideoDomain (D : Type) := {
  domain_is_acquired : D -> bool;
  domain_is_acquired_by : BusRequester -> D -> bool;
  domain_read : Z -> D -> option Z
}.

#[export] Instance OamDomain_VideoDomain : VideoDomain OamDomain := {
  domain_is_acquired := oam_is_acquired;
  domain_is_acquired_by := oam_is_acquired_by;
  domain_read := fun offset o => vec_get (oam_bytes o) offset
}.
#[export] Instance VramDomain_VideoDomain : VideoDomain VramDomain := {
  domain_is_acquired := vram_is_acquired;
  domain_is_acquired_by := vram_is_acquired_by;
  domain_read := fun offset d => vec_get (vram_first_bank d) offset
}.

Record VideoBusView (D : Type) := mkView { view_master : BusRequester; view_domain : D }.
Arguments mkView {D} _ _.
Arguments view_master {D} _.
Arguments view_domain {D} _.

Section Views.
Context {D : Type} `{VideoDomain D}.
Definition is_acquired_by_master (v : VideoBusView D) : bool := domain_is_acquired_by (view_master v) (view_domain v).
Definition view_is_acquired (v : VideoBusView D) : bool := domain_is_acquired (view_domain v).
Definition view_read (offset : Z) (v : VideoBusView D) : option Z := domain_read offset (view_domain v).
End Views.

Definition view_read_bank (bank offset : Z) (v : VideoBusView VramDomain) : outcome (option Z) :=
  if DMG_VRAM_LEN <=? offset then mret None
  else value ← vram_read_bank bank offset (view_domain v); mret (Some value).

(** ** Invariants *)

Definition wram_ok (w : WramDomain) : Prop :=
  0 <= selected_bank_register w < 8 /\ vec_len (wram_bytes w) = CGB_WRAM_LEN /\ bytes (wram_bytes w).
(** Only the picture unit and DMA ever hold a video memory. *)
Definition held_by_video_masters (acquired_by : Z) : Prop := Z.land acquired_by 6 = acquired_by.
Definition oam_ok (o : OamDomain) : Prop :=
  vec_len (oam_bytes o) = OAM_LEN /\ bytes (oam_bytes o) /\ held_by_video_masters (oam_acquired_by o).
Definition vram_ok (d : VramDomain) : Prop :=
  0 <= selected_bank d < 2 /\ vec_len (vram_bytes d) = CGB_VRAM_LEN /\ bytes (vram_bytes d) /\
  held_by_video_masters (vram_acquired_by d).

(** The storage cell of a work RAM address; echo addresses share it. *)
Definition wram_cell (a : Z) (w : WramDomain) : Z :=
  let offset := (a - 0xC000) mod 0x2000 in
  if offset <? 0x1000 then offset else switchable_bank_index (offset - 0x1000) w.

Definition wram_area (a : Z) : Prop := 0xC000 <= a < 0xFE00.

Lemma selected_wram_bank_range w : 1 <= selected_wram_bank w < 8.
Proof.
  unfold selected_wram_bank. rewrite land_07. pose proof (Z.mod_pos_bound (selected_bank_register w) 8).
  destruct (Z.eqb_spec (selected_bank_register w mod 8) 0); lia.
Qed.

Lemma wram_index_cell a w : wram_area a -> wram_index a w = Done (wram_cell a w).
Proof.
  unfold wram_area, wram_index, wram_cell. intros Ha.
  assert (Hmod : (a - 0xC000) mod 0x2000 = if a <? 0xE000 then a - 0xC000 else a - 0xE000)
    by (destruct (Z.ltb_spec a 0xE000); divmod_lia).
  rewrite Hmod. destruct (Z.ltb_spec a 0xE000); case_tests; ranges; prune; try lia; cbn; do 2 f_equal; lia.
Qed.

Lemma wram_cell_range a w : wram_area a -> 0 <= wram_cell a w < CGB_WRAM_LEN.
Proof.
  unfold wram_area, wram_cell, CGB_WRAM_LEN, switchable_bank_index. intros Ha.
  pose proof (selected_wram_bank_range w). pose proof (Z.mod_pos_bound (a - 0xC000) 0x2000).
  destruct (Z.ltb_spec ((a - 0xC000) mod 0x2000) 0x1000); [lia|]. destruct (is_cgb_family _); lia.
Qed.

Lemma wram_read_ok a w : wram_ok w -> wram_area a -> finishes (wram_read a w) u8.
Proof.
  intros (_ & Hlen & Hb) Ha. unfold wram_read. rewrite wram_index_cell by done. cbn.
  apply vec_index_in; [done|]. rewrite Hlen. by apply wram_cell_range.
Qed.

Lemma wram_write_done a v w : wram_ok w -> wram_area a ->
  wram_write a v w = Done (w <| wram_bytes := vec_set (wram_bytes w) (wram_cell a w) v |>).
Proof.
  intros (_ & Hlen & _) Ha. unfold wram_write. rewrite wram_index_cell by done. cbn.
  rewrite store_done; [done|]. rewrite Hlen. by apply wram_cell_range.
Qed.

Lemma wram_set_ok w i v : wram_ok w -> u8 v -> wram_ok (w <| wram_bytes := vec_set (wram_bytes w) i v |>).
Proof.
  destruct w. unfold wram_ok. cbn. intros (Hb & Hlen & Hbs) Hv. split_and!; [lia | lia | by rewrite vec_len_set |].
  by apply bytes_set.
Qed.

Lemma wram_write_ok a v w : wram_ok w -> wram_area a -> u8 v -> finishes (wram_write a v w) wram_ok.
Proof. intros Hw Ha Hv. rewrite wram_write_done by done. by apply wram_set_ok. Qed.

Lemma write_svbk_ok v w : wram_ok w -> wram_ok (write_svbk v w).
Proof.
  intros Hw. unfold write_svbk. destruct (is_cgb_family _); [|done]. destruct w, Hw as (? & ? & ?).
  unfold wram_ok. cbn in *. rewrite land_07. pose proof (Z.mod_pos_bound v 8). split_and!; (done || lia).
Qed.

Lemma oam_read_ok i o : oam_ok o -> 0 <= i < OAM_LEN -> finishes (oam_read i o) u8.
Proof. intros (Hl & Hb & _) Hi. apply vec_index_in; [done|]. by rewrite Hl. Qed.
Lemma oam_write_ok i v o : oam_ok o -> 0 <= i < OAM_LEN -> u8 v -> finishes (oam_write i v o) oam_ok.
Proof.
  intros (Hl & Hb & Ha) Hi Hv. unfold oam_write. apply finishes_bind.
  eapply finishes_mono; [apply (byte_store_ok (oam_bytes o) i v); [by rewrite Hl | done | done]|].
  intros l [Hl' Hb']. split_and!; (done || apply Ha || exact (eq_trans Hl' Hl)).
Qed.

Lemma storage_index_range bank i d : 0 <= i < DMG_VRAM_LEN -> 0 <= storage_index_for_bank bank i d < CGB_VRAM_LEN.
Proof.
  unfold storage_index_for_bank, DMG_VRAM_LEN, CGB_VRAM_LEN. rewrite land_01. pose proof (Z.mod_pos_bound bank 2).
  destruct (is_cgb_family _); lia.
Qed.

Lemma vram_read_bank_ok bank i d : vram_ok d -> 0 <= i < DMG_VRAM_LEN -> finishes (vram_read_bank bank i d) u8.
Proof. intros (_ & Hl & Hb & _) Hi. apply vec_index_in; [done|]. rewrite Hl. by apply storage_index_range. Qed.
Lemma vram_read_ok i d : vram_ok d -> 0 <= i < DMG_VRAM_LEN -> finishes (vram_read i d) u8.
Proof. apply (vram_read_bank_ok (selected_bank d)). Qed.
Lemma vram_write_ok i v d : vram_ok d -> 0 <= i < DMG_VRAM_LEN -> u8 v -> finishes (vram_write i v d) vram_ok.
Proof.
  intros (Hs & Hl & Hb & Ha) Hi Hv. unfold vram_write. apply finishes_bind.
  eapply finishes_mono; [apply (byte_store_ok (vram_bytes d)); [rewrite Hl; by apply storage_index_range | done | done]|].
  intros l [Hl' Hb']. destruct d as [m b s a]. split_and!; (done || apply Ha || apply Hs || exact (eq_trans Hl' Hl)).
Qed.
Lemma write_vbk_ok v d : vram_ok d -> vram_ok (write_vbk v d).
Proof.
  intros Hd. unfold write_vbk. destruct (is_cgb_family _); [|done]. destruct d, Hd as (? & ? & ? & ?).
  unfold vram_ok. cbn in *. rewrite land_01. pose proof (Z.mod_pos_bound v 2). split_and!; (done || lia).
Qed.
Lemma vram_view_read_ok bank i m d : vram_ok d -> 0 <= i ->
  finishes (view_read_bank bank i (mkView m d)) (from_option u8 True).
Proof.
  intros Hd Hi. unfold view_read_bank. destruct (Z.leb_spec DMG_VRAM_LEN i); [done|]. apply finishes_bind.
  eapply finishes_mono; [by apply vram_read_bank_ok|]. done.
Qed.

(** ** Work RAM is banked memory *)

Lemma cell_same_bank a b w : wram_area a -> wram_area b ->
  (wram_cell a w = wram_cell b w <-> (a - b) mod 0x2000 = 0).
Proof.
  unfold wram_area, wram_cell, switchable_bank_index. intros Ha Hb. pose proof (selected_wram_bank_range w).
  pose proof (Z.mod_pos_bound (a - 0xC000) 0x2000). pose proof (Z.mod_pos_bound (b - 0xC000) 0x2000).
  assert (Heq : (a - b) mod 0x2000 = 0 <-> (a - 0xC000) mod 0x2000 = (b - 0xC000) mod 0x2000) by (split; intros; divmod_lia).
  rewrite Heq. destruct (Z.ltb_spec ((a - 0xC000) mod 0x2000) 0x1000), (Z.ltb_spec ((b - 0xC000) mod 0x2000) 0x1000);
    destruct (is_cgb_family (wram_console_model w)); lia.
Qed.

Lemma write_svbk_bytes s w : wram_bytes (write_svbk s w) = wram_bytes w.
Proof. unfold write_svbk. destruct (is_cgb_family _); by destruct w. Qed.

(** Work RAM is banked memory with an echo: a byte written at any work RAM
    or echo address is read back, also after the bank register has been written,
    at exactly the addresses that name its cell, every other cell keeps its
    byte; two addresses name one cell exactly when they differ by the echo
    distance, the upper window shows bank [s] (bank 1 for 0) on a colour console
    and always bank 1 on the others, and SVBK reads back the selection. *)
Theorem work_ram_is_banked_memory w a v b s :
  wram_ok w -> wram_area a -> wram_area b -> u8 v -> u8 s ->
  let after := write_svbk s w in
  (exists w', wram_write a v w = Done w' /\ wram_ok w' /\
     wram_read b (write_svbk s w') = if wram_cell b after =? wram_cell a w then Done v else wram_read b after) /\
  (wram_cell a w = wram_cell b w <-> (a - b) mod 0x2000 = 0) /\
  (forall i, 0 <= i < 0x1000 ->
     wram_cell (0xC000 + i) after = i /\
     wram_cell (0xD000 + i) after =
       (if is_cgb_family (wram_console_model w) then (if s mod 8 =? 0 then 1 else s mod 8) else 1) * 0x1000 + i) /\
  (is_cgb_family (wram_console_model w) = true -> read_svbk after = 0xF8 + s mod 8).
Proof.
  intros Hw Ha Hb Hv Hs after.
  assert (Hsel : forall x, is_cgb_family (wram_console_model w) = true ->
            write_svbk s (w <| wram_bytes := x |>) = w <| wram_bytes := x |> <| selected_bank_register := s mod 8 |>).
  { intros x Hm. unfold write_svbk. destruct w as [m r l]. cbn in *. by rewrite Hm, land_07. }
  split_and!.
  - exists (w <| wram_bytes := vec_set (wram_bytes w) (wram_cell a w) v |>).
    rewrite wram_write_done by done. split; [done|]. split; [by apply wram_set_ok|].
    assert (Hcell : wram_cell b (write_svbk s (w <| wram_bytes := vec_set (wram_bytes w) (wram_cell a w) v |>)) = wram_cell b after).
    { subst after. unfold write_svbk. destruct w as [m r l]. cbn. by destruct (is_cgb_family m). }
    unfold wram_read. rewrite !wram_index_cell by done. rewrite Hcell. cbn [mbind outcome_bind mret].
    subst after. rewrite !write_svbk_bytes. destruct w as [m r l], Hw as (_ & Hlen & _). cbn [wram_bytes update upd_wram_bytes].
    apply vec_index_set; cbn in Hlen; rewrite Hlen; by apply wram_cell_range.
  - by apply cell_same_bank.
  - intros i Hi. subst after. unfold wram_cell.
    replace ((0xC000 + i - 0xC000) mod 0x2000) with i by (rewrite Z.mod_small; lia).
    replace ((0xD000 + i - 0xC000) mod 0x2000) with (0x1000 + i) by (rewrite Z.mod_small; lia).
    rewrite (proj2 (Z.ltb_lt i 0x1000)), (proj2 (Z.ltb_ge (0x1000 + i) 0x1000)) by lia. split; [done|].
    unfold switchable_bank_index, selected_wram_bank, write_svbk. destruct w as [m r l]. cbn.
    destruct (is_cgb_family m) eqn:Hm; cbn; rewrite Hm, ?land_07, ?Z.mod_mod; lia.
  - intros Hm. subst after. unfold read_svbk, write_svbk. rewrite Hm. destruct w as [m r l]. cbn.
    rewrite !land_07, Z.mod_mod by lia. pose proof (Z.mod_pos_bound s 8 ltac:(lia)).
    change (Z.lor 0xF8 (s mod 8)) with (Z.lor (Z.shiftl 31 3) (s mod 8)). rewrite Z.lor_comm, lor_shiftl_add by lia. lia.
Qed.

Lemma work_ram_is_banked_memory_witness :
  wram_ok (wram_new_for_model GameBoyColor) /\
  exists w', wram_write 0xD123 0x5A (wram_new_for_model GameBoyColor) = Done w' /\
    wram_read 0xF123 (write_svbk 1 w') = Done 0x5A.
Proof.
  assert (Hok : wram_ok (wram_new_for_model GameBoyColor)).
  { split; [cbn; lia|]. split; [by apply vec_len_zeroed | apply bytes_zeroed]. }
  split; [exact Hok|].
  destruct (work_ram_is_banked_memory (wram_new_for_model GameBoyColor) 0xD123 0x5A 0xF123 1 Hok) as [(w' & Hw & _ & Hr) _];
    [unfold wram_area; lia .. | unfold u8; lia | unfold u8; lia |].
  exists w'. split; [exact Hw|]. rewrite Hr. reflexivity.
Defined.
