(* ===== verification/BusIo.v ===== *)
(** * I/O registers and high RAM ([crates/gb-core/src/bus/iohram.rs], [bus/infrared.rs])

    High RAM, the registers the bus itself owns (KEY0, the infrared port, the
    undocumented colour registers) and the dispatch of every I/O address to its
    owner.  The picture unit is reached through the interface [PpuPort], which
    says what the bus needs of it. *)

From Stdlib Require Import ZArith Lia Bool String.
From stdpp Require Import base decidable list option.
From S2P Require Import Prelude.
From S2P Require Import Model.
From S2P Require Import Interrupts.
From S2P Require Import Joypad.
From S2P Require Import Speed.
From S2P Require Import Timer.
From S2P Require Import Serial.
From S2P Require Import CartridgeHeader.
From S2P Require Import Cartridge.
From S2P Require Import Apu.
From S2P Require Import BusState.
From S2P Require Import BusRouter.
From S2P Require Import Vectors.
From S2P Require Import BusMemory.
From S2P Require Import Dma.
From S2P Require Import Boot.

Local Open Scope Z_scope.

(** ** The picture unit, as the bus sees it *)

Inductive PpuRegisterReadSource := ReadImmediate | ReadCpuBusOperation.
Inductive OamCorruptionEventKind :=
| CorruptionRead | CorruptionWrite | CorruptionReadWithIncDec | CorruptionWriteWithIncDec.

Class PpuPort (P : Type) := {
  ppu_read_register_with_source : Z -> PpuRegisterReadSource -> P -> outcome Z;
  ppu_write_register : Z -> Z -> P -> outcome P;
  ppu_apply_oam_corruption_event : OamCorruptionEventKind -> list Z -> P -> outcome (list Z * P)
}.

(** What the bus relies on: registers answer bytes, writes are total, and the
    corruption of object memory keeps its size. *)
Class PpuPortLaws (P : Type) `{PpuPort P} := {
  port_ok : P -> Prop;
  port_read_ok : forall a source p, port_ok p -> finishes (ppu_read_register_with_source a source p) u8;
  port_write_ok : forall a v p, port_ok p -> u8 v -> finishes (ppu_write_register a v p) port_ok;
  port_corruption_ok : forall kind l p, port_ok p -> bytes l -> vec_len l = OAM_LEN ->
    finishes (ppu_apply_oam_corruption_event kind l p)
      (fun r => vec_len r.1 = OAM_LEN /\ bytes r.1 /\ port_ok r.2)
}.

Definition ppu_read_register {P} `{PpuPort P} (a : Z) (p : P) : outcome Z :=
  ppu_read_register_with_source a ReadImmediate p.

(** ** The infrared port *)

Record CgbInfraredState := mkInfrared {
  rp_latch : Z;
  external_optical_input : bool;
  sensor_counter : Z;
  effective_signal_detected : bool
}.

#[export] Instance upd_rp_latch : Update rp_latch := fun v s => let '(mkInfrared _ e c d) := s in mkInfrared v e c d.
#[export] Instance upd_external_optical_input : Update external_optical_input := fun v s =>
  let '(mkInfrared l _ c d) := s in mkInfrared l v c d.
#[export] Instance upd_sensor_counter : Update sensor_counter := fun v s =>
  let '(mkInfrared l e _ d) := s in mkInfrared l e v d.
#[export] Instance upd_effective_signal_detected : Update effective_signal_detected := fun v s =>
  let '(mkInfrared l e c _) := s in mkInfrared l e c v.

Record CgbInfraredStatus := mkInfraredStatus {
  status_rp_latch : Z; status_emitter_on : bool; status_read_enabled : bool; status_external_optical_input : bool;
  status_optical_input_active : bool; status_sensor_counter : Z; status_sensor_warmed : bool;
  status_effective_signal_detected : bool; status_signal_visible_to_rp : bool
}.

Definition receive_ready (s : CgbInfraredStatus) : bool :=
  status_read_enabled s && status_sensor_warmed s && negb (status_emitter_on s) &&
  negb (status_optical_input_active s) && negb (status_effective_signal_detected s).

Definition RP_EMITTER_BIT : Z := 0x01.
Definition RP_SIGNAL_BIT : Z := 0x02.
Definition RP_WRITABLE_MASK : Z := 0xC1.
Definition RP_READ_ENABLE_MASK : Z := 0xC0.
Definition RP_UNUSED_READ_MASK : Z := 0x3C.
Definition IR_WARMUP_T_CYCLES : Z := 19900.
Definition IR_THRESHOLD_T_CYCLES : Z := 0.
Definition IR_DECAY_T_CYCLES : Z := 31500.
Definition IR_MAX_T_CYCLES : Z := IR_WARMUP_T_CYCLES + IR_THRESHOLD_T_CYCLES * 2 + IR_DECAY_T_CYCLES + 268.

Definition infrared_new : CgbInfraredState := mkInfrared 0 false 0 false.

Definition emitter_on (s : CgbInfraredState) : bool := has_bits (rp_latch s) RP_EMITTER_BIT.
Definition read_enabled (s : CgbInfraredState) : bool :=
  Z.land (rp_latch s) RP_READ_ENABLE_MASK =? RP_READ_ENABLE_MASK.
Definition signal_visible_to_rp (s : CgbInfraredState) : bool := read_enabled s && effective_signal_detected s.
Definition optical_input_active (s : CgbInfraredState) : bool := external_optical_input s || emitter_on s.

Definition infrared_read_rp (s : CgbInfraredState) : Z :=
  let signal_bit := if signal_visible_to_rp s then 0 else RP_SIGNAL_BIT in
  Z.lor (Z.lor RP_UNUSED_READ_MASK signal_bit) (rp_latch s).
Definition infrared_write_rp (value : Z) (s : CgbInfraredState) : CgbInfraredState :=
  s <| rp_latch := Z.land value RP_WRITABLE_MASK |>.
Definition set_external_optical_input (active : bool) (s : CgbInfraredState) : CgbInfraredState :=
  s <| external_optical_input := active |>.

Definition infrared_status (s : CgbInfraredState) : CgbInfraredStatus :=
  mkInfraredStatus (rp_latch s) (emitter_on s) (read_enabled s) (external_optical_input s) (optical_input_active s)
    (sensor_counter s) (IR_WARMUP_T_CYCLES <=? sensor_counter s) (effective_signal_detected s) (signal_visible_to_rp s).

Definition saturating_add32 (a b : Z) : Z := Z.min 4294967295 (a + b).
Definition saturating_sub_nat (a b : Z) : Z := Z.max 0 (a - b).

Definition infrared_tick_t_cycle (s : CgbInfraredState) : CgbInfraredState :=
  let sensing := read_enabled s in
  if sensing && optical_input_active s then
    let counter := Z.min (saturating_add32 (sensor_counter s) 1) IR_MAX_T_CYCLES in
    s <| sensor_counter := counter |>
      <| effective_signal_detected :=
           (IR_WARMUP_T_CYCLES + IR_THRESHOLD_T_CYCLES <=? counter) &&
           (counter <=? IR_WARMUP_T_CYCLES + IR_THRESHOLD_T_CYCLES + IR_DECAY_T_CYCLES) |>
  else
    let target := if sensing then IR_WARMUP_T_CYCLES else 0 in
    s <| sensor_counter :=
           match sensor_counter s ?= target with
           | Lt => Z.min (saturating_add32 (sensor_counter s) 1) target
           | Eq => target
           | Gt => Z.max (saturating_sub_nat (sensor_counter s) 1) target
           end |>
      <| effective_signal_detected := false |>.

(** ** KEY0 *)

Record CgbKey0State := mkKey0 { key0_value : Z; key0_locked : bool }.

Definition DMG_COMPATIBILITY_MODE_BIT : Z := 0x04.
Definition DMG_EXT_MODE_BIT : Z := 0x08.

Definition key0_new : CgbKey0State := mkKey0 0 true.

Definition key0_direct_boot (m : ConsoleModel) (o : OperatingMode) (flag : CgbFlag) : CgbKey0State :=
  if negb (is_cgb_family m) then key0_new
  else
    let value :=
      match o with
      | ModeGbCompatible =>
          match flag with
          | CgbSupportedNonCanonical value =>
              if has_bits value DMG_COMPATIBILITY_MODE_BIT then value else DMG_COMPATIBILITY_MODE_BIT
          | _ => DMG_COMPATIBILITY_MODE_BIT
          end
      | ModeCgbDmgExt =>
          match flag with
          | CgbSupportedNonCanonical value => value
          | _ => Z.lor 0x80 DMG_EXT_MODE_BIT
          end
      | _ =>
          match flag with
          | CgbSupported => 0x80
          | CgbOnly => 0xC0
          | CgbSupportedNonCanonical value => value
          | CgbNone | CgbUnknown _ => DMG_COMPATIBILITY_MODE_BIT
          end
      end in
    mkKey0 value true.

Definition key0_real_boot_entry (m : ConsoleModel) (o : OperatingMode) : CgbKey0State :=
  if negb (is_cgb_family m) then key0_new
  else mkKey0 match o with
              | ModeGbCompatible => DMG_COMPATIBILITY_MODE_BIT
              | ModeCgbDmgExt => DMG_EXT_MODE_BIT
              | _ => 0
              end false.

Definition key0_read_runtime (k : CgbKey0State) : Z := BLOCKED_READ_VALUE.
Definition key0_write_runtime (value : Z) (k : CgbKey0State) : CgbKey0State :=
  if negb (key0_locked k) then mkKey0 value (key0_locked k) else k.

Definition boot_selected_operating_mode (m : ConsoleModel) (heuristic : HeuristicPolicy) (k : CgbKey0State)
    : OperatingMode :=
  if negb (is_cgb_family m) then ModeDmg
  else if match heuristic with AllowExperimental => true | _ => false end && has_bits (key0_value k) DMG_EXT_MODE_BIT
  then ModeCgbDmgExt
  else if has_bits (key0_value k) DMG_COMPATIBILITY_MODE_BIT then ModeGbCompatible
  else ModeCgb.

Definition lock_real_boot_handoff (m : ConsoleModel) (heuristic : HeuristicPolicy) (k : CgbKey0State)
    : CgbKey0State * OperatingMode :=
  if negb (is_cgb_family m) then (mkKey0 0 true, ModeDmg)
  else let k := mkKey0 (key0_value k) true in (k, boot_selected_operating_mode m heuristic k).

(** ** Undocumented colour registers *)

Record CgbMiscIoState := mkMisc { ff72 : Z; ff73 : Z; ff74 : Z; ff75_bits_4_6 : Z }.

Definition FF75_FORCED_BITS : Z := 0x8F.
Definition FF75_WRITABLE_MASK : Z := 0x70.
Definition misc_new : CgbMiscIoState := mkMisc 0 0 0 0.
Definition misc_read (a : Z) (s : CgbMiscIoState) : Z :=
  if a =? 0xFF72 then ff72 s else if a =? 0xFF73 then ff73 s else if a =? 0xFF74 then ff74 s
  else if a =? 0xFF75 then Z.lor FF75_FORCED_BITS (ff75_bits_4_6 s) else BLOCKED_READ_VALUE.
Definition misc_write (a value : Z) (s : CgbMiscIoState) : CgbMiscIoState :=
  if a =? 0xFF72 then mkMisc value (ff73 s) (ff74 s) (ff75_bits_4_6 s)
  else if a =? 0xFF73 then mkMisc (ff72 s) value (ff74 s) (ff75_bits_4_6 s)
  else if a =? 0xFF74 then mkMisc (ff72 s) (ff73 s) value (ff75_bits_4_6 s)
  else if a =? 0xFF75 then mkMisc (ff72 s) (ff73 s) (ff74 s) (Z.land value FF75_WRITABLE_MASK)
  else s.

(** ** Which registers a console has *)

Definition cgb_io_register_is_available (k : IoRegisterKind) (m : ConsoleModel) (o : OperatingMode) : bool :=
  if negb (is_cgb_family m) then false
  else if bool_decide (k = IoRp) && negb (has_cgb_infrared_port m) then false
  else if enables_cgb_extensions o then true
  else match o with
  | ModeCgbDmgExt =>
      match k with
      | IoKey1 | IoVbk | IoRp | IoBcps | IoOcps | IoOpri | IoSvbk | IoCgbUndocumented72 | IoCgbUndocumented73
      | IoCgbUndocumented74 | IoCgbUndocumented75 | IoPcm12 | IoPcm34 => true
      | _ => false
      end
  | _ =>
      match k with
      | IoVbk | IoBcps | IoOcps | IoCgbUndocumented72 | IoCgbUndocumented73 | IoCgbUndocumented75 | IoPcm12
      | IoPcm34 => true
      | _ => false
      end
  end.

Definition io_register_kind_is_available (k : IoRegisterKind) (availability : IoRegisterAvailability)
    (m : ConsoleModel) (o : OperatingMode) : bool :=
  match availability with
  | IoShared | IoDmgCompatible => true
  | IoCgbOnly => cgb_io_register_is_available k m o
  end.

(** ** The domain *)

Definition HRAM_LEN : Z := 0x007F.

Record IoHramDomain := mkIoHram {
  hram : list Z;
  key0 : CgbKey0State;
  cgb_misc : CgbMiscIoState;
  infrared : CgbInfraredState
}.

#[export] Instance upd_hram : Update hram := fun v d => let '(mkIoHram _ k m i) := d in mkIoHram v k m i.
#[export] Instance upd_key0 : Update key0 := fun v d => let '(mkIoHram h _ m i) := d in mkIoHram h v m i.
#[export] Instance upd_cgb_misc : Update cgb_misc := fun v d => let '(mkIoHram h k _ i) := d in mkIoHram h k v i.
#[export] Instance upd_infrared : Update infrared := fun v d => let '(mkIoHram h k m _) := d in mkIoHram h k m v.

Definition iohram_new : IoHramDomain := mkIoHram (vec_zeroed HRAM_LEN) key0_new misc_new infrared_new.
Definition iohram_apply_startup_memory_policy (p : StartupMemoryPolicy) (d : IoHramDomain) : IoHramDomain :=
  d <| hram := initialize_hram p (hram d) |>.
Definition reset_cgb_misc_io (d : IoHramDomain) : IoHramDomain := d <| cgb_misc := misc_new |>.
Definition apply_direct_boot_key0 (m : ConsoleModel) (o : OperatingMode) (flag : CgbFlag) (d : IoHramDomain)
    : IoHramDomain := d <| key0 := key0_direct_boot m o flag |>.
Definition reset_real_boot_key0 (m : ConsoleModel) (o : OperatingMode) (d : IoHramDomain) : IoHramDomain :=
  d <| key0 := key0_real_boot_entry m o |>.
Definition read_key0 (d : IoHramDomain) : Z := key0_read_runtime (key0 d).
Definition write_key0 (value : Z) (d : IoHramDomain) : IoHramDomain := d <| key0 := key0_write_runtime value (key0 d) |>.
Definition iohram_lock_key0_at_handoff (m : ConsoleModel) (heuristic : HeuristicPolicy) (d : IoHramDomain)
    : IoHramDomain * OperatingMode :=
  let '(k, o) := lock_real_boot_handoff m heuristic (key0 d) in (d <| key0 := k |>, o).
Definition read_cgb_misc_io (a : Z) (d : IoHramDomain) : Z := misc_read a (cgb_misc d).
Definition write_cgb_misc_io (a value : Z) (d : IoHramDomain) : IoHramDomain :=
  d <| cgb_misc := misc_write a value (cgb_misc d) |>.
Definition read_rp (d : IoHramDomain) : Z := infrared_read_rp (infrared d).
Definition write_rp (value : Z) (d : IoHramDomain) : IoHramDomain :=
  d <| infrared := infrared_write_rp value (infrared d) |>.
Definition iohram_tick_infrared (d : IoHramDomain) : IoHramDomain :=
  d <| infrared := infrared_tick_t_cycle (infrared d) |>.
Definition iohram_set_infrared_input (active : bool) (d : IoHramDomain) : IoHramDomain :=
  d <| infrared := set_external_optical_input active (infrared d) |>.

(** ** The owners a read or a write can reach *)

Record BusIoReadView (P : Type) := mkReadView {
  read_apu : option Apu;
  read_timer : option Timer;
  read_serial : option Serial;
  read_dma : option DmaController;
  read_boot : option BootController;
  read_interrupts : option InterruptController;
  interrupt_flag_pending_mask : Z;
  read_joypad : option Joypad;
  read_ppu : option P;
  read_speed : option SpeedController;
  ppu_cpu_visible_read : bool
}.
Arguments mkReadView {P} _ _ _ _ _ _ _ _ _ _ _.
Arguments read_apu {P} _.
Arguments read_timer {P} _.
Arguments read_serial {P} _.
Arguments read_dma {P} _.
Arguments read_boot {P} _.
Arguments read_interrupts {P} _.
Arguments interrupt_flag_pending_mask {P} _.
Arguments read_joypad {P} _.
Arguments read_ppu {P} _.
Arguments read_speed {P} _.
Arguments ppu_cpu_visible_read {P} _.

(** The mutable owners; a write returns the view it leaves behind. *)
Record BusIoWriteView (P : Type) := mkWriteView {
  write_apu : option Apu;
  write_timer : option Timer;
  write_serial : option Serial;
  write_dma : option DmaController;
  write_boot : option BootController;
  write_interrupts : option InterruptController;
  write_joypad : option Joypad;
  write_ppu : option P;
  write_speed : option SpeedController;
  boot_ff50_newly_unmapped : option bool
}.
Arguments mkWriteView {P} _ _ _ _ _ _ _ _ _ _.
Arguments write_apu {P} _.
Arguments write_timer {P} _.
Arguments write_serial {P} _.
Arguments write_dma {P} _.
Arguments write_boot {P} _.
Arguments write_interrupts {P} _.
Arguments write_joypad {P} _.
Arguments write_ppu {P} _.
Arguments write_speed {P} _.
Arguments boot_ff50_newly_unmapped {P} _.

Section View.
Context {P : Type}.
#[export] Instance upd_write_apu : Update (@write_apu P) := fun x v =>
  let '(mkWriteView _ t s d b i j p k f) := v in mkWriteView x t s d b i j p k f.
#[export] Instance upd_write_timer : Update (@write_timer P) := fun x v =>
  let '(mkWriteView a _ s d b i j p k f) := v in mkWriteView a x s d b i j p k f.
#[export] Instance upd_write_serial : Update (@write_serial P) := fun x v =>
  let '(mkWriteView a t _ d b i j p k f) := v in mkWriteView a t x d b i j p k f.
#[export] Instance upd_write_dma : Update (@write_dma P) := fun x v =>
  let '(mkWriteView a t s _ b i j p k f) := v in mkWriteView a t s x b i j p k f.
#[export] Instance upd_write_boot : Update (@write_boot P) := fun x v =>
  let '(mkWriteView a t s d _ i j p k f) := v in mkWriteView a t s d x i j p k f.
#[export] Instance upd_write_interrupts : Update (@write_interrupts P) := fun x v =>
  let '(mkWriteView a t s d b _ j p k f) := v in mkWriteView a t s d b x j p k f.
#[export] Instance upd_write_joypad : Update (@write_joypad P) := fun x v =>
  let '(mkWriteView a t s d b i _ p k f) := v in mkWriteView a t s d b i x p k f.
#[export] Instance upd_write_ppu : Update (@write_ppu P) := fun x v =>
  let '(mkWriteView a t s d b i j _ k f) := v in mkWriteView a t s d b i j x k f.
#[export] Instance upd_write_speed : Update (@write_speed P) := fun x v =>
  let '(mkWriteView a t s d b i j p _ f) := v in mkWriteView a t s d b i j p x f.
#[export] Instance upd_boot_ff50_newly_unmapped : Update (@boot_ff50_newly_unmapped P) := fun x v =>
  let '(mkWriteView a t s d b i j p k _) := v in mkWriteView a t s d b i j p k x.
End View.

(** ** Dispatch *)

Section Dispatch.
Context {P : Type} `{PpuPort P}.

(** [io.owner.map_or(BLOCKED_READ_VALUE, read)]. *)
Definition owned {A : Type} (owner : option A) (read : A -> outcome Z) : outcome Z :=
  match owner with Some a => read a | None => mret BLOCKED_READ_VALUE end.
Definition pure_read {A : Type} (read : A -> Z) : A -> outcome Z := fun a => mret (read a).

(** [speed.map_or(Normal, SpeedController::current_speed)]. *)
Definition speed_or_normal (s : option SpeedController) : CgbSpeedMode := from_option current_speed Normal s.

Definition read_io_target (m : ConsoleModel) (o : OperatingMode) (a : Z) (io : BusIoReadView P) (d : IoHramDomain)
    : outcome Z :=
  match describe_io_register a with
  | None => mret BLOCKED_READ_VALUE
  | Some info =>
      if negb (io_register_kind_is_available (io_kind info) (io_availability info) m o) ||
         negb (bool_decide (io_implementation info = IoImplemented))
      then mret BLOCKED_READ_VALUE
      else match io_kind info with
      | IoJoyp => owned (read_joypad io) (pure_read read_p1)
      | IoSerialData => owned (read_serial io) (pure_read read_sb)
      | IoSerialControl => owned (read_serial io) (pure_read read_sc)
      | IoDiv => owned (read_timer io) (pure_read read_div)
      | IoTima => owned (read_timer io) (pure_read read_tima)
      | IoTma => owned (read_timer io) (pure_read read_tma)
      | IoTac => owned (read_timer io) (pure_read read_tac)
      | IoKey1 => owned (read_speed io) (pure_read read_key1)
      | IoInterruptFlag =>
          owned (read_interrupts io)
            (fun c => mret (read_if_with_pending_requests c (interrupt_flag_pending_mask io)))
      | IoStat | IoLy =>
          let source := if ppu_cpu_visible_read io then ReadCpuBusOperation else ReadImmediate in
          owned (read_ppu io) (ppu_read_register_with_source a source)
      | IoOamDma => owned (read_dma io) (pure_read read_ff46)
      | IoHdma1 | IoHdma2 | IoHdma3 | IoHdma4 => mret BLOCKED_READ_VALUE
      | IoHdma5 => owned (read_dma io) (pure_read read_hdma5)
      | IoRp => mret (read_rp d)
      | IoBootRomDisable => owned (read_boot io) (pure_read read_ff50)
      | IoPcm12 => owned (read_apu io) read_pcm12
      | IoPcm34 => owned (read_apu io) read_pcm34
      | IoInterruptEnable => owned (read_interrupts io) (pure_read read_ie)
      | _ =>
          match io_owner info with
          | IoOwnedByPpu => owned (read_ppu io) (ppu_read_register a)
          | IoOwnedByApu => owned (read_apu io) (apu_read_register a)
          | IoOwnedByMemoryController | IoOwnedByInfrared | IoOwnedByCgbSystem | IoOwnedByReserved =>
              mret BLOCKED_READ_VALUE
          | _ => Panic "MMIO descriptor kind/owner mismatch"
          end
      end
  end.

Definition iohram_read (m : ConsoleModel) (o : OperatingMode) (t : BusAddressInfo) (io : BusIoReadView P)
    (d : IoHramDomain) : outcome Z :=
  match region t with
  | RegionHram => vec_index (hram d) (region_offset t)
  | RegionMmio | RegionInterruptEnable => read_io_target m o (address t) io d
  | _ => Panic "non-IoHram target routed to IoHramDomain"
  end.

(** [if let Some(owner) = io.owner { owner.write(value) }]. *)
Definition into {A : Type} (owner : option A) (write : A -> outcome A) (put : option A -> BusIoWriteView P)
    (io : BusIoWriteView P) : outcome (BusIoWriteView P) :=
  match owner with Some a => a' ← write a; mret (put (Some a')) | None => mret io end.

Definition write_div_io (value : Z) (io : BusIoWriteView P) : outcome (BusIoWriteView P) :=
  match write_timer io with
  | None => mret io
  | Some timer =>
      let '(timer, apu_frame_sequencer_edge) :=
        write_div_with_effects_for_speed value (speed_or_normal (write_speed io)) timer in
      let io := io <| write_timer := Some timer |> in
      if apu_frame_sequencer_edge
      then into (write_apu io) on_div_apu_edge (fun x => io <| write_apu := x |>) io
      else mret io
  end.

Definition write_ff50_io (value : Z) (io : BusIoWriteView P) : outcome (BusIoWriteView P) :=
  match write_boot io with
  | None => mret io
  | Some boot =>
      let '(boot, newly_unmapped) := write_ff50 value boot in
      let io := io <| write_boot := Some boot |> in
      mret match boot_ff50_newly_unmapped io with
           | Some _ => io <| boot_ff50_newly_unmapped := Some newly_unmapped |>
           | None => io
           end
  end.

Definition write_apu_io (a value : Z) (io : BusIoWriteView P) : outcome (BusIoWriteView P) :=
  let speed_mode := speed_or_normal (write_speed io) in
  let div_apu_signal_high :=
    from_option (fun timer => current_div_apu_signal_for_speed timer speed_mode) false (write_timer io) in
  into (write_apu io) (write_register_for_speed_with_div_apu_signal a value speed_mode div_apu_signal_high)
    (fun x => io <| write_apu := x |>) io.

Definition write_io_target (m : ConsoleModel) (o : OperatingMode) (a value : Z) (io : BusIoWriteView P)
    (d : IoHramDomain) : outcome (IoHramDomain * BusIoWriteView P) :=
  match describe_io_register a with
  | None => mret (d, io)
  | Some info =>
      if negb (io_register_kind_is_available (io_kind info) (io_availability info) m o) ||
         negb (bool_decide (io_implementation info = IoImplemented))
      then mret (d, io)
      else
        let keep (r : outcome (BusIoWriteView P)) := io' ← r; mret (d, io') in
        let to_joypad f := keep (into (write_joypad io) (fun x => mret (f x)) (fun x => io <| write_joypad := x |>) io) in
        let to_serial f := keep (into (write_serial io) (fun x => mret (f x)) (fun x => io <| write_serial := x |>) io) in
        let to_timer f := keep (into (write_timer io) (fun x => mret (f x)) (fun x => io <| write_timer := x |>) io) in
        let to_speed f := keep (into (write_speed io) (fun x => mret (f x)) (fun x => io <| write_speed := x |>) io) in
        let to_interrupts f :=
          keep (into (write_interrupts io) (fun x => mret (f x)) (fun x => io <| write_interrupts := x |>) io) in
        let to_dma f := keep (into (write_dma io) (fun x => mret (f x)) (fun x => io <| write_dma := x |>) io) in
        match io_kind info with
        | IoJoyp => to_joypad (write_p1 value)
        | IoSerialData => to_serial (write_sb value)
        | IoSerialControl => to_serial (write_sc value)
        | IoDiv => keep (write_div_io value io)
        | IoTima => to_timer (write_tima value)
        | IoTma => to_timer (write_tma value)
        | IoTac => to_timer (write_tac value)
        | IoKey1 => to_speed (write_key1 value)
        | IoInterruptFlag => to_interrupts (write_if value)
        | IoOamDma => to_dma (write_ff46_for_speed value (speed_or_normal (write_speed io)))
        | IoHdma1 => to_dma (write_hdma1 value)
        | IoHdma2 => to_dma (write_hdma2 value)
        | IoHdma3 => to_dma (write_hdma3 value)
        | IoHdma4 => to_dma (write_hdma4 value)
        | IoHdma5 => to_dma (write_hdma5_for_speed value (speed_or_normal (write_speed io)))
        | IoRp => mret (write_rp value d, io)
        | IoBootRomDisable => keep (write_ff50_io value io)
        | IoInterruptEnable => to_interrupts (write_ie value)
        | IoPcm12 | IoPcm34 => mret (d, io)
        | _ =>
            match io_owner info with
            | IoOwnedByPpu =>
                keep (into (write_ppu io) (ppu_write_register a value) (fun x => io <| write_ppu := x |>) io)
            | IoOwnedByApu => keep (write_apu_io a value io)
            | IoOwnedByMemoryController | IoOwnedByInfrared | IoOwnedByCgbSystem | IoOwnedByReserved => mret (d, io)
            | _ => Panic "MMIO descriptor kind/owner mismatch"
            end
        end
  end.

Definition iohram_write (m : ConsoleModel) (o : OperatingMode) (t : BusAddressInfo) (value : Z)
    (io : BusIoWriteView P) (d : IoHramDomain) : outcome (IoHramDomain * BusIoWriteView P) :=
  match region t with
  | RegionHram => h ← store (hram d) (region_offset t) value; mret (d <| hram := h |>, io)
  | RegionMmio | RegionInterruptEnable => write_io_target m o (address t) value io d
  | _ => Panic "non-IoHram target routed to IoHramDomain"
  end.
End Dispatch.

(** ** Typing of the owners' registers *)

Lemma read_p1_u8 j : joypad_ok j -> u8 (read_p1 j).
Proof.
  intros (Hs & _ & _). unfold read_p1, visible_low_nibble, visible_low_nibble_of. rewrite <- Hs. unfold SELECT_MASK.
  case_tests; repeat first [apply u8_lor | apply u8_land_r; auto with gb; fail | apply u8_land]; auto with gb.
Qed.

Lemma read_sc_u8 s : u8 (read_sc s).
Proof.
  unfold read_sc, read_sc_high_speed_bit, u8_from_bool. repeat (apply u8_lor || case_match); vm_compute; intuition congruence.
Qed.

Lemma read_key1_u8 s : u8 (read_key1 s).
Proof.
  unfold read_key1, u8_from_bool, key1_bit. repeat (apply u8_lor || case_match); vm_compute; intuition congruence.
Qed.

Lemma read_if_u8 c n : interrupts_ok c -> u8 (read_if_with_pending_requests c n).
Proof.
  intros [Hf _]. unfold read_if_with_pending_requests, INTERRUPT_FLAG_FORCED_HIGH_BITS, INTERRUPT_REQUEST_MASK.
  apply u8_lor; [auto with gb|]. apply u8_lor; [unfold u8; lia|]. apply u8_land_r. auto with gb.
Qed.

Lemma read_tac_u8 t : timer_ok t -> u8 (read_tac t).
Proof. intros (_ & _ & _ & Ht & _). apply u8_lor; [auto with gb | unfold u8; lia]. Qed.

Lemma read_hdma5_u8 d : dma_ok d -> u8 (read_hdma5 d).
Proof.
  intros Hd. apply dma_vram_ok in Hd. unfold read_hdma5, state_read_hdma5, remaining_blocks_minus_one,
    HDMA5_INACTIVE_READ_BIT, HDMA5_TRANSFER_LENGTH_MASK, HDMA5_COMPLETED_READ.
  destruct (vram_dma_state d); auto with gb.
Qed.

Lemma read_rp_u8 s : u8 (rp_latch s) -> u8 (infrared_read_rp s).
Proof.
  intros Hl. unfold infrared_read_rp, RP_UNUSED_READ_MASK, RP_SIGNAL_BIT. destruct (signal_visible_to_rp s); auto with gb.
Qed.

Lemma serial_write_ok s b : u8 b -> serial_ok s -> serial_ok (write_sb b s) /\ serial_ok (write_sc b s).
Proof.
  intros Hb Hs. split.
  - by apply (serial_ok_step (OpWriteSb b) s).
  - by apply (serial_ok_step (OpWriteSc b) s).
Qed.

(** ** Invariants *)

Definition key0_ok (k : CgbKey0State) : Prop := u8 (key0_value k).
Definition misc_ok (s : CgbMiscIoState) : Prop := u8 (ff72 s) /\ u8 (ff73 s) /\ u8 (ff74 s) /\ u8 (ff75_bits_4_6 s).
Definition infrared_ok (s : CgbInfraredState) : Prop :=
  u8 (rp_latch s) /\ Z.land (rp_latch s) RP_WRITABLE_MASK = rp_latch s /\ 0 <= sensor_counter s <= IR_MAX_T_CYCLES.
Record iohram_ok (d : IoHramDomain) : Prop := {
  hram_ok : vec_len (hram d) = HRAM_LEN /\ bytes (hram d);
  iohram_key0_ok : key0_ok (key0 d);
  iohram_misc_ok : misc_ok (cgb_misc d);
  iohram_infrared_ok : infrared_ok (infrared d)
}.

Definition boot_ok (b : BootController) : Prop :=
  forall k image, bytes_for k (boot_rom_assets b) = Some image -> bytes image.

Definition opt {A : Type} (Q : A -> Prop) (x : option A) : Prop := match x with Some a => Q a | None => True end.

Section Owners.
Context {P : Type} `{PpuPortLaws P}.

Record read_view_ok (io : BusIoReadView P) : Prop := {
  rv_apu : opt apu_ok (read_apu io);
  rv_timer : opt timer_ok (read_timer io);
  rv_serial : opt serial_ok (read_serial io);
  rv_dma : opt dma_ok (read_dma io);
  rv_boot : opt boot_ok (read_boot io);
  rv_interrupts : opt interrupts_ok (read_interrupts io);
  rv_joypad : opt joypad_ok (read_joypad io);
  rv_ppu : opt port_ok (read_ppu io)
}.

Record write_view_ok (io : BusIoWriteView P) : Prop := {
  wv_apu : opt apu_ok (write_apu io);
  wv_timer : opt timer_ok (write_timer io);
  wv_serial : opt serial_ok (write_serial io);
  wv_dma : opt dma_ok (write_dma io);
  wv_boot : opt boot_ok (write_boot io);
  wv_interrupts : opt interrupts_ok (write_interrupts io);
  wv_joypad : opt joypad_ok (write_joypad io);
  wv_ppu : opt port_ok (write_ppu io)
}.

Lemma owned_ok {A} (owner : option A) read (Q : A -> Prop) :
  opt Q owner -> (forall a, Q a -> finishes (read a) u8) -> finishes (owned owner read) u8.
Proof.
  destruct owner; cbn; [auto | intros _ _]. cbn. unfold BLOCKED_READ_VALUE, u8. lia.
Qed.
Lemma owned_pure_ok {A} (owner : option A) (read : A -> Z) (Q : A -> Prop) :
  opt Q owner -> (forall a, Q a -> u8 (read a)) -> finishes (owned owner (pure_read read)) u8.
Proof. intros Ho Hr. by eapply owned_ok. Qed.

(** The fall-through of the dispatch is only reached by registers whose owner
    it knows: the [unreachable!] of both directions is unreachable. *)
Definition dispatched_by_kind (k : IoRegisterKind) : bool :=
  match k with
  | IoJoyp | IoSerialData | IoSerialControl | IoDiv | IoTima | IoTma | IoTac | IoKey1 | IoInterruptFlag | IoOamDma
  | IoHdma1 | IoHdma2 | IoHdma3 | IoHdma4 | IoHdma5 | IoRp | IoBootRomDisable | IoPcm12 | IoPcm34
  | IoInterruptEnable => true
  | _ => false
  end.
Definition fall_through_owner (w : IoRegisterOwner) : bool :=
  match w with
  | IoOwnedByPpu | IoOwnedByApu | IoOwnedByMemoryController | IoOwnedByInfrared | IoOwnedByCgbSystem
  | IoOwnedByReserved => true
  | _ => false
  end.

Lemma describe_io_register_dispatches a info : u16 a -> describe_io_register a = Some info ->
  dispatched_by_kind (io_kind info) = true \/ fall_through_owner (io_owner info) = true.
Proof.
  intros Ha Hinfo. apply orb_true_iff.
  destruct (Z.leb_spec 0xFF00 a) as [Hhi|Hlo].
  - pose proof (forall_io_registers (fun _ i => match i with
                                                | Some i => dispatched_by_kind (io_kind i) || fall_through_owner (io_owner i)
                                                | None => true
                                                end) ltac:(vm_compute; reflexivity) a ltac:(unfold u16 in Ha; lia)) as Hd.
    by rewrite Hinfo in Hd.
  - exfalso. revert Hinfo. unfold describe_io_register, in_range.
    repeat match goal with
    | |- context [?x =? ?n] => rewrite (proj2 (Z.eqb_neq x n)) by lia
    | |- context [?n <=? a] => rewrite (proj2 (Z.leb_gt n a)) by lia
    end. done.
Qed.

(** Wave RAM accesses reach the sound unit, with their own address. *)
Lemma wave_ram_reaches_apu m o a v (rio : BusIoReadView P) (wio : BusIoWriteView P) d : 0xFF30 <= a <= 0xFF3F ->
  read_io_target m o a rio d = owned (read_apu rio) (apu_read_register a) /\
  write_io_target m o a v wio d = (wio' ← write_apu_io a v wio; mret (d, wio')).
Proof.
  intros Ha. unfold read_io_target, write_io_target. rewrite wave_ram_described by done. by destruct m, o.
Qed.

Lemma read_io_target_ok m o a io d : u16 a -> read_view_ok io -> iohram_ok d ->
  finishes (read_io_target m o a io d) u8.
Proof.
  intros Ha Hio Hd. unfold read_io_target.
  assert (Hblocked : finishes (mret (M := outcome) BLOCKED_READ_VALUE) u8) by (cbn; unfold BLOCKED_READ_VALUE, u8; lia).
  destruct (describe_io_register a) as [info|] eqn:Hinfo; [|done]. destruct (_ || _); [done|].
  pose proof (describe_io_register_dispatches a info Ha Hinfo) as Hdis.
  assert (Hfall : dispatched_by_kind (io_kind info) = false ->
    finishes match io_owner info with
      | IoOwnedByPpu => owned (read_ppu io) (ppu_read_register a)
      | IoOwnedByApu => owned (read_apu io) (apu_read_register a)
      | IoOwnedByMemoryController | IoOwnedByInfrared | IoOwnedByCgbSystem | IoOwnedByReserved => mret BLOCKED_READ_VALUE
      | _ => Panic "MMIO descriptor kind/owner mismatch"
      end u8).
  { intros Hk. destruct Hdis as [Hdis|Hdis]; [congruence|]. destruct (io_owner info); try discriminate; try done.
    - eapply owned_ok; [apply (rv_apu _ Hio)|]. intros x Hx. by apply read_register_ok.
    - eapply owned_ok; [apply (rv_ppu _ Hio)|]. intros x Hx. by apply port_read_ok. }
  destruct (io_kind info) eqn:Hkind; try (by apply Hfall); try done.
  - eapply owned_pure_ok; [apply (rv_joypad _ Hio) | apply read_p1_u8].
  - eapply owned_pure_ok; [apply (rv_serial _ Hio)|]. by intros s [[? _] _].
  - eapply owned_pure_ok; [apply (rv_serial _ Hio)|]. intros; apply read_sc_u8.
  - eapply owned_pure_ok; [apply (rv_timer _ Hio)|]. intros; unfold read_div; auto with gb.
  - eapply owned_pure_ok; [apply (rv_timer _ Hio)|]. by intros t (_ & ? & _).
  - eapply owned_pure_ok; [apply (rv_timer _ Hio)|]. by intros t (_ & _ & ? & _).
  - eapply owned_pure_ok; [apply (rv_timer _ Hio) | apply read_tac_u8].
  - eapply owned_ok; [apply (rv_interrupts _ Hio)|]. intros; by apply read_if_u8.
  - eapply owned_ok; [apply (rv_ppu _ Hio)|]. intros; by apply port_read_ok.
  - eapply owned_ok; [apply (rv_ppu _ Hio)|]. intros; by apply port_read_ok.
  - eapply owned_pure_ok; [apply (rv_dma _ Hio)|]. intros x Hx. apply Hx.
  - eapply owned_pure_ok; [apply (rv_boot _ Hio)|]. intros; unfold read_ff50; auto with gb.
  - apply (owned_pure_ok (read_speed io) read_key1 (fun _ => True)); [by destruct (read_speed io)|].
    intros; apply read_key1_u8.
  - eapply owned_pure_ok; [apply (rv_dma _ Hio) | apply read_hdma5_u8].
  - cbn. apply read_rp_u8, Hd.
  - eapply owned_ok; [apply (rv_apu _ Hio)|]. intros x Hx. exact (proj1 (read_pcm_ok x Hx)).
  - eapply owned_ok; [apply (rv_apu _ Hio)|]. intros x Hx. exact (proj2 (read_pcm_ok x Hx)).
  - eapply owned_pure_ok; [apply (rv_interrupts _ Hio)|]. by intros c [_ ?].
Qed.

Lemma iohram_read_ok m o t io d :
  region t = RegionHram /\ 0 <= region_offset t < HRAM_LEN \/
  (region t = RegionMmio \/ region t = RegionInterruptEnable) /\ u16 (address t) ->
  read_view_ok io -> iohram_ok d -> finishes (iohram_read m o t io d) u8.
Proof.
  intros Ht Hio Hd. unfold iohram_read. destruct Ht as [[-> Hr]|[[-> | ->] Ha]]; [|by apply read_io_target_ok..].
  destruct (hram_ok _ Hd) as [Hl Hb]. apply vec_index_in; [done|]. by rewrite Hl.
Qed.

(** Which owners a view carries. *)
Definition owners (io : BusIoWriteView P) : list bool :=
  [bool_decide (is_Some (write_apu io)); bool_decide (is_Some (write_timer io)); bool_decide (is_Some (write_serial io));
   bool_decide (is_Some (write_dma io)); bool_decide (is_Some (write_boot io)); bool_decide (is_Some (write_interrupts io));
   bool_decide (is_Some (write_joypad io)); bool_decide (is_Some (write_ppu io)); bool_decide (is_Some (write_speed io));
   bool_decide (is_Some (boot_ff50_newly_unmapped io))].

(** What a write may do to the owners: keep them typed and all there. *)
Definition view_step (io io' : BusIoWriteView P) : Prop := write_view_ok io' /\ owners io' = owners io.

Lemma view_step_refl io : write_view_ok io -> view_step io io.
Proof. done. Qed.

Lemma into_ok {A} (owner : option A) f put (Q R : A -> Prop) io :
  write_view_ok io -> opt Q owner -> (forall a, Q a -> finishes (f a) R) ->
  (forall a a', owner = Some a -> R a' -> view_step io (put (Some a'))) -> finishes (into owner f put io) (view_step io).
Proof.
  intros Hio Hq Hf Hput. unfold into. destruct owner as [a|]; [|by apply view_step_refl]. apply finishes_bind.
  eapply finishes_mono; [by apply Hf|]. intros a' Ha'. cbn. by apply (Hput a).
Qed.

(** [put_tac]: putting one typed owner back where it was. *)
Ltac put_tac := let a := fresh in let a' := fresh in let E := fresh in let H := fresh in
  intros a a' E H; match goal with Hio : write_view_ok ?io |- _ => destruct io, Hio end; cbn in *; subst;
  (split; [constructor; done | done]).

Lemma write_div_io_ok v io : write_view_ok io -> finishes (write_div_io v io) (view_step io).
Proof.
  intros Hio. unfold write_div_io. destruct (write_timer io) as [t|] eqn:Ht; [|by apply view_step_refl].
  pose proof (wv_timer _ Hio) as Hok. rewrite Ht in Hok. cbn in Hok.
  pose proof (timer_ok_reset (speed_or_normal (write_speed io)) CpuDivWrite t Hok) as Hok'.
  unfold write_div_with_effects_for_speed. destruct (reset_divider_with_effects_for_speed _ _ t) as [t' edge]. cbn in Hok'.
  assert (Hstep : view_step io (io <| write_timer := Some t' |>)).
  { destruct io, Hio. cbn in *. subst. split; [by constructor | done]. }
  destruct edge; [|done]. destruct Hstep as [Hio1 Hown].
  eapply finishes_mono.
  - apply (into_ok _ _ _ apu_ok apu_ok _ Hio1).
    + apply (wv_apu _ Hio1).
    + apply advance_frame_sequencer_ok.
    + intros a a' Ea Ha'. destruct io, Hio. cbn in *. subst. split; [by constructor | done].
  - intros io' [Hio' Hown']. split; [done | congruence].
Qed.

Lemma write_ff50_io_ok v io : write_view_ok io -> finishes (write_ff50_io v io) (view_step io).
Proof.
  intros Hio. unfold write_ff50_io. destruct (write_boot io) as [b|] eqn:Hb; [|by apply view_step_refl].
  pose proof (wv_boot _ Hio) as Hok. rewrite Hb in Hok. cbn in Hok.
  assert (Hok' : boot_ok (write_ff50 v b).1) by (unfold write_ff50; destruct (_ && _); [by destruct b | done]).
  destruct (write_ff50 v b) as [b' n]. cbn in Hok'. destruct io as [? ? ? ? ? ? ? ? ? f], Hio. cbn in *. subst.
  destruct f; cbn; (split; [by constructor | done]).
Qed.

Lemma write_apu_io_ok a v io : u8 v -> write_view_ok io -> finishes (write_apu_io a v io) (view_step io).
Proof.
  intros Hv Hio. unfold write_apu_io. apply (into_ok _ _ _ apu_ok apu_ok _ Hio); [apply (wv_apu _ Hio) | | put_tac].
  intros x Hx. by apply write_register_ok.
Qed.

Lemma write_rp_ok v d : iohram_ok d -> u8 v -> iohram_ok (write_rp v d).
Proof.
  intros [Hh Hk Hm (Hl & _ & Hc)] Hv. destruct d as [h k mi [l e c s]]. split; try done.
  unfold infrared_ok. cbn in *. unfold RP_WRITABLE_MASK. split_and!; [apply u8_land; done | | lia..].
  by rewrite <- Z.land_assoc.
Qed.

(** Every dma write keeps the controller typed. *)
Lemma dma_write_ok op f : valid_dma_op op -> (forall d, dma_step op d = mret (None, f d)) ->
  forall d, dma_ok d -> dma_ok (f d).
Proof. intros Hop Hf d Hd. pose proof (dma_step_ok op d Hop Hd) as H1. rewrite Hf in H1. apply H1. Qed.

Lemma write_io_target_ok m o a v io d : u16 a -> u8 v -> write_view_ok io -> iohram_ok d ->
  finishes (write_io_target m o a v io d) (fun r => iohram_ok r.1 /\ view_step io r.2).
Proof.
  intros Ha Hv Hio Hd. unfold write_io_target.
  destruct (describe_io_register a) as [info|] eqn:Hinfo; [|done]. destruct (_ || _); [done|].
  pose proof (describe_io_register_dispatches a info Ha Hinfo) as Hdis.
  assert (Hkeep : forall r, finishes r (view_step io) ->
            finishes (io' ← r; mret (d, io')) (fun r => iohram_ok r.1 /\ view_step io r.2)).
  { intros r Hr. apply finishes_bind. eapply finishes_mono; [exact Hr|]. by intros. }
  assert (Hpure : forall A (owner : option A) (f : A -> A) (Q : A -> Prop) put, opt Q owner -> (forall x, Q x -> Q (f x)) ->
            (forall x x', owner = Some x -> Q x' -> view_step io (put (Some x'))) ->
            finishes (io' ← into owner (fun x => mret (f x)) put io; mret (d, io'))
              (fun r => iohram_ok r.1 /\ view_step io r.2)).
  { intros A owner f Q put Hq Hf Hput. apply Hkeep, (into_ok _ _ _ Q Q); [done | done | | done].
    intros x Hx. by apply Hf. }
  assert (Hdma : forall op f, valid_dma_op op -> (forall d, dma_step op d = mret (None, f d)) ->
            finishes (io' ← into (write_dma io) (fun x => mret (f x)) (fun x => io <| write_dma := x |>) io; mret (d, io'))
              (fun r => iohram_ok r.1 /\ view_step io r.2)).
  { intros op f Hop Hf. apply (Hpure _ _ _ dma_ok); [apply (wv_dma _ Hio) | by apply (dma_write_ok op) | put_tac]. }
  assert (Hfall : dispatched_by_kind (io_kind info) = false ->
    finishes match io_owner info with
      | IoOwnedByPpu => io' ← into (write_ppu io) (ppu_write_register a v) (fun x => io <| write_ppu := x |>) io; mret (d, io')
      | IoOwnedByApu => io' ← write_apu_io a v io; mret (d, io')
      | IoOwnedByMemoryController | IoOwnedByInfrared | IoOwnedByCgbSystem | IoOwnedByReserved => mret (d, io)
      | _ => Panic "MMIO descriptor kind/owner mismatch"
      end (fun r => iohram_ok r.1 /\ view_step io r.2)).
  { intros Hk. destruct Hdis as [Hdis|Hdis]; [congruence|]. destruct (io_owner info); try discriminate; try done.
    - apply Hkeep. by apply write_apu_io_ok.
    - apply Hkeep, (into_ok _ _ _ port_ok port_ok); [done | apply (wv_ppu _ Hio) | | put_tac]. intros. by apply port_write_ok. }
  destruct (io_kind info) eqn:Hkind; cbv zeta; try (by apply Hfall); try done.
  - apply (Hpure _ _ _ joypad_ok); [apply (wv_joypad _ Hio) | | put_tac]. intros x Hx.
    by apply (joypad_ok_step (OpWriteP1 v) x).
  - apply (Hpure _ _ _ serial_ok); [apply (wv_serial _ Hio) | | put_tac]. intros x Hx. by apply serial_write_ok.
  - apply (Hpure _ _ _ serial_ok); [apply (wv_serial _ Hio) | | put_tac]. intros x Hx. by apply serial_write_ok.
  - apply Hkeep. by apply write_div_io_ok.
  - apply (Hpure _ _ _ timer_ok); [apply (wv_timer _ Hio) | | put_tac]. intros. by apply timer_ok_write_tima.
  - apply (Hpure _ _ _ timer_ok); [apply (wv_timer _ Hio) | | put_tac]. intros. by apply timer_ok_write_tma.
  - apply (Hpure _ _ _ timer_ok); [apply (wv_timer _ Hio) | | put_tac]. intros. by apply timer_ok_write_tac.
  - apply (Hpure _ _ _ interrupts_ok); [apply (wv_interrupts _ Hio) | | put_tac]. intros [? ? ?] [? ?]. split; [|done].
    cbn. unfold INTERRUPT_REQUEST_MASK. rewrite land_1F. apply Z.mod_pos_bound. lia.
  - by apply (Hdma (WriteFf46 v (speed_or_normal (write_speed io)))).
  - apply Hkeep. by apply write_ff50_io_ok.
  - apply (Hpure _ _ _ (fun _ => True)); [by destruct (write_speed io) | done | put_tac].
  - by apply (Hdma (WriteHdma1 v)).
  - by apply (Hdma (WriteHdma2 v)).
  - by apply (Hdma (WriteHdma3 v)).
  - by apply (Hdma (WriteHdma4 v)).
  - by apply (Hdma (WriteHdma5 v (speed_or_normal (write_speed io)))).
  - split; [by apply write_rp_ok | by apply view_step_refl].
  - apply (Hpure _ _ _ interrupts_ok); [apply (wv_interrupts _ Hio) | | put_tac]. intros [? ? ?] [? ?]. by split.
Qed.

Lemma iohram_write_ok m o t v io d :
  region t = RegionHram /\ 0 <= region_offset t < HRAM_LEN \/
  (region t = RegionMmio \/ region t = RegionInterruptEnable) /\ u16 (address t) ->
  u8 v -> write_view_ok io -> iohram_ok d ->
  finishes (iohram_write m o t v io d) (fun r => iohram_ok r.1 /\ view_step io r.2).
Proof.
  intros Ht Hv Hio Hd. unfold iohram_write. destruct Ht as [[-> Hr]|[[-> | ->] Ha]]; [|by apply write_io_target_ok..].
  destruct Hd as [[Hl Hb] Hk Hm Hi]. apply finishes_bind.
  eapply finishes_mono; [apply (byte_store_ok (hram d)); [by rewrite Hl | done | done]|].
  intros h [Hl' Hb']. split; [|by apply view_step_refl]. destruct d. split; try done. split; [exact (eq_trans Hl' Hl) | done].
Qed.
End Owners.

(** ** The infrared sensor over time *)

(** [n] steps towards a target. *)
Definition approach (target c n : Z) : Z :=
  if c <? target then Z.min target (c + n) else Z.max target (c - n).

Lemma infrared_lit_tick s : infrared_ok s -> read_enabled s = true -> optical_input_active s = true ->
  infrared_tick_t_cycle s =
    mkInfrared (rp_latch s) (external_optical_input s) (Z.min (sensor_counter s + 1) IR_MAX_T_CYCLES)
      ((IR_WARMUP_T_CYCLES <=? Z.min (sensor_counter s + 1) IR_MAX_T_CYCLES) &&
       (Z.min (sensor_counter s + 1) IR_MAX_T_CYCLES <=? IR_WARMUP_T_CYCLES + IR_DECAY_T_CYCLES)).
Proof.
  intros (_ & _ & Hc) He Hi. unfold infrared_tick_t_cycle, saturating_add32. rewrite He, Hi.
  destruct s as [l e c d]. cbn in *. rewrite (Z.min_r 4294967295) by (unfold IR_MAX_T_CYCLES, IR_WARMUP_T_CYCLES,
    IR_THRESHOLD_T_CYCLES, IR_DECAY_T_CYCLES in Hc; lia). done.
Qed.

Lemma infrared_dark_tick s : infrared_ok s -> read_enabled s && optical_input_active s = false ->
  infrared_tick_t_cycle s =
    mkInfrared (rp_latch s) (external_optical_input s)
      (approach (if read_enabled s then IR_WARMUP_T_CYCLES else 0) (sensor_counter s) 1) false.
Proof.
  intros (_ & _ & Hc) Hi. unfold infrared_tick_t_cycle, approach, saturating_add32, saturating_sub_nat. rewrite Hi.
  set (target := if read_enabled s then IR_WARMUP_T_CYCLES else 0).
  assert (Ht : 0 <= target <= 19900) by (subst target; destruct (read_enabled s); unfold IR_WARMUP_T_CYCLES; lia).
  destruct s as [l e c d]. cbn in *. f_equal.
  destruct (Z.compare_spec c target), (Z.ltb_spec c target); try lia.
Qed.

(** The sensor stays typed, and its controls stay put. *)
Lemma infrared_tick_ok s : infrared_ok s ->
  infrared_ok (infrared_tick_t_cycle s) /\ read_enabled (infrared_tick_t_cycle s) = read_enabled s /\
  optical_input_active (infrared_tick_t_cycle s) = optical_input_active s.
Proof.
  intros Hs. pose proof Hs as (Hl & Hm & Hc). unfold IR_MAX_T_CYCLES, IR_WARMUP_T_CYCLES, IR_THRESHOLD_T_CYCLES,
    IR_DECAY_T_CYCLES in Hc.
  destruct (read_enabled s && optical_input_active s) eqn:Hi.
  - apply andb_prop in Hi as [He Ho]. rewrite infrared_lit_tick by done. split; [|done]. split; [done|]. split; [done|].
    cbn. unfold IR_MAX_T_CYCLES, IR_WARMUP_T_CYCLES, IR_THRESHOLD_T_CYCLES, IR_DECAY_T_CYCLES. lia.
  - rewrite infrared_dark_tick by done. split; [|done]. split; [done|]. split; [done|]. cbn. unfold approach.
    unfold IR_MAX_T_CYCLES, IR_WARMUP_T_CYCLES, IR_THRESHOLD_T_CYCLES, IR_DECAY_T_CYCLES.
    destruct (read_enabled s); case_tests; prune; lia.
Qed.

Definition sensor_after (s : CgbInfraredState) (n : Z) : Z :=
  if read_enabled s && optical_input_active s then Z.min (sensor_counter s + n) IR_MAX_T_CYCLES
  else approach (if read_enabled s then IR_WARMUP_T_CYCLES else 0) (sensor_counter s) n.

(** The infrared sensor in closed form: over [n] T-cycles of unchanged RP
    and light the counter climbs to its maximum while a lit sensor is read,
    and otherwise falls or climbs to the warm-up point (to zero with reading
    off); RP then shows a signal exactly when the sensor is read and lit and
    has counted at least the warm-up time and at most the decay time more, so a
    steady light fades out. *)
Theorem infrared_sensor_closed_form s n : infrared_ok s ->
  let s' := iterate (S n) infrared_tick_t_cycle s in
  let c := sensor_after s (Z.of_nat (S n)) in
  sensor_counter s' = c /\ infrared_ok s' /\
  (Z.land (infrared_read_rp s') RP_SIGNAL_BIT = 0 <->
   read_enabled s = true /\ optical_input_active s = true /\
   IR_WARMUP_T_CYCLES <= c <= IR_WARMUP_T_CYCLES + IR_DECAY_T_CYCLES).
Proof.
  intros Hs.
  assert (Hrun : forall k, let s' := iterate (S k) infrared_tick_t_cycle s in
    s' = mkInfrared (rp_latch s) (external_optical_input s) (sensor_after s (Z.of_nat (S k)))
           (read_enabled s && optical_input_active s &&
            ((IR_WARMUP_T_CYCLES <=? sensor_after s (Z.of_nat (S k))) &&
             (sensor_after s (Z.of_nat (S k)) <=? IR_WARMUP_T_CYCLES + IR_DECAY_T_CYCLES))) /\
    infrared_ok s' /\ read_enabled s' = read_enabled s /\ optical_input_active s' = optical_input_active s).
  { induction k as [|k IH]; cbv zeta.
    - cbn [iterate]. split; [|by apply infrared_tick_ok].
      destruct (read_enabled s && optical_input_active s) eqn:Hi.
      + apply andb_prop in Hi as [He Ho]. rewrite infrared_lit_tick by done. unfold sensor_after. by rewrite He, Ho.
      + rewrite infrared_dark_tick by done. unfold sensor_after. by rewrite Hi.
    - rewrite iterate_S. destruct IH as (Heq & Hok & He & Ho). set (s1 := iterate (S k) _ s) in *.
      destruct (infrared_tick_ok s1 Hok) as (Hok' & He' & Ho').
      split; [|split_and!; [done | congruence | congruence]]. clear Hok' He' Ho'.
      assert (Hc1 : sensor_counter s1 = sensor_after s (Z.of_nat (S k))) by (by rewrite Heq).
      assert (Hl1 : rp_latch s1 = rp_latch s) by (by rewrite Heq).
      assert (Hx1 : external_optical_input s1 = external_optical_input s) by (by rewrite Heq).
      assert (Hnext : sensor_after s (Z.of_nat (S (S k))) =
                if read_enabled s && optical_input_active s then Z.min (sensor_counter s1 + 1) IR_MAX_T_CYCLES
                else approach (if read_enabled s then IR_WARMUP_T_CYCLES else 0) (sensor_counter s1) 1).
      { rewrite Hc1. unfold sensor_after, approach. destruct (read_enabled s && optical_input_active s); [lia|].
        set (target := if read_enabled s then _ else _). case_tests; prune; lia. }
      destruct (read_enabled s && optical_input_active s) eqn:Hi.
      + rewrite infrared_lit_tick by (done || (rewrite ?He, ?Ho; by apply andb_prop in Hi as [??])).
        by rewrite Hnext, Hl1, Hx1.
      + rewrite infrared_dark_tick by (done || by rewrite He, Ho). by rewrite Hnext, Hl1, Hx1, He. }
  intros s' c. destruct (Hrun n) as (Heq & Hok & He & Ho). fold s' in Heq, Hok, He, Ho. split; [by rewrite Heq|]. split; [done|].
  assert (Hbit : Z.land (infrared_read_rp s') RP_SIGNAL_BIT = if signal_visible_to_rp s' then 0 else 2).
  { pose proof Hok as (_ & Hm & _). unfold infrared_read_rp. rewrite <- Hm. rewrite !Z.land_lor_distr_l.
    rewrite <- Z.land_assoc. unfold RP_WRITABLE_MASK, RP_UNUSED_READ_MASK, RP_SIGNAL_BIT.
    change (Z.land 0xC1 0x02) with 0. rewrite Z.land_0_r. by destruct (signal_visible_to_rp s'). }
  rewrite Hbit. unfold signal_visible_to_rp. rewrite He. fold c in Heq.
  assert (Hd : effective_signal_detected s' = read_enabled s && optical_input_active s &&
            ((IR_WARMUP_T_CYCLES <=? c) && (c <=? IR_WARMUP_T_CYCLES + IR_DECAY_T_CYCLES))) by (by rewrite Heq).
  rewrite Hd. rewrite <- !Z.leb_le.
  destruct (read_enabled s), (optical_input_active s), (IR_WARMUP_T_CYCLES <=? c),
    (c <=? IR_WARMUP_T_CYCLES + IR_DECAY_T_CYCLES); cbn; intuition congruence.
Qed.

Lemma infrared_sensor_closed_form_witness :
  let s := mkInfrared 0xC0 true 19900 false in
  infrared_ok s /\ Z.land (infrared_read_rp (iterate 1 infrared_tick_t_cycle s)) RP_SIGNAL_BIT = 0 /\
  Z.land (infrared_read_rp (iterate (Z.to_nat 31501) infrared_tick_t_cycle s)) RP_SIGNAL_BIT <> 0.
Proof.
  intros s. assert (Hs : infrared_ok s) by (vm_compute; intuition congruence). split; [exact Hs|]. split.
  - destruct (infrared_sensor_closed_form s 0 Hs) as (_ & _ & Hv). apply Hv. vm_compute. intuition congruence.
  - change (Z.to_nat 31501) with (S (Z.to_nat 31500)).
    destruct (infrared_sensor_closed_form s (Z.to_nat 31500) Hs) as (_ & _ & Hv). rewrite Hv.
    intros (_ & _ & _ & Hc). apply Hc. vm_compute. reflexivity.
Defined.

(** ** KEY0 *)

(** KEY0 decides the operating mode once: of all bytes written before the
    hand-off the last one selects the mode, the extended mode only where
    experiments are allowed, and nothing written after the hand-off is kept;
    outside the colour family the mode is always the DMG's. *)
Theorem key0_decides_once m o heuristic before after k0 :
  k0 = key0_real_boot_entry m o ->
  let k := foldl (fun k v => key0_write_runtime v k) k0 before in
  let '(k1, mode) := lock_real_boot_handoff m heuristic k in
  foldl (fun k v => key0_write_runtime v k) k1 after = k1 /\ key0_locked k1 = true /\
  mode = if negb (is_cgb_family m) then ModeDmg
         else
           let selected := foldl (fun _ v => v) (key0_value k0) before in
           if match heuristic with AllowExperimental => true | HeuristicDisabled => false end && Z.testbit selected 3
           then ModeCgbDmgExt
           else if Z.testbit selected 2 then ModeGbCompatible else ModeCgb.
Proof.
  intros -> k. destruct (lock_real_boot_handoff m heuristic k) as [k1 mode] eqn:E.
  assert (Hlock : key0_locked k1 = true).
  { unfold lock_real_boot_handoff in E. destruct (negb _); by injection E as <- _. }
  split; [|split; [done|]].
  { clear E. induction after as [|v rest IH]; [done|]. cbn. unfold key0_write_runtime at 2. by rewrite Hlock. }
  unfold lock_real_boot_handoff in E. destruct (is_cgb_family m) eqn:Hm; cbn in E |- *; [|by injection E as _ <-].
  assert (Hval : key0_value k = foldl (fun _ v => v) (key0_value (key0_real_boot_entry m o)) before).
  { subst k. assert (Hopen : key0_locked (key0_real_boot_entry m o) = false)
      by (unfold key0_real_boot_entry; by rewrite Hm).
    clear E. revert Hopen. generalize (key0_real_boot_entry m o). induction before as [|v rest IH]; [done|].
    intros k Hopen. cbn [foldl]. unfold key0_write_runtime at 2. rewrite Hopen. cbn. by rewrite IH. }
  injection E as _ <-. unfold boot_selected_operating_mode. rewrite Hm. cbn [negb key0_value].
  rewrite Hval. unfold DMG_EXT_MODE_BIT, DMG_COMPATIBILITY_MODE_BIT.
  change 0x08 with (2 ^ 3). change 0x04 with (2 ^ 2). by rewrite !has_bits_pow2 by lia.
Qed.

Lemma key0_decides_once_witness :
  let '(k1, mode) := lock_real_boot_handoff GameBoyColor HeuristicDisabled
                       (foldl (fun k v => key0_write_runtime v k) (key0_real_boot_entry GameBoyColor ModeCgb) [0x80; 0x0C]) in
  key0_locked k1 = true /\ mode = ModeGbCompatible.
Proof.
  pose proof (key0_decides_once GameBoyColor ModeCgb HeuristicDisabled [0x80; 0x0C] [] _ eq_refl) as H.
  cbv zeta in H. destruct (lock_real_boot_handoff _ _ _) as [k1 mode]. destruct H as (_ & Hl & ->).
  split; [exact Hl | reflexivity].
Defined.
