(* ===== verification/Bus.v ===== *)
(** * The bus ([crates/gb-core/src/bus.rs], [bus/dispatch.rs], [bus/policy.rs], [bus/access.rs], [bus/corruption.rs])

    The bus as a whole: which access is granted, what an access reaches, the
    timed fast path, the redirection of CPU accesses that collide with object
    DMA, and the corruption of object memory. *)

From Stdlib Require Import ZArith Lia Bool String.
From stdpp Require Import base decidable list option.
From S2P Require Import Prelude.
From S2P Require Import Model.
From S2P Require Import CpuData.
From S2P Require Import CartridgeHeader.
From S2P Require Import Cartridge.
From S2P Require Import CartridgeDevice.
From S2P Require Import CartridgeSlot.
From S2P Require Import BusState.
From S2P Require Import BusRouter.
From S2P Require Import BusMemory.
From S2P Require Import BusIo.
From S2P Require Import Dma.
From S2P Require Import Boot.

Local Open Scope Z_scope.

(** ** State *)

(** [BusStatus] and [AddressRouter] carry no data. *)
Record Bus := mkBus {
  bus_console_model : ConsoleModel;
  bus_revision : HardwareRevision;
  bus_operating_mode : OperatingMode;
  bus_vram : VramDomain;
  bus_wram : WramDomain;
  bus_oam : OamDomain;
  bus_iohram : IoHramDomain
}.

#[export] Instance upd_bus_operating_mode : Update bus_operating_mode := fun x b =>
  let '(mkBus m r _ v w o i) := b in mkBus m r x v w o i.
#[export] Instance upd_bus_vram : Update bus_vram := fun x b => let '(mkBus m r p _ w o i) := b in mkBus m r p x w o i.
#[export] Instance upd_bus_wram : Update bus_wram := fun x b => let '(mkBus m r p v _ o i) := b in mkBus m r p v x o i.
#[export] Instance upd_bus_oam : Update bus_oam := fun x b => let '(mkBus m r p v w _ i) := b in mkBus m r p v w x i.
#[export] Instance upd_bus_iohram : Update bus_iohram := fun x b => let '(mkBus m r p v w o _) := b in mkBus m r p v w o x.

Definition bus_new_with_revision_and_operating_mode (m : ConsoleModel) (r : HardwareRevision) (o : OperatingMode) : Bus :=
  mkBus m r o (vram_new_for_model m) (wram_new_for_model m) oam_new iohram_new.
Definition bus_new_with_revision (m : ConsoleModel) (r : HardwareRevision) : Bus :=
  bus_new_with_revision_and_operating_mode m r (default_operating_mode m).
Definition bus_new_with_operating_mode (m : ConsoleModel) (o : OperatingMode) : Bus :=
  bus_new_with_revision_and_operating_mode m (default_revision m) o.
Definition bus_new (m : ConsoleModel) : Bus :=
  bus_new_with_revision_and_operating_mode m (default_revision m) (default_operating_mode m).

Definition bus_apply_operating_mode_state (o : OperatingMode) (b : Bus) : Bus := b <| bus_operating_mode := o |>.
Definition cgb_extensions_enabled (b : Bus) : bool :=
  is_cgb_family (bus_console_model b) && enables_cgb_extensions (bus_operating_mode b).
Definition cgb_infrared_register_enabled (b : Bus) : bool :=
  has_cgb_infrared_port (bus_console_model b) && enables_cgb_infrared_register (bus_operating_mode b).
Definition io_register_info_is_live (info : IoRegisterInfo) (b : Bus) : bool :=
  io_register_kind_is_available (io_kind info) (io_availability info) (bus_console_model b) (bus_operating_mode b).

Record BusSaveState := mkBusSave {
  save_model : ConsoleModel;
  save_revision : HardwareRevision;
  save_operating_mode : OperatingMode;
  save_vram : VramSaveState;
  save_wram : WramSaveState;
  save_oam : OamDomain;
  save_iohram : IoHramDomain
}.
Definition bus_payload_bytes (s : BusSaveState) : Z := vram_payload_bytes (save_vram s) + wram_payload_bytes (save_wram s).
Definition bus_capture_save_state (b : Bus) : BusSaveState :=
  mkBusSave (bus_console_model b) (bus_revision b) (bus_operating_mode b) (vram_capture_save_state (bus_vram b))
    (wram_capture_save_state (bus_wram b)) (bus_oam b) (bus_iohram b).
Definition bus_restore_save_state (s : BusSaveState) (b : Bus) : Bus :=
  mkBus (save_model s)
    (if supports_revision (save_model s) (save_revision s) then save_revision s else default_revision (save_model s))
    (save_operating_mode s) (vram_restore_save_state (save_vram s) (bus_vram b))
    (wram_restore_save_state (save_wram s) (bus_wram b)) (save_oam s) (save_iohram s).

Definition apply_cgb_startup_state (startup_mode : StartupMode) (header : option CartridgeHeader) (b : Bus) : Bus :=
  let b := b <| bus_vram := vram_reset_bank_select (bus_vram b) |> in
  let b := b <| bus_wram := wram_reset_bank_select (bus_wram b) |> in
  let b := b <| bus_iohram := reset_cgb_misc_io (bus_iohram b) |> in
  b <| bus_iohram :=
    if uses_direct_boot_state startup_mode
    then apply_direct_boot_key0 (bus_console_model b) (bus_operating_mode b) (from_option cgb_flag CgbSupported header)
           (bus_iohram b)
    else reset_real_boot_key0 (bus_console_model b) (bus_operating_mode b) (bus_iohram b) |>.

Definition lock_cgb_real_boot_key0_at_handoff (heuristic : HeuristicPolicy) (b : Bus) : Bus * option OperatingMode :=
  if negb (is_cgb_family (bus_console_model b)) then (b, None)
  else
    let '(iohram, operating_mode) := iohram_lock_key0_at_handoff (bus_console_model b) heuristic (bus_iohram b) in
    (b <| bus_iohram := iohram |> <| bus_operating_mode := operating_mode |>, Some operating_mode).

Definition bus_apply_startup_memory_policy (p : StartupMemoryPolicy) (b : Bus) : Bus :=
  b <| bus_vram := vram_apply_startup_memory_policy p (bus_vram b) |>
    <| bus_wram := wram_apply_startup_memory_policy p (bus_wram b) |>
    <| bus_iohram := iohram_apply_startup_memory_policy p (bus_iohram b) |>.

Definition tick_cgb_infrared_t_cycle (b : Bus) : Bus :=
  if cgb_infrared_register_enabled b then b <| bus_iohram := iohram_tick_infrared (bus_iohram b) |> else b.
Definition set_cgb_infrared_external_input (active : bool) (b : Bus) : Bus :=
  b <| bus_iohram := iohram_set_infrared_input (cgb_infrared_register_enabled b && active) (bus_iohram b) |>.
Definition cgb_infrared_emitter_on (b : Bus) : bool :=
  cgb_infrared_register_enabled b && emitter_on (infrared (bus_iohram b)).
Definition cgb_infrared_status (b : Bus) : option CgbInfraredStatus :=
  if cgb_infrared_register_enabled b then Some (infrared_status (infrared (bus_iohram b))) else None.

Definition bus_describe_unusable_area (a : Z) (b : Bus) : option UnusableAreaInfo :=
  describe_unusable_area (bus_console_model b) (bus_revision b) a.

Definition video_views (m : BusRequester) (b : Bus) : VideoBusView OamDomain * VideoBusView VramDomain :=
  (mkView m (bus_oam b), mkView m (bus_vram b)).

(** The variant of builds with debug assertions. *)
Definition sync_video_domain_ownership (ppu : PpuBusState) (dma : DmaBusState) (b : Bus) : Bus :=
  let ppu_vram := is_lcd_enabled ppu && bool_decide (ppu_mode ppu = Drawing) in
  let ppu_oam := is_lcd_enabled ppu && (bool_decide (ppu_mode ppu = OamScan) || bool_decide (ppu_mode ppu = Drawing)) in
  let dma_oam := bool_decide (active_region dma = Some ImpactOam) in
  let dma_vram := bool_decide (active_region dma = Some ImpactVram) in
  let b := b <| bus_vram := vram_set_acquired RequesterPpu ppu_vram (bus_vram b) |> in
  let b := b <| bus_oam := oam_set_acquired RequesterPpu ppu_oam (bus_oam b) |> in
  let b := b <| bus_oam := oam_set_acquired RequesterDma dma_oam (bus_oam b) |> in
  b <| bus_vram := vram_set_acquired RequesterDma dma_vram (bus_vram b) |>.

(** ** Policy *)

Definition region_in (r : BusRegion) (l : list BusRegion) : bool := existsb (fun x => bool_decide (r = x)) l.

Definition evaluate_global_dma_policy (requester : BusRequester) (kind : BusAccessKind) (t : BusAddressInfo)
    (state : BusArbitrationState) : option BusAccessDisposition :=
  if negb (bool_decide (requester = RequesterCpu)) then None
  else match cpu_access_policy (dma state) with
  | Unrestricted => None
  | ExternalBusBlocked =>
      if bool_decide (region t = RegionHram) || (address t =? 0xFF46) then None
      else Some (block_access kind DmaExternalBusConflict)
  | ExternalBusOnlyBlocked =>
      if region_in (region t) [RegionCartridgeRomBank0; RegionCartridgeRomBankN; RegionCartridgeExternal; RegionOam]
      then Some (block_access kind DmaExternalBusConflict) else None
  | VideoBusBlocked =>
      if region_in (region t) [RegionVram; RegionOam] then Some (block_access kind DmaVideoBusConflict) else None
  | WramBusBlocked =>
      if region_in (region t) [RegionWramBank0; RegionWramBankN; RegionEchoRam; RegionOam]
      then Some (block_access kind DmaWramBusConflict) else None
  end.

Definition evaluate_domain_policy (requester : BusRequester) (kind : BusAccessKind) (t : BusAddressInfo)
    (state : BusArbitrationState) : option BusAccessDisposition :=
  match region t with
  | RegionVram => vram_evaluate_access requester kind (ppu state) (dma state)
  | RegionOam => oam_evaluate_access requester kind (ppu state) (dma state)
  | _ => None
  end.

Definition evaluate_unusable_policy (requester : BusRequester) (kind : BusAccessKind) (t : BusAddressInfo)
    (state : BusArbitrationState) (b : Bus) : option BusAccessDisposition :=
  if negb (bool_decide (region t = RegionUnusable)) then None
  else if bool_decide (kind = AccessWrite) &&
          from_option runtime_fallback_writes_ignored true (bus_describe_unusable_area (address t) b)
  then Some (IgnoredWrite UnusableRegion)
  else if bool_decide (requester = RequesterCpu) && bool_decide (cpu_access_policy (dma state) = VideoBusBlocked)
  then Some (BlockedRead BLOCKED_READ_VALUE UnusableRegionDuringDmaVideoBusConflict)
  else if bool_decide (requester = RequesterCpu) && is_lcd_enabled (ppu state) &&
          (bool_decide (ppu_mode (ppu state) = OamScan) || bool_decide (ppu_mode (ppu state) = Drawing))
  then Some (BlockedRead BLOCKED_READ_VALUE UnusableRegionDuringOamBlock)
  else None.

Definition evaluate_access_policy (requester : BusRequester) (kind : BusAccessKind) (t : BusAddressInfo)
    (state : BusArbitrationState) (b : Bus) : BusAccessDisposition :=
  match evaluate_global_dma_policy requester kind t state with
  | Some disposition => disposition
  | None =>
      match evaluate_domain_policy requester kind t state with
      | Some disposition => disposition
      | None => default Allowed (evaluate_unusable_policy requester kind t state b)
      end
  end.

(** ** Resolution *)

Definition HOT_CPU_TIMED_ROM_BANK0_END : Z := 0x3FFF.
Definition HOT_CPU_TIMED_ROM_BANKN_START : Z := 0x4000.
Definition HOT_CPU_TIMED_ROM_END : Z := 0x7FFF.
Definition HOT_CPU_TIMED_EXTERNAL_START : Z := 0xA000.
Definition HOT_CPU_TIMED_EXTERNAL_END : Z := 0xBFFF.
Definition HOT_CPU_TIMED_WRAM_START : Z := 0xC000.
Definition HOT_CPU_TIMED_WRAM_ECHO_END : Z := 0xFDFF.

Definition address_uses_hot_cpu_timed_fast_path (a : Z) : bool :=
  in_range a 0x0000 HOT_CPU_TIMED_ROM_END || in_range a HOT_CPU_TIMED_EXTERNAL_START HOT_CPU_TIMED_EXTERNAL_END ||
  in_range a HOT_CPU_TIMED_WRAM_START HOT_CPU_TIMED_WRAM_ECHO_END.
Definition address_uses_hot_cpu_external_bus (a : Z) : bool :=
  in_range a 0x0000 HOT_CPU_TIMED_ROM_END || in_range a HOT_CPU_TIMED_EXTERNAL_START HOT_CPU_TIMED_EXTERNAL_END.
Definition address_uses_hot_cpu_wram_bus (a : Z) : bool :=
  in_range a HOT_CPU_TIMED_WRAM_START HOT_CPU_TIMED_WRAM_ECHO_END.

Definition cpu_dma_conflict_source_address (requester : BusRequester) (a : Z) (nominal : BusAddressInfo)
    (state : BusArbitrationState) : option Z :=
  if negb (bool_decide (requester = RequesterCpu)) then None
  else
    let conflicts :=
      match cpu_access_policy (dma state) with
      | ExternalBusBlocked => address_uses_hot_cpu_timed_fast_path a
      | ExternalBusOnlyBlocked =>
          address_uses_hot_cpu_external_bus a &&
          region_in (region nominal) [RegionCartridgeRomBank0; RegionCartridgeRomBankN; RegionCartridgeExternal]
      | WramBusBlocked =>
          address_uses_hot_cpu_wram_bus a &&
          region_in (region nominal) [RegionWramBank0; RegionWramBankN; RegionEchoRam]
      | Unrestricted | VideoBusBlocked => false
      end in
    if conflicts then cpu_conflict_source_address (dma state) else None.

Definition describe_cartridge_external_access (t : BusAddressInfo) (cartridge : option CartridgeSlot)
    : option CartridgeExternalAccessInfo :=
  if negb (bool_decide (region t = RegionCartridgeExternal)) then None
  else Some match cartridge with
            | None => no_device (address t)
            | Some slot => slot_describe_external_access (address t) slot
            end.

Definition resolve_requester_access (requester : BusRequester) (kind : BusAccessKind) (a : Z)
    (state : BusArbitrationState) (cartridge : option CartridgeSlot) (b : Bus) : BusAccessResolution :=
  let nominal := router_resolve_nominal_target kind a state in
  let nominal_disposition := evaluate_access_policy requester kind nominal state b in
  let nominal_external := describe_cartridge_external_access nominal cartridge in
  match cpu_dma_conflict_source_address requester a nominal state with
  | Some conflict_source_address =>
      let t := router_resolve_nominal_target kind conflict_source_address state in
      mkResolution requester kind a nominal t nominal_external (describe_cartridge_external_access t cartridge)
        nominal_disposition Allowed
  | None =>
      mkResolution requester kind a nominal nominal nominal_external nominal_external nominal_disposition
        nominal_disposition
  end.
Definition resolve_access := resolve_requester_access RequesterCpu.

(** ** Accesses that were granted *)

Definition bus_owned_io (k : IoRegisterKind) : bool :=
  match k with
  | IoKey0 | IoVbk | IoSvbk | IoCgbUndocumented72 | IoCgbUndocumented73 | IoCgbUndocumented74
  | IoCgbUndocumented75 => true
  | _ => false
  end.

Definition bus_io_live (info : IoRegisterInfo) (b : Bus) : bool :=
  io_register_kind_is_available (io_kind info) (io_availability info) (bus_console_model b) (bus_operating_mode b) &&
  bool_decide (io_implementation info = IoImplemented).

Definition read_cgb_bus_owned_io (a : Z) (b : Bus) : outcome (option Z) :=
  match describe_io_register a with
  | None => mret None
  | Some info =>
      if negb (bus_owned_io (io_kind info)) then mret None
      else if negb (bus_io_live info b) then mret (Some BLOCKED_READ_VALUE)
      else match io_kind info with
      | IoKey0 => mret (Some (read_key0 (bus_iohram b)))
      | IoVbk => mret (Some (read_vbk (bus_vram b)))
      | IoSvbk => mret (Some (read_svbk (bus_wram b)))
      | IoCgbUndocumented72 | IoCgbUndocumented73 | IoCgbUndocumented74 | IoCgbUndocumented75 =>
          mret (Some (read_cgb_misc_io a (bus_iohram b)))
      | _ => Panic "filtered CGB bus-owned IO kind changed"
      end
  end.

(** [None]: the register is not the bus's own. *)
Definition write_cgb_bus_owned_io (a value : Z) (b : Bus) : outcome (option Bus) :=
  match describe_io_register a with
  | None => mret None
  | Some info =>
      if negb (bus_owned_io (io_kind info)) then mret None
      else if negb (bus_io_live info b) then mret (Some b)
      else match io_kind info with
      | IoKey0 => mret (Some (b <| bus_iohram := write_key0 value (bus_iohram b) |>))
      | IoVbk => mret (Some (b <| bus_vram := write_vbk value (bus_vram b) |>))
      | IoSvbk => mret (Some (b <| bus_wram := write_svbk value (bus_wram b) |>))
      | IoCgbUndocumented72 | IoCgbUndocumented73 | IoCgbUndocumented74 | IoCgbUndocumented75 =>
          mret (Some (b <| bus_iohram := write_cgb_misc_io a value (bus_iohram b) |>))
      | _ => Panic "filtered CGB bus-owned IO kind changed"
      end
  end.

Definition read_unusable_placeholder (a : Z) (b : Bus) : Z :=
  from_option runtime_fallback_read_value BLOCKED_READ_VALUE (bus_describe_unusable_area a b).

Definition misrouted : string := "non-cartridge region routed to cartridge target".

Definition read_cartridge_target (a : Z) (r : BusRegion) (cartridge : option CartridgeSlot) : outcome Z :=
  match cartridge with
  | None => mret BLOCKED_READ_VALUE
  | Some slot =>
      match r with
      | RegionCartridgeRomBank0 | RegionCartridgeRomBankN => slot_read_rom a slot
      | RegionCartridgeExternal => slot_read_ram a slot
      | _ => Panic misrouted
      end
  end.

Definition read_cartridge_target_timed (a : Z) (r : BusRegion) (t_cycle : Z) (cartridge : option CartridgeSlot)
    : outcome (Z * option CartridgeSlot) :=
  match cartridge with
  | None => mret (BLOCKED_READ_VALUE, None)
  | Some slot =>
      match r with
      | RegionCartridgeRomBank0 | RegionCartridgeRomBankN => value ← slot_read_rom a slot; mret (value, Some slot)
      | RegionCartridgeExternal => r ← slot_read_ram_timed a t_cycle slot; mret (r.1, Some r.2)
      | _ => Panic misrouted
      end
  end.

Definition write_cartridge_target (a : Z) (r : BusRegion) (value : Z) (cartridge : option CartridgeSlot)
    : outcome (option CartridgeSlot) :=
  match cartridge with
  | None => mret None
  | Some slot =>
      match r with
      | RegionCartridgeRomBank0 | RegionCartridgeRomBankN => slot ← slot_write_rom a value slot; mret (Some slot)
      | RegionCartridgeExternal => slot ← slot_write_ram a value slot; mret (Some slot)
      | _ => Panic misrouted
      end
  end.

Definition write_cartridge_target_timed (a : Z) (r : BusRegion) (value t_cycle : Z) (cartridge : option CartridgeSlot)
    : outcome (option CartridgeSlot) :=
  match cartridge with
  | None => mret None
  | Some slot =>
      match r with
      | RegionCartridgeRomBank0 | RegionCartridgeRomBankN => slot ← slot_write_rom a value slot; mret (Some slot)
      | RegionCartridgeExternal => slot ← slot_write_ram_timed a value t_cycle slot; mret (Some slot)
      | _ => Panic misrouted
      end
  end.

Section Access.
Context {P : Type} `{PpuPort P}.

Definition read_boot_rom_placeholder (a : Z) (io : BusIoReadView P) : Z :=
  from_option (read_boot_rom a) BLOCKED_READ_VALUE (read_boot io).

Definition read_iohram_target (t : BusAddressInfo) (io : BusIoReadView P) (b : Bus) : outcome Z :=
  owned ← (if bool_decide (region t = RegionMmio) then read_cgb_bus_owned_io (address t) b else mret None);
  match owned with
  | Some value => mret value
  | None => iohram_read (bus_console_model b) (bus_operating_mode b) t io (bus_iohram b)
  end.

(** The result of a write: the bus, the cartridge and the owners it leaves. *)
Record WriteResult := mkWritten { written_bus : Bus; written_cartridge : option CartridgeSlot; written_io : BusIoWriteView P }.

Definition write_iohram_target (t : BusAddressInfo) (value : Z) (cartridge : option CartridgeSlot)
    (io : BusIoWriteView P) (b : Bus) : outcome WriteResult :=
  owned ← (if bool_decide (region t = RegionMmio) then write_cgb_bus_owned_io (address t) value b else mret None);
  match owned with
  | Some b => mret (mkWritten b cartridge io)
  | None =>
      r ← iohram_write (bus_console_model b) (bus_operating_mode b) t value io (bus_iohram b);
      mret (mkWritten (b <| bus_iohram := r.1 |>) cartridge r.2)
  end.

Definition perform_allowed_read (t : BusAddressInfo) (cartridge : option CartridgeSlot) (io : BusIoReadView P) (b : Bus)
    : outcome Z :=
  match region t with
  | RegionBootRom => mret (read_boot_rom_placeholder (address t) io)
  | RegionCartridgeRomBank0 | RegionCartridgeRomBankN | RegionCartridgeExternal =>
      read_cartridge_target (address t) (region t) cartridge
  | RegionVram => vram_read (region_offset t) (bus_vram b)
  | RegionWramBank0 | RegionWramBankN | RegionEchoRam => wram_read (address t) (bus_wram b)
  | RegionOam => oam_read (region_offset t) (bus_oam b)
  | RegionUnusable => mret (read_unusable_placeholder (address t) b)
  | RegionMmio | RegionInterruptEnable | RegionHram => read_iohram_target t io b
  end.

Definition perform_allowed_read_timed (t : BusAddressInfo) (t_cycle : Z) (cartridge : option CartridgeSlot)
    (io : BusIoReadView P) (b : Bus) : outcome (Z * option CartridgeSlot) :=
  match region t with
  | RegionCartridgeRomBank0 | RegionCartridgeRomBankN | RegionCartridgeExternal =>
      read_cartridge_target_timed (address t) (region t) t_cycle cartridge
  | _ => value ← perform_allowed_read t cartridge io b; mret (value, cartridge)
  end.

Definition perform_allowed_write_with (write_cartridge : Z -> BusRegion -> Z -> option CartridgeSlot -> outcome (option CartridgeSlot))
    (t : BusAddressInfo) (value : Z) (cartridge : option CartridgeSlot) (io : BusIoWriteView P) (b : Bus)
    : outcome WriteResult :=
  match region t with
  | RegionBootRom => Panic "boot ROM overlay must not own writes"
  | RegionCartridgeRomBank0 | RegionCartridgeRomBankN | RegionCartridgeExternal =>
      cartridge ← write_cartridge (address t) (region t) value cartridge; mret (mkWritten b cartridge io)
  | RegionVram => v ← vram_write (region_offset t) value (bus_vram b); mret (mkWritten (b <| bus_vram := v |>) cartridge io)
  | RegionWramBank0 | RegionWramBankN | RegionEchoRam =>
      w ← wram_write (address t) value (bus_wram b); mret (mkWritten (b <| bus_wram := w |>) cartridge io)
  | RegionOam => o ← oam_write (region_offset t) value (bus_oam b); mret (mkWritten (b <| bus_oam := o |>) cartridge io)
  | RegionUnusable => mret (mkWritten b cartridge io)
  | RegionMmio | RegionInterruptEnable | RegionHram => write_iohram_target t value cartridge io b
  end.
Definition perform_allowed_write := perform_allowed_write_with write_cartridge_target.
Definition perform_allowed_write_timed (t_cycle : Z) :=
  perform_allowed_write_with (fun a r value => write_cartridge_target_timed a r value t_cycle).

(** ** Reads and writes *)

Definition read_with_context (a : Z) (requester : BusRequester) (state : BusArbitrationState)
    (cartridge : option CartridgeSlot) (io : BusIoReadView P) (b : Bus) : outcome Z :=
  let resolution := resolve_requester_access requester AccessRead a state cartridge b in
  match disposition resolution with
  | Allowed => perform_allowed_read (target resolution) cartridge io b
  | BlockedRead value _ => mret value
  | IgnoredWrite _ => Panic "read path received write-only access disposition"
  end.

Definition try_read_timed_fast_path (a : Z) (requester : BusRequester) (state : BusArbitrationState) (t_cycle : Z)
    (cartridge : option CartridgeSlot) (b : Bus) : outcome (option (Z * option CartridgeSlot)) :=
  if negb (bool_decide (requester = RequesterCpu)) ||
     negb (bool_decide (cpu_access_policy (dma state) = Unrestricted)) || overlays_read (boot_rom state) a
  then mret None
  else if in_range a 0x0000 HOT_CPU_TIMED_ROM_END then
    match cartridge with
    | Some slot => value ← slot_read_rom a slot; mret (Some (value, Some slot))
    | None => mret (Some (BLOCKED_READ_VALUE, None))
    end
  else if in_range a HOT_CPU_TIMED_EXTERNAL_START HOT_CPU_TIMED_EXTERNAL_END then
    match cartridge with
    | Some slot => r ← slot_read_ram_timed a t_cycle slot; mret (Some (r.1, Some r.2))
    | None => mret (Some (BLOCKED_READ_VALUE, None))
    end
  else if in_range a HOT_CPU_TIMED_WRAM_START HOT_CPU_TIMED_WRAM_ECHO_END then
    value ← wram_read a (bus_wram b); mret (Some (value, cartridge))
  else mret None.

Definition read_timed_slow_path (a : Z) (requester : BusRequester) (state : BusArbitrationState) (t_cycle : Z)
    (cartridge : option CartridgeSlot) (io : BusIoReadView P) (b : Bus) : outcome (Z * option CartridgeSlot) :=
  let resolution := resolve_requester_access requester AccessRead a state cartridge b in
  match disposition resolution with
  | Allowed => perform_allowed_read_timed (target resolution) t_cycle cartridge io b
  | BlockedRead value _ => mret (value, cartridge)
  | IgnoredWrite _ => Panic "read path received write-only access disposition"
  end.

Definition read_with_t_cycle_context (a : Z) (requester : BusRequester) (state : BusArbitrationState) (t_cycle : Z)
    (cartridge : option CartridgeSlot) (io : BusIoReadView P) (b : Bus) : outcome (Z * option CartridgeSlot) :=
  fast ← try_read_timed_fast_path a requester state t_cycle cartridge b;
  match fast with
  | Some r => mret r
  | None => read_timed_slow_path a requester state t_cycle cartridge io b
  end.

Definition write_with (perform : BusAddressInfo -> Z -> option CartridgeSlot -> BusIoWriteView P -> Bus -> outcome WriteResult)
    (a value : Z) (requester : BusRequester) (state : BusArbitrationState) (cartridge : option CartridgeSlot)
    (io : BusIoWriteView P) (b : Bus) : outcome WriteResult :=
  let resolution := resolve_requester_access requester AccessWrite a state cartridge b in
  match disposition resolution with
  | Allowed => perform (target resolution) value cartridge io b
  | IgnoredWrite _ => mret (mkWritten b cartridge io)
  | BlockedRead _ _ => Panic "write path received read-only access disposition"
  end.

Definition write_with_context := write_with perform_allowed_write.
Definition write_timed_slow_path (t_cycle : Z) := write_with (perform_allowed_write_timed t_cycle).

Definition try_write_timed_fast_path (a value : Z) (requester : BusRequester) (state : BusArbitrationState)
    (t_cycle : Z) (cartridge : option CartridgeSlot) (io : BusIoWriteView P) (b : Bus) : outcome (option WriteResult) :=
  if negb (bool_decide (requester = RequesterCpu)) || negb (bool_decide (cpu_access_policy (dma state) = Unrestricted))
  then mret None
  else if in_range a 0x0000 HOT_CPU_TIMED_ROM_BANK0_END ||
          in_range a HOT_CPU_TIMED_ROM_BANKN_START HOT_CPU_TIMED_ROM_END ||
          in_range a HOT_CPU_TIMED_EXTERNAL_START HOT_CPU_TIMED_EXTERNAL_END then
    let t := decode_address a in
    cartridge ← write_cartridge_target_timed (address t) (region t) value t_cycle cartridge;
    mret (Some (mkWritten b cartridge io))
  else if in_range a HOT_CPU_TIMED_WRAM_START HOT_CPU_TIMED_WRAM_ECHO_END then
    w ← wram_write a value (bus_wram b); mret (Some (mkWritten (b <| bus_wram := w |>) cartridge io))
  else mret None.

Definition write_with_t_cycle_context (a value : Z) (requester : BusRequester) (state : BusArbitrationState)
    (t_cycle : Z) (cartridge : option CartridgeSlot) (io : BusIoWriteView P) (b : Bus) : outcome WriteResult :=
  fast ← try_write_timed_fast_path a value requester state t_cycle cartridge io b;
  match fast with
  | Some r => mret r
  | None => write_timed_slow_path t_cycle a value requester state cartridge io b
  end.
End Access.
Arguments WriteResult P : clear implicits.

(** ** Corruption of object memory *)

Definition address_may_hit_oam_corruption (a : Z) : bool := Z.land a 0xFF00 =? 0xFE00.

Definition access_kind_for_cpu_address_event (k : CpuAddressEventKind) : outcome BusAccessKind :=
  match k with
  | EventRead | EventReadWithIncDec => mret AccessRead
  | EventWrite | EventWriteWithIncDec => mret AccessWrite
  | EventIncDec => Panic "pure IDU events do not have an ordinary bus access kind"
  end.

Definition oam_corruption_event_kind (k : CpuAddressEventKind) : OamCorruptionEventKind :=
  match k with
  | EventRead => CorruptionRead
  | EventWrite | EventIncDec => CorruptionWrite
  | EventReadWithIncDec => CorruptionReadWithIncDec
  | EventWriteWithIncDec => CorruptionWriteWithIncDec
  end.

Definition idu_glitched_address (e : CpuAddressEvent) : option Z :=
  driven_address ← idu_address e;
  direction ← update_direction e;
  Some match direction with
       | Increment => wrapping_sub16 driven_address 1
       | Decrement => wrapping_add16 driven_address 1
       end.

Definition idu_event_reaches_oam (a : Z) (b : Bus) : bool :=
  is_dmg_family (bus_console_model b) && address_may_hit_oam_corruption a.

Definition event_has_incdec (k : CpuAddressEventKind) : bool :=
  match k with EventReadWithIncDec | EventWriteWithIncDec => true | _ => false end.

Definition mode2_now (state : BusArbitrationState) : bool :=
  is_lcd_enabled (ppu state) && bool_decide (ppu_mode (ppu state) = OamScan).

Definition classify_oam_corruption_event (e : CpuAddressEvent) (state : BusArbitrationState) (b : Bus)
    : outcome (option OamCorruptionEventKind) :=
  let glitched := idu_glitched_address e in
  match event_kind e with
  | EventIncDec =>
      mret match glitched with
           | Some a => if idu_event_reaches_oam a b then Some CorruptionWrite else None
           | None => None
           end
  | k =>
      match CpuData.access_address e with
      | None => mret None
      | Some access =>
          let idu_may_hit := event_has_incdec k && from_option address_may_hit_oam_corruption false glitched in
          if negb (address_may_hit_oam_corruption access) && negb idu_may_hit then mret None
          else
            access_hits ←
              (if address_may_hit_oam_corruption access then
                 access_kind ← access_kind_for_cpu_address_event k;
                 let resolution := resolve_access access_kind access state None b in
                 mret match region (target resolution) with
                      | RegionOam =>
                          bool_decide (blocked_reason (disposition resolution) = Some PpuOamBlockedDuringMode2)
                      | RegionUnusable =>
                          bool_decide (access_kind = AccessWrite) && mode2_now state ||
                          bool_decide (access_kind = AccessRead) && mode2_now state &&
                          bool_decide (blocked_reason (disposition resolution) = Some UnusableRegionDuringOamBlock)
                      | _ => false
                      end
               else mret false);
            let idu_hits := event_has_incdec k && from_option (fun a => idu_event_reaches_oam a b) false glitched in
            mret (if access_hits || idu_hits then Some (oam_corruption_event_kind k) else None)
      end
  end.

Definition route_cpu_address_event {P : Type} `{PpuPort P} (e : CpuAddressEvent) (state : BusArbitrationState) (p : P)
    (b : Bus) : outcome (Bus * P) :=
  if negb (is_dmg_family (bus_console_model b)) then mret (b, p)
  else
    hit ← classify_oam_corruption_event e state b;
    match hit with
    | None => mret (b, p)
    | Some k =>
        r ← ppu_apply_oam_corruption_event k (oam_bytes (bus_oam b)) p;
        mret (b <| bus_oam := (bus_oam b) <| oam_bytes := r.1 |> |>, r.2)
    end.

(** ** The timed fast path *)

(** A CPU access outside the video and I/O areas that no DMA contends for is
    granted at its own address. *)
Lemma uncontended_access kind a state cartridge b :
  cpu_access_policy (dma state) = Unrestricted ->
  (kind = AccessRead -> overlays_read (boot_rom state) a = false) ->
  address_uses_hot_cpu_timed_fast_path a = true ->
  let r := resolve_requester_access RequesterCpu kind a state cartridge b in
  target r = decode_address a /\ disposition r = Allowed.
Proof.
  intros Hp Ho Ha.
  assert (Hn : router_resolve_nominal_target kind a state = decode_address a).
  { unfold router_resolve_nominal_target. case_bool_decide as Hk; [|done]. by rewrite (Ho Hk). }
  unfold resolve_requester_access, cpu_dma_conflict_source_address, evaluate_access_policy, evaluate_global_dma_policy,
    evaluate_domain_policy, evaluate_unusable_policy.
  rewrite Hn, Hp. cbn.
  unfold address_uses_hot_cpu_timed_fast_path in Ha. revert Ha.
  unfold decode_address, HOT_CPU_TIMED_ROM_END, HOT_CPU_TIMED_EXTERNAL_START, HOT_CPU_TIMED_EXTERNAL_END,
    HOT_CPU_TIMED_WRAM_START, HOT_CPU_TIMED_WRAM_ECHO_END.
  rewrite !orb_true_iff, !in_range_spec. intros Ha. case_tests; ranges; cbn; try done; lia.
Qed.

Section FastPath.
Context {P : Type} `{PpuPort P}.

(** The region an address of the fast path decodes to. *)
Lemma decode_rom a : in_range a 0 HOT_CPU_TIMED_ROM_END = true ->
  address (decode_address a) = a /\
  (region (decode_address a) = RegionCartridgeRomBank0 \/ region (decode_address a) = RegionCartridgeRomBankN).
Proof. unfold decode_address, HOT_CPU_TIMED_ROM_END. rewrite in_range_spec. intros. case_tests; ranges; cbn; auto; lia. Qed.
Lemma decode_external a : in_range a HOT_CPU_TIMED_EXTERNAL_START HOT_CPU_TIMED_EXTERNAL_END = true ->
  address (decode_address a) = a /\ region (decode_address a) = RegionCartridgeExternal.
Proof.
  unfold decode_address, HOT_CPU_TIMED_EXTERNAL_START, HOT_CPU_TIMED_EXTERNAL_END. rewrite in_range_spec. intros.
  case_tests; ranges; cbn; auto; lia.
Qed.
Lemma decode_wram a : in_range a HOT_CPU_TIMED_WRAM_START HOT_CPU_TIMED_WRAM_ECHO_END = true ->
  address (decode_address a) = a /\
  (region (decode_address a) = RegionWramBank0 \/ region (decode_address a) = RegionWramBankN \/
   region (decode_address a) = RegionEchoRam).
Proof.
  unfold decode_address, HOT_CPU_TIMED_WRAM_START, HOT_CPU_TIMED_WRAM_ECHO_END. rewrite in_range_spec. intros.
  case_tests; ranges; cbn; auto; lia.
Qed.

Lemma timed_read_is_slow a requester state t_cycle cartridge (rio : BusIoReadView P) b :
  read_with_t_cycle_context a requester state t_cycle cartridge rio b =
    read_timed_slow_path a requester state t_cycle cartridge rio b.
Proof.
  unfold read_with_t_cycle_context, try_read_timed_fast_path.
  destruct (bool_decide_reflect (requester = RequesterCpu)) as [->|]; [|done].
  destruct (bool_decide_reflect (cpu_access_policy (dma state) = Unrestricted)) as [Hp|]; [|done]. cbn [negb orb].
  destruct (overlays_read _ _) eqn:Ho; [done|].
  assert (Hslow : address_uses_hot_cpu_timed_fast_path a = true ->
    read_timed_slow_path a RequesterCpu state t_cycle cartridge rio b =
    perform_allowed_read_timed (decode_address a) t_cycle cartridge rio b).
  { intros Ha. unfold read_timed_slow_path.
    by destruct (uncontended_access AccessRead a state cartridge b Hp (fun _ => Ho) Ha) as [-> ->]. }
  unfold address_uses_hot_cpu_timed_fast_path in Hslow.
  destruct (in_range a 0 _) eqn:Hrom; [|destruct (in_range a HOT_CPU_TIMED_EXTERNAL_START _) eqn:Hext;
    [|destruct (in_range a HOT_CPU_TIMED_WRAM_START _) eqn:Hw; [|done]]]; rewrite Hslow by done;
    unfold perform_allowed_read_timed, perform_allowed_read.
  - destruct (decode_rom a Hrom) as [-> [-> | ->]]; (destruct cartridge; [|done]); cbn; by destruct (slot_read_rom _ _).
  - destruct (decode_external a Hext) as [-> ->]. destruct cartridge; [|done]. cbn. by destruct (slot_read_ram_timed _ _ _).
  - destruct (decode_wram a Hw) as [-> [-> |[-> | ->]]]; by destruct (wram_read _ _).
Qed.

Lemma timed_write_is_slow a v requester state t_cycle cartridge (wio : BusIoWriteView P) b :
  write_with_t_cycle_context a v requester state t_cycle cartridge wio b =
    write_timed_slow_path t_cycle a v requester state cartridge wio b.
Proof.
  unfold write_with_t_cycle_context, try_write_timed_fast_path.
  destruct (bool_decide_reflect (requester = RequesterCpu)) as [->|]; [|done].
  destruct (bool_decide_reflect (cpu_access_policy (dma state) = Unrestricted)) as [Hp|]; [|done]. cbn [negb orb].
  assert (Hslow : address_uses_hot_cpu_timed_fast_path a = true ->
    write_timed_slow_path t_cycle a v RequesterCpu state cartridge wio b =
    perform_allowed_write_timed t_cycle (decode_address a) v cartridge wio b).
  { intros Ha. unfold write_timed_slow_path, write_with.
    by destruct (uncontended_access AccessWrite a state cartridge b Hp ltac:(done) Ha) as [-> ->]. }
  unfold address_uses_hot_cpu_timed_fast_path in Hslow.
  replace (in_range a 0 HOT_CPU_TIMED_ROM_BANK0_END || in_range a HOT_CPU_TIMED_ROM_BANKN_START HOT_CPU_TIMED_ROM_END)
    with (in_range a 0 HOT_CPU_TIMED_ROM_END).
  2:{ apply eq_true_iff_eq. rewrite orb_true_iff, !in_range_spec.
      unfold HOT_CPU_TIMED_ROM_BANK0_END, HOT_CPU_TIMED_ROM_BANKN_START, HOT_CPU_TIMED_ROM_END. lia. }
  destruct (in_range a 0 _) eqn:Hrom; [|destruct (in_range a HOT_CPU_TIMED_EXTERNAL_START _) eqn:Hext;
    [|destruct (in_range a HOT_CPU_TIMED_WRAM_START _) eqn:Hw; [|done]]]; rewrite Hslow by done; cbn [orb];
    unfold perform_allowed_write_timed, perform_allowed_write_with.
  - destruct (decode_rom a Hrom) as [-> [-> | ->]]; by destruct (write_cartridge_target_timed _ _ _ _ _).
  - destruct (decode_external a Hext) as [-> ->]. by destruct (write_cartridge_target_timed _ _ _ _ _).
  - destruct (decode_wram a Hw) as [-> [-> |[-> | ->]]]; by destruct (wram_write _ _ _).
Qed.

(** C13. The timed fast path is an optimisation and nothing else: for every
    address, requester, arbitration state, cartridge and bus, the timed read
    and the timed write give exactly what the full resolution of the access
    gives, panics included. *)
Theorem timed_fast_path_is_exact a v requester state t_cycle cartridge (rio : BusIoReadView P) (wio : BusIoWriteView P) b :
  read_with_t_cycle_context a requester state t_cycle cartridge rio b =
    read_timed_slow_path a requester state t_cycle cartridge rio b /\
  write_with_t_cycle_context a v requester state t_cycle cartridge wio b =
    write_timed_slow_path t_cycle a v requester state cartridge wio b.
Proof. split; [apply timed_read_is_slow | apply timed_write_is_slow]. Qed.
End FastPath.
