(* ===== verification/BusSafety.v ===== *)
(** * Bus safety

    The invariant of the bus, and that every access keeps it without a panic:
    the reads and writes of any requester, at any address, in any arbitration
    state and with any cartridge. *)

From Stdlib Require Import ZArith Lia Bool String.
From stdpp Require Import base decidable list option.
From S2P Require Import Prelude.
From S2P Require Import Model.
From S2P Require Import CpuData.
From S2P Require Import Cartridge.
From S2P Require Import CartridgeDevice.
From S2P Require Import CartridgeSlot.
From S2P Require Import BusState.
From S2P Require Import BusRouter.
From S2P Require Import Vectors.
From S2P Require Import BusMemory.
From S2P Require Import BusIo.
From S2P Require Import Interrupts.
From S2P Require Import Dma.
From S2P Require Import Boot.
From S2P Require Import Bus.

Local Open Scope Z_scope.

(** ** Invariants *)

Record bus_ok (b : Bus) : Prop := {
  bus_vram_ok : vram_ok (bus_vram b);
  bus_wram_ok : wram_ok (bus_wram b);
  bus_oam_ok : oam_ok (bus_oam b);
  bus_iohram_ok : iohram_ok (bus_iohram b);
  bus_vram_model : vram_console_model (bus_vram b) = bus_console_model b;
  bus_wram_model : wram_console_model (bus_wram b) = bus_console_model b
}.

(** A cartridge keeps the mapper laws and its image is made of bytes. *)
Definition device_typed (d : CartridgeDevice) : Prop := device_ok d /\ bytes (board_rom (m_board d)).
Definition cart_typed (cartridge : option CartridgeSlot) : Prop :=
  opt (fun s => opt device_typed (device s)) cartridge.

(** The same board is inserted before and after. *)
Definition board_of (cartridge : option CartridgeSlot) : option (option Board) :=
  option_map (fun s => option_map m_board (device s)) cartridge.
Definition cart_step (c c' : option CartridgeSlot) : Prop :=
  cart_typed c' /\ board_of c' = board_of c.

Lemma cart_step_refl c : cart_typed c -> cart_step c c.
Proof. done. Qed.

(** ** The cartridge behind the bus *)

Lemma blocked_u8 : u8 BLOCKED_READ_VALUE.
Proof. unfold BLOCKED_READ_VALUE, u8. lia. Qed.
#[export] Hint Resolve blocked_u8 : gb.

Lemma device_read_rom_ok a d : device_typed d -> rom_area a -> finishes (m_read_rom a d) u8.
Proof.
  intros [Hd Hb] Ha. destruct (contract_rom _ _ (device_ok_contract d Hd) a Ha) as [[(v & Hv & Hu) _]|(? & ? & ? & _ & _ & Hv & _)];
    rewrite Hv; [done|]. cbn. by apply byte_or_absent_u8.
Qed.

Lemma slot_read_rom_ok a s : cart_typed (Some s) -> rom_area a -> finishes (slot_read_rom a s) u8.
Proof.
  unfold slot_read_rom, ask. cbn. destruct (device s) as [d|]; cbn; intros Hs Ha; [|apply absent_u8].
  exact (device_read_rom_ok a d Hs Ha).
Qed.

Lemma slot_read_ram_ok a s : cart_typed (Some s) -> external_area a -> finishes (slot_read_ram a s) u8.
Proof.
  unfold slot_read_ram, ask. cbn. destruct (device s) as [d|]; cbn; intros Hs Ha; [|apply absent_u8].
  destruct (contract_external _ _ (device_ok_contract d (proj1 Hs)) a Ha) as (v & Hv & Hu & _).
  change (CartridgeDevice.read_ram a d) with (m_read_ram a d). by rewrite Hv.
Qed.

Lemma slot_op_ok op s : cart_typed (Some s) -> valid_op op ->
  (device s = None -> exists s', slot_cart_op op s = Done s' /\ s' = s) ->
  finishes (slot_cart_op op s) (fun s' => cart_step (Some s) (Some s')).
Proof.
  intros Hs Hop Hempty. cbn in Hs. destruct (device s) as [d|] eqn:Hd.
  - rewrite (slot_cart_op_device op s d Hd). destruct (device_step_ok op d (proj1 Hs) Hop) as (d' & Hr & Hok & Hb).
    rewrite Hr. destruct s as [dev f]. cbn [device] in Hd, Hs. subst dev. split; [|exact (f_equal (fun x => Some (Some x)) Hb)].
    split; [done|]. rewrite Hb. apply Hs.
  - destruct (Hempty eq_refl) as (s' & -> & ->). cbn. split; [cbn; by rewrite Hd | done].
Qed.

Lemma slot_write_rom_ok a v s : cart_typed (Some s) -> rom_area a -> u8 v ->
  finishes (slot_write_rom a v s) (fun s' => cart_step (Some s) (Some s')).
Proof.
  intros Hs Ha Hv. apply (slot_op_ok (OpWriteRom a v) s Hs); [done|]. intros Hd. exists s. split; [|done].
  cbn. unfold slot_write_rom, on_device. by rewrite Hd.
Qed.
Lemma slot_write_ram_ok a v s : cart_typed (Some s) -> external_area a -> u8 v ->
  finishes (slot_write_ram a v s) (fun s' => cart_step (Some s) (Some s')).
Proof.
  intros Hs Ha Hv. apply (slot_op_ok (OpWriteRam a v) s Hs); [done|]. intros Hd. exists s. split; [|done].
  cbn. unfold slot_write_ram, on_device. by rewrite Hd.
Qed.
Lemma slot_write_ram_timed_ok a v t s : cart_typed (Some s) -> external_area a -> u8 v -> 0 <= t < 2 ^ 63 ->
  finishes (slot_write_ram_timed a v t s) (fun s' => cart_step (Some s) (Some s')).
Proof.
  intros Hs Ha Hv Ht. apply (slot_op_ok (OpWriteRamTimed a v t) s Hs); [done|]. intros Hd. exists s. split; [|done].
  cbn. unfold slot_write_ram_timed, on_device. by rewrite Hd.
Qed.
Lemma slot_read_ram_timed_ok a t s : cart_typed (Some s) -> external_area a -> 0 <= t < 2 ^ 63 ->
  finishes (slot_read_ram_timed a t s) (fun r => u8 r.1 /\ cart_step (Some s) (Some r.2)).
Proof.
  intros Hs Ha Ht.
  assert (Hstep : finishes (slot_cart_op (OpReadRamTimed a t) s) (fun s' => cart_step (Some s) (Some s'))).
  { apply slot_op_ok; [done | done |]. intros Hd. exists s. split; [|done]. cbn. unfold slot_read_ram_timed. by rewrite Hd. }
  cbn in Hstep. assert (Hval : finishes (slot_read_ram_timed a t s) (fun r => u8 r.1)).
  { unfold slot_read_ram_timed. cbn in Hs. destruct (device s) as [d|]; [|apply absent_u8].
    destruct (contract_external _ _ (device_ok_contract d (proj1 Hs)) a Ha) as (v & _ & _ & Hread & _).
    destruct (Hread t Ht) as (w & c' & _ & Hw & Hr).
    change (CartridgeDevice.read_ram_timed a t d) with (m_read_ram_timed a t d). by rewrite Hr. }
  destruct (slot_read_ram_timed a t s) as [[v s']|]; [|done]. by split.
Qed.

(** ** Resolved targets *)

Definition target_ok (kind : BusAccessKind) (t : BusAddressInfo) : Prop :=
  region t = RegionBootRom /\ kind = AccessRead \/ t = decode_address (address t) /\ u16 (address t).

Lemma nominal_target_ok kind a state : u16 a ->
  target_ok kind (router_resolve_nominal_target kind a state) /\
  address (router_resolve_nominal_target kind a state) = a.
Proof.
  intros Ha. unfold router_resolve_nominal_target. destruct (decode_address_spec a Ha) as (Hadr & _).
  case_bool_decide as Hk; cbn [andb].
  - destruct (overlays_read _ a); [by split; [left|]|]. split; [|done]. right. by rewrite Hadr.
  - split; [|done]. right. by rewrite Hadr.
Qed.

Lemma block_access_read reason : block_access AccessRead reason = BlockedRead BLOCKED_READ_VALUE reason.
Proof. done. Qed.

(** A read is granted or answered with [FF], a write granted or ignored. *)
Definition read_disposition (d : BusAccessDisposition) : Prop :=
  d = Allowed \/ exists reason, d = BlockedRead BLOCKED_READ_VALUE reason.
Definition write_disposition (d : BusAccessDisposition) : Prop :=
  d = Allowed \/ exists reason, d = IgnoredWrite reason.

Lemma policy_read_disposition requester t state b :
  read_disposition (evaluate_access_policy requester AccessRead t state b).
Proof.
  unfold evaluate_access_policy, evaluate_global_dma_policy, evaluate_domain_policy, evaluate_unusable_policy,
    vram_evaluate_access, oam_evaluate_access, read_disposition.
  repeat case_match; simplify_eq; cbn; eauto.
Qed.

Lemma unusable_writes_ignored t b : region t = RegionUnusable -> t = decode_address (address t) -> u16 (address t) ->
  from_option runtime_fallback_writes_ignored true (bus_describe_unusable_area (address t) b) = true.
Proof.
  intros Hr Ht Ha. unfold bus_describe_unusable_area, describe_unusable_area.
  destruct (negb _); [done|]. by destruct (bus_console_model b).
Qed.

Lemma policy_write_disposition requester t state b : target_ok AccessWrite t ->
  write_disposition (evaluate_access_policy requester AccessWrite t state b).
Proof.
  intros Ht. unfold evaluate_access_policy, write_disposition.
  destruct (evaluate_global_dma_policy requester AccessWrite t state) as [d|] eqn:Eg.
  { unfold evaluate_global_dma_policy in Eg. repeat case_match; simplify_eq; cbn; eauto. }
  destruct (evaluate_domain_policy requester AccessWrite t state) as [d|] eqn:Ed.
  { unfold evaluate_domain_policy, vram_evaluate_access, oam_evaluate_access in Ed. repeat case_match; simplify_eq; cbn; eauto. }
  unfold evaluate_unusable_policy. case_bool_decide as Hr; cbn [negb]; [|by left].
  destruct Ht as [[Hb _]|[Ht Ha]]; [congruence|]. rewrite unusable_writes_ignored by done. cbn. eauto.
Qed.

Lemma resolved_read_ok requester a state cartridge b (res := resolve_requester_access requester AccessRead a state cartridge b) :
  u16 a -> dma_bus_ok (dma state) -> target_ok AccessRead (target res) /\ read_disposition (disposition res).
Proof.
  intros Ha Hs. subst res. unfold resolve_requester_access. destruct (nominal_target_ok AccessRead a state Ha) as [Ht _].
  destruct (cpu_dma_conflict_source_address _ _ _ _) as [c|] eqn:Ec; cbn; [|split; [done | apply policy_read_disposition]].
  split; [|by left]. apply nominal_target_ok. unfold cpu_dma_conflict_source_address in Ec. unfold dma_bus_ok in Hs.
  destruct (negb _); [done|]. destruct (match _ with Unrestricted => _ | _ => _ end); [|done]. by rewrite Ec in Hs.
Qed.

Lemma resolved_write_ok requester a state cartridge b (res := resolve_requester_access requester AccessWrite a state cartridge b) :
  u16 a -> dma_bus_ok (dma state) -> target_ok AccessWrite (target res) /\ write_disposition (disposition res).
Proof.
  intros Ha Hs. subst res. unfold resolve_requester_access. destruct (nominal_target_ok AccessWrite a state Ha) as [Ht _].
  destruct (cpu_dma_conflict_source_address _ _ _ _) as [c|] eqn:Ec; cbn; [|split; [done | by apply policy_write_disposition]].
  split; [|by left]. apply nominal_target_ok. unfold cpu_dma_conflict_source_address in Ec. unfold dma_bus_ok in Hs.
  destruct (negb _); [done|]. destruct (match _ with Unrestricted => _ | _ => _ end); [|done]. by rewrite Ec in Hs.
Qed.

(** The area of a region. *)
Lemma target_range kind t r : target_ok kind t -> region t = r -> r <> RegionBootRom ->
  region_base r <= address t < region_base r + region_size r /\ region_offset t = address t - region_base r /\
  0 <= region_offset t < region_size r.
Proof.
  intros [[Hb _]|[Ht Ha]] Hr Hne; [congruence|]. destruct (decode_address_spec (address t) Ha) as (_ & Ho & Hoff & _).
  rewrite <- Ht, Hr in *. split; [lia|]. done.
Qed.

(** ** Reads *)

Section Access.
Context {P : Type} `{PpuPortLaws P}.

Lemma bus_owned_read_ok a b : bus_ok b ->
  finishes (read_cgb_bus_owned_io a b) (fun r => opt u8 r).
Proof.
  intros Hb. unfold read_cgb_bus_owned_io. destruct (describe_io_register a) as [info|]; [|done].
  destruct (bus_owned_io (io_kind info)) eqn:Ho; cbn [negb]; [|done].
  destruct (bus_io_live info b); cbn [negb]; [|apply blocked_u8].
  destruct (bus_iohram_ok _ Hb) as [_ _ (H2 & H3 & H4 & H5) _].
  assert (Hmisc : u8 (read_cgb_misc_io a (bus_iohram b))).
  { unfold read_cgb_misc_io, misc_read, FF75_FORCED_BITS. case_tests; auto with gb. }
  destruct (bus_vram_ok _ Hb) as [Hsel _].
  destruct (io_kind info); try discriminate; cbn; auto with gb.
  - unfold read_vbk. apply u8_lor; [auto with gb | unfold u8; lia].
  - unfold read_svbk. apply u8_lor; [auto with gb | apply u8_land_r; auto with gb].
Qed.

Lemma read_iohram_target_ok t io b :
  target_ok AccessRead t -> region t = RegionMmio \/ region t = RegionInterruptEnable \/ region t = RegionHram ->
  bus_ok b -> read_view_ok io -> finishes (read_iohram_target t io b) u8.
Proof.
  intros Ht Hr Hb Hio. unfold read_iohram_target. apply finishes_bind.
  eapply finishes_mono with (Q := fun r => opt u8 r).
  { case_bool_decide; [by apply bus_owned_read_ok | done]. }
  intros [v|] Hv; [done|]. apply iohram_read_ok; [|done | apply Hb].
  destruct Hr as [Hr|[Hr|Hr]]; destruct (target_range _ _ _ Ht Hr ltac:(done)) as (Ha & _ & Hoff); cbn in Ha, Hoff.
  - right. split; [by left | unfold u16; lia].
  - right. split; [by right | unfold u16; lia].
  - left. by split.
Qed.

Lemma perform_read_ok t cartridge io b :
  target_ok AccessRead t -> bus_ok b -> cart_typed cartridge -> read_view_ok io ->
  finishes (perform_allowed_read t cartridge io b) u8.
Proof.
  intros Ht Hb Hc Hio. unfold perform_allowed_read.
  destruct (region t) eqn:Hr; try (destruct (target_range _ _ _ Ht Hr ltac:(done)) as (Ha & _ & Hoff); cbn in Ha, Hoff).
  - cbn. unfold read_boot_rom_placeholder. pose proof (rv_boot _ Hio) as Hboot.
    destruct (read_boot io) as [boot|]; [|apply blocked_u8]. cbn in *. unfold read_boot_rom, read_asset_byte.
    destruct (bytes_for _ _) as [image|] eqn:Himage; cbn; [|auto with gb]. apply Hboot in Himage.
    assert (Hget : forall i, u8 (default 0xFF (vec_get image i))).
    { intros i. exact (byte_or_absent_u8 image i Himage). }
    destruct (uses_cgb_mapping _); [|done]. unfold read_cgb_boot_rom_byte. case_tests; auto with gb.
  - destruct cartridge as [s|]; [|apply blocked_u8]. apply slot_read_rom_ok; [done | unfold rom_area; lia].
  - destruct cartridge as [s|]; [|apply blocked_u8]. apply slot_read_rom_ok; [done | unfold rom_area; lia].
  - apply vram_read_ok; [apply Hb | unfold DMG_VRAM_LEN; lia].
  - destruct cartridge as [s|]; [|apply blocked_u8]. apply slot_read_ram_ok; [done | unfold external_area; lia].
  - apply wram_read_ok; [apply Hb | unfold wram_area; lia].
  - apply wram_read_ok; [apply Hb | unfold wram_area; lia].
  - apply wram_read_ok; [apply Hb | unfold wram_area; lia].
  - apply oam_read_ok; [apply Hb | unfold OAM_LEN; lia].
  - cbn. unfold read_unusable_placeholder. destruct (bus_describe_unusable_area _ _) eqn:E; [|apply blocked_u8].
    by eapply unusable_read_u8.
  - apply read_iohram_target_ok; auto.
  - apply read_iohram_target_ok; auto.
  - apply read_iohram_target_ok; auto.
Qed.

Definition read_result_ok (c : option CartridgeSlot) (r : Z * option CartridgeSlot) : Prop :=
  u8 r.1 /\ cart_step c r.2.

Lemma perform_read_timed_ok t t_cycle cartridge io b :
  target_ok AccessRead t -> 0 <= t_cycle < 2 ^ 63 -> bus_ok b -> cart_typed cartridge -> read_view_ok io ->
  finishes (perform_allowed_read_timed t t_cycle cartridge io b) (read_result_ok cartridge).
Proof.
  intros Ht Hn Hb Hc Hio. unfold perform_allowed_read_timed.
  assert (Hplain : finishes (value ← perform_allowed_read t cartridge io b; mret (value, cartridge)) (read_result_ok cartridge)).
  { apply finishes_bind. eapply finishes_mono; [by apply perform_read_ok|]. intros v Hv. by split. }
  destruct (region t) eqn:Hr; try done; destruct (target_range _ _ _ Ht Hr ltac:(done)) as (Ha & _ & _); cbn in Ha;
    (destruct cartridge as [s|]; [|by split; [apply blocked_u8|]]); cbn [read_cartridge_target_timed].
  - apply finishes_bind. eapply finishes_mono; [apply slot_read_rom_ok; [done | unfold rom_area; lia]|]. intros v Hv. by split.
  - apply finishes_bind. eapply finishes_mono; [apply slot_read_rom_ok; [done | unfold rom_area; lia]|]. intros v Hv. by split.
  - apply finishes_bind. eapply finishes_mono; [apply slot_read_ram_timed_ok; [done | unfold external_area; lia | done]|].
    by intros r Hr'.
Qed.

Lemma read_slow_path_ok a requester state t_cycle cartridge io b :
  u16 a -> dma_bus_ok (dma state) -> 0 <= t_cycle < 2 ^ 63 -> bus_ok b -> cart_typed cartridge -> read_view_ok io ->
  finishes (read_timed_slow_path a requester state t_cycle cartridge io b) (read_result_ok cartridge).
Proof.
  intros Ha Hs Hn Hb Hc Hio. unfold read_timed_slow_path.
  destruct (resolved_read_ok requester a state cartridge b Ha Hs) as [Ht Hd].
  destruct (resolve_requester_access requester AccessRead a state cartridge b) as [? ? ? ? t ? ? ? d]. cbn in *.
  destruct Hd as [->|(reason & ->)]; [by apply perform_read_timed_ok | by split; [apply blocked_u8|]].
Qed.

Lemma read_plain_ok a requester state cartridge io b :
  u16 a -> dma_bus_ok (dma state) -> bus_ok b -> cart_typed cartridge -> read_view_ok io ->
  finishes (read_with_context a requester state cartridge io b) u8.
Proof.
  intros Ha Hs Hb Hc Hio. unfold read_with_context.
  destruct (resolved_read_ok requester a state cartridge b Ha Hs) as [Ht Hd].
  destruct (resolve_requester_access requester AccessRead a state cartridge b) as [? ? ? ? t ? ? ? d]. cbn in *.
  destruct Hd as [->|(reason & ->)]; [by apply perform_read_ok | apply blocked_u8].
Qed.

(** ** Writes *)

Lemma bus_set_iohram_ok b d : bus_ok b -> iohram_ok d -> bus_ok (b <| bus_iohram := d |>).
Proof. by destruct b, 1. Qed.
Lemma bus_set_oam_ok b d : bus_ok b -> oam_ok d -> bus_ok (b <| bus_oam := d |>).
Proof. by destruct b, 1. Qed.
Lemma bus_set_vram_ok b d : bus_ok b -> vram_ok d -> vram_console_model d = vram_console_model (bus_vram b) ->
  bus_ok (b <| bus_vram := d |>).
Proof. destruct b, 1. cbn in *. intros Hd Hm. constructor; try done. cbn. congruence. Qed.
Lemma bus_set_wram_ok b d : bus_ok b -> wram_ok d -> wram_console_model d = wram_console_model (bus_wram b) ->
  bus_ok (b <| bus_wram := d |>).
Proof. destruct b, 1. cbn in *. intros Hd Hm. constructor; try done. cbn. congruence. Qed.

Lemma vram_write_model i v d : finishes (vram_write i v d) (fun d' => vram_console_model d' = vram_console_model d) \/
  exists m, vram_write i v d = Panic m.
Proof. unfold vram_write. destruct (store _ _ _); cbn; [left; by destruct d | eauto]. Qed.

Lemma vram_write_keeps i v d : vram_ok d -> 0 <= i < DMG_VRAM_LEN -> u8 v ->
  finishes (vram_write i v d) (fun d' => vram_ok d' /\ vram_console_model d' = vram_console_model d).
Proof.
  intros Hd Hi Hv. pose proof (vram_write_ok i v d Hd Hi Hv) as Hok.
  destruct (vram_write_model i v d) as [Hm|[m Hm]]; [|by rewrite Hm in Hok]. by destruct (vram_write i v d).
Qed.

Lemma wram_write_keeps a v w : wram_ok w -> wram_area a -> u8 v ->
  finishes (wram_write a v w) (fun w' => wram_ok w' /\ wram_console_model w' = wram_console_model w).
Proof. intros Hw Ha Hv. rewrite wram_write_done by done. split; [by apply wram_set_ok | by destruct w]. Qed.

Lemma write_vbk_model v d : vram_console_model (write_vbk v d) = vram_console_model d.
Proof. unfold write_vbk. destruct (is_cgb_family _); [by destruct d | done]. Qed.
Lemma write_svbk_model v w : wram_console_model (write_svbk v w) = wram_console_model w.
Proof. unfold write_svbk. destruct (is_cgb_family _); [by destruct w | done]. Qed.

Lemma write_key0_ok v d : iohram_ok d -> u8 v -> iohram_ok (write_key0 v d).
Proof.
  intros [Hh Hk Hm Hi] Hv. destruct d. constructor; try done. cbn in *. unfold key0_write_runtime, key0_ok in *.
  by destruct (key0_locked _).
Qed.

Lemma write_misc_ok a v d : iohram_ok d -> u8 v -> iohram_ok (write_cgb_misc_io a v d).
Proof.
  intros [Hh Hk Hm Hi] Hv. destruct d as [? ? mi ?]. constructor; try done. cbn in *. unfold misc_write, misc_ok in *.
  destruct Hm as (? & ? & ? & ?). destruct mi. case_tests; cbn in *; auto with gb.
Qed.

(** What a write leaves behind: the same console with its memories in shape,
    the same board in the slot and the same owners on the port. *)
Definition write_result_ok (b : Bus) (c : option CartridgeSlot) (io : BusIoWriteView P) (r : WriteResult P) : Prop :=
  bus_ok (written_bus r) /\ bus_console_model (written_bus r) = bus_console_model b /\
  cart_step c (written_cartridge r) /\ view_step io (written_io r).

Lemma bus_owned_write_ok a v b : bus_ok b -> u8 v ->
  finishes (write_cgb_bus_owned_io a v b)
    (fun r => opt (fun b' => bus_ok b' /\ bus_console_model b' = bus_console_model b) r).
Proof.
  intros Hb Hv. unfold write_cgb_bus_owned_io. destruct (describe_io_register a) as [info|]; [|done].
  destruct (bus_owned_io (io_kind info)) eqn:Ho; cbn [negb]; [|done].
  destruct (bus_io_live info b); cbn [negb]; [|done].
  assert (Hmodel : forall b', bus_ok b' -> bus_console_model b' = bus_console_model b ->
    bus_ok b' /\ bus_console_model b' = bus_console_model b) by done.
  destruct (io_kind info); try discriminate; (apply Hmodel; [|by destruct b]).
  - apply bus_set_iohram_ok; [done|]. apply write_key0_ok; [apply Hb | done].
  - apply bus_set_vram_ok; [done | apply write_vbk_ok, Hb | apply write_vbk_model].
  - apply bus_set_wram_ok; [done | apply write_svbk_ok, Hb | apply write_svbk_model].
  - apply bus_set_iohram_ok; [done|]. apply write_misc_ok; [apply Hb | done].
  - apply bus_set_iohram_ok; [done|]. apply write_misc_ok; [apply Hb | done].
  - apply bus_set_iohram_ok; [done|]. apply write_misc_ok; [apply Hb | done].
  - apply bus_set_iohram_ok; [done|]. apply write_misc_ok; [apply Hb | done].
Qed.

Lemma write_iohram_target_ok t v cartridge io b :
  target_ok AccessWrite t -> region t = RegionMmio \/ region t = RegionInterruptEnable \/ region t = RegionHram ->
  u8 v -> bus_ok b -> cart_typed cartridge -> write_view_ok io ->
  finishes (write_iohram_target t v cartridge io b) (write_result_ok b cartridge io).
Proof.
  intros Ht Hr Hv Hb Hc Hio. unfold write_iohram_target. apply finishes_bind.
  eapply finishes_mono.
  { instantiate (1 := opt (fun b' => bus_ok b' /\ bus_console_model b' = bus_console_model b)).
    case_bool_decide; [by apply bus_owned_write_ok | done]. }
  intros [b'|]; [by intros [Hb' Hm]|]. intros _. apply finishes_bind.
  eapply finishes_mono; [apply iohram_write_ok; [|done | done | apply Hb]|].
  - destruct Hr as [Hr|[Hr|Hr]]; destruct (target_range _ _ _ Ht Hr ltac:(done)) as (Ha & _ & Hoff); cbn in Ha, Hoff.
    + right. split; [by left | unfold u16; lia].
    + right. split; [by right | unfold u16; lia].
    + left. by split.
  - intros [d io'] [Hd Hio']. split; [by apply bus_set_iohram_ok|]. split; [by destruct b | done].
Qed.

(** A cartridge write that only meets cartridge addresses. *)
Definition cartridge_writer (write : Z -> BusRegion -> Z -> option CartridgeSlot -> outcome (option CartridgeSlot)) : Prop :=
  forall a r v s, cart_typed s -> u8 v ->
    (r = RegionCartridgeRomBank0 \/ r = RegionCartridgeRomBankN) /\ rom_area a \/
    r = RegionCartridgeExternal /\ external_area a -> finishes (write a r v s) (cart_step s).

Lemma write_cartridge_target_ok : cartridge_writer write_cartridge_target.
Proof.
  intros a r v [s|] Hs Hv Ha; [|done]. unfold write_cartridge_target.
  destruct Ha as [[[-> | ->] Ha]|[-> Ha]]; apply finishes_bind;
    (eapply finishes_mono; [(by apply slot_write_rom_ok) || (by apply slot_write_ram_ok) | done]).
Qed.
Lemma write_cartridge_target_timed_ok t : 0 <= t < 2 ^ 63 ->
  cartridge_writer (fun a r v => write_cartridge_target_timed a r v t).
Proof.
  intros Ht a r v [s|] Hs Hv Ha; [|done]. unfold write_cartridge_target_timed.
  destruct Ha as [[[-> | ->] Ha]|[-> Ha]]; apply finishes_bind;
    (eapply finishes_mono; [(by apply slot_write_rom_ok) || (by apply slot_write_ram_timed_ok) | done]).
Qed.

Lemma perform_write_ok write t v cartridge io b :
  cartridge_writer write -> target_ok AccessWrite t -> u8 v -> bus_ok b -> cart_typed cartridge -> write_view_ok io ->
  finishes (perform_allowed_write_with write t v cartridge io b) (write_result_ok b cartridge io).
Proof.
  intros Hw Ht Hv Hb Hc Hio. unfold perform_allowed_write_with.
  assert (Hcart : finishes (write (address t) (region t) v cartridge) (cart_step cartridge) ->
    finishes (c ← write (address t) (region t) v cartridge; mret (mkWritten b c io)) (write_result_ok b cartridge io)).
  { intros Hf. apply finishes_bind. eapply finishes_mono; [exact Hf|]. intros c Hstep. done. }
  destruct (region t) eqn:Hr; [destruct Ht as [[_ ?]|[Ht Ha]]; [done|]; destruct (decode_address_spec _ Ha) as (_ & _ & _ & Hn);
    congruence |..]; (destruct (target_range _ _ _ Ht Hr ltac:(done)) as (Ha & _ & Hoff); cbn in Ha, Hoff).
  - apply Hcart, Hw; [done.. |]. left. split; [by left | unfold rom_area; lia].
  - apply Hcart, Hw; [done.. |]. left. split; [by right | unfold rom_area; lia].
  - apply finishes_bind. eapply finishes_mono; [apply vram_write_keeps; [apply Hb | unfold DMG_VRAM_LEN; lia | done]|].
    intros d [Hd Hm]. split; [by apply bus_set_vram_ok | by destruct b].
  - apply Hcart, Hw; [done.. |]. right. split; [done | unfold external_area; lia].
  - apply finishes_bind. eapply finishes_mono; [apply wram_write_keeps; [apply Hb | unfold wram_area; lia | done]|].
    intros d [Hd Hm]. split; [by apply bus_set_wram_ok | by destruct b].
  - apply finishes_bind. eapply finishes_mono; [apply wram_write_keeps; [apply Hb | unfold wram_area; lia | done]|].
    intros d [Hd Hm]. split; [by apply bus_set_wram_ok | by destruct b].
  - apply finishes_bind. eapply finishes_mono; [apply wram_write_keeps; [apply Hb | unfold wram_area; lia | done]|].
    intros d [Hd Hm]. split; [by apply bus_set_wram_ok | by destruct b].
  - apply finishes_bind. eapply finishes_mono; [apply oam_write_ok; [apply Hb | unfold OAM_LEN; lia | done]|].
    intros d Hd. split; [by apply bus_set_oam_ok | by destruct b].
  - done.
  - apply write_iohram_target_ok; auto.
  - apply write_iohram_target_ok; auto.
  - apply write_iohram_target_ok; auto.
Qed.

Lemma write_with_ok write a v requester state cartridge io b :
  cartridge_writer write -> u16 a -> u8 v -> dma_bus_ok (dma state) -> bus_ok b -> cart_typed cartridge -> write_view_ok io ->
  finishes (write_with (perform_allowed_write_with write) a v requester state cartridge io b) (write_result_ok b cartridge io).
Proof.
  intros Hw Ha Hv Hs Hb Hc Hio. unfold write_with.
  destruct (resolved_write_ok requester a state cartridge b Ha Hs) as [Ht Hd].
  destruct (resolve_requester_access requester AccessWrite a state cartridge b) as [? ? ? ? t ? ? ? d]. cbn in *.
  destruct Hd as [->|(reason & ->)]; [by apply perform_write_ok | done].
Qed.
End Access.

(** ** Resolution while object DMA holds the external bus *)

(** What a CPU access reaches while object DMA holds the external bus: on the
    buses the transfer uses, what the transfer is reading; else high RAM and the
    DMA register. *)
Definition reached_during_object_dma (kind : BusAccessKind) (a : Z) (state : BusArbitrationState) : option BusAddressInfo :=
  if address_uses_hot_cpu_timed_fast_path a
  then option_map (fun c => router_resolve_nominal_target kind c state) (cpu_conflict_source_address (dma state))
  else if in_range a 0xFF80 0xFFFE || (a =? 0xFF46) then Some (decode_address a) else None.

Lemma external_dma_resolution kind a state cartridge b : u16 a ->
  cpu_access_policy (dma state) = ExternalBusBlocked ->
  let r := resolve_requester_access RequesterCpu kind a state cartridge b in
  match reached_during_object_dma kind a state with
  | Some t => target r = t /\ disposition r = Allowed
  | None => disposition r = block_access kind DmaExternalBusConflict
  end.
Proof.
  intros Ha Hp. unfold reached_during_object_dma, resolve_requester_access, cpu_dma_conflict_source_address. rewrite Hp. cbn [negb].
  rewrite bool_decide_eq_true_2 by done. cbn [negb].
  destruct (nominal_target_ok kind a state Ha) as [Ht Hadr]. set (n := router_resolve_nominal_target kind a state) in *.
  assert (Hglobal : evaluate_access_policy RequesterCpu kind n state b =
    if bool_decide (region n = RegionHram) || (a =? 0xFF46) then
      match evaluate_domain_policy RequesterCpu kind n state with
      | Some d => d
      | None => default Allowed (evaluate_unusable_policy RequesterCpu kind n state b)
      end
    else block_access kind DmaExternalBusConflict).
  { unfold evaluate_access_policy, evaluate_global_dma_policy. rewrite Hp, Hadr. cbn. by destruct (_ || _). }
  destruct (address_uses_hot_cpu_timed_fast_path a) eqn:Hfast.
  - destruct (cpu_conflict_source_address (dma state)); cbn; [done|]. rewrite Hglobal.
    destruct (bool_decide_reflect (region n = RegionHram)) as [Hh|]; cbn [orb].
    + destruct (target_range _ _ _ Ht Hh ltac:(done)) as (Hr & _). cbn in Hr. rewrite Hadr in Hr. exfalso. revert Hfast.
      unfold address_uses_hot_cpu_timed_fast_path, HOT_CPU_TIMED_ROM_END, HOT_CPU_TIMED_EXTERNAL_START,
        HOT_CPU_TIMED_EXTERNAL_END, HOT_CPU_TIMED_WRAM_START, HOT_CPU_TIMED_WRAM_ECHO_END.
      rewrite !orb_true_iff, !in_range_spec. lia.
    + destruct (Z.eqb_spec a 0xFF46) as [->|]; [discriminate | done].
  - destruct (in_range a 0xFF80 0xFFFE || (a =? 0xFF46)) eqn:Hopen.
    + assert (Hn : n = decode_address a).
      { destruct Ht as [[Hboot _]|[Hn _]]; [|congruence]. subst n. unfold router_resolve_nominal_target in *.
        destruct (_ && overlays_read _ _) eqn:Hov; [|done]. exfalso. apply andb_prop in Hov as [_ Hov].
        unfold overlays_read in Hov. rewrite orb_true_iff, in_range_spec, Z.eqb_eq in Hopen.
        rewrite orb_true_iff, !andb_true_iff, !Z.leb_le in Hov. lia. }
      assert (Hreg : region n = RegionHram \/ region n = RegionMmio /\ a = 0xFF46).
      { rewrite Hn. rewrite orb_true_iff, in_range_spec, Z.eqb_eq in Hopen. destruct Hopen as [Hin| ->]; [left | by right].
        apply decode_address_region; [done | done | cbn; lia]. }
      cbn. split; [done|]. rewrite Hglobal. unfold evaluate_domain_policy, evaluate_unusable_policy.
      by destruct Hreg as [-> |[-> ->]].
    + cbn. rewrite Hglobal. destruct (bool_decide_reflect (region n = RegionHram)) as [Hh|]; cbn [orb].
      * destruct (target_range _ _ _ Ht Hh ltac:(done)) as (Hr & _). cbn in Hr. rewrite Hadr in Hr.
        rewrite orb_false_iff, in_range_false in Hopen. lia.
      * by apply orb_false_iff in Hopen as [_ ->].
Qed.

(** ** Classification of the CPU's address events *)

Lemma classify_finishes e state b : exists hit, classify_oam_corruption_event e state b = Done hit /\
  (from_option address_may_hit_oam_corruption false (CpuData.access_address e) = false ->
   from_option address_may_hit_oam_corruption false (idu_glitched_address e) = false -> hit = None).
Proof.
  unfold classify_oam_corruption_event, idu_event_reaches_oam.
  destruct (event_kind e) eqn:Hk; cbn [event_has_incdec access_kind_for_cpu_address_event mbind].
  all: destruct (CpuData.access_address e) as [access|], (idu_glitched_address e) as [g|]; cbn.
  all: try (destruct (address_may_hit_oam_corruption access) eqn:?); cbn; try (destruct (address_may_hit_oam_corruption g) eqn:?);
    cbn; rewrite ?andb_false_r; cbn; (eexists; split; [reflexivity | done || congruence]).
Qed.

(** Routing an address event keeps everything of the bus but the bytes of
    object memory. *)
Lemma route_event_keeps {P : Type} `{PpuPortLaws P} e state (p : P) b : bus_ok b -> port_ok p ->
  finishes (route_cpu_address_event e state p b)
    (fun r => bus_ok r.1 /\ port_ok r.2 /\ r.1 = b <| bus_oam := bus_oam r.1 |> /\
              oam_acquired_by (bus_oam r.1) = oam_acquired_by (bus_oam b)).
Proof.
  intros Hb Hp. unfold route_cpu_address_event.
  destruct (negb _); [by destruct b|].
  destruct (classify_finishes e state b) as (hit & -> & _). cbn.
  destruct hit as [k|]; [|by destruct b]. apply finishes_bind.
  destruct (bus_oam_ok _ Hb) as (Hl & Hbytes & Hacq).
  eapply finishes_mono; [by apply (port_corruption_ok k _ p)|]. intros [l p'] (Hl' & Hb' & Hp'). cbn in *.
  split_and!; [apply bus_set_oam_ok; [done | by split] | done | by destruct b | by destruct b].
Qed.

(** ** The bus as a whole *)

Section Whole.
Context {P : Type} `{PpuPortLaws P}.

(** C12. No access to the bus panics: whoever asks, at any address, in any
    arbitration state whose conflict address is a bus address, with any
    cartridge or none, a read gives a byte and leaves the same board in the
    slot, and a write keeps every memory of the bus in shape, the inserted
    board, and the invariants and presence of every register owner.  The
    picture unit's registers are a parameter that keeps [PpuPortLaws]: its own
    reads, writes and object memory corruption are assumed to return typed
    values. *)
Theorem bus_accesses_never_fail a v requester state t_cycle cartridge (rio : BusIoReadView P) (wio : BusIoWriteView P) b :
  u16 a -> u8 v -> dma_bus_ok (dma state) -> 0 <= t_cycle < 2 ^ 63 ->
  bus_ok b -> cart_typed cartridge -> read_view_ok rio -> write_view_ok wio ->
  finishes (read_with_context a requester state cartridge rio b) u8 /\
  finishes (read_with_t_cycle_context a requester state t_cycle cartridge rio b) (read_result_ok cartridge) /\
  finishes (write_with_context a v requester state cartridge wio b) (write_result_ok b cartridge wio) /\
  finishes (write_with_t_cycle_context a v requester state t_cycle cartridge wio b) (write_result_ok b cartridge wio).
Proof.
  intros Ha Hv Hs Ht Hb Hc Hr Hw. split_and!.
  - by apply read_plain_ok.
  - rewrite timed_read_is_slow. by apply read_slow_path_ok.
  - apply write_with_ok; [apply write_cartridge_target_ok | done..].
  - rewrite timed_write_is_slow. apply write_with_ok; [by apply write_cartridge_target_timed_ok | done..].
Qed.

(** C18. What the CPU can reach while object DMA holds the external bus. An
    access to the cartridge or to work RAM is answered by the byte the transfer
    is reading, a write there lands on the transfer's source; high RAM and the
    DMA register itself are served as usual; every other read gives [FF] and
    every other write changes nothing. *)
Theorem cpu_during_object_dma a v state cartridge (rio : BusIoReadView P) (wio : BusIoWriteView P) b :
  u16 a -> cpu_access_policy (dma state) = ExternalBusBlocked ->
  let reached kind := reached_during_object_dma kind a state in
  read_with_context a RequesterCpu state cartridge rio b =
    match reached AccessRead with Some t => perform_allowed_read t cartridge rio b | None => mret BLOCKED_READ_VALUE end /\
  write_with_context a v RequesterCpu state cartridge wio b =
    match reached AccessWrite with
    | Some t => perform_allowed_write t v cartridge wio b
    | None => mret (mkWritten b cartridge wio)
    end.
Proof.
  intros Ha Hp reached.
  assert (Hres : forall kind, let r := resolve_requester_access RequesterCpu kind a state cartridge b in
    match reached kind with
    | Some t => target r = t /\ disposition r = Allowed
    | None => disposition r = block_access kind DmaExternalBusConflict
    end).
  { intros kind. by apply external_dma_resolution. }
  split.
  - unfold read_with_context. specialize (Hres AccessRead). cbv zeta in Hres.
    destruct (reached AccessRead); [by destruct Hres as [-> ->] | by rewrite Hres].
  - unfold write_with_context, write_with. specialize (Hres AccessWrite). cbv zeta in Hres.
    destruct (reached AccessWrite); [by destruct Hres as [-> ->] | by rewrite Hres].
Qed.

(** The object memory bug stays in object memory: routing an address event
    of the CPU never panics and changes nothing of the bus but the bytes of
    object memory; a console of the colour family, and an event whose access
    and whose incremented register both stay out of [FE00]-[FEFF], change
    nothing at all. *)
Theorem object_memory_bug_is_contained e state (p : P) b : bus_ok b -> port_ok p ->
  finishes (route_cpu_address_event e state p b)
    (fun r => bus_ok r.1 /\ port_ok r.2 /\ r.1 = b <| bus_oam := bus_oam r.1 |> /\
              oam_acquired_by (bus_oam r.1) = oam_acquired_by (bus_oam b) /\
              (is_dmg_family (bus_console_model b) = false \/
               from_option address_may_hit_oam_corruption false (CpuData.access_address e) = false /\
               from_option address_may_hit_oam_corruption false (idu_glitched_address e) = false -> r = (b, p))).
Proof.
  intros Hb Hp. pose proof (route_event_keeps e state p b Hb Hp) as Hkeeps. revert Hkeeps. unfold route_cpu_address_event.
  destruct (is_dmg_family (bus_console_model b)) eqn:Hd; cbn [negb]; [|by intros (? & ? & ? & ?)].
  destruct (classify_finishes e state b) as (hit & -> & Hmiss). cbn.
  destruct hit as [k|]; [|by intros (? & ? & ? & ?)]. destruct (ppu_apply_oam_corruption_event k _ p) as [[l p']|]; [|done].
  cbn. intros (? & ? & ? & ?). split_and!; [done..|]. intros [?|[Hacc Hidu]]; [congruence|]. exfalso. by specialize (Hmiss Hacc Hidu).
Qed.
End Whole.

(** ** Concrete instances *)

Lemma bus_new_ok m r o : bus_ok (bus_new_with_revision_and_operating_mode m r o).
Proof.
  constructor; try done.
  - split_and!; try done. by apply bytes_zeroed.
  - split_and!; try done. by apply bytes_zeroed.
  - split_and!; try done. by apply bytes_zeroed.
  - constructor; try (vm_compute; intuition congruence). split; [done | apply bytes_zeroed].
Qed.

(** The smallest picture unit: a register file, without the object memory bug. *)
Definition register_file_port : PpuPort (list Z) := {|
  ppu_read_register_with_source a _ l := mret (default 0xFF (vec_get l (a - 0xFF40)));
  ppu_write_register a v l := mret (vec_set l (a - 0xFF40) v);
  ppu_apply_oam_corruption_event _ oam l := mret (oam, l)
|}.
Definition register_file_laws : @PpuPortLaws (list Z) register_file_port.
Proof.
  refine (@Build_PpuPortLaws (list Z) register_file_port bytes _ _ _).
  - intros a source l Hl. exact (byte_or_absent_u8 l (a - 0xFF40) Hl).
  - intros a v l Hl Hv. by apply bytes_set.
  - intros kind l p Hp Hl Hlen. by split_and!.
Defined.

Definition sample_read_view : BusIoReadView (list Z) :=
  mkReadView None None None None None (Some (interrupts_new GameBoy)) 0 None (Some (vec_zeroed 48)) None false.
Definition sample_write_view : BusIoWriteView (list Z) :=
  mkWriteView None None None None None (Some (interrupts_new GameBoy)) None (Some (vec_zeroed 48)) None (Some false).
Definition sample_bus : Bus := bus_new GameBoy.
(** Object DMA reading [C123], with the display off. *)
Definition sample_dma_state : BusArbitrationState :=
  mkArbitration unmapped lcd_disabled (mkDmaBus ExternalBusBlocked (Some ImpactOam) (Some 0xC123)).

Lemma sample_read_view_ok : @read_view_ok (list Z) register_file_port register_file_laws sample_read_view.
Proof. constructor; try done. by apply bytes_zeroed. Qed.
Lemma sample_write_view_ok : @write_view_ok (list Z) register_file_port register_file_laws sample_write_view.
Proof. constructor; try done. by apply bytes_zeroed. Qed.

Lemma bus_accesses_never_fail_witness :
  bus_ok sample_bus /\ exists r,
  @write_with_t_cycle_context (list Z) register_file_port 0xFF41 0x40 RequesterCpu arbitration_default 8 None
    sample_write_view sample_bus = Done r /\ bus_ok (written_bus r).
Proof.
  pose proof (@bus_accesses_never_fail (list Z) register_file_port register_file_laws 0xFF41 0x40 RequesterCpu
    arbitration_default 8 None sample_read_view sample_write_view sample_bus ltac:(by vm_compute) ltac:(by vm_compute)
    ltac:(done) ltac:(lia) (bus_new_ok _ _ _) ltac:(done) sample_read_view_ok sample_write_view_ok) as (_ & _ & _ & Hw).
  split; [apply bus_new_ok|]. destruct (finishes_done _ _ Hw) as (r & -> & Hr & _). by exists r.
Defined.

(** The byte under the transfer answers a CPU read of ROM, high RAM is open and
    video RAM is not. *)
Lemma cpu_during_object_dma_witness :
  let read a := @read_with_context (list Z) register_file_port a RequesterCpu sample_dma_state None sample_read_view
    (sample_bus <| bus_wram := mkWram GameBoy 0 (vec_set (vec_zeroed CGB_WRAM_LEN) 0x123 0x5A) |>) in
  read 0x0150 = Done 0x5A /\ read 0xFF80 = Done 0 /\ read 0x8000 = Done 0xFF.
Proof.
  intros read. assert (Hrun : forall a (Ha : u16 a), _) by
    exact (fun a Ha => proj1 (@cpu_during_object_dma (list Z) register_file_port a 0 sample_dma_state None sample_read_view
      sample_write_view (sample_bus <| bus_wram := mkWram GameBoy 0 (vec_set (vec_zeroed CGB_WRAM_LEN) 0x123 0x5A) |>)
      Ha eq_refl)).
  cbv zeta in Hrun. unfold read. rewrite !Hrun by (by vm_compute). by vm_compute.
Defined.

Lemma object_memory_bug_is_contained_witness :
  let event := mkAddressEvent EventRead (Some 0xC000) None None in
  @route_cpu_address_event (list Z) register_file_port event arbitration_default (vec_zeroed 48) sample_bus =
    Done (sample_bus, vec_zeroed 48).
Proof.
  intros event.
  pose proof (@object_memory_bug_is_contained (list Z) register_file_port register_file_laws event arbitration_default
    (vec_zeroed 48) sample_bus (bus_new_ok _ _ _) (bytes_zeroed 48)) as Hc.
  destruct (route_cpu_address_event _ _ _ _) as [r|]; [|done]. cbn [finishes] in Hc. destruct Hc as (_ & _ & _ & _ & Heq).
  f_equal. apply Heq. right. split; reflexivity.
Defined.
