(* ===== verification/Printer.v ===== *)
(** * The Game Boy Printer ([crates/gb-core/src/external_port/printer.rs], [printer/device.rs], [printer/parser.rs], [printer/render.rs])

    The packet parser that the serial port feeds byte by byte, the commands, the
    run-length decoder, the status byte and the rendering of a printed page. *)

From Stdlib Require Import ZArith Lia Bool String.
From stdpp Require Import base decidable list option.
From S2P Require Import Prelude.
From S2P Require Import Cartridge.
From S2P Require Import Vectors.

Local Open Scope Z_scope.

(** ** Data *)

Definition PRINTER_MAGIC_0 : Z := 0x88.
Definition PRINTER_MAGIC_1 : Z := 0x33.
Definition PRINTER_PACKET_TIMEOUT_T_CYCLES : Z := 419430.
Definition PRINTER_MAX_DATA_PACKET_BYTES : Z := 0x280.
Definition PRINTER_IMAGE_BUFFER_CAPACITY_BYTES : Z := 8000.
Definition PRINTER_TILE_WIDTH : Z := 20.
Definition PRINTER_PAGE_WIDTH_PIXELS : Z := 160.

Inductive PrinterCommand := CommandInitialize | CommandPrint | CommandData | CommandStatus.

Record PrinterMargins := mkMargins { margin_before : Z; margin_after : Z }.
Record PrinterPrintArgs := mkPrintArgs {
  sheets : Z;
  margins : PrinterMargins;
  print_palette : Z;
  exposure : Z
}.
Record PrintedPage := mkPage {
  page_width : Z;
  page_height : Z;
  pixels : list Z;
  page_args : PrinterPrintArgs
}.
Record PrinterStatusBits := mkStatus {
  low_battery : bool;
  other_error : bool;
  paper_jam : bool;
  packet_error : bool;
  unprocessed_data : bool;
  image_data_full : bool;
  currently_printing : bool;
  checksum_error : bool
}.

Inductive PrinterParserState :=
| AwaitMagic0
| AwaitMagic1
| AwaitCommand
| AwaitCompressionFlag (command : Z)
| AwaitLengthLo (command compression_flag : Z)
| AwaitLengthHi (command compression_flag data_len_lo : Z)
| ReceiveData (command compression_flag expected_data_len received_len : Z)
| AwaitChecksumLo (command compression_flag expected_data_len : Z)
| AwaitChecksumHi (command compression_flag expected_data_len checksum_lo : Z).

Inductive PrinterProcessingState :=
| PrinterIdle | DataBuffered | PrintingPendingStatus | Printing | PrintComplete.

Record PrinterDevice := mkPrinter {
  parser_state : PrinterParserState;
  processing_state : PrinterProcessingState;
  staged_response_byte : Z;
  response_queue : list Z;
  image_buffer : list Z;
  packet_data : list Z;
  packet_checksum_sum : Z;
  last_print_args : option PrinterPrintArgs;
  printed_pages : list PrintedPage;
  printer_status : PrinterStatusBits;
  packet_timeout_t_cycles : Z;
  print_armed : bool
}.

#[export] Instance upd_parser_state : Update parser_state := fun v d =>
  let '(mkPrinter _ b c e f g h i j k l m) := d in mkPrinter v b c e f g h i j k l m.
#[export] Instance upd_processing_state : Update processing_state := fun v d =>
  let '(mkPrinter a _ c e f g h i j k l m) := d in mkPrinter a v c e f g h i j k l m.
#[export] Instance upd_staged_response_byte : Update staged_response_byte := fun v d =>
  let '(mkPrinter a b _ e f g h i j k l m) := d in mkPrinter a b v e f g h i j k l m.
#[export] Instance upd_response_queue : Update response_queue := fun v d =>
  let '(mkPrinter a b c _ f g h i j k l m) := d in mkPrinter a b c v f g h i j k l m.
#[export] Instance upd_image_buffer : Update image_buffer := fun v d =>
  let '(mkPrinter a b c e _ g h i j k l m) := d in mkPrinter a b c e v g h i j k l m.
#[export] Instance upd_packet_data : Update packet_data := fun v d =>
  let '(mkPrinter a b c e f _ h i j k l m) := d in mkPrinter a b c e f v h i j k l m.
#[export] Instance upd_packet_checksum_sum : Update packet_checksum_sum := fun v d =>
  let '(mkPrinter a b c e f g _ i j k l m) := d in mkPrinter a b c e f g v i j k l m.
#[export] Instance upd_last_print_args : Update last_print_args := fun v d =>
  let '(mkPrinter a b c e f g h _ j k l m) := d in mkPrinter a b c e f g h v j k l m.
#[export] Instance upd_printed_pages : Update printed_pages := fun v d =>
  let '(mkPrinter a b c e f g h i _ k l m) := d in mkPrinter a b c e f g h i v k l m.
#[export] Instance upd_printer_status : Update printer_status := fun v d =>
  let '(mkPrinter a b c e f g h i j _ l m) := d in mkPrinter a b c e f g h i j v l m.
#[export] Instance upd_packet_timeout_t_cycles : Update packet_timeout_t_cycles := fun v d =>
  let '(mkPrinter a b c e f g h i j k _ m) := d in mkPrinter a b c e f g h i j k v m.
#[export] Instance upd_print_armed : Update print_armed := fun v d =>
  let '(mkPrinter a b c e f g h i j k l _) := d in mkPrinter a b c e f g h i j k l v.

#[export] Instance upd_packet_error : Update packet_error := fun v s =>
  let '(mkStatus a b c _ e f g h) := s in mkStatus a b c v e f g h.
#[export] Instance upd_checksum_error : Update checksum_error := fun v s =>
  let '(mkStatus a b c d e f g _) := s in mkStatus a b c d e f g v.

Definition status_default : PrinterStatusBits := mkStatus false false false false false false false false.

Definition command_from_byte (byte : Z) : option PrinterCommand :=
  if byte =? 0x01 then Some CommandInitialize
  else if byte =? 0x02 then Some CommandPrint
  else if byte =? 0x04 then Some CommandData
  else if byte =? 0x0F then Some CommandStatus else None.

Definition margins_from_byte (byte : Z) : PrinterMargins := mkMargins (Z.shiftr byte 4) (Z.land byte 0x0F).

Definition status_to_byte (s : PrinterStatusBits) : Z :=
  let shift b n := Z.shiftl (u8_from_bool b) n in
  Z.lor (Z.lor (Z.lor (Z.lor (Z.lor (Z.lor (Z.lor
    (shift (low_battery s) 7) (shift (other_error s) 6)) (shift (paper_jam s) 5)) (shift (packet_error s) 4))
    (shift (unprocessed_data s) 3)) (shift (image_data_full s) 2)) (shift (currently_printing s) 1))
    (u8_from_bool (checksum_error s)).

(** ** The device *)

Definition printer_new : PrinterDevice :=
  mkPrinter AwaitMagic0 PrinterIdle 0 [] [] [] 0 None [] status_default 0 false.

(** The printed pages stay. *)
Definition reset_to_initialized_state (d : PrinterDevice) : PrinterDevice :=
  mkPrinter AwaitMagic0 PrinterIdle 0 [] [] [] 0 None (printed_pages d) status_default 0 false.

Definition printer_tick_t_cycle (d : PrinterDevice) : PrinterDevice :=
  match parser_state d with
  | AwaitMagic0 => d
  | _ =>
      let d := d <| packet_timeout_t_cycles := Z.min (packet_timeout_t_cycles d + 1) 0xFFFFFFFF |> in
      if PRINTER_PACKET_TIMEOUT_T_CYCLES <=? packet_timeout_t_cycles d then reset_to_initialized_state d else d
  end.

Definition recompute_status (d : PrinterDevice) : PrinterDevice :=
  let filled := negb (bool_decide (image_buffer d = [])) in
  let '(unprocessed, full, printing) :=
    match processing_state d with
    | PrinterIdle => (false, false, false)
    | DataBuffered | PrintingPendingStatus => (filled, false, false)
    | Printing => (false, filled, true)
    | PrintComplete => (false, filled, false)
    end in
  let full := if PRINTER_IMAGE_BUFFER_CAPACITY_BYTES <=? vec_len (image_buffer d) then true else full in
  d <| printer_status := mkStatus false false false (packet_error (printer_status d)) unprocessed full printing
                           (checksum_error (printer_status d)) |>.

(** ** Rendering *)

(** [div_ceil] on [usize]. *)
Definition ceil_div (a b : Z) : Z := (a + b - 1) / b.

Definition render_pixel (plane_lo plane_hi tile_x tile_y row bit : Z) (pixels : list Z) : outcome (list Z) :=
  let shift := 7 - bit in
  let color := Z.lor (Z.land (Z.shiftr plane_lo shift) 1) (Z.shiftl (Z.land (Z.shiftr plane_hi shift) 1) 1) in
  let x := tile_x * 8 + bit in
  let y := tile_y * 8 + row in
  store pixels (y * PRINTER_PAGE_WIDTH_PIXELS + x) color.

Definition render_row (image_buffer : list Z) (tile_index row : Z) (pixels : list Z) : outcome (list Z) :=
  let tile_base := tile_index * 16 in
  plane_lo ← vec_index image_buffer (tile_base + row * 2);
  plane_hi ← vec_index image_buffer (tile_base + row * 2 + 1);
  for_range 8 (render_pixel plane_lo plane_hi (tile_index mod PRINTER_TILE_WIDTH) (tile_index / PRINTER_TILE_WIDTH) row)
    pixels.

Definition render_printed_page (image_buffer : list Z) (print_args : PrinterPrintArgs) : outcome PrintedPage :=
  let total_tiles := vec_len image_buffer / 16 in
  let tile_rows := ceil_div total_tiles PRINTER_TILE_WIDTH in
  let height := as_u16 (tile_rows * 8) in
  pixels ← for_range total_tiles (fun tile_index => for_range 8 (render_row image_buffer tile_index))
             (vec_zeroed (PRINTER_PAGE_WIDTH_PIXELS * height));
  mret (mkPage PRINTER_PAGE_WIDTH_PIXELS height pixels print_args).

(** ** Commands *)

Definition handle_print (command_data : list Z) (d : PrinterDevice) : outcome PrinterDevice :=
  match command_data with
  | [sheet_count; margin; palette; exposed] =>
      let print_args := mkPrintArgs sheet_count (margins_from_byte margin) palette exposed in
      let d := d <| last_print_args := Some print_args |> in
      if bool_decide (image_buffer d = []) || negb (print_armed d) then mret (recompute_status d)
      else
        let d := d <| processing_state := PrintingPendingStatus |> <| print_armed := false |> in
        d ← (if negb (sheets print_args =? 0) then
               page ← render_printed_page (image_buffer d) print_args;
               mret (d <| printed_pages := (printed_pages d ++ [page])%list |>)
             else mret d);
        mret (recompute_status d)
  | _ => mret (d <| printer_status := (printer_status d) <| packet_error := true |> |>)
  end.

Definition handle_data (command_data : list Z) (d : PrinterDevice) : PrinterDevice :=
  if bool_decide (command_data = []) then
    recompute_status (if negb (bool_decide (image_buffer d = [])) then d <| print_armed := true |> else d)
  else
    let available_space := Z.max 0 (PRINTER_IMAGE_BUFFER_CAPACITY_BYTES - vec_len (image_buffer d)) in
    let accepted_len := Z.min available_space (vec_len command_data) in
    let d := d <| image_buffer := (image_buffer d ++ take (Z.to_nat accepted_len) command_data)%list |> in
    recompute_status (d <| processing_state := DataBuffered |> <| print_armed := false |>).

Definition handle_status_command (d : PrinterDevice) : PrinterDevice :=
  match processing_state d with
  | PrintingPendingStatus => recompute_status (d <| processing_state := Printing |>)
  | Printing => recompute_status (d <| processing_state := PrintComplete |>)
  | _ => d
  end.

Definition execute_command (c : PrinterCommand) (command_data : list Z) (d : PrinterDevice) : outcome PrinterDevice :=
  match c with
  | CommandInitialize => mret (reset_to_initialized_state d)
  | CommandPrint => handle_print command_data d
  | CommandData => mret (handle_data command_data d)
  | CommandStatus => mret (handle_status_command d)
  end.

Definition queue_response (alive_indicator status : Z) (d : PrinterDevice) : PrinterDevice :=
  d <| response_queue := (response_queue d ++ [alive_indicator; status])%list |>.

(** ** Packets *)

Definition command_payload_len_is_valid (c : PrinterCommand) (len : Z) : bool :=
  match c with
  | CommandInitialize | CommandStatus => len =? 0
  | CommandPrint => len =? 4
  | CommandData => len <=? PRINTER_MAX_DATA_PACKET_BYTES
  end.

(** The loop of [decode_compressed_data_packet] on what is left of the data;
    every round takes at least one byte, so the length of the data is fuel
    enough. *)
Fixpoint decode_loop (fuel : nat) (data decoded : list Z) : option (list Z) :=
  match fuel, data with
  | _, [] => Some decoded
  | O, _ => None
  | S fuel, control :: rest =>
      if Z.land control 0x80 =? 0 then
        let len := Z.land control 0x7F + 1 in
        if (vec_len rest <? len) || (PRINTER_MAX_DATA_PACKET_BYTES <? vec_len decoded + len) then None
        else decode_loop fuel (drop (Z.to_nat len) rest) (decoded ++ take (Z.to_nat len) rest)
      else
        let len := Z.land control 0x7F + 2 in
        match rest with
        | [] => None
        | byte :: rest =>
            if PRINTER_MAX_DATA_PACKET_BYTES <? vec_len decoded + len then None
            else decode_loop fuel rest (decoded ++ replicate (Z.to_nat len) byte)
        end
  end.
Definition decode_compressed_data_packet (data : list Z) : option (list Z) := decode_loop (length data) data [].

Definition clear_current_packet (d : PrinterDevice) : PrinterDevice :=
  d <| packet_data := [] |> <| packet_checksum_sum := 0 |>.

Definition respond_with_status (d : PrinterDevice) : PrinterDevice :=
  clear_current_packet (queue_response 0x81 (status_to_byte (printer_status d)) d).

Definition reject_current_packet (d : PrinterDevice) : PrinterDevice :=
  respond_with_status (d <| printer_status := (printer_status d) <| packet_error := true |> |>).

(** The data a command is given, [None] when its packet is rejected. *)
Definition packet_payload (c : PrinterCommand) (compression_flag : Z) (data : list Z) : option (list Z) :=
  match c with
  | CommandData =>
      if compression_flag =? 0x00 then Some data
      else if compression_flag =? 0x01 then decode_compressed_data_packet data else None
  | _ => if compression_flag =? 0x00 then Some data else None
  end.

Definition finish_packet (command compression_flag expected_data_len checksum : Z) (d : PrinterDevice) : outcome PrinterDevice :=
  let d := d <| parser_state := AwaitMagic0 |> in
  let command_data := drop 4 (packet_data d) in
  if negb (vec_len command_data =? expected_data_len) then Panic "assertion `left == right` failed"
  else if negb (checksum =? packet_checksum_sum d) then
    mret (respond_with_status (d <| printer_status := (printer_status d) <| checksum_error := true |> |>))
  else
    let d := d <| printer_status := (printer_status d) <| checksum_error := false |> |> in
    match command_from_byte command with
    | None => mret (reject_current_packet d)
    | Some c =>
        match packet_payload c compression_flag command_data with
        | None => mret (reject_current_packet d)
        | Some command_data =>
            if negb (command_payload_len_is_valid c (vec_len command_data)) then mret (reject_current_packet d)
            else
              d ← execute_command c command_data (d <| printer_status := (printer_status d) <| packet_error := false |> |>);
              mret (respond_with_status d)
        end
    end.

(** A byte of the packet: kept and added to the checksum. *)
Definition push_packet_byte (byte : Z) (d : PrinterDevice) : PrinterDevice :=
  d <| packet_data := (packet_data d ++ [byte])%list |>
    <| packet_checksum_sum := wrapping_add16 (packet_checksum_sum d) byte |>.

Definition consume_byte (byte : Z) (d : PrinterDevice) : outcome PrinterDevice :=
  match parser_state d with
  | AwaitMagic0 => mret (if byte =? PRINTER_MAGIC_0 then d <| parser_state := AwaitMagic1 |> else d)
  | AwaitMagic1 =>
      mret (if byte =? PRINTER_MAGIC_1 then (clear_current_packet d) <| parser_state := AwaitCommand |>
            else if byte =? PRINTER_MAGIC_0 then d <| parser_state := AwaitMagic1 |>
            else d <| parser_state := AwaitMagic0 |>)
  | AwaitCommand => mret ((push_packet_byte byte d) <| parser_state := AwaitCompressionFlag byte |>)
  | AwaitCompressionFlag command => mret ((push_packet_byte byte d) <| parser_state := AwaitLengthLo command byte |>)
  | AwaitLengthLo command flag => mret ((push_packet_byte byte d) <| parser_state := AwaitLengthHi command flag byte |>)
  | AwaitLengthHi command flag data_len_lo =>
      let expected_data_len := from_be_bytes byte data_len_lo in
      mret ((push_packet_byte byte d) <| parser_state :=
              if expected_data_len =? 0 then AwaitChecksumLo command flag expected_data_len
              else ReceiveData command flag expected_data_len 0 |>)
  | ReceiveData command flag expected_data_len received_len =>
      let d := push_packet_byte byte d in
      if 0xFFFF <? received_len + 1 then Panic "attempt to add with overflow"
      else
        let received_len := received_len + 1 in
        mret (d <| parser_state :=
                if received_len =? expected_data_len then AwaitChecksumLo command flag expected_data_len
                else ReceiveData command flag expected_data_len received_len |>)
  | AwaitChecksumLo command flag expected_data_len =>
      mret (d <| parser_state := AwaitChecksumHi command flag expected_data_len byte |>)
  | AwaitChecksumHi command flag expected_data_len checksum_lo =>
      finish_packet command flag expected_data_len (from_be_bytes byte checksum_lo) d
  end.

Definition receive_serial_byte (byte : Z) (d : PrinterDevice) : outcome PrinterDevice :=
  d ← consume_byte byte (d <| packet_timeout_t_cycles := 0 |>);
  mret match response_queue d with
       | next_response_byte :: queue => d <| response_queue := queue |> <| staged_response_byte := next_response_byte |>
       | [] => d <| staged_response_byte := 0x00 |>
       end.

Definition printer_take_printed_pages (d : PrinterDevice) : PrinterDevice * list PrintedPage :=
  (d <| printed_pages := [] |>, printed_pages d).

Record PrinterSnapshot := mkPrinterSnapshot {
  snap_parser_state : PrinterParserState;
  snap_status : PrinterStatusBits;
  snap_staged_response_byte : Z;
  response_queue_len : Z;
  image_buffer_len : Z;
  snap_print_armed : bool;
  snap_packet_timeout_t_cycles : Z;
  completed_page_count : Z
}.
Definition printer_snapshot (d : PrinterDevice) : PrinterSnapshot :=
  mkPrinterSnapshot (parser_state d) (printer_status d) (staged_response_byte d) (vec_len (response_queue d))
    (vec_len (image_buffer d)) (print_armed d) (packet_timeout_t_cycles d) (Z.of_nat (length (printed_pages d))).

(** ** A printed page shows the image *)

(** The byte of the image, [0] past its end. *)
Definition image_byte (image : list Z) (i : Z) : Z := default 0 (vec_get image i).
(** The colour of the pixel at [x], [y]: tiles of 8 by 8 pixels, 20 to a row,
    two bit planes, the leftmost pixel in the highest bit. *)
Definition page_color (image : list Z) (x y : Z) : Z :=
  let tile := (y / 8) * 20 + x / 8 in
  let base := tile * 16 + (y mod 8) * 2 in
  let bit := 7 - x mod 8 in
  Z.b2z (Z.testbit (image_byte image base) bit) + 2 * Z.b2z (Z.testbit (image_byte image (base + 1)) bit).

(** When the three loops paint a pixel. *)
Definition pixel_key (x y : Z) : Z := ((y / 8) * 20 + x / 8) * 64 + (y mod 8) * 8 + x mod 8.

Definition painted (image : list Z) (height k : Z) (pixels : list Z) : Prop :=
  vec_len pixels = 160 * height /\
  forall x y, 0 <= x < 160 -> 0 <= y < height ->
    vec_get pixels (y * 160 + x) = Some (if pixel_key x y <? k then page_color image x y else 0).

Lemma land_bit x n : 0 <= n -> Z.land (Z.shiftr x n) 1 = Z.b2z (Z.testbit x n).
Proof. intros Hn. by rewrite land_01, <- Z.bit0_mod, Z.shiftr_spec, Z.add_0_l by lia. Qed.

Lemma color_of_planes lo hi n : 0 <= n ->
  Z.lor (Z.land (Z.shiftr lo n) 1) (Z.shiftl (Z.land (Z.shiftr hi n) 1) 1) =
  Z.b2z (Z.testbit lo n) + 2 * Z.b2z (Z.testbit hi n).
Proof. intros Hn. rewrite !land_bit by done. by destruct (Z.testbit lo n), (Z.testbit hi n). Qed.

Lemma vec_get_store l i j v : 0 <= i < vec_len l -> 0 <= j ->
  vec_get (vec_set l i v) j = if j =? i then Some v else vec_get l j.
Proof.
  unfold vec_get, vec_set, vec_len. intros Hi Hj. destruct (Z.eqb_spec j i) as [->|].
  - apply list_lookup_insert_eq. lia.
  - apply list_lookup_insert_ne. lia.
Qed.

Lemma pixel_painted image height tile row bit pixels :
  0 <= tile -> (tile / 20) * 8 + 8 <= height -> 0 <= row < 8 -> 0 <= bit < 8 ->
  painted image height (tile * 64 + row * 8 + bit) pixels ->
  finishes (render_pixel (image_byte image (tile * 16 + row * 2)) (image_byte image (tile * 16 + row * 2 + 1))
              (tile mod PRINTER_TILE_WIDTH) (tile / PRINTER_TILE_WIDTH) row bit pixels)
    (painted image height (tile * 64 + row * 8 + (bit + 1))).
Proof.
  intros Ht Hh Hr Hb [Hlen Hpix]. unfold render_pixel, PRINTER_PAGE_WIDTH_PIXELS, PRINTER_TILE_WIDTH. cbv zeta.
  set (px := tile mod 20 * 8 + bit). set (py := tile / 20 * 8 + row).
  assert (Hx : 0 <= px < 160) by (subst px; pose proof (Z.mod_pos_bound tile 20); lia).
  assert (Hy : 0 <= py < height) by (subst py; pose proof (Z.div_pos tile 20); lia).
  assert (Hkey : pixel_key px py = tile * 64 + row * 8 + bit) by (unfold pixel_key; subst px py; divmod_lia).
  assert (Hcol : page_color image px py = Z.b2z (Z.testbit (image_byte image (tile * 16 + row * 2)) (7 - bit)) +
            2 * Z.b2z (Z.testbit (image_byte image (tile * 16 + row * 2 + 1)) (7 - bit))).
  { unfold page_color. replace (py / 8 * 20 + px / 8) with tile by (subst px py; divmod_lia).
    replace (py mod 8) with row by (subst py; divmod_lia). by replace (px mod 8) with bit by (subst px; divmod_lia). }
  rewrite color_of_planes, <- Hcol by lia. rewrite store_done by lia. split; [by rewrite vec_len_set|].
  intros x y Hx' Hy'. rewrite vec_get_store by lia.
  destruct (Z.eqb_spec (y * 160 + x) (py * 160 + px)) as [Heq|Hne].
  - assert (x = px /\ y = py) as [-> ->] by lia. rewrite Hkey. by destruct (Z.ltb_spec (tile * 64 + row * 8 + bit) (tile * 64 + row * 8 + (bit + 1))); [|lia].
  - rewrite Hpix by done. do 2 f_equal. assert (pixel_key x y <> tile * 64 + row * 8 + bit).
    { rewrite <- Hkey. intros Hk. apply Hne. revert Hk. unfold pixel_key. clear - Hx Hy Hx' Hy'.
      pose proof (Z.div_mod x 8). pose proof (Z.div_mod px 8). pose proof (Z.div_mod y 8). pose proof (Z.div_mod py 8).
      pose proof (Z.mod_pos_bound x 8). pose proof (Z.mod_pos_bound px 8). pose proof (Z.mod_pos_bound y 8).
      pose proof (Z.mod_pos_bound py 8). lia. }
    destruct (Z.ltb_spec (pixel_key x y) (tile * 64 + row * 8 + bit)), (Z.ltb_spec (pixel_key x y) (tile * 64 + row * 8 + (bit + 1))); lia || done.
Qed.

(** A page: 160 pixels wide, whole rows of tiles, colours 0 to 3. *)
Definition page_ok (p : PrintedPage) : Prop :=
  page_width p = 160 /\ 0 <= page_height p <= 200 /\ vec_len (pixels p) = 160 * page_height p /\
  Forall (fun c => 0 <= c <= 3) (pixels p).

Definition shows_image (image : list Z) (p : PrintedPage) : Prop :=
  page_width p = 160 /\ page_height p = 8 * ((vec_len image / 16 + 19) / 20) /\
  vec_len (pixels p) = 160 * page_height p /\
  forall x y, 0 <= x < 160 -> 0 <= y < page_height p ->
    vec_get (pixels p) (y * 160 + x) =
      Some (if (y / 8) * 20 + x / 8 <? vec_len image / 16 then page_color image x y else 0).

Lemma image_byte_index image i : 0 <= i < vec_len image -> vec_index image i = Done (image_byte image i).
Proof.
  intros Hi. unfold image_byte, vec_index, vec_get, vec_len in *.
  by destruct (lookup_lt_is_Some_2 image (Z.to_nat i)) as [b ->]; [lia|].
Qed.

Lemma vec_get_zeroed n i : 0 <= i < n -> vec_get (vec_zeroed n) i = Some 0.
Proof. intros. unfold vec_get, vec_zeroed. by rewrite lookup_replicate_2 by lia. Qed.

Lemma tile_painted image height tile pixels :
  0 <= tile < vec_len image / 16 -> (tile / 20) * 8 + 8 <= height -> painted image height (tile * 64) pixels ->
  finishes (for_range 8 (render_row image tile) pixels) (painted image height ((tile + 1) * 64)).
Proof.
  intros Ht Hh Hp. assert (Hbase : tile * 16 + 16 <= vec_len image) by divmod_lia.
  replace ((tile + 1) * 64) with (tile * 64 + 8 * 8) by lia.
  apply (for_range_ok (fun row => painted image height (tile * 64 + row * 8))); [lia | by rewrite Z.add_0_r|].
  intros row px Hr Hpx. unfold render_row. cbv zeta. rewrite !image_byte_index by lia. cbn [mbind outcome_bind].
  replace (tile * 64 + (row + 1) * 8) with (tile * 64 + row * 8 + 8) by lia.
  apply (for_range_ok (fun bit => painted image height (tile * 64 + row * 8 + bit))); [lia | by rewrite Z.add_0_r|].
  intros bit px' Hb Hpx'. apply pixel_painted; (done || lia).
Qed.

Lemma render_shows_image image args : vec_len image <= PRINTER_IMAGE_BUFFER_CAPACITY_BYTES ->
  finishes (render_printed_page image args) (fun p => shows_image image p /\ page_args p = args).
Proof.
  unfold PRINTER_IMAGE_BUFFER_CAPACITY_BYTES. intros Hlen. pose proof (vec_len_nonneg image) as Hpos.
  unfold render_printed_page, ceil_div, PRINTER_TILE_WIDTH, PRINTER_PAGE_WIDTH_PIXELS. cbv zeta.
  set (tiles := vec_len image / 16) in *. assert (Htiles : 0 <= tiles <= 500) by (subst tiles; divmod_lia).
  assert (Hheight : as_u16 ((tiles + 20 - 1) / 20 * 8) = 8 * ((tiles + 19) / 20)).
  { unfold as_u16. replace (tiles + 20 - 1) with (tiles + 19) by lia. rewrite Z.mod_small; divmod_lia. }
  rewrite Hheight. set (height := 8 * ((tiles + 19) / 20)) in *. assert (Hh : 0 <= height) by (subst height; divmod_lia).
  apply finishes_bind. eapply finishes_mono with (Q := painted image height (tiles * 64)).
  - apply (for_range_ok (fun tile => painted image height (tile * 64))); [lia | |].
    + split; [by rewrite vec_len_zeroed by lia|]. intros x y Hx Hy. rewrite vec_get_zeroed by lia.
      assert (0 <= pixel_key x y) by (unfold pixel_key; divmod_lia). by destruct (Z.ltb_spec (pixel_key x y) (0 * 64)); [lia|].
    + intros tile px Ht Hpx. apply tile_painted; [done | subst height; divmod_lia | done].
  - intros px [Hl Hpx]. cbn. unfold shows_image. cbn. fold tiles. split_and!; try done. intros x y Hx Hy. rewrite Hpx by done.
    do 2 f_equal. unfold pixel_key. pose proof (Z.mod_pos_bound x 8). pose proof (Z.mod_pos_bound y 8).
    destruct (Z.ltb_spec (y / 8 * 20 + x / 8) tiles), (Z.ltb_spec ((y / 8 * 20 + x / 8) * 64 + y mod 8 * 8 + x mod 8) (tiles * 64)); (done || lia).
Qed.

Lemma page_color_range image x y : 0 <= page_color image x y <= 3.
Proof. unfold page_color. by destruct (Z.testbit _ _), (Z.testbit _ _). Qed.

Lemma shows_image_page_ok image p : vec_len image <= 8000 -> shows_image image p -> page_ok p.
Proof.
  intros Hlen (Hw & Hh & Hl & Hp). pose proof (vec_len_nonneg image). split_and!; try done; [divmod_lia..|].
  apply Forall_lookup_2. intros i c Hi. assert (Hi' : (i < length (pixels p))%nat) by (by eapply lookup_lt_Some).
  unfold vec_len in Hl. specialize (Hp (Z.of_nat i mod 160) (Z.of_nat i / 160)).
  assert (Hidx : Z.of_nat i / 160 * 160 + Z.of_nat i mod 160 = Z.of_nat i) by divmod_lia.
  rewrite Hidx in Hp. unfold vec_get in Hp. rewrite Nat2Z.id, Hi in Hp. injection (Hp ltac:(divmod_lia) ltac:(divmod_lia)) as ->.
  case_tests; [apply page_color_range | lia].
Qed.

(** ** Invariant *)

(** What each parser state knows of the packet received so far. *)
Definition parser_ok (s : PrinterParserState) (received : Z) : Prop :=
  match s with
  | AwaitMagic0 | AwaitMagic1 => True
  | AwaitCommand => received = 0
  | AwaitCompressionFlag _ => received = 1
  | AwaitLengthLo _ _ => received = 2
  | AwaitLengthHi _ _ data_len_lo => received = 3 /\ u8 data_len_lo
  | ReceiveData _ _ expected received_len => received = 4 + received_len /\ 0 <= received_len < expected /\ u16 expected
  | AwaitChecksumLo _ _ expected => received = 4 + expected /\ u16 expected
  | AwaitChecksumHi _ _ expected checksum_lo => received = 4 + expected /\ u16 expected /\ u8 checksum_lo
  end.

(** Responses are only pending between packets, and at most one. *)
Definition queue_ok (s : PrinterParserState) (queue : list Z) : Prop :=
  bytes queue /\ match s with AwaitMagic0 => vec_len queue <= 1 | _ => queue = [] end.

Record printer_ok (d : PrinterDevice) : Prop := {
  printer_parser_ok : parser_ok (parser_state d) (vec_len (packet_data d));
  printer_packet_bytes : bytes (packet_data d);
  printer_image_ok : bytes (image_buffer d) /\ vec_len (image_buffer d) <= PRINTER_IMAGE_BUFFER_CAPACITY_BYTES;
  printer_queue_ok : queue_ok (parser_state d) (response_queue d);
  printer_staged_u8 : u8 (staged_response_byte d);
  printer_pages_ok : Forall page_ok (printed_pages d);
  printer_timeout_ok : 0 <= packet_timeout_t_cycles d < PRINTER_PACKET_TIMEOUT_T_CYCLES
}.

Lemma bytes_app l k : bytes l -> bytes k -> bytes (l ++ k).
Proof. apply Forall_app_2. Qed.
Lemma vec_len_app l k : vec_len (l ++ k) = vec_len l + vec_len k.
Proof. unfold vec_len. rewrite length_app. lia. Qed.
Lemma bytes_cons b l : u8 b -> bytes l -> bytes (b :: l).
Proof. by constructor. Qed.
Lemma vec_len_take n l : 0 <= n <= vec_len l -> vec_len (take (Z.to_nat n) l) = n.
Proof. unfold vec_len. intros. rewrite length_take. lia. Qed.
Lemma vec_len_drop n l : 0 <= n <= vec_len l -> vec_len (drop (Z.to_nat n) l) = vec_len l - n.
Proof. unfold vec_len. intros. rewrite length_drop. lia. Qed.

Lemma status_to_byte_u8 s : u8 (status_to_byte s).
Proof. unfold u8. by destruct s as [[] [] [] [] [] [] [] []]. Qed.

(** Between packets, with every response taken. *)
Record idle (d : PrinterDevice) : Prop := {
  idle_ok : printer_ok d;
  idle_parser : parser_state d = AwaitMagic0;
  idle_queue : response_queue d = []
}.

(** Fields outside the invariant can be anything. *)
Ltac keep_idle Hd := destruct Hd as [[] ? ?]; match goal with d : PrinterDevice |- _ => destruct d end; by constructor; [constructor|..].

#[local] Create HintDb printer.

Lemma idle_with_status s d : idle d -> idle (d <| printer_status := s |>).
Proof. intros Hd. keep_idle Hd. Qed.
Lemma idle_with_processing s d : idle d -> idle (d <| processing_state := s |>).
Proof. intros Hd. keep_idle Hd. Qed.
Lemma idle_with_armed a d : idle d -> idle (d <| print_armed := a |>).
Proof. intros Hd. keep_idle Hd. Qed.
Lemma idle_with_args a d : idle d -> idle (d <| last_print_args := a |>).
Proof. intros Hd. keep_idle Hd. Qed.
Lemma idle_recompute d : idle d -> idle (recompute_status d).
Proof. intros Hd. unfold recompute_status. destruct (processing_state d); by apply idle_with_status. Qed.
#[local] Hint Resolve idle_with_status idle_with_processing idle_with_armed idle_with_args idle_recompute : printer.

Lemma idle_with_image image d : idle d -> bytes image -> vec_len image <= PRINTER_IMAGE_BUFFER_CAPACITY_BYTES ->
  idle (d <| image_buffer := image |>).
Proof. intros Hd Hb Hl. keep_idle Hd. Qed.
Lemma idle_with_page p d : idle d -> page_ok p -> idle (d <| printed_pages := (printed_pages d ++ [p])%list |>).
Proof.
  intros [[] ? ?] Hp. destruct d. constructor; [constructor|..]; try done. cbn in *. apply Forall_app_2; [done | by constructor].
Qed.

Lemma reset_idle d : Forall page_ok (printed_pages d) -> idle (reset_to_initialized_state d).
Proof. intros Hd. constructor; [constructor|..]; try done; try (by constructor); by split; [constructor|]. Qed.
Lemma printer_new_ok : printer_ok printer_new.
Proof. apply (reset_idle printer_new). constructor. Qed.

Lemma handle_data_idle data d : idle d -> bytes data -> idle (handle_data data d).
Proof.
  intros Hd Hb. unfold handle_data. case_bool_decide; [case_bool_decide; cbn [negb]; auto with printer|].
  cbv zeta. apply idle_recompute, idle_with_armed, idle_with_processing.
  destruct (printer_image_ok _ (idle_ok _ Hd)) as [Hi Hl]. pose proof (vec_len_nonneg data).
  pose proof (vec_len_nonneg (image_buffer d)). apply idle_with_image; [done | |].
  - apply bytes_app; [done | by apply Forall_take].
  - rewrite vec_len_app, vec_len_take by lia. lia.
Qed.

Lemma handle_print_idle data d : idle d -> finishes (handle_print data d) idle.
Proof.
  intros Hd. unfold handle_print. destruct data as [|a [|b [|c [|e [|]]]]]; try (by apply idle_with_status). cbv zeta.
  destruct (_ || _); [by cbn; auto with printer|].
  match goal with |- context [render_printed_page (image_buffer ?x)] => assert (Hd' : idle x) by auto with printer; generalize dependent x end.
  intros d' Hd'. apply finishes_bind. destruct (negb _); [|by cbn; auto with printer].
  destruct (printer_image_ok _ (idle_ok _ Hd')) as [_ Hl]. apply finishes_bind.
  eapply finishes_mono; [by apply render_shows_image|]. intros p [Hp _]. cbn.
  apply idle_recompute, idle_with_page; [done | by eapply shows_image_page_ok].
Qed.

Lemma execute_command_idle c data d : idle d -> bytes data -> finishes (execute_command c data d) idle.
Proof.
  intros Hd Hb. destruct c; cbn [execute_command].
  - apply reset_idle, Hd.
  - by apply handle_print_idle.
  - by apply handle_data_idle.
  - cbn. unfold handle_status_command. destruct (processing_state d); auto with printer.
Qed.

(** The decoder makes bytes of bytes, and no more than a packet holds. *)
Lemma decode_loop_ok fuel data decoded : bytes data -> bytes decoded -> vec_len decoded <= PRINTER_MAX_DATA_PACKET_BYTES ->
  match decode_loop fuel data decoded with Some l => bytes l /\ vec_len l <= PRINTER_MAX_DATA_PACKET_BYTES | None => True end.
Proof.
  revert data decoded. induction fuel as [|fuel IH]; intros [|control rest] decoded Hd Hdec Hl; try done.
  apply Forall_cons_1 in Hd as [Hc Hrest]. cbn [decode_loop]. rewrite land_7F. pose proof (Z.mod_pos_bound control 128).
  destruct (Z.land control 0x80 =? 0).
  - destruct (Z.ltb_spec (vec_len rest) (control mod 128 + 1)), (Z.ltb_spec PRINTER_MAX_DATA_PACKET_BYTES (vec_len decoded + (control mod 128 + 1)));
      try done. apply IH; [by apply Forall_drop | apply bytes_app; [done | by apply Forall_take] |].
    rewrite vec_len_app, vec_len_take by lia. lia.
  - destruct rest as [|byte rest]; [done|]. apply Forall_cons_1 in Hrest as [Hbyte Hrest].
    destruct (Z.ltb_spec PRINTER_MAX_DATA_PACKET_BYTES (vec_len decoded + (control mod 128 + 2))); [done|].
    apply IH; [done | apply bytes_app; [done | by apply Forall_replicate] |].
    rewrite vec_len_app. unfold vec_len in *. rewrite length_replicate. lia.
Qed.

Lemma packet_payload_bytes c flag data l : bytes data -> packet_payload c flag data = Some l -> bytes l.
Proof.
  intros Hb. unfold packet_payload, decode_compressed_data_packet.
  pose proof (decode_loop_ok (length data) data [] Hb ltac:(constructor) ltac:(done)) as Hdec.
  destruct c; case_tests; intros H; try congruence. rewrite H in Hdec. apply Hdec.
Qed.

(** A packet is over: its response is queued. *)
Definition answered (d : PrinterDevice) : Prop :=
  parser_state d = AwaitMagic0 /\ exists d0, idle d0 /\ d = respond_with_status d0.

Lemma finish_packet_answered command flag expected checksum d :
  printer_ok d -> response_queue d = [] -> vec_len (packet_data d) = 4 + expected -> u16 expected ->
  finishes (finish_packet command flag expected checksum d) answered.
Proof.
  intros Hd Hq Hlen He. unfold finish_packet.
  assert (Hidle : idle (d <| parser_state := AwaitMagic0 |>)).
  { destruct Hd, d. cbn in *. subst. constructor; [constructor|..]; try done. by split; [constructor|]. }
  set (d1 := d <| parser_state := AwaitMagic0 |>) in *.
  assert (Hdata : packet_data d1 = packet_data d) by (by destruct d). assert (Hb : bytes (packet_data d)) by apply Hd.
  rewrite Hdata. clearbody d1. change 4%nat with (Z.to_nat 4). unfold u16 in He.
  rewrite vec_len_drop by lia. rewrite Hlen, Z.add_simpl_l, Z.eqb_refl. cbn [negb].
  assert (Hans : forall x, idle x -> answered (respond_with_status x)).
  { intros x Hx. split; [|by exists x]. destruct Hx as [_ Hp _]. by destruct x. }
  destruct (negb _); [by apply Hans, idle_with_status|]. cbv zeta. apply idle_with_status with (s := (printer_status d1) <| checksum_error := false |>) in Hidle.
  assert (Hreject : forall x, idle x -> answered (reject_current_packet x)) by (intros; by apply Hans, idle_with_status).
  destruct (command_from_byte command) as [c|]; [|by apply Hreject].
  destruct (packet_payload c flag _) as [l|] eqn:Hp; [|by apply Hreject]. destruct (negb _); [by apply Hreject|].
  apply packet_payload_bytes in Hp; [|by apply Forall_drop]. apply finishes_bind.
  eapply finishes_mono; [apply execute_command_idle; [by apply idle_with_status | done]|]. intros. by apply Hans.
Qed.

(** ** The device as a whole *)

Inductive printer_event := ReceiveByte (byte : Z) | PrinterTick | TakePages.
Definition printer_step (e : printer_event) (d : PrinterDevice) : outcome PrinterDevice :=
  match e with
  | ReceiveByte byte => receive_serial_byte byte d
  | PrinterTick => mret (printer_tick_t_cycle d)
  | TakePages => mret (printer_take_printed_pages d).1
  end.
Fixpoint run_printer (l : list printer_event) (d : PrinterDevice) : outcome PrinterDevice :=
  match l with
  | [] => mret d
  | e :: l => d ← printer_step e d; run_printer l d
  end.
Definition event_typed (e : printer_event) : Prop := match e with ReceiveByte byte => u8 byte | _ => True end.

(** Taking one response leaves the queue as the invariant wants it. *)
Definition take_response (d : PrinterDevice) : PrinterDevice :=
  match response_queue d with
  | next_response_byte :: queue => d <| response_queue := queue |> <| staged_response_byte := next_response_byte |>
  | [] => d <| staged_response_byte := 0x00 |>
  end.

Lemma take_response_quiet s d : printer_ok d -> vec_len (response_queue d) <= 1 -> parser_ok s (vec_len (packet_data d)) ->
  printer_ok (take_response (d <| parser_state := s |>)).
Proof.
  intros [? ? ? [Hb _] ? ? ?] Hl Hs. destruct d as [? ? ? queue]. unfold take_response. cbn in *.
  destruct queue as [|b [|]]; [| |unfold vec_len in Hl; cbn in Hl; lia];
    (constructor; try done; cbn; try (by split; [constructor | destruct s])).
  by apply Forall_cons_1 in Hb as [? _].
Qed.

Lemma take_response_answered d : answered d -> printer_ok (take_response d).
Proof.
  intros (_ & d0 & [[? ? [? ?] ? ? ? ?] Hp Hq] & ->). destruct d0. cbn in *. subst. unfold take_response. cbn.
  constructor; try done; try (by constructor).
  split; [|done]. constructor; [apply status_to_byte_u8 | constructor].
Qed.

Lemma push_packet_byte_ok s byte d : printer_ok d -> u8 byte -> response_queue d = [] ->
  parser_ok s (vec_len (packet_data d) + 1) -> printer_ok (take_response ((push_packet_byte byte d) <| parser_state := s |>)).
Proof.
  intros [? Hb [? ?] ? ? ? ?] Hu Hq Hs. destruct d. unfold take_response, push_packet_byte. cbn in *. subst. cbn.
  constructor; try done; cbn; [by rewrite vec_len_app | apply bytes_app; [done | by constructor] |].
  by split; [constructor | destruct s].
Qed.

Lemma receive_serial_byte_ok byte d : printer_ok d -> u8 byte -> finishes (receive_serial_byte byte d) printer_ok.
Proof.
  intros Hd Hb. unfold receive_serial_byte.
  assert (Hd0 : printer_ok (d <| packet_timeout_t_cycles := 0 |>)) by (by destruct d, Hd; constructor).
  set (d0 := d <| packet_timeout_t_cycles := 0 |>) in *. clearbody d0. clear Hd d. rename d0 into d, Hd0 into Hd.
  apply finishes_bind. apply finishes_mono with (Q := fun d => printer_ok (take_response d)); [|done].
  assert (Hself : d = d <| parser_state := parser_state d |>) by (by destruct d).
  pose proof (printer_parser_ok _ Hd) as Hp. destruct (printer_queue_ok _ Hd) as [_ Hq]. unfold consume_byte.
  assert (Hquiet : vec_len (response_queue d) <= 1) by (destruct (parser_state d); (done || by rewrite Hq)).
  destruct (parser_state d) eqn:Hs; cbn [parser_ok] in Hp.
  - cbn. case_tests; [by apply take_response_quiet | rewrite Hself; by apply take_response_quiet].
  - cbn. case_tests; [|by apply take_response_quiet..].
    assert (Hc : printer_ok (clear_current_packet d)).
    { unfold clear_current_packet. destruct Hd, d. cbn in *. subst. constructor; (done || constructor). }
    apply take_response_quiet; [done | by destruct d | by destruct d].
  - cbn. apply push_packet_byte_ok; (done || cbn; lia).
  - cbn. apply push_packet_byte_ok; (done || cbn; lia).
  - cbn. apply push_packet_byte_ok; try done. cbn. split; [lia | done].
  - cbn. destruct Hp as [Hp Hlo]. apply push_packet_byte_ok; try done.
    pose proof (u16_from_be_bytes byte data_len_lo Hb Hlo) as Hu. unfold u16 in Hu.
    destruct (Z.eqb_spec (from_be_bytes byte data_len_lo) 0); cbn; split_and!; (done || lia).
  - destruct Hp as (Hp & Hr & He). unfold u16 in He. destruct (Z.ltb_spec 0xFFFF (received_len + 1)); [lia|]. cbn.
    apply push_packet_byte_ok; try done. destruct (Z.eqb_spec (received_len + 1) expected_data_len); cbn; split_and!; (done || lia).
  - cbn. apply take_response_quiet; [done | done |]. cbn. destruct Hp. by split_and!.
  - destruct Hp as (Hp & He & _). eapply finishes_mono; [by apply finish_packet_answered|]. apply take_response_answered.
Qed.

Lemma printer_step_ok e d : printer_ok d -> event_typed e -> finishes (printer_step e d) printer_ok.
Proof.
  intros Hd He. destruct e; cbn [printer_step].
  - by apply receive_serial_byte_ok.
  - cbn. unfold printer_tick_t_cycle. assert (Hreset : printer_ok (reset_to_initialized_state d)) by apply reset_idle, Hd.
    destruct (parser_state d) eqn:Hs; try done; cbv zeta;
      (destruct (Z.leb_spec PRINTER_PACKET_TIMEOUT_T_CYCLES (packet_timeout_t_cycles (d <| packet_timeout_t_cycles := Z.min (packet_timeout_t_cycles d + 1) 0xFFFFFFFF |>))) as [|Hlt];
       [by destruct d|]; clear Hreset; destruct d, Hd; constructor; try done; cbn in *; lia).
  - cbn. destruct d, Hd; constructor; (done || constructor).
Qed.

(** The printer never fails: from power-on, whatever bytes the console
    clocks in, however the bytes, the ticks and the collection of pages
    interleave, no index, assertion or addition of the device goes wrong; the
    image buffer keeps its capacity, every printed page is a whole picture of
    160 pixels a line in colours 0 to 3, at most one response is pending and
    only between packets, and a packet never stays open for more than the
    timeout without a byte. *)
Theorem printer_never_fails l : Forall event_typed l ->
  exists d, run_printer l printer_new = Done d /\ printer_ok d.
Proof.
  intros Hl. assert (Hrun : forall d, printer_ok d -> finishes (run_printer l d) printer_ok).
  { induction Hl as [|e l He Hl IH]; intros d Hd; cbn [run_printer]; [done|].
    apply finishes_bind. eapply finishes_mono; [by apply printer_step_ok|]. done. }
  apply finishes_done, Hrun, printer_new_ok.
Qed.

Lemma printer_never_fails_witness :
  let l := map ReceiveByte [0x88; 0x33; 0x0F; 0x00; 0x00; 0x00; 0x0F; 0x00] ++ [PrinterTick; TakePages] in
  Forall event_typed l /\ exists d, run_printer l printer_new = Done d /\ staged_response_byte d = 0x81.
Proof.
  intros l. assert (Hl : Forall event_typed l) by (unfold l; cbn [map app]; repeat (apply Forall_cons_2; [vm_compute; intuition congruence|]); apply Forall_nil_2).
  split; [exact Hl|]. destruct (printer_never_fails l Hl) as (d & Hd & _). exists d. split; [exact Hd|].
  revert Hd. vm_compute. intros [= <-]. reflexivity.
Defined.

(** ** Packets on the wire *)

(** The console sends a byte and reads the one the printer had staged. *)
Fixpoint exchange (l : list Z) (d : PrinterDevice) : outcome (list Z * PrinterDevice) :=
  match l with
  | [] => mret ([], d)
  | byte :: l =>
      d' ← receive_serial_byte byte d;
      r ← exchange l d';
      mret (staged_response_byte d :: r.1, r.2)
  end.

Definition packet_header (command flag : Z) (data : list Z) : list Z :=
  [command; flag; low_byte (vec_len data); high_byte (vec_len data)].
Definition wire_checksum (l : list Z) : Z := foldl wrapping_add16 0 l.
Definition packet (command flag : Z) (data : list Z) (checksum : Z) : list Z :=
  [PRINTER_MAGIC_0; PRINTER_MAGIC_1] ++ packet_header command flag data ++ data ++ [low_byte checksum; high_byte checksum].

(** A device that has just received all of a packet but its checksum. *)
Definition holding (l : list Z) (d : PrinterDevice) : PrinterDevice :=
  (d <| packet_data := l |>) <| packet_checksum_sum := wire_checksum l |> <| packet_timeout_t_cycles := 0 |>.

(** What a packet does to the device, its response apart. *)
Definition perform_packet (command flag : Z) (data : list Z) (checksum : Z) (d : PrinterDevice) : outcome PrinterDevice :=
  let sum_error e d := d <| printer_status := (printer_status d) <| checksum_error := e |> |> in
  let packet_error e d := d <| printer_status := (printer_status d) <| packet_error := e |> |> in
  if negb (checksum =? wire_checksum (packet_header command flag data ++ data)) then mret (sum_error true d)
  else
    match (c ← command_from_byte command; l ← packet_payload c flag data;
           if command_payload_len_is_valid c (vec_len l) then Some (c, l) else None) with
    | Some (c, l) => execute_command c l (packet_error false (sum_error false d))
    | None => mret (packet_error true (sum_error false d))
    end.

(** Back to the magic bytes, with nothing pending. *)
Definition settled (d : PrinterDevice) : PrinterDevice :=
  (clear_current_packet d) <| staged_response_byte := 0 |> <| packet_timeout_t_cycles := 0 |>.

Lemma exchange_app l k d : exchange (l ++ k) d =
  r ← exchange l d; s ← exchange k r.2; mret ((r.1 ++ s.1)%list, s.2).
Proof.
  revert d. induction l as [|b l IH]; intros d; cbn.
  - by destruct (exchange k d) as [[]|].
  - destruct (receive_serial_byte b d) as [d'|]; cbn; [|done]. rewrite IH. destruct (exchange l d') as [[]|]; cbn; [|done].
    by destruct (exchange k _) as [[]|].
Qed.

(** The data bytes are collected silently. *)
Lemma exchange_data command flag expected received data d :
  parser_state d = ReceiveData command flag expected received -> response_queue d = [] -> staged_response_byte d = 0 ->
  0 <= received -> data <> [] -> received + vec_len data = expected -> u16 expected ->
  exchange data d = Done (replicate (length data) 0,
    ((d <| parser_state := AwaitChecksumLo command flag expected |>) <| packet_data := (packet_data d ++ data)%list |>)
      <| packet_checksum_sum := foldl wrapping_add16 (packet_checksum_sum d) data |> <| packet_timeout_t_cycles := 0 |>).
Proof.
  revert received d. induction data as [|b data IH]; intros received d Hs Hq Hst Hr Hne Hlen He; [done|].
  unfold u16 in He. unfold vec_len in Hlen. cbn [length] in Hlen. cbn [exchange]. unfold receive_serial_byte, consume_byte.
  destruct d. cbn in *. subst. cbn. destruct (Z.ltb_spec 0xFFFF (received + 1)); [lia|]. cbn.
  destruct data as [|b' data].
  - cbn in *. rewrite (proj2 (Z.eqb_eq _ _)) by lia. done.
  - rewrite (proj2 (Z.eqb_neq _ _)) by (cbn; lia). cbn [mbind outcome_bind mret outcome_ret].
    erewrite IH; cbn; try done; [| lia | unfold vec_len; cbn; lia]. by rewrite <- app_assoc.
Qed.

Lemma exchange_open command flag data d : idle d -> staged_response_byte d = 0 -> vec_len data < 65536 ->
  exchange ([PRINTER_MAGIC_0; PRINTER_MAGIC_1] ++ packet_header command flag data ++ data) d =
  Done (replicate (6 + length data) 0,
        (holding (packet_header command flag data ++ data) d) <| parser_state := AwaitChecksumLo command flag (vec_len data) |>).
Proof.
  intros Hd Hst Hlen. pose proof (vec_len_nonneg data) as Hpos. rewrite app_assoc, exchange_app.
  assert (Hhead : exchange ([PRINTER_MAGIC_0; PRINTER_MAGIC_1] ++ packet_header command flag data) d =
    Done (replicate 6 0, (holding (packet_header command flag data) d) <| parser_state :=
      if vec_len data =? 0 then AwaitChecksumLo command flag (vec_len data) else ReceiveData command flag (vec_len data) 0 |>)).
  { destruct d, Hd as [_ Hp Hq]. cbn in Hp, Hq, Hst. subst.
    cbn -[low_byte high_byte from_be_bytes vec_len wrapping_add16]. by rewrite from_be_bytes_split. }
  rewrite Hhead. cbn [mbind outcome_bind fst snd]. destruct (Z.eqb_spec (vec_len data) 0) as [H0|Hne].
  - assert (data = []) as -> by (destruct data; [done | unfold vec_len in H0; cbn in H0; lia]). cbn. done.
  - erewrite (exchange_data command flag (vec_len data) 0); [ | by destruct d | by destruct d, Hd | by destruct d | lia
      | by intros -> | lia | by unfold u16; lia].
    cbn [mbind outcome_bind mret outcome_ret fst snd]. rewrite replicate_add. f_equal. f_equal.
    by destruct d.
Qed.

Lemma finish_performs command flag data checksum d :
  packet_data d = (packet_header command flag data ++ data)%list ->
  packet_checksum_sum d = wire_checksum (packet_header command flag data ++ data) ->
  finish_packet command flag (vec_len data) checksum d =
    d' ← perform_packet command flag data checksum (d <| parser_state := AwaitMagic0 |>);
    mret (respond_with_status d').
Proof.
  intros Hdata Hsum. unfold finish_packet, perform_packet.
  assert (Hd : packet_data (d <| parser_state := AwaitMagic0 |>) = packet_data d) by (by destruct d).
  assert (Hs : packet_checksum_sum (d <| parser_state := AwaitMagic0 |>) = packet_checksum_sum d) by (by destruct d).
  rewrite Hd, Hs, Hdata, Hsum. cbn [packet_header app drop]. rewrite drop_0. rewrite Z.eqb_refl. cbn [negb].
  destruct (checksum =? _); cbn [negb]; [|done].
  destruct (command_from_byte command) as [c|]; cbn [mbind option_bind]; [|done].
  destruct (packet_payload c flag data) as [l|]; cbn [mbind option_bind]; [|done].
  by destruct (command_payload_len_is_valid c (vec_len l)).
Qed.

Lemma perform_packet_idle command flag data checksum d : idle d -> bytes data ->
  finishes (perform_packet command flag data checksum d) idle.
Proof.
  intros Hd Hb. unfold perform_packet. destruct (negb _); [by cbn; auto with printer|].
  destruct (command_from_byte command) as [c|]; cbn [mbind option_bind]; [|by cbn; auto with printer].
  destruct (packet_payload c flag data) as [l|] eqn:Hl; cbn [mbind option_bind]; [|by cbn; auto with printer].
  destruct (command_payload_len_is_valid c (vec_len l)); [|by cbn; auto with printer].
  apply execute_command_idle; [auto with printer | by eapply packet_payload_bytes].
Qed.

Lemma holding_idle l d : idle d -> bytes l -> idle (holding l d).
Proof. intros [[] ? ?] Hb. destruct d. cbn in *. subst. by constructor; [constructor|..]. Qed.

(** The checksum bytes decide what becomes of the packet. *)
Lemma exchange_close command flag data checksum d d' :
  let l := (packet_header command flag data ++ data)%list in
  idle d -> staged_response_byte d = 0 -> idle d' ->
  perform_packet command flag data checksum (holding l d) = Done d' ->
  exchange ([low_byte checksum; high_byte checksum] ++ [0; 0])
    ((holding l d) <| parser_state := AwaitChecksumLo command flag (vec_len data) |>) =
  Done ([0; 0; 0x81; status_to_byte (printer_status d')], settled d').
Proof.
  intros l [_ Hp Hq] Hst [_ Hp' Hq'] Hperform. cbn [app exchange].
  set (d0 := (holding l d) <| parser_state := _ |>).
  assert (Hlo : receive_serial_byte (low_byte checksum) d0 =
    Done ((holding l d) <| parser_state := AwaitChecksumHi command flag (vec_len data) (low_byte checksum) |>)).
  { subst d0. destruct d. cbn in *. subst. done. }
  rewrite Hlo. cbn [mbind outcome_bind]. set (d1 := (holding l d) <| parser_state := AwaitChecksumHi command flag (vec_len data) (low_byte checksum) |>).
  assert (Hhi : receive_serial_byte (high_byte checksum) d1 = Done (take_response (respond_with_status d'))).
  { unfold receive_serial_byte, consume_byte. replace (d1 <| packet_timeout_t_cycles := 0 |>) with d1 by (by destruct d).
    replace (parser_state d1) with (AwaitChecksumHi command flag (vec_len data) (low_byte checksum)) by (by destruct d).
    rewrite from_be_bytes_split, finish_performs by (by destruct d).
    replace (d1 <| parser_state := AwaitMagic0 |>) with (holding l d) by (destruct d; cbn in *; by subst).
    by rewrite Hperform. }
  rewrite Hhi. cbn [mbind outcome_bind].
  replace (staged_response_byte d0) with 0 by (by destruct d). replace (staged_response_byte d1) with 0 by (by destruct d).
  clear - Hp' Hq'. destruct d'. cbn in *. by subst.
Qed.

(** C26. The printer's protocol on the wire. From rest, any packet (of any
    command, compression flag, data and checksum) is read silently: the console
    gets a zero for each of its bytes, then [81] and the status byte over the two
    bytes that follow. What the packet did is [perform_packet]: a wrong checksum
    or an invalid packet only sets its error bit, a valid one clears both and
    runs its command on its data; and the printer is at rest again. *)
Theorem printer_answers_packets command flag data checksum d :
  idle d -> staged_response_byte d = 0 -> u8 command -> u8 flag -> bytes data -> vec_len data < 65536 ->
  exists d', perform_packet command flag data checksum (holding (packet_header command flag data ++ data) d) = Done d' /\
    idle d' /\
    exchange (packet command flag data checksum ++ [0; 0]) d =
      Done (replicate (8 + length data) 0 ++ [0x81; status_to_byte (printer_status d')], settled d').
Proof.
  intros Hd Hst Hc Hf Hb Hlen. pose proof (vec_len_nonneg data) as Hpos.
  assert (Hl : bytes (packet_header command flag data ++ data)).
  { repeat (apply bytes_cons; [try done; auto with gb|]); [|done]. apply u8_high_byte. unfold u16. lia. }
  destruct (finishes_done _ _ (perform_packet_idle command flag data checksum _ (holding_idle _ _ Hd Hl) Hb)) as (d' & Hrun & Hd').
  exists d'. split; [done|]. split; [done|]. unfold packet. rewrite <- !app_assoc, app_assoc, (app_assoc _ data), <- (app_assoc _ _ data).
  rewrite exchange_app, exchange_open by done. cbn [mbind outcome_bind fst snd].
  rewrite (exchange_close _ _ _ _ _ d') by done. cbn [mbind outcome_bind mret outcome_ret fst snd]. do 2 f_equal.
  change (8 + length data)%nat with (2 + (6 + length data))%nat. rewrite (Nat.add_comm 2), (replicate_add _ 2). by rewrite <- app_assoc.
Qed.

(** An empty data packet answered with a clean status. *)
Lemma printer_answers_packets_witness :
  let d := printer_new in
  idle d /\ exists d', exchange (packet 0x04 0x00 [] 0x04 ++ [0; 0]) d = Done (replicate 8 0 ++ [0x81; 0x00], d').
Proof.
  intros d. assert (Hd : idle d) by (apply (reset_idle d); constructor). split; [exact Hd|].
  destruct (printer_answers_packets 0x04 0x00 [] 0x04 d Hd eq_refl ltac:(by vm_compute) ltac:(by vm_compute) (Forall_nil_2 _)
    ltac:(by vm_compute)) as (d' & Hrun & _ & Hx).
  exists (settled d'). rewrite Hx. revert Hrun. vm_compute. intros [= <-]. reflexivity.
Defined.

(** ** Run-length compression *)

Inductive rle_token := Literal (l : list Z) | Run (count byte : Z).
Definition token_ok (t : rle_token) : Prop :=
  match t with
  | Literal l => 1 <= vec_len l <= 128 /\ bytes l
  | Run count byte => 2 <= count <= 129 /\ u8 byte
  end.
Definition encode_token (t : rle_token) : list Z :=
  match t with
  | Literal l => (vec_len l - 1) :: l
  | Run count byte => [count + 126; byte]
  end.
Definition expand_token (t : rle_token) : list Z :=
  match t with
  | Literal l => l
  | Run count byte => replicate (Z.to_nat count) byte
  end.
Definition encode_tokens (l : list rle_token) : list Z := concat (map encode_token l).
Definition expand_tokens (l : list rle_token) : list Z := concat (map expand_token l).

Lemma control_literal c : u8 c -> (Z.land c 0x80 =? 0) = (c <? 128).
Proof.
  intros Hc. pose proof (forall_below 256 (fun c => eqb (Z.land c 0x80 =? 0) (c <? 128)) eq_refl c Hc) as H.
  by apply eqb_prop.
Qed.

Lemma vec_len_replicate (n : Z) (b : Z) : 0 <= n -> vec_len (replicate (Z.to_nat n) b) = n.
Proof. intros. unfold vec_len. rewrite length_replicate. lia. Qed.

Lemma decode_tokens l fuel decoded : Forall token_ok l -> (length (encode_tokens l) <= fuel)%nat ->
  vec_len (decoded ++ expand_tokens l) <= PRINTER_MAX_DATA_PACKET_BYTES ->
  decode_loop fuel (encode_tokens l) decoded = Some (decoded ++ expand_tokens l)%list.
Proof.
  intros Hl. revert fuel decoded. induction Hl as [|t l Ht Hl IH]; intros fuel decoded Hfuel Hlen.
  { unfold encode_tokens, expand_tokens. cbn. rewrite app_nil_r. by destruct fuel. }
  change (encode_tokens (t :: l)) with (encode_token t ++ encode_tokens l)%list in *.
  change (expand_tokens (t :: l)) with (expand_token t ++ expand_tokens l)%list in *.
  rewrite length_app in Hfuel. rewrite !vec_len_app in Hlen. pose proof (vec_len_nonneg (expand_tokens l)).
  destruct t as [lit|count byte]; destruct Ht as [Ht Hb]; cbn [encode_token expand_token app length] in *.
  - destruct fuel as [|fuel]; [lia|]. cbn [decode_loop]. rewrite control_literal, land_7F, Z.mod_small by (unfold u8; lia).
    rewrite (proj2 (Z.ltb_lt _ _)) by lia. rewrite Z.sub_add, vec_len_app.
    pose proof (vec_len_nonneg (encode_tokens l)).
    rewrite (proj2 (Z.ltb_ge (vec_len lit + _) _)), (proj2 (Z.ltb_ge PRINTER_MAX_DATA_PACKET_BYTES _)) by lia. cbn [orb].
    unfold vec_len at 1 2. rewrite Nat2Z.id, drop_app_length, take_app_length. rewrite IH; [by rewrite <- app_assoc | |].
    + lia.
    + rewrite !vec_len_app. lia.
  - destruct fuel as [|fuel]; [lia|]. cbn [decode_loop app]. rewrite control_literal by (unfold u8; lia).
    rewrite vec_len_replicate in Hlen by lia.
    rewrite (proj2 (Z.ltb_ge _ _)) by lia. rewrite land_7F. replace ((count + 126) mod 128 + 2) with count by divmod_lia.
    rewrite (proj2 (Z.ltb_ge PRINTER_MAX_DATA_PACKET_BYTES _)) by lia. rewrite IH; [by rewrite <- app_assoc | lia |].
    rewrite !vec_len_app, vec_len_replicate by lia. lia.
Qed.

Lemma decoded_tokens fuel data decoded l : bytes data -> vec_len decoded <= PRINTER_MAX_DATA_PACKET_BYTES ->
  decode_loop fuel data decoded = Some l ->
  exists tokens, Forall token_ok tokens /\ data = encode_tokens tokens /\ l = (decoded ++ expand_tokens tokens)%list /\
    vec_len l <= PRINTER_MAX_DATA_PACKET_BYTES.
Proof.
  revert data decoded. induction fuel as [|fuel IH]; intros [|control rest] decoded Hd Hlen Hdec; try done;
    try (injection Hdec as <-; exists []; by rewrite app_nil_r).
  apply Forall_cons_1 in Hd as [Hc Hrest]. cbn [decode_loop] in Hdec.
  rewrite control_literal, land_7F in Hdec by done. unfold u8 in Hc. pose proof (Z.mod_pos_bound control 128).
  destruct (Z.ltb_spec control 128) as [Hlit|Hrun].
  - rewrite Z.mod_small in Hdec by lia.
    destruct (Z.ltb_spec (vec_len rest) (control + 1)), (Z.ltb_spec PRINTER_MAX_DATA_PACKET_BYTES (vec_len decoded + (control + 1)));
      try done. cbn [orb] in Hdec. assert (Htake := vec_len_take (control + 1) rest ltac:(lia)).
    apply IH in Hdec as (tokens & Htok & Hdata & Hl & Hmax); [|by apply Forall_drop | rewrite vec_len_app; lia].
    exists (Literal (take (Z.to_nat (control + 1)) rest) :: tokens). split_and!; [| | |done].
    + constructor; [|done]. split; [rewrite Htake; lia | by apply Forall_take].
    + change (encode_tokens (?t :: ?l)) with (encode_token t ++ encode_tokens l)%list. cbn [encode_token app].
      rewrite Htake, Z.add_simpl_r, <- Hdata. by rewrite take_drop.
    + rewrite Hl, <- app_assoc. done.
  - replace (control mod 128) with (control - 128) in Hdec by divmod_lia. destruct rest as [|byte rest]; [done|].
    apply Forall_cons_1 in Hrest as [Hbyte Hrest].
    destruct (Z.ltb_spec PRINTER_MAX_DATA_PACKET_BYTES (vec_len decoded + (control - 128 + 2))); [done|].
    apply IH in Hdec as (tokens & Htok & Hdata & Hl & Hmax); [|done | rewrite vec_len_app, vec_len_replicate by lia; lia].
    exists (Run (control - 128 + 2) byte :: tokens). split_and!; [| | |done].
    + constructor; [|done]. split; [lia | done].
    + rewrite Hdata. unfold encode_tokens. cbn. do 2 f_equal. lia.
    + rewrite Hl, <- app_assoc. done.
Qed.

(** C28. The decompressor inverts the run-length encoding: data decodes to [l]
    exactly when it is the encoding of some tokens (literals of 1 to 128 bytes,
    runs of 2 to 129) that expand to [l] and [l] fits a packet; every other
    input, truncated or too long, is refused. *)
Theorem printer_decompression_inverts_encoding data l : bytes data ->
  decode_compressed_data_packet data = Some l <->
  exists tokens, Forall token_ok tokens /\ data = encode_tokens tokens /\ l = expand_tokens tokens /\
    vec_len l <= PRINTER_MAX_DATA_PACKET_BYTES.
Proof.
  intros Hd. unfold decode_compressed_data_packet. split.
  - intros Hdec. by apply (decoded_tokens (length data) data []) in Hdec.
  - intros (tokens & Htok & -> & -> & Hlen). by rewrite decode_tokens.
Qed.

Lemma printer_decompression_inverts_encoding_witness :
  bytes [0x82; 0x07; 0x01; 0x09; 0x0A] /\ decode_compressed_data_packet [0x82; 0x07; 0x01; 0x09; 0x0A] = Some [7; 7; 7; 7; 9; 10].
Proof.
  assert (Hb : bytes [0x82; 0x07; 0x01; 0x09; 0x0A]) by (repeat (apply bytes_cons; [split; by vm_compute|]); apply Forall_nil_2).
  split; [exact Hb|]. apply (printer_decompression_inverts_encoding _ _ Hb).
  exists [Run 4 7; Literal [9; 10]]. split; [|split_and!; by vm_compute].
  apply Forall_cons_2; [repeat split; by vm_compute|]. apply Forall_cons_2; [|apply Forall_nil_2]. split; [split; by vm_compute|].
  repeat (apply bytes_cons; [split; by vm_compute|]). apply Forall_nil_2.
Defined.
