(* ===== verification/ExternalPort.v ===== *)
(** * The external port ([crates/gb-core/src/external_port.rs])

    What is plugged into the link port, and how the serial port sees it. *)

From Stdlib Require Import ZArith Lia Bool String.
From stdpp Require Import base decidable list option.
From S2P Require Import Prelude.
From S2P Require Import Serial.
From S2P Require Import Cartridge.
From S2P Require Import Printer.

Local Open Scope Z_scope.

(** ** The ports of the four-player adapter ([link/dmg07.rs]) *)

Inductive Dmg07Port := P1 | P2 | P3 | P4.
#[export] Instance Dmg07Port_eq_dec : EqDecision Dmg07Port.
Proof. solve_decision. Defined.

Definition ALL_PORTS : list Dmg07Port := [P1; P2; P3; P4].
Definition port_index (p : Dmg07Port) : Z := match p with P1 => 0 | P2 => 1 | P3 => 2 | P4 => 3 end.
Definition id_byte (p : Dmg07Port) : Z := port_index p + 1.
Definition connection_bit (p : Dmg07Port) : Z := Z.shiftl 0x10 (port_index p).
Definition from_manifest_name (name : string) : option Dmg07Port :=
  if String.eqb name "p1" || String.eqb name "P1" then Some P1
  else if String.eqb name "p2" || String.eqb name "P2" then Some P2
  else if String.eqb name "p3" || String.eqb name "P3" then Some P3
  else if String.eqb name "p4" || String.eqb name "P4" then Some P4
  else None.
Definition manifest_name (p : Dmg07Port) : string :=
  match p with P1 => "p1" | P2 => "p2" | P3 => "p3" | P4 => "p4" end.

(** ** State *)

Inductive ExternalPortAttachmentKind :=
| KindNone | KindLoopback | KindPrinter | KindGameLinkDmg04 | KindFourPlayerAdapterDmg07.

(** The reset policy has one value, which keeps the kind of the attachment. *)
Inductive ExternalPortAttachment :=
| AttachedNone
| AttachedLoopback
| AttachedPrinter (printer : PrinterDevice)
| AttachedDmg04 (incoming_byte : option Z)
| AttachedDmg07 (port : Dmg07Port) (incoming_byte : option Z).

Record ExternalPort := mkExternalPort { attachment : ExternalPortAttachment }.

Definition attachment_kind_of (a : ExternalPortAttachment) : ExternalPortAttachmentKind :=
  match a with
  | AttachedNone => KindNone
  | AttachedLoopback => KindLoopback
  | AttachedPrinter _ => KindPrinter
  | AttachedDmg04 _ => KindGameLinkDmg04
  | AttachedDmg07 _ _ => KindFourPlayerAdapterDmg07
  end.
Definition attachment_from_kind (k : ExternalPortAttachmentKind) : ExternalPortAttachment :=
  match k with
  | KindNone => AttachedNone
  | KindLoopback => AttachedLoopback
  | KindPrinter => AttachedPrinter printer_new
  | KindGameLinkDmg04 => AttachedDmg04 None
  | KindFourPlayerAdapterDmg07 => AttachedDmg07 P1 None
  end.
Definition reset_transient_state (a : ExternalPortAttachment) : ExternalPortAttachment :=
  match a with
  | AttachedNone => AttachedNone
  | AttachedLoopback => AttachedLoopback
  | AttachedPrinter _ => AttachedPrinter printer_new
  | AttachedDmg04 _ => AttachedDmg04 None
  | AttachedDmg07 port _ => AttachedDmg07 port None
  end.

(** ** Operations *)

Definition external_port_new : ExternalPort := mkExternalPort AttachedNone.
Definition attachment_kind (p : ExternalPort) : ExternalPortAttachmentKind := attachment_kind_of (attachment p).
Definition set_attachment_kind (k : ExternalPortAttachmentKind) (p : ExternalPort) : ExternalPort :=
  mkExternalPort (attachment_from_kind k).
Definition apply_startup_reset (p : ExternalPort) : ExternalPort :=
  mkExternalPort (reset_transient_state (attachment p)).

Definition port_take_printed_pages (p : ExternalPort) : ExternalPort * list PrintedPage :=
  match attachment p with
  | AttachedPrinter printer =>
      let '(printer, pages) := printer_take_printed_pages printer in (mkExternalPort (AttachedPrinter printer), pages)
  | _ => (p, [])
  end.
Definition port_tick_t_cycle (p : ExternalPort) : ExternalPort :=
  match attachment p with
  | AttachedPrinter printer => mkExternalPort (AttachedPrinter (printer_tick_t_cycle printer))
  | _ => p
  end.
Definition is_printer (p : ExternalPort) : bool := match attachment p with AttachedPrinter _ => true | _ => false end.
Definition requires_t_cycle_tick : ExternalPort -> bool := is_printer.
Definition requires_serial_peer_refresh_after_t_cycle : ExternalPort -> bool := is_printer.
Definition handles_completed_serial_byte : ExternalPort -> bool := is_printer.
Definition handle_completed_serial_byte (outgoing_byte : Z) (p : ExternalPort) : outcome ExternalPort :=
  match attachment p with
  | AttachedPrinter printer =>
      printer ← receive_serial_byte outgoing_byte printer; mret (mkExternalPort (AttachedPrinter printer))
  | _ => mret p
  end.
Definition set_dmg04_incoming_byte (incoming_byte : option Z) (p : ExternalPort) : ExternalPort :=
  match attachment p with AttachedDmg04 _ => mkExternalPort (AttachedDmg04 incoming_byte) | _ => p end.
Definition set_dmg07_attachment (port : Dmg07Port) (p : ExternalPort) : ExternalPort :=
  mkExternalPort (AttachedDmg07 port None).
Definition dmg07_port (p : ExternalPort) : option Dmg07Port :=
  match attachment p with AttachedDmg07 port _ => Some port | _ => None end.
Definition set_dmg07_incoming_byte (incoming_byte : option Z) (p : ExternalPort) : ExternalPort :=
  match attachment p with AttachedDmg07 port _ => mkExternalPort (AttachedDmg07 port incoming_byte) | _ => p end.

Definition staged_or_disconnected (incoming_byte : option Z) : SerialPeer :=
  match incoming_byte with Some byte => StagedIncomingByte byte | None => Disconnected end.
Definition serial_peer (p : ExternalPort) : SerialPeer :=
  match attachment p with
  | AttachedNone => Disconnected
  | AttachedLoopback => Loopback
  | AttachedPrinter printer => StagedIncomingByte (staged_response_byte printer)
  | AttachedDmg04 incoming_byte | AttachedDmg07 _ incoming_byte => staged_or_disconnected incoming_byte
  end.

Inductive ExternalPortAttachmentSnapshot :=
| SnapNone | SnapLoopback | SnapPrinter (s : PrinterSnapshot) | SnapDmg04 (incoming_byte : option Z)
| SnapDmg07 (port : Dmg07Port) (incoming_byte : option Z).
Definition attachment_snapshot (a : ExternalPortAttachment) : ExternalPortAttachmentSnapshot :=
  match a with
  | AttachedNone => SnapNone
  | AttachedLoopback => SnapLoopback
  | AttachedPrinter printer => SnapPrinter (printer_snapshot printer)
  | AttachedDmg04 incoming_byte => SnapDmg04 incoming_byte
  | AttachedDmg07 port incoming_byte => SnapDmg07 port incoming_byte
  end.
Definition snapshot_kind (s : ExternalPortAttachmentSnapshot) : ExternalPortAttachmentKind :=
  match s with
  | SnapNone => KindNone
  | SnapLoopback => KindLoopback
  | SnapPrinter _ => KindPrinter
  | SnapDmg04 _ => KindGameLinkDmg04
  | SnapDmg07 _ _ => KindFourPlayerAdapterDmg07
  end.

(** ** What the serial port can rely on *)

Definition attachment_ok (p : ExternalPort) : Prop :=
  match attachment p with
  | AttachedPrinter printer => printer_ok printer
  | AttachedDmg04 (Some byte) | AttachedDmg07 _ (Some byte) => u8 byte
  | _ => True
  end.

Inductive port_event :=
| PortByte (outgoing_byte : Z)
| PortTick
| PortTakePages
| PortReset
| PortAttach (k : ExternalPortAttachmentKind)
| PortAttachDmg07 (port : Dmg07Port)
| PortDmg04 (incoming_byte : option Z)
| PortDmg07 (incoming_byte : option Z).
Definition port_event_typed (e : port_event) : Prop :=
  match e with PortByte b | PortDmg04 (Some b) | PortDmg07 (Some b) => u8 b | _ => True end.
Definition port_step (e : port_event) (p : ExternalPort) : outcome ExternalPort :=
  match e with
  | PortByte b => handle_completed_serial_byte b p
  | PortTick => mret (port_tick_t_cycle p)
  | PortTakePages => mret (port_take_printed_pages p).1
  | PortReset => mret (apply_startup_reset p)
  | PortAttach k => mret (set_attachment_kind k p)
  | PortAttachDmg07 port => mret (set_dmg07_attachment port p)
  | PortDmg04 b => mret (set_dmg04_incoming_byte b p)
  | PortDmg07 b => mret (set_dmg07_incoming_byte b p)
  end.
Fixpoint run_port (l : list port_event) (p : ExternalPort) : outcome ExternalPort :=
  match l with
  | [] => mret p
  | e :: l => p ← port_step e p; run_port l p
  end.

Lemma port_step_ok e p : attachment_ok p -> port_event_typed e -> finishes (port_step e p) attachment_ok.
Proof.
  intros Hp He. destruct p as [a], e as [b| | | |k|port|b|b]; cbn [port_step finishes mret outcome_ret];
    unfold handle_completed_serial_byte, port_tick_t_cycle, port_take_printed_pages, apply_startup_reset,
      set_attachment_kind, set_dmg07_attachment, set_dmg04_incoming_byte, set_dmg07_incoming_byte, attachment_ok in *;
    destruct a; cbn [attachment mbind outcome_bind reset_transient_state] in *; try done; try (by destruct b).
  - apply finishes_bind. eapply finishes_mono; [by apply receive_serial_byte_ok | done].
  - exact (printer_step_ok PrinterTick printer Hp I).
  - exact (printer_step_ok TakePages printer Hp I).
  - apply printer_new_ok.
  - destruct k; try done; apply printer_new_ok.
  - destruct k; try done; apply printer_new_ok.
  - destruct k; try done; apply printer_new_ok.
  - destruct k; try done; apply printer_new_ok.
  - destruct k; try done; apply printer_new_ok.
Qed.

Lemma peer_typed p : attachment_ok p -> peer_ok (serial_peer p).
Proof.
  destruct p as [a]. unfold serial_peer, attachment_ok. cbn [attachment]. intros Hok.
  destruct a as [| |printer|[b|]|port [b|]]; try done. apply (printer_staged_u8 _ Hok).
Qed.

(** Whatever is plugged into the external port and however it is swapped,
    ticked, reset, clocked and fed by a link session, no step of it fails, and
    the byte it stages for the serial port is always a byte. *)
Theorem external_port_feeds_the_serial_port l : Forall port_event_typed l ->
  exists p, run_port l external_port_new = Done p /\ peer_ok (serial_peer p) /\
    (attachment_kind (apply_startup_reset p) = attachment_kind p).
Proof.
  intros Hl. assert (Hrun : forall p, attachment_ok p -> finishes (run_port l p) attachment_ok).
  { induction Hl as [|e l He Hl IH]; intros p Hp; cbn [run_port]; [done|].
    apply finishes_bind. eapply finishes_mono; [by apply port_step_ok | done]. }
  destruct (finishes_done _ _ (Hrun external_port_new I)) as ([a] & Hp & Hok). exists (mkExternalPort a).
  split; [done|]. split; [by apply peer_typed | by destruct a].
Qed.

Lemma external_port_feeds_the_serial_port_witness :
  let l := [PortAttach KindPrinter; PortByte 0x88; PortTick; PortReset; PortAttachDmg07 P3; PortDmg07 (Some 0xFE)] in
  Forall port_event_typed l /\ exists p, run_port l external_port_new = Done p /\ serial_peer p = StagedIncomingByte 0xFE.
Proof.
  intros l. assert (Hl : Forall port_event_typed l).
  { unfold l. repeat (apply Forall_cons_2; [vm_compute; intuition congruence|]). apply Forall_nil_2. }
  split; [exact Hl|]. destruct (external_port_feeds_the_serial_port l Hl) as (p & Hp & _). exists p. split; [exact Hp|].
  revert Hp. vm_compute. intros [= <-]. reflexivity.
Defined.

Lemma manifest_names_round_trip p : from_manifest_name (manifest_name p) = Some p.
Proof. by destruct p. Qed.
