(* ===== verification/Dmg07.v ===== *)
(** * The four-player adapter ([crates/gb-core/src/link/dmg07.rs])

    The protocol of the DMG-07, byte by byte: ping packets that find the
    players and set the rate and size, the transmission that hands every player
    the bytes of all of them one packet later, and the clock that paces the
    bytes. Trace texts are left out. *)

From Stdlib Require Import ZArith Lia Bool String.
From stdpp Require Import base decidable list option.
From S2P Require Import Prelude.
From S2P Require Import Cartridge.
From S2P Require Import Vectors.
From S2P Require Import ExternalPort.

Local Open Scope Z_scope.

(** ** Arrays indexed by port *)

Record PerPort (A : Type) := mkPer { at1 : A; at2 : A; at3 : A; at4 : A }.
Arguments mkPer {A} _ _ _ _.
Arguments at1 {A} _.
Arguments at2 {A} _.
Arguments at3 {A} _.
Arguments at4 {A} _.

Section PerPort.
Context {A : Type}.
Definition per_port (a : A) : PerPort A := mkPer a a a a.
Definition per_get (p : Dmg07Port) (x : PerPort A) : A :=
  match p with P1 => at1 x | P2 => at2 x | P3 => at3 x | P4 => at4 x end.
Definition per_set (p : Dmg07Port) (a : A) (x : PerPort A) : PerPort A :=
  let '(mkPer a1 a2 a3 a4) := x in
  match p with P1 => mkPer a a2 a3 a4 | P2 => mkPer a1 a a3 a4 | P3 => mkPer a1 a2 a a4 | P4 => mkPer a1 a2 a3 a end.
Lemma per_get_set p q a x : per_get p (per_set q a x) = if decide (p = q) then a else per_get p x.
Proof. by destruct p, q, x. Qed.
End PerPort.

(** ** Constants *)

Definition DMG07_PING_HEADER : Z := 0xFE.
Definition DMG07_ACK : Z := 0x88.
Definition DMG07_TRANSMISSION_MARKER : Z := 0xAA.
Definition DMG07_TRANSMISSION_INDICATOR : Z := 0xCC.
Definition DMG07_RESTART_MARKER : Z := 0xFF.
Definition DMG07_RESTART_INDICATOR : Z := 0xFF.
Definition DMG07_PING_PACKET_BYTES : Z := 4.
Definition DMG07_INDICATOR_BYTES : Z := 4.
Definition DMG07_MAX_SIZE : Z := 4.
Definition DMG07_INITIAL_BYTE_DELAY_T_CYCLES : Z := 4096.
Definition DMG07_SERIAL_BIT_PERIOD_T_CYCLES : Z := 67.
Definition DMG07_PING_INTER_BYTE_DELAY_T_CYCLES : Z := 5956.
Definition DMG07_PING_BASE_INTER_PACKET_DELAY_T_CYCLES : Z := 51548.
Definition DMG07_RATE_LOW_NIBBLE_STEP_DELAY_T_CYCLES : Z := 4194.
Definition DMG07_TRANSMISSION_BASE_INTER_BYTE_DELAY_T_CYCLES : Z := 3720.
Definition DMG07_TRANSMISSION_RATE_STEP_DELAY_T_CYCLES : Z := 445.
Definition DMG07_TRANSMISSION_BASE_PACKET_PERIOD_T_CYCLES : Z := 71303.

(** ** The byte engine *)

Record Dmg07ByteEngine := mkEngine {
  next_bit_t_cycle : Z;
  queued_bits_for_byte : Z;
  byte_completion_pending : bool
}.
Definition engine_new : Dmg07ByteEngine := mkEngine DMG07_INITIAL_BYTE_DELAY_T_CYCLES 0 false.
Definition should_queue_bit (t_cycle : Z) (e : Dmg07ByteEngine) : bool :=
  negb (byte_completion_pending e) && (next_bit_t_cycle e <=? t_cycle).
Definition record_queued_bit (t_cycle : Z) (e : Dmg07ByteEngine) : Dmg07ByteEngine :=
  let queued := queued_bits_for_byte e + 1 in
  if queued =? 8 then mkEngine (next_bit_t_cycle e) queued true
  else mkEngine (t_cycle + DMG07_SERIAL_BIT_PERIOD_T_CYCLES) queued (byte_completion_pending e).
Definition take_byte_completion_pending (e : Dmg07ByteEngine) : Dmg07ByteEngine * bool :=
  (mkEngine (next_bit_t_cycle e) (queued_bits_for_byte e) false, byte_completion_pending e).
Definition schedule_next_byte (t_cycle delay_t_cycles : Z) (e : Dmg07ByteEngine) : Dmg07ByteEngine :=
  mkEngine (t_cycle + Z.max delay_t_cycles 1) 0 (byte_completion_pending e).

(** ** The transmission buffer *)

Record Dmg07TransmissionBuffer := mkBuffer { slots : list (list Z); buffer_position : Z }.

Definition packet_len_for_size (size : Z) : Z := size * 4.
Definition ring_len_for_size (size : Z) : Z := packet_len_for_size size * 2.
Definition empty_slots : list (list Z) := replicate 8 (replicate 4 0).
Definition buffer_new : Dmg07TransmissionBuffer := mkBuffer empty_slots 0.
Definition buffer_reset (b : Dmg07TransmissionBuffer) : Dmg07TransmissionBuffer := mkBuffer empty_slots 0.

Definition checked_div (a b : Z) : outcome Z := if b =? 0 then Panic "attempt to divide by zero" else Done (a / b).
Definition checked_mod (a b : Z) : outcome Z :=
  if b =? 0 then Panic "attempt to calculate the remainder with a divisor of zero" else Done (a mod b).
(** [self.slots[slot][offset]], read and written. *)
Definition slot_read (slot offset : Z) (b : Dmg07TransmissionBuffer) : outcome Z :=
  match slots b !! Z.to_nat slot with Some row => vec_index row offset | None => Panic "index out of bounds" end.
Definition slot_write (slot offset value : Z) (b : Dmg07TransmissionBuffer) : outcome Dmg07TransmissionBuffer :=
  match slots b !! Z.to_nat slot with
  | Some row => row ← store row offset value; mret (mkBuffer (<[Z.to_nat slot := row]> (slots b)) (buffer_position b))
  | None => Panic "index out of bounds"
  end.

Definition ring_position (size : Z) (b : Dmg07TransmissionBuffer) : outcome Z :=
  checked_mod (buffer_position b) (ring_len_for_size size).
Definition packet_position (size : Z) (b : Dmg07TransmissionBuffer) : outcome Z :=
  checked_mod (buffer_position b) (packet_len_for_size size).

Definition current_byte (size : Z) (b : Dmg07TransmissionBuffer) : outcome Z :=
  ring_position ← ring_position size b;
  slot_index ← checked_div ring_position size;
  byte_offset ← checked_mod ring_position size;
  slot_read slot_index byte_offset b.

Fixpoint for_ports {S : Type} (l : list Dmg07Port) (body : Dmg07Port -> S -> outcome S) (s : S) : outcome S :=
  match l with
  | [] => Done s
  | p :: l => s ← body p s; for_ports l body s
  end.

Definition capture_current_byte (size : Z) (connected : PerPort bool) (outgoing_by_port : PerPort (option Z))
    (b : Dmg07TransmissionBuffer) : outcome Dmg07TransmissionBuffer :=
  position ← packet_position size b;
  if (position =? 0) || (size <? position) then mret b
  else if buffer_position b =? 0 then Panic "attempt to subtract with overflow"
  else
    target_position ← checked_mod (buffer_position b - 1 + packet_len_for_size size) (ring_len_for_size size);
    target_slot_base ← checked_div target_position size;
    target_offset ← checked_mod target_position size;
    for_ports ALL_PORTS (fun port b =>
      slot_write (target_slot_base + port_index port) target_offset
        (if per_get port connected then default 0 (per_get port outgoing_by_port) else 0) b) b.

Definition buffer_advance (size : Z) (b : Dmg07TransmissionBuffer) : outcome Dmg07TransmissionBuffer :=
  position ← checked_mod (buffer_position b + 1) (ring_len_for_size size);
  mret (mkBuffer (slots b) position).

(** ** The protocol *)

Inductive Dmg07ProtocolPhase :=
| Ping (byte_index : Z)
| TransmissionIndicator (byte_index : Z)
| Transmission (byte_index : Z)
| PingRestartIndicator (byte_index : Z).

Record Dmg07Protocol := mkProtocol {
  phase : Dmg07ProtocolPhase;
  connected : PerPort bool;
  ping_response_index : PerPort Z;
  rate : Z;
  size : Z;
  transition_marker_count : Z;
  restart_marker_count : Z;
  transmission_restart_requested : bool;
  transmission_buffer : Dmg07TransmissionBuffer;
  delay_after_completed_byte_t_cycles : Z
}.

#[export] Instance upd_phase : Update phase := fun v x =>
  let '(mkProtocol _ b c d e f g h i j) := x in mkProtocol v b c d e f g h i j.
#[export] Instance upd_connected : Update connected := fun v x =>
  let '(mkProtocol a _ c d e f g h i j) := x in mkProtocol a v c d e f g h i j.
#[export] Instance upd_ping_response_index : Update ping_response_index := fun v x =>
  let '(mkProtocol a b _ d e f g h i j) := x in mkProtocol a b v d e f g h i j.
#[export] Instance upd_rate : Update rate := fun v x =>
  let '(mkProtocol a b c _ e f g h i j) := x in mkProtocol a b c v e f g h i j.
#[export] Instance upd_size : Update size := fun v x =>
  let '(mkProtocol a b c d _ f g h i j) := x in mkProtocol a b c d v f g h i j.
#[export] Instance upd_transition_marker_count : Update transition_marker_count := fun v x =>
  let '(mkProtocol a b c d e _ g h i j) := x in mkProtocol a b c d e v g h i j.
#[export] Instance upd_restart_marker_count : Update restart_marker_count := fun v x =>
  let '(mkProtocol a b c d e f _ h i j) := x in mkProtocol a b c d e f v h i j.
#[export] Instance upd_transmission_restart_requested : Update transmission_restart_requested := fun v x =>
  let '(mkProtocol a b c d e f g _ i j) := x in mkProtocol a b c d e f g v i j.
#[export] Instance upd_transmission_buffer : Update transmission_buffer := fun v x =>
  let '(mkProtocol a b c d e f g h _ j) := x in mkProtocol a b c d e f g h v j.
#[export] Instance upd_delay : Update delay_after_completed_byte_t_cycles := fun v x =>
  let '(mkProtocol a b c d e f g h i _) := x in mkProtocol a b c d e f g h i v.

Definition protocol_new : Dmg07Protocol :=
  mkProtocol (Ping 0) (per_port false) (per_port 0) 0 1 0 0 false buffer_new DMG07_PING_INTER_BYTE_DELAY_T_CYCLES.

Definition status_byte_for (port : Dmg07Port) (p : Dmg07Protocol) : Z :=
  foldl (fun status candidate =>
           if per_get candidate (connected p) then Z.lor status (connection_bit candidate) else status)
    (id_byte port) ALL_PORTS.

Definition incoming_byte_for (port : Dmg07Port) (p : Dmg07Protocol) : outcome Z :=
  match phase p with
  | Ping byte_index => mret (if byte_index =? 0 then DMG07_PING_HEADER else status_byte_for port p)
  | TransmissionIndicator _ => mret DMG07_TRANSMISSION_INDICATOR
  | Transmission _ => current_byte (size p) (transmission_buffer p)
  | PingRestartIndicator _ => mret DMG07_RESTART_INDICATOR
  end.

Definition packet_len (p : Dmg07Protocol) : Z := size p * 4.
Definition ping_inter_packet_delay_t_cycles (p : Dmg07Protocol) : Z :=
  DMG07_PING_BASE_INTER_PACKET_DELAY_T_CYCLES + Z.land (rate p) 0x0F * DMG07_RATE_LOW_NIBBLE_STEP_DELAY_T_CYCLES.
Definition transmission_inter_byte_delay_t_cycles (p : Dmg07Protocol) : Z :=
  DMG07_TRANSMISSION_BASE_INTER_BYTE_DELAY_T_CYCLES + Z.shiftr (rate p) 4 * DMG07_TRANSMISSION_RATE_STEP_DELAY_T_CYCLES.
Definition transmission_packet_boundary_delay_t_cycles (p : Dmg07Protocol) : Z :=
  let byte_transfer_span_t_cycles := 7 * DMG07_SERIAL_BIT_PERIOD_T_CYCLES in
  let inter_byte_delay_t_cycles := transmission_inter_byte_delay_t_cycles p in
  let elapsed_before_boundary_delay :=
    packet_len p * byte_transfer_span_t_cycles + Z.max 0 (packet_len p - 1) * inter_byte_delay_t_cycles in
  let minimum_packet_period_t_cycles :=
    DMG07_TRANSMISSION_BASE_PACKET_PERIOD_T_CYCLES + Z.land (rate p) 0x0F * DMG07_RATE_LOW_NIBBLE_STEP_DELAY_T_CYCLES in
  Z.max inter_byte_delay_t_cycles (Z.max 0 (minimum_packet_period_t_cycles - elapsed_before_boundary_delay)).

Definition delay_after_completed_phase_t_cycles (completed_phase : Dmg07ProtocolPhase) (p : Dmg07Protocol) : Z :=
  match completed_phase with
  | Ping byte_index =>
      if byte_index + 1 =? DMG07_PING_PACKET_BYTES then ping_inter_packet_delay_t_cycles p
      else DMG07_PING_INTER_BYTE_DELAY_T_CYCLES
  | TransmissionIndicator _ | PingRestartIndicator _ => transmission_inter_byte_delay_t_cycles p
  | Transmission byte_index =>
      if byte_index + 1 =? packet_len p then transmission_packet_boundary_delay_t_cycles p
      else transmission_inter_byte_delay_t_cycles p
  end.

(** One port's part of [consume_ping_response_byte]. *)
Definition consume_port_response (outgoing_by_port : PerPort (option Z)) (p : Dmg07Protocol) (port : Dmg07Port) : Dmg07Protocol :=
  let outgoing := per_get port outgoing_by_port in
  let acked := bool_decide (outgoing = Some DMG07_ACK) in
  let index := per_get port (ping_response_index p) in
  let set_index i p := p <| ping_response_index := per_set port i (ping_response_index p) |> in
  let set_connected c p := p <| connected := per_set port c (connected p) |> in
  if index =? 0 then if acked then set_index 1 p else set_connected false p
  else if index =? 1 then
    if acked then set_index 2 (set_connected true p) else set_index 0 (set_connected false p)
  else if index =? 2 then
    set_index 3 match outgoing with
                | Some r => if bool_decide (port = P1) then p <| rate := r |> else p
                | None => p
                end
  else if index =? 3 then
    set_index 0 match outgoing with
                | Some n => if bool_decide (port = P1) && (1 <=? n) && (n <=? 4) then p <| size := n |> else p
                | None => p
                end
  else set_index 0 p.
Definition consume_ping_response_byte (outgoing_by_port : PerPort (option Z)) (p : Dmg07Protocol) : Dmg07Protocol :=
  foldl (consume_port_response outgoing_by_port) p ALL_PORTS.

Definition track_ping_transition_marker (p1_outgoing : option Z) (p : Dmg07Protocol) : Dmg07Protocol :=
  if bool_decide (p1_outgoing = Some DMG07_TRANSMISSION_MARKER)
  then p <| transition_marker_count := saturating_add8 (transition_marker_count p) 1 |>
  else if transition_marker_count p <? 3 then p <| transition_marker_count := 0 |> else p.

Definition track_restart_marker (byte_index : Z) (p1_outgoing : option Z) (p : Dmg07Protocol) : Dmg07Protocol :=
  let p := if byte_index =? 0 then p <| restart_marker_count := 0 |> else p in
  if bool_decide (p1_outgoing = Some DMG07_RESTART_MARKER) then
    let p := p <| restart_marker_count := saturating_add8 (restart_marker_count p) 1 |> in
    if 3 <=? restart_marker_count p then p <| transmission_restart_requested := true |> else p
  else if restart_marker_count p <? 3 then p <| restart_marker_count := 0 |> else p.

Definition complete_ping_byte (byte_index : Z) (outgoing_by_port : PerPort (option Z)) (p : Dmg07Protocol) : Dmg07Protocol :=
  let p1_outgoing := per_get P1 outgoing_by_port in
  let transition_marker_packet :=
    (0 <? transition_marker_count p) ||
    (per_get P1 (ping_response_index p) =? 0) && bool_decide (p1_outgoing = Some DMG07_TRANSMISSION_MARKER) in
  let p := if transition_marker_packet then track_ping_transition_marker p1_outgoing p
           else consume_ping_response_byte outgoing_by_port p in
  if byte_index + 1 =? DMG07_PING_PACKET_BYTES then
    if 3 <=? transition_marker_count p then p <| phase := TransmissionIndicator 0 |> <| transition_marker_count := 0 |>
    else p <| transition_marker_count := 0 |> <| phase := Ping 0 |>
  else p <| phase := Ping (byte_index + 1) |>.

Definition complete_transmission_indicator_byte (byte_index : Z) (p : Dmg07Protocol) : Dmg07Protocol :=
  if byte_index + 1 =? DMG07_INDICATOR_BYTES
  then p <| phase := Transmission 0 |> <| transmission_buffer := buffer_reset (transmission_buffer p) |>
  else p <| phase := TransmissionIndicator (byte_index + 1) |>.

Definition complete_transmission_byte (byte_index : Z) (outgoing_by_port : PerPort (option Z)) (p : Dmg07Protocol)
    : outcome Dmg07Protocol :=
  buffer ← capture_current_byte (size p) (connected p) outgoing_by_port (transmission_buffer p);
  let p := p <| transmission_buffer := buffer |> in
  let p := track_restart_marker byte_index (per_get P1 outgoing_by_port) p in
  let packet_len := size p * 4 in
  buffer ← buffer_advance (size p) (transmission_buffer p);
  let p := p <| transmission_buffer := buffer |> in
  mret (if byte_index + 1 =? packet_len then
          if transmission_restart_requested p
          then p <| phase := PingRestartIndicator 0 |> <| transmission_restart_requested := false |> <| restart_marker_count := 0 |>
          else p <| restart_marker_count := 0 |> <| phase := Transmission 0 |>
        else p <| phase := Transmission (byte_index + 1) |>).

Definition complete_ping_restart_indicator_byte (byte_index : Z) (p : Dmg07Protocol) : Dmg07Protocol :=
  if byte_index + 1 =? DMG07_INDICATOR_BYTES
  then p <| phase := Ping 0 |> <| connected := per_port false |> <| ping_response_index := per_port 0 |>
  else p <| phase := PingRestartIndicator (byte_index + 1) |>.

Definition complete_byte (outgoing_by_port : PerPort (option Z)) (p : Dmg07Protocol) : outcome Dmg07Protocol :=
  let completed_phase := phase p in
  p ← match completed_phase with
      | Ping byte_index => mret (complete_ping_byte byte_index outgoing_by_port p)
      | TransmissionIndicator byte_index => mret (complete_transmission_indicator_byte byte_index p)
      | Transmission byte_index => complete_transmission_byte byte_index outgoing_by_port p
      | PingRestartIndicator byte_index => mret (complete_ping_restart_indicator_byte byte_index p)
      end;
  mret (p <| delay_after_completed_byte_t_cycles := delay_after_completed_phase_t_cycles completed_phase p |>).

(** ** The buffer *)

Definition row_ok (row : list Z) : Prop := vec_len row = 4 /\ bytes row.
Definition slots_ok (l : list (list Z)) : Prop := length l = 8%nat /\ Forall row_ok l.
(** The byte in a slot. *)
Definition cell (b : Dmg07TransmissionBuffer) (slot offset : Z) : Z :=
  default 0 (slots b !! Z.to_nat slot ≫= fun row => vec_get row offset).

Lemma empty_slots_ok : slots_ok empty_slots.
Proof. split; [done|]. apply Forall_replicate. split; [done | apply (bytes_zeroed 4)]. Qed.

Lemma slot_row b slot : slots_ok (slots b) -> 0 <= slot < 8 -> exists row, slots b !! Z.to_nat slot = Some row /\ row_ok row.
Proof.
  intros [Hl Hf] Hs. destruct (lookup_lt_is_Some_2 (slots b) (Z.to_nat slot)) as [row Hrow]; [lia|].
  exists row. split; [done|]. by eapply Forall_lookup_1 in Hf.
Qed.

Lemma slot_read_cell b slot offset : slots_ok (slots b) -> 0 <= slot < 8 -> 0 <= offset < 4 ->
  slot_read slot offset b = Done (cell b slot offset) /\ u8 (cell b slot offset).
Proof.
  intros Hb Hs Ho. destruct (slot_row b slot Hb Hs) as (row & Hrow & Hl & Hbytes). unfold slot_read, cell. rewrite Hrow. cbn.
  unfold vec_index, vec_get, vec_len in *. destruct (lookup_lt_is_Some_2 row (Z.to_nat offset)) as [v Hv]; [lia|].
  rewrite Hv. split; [done|]. by eapply Forall_lookup_1 in Hbytes.
Qed.

Lemma slot_write_cell b slot offset v : slots_ok (slots b) -> 0 <= slot < 8 -> 0 <= offset < 4 -> u8 v ->
  finishes (slot_write slot offset v b) (fun b' => slots_ok (slots b') /\ buffer_position b' = buffer_position b /\
    forall s o, 0 <= s -> 0 <= o -> cell b' s o = if (s =? slot) && (o =? offset) then v else cell b s o).
Proof.
  intros Hb Hs Ho Hv. destruct (slot_row b slot Hb Hs) as (row & Hrow & Hl & Hbytes). unfold slot_write. rewrite Hrow.
  rewrite store_done by lia. cbn. destruct Hb as [Hlen Hf]. split_and!; [|done|].
  - split; [by rewrite length_insert|]. apply Forall_insert; [done|]. split; [by rewrite vec_len_set | by apply bytes_set].
  - intros s o Hs' Ho'. unfold cell. cbn [slots]. destruct (Z.eqb_spec s slot) as [->|Hne]; cbn [andb].
    + rewrite list_lookup_insert_eq by lia. rewrite Hrow. cbn. unfold vec_get, vec_set, vec_len in *.
      destruct (Z.eqb_spec o offset) as [->|]; [by rewrite list_lookup_insert_eq by lia | by rewrite list_lookup_insert_ne by lia].
    + by rewrite list_lookup_insert_ne by lia.
Qed.

(** What a port contributes to the next packet. *)
Definition contribution (connected : PerPort bool) (outgoing : PerPort (option Z)) (port : Dmg07Port) : Z :=
  if per_get port connected then default 0 (per_get port outgoing) else 0.
Definition outgoing_typed (outgoing : PerPort (option Z)) : Prop := forall port, u8 (default 0 (per_get port outgoing)).
Definition port_at (k : Z) : Dmg07Port := if k =? 0 then P1 else if k =? 1 then P2 else if k =? 2 then P3 else P4.

(** The position in the ring: half [half] of it, byte [i] of the packet. *)
Definition at_packet (size half i : Z) (b : Dmg07TransmissionBuffer) : Prop :=
  slots_ok (slots b) /\ 0 <= half <= 1 /\ 0 <= i < size * 4 /\ buffer_position b = half * (size * 4) + i.

Lemma ring_arithmetic size half i : 1 <= size <= 4 -> 0 <= half <= 1 -> 0 <= i < size * 4 ->
  let q := half * (size * 4) + i in
  q mod (size * 4) = i /\ q mod (size * 4 * 2) = q /\ q / size = half * 4 + i / size /\ q mod size = i mod size /\
  0 <= i / size < 4 /\ 0 <= i mod size < size /\
  (1 <= i -> (q - 1 + size * 4) mod (size * 4 * 2) = (1 - half) * (size * 4) + (i - 1)) /\
  (q + 1) mod (size * 4 * 2) = (if i + 1 =? size * 4 then (1 - half) * (size * 4) else q + 1).
Proof.
  intros Hs Hh Hi q. subst q.
  assert (half = 0 \/ half = 1) as Hhalf by lia.
  assert (size = 1 \/ size = 2 \/ size = 3 \/ size = 4) as Hsize by lia.
  destruct Hhalf as [-> | ->], Hsize as [-> |[-> |[-> | ->]]]; split_and!; try (intros; divmod_lia);
    case_tests; prune; divmod_lia.
Qed.

Lemma capture_cells size half i conn outs b : 1 <= size <= 4 -> at_packet size half i b -> outgoing_typed outs ->
  finishes (capture_current_byte size conn outs b) (fun b' => at_packet size half i b' /\
    forall s o, 0 <= s < 8 -> 0 <= o -> cell b' s o =
      if (1 <=? i) && (i <=? size) && (s / 4 =? 1 - half) && (o =? i - 1) then contribution conn outs (port_at (s mod 4))
      else cell b s o).
Proof.
  intros Hs (Hb & Hh & Hi & Hq) Ho. unfold capture_current_byte, packet_position, checked_mod, checked_div.
  unfold packet_len_for_size, ring_len_for_size, packet_len_for_size.
  destruct (ring_arithmetic size half i Hs Hh Hi) as (Hmod & _ & _ & _ & _ & _ & Htarget & _).
  rewrite (proj2 (Z.eqb_neq (size * 4) 0)) by lia. cbn [mbind outcome_bind]. rewrite Hq, Hmod.
  destruct (Z.eqb_spec i 0) as [->|Hi0]; cbn [orb]; [by cbn|].
  destruct (Z.ltb_spec size i).
  { cbn. split; [done|]. intros. rewrite (proj2 (Z.leb_gt i size)) by lia. by rewrite andb_false_r. }
  destruct (Z.eqb_spec (half * (size * 4) + i) 0); [lia|].
  rewrite (proj2 (Z.eqb_neq (size * 4 * 2) 0)), (proj2 (Z.eqb_neq size 0)) by lia. cbn [mbind outcome_bind]. rewrite Htarget by lia.
  destruct (ring_arithmetic size (1 - half) (i - 1) Hs ltac:(lia) ltac:(lia)) as (_ & _ & Hdiv & Hoff & _).
  rewrite Hdiv, Hoff. rewrite (Z.div_small (i - 1)), (Z.mod_small (i - 1)) by lia. rewrite Z.add_0_r.
  assert (Hcontrib : forall port, u8 (contribution conn outs port)).
  { intros port. unfold contribution. destruct (per_get port conn); [apply Ho | by vm_compute]. }
  rewrite (proj2 (Z.leb_le 1 i)), (proj2 (Z.leb_le i size)) by lia. cbn [for_ports ALL_PORTS port_index andb].
  apply finishes_bind. eapply finishes_mono; [apply slot_write_cell; [done | lia | lia | apply (Hcontrib P1)]|]. intros b1 (Hb1 & Hq1 & Hc1).
  apply finishes_bind. eapply finishes_mono; [apply slot_write_cell; [done | lia | lia | apply (Hcontrib P2)]|]. intros b2 (Hb2 & Hq2 & Hc2).
  apply finishes_bind. eapply finishes_mono; [apply slot_write_cell; [done | lia | lia | apply (Hcontrib P3)]|]. intros b3 (Hb3 & Hq3 & Hc3).
  apply finishes_bind. eapply finishes_mono; [apply slot_write_cell; [done | lia | lia | apply (Hcontrib P4)]|]. intros b4 (Hb4 & Hq4 & Hc4).
  cbn. split; [split_and!; (done || lia || congruence)|]. intros s o Hs' Ho'. rewrite Hc4, Hc3, Hc2, Hc1 by lia. unfold port_at.
  change (if per_get ?p conn then default 0 (per_get ?p outs) else 0) with (contribution conn outs p).
  clear - Hs' Hh. destruct (Z.eqb_spec o (i - 1)); rewrite ?andb_true_r, ?andb_false_r; [|done].
  destruct (Z.eqb_spec (s / 4) (1 - half)).
  - assert (s = (1 - half) * 4 + s mod 4) by divmod_lia. pose proof (Z.mod_pos_bound s 4). case_tests; prune; (done || lia).
  - case_tests; prune; try done; exfalso; divmod_lia.
Qed.

Lemma advance_position size half i b : 1 <= size <= 4 -> at_packet size half i b ->
  finishes (buffer_advance size b) (fun b' => slots b' = slots b /\
    at_packet size (if i + 1 =? size * 4 then 1 - half else half) (if i + 1 =? size * 4 then 0 else i + 1) b').
Proof.
  intros Hs (Hb & Hh & Hi & Hq). unfold buffer_advance, checked_mod, ring_len_for_size, packet_len_for_size.
  destruct (ring_arithmetic size half i Hs Hh Hi) as (_ & _ & _ & _ & _ & _ & _ & Hnext).
  rewrite (proj2 (Z.eqb_neq (size * 4 * 2) 0)) by lia. cbn. split; [done|]. rewrite Hq, Hnext.
  destruct (Z.eqb_spec (i + 1) (size * 4)); split_and!; cbn; (done || lia).
Qed.

Lemma current_byte_cell size half i b : 1 <= size <= 4 -> at_packet size half i b ->
  current_byte size b = Done (cell b (half * 4 + i / size) (i mod size)) /\ u8 (cell b (half * 4 + i / size) (i mod size)).
Proof.
  intros Hs (Hb & Hh & Hi & Hq). unfold current_byte, ring_position, checked_mod, checked_div, ring_len_for_size, packet_len_for_size.
  destruct (ring_arithmetic size half i Hs Hh Hi) as (_ & Hring & Hdiv & Hmod & Hslot & Hoff & _).
  rewrite (proj2 (Z.eqb_neq (size * 4 * 2) 0)), (proj2 (Z.eqb_neq size 0)) by lia. cbn [mbind outcome_bind].
  rewrite Hq, Hring, Hdiv, Hmod. apply slot_read_cell; (done || lia).
Qed.

(** ** Invariant *)

Definition counters_ok (p : Dmg07Protocol) : Prop :=
  1 <= size p <= 4 /\ u8 (rate p) /\ u8 (transition_marker_count p) /\ u8 (restart_marker_count p) /\
  forall port, 0 <= per_get port (ping_response_index p) <= 3.
Definition phase_ok (p : Dmg07Protocol) : Prop :=
  match phase p with
  | Ping i | TransmissionIndicator i | PingRestartIndicator i => 0 <= i < 4 /\ slots_ok (slots (transmission_buffer p))
  | Transmission i => exists half, at_packet (size p) half i (transmission_buffer p)
  end.
Definition protocol_ok (p : Dmg07Protocol) : Prop := counters_ok p /\ phase_ok p.

Lemma protocol_new_ok : protocol_ok protocol_new.
Proof. split; [split_and!; try done; by intros [] | split; [done | apply empty_slots_ok]]. Qed.

Lemma saturating_add8_u8 a : u8 a -> u8 (saturating_add8 a 1).
Proof. unfold u8, saturating_add8. lia. Qed.

Lemma counters_phase ph p : counters_ok p -> counters_ok (p <| phase := ph |>).
Proof. by destruct p. Qed.
Lemma counters_transition p : counters_ok p -> counters_ok (p <| transition_marker_count := 0 |>).
Proof. destruct p. by intros (? & ? & _ & ? & ?). Qed.
Lemma counters_restart p : counters_ok p -> counters_ok (p <| restart_marker_count := 0 |>).
Proof. destruct p. by intros (? & ? & ? & _ & ?). Qed.
Lemma counters_buffer b p : counters_ok p -> counters_ok (p <| transmission_buffer := b |>).
Proof. by destruct p. Qed.
Lemma counters_requested r p : counters_ok p -> counters_ok (p <| transmission_restart_requested := r |>).
Proof. by destruct p. Qed.

(** The marker counters only touch themselves. *)
Lemma track_restart_marker_keeps i out p :
  let p' := track_restart_marker i out p in
  phase p' = phase p /\ size p' = size p /\ connected p' = connected p /\ transmission_buffer p' = transmission_buffer p /\
  (counters_ok p -> counters_ok p').
Proof.
  unfold track_restart_marker, counters_ok. destruct p. cbn. destruct (i =? 0); cbn;
    (case_bool_decide; cbn; case_tests; cbn);
    split_and!; try done; intros (? & ? & ? & ? & ?); split_and!; try done; try lia; by apply saturating_add8_u8.
Qed.

Lemma track_ping_keeps out p :
  let p' := track_ping_transition_marker out p in
  transmission_buffer p' = transmission_buffer p /\ (counters_ok p -> counters_ok p').
Proof.
  unfold track_ping_transition_marker, counters_ok. destruct p. cbn. case_bool_decide; cbn; case_tests; cbn; (split; [done|]);
    intros (? & ? & ? & ? & ?); split_and!; try done; try lia; by apply saturating_add8_u8.
Qed.

Lemma consume_port_keeps outs p port : outgoing_typed outs ->
  let p' := consume_port_response outs p port in
  transmission_buffer p' = transmission_buffer p /\ (counters_ok p -> counters_ok p').
Proof.
  intros Ho. unfold consume_port_response, counters_ok. cbv zeta. specialize (Ho port). destruct p. cbn.
  set (index := per_get port ping_response_index0).
  assert (Hset : forall v, 0 <= v <= 3 -> (forall q, 0 <= per_get q ping_response_index0 <= 3) ->
            forall q, 0 <= per_get q (per_set port v ping_response_index0) <= 3).
  { intros v Hv Hall q. rewrite per_get_set. by destruct (decide (q = port)). }
  destruct (index =? 0), (index =? 1), (index =? 2), (index =? 3); try (case_bool_decide; cbn);
    try (split; [done|]; intros (? & ? & ? & ? & ?); split_and!; try done; try lia; apply Hset; (done || lia)).
  all: destruct (per_get port outs) as [v|] eqn:Hv; try case_bool_decide; cbn; try destruct (1 <=? v) eqn:?; try destruct (v <=? 4) eqn:?;
    cbn; (split; [done|]); intros (? & ? & ? & ? & ?); prune; split_and!; try done; try lia; try (apply Hset; (done || lia)).
Qed.

Lemma consume_ping_keeps outs p : outgoing_typed outs ->
  let p' := consume_ping_response_byte outs p in
  transmission_buffer p' = transmission_buffer p /\ (counters_ok p -> counters_ok p').
Proof.
  intros Ho. unfold consume_ping_response_byte. cbn [foldl ALL_PORTS].
  destruct (consume_port_keeps outs p P1 Ho) as [H1 C1]. set (p1 := consume_port_response outs p P1) in *.
  destruct (consume_port_keeps outs p1 P2 Ho) as [H2 C2]. set (p2 := consume_port_response outs p1 P2) in *.
  destruct (consume_port_keeps outs p2 P3 Ho) as [H3 C3]. set (p3 := consume_port_response outs p2 P3) in *.
  destruct (consume_port_keeps outs p3 P4 Ho) as [H4 C4]. split; [congruence | auto].
Qed.

Lemma complete_ping_ok i outs p : counters_ok p -> 0 <= i < 4 -> slots_ok (slots (transmission_buffer p)) -> outgoing_typed outs ->
  protocol_ok (complete_ping_byte i outs p).
Proof.
  intros Hc Hi Hb Ho. unfold complete_ping_byte. cbv zeta.
  match goal with |- context [if ?b then track_ping_transition_marker ?o p else ?c] =>
    assert (Hp : counters_ok (if b then track_ping_transition_marker o p else c) /\
      slots_ok (slots (transmission_buffer (if b then track_ping_transition_marker o p else c))));
    [|generalize dependent (if b then track_ping_transition_marker o p else c)] end.
  { destruct (_ || _); [destruct (track_ping_keeps (per_get P1 outs) p) as [-> ?] | destruct (consume_ping_keeps outs p Ho) as [-> ?]]; auto. }
  intros p' [Hc' Hb']. unfold DMG07_PING_PACKET_BYTES.
  destruct (Z.eqb_spec (i + 1) 4); [case_tests|]; (split; [auto using counters_phase, counters_transition|]);
    destruct p'; (split; [cbn; lia | done]).
Qed.

Lemma complete_transmission_ok i half outs p : counters_ok p -> at_packet (size p) half i (transmission_buffer p) ->
  outgoing_typed outs ->
  finishes (complete_transmission_byte i outs p) (fun p' =>
    counters_ok p' /\ size p' = size p /\ connected p' = connected p /\
    let last := i + 1 =? size p * 4 in
    at_packet (size p) (if last then 1 - half else half) (if last then 0 else i + 1) (transmission_buffer p') /\
    (phase p' = Transmission (if last then 0 else i + 1) \/ last = true /\ phase p' = PingRestartIndicator 0) /\
    forall s o, 0 <= s < 8 -> 0 <= o -> cell (transmission_buffer p') s o =
      if (1 <=? i) && (i <=? size p) && (s / 4 =? 1 - half) && (o =? i - 1)
      then contribution (connected p) outs (port_at (s mod 4)) else cell (transmission_buffer p) s o).
Proof.
  intros Hc Hat Ho. unfold complete_transmission_byte. assert (Hs : 1 <= size p <= 4) by apply Hc.
  apply finishes_bind. eapply finishes_mono; [by apply capture_cells|]. intros b1 [Hat1 Hcells]. cbv zeta.
  match goal with |- context [track_restart_marker i ?o ?x] => destruct (track_restart_marker_keeps i o x) as (_ & Hsize & Hconn & Hbuf & Hcount);
    set (p1 := track_restart_marker i o x) in * end.
  assert (Hc1 : counters_ok p1) by (apply Hcount; by destruct p).
  replace (size (p <| transmission_buffer := b1 |>)) with (size p) in Hsize by (by destruct p).
  replace (connected (p <| transmission_buffer := b1 |>)) with (connected p) in Hconn by (by destruct p).
  replace (transmission_buffer (p <| transmission_buffer := b1 |>)) with b1 in Hbuf by (by destruct p).
  rewrite Hbuf, Hsize. clearbody p1. apply finishes_bind. eapply finishes_mono; [by apply (advance_position (size p) half i)|].
  intros b2 [Hslots Hat2]. cbn [finishes mret outcome_ret].
  assert (Hcell2 : forall s o, cell b2 s o = cell b1 s o) by (intros; unfold cell; by rewrite Hslots).
  replace (size (p1 <| transmission_buffer := b2 |>)) with (size p) by (by destruct p1).
  assert (Hc2 : counters_ok (p1 <| transmission_buffer := b2 |>)) by by apply counters_buffer.
  split; [case_tests; auto using counters_phase, counters_restart, counters_requested|].
  destruct (i + 1 =? size p * 4); [destruct (transmission_restart_requested _)|]; destruct p1; cbn in *; subst;
    (split; [done|]); (split; [done|]); (split; [exact Hat2|]); (split; [auto|]); intros; rewrite Hcell2; by apply Hcells.
Qed.

Lemma with_delay_ok d p : protocol_ok p -> protocol_ok (p <| delay_after_completed_byte_t_cycles := d |>).
Proof. by destruct p. Qed.

Lemma complete_byte_ok outs p : protocol_ok p -> outgoing_typed outs -> finishes (complete_byte outs p) protocol_ok.
Proof.
  intros [Hc Hp] Ho. unfold complete_byte. cbv zeta. apply finishes_bind.
  apply finishes_mono with (Q := protocol_ok); [|intros; by apply with_delay_ok]. unfold phase_ok in Hp.
  destruct (phase p) as [i|i|i|i].
  - destruct Hp as [Hi Hb]. by apply complete_ping_ok.
  - destruct Hp as [Hi Hb]. cbn. unfold complete_transmission_indicator_byte, DMG07_INDICATOR_BYTES.
    destruct (Z.eqb_spec (i + 1) 4).
    + destruct p. split; [done|]. exists 0. unfold counters_ok in Hc. cbn in *. split_and!; try apply empty_slots_ok; (done || lia).
    + destruct p. split; [done|]. split; [lia | done].
  - destruct Hp as [half Hat]. eapply finishes_mono; [by apply complete_transmission_ok|].
    intros p' (Hc' & Hsize & _ & Hat' & Hph & _). split; [done|]. unfold phase_ok. destruct Hph as [-> |[_ ->]].
    + rewrite Hsize. by eexists.
    + split; [lia | apply Hat'].
  - destruct Hp as [Hi Hb]. cbn. unfold complete_ping_restart_indicator_byte, DMG07_INDICATOR_BYTES.
    destruct (Z.eqb_spec (i + 1) 4).
    + destruct p, Hc as (? & ? & ? & ? & ?). split; [repeat (split; [done|]); by intros []|]. split; [lia | done].
    + split; [by apply counters_phase|]. destruct p. split; [cbn; lia | done].
Qed.

(** ** Runs of bytes *)

Fixpoint run_bytes (l : list (PerPort (option Z))) (p : Dmg07Protocol) : outcome Dmg07Protocol :=
  match l with
  | [] => mret p
  | outgoing :: l => p ← complete_byte outgoing p; run_bytes l p
  end.

Lemma run_bytes_app l k p : run_bytes (l ++ k) p = p ← run_bytes l p; run_bytes k p.
Proof.
  revert p. induction l as [|x l IH]; intros p; [done|]. cbn. destruct (complete_byte x p); cbn; [apply IH | done].
Qed.

Lemma run_bytes_ok l p : Forall outgoing_typed l -> protocol_ok p -> finishes (run_bytes l p) protocol_ok.
Proof.
  intros Hl. revert p. induction Hl as [|x l Hx Hl IH]; intros p Hp; cbn [run_bytes]; [done|].
  apply finishes_bind. eapply finishes_mono; [by apply complete_byte_ok | done].
Qed.

(** One byte of a transmission. *)
Lemma transmission_byte i half outs p : counters_ok p -> phase p = Transmission i ->
  at_packet (size p) half i (transmission_buffer p) -> outgoing_typed outs ->
  finishes (complete_byte outs p) (fun p' =>
    counters_ok p' /\ size p' = size p /\ connected p' = connected p /\
    let last := i + 1 =? size p * 4 in
    at_packet (size p) (if last then 1 - half else half) (if last then 0 else i + 1) (transmission_buffer p') /\
    (phase p' = Transmission (if last then 0 else i + 1) \/ last = true /\ phase p' = PingRestartIndicator 0) /\
    forall s o, 0 <= s < 8 -> 0 <= o -> cell (transmission_buffer p') s o =
      if (1 <=? i) && (i <=? size p) && (s / 4 =? 1 - half) && (o =? i - 1)
      then contribution (connected p) outs (port_at (s mod 4)) else cell (transmission_buffer p) s o).
Proof.
  intros Hc Hph Hat Ho. unfold complete_byte. rewrite Hph. cbv zeta. apply finishes_bind.
  eapply finishes_mono; [by apply complete_transmission_ok|]. intros p' Hp'. cbn [finishes mret outcome_ret]. by destruct p'.
Qed.

(** What [k] bytes of one transmission packet leave behind: the position after
    them, the other half of the ring filled with the players' bytes 1 to [size],
    and this half untouched. *)
Definition packet_progress (half : Z) (l : list (PerPort (option Z))) (p p' : Dmg07Protocol) : Prop :=
  let k := Z.of_nat (length l) in
  let last := k =? size p * 4 in
  counters_ok p' /\ size p' = size p /\ connected p' = connected p /\
  at_packet (size p) (if last then 1 - half else half) (if last then 0 else k) (transmission_buffer p') /\
  (phase p' = Transmission (if last then 0 else k) \/ last = true /\ phase p' = PingRestartIndicator 0) /\
  (forall s o, 0 <= s < 8 -> s / 4 = half -> 0 <= o -> cell (transmission_buffer p') s o = cell (transmission_buffer p) s o) /\
  (forall s o, 0 <= s < 8 -> s / 4 = 1 - half -> 0 <= o < size p -> o + 1 < k ->
     cell (transmission_buffer p') s o =
       contribution (connected p) (default (per_port None) (l !! Z.to_nat (o + 1))) (port_at (s mod 4))).

Lemma packet_advances half l p : protocol_ok p -> phase p = Transmission 0 -> at_packet (size p) half 0 (transmission_buffer p) ->
  Forall outgoing_typed l -> Z.of_nat (length l) <= size p * 4 -> finishes (run_bytes l p) (packet_progress half l p).
Proof.
  intros [Hc _] Hph Hat Hl. assert (Hs : 1 <= size p <= 4) by apply Hc.
  induction l as [|x l IH] using rev_ind; intros Hlen.
  - cbn. unfold packet_progress. cbn [length Z.of_nat]. rewrite (proj2 (Z.eqb_neq 0 _)) by lia. cbv zeta.
    split_and!; try apply Hc; try apply Hat; try done; [by left | intros; lia].
  - apply Forall_app in Hl as [Hl Hx]. apply Forall_cons_1 in Hx as [Hx _]. rewrite length_app in Hlen. cbn [length] in Hlen.
    rewrite run_bytes_app. apply finishes_bind. eapply finishes_mono; [apply IH; [done | lia]|].
    intros p1 (Hc1 & Hs1 & Hn1 & Hat1 & Hph1 & Hsame1 & Hnew1). cbv zeta in *.
    rewrite (proj2 (Z.eqb_neq (Z.of_nat (length l)) (size p * 4))) in * by lia.
    destruct Hph1 as [Hph1|[? _]]; [|done]. cbn [run_bytes]. apply finishes_bind. rewrite <- Hs1 in Hat1.
    eapply finishes_mono; [by apply transmission_byte|]. rewrite Hs1, Hn1.
    intros p2 (Hc2 & Hs2 & Hn2 & Hat2 & Hph2 & Hcells). cbv zeta in *. unfold packet_progress. cbv zeta.
    rewrite length_app. cbn [length]. replace (Z.of_nat (length l + 1)) with (Z.of_nat (length l) + 1) by lia.
    split_and!; try apply Hc2; try done; try (by rewrite Hn2); try apply Hat2.
    + intros s o Hss Hhalf Hoo. rewrite Hcells by lia. rewrite (proj2 (Z.eqb_neq (s / 4) _)) by (destruct Hat as (_ & ? & _); lia).
      rewrite andb_false_r. by apply Hsame1.
    + intros s o Hss Hhalf Hoo Hk. rewrite Hcells by lia. rewrite (proj2 (Z.eqb_eq (s / 4) _)) by done.
      destruct (Z.eqb_spec o (Z.of_nat (length l) - 1)) as [->|Hne].
      * rewrite (proj2 (Z.leb_le 1 _)), (proj2 (Z.leb_le _ (size p))) by lia. cbn [andb].
        rewrite lookup_app_r by lia. by replace (Z.to_nat (Z.of_nat (length l) - 1 + 1) - length l)%nat with 0%nat by lia.
      * rewrite andb_false_r. rewrite lookup_app_l by lia. apply Hnew1; lia.
Qed.

(** What the protocol sends a player is a byte. *)
Lemma protocol_byte_u8 port p : protocol_ok p -> finishes (incoming_byte_for port p) u8.
Proof.
  intros [Hc Hph]. unfold incoming_byte_for, phase_ok in *.
  assert (Hstatus : u8 (status_byte_for port p)).
  { unfold status_byte_for. cbn [foldl ALL_PORTS].
    by destruct port, (per_get P1 (connected p)), (per_get P2 (connected p)), (per_get P3 (connected p)), (per_get P4 (connected p)). }
  destruct (phase p) as [i|i|i|i]; try by vm_compute.
  - cbn. by destruct (i =? 0).
  - destruct Hph as [half Hat]. destruct (current_byte_cell (size p) half i _ (proj1 Hc) Hat) as [-> ?]. done.
Qed.

(** The adapter's protocol never fails: whatever the players answer, no
    index, division or subtraction of the protocol goes wrong, and the byte it
    sends each player is a byte. *)
Theorem adapter_protocol_never_fails l : Forall outgoing_typed l ->
  exists p, run_bytes l protocol_new = Done p /\ protocol_ok p /\ forall port, finishes (incoming_byte_for port p) u8.
Proof.
  intros Hl. destruct (finishes_done _ _ (run_bytes_ok l protocol_new Hl protocol_new_ok)) as (p & Hp & Hok).
  exists p. split; [done|]. split; [done|]. intros port. by apply protocol_byte_u8.
Qed.

Lemma adapter_protocol_never_fails_witness :
  let ack := mkPer (Some 0x88) (Some 0x88) None None in
  let l := [ack; ack; mkPer (Some 0x20) None None None; mkPer (Some 0x03) None None None; ack] in
  Forall outgoing_typed l /\ exists p, run_bytes l protocol_new = Done p /\ size p = 3 /\ incoming_byte_for P3 p = Done 0x33.
Proof.
  intros ack l. assert (Hl : Forall outgoing_typed l).
  { unfold l. repeat (apply Forall_cons_2; [intros []; vm_compute; intuition congruence|]). apply Forall_nil_2. }
  split; [exact Hl|]. destruct (adapter_protocol_never_fails l Hl) as (p & Hp & _). exists p. split; [exact Hp|].
  revert Hp. vm_compute. intros [= <-]. split; reflexivity.
Defined.

(** C27. The four-player transmission. From a packet boundary, over one packet
    of 4 * [size] bytes the adapter listens to bytes 1 to [size] of every player;
    if it stays in transmission, byte [i] of the next packet, the same for all
    players, is byte [i mod size] of what player [i / size] said, zero for a
    player who is not connected or silent, whatever is said meanwhile. *)
Theorem transmission_broadcasts_the_last_packet outs p :
  protocol_ok p -> phase p = Transmission 0 -> Forall outgoing_typed outs -> Z.of_nat (length outs) = size p * 4 ->
  exists p1, run_bytes outs p = Done p1 /\
    (phase p1 = Transmission 0 \/ phase p1 = PingRestartIndicator 0) /\
    (phase p1 = Transmission 0 -> forall more, Forall outgoing_typed more ->
     let i := Z.of_nat (length more) in i < size p * 4 ->
     exists p2, run_bytes more p1 = Done p2 /\ phase p2 = Transmission i /\
       forall port, incoming_byte_for port p2 =
         Done (contribution (connected p) (default (per_port None) (outs !! Z.to_nat (i mod size p + 1))) (port_at (i / size p)))).
Proof.
  intros Hp Hph Houts Hlen. assert (Hs : 1 <= size p <= 4) by apply Hp.
  assert (exists half, at_packet (size p) half 0 (transmission_buffer p)) as [half Hat].
  { destruct Hp as [_ Hp]. unfold phase_ok in Hp. by rewrite Hph in Hp. }
  destruct (finishes_done _ _ (packet_advances half outs p Hp Hph Hat Houts ltac:(lia)))
    as (p1 & Hrun & Hc1 & Hs1 & Hn1 & Hat1 & Hph1 & _ & Hnew). cbv zeta in *. rewrite Hlen, Z.eqb_refl in *.
  exists p1. split; [done|]. split; [destruct Hph1 as [|[_ ?]]; auto|]. intros Hph1' more Hmore.
  set (i := Z.of_nat (length more)). intros Hi.
  assert (Hp1 : protocol_ok p1) by (split; [done|]; unfold phase_ok; rewrite Hph1', Hs1; by eexists).
  rewrite <- Hs1 in Hat1.
  destruct (finishes_done _ _ (packet_advances (1 - half) more p1 Hp1 Hph1' Hat1 Hmore ltac:(rewrite Hs1; lia)))
    as (p2 & Hrun2 & Hc2 & Hs2 & Hn2 & Hat2 & Hph2 & Hsame & _). cbv zeta in *. fold i in Hat2, Hph2.
  rewrite Hs1, (proj2 (Z.eqb_neq i (size p * 4))) in * by lia. destruct Hph2 as [Hph2|[? _]]; [|done].
  exists p2. split; [done|]. split; [done|]. intros port. unfold incoming_byte_for. rewrite Hph2, Hs2.
  destruct (current_byte_cell (size p) (1 - half) i _ Hs Hat2) as [-> _]. f_equal.
  assert (Hi0 : 0 <= i) by (subst i; lia). assert (Hslot : 0 <= i / size p < 4) by (split; [apply Z.div_pos; lia | apply Z.div_lt_upper_bound; lia]).
  pose proof (Z.mod_pos_bound i (size p) ltac:(lia)). destruct Hat as (_ & Hhalf & _).
  assert (Hdiv : ((1 - half) * 4 + i / size p) / 4 = 1 - half) by divmod_lia.
  rewrite Hsame, Hnew by lia. do 2 f_equal. divmod_lia.
Qed.

Lemma transmission_broadcasts_the_last_packet_witness :
  let p := mkProtocol (Transmission 0) (mkPer true true false false) (per_port 0) 0 1 0 0 false buffer_new 0 in
  let said := mkPer (Some 0xA1) (Some 0xB1) (Some 0xC1) None in
  exists p1 p2, run_bytes [said; said; said; said] p = Done p1 /\ run_bytes [said] p1 = Done p2 /\
    incoming_byte_for P4 p2 = Done 0xB1.
Proof.
  intros p said.
  assert (Hp : protocol_ok p).
  { split; [repeat (split; [vm_compute; intuition congruence|]); by intros []|]. exists 0. split; [apply empty_slots_ok|]. vm_compute. intuition congruence. }
  assert (Hsaid : forall n, Forall outgoing_typed (replicate n said)).
  { intros n. apply Forall_replicate. intros []; vm_compute; intuition congruence. }
  destruct (transmission_broadcasts_the_last_packet (replicate 4 said) p Hp eq_refl (Hsaid 4%nat) eq_refl) as (p1 & H1 & _ & H2).
  assert (Hph : phase p1 = Transmission 0) by (clear H2; revert H1; vm_compute; by intros [= <-]).
  destruct (H2 Hph (replicate 1 said) (Hsaid 1%nat) ltac:(by vm_compute)) as (p2 & Hrun & _ & Hin).
  exists p1, p2. split; [exact H1|]. split; [exact Hrun|]. rewrite Hin. reflexivity.
Defined.

(** ** Pacing *)

(** A clock tick of the engine: a bit when one is due; its result says so. *)
Definition engine_tick (t_cycle : Z) (e : Dmg07ByteEngine) : Dmg07ByteEngine * bool :=
  if should_queue_bit t_cycle e then (record_queued_bit t_cycle e, true) else (e, false).
Fixpoint engine_ticks (n : nat) (t_cycle : Z) (e : Dmg07ByteEngine) : Dmg07ByteEngine * list Z :=
  match n with
  | O => (e, [])
  | S n =>
      let '(e, bit) := engine_tick t_cycle e in
      let '(e, bits) := engine_ticks n (t_cycle + 1) e in
      (e, if bit then t_cycle :: bits else bits)
  end.

Lemma engine_waits n t e : t + Z.of_nat n <= next_bit_t_cycle e -> engine_ticks n t e = (e, []).
Proof.
  revert t. induction n as [|n IH]; intros t Hn; [done|]. cbn [engine_ticks]. unfold engine_tick, should_queue_bit.
  rewrite (proj2 (Z.leb_gt _ _)) by lia. rewrite andb_false_r. by rewrite IH by lia.
Qed.
Lemma engine_done n t e : byte_completion_pending e = true -> engine_ticks n t e = (e, []).
Proof.
  intros He. revert t. induction n as [|n IH]; intros t; [done|]. cbn [engine_ticks]. unfold engine_tick, should_queue_bit.
  rewrite He. cbn. by rewrite IH.
Qed.
Lemma engine_ticks_add n m t e : engine_ticks (n + m) t e =
  let '(e1, l1) := engine_ticks n t e in let '(e2, l2) := engine_ticks m (t + Z.of_nat n) e1 in (e2, (l1 ++ l2)%list).
Proof.
  revert t e. induction n as [|n IH]; intros t e; cbn [Nat.add engine_ticks].
  - cbn. rewrite Z.add_0_r. by destruct (engine_ticks m t e).
  - destruct (engine_tick t e) as [e' bit]. rewrite IH. destruct (engine_ticks n (t + 1) e') as [e1 l1].
    replace (t + 1 + Z.of_nat n) with (t + Z.of_nat (S n)) by lia. destruct (engine_ticks m _ e1) as [e2 l2]. by destruct bit.
Qed.

Lemma engine_bits k t : forall n, (0 < k <= 8)%nat -> n = (67 * (k - 1) + 1)%nat ->
  engine_ticks n t (mkEngine t (8 - Z.of_nat k) false) =
    (mkEngine (t + 67 * (Z.of_nat k - 1)) 8 true, map (fun j => t + 67 * Z.of_nat j) (seq 0 k)).
Proof.
  revert t. induction k as [|k IH]; intros t n Hk ->; [lia|].
  replace (67 * (S k - 1) + 1)%nat with (1 + 67 * k)%nat by lia. rewrite engine_ticks_add. cbn [engine_ticks].
  unfold engine_tick, should_queue_bit. cbn [byte_completion_pending next_bit_t_cycle negb andb]. rewrite Z.leb_refl.
  unfold record_queued_bit. cbn [queued_bits_for_byte next_bit_t_cycle byte_completion_pending].
  destruct k as [|k].
  - change (8 - Z.of_nat 1 + 1) with 8. cbn. by rewrite !Z.add_0_r.
  - rewrite (proj2 (Z.eqb_neq _ 8)) by lia. unfold DMG07_SERIAL_BIT_PERIOD_T_CYCLES.
    replace (67 * S k)%nat with (66 + (67 * (S k - 1) + 1))%nat by lia. rewrite engine_ticks_add, engine_waits by (cbn; lia).
    replace (t + Z.of_nat 1 + Z.of_nat 66) with (t + 67) by lia.
    replace (8 - Z.of_nat (S (S k)) + 1) with (8 - Z.of_nat (S k)) by lia. erewrite IH by (lia || done).
    cbn [app]. f_equal; [f_equal; lia|]. cbn [seq map]. rewrite Z.mul_0_r, Z.add_0_r. f_equal.
    { lia. }
    f_equal. rewrite <- (seq_shift k 1), map_map. apply map_ext. intros. lia.
Qed.

(** The adapter's clock: after a byte was completed at [t], the next byte's
    eight bits are queued at the scheduled delay and then every 67 T-cycles, and
    nothing more is queued until that byte has been completed. *)
Theorem adapter_paces_its_bytes t delay e n : byte_completion_pending e = false -> (470 <= n)%nat ->
  let start := t + Z.max delay 1 in
  engine_ticks n start (schedule_next_byte t delay e) =
    (mkEngine (start + 469) 8 true, map (fun k => start + 67 * k) [0; 1; 2; 3; 4; 5; 6; 7]).
Proof.
  intros He Hn start. unfold schedule_next_byte. rewrite He. fold start.
  replace n with (470 + (n - 470))%nat by lia. rewrite engine_ticks_add.
  pose proof (engine_bits 8 start 470 ltac:(lia) eq_refl) as Hbits. change (8 - Z.of_nat 8) with 0 in Hbits. rewrite Hbits.
  rewrite engine_done by done. rewrite app_nil_r. done.
Qed.

Lemma adapter_paces_its_bytes_witness :
  let e := (take_byte_completion_pending (mkEngine 4096 8 true)).1 in
  byte_completion_pending e = false /\ (engine_ticks 500 10052 (schedule_next_byte 4096 5956 e)).2 =
    [10052; 10119; 10186; 10253; 10320; 10387; 10454; 10521].
Proof.
  intros e. split; [reflexivity|].
  pose proof (adapter_paces_its_bytes 4096 5956 e 500 eq_refl ltac:(lia)) as H. cbv zeta in H.
  change (4096 + Z.max 5956 1) with 10052 in H. rewrite H. reflexivity.
Defined.
