(* ===== verification/MachineContext.v ===== *)
(** * Room in the cycle context

    Every phase of a T-cycle queues a bounded number of records, and the
    buffers of the context are large enough: how much room the timer, the
    serial port and single pushes need, and that they leave the rest of the
    context alone. *)

From Stdlib Require Import ZArith Lia Bool String.
From stdpp Require Import base decidable list option.
From S2P Require Import Prelude.
From S2P Require Import Scheduler.
From S2P Require Import Speed.
From S2P Require Import Timer.
From S2P Require Import Serial.
From S2P Require Import Cartridge.

Local Open Scope Z_scope.

(** [n] more records fit. *)
Definition buffer_room {T} (n : nat) (b : CycleRecordBuffer T) : Prop :=
  buffer_ok b /\ capacity b = 16%nat /\ (len b + n <= 16)%nat.

(** A context of cycle [t] with room for [e] external events, [d] derived
    edges, [i] interrupt requests and [s] side effects. *)
Record context_ready (t : TCycle) (e d i s : nat) (c : CycleContext) : Prop := {
  ready_cycle : t_cycle c = t;
  ready_events : buffer_room e (external_events c);
  ready_edges : buffer_room d (derived_edges c);
  ready_interrupts : buffer_room i (interrupt_requests c);
  ready_effects : buffer_room s (queued_side_effects c)
}.

Lemma buffer_room_weaken {T} n n' (b : CycleRecordBuffer T) : (n' <= n)%nat -> buffer_room n b -> buffer_room n' b.
Proof. unfold buffer_room. intros ? (? & ? & ?). split_and!; (done || lia). Qed.

Lemma context_ready_weaken t e d i s e' d' i' s' c :
  (e' <= e)%nat -> (d' <= d)%nat -> (i' <= i)%nat -> (s' <= s)%nat ->
  context_ready t e d i s c -> context_ready t e' d' i' s' c.
Proof. intros ???? []. constructor; [done | by eapply buffer_room_weaken..]. Qed.

Lemma for_cycle_ready t : context_ready t 16 16 16 16 (for_cycle t).
Proof. by repeat constructor. Qed.

Lemma enter_phase_ready p t e d i s c : context_ready t e d i s c -> context_ready t e d i s (enter_phase p c).
Proof. destruct c. by intros []. Qed.

Lemma context_ready_room t e d i s c : context_ready t e d i s c -> context_room d i c.
Proof.
  intros [_ _ (? & ? & ?) (? & ? & ?) _]. unfold context_room, context_ok. split_and!; done.
Qed.

Lemma push_room {T} n (b : CycleRecordBuffer T) x : buffer_room (S n) b -> finishes (buffer_push b x) (buffer_room n).
Proof.
  intros (Hok & Hc & Hl). destruct (buffer_push_done b x Hok) as (b' & -> & Hok' & Hc' & Hl' & _); [lia|]. cbn.
  unfold buffer_room. split_and!; (done || lia).
Qed.

Lemma remove_room {T} `{EqDecision T} n (b : CycleRecordBuffer T) x :
  buffer_room n b -> buffer_room n (remove_first b x).1.
Proof.
  intros (Hok & Hc & Hl). unfold remove_first. destruct (position x (as_slice b)) as [i|] eqn:Ei; [|done].
  unfold buffer_room, buffer_ok, capacity in *. cbn. rewrite shift_left_length. split_and!; (done || lia).
Qed.

Section Push.
Context (t : TCycle) (e d i s : nat) (c : CycleContext).

Lemma push_external_event_ready x : context_ready t (S e) d i s c ->
  finishes (push_external_event x c) (fun r => context_ready t e d i s r.2).
Proof.
  intros []. unfold push_external_event, lift_buffer. pose proof (push_room e (external_events c) x ltac:(done)) as Hp.
  destruct (buffer_push _ x); [|done]. destruct c. by constructor.
Qed.
Lemma push_derived_edge_ready x : context_ready t e (S d) i s c ->
  finishes (push_derived_edge x c) (fun r => context_ready t e d i s r.2).
Proof.
  intros []. unfold push_derived_edge, lift_buffer. pose proof (push_room d (derived_edges c) x ltac:(done)) as Hp.
  destruct (buffer_push _ x); [|done]. destruct c. by constructor.
Qed.
Lemma queue_interrupt_request_ready x : context_ready t e d (S i) s c ->
  finishes (queue_interrupt_request x c) (fun r => context_ready t e d i s r.2).
Proof.
  intros []. unfold queue_interrupt_request, lift_buffer.
  pose proof (push_room i (interrupt_requests c) x ltac:(done)) as Hp.
  destruct (buffer_push _ x); [|done]. destruct c. by constructor.
Qed.
Lemma take_interrupt_request_ready x : context_ready t e d i s c ->
  finishes (take_interrupt_request x c) (fun r => context_ready t e d i s r.2).
Proof.
  intros []. unfold take_interrupt_request. pose proof (remove_room i (interrupt_requests c) x ltac:(done)) as Hp.
  destruct (remove_first _ x). destruct c. by constructor.
Qed.
End Push.

Lemma st_bind_finishes {S A B} (m : ST S A) (k : A -> ST S B) s Q :
  finishes (m s) (fun r => finishes (k r.1 r.2) Q) -> finishes ((m ≫= k) s) Q.
Proof. unfold mbind, ST_bind. by destruct (m s) as [[a s']|]. Qed.

Lemma finishes_both {A} (o : outcome A) P Q : finishes o P -> finishes o Q -> finishes o (fun a => P a /\ Q a).
Proof. by destruct o. Qed.

(** ** The timer *)

Lemma timer_ready speed tm t e d i s c : context_ready t e (3 + d) (1 + i) s c ->
  finishes (Timer.tick_t_cycle_for_speed speed tm c) (fun r => context_ready t e d i s r.2).
Proof.
  intros Hc. unfold Timer.tick_t_cycle_for_speed. apply st_bind_finishes.
  eapply finishes_mono with (Q := fun r => context_ready t e (3 + d) i s r.2).
  { assert (Hw : context_ready t e (3 + d) i s c) by (eapply context_ready_weaken; [..|exact Hc]; lia).
    unfold advance_overflow_pipeline. destruct (overflow_state _); [done|]. destruct (1 <? _); [done|].
    apply st_bind_finishes. eapply finishes_mono; [by eapply queue_interrupt_request_ready|]. by intros []. }
  intros [t1 c1] H1. cbn [fst snd] in *. apply st_bind_finishes.
  eapply finishes_mono; [by apply (push_derived_edge_ready t e (2 + d) i s)|]. intros [[] c2] H2. cbn [fst snd] in *.
  apply st_bind_finishes. eapply finishes_mono with (Q := fun r => context_ready t e (1 + d) i s r.2).
  { destruct (_ && _); [by apply (push_derived_edge_ready t e (1 + d) i s)|]. cbn. eapply context_ready_weaken; [..|exact H2]; lia. }
  intros [[] c3] H3. cbn [fst snd] in *. apply st_bind_finishes.
  eapply finishes_mono with (Q := fun r => context_ready t e d i s r.2).
  { destruct (_ && _); [by apply (push_derived_edge_ready t e d i s)|]. cbn. eapply context_ready_weaken; [..|exact H3]; lia. }
  by intros [[] c4].
Qed.

Lemma timer_tick_ready speed tm t e d i s c : timer_ok tm -> context_ready t e (3 + d) (1 + i) s c ->
  finishes (Timer.tick_t_cycle_for_speed speed tm c) (fun r => timer_ok r.1 /\ context_ready t e d i s r.2).
Proof.
  intros Ht Hc. apply finishes_both; [|by apply timer_ready].
  assert (Hroom : context_room 3 1 c).
  { eapply (context_room_weaken (3 + d) (1 + i)); [lia.. | by eapply context_ready_room]. }
  destruct (wp_done _ _ _ (timer_tick_wp speed tm c Hroom)) as (t' & c' & -> & -> & _). by apply timer_ok_next.
Qed.

(** ** The serial port *)

Lemma shift_ready sp t e d i s c : 0 <= bits_shifted_of sp < 8 -> context_ready t e d (1 + i) s c ->
  finishes (shift_one_bit sp c) (fun r => context_ready t e d i s r.2).
Proof.
  intros Hb Hc. assert (Hw : context_ready t e d i s c) by (eapply context_ready_weaken; [..|exact Hc]; lia).
  unfold shift_one_bit. unfold bits_shifted_of in Hb. destruct (transfer_state sp) as [|n]; [done|].
  destruct (incoming_bit_from_peer _ _ _). rewrite (proj2 (Z.leb_gt 255 n)) by lia.
  destruct (_ =? 8); [|done]. apply st_bind_finishes.
  eapply finishes_mono; [by eapply queue_interrupt_request_ready|]. by intros [].
Qed.

Lemma serial_ready speed sp t e d i s c : 0 <= bits_shifted_of sp < 8 -> context_ready t e d (1 + i) s c ->
  finishes (Serial.tick_t_cycle_for_speed speed sp c) (fun r => context_ready t e d i s r.2).
Proof.
  intros Hb Hc. assert (Hw : context_ready t e d i s c) by (eapply context_ready_weaken; [..|exact Hc]; lia).
  assert (Hshift : forall sp' tel, bits_shifted_of sp' = bits_shifted_of sp ->
    finishes (tick_shift sp' tel c) (fun r => context_ready t e d i s r.2)).
  { intros sp' tel Hs. unfold tick_shift. apply st_bind_finishes.
    eapply finishes_mono; [apply (shift_ready sp' t e d i); [by rewrite Hs | done]|]. by intros [[] c1]. }
  unfold Serial.tick_t_cycle_for_speed.
  destruct (transfer_state _); [done|]. destruct (clock_mode _).
  - destruct (negb _); [|done]. apply Hshift. by destruct sp.
  - destruct (serial_internal_clock_edge _ _ _ _); [|done]. apply Hshift. by destruct sp.
Qed.

Lemma serial_tick_ready speed sp t e d i s c : serial_ok sp -> context_ready t e d (1 + i) s c ->
  finishes (Serial.tick_t_cycle_for_speed speed sp c)
    (fun r => serial_ok r.1.1 /\ r.1.1 = serial_next speed sp /\ context_ready t e d i s r.2).
Proof.
  intros Hs Hc. pose proof (serial_ready speed sp t e d i s c (serial_ok_bits _ Hs) Hc) as Hf.
  assert (Hroom : context_room 0 1 c).
  { eapply (context_room_weaken d (1 + i)); [lia.. | by eapply context_ready_room]. }
  pose proof (serial_tick_wp speed sp 0 c (fun r _ => r.1 = serial_next speed sp) Hroom (serial_ok_bits _ Hs)
    (fun _ _ _ => eq_refl)) as Hw.
  unfold wp in Hw. destruct (Serial.tick_t_cycle_for_speed speed sp c) as [[r c']|]; [|done]. cbn in *. subst.
  split_and!; [rewrite Hw; by apply serial_ok_next | done..].
Qed.
