(* ===== verification/MachinePorts.v ===== *)
(** * What the machine asks of the picture unit and of the SGB host ([crates/gb-core/src/machine.rs])

    The machine steps two components that this library does not model from the
    inside: the picture unit ([ppu/*.rs]) and the Super Game Boy host
    ([sgb/host.rs]).  Each is an interface here: the calls the machine makes of
    it, and the laws it relies on. *)

From Stdlib Require Import ZArith Lia Bool String.
From stdpp Require Import base decidable list option.
From S2P Require Import Prelude.
From S2P Require Import Model.
From S2P Require Import CartridgeHeader.
From S2P Require Import Cartridge.
From S2P Require Import BusState.
From S2P Require Import BusMemory.
From S2P Require Import BusIo.
From S2P Require Import Boot.

Local Open Scope Z_scope.

(** ** The picture unit *)

(** [PpuBusStateSnapshot]: what the unit publishes to its own fetches, to CPU
    reads and to CPU writes. *)
Record PpuBusStateSnapshot := mkPpuSnapshot {
  snapshot_owner : PpuBusState;
  snapshot_cpu_read : PpuBusState;
  snapshot_cpu_write : PpuBusState
}.

Record PpuDmaOamConflict := mkOamConflict { conflict_address : Z; conflict_value : Z }.

(** The registers [PpuRegister::from_address] knows. *)
Definition PPU_REGISTERS : list Z :=
  [0xFF40; 0xFF41; 0xFF42; 0xFF43; 0xFF44; 0xFF45; 0xFF47; 0xFF48; 0xFF49; 0xFF4A; 0xFF4B;
   0xFF68; 0xFF69; 0xFF6A; 0xFF6B; 0xFF6C].
Definition owns_mmio_register (address : Z) : bool := existsb (Z.eqb address) PPU_REGISTERS.

(** The calls that change the unit, besides its T-cycle and the bus's. *)
Inductive PictureCall :=
| CommitRegisterWrite (address value : Z)
| TakePendingInterruptRequestMask
| SetSystemStopActive (active : bool)
| ApplyStartupState (s : PpuStartupState)
| ApplyDmg0DirectBootHandoffStatPhase
| ApplyDmgSkipBootStatIrqStartupPhase
| ApplyCgbCustomBootEntryPhase
| ApplyDmgRealBootPowerOnLcdEnablePhase
| ApplyDmgRealBootHandoffStatIrqPhase
| ApplyCgbBootHandoffRasterCorrection (t_cycles : Z)
| ApplyOperatingModeState (mode : OperatingMode)
| ApplyCgbCompatibilityPaletteStartupState (startup : StartupMode) (mode : OperatingMode)
    (header : option CartridgeHeader) (pressed_mask : Z)
| ApplyCgbNativePaletteStartupState (startup : StartupMode) (mode : OperatingMode).

Class PictureUnit (P : Type) := {
  picture_port :: PpuPort P;
  picture_new : ConsoleModel -> P;
  picture_console_model : P -> ConsoleModel;
  picture_bus_state : P -> PpuBusState;
  owner_bus_state : P -> PpuBusState;
  bus_state_snapshot : P -> PpuBusStateSnapshot;
  cpu_oam_read_bus_state : P -> PpuBusState;
  cpu_oam_write_bus_state : P -> PpuBusState;
  picture_ly : P -> Z;
  line_dot : P -> Z;
  mode0_start_dot : P -> Z;
  framebuffer : P -> list Z;
  pending_interrupt_request_mask : P -> Z;
  cpu_visible_pending_interrupt_request_mask : P -> Z;
  dmg_mode2_vblank_entry_interrupt_service_deferred : P -> bool;
  dmg_lcd_reenable_mode0_halt_wake_deferred : P -> bool;
  mode0_hblank_halt_wake_deferred : P -> bool;
  dmg_mode2_oam_halt_wake_deferred : P -> bool;
  dmg_mode2_vblank_entry_halt_wake_deferred : P -> bool;
  picture_tick : VideoBusView OamDomain -> VideoBusView VramDomain -> bool -> option PpuDmaOamConflict -> P -> outcome P;
  picture_call : PictureCall -> P -> outcome P
}.

Definition picture_call_typed (call : PictureCall) : Prop :=
  match call with
  | CommitRegisterWrite address value => u16 address /\ u8 value
  | ApplyStartupState s => Forall u8 (ppu_bytes s)
  | ApplyCgbCompatibilityPaletteStartupState _ _ _ pressed_mask => u8 pressed_mask
  | ApplyCgbBootHandoffRasterCorrection t_cycles => u16 t_cycles
  | _ => True
  end.

Definition acquires_oam (s : PpuBusState) : bool :=
  is_lcd_enabled s && (bool_decide (ppu_mode s = OamScan) || bool_decide (ppu_mode s = Drawing)).
Definition acquires_vram (s : PpuBusState) : bool := is_lcd_enabled s && bool_decide (ppu_mode s = Drawing).

(** What a tick of the unit asserts of the memory it is handed: the views are
    its own, and the owners of both memories are the unit exactly when it
    fetches from them and object DMA exactly when it runs. *)
Record tick_views_ok (oam : VideoBusView OamDomain) (vram : VideoBusView VramDomain) (dma_oam_active : bool)
    (owner : PpuBusState) : Prop := {
  oam_view_master : view_master oam = RequesterPpu;
  vram_view_master : view_master vram = RequesterPpu;
  oam_view_owned : is_acquired_by_master oam = acquires_oam owner;
  oam_view_contended : view_is_acquired oam = is_acquired_by_master oam || dma_oam_active;
  vram_view_owned : is_acquired_by_master vram = acquires_vram owner;
  oam_view_domain : oam_ok (view_domain oam);
  vram_view_domain : vram_ok (view_domain vram)
}.

Definition oam_conflict_ok (c : PpuDmaOamConflict) : Prop := u16 (conflict_address c) /\ u8 (conflict_value c).

(** What the machine relies on. *)
Class PictureUnitLaws (P : Type) `{PictureUnit P} := {
  picture_port_laws :: PpuPortLaws P;
  picture_new_ok : forall m, port_ok (picture_new m);
  picture_framebuffer_ok : forall p, port_ok p -> bytes (framebuffer p);
  picture_pending_ok : forall p, port_ok p -> 0 <= pending_interrupt_request_mask p < 4;
  picture_mode0_ok : forall p, port_ok p -> 0 <= mode0_start_dot p <= 0xFFFD;
  picture_call_ok : forall call p, port_ok p -> picture_call_typed call -> finishes (picture_call call p) port_ok;
  picture_tick_ok : forall oam vram dma_oam_active conflict p, port_ok p ->
    tick_views_ok oam vram dma_oam_active (owner_bus_state p) -> opt oam_conflict_ok conflict ->
    finishes (picture_tick oam vram dma_oam_active conflict p) port_ok
}.

(** ** The SGB host *)

Definition SGB_CONTROLLER_COUNT : Z := 4.

(** The LCD registers of [SgbVramTransferDisplayState]. *)
Record SgbVramTransferDisplayState := mkTransferDisplay {
  display_lcdc : Z; display_scy : Z; display_scx : Z; display_bgp : Z
}.

Inductive HostCall :=
| SetPlayerPressedMasks (masks : list Z)
| ObserveJoypWrite (value : Z)
| CapturePendingLcdFreeze (frame : list Z)
| FinishRealBootHandoff
| AdvanceFrameStart (vram : list Z) (display : SgbVramTransferDisplayState)
| ApplyCartridgeHeader (header : option CartridgeHeader).

Class SgbHostPort (H : Type) := {
  sgb_new_with_profile : HostPlatform -> option SgbHostProfile -> StartupMode -> H;
  selected_player_pressed_mask : H -> Z;
  joyp_read_value : Z -> H -> Z;
  host_game_link_supported : H -> bool;
  host_call : HostCall -> H -> outcome H
}.

Definition pressed_masks_ok (masks : list Z) : Prop := vec_len masks = SGB_CONTROLLER_COUNT /\ bytes masks.
Definition transfer_display_ok (d : SgbVramTransferDisplayState) : Prop :=
  u8 (display_lcdc d) /\ u8 (display_scy d) /\ u8 (display_scx d) /\ u8 (display_bgp d).
Definition host_call_typed (call : HostCall) : Prop :=
  match call with
  | SetPlayerPressedMasks masks => pressed_masks_ok masks
  | ObserveJoypWrite value => u8 value
  | CapturePendingLcdFreeze frame => bytes frame
  | AdvanceFrameStart vram display => bytes vram /\ transfer_display_ok display
  | FinishRealBootHandoff | ApplyCartridgeHeader _ => True
  end.

Class SgbHostLaws (H : Type) `{SgbHostPort H} := {
  host_ok : H -> Prop;
  sgb_new_ok : forall platform profile startup, host_ok (sgb_new_with_profile platform profile startup);
  selected_mask_ok : forall h, host_ok h -> u8 (selected_player_pressed_mask h);
  joyp_read_ok : forall value h, host_ok h -> u8 value -> u8 (joyp_read_value value h);
  host_call_ok : forall call h, host_ok h -> host_call_typed call -> finishes (host_call call h) host_ok
}.
