(* ===== verification/MachineState.v ===== *)
(** * The machine ([crates/gb-core/src/machine.rs], [machine/access.rs])

    The state of the whole console: its components, the events its host has
    queued for the next T-cycle, construction, startup and the insertion of a
    cartridge.  The field [x] of the source's [Machine] is [mc_x] here; the
    tracer, the debug controls and the borrowed SGB border, which no step
    reads, are left out. *)

From Stdlib Require Import ZArith Lia Bool String.
From stdpp Require Import base decidable list option.
From S2P Require Import Prelude.
From S2P Require Import Model.
From S2P Require Import Config.
From S2P Require Import Scheduler.
From S2P Require Import Interrupts.
From S2P Require Import Joypad.
From S2P Require Import Speed.
From S2P Require Import Timer.
From S2P Require Import Serial.
From S2P Require Import CpuData.
From S2P Require Import CpuCycle.
From S2P Require Import CartridgeHeader.
From S2P Require Import Cartridge.
From S2P Require Import CartridgeDevice.
From S2P Require Import CartridgeSlot.
From S2P Require Import ApuChannels.
From S2P Require Import Apu.
From S2P Require Import BusState.
From S2P Require Import Vectors.
From S2P Require Import BusIo.
From S2P Require Import Dma.
From S2P Require Import Boot.
From S2P Require Import Bus.
From S2P Require Import Printer.
From S2P Require Import ExternalPort.
From S2P Require Import MachinePorts.

Local Open Scope Z_scope.

(** ** What the host has queued *)

Record PendingExternalEvents := mkPending {
  pending_joypad_pressed_mask : Z;
  joypad_state_dirty : bool;
  pending_sgb_joypad_pressed_masks : list Z;
  sgb_joypad_state_dirty_mask : Z;
  external_serial_clock_pulses_pending : Z
}.

#[export] Instance upd_pending_joypad_pressed_mask : Update pending_joypad_pressed_mask := fun v s =>
  let '(mkPending _ x2 x3 x4 x5) := s in mkPending v x2 x3 x4 x5.
#[export] Instance upd_joypad_state_dirty : Update joypad_state_dirty := fun v s =>
  let '(mkPending x1 _ x3 x4 x5) := s in mkPending x1 v x3 x4 x5.
#[export] Instance upd_pending_sgb_joypad_pressed_masks : Update pending_sgb_joypad_pressed_masks := fun v s =>
  let '(mkPending x1 x2 _ x4 x5) := s in mkPending x1 x2 v x4 x5.
#[export] Instance upd_sgb_joypad_state_dirty_mask : Update sgb_joypad_state_dirty_mask := fun v s =>
  let '(mkPending x1 x2 x3 _ x5) := s in mkPending x1 x2 x3 v x5.
#[export] Instance upd_external_serial_clock_pulses_pending : Update external_serial_clock_pulses_pending := fun v s =>
  let '(mkPending x1 x2 x3 x4 _) := s in mkPending x1 x2 x3 x4 v.

Definition pending_new (joypad_pressed_mask : Z) : PendingExternalEvents :=
  mkPending joypad_pressed_mask false (vec_set (vec_zeroed SGB_CONTROLLER_COUNT) 0 joypad_pressed_mask) 0 0.

Definition pending_reset (joypad_pressed_mask : Z) (e : PendingExternalEvents) : PendingExternalEvents :=
  pending_new joypad_pressed_mask.

Definition reset_for_startup (host_joypad_pressed_mask : Z) (host_sgb_joypad_pressed_masks : list Z)
    (hardware_pressed_mask : Z) (e : PendingExternalEvents) : PendingExternalEvents :=
  (pending_reset host_joypad_pressed_mask e)
    <| pending_sgb_joypad_pressed_masks := host_sgb_joypad_pressed_masks |>
    <| joypad_state_dirty := negb (host_joypad_pressed_mask =? hardware_pressed_mask) |>.

Definition press (pressed : bool) (bit m : Z) : Z := if pressed then Z.lor m bit else Z.land m (not8 bit).

Definition pending_set_joypad_button_pressed (button : JoypadButton) (pressed : bool) (e : PendingExternalEvents)
    : PendingExternalEvents :=
  let previous_mask := pending_joypad_pressed_mask e in
  let e := e <| pending_joypad_pressed_mask := press pressed (button_mask button) previous_mask |> in
  if negb (pending_joypad_pressed_mask e =? previous_mask) then e <| joypad_state_dirty := true |> else e.

Definition sgb_player_index (player : Z) : option Z :=
  if (player =? 0) || (SGB_CONTROLLER_COUNT <? player) then None else Some (player - 1).

Definition pending_set_sgb_joypad_button_pressed (player : Z) (button : JoypadButton) (pressed : bool)
    (e : PendingExternalEvents) : outcome PendingExternalEvents :=
  match sgb_player_index player with
  | None => mret e
  | Some player_index =>
      previous_mask ← vec_index (pending_sgb_joypad_pressed_masks e) player_index;
      let m := press pressed (button_mask button) previous_mask in
      if m =? previous_mask then mret e
      else
        masks ← store (pending_sgb_joypad_pressed_masks e) player_index m;
        let e := e <| pending_sgb_joypad_pressed_masks := masks |>
                   <| sgb_joypad_state_dirty_mask :=
                        Z.lor (sgb_joypad_state_dirty_mask e) (Z.shiftl 1 player_index) |> in
        mret (if player_index =? 0 then e <| pending_joypad_pressed_mask := m |> else e)
  end.

Definition take_pending_joypad_pressed_mask (e : PendingExternalEvents) : PendingExternalEvents * option Z :=
  if negb (joypad_state_dirty e) then (e, None)
  else (e <| joypad_state_dirty := false |>, Some (pending_joypad_pressed_mask e)).

Definition take_pending_sgb_joypad_pressed_masks (e : PendingExternalEvents) : PendingExternalEvents * option (list Z) :=
  if sgb_joypad_state_dirty_mask e =? 0 then (e, None)
  else (e <| sgb_joypad_state_dirty_mask := 0 |>, Some (pending_sgb_joypad_pressed_masks e)).

Definition pending_queue_external_serial_clock (e : PendingExternalEvents) : PendingExternalEvents :=
  e <| external_serial_clock_pulses_pending := saturating_add8 (external_serial_clock_pulses_pending e) 1 |>.

Definition take_external_serial_clock_pulse (e : PendingExternalEvents) : PendingExternalEvents * bool :=
  if external_serial_clock_pulses_pending e =? 0 then (e, false)
  else (e <| external_serial_clock_pulses_pending := external_serial_clock_pulses_pending e - 1 |>, true).

Definition has_pending_work (e : PendingExternalEvents) : bool :=
  joypad_state_dirty e || negb (sgb_joypad_state_dirty_mask e =? 0) ||
  negb (external_serial_clock_pulses_pending e =? 0).

(** ** The machine *)

Record PendingPpuMmioWrite := mkPpuWrite { write_address : Z; write_value : Z; commit_delay_t_cycles : Z }.

Record Machine (P H : Type) := mkMachine {
  mc_config : MachineConfig;
  mc_scheduler : GlobalScheduler;
  mc_cpu : CpuCore;
  mc_bus : Bus;
  mc_apu : Apu;
  mc_ppu : P;
  mc_dma : DmaController;
  mc_timer : Timer;
  mc_serial : Serial;
  mc_sgb_host : H;
  mc_speed : SpeedController;
  mc_external_port : ExternalPort;
  mc_boot : BootController;
  mc_interrupts : InterruptController;
  mc_joypad : Joypad;
  mc_cartridge : CartridgeSlot;
  mc_pending_external_events : PendingExternalEvents;
  mc_pending_ppu_mmio_write : option PendingPpuMmioWrite
}.
Arguments mkMachine {P H} _ _ _ _ _ _ _ _ _ _ _ _ _ _ _ _ _ _.
Arguments mc_config {P H} _.
Arguments mc_scheduler {P H} _.
Arguments mc_cpu {P H} _.
Arguments mc_bus {P H} _.
Arguments mc_apu {P H} _.
Arguments mc_ppu {P H} _.
Arguments mc_dma {P H} _.
Arguments mc_timer {P H} _.
Arguments mc_serial {P H} _.
Arguments mc_sgb_host {P H} _.
Arguments mc_speed {P H} _.
Arguments mc_external_port {P H} _.
Arguments mc_boot {P H} _.
Arguments mc_interrupts {P H} _.
Arguments mc_joypad {P H} _.
Arguments mc_cartridge {P H} _.
Arguments mc_pending_external_events {P H} _.
Arguments mc_pending_ppu_mmio_write {P H} _.

Section Updates.
Context {P H : Type}.
#[export] Instance upd_mc_config : Update (@mc_config P H) := fun v s =>
  let '(mkMachine _ x2 x3 x4 x5 x6 x7 x8 x9 x10 x11 x12 x13 x14 x15 x16 x17 x18) := s in mkMachine v x2 x3 x4 x5 x6 x7 x8 x9 x10 x11 x12 x13 x14 x15 x16 x17 x18.
#[export] Instance upd_mc_scheduler : Update (@mc_scheduler P H) := fun v s =>
  let '(mkMachine x1 _ x3 x4 x5 x6 x7 x8 x9 x10 x11 x12 x13 x14 x15 x16 x17 x18) := s in mkMachine x1 v x3 x4 x5 x6 x7 x8 x9 x10 x11 x12 x13 x14 x15 x16 x17 x18.
#[export] Instance upd_mc_cpu : Update (@mc_cpu P H) := fun v s =>
  let '(mkMachine x1 x2 _ x4 x5 x6 x7 x8 x9 x10 x11 x12 x13 x14 x15 x16 x17 x18) := s in mkMachine x1 x2 v x4 x5 x6 x7 x8 x9 x10 x11 x12 x13 x14 x15 x16 x17 x18.
#[export] Instance upd_mc_bus : Update (@mc_bus P H) := fun v s =>
  let '(mkMachine x1 x2 x3 _ x5 x6 x7 x8 x9 x10 x11 x12 x13 x14 x15 x16 x17 x18) := s in mkMachine x1 x2 x3 v x5 x6 x7 x8 x9 x10 x11 x12 x13 x14 x15 x16 x17 x18.
#[export] Instance upd_mc_apu : Update (@mc_apu P H) := fun v s =>
  let '(mkMachine x1 x2 x3 x4 _ x6 x7 x8 x9 x10 x11 x12 x13 x14 x15 x16 x17 x18) := s in mkMachine x1 x2 x3 x4 v x6 x7 x8 x9 x10 x11 x12 x13 x14 x15 x16 x17 x18.
#[export] Instance upd_mc_ppu : Update (@mc_ppu P H) := fun v s =>
  let '(mkMachine x1 x2 x3 x4 x5 _ x7 x8 x9 x10 x11 x12 x13 x14 x15 x16 x17 x18) := s in mkMachine x1 x2 x3 x4 x5 v x7 x8 x9 x10 x11 x12 x13 x14 x15 x16 x17 x18.
#[export] Instance upd_mc_dma : Update (@mc_dma P H) := fun v s =>
  let '(mkMachine x1 x2 x3 x4 x5 x6 _ x8 x9 x10 x11 x12 x13 x14 x15 x16 x17 x18) := s in mkMachine x1 x2 x3 x4 x5 x6 v x8 x9 x10 x11 x12 x13 x14 x15 x16 x17 x18.
#[export] Instance upd_mc_timer : Update (@mc_timer P H) := fun v s =>
  let '(mkMachine x1 x2 x3 x4 x5 x6 x7 _ x9 x10 x11 x12 x13 x14 x15 x16 x17 x18) := s in mkMachine x1 x2 x3 x4 x5 x6 x7 v x9 x10 x11 x12 x13 x14 x15 x16 x17 x18.
#[export] Instance upd_mc_serial : Update (@mc_serial P H) := fun v s =>
  let '(mkMachine x1 x2 x3 x4 x5 x6 x7 x8 _ x10 x11 x12 x13 x14 x15 x16 x17 x18) := s in mkMachine x1 x2 x3 x4 x5 x6 x7 x8 v x10 x11 x12 x13 x14 x15 x16 x17 x18.
#[export] Instance upd_mc_sgb_host : Update (@mc_sgb_host P H) := fun v s =>
  let '(mkMachine x1 x2 x3 x4 x5 x6 x7 x8 x9 _ x11 x12 x13 x14 x15 x16 x17 x18) := s in mkMachine x1 x2 x3 x4 x5 x6 x7 x8 x9 v x11 x12 x13 x14 x15 x16 x17 x18.
#[export] Instance upd_mc_speed : Update (@mc_speed P H) := fun v s =>
  let '(mkMachine x1 x2 x3 x4 x5 x6 x7 x8 x9 x10 _ x12 x13 x14 x15 x16 x17 x18) := s in mkMachine x1 x2 x3 x4 x5 x6 x7 x8 x9 x10 v x12 x13 x14 x15 x16 x17 x18.
#[export] Instance upd_mc_external_port : Update (@mc_external_port P H) := fun v s =>
  let '(mkMachine x1 x2 x3 x4 x5 x6 x7 x8 x9 x10 x11 _ x13 x14 x15 x16 x17 x18) := s in mkMachine x1 x2 x3 x4 x5 x6 x7 x8 x9 x10 x11 v x13 x14 x15 x16 x17 x18.
#[export] Instance upd_mc_boot : Update (@mc_boot P H) := fun v s =>
  let '(mkMachine x1 x2 x3 x4 x5 x6 x7 x8 x9 x10 x11 x12 _ x14 x15 x16 x17 x18) := s in mkMachine x1 x2 x3 x4 x5 x6 x7 x8 x9 x10 x11 x12 v x14 x15 x16 x17 x18.
#[export] Instance upd_mc_interrupts : Update (@mc_interrupts P H) := fun v s =>
  let '(mkMachine x1 x2 x3 x4 x5 x6 x7 x8 x9 x10 x11 x12 x13 _ x15 x16 x17 x18) := s in mkMachine x1 x2 x3 x4 x5 x6 x7 x8 x9 x10 x11 x12 x13 v x15 x16 x17 x18.
#[export] Instance upd_mc_joypad : Update (@mc_joypad P H) := fun v s =>
  let '(mkMachine x1 x2 x3 x4 x5 x6 x7 x8 x9 x10 x11 x12 x13 x14 _ x16 x17 x18) := s in mkMachine x1 x2 x3 x4 x5 x6 x7 x8 x9 x10 x11 x12 x13 x14 v x16 x17 x18.
#[export] Instance upd_mc_cartridge : Update (@mc_cartridge P H) := fun v s =>
  let '(mkMachine x1 x2 x3 x4 x5 x6 x7 x8 x9 x10 x11 x12 x13 x14 x15 _ x17 x18) := s in mkMachine x1 x2 x3 x4 x5 x6 x7 x8 x9 x10 x11 x12 x13 x14 x15 v x17 x18.
#[export] Instance upd_mc_pending_external_events : Update (@mc_pending_external_events P H) := fun v s =>
  let '(mkMachine x1 x2 x3 x4 x5 x6 x7 x8 x9 x10 x11 x12 x13 x14 x15 x16 _ x18) := s in mkMachine x1 x2 x3 x4 x5 x6 x7 x8 x9 x10 x11 x12 x13 x14 x15 x16 v x18.
#[export] Instance upd_mc_pending_ppu_mmio_write : Update (@mc_pending_ppu_mmio_write P H) := fun v s =>
  let '(mkMachine x1 x2 x3 x4 x5 x6 x7 x8 x9 x10 x11 x12 x13 x14 x15 x16 x17 _) := s in mkMachine x1 x2 x3 x4 x5 x6 x7 x8 x9 x10 x11 x12 x13 x14 x15 x16 x17 v.
End Updates.

(** ** Calls into the components *)

Section Operations.
Context {P H : Type} `{PictureUnit P} `{SgbHostPort H}.
Implicit Types m : Machine P H.

Definition on_ppu (call : PictureCall) m : outcome (Machine P H) :=
  p ← picture_call call (mc_ppu m); mret (m <| mc_ppu := p |>).
Definition on_host (call : HostCall) m : outcome (Machine P H) :=
  h ← host_call call (mc_sgb_host m); mret (m <| mc_sgb_host := h |>).

Definition sync_serial_peer_from_external_port m : Machine P H :=
  m <| mc_serial := set_peer (serial_peer (mc_external_port m)) (mc_serial m) |>.

(** [let _ = joypad.apply_pressed_mask(sgb_host.selected_player_pressed_mask())]. *)
Definition apply_selected_player_mask m : Machine P H :=
  m <| mc_joypad := (apply_pressed_mask (selected_player_pressed_mask (mc_sgb_host m)) (mc_joypad m)).1 |>.

Definition cpu_stop_active m : bool :=
  match execution_state (mc_cpu m) with Stopped | ZombieStopped | SpeedSwitchPause _ => true | _ => false end.

(** ** Startup *)

(** The components a direct boot starts in the state its boot ROM would leave. *)
Definition apply_skip_boot_state (s : BootDirectBootState) m : outcome (Machine P H) :=
  let startup_apu :=
    match config_operating_mode (mc_config m) with
    | ModeCgbDmgExt => (boot_apu s) <| su_channel_active_mask := 0 |>
    | _ => boot_apu s
    end in
  let m := m <| mc_cpu := cpu_apply_startup_state (boot_cpu s) (mc_cpu m) |> in
  apu ← apu_apply_startup_state startup_apu (mc_apu m);
  let m := m <| mc_apu := apu |> in
  m ← on_ppu (ApplyStartupState (boot_ppu s)) m;
  m ← (if uses_handheld_dmg0_revision (mc_config m) then on_ppu ApplyDmg0DirectBootHandoffStatPhase m
       else match config_startup_mode (mc_config m) with
            | CustomBoot => on_ppu ApplyDmgSkipBootStatIrqStartupPhase m
            | _ => mret m
            end);
  m ← (match config_startup_mode (mc_config m) with
       | CustomBoot =>
           if is_cgb_family (config_console_model (mc_config m)) then on_ppu ApplyCgbCustomBootEntryPhase m else mret m
       | _ => mret m
       end);
  mret (m <| mc_timer := timer_apply_startup_state (boot_timer s) (mc_timer m) |>
          <| mc_serial := serial_apply_startup_state (boot_serial s) (mc_serial m) |>
          <| mc_dma := Dma.apply_startup_state (boot_dma s) (mc_dma m) |>
          <| mc_interrupts := interrupts_apply_startup_state (boot_interrupts s) (mc_interrupts m) |>
          <| mc_joypad := joypad_apply_startup_state (boot_joypad s) (mc_joypad m) |>
          <| mc_bus := bus_apply_startup_memory_policy (boot_memory_policy s) (mc_bus m) |>).

Definition apply_real_boot_state (s : BootRealBootPowerOnState) m : outcome (Machine P H) :=
  m ← on_ppu ApplyDmgRealBootPowerOnLcdEnablePhase m;
  mret (m <| mc_timer := timer_apply_startup_state (real_timer s) (mc_timer m) |>
          <| mc_serial := serial_apply_startup_state (real_serial s) (mc_serial m) |>
          <| mc_dma := Dma.apply_startup_state (real_dma s) (mc_dma m) |>
          <| mc_joypad := joypad_apply_startup_state (real_joypad s) (mc_joypad m) |>).

Definition apply_startup_configuration (host_joypad_pressed_mask : Z) (host_sgb_joypad_pressed_masks : list Z) m
    : outcome (Machine P H) :=
  skip ← machine_skip_boot_state (Some (mc_cartridge m)) (mc_boot m);
  m ← (match skip with Some s => apply_skip_boot_state s m | None => mret m end);
  m ← (match real_boot_power_on_state (mc_boot m) with Some s => apply_real_boot_state s m | None => mret m end);
  let startup := config_startup_mode (mc_config m) in
  let mode := config_operating_mode (mc_config m) in
  let cartridge_header := slot_header (mc_cartridge m) in
  m ← on_ppu (ApplyOperatingModeState mode) m;
  let m := m <| mc_serial := serial_apply_operating_mode_state mode (mc_serial m) |> in
  m ← on_ppu (ApplyCgbCompatibilityPaletteStartupState startup mode cartridge_header host_joypad_pressed_mask) m;
  m ← on_ppu (ApplyCgbNativePaletteStartupState startup mode) m;
  let m := m <| mc_bus := apply_cgb_startup_state startup cartridge_header (mc_bus m) |> in
  m ← on_host (ApplyCartridgeHeader cartridge_header) m;
  m ← (if is_sgb (config_host_platform (mc_config m)) then
         m ← on_host (SetPlayerPressedMasks host_sgb_joypad_pressed_masks) m; mret (apply_selected_player_mask m)
       else mret m);
  let m := m <| mc_external_port := apply_startup_reset (mc_external_port m) |> in
  let m := sync_serial_peer_from_external_port m in
  mret (m <| mc_pending_external_events :=
          reset_for_startup host_joypad_pressed_mask host_sgb_joypad_pressed_masks (pressed_mask (mc_joypad m))
            (mc_pending_external_events m) |>).

(** The components of a configuration before any startup state, around what a
    reset keeps: the external port, the cartridge and the host's events. *)
Definition machine_components (config : MachineConfig) (port : ExternalPort) (cartridge : CartridgeSlot)
    (events : PendingExternalEvents) : Machine P H :=
  let m := config_console_model config in
  let o := config_operating_mode config in
  let r := config_revision config in
  let s := config_startup_mode config in
  mkMachine config scheduler_default (cpu_new m) (bus_new_with_revision_and_operating_mode m r o)
    (apu_new_with_revision m r) (picture_new m) (dma_new m) (timer_new m) (serial_new_with_operating_mode m o)
    (sgb_new_with_profile (config_host_platform config) (config_sgb_profile config) s) (speed_new m o) port
    (new_with_sgb_profile m r (config_sgb_profile config) s (config_boot_rom_assets config)) (interrupts_new m)
    (joypad_new m) cartridge events None.

Definition machine_new (config : MachineConfig) : outcome (Machine P H) :=
  apply_startup_configuration 0 (vec_zeroed SGB_CONTROLLER_COUNT)
    (machine_components config external_port_new slot_empty (pending_new 0)).

Definition restart_runtime_after_cartridge_load (host_joypad_pressed_mask : Z) (host_sgb_joypad_pressed_masks : list Z)
    (port : ExternalPort) m : outcome (Machine P H) :=
  apply_startup_configuration host_joypad_pressed_mask host_sgb_joypad_pressed_masks
    (machine_components (mc_config m) port (mc_cartridge m) (mc_pending_external_events m)).

Definition load_cartridge (rom_bytes : list Z) m
    : outcome (Machine P H * (list CartridgeDiagnostic + CartridgeLoadError)) :=
  report ← CartridgeSlot.load rom_bytes (config_compatibility (mc_config m));
  match report with
  | inr error => mret (m, inr error)
  | inl (cartridge, diagnostics) =>
      let port := mc_external_port m in
      let host_joypad_pressed_mask := pending_joypad_pressed_mask (mc_pending_external_events m) in
      let host_sgb_joypad_pressed_masks := pending_sgb_joypad_pressed_masks (mc_pending_external_events m) in
      let m := m <| mc_cartridge := cartridge |> in
      let m := m <| mc_config := apply_direct_boot_cartridge_header (slot_header cartridge) (mc_config m) |> in
      m ← restart_runtime_after_cartridge_load host_joypad_pressed_mask host_sgb_joypad_pressed_masks port m;
      mret (m, inl diagnostics)
  end.

Definition apply_timer_startup_state (s : TimerStartupState) m : outcome (Machine P H) :=
  let m := m <| mc_timer := timer_apply_startup_state s (mc_timer m) |> in
  apu ← apply_div_apu_startup_phase_from_system_counter (startup_system_counter s) (mc_apu m);
  mret (m <| mc_apu := apu |>).

(** ** The host's side *)

Definition supports_external_port_attachment (k : ExternalPortAttachmentKind) m : bool :=
  match k with
  | KindNone => true
  | _ => if negb (is_sgb (config_host_platform (mc_config m))) then true else host_game_link_supported (mc_sgb_host m)
  end.

Definition set_external_port_attachment (k : ExternalPortAttachmentKind) m : Machine P H :=
  let k := if supports_external_port_attachment k m then k else KindNone in
  sync_serial_peer_from_external_port (m <| mc_external_port := set_attachment_kind k (mc_external_port m) |>).

Definition queue_external_serial_clock m : Machine P H :=
  m <| mc_pending_external_events := pending_queue_external_serial_clock (mc_pending_external_events m) |>.

Definition take_serial_output_bytes m : Machine P H * list Z :=
  let '(s, bytes) := take_completed_output_bytes (mc_serial m) in (m <| mc_serial := s |>, bytes).

Definition take_printed_pages m : Machine P H * list PrintedPage :=
  let '(p, pages) := port_take_printed_pages (mc_external_port m) in (m <| mc_external_port := p |>, pages).

Definition set_sgb_joypad_button_pressed (player : Z) (button : JoypadButton) (pressed : bool) m
    : outcome (Machine P H) :=
  if negb (is_sgb (config_host_platform (mc_config m))) then mret m
  else
    e ← pending_set_sgb_joypad_button_pressed player button pressed (mc_pending_external_events m);
    mret (m <| mc_pending_external_events := e |>).

Definition set_joypad_button_pressed (button : JoypadButton) (pressed : bool) m : outcome (Machine P H) :=
  if is_sgb (config_host_platform (mc_config m)) then
    e ← pending_set_sgb_joypad_button_pressed 1 button pressed (mc_pending_external_events m);
    mret (m <| mc_pending_external_events := e |>)
  else
    mret (m <| mc_pending_external_events :=
               pending_set_joypad_button_pressed button pressed (mc_pending_external_events m) |>).

(** ** What a link session sees of the machine *)

Definition machine_set_infrared_input (active : bool) m : Machine P H :=
  m <| mc_bus := set_cgb_infrared_external_input active (mc_bus m) |>.
Definition machine_infrared_emitter_on m : bool := cgb_infrared_emitter_on (mc_bus m).

Record Dmg04EndpointState := mkDmg04Endpoint {
  dmg04_attached : bool; dmg04_active_transfer : bool; dmg04_staged_outgoing_byte : Z;
  dmg04_waiting_for_external_clock : bool; dmg04_internal_clock_edge_pending : bool
}.
Record Dmg07EndpointState := mkDmg07Endpoint {
  dmg07_attached : bool; dmg07_endpoint_port : option Dmg07Port; dmg07_active_transfer : bool;
  dmg07_staged_outgoing_byte : Z; dmg07_waiting_for_external_clock : bool; dmg07_using_internal_clock : bool
}.

Definition is_internal (c : SerialClockMode) : bool := match c with Internal => true | External => false end.

Definition dmg04_endpoint_state m : Dmg04EndpointState :=
  let attached := match attachment_kind (mc_external_port m) with KindGameLinkDmg04 => true | _ => false end in
  let active_transfer :=
    attached && transfer_requested (Serial.transfer_state (mc_serial m)) && negb (cpu_stop_active m) in
  mkDmg04Endpoint attached active_transfer (endpoint_outgoing_byte (mc_serial m))
    (active_transfer && negb (is_internal (clock_mode (mc_serial m))))
    (active_transfer && is_internal (clock_mode (mc_serial m)) &&
     internal_clock_edge_pending_this_t_cycle_for_speed (current_speed (mc_speed m)) (mc_serial m)).

Definition machine_set_dmg04_incoming_byte (incoming_byte : option Z) m : Machine P H :=
  sync_serial_peer_from_external_port
    (m <| mc_external_port := set_dmg04_incoming_byte incoming_byte (mc_external_port m) |>).
Definition machine_set_dmg07_attachment (port : Dmg07Port) m : Machine P H :=
  sync_serial_peer_from_external_port
    (m <| mc_external_port := set_dmg07_attachment port (mc_external_port m) |>).

Definition dmg07_endpoint_state m : Dmg07EndpointState :=
  let port := dmg07_port (mc_external_port m) in
  let attached := bool_decide (is_Some port) in
  let active_transfer :=
    attached && transfer_requested (Serial.transfer_state (mc_serial m)) && negb (cpu_stop_active m) in
  mkDmg07Endpoint attached port active_transfer (endpoint_outgoing_byte (mc_serial m))
    (active_transfer && negb (is_internal (clock_mode (mc_serial m))))
    (active_transfer && is_internal (clock_mode (mc_serial m))).

Definition machine_set_dmg07_incoming_byte (incoming_byte : option Z) m : Machine P H :=
  sync_serial_peer_from_external_port
    (m <| mc_external_port := set_dmg07_incoming_byte incoming_byte (mc_external_port m) |>).
End Operations.
