(* ===== verification/MachineStep.v ===== *)
(** * One T-cycle of the machine ([crates/gb-core/src/machine/step.rs], [machine/access.rs])

    The nine phases of a T-cycle as the scheduler visits them: the host's
    events, the timer, the autonomous peripherals, bus arbitration, the CPU
    with the whole machine behind its bus, the delayed commit of picture
    registers, the aggregation of interrupt requests and the CPU's wake-up.
    Trace text and the observer's callbacks, which return nothing, are left
    out; that tracing itself asks for the arbitration state is kept
    ([records_events]). *)

From Stdlib Require Import ZArith Lia Bool String.
From stdpp Require Import base decidable list option.
From S2P Require Import Prelude.
From S2P Require Import Model.
From S2P Require Import Config.
From S2P Require Import Scheduler.
From S2P Require Import Interrupts.
From S2P Require Import Joypad.
From S2P Require Import Speed.
From S2P Require Import Timer.
From S2P Require Import Serial.
From S2P Require Import CpuData.
From S2P Require Import CpuBus.
From S2P Require Import CpuCycle.
From S2P Require Import CartridgeHeader.
From S2P Require Import Cartridge.
From S2P Require Import CartridgeSlot.
From S2P Require Import Apu.
From S2P Require Import BusState.
From S2P Require Import BusRouter.
From S2P Require Import Vectors.
From S2P Require Import BusMemory.
From S2P Require Import BusIo.
From S2P Require Import Dma.
From S2P Require Import Boot.
From S2P Require Import Bus.
From S2P Require Import ExternalPort.
From S2P Require Import MachinePorts.
From S2P Require Import MachineState.

Local Open Scope Z_scope.

Definition CPU_OAM_ADDRESS_START : Z := 0xFE00.
Definition CPU_OAM_ADDRESS_END : Z := 0xFE9F.
Definition CPU_MMIO_ADDRESS_START : Z := 0xFF00.
Definition CPU_MMIO_ADDRESS_END : Z := 0xFF7F.
Definition INTERRUPT_FLAG_ADDRESS : Z := 0xFF0F.
Definition SGB_HOST_FRAME_T_CYCLES : Z := 456 * 154.

Definition address_hits_cpu_oam_window (a : Z) : bool := in_range a CPU_OAM_ADDRESS_START CPU_OAM_ADDRESS_END.
Definition address_is_cpu_mmio (a : Z) : bool := in_range a CPU_MMIO_ADDRESS_START CPU_MMIO_ADDRESS_END.

Record CpuBusArbitrationStates := mkCpuStates {
  pre_cpu : BusArbitrationState;
  cpu_read : BusArbitrationState;
  cpu_write : BusArbitrationState
}.

(** Does a CPU write to [a] go to the picture unit's registers? *)
Definition cpu_write_targets_ppu_mmio (b : Bus) (a : Z) : bool :=
  if negb (address_is_cpu_mmio a) then false
  else if negb (owns_mmio_register a) then false
  else match describe_io_register a with
  | None => false
  | Some info =>
      if negb (bool_decide (io_owner info = IoOwnedByPpu)) ||
         negb (bool_decide (io_implementation info = IoImplemented)) then false
      else match io_availability info with
      | IoShared | IoDmgCompatible => true
      | IoCgbOnly =>
          match io_kind info with
          | IoBcps | IoOcps =>
              cgb_extensions_enabled b || match bus_operating_mode b with ModeCgbDmgExt => true | _ => false end
          | IoBcpd | IoOcpd => cgb_extensions_enabled b
          | _ => io_register_info_is_live info b
          end
      end
  end.

Section Step.
Context {P H : Type} `{PictureUnit P} `{SgbHostPort H}.
Implicit Types m : Machine P H.

(** ** Reads and writes by the CPU *)

(** Every owner behind the bus. *)
Definition read_view (interrupt_mask : Z) (cpu_visible : bool) m : BusIoReadView P :=
  mkReadView (Some (mc_apu m)) (Some (mc_timer m)) (Some (mc_serial m)) (Some (mc_dma m)) (Some (mc_boot m))
    (Some (mc_interrupts m)) interrupt_mask (Some (mc_joypad m)) (Some (mc_ppu m)) (Some (mc_speed m)) cpu_visible.
Definition write_view m : BusIoWriteView P :=
  mkWriteView (Some (mc_apu m)) (Some (mc_timer m)) (Some (mc_serial m)) (Some (mc_dma m)) (Some (mc_boot m))
    (Some (mc_interrupts m)) (Some (mc_joypad m)) (Some (mc_ppu m)) (Some (mc_speed m)) (Some false).

(** The machine after a write, whose view carried every owner. *)
Definition take_write_view (r : WriteResult P) m : Machine P H :=
  let io := written_io r in
  m <| mc_bus := written_bus r |>
    <| mc_cartridge := default (mc_cartridge m) (written_cartridge r) |>
    <| mc_apu := default (mc_apu m) (write_apu io) |>
    <| mc_timer := default (mc_timer m) (write_timer io) |>
    <| mc_serial := default (mc_serial m) (write_serial io) |>
    <| mc_dma := default (mc_dma m) (write_dma io) |>
    <| mc_boot := default (mc_boot m) (write_boot io) |>
    <| mc_interrupts := default (mc_interrupts m) (write_interrupts io) |>
    <| mc_joypad := default (mc_joypad m) (write_joypad io) |>
    <| mc_ppu := default (mc_ppu m) (write_ppu io) |>
    <| mc_speed := default (mc_speed m) (write_speed io) |>.

Definition machine_read (requester : BusRequester) (state : BusArbitrationState) (t : TCycle) (interrupt_mask : Z)
    (cpu_visible : bool) (a : Z) m : outcome (Z * Machine P H) :=
  r ← read_with_t_cycle_context a requester state t (Some (mc_cartridge m)) (read_view interrupt_mask cpu_visible m)
        (mc_bus m);
  mret (r.1, m <| mc_cartridge := default (mc_cartridge m) r.2 |>).

(** The flag says whether the write unmapped the boot ROM. *)
Definition machine_write (state : BusArbitrationState) (t : TCycle) (a value : Z) m : outcome (bool * Machine P H) :=
  r ← write_with_t_cycle_context a value RequesterCpu state t (Some (mc_cartridge m)) (write_view m) (mc_bus m);
  mret (default false (boot_ff50_newly_unmapped (written_io r)), take_write_view r m).

Definition joyp_host_effects (value : Z) m : outcome (Machine P H) :=
  m ← on_host (ObserveJoypWrite value) m;
  m ← on_host (CapturePendingLcdFreeze (framebuffer (mc_ppu m))) m;
  mret (apply_selected_player_mask m).

Definition is_real_boot (c : MachineConfig) : bool := match config_startup_mode c with RealBoot => true | _ => false end.

Definition finalize_cgb_real_boot_handoff_if_needed (boot_rom_newly_unmapped : bool) m : outcome (Machine P H) :=
  let handoff := boot_rom_newly_unmapped && negb (boot_rom_mapped (mc_boot m)) && is_real_boot (mc_config m) in
  m ← (if handoff && is_sgb (config_host_platform (mc_config m)) then on_host FinishRealBootHandoff m else mret m);
  m ← (if handoff && is_dmg_family (config_console_model (mc_config m)) then
         if uses_handheld_dmg0_revision (mc_config m) then
           let correction := wrapping_sub16 dmg0_direct_boot_system_counter (system_counter (mc_timer m)) in
           let m := if negb (correction =? 0)
                    then m <| mc_timer := apply_boot_handoff_counter_correction correction (mc_timer m) |> else m in
           on_ppu ApplyDmg0DirectBootHandoffStatPhase m
         else on_ppu ApplyDmgRealBootHandoffStatIrqPhase m
       else mret m);
  if negb handoff || negb (is_cgb_family (config_console_model (mc_config m))) then mret m
  else
    let '(b, locked) := lock_cgb_real_boot_key0_at_handoff (heuristic_policy (config_compatibility (mc_config m))) (mc_bus m) in
    let m := m <| mc_bus := b |> in
    m ← (match locked with
         | None => mret m
         | Some o =>
             let m := m <| mc_config := (mc_config m) <| config_operating_mode := o |> |>
                        <| mc_bus := bus_apply_operating_mode_state o (mc_bus m) |>
                        <| mc_serial := serial_apply_operating_mode_state o (mc_serial m) |>
                        <| mc_speed := speed_apply_operating_mode_state o (mc_speed m) |> in
             on_ppu (ApplyOperatingModeState o) m
         end);
    let correction_t_cycles := cgb_real_boot_handoff_correction_t_cycles (slot_header (mc_cartridge m)) in
    if negb (correction_t_cycles =? 0) then
      on_ppu (ApplyCgbBootHandoffRasterCorrection correction_t_cycles)
        (m <| mc_timer := apply_boot_handoff_counter_correction correction_t_cycles (mc_timer m) |>)
    else mret m.

(** ** Interrupt masks *)

Definition current_cycle_scheduler_interrupt_request_mask (c : CycleContext) : Z :=
  fold_left (fun requested source => Z.lor requested (mask source)) (as_slice (interrupt_requests c)) 0.

Definition current_cycle_interrupt_read_mask (c : CycleContext) m : Z :=
  let r := Z.lor (current_cycle_scheduler_interrupt_request_mask c)
             (cpu_visible_pending_interrupt_request_mask (mc_ppu m)) in
  if interrupt_request_pending (mc_joypad m) then Z.lor r (mask JoypadIrq) else r.

Definition cpu_interrupt_mask_for_if_read (a : Z) (c : CycleContext) m : Z :=
  if a =? INTERRUPT_FLAG_ADDRESS then current_cycle_interrupt_read_mask c m else 0.

Definition cpu_read_arbitration_state (a : Z) (states : CpuBusArbitrationStates) (p : P) : BusArbitrationState :=
  if address_hits_cpu_oam_window a then with_ppu (cpu_oam_read_bus_state p) (pre_cpu states) else cpu_read states.
Definition cpu_write_arbitration_state (a : Z) (states : CpuBusArbitrationStates) (p : P) : BusArbitrationState :=
  if address_hits_cpu_oam_window a then with_ppu (cpu_oam_write_bus_state p) (pre_cpu states) else cpu_write states.

(** ** What the CPU's callback does *)

(** What the closure captures: the machine (whose CPU it cannot reach), the
    context of the T-cycle and the arbitration states. *)
Record CpuWorld := mkWorld { world_machine : Machine P H; world_context : CycleContext; world_states : CpuBusArbitrationStates }.

Definition cpu_bus_read (a : Z) (w : CpuWorld) : outcome (option Z * CpuWorld) :=
  let '(mkWorld m c states) := w in
  r ← machine_read RequesterCpu (cpu_read_arbitration_state a states (mc_ppu m)) (t_cycle c)
        (cpu_interrupt_mask_for_if_read a c m) true a m;
  mret (Some (if a =? 0xFF00 then joyp_read_value r.1 (mc_sgb_host r.2) else r.1), mkWorld r.2 c states).

Definition commit_delay (a : Z) m : Z :=
  u8_from_bool ((a =? 0xFF45) && is_cgb_family (picture_console_model (mc_ppu m)) &&
                match current_speed (mc_speed m) with Normal => true | Double => false end).

Definition cpu_bus_write (a value : Z) (w : CpuWorld) : outcome (option Z * CpuWorld) :=
  let '(mkWorld m c states) := w in
  if cpu_write_targets_ppu_mmio (mc_bus m) a then
    let m := m <| mc_pending_ppu_mmio_write := Some (mkPpuWrite a value (commit_delay a m)) |> in
    r ← queue_side_effect CommitMmioWrite c;
    mret (None, mkWorld m r.2 states)
  else
    r ← machine_write (cpu_write_arbitration_state a states (mc_ppu m)) (t_cycle c) a value m;
    m ← (if (a =? 0xFF00) && is_sgb (config_host_platform (mc_config r.2)) then joyp_host_effects value r.2 else mret r.2);
    m ← finalize_cgb_real_boot_handoff_if_needed r.1 m;
    mret (None, mkWorld m c states).

Definition cpu_external (op : CpuExternalOperation) (w : CpuWorld) : outcome (option Z * CpuWorld) :=
  let '(mkWorld m c states) := w in
  let answer v := mret (Some v, w) in
  let signal f := mret (None, mkWorld (m <| mc_interrupts := f (mc_interrupts m) |>) c states) in
  match op with
  | CpuData.Bus (BusRead a) => cpu_bus_read a w
  | CpuData.Bus (BusWrite a value) => cpu_bus_write a value w
  | PendingInterruptMask => answer (pending_mask (mc_interrupts m))
  | InterruptEnableMask => answer (read_ie (mc_interrupts m))
  | StopWakeLineAsserted => answer (u8_from_bool (Joypad.stop_wake_line_asserted (mc_joypad m)))
  | CgbSpeedSwitchPrepared => answer (u8_from_bool (switch_armed (mc_speed m)))
  | AcknowledgeInterrupt source => signal (Interrupts.clear source)
  | RequestInterrupt source => signal (Interrupts.request source)
  end.

(** The callback as the CPU's environment.  A panic of the machine ends the
    T-cycle: the environment stays panicked, and the answers the CPU would get
    from then on are never seen. *)
#[export] Instance machine_external : CpuExternal (outcome CpuWorld) := fun op w =>
  match w with
  | Panic why => (Some 0, Panic why)
  | Done w =>
      match cpu_external op w with
      | Done (r, w) => (r, Done w)
      | Panic why => (Some 0, Panic why)
      end
  end.

Definition tick_cpu (states : CpuBusArbitrationStates) m (c : CycleContext) : outcome (Machine P H * CycleContext) :=
  r ← CpuCycle.tick_t_cycle (mc_cpu m, Done (mkWorld m c states));
  let '(_, (core, world)) := r in
  w ← world;
  mret ((world_machine w) <| mc_cpu := core |>, world_context w).

(** ** The phases *)

(** The runner: the machine and the two caches of one T-cycle. *)
Record Runner := mkRunner {
  runner_machine : Machine P H;
  cached_ppu_bus_state_snapshot : option PpuBusStateSnapshot;
  cached_cpu_bus_arbitration_states : option CpuBusArbitrationStates
}.
#[export] Instance upd_runner_machine : Update runner_machine := fun v r => let '(mkRunner _ p s) := r in mkRunner v p s.
#[export] Instance upd_cached_ppu : Update cached_ppu_bus_state_snapshot := fun v r => let '(mkRunner m _ s) := r in mkRunner m v s.
#[export] Instance upd_cached_states : Update cached_cpu_bus_arbitration_states := fun v r => let '(mkRunner m p _) := r in mkRunner m p v.

Definition runner_new m : Runner := mkRunner m None None.

Definition runner_ppu_bus_state_snapshot (r : Runner) : PpuBusStateSnapshot * Runner :=
  match cached_ppu_bus_state_snapshot r with
  | Some snapshot => (snapshot, r)
  | None =>
      let snapshot := bus_state_snapshot (mc_ppu (runner_machine r)) in
      (snapshot, r <| cached_ppu_bus_state_snapshot := Some snapshot |>)
  end.

Definition cpu_bus_arbitration_states (r : Runner) : outcome (CpuBusArbitrationStates * Runner) :=
  match cached_cpu_bus_arbitration_states r with
  | Some states => mret (states, r)
  | None =>
      let '(snapshot, r) := runner_ppu_bus_state_snapshot r in
      let m := runner_machine r in
      dma ← dma_bus_state (mc_dma m);
      let pre := with_dma dma (with_ppu (snapshot_owner snapshot)
                   (with_boot_rom (boot_bus_state (mc_boot m)) arbitration_default)) in
      let states := mkCpuStates pre (with_ppu (snapshot_cpu_read snapshot) pre) (with_ppu (snapshot_cpu_write snapshot) pre) in
      mret (states, r <| cached_cpu_bus_arbitration_states := Some states |>)
  end.

Definition step_external_event_ingress m (c : CycleContext) : outcome (Machine P H * CycleContext) :=
  if negb (has_pending_work (mc_pending_external_events m)) then mret (m, c)
  else
    mc ← (if is_sgb (config_host_platform (mc_config m)) then
            let '(e, masks) := take_pending_sgb_joypad_pressed_masks (mc_pending_external_events m) in
            let m := m <| mc_pending_external_events := e |> in
            match masks with
            | None => mret (m, c)
            | Some masks =>
                m ← on_host (SetPlayerPressedMasks masks) m;
                let '(j, changed) := apply_pressed_mask (selected_player_pressed_mask (mc_sgb_host m)) (mc_joypad m) in
                let m := m <| mc_joypad := j |> in
                if changed : bool then r ← push_external_event HostInputChanged c; mret (m, r.2) else mret (m, c)
            end
          else
            let '(e, pressed) := take_pending_joypad_pressed_mask (mc_pending_external_events m) in
            let m := m <| mc_pending_external_events := e |> in
            match pressed with
            | None => mret (m, c)
            | Some pressed =>
                let '(j, changed) := apply_pressed_mask pressed (mc_joypad m) in
                let m := m <| mc_joypad := j |> in
                if changed : bool then r ← push_external_event HostInputChanged c; mret (m, r.2) else mret (m, c)
            end);
    let '(m, c) := mc in
    let '(e, pulse) := take_external_serial_clock_pulse (mc_pending_external_events m) in
    let m := m <| mc_pending_external_events := e |> in
    if pulse && negb (cpu_stop_active m) then
      let '(s, queued) := queue_external_clock_pulse (mc_serial m) in
      let m := m <| mc_serial := s |> in
      if queued : bool then r ← push_external_event ExternalSerialClock c; mret (m, r.2) else mret (m, c)
    else mret (m, c).

Definition step_derived_edge_resolution m (c : CycleContext) : outcome (Machine P H * CycleContext) :=
  if negb (cpu_stop_active m) then
    r ← Timer.tick_t_cycle_for_speed (current_speed (mc_speed m)) (mc_timer m) c;
    mret (m <| mc_timer := r.1 |>, r.2)
  else mret (m, c).

Definition transfer_display m : outcome SgbVramTransferDisplayState :=
  lcdc ← ppu_read_register 0xFF40 (mc_ppu m);
  scy ← ppu_read_register 0xFF42 (mc_ppu m);
  scx ← ppu_read_register 0xFF43 (mc_ppu m);
  bgp ← ppu_read_register 0xFF47 (mc_ppu m);
  mret (mkTransferDisplay lcdc scy scx bgp).

Definition tick_ppu_video_domain (dma_bus : DmaBusState) (dma_oam_active : bool) (conflict : option PpuDmaOamConflict)
    (c : CycleContext) (r : Runner) : outcome Runner :=
  let m := runner_machine r in
  let m := m <| mc_bus := sync_video_domain_ownership (owner_bus_state (mc_ppu m)) dma_bus (mc_bus m) |> in
  let '(oam_view, vram_view) := video_views RequesterPpu (mc_bus m) in
  p ← picture_tick oam_view vram_view dma_oam_active conflict (mc_ppu m);
  let '(after, r) := runner_ppu_bus_state_snapshot (r <| runner_machine := m <| mc_ppu := p |> |>) in
  let m := runner_machine r in
  let m := m <| mc_bus := sync_video_domain_ownership (snapshot_owner after) dma_bus (mc_bus m) |> in
  m ← (if t_cycle c mod SGB_HOST_FRAME_T_CYCLES =? 0 then
         display ← transfer_display m;
         on_host (AdvanceFrameStart (vram_debug_bytes (bus_vram (mc_bus m))) display) m
       else mret m);
  mret (r <| runner_machine := m |>).

(** The part of the DMA controller in a T-cycle: its state, its byte and the
    arbitration state the byte was read under. *)
Record DmaActivity := mkDmaActivity {
  activity_bus_state : DmaBusState;
  activity_arbitration : option BusArbitrationState;
  activity_work : option DmaTransferWork;
  activity_byte : option Z
}.

Definition dma_runtime_context m : VramDmaRuntimeContext :=
  mkRuntime (owner_bus_state (mc_ppu m)) (picture_ly (mc_ppu m)) (line_dot (mc_ppu m)) (mode0_start_dot (mc_ppu m))
    (match execution_state (mc_cpu m) with Halted => true | _ => false end) (current_speed (mc_speed m)).

Definition read_transfer_byte (w : DmaTransferWork) (state : BusArbitrationState) (c : CycleContext) m
    : outcome (Z * Machine P H) :=
  override ← source_read_value_override w;
  match override with
  | Some value => mret (value, m)
  | None => a ← work_source_address w; machine_read RequesterDma state (t_cycle c) 0 false a m
  end.

Definition tick_dma (c : CycleContext) m : outcome (DmaActivity * Machine P H) :=
  if negb (Dma.requires_t_cycle_tick (mc_dma m)) then mret (mkDmaActivity unrestricted None None None, m)
  else
    let boot := boot_bus_state (mc_boot m) in
    let owner_before := owner_bus_state (mc_ppu m) in
    r ← tick_t_cycle_with_vram_dma_context (dma_runtime_context m) (mc_dma m);
    let m := m <| mc_dma := r.2 |> in
    dma ← dma_bus_state (mc_dma m);
    let state := with_dma dma (with_ppu owner_before (with_boot_rom boot arbitration_default)) in
    match r.1 with
    | None => mret (mkDmaActivity dma (Some state) None None, m)
    | Some w => b ← read_transfer_byte w state c m; mret (mkDmaActivity dma (Some state) (Some w) (Some b.1), b.2)
    end.

(** The byte object DMA is driving onto object memory: the one it moves now, or
    the last one it moved. *)
Definition current_oam_conflict (activity : DmaActivity) m : outcome (option PpuDmaOamConflict) :=
  now ← (match activity_work activity, activity_byte activity with
         | Some w, Some value =>
             a ← work_destination_address w;
             mret (if address_hits_cpu_oam_window a then Some (mkOamConflict a value) else None)
         | _, _ => mret None
         end);
  match now with
  | Some conflict => mret (Some conflict)
  | None =>
      if negb (bool_decide (active_region (activity_bus_state activity) = Some ImpactOam)) then mret None
      else match transfer_progress (mc_dma m) with
      | None => mret None
      | Some progress =>
          if Dma.completed_bytes progress =? 0 then mret None
          else
            a ← destination_address_for_byte (transfer progress) (Dma.completed_bytes progress - 1);
            if address_hits_cpu_oam_window a then
              value ← vec_index (oam_bytes (bus_oam (mc_bus m))) (a - CPU_OAM_ADDRESS_START);
              mret (Some (mkOamConflict a value))
            else mret None
      end
  end.

(** The full tick of the serial port and of what is plugged into it. *)
Definition tick_serial_and_port (c : CycleContext) m : outcome (Machine P H * CycleContext) :=
  let m := if ExternalPort.requires_t_cycle_tick (mc_external_port m)
           then m <| mc_external_port := port_tick_t_cycle (mc_external_port m) |> else m in
  r ← Serial.tick_t_cycle_for_speed (current_speed (mc_speed m)) (mc_serial m) c;
  let '((s, _), c) := r in
  let m := m <| mc_serial := s |> in
  m ← (match latest_completed_output_byte (mc_serial m) with
       | Some output_byte =>
           if handles_completed_serial_byte (mc_external_port m) then
             p ← handle_completed_serial_byte output_byte (mc_external_port m); mret (m <| mc_external_port := p |>)
           else mret m
       | None => mret m
       end);
  mret (if requires_serial_peer_refresh_after_t_cycle (mc_external_port m)
        then m <| mc_serial := set_peer (serial_peer (mc_external_port m)) (mc_serial m) |> else m, c).

Definition tick_serial (c : CycleContext) m : outcome (Machine P H * CycleContext) :=
  if match attachment_kind (mc_external_port m) with KindNone => true | _ => false end &&
     external_wait_without_pending_clock (mc_serial m)
  then mret (m <| mc_serial := (tick_external_wait_t_cycle (mc_serial m)).1 |>, c)
  else if requires_full_t_cycle_tick (mc_serial m) || ExternalPort.requires_t_cycle_tick (mc_external_port m)
  then tick_serial_and_port c m
  else mret (m <| mc_serial := tick_idle_t_cycle (mc_serial m) |>, c).

(** The transfer's write goes out without a cartridge and without register
    owners. *)
Definition write_transfer_byte (activity : DmaActivity) m : outcome (Machine P H) :=
  match activity_work activity, activity_byte activity with
  | Some w, Some value =>
      match activity_arbitration activity with
      | None => Panic "DMA transfer work should have a matching arbitration state"
      | Some state =>
          a ← work_destination_address w;
          r ← write_with_context a value RequesterDma state None
                (mkWriteView None None None None None None None (None : option P) None None) (mc_bus m);
          mret (m <| mc_bus := written_bus r |>)
      end
  | _, _ => mret m
  end.

Definition cpu_speed_switch_pause_active m : bool :=
  match execution_state (mc_cpu m) with SpeedSwitchPause _ => true | _ => false end.

Definition dma_drives_oam (dma : DmaBusState) : bool := bool_decide (active_region dma = Some ImpactOam).

Definition step_autonomous_peripheral_ticks (c : CycleContext) (r : Runner) : outcome (Runner * CycleContext) :=
  let m := runner_machine r in
  let m := m <| mc_bus := tick_cgb_infrared_t_cycle (mc_bus m) |> in
  let r := r <| runner_machine := m |> in
  if negb (cpu_stop_active m) then
    apu ← apu_tick_t_cycle_for_speed c (current_speed (mc_speed m)) (mc_apu m);
    let m := m <| mc_apu := apu |> in
    am ← tick_dma c m;
    let '(activity, m) := am in
    conflict ← current_oam_conflict activity m;
    let r := r <| runner_machine := m |> in
    r ← (if lcd_tick_due_at_scheduler_t_cycle (current_speed (mc_speed m)) (t_cycle c)
         then tick_ppu_video_domain (activity_bus_state activity) (dma_drives_oam (activity_bus_state activity)) conflict c r
         else mret r);
    mc ← tick_serial c (runner_machine r);
    m ← write_transfer_byte activity mc.1;
    mret (r <| runner_machine := m |>, mc.2)
  else if cpu_speed_switch_pause_active m then
    dma ← dma_bus_state (mc_dma m);
    r ← tick_ppu_video_domain dma (dma_drives_oam dma) None c r;
    mret (r, c)
  else mret (r, c).

(** Tracing asks for the arbitration state, which fills the caches. *)
Definition step_bus_arbitration (records_events : bool) (r : Runner) : outcome Runner :=
  if negb records_events then mret r else s ← cpu_bus_arbitration_states r; mret s.2.

Definition apply_stop_div_reset m : outcome (Machine P H) :=
  let '(timer, apu_frame_sequencer_edge) :=
    stop_reset_divider_with_effects_for_speed (current_speed (mc_speed m)) (mc_timer m) in
  let m := m <| mc_timer := timer |> in
  if apu_frame_sequencer_edge : bool then apu ← on_div_apu_edge (mc_apu m); mret (m <| mc_apu := apu |>) else mret m.

Definition finalize_cpu_micro_operation (state : BusArbitrationState) m : outcome (Machine P H) :=
  m ← (match last_address_event (mc_cpu m) with
       | Some event =>
           bp ← route_cpu_address_event event state (mc_ppu m) (mc_bus m);
           mret (m <| mc_bus := bp.1 |> <| mc_ppu := bp.2 |>)
       | None => mret m
       end);
  let '(reset, cpu) := take_stop_div_reset_request (mc_cpu m) in
  let m := m <| mc_cpu := cpu |> in
  m ← (if reset : bool then apply_stop_div_reset m else mret m);
  let '(switch, cpu) := take_cgb_speed_switch_request (mc_cpu m) in
  let m := m <| mc_cpu := cpu |> in
  mret (if switch : bool then m <| mc_speed := (begin_prepared_speed_switch (mc_speed m)).1 |> else m).

Definition publish_stop (stop_active_before : bool) m : outcome (Machine P H) :=
  let stop_active_after := cpu_stop_active m in
  if negb (Bool.eqb stop_active_before stop_active_after) then on_ppu (SetSystemStopActive stop_active_after) m else mret m.

Definition step_cpu_micro_operation (c : CycleContext) (r : Runner) : outcome (Runner * CycleContext) :=
  sr ← cpu_bus_arbitration_states r;
  let '(states, r) := sr in
  let m := runner_machine r in
  let stop_active_before := cpu_stop_active m in
  mc ← (if cpu_stall_active (mc_dma m) then mret (m <| mc_cpu := tick_dma_stall_t_cycle (mc_cpu m) |>, c)
        else
          let '(source, interrupts, cpu) :=
            evaluate_current_cycle_interrupt_requests (mc_interrupts m)
              (Z.land (current_cycle_scheduler_interrupt_request_mask c) (mask TimerIrq)) (mc_cpu m) in
          let m := m <| mc_interrupts := interrupts |> <| mc_cpu := cpu |> in
          c ← (match source with
               | Some source => t ← take_interrupt_request source c; mret t.2
               | None => mret c
               end);
          mc ← tick_cpu states m c;
          m ← finalize_cpu_micro_operation (pre_cpu states) mc.1;
          mret (m, mc.2));
  m ← publish_stop stop_active_before mc.1;
  mret (r <| runner_machine := m |>, mc.2).

Definition commit_pending_ppu_mmio_write m : outcome (Machine P H) :=
  match mc_pending_ppu_mmio_write m with
  | None => mret m
  | Some write =>
      on_ppu (CommitRegisterWrite (write_address write) (write_value write)) (m <| mc_pending_ppu_mmio_write := None |>)
  end.

Definition step_mmio_side_effect_commit m : outcome (Machine P H) :=
  match mc_pending_ppu_mmio_write m with
  | None => mret m
  | Some write =>
      if 0 <? commit_delay_t_cycles write
      then mret (m <| mc_pending_ppu_mmio_write :=
                   Some (mkPpuWrite (write_address write) (write_value write) (commit_delay_t_cycles write - 1)) |>)
      else commit_pending_ppu_mmio_write m
  end.

Definition request_all (sources : list InterruptSource) (i : InterruptController) : InterruptController :=
  fold_left (fun i source => Interrupts.request source i) sources i.

Definition step_interrupt_aggregation (c : CycleContext) m : outcome (Machine P H) :=
  let requests := as_slice (interrupt_requests c) in
  let ppu_pending_interrupts := pending_interrupt_request_mask (mc_ppu m) in
  if negb (negb (bool_decide (requests = [])) || negb (ppu_pending_interrupts =? 0) ||
           interrupt_request_pending (mc_joypad m)) then mret m
  else
    let i := request_all requests (mc_interrupts m) in
    m ← on_ppu TakePendingInterruptRequestMask m;
    let i := if has_bits ppu_pending_interrupts 0x01 then Interrupts.request VBlank i else i in
    let i := if has_bits ppu_pending_interrupts 0x02 then Interrupts.request LcdStat i else i in
    let '(j, requested) := consume_interrupt_request (mc_joypad m) in
    let i := if requested : bool then Interrupts.request JoypadIrq i else i in
    mret (m <| mc_joypad := j |> <| mc_interrupts := i |>).

Definition wake_is_deferred m : bool :=
  let stat_is_next := bool_decide (highest_pending (mc_interrupts m) = Some LcdStat) in
  let p := mc_ppu m in
  stat_is_next && has_bits (read_ie (mc_interrupts m)) (mask VBlank) &&
    dmg_mode2_vblank_entry_interrupt_service_deferred p ||
  match execution_state (mc_cpu m) with Halted => true | _ => false end && stat_is_next &&
    (dmg_lcd_reenable_mode0_halt_wake_deferred p || mode0_hblank_halt_wake_deferred p ||
     dmg_mode2_oam_halt_wake_deferred p || dmg_mode2_vblank_entry_halt_wake_deferred p).

Definition step_cpu_wake_interrupt_evaluation m : outcome (Machine P H) :=
  let stop_active_before := cpu_stop_active m in
  let m :=
    if cpu_stall_active (mc_dma m) then m <| mc_cpu := tick_dma_stall_t_cycle (mc_cpu m) |>
    else if wake_is_deferred m then m
    else
      let '(interrupts, joypad, cpu) := evaluate_wake_and_interrupts (mc_interrupts m) (mc_joypad m) (mc_cpu m) in
      m <| mc_interrupts := interrupts |> <| mc_joypad := joypad |> <| mc_cpu := cpu |> in
  publish_stop stop_active_before m.

(** A phase that only sees the machine. *)
Definition on_machine (f : Machine P H -> CycleContext -> outcome (Machine P H * CycleContext))
    : ST (Runner * CycleContext) unit := fun '(r, c) =>
  mc ← f (runner_machine r) c; mret (tt, (r <| runner_machine := mc.1 |>, mc.2)).
Definition machine_only (f : Machine P H -> outcome (Machine P H)) : ST (Runner * CycleContext) unit :=
  on_machine (fun m c => m ← f m; mret (m, c)).

Definition step_phase (records_events : bool) : ST (Runner * CycleContext) unit := fun '(r, c) =>
  match phase c with
  | ExternalEventIngress => on_machine step_external_event_ingress (r, c)
  | DerivedEdgeResolution => on_machine step_derived_edge_resolution (r, c)
  | AutonomousPeripheralTicks => rc ← step_autonomous_peripheral_ticks c r; mret (tt, rc)
  | BusArbitration => r ← step_bus_arbitration records_events r; mret (tt, (r, c))
  | CpuMicroOperation => rc ← step_cpu_micro_operation c r; mret (tt, rc)
  | MmioSideEffectCommit => machine_only step_mmio_side_effect_commit (r, c)
  | InterruptAggregation => machine_only (step_interrupt_aggregation c) (r, c)
  | CpuWakeInterruptEvaluation => machine_only step_cpu_wake_interrupt_evaluation (r, c)
  | MasterClockTick => mret (tt, (r, c))
  end.

(** ** A whole T-cycle *)

(** [step_phase_with_context]: one phase with a fresh runner, as link sessions
    step several machines phase by phase. *)
Definition step_phase_with_context (records_events : bool) : ST (Machine P H * CycleContext) unit := fun '(m, c) =>
  r ← step_phase records_events (runner_new m, c);
  let '(_, (runner, c)) := r in
  mret (tt, (runner_machine runner, c)).

Definition sync_scheduler_next_t_cycle (t : TCycle) m : Machine P H :=
  m <| mc_scheduler := set_next_t_cycle (mc_scheduler m) t |>.

Definition step_t_cycle (records_events : bool) m : outcome (CycleContext * Machine P H) :=
  r ← Scheduler.step (step_phase records_events) (mc_scheduler m) (runner_new m);
  let '(c, scheduler, runner) := r in
  mret (c, (runner_machine runner) <| mc_scheduler := scheduler |>).

Fixpoint run_t_cycles (records_events : bool) (n : nat) m : outcome (Machine P H) :=
  match n with
  | O => mret m
  | S n => r ← step_t_cycle records_events m; run_t_cycles records_events n r.2
  end.

(** ** Accesses from outside a T-cycle *)

Definition machine_next_t_cycle m : TCycle := next_t_cycle (mc_scheduler m).

Definition current_bus_arbitration_state m : outcome BusArbitrationState :=
  dma ← dma_bus_state (mc_dma m);
  mret (with_dma dma (with_ppu (picture_bus_state (mc_ppu m))
          (with_boot_rom (boot_bus_state (mc_boot m)) arbitration_default))).

Definition route_machine_address_event (k : CpuAddressEventKind) (a : Z) (state : BusArbitrationState) m
    : outcome (Machine P H) :=
  bp ← route_cpu_address_event (mkAddressEvent k (Some a) None None) state (mc_ppu m) (mc_bus m);
  mret (m <| mc_bus := bp.1 |> <| mc_ppu := bp.2 |>).

Definition read_bus (a : Z) m : outcome (Z * Machine P H) :=
  state ← current_bus_arbitration_state m;
  r ← machine_read RequesterCpu state (machine_next_t_cycle m) 0 false a m;
  let value := if a =? 0xFF00 then joyp_read_value r.1 (mc_sgb_host r.2) else r.1 in
  m ← route_machine_address_event EventRead a state r.2;
  mret (value, m).

Definition write_bus (a value : Z) m : outcome (Machine P H) :=
  state ← current_bus_arbitration_state m;
  if cpu_write_targets_ppu_mmio (mc_bus m) a then
    m ← route_machine_address_event EventWrite a state m;
    on_ppu (CommitRegisterWrite a value) m
  else
    r ← machine_write state (machine_next_t_cycle m) a value m;
    m ← (if (a =? 0xFF00) && is_sgb (config_host_platform (mc_config r.2)) then joyp_host_effects value r.2 else mret r.2);
    m ← finalize_cgb_real_boot_handoff_if_needed r.1 m;
    route_machine_address_event EventWrite a state m.
End Step.
