(* ===== verification/MachineSafety.v ===== *)
(** * Machine safety

    The invariant of the whole console and that every phase of a T-cycle keeps
    it without a panic: the components' own invariants, the contract the
    machine has with the picture unit and with the SGB host, and the room the
    phases need in the cycle context. *)

From Stdlib Require Import ZArith Lia Bool String.
From stdpp Require Import base decidable list option.
From S2P Require Import Prelude.
From S2P Require Import Model.
From S2P Require Import Config.
From S2P Require Import Scheduler.
From S2P Require Import Interrupts.
From S2P Require Import Joypad.
From S2P Require Import Speed.
From S2P Require Import Timer.
From S2P Require Import Serial.
From S2P Require Import CpuData.
From S2P Require Import CpuBus.
From S2P Require Import CpuCycle.
From S2P Require Import CpuSafety.
From S2P Require Import CpuAccesses.
From S2P Require Import CartridgeHeader.
From S2P Require Import Cartridge.
From S2P Require Import CartridgeDevice.
From S2P Require Import CartridgeSlot.
From S2P Require Import ApuChannels.
From S2P Require Import Apu.
From S2P Require Import BusState.
From S2P Require Import BusRouter.
From S2P Require Import Vectors.
From S2P Require Import BusMemory.
From S2P Require Import BusIo.
From S2P Require Import Dma.
From S2P Require Import Boot.
From S2P Require Import Bus.
From S2P Require Import BusSafety.
From S2P Require Import Printer.
From S2P Require Import ExternalPort.
From S2P Require Import MachineContext.
From S2P Require Import MachinePorts.
From S2P Require Import MachineState.
From S2P Require Import MachineStep.

Local Open Scope Z_scope.

(** ** The owners of the video memories *)

Lemma held_cases x : held_by_video_masters x -> x = 0 \/ x = 2 \/ x = 4 \/ x = 6.
Proof.
  unfold held_by_video_masters. intros Hx.
  assert (Hr : 0 <= x < 8) by (rewrite <- Hx, Z.land_comm; apply (range_land 3); lia).
  assert (Hc : forallb (fun x => implb (Z.land x 6 =? x) ((x =? 0) || (x =? 2) || (x =? 4) || (x =? 6))) (byte_range 8) = true)
    by done.
  pose proof (forall_below 8 _ Hc x Hr) as Hb. cbv beta in Hb. rewrite (proj2 (Z.eqb_eq _ _) Hx) in Hb. cbn in Hb.
  rewrite !orb_true_iff, !Z.eqb_eq in Hb. tauto.
Qed.

Definition held (ppu dma : bool) : Z := (if ppu then 4 else 0) + (if dma then 2 else 0).

Lemma set_acquired_held x ppu dma : held_by_video_masters x ->
  mask_set_acquired RequesterDma dma (mask_set_acquired RequesterPpu ppu x) = held ppu dma.
Proof. intros Hx. destruct (held_cases x Hx) as [-> |[-> |[-> | ->]]], ppu, dma; reflexivity. Qed.

Lemma sync_fields ppu dma b : bus_ok b ->
  sync_video_domain_ownership ppu dma b =
    b <| bus_vram := (bus_vram b) <| vram_acquired_by := held (acquires_vram ppu) (bool_decide (active_region dma = Some ImpactVram)) |> |>
      <| bus_oam := (bus_oam b) <| oam_acquired_by := held (acquires_oam ppu) (dma_drives_oam dma) |> |>.
Proof.
  intros [(_ & _ & _ & Hv) _ (_ & _ & Ho) _ _ _]. unfold sync_video_domain_ownership, acquires_oam, acquires_vram, dma_drives_oam.
  destruct b as [? ? ? [? ? ? va] ? [? oa] ?]. cbn in *.
  by rewrite <- (set_acquired_held va), <- (set_acquired_held oa) by done.
Qed.

Lemma held_ok ppu dma : held_by_video_masters (held ppu dma).
Proof. by destruct ppu, dma. Qed.

Lemma hold_oam_ok o ppu dma : oam_ok o -> oam_ok (o <| oam_acquired_by := held ppu dma |>).
Proof. destruct o. intros (? & ? & _). split_and!; [done..|apply held_ok]. Qed.
Lemma hold_vram_ok d ppu dma : vram_ok d -> vram_ok (d <| vram_acquired_by := held ppu dma |>).
Proof. destruct d. intros (? & ? & ? & _). unfold vram_ok. cbn in *. split_and!; [lia..|done|done|apply held_ok]. Qed.

Lemma sync_ok ppu dma b : bus_ok b -> bus_ok (sync_video_domain_ownership ppu dma b).
Proof.
  intros Hb. rewrite sync_fields by done. apply bus_set_oam_ok; [|apply hold_oam_ok, Hb].
  apply bus_set_vram_ok; [done | apply hold_vram_ok, Hb | by destruct (bus_vram b)].
Qed.

Lemma sync_model ppu dma b : bus_console_model (sync_video_domain_ownership ppu dma b) = bus_console_model b.
Proof. by destruct b. Qed.

(** The views after a synchronisation are what the picture unit asserts. *)
Lemma synced_views ppu dma b : bus_ok b ->
  let '(oam, vram) := video_views RequesterPpu (sync_video_domain_ownership ppu dma b) in
  tick_views_ok oam vram (dma_drives_oam dma) ppu.
Proof.
  intros Hb. pose proof (sync_ok ppu dma b Hb) as Hb'. cbn [video_views]. rewrite sync_fields in * by done.
  destruct b as [? ? ? [? ? ? va] ? [? oa] ?]. constructor; try done; cbn.
  - by destruct (acquires_oam ppu), (dma_drives_oam dma).
  - by destruct (acquires_oam ppu), (dma_drives_oam dma).
  - by destruct (acquires_vram ppu), (bool_decide _).
  - apply Hb'.
  - apply Hb'.
Qed.

(** ** The invariant *)

Section Safety.
Context {P H : Type} `{PictureUnitLaws P} `{SgbHostLaws H}.
Implicit Types m : Machine P H.

Record events_ok (e : PendingExternalEvents) : Prop := {
  events_mask : u8 (pending_joypad_pressed_mask e);
  events_sgb_masks : pressed_masks_ok (pending_sgb_joypad_pressed_masks e);
  events_pulses : u8 (external_serial_clock_pulses_pending e)
}.

Definition pending_write_ok (w : PendingPpuMmioWrite) : Prop := u16 (write_address w) /\ u8 (write_value w).

Definition assets_ok (a : BootRomAssets) : Prop := forall k image, bytes_for k a = Some image -> bytes image.

Record machine_ok m : Prop := {
  mok_cpu : cpu_ok (mc_cpu m);
  mok_bus : bus_ok (mc_bus m);
  mok_apu : apu_ok (mc_apu m);
  mok_ppu : port_ok (mc_ppu m);
  mok_dma : dma_ok (mc_dma m);
  mok_timer : timer_ok (mc_timer m);
  mok_serial : serial_ok (mc_serial m);
  mok_host : host_ok (mc_sgb_host m);
  mok_port : attachment_ok (mc_external_port m);
  mok_boot : boot_ok (mc_boot m);
  mok_interrupts : interrupts_ok (mc_interrupts m);
  mok_joypad : joypad_ok (mc_joypad m);
  mok_cartridge : cart_typed (Some (mc_cartridge m));
  mok_events : events_ok (mc_pending_external_events m);
  mok_pending : opt pending_write_ok (mc_pending_ppu_mmio_write m);
  mok_assets : assets_ok (config_boot_rom_assets (mc_config m))
}.

(** [machine_field]: the invariant after one field changed to a value that
    satisfies its part of it. *)
Ltac machine_field := intros Hm ?; destruct Hm; constructor; done.

Section Fields.
Context m (Hm : machine_ok m).
Lemma set_cpu_ok c : cpu_ok c -> machine_ok (m <| mc_cpu := c |>).
Proof. clear -Hm; destruct m; revert Hm; machine_field. Qed.
Lemma set_bus_ok b : bus_ok b -> machine_ok (m <| mc_bus := b |>).
Proof. clear -Hm; destruct m; revert Hm; machine_field. Qed.
Lemma set_apu_ok a : apu_ok a -> machine_ok (m <| mc_apu := a |>).
Proof. clear -Hm; destruct m; revert Hm; machine_field. Qed.
Lemma set_ppu_ok p : port_ok p -> machine_ok (m <| mc_ppu := p |>).
Proof. clear -Hm; destruct m; revert Hm; machine_field. Qed.
Lemma set_dma_ok d : dma_ok d -> machine_ok (m <| mc_dma := d |>).
Proof. clear -Hm; destruct m; revert Hm; machine_field. Qed.
Lemma set_timer_ok t : timer_ok t -> machine_ok (m <| mc_timer := t |>).
Proof. clear -Hm; destruct m; revert Hm; machine_field. Qed.
Lemma set_serial_ok s : serial_ok s -> machine_ok (m <| mc_serial := s |>).
Proof. clear -Hm; destruct m; revert Hm; machine_field. Qed.
Lemma set_host_ok h : host_ok h -> machine_ok (m <| mc_sgb_host := h |>).
Proof. clear -Hm; destruct m; revert Hm; machine_field. Qed.
Lemma set_port_ok p : attachment_ok p -> machine_ok (m <| mc_external_port := p |>).
Proof. clear -Hm; destruct m; revert Hm; machine_field. Qed.
Lemma set_interrupts_ok i : interrupts_ok i -> machine_ok (m <| mc_interrupts := i |>).
Proof. clear -Hm; destruct m; revert Hm; machine_field. Qed.
Lemma set_joypad_ok j : joypad_ok j -> machine_ok (m <| mc_joypad := j |>).
Proof. clear -Hm; destruct m; revert Hm; machine_field. Qed.
Lemma set_cartridge_ok c : cart_typed (Some c) -> machine_ok (m <| mc_cartridge := c |>).
Proof. clear -Hm; destruct m; revert Hm; machine_field. Qed.
Lemma set_events_ok e : events_ok e -> machine_ok (m <| mc_pending_external_events := e |>).
Proof. clear -Hm; destruct m; revert Hm; machine_field. Qed.
Lemma set_pending_ok w : opt pending_write_ok w -> machine_ok (m <| mc_pending_ppu_mmio_write := w |>).
Proof. clear -Hm; destruct m; revert Hm; machine_field. Qed.
Lemma set_speed_ok s : machine_ok (m <| mc_speed := s |>).
Proof. clear -Hm; destruct m; revert Hm; intros []; by constructor. Qed.
Lemma set_config_ok c : assets_ok (config_boot_rom_assets c) -> machine_ok (m <| mc_config := c |>).
Proof. clear -Hm; destruct m; revert Hm; machine_field. Qed.
Lemma set_mode_ok o : machine_ok (m <| mc_config := (mc_config m) <| config_operating_mode := o |> |>).
Proof. apply set_config_ok. pose proof (mok_assets _ Hm). by destruct (mc_config m). Qed.
Lemma set_scheduler_ok s : machine_ok (m <| mc_scheduler := s |>).
Proof. clear -Hm; destruct m; revert Hm; intros []; by constructor. Qed.
End Fields.

(** ** Accesses *)

Lemma read_view_typed mask visible m : machine_ok m -> read_view_ok (read_view mask visible m).
Proof. intros []. by constructor. Qed.
Lemma write_view_typed m : machine_ok m -> write_view_ok (write_view m).
Proof. intros []. by constructor. Qed.

Lemma machine_read_ok requester state t mask visible a m :
  u16 a -> dma_bus_ok (dma state) -> 0 <= t < 2 ^ 63 -> machine_ok m ->
  finishes (machine_read requester state t mask visible a m) (fun r => u8 r.1 /\ machine_ok r.2 /\
    r.2 = m <| mc_cartridge := mc_cartridge r.2 |>).
Proof.
  intros Ha Hs Ht Hm. unfold machine_read. apply finishes_bind. rewrite timed_read_is_slow.
  eapply finishes_mono; [apply read_slow_path_ok; [done..| apply Hm | apply Hm | by apply read_view_typed]|].
  intros [v c] [Hv [Hc Hb]]. cbn in *. destruct c as [c|]; [|done]. split_and!; [done | by apply set_cartridge_ok | by destruct m].
Qed.

Lemma take_write_view_ok r m : machine_ok m ->
  write_result_ok (mc_bus m) (Some (mc_cartridge m)) (write_view m) r -> machine_ok (take_write_view r m).
Proof.
  intros Hm (Hb & _ & [Hc _] & [Hio _]). destruct r as [b c io], io as [a t s d bo i j p k f], Hio, m, Hm.
  unfold take_write_view, write_view in *. cbn in *.
  constructor; cbn; try done; [destruct a|destruct p|destruct d|destruct t|destruct s|destruct bo|destruct i|destruct j|destruct c]; done.
Qed.

Lemma machine_write_ok state t a v m :
  u16 a -> u8 v -> dma_bus_ok (dma state) -> 0 <= t < 2 ^ 63 -> machine_ok m ->
  finishes (machine_write state t a v m) (fun r => machine_ok r.2).
Proof.
  intros Ha Hv Hs Ht Hm. unfold machine_write. apply finishes_bind. rewrite timed_write_is_slow.
  eapply finishes_mono; [apply write_with_ok; [by apply write_cartridge_target_timed_ok | done.. | apply Hm | apply Hm | by apply write_view_typed]|].
  intros r Hr. by apply take_write_view_ok.
Qed.

Lemma on_ppu_ok call m : picture_call_typed call -> machine_ok m -> finishes (on_ppu call m) machine_ok.
Proof.
  intros Hc Hm. unfold on_ppu. apply finishes_bind. eapply finishes_mono; [apply picture_call_ok; [apply Hm | done]|].
  intros p Hp. by apply set_ppu_ok.
Qed.
Lemma on_host_ok call m : host_call_typed call -> machine_ok m -> finishes (on_host call m) machine_ok.
Proof.
  intros Hc Hm. unfold on_host. apply finishes_bind. eapply finishes_mono; [apply host_call_ok; [apply Hm | done]|].
  intros h Hh. by apply set_host_ok.
Qed.

Lemma apply_mask_ok n j : u8 n -> joypad_ok j -> joypad_ok (apply_pressed_mask n j).1.
Proof. exact (joypad_ok_step (OpApplyMask n) j). Qed.
Lemma selected_mask_joypad_ok m : machine_ok m -> machine_ok (apply_selected_player_mask m).
Proof. intros Hm. apply set_joypad_ok; [done|]. apply apply_mask_ok; [apply selected_mask_ok, Hm | apply Hm]. Qed.

Lemma joyp_host_effects_ok v m : u8 v -> machine_ok m -> finishes (joyp_host_effects v m) machine_ok.
Proof.
  intros Hv Hm. unfold joyp_host_effects. apply finishes_bind. eapply finishes_mono; [by apply on_host_ok|]. intros m1 K1.
  apply finishes_bind. eapply finishes_mono; [apply on_host_ok; [apply picture_framebuffer_ok, K1 | done]|]. intros m2 K2.
  by apply selected_mask_joypad_ok.
Qed.

Lemma refreshed_peer_ok p s : attachment_ok p -> serial_ok s -> serial_ok (set_peer (serial_peer p) s).
Proof. intros Hp Hs. exact (serial_ok_step (OpSetPeer (serial_peer p)) s _ (peer_typed _ Hp) Hs eq_refl). Qed.
Lemma sync_peer_ok m : machine_ok m -> machine_ok (sync_serial_peer_from_external_port m).
Proof. intros Hm. apply set_serial_ok; [done|]. apply refreshed_peer_ok; apply Hm. Qed.

Lemma serial_mode_ok o s : serial_ok s -> serial_ok (serial_apply_operating_mode_state o s).
Proof. intros Hs. by apply (serial_ok_step (OpOperatingMode o) s). Qed.

Lemma lock_key0_ok h b : bus_ok b -> bus_ok (lock_cgb_real_boot_key0_at_handoff h b).1.
Proof.
  intros Hb. unfold lock_cgb_real_boot_key0_at_handoff. destruct (negb _); [done|]. unfold iohram_lock_key0_at_handoff.
  destruct (lock_real_boot_handoff _ h _) as [k o] eqn:Ek. cbn.
  assert (Hk : key0_ok k).
  { unfold lock_real_boot_handoff in Ek. destruct (negb _); simplify_eq; [unfold key0_ok; cbn; auto with gb|].
    exact (iohram_key0_ok _ (bus_iohram_ok _ Hb)). }
  assert (Hi : iohram_ok ((bus_iohram b) <| key0 := k |>)).
  { destruct (bus_iohram_ok _ Hb). destruct (bus_iohram b). by constructor. }
  pose proof (bus_set_iohram_ok b _ Hb Hi) as []. destruct b. by constructor.
Qed.

Lemma bus_mode_ok o b : bus_ok b -> bus_ok (bus_apply_operating_mode_state o b).
Proof. intros []. destruct b. by constructor. Qed.

Lemma correction_u16 header : u16 (cgb_real_boot_handoff_correction_t_cycles header).
Proof. unfold cgb_real_boot_handoff_correction_t_cycles. destruct (cgb_native_binary_zero_new_licensee_boot_bucket _); by vm_compute. Qed.

Lemma handoff_ok unmapped m : machine_ok m -> finishes (finalize_cgb_real_boot_handoff_if_needed unmapped m) machine_ok.
Proof.
  intros Hm. unfold finalize_cgb_real_boot_handoff_if_needed. generalize (unmapped && negb (boot_rom_mapped (mc_boot m)) && is_real_boot (mc_config m)). intros handoff.
  apply finishes_bind. eapply finishes_mono with (Q := machine_ok).
  { destruct (handoff && _); [by apply on_host_ok | done]. }
  intros m1 K1. apply finishes_bind. eapply finishes_mono with (Q := machine_ok).
  { destruct (handoff && _); [|done]. destruct (uses_handheld_dmg0_revision _); apply on_ppu_ok; try done.
    destruct (negb _); [|done]. apply set_timer_ok; [done|]. apply timer_ok_correction, K1. }
  intros m2 K2. destruct (_ || _); [done|].
  pose proof (lock_key0_ok (heuristic_policy (config_compatibility (mc_config m2))) _ (mok_bus _ K2)) as Hb.
  destruct (lock_cgb_real_boot_key0_at_handoff _ _) as [b locked]. cbn in Hb.
  assert (K3 : machine_ok (m2 <| mc_bus := b |>)) by (by apply set_bus_ok).
  apply finishes_bind. eapply finishes_mono with (Q := machine_ok).
  { destruct locked as [o|]; [|done]. apply on_ppu_ok; [done|]. apply set_speed_ok, set_serial_ok, serial_mode_ok.
    - apply set_bus_ok; [by apply set_mode_ok | apply bus_mode_ok, K3].
    - apply K3. }
  intros m4 K4. destruct (negb _); [|done]. apply on_ppu_ok; [apply correction_u16|].
  apply set_timer_ok; [done|]. apply timer_ok_correction, K4.
Qed.

(** ** The CPU's environment *)

Definition states_ok (s : CpuBusArbitrationStates) : Prop :=
  dma_bus_ok (dma (pre_cpu s)) /\ dma_bus_ok (dma (cpu_read s)) /\ dma_bus_ok (dma (cpu_write s)).

Section World.
Context (t : TCycle) (e d i : nat) (Ht : 0 <= t < 2 ^ 63).

Record world_ok (w : CpuWorld) : Prop := {
  world_machine_ok : machine_ok (world_machine w);
  world_context_ok : context_ready t e d i 0 (world_context w);
  world_states_ok : states_ok (world_states w)
}.

Lemma read_state_ok a s p : states_ok s -> dma_bus_ok (dma (cpu_read_arbitration_state a s p)).
Proof. intros (? & ? & ?). unfold cpu_read_arbitration_state. by destruct (address_hits_cpu_oam_window a). Qed.
Lemma write_state_ok a s p : states_ok s -> dma_bus_ok (dma (cpu_write_arbitration_state a s p)).
Proof. intros (? & ? & ?). unfold cpu_write_arbitration_state. by destruct (address_hits_cpu_oam_window a). Qed.

Lemma cpu_bus_read_ok a w : u16 a -> world_ok w ->
  finishes (cpu_bus_read a w)
    (fun r => (exists v, r.1 = Some v /\ u8 v) /\ world_ok r.2 /\ world_context r.2 = world_context w).
Proof.
  intros Ha Hw. destruct w as [m c states], Hw as [Hm Hc Hs]. cbn in *. unfold cpu_bus_read. apply finishes_bind.
  eapply finishes_mono; [apply machine_read_ok; [done | by apply read_state_ok | by rewrite (ready_cycle _ _ _ _ _ _ Hc) | done]|].
  intros [v m'] (Hv & Hm' & _). cbn in *. split_and!; [|by constructor|done]. eexists. split; [done|].
  destruct (a =? 0xFF00); [apply joyp_read_ok; [apply Hm' | done] | done].
Qed.

Lemma cpu_bus_write_ok a v w : u16 a -> u8 v -> world_ok w ->
  match cpu_bus_write a v w with
  | Done r => world_ok r.2 /\
      (len (queued_side_effects (world_context r.2)) <= 1 + len (queued_side_effects (world_context w)))%nat
  | Panic _ => (16 <= len (queued_side_effects (world_context w)))%nat
  end.
Proof.
  intros Ha Hv Hw. destruct w as [m c states], Hw as [Hm Hc Hs]. cbn in *. unfold cpu_bus_write.
  destruct (cpu_write_targets_ppu_mmio _ _).
  - unfold queue_side_effect, lift_buffer. destruct (ready_effects _ _ _ _ _ _ Hc) as (Hok & Hcap & Hl).
    destruct (decide (len (queued_side_effects c) < 16)%nat) as [Hlt|Hge].
    + destruct (buffer_push_done (queued_side_effects c) CommitMmioWrite Hok ltac:(lia)) as (b & -> & Hb & Hc' & Hl' & _).
      cbn. split; [|destruct c; cbn in *; lia]. constructor; cbn; [by apply set_pending_ok | | done].
      destruct c, Hc. constructor; try done. cbn in *. unfold buffer_room. split_and!; (done || lia).
    + rewrite buffer_push_full by lia. cbn. lia.
  - assert (Hf : finishes (r ← machine_write (cpu_write_arbitration_state a states (mc_ppu m)) (t_cycle c) a v m;
      m ← (if (a =? 0xFF00) && is_sgb (config_host_platform (mc_config r.2)) then joyp_host_effects v r.2 else mret r.2);
      m ← finalize_cgb_real_boot_handoff_if_needed r.1 m;
      mret (@None Z, mkWorld m c states)) (fun r => world_ok r.2 /\ world_context r.2 = c)).
    { apply finishes_bind. eapply finishes_mono; [apply machine_write_ok; [done | done | by apply write_state_ok |
        by rewrite (ready_cycle _ _ _ _ _ _ Hc) | done]|].
      intros [u m1] K1. cbn in *. apply finishes_bind. eapply finishes_mono with (Q := machine_ok).
      { destruct (_ && _); [by apply joyp_host_effects_ok | done]. }
      intros m2 K2. apply finishes_bind. eapply finishes_mono; [by apply handoff_ok|]. intros m3 K3. cbn.
      split; [by constructor | done]. }
    destruct (finishes_done _ _ Hf) as (r & -> & Hr & Hctx). split; [done|]. rewrite Hctx. lia.
Qed.

(** The environment with the number of accesses so far: it can only fail when
    more side effects were queued than the context holds. *)
Definition counted_ok (nw : nat * outcome CpuWorld) : Prop :=
  match nw.2 with
  | Done w => world_ok w /\ (len (queued_side_effects (world_context w)) <= nw.1)%nat
  | Panic _ => (17 <= nw.1)%nat
  end.

#[local] Arguments cpu_bus_read : simpl never.
#[local] Arguments cpu_bus_write : simpl never.

Lemma cpu_external_ok op w : world_ok w -> operation_typed op ->
  match cpu_external op w with
  | Done r => world_ok r.2 /\
      (len (queued_side_effects (world_context r.2)) <= access_cost op + len (queued_side_effects (world_context w)))%nat
  | Panic _ => access_cost op = 1%nat /\ (16 <= len (queued_side_effects (world_context w)))%nat
  end.
Proof.
  intros Hw Hop. destruct op as [[a|a v]| | | | |source|source]; cbn [operation_typed access_cost] in *.
  - pose proof (cpu_bus_read_ok a w Hop Hw) as Hf. destruct w. cbn. destruct (cpu_bus_read a _) as [r|]; [|done].
    destruct Hf as (_ & Hr & Hctx). split; [done|]. rewrite Hctx. cbn. lia.
  - destruct Hop as [Ha Hv]. pose proof (cpu_bus_write_ok a v w Ha Hv Hw) as Hf. destruct w. cbn.
    by destruct (cpu_bus_write a v _).
  - by destruct w.
  - by destruct w.
  - by destruct w.
  - by destruct w.
  - destruct w, Hw. cbn. split; [|done]. constructor; try done. cbn. apply set_interrupts_ok; [done|].
    apply interrupts_ok_clear. by apply mok_interrupts.
  - destruct w, Hw. cbn. split; [|done]. constructor; try done. cbn. apply set_interrupts_ok; [done|].
    apply interrupts_ok_request. by apply mok_interrupts.
Qed.

#[local] Instance counted_machine : CpuExternal (nat * outcome CpuWorld) := counting machine_external.

Lemma counted_laws : CpuExternalLaws (nat * outcome CpuWorld) counted_ok.
Proof.
  split.
  - intros op [n [w|why]] Hw Hop; unfold bus_operation, counted_machine, counting, bus_operation, machine_external.
    + destruct Hw as [Hw Hl]. cbn in Hl. pose proof (cpu_external_ok op w Hw Hop) as Hs.
      destruct (cpu_external op w) as [[r w']|why]; cbn in *; [destruct Hs as [Hw' Hl']; split; [done|cbn; lia] | lia].
    + unfold counted_ok in *. cbn in *. lia.
  - intros a [n [w|why]] Hw Ha; unfold bus_operation, counted_machine, counting, bus_operation, machine_external.
    + destruct Hw as [Hw _]. pose proof (cpu_bus_read_ok a w Ha Hw) as Hf. destruct w. cbn.
      destruct (cpu_bus_read a _) as [[r w']|]; [|done]. destruct Hf as [(v & Hv & Hu) _]. cbn in *. eauto.
    + exists 0. cbn. split; [done | auto with gb].
Qed.

Lemma tick_cpu_ok states m c : machine_ok m -> context_ready t e d i 16 c -> states_ok states ->
  finishes (tick_cpu states m c) (fun r => machine_ok r.1 /\ context_ready t e d i 0 r.2).
Proof.
  intros Hm Hc Hs. unfold tick_cpu. pose proof (ready_effects _ _ _ _ _ _ Hc) as (_ & _ & Hq).
  set (w := mkWorld m c states). assert (Hw : counted_ok (0%nat, Done w)).
  { split; [|cbn; lia]. constructor; [done | | done]. cbn. eapply context_ready_weaken; [..|exact Hc]; lia. }
  pose proof (@tick_t_cycle_ok _ counted_machine _ counted_laws (mc_cpu m) (0%nat, Done w) (mok_cpu _ Hm) Hw) as Hok.
  pose proof (tick_erases machine_external (mc_cpu m) 0%nat (Done w)) as He.
  unfold wp in Hok. destruct (CpuCycle.tick_t_cycle (mc_cpu m, Done w)) as [[[] [core world]]|why] eqn:Et.
  2:{ unfold counted_machine in Hok. by rewrite He in Hok. }
  destruct (tick_counted machine_external (mc_cpu m) (Done w) core world Et) as (n & Hn & Hle).
  unfold counted_machine in Hok. rewrite Hn in Hok. destruct Hok as [Hcore Hworld]. cbn.
  unfold counted_ok in Hworld. cbn in Hworld. destruct world as [[m' c' s']|why]; [|lia]. cbn.
  destruct Hworld as [[Hm' Hc' _] _]. split; [by apply set_cpu_ok | done].
Qed.
End World.

(** ** The phases *)

Definition phase_ok (t : TCycle) (e d i s : nat) (r : Machine P H * CycleContext) : Prop :=
  machine_ok r.1 /\ context_ready t e d i s r.2.

(** What the DMA controller's tick depends on, the CPU that may have stopped it
    included. *)
Definition same_dma_inputs m m' : Prop :=
  mc_dma m' = mc_dma m /\ dma_runtime_context m' = dma_runtime_context m /\ mc_cpu m' = mc_cpu m.

Lemma same_inputs_trans m m1 m2 : same_dma_inputs m m1 -> same_dma_inputs m1 m2 -> same_dma_inputs m m2.
Proof. intros (? & ? & ?) (? & ? & ?). split_and!; congruence. Qed.

Lemma on_host_keeps call m : host_call_typed call -> machine_ok m ->
  finishes (on_host call m) (fun m' => machine_ok m' /\ same_dma_inputs m m').
Proof.
  intros Hc Hm. unfold on_host. apply finishes_bind. eapply finishes_mono; [apply host_call_ok; [apply Hm | done]|].
  intros h Hh. split; [by apply set_host_ok | by destruct m].
Qed.

Lemma take_sgb_masks_ok e : events_ok e ->
  events_ok (take_pending_sgb_joypad_pressed_masks e).1 /\ opt pressed_masks_ok (take_pending_sgb_joypad_pressed_masks e).2.
Proof. intros []. unfold take_pending_sgb_joypad_pressed_masks. destruct (_ =? _); [done|]. destruct e. by split. Qed.
Lemma take_mask_ok e : events_ok e ->
  events_ok (take_pending_joypad_pressed_mask e).1 /\ opt u8 (take_pending_joypad_pressed_mask e).2.
Proof. intros []. unfold take_pending_joypad_pressed_mask. destruct (negb _); [done|]. destruct e. by split. Qed.
Lemma take_pulse_ok e : events_ok e -> events_ok (take_external_serial_clock_pulse e).1.
Proof.
  intros He. pose proof He as []. unfold take_external_serial_clock_pulse. case_tests; [done|]. destruct e. constructor; try done.
  cbn in *. unfold u8 in *. lia.
Qed.

Lemma push_event_phase x t e d i s m c : machine_ok m -> context_ready t (S e) d i s c ->
  finishes (r ← push_external_event x c; mret (m, r.2)) (fun r => phase_ok t e d i s r /\ r.1 = m).
Proof.
  intros Hm Hc. apply finishes_bind. eapply finishes_mono; [by apply push_external_event_ready|]. intros r Hr. by split.
Qed.

Lemma apply_mask_phase n t e d i s m c : u8 n -> machine_ok m -> context_ready t (S e) d i s c ->
  finishes (let '(j, changed) := apply_pressed_mask n (mc_joypad m) in
            let m := m <| mc_joypad := j |> in
            if changed : bool then r ← push_external_event HostInputChanged c; mret (m, r.2) else mret (m, c))
    (fun r => phase_ok t e d i s r /\ same_dma_inputs m r.1).
Proof.
  intros Hn Hm Hc. pose proof (apply_mask_ok n _ Hn (mok_joypad _ Hm)) as Hj. destruct (apply_pressed_mask _ _) as [j changed].
  cbn in Hj. assert (Hm' : machine_ok (m <| mc_joypad := j |>)) by (by apply set_joypad_ok).
  destruct changed.
  - eapply finishes_mono; [by apply push_event_phase|]. intros r [Hr ->]. split; [done | by destruct m].
  - split; [|by destruct m]. split; [done|]. eapply context_ready_weaken; [..|exact Hc]; lia.
Qed.

Lemma ingress_ok t e d i s m c : machine_ok m -> context_ready t (2 + e) d i s c ->
  finishes (step_external_event_ingress m c) (fun r => phase_ok t e d i s r /\ same_dma_inputs m r.1).
Proof.
  intros Hm Hc. unfold step_external_event_ingress.
  assert (Hweak : forall e', (e' <= 2 + e)%nat -> context_ready t e' d i s c) by
    (intros; eapply context_ready_weaken; [..|exact Hc]; lia).
  destruct (negb _); [split; [split; [done|apply Hweak; lia] | done]|].
  apply finishes_bind. eapply finishes_mono with (Q := fun r => phase_ok t (1 + e) d i s r /\ same_dma_inputs m r.1).
  { destruct (is_sgb _).
    - destruct (take_sgb_masks_ok _ (mok_events _ Hm)) as [He Hmasks].
      destruct (take_pending_sgb_joypad_pressed_masks _) as [ev masks]. cbn in He, Hmasks.
      assert (Hm1 : machine_ok (m <| mc_pending_external_events := ev |>)) by (by apply set_events_ok).
      destruct masks as [masks|]; [|split; [split; [done|apply Hweak; lia] | by destruct m]].
      apply finishes_bind. eapply finishes_mono; [by apply (on_host_keeps (SetPlayerPressedMasks masks))|].
      intros m2 [K2 Hsame2]. eapply finishes_mono;
        [apply (apply_mask_phase _ t (1 + e)); [apply selected_mask_ok, K2 | done..]|].
      intros r [Hr Hsame3]. split; [done|]. eapply same_inputs_trans; [|exact Hsame3].
      eapply same_inputs_trans; [|exact Hsame2]. by destruct m.
    - destruct (take_mask_ok _ (mok_events _ Hm)) as [He Hn].
      destruct (take_pending_joypad_pressed_mask _) as [ev pressed]. cbn in He, Hn.
      assert (Hm1 : machine_ok (m <| mc_pending_external_events := ev |>)) by (by apply set_events_ok).
      destruct pressed as [pressed|]; [|split; [split; [done|apply Hweak; lia] | by destruct m]].
      eapply finishes_mono; [by apply (apply_mask_phase pressed t (1 + e))|]. intros r [Hr Hsame]. split; [done|].
      eapply same_inputs_trans; [|exact Hsame]. by destruct m. }
  intros [m1 c1] [[K1 Hc1] Hsame]. cbn [fst snd] in *.
  pose proof (take_pulse_ok _ (mok_events _ K1)) as He. destruct (take_external_serial_clock_pulse _) as [ev pulse]. cbn in He.
  assert (K2 : machine_ok (m1 <| mc_pending_external_events := ev |>)) by (by apply set_events_ok).
  assert (Hw1 : context_ready t e d i s c1) by (eapply context_ready_weaken; [..|exact Hc1]; lia).
  destruct (_ && _); [|split; [by split|]; eapply same_inputs_trans; [exact Hsame | by destruct m1]].
  pose proof (queue_pulse_ok _ (mok_serial _ K2)) as Hs. destruct (queue_external_clock_pulse _) as [sp queued]. cbn in Hs.
  assert (K3 : machine_ok (m1 <| mc_pending_external_events := ev |> <| mc_serial := sp |>)) by (by apply set_serial_ok).
  destruct queued; [|split; [by split|]; eapply same_inputs_trans; [exact Hsame | by destruct m1]].
  eapply finishes_mono; [by apply (push_event_phase ExternalSerialClock t e)|]. intros r [Hr ->]. split; [done|].
  eapply same_inputs_trans; [exact Hsame | by destruct m1].
Qed.

Lemma timer_phase_ok t e d i s m c : machine_ok m -> context_ready t e (3 + d) (1 + i) s c ->
  finishes (step_derived_edge_resolution m c) (fun r => phase_ok t e d i s r /\ same_dma_inputs m r.1).
Proof.
  intros Hm Hc. unfold step_derived_edge_resolution. destruct (negb _).
  - apply finishes_bind. eapply finishes_mono; [by apply timer_tick_ready; [apply mok_timer|]|].
    intros [tm c'] [Ht Hc']. split; [split; [by apply set_timer_ok | done] | by destruct m].
  - split; [split; [done|] | done]. eapply context_ready_weaken; [..|exact Hc]; lia.
Qed.

End Safety.
