(* ===== verification/MachineStartup.v ===== *)
(** * Machine startup

    Construction, startup in every mode and the insertion of a cartridge put
    the machine into its invariant: the memories a boot ROM leaves, the header
    a loaded image carries, and every component's startup state. *)

From Stdlib Require Import ZArith Lia Bool String.
From stdpp Require Import base decidable list option.
From S2P Require Import Prelude.
From S2P Require Import Model.
From S2P Require Import Config.
From S2P Require Import Scheduler.
From S2P Require Import Interrupts.
From S2P Require Import Joypad.
From S2P Require Import Speed.
From S2P Require Import Timer.
From S2P Require Import Serial.
From S2P Require Import CpuData.
From S2P Require Import CpuBus.
From S2P Require Import CpuCycle.
From S2P Require Import CpuSafety.
From S2P Require Import CpuAccesses.
From S2P Require Import CartridgeHeader.
From S2P Require Import Cartridge.
From S2P Require Import CartridgeDevice.
From S2P Require Import CartridgeSlot.
From S2P Require Import ApuChannels.
From S2P Require Import Apu.
From S2P Require Import BusState.
From S2P Require Import BusRouter.
From S2P Require Import Vectors.
From S2P Require Import BusMemory.
From S2P Require Import BusIo.
From S2P Require Import Dma.
From S2P Require Import Boot.
From S2P Require Import Bus.
From S2P Require Import BusSafety.
From S2P Require Import Printer.
From S2P Require Import ExternalPort.
From S2P Require Import MachineContext.
From S2P Require Import MachinePorts.
From S2P Require Import MachineState.
From S2P Require Import MachineStep.
From S2P Require Import MachineSafety.

Local Open Scope Z_scope.

(** ** The memories a boot ROM leaves *)

(** [f] keeps a vector of bytes one of the same length. *)
Definition keeps_bytes (f : list Z -> list Z) : Prop := forall l, bytes l -> bytes (f l) /\ length (f l) = length l.

Lemma vec_set_length l i v : length (vec_set l i v) = length l.
Proof. pose proof (vec_len_set l i v). unfold vec_len in *. lia. Qed.

Lemma write_table_keeps start stride table : bytes table -> keeps_bytes (write_table start stride table).
Proof.
  intros Ht. revert start. induction Ht as [|b table Hb Ht IH]; intros start l Hl; [done|]. cbn [write_table].
  assert (Hw : bytes (write_vram_backing_byte l start b) /\ length (write_vram_backing_byte l start b) = length l).
  { unfold write_vram_backing_byte. case_tests; try done. split; [by apply bytes_set | apply vec_set_length]. }
  destruct (IH (start + stride) _ (proj1 Hw)) as [Hb' Hl']. split; [done|]. by rewrite Hl', (proj2 Hw).
Qed.

Lemma zeroed_with_prefix_keeps prefix : bytes prefix -> keeps_bytes (zeroed_with_prefix prefix).
Proof.
  intros Hp l _. unfold zeroed_with_prefix. split.
  - apply Forall_app. split; [by apply Forall_take | apply Forall_replicate; unfold u8; lia].
  - rewrite length_app, length_take, length_replicate. lia.
Qed.

Lemma startup_byte_u8 a : u8 (deterministic_startup_byte a).
Proof.
  unfold deterministic_startup_byte. apply u8_lxor; [|by vm_compute]. apply u8_rotate_left8.
  - pose proof (range_land 3 (Z.shiftr a 1) 7) as Hr. rewrite land_07. pose proof (Z.mod_pos_bound (Z.shiftr a 1) 8). lia.
  - unfold wrapping_mul8. auto 6 with gb.
Qed.

Lemma fill_pattern_keeps base : keeps_bytes (fun l => fill_deterministic_startup_pattern l base).
Proof.
  intros l _. unfold fill_deterministic_startup_pattern. split; [|by rewrite length_imap].
  apply Forall_lookup_2. intros i b Hb. rewrite list_lookup_imap in Hb. destruct (l !! i); [|done]. cbn in Hb.
  injection Hb as <-. apply startup_byte_u8.
Qed.

Lemma keeps_compose f g : keeps_bytes f -> keeps_bytes g -> keeps_bytes (fun l => g (f l)).
Proof. intros Hf Hg l Hl. destruct (Hf l Hl) as [Hb He]. destruct (Hg _ Hb) as [Hb' He']. split; [done | congruence]. Qed.

Lemma byte_table table : forallb (fun b => (0 <=? b) && (b <? 256)) table = true -> bytes table.
Proof.
  intros Hall. apply Forall_forall. intros b Hb. rewrite forallb_forall in Hall. apply Hall in Hb.
  prune. unfold u8. lia.
Qed.

Lemma logo_tiles_keeps : keeps_bytes apply_dmg_boot_logo_tile_vram.
Proof. apply write_table_keeps. by apply byte_table. Qed.
Lemma logo_keeps : keeps_bytes apply_dmg_boot_logo_vram.
Proof. apply (keeps_compose _ _ logo_tiles_keeps). apply write_table_keeps. by apply byte_table. Qed.

Lemma initialize_vram_keeps p : keeps_bytes (initialize_vram p).
Proof.
  assert (Hz : keeps_bytes initialize_cgb_real_boot_entry_vram) by (apply zeroed_with_prefix_keeps; by apply byte_table).
  destruct p; first [done | exact logo_keeps | exact Hz | exact (keeps_compose _ _ Hz logo_tiles_keeps)
    | exact (keeps_compose _ _ Hz logo_keeps)].
Qed.
Lemma initialize_wram_keeps p : keeps_bytes (initialize_wram p).
Proof.
  assert (Hz : keeps_bytes (fun l => replicate (length l) 0)).
  { intros l _. split; [apply Forall_replicate; unfold u8; lia | by rewrite length_replicate]. }
  destruct p; cbn [initialize_wram fill_bytes]; first [apply fill_pattern_keeps | exact Hz].
Qed.
Lemma initialize_hram_keeps p : keeps_bytes (initialize_hram p).
Proof.
  destruct p; cbn [initialize_hram fill_bytes]; first [apply fill_pattern_keeps | apply zeroed_with_prefix_keeps; by apply byte_table].
Qed.

Lemma slice_update_keeps n f : keeps_bytes f -> keeps_bytes (slice_update n f).
Proof.
  intros Hf l Hl. unfold slice_update. destruct (Hf (take (Z.to_nat n) l)) as [Hb He]; [by apply Forall_take|]. split.
  - apply Forall_app. split; [done | by apply Forall_drop].
  - rewrite length_app, He, <- length_app. by rewrite take_drop.
Qed.

Lemma memory_policy_ok p b : bus_ok b -> bus_ok (bus_apply_startup_memory_policy p b).
Proof.
  intros Hb. unfold bus_apply_startup_memory_policy.
  destruct b as [m o r [vm bank vb va] [wm sel wb] oam [h k c i]], Hb as [(? & Hl & Hvb & ?) (? & Hlw & Hwb) Ho Hi Hv Hw].
  destruct Hi as [[Hlh Hh] Hk Hm Hinf]. cbn in *. subst.
  destruct (slice_update_keeps (vram_len (mkVram m bank vb va)) _ (initialize_vram_keeps p) vb Hvb) as [Hvb' Hvl].
  destruct (slice_update_keeps (wram_len (mkWram m sel wb)) _ (initialize_wram_keeps p) wb Hwb) as [Hwb' Hwl].
  destruct (initialize_hram_keeps p h Hh) as [Hh' Hhl]. unfold vec_len in *.
  constructor; try done; cbn; unfold vram_ok, wram_ok, vec_len; cbn; rewrite ?Hvl, ?Hwl; try (split_and!; (done || lia)).
  constructor; try done. cbn. unfold vec_len. by rewrite Hhl.
Qed.

(** The flag byte of a header is a byte. *)
Definition header_typed (h : CartridgeHeader) : Prop :=
  match cgb_flag h with CgbSupportedNonCanonical value => u8 value | _ => True end.

Lemma direct_key0_ok m o flag : match flag with CgbSupportedNonCanonical value => u8 value | _ => True end ->
  key0_ok (key0_direct_boot m o flag).
Proof.
  intros Hf. unfold key0_direct_boot, key0_ok. destruct (negb _); [by vm_compute|]. cbn [key0_value].
  destruct o, flag; try (by vm_compute); case_tests; try done; by vm_compute.
Qed.

Lemma cgb_startup_ok startup header b : opt header_typed header -> bus_ok b -> bus_ok (apply_cgb_startup_state startup header b).
Proof.
  intros Hh Hb. unfold apply_cgb_startup_state.
  assert (Hk : key0_ok (key0_direct_boot (bus_console_model b) (bus_operating_mode b) (from_option cgb_flag CgbSupported header))).
  { apply direct_key0_ok. destruct header; [apply Hh | done]. }
  assert (Hr : key0_ok (key0_real_boot_entry (bus_console_model b) (bus_operating_mode b))).
  { unfold key0_real_boot_entry, key0_ok. destruct (negb _); [by vm_compute|]. destruct (bus_operating_mode b); by vm_compute. }
  destruct b as [m o r [vm bank vb va] [wm sel wb] oam [h k c i]], Hb as [(? & Hl & Hvb & ?) (? & Hlw & Hwb) Ho Hi Hv Hw].
  destruct Hi as [Hh' Hk' Hm Hinf]. cbn in *.
  constructor; try done; cbn; try (split_and!; (done || lia)).
  destruct (uses_direct_boot_state startup); constructor; try done; cbn; unfold misc_ok, misc_new, u8; cbn; lia.
Qed.

(** ** What a load inserts *)

Lemma load_family_header family header rom compat cls ds d :
  accepts (load_family family header rom) compat cls ds d -> CartridgeDevice.header d = header.
Proof.
  intros Hacc. destruct family; cbn [load_family] in Hacc; apply accepts_device in Hacc as (c & Hacc & ->);
    unfold NoMbc.load_no_mbc, Mmm01.load_mmm01, M161.load_m161, Huc1.load_huc1, Huc3.load_huc3, Mbc1.load_mbc1, Mbc2.load_mbc2,
      Mbc3.load_mbc3, Mbc5.load_mbc5, Mbc6.load_mbc6, Mbc7.load_mbc7, PocketCamera.load_pocket_camera in Hacc;
    repeat (accepts_inv; subst; try done; case_match).
Qed.

Lemma parsed_header_typed rom h : bytes rom -> parse_for_load rom = Done (inl h) -> header_typed h.
Proof.
  intros Hrom Hp. destruct (header_for_load_is_image_bytes rom) as [Hsmall Hlarge].
  destruct (Z.lt_ge_cases (Z.of_nat (length rom)) 0x150) as [Hlt|Hge]; [by rewrite Hsmall in Hp|].
  destruct (Hlarge Hge) as (h' & Hp' & Hat). rewrite Hp in Hp'. injection Hp' as <-.
  assert (Hbase : exists base, header_at rom base h) by (destruct Hat as [[? _]|(_ & ? & _)]; by eexists).
  destruct Hbase as (base & Hh). destruct (at_cgb_flag _ _ _ Hh) as (flag & Hf & He). unfold header_typed. rewrite He.
  assert (Hb : u8 flag) by (eapply Forall_lookup_1; [exact Hrom | exact Hf]).
  unfold decode_cgb_flag. repeat case_match; simplify_eq; done.
Qed.

Lemma load_typed rom compat : bytes rom -> exists r, CartridgeSlot.load rom compat = Done r /\
  match r with
  | inl (s, _) => cart_typed (Some s) /\ opt header_typed (slot_header s)
  | inr _ => True
  end.
Proof.
  intros Hrom. destruct (load_total rom compat) as [r Hr]. exists r. split; [done|]. destruct r as [[s ds]|]; [|done].
  destruct (load_inv _ _ _ _ Hr) as (h & cls & family & d & Hp & _ & _ & Hacc & ->).
  destruct (load_family_ok _ _ _ _ _ _ _ (parse_for_load_sized _ _ Hp) Hacc) as (Hok & pad & Himage & _ & Hpad).
  split.
  - cbn. split; [done|]. rewrite <- board_rom_bytes, Himage. apply Forall_app. split; [done|].
    eapply Forall_impl; [|exact Hpad]. intros b <-. by vm_compute.
  - cbn. rewrite (load_family_header _ _ _ _ _ _ _ Hacc). by eapply parsed_header_typed.
Qed.

(** ** The machine *)

(** A startup state overwrites a component whatever it was before. *)
Lemma restart_timer st m t : timer_ok (timer_apply_startup_state st (timer_new m)) -> timer_ok (timer_apply_startup_state st t).
Proof. by destruct t. Qed.
Lemma restart_serial st m o s : serial_ok (serial_apply_startup_state st (serial_new_with_operating_mode m o)) ->
  serial_ok (serial_apply_startup_state st s).
Proof. by destruct s. Qed.
Lemma restart_interrupts st m i : interrupts_ok (interrupts_apply_startup_state st (interrupts_new m)) ->
  interrupts_ok (interrupts_apply_startup_state st i).
Proof. by destruct i. Qed.
Lemma restart_joypad st m j : joypad_ok (joypad_apply_startup_state st (joypad_new m)) ->
  joypad_ok (joypad_apply_startup_state st j).
Proof. by destruct j. Qed.

Lemma cart_sound cartridge : cart_typed cartridge -> slot_sound cartridge.
Proof. intros Hc s d -> Hd. cbn in Hc. rewrite Hd in Hc. apply Hc. Qed.

Section Startup.
Context {P H : Type} `{PictureUnitLaws P} `{SgbHostLaws H}.
Implicit Types m : Machine P H.

(** In the invariant, with the cartridge, the boot controller and the scheduler
    of [m0]. *)
Definition framed m0 m : Prop :=
  machine_ok m /\ mc_cartridge m = mc_cartridge m0 /\ mc_boot m = mc_boot m0 /\ mc_scheduler m = mc_scheduler m0.

Lemma framed_step m0 m m' : framed m0 m -> machine_ok m' -> mc_cartridge m' = mc_cartridge m -> mc_boot m' = mc_boot m ->
  mc_scheduler m' = mc_scheduler m -> framed m0 m'.
Proof. intros (_ & Hc & Hb & Hs) Hm' Hc' Hb' Hs'. split_and!; congruence. Qed.

Lemma on_ppu_framed call m0 m : picture_call_typed call -> framed m0 m -> finishes (on_ppu call m) (framed m0).
Proof.
  intros Hc Hm. unfold on_ppu. apply finishes_bind. eapply finishes_mono; [apply picture_call_ok; [apply Hm | done]|].
  intros p Hp. eapply framed_step; [exact Hm | by apply set_ppu_ok; [apply Hm|] | by destruct m..].
Qed.
Lemma on_host_framed call m0 m : host_call_typed call -> framed m0 m -> finishes (on_host call m) (framed m0).
Proof.
  intros Hc Hm. unfold on_host. apply finishes_bind. eapply finishes_mono; [apply host_call_ok; [apply Hm | done]|].
  intros h Hh. eapply framed_step; [exact Hm | by apply set_host_ok; [apply Hm|] | by destruct m..].
Qed.

Lemma direct_boot_state_ok s m0 m model mode : direct_boot_ok model mode s -> framed m0 m ->
  finishes (apply_skip_boot_state s m) (framed m0).
Proof.
  intros [Hcpu _ Hapu Htimer _ Hserial Hint Hjoy _ Hdma Hppu] Hm. unfold apply_skip_boot_state. cbv zeta.
  assert (K1 : framed m0 (m <| mc_cpu := cpu_apply_startup_state (boot_cpu s) (mc_cpu m) |>)).
  { eapply framed_step; [exact Hm | | by destruct m..]. apply set_cpu_ok; [apply Hm | by apply cpu_apply_startup_state_ok]. }
  revert K1. generalize (m <| mc_cpu := cpu_apply_startup_state (boot_cpu s) (mc_cpu m) |>). intros m1 K1.
  apply finishes_bind. eapply finishes_mono.
  { apply Apu.apply_startup_state_ok; [|apply (proj1 K1)].
    destruct (config_operating_mode (mc_config m)); try exact Hapu. destruct Hapu as [Hall]. constructor.
    repeat (apply Forall_cons_1 in Hall as [? Hall]). destruct (boot_apu s).
    repeat (apply Forall_cons_2; [(by vm_compute) || done|]). apply Forall_nil_2. }
  intros a Ha. assert (K2 : framed m0 (m1 <| mc_apu := a |>)).
  { eapply framed_step; [exact K1 | by apply set_apu_ok; [apply K1|] | by destruct m1..]. }
  apply finishes_bind. eapply finishes_mono; [by apply (on_ppu_framed (MachinePorts.ApplyStartupState (boot_ppu s)))|]. intros m2 K3.
  apply finishes_bind. eapply finishes_mono with (Q := framed m0).
  { destruct (uses_handheld_dmg0_revision _); [by apply on_ppu_framed|].
    destruct (config_startup_mode _); try done. by apply on_ppu_framed. }
  intros m3 K4. apply finishes_bind. eapply finishes_mono with (Q := framed m0).
  { destruct (config_startup_mode _); try done. destruct (is_cgb_family _); [by apply on_ppu_framed | done]. }
  intros m4 K5. eapply framed_step; [exact K5 | | by destruct m4..]. destruct K5 as [K5 _].
  apply set_bus_ok; [|by apply memory_policy_ok, K5]. apply set_joypad_ok; [|by eapply restart_joypad].
  apply set_interrupts_ok; [|by eapply restart_interrupts]. apply set_dma_ok; [|by apply dma_apply_startup_state_ok; [|apply K5]].
  apply set_serial_ok; [|by eapply restart_serial]. apply set_timer_ok; [done | by eapply restart_timer].
Qed.

Lemma real_boot_state_ok s m0 m model mode : real_boot_ok model mode s -> framed m0 m ->
  finishes (apply_real_boot_state s m) (framed m0).
Proof.
  intros (Htimer & Hserial & Hjoy & Hdma) Hm. unfold apply_real_boot_state. apply finishes_bind.
  eapply finishes_mono; [by apply (on_ppu_framed _ m0)|]. intros m1 K1.
  eapply framed_step; [exact K1 | | by destruct m1..]. destruct K1 as [K1 _].
  apply set_joypad_ok; [|by eapply restart_joypad]. apply set_dma_ok; [|by apply dma_apply_startup_state_ok; [|apply K1]].
  apply set_serial_ok; [|by eapply restart_serial]. apply set_timer_ok; [done | by eapply restart_timer].
Qed.

Lemma startup_port_ok p : attachment_ok p -> attachment_ok (apply_startup_reset p).
Proof. intros Hp. exact (port_step_ok PortReset p Hp I). Qed.

Definition host_input_ok (pressed : Z) (sgb_pressed : list Z) : Prop := u8 pressed /\ pressed_masks_ok sgb_pressed.

Lemma startup_configuration_ok pressed sgb_pressed m :
  host_input_ok pressed sgb_pressed -> opt header_typed (slot_header (mc_cartridge m)) -> machine_ok m ->
  finishes (apply_startup_configuration pressed sgb_pressed m) (framed m).
Proof.
  intros [Hpressed Hmasks] Hh Hm. unfold apply_startup_configuration.
  destruct (boot_states_are_typed (Some (mc_cartridge m)) (mc_boot m) ModeDmg (cart_sound _ (mok_cartridge _ Hm))) as (_ & Hskip & Hreal).
  apply finishes_bind. eapply finishes_mono; [exact Hskip|]. intros skip Hs.
  apply finishes_bind. eapply finishes_mono with (Q := framed m).
  { destruct skip as [s|]; [|done]. destruct Hs as [_ Hs]. by eapply direct_boot_state_ok. }
  intros m1 K1. apply finishes_bind. eapply finishes_mono with (Q := framed m).
  { destruct (proj2 K1) as (_ & Hb & _). rewrite Hb. destruct (real_boot_power_on_state (mc_boot m)) as [s|]; [|done].
    destruct Hreal as [_ Hs']. by eapply real_boot_state_ok. }
  intros m2 K2. cbv zeta. apply finishes_bind. eapply finishes_mono; [by apply (on_ppu_framed _ m)|]. intros m3 K3.
  assert (K4 : framed m (m3 <| mc_serial := serial_apply_operating_mode_state (config_operating_mode (mc_config m2)) (mc_serial m3) |>)).
  { eapply framed_step; [exact K3 | | by destruct m3..]. apply set_serial_ok; [apply K3 | apply serial_mode_ok, (proj1 K3)]. }
  apply finishes_bind. eapply finishes_mono; [by apply (on_ppu_framed _ m)|]. intros m4 K5.
  apply finishes_bind. eapply finishes_mono; [by apply (on_ppu_framed _ m)|]. intros m5 K6.
  assert (Hheader : opt header_typed (slot_header (mc_cartridge m2))) by (destruct K2 as (_ & -> & _); exact Hh).
  match goal with |- finishes (on_host _ ?x ≫= _) _ => assert (K7 : framed m x) end.
  { eapply framed_step; [exact K6 | | by destruct m5..]. apply set_bus_ok; [apply K6|]. apply cgb_startup_ok; [done | apply (proj1 K6)]. }
  apply finishes_bind. eapply finishes_mono; [by apply (on_host_framed _ m)|]. intros m6 K8.
  apply finishes_bind. eapply finishes_mono with (Q := framed m).
  { destruct (is_sgb _); [|done]. apply finishes_bind. eapply finishes_mono; [by apply (on_host_framed _ m)|]. intros m7 K9.
    eapply framed_step; [exact K9 | | by destruct m7..]. apply selected_mask_joypad_ok, K9. }
  intros m7 K9.
  assert (K10 : framed m (sync_serial_peer_from_external_port (m7 <| mc_external_port := apply_startup_reset (mc_external_port m7) |>))).
  { eapply framed_step; [exact K9 | | by destruct m7..]. apply sync_peer_ok, set_port_ok; [apply K9|].
    apply startup_port_ok, (proj1 K9). }
  eapply framed_step; [exact K10 | | by destruct m7..]. apply set_events_ok; [apply K10|]. by constructor.
Qed.

(** The components of a configuration are in the invariant. *)
Lemma components_ok config port cartridge events :
  assets_ok (config_boot_rom_assets config) -> attachment_ok port -> cart_typed (Some cartridge) -> events_ok events ->
  machine_ok (machine_components (P := P) (H := H) config port cartridge events).
Proof.
  intros Ha Hp Hc He. constructor; try done; first [apply cpu_new_ok | apply bus_new_ok | apply apu_new_ok | apply picture_new_ok
    | apply dma_new_ok | apply timer_ok_new | apply serial_ok_initial | apply sgb_new_ok | apply interrupts_ok_new
    | apply joypad_ok_reachable, joypad_initial].
Qed.

Lemma masks_with_first pressed : u8 pressed -> pressed_masks_ok (vec_set (vec_zeroed SGB_CONTROLLER_COUNT) 0 pressed).
Proof. intros Hp. split; [by rewrite vec_len_set|]. apply bytes_set; [apply bytes_zeroed | done]. Qed.
Lemma pending_new_ok pressed : u8 pressed -> events_ok (pending_new pressed).
Proof. intros Hp. constructor; [done | by apply masks_with_first | by vm_compute]. Qed.

(** A machine that is about to run its first T-cycle. *)
Definition fresh_ok m : Prop := machine_ok m /\ mc_scheduler m = scheduler_default.

Lemma machine_new_ok config : assets_ok (config_boot_rom_assets config) ->
  finishes (machine_new (P := P) (H := H) config) fresh_ok.
Proof.
  intros Ha. unfold machine_new. eapply finishes_mono; [apply startup_configuration_ok|by intros ? (? & _ & _ & ?)].
  - split; [by vm_compute|]. split; [done | apply bytes_zeroed].
  - done.
  - apply components_ok; [done..|]. by apply pending_new_ok.
Qed.

Lemma restart_ok pressed sgb_pressed port m :
  host_input_ok pressed sgb_pressed -> attachment_ok port -> opt header_typed (slot_header (mc_cartridge m)) -> machine_ok m ->
  finishes (restart_runtime_after_cartridge_load pressed sgb_pressed port m) fresh_ok.
Proof.
  intros Hi Hp Hh Hm. unfold restart_runtime_after_cartridge_load.
  eapply finishes_mono; [apply startup_configuration_ok; [done | done |]|by intros ? (? & _ & _ & ?)].
  apply components_ok; [apply Hm | done | apply Hm | apply Hm].
Qed.

(** Inserting an image, accepted or refused, leaves the machine in the
    invariant; an accepted one restarts it. *)
Lemma load_cartridge_ok rom m : bytes rom -> machine_ok m ->
  finishes (load_cartridge rom m) (fun x => match x.2 with inl _ => fresh_ok x.1 | inr _ => x.1 = m end).
Proof.
  intros Hrom Hm. unfold load_cartridge. destruct (load_typed rom (config_compatibility (mc_config m)) Hrom) as (report & -> & Hr).
  cbn [mbind outcome_bind]. destruct report as [[cartridge diagnostics]|error]; [|done]. destruct Hr as [Hc Hh]. cbv zeta.
  assert (K1 : machine_ok (m <| mc_cartridge := cartridge |>)) by (by apply set_cartridge_ok).
  apply finishes_bind. eapply finishes_mono with (Q := fresh_ok); [|done].
  apply restart_ok; [| apply Hm | by destruct m | ].
  - split; apply (mok_events _ Hm).
  - apply set_config_ok; [done|]. unfold apply_direct_boot_cartridge_header. pose proof (mok_assets _ K1) as Ha.
    destruct (negb _); [done|]. by destruct (mc_config (m <| mc_cartridge := cartridge |>)).
Qed.
End Startup.
