(* ===== verification/MachinePhases.v ===== *)
(** * The phases of a T-cycle keep the machine's invariant

    The autonomous peripherals, the CPU's bus cycle, the commit of picture
    registers, the aggregation of requests and the wake-up: each finishes in
    the invariant, whatever the picture unit and the SGB host do within their
    contracts.  The one condition left is that the DMA transfer does not run
    off the end of the address space. *)

From Stdlib Require Import ZArith Lia Bool String.
From stdpp Require Import base decidable list option.
From S2P Require Import Prelude.
From S2P Require Import Model.
From S2P Require Import Config.
From S2P Require Import Scheduler.
From S2P Require Import Interrupts.
From S2P Require Import Joypad.
From S2P Require Import Speed.
From S2P Require Import Timer.
From S2P Require Import Serial.
From S2P Require Import CpuData.
From S2P Require Import CpuBus.
From S2P Require Import CpuCycle.
From S2P Require Import CpuSafety.
From S2P Require Import CpuAccesses.
From S2P Require Import CartridgeHeader.
From S2P Require Import Cartridge.
From S2P Require Import CartridgeDevice.
From S2P Require Import CartridgeSlot.
From S2P Require Import ApuChannels.
From S2P Require Import Apu.
From S2P Require Import BusState.
From S2P Require Import BusRouter.
From S2P Require Import Vectors.
From S2P Require Import BusMemory.
From S2P Require Import BusIo.
From S2P Require Import Dma.
From S2P Require Import Boot.
From S2P Require Import Bus.
From S2P Require Import BusSafety.
From S2P Require Import Printer.
From S2P Require Import ExternalPort.
From S2P Require Import MachineContext.
From S2P Require Import MachinePorts.
From S2P Require Import MachineState.
From S2P Require Import MachineStep.
From S2P Require Import MachineSafety.

Local Open Scope Z_scope.

(** ** The serial port's byte *)

Lemma latest_output_u8 speed s : serial_ok s -> opt u8 (latest_completed_output_byte (serial_next speed s)).
Proof.
  intros Hs. unfold serial_next. assert (Hl : latest_completed_output_byte (tick_idle_t_cycle s) = None) by (by destruct s).
  destruct (shifts_now speed s); [|by rewrite Hl]. unfold bit_shifted.
  assert (Hi : serial_ok (tick_idle_t_cycle s)) by (by apply serial_ok_idle_tick).
  revert Hi Hl. generalize (tick_idle_t_cycle s). clear. intros s Hi Hl. unfold pulse_consumed, exchange_loaded.
  destruct s as [m o b c h t p q e so co cs ci l out]. destruct Hi as ((? & ? & ? & _) & _). cbn in *. subst.
  repeat first [done | case_match; cbn in *; simplify_eq].
Qed.

Section Phases.
Context {P H : Type} `{PictureUnitLaws P} `{SgbHostLaws H}.
Implicit Types m : Machine P H.
Implicit Types r : Runner (P := P) (H := H).

(** ** The picture unit's T-cycle *)

Record runner_ok r : Prop := {
  runner_machine_ok : machine_ok (runner_machine r);
  runner_states_ok : opt states_ok (cached_cpu_bus_arbitration_states r)
}.

Lemma with_machine_ok r m : runner_ok r -> machine_ok m -> runner_ok (r <| runner_machine := m |>).
Proof. intros [_ Hs] Hm. destruct r. by constructor. Qed.

Lemma transfer_display_finishes m : machine_ok m -> finishes (transfer_display m) transfer_display_ok.
Proof.
  intros Hm. unfold transfer_display, ppu_read_register.
  do 4 (apply finishes_bind; eapply finishes_mono; [apply port_read_ok, Hm | intros ? ?]). by split_and!.
Qed.

Lemma debug_bytes_ok d : vram_ok d -> bytes (vram_debug_bytes d).
Proof. intros (_ & _ & Hb & _). by apply Forall_take. Qed.

Lemma snapshot_fields r : let '(snapshot, r') := runner_ppu_bus_state_snapshot r in
  runner_machine r' = runner_machine r /\ cached_cpu_bus_arbitration_states r' = cached_cpu_bus_arbitration_states r.
Proof. unfold runner_ppu_bus_state_snapshot. destruct r as [m [p|] s]; by split. Qed.

Lemma video_domain_ok dma_bus conflict c r : opt oam_conflict_ok conflict -> runner_ok r ->
  finishes (tick_ppu_video_domain dma_bus (dma_drives_oam dma_bus) conflict c r) runner_ok.
Proof.
  intros Hc Hr. unfold tick_ppu_video_domain. cbv zeta.
  assert (K1 : machine_ok ((runner_machine r) <| mc_bus :=
    sync_video_domain_ownership (owner_bus_state (mc_ppu (runner_machine r))) dma_bus (mc_bus (runner_machine r)) |>)).
  { apply set_bus_ok; [apply Hr|]. apply sync_ok. by apply mok_bus, runner_machine_ok. }
  pose proof (synced_views (owner_bus_state (mc_ppu (runner_machine r))) dma_bus _ (mok_bus _ (runner_machine_ok _ Hr))) as Hv.
  set (m1 := (runner_machine r) <| mc_bus := _ |>) in *.
  replace (mc_bus m1) with (sync_video_domain_ownership (owner_bus_state (mc_ppu (runner_machine r))) dma_bus (mc_bus (runner_machine r)))
    by (unfold m1; by destruct (runner_machine r)).
  replace (owner_bus_state (mc_ppu (runner_machine r))) with (owner_bus_state (mc_ppu m1)) in * by (unfold m1; by destruct (runner_machine r)).
  destruct (video_views RequesterPpu _) as [oam vram]. apply finishes_bind.
  eapply finishes_mono; [apply (picture_tick_ok oam vram _ conflict); [apply K1 | done | done]|]. intros p Hp.
  assert (K2 : runner_ok (r <| runner_machine := m1 <| mc_ppu := p |> |>)) by (apply with_machine_ok; [done | by apply set_ppu_ok]).
  pose proof (snapshot_fields (r <| runner_machine := m1 <| mc_ppu := p |> |>)) as Hsnap.
  destruct (runner_ppu_bus_state_snapshot _) as [after r2]. destruct Hsnap as [Hm Hs].
  assert (K3 : runner_ok r2) by (constructor; [rewrite Hm | rewrite Hs]; apply K2).
  assert (K4 : machine_ok ((runner_machine r2) <| mc_bus :=
    sync_video_domain_ownership (snapshot_owner after) dma_bus (mc_bus (runner_machine r2)) |>)).
  { apply set_bus_ok; [apply K3|]. apply sync_ok. by apply mok_bus, runner_machine_ok. }
  apply finishes_bind. eapply finishes_mono with (Q := machine_ok); [|intros m Hm'; by apply with_machine_ok].
  destruct (_ =? 0); [|done]. apply finishes_bind. eapply finishes_mono; [by apply transfer_display_finishes|].
  intros display Hd. apply on_host_ok; [|done]. split; [|done]. apply debug_bytes_ok. by apply bus_vram_ok, mok_bus.
Qed.

(** ** The DMA controller's T-cycle *)

(** The transfer's next byte would come from past the end of the address space. *)
Definition transfer_overflows m : bool :=
  Dma.requires_t_cycle_tick (mc_dma m) &&
  match tick_t_cycle_with_vram_dma_context (dma_runtime_context m) (mc_dma m) with
  | Done (Some w, _) => 0xFFFF <? source_start (work_transfer w) + byte_index w
  | _ => false
  end.

(** The one panic a T-cycle can meet: such a transfer while the CPU is not
    stopped. *)
Definition dma_overflows m : bool := negb (cpu_stop_active m) && transfer_overflows m.

Lemma same_inputs_overflow m m' : same_dma_inputs m m' -> dma_overflows m' = dma_overflows m.
Proof. intros (Hd & Hc & Hcpu). unfold dma_overflows, transfer_overflows, cpu_stop_active. by rewrite Hd, Hc, Hcpu. Qed.

Definition activity_ok (a : DmaActivity) : Prop :=
  dma_bus_ok (activity_bus_state a) /\
  match activity_work a, activity_byte a with
  | Some w, Some value => work_ok w /\ u8 value /\ exists state, activity_arbitration a = Some state /\ dma_bus_ok (dma state)
  | None, None => True
  | _, _ => False
  end.

Lemma runtime_context_ok m : machine_ok m -> context_ok (dma_runtime_context m).
Proof. intros Hm. apply picture_mode0_ok, (mok_ppu _ Hm). Qed.

Lemma transfer_byte_ok w state c m : work_ok w -> source_start (work_transfer w) + byte_index w <= 0xFFFF ->
  dma_bus_ok (dma state) -> 0 <= t_cycle c < 2 ^ 63 -> machine_ok m ->
  finishes (read_transfer_byte w state c m) (fun x => u8 x.1 /\ machine_ok x.2).
Proof.
  intros [Hw Hi] Hle Hs Ht Hm. unfold read_transfer_byte, source_read_value_override, work_source_address, source_address_for_byte.
  pose proof (source_start_range _ Hw) as Hstart. rewrite checked_add_u16_done by lia. cbn [mbind outcome_bind].
  assert (Hread : forall a, u16 a -> finishes (machine_read RequesterDma state (t_cycle c) 0 false a m) (fun x => u8 x.1 /\ machine_ok x.2)).
  { intros a Ha. eapply finishes_mono; [by apply machine_read_ok|]. intros x (? & ? & _). by split. }
  destruct (transfer_kind _); cbn [mbind outcome_bind mret outcome_ret].
  - apply Hread. unfold normalize_oam_source_address, DMG_OAM_DMA_ECHO_ALIAS_OFFSET, u16 in *.
    destruct (Z.leb_spec 0xE000 (source_start (work_transfer w) + byte_index w)); lia.
  - destruct (vram_dma_source_address_is_supported _); [|by split]. apply Hread. unfold u16. lia.
  - destruct (vram_dma_source_address_is_supported _); [|by split]. apply Hread. unfold u16. lia.
Qed.

Lemma tick_dma_ok c m : transfer_overflows m = false -> 0 <= t_cycle c < 2 ^ 63 -> machine_ok m ->
  finishes (tick_dma c m) (fun x => activity_ok x.1 /\ machine_ok x.2).
Proof.
  intros Hover Ht Hm. unfold tick_dma. unfold transfer_overflows in Hover.
  destruct (Dma.requires_t_cycle_tick _); cbn [negb]; [|split; [by split | done]].
  pose proof (dma_tick_ok (dma_runtime_context m) _ (runtime_context_ok m Hm) (mok_dma _ Hm)) as Hd.
  destruct (tick_t_cycle_with_vram_dma_context _ _) as [[work d]|]; [|done]. cbn in Hd, Hover |- *. destruct Hd as [Hd Hw].
  assert (K1 : machine_ok (m <| mc_dma := d |>)) by (by apply set_dma_ok).
  apply finishes_bind. eapply finishes_mono; [by apply dma_bus_state_ok, (mok_dma _ K1)|]. intros bus_state Hb.
  destruct work as [w|]; [|split; [by split | done]]. apply finishes_bind.
  eapply finishes_mono; [apply transfer_byte_ok; [done | lia | done..]|]. intros [b m'] [Hv K2]. split; [|done].
  split; [done|]. cbn in *. by eauto.
Qed.

Lemma cpu_oam_window a : address_hits_cpu_oam_window a = true -> 0xFE00 <= a <= 0xFE9F.
Proof. unfold address_hits_cpu_oam_window, in_range, CPU_OAM_ADDRESS_START, CPU_OAM_ADDRESS_END. lia. Qed.

Lemma tick_dma_panics c m : transfer_overflows m = true -> machine_ok m -> exists why, tick_dma c m = Panic why.
Proof.
  intros Hover Hm. unfold tick_dma. unfold transfer_overflows in Hover. apply andb_prop in Hover as [-> Hover]. cbn [negb].
  pose proof (dma_tick_ok (dma_runtime_context m) _ (runtime_context_ok m Hm) (mok_dma _ Hm)) as Hd.
  destruct (tick_t_cycle_with_vram_dma_context _ _) as [[[w|] d]|]; [|done..]. cbn in Hd, Hover |- *. destruct Hd as [Hd Hw].
  pose proof (dma_bus_state_ok d Hd) as Hb. replace (mc_dma (upd_mc_dma d m)) with d by (by destruct m).
  destruct (dma_bus_state d) as [bus_state|]; [|done]. cbn [mbind outcome_bind].
  unfold read_transfer_byte, source_read_value_override, work_source_address, source_address_for_byte, checked_add_u16.
  rewrite (proj2 (Z.ltb_ge _ 65536)) by lia. destruct (transfer_kind _); cbn; by eexists.
Qed.

Lemma oam_conflict_typed a v : address_hits_cpu_oam_window a = true -> u8 v -> oam_conflict_ok (mkOamConflict a v).
Proof.
  intros Ha%cpu_oam_window Hv. split; [|done]. unfold u16. cbn. lia.
Qed.

Lemma oam_conflict_finishes activity m : activity_ok activity -> machine_ok m ->
  finishes (current_oam_conflict activity m) (opt oam_conflict_ok).
Proof.
  intros Ha Hm. unfold current_oam_conflict. apply finishes_bind. eapply finishes_mono with (Q := opt oam_conflict_ok).
  { destruct Ha as [_ Ha]. destruct (activity_work activity) as [w|], (activity_byte activity) as [v|]; try done.
    destruct Ha as (Hw & Hv & _). destruct (work_destination w Hw) as [-> Hd]. cbn.
    destruct (address_hits_cpu_oam_window _) eqn:E; [|done]. by apply oam_conflict_typed. }
  intros [conflict|]; [done|]. intros _. destruct (negb _); [done|].
  pose proof (dma_progress_ok _ (mok_dma _ Hm)) as Hp. unfold transfer_progress.
  destruct (state_progress _) as [p|]; [|done]. cbn in Hp. destruct p as [t el], Hp as [Ht He]. cbn [transfer elapsed_t_cycles] in *.
  destruct (Z.eqb_spec (Dma.completed_bytes (mkProgress t el)) 0); [done|].
  pose proof (completed_bytes_range t el Ht ltac:(lia)) as Hc.
  destruct (work_destination (mkWork t (Dma.completed_bytes (mkProgress t el) - 1))) as [Hdest Hw]; [split; [done | cbn; lia]|].
  unfold work_destination_address in Hdest. cbn [work_transfer byte_index] in *. rewrite Hdest. cbn [mbind outcome_bind].
  destruct (address_hits_cpu_oam_window _) eqn:E; [|done]. apply finishes_bind.
  destruct (bus_oam_ok _ (mok_bus _ Hm)) as (Hl & Hb & _).
  eapply finishes_mono; [apply (vec_index_in u8); [exact Hb|]|].
  - rewrite Hl. apply cpu_oam_window in E. unfold CPU_OAM_ADDRESS_START, OAM_LEN. lia.
  - intros v Hv. by apply oam_conflict_typed.
Qed.

Lemma write_transfer_ok activity m : activity_ok activity -> machine_ok m ->
  finishes (write_transfer_byte activity m) machine_ok.
Proof.
  intros [_ Ha] Hm. unfold write_transfer_byte.
  destruct (activity_work activity) as [w|], (activity_byte activity) as [v|]; try done.
  destruct Ha as (Hw & Hv & state & -> & Hs). destruct (work_destination w Hw) as [-> Hd]. cbn [mbind outcome_bind].
  apply finishes_bind. eapply finishes_mono;
    [apply write_with_ok; [apply write_cartridge_target_ok | unfold dma_writable, u16 in *; lia | done | done | apply Hm | done | done]|].
  intros x (Hb & _). by apply set_bus_ok.
Qed.

(** ** The serial port and what is plugged into it *)

Lemma port_tick_ok p : attachment_ok p -> attachment_ok (port_tick_t_cycle p).
Proof. intros Hp. exact (port_step_ok PortTick p Hp I). Qed.
Lemma port_byte_ok b p : u8 b -> attachment_ok p -> finishes (handle_completed_serial_byte b p) attachment_ok.
Proof. intros Hb Hp. exact (port_step_ok (PortByte b) p Hp Hb). Qed.
Lemma serial_and_port_ok t e d i s c m : machine_ok m -> context_ready t e d (1 + i) s c ->
  finishes (tick_serial_and_port c m) (phase_ok t e d i s).
Proof.
  intros Hm Hc. unfold tick_serial_and_port. cbv zeta.
  assert (K1 : machine_ok (if ExternalPort.requires_t_cycle_tick (mc_external_port m)
    then m <| mc_external_port := port_tick_t_cycle (mc_external_port m) |> else m)).
  { destruct (ExternalPort.requires_t_cycle_tick _); [|done]. apply set_port_ok; [done|]. apply port_tick_ok, Hm. }
  revert K1. match goal with |- machine_ok ?x -> _ => generalize x end. clear m Hm. intros m Hm.
  apply finishes_bind. eapply finishes_mono; [by apply serial_tick_ready; [apply mok_serial|]|].
  intros [[sp telemetry] c'] (Hs & Heq & Hc'). cbn [fst snd] in *.
  assert (Hl : opt u8 (latest_completed_output_byte sp)) by (rewrite Heq; apply latest_output_u8, Hm).
  assert (K2 : machine_ok (m <| mc_serial := sp |>)) by (by apply set_serial_ok).
  replace (latest_completed_output_byte (mc_serial (m <| mc_serial := sp |>))) with (latest_completed_output_byte sp) by (by destruct m).
  apply finishes_bind. eapply finishes_mono with (Q := machine_ok).
  { destruct (latest_completed_output_byte sp) as [b|]; [|done]. destruct (handles_completed_serial_byte _); [|done].
    apply finishes_bind. eapply finishes_mono; [apply port_byte_ok; [done | apply K2]|]. intros p Hp. by apply set_port_ok. }
  intros m2 K3. split; [|done]. destruct (requires_serial_peer_refresh_after_t_cycle _); [|done]. by apply sync_peer_ok.
Qed.

Lemma tick_serial_ok t e d i s c m : machine_ok m -> context_ready t e d (1 + i) s c ->
  finishes (tick_serial c m) (phase_ok t e d i s).
Proof.
  intros Hm Hc. assert (Hw : context_ready t e d i s c) by (eapply context_ready_weaken; [..|exact Hc]; lia).
  assert (Hi : machine_ok (m <| mc_serial := tick_idle_t_cycle (mc_serial m) |>)).
  { apply set_serial_ok; [done|]. apply serial_ok_idle_tick, Hm. }
  unfold tick_serial. destruct (_ && _); [by split|]. destruct (_ || _); [by apply serial_and_port_ok | by split].
Qed.

(** ** The autonomous peripherals *)

Definition runner_phase_ok (t : TCycle) (e d i s : nat) (x : Runner * CycleContext) : Prop :=
  runner_ok x.1 /\ context_ready t e d i s x.2.

Lemma infrared_bus_ok b : bus_ok b -> bus_ok (tick_cgb_infrared_t_cycle b).
Proof.
  intros Hb. unfold tick_cgb_infrared_t_cycle. destruct (cgb_infrared_register_enabled b); [|done].
  apply bus_set_iohram_ok; [done|]. destruct (bus_iohram_ok _ Hb) as [? ? ? Hi]. destruct (bus_iohram b).
  constructor; try done. by apply infrared_tick_ok.
Qed.

Lemma autonomous_ok t e d i s c r : dma_overflows (runner_machine r) = false -> 0 <= t < 2 ^ 63 ->
  runner_ok r -> context_ready t e d (1 + i) s c ->
  finishes (step_autonomous_peripheral_ticks c r) (runner_phase_ok t e d i s).
Proof.
  intros Hover Ht Hr Hc. assert (Hw : context_ready t e d i s c) by (eapply context_ready_weaken; [..|exact Hc]; lia).
  rewrite <- (ready_cycle _ _ _ _ _ _ Hc) in Ht. unfold step_autonomous_peripheral_ticks. cbv zeta.
  assert (K1 : machine_ok ((runner_machine r) <| mc_bus := tick_cgb_infrared_t_cycle (mc_bus (runner_machine r)) |>)).
  { apply set_bus_ok; [apply Hr|]. by apply infrared_bus_ok, mok_bus, runner_machine_ok. }
  assert (Hover1 : dma_overflows ((runner_machine r) <| mc_bus := tick_cgb_infrared_t_cycle (mc_bus (runner_machine r)) |>) = false).
  { rewrite <- Hover. apply same_inputs_overflow. by destruct (runner_machine r). }
  revert K1 Hover1. generalize ((runner_machine r) <| mc_bus := tick_cgb_infrared_t_cycle (mc_bus (runner_machine r)) |>). intros m Hm Hover1.
  assert (Hr1 : runner_ok (r <| runner_machine := m |>)) by (by apply with_machine_ok).
  unfold dma_overflows in Hover1. destruct (negb (cpu_stop_active m)).
  - apply finishes_bind. eapply finishes_mono; [apply apu_tick_ok, Hm|]. intros a Ha.
    apply finishes_bind. eapply finishes_mono; [apply tick_dma_ok; [|done | by apply set_apu_ok]|]; [by destruct m|].
    intros [activity m2] [Hact K2]. cbn [fst snd] in *. apply finishes_bind.
    eapply finishes_mono; [by apply oam_conflict_finishes|]. intros conflict Hconf. apply finishes_bind.
    eapply finishes_mono with (Q := runner_ok).
    { assert (Hr2 : runner_ok ((r <| runner_machine := m |>) <| runner_machine := m2 |>)) by (by apply with_machine_ok).
      destruct (lcd_tick_due_at_scheduler_t_cycle _ _); [by apply video_domain_ok | done]. }
    intros r2 Hr2. apply finishes_bind. eapply finishes_mono; [by apply tick_serial_ok; [apply Hr2|]|]. intros [m3 c'] [K3 Hc'].
    apply finishes_bind. eapply finishes_mono; [by apply write_transfer_ok|]. intros m4 K4. split; [by apply with_machine_ok | done].
  - destruct (cpu_speed_switch_pause_active m); [|by split]. apply finishes_bind.
    eapply finishes_mono; [apply dma_bus_state_ok, Hm|]. intros bus_state _. apply finishes_bind.
    eapply finishes_mono; [by apply video_domain_ok|]. intros r2 Hr2. by split.
Qed.

Lemma autonomous_panics c r : dma_overflows (runner_machine r) = true -> runner_ok r ->
  exists why, step_autonomous_peripheral_ticks c r = Panic why.
Proof.
  intros Hover Hr. unfold step_autonomous_peripheral_ticks. cbv zeta.
  assert (K1 : machine_ok ((runner_machine r) <| mc_bus := tick_cgb_infrared_t_cycle (mc_bus (runner_machine r)) |>)).
  { apply set_bus_ok; [apply Hr|]. by apply infrared_bus_ok, mok_bus, runner_machine_ok. }
  assert (Hover1 : dma_overflows ((runner_machine r) <| mc_bus := tick_cgb_infrared_t_cycle (mc_bus (runner_machine r)) |>) = true).
  { rewrite <- Hover. apply same_inputs_overflow. by destruct (runner_machine r). }
  revert K1 Hover1. generalize ((runner_machine r) <| mc_bus := tick_cgb_infrared_t_cycle (mc_bus (runner_machine r)) |>). intros m Hm Hover1.
  unfold dma_overflows in Hover1. apply andb_prop in Hover1 as [-> Hover1].
  destruct (finishes_done _ _ (apu_tick_ok c (current_speed (mc_speed m)) _ (mok_apu _ Hm))) as (a & -> & Ha). cbn [mbind outcome_bind].
  destruct (tick_dma_panics c (m <| mc_apu := a |>)) as [why ->]; [by destruct m | by apply set_apu_ok | by exists why].
Qed.

(** ** Bus arbitration *)

Lemma arbitration_ok r : runner_ok r ->
  finishes (cpu_bus_arbitration_states r) (fun x => states_ok x.1 /\ runner_ok x.2 /\ runner_machine x.2 = runner_machine r).
Proof.
  intros Hr. unfold cpu_bus_arbitration_states.
  destruct (cached_cpu_bus_arbitration_states r) as [states|] eqn:E.
  { split_and!; [|done..]. pose proof (runner_states_ok _ Hr) as Hs. by rewrite E in Hs. }
  pose proof (snapshot_fields r) as Hsnap. destruct (runner_ppu_bus_state_snapshot r) as [snapshot r2]. destruct Hsnap as [Hm Hs].
  apply finishes_bind. eapply finishes_mono; [apply dma_bus_state_ok; rewrite Hm; apply (runner_machine_ok _ Hr)|].
  intros dma Hd. cbn. split_and!; [by split_and! | | by destruct r2].
  destruct r2. cbn in *. constructor; cbn; [rewrite Hm; apply Hr | by split_and!].
Qed.

Lemma bus_arbitration_phase_ok records_events t e d i s c r : runner_ok r -> context_ready t e d i s c ->
  finishes (r ← step_bus_arbitration records_events r; mret (tt, (r, c))) (fun x => runner_phase_ok t e d i s x.2).
Proof.
  intros Hr Hc. unfold step_bus_arbitration. destruct (negb _); [by split|]. apply finishes_bind, finishes_bind.
  eapply finishes_mono; [by apply arbitration_ok|]. intros x (_ & Hx & _). by split.
Qed.

(** ** The CPU *)

Lemma current_cycle_interrupts_ok i k c : interrupts_ok i ->
  interrupts_ok (evaluate_current_cycle_interrupt_requests i k c).1.2.
Proof.
  intros Hi. unfold evaluate_current_cycle_interrupt_requests. destruct (_ || _ || _); [done|].
  destruct (highest_priority_from_mask _); [by apply interrupts_ok_clear | done].
Qed.

Lemma accepted_interrupts_ok i c : interrupts_ok i -> interrupts_ok (accept_pending_interrupt i c).1.
Proof. intros Hi. unfold accept_pending_interrupt. destruct (highest_pending i); [by apply interrupts_ok_clear | done]. Qed.
Lemma halt_interrupts_ok h p i c : interrupts_ok i -> interrupts_ok (resolve_halt_request h p i c).1.
Proof. intros Hi. unfold resolve_halt_request. case_tests; try done; by apply accepted_interrupts_ok. Qed.
Lemma wake_joypad_ok j : joypad_ok j -> joypad_ok (consume_stop_wake_event j).1.
Proof. exact (joypad_ok_step OpConsumeWake j I). Qed.

(** The owners of interrupt requests keep their shape when the CPU wakes. *)
Lemma wake_signals_ok i j c (x := evaluate_wake_and_interrupts i j c) :
  interrupts_ok i -> joypad_ok j -> interrupts_ok x.1.1 /\ joypad_ok x.1.2.
Proof.
  intros Hi Hj. subst x. unfold evaluate_wake_and_interrupts. destruct (negb (wake_evaluation_needed j c)); [done|]. cbv zeta.
  assert (Hj1 : joypad_ok (if negb (is_stop_sleep_state c) then (consume_stop_wake_event j).1 else j)).
  { destruct (negb _); [by apply wake_joypad_ok | done]. }
  revert Hj1. generalize (if negb (is_stop_sleep_state c) then (consume_stop_wake_event j).1 else j). clear j Hj. intros j Hj.
  pose proof (wake_joypad_ok j Hj) as Hwake. pose proof (interrupts_ok_clear JoypadIrq i Hi) as Hclear.
  assert (Hhalt : forall h p c, let '(i', _) := resolve_halt_request h p i c in interrupts_ok i').
  { intros h p c'. pose proof (halt_interrupts_ok h p i c' Hi). by destruct (resolve_halt_request h p i c'). }
  assert (Hacc : forall c, let '(i', _) := accept_pending_interrupt i c in interrupts_ok i').
  { intros c'. pose proof (accepted_interrupts_ok i c' Hi). by destruct (accept_pending_interrupt i c'). }
  destruct (consume_stop_wake_event j) as [j' wake]. cbn in Hwake.
  destruct (take_halt_request c) as [[h|] c'].
  - specialize (Hhalt h (negb (pending_mask i =? 0)) c'). destruct (resolve_halt_request _ _ _ _).
    destruct (execution_state c), (is_stop_sleep_state c), wake; try done; cbn; destruct (_ && _); done.
  - specialize (Hacc c'). destruct (accept_pending_interrupt i c').
    destruct (execution_state c), (is_stop_sleep_state c), wake; cbn; repeat (done || case_match); done.
Qed.

Lemma stop_div_reset_ok m : machine_ok m -> finishes (apply_stop_div_reset m) machine_ok.
Proof.
  intros Hm. unfold apply_stop_div_reset.
  pose proof (timer_ok_reset (current_speed (mc_speed m)) StopInstruction _ (mok_timer _ Hm)) as Ht.
  destruct (stop_reset_divider_with_effects_for_speed _ _) as [tm edge] eqn:E. 
  assert (K1 : machine_ok (m <| mc_timer := tm |>)) by (apply set_timer_ok; [done|]; unfold stop_reset_divider_with_effects_for_speed in E; by rewrite E in Ht).
  destruct edge; [|done]. apply finishes_bind. eapply finishes_mono; [apply advance_frame_sequencer_ok, K1|].
  intros a Ha. by apply set_apu_ok.
Qed.

Lemma publish_ok before m : machine_ok m -> finishes (publish_stop before m) machine_ok.
Proof. intros Hm. unfold publish_stop. destruct (negb _); [by apply on_ppu_ok | done]. Qed.

Lemma routed_ok event state m : machine_ok m ->
  finishes (bp ← route_cpu_address_event event state (mc_ppu m) (mc_bus m); mret (m <| mc_bus := bp.1 |> <| mc_ppu := bp.2 |>))
    machine_ok.
Proof.
  intros Hm. apply finishes_bind. eapply finishes_mono; [apply route_event_keeps; apply Hm|].
  intros [b p] (Hb & Hp & _). apply set_ppu_ok; [by apply set_bus_ok | done].
Qed.

Lemma finalize_ok state m : machine_ok m -> finishes (finalize_cpu_micro_operation state m) machine_ok.
Proof.
  intros Hm. unfold finalize_cpu_micro_operation. apply finishes_bind. eapply finishes_mono with (Q := machine_ok).
  { destruct (last_address_event _); [by apply routed_ok | done]. }
  intros m1 K1. pose proof (proj1 (take_requests_ok _ (mok_cpu _ K1))) as Hc. destruct (take_stop_div_reset_request _) as [reset cpu].
  assert (K2 : machine_ok (m1 <| mc_cpu := cpu |>)) by (by apply set_cpu_ok).
  apply finishes_bind. eapply finishes_mono with (Q := machine_ok).
  { destruct reset; [by apply stop_div_reset_ok | done]. }
  intros m2 K3. pose proof (proj2 (take_requests_ok _ (mok_cpu _ K3))) as Hc2. destruct (take_cgb_speed_switch_request _) as [switch cpu2].
  assert (K4 : machine_ok (m2 <| mc_cpu := cpu2 |>)) by (by apply set_cpu_ok).
  cbn. destruct switch; [by apply set_speed_ok | done].
Qed.

Lemma stalled_cpu_ok m : machine_ok m -> machine_ok (m <| mc_cpu := tick_dma_stall_t_cycle (mc_cpu m) |>).
Proof. intros Hm. apply set_cpu_ok; [done|]. apply clear_observations_ok, Hm. Qed.

Lemma cpu_phase_ok t e d i c r : 0 <= t < 2 ^ 63 -> runner_ok r -> context_ready t e d i 16 c ->
  finishes (step_cpu_micro_operation c r) (runner_phase_ok t e d i 0).
Proof.
  intros Ht Hr Hc. unfold step_cpu_micro_operation. apply finishes_bind. eapply finishes_mono; [by apply arbitration_ok|].
  intros [states r1] (Hs & Hr1 & _). cbn [fst snd] in *. cbv zeta.
  apply finishes_bind. eapply finishes_mono with (Q := phase_ok t e d i 0).
  { destruct (cpu_stall_active _).
    - split; [apply stalled_cpu_ok, Hr1 | eapply context_ready_weaken; [..|exact Hc]; lia].
    - pose proof (mok_interrupts _ (runner_machine_ok _ Hr1)) as Hi. pose proof (mok_cpu _ (runner_machine_ok _ Hr1)) as Hcpu.
      pose proof (current_cycle_interrupts_ok _ (Z.land (current_cycle_scheduler_interrupt_request_mask c) (mask TimerIrq))
        (mc_cpu (runner_machine r1)) Hi) as Hi'.
      pose proof (evaluate_current_cycle_ok (mc_interrupts (runner_machine r1)) (Z.land (current_cycle_scheduler_interrupt_request_mask c)
        (mask TimerIrq)) _ Hcpu) as Hcpu'.
      destruct (evaluate_current_cycle_interrupt_requests _ _ _) as [[source interrupts] cpu]. cbn [fst snd] in *.
      assert (K1 : machine_ok ((runner_machine r1) <| mc_interrupts := interrupts |> <| mc_cpu := cpu |>)).
      { apply set_cpu_ok; [apply set_interrupts_ok; [apply Hr1 | done] | done]. }
      apply finishes_bind. eapply finishes_mono with (Q := context_ready t e d i 16).
      { destruct source; [|done]. apply finishes_bind. eapply finishes_mono; [by apply take_interrupt_request_ready | done]. }
      intros c1 Hc1. apply finishes_bind. eapply finishes_mono; [by apply tick_cpu_ok|]. intros [m2 c2] [K2 Hc2]. cbn [fst snd] in *.
      apply finishes_bind. eapply finishes_mono; [by apply finalize_ok|]. intros m3 K3. by split. }
  intros [m2 c2] [K2 Hc2]. apply finishes_bind. eapply finishes_mono; [by apply publish_ok|]. intros m3 K3.
  split; [by apply with_machine_ok | done].
Qed.

(** ** Commits, requests and the wake-up *)

Lemma commit_ok m : machine_ok m -> finishes (commit_pending_ppu_mmio_write m) machine_ok.
Proof.
  intros Hm. unfold commit_pending_ppu_mmio_write. pose proof (mok_pending _ Hm) as Hw.
  destruct (mc_pending_ppu_mmio_write m) as [w|]; [|done]. apply on_ppu_ok; [exact Hw|]. by apply set_pending_ok.
Qed.

Lemma commit_phase_ok m : machine_ok m -> finishes (step_mmio_side_effect_commit m) machine_ok.
Proof.
  intros Hm. unfold step_mmio_side_effect_commit. pose proof (mok_pending _ Hm) as Hw.
  destruct (mc_pending_ppu_mmio_write m) as [w|] eqn:E; [|done]. destruct (0 <? _); [|by apply commit_ok].
  apply set_pending_ok; [done|]. exact Hw.
Qed.

Lemma request_all_ok sources i : interrupts_ok i -> interrupts_ok (request_all sources i).
Proof.
  unfold request_all. revert i. induction sources as [|source sources IH]; intros i Hi; [done|]. cbn.
  by apply IH, interrupts_ok_request.
Qed.

Lemma aggregation_ok c m : machine_ok m -> finishes (step_interrupt_aggregation c m) machine_ok.
Proof.
  intros Hm. unfold step_interrupt_aggregation. cbv zeta. destruct (negb _); [done|].
  apply finishes_bind. eapply finishes_mono; [by apply (on_ppu_ok TakePendingInterruptRequestMask)|]. intros m1 K1.
  pose proof (joypad_ok_step OpConsumeInterrupt _ I (mok_joypad _ K1)) as Hj. cbn [joypad_step] in Hj.
  destruct (consume_interrupt_request _) as [j requested].
  apply set_interrupts_ok; [by apply set_joypad_ok|].
  assert (Hreq : forall (b : bool) source i, interrupts_ok i -> interrupts_ok (if b then Interrupts.request source i else i)).
  { intros [] source i Hi; [by apply interrupts_ok_request | done]. }
  apply Hreq, Hreq, Hreq, request_all_ok, Hm.
Qed.

Lemma wake_phase_ok m : machine_ok m -> finishes (step_cpu_wake_interrupt_evaluation m) machine_ok.
Proof.
  intros Hm. unfold step_cpu_wake_interrupt_evaluation. cbv zeta. apply publish_ok.
  destruct (cpu_stall_active _); [by apply stalled_cpu_ok|]. destruct (wake_is_deferred m); [done|].
  pose proof (wake_signals_ok (mc_interrupts m) (mc_joypad m) (mc_cpu m) (mok_interrupts _ Hm) (mok_joypad _ Hm)) as [Hi Hj].
  pose proof (evaluate_wake_and_interrupts_ok (mc_interrupts m) (mc_joypad m) _ (mok_cpu _ Hm)) as Hc.
  destruct (evaluate_wake_and_interrupts _ _ _) as [[interrupts joypad] cpu].
  apply set_cpu_ok; [|done]. apply set_joypad_ok; [|done]. by apply set_interrupts_ok.
Qed.

(** ** The T-cycle *)

End Phases.
