(* ===== verification/MachineSample.v ===== *)
(** * A small console

    The smallest picture unit and SGB host within the machine's contracts: a
    register file that asks for a vertical blank interrupt every dot, and a host
    that passes the first player's buttons.  Concrete machines run with them. *)

From Stdlib Require Import ZArith Lia Bool String.
From stdpp Require Import base decidable list option.
From S2P Require Import Prelude.
From S2P Require Import Model.
From S2P Require Import Config.
From S2P Require Import Scheduler.
From S2P Require Import Interrupts.
From S2P Require Import Joypad.
From S2P Require Import Speed.
From S2P Require Import Timer.
From S2P Require Import Serial.
From S2P Require Import CpuData.
From S2P Require Import CpuBus.
From S2P Require Import CpuCycle.
From S2P Require Import CpuSafety.
From S2P Require Import CpuAccesses.
From S2P Require Import CartridgeHeader.
From S2P Require Import Cartridge.
From S2P Require Import CartridgeDevice.
From S2P Require Import CartridgeSlot.
From S2P Require Import ApuChannels.
From S2P Require Import Apu.
From S2P Require Import BusState.
From S2P Require Import BusRouter.
From S2P Require Import Vectors.
From S2P Require Import BusMemory.
From S2P Require Import BusIo.
From S2P Require Import Dma.
From S2P Require Import Boot.
From S2P Require Import Bus.
From S2P Require Import BusSafety.
From S2P Require Import Printer.
From S2P Require Import ExternalPort.
From S2P Require Import MachineContext.
From S2P Require Import MachinePorts.
From S2P Require Import MachineState.
From S2P Require Import MachineStep.
From S2P Require Import MachineSafety.
From S2P Require Import MachineStartup.
From S2P Require Import MachinePhases.

Local Open Scope Z_scope.

Record SamplePicture := mkSample { sample_model : ConsoleModel; sample_registers : list Z; sample_vblank : bool }.

Definition sample_ok (p : SamplePicture) : Prop := bytes (sample_registers p).

Definition sample_write (a v : Z) (p : SamplePicture) : SamplePicture :=
  mkSample (sample_model p) (vec_set (sample_registers p) (a - 0xFF40) v) (sample_vblank p).

#[export] Instance sample_port : PpuPort SamplePicture := {|
  ppu_read_register_with_source a _ p := mret (default 0xFF (vec_get (sample_registers p) (a - 0xFF40)));
  ppu_write_register a v p := mret (sample_write a v p);
  ppu_apply_oam_corruption_event _ oam p := mret (oam, p)
|}.

#[export] Instance sample_picture : PictureUnit SamplePicture := {|
  picture_new m := mkSample m (vec_zeroed 48) false;
  picture_console_model := sample_model;
  picture_bus_state _ := lcd_disabled;
  owner_bus_state _ := lcd_disabled;
  bus_state_snapshot _ := mkPpuSnapshot lcd_disabled lcd_disabled lcd_disabled;
  cpu_oam_read_bus_state _ := lcd_disabled;
  cpu_oam_write_bus_state _ := lcd_disabled;
  picture_ly _ := 0;
  line_dot _ := 0;
  mode0_start_dot _ := 0;
  framebuffer _ := [];
  pending_interrupt_request_mask p := u8_from_bool (sample_vblank p);
  cpu_visible_pending_interrupt_request_mask p := u8_from_bool (sample_vblank p);
  dmg_mode2_vblank_entry_interrupt_service_deferred _ := false;
  dmg_lcd_reenable_mode0_halt_wake_deferred _ := false;
  mode0_hblank_halt_wake_deferred _ := false;
  dmg_mode2_oam_halt_wake_deferred _ := false;
  dmg_mode2_vblank_entry_halt_wake_deferred _ := false;
  picture_tick _ _ _ _ p := mret (mkSample (sample_model p) (sample_registers p) true);
  picture_call call p := mret
    match call with
    | CommitRegisterWrite a v => sample_write a v p
    | TakePendingInterruptRequestMask => mkSample (sample_model p) (sample_registers p) false
    | _ => p
    end
|}.

#[export] Instance sample_port_laws : PpuPortLaws SamplePicture.
Proof.
  refine (@Build_PpuPortLaws SamplePicture sample_port sample_ok _ _ _).
  - intros a source p Hp. exact (byte_or_absent_u8 (sample_registers p) (a - 0xFF40) Hp).
  - intros a v p Hp Hv. by apply bytes_set.
  - intros kind l p Hp Hl Hlen. by split_and!.
Defined.

#[export] Instance sample_picture_laws : PictureUnitLaws SamplePicture.
Proof.
  refine (@Build_PictureUnitLaws SamplePicture sample_picture sample_port_laws _ _ _ _ _ _).
  - intros m. apply (bytes_zeroed 48).
  - intros p _. apply Forall_nil_2.
  - intros p _. by destruct p as [? ? []].
  - done.
  - intros call p Hp Hc. destruct call; try exact Hp. cbn. apply bytes_set; [exact Hp | apply Hc].
  - by intros oam vram dma_oam_active conflict p Hp _ _.
Defined.

#[export] Instance sample_host : SgbHostPort Z := {|
  sgb_new_with_profile _ _ _ := 0;
  selected_player_pressed_mask h := h;
  joyp_read_value v _ := v;
  host_game_link_supported _ := false;
  host_call call h := mret match call with SetPlayerPressedMasks (m :: _) => m | _ => h end
|}.

#[export] Instance sample_host_laws : SgbHostLaws Z.
Proof.
  refine (@Build_SgbHostLaws Z sample_host u8 _ _ _ _).
  - by intros.
  - by intros h Hh.
  - by intros v h _ Hv.
  - intros [[|m masks]| | | | |] h Hh Hc; try exact Hh. cbn. destruct Hc as [_ Hb]. by inversion Hb.
Defined.

Definition sample_machine : outcome (Machine SamplePicture Z) := machine_new config_default.

Lemma assets_none_ok : assets_ok (config_boot_rom_assets config_default).
Proof. by intros [] image. Qed.

Lemma sample_machine_ok : finishes sample_machine fresh_ok.
Proof. apply machine_new_ok, assets_none_ok. Qed.

(** The same console in the middle of a general-purpose transfer of two blocks
    from [FFF0]: the first block is moved, the second would start past the
    address space. *)
Definition overrunning_dma (d : DmaController) : DmaController :=
  write_hdma5_for_speed 0x01 Normal (write_hdma4 0x00 (write_hdma3 0x00 (write_hdma2 0xF0 (write_hdma1 0xFF d)))).

Definition overrunning_machine (n : nat) : outcome (Machine SamplePicture Z) :=
  m ← sample_machine; run_t_cycles false n (m <| mc_dma := overrunning_dma (mc_dma m) |>).
