(* ===== verification/MachineCycle.v ===== *)
(** * Whole T-cycles of the machine

    What nine phases do together: a T-cycle of a well-formed machine fails
    exactly when its DMA transfer reads past the address space, runs keep the
    invariant, and stepping with cached bus states, with or without tracing, is
    stepping phase by phase. *)

From Stdlib Require Import ZArith Lia Bool String.
From stdpp Require Import base decidable list option.
From S2P Require Import Prelude.
From S2P Require Import Model.
From S2P Require Import Config.
From S2P Require Import Scheduler.
From S2P Require Import Interrupts.
From S2P Require Import Joypad.
From S2P Require Import Speed.
From S2P Require Import Timer.
From S2P Require Import Serial.
From S2P Require Import CpuData.
From S2P Require Import CpuBus.
From S2P Require Import CpuCycle.
From S2P Require Import CpuSafety.
From S2P Require Import CpuAccesses.
From S2P Require Import CartridgeHeader.
From S2P Require Import Cartridge.
From S2P Require Import CartridgeDevice.
From S2P Require Import CartridgeSlot.
From S2P Require Import ApuChannels.
From S2P Require Import Apu.
From S2P Require Import BusState.
From S2P Require Import BusRouter.
From S2P Require Import Vectors.
From S2P Require Import BusMemory.
From S2P Require Import BusIo.
From S2P Require Import Dma.
From S2P Require Import Boot.
From S2P Require Import Bus.
From S2P Require Import BusSafety.
From S2P Require Import Printer.
From S2P Require Import ExternalPort.
From S2P Require Import MachineContext.
From S2P Require Import MachinePorts.
From S2P Require Import MachineState.
From S2P Require Import MachineStep.
From S2P Require Import MachineSafety.
From S2P Require Import MachineStartup.
From S2P Require Import MachinePhases.
From S2P Require Import MachineSample.

Local Open Scope Z_scope.

(** ** One phase at a time *)

Lemma visit_phase_finishes {M} p rest (visit : ST (M * CycleContext) unit) r c Q :
  finishes (visit (r, enter_phase p c)) (fun x => finishes (visit_phases rest visit x.2) Q) ->
  finishes (visit_phases (p :: rest) visit (r, c)) Q.
Proof. cbn [visit_phases]. intros Hf. apply st_bind_finishes. cbn. by apply st_bind_finishes. Qed.

Lemma phase_entered p c : phase (enter_phase p c) = p.
Proof. by destruct c. Qed.

Lemma visit_phase_done {M} p rest (visit : ST (M * CycleContext) unit) r c x :
  visit (r, enter_phase p c) = Done (tt, x) -> visit_phases (p :: rest) visit (r, c) = visit_phases rest visit x.
Proof.
  intros Hv. cbn [visit_phases]. unfold mbind, ST_bind, st_modify. cbn [fst snd]. by rewrite Hv.
Qed.

Lemma visit_phase_panics {M} p rest (visit : ST (M * CycleContext) unit) r c why :
  visit (r, enter_phase p c) = Panic why -> visit_phases (p :: rest) visit (r, c) = Panic why.
Proof. intros Hv. cbn [visit_phases]. unfold mbind, ST_bind, st_modify. cbn [fst snd]. by rewrite Hv. Qed.

Section Cycle.
Context {P H : Type} `{PictureUnitLaws P} `{SgbHostLaws H}.
Implicit Types m : Machine P H.
Implicit Types r : Runner (P := P) (H := H).

Lemma on_machine_phase_ok f t e d i s r c : runner_ok r ->
  finishes (f (runner_machine r) c) (phase_ok t e d i s) ->
  finishes (on_machine f (r, c)) (fun x => runner_phase_ok t e d i s x.2).
Proof.
  intros Hr Hf. unfold on_machine. apply finishes_bind. eapply finishes_mono; [exact Hf|]. intros [m c'] [Hm Hc].
  split; [by apply with_machine_ok | done].
Qed.

Lemma machine_only_phase_ok f t e d i s r c : runner_ok r -> context_ready t e d i s c ->
  finishes (f (runner_machine r)) machine_ok ->
  finishes (machine_only f (r, c)) (fun x => runner_phase_ok t e d i s x.2).
Proof.
  intros Hr Hc Hf. apply on_machine_phase_ok; [done|]. apply finishes_bind. eapply finishes_mono; [exact Hf|].
  intros m Hm. by split.
Qed.

(** Up to the peripherals' phase the DMA controller sees what it saw at the
    start of the T-cycle. *)
Definition entering_ok (t : TCycle) (e d i s : nat) m (x : Runner * CycleContext) : Prop :=
  runner_phase_ok t e d i s x /\ same_dma_inputs m (runner_machine x.1).

Lemma same_inputs_refl m : same_dma_inputs m m.
Proof. done. Qed.

(** What a T-cycle leaves: the invariant, the next T-cycle's number and a
    context whose records fitted its buffers. *)
Record cycle_result_ok (t : TCycle) (x : CycleContext * Machine P H) : Prop := {
  result_machine : machine_ok x.2;
  result_clock : next_t_cycle (mc_scheduler x.2) = t + 1;
  result_context : context_ready t 14 13 14 0 x.1
}.

Section Phase.
Context (records_events : bool) (t : TCycle) (Ht : 0 <= t < 2 ^ 63).

Lemma enter_ingress e d i s r c : runner_ok r -> context_ready t (2 + e) d i s c ->
  finishes (step_phase records_events (r, enter_phase ExternalEventIngress c))
    (fun x => entering_ok t e d i s (runner_machine r) x.2).
Proof.
  intros Hr Hc. unfold step_phase. rewrite phase_entered. unfold on_machine. apply finishes_bind.
  eapply finishes_mono; [by apply ingress_ok; [apply Hr | apply enter_phase_ready]|].
  intros [m c'] [[Hm Hc'] Hsame]. split; [split; [by apply with_machine_ok | done] | by destruct r].
Qed.

Lemma enter_edges e d i s r c : runner_ok r -> context_ready t e (3 + d) (1 + i) s c ->
  finishes (step_phase records_events (r, enter_phase DerivedEdgeResolution c))
    (fun x => entering_ok t e d i s (runner_machine r) x.2).
Proof.
  intros Hr Hc. unfold step_phase. rewrite phase_entered. unfold on_machine. apply finishes_bind.
  eapply finishes_mono; [by apply timer_phase_ok; [apply Hr | apply enter_phase_ready]|].
  intros [m c'] [[Hm Hc'] Hsame]. split; [split; [by apply with_machine_ok | done] | by destruct r].
Qed.

Lemma enter_peripherals e d i s r c : dma_overflows (runner_machine r) = false -> runner_ok r ->
  context_ready t e d (1 + i) s c ->
  finishes (step_phase records_events (r, enter_phase AutonomousPeripheralTicks c))
    (fun x => runner_phase_ok t e d i s x.2).
Proof.
  intros Hover Hr Hc. unfold step_phase. rewrite phase_entered. apply finishes_bind.
  eapply finishes_mono; [by apply autonomous_ok; [..|apply enter_phase_ready]|]. done.
Qed.

Lemma enter_arbitration e d i s r c : runner_ok r -> context_ready t e d i s c ->
  finishes (step_phase records_events (r, enter_phase BusArbitration c)) (fun x => runner_phase_ok t e d i s x.2).
Proof.
  intros Hr Hc. unfold step_phase. rewrite phase_entered. by apply bus_arbitration_phase_ok, enter_phase_ready.
Qed.

Lemma enter_cpu e d i r c : runner_ok r -> context_ready t e d i 16 c ->
  finishes (step_phase records_events (r, enter_phase CpuMicroOperation c)) (fun x => runner_phase_ok t e d i 0 x.2).
Proof.
  intros Hr Hc. unfold step_phase. rewrite phase_entered. apply finishes_bind.
  eapply finishes_mono; [by apply cpu_phase_ok; [..|apply enter_phase_ready]|]. done.
Qed.

(** The phases that queue nothing. *)
Lemma enter_quiet p e d i s r c :
  p = MasterClockTick \/ p = MmioSideEffectCommit \/ p = InterruptAggregation \/ p = CpuWakeInterruptEvaluation ->
  runner_ok r -> context_ready t e d i s c ->
  finishes (step_phase records_events (r, enter_phase p c)) (fun x => runner_phase_ok t e d i s x.2).
Proof.
  intros Hp Hr Hc. pose proof (enter_phase_ready p _ _ _ _ _ _ Hc) as Hc'. unfold step_phase. rewrite phase_entered.
  destruct Hp as [-> |[-> |[-> | ->]]]; [by split|..]; (apply machine_only_phase_ok; [done..|]).
  - apply commit_phase_ok, Hr.
  - apply aggregation_ok, Hr.
  - apply wake_phase_ok, Hr.
Qed.

(** What is left after the peripherals. *)
Lemma later_phases_ok r c : runner_ok r -> context_ready t 14 13 14 16 c ->
  finishes (visit_phases [BusArbitration; CpuMicroOperation; MmioSideEffectCommit; InterruptAggregation;
      CpuWakeInterruptEvaluation] (step_phase records_events) (r, c))
    (fun x => runner_phase_ok t 14 13 14 0 x.2).
Proof.
  intros Hr Hc. apply visit_phase_finishes. eapply finishes_mono; [by apply enter_arbitration|].
  intros [[] [r1 c1]] [Hr1 Hc1]. apply visit_phase_finishes. eapply finishes_mono; [by apply enter_cpu|].
  intros [[] [r2 c2]] [Hr2 Hc2]. apply visit_phase_finishes. eapply finishes_mono; [by apply enter_quiet; [auto|..]|].
  intros [[] [r3 c3]] [Hr3 Hc3]. apply visit_phase_finishes. eapply finishes_mono; [by apply enter_quiet; [auto|..]|].
  intros [[] [r4 c4]] [Hr4 Hc4]. apply visit_phase_finishes. eapply finishes_mono; [by apply enter_quiet; [auto|..]|].
  by intros [[] [r5 c5]].
Qed.

(** The phases before the peripherals'. *)
Lemma first_phases_ok m rest : machine_ok m -> exists r c,
  runner_ok r /\ same_dma_inputs m (runner_machine r) /\ context_ready t 14 13 15 16 c /\
  visit_phases (ExternalEventIngress :: MasterClockTick :: DerivedEdgeResolution :: rest) (step_phase records_events)
    (runner_new m, for_cycle t) = visit_phases rest (step_phase records_events) (r, c).
Proof.
  intros Hm. assert (Hr : runner_ok (runner_new m)) by (by constructor).
  destruct (finishes_done _ _ (enter_ingress 14 16 16 16 _ _ Hr (for_cycle_ready t))) as ([[] [r1 c1]] & E1 & [Hr1 Hc1] & Hs1).
  destruct (finishes_done _ _ (enter_quiet MasterClockTick 14 16 16 16 r1 c1 ltac:(auto) Hr1 Hc1)) as ([[] [r2 c2]] & E2 & Hr2 & Hc2).
  assert (Hs2 : runner_machine r2 = runner_machine r1).
  { revert E2. unfold step_phase. rewrite phase_entered. by intros [= <- <-]. }
  destruct (finishes_done _ _ (enter_edges 14 13 15 16 r2 c2 Hr2 Hc2)) as ([[] [r3 c3]] & E3 & [Hr3 Hc3] & Hs3).
  rewrite (visit_phase_done _ _ _ _ _ _ E1), (visit_phase_done _ _ _ _ _ _ E2), (visit_phase_done _ _ _ _ _ _ E3).
  exists r3, c3. split_and!; [done| |done..]. cbn [fst snd] in *. eapply same_inputs_trans; [exact Hs1|]. by rewrite <- Hs2.
Qed.

Lemma step_t_cycle_ok m : machine_ok m -> next_t_cycle (mc_scheduler m) = t ->
  if dma_overflows m then exists why, step_t_cycle records_events m = Panic why
  else finishes (step_t_cycle records_events m) (cycle_result_ok t).
Proof.
  intros Hm Hn. unfold step_t_cycle, Scheduler.step, prepare_cycle_context. rewrite Hn. unfold ORDER.
  destruct (first_phases_ok m [AutonomousPeripheralTicks; BusArbitration; CpuMicroOperation; MmioSideEffectCommit;
    InterruptAggregation; CpuWakeInterruptEvaluation] Hm) as (r & c & Hr & Hs & Hc & ->).
  rewrite <- (same_inputs_overflow _ _ Hs). destruct (dma_overflows (runner_machine r)) eqn:Hover.
  - destruct (autonomous_panics (enter_phase AutonomousPeripheralTicks c) r Hover Hr) as [why Hp]. exists why.
    erewrite visit_phase_panics; [done|]. unfold step_phase. by rewrite phase_entered, Hp.
  - pose proof (enter_peripherals 14 13 14 16 r c Hover Hr Hc) as Hp.
    destruct (finishes_done _ _ Hp) as ([[] [r1 c1]] & E1 & Hr1 & Hc1). rewrite (visit_phase_done _ _ _ _ _ _ E1).
    destruct (finishes_done _ _ (later_phases_ok r1 c1 Hr1 Hc1)) as ([[] [r2 c2]] & -> & Hr2 & Hc2).
    unfold TCycle_next. rewrite (proj2 (Z.ltb_lt _ _)) by lia. cbn. constructor; cbn; [|by destruct (runner_machine r2) | done].
    apply set_scheduler_ok, Hr2.
Qed.
End Phase.

Lemma run_ok records_events n m : machine_ok m ->
  0 <= next_t_cycle (mc_scheduler m) -> next_t_cycle (mc_scheduler m) + Z.of_nat n <= 2 ^ 63 ->
  match run_t_cycles records_events n m with
  | Done m' => machine_ok m' /\ next_t_cycle (mc_scheduler m') = next_t_cycle (mc_scheduler m) + Z.of_nat n
  | Panic _ => exists k m', (k < n)%nat /\ run_t_cycles records_events k m = Done m' /\ machine_ok m' /\ dma_overflows m' = true
  end.
Proof.
  revert m. induction n as [|n IH]; intros m Hm Hpos Hn; [split; [done | cbn in *; lia]|]. cbn [run_t_cycles].
  assert (Ht : 0 <= next_t_cycle (mc_scheduler m) < 2 ^ 63) by lia.
  pose proof (step_t_cycle_ok records_events _ Ht m Hm eq_refl) as Hstep.
  destruct (dma_overflows m) eqn:Hover.
  - destruct Hstep as [why ->]. exists 0%nat, m. split_and!; (done || lia).
  - destruct (step_t_cycle records_events m) as [[c m1]|] eqn:E; [|done]. destruct Hstep as [K1 Hclock _]. cbn [snd fst mbind outcome_bind] in *.
    specialize (IH m1 K1 ltac:(lia) ltac:(lia)). destruct (run_t_cycles records_events n m1) as [m2|].
    + destruct IH as [K2 ->]. split; [done | lia].
    + destruct IH as (k & m' & Hk & Hrun & Hm' & Ho). exists (S k), m'. split_and!; [lia | | done..].
      cbn [run_t_cycles]. by rewrite E.
Qed.

(** ** From power-on *)

(** A console is configured, an image is inserted, and it runs. *)
Definition power_on_run (records_events : bool) (config : MachineConfig) (rom : list Z) (n : nat) : outcome (Machine P H) :=
  m ← machine_new config;
  x ← load_cartridge rom m;
  run_t_cycles records_events n x.1.

(** C3. A T-cycle of a console fails in exactly one case, relative to its
    picture unit and its SGB host.  These two are parameters: the theorem holds
    for every pair that keeps [PictureUnitLaws] and [SgbHostLaws], that is,
    whose own operations do not panic on typed arguments and keep their
    invariants, whose registers read as bytes, whose mode-0 dot plus two is a
    [u16] and who request two interrupt bits at most; it says nothing of panics
    inside them.  For any machine in the invariant (every component's own
    invariant, bytes in every memory, typed host input), whatever cartridge is
    inserted and whatever the two do within these laws: if the DMA
    controller is about to read past the end of the address space while the CPU
    is not stopped, the T-cycle panics; otherwise all nine phases finish, the
    machine is in the invariant again, the clock is one further and no buffer
    of the cycle context overflowed. *)
Theorem t_cycle_fails_only_on_dma_overrun records_events m :
  machine_ok m -> 0 <= next_t_cycle (mc_scheduler m) < 2 ^ 63 ->
  if dma_overflows m then exists why, step_t_cycle records_events m = Panic why
  else finishes (step_t_cycle records_events m) (cycle_result_ok (next_t_cycle (mc_scheduler m))).
Proof. intros Hm Ht. by apply step_t_cycle_ok. Qed.

(** C2. From power-on the console around its picture unit and SGB host never
    fails by itself.  The two are parameters with the laws of [PictureUnitLaws]
    and [SgbHostLaws] (no panic of their own on typed arguments, bytes from
    registers, the mode-0 dot in range, two interrupt bits, masks of bytes);
    panics inside them are not covered.  Any configuration
    with boot images made of bytes starts, any image made of bytes is inserted
    or refused, and the machine then runs: either all [n] T-cycles finish in
    the invariant with the clock at [n], or the run stopped at a T-cycle whose
    DMA transfer left the address space. *)
Theorem power_on_run_is_safe records_events config rom n :
  assets_ok (config_boot_rom_assets config) -> bytes rom -> Z.of_nat n <= 2 ^ 63 ->
  match power_on_run records_events config rom n with
  | Done m => machine_ok m /\ next_t_cycle (mc_scheduler m) = Z.of_nat n
  | Panic _ => exists k m, (k < n)%nat /\ power_on_run records_events config rom k = Done m /\
      machine_ok m /\ dma_overflows m = true
  end.
Proof.
  intros Ha Hrom Hn. unfold power_on_run.
  destruct (finishes_done _ _ (machine_new_ok (P := P) (H := H) config Ha)) as (m0 & -> & Hm0). cbn [mbind outcome_bind].
  destruct (finishes_done _ _ (load_cartridge_ok rom m0 Hrom (proj1 Hm0))) as ([m1 report] & -> & Hx). cbn [mbind outcome_bind fst snd] in *.
  assert (Hm1 : fresh_ok m1) by (destruct report; [done | by subst]). destruct Hm1 as [K1 Hs].
  pose proof (run_ok records_events n m1 K1) as Hrun. rewrite Hs in Hrun. by apply Hrun.
Qed.
End Cycle.

(** The sample console runs a T-cycle; the one whose transfer leaves the address
    space does not. *)
Lemma overrunning_machine_ok n : Z.of_nat n <= 2 ^ 63 ->
  match overrunning_machine n with Done m => machine_ok m /\ next_t_cycle (mc_scheduler m) = Z.of_nat n | Panic _ => True end.
Proof.
  intros Hn. unfold overrunning_machine. destruct (finishes_done _ _ sample_machine_ok) as (m & -> & Hm & Hs).
  cbn [mbind outcome_bind]. assert (K1 : machine_ok (m <| mc_dma := overrunning_dma (mc_dma m) |>)).
  { apply set_dma_ok; [done|]. unfold overrunning_dma. apply write_hdma5_ok; [by vm_compute|].
    repeat (apply write_hdma_registers_ok; [by vm_compute|]). apply Hm. }
  assert (Hc : next_t_cycle (mc_scheduler (m <| mc_dma := overrunning_dma (mc_dma m) |>)) = 0).
  { destruct m. cbn in *. by rewrite Hs. }
  revert K1 Hc. generalize (m <| mc_dma := overrunning_dma (mc_dma m) |>). intros m1 K1 Hc.
  pose proof (run_ok false n m1 K1) as Hrun. rewrite Hc in Hrun. specialize (Hrun ltac:(lia) ltac:(lia)).
  by destruct (run_t_cycles false n m1).
Qed.

Lemma t_cycle_fails_only_on_dma_overrun_witness :
  (exists m, sample_machine = Done m /\ finishes (step_t_cycle true m) (cycle_result_ok 0)) /\
  exists m why, overrunning_machine 33 = Done m /\ step_t_cycle true m = Panic why.
Proof.
  split.
  - assert (Hsafe : match sample_machine with Done m => dma_overflows m | Panic _ => true end = false) by (vm_compute; reflexivity).
    destruct (finishes_done _ _ sample_machine_ok) as (m & E & Hm & Hs). rewrite E in Hsafe. exists m. split; [exact E|].
    pose proof (t_cycle_fails_only_on_dma_overrun true m Hm ltac:(rewrite Hs; cbn; lia)) as Hstep.
    rewrite Hsafe, Hs in Hstep. exact Hstep.
  - assert (Hover : match overrunning_machine 33 with Done m => dma_overflows m | Panic _ => false end = true) by (vm_compute; reflexivity).
    pose proof (overrunning_machine_ok 33 ltac:(lia)) as Hm. destruct (overrunning_machine 33) as [m|]; [|discriminate].
    destruct Hm as [Hm Hc].
    pose proof (t_cycle_fails_only_on_dma_overrun true m Hm ltac:(rewrite Hc; cbn; lia)) as Hstep.
    rewrite Hover in Hstep. destruct Hstep as [why Hp]. exists m, why. split; [reflexivity | exact Hp].
Defined.

(** The console runs an MBC1 image for forty T-cycles, whatever fingerprint the
    image has. *)
Lemma sample_power_on_runs :
  match power_on_run (P := SamplePicture) (H := Z) true config_default witness_image 40 with
  | Done _ => true | Panic _ => false end = true.
Proof.
  unfold power_on_run, load_cartridge, CartridgeSlot.load. generalize (from_bytes witness_image). intros fingerprint.
  vm_compute. reflexivity.
Qed.

Lemma power_on_run_is_safe_witness :
  exists m, power_on_run (P := SamplePicture) (H := Z) true config_default witness_image 40 = Done m /\ machine_ok m /\
    next_t_cycle (mc_scheduler m) = 40.
Proof.
  assert (Hrom : bytes witness_image) by (apply byte_table; vm_compute; reflexivity).
  pose proof sample_power_on_runs as Hdone.
  pose proof (power_on_run_is_safe (P := SamplePicture) (H := Z) true config_default witness_image 40 assets_none_ok Hrom ltac:(lia)) as Hrun.
  destruct (power_on_run true config_default witness_image 40) as [m|]; [|discriminate]. exists m. split; [reflexivity | exact Hrun].
Defined.
