(* ===== verification/MachineStepping.v ===== *)
(** * Three ways to step a machine

    A T-cycle run by the machine's own scheduler shares two caches between its
    phases; a link session runs the same phases one by one, each with empty
    caches; and a tracer fills the caches early.  All three are the same
    T-cycle. *)

From Stdlib Require Import ZArith Lia Bool String.
From stdpp Require Import base decidable list option.
From S2P Require Import Prelude.
From S2P Require Import Model.
From S2P Require Import Config.
From S2P Require Import Scheduler.
From S2P Require Import Interrupts.
From S2P Require Import Joypad.
From S2P Require Import Speed.
From S2P Require Import Timer.
From S2P Require Import Serial.
From S2P Require Import CpuData.
From S2P Require Import CpuBus.
From S2P Require Import CpuCycle.
From S2P Require Import CpuSafety.
From S2P Require Import CpuAccesses.
From S2P Require Import CartridgeHeader.
From S2P Require Import Cartridge.
From S2P Require Import CartridgeDevice.
From S2P Require Import CartridgeSlot.
From S2P Require Import ApuChannels.
From S2P Require Import Apu.
From S2P Require Import BusState.
From S2P Require Import BusRouter.
From S2P Require Import Vectors.
From S2P Require Import BusMemory.
From S2P Require Import BusIo.
From S2P Require Import Dma.
From S2P Require Import Boot.
From S2P Require Import Bus.
From S2P Require Import BusSafety.
From S2P Require Import Printer.
From S2P Require Import ExternalPort.
From S2P Require Import MachineContext.
From S2P Require Import MachinePorts.
From S2P Require Import MachineState.
From S2P Require Import MachineStep.
From S2P Require Import MachineSafety.
From S2P Require Import MachineStartup.
From S2P Require Import MachinePhases.
From S2P Require Import MachineSample.
From S2P Require Import MachineCycle.

Local Open Scope Z_scope.

Section Stepping.
Context {P H : Type} `{PictureUnit P} `{SgbHostPort H}.
Implicit Types m : Machine P H.
Implicit Types r : Runner (P := P) (H := H).

(** A T-cycle as a link session runs it: every phase with a fresh runner, and
    the clock set at the end. *)
Definition step_by_phases (records_events : bool) m : outcome (CycleContext * Machine P H) :=
  x ← visit_phases ORDER (step_phase_with_context records_events) (m, prepare_cycle_context (mc_scheduler m));
  t ← TCycle_next (next_t_cycle (mc_scheduler m));
  mret (x.2.2, sync_scheduler_next_t_cycle t x.2.1).

(** The cached snapshot is what the picture unit would answer now. *)
Definition coherent r : Prop :=
  cached_cpu_bus_arbitration_states r = None /\
  match cached_ppu_bus_state_snapshot r with
  | Some snapshot => snapshot = bus_state_snapshot (mc_ppu (runner_machine r))
  | None => True
  end.

(** Two runs agree: the same panic, or the same machine and context, with the
    runner in [R]. *)
Definition agrees (R : Runner -> Prop) (o : outcome (unit * (Runner * CycleContext)))
    (o' : outcome (unit * (Machine P H * CycleContext))) : Prop :=
  match o, o' with
  | Done (_, (r, c)), Done (_, (m, c')) => runner_machine r = m /\ c = c' /\ R r
  | Panic why, Panic why' => why = why'
  | _, _ => False
  end.

Lemma visit_agrees R p rest Q visit visit' r c m :
  agrees R (visit (r, enter_phase p c)) (visit' (m, enter_phase p c)) ->
  (forall r c, R r -> agrees Q (visit_phases rest visit (r, c)) (visit_phases rest visit' (runner_machine r, c))) ->
  agrees Q (visit_phases (p :: rest) visit (r, c)) (visit_phases (p :: rest) visit' (m, c)).
Proof.
  intros Hp Hrest. destruct (visit (r, enter_phase p c)) as [[[] [r1 c1]]|why] eqn:E;
    destruct (visit' (m, enter_phase p c)) as [[[] [m1 c2]]|why'] eqn:E'; cbn in Hp; try done.
  - rewrite (visit_phase_done _ _ _ _ _ _ E), (visit_phase_done _ _ _ _ _ _ E'). destruct Hp as (<- & <- & HR). by apply Hrest.
  - by rewrite (visit_phase_panics _ _ _ _ _ _ E), (visit_phase_panics _ _ _ _ _ _ E').
Qed.

Definition empty_caches r : Prop := r = runner_new (runner_machine r).

Lemma empty_caches_kept r m : empty_caches r -> empty_caches (r <| runner_machine := m |>).
Proof. unfold empty_caches. by intros ->. Qed.

(** Serial traffic and the transfer's write leave the picture unit alone. *)
Lemma tick_serial_ppu c m : match tick_serial c m with Done x => mc_ppu x.1 = mc_ppu m | Panic _ => True end.
Proof.
  unfold tick_serial. destruct (_ && _); [by destruct m|]. destruct (_ || _); [|by destruct m].
  unfold tick_serial_and_port. cbv zeta.
  set (m1 := if ExternalPort.requires_t_cycle_tick _ then _ else _).
  assert (Hm1 : mc_ppu m1 = mc_ppu m) by (subst m1; destruct m, (ExternalPort.requires_t_cycle_tick _); done).
  rewrite <- Hm1. generalize m1. clear. intros m.
  destruct (Serial.tick_t_cycle_for_speed _ _ _) as [[[s telemetry] c']|]; [|done]. cbn.
  destruct (latest_completed_output_byte _) as [b|]; [destruct (handles_completed_serial_byte _);
    [destruct (handle_completed_serial_byte _ _); [|done]|]|]; cbn; destruct (requires_serial_peer_refresh_after_t_cycle _); by destruct m.
Qed.

Lemma write_transfer_ppu activity m : match write_transfer_byte activity m with Done m' => mc_ppu m' = mc_ppu m | Panic _ => True end.
Proof.
  unfold write_transfer_byte. destruct (activity_work activity), (activity_byte activity); try done.
  destruct (activity_arbitration activity); [|done]. destruct (work_destination_address _); [|done]. cbn.
  destruct (write_with_context _ _ _ _ _ _ _); [|done]. cbn. by destruct m.
Qed.

Lemma on_host_ppu call m : match on_host call m with Done m' => mc_ppu m' = mc_ppu m | Panic _ => True end.
Proof. unfold on_host. destruct (host_call call _); [|done]. by destruct m. Qed.

Lemma video_domain_coherent dma_bus active conflict c r : empty_caches r ->
  match tick_ppu_video_domain dma_bus active conflict c r with Done r' => coherent r' | Panic _ => True end.
Proof.
  intros ->. unfold tick_ppu_video_domain. cbv zeta. destruct (video_views _ _) as [oam vram].
  destruct (picture_tick _ _ _ _ _) as [p|]; [|done]. cbn.
  match goal with |- context [if ?b then _ else _] => destruct b end.
  - destruct (transfer_display _) as [display|]; [|done]. cbn.
    match goal with |- context [on_host ?call ?m] => pose proof (on_host_ppu call m) as Hp; destruct (on_host call m) end; [|done].
    cbn in *. split; [done|]. cbn. rewrite Hp. by destruct (runner_machine r).
  - cbn. split; [done|]. cbn. by destruct (runner_machine r).
Qed.

Lemma autonomous_coherent c r : empty_caches r ->
  match step_autonomous_peripheral_ticks c r with Done x => coherent x.1 | Panic _ => True end.
Proof.
  intros Hr. unfold step_autonomous_peripheral_ticks. cbv zeta.
  set (m := (runner_machine r) <| mc_bus := _ |>). assert (Hr1 : empty_caches (r <| runner_machine := m |>)) by (by apply empty_caches_kept).
  assert (Hcoh : forall r, empty_caches r -> coherent r) by (by intros r' ->).
  destruct (negb _).
  - destruct (apu_tick_t_cycle_for_speed _ _ _) as [a|]; [|done]. cbn [mbind outcome_bind].
    destruct (tick_dma _ _) as [[activity m1]|]; [|done]. cbn [mbind outcome_bind].
    destruct (current_oam_conflict _ _) as [conflict|]; [|done]. cbn [mbind outcome_bind].
    set (r1 := (r <| runner_machine := m |>) <| runner_machine := m1 |>).
    assert (Hr2 : empty_caches r1) by (by apply empty_caches_kept).
    match goal with |- context [if ?b then ?x else ?y] => set (o := if b then x else y);
      assert (Ho : match o with Done r' => coherent r' | Panic _ => True end) by
        (unfold o; destruct b; [by apply video_domain_coherent | by apply Hcoh]) end.
    destruct o as [r2|]; [|done]. cbn [mbind outcome_bind].
    pose proof (tick_serial_ppu c (runner_machine r2)) as Hs. destruct (tick_serial _ _) as [[m2 c2]|]; [|done]. cbn [mbind outcome_bind].
    pose proof (write_transfer_ppu activity m2) as Hw. destruct (write_transfer_byte _ _) as [m3|]; [|done]. cbn in *.
    destruct Ho as [Hn Hsnap]. split; [by destruct r2|]. destruct r2 as [mr [snap|] st]; [|done]. cbn in *. congruence.
  - destruct (cpu_speed_switch_pause_active m); [|by apply Hcoh]. destruct (dma_bus_state _) as [bus_state|]; [|done]. cbn [mbind outcome_bind].
    pose proof (video_domain_coherent bus_state (dma_drives_oam bus_state) None c _ Hr1) as Hv.
    by destruct (tick_ppu_video_domain _ _ _ _ _).
Qed.

(** The arbitration states come out the same from a coherent cache and from
    none. *)
Lemma arbitration_agrees r : coherent r ->
  match cpu_bus_arbitration_states r, cpu_bus_arbitration_states (runner_new (runner_machine r)) with
  | Done (s, r1), Done (s', r2) => s = s' /\ runner_machine r1 = runner_machine r /\ runner_machine r2 = runner_machine r
  | Panic why, Panic why' => why = why'
  | _, _ => False
  end.
Proof.
  intros [Hn Hs]. destruct r as [m snapshot states]. cbn in *. subst states.
  unfold cpu_bus_arbitration_states, runner_ppu_bus_state_snapshot. cbn.
  destruct snapshot as [snapshot|]; [subst snapshot|]; cbn; destruct (dma_bus_state (mc_dma m)); done.
Qed.

(** Asking twice is asking once. *)
Lemma arbitration_again r : match cpu_bus_arbitration_states r with
  | Done (s, r1) => cpu_bus_arbitration_states r1 = Done (s, r1)
  | Panic _ => True
  end.
Proof.
  destruct r as [m snapshot [states|]]; [done|]. unfold cpu_bus_arbitration_states, runner_ppu_bus_state_snapshot. cbn.
  destruct snapshot; cbn; by destruct (dma_bus_state (mc_dma m)).
Qed.

(** What the CPU's phase does once the arbitration states are known. *)
Lemma cpu_phase_agrees c r r' :
  match cpu_bus_arbitration_states r, cpu_bus_arbitration_states r' with
  | Done (s, r1), Done (s', r2) => s = s' /\ runner_machine r1 = runner_machine r2
  | Panic why, Panic why' => why = why'
  | _, _ => False
  end ->
  match step_cpu_micro_operation c r, step_cpu_micro_operation c r' with
  | Done (r1, c1), Done (r2, c2) => runner_machine r1 = runner_machine r2 /\ c1 = c2
  | Panic why, Panic why' => why = why'
  | _, _ => False
  end.
Proof.
  unfold step_cpu_micro_operation. destruct (cpu_bus_arbitration_states r) as [[s r1]|], (cpu_bus_arbitration_states r') as [[s' r2]|];
    cbn [mbind outcome_bind]; try done. intros [<- <-].
  match goal with |- match ?x ≫= _ with _ => _ end => destruct x as [mc|]; [|done] end. cbn [mbind outcome_bind].
  destruct (publish_stop _ _); [|done]. by destruct r1, r2.
Qed.

Lemma on_machine_agrees (R : Runner -> Prop) f r r' c : runner_machine r' = runner_machine r ->
  (forall m, R (r <| runner_machine := m |>)) ->
  agrees R (on_machine f (r, c)) (x ← on_machine f (r', c); mret (tt, (runner_machine x.2.1, x.2.2))).
Proof.
  intros He HR. unfold on_machine. rewrite He. destruct (f (runner_machine r) c) as [[m' c']|]; [|done]. cbn.
  split_and!; [by destruct r, r' | done | apply HR].
Qed.

(** The phase of [p] on a fresh runner. *)
Lemma with_context_phase records_events p m c :
  step_phase_with_context records_events (m, enter_phase p c) =
    (x ← step_phase records_events (runner_new m, enter_phase p c); mret (tt, (runner_machine x.2.1, x.2.2))).
Proof. unfold step_phase_with_context. by destruct (step_phase _ _) as [[[] [r c1]]|]. Qed.

Lemma machine_phase_agrees (R : Runner -> Prop) records_events p r c :
  match p with AutonomousPeripheralTicks | BusArbitration | CpuMicroOperation | MasterClockTick => false | _ => true end = true ->
  (forall m, R (r <| runner_machine := m |>)) ->
  agrees R (step_phase records_events (r, enter_phase p c))
    (step_phase_with_context records_events (runner_machine r, enter_phase p c)).
Proof.
  intros Hp HR. rewrite with_context_phase. unfold step_phase. rewrite phase_entered.
  destruct p; try done; by apply on_machine_agrees.
Qed.

(** After the CPU's phase the caches are not read again. *)
Lemma last_phases_agree records_events r c :
  agrees (fun _ => True)
    (visit_phases [MmioSideEffectCommit; InterruptAggregation; CpuWakeInterruptEvaluation] (step_phase records_events) (r, c))
    (visit_phases [MmioSideEffectCommit; InterruptAggregation; CpuWakeInterruptEvaluation]
       (step_phase_with_context records_events) (runner_machine r, c)).
Proof.
  do 3 (eapply (visit_agrees (fun _ => True)); [by apply machine_phase_agrees | clear; intros r c _]). done.
Qed.

Lemma arbitration_phase_agrees records_events r c : coherent r ->
  agrees (fun r' => match cpu_bus_arbitration_states r', cpu_bus_arbitration_states (runner_new (runner_machine r')) with
                    | Done (s, r1), Done (s', r2) => s = s' /\ runner_machine r1 = runner_machine r2
                    | Panic why, Panic why' => why = why'
                    | _, _ => False
                    end)
    (step_phase records_events (r, enter_phase BusArbitration c))
    (step_phase_with_context records_events (runner_machine r, enter_phase BusArbitration c)).
Proof.
  intros Hr. pose proof (arbitration_agrees r Hr) as Ha. pose proof (arbitration_again r) as Hagain.
  rewrite with_context_phase. unfold step_phase. rewrite phase_entered. unfold step_bus_arbitration.
  destruct records_events; cbn [negb mbind outcome_bind].
  - destruct (cpu_bus_arbitration_states r) as [[s r1]|],
      (cpu_bus_arbitration_states (runner_new (runner_machine r))) as [[s' r2]|] eqn:E; cbn in *; try done.
    destruct Ha as (<- & K1 & K2). split_and!; [congruence | done |]. rewrite Hagain, K1, E. by split; [|congruence].
  - split; [done|]. split; [done|].
    destruct (cpu_bus_arbitration_states r) as [[s r1]|], (cpu_bus_arbitration_states (runner_new (runner_machine r))) as [[s' r2]|];
      try done. destruct Ha as (-> & K1 & K2). split; [done | congruence].
Qed.

Lemma cycle_agrees records_events m c :
  agrees (fun _ => True) (visit_phases ORDER (step_phase records_events) (runner_new m, c))
    (visit_phases ORDER (step_phase_with_context records_events) (m, c)).
Proof.
  change m with (runner_machine (runner_new m)) at 2. assert (Hr : empty_caches (runner_new m)) by done.
  revert Hr. generalize (runner_new m). clear m. intros r Hr. unfold ORDER.
  apply (visit_agrees empty_caches); [apply machine_phase_agrees; [done | intros; by apply empty_caches_kept]|].
  clear r c Hr. intros r c Hr.
  apply (visit_agrees empty_caches); [rewrite with_context_phase; unfold step_phase; by rewrite phase_entered|].
  clear r c Hr. intros r c Hr.
  apply (visit_agrees empty_caches); [apply machine_phase_agrees; [done | intros; by apply empty_caches_kept]|].
  clear r c Hr. intros r c Hr.
  apply (visit_agrees coherent).
  { rewrite with_context_phase. unfold step_phase. rewrite phase_entered. pose proof (autonomous_coherent (enter_phase AutonomousPeripheralTicks c) r Hr) as Ha.
    rewrite <- Hr. destruct (step_autonomous_peripheral_ticks _ _) as [[r1 c1]|]; [|done]. by split_and!. }
  clear r c Hr. intros r c Hr. eapply visit_agrees; [by apply arbitration_phase_agrees|].
  clear r c Hr. intros r c Hr. apply (visit_agrees (fun _ => True)); [|intros; apply last_phases_agree].
  rewrite with_context_phase. unfold step_phase. rewrite phase_entered.
  pose proof (cpu_phase_agrees (enter_phase CpuMicroOperation c) r (runner_new (runner_machine r)) Hr) as Hc.
  destruct (step_cpu_micro_operation _ r) as [[r1 c1]|], (step_cpu_micro_operation _ (runner_new _)) as [[r2 c2]|]; try done.
  cbn in *. destruct Hc as [-> ->]. done.
Qed.

(** Tracing only fills the caches early. *)
Lemma tracing_is_silent rest r c :
  (forall r1 r2 c, runner_machine r1 = runner_machine r2 ->
     agrees (fun _ => True) (visit_phases rest (step_phase true) (r1, c))
       (x ← visit_phases rest (step_phase false) (r2, c); mret (tt, (runner_machine x.2.1, x.2.2)))) ->
  agrees (fun _ => True) (visit_phases (BusArbitration :: CpuMicroOperation :: rest) (step_phase true) (r, c))
    (x ← visit_phases (BusArbitration :: CpuMicroOperation :: rest) (step_phase false) (r, c); mret (tt, (runner_machine x.2.1, x.2.2))).
Proof.
  intros Hrest. assert (Harb : forall flag r c, step_phase flag (r, enter_phase BusArbitration c) =
    (r ← step_bus_arbitration flag r; mret (tt, (r, enter_phase BusArbitration c)))) by (intros; unfold step_phase; by rewrite phase_entered).
  assert (Hcpu : forall flag r c, step_phase flag (r, enter_phase CpuMicroOperation c) =
    (x ← step_cpu_micro_operation (enter_phase CpuMicroOperation c) r; mret (tt, x))) by (intros; unfold step_phase; by rewrite phase_entered).
  assert (Hf : step_phase false (r, enter_phase BusArbitration c) = Done (tt, (r, enter_phase BusArbitration c))) by (by rewrite Harb).
  rewrite (visit_phase_done _ _ (step_phase false) _ _ _ Hf). pose proof (arbitration_again r) as Hagain.
  destruct (cpu_bus_arbitration_states r) as [[s r1]|why] eqn:E.
  - assert (Ht : step_phase true (r, enter_phase BusArbitration c) = Done (tt, (r1, enter_phase BusArbitration c))).
    { rewrite Harb. unfold step_bus_arbitration. by rewrite E. }
    rewrite (visit_phase_done _ _ (step_phase true) _ _ _ Ht).
    pose proof (cpu_phase_agrees (enter_phase CpuMicroOperation (enter_phase BusArbitration c)) r1 r) as Hc. rewrite Hagain, E in Hc.
    specialize (Hc (conj eq_refl eq_refl)). specialize (Hcpu) as Hcpu'.
    destruct (step_cpu_micro_operation _ r1) as [[r2 c2]|why1] eqn:E1, (step_cpu_micro_operation _ r) as [[r3 c3]|why2] eqn:E2; try done.
    + destruct Hc as [Hm ->]. rewrite (visit_phase_done _ _ (step_phase true) _ _ (r2, c3)) by (by rewrite Hcpu, E1).
      rewrite (visit_phase_done _ _ (step_phase false) _ _ (r3, c3)) by (by rewrite Hcpu, E2). by apply Hrest.
    + subst. rewrite (visit_phase_panics _ _ (step_phase true) _ _ why2) by (by rewrite Hcpu, E1).
      by rewrite (visit_phase_panics _ _ (step_phase false) _ _ why2) by (by rewrite Hcpu, E2).
  - rewrite (visit_phase_panics _ _ (step_phase true) _ _ why) by (rewrite Harb; unfold step_bus_arbitration; by rewrite E).
    rewrite (visit_phase_panics _ _ (step_phase false) _ _ why); [done|]. rewrite Hcpu. unfold step_cpu_micro_operation. by rewrite E.
Qed.

Lemma last_phases_silent r1 r2 c : runner_machine r1 = runner_machine r2 ->
  agrees (fun _ => True)
    (visit_phases [MmioSideEffectCommit; InterruptAggregation; CpuWakeInterruptEvaluation] (step_phase true) (r1, c))
    (x ← visit_phases [MmioSideEffectCommit; InterruptAggregation; CpuWakeInterruptEvaluation] (step_phase false) (r2, c);
     mret (tt, (runner_machine x.2.1, x.2.2))).
Proof.
  assert (Hind : forall l, Forall (fun p => p = MmioSideEffectCommit \/ p = InterruptAggregation \/ p = CpuWakeInterruptEvaluation) l ->
    forall r1 r2 c, runner_machine r1 = runner_machine r2 -> agrees (fun _ => True) (visit_phases l (step_phase true) (r1, c))
      (x ← visit_phases l (step_phase false) (r2, c); mret (tt, (runner_machine x.2.1, x.2.2)))).
  { clear. induction 1 as [|p l Hp Hl IH]; intros r1 r2 c He; [done|].
    assert (Hstep : forall flag r, exists f, step_phase flag (r, enter_phase p c) = machine_only f (r, enter_phase p c) /\
      forall flag' r', step_phase flag' (r', enter_phase p c) = machine_only f (r', enter_phase p c)).
    { intros flag r. destruct Hp as [-> |[-> | ->]]; eexists; split; intros; unfold step_phase; by rewrite phase_entered. }
    destruct (Hstep true r1) as (f & E1 & Hf). pose proof (Hf false r2) as E2.
    unfold machine_only, on_machine in E1, E2. rewrite <- He in E2.
    destruct (f (runner_machine r1)) as [m|why]; cbn [mbind outcome_bind mret outcome_ret fst snd] in E1, E2.
    - rewrite (visit_phase_done _ _ _ _ _ _ E1), (visit_phase_done _ _ _ _ _ _ E2). apply IH. by destruct r1, r2.
    - by rewrite (visit_phase_panics _ _ _ _ _ _ E1), (visit_phase_panics _ _ _ _ _ _ E2). }
  apply Hind. repeat (apply Forall_cons_2; [auto|]). apply Forall_nil_2.
Qed.

Lemma tracing_agrees m c :
  agrees (fun _ => True) (visit_phases ORDER (step_phase true) (runner_new m, c))
    (x ← visit_phases ORDER (step_phase false) (runner_new m, c); mret (tt, (runner_machine x.2.1, x.2.2))).
Proof.
  generalize (runner_new m). intros r. unfold ORDER.
  assert (Hsame : forall p rest, p <> BusArbitration -> forall r c,
    (forall r c, agrees (fun _ => True) (visit_phases rest (step_phase true) (r, c))
       (x ← visit_phases rest (step_phase false) (r, c); mret (tt, (runner_machine x.2.1, x.2.2)))) ->
    agrees (fun _ => True) (visit_phases (p :: rest) (step_phase true) (r, c))
      (x ← visit_phases (p :: rest) (step_phase false) (r, c); mret (tt, (runner_machine x.2.1, x.2.2)))).
  { clear. intros p rest Hp r c Hrest.
    assert (E : step_phase true (r, enter_phase p c) = step_phase false (r, enter_phase p c)) by (unfold step_phase; rewrite phase_entered; by destruct p).
    destruct (step_phase false (r, enter_phase p c)) as [[[] [r1 c1]]|why] eqn:E'.
    - rewrite (visit_phase_done _ _ _ _ _ _ E), (visit_phase_done _ _ _ _ _ _ E'). apply Hrest.
    - by rewrite (visit_phase_panics _ _ _ _ _ _ E), (visit_phase_panics _ _ _ _ _ _ E'). }
  do 4 (apply Hsame; [done|]; intros). apply tracing_is_silent. intros. by apply last_phases_silent.
Qed.

Lemma every_stepping_agrees records_events records_events' m :
  step_t_cycle records_events m = step_by_phases records_events' m.
Proof.
  assert (Hphases : forall flag, step_t_cycle flag m = step_by_phases flag m).
  { intros flag. unfold step_t_cycle, step_by_phases, Scheduler.step.
    pose proof (cycle_agrees flag m (prepare_cycle_context (mc_scheduler m))) as Ha.
    destruct (visit_phases ORDER (step_phase flag) _) as [[[] [r c]]|], (visit_phases ORDER (step_phase_with_context flag) _) as [[[] [m' c']]|];
      try done; [|by cbn in Ha; subst]. destruct Ha as (<- & <- & _). cbn [mbind outcome_bind].
    by destruct (TCycle_next _). }
  assert (Htrace : step_t_cycle true m = step_t_cycle false m).
  { unfold step_t_cycle, Scheduler.step. pose proof (tracing_agrees m (prepare_cycle_context (mc_scheduler m))) as Ha.
    destruct (visit_phases ORDER (step_phase true) _) as [[[] [r c]]|], (visit_phases ORDER (step_phase false) _) as [[[] [r' c']]|];
      try done; [|by cbn in Ha; subst]. cbn in Ha. destruct Ha as (He & <- & _). destruct (TCycle_next _); [|done]. cbn in *. by rewrite He. }
  destruct records_events, records_events'; rewrite <- Hphases; done.
Qed.
(** C4. The ways of stepping a machine are one.  Whether the T-cycle is run by
    the machine's scheduler with the two bus-state caches shared by its phases,
    or phase by phase with empty caches as a link session runs it, and whether
    or not a tracer asks for the arbitration states early: the same machine and
    the same context come out, or the same panic. *)
Theorem stepping_styles_agree records_events records_events' m :
  step_t_cycle records_events m = step_by_phases records_events' m.
Proof. apply every_stepping_agrees. Qed.
End Stepping.
