(* ===== verification/MachineBehaviour.v ===== *)
(** * What the machine promises its program

    Interrupt requests are aggregated without loss, a picture register written
    by the CPU changes after the CPU's phase, and a console in STOP stands
    still until its host acts. *)

From Stdlib Require Import ZArith Lia Bool String.
From stdpp Require Import base decidable list option.
From S2P Require Import Prelude.
From S2P Require Import Model.
From S2P Require Import Config.
From S2P Require Import Scheduler.
From S2P Require Import Interrupts.
From S2P Require Import Joypad.
From S2P Require Import Speed.
From S2P Require Import Timer.
From S2P Require Import Serial.
From S2P Require Import CpuData.
From S2P Require Import CpuBus.
From S2P Require Import CpuCycle.
From S2P Require Import CpuSafety.
From S2P Require Import CpuAccesses.
From S2P Require Import CartridgeHeader.
From S2P Require Import Cartridge.
From S2P Require Import CartridgeDevice.
From S2P Require Import CartridgeSlot.
From S2P Require Import ApuChannels.
From S2P Require Import Apu.
From S2P Require Import BusState.
From S2P Require Import BusRouter.
From S2P Require Import Vectors.
From S2P Require Import BusMemory.
From S2P Require Import BusIo.
From S2P Require Import Dma.
From S2P Require Import Boot.
From S2P Require Import Bus.
From S2P Require Import BusSafety.
From S2P Require Import Printer.
From S2P Require Import ExternalPort.
From S2P Require Import MachineContext.
From S2P Require Import MachinePorts.
From S2P Require Import MachineState.
From S2P Require Import MachineStep.
From S2P Require Import MachineSafety.
From S2P Require Import MachineStartup.
From S2P Require Import MachinePhases.
From S2P Require Import MachineSample.
From S2P Require Import MachineCycle.
From S2P Require Import MachineStepping.

Local Open Scope Z_scope.

Section Behaviour.
Context {P H : Type} `{PictureUnitLaws P} `{SgbHostLaws H}.
Implicit Types m : Machine P H.
Implicit Types r : Runner (P := P) (H := H).

(** ** Interrupt aggregation *)

(** Everything that asks for an interrupt at the end of a T-cycle. *)
Definition requested_mask (c : CycleContext) m : Z :=
  Z.lor (Z.lor (current_cycle_scheduler_interrupt_request_mask c) (pending_interrupt_request_mask (mc_ppu m)))
    (if interrupt_request_pending (mc_joypad m) then mask JoypadIrq else 0).

Definition flags_of (i : InterruptController) : Z := interrupt_flags i.

Lemma request_flags source i : flags_of (Interrupts.request source i) = Z.lor (flags_of i) (mask source) /\
  interrupt_enable (Interrupts.request source i) = interrupt_enable i.
Proof. by destruct i. Qed.

Lemma request_all_flags sources i :
  flags_of (request_all sources i) = Z.lor (flags_of i) (fold_left (fun k source => Z.lor k (mask source)) sources 0) /\
  interrupt_enable (request_all sources i) = interrupt_enable i.
Proof.
  unfold request_all. assert (Hacc : forall l k, fold_left (fun k source => Z.lor k (mask source)) l k =
    Z.lor k (fold_left (fun k source => Z.lor k (mask source)) l 0)).
  { induction l as [|source l IH]; intros k; cbn [fold_left]; [by rewrite Z.lor_0_r|].
    rewrite (IH (Z.lor k _)), (IH (Z.lor 0 _)), Z.lor_0_l. by rewrite Z.lor_assoc. }
  revert i. induction sources as [|source l IH]; intros i; cbn [fold_left]; [by rewrite Z.lor_0_r|].
  destruct (IH (Interrupts.request source i)) as [-> ->]. destruct (request_flags source i) as [-> ->].
  split; [|done]. by rewrite (Hacc l (Z.lor 0 _)), Z.lor_0_l, Z.lor_assoc.
Qed.

Lemma mask_of_two_bits p : 0 <= p < 4 -> Z.lor (if has_bits p 1 then 1 else 0) (if has_bits p 2 then 2 else 0) = p.
Proof. intros Hp. assert (p = 0 \/ p = 1 \/ p = 2 \/ p = 3) as [-> |[-> |[-> | ->]]] by lia; done. Qed.

Lemma request_if (b : bool) source i :
  flags_of (if b then Interrupts.request source i else i) = Z.lor (flags_of i) (if b then mask source else 0) /\
  interrupt_enable (if b then Interrupts.request source i else i) = interrupt_enable i.
Proof. destruct b; [apply request_flags|]. by rewrite Z.lor_0_r. Qed.

(** No interrupt request is lost and none is invented.  At the end of a
    T-cycle the request flags are what they were together with everything
    queued by the timer and the serial port, everything the picture unit holds
    pending and the joypad's edge; the enable register is untouched, the
    joypad's edge is taken once, and nothing else of the machine changes but
    the picture unit, which is told its requests were taken. *)
Theorem interrupt_requests_are_aggregated c m : machine_ok m ->
  finishes (step_interrupt_aggregation c m) (fun m' =>
    interrupt_flags (mc_interrupts m') = Z.lor (interrupt_flags (mc_interrupts m)) (requested_mask c m) /\
    interrupt_enable (mc_interrupts m') = interrupt_enable (mc_interrupts m) /\
    interrupt_request_pending (mc_joypad m') = false /\
    m' = m <| mc_interrupts := mc_interrupts m' |> <| mc_joypad := mc_joypad m' |> <| mc_ppu := mc_ppu m' |>).
Proof.
  intros Hm. unfold step_interrupt_aggregation, requested_mask, current_cycle_scheduler_interrupt_request_mask. cbv zeta.
  set (requests := as_slice (interrupt_requests c)). set (p := pending_interrupt_request_mask (mc_ppu m)).
  pose proof (picture_pending_ok _ (mok_ppu _ Hm)) as Hp. fold p in Hp.
  destruct (negb _) eqn:Enone.
  - apply negb_true_iff in Enone. apply orb_false_iff in Enone as [Enone Hj]. apply orb_false_iff in Enone as [Hr Hpz].
    apply negb_false_iff in Hr, Hpz. apply bool_decide_eq_true in Hr. apply Z.eqb_eq in Hpz. cbn [finishes mret outcome_ret].
    rewrite Hr, Hpz, Hj. cbn [fold_left]. rewrite !Z.lor_0_r. split_and!; [done..|]. by destruct m.
  - apply finishes_bind. unfold on_ppu. apply finishes_bind.
    eapply finishes_mono; [by apply (picture_call_ok TakePendingInterruptRequestMask); [apply Hm|]|]. intros p' _. cbn [finishes mret outcome_ret].
    replace (mc_joypad (m <| mc_ppu := p' |>)) with (mc_joypad m) by (by destruct m).
    unfold consume_interrupt_request.
    destruct (request_if (interrupt_request_pending (mc_joypad m)) JoypadIrq
      (if has_bits p 2 then Interrupts.request LcdStat (if has_bits p 1 then Interrupts.request VBlank (request_all requests (mc_interrupts m))
         else request_all requests (mc_interrupts m))
       else if has_bits p 1 then Interrupts.request VBlank (request_all requests (mc_interrupts m)) else request_all requests (mc_interrupts m)))
      as [Hf He].
    destruct (request_if (has_bits p 2) LcdStat (if has_bits p 1 then Interrupts.request VBlank (request_all requests (mc_interrupts m))
         else request_all requests (mc_interrupts m))) as [Hf2 He2].
    destruct (request_if (has_bits p 1) VBlank (request_all requests (mc_interrupts m))) as [Hf1 He1].
    destruct (request_all_flags requests (mc_interrupts m)) as [Hf0 He0]. unfold flags_of in *.
    destruct m. cbn in *. split_and!; [|congruence | by destruct mc_joypad | done].
    rewrite Hf, Hf2, Hf1, Hf0. rewrite <- (mask_of_two_bits p Hp) at 3.
    change (mask VBlank) with 1. change (mask LcdStat) with 2. by rewrite !Z.lor_assoc.
Qed.

(** ** STOP *)

(** The CPU sleeps in STOP, and nobody has asked for anything. *)
Record asleep m : Prop := {
  asleep_cpu : is_stop_sleep_state (mc_cpu m) = true;
  asleep_observations : last_bus_activity (mc_cpu m) = None /\ last_address_event (mc_cpu m) = None;
  asleep_requests : stop_div_reset_requested (mc_cpu m) = false /\ cgb_speed_switch_requested (mc_cpu m) = false;
  asleep_host : has_pending_work (mc_pending_external_events m) = false;
  asleep_joypad : stop_wake_event_pending (mc_joypad m) = false /\ interrupt_request_pending (mc_joypad m) = false;
  asleep_picture : pending_interrupt_request_mask (mc_ppu m) = 0;
  asleep_write : mc_pending_ppu_mmio_write m = None
}.

(** The machine [n] T-cycles later: the infrared sensor has seen [n] samples and
    the clock has advanced. *)
Definition slept (n : nat) m : Machine P H :=
  m <| mc_bus := iterate n tick_cgb_infrared_t_cycle (mc_bus m) |>
    <| mc_scheduler := set_next_t_cycle (mc_scheduler m) (next_t_cycle (mc_scheduler m) + Z.of_nat n) |>.

Lemma sleeping_cpu c : is_stop_sleep_state c = true -> last_bus_activity c = None /\ last_address_event c = None ->
  stop_div_reset_requested c = false /\ cgb_speed_switch_requested c = false ->
  tick_dma_stall_t_cycle c = c /\ take_stop_div_reset_request c = (false, c) /\ take_cgb_speed_switch_request c = (false, c) /\
  (forall i k, evaluate_current_cycle_interrupt_requests i k c = (None, i, c)) /\
  (forall W (E : CpuExternal W) w, CpuCycle.tick_t_cycle (c, w) = Done (tt, (c, w))).
Proof.
  intros Hs [Hb Ha] [Hd Hw]. assert (Hstall : tick_dma_stall_t_cycle c = c).
  { destruct c. cbn in *. by subst. }
  split_and!; [done | destruct c; cbn in *; by subst | destruct c; cbn in *; by subst | |].
  - intros i k. unfold evaluate_current_cycle_interrupt_requests, can_accept_interrupt. unfold is_stop_sleep_state in Hs.
    destruct (execution_state c); try done; by rewrite orb_true_r.
  - intros W E w. unfold CpuCycle.tick_t_cycle, mbind, ST_bind, modify_core, st_modify. 
    fold (tick_dma_stall_t_cycle c). rewrite Hstall. unfold gets_core, st_gets. cbn. unfold is_stop_sleep_state in Hs.
    destruct (execution_state c); done.
Qed.

Lemma same_cpu m : m <| mc_cpu := mc_cpu m |> = m.
Proof. by destruct m. Qed.
Lemma same_signals m : m <| mc_interrupts := mc_interrupts m |> <| mc_cpu := mc_cpu m |> = m.
Proof. by destruct m. Qed.

Lemma sleeping_stop m : asleep m -> cpu_stop_active m = true /\ cpu_speed_switch_pause_active m = false.
Proof.
  intros [Hs _ _ _ _ _ _]. unfold is_stop_sleep_state, cpu_stop_active, cpu_speed_switch_pause_active in *.
  by destruct (execution_state (mc_cpu m)).
Qed.

Lemma publish_same m : publish_stop (cpu_stop_active m) m = Done m.
Proof. unfold publish_stop. by rewrite Bool.eqb_reflx. Qed.

Lemma sleeping_finalize state m : asleep m -> finalize_cpu_micro_operation state m = Done m.
Proof.
  intros Ha. destruct (sleeping_cpu (mc_cpu m)) as (_ & Hdiv & Hspeed & _); [apply Ha..|].
  unfold finalize_cpu_micro_operation. rewrite (proj2 (asleep_observations _ Ha)). cbn [mbind outcome_bind mret outcome_ret].
  rewrite Hdiv. cbv beta iota zeta. rewrite same_cpu. cbn [mbind outcome_bind mret outcome_ret]. rewrite Hspeed.
  cbv beta iota zeta. by rewrite same_cpu.
Qed.

Lemma sleeping_cpu_phase m c : machine_ok m -> asleep m ->
  match step_cpu_micro_operation c (runner_new m) with
  | Done (r, c') => runner_machine r = m /\ c' = c
  | Panic _ => False
  end.
Proof.
  intros Hm Ha. destruct (sleeping_cpu (mc_cpu m)) as (Hstall & _ & _ & Hcur & Htick); [apply Ha..|].
  unfold step_cpu_micro_operation.
  destruct (finishes_done _ _ (arbitration_ok (runner_new m) ltac:(by constructor))) as ([states r] & -> & _ & _ & Hr).
  cbn [mbind outcome_bind fst snd] in *. cbn [runner_new runner_machine] in Hr. rewrite Hr.
  rewrite Hstall, Hcur, same_cpu. cbv beta iota zeta. rewrite same_signals. cbn [mbind outcome_bind mret outcome_ret]. unfold tick_cpu. rewrite Htick. cbn [mbind outcome_bind mret outcome_ret world_machine world_context].
  rewrite same_cpu. cbn [fst snd]. rewrite (sleeping_finalize _ _ Ha).
  destruct (cpu_stall_active _); cbn [mbind outcome_bind mret outcome_ret fst snd]; rewrite publish_same; by destruct r.
Qed.

Lemma sleeping_wake m : asleep m -> step_cpu_wake_interrupt_evaluation m = Done m.
Proof.
  intros Ha. destruct (sleeping_cpu (mc_cpu m)) as (Hstall & _); [apply Ha..|].
  unfold step_cpu_wake_interrupt_evaluation. rewrite Hstall, same_cpu.
  assert (He : evaluate_wake_and_interrupts (mc_interrupts m) (mc_joypad m) (mc_cpu m) = (mc_interrupts m, mc_joypad m, mc_cpu m)).
  { pose proof (asleep_cpu _ Ha) as Hs. destruct (asleep_joypad _ Ha) as [Hj _]. unfold stop_wake_event_pending in Hj.
    unfold evaluate_wake_and_interrupts. destruct (negb (wake_evaluation_needed _ _)); [done|]. rewrite Hs. cbn [negb].
    unfold consume_stop_wake_event. rewrite Hj.
    assert (Hk : (mc_joypad m) <| stop_wake_pending := false |> = mc_joypad m) by (destruct (mc_joypad m); cbn in *; by subst).
    rewrite Hk. unfold is_stop_sleep_state in Hs. by destruct (execution_state (mc_cpu m)). }
  rewrite He. cbv zeta. destruct (cpu_stall_active _); [apply publish_same|].
  destruct (wake_is_deferred m); [apply publish_same|].
  replace (m <| mc_interrupts := mc_interrupts m |> <| mc_joypad := mc_joypad m |> <| mc_cpu := mc_cpu m |>) with m by (by destruct m).
  apply publish_same.
Qed.

(** One phase of a sleeping console. *)
Lemma sleeping_phase p m c : machine_ok m -> asleep m -> as_slice (interrupt_requests c) = [] ->
  step_phase_with_context false (m, enter_phase p c) =
    Done (tt, (match p with
               | AutonomousPeripheralTicks => m <| mc_bus := tick_cgb_infrared_t_cycle (mc_bus m) |>
               | _ => m
               end, enter_phase p c)).
Proof.
  intros Hm Ha Hc. destruct (sleeping_stop m Ha) as [Hstop Hpause]. rewrite with_context_phase. unfold step_phase. rewrite phase_entered.
  destruct p; unfold machine_only, on_machine; cbn [runner_machine runner_new].
  - unfold step_external_event_ingress. by rewrite (asleep_host _ Ha).
  - done.
  - unfold step_derived_edge_resolution. by rewrite Hstop.
  - unfold step_autonomous_peripheral_ticks. cbv zeta. cbn [runner_machine runner_new].
    replace (cpu_stop_active (m <| mc_bus := tick_cgb_infrared_t_cycle (mc_bus m) |>)) with (cpu_stop_active m) by (by destruct m).
    replace (cpu_speed_switch_pause_active (m <| mc_bus := tick_cgb_infrared_t_cycle (mc_bus m) |>)) with (cpu_speed_switch_pause_active m)
      by (by destruct m).
    by rewrite Hstop, Hpause.
  - done.
  - pose proof (sleeping_cpu_phase m (enter_phase CpuMicroOperation c) Hm Ha) as Hcpu.
    destruct (step_cpu_micro_operation _ _) as [[r c']|]; [|done]. cbn. by destruct Hcpu as [-> ->].
  - unfold step_mmio_side_effect_commit. by rewrite (asleep_write _ Ha).
  - unfold step_interrupt_aggregation. rewrite (asleep_picture _ Ha), (proj2 (asleep_joypad _ Ha)).
    replace (as_slice (interrupt_requests (enter_phase InterruptAggregation c))) with (as_slice (interrupt_requests c)) by (by destruct c).
    by rewrite Hc.
  - by rewrite sleeping_wake.
Qed.

Lemma infrared_asleep m : asleep m -> asleep (m <| mc_bus := tick_cgb_infrared_t_cycle (mc_bus m) |>).
Proof. intros []. destruct m. by constructor. Qed.
Lemma infrared_machine_ok m : machine_ok m -> machine_ok (m <| mc_bus := tick_cgb_infrared_t_cycle (mc_bus m) |>).
Proof. intros Hm. apply set_bus_ok; [done|]. by apply infrared_bus_ok, mok_bus. Qed.

Lemma sleeping_t_cycle records_events m : machine_ok m -> asleep m -> 0 <= next_t_cycle (mc_scheduler m) < 2 ^ 63 ->
  exists c, step_t_cycle records_events m = Done (c, slept 1 m).
Proof.
  intros Hm Ha Ht. rewrite (every_stepping_agrees records_events false). unfold step_by_phases, ORDER.
  pose proof (infrared_asleep m Ha) as Ha'. pose proof (infrared_machine_ok m Hm) as Hm'.
  assert (Hq : forall p c, as_slice (interrupt_requests c) = [] -> as_slice (interrupt_requests (enter_phase p c)) = []) by (by intros p []).
  set (c0 := prepare_cycle_context (mc_scheduler m)). assert (Hempty : as_slice (interrupt_requests c0) = []) by done.
  do 3 (erewrite (visit_phase_done _ _ _ m); [|by apply sleeping_phase; auto 10]).
  erewrite (visit_phase_done _ _ _ m); [|by apply sleeping_phase; auto 10].
  set (m1 := m <| mc_bus := _ |>) in *.
  do 5 (erewrite (visit_phase_done _ _ _ m1); [|by apply sleeping_phase; auto 10]).
  cbn [visit_phases mret ST_ret mbind outcome_bind]. unfold TCycle_next. rewrite (proj2 (Z.ltb_lt _ _)) by lia.
  eexists. cbn. by destruct m.
Qed.

Lemma slept_ok n m : machine_ok m -> asleep m -> machine_ok (slept n m) /\ asleep (slept n m).
Proof.
  intros Hm Ha. split.
  - apply set_scheduler_ok, set_bus_ok; [done|]. apply iterate_ind; [intros; by apply infrared_bus_ok | apply Hm].
  - destruct Ha, m. by constructor.
Qed.

Lemma slept_more n m : slept n (slept 1 m) = slept (S n) m.
Proof.
  destruct m as [? [t] ? ? ? ? ? ? ? ? ? ? ? ? ? ? ? ?]. unfold slept. cbn -[Z.of_nat]. do 2 f_equal. lia.
Qed.

(** C17. A console in STOP stands still.  With no host input, no wake event and
    nothing pending, any number of T-cycles passes without a panic and changes
    only the infrared sensor and the clock: DIV, the timer, the sound unit, DMA,
    the serial port, the picture unit, the cartridge and every memory stay as
    they are, and the machine still sleeps. *)
Theorem stopped_console_stands_still records_events n m :
  machine_ok m -> asleep m ->
  0 <= next_t_cycle (mc_scheduler m) -> next_t_cycle (mc_scheduler m) + Z.of_nat n <= 2 ^ 63 ->
  run_t_cycles records_events n m = Done (slept n m) /\ asleep (slept n m).
Proof.
  intros Hm Ha Hpos Hn. split; [|by apply slept_ok]. revert m Hm Ha Hpos Hn. induction n as [|n IH]; intros m Hm Ha Hpos Hn.
  - cbn. destruct m as [? [t] ? ? ? ? ? ? ? ? ? ? ? ? ? ? ? ?]. unfold slept, set_next_t_cycle. cbn. by rewrite Z.add_0_r.
  - cbn [run_t_cycles]. destruct (sleeping_t_cycle records_events m Hm Ha ltac:(lia)) as [c ->]. cbn [mbind outcome_bind fst snd].
    destruct (slept_ok 1 m Hm Ha) as [Hm1 Ha1].
    assert (Hc : next_t_cycle (mc_scheduler (slept 1 m)) = next_t_cycle (mc_scheduler m) + 1) by (by destruct m).
    rewrite IH; [by rewrite slept_more | done | done | lia | lia].
Qed.

(** ** Picture registers *)

(** LYC waits one T-cycle more on a Game Boy Color at normal speed. *)
Definition commits_late (a : Z) m : bool :=
  (a =? 0xFF45) && is_cgb_family (picture_console_model (mc_ppu m)) &&
  match current_speed (mc_speed m) with Normal => true | Double => false end.

Definition with_pending_write (a v delay : Z) m : Machine P H :=
  m <| mc_pending_ppu_mmio_write := Some (mkPpuWrite a v delay) |>.

(** C24. The picture unit sees a CPU write after the CPU's phase.  A write to one
    of its registers leaves the unit as it is, queues one commit and remembers
    the write; the commit phase of the same T-cycle hands it over exactly once,
    or that of the next T-cycle for LYC on a Game Boy Color at normal speed. *)
Theorem picture_writes_are_committed_late a v m c states e d i :
  cpu_write_targets_ppu_mmio (mc_bus m) a = true -> context_ready (t_cycle c) e d i 1 c ->
  exists c' delay, cpu_bus_write a v (mkWorld m c states) = Done (None, mkWorld (with_pending_write a v delay m) c' states) /\
    as_slice (queued_side_effects c') = as_slice (queued_side_effects c) ++ [CommitMmioWrite] /\
    let committed := on_ppu (CommitRegisterWrite a v) (m <| mc_pending_ppu_mmio_write := None |>) in
    if commits_late a m
    then delay = 1 /\ step_mmio_side_effect_commit (with_pending_write a v 1 m) = Done (with_pending_write a v 0 m) /\
         step_mmio_side_effect_commit (with_pending_write a v 0 m) = committed
    else delay = 0 /\ step_mmio_side_effect_commit (with_pending_write a v 0 m) = committed.
Proof.
  intros Htarget Hc. destruct (ready_effects _ _ _ _ _ _ Hc) as (Hok & Hcap & Hl).
  destruct (buffer_push_done (queued_side_effects c) CommitMmioWrite Hok ltac:(lia)) as (b & Hpush & _ & _ & _ & Hslice).
  exists (c <| queued_side_effects := b |>), (commit_delay a m). split_and!.
  - unfold cpu_bus_write. rewrite Htarget. unfold queue_side_effect, lift_buffer. by rewrite Hpush.
  - by destruct c.
  - unfold commit_delay. fold (commits_late a m). assert (H0' : step_mmio_side_effect_commit (with_pending_write a v 0 m) =
      on_ppu (CommitRegisterWrite a v) (m <| mc_pending_ppu_mmio_write := None |>)) by (by destruct m).
    destruct (commits_late a m); cbn [u8_from_bool]; [|done]. split_and!; [done | by destruct m | done].
Qed.
End Behaviour.

(** ** Concrete consoles *)

(** The sample console asleep. *)
Definition sleeping_machine : outcome (Machine SamplePicture Z) :=
  m ← sample_machine; mret (m <| mc_cpu := (mc_cpu m) <| execution_state := Stopped |> |>).

Definition none_of {A} (o : option A) : bool := match o with None => true | Some _ => false end.
Definition asleep_check (m : Machine SamplePicture Z) : bool :=
  is_stop_sleep_state (mc_cpu m) && (none_of (last_bus_activity (mc_cpu m)) && none_of (last_address_event (mc_cpu m))) &&
  (negb (stop_div_reset_requested (mc_cpu m)) && negb (cgb_speed_switch_requested (mc_cpu m))) &&
  negb (has_pending_work (mc_pending_external_events m)) &&
  (negb (stop_wake_event_pending (mc_joypad m)) && negb (interrupt_request_pending (mc_joypad m))) &&
  (pending_interrupt_request_mask (mc_ppu m) =? 0) && none_of (mc_pending_ppu_mmio_write m).

Lemma asleep_checked m : asleep_check m = true -> asleep m.
Proof.
  unfold asleep_check. rewrite !andb_true_iff, !negb_true_iff, Z.eqb_eq. intros ((((((? & Ho) & ?) & ?) & ?) & ?) & Hw).
  constructor; try done.
  - unfold none_of in Ho. destruct (last_bus_activity _), (last_address_event _); tauto || (by destruct Ho).
  - unfold none_of in Hw. by destruct (mc_pending_ppu_mmio_write m).
Qed.

Lemma sleeping_machine_ok : exists m, sleeping_machine = Done m /\ machine_ok m /\ asleep m /\ mc_scheduler m = scheduler_default.
Proof.
  assert (Hcheck : match sleeping_machine with Done m => asleep_check m | Panic _ => false end = true) by (vm_compute; reflexivity).
  unfold sleeping_machine in *. destruct (finishes_done _ _ sample_machine_ok) as (m & E & Hm & Hs). rewrite E in *.
  cbn [mbind outcome_bind mret outcome_ret] in *. eexists. split_and!; [done | | by apply asleep_checked | by destruct m].
  apply set_cpu_ok; [done|]. apply cpu_ok_set_state; [apply (mok_cpu _ Hm) | done].
Qed.

Lemma stopped_console_stands_still_witness :
  exists m, sleeping_machine = Done m /\ run_t_cycles true 1000 m = Done (slept 1000 m).
Proof.
  destruct sleeping_machine_ok as (m & E & Hm & Ha & Hs). exists m. split; [exact E|].
  apply (stopped_console_stands_still true 1000 m Hm Ha); rewrite Hs; cbn; lia.
Defined.

(** The sample console's pending vertical blank becomes request flag 0. *)
Lemma interrupt_requests_are_aggregated_witness :
  exists m m', overrunning_machine 20 = Done m /\ step_interrupt_aggregation (for_cycle 20) m = Done m' /\
    interrupt_flags (mc_interrupts m') = Z.lor (interrupt_flags (mc_interrupts m)) (requested_mask (for_cycle 20) m).
Proof.
  assert (Hdone : match overrunning_machine 20 with Done _ => true | Panic _ => false end = true) by (vm_compute; reflexivity).
  pose proof (overrunning_machine_ok 20 ltac:(lia)) as Hm. destruct (overrunning_machine 20) as [m|]; [|discriminate].
  destruct (finishes_done _ _ (interrupt_requests_are_aggregated (for_cycle 20) m (proj1 Hm))) as (m' & E & Hflags & _).
  exists m, m'. split; [reflexivity|]. split; [exact E | exact Hflags].
Defined.

(** A write to the sample console's background palette. *)
Lemma picture_writes_are_committed_late_witness :
  exists m c' delay, sleeping_machine = Done m /\ cpu_write_targets_ppu_mmio (mc_bus m) 0xFF47 = true /\
    cpu_bus_write 0xFF47 0xE4 (mkWorld m (for_cycle 0) (mkCpuStates arbitration_default arbitration_default arbitration_default)) =
      Done (None, mkWorld (with_pending_write 0xFF47 0xE4 delay m) c' (mkCpuStates arbitration_default arbitration_default arbitration_default)).
Proof.
  destruct sleeping_machine_ok as (m & E & _).
  assert (Ht : match sleeping_machine with Done m => cpu_write_targets_ppu_mmio (mc_bus m) 0xFF47 | Panic _ => false end = true)
    by (vm_compute; reflexivity).
  rewrite E in Ht.
  destruct (picture_writes_are_committed_late 0xFF47 0xE4 m (for_cycle 0) (mkCpuStates arbitration_default arbitration_default arbitration_default)
    16 16 16 Ht) as (c' & delay & Hw & _); [eapply context_ready_weaken; [..|apply for_cycle_ready]; lia|].
  exists m, c', delay. split; [exact E|]. split; [exact Ht | exact Hw].
Defined.
