(* ===== verification/MachineRecords.v ===== *)
(** * Stale records are never seen

    A link session reuses its cycle contexts: [reset_for_cycle] empties the
    record buffers and leaves the old records behind the live ones.  The
    equality of contexts that the source derives compares the live records
    only, and no phase tells equal contexts apart. *)

From Stdlib Require Import ZArith Lia Bool String.
From stdpp Require Import base decidable list option.
From S2P Require Import Prelude.
From S2P Require Import Model.
From S2P Require Import Config.
From S2P Require Import Interrupts.
From S2P Require Import Joypad.
From S2P Require Import Speed.
From S2P Require Import Timer.
From S2P Require Import Serial.
From S2P Require Import CpuData.
From S2P Require Import CpuBus.
From S2P Require Import CpuCycle.
From S2P Require Import CpuAccesses.
From S2P Require Import Apu.
From S2P Require Import Dma.
From S2P Require Import ExternalPort.
From S2P Require Import Scheduler.
From S2P Require Import MachinePorts.
From S2P Require Import MachineState.
From S2P Require Import MachineStep.
From S2P Require Import MachineCycle.

Local Open Scope Z_scope.

(** ** Equal contexts *)

(** Two buffers of a context, which are arrays of 16 records, with the same
    live records. *)
Record same_records {T} (b b' : CycleRecordBuffer T) : Prop := {
  records_live : b ≡ b';
  records_len : len b = len b';
  records_room : length (items b) = 16%nat /\ length (items b') = 16%nat;
  records_fit : (len b <= length (items b))%nat
}.

#[export] Instance context_equiv : Equiv CycleContext := fun c c' =>
  t_cycle c = t_cycle c' /\ phase c = phase c' /\ external_events c ≡ external_events c' /\
  derived_edges c ≡ derived_edges c' /\ bus_owner c = bus_owner c' /\
  queued_side_effects c ≡ queued_side_effects c' /\ interrupt_requests c ≡ interrupt_requests c'.

Record same_context (c c' : CycleContext) : Prop := {
  same_cycle : t_cycle c = t_cycle c';
  same_phase : phase c = phase c';
  same_events : same_records (external_events c) (external_events c');
  same_edges : same_records (derived_edges c) (derived_edges c');
  same_owner : bus_owner c = bus_owner c';
  same_effects : same_records (queued_side_effects c) (queued_side_effects c');
  same_requests : same_records (interrupt_requests c) (interrupt_requests c')
}.

Lemma same_context_equiv c c' : same_context c c' -> c ≡ c'.
Proof. intros [? ? [] [] ? [] []]. by split_and!. Qed.

(** Related outcomes: the same panic, or related results. *)
Definition alike {A B} (Q : A -> B -> Prop) (o : outcome A) (o' : outcome B) : Prop :=
  match o, o' with
  | Done a, Done b => Q a b
  | Panic why, Panic why' => why = why'
  | _, _ => False
  end.

Lemma alike_bind {A B C D} (Q : A -> B -> Prop) (R : C -> D -> Prop) o o' k k' :
  alike Q o o' -> (forall a b, Q a b -> alike R (k a) (k' b)) -> alike R (o ≫= k) (o' ≫= k').
Proof. destruct o, o'; cbn; try done; auto. Qed.

Lemma alike_refl {A} (Q : A -> A -> Prop) (o : outcome A) : (forall a, Q a a) -> alike Q o o.
Proof. intros HQ. by destruct o; cbn. Qed.

(** A result and the context it leaves. *)
Definition with_context {A} (x y : A * CycleContext) : Prop := x.1 = y.1 /\ same_context x.2 y.2.

(** ** Buffers *)

Section Buffers.
Context {T : Type}.
Implicit Types b : CycleRecordBuffer T.

Lemma cleared_records b x : length (items b) = 16%nat -> same_records (buffer_clear b) (buffer_new 16 x).
Proof. intros Hn. constructor; cbn; [done | done | done | lia]. Qed.

Lemma push_records b b' x : same_records b b' -> alike same_records (buffer_push b x) (buffer_push b' x).
Proof.
  intros [Hlive Hl Hr Hf]. destruct (decide (len b < length (items b))%nat) as [Hlt|Hge].
  - destruct (buffer_push_done b x Hf Hlt) as (c & -> & Hok & Hc & Hl1 & E).
    destruct (buffer_push_done b' x) as (c' & -> & _ & Hc' & Hl2 & E'); [unfold buffer_ok; lia | unfold capacity; lia|].
    unfold equiv, buffer_equiv in *. constructor; unfold capacity, equiv, buffer_equiv, buffer_ok in *; [congruence | lia | lia | lia].
  - unfold buffer_push. by rewrite !decide_False by lia.
Qed.

Lemma shift_left_take k i (l : list T) n : (n = i + k)%nat -> (1 <= i)%nat -> (n <= length l)%nat ->
  take (n - 1) (shift_left_from k i l) = take (n - 1) (shift_left_from k i (take n l)).
Proof.
  intros -> Hi Hn. revert i l Hi Hn. induction k as [|k IH]; intros i l Hi Hn; cbn.
  - rewrite take_take. f_equal. lia.
  - destruct (lookup_lt_is_Some_2 l i) as [x Hx]; [lia|]. rewrite lookup_take_lt, Hx by lia.
    replace (i + S k)%nat with (S i + k)%nat in * by lia. rewrite IH; [|lia | by rewrite length_insert].
    by rewrite take_insert_lt by lia.
Qed.

Lemma position_lt `{EqDecision T} x (l : list T) i : position x l = Some i -> (i < length l)%nat.
Proof.
  revert i. induction l as [|y l IH]; intros i; cbn; [done|]. case_decide; [intros [= <-]; lia|].
  destruct (position x l); [|done]. cbn. intros [= <-]. specialize (IH _ eq_refl). lia.
Qed.

Lemma remove_records `{EqDecision T} b b' x : same_records b b' ->
  (remove_first b x).2 = (remove_first b' x).2 /\ same_records (remove_first b x).1 (remove_first b' x).1.
Proof.
  intros [Hlive Hl Hr Hf]. unfold remove_first. pose proof Hlive as Hs. unfold equiv, buffer_equiv in Hs. rewrite <- Hs.
  destruct (position x (as_slice b)) as [i|] eqn:Ei; [|by split]. split; [done|].
  apply position_lt in Ei. unfold as_slice in *. rewrite length_take in Ei. unfold equiv, buffer_equiv.
  constructor; cbn; rewrite ?shift_left_length; [|lia..]. unfold equiv, buffer_equiv, as_slice. cbn [items len]. rewrite <- Hl.
  rewrite (shift_left_take (len b - S i) (S i) (items b) (len b)), (shift_left_take (len b - S i) (S i) (items b') (len b)) by lia.
  rewrite <- Hl in Hs. by rewrite Hs.
Qed.
End Buffers.


Lemma fresh_context t c : length (items (external_events c)) = 16%nat -> length (items (derived_edges c)) = 16%nat ->
  length (items (queued_side_effects c)) = 16%nat -> length (items (interrupt_requests c)) = 16%nat ->
  same_context (reset_for_cycle c t) (for_cycle t).
Proof. intros ????. constructor; try done; by apply cleared_records. Qed.

Lemma entered_context p c c' : same_context c c' -> same_context (enter_phase p c) (enter_phase p c').
Proof. destruct c, c'. intros []. by constructor. Qed.

(** ** Computations that only see live records *)

Definition blind {A} (m : ST CycleContext A) : Prop := forall c c', same_context c c' -> alike with_context (m c) (m c').

Create HintDb blind discriminated.

Lemma blind_bind {A B} (m : ST CycleContext A) (f : A -> ST CycleContext B) :
  blind m -> (forall a, blind (f a)) -> blind (m ≫= f).
Proof.
  intros Hm Hf c c' Hc. unfold mbind, ST_bind. specialize (Hm c c' Hc).
  destruct (m c) as [[a c1]|], (m c') as [[b c2]|]; try done. destruct Hm as [[= <-] Hc1]. by apply Hf.
Qed.
Lemma blind_ret {A} (a : A) : blind (mret a).
Proof. by intros c c' Hc. Qed.
Lemma blind_panic {A} why : blind (st_panic why : ST CycleContext A).
Proof. by intros c c' Hc. Qed.

(** A push into one of the buffers. *)
Ltac pushes := intros c c' Hc; unfold push_external_event, push_derived_edge, queue_side_effect, queue_interrupt_request, lift_buffer;
  match goal with |- context [buffer_push (?field c) ?x] =>
    let Hp := fresh in assert (Hp : alike same_records (buffer_push (field c) x) (buffer_push (field c') x)) by (apply push_records, Hc);
    destruct (buffer_push (field c) x), (buffer_push (field c') x); try done; split; [done|]; destruct c, c', Hc; by constructor
  end.
Lemma blind_event e : blind (push_external_event e).
Proof. pushes. Qed.
Lemma blind_edge e : blind (push_derived_edge e).
Proof. pushes. Qed.
Lemma blind_effect e : blind (queue_side_effect e).
Proof. pushes. Qed.
Lemma blind_request e : blind (queue_interrupt_request e).
Proof. pushes. Qed.
Lemma blind_take e : blind (take_interrupt_request e).
Proof.
  intros c c' Hc. unfold take_interrupt_request. destruct (remove_records _ _ e (same_requests _ _ Hc)) as [Hf Hs].
  destruct (remove_first (interrupt_requests c) e), (remove_first (interrupt_requests c') e). cbn in *. subst.
  split; [done|]. destruct c, c', Hc. by constructor.
Qed.
#[export] Hint Resolve blind_ret blind_panic blind_event blind_edge blind_effect blind_request blind_take : blind.

Ltac blind :=
  lazymatch goal with
  | |- forall _, _ => intro; blind
  | |- blind (mbind _ _) => apply blind_bind; [blind | blind]
  | |- blind (match ?x with _ => _ end) => destruct x; blind
  | |- blind ?m => first [ solve [eauto with blind] | let h := head_of m in progress unfold h; blind ]
  end.

Lemma timer_blind speed t : blind (Timer.tick_t_cycle_for_speed speed t).
Proof. blind. Qed.
Lemma serial_blind speed s : blind (Serial.tick_t_cycle_for_speed speed s).
Proof. blind. Qed.

Section Machine.
Context {P H : Type} `{PictureUnit P} `{SgbHostPort H}.
Implicit Types m : Machine P H.

Lemma same_slices c c' : same_context c c' ->
  as_slice (derived_edges c) = as_slice (derived_edges c') /\ as_slice (interrupt_requests c) = as_slice (interrupt_requests c').
Proof. intros Hc. split; apply Hc. Qed.

(** A machine's phase: the context is only read through what equal contexts
    share. *)
Definition phase_blind (f : Machine P H -> CycleContext -> outcome (Machine P H * CycleContext)) : Prop :=
  forall m, blind (fun c => f m c).

Lemma result_then {A} (o : outcome (A * CycleContext)) o' (k : A -> Machine P H) :
  alike with_context o o' -> alike with_context (r ← o; mret (k r.1, r.2)) (r ← o'; mret (k r.1, r.2)).
Proof. intros Ho. eapply alike_bind; [exact Ho|]. intros [a c] [b c'] [[= <-] Hc]. by split. Qed.

Lemma ingress_blind : phase_blind step_external_event_ingress.
Proof.
  intros m c c' Hc. unfold step_external_event_ingress. destruct (negb _); [by split|].
  apply (alike_bind with_context).
  - assert (Hmask : forall (m : Machine P H) j (changed : bool), alike with_context
      (let m := m <| mc_joypad := j |> in if changed then r ← push_external_event HostInputChanged c; mret (m, r.2) else mret (m, c))
      (let m := m <| mc_joypad := j |> in if changed then r ← push_external_event HostInputChanged c'; mret (m, r.2) else mret (m, c'))).
    { intros m1 j changed. cbv zeta. destruct changed; [|by split]. by apply (result_then _ _ (fun _ => _)), blind_event. }
    destruct (is_sgb _).
    + destruct (take_pending_sgb_joypad_pressed_masks _) as [e [masks|]]; [|by split].
      destruct (on_host _ _) as [m1|]; [|done]. cbn [mbind outcome_bind]. destruct (apply_pressed_mask _ _). apply Hmask.
    + destruct (take_pending_joypad_pressed_mask _) as [e [pressed|]]; [|by split]. destruct (apply_pressed_mask _ _). apply Hmask.
  - intros [m1 c1] [m2 c2] [[= <-] Hc1]. destruct (take_external_serial_clock_pulse _) as [e pulse].
    destruct (_ && _); [|by split]. destruct (queue_external_clock_pulse _) as [s queued]. destruct queued; [|by split].
    by apply (result_then _ _ (fun _ => _)), blind_event.
Qed.

Lemma derived_blind : phase_blind step_derived_edge_resolution.
Proof.
  intros m c c' Hc. unfold step_derived_edge_resolution. destruct (negb _); [|by split].
  by apply (result_then _ _ (fun t => m <| mc_timer := t |>)), timer_blind.
Qed.

Lemma tick_serial_blind m : blind (fun c => tick_serial c m).
Proof.
  intros c c' Hc. unfold tick_serial. destruct (_ && _); [by split|]. destruct (_ || _); [|by split].
  unfold tick_serial_and_port. cbv zeta. generalize (if ExternalPort.requires_t_cycle_tick (mc_external_port m)
    then m <| mc_external_port := port_tick_t_cycle (mc_external_port m) |> else m). intros m1.
  eapply alike_bind; [by apply serial_blind|]. intros [[s telemetry] c1] [[s' telemetry'] c2] [[= <- <-] Hc1].
  match goal with |- alike _ (mbind _ ?o) _ => destruct o as [m2|] end; [by split | done].
Qed.

Lemma autonomous_blind r c c' : same_context c c' ->
  alike (fun x y => x.1 = y.1 /\ same_context x.2 y.2) (step_autonomous_peripheral_ticks c r) (step_autonomous_peripheral_ticks c' r).
Proof.
  intros Hc. unfold step_autonomous_peripheral_ticks. cbv zeta. destruct (same_slices _ _ Hc) as [He _]. pose proof (same_cycle _ _ Hc) as Ht.
  destruct (negb _).
  - unfold apu_tick_t_cycle_for_speed. rewrite <- He, <- Ht. apply (alike_bind eq); [by apply alike_refl|]. intros a _ <-.
    apply (alike_bind eq).
    { unfold tick_dma, read_transfer_byte, machine_read. rewrite <- Ht. by apply alike_refl. }
    intros [activity m] _ <-. apply (alike_bind eq); [by apply alike_refl|]. intros conflict _ <-.
    apply (alike_bind eq). { unfold tick_ppu_video_domain. rewrite <- Ht. by apply alike_refl. }
    intros r1 _ <-. eapply alike_bind; [by apply tick_serial_blind|]. intros [m1 c1] [m2 c2] [[= <-] Hc1]. cbn [fst snd].
    apply (alike_bind eq); [by apply alike_refl|]. by intros m3 _ <-.
  - destruct (cpu_speed_switch_pause_active _); [|by split]. apply (alike_bind eq); [by apply alike_refl|]. intros dma _ <-.
    apply (alike_bind eq). { unfold tick_ppu_video_domain. rewrite <- Ht. by apply alike_refl. }
    by intros r1 _ <-.
Qed.

(** ** The CPU *)

Definition same_world (w w' : CpuWorld (P := P) (H := H)) : Prop :=
  world_machine w = world_machine w' /\ same_context (world_context w) (world_context w') /\ world_states w = world_states w'.

Lemma mask_same c c' : same_context c c' ->
  current_cycle_scheduler_interrupt_request_mask c = current_cycle_scheduler_interrupt_request_mask c'.
Proof. intros Hc. unfold current_cycle_scheduler_interrupt_request_mask. by rewrite (proj2 (same_slices _ _ Hc)). Qed.

Lemma external_blind op w w' : same_world w w' ->
  alike (fun x y => x.1 = y.1 /\ same_world x.2 y.2) (cpu_external op w) (cpu_external op w').
Proof.
  destruct w as [m c s], w' as [m' c' s']. intros (Hm & Hc & Hs). cbn in Hm, Hc, Hs. subst m' s'.
  assert (Ha : forall v, alike (fun x y => x.1 = y.1 /\ same_world x.2 y.2) (mret (Some v : option Z, mkWorld m c s)) (mret (Some v : option Z, mkWorld m c' s)))
    by (intros v; by split).
  destruct op as [[a|a v]| | | | | |]; unfold cpu_external; try apply Ha; try by split.
  - unfold cpu_bus_read, cpu_interrupt_mask_for_if_read, current_cycle_interrupt_read_mask.
    rewrite <- (mask_same _ _ Hc), <- (same_cycle _ _ Hc). apply (alike_bind eq); [by apply alike_refl|]. by intros r _ <-.
  - unfold cpu_bus_write. destruct (cpu_write_targets_ppu_mmio _ _).
    + cbv zeta. eapply alike_bind; [by apply blind_effect|]. intros [[] c1] [[] c2] [_ Hc1]. by split.
    + rewrite <- (same_cycle _ _ Hc). apply (alike_bind eq); [by apply alike_refl|]. intros r _ <-.
      apply (alike_bind eq); [by apply alike_refl|]. intros m1 _ <-. apply (alike_bind eq); [by apply alike_refl|]. by intros m2 _ <-.
Qed.

Lemma tick_cpu_blind states m : blind (fun c => tick_cpu states m c).
Proof.
  intros c c' Hc. unfold tick_cpu.
  pose proof (tick_simulates (alike same_world)) as Hs.
  specialize (Hs ltac:(intros op [w|why] [w'|why'] Hw; unfold bus_operation, machine_external;
    [pose proof (external_blind op w w' Hw) as He;
     destruct (cpu_external op w) as [[r w1]|], (cpu_external op w') as [[r' w1']|]; try done;
     by destruct He as [[= <-] Hw1] | done | done | cbn in Hw; by subst])).
  specialize (Hs (mc_cpu m) (Done (mkWorld m c states)) (Done (mkWorld m c' states)) ltac:(done)).
  destruct (CpuCycle.tick_t_cycle (mc_cpu m, Done (mkWorld m c states))) as [[[] [core w]]|],
    (CpuCycle.tick_t_cycle (mc_cpu m, Done (mkWorld m c' states))) as [[[] [core' w']]|]; try done.
  destruct Hs as (_ & <- & Hw). cbn [mbind outcome_bind]. destruct w as [w|], w' as [w'|]; try done.
  destruct Hw as (Hm & Hc1 & _). cbn. rewrite Hm. by split.
Qed.

Lemma cpu_phase_blind r c c' : same_context c c' ->
  alike (fun x y => x.1 = y.1 /\ same_context x.2 y.2) (step_cpu_micro_operation c r) (step_cpu_micro_operation c' r).
Proof.
  intros Hc. unfold step_cpu_micro_operation. apply (alike_bind eq); [by apply alike_refl|]. intros [states r1] _ <-. cbv zeta.
  rewrite <- (mask_same _ _ Hc). apply (alike_bind with_context).
  - destruct (cpu_stall_active _); [by split|]. destruct (evaluate_current_cycle_interrupt_requests _ _ _) as [[source i] cpu].
    apply (alike_bind same_context).
    { destruct source as [source|]; [|done]. eapply alike_bind; [by apply blind_take|]. intros [f c1] [f' c2] [_ Hc1]. done. }
    intros c1 c2 Hc1. eapply alike_bind; [by apply tick_cpu_blind|]. intros [m1 c3] [m2 c4] [[= <-] Hc3]. cbn [fst snd].
    apply (alike_bind eq); [by apply alike_refl|]. by intros m3 _ <-.
  - intros [m1 c1] [m2 c2] [[= <-] Hc1]. cbn [fst snd]. apply (alike_bind eq); [by apply alike_refl|]. by intros m3 _ <-.
Qed.

(** ** The phases *)

(** The machine of a result and the context it leaves. *)
Definition same_result (x y : unit * (Machine P H * CycleContext)) : Prop := x.2.1 = y.2.1 /\ same_context x.2.2 y.2.2.

Lemma phase_with_context_blind records_events m c c' : same_context c c' ->
  alike same_result (step_phase_with_context records_events (m, c)) (step_phase_with_context records_events (m, c')).
Proof.
  intros Hc. unfold step_phase_with_context.
  apply (alike_bind (fun x y => x.2.1 = y.2.1 /\ same_context x.2.2 y.2.2)).
  2: { intros [[] [r1 c1]] [[] [r2 c2]] [[= <-] Hc1]. by split. }
  assert (Hon : forall f, phase_blind f -> alike (fun x y => x.2.1 = y.2.1 /\ same_context x.2.2 y.2.2)
    (on_machine f (runner_new m, c)) (on_machine f (runner_new m, c'))).
  { intros f Hf. unfold on_machine. eapply alike_bind; [by apply Hf|]. intros [m1 c1] [m2 c2] [[= <-] Hc1]. by split. }
  assert (Honly : forall f f', (forall m, f m = f' m) -> alike (fun x y => x.2.1 = y.2.1 /\ same_context x.2.2 y.2.2)
    (machine_only f (runner_new m, c)) (machine_only f' (runner_new m, c'))).
  { intros f f' Hf. unfold machine_only, on_machine. cbn [runner_machine runner_new]. rewrite Hf.
    destruct (f' m) as [m1|]; [|done]. by split. }
  unfold step_phase. rewrite <- (same_phase _ _ Hc). destruct (phase c).
  - apply Hon, ingress_blind.
  - by split.
  - apply Hon, derived_blind.
  - eapply alike_bind; [by apply autonomous_blind|]. by intros [r1 c1] [r2 c2] [[= <-] ?].
  - apply (alike_bind eq); [by apply alike_refl|]. by intros r _ <-.
  - eapply alike_bind; [by apply cpu_phase_blind|]. by intros [r1 c1] [r2 c2] [[= <-] ?].
  - by apply Honly.
  - apply Honly. intros m1. unfold step_interrupt_aggregation. by rewrite (proj2 (same_slices _ _ Hc)).
  - by apply Honly.
Qed.

(** No sequence of phases tells equal contexts apart. *)
Lemma phases_blind records_events phases m c c' : same_context c c' ->
  alike same_result (visit_phases phases (step_phase_with_context records_events) (m, c))
    (visit_phases phases (step_phase_with_context records_events) (m, c')).
Proof.
  revert m c c'. induction phases as [|p phases IH]; intros m c c' Hc; [by split|].
  pose proof (phase_with_context_blind records_events m _ _ (entered_context p _ _ Hc)) as Hp.
  destruct (step_phase_with_context records_events (m, enter_phase p c)) as [[[] [m1 c1]]|] eqn:E,
    (step_phase_with_context records_events (m, enter_phase p c')) as [[[] [m2 c2]]|] eqn:E'; try done.
  - rewrite (visit_phase_done _ _ _ _ _ _ E), (visit_phase_done _ _ _ _ _ _ E'). destruct Hp as [Hm Hc1]. cbn in Hm, Hc1. subst m2. by apply IH.
  - by rewrite (visit_phase_panics _ _ _ _ _ _ E), (visit_phase_panics _ _ _ _ _ _ E').
Qed.
End Machine.
