(* ===== verification/LinkCables.v ===== *)
(** * Cables between two machines ([crates/gb-core/src/link/dmg04.rs], [link/cgb_ir.rs])

    The Game Link cable, which hands each serial port the byte the other has
    staged and clocks the one that waits, and the infrared light between two
    Game Boy Colors, which arrives some T-cycles late. *)

From Stdlib Require Import ZArith Lia Bool String.
From stdpp Require Import base decidable list option.
From S2P Require Import Prelude.
From S2P Require Import Scheduler.
From S2P Require Import Serial.
From S2P Require Import Cartridge.
From S2P Require Import Vectors.
From S2P Require Import BusIo.
From S2P Require Import Bus.
From S2P Require Import ExternalPort.
From S2P Require Import Dmg07.
From S2P Require Import MachinePorts.
From S2P Require Import MachineState.

Local Open Scope Z_scope.

(** ** Two machines of a slice *)

Section Pairs.
Context {A : Type}.

(** [machines[index]], read and borrowed mutably. *)
Definition at_index (l : list A) (i : Z) : outcome A :=
  match l !! Z.to_nat i with Some a => Done a | None => Panic "index out of bounds" end.
Definition set_at (i : Z) (a : A) (l : list A) : list A := <[Z.to_nat i := a]> l.

Definition indexed_pair_mut (left_index right_index : Z) (slice : list A) : outcome (A * A) :=
  if left_index =? right_index then Panic "pair indexes must be distinct"
  else if negb ((left_index <? Z.of_nat (length slice)) && (right_index <? Z.of_nat (length slice)))
  then Panic "pair indexes must be in bounds"
  else l ← at_index slice left_index; r ← at_index slice right_index; mret (l, r).

(** What a function does to the two machines it borrows. *)
Definition on_pair (left_index right_index : Z) (f : A -> A -> A * A) (slice : list A) : outcome (list A) :=
  p ← indexed_pair_mut left_index right_index slice;
  let '(l, r) := f p.1 p.2 in
  mret (set_at right_index r (set_at left_index l slice)).
End Pairs.

(** ** The Game Link cable *)

Record Dmg04Cable := mkCable { cable_left : Z; cable_right : Z }.

Record Dmg04Exchange := mkExchange { left_incoming_byte : Z; right_incoming_byte : Z }.

Definition resolve_dmg04_exchange (l r : Dmg04EndpointState) : option Dmg04Exchange :=
  if dmg04_internal_clock_edge_pending l && dmg04_waiting_for_external_clock r then
    Some (mkExchange (dmg04_staged_outgoing_byte r) (dmg04_staged_outgoing_byte l))
  else if dmg04_internal_clock_edge_pending r && dmg04_waiting_for_external_clock l then
    Some (mkExchange (dmg04_staged_outgoing_byte r) (dmg04_staged_outgoing_byte l))
  else None.

(** ** Infrared light *)

Definition DEFAULT_CGB_IR_OPTICAL_PROPAGATION_DELAY_T_CYCLES : Z := 80.
Definition MIN_CGB_IR_OPTICAL_PROPAGATION_DELAY_T_CYCLES : Z := 1.
Definition MAX_CGB_IR_OPTICAL_PROPAGATION_DELAY_T_CYCLES : Z := 256.

Record CgbInfraredPair := mkInfraredPair {
  light_left : Z;
  light_right : Z;
  optical_propagation_delay_t_cycles : Z;
  left_to_right_delay_line : list bool;
  right_to_left_delay_line : list bool;
  delay_cursor : Z
}.

Definition dark_line : list bool := replicate (Z.to_nat MAX_CGB_IR_OPTICAL_PROPAGATION_DELAY_T_CYCLES) false.
Definition with_optical_propagation_delay_t_cycles (l r delay : Z) : CgbInfraredPair :=
  mkInfraredPair l r delay dark_line dark_line 0.
Definition infrared_pair_new (l r : Z) : CgbInfraredPair :=
  with_optical_propagation_delay_t_cycles l r DEFAULT_CGB_IR_OPTICAL_PROPAGATION_DELAY_T_CYCLES.

(** The delay lines take the light of both emitters and give the light that
    left them a while ago: [(delayed_left_emitter, delayed_right_emitter)]. *)
Definition propagate_light (left_emitter_on right_emitter_on : bool) (p : CgbInfraredPair)
    : outcome ((bool * bool) * CgbInfraredPair) :=
  delayed_left_emitter ← at_index (left_to_right_delay_line p) (delay_cursor p);
  delayed_right_emitter ← at_index (right_to_left_delay_line p) (delay_cursor p);
  cursor ← checked_mod (delay_cursor p + 1) (optical_propagation_delay_t_cycles p);
  mret ((delayed_left_emitter, delayed_right_emitter),
    mkInfraredPair (light_left p) (light_right p) (optical_propagation_delay_t_cycles p)
      (set_at (delay_cursor p) left_emitter_on (left_to_right_delay_line p))
      (set_at (delay_cursor p) right_emitter_on (right_to_left_delay_line p)) cursor).

Section Cables.
Context {P H : Type} `{PictureUnit P} `{SgbHostPort H}.
Implicit Types m l r : Machine P H.
Implicit Types machines : list (Machine P H).

Definition clock_waiting_ends l r : Machine P H * Machine P H :=
  let left_state := dmg04_endpoint_state l in
  let right_state := dmg04_endpoint_state r in
  let r := if dmg04_internal_clock_edge_pending left_state && dmg04_waiting_for_external_clock right_state
               then queue_external_serial_clock r else r in
  let l := if dmg04_internal_clock_edge_pending right_state && dmg04_waiting_for_external_clock left_state
              then queue_external_serial_clock l else l in
  (l, r).

Definition stage_exchange l r : Machine P H * Machine P H :=
  match resolve_dmg04_exchange (dmg04_endpoint_state l) (dmg04_endpoint_state r) with
  | Some e => (machine_set_dmg04_incoming_byte (Some (left_incoming_byte e)) l,
               machine_set_dmg04_incoming_byte (Some (right_incoming_byte e)) r)
  | None => (machine_set_dmg04_incoming_byte None l, machine_set_dmg04_incoming_byte None r)
  end.

Definition prepare_external_event_ingress (cable : Dmg04Cable) machines : outcome (list (Machine P H)) :=
  on_pair (cable_left cable) (cable_right cable) clock_waiting_ends machines.
Definition prepare_autonomous_peripheral_ticks (cable : Dmg04Cable) machines : outcome (list (Machine P H)) :=
  on_pair (cable_left cable) (cable_right cable) stage_exchange machines.

Definition cable_prepare_phase (phase : SchedulerPhase) (cable : Dmg04Cable) machines : outcome (list (Machine P H)) :=
  match phase with
  | ExternalEventIngress => prepare_external_event_ingress cable machines
  | AutonomousPeripheralTicks => prepare_autonomous_peripheral_ticks cable machines
  | _ => mret machines
  end.
Definition cable_detach (cable : Dmg04Cable) machines : outcome (list (Machine P H)) :=
  on_pair (cable_left cable) (cable_right cable)
    (fun l r => (set_external_port_attachment KindNone l, set_external_port_attachment KindNone r)) machines.

Definition light_prepare_phase (phase : SchedulerPhase) (p : CgbInfraredPair) machines
    : outcome (list (Machine P H) * CgbInfraredPair) :=
  match phase with
  | ExternalEventIngress =>
      ends ← indexed_pair_mut (light_left p) (light_right p) machines;
      light ← propagate_light (machine_infrared_emitter_on ends.1) (machine_infrared_emitter_on ends.2) p;
      machines ← on_pair (light_left p) (light_right p)
        (fun l r => (machine_set_infrared_input light.1.2 l, machine_set_infrared_input light.1.1 r)) machines;
      mret (machines, light.2)
  | _ => mret (machines, p)
  end.
Definition light_detach (p : CgbInfraredPair) machines : outcome (list (Machine P H)) :=
  on_pair (light_left p) (light_right p)
    (fun l r => (machine_set_infrared_input false l, machine_set_infrared_input false r)) machines.
End Cables.
