(* ===== verification/LinkSession.v ===== *)
(** * Link sessions ([crates/gb-core/src/link/session.rs], the adapter of [link/dmg07.rs])

    Several machines stepped phase by phase on one clock, with whatever links
    them: nothing, a Game Link cable, the four-player adapter or infrared
    light. *)

From Stdlib Require Import ZArith Lia Bool String.
From stdpp Require Import base decidable list option.
From S2P Require Import Prelude.
From S2P Require Import Serial.
From S2P Require Import Cartridge.
From S2P Require Import Vectors.
From S2P Require Import ExternalPort.
From S2P Require Import Dmg07.
From S2P Require Import Scheduler.
From S2P Require Import MachinePorts.
From S2P Require Import MachineState.
From S2P Require Import MachineStep.
From S2P Require Import LinkCables.

Local Open Scope Z_scope.

(** ** The four-player adapter *)

Record Dmg07Participant := mkParticipant { participant_machine_index : Z; participant_port : Dmg07Port }.

Record Dmg07Adapter := mkAdapter {
  machine_by_port : PerPort (option Z);
  adapter_protocol : Dmg07Protocol;
  adapter_byte_engine : Dmg07ByteEngine;
  clocked_ports_for_byte : PerPort bool
}.

Definition adapter_new (participants : list Dmg07Participant) : Dmg07Adapter :=
  mkAdapter (foldl (fun by_port p => per_set (participant_port p) (Some (participant_machine_index p)) by_port)
               (per_port None) participants)
    protocol_new engine_new (per_port false).

(** ** Errors and topologies *)

Inductive LinkedMachinesError :=
| TooFewMachines (count : Z)
| MismatchedNextTCycle (expected found : TCycle) (machine_index : Z)
| UnsupportedMachineCountForDmg04 (count : Z)
| UnsupportedMachineCountForDmg07 (count : Z)
| UnsupportedExternalPortAttachment (machine_index : Z) (kind : ExternalPortAttachmentKind)
| UnsupportedMachineCountForCgbInfrared (count : Z)
| InvalidCgbInfraredOpticalPropagationDelay (requested_t_cycles min_t_cycles max_t_cycles : Z)
| MissingDmg07PlayerOne
| DuplicateDmg07Port (port : Dmg07Port)
| DuplicateDmg07MachineIndex (machine_index : Z)
| Dmg07MachineIndexOutOfBounds (machine_index machine_count : Z).

(** [for participant in participants]; the two [BTreeSet]s only answer whether
    a value was inserted before. *)
Fixpoint scan_participants (machine_count : Z) (seen_machine_indexes : list Z) (seen_ports : list Dmg07Port)
    (has_p1 : bool) (participants : list Dmg07Participant) : bool + LinkedMachinesError :=
  match participants with
  | [] => inl has_p1
  | mkParticipant index port :: participants =>
      if machine_count <=? index then inr (Dmg07MachineIndexOutOfBounds index machine_count)
      else if bool_decide (index ∈ seen_machine_indexes) then inr (DuplicateDmg07MachineIndex index)
      else if bool_decide (port ∈ seen_ports) then inr (DuplicateDmg07Port port)
      else scan_participants machine_count (index :: seen_machine_indexes) (port :: seen_ports)
             (has_p1 || bool_decide (port = P1)) participants
  end.

Definition validate_dmg07_participants (participants : list Dmg07Participant) (machine_count : Z)
    : option LinkedMachinesError :=
  let count := Z.of_nat (length participants) in
  if negb ((2 <=? count) && (count <=? 4)) then Some (UnsupportedMachineCountForDmg07 count)
  else match scan_participants machine_count [] [] false participants with
       | inr e => Some e
       | inl has_p1 => if negb has_p1 then Some MissingDmg07PlayerOne else None
       end.

Inductive LinkedTopologyKind := LinkedNone | LinkedDmg04 | LinkedDmg07 | LinkedCgbInfrared.

Inductive LinkTopology :=
| NoTopology
| Dmg04Topology (cable : Dmg04Cable)
| Dmg07Topology (adapter : Dmg07Adapter)
| CgbInfraredTopology (pair : CgbInfraredPair).

Definition topology_kind_of (t : LinkTopology) : LinkedTopologyKind :=
  match t with
  | NoTopology => LinkedNone
  | Dmg04Topology _ => LinkedDmg04
  | Dmg07Topology _ => LinkedDmg07
  | CgbInfraredTopology _ => LinkedCgbInfrared
  end.

(** ** The session *)

Record LinkedMachines (P H : Type) := mkLinked {
  linked_scheduler : GlobalScheduler;
  machines : list (Machine P H);
  topology : LinkTopology;
  contexts : list CycleContext
}.
Arguments mkLinked {P H} _ _ _ _.
Arguments linked_scheduler {P H} _.
Arguments machines {P H} _.
Arguments topology {P H} _.
Arguments contexts {P H} _.

Section Updates.
Context {P H : Type}.
#[export] Instance upd_machines : Update (@machines P H) := fun v s =>
  let '(mkLinked k _ t c) := s in mkLinked k v t c.
#[export] Instance upd_topology : Update (@topology P H) := fun v s =>
  let '(mkLinked k m _ c) := s in mkLinked k m v c.
#[export] Instance upd_contexts : Update (@contexts P H) := fun v s =>
  let '(mkLinked k m t _) := s in mkLinked k m t v.
#[export] Instance upd_linked_scheduler : Update (@linked_scheduler P H) := fun v s =>
  let '(mkLinked _ m t c) := s in mkLinked v m t c.
End Updates.

Section Session.
Context {P H : Type} `{PictureUnit P} `{SgbHostPort H}.
Implicit Types m : Machine P H.
Implicit Types ms : list (Machine P H).
Implicit Types s : LinkedMachines P H.

(** ** The adapter and the machines *)

(** A bit for every player that waits for the clock. *)
Definition offer_bit (a : Dmg07Adapter) (port : Dmg07Port) (x : list (Machine P H) * PerPort bool)
    : outcome (list (Machine P H) * PerPort bool) :=
  match per_get port (machine_by_port a) with
  | None => mret x
  | Some machine_index =>
      incoming_byte ← incoming_byte_for port (adapter_protocol a);
      machine ← at_index x.1 machine_index;
      if dmg07_waiting_for_external_clock (dmg07_endpoint_state machine) then
        mret (set_at machine_index
                (queue_external_serial_clock (machine_set_dmg07_incoming_byte (Some incoming_byte) machine)) x.1,
              per_set port true x.2)
      else mret x
  end.

Definition adapter_prepare_phase (phase : SchedulerPhase) (t_cycle : TCycle) (a : Dmg07Adapter) ms
    : outcome (list (Machine P H) * Dmg07Adapter) :=
  match phase with
  | ExternalEventIngress =>
      if negb (should_queue_bit t_cycle (adapter_byte_engine a)) then mret (ms, a)
      else
        x ← for_ports ALL_PORTS (offer_bit a) (ms, clocked_ports_for_byte a);
        mret (x.1, mkAdapter (machine_by_port a) (adapter_protocol a)
                     (record_queued_bit t_cycle (adapter_byte_engine a)) x.2)
  | _ => mret (ms, a)
  end.

(** The byte a player sent, and the line released. *)
Definition collect_byte (a : Dmg07Adapter) (port : Dmg07Port) (x : list (Machine P H) * PerPort (option Z))
    : outcome (list (Machine P H) * PerPort (option Z)) :=
  match per_get port (machine_by_port a) with
  | None => mret x
  | Some machine_index =>
      machine ← at_index x.1 machine_index;
      let outgoing := if per_get port (clocked_ports_for_byte a)
                      then per_set port (latest_completed_output_byte (mc_serial machine)) x.2 else x.2 in
      mret (set_at machine_index (machine_set_dmg07_incoming_byte None machine) x.1, outgoing)
  end.

Definition adapter_finish_phase (phase : SchedulerPhase) (t_cycle : TCycle) (a : Dmg07Adapter) ms
    : outcome (list (Machine P H) * Dmg07Adapter) :=
  match phase with
  | AutonomousPeripheralTicks =>
      let '(engine, pending) := take_byte_completion_pending (adapter_byte_engine a) in
      if negb pending then mret (ms, mkAdapter (machine_by_port a) (adapter_protocol a) engine (clocked_ports_for_byte a))
      else
        x ← for_ports ALL_PORTS (collect_byte a) (ms, per_port None);
        protocol ← complete_byte x.2 (adapter_protocol a);
        mret (x.1, mkAdapter (machine_by_port a) protocol
                     (schedule_next_byte t_cycle (delay_after_completed_byte_t_cycles protocol) engine) (per_port false))
  | _ => mret (ms, a)
  end.

Definition adapter_detach (a : Dmg07Adapter) ms : outcome (list (Machine P H)) :=
  for_ports ALL_PORTS (fun port ms =>
    match per_get port (machine_by_port a) with
    | None => mret ms
    | Some i => machine ← at_index ms i; mret (set_at i (set_external_port_attachment KindNone machine) ms)
    end) ms.

(** ** Making and linking a session *)

Fixpoint first_mismatch (expected : TCycle) (machine_index : Z) ms : option LinkedMachinesError :=
  match ms with
  | [] => None
  | m :: ms =>
      if machine_next_t_cycle m =? expected then first_mismatch expected (machine_index + 1) ms
      else Some (MismatchedNextTCycle expected (machine_next_t_cycle m) machine_index)
  end.

Definition linked_new ms : LinkedMachines P H + LinkedMachinesError :=
  let count := Z.of_nat (length ms) in
  if count <? 2 then inr (TooFewMachines count)
  else match ms with
       | [] => inr (TooFewMachines count)
       | m :: rest =>
           let expected := machine_next_t_cycle m in
           match first_mismatch expected 1 rest with
           | Some e => inr e
           | None => inl (mkLinked (set_next_t_cycle scheduler_default expected) ms NoTopology
                            (replicate (length ms) (for_cycle expected)))
           end
       end.

Definition validate_machine_external_port_attachment (machine_index : Z) (k : ExternalPortAttachmentKind) s
    : outcome (option LinkedMachinesError) :=
  m ← at_index (machines s) machine_index;
  mret (if supports_external_port_attachment k m then None else Some (UnsupportedExternalPortAttachment machine_index k)).

(** The first error of the validations of the given machines. *)
Fixpoint validate_each (k : ExternalPortAttachmentKind) (indexes : list Z) s : outcome (option LinkedMachinesError) :=
  match indexes with
  | [] => mret None
  | i :: indexes =>
      r ← validate_machine_external_port_attachment i k s;
      match r with Some e => mret (Some e) | None => validate_each k indexes s end
  end.
Definition validate_external_port_attachment (k : ExternalPortAttachmentKind) s : outcome (option LinkedMachinesError) :=
  validate_each k (map Z.of_nat (seq 0 (length (machines s)))) s.

Definition detach_link_topology s : outcome (LinkedMachines P H) :=
  ms ← match topology s with
       | NoTopology => mret (machines s)
       | Dmg04Topology cable => cable_detach cable (machines s)
       | Dmg07Topology adapter => adapter_detach adapter (machines s)
       | CgbInfraredTopology light => light_detach light (machines s)
       end;
  mret (s <| machines := ms |> <| topology := NoTopology |>).

Definition attach_dmg04_cable s : outcome (LinkedMachines P H * option LinkedMachinesError) :=
  let count := Z.of_nat (length (machines s)) in
  if negb (count =? 2) then mret (s, Some (UnsupportedMachineCountForDmg04 count))
  else
    e ← validate_external_port_attachment KindGameLinkDmg04 s;
    match e with
    | Some e => mret (s, Some e)
    | None =>
        s ← detach_link_topology s;
        let plug m := machine_set_dmg04_incoming_byte None (set_external_port_attachment KindGameLinkDmg04 m) in
        mret (s <| machines := map plug (machines s) |> <| topology := Dmg04Topology (mkCable 0 1) |>, None)
    end.

Fixpoint plug_participants (participants : list Dmg07Participant) ms : outcome (list (Machine P H)) :=
  match participants with
  | [] => mret ms
  | mkParticipant i port :: participants =>
      m ← at_index ms i;
      plug_participants participants
        (set_at i (machine_set_dmg07_incoming_byte None (machine_set_dmg07_attachment port m)) ms)
  end.

Definition attach_dmg07_adapter (participants : list Dmg07Participant) s
    : outcome (LinkedMachines P H * option LinkedMachinesError) :=
  match validate_dmg07_participants participants (Z.of_nat (length (machines s))) with
  | Some e => mret (s, Some e)
  | None =>
      e ← validate_each KindFourPlayerAdapterDmg07 (map participant_machine_index participants) s;
      match e with
      | Some e => mret (s, Some e)
      | None =>
          s ← detach_link_topology s;
          ms ← plug_participants participants (machines s);
          mret (s <| machines := ms |> <| topology := Dmg07Topology (adapter_new participants) |>, None)
      end
  end.

Definition attach_cgb_infrared_pair_with_optical_propagation_delay (delay : Z) s
    : outcome (LinkedMachines P H * option LinkedMachinesError) :=
  let count := Z.of_nat (length (machines s)) in
  if negb (count =? 2) then mret (s, Some (UnsupportedMachineCountForCgbInfrared count))
  else if negb ((MIN_CGB_IR_OPTICAL_PROPAGATION_DELAY_T_CYCLES <=? delay) && (delay <=? MAX_CGB_IR_OPTICAL_PROPAGATION_DELAY_T_CYCLES))
  then mret (s, Some (InvalidCgbInfraredOpticalPropagationDelay delay MIN_CGB_IR_OPTICAL_PROPAGATION_DELAY_T_CYCLES
                        MAX_CGB_IR_OPTICAL_PROPAGATION_DELAY_T_CYCLES))
  else
    s ← detach_link_topology s;
    let light := if delay =? DEFAULT_CGB_IR_OPTICAL_PROPAGATION_DELAY_T_CYCLES then infrared_pair_new 0 1
                else with_optical_propagation_delay_t_cycles 0 1 delay in
    mret (s <| machines := map (machine_set_infrared_input false) (machines s) |>
            <| topology := CgbInfraredTopology light |>, None).
Definition attach_cgb_infrared_pair s : outcome (LinkedMachines P H * option LinkedMachinesError) :=
  attach_cgb_infrared_pair_with_optical_propagation_delay DEFAULT_CGB_IR_OPTICAL_PROPAGATION_DELAY_T_CYCLES s.

(** ** Stepping *)

Definition prepare_phase (phase : SchedulerPhase) s : outcome (LinkedMachines P H) :=
  let t_cycle := next_t_cycle (linked_scheduler s) in
  match topology s with
  | NoTopology => mret s
  | Dmg04Topology cable => ms ← cable_prepare_phase phase cable (machines s); mret (s <| machines := ms |>)
  | CgbInfraredTopology light =>
      x ← light_prepare_phase phase light (machines s);
      mret (s <| machines := x.1 |> <| topology := CgbInfraredTopology x.2 |>)
  | Dmg07Topology adapter =>
      x ← adapter_prepare_phase phase t_cycle adapter (machines s);
      mret (s <| machines := x.1 |> <| topology := Dmg07Topology x.2 |>)
  end.
Definition finish_phase (phase : SchedulerPhase) s : outcome (LinkedMachines P H) :=
  let t_cycle := next_t_cycle (linked_scheduler s) in
  match topology s with
  | Dmg07Topology adapter =>
      x ← adapter_finish_phase phase t_cycle adapter (machines s);
      mret (s <| machines := x.1 |> <| topology := Dmg07Topology x.2 |>)
  | _ => mret s
  end.

(** [for (machine, context) in machines.iter_mut().zip(contexts.iter_mut())]. *)
Fixpoint step_each (records_events : bool) ms (cs : list CycleContext) : outcome (list (Machine P H) * list CycleContext) :=
  match ms, cs with
  | m :: ms', c :: cs' =>
      x ← step_phase_with_context records_events (m, c);
      r ← step_each records_events ms' cs';
      mret (x.2.1 :: r.1, x.2.2 :: r.2)
  | _, _ => mret (ms, cs)
  end.

Definition linked_phase (records_events : bool) (phase : SchedulerPhase) s : outcome (LinkedMachines P H) :=
  s ← prepare_phase phase (s <| contexts := map (enter_phase phase) (contexts s) |>);
  x ← step_each records_events (machines s) (contexts s);
  finish_phase phase (s <| machines := x.1 |> <| contexts := x.2 |>).

Fixpoint linked_phases (records_events : bool) (phases : list SchedulerPhase) s : outcome (LinkedMachines P H) :=
  match phases with
  | [] => mret s
  | phase :: phases => s ← linked_phase records_events phase s; linked_phases records_events phases s
  end.

(** The debug build checks that every machine has its context. *)
Definition advance_t_cycle (records_events : bool) s : outcome (LinkedMachines P H) :=
  let t_cycle := next_t_cycle (linked_scheduler s) in
  if negb (Nat.eqb (length (contexts s)) (length (machines s))) then Panic "assertion `left == right` failed"
  else
    s ← linked_phases records_events ORDER (s <| contexts := map (fun c => reset_for_cycle c t_cycle) (contexts s) |>);
    next ← TCycle_next t_cycle;
    mret (s <| linked_scheduler := set_next_t_cycle (linked_scheduler s) next |>
            <| machines := map (sync_scheduler_next_t_cycle next) (machines s) |>).

Fixpoint advance_t_cycles (records_events : bool) (n : nat) s : outcome (LinkedMachines P H) :=
  match n with
  | O => mret s
  | S n => s ← advance_t_cycle records_events s; advance_t_cycles records_events n s
  end.

Definition linked_step_t_cycle (records_events : bool) s : outcome (LinkedMachines P H * list CycleContext) :=
  s ← advance_t_cycle records_events s; mret (s, contexts s).
End Session.
