(* ===== verification/LinkSafety.v ===== *)
(** * Link sessions never fail by themselves

    The invariant of a session and that every operation keeps it: linking and
    unlinking always return, and a T-cycle of linked machines fails exactly
    when the DMA transfer of one of them reads past the address space. *)

From Stdlib Require Import ZArith Lia Bool String.
From stdpp Require Import base decidable list option.
From S2P Require Import Prelude.
From S2P Require Import Serial.
From S2P Require Import Cartridge.
From S2P Require Import Vectors.
From S2P Require Import BusIo.
From S2P Require Import Bus.
From S2P Require Import BusSafety.
From S2P Require Import ExternalPort.
From S2P Require Import Dmg07.
From S2P Require Import Scheduler.
From S2P Require Import MachineContext.
From S2P Require Import MachinePorts.
From S2P Require Import MachineState.
From S2P Require Import MachineStep.
From S2P Require Import MachineSafety.
From S2P Require Import MachinePhases.
From S2P Require Import MachineCycle.
From S2P Require Import MachineSample.
From S2P Require Import MachineStepping.
From S2P Require Import LinkCables.
From S2P Require Import LinkSession.

Local Open Scope Z_scope.

(** ** Indexed machines *)

Section Indexes.
Context {A : Type} (P : A -> Prop) (R : A -> A -> Prop).

Definition index_in (i : Z) (l : list A) : Prop := 0 <= i < Z.of_nat (length l).

Lemma at_index_ok i l : index_in i l -> Forall P l -> finishes (at_index l i) (fun a => P a /\ l !! Z.to_nat i = Some a).
Proof.
  intros Hi Hl. unfold at_index, index_in in *. destruct (lookup_lt_is_Some_2 l (Z.to_nat i)) as [a Ha]; [lia|].
  rewrite Ha. split; [by eapply Forall_lookup_1 | done].
Qed.

Context (HR : forall a, P a -> R a a).

Lemma refl_list l : Forall P l -> Forall2 R l l.
Proof. induction 1; constructor; auto. Qed.

Lemma set_at_ok i a b l : Forall P l -> l !! Z.to_nat i = Some a -> R a b -> Forall2 R l (set_at i b l).
Proof.
  intros Hl Ha Hab. unfold set_at. rewrite <- (list_insert_id l (Z.to_nat i) a Ha) at 1.
  apply Forall2_insert; [by apply refl_list | done].
Qed.

Lemma on_pair_ok i j f l : i <> j -> index_in i l -> index_in j l -> Forall P l ->
  (forall a b, P a -> P b -> R a (f a b).1 /\ R b (f a b).2) -> finishes (on_pair i j f l) (Forall2 R l).
Proof.
  intros Hij Hi Hj Hl Hf. unfold on_pair, indexed_pair_mut. rewrite (proj2 (Z.eqb_neq i j)) by done.
  rewrite (proj2 (Z.ltb_lt i _)), (proj2 (Z.ltb_lt j _)) by apply Hi || apply Hj. cbn [negb andb].
  destruct (finishes_done _ _ (at_index_ok i l Hi Hl)) as (a & -> & Ha & Hla).
  destruct (finishes_done _ _ (at_index_ok j l Hj Hl)) as (b & -> & Hb & Hlb). cbn [mbind outcome_bind mret outcome_ret fst snd].
  destruct (Hf a b Ha Hb) as [Ra Rb]. destruct (f a b) as [a' b']. cbn in *. unfold set_at.
  rewrite <- (list_insert_id l (Z.to_nat j) b Hlb) at 1. apply Forall2_insert; [|done].
  by eapply set_at_ok.
Qed.
End Indexes.

Lemma for_ports_ok {S} (I : S -> Prop) l body s : I s -> (forall port s, I s -> finishes (body port s) I) ->
  finishes (for_ports l body s) I.
Proof.
  intros Hs Hb. revert s Hs. induction l as [|port l IH]; intros s Hs; [done|]. cbn. apply finishes_bind.
  eapply finishes_mono; [by apply Hb | apply IH].
Qed.

Section Safety.
Context {P H : Type} `{PictureUnitLaws P} `{SgbHostLaws H}.
Implicit Types m : Machine P H.
Implicit Types ms : list (Machine P H).
Implicit Types s : LinkedMachines P H.

(** ** What a cable does to a machine *)

(** The invariant holds again, DMA sees what it saw and the clock is the same. *)
Record kept m m' : Prop := {
  kept_ok : machine_ok m';
  kept_inputs : same_dma_inputs m m';
  kept_clock : mc_scheduler m' = mc_scheduler m
}.

Lemma kept_refl m : machine_ok m -> kept m m.
Proof. by constructor. Qed.
Lemma kept_trans m m1 m2 : kept m m1 -> kept m1 m2 -> kept m m2.
Proof. intros [] []. constructor; [done | by eapply same_inputs_trans | congruence]. Qed.

Lemma queue_clock_kept m : machine_ok m -> kept m (queue_external_serial_clock m).
Proof.
  intros Hm. constructor; [|by destruct m..]. apply set_events_ok; [done|]. destruct (mok_events _ Hm).
  destruct (mc_pending_external_events m). constructor; [done..|]. cbn in *. unfold u8, saturating_add8 in *. lia.
Qed.

Lemma port_kept p m : machine_ok m -> attachment_ok p ->
  kept m (sync_serial_peer_from_external_port (m <| mc_external_port := p |>)).
Proof. intros Hm Hp. constructor; [by apply sync_peer_ok, set_port_ok | by destruct m..]. Qed.

Lemma attach_kept k m : machine_ok m -> kept m (set_external_port_attachment k m).
Proof. intros Hm. apply port_kept; [done|]. exact (port_step_ok (PortAttach _) _ (mok_port _ Hm) I). Qed.
Lemma dmg04_byte_kept b m : opt u8 b -> machine_ok m -> kept m (machine_set_dmg04_incoming_byte b m).
Proof.
  intros Hb Hm. apply port_kept; [done|].
  exact (port_step_ok (PortDmg04 b) _ (mok_port _ Hm) ltac:(by destruct b)).
Qed.
Lemma dmg07_byte_kept b m : opt u8 b -> machine_ok m -> kept m (machine_set_dmg07_incoming_byte b m).
Proof.
  intros Hb Hm. apply port_kept; [done|].
  exact (port_step_ok (PortDmg07 b) _ (mok_port _ Hm) ltac:(by destruct b)).
Qed.
Lemma dmg07_attach_kept port m : machine_ok m -> kept m (machine_set_dmg07_attachment port m).
Proof. intros Hm. apply port_kept; [done|]. exact (port_step_ok (PortAttachDmg07 port) _ (mok_port _ Hm) I). Qed.

Lemma infrared_input_kept active m : machine_ok m -> kept m (machine_set_infrared_input active m).
Proof.
  intros Hm. constructor; [|by destruct m..]. apply set_bus_ok; [done|]. unfold set_cgb_infrared_external_input.
  apply bus_set_iohram_ok; [apply Hm|]. destruct (bus_iohram_ok _ (mok_bus _ Hm)) as [? ? ? Hi].
  destruct (bus_iohram (mc_bus m)) as [? ? ? i]. constructor; try done. by destruct i.
Qed.

Lemma staged_byte_u8 m : machine_ok m -> u8 (dmg04_staged_outgoing_byte (dmg04_endpoint_state m)).
Proof.
  intros Hm. cbn. destruct (mok_serial _ Hm) as ((? & ? & ? & _) & _). unfold endpoint_outgoing_byte.
  destruct (Serial.transfer_state _) as [|k]; [done|]. by destruct (negb (k =? 0)).
Qed.

Lemma clock_ends_kept m1 m2 : machine_ok m1 -> machine_ok m2 ->
  kept m1 (clock_waiting_ends m1 m2).1 /\ kept m2 (clock_waiting_ends m1 m2).2.
Proof.
  intros Hl Hr. unfold clock_waiting_ends. cbv zeta. cbn [fst snd].
  split; case_tests; by (apply queue_clock_kept || apply kept_refl).
Qed.

Lemma stage_exchange_kept m1 m2 : machine_ok m1 -> machine_ok m2 ->
  kept m1 (stage_exchange m1 m2).1 /\ kept m2 (stage_exchange m1 m2).2.
Proof.
  intros Hl Hr. pose proof (staged_byte_u8 _ Hl). pose proof (staged_byte_u8 _ Hr). unfold stage_exchange, resolve_dmg04_exchange.
  case_tests; cbn [fst snd left_incoming_byte right_incoming_byte]; split; by apply dmg04_byte_kept.
Qed.

(** ** The topologies *)

Definition ends_ok (n : nat) (i j : Z) : Prop := i <> j /\ 0 <= i < Z.of_nat n /\ 0 <= j < Z.of_nat n.

Record light_ok (p : CgbInfraredPair) : Prop := {
  light_delay : 1 <= optical_propagation_delay_t_cycles p <= 256;
  light_cursor : 0 <= delay_cursor p < optical_propagation_delay_t_cycles p;
  light_lines : length (left_to_right_delay_line p) = 256%nat /\ length (right_to_left_delay_line p) = 256%nat
}.

Record engine_ok (e : Dmg07ByteEngine) : Prop := {
  engine_bits : 0 <= queued_bits_for_byte e <= 8;
  engine_complete : byte_completion_pending e = (queued_bits_for_byte e =? 8);
  engine_next : 0 <= next_bit_t_cycle e < 18446744073709551616
}.

Record adapter_ok (n : nat) (a : Dmg07Adapter) : Prop := {
  adapter_indexes : forall port, opt (fun i => 0 <= i < Z.of_nat n) (per_get port (machine_by_port a));
  adapter_protocol_ok : protocol_ok (adapter_protocol a);
  adapter_engine_ok : engine_ok (adapter_byte_engine a)
}.

Definition topology_ok (n : nat) (t : LinkTopology) : Prop :=
  match t with
  | NoTopology => True
  | Dmg04Topology cable => ends_ok n (cable_left cable) (cable_right cable)
  | Dmg07Topology adapter => adapter_ok n adapter
  | CgbInfraredTopology light => ends_ok n (light_left light) (light_right light) /\ light_ok light
  end.

Definition all_ok ms : Prop := Forall machine_ok ms.

Lemma kept_all ms ms' : Forall2 kept ms ms' -> all_ok ms' /\ length ms' = length ms.
Proof.
  intros Hk. split; [|symmetry; by eapply Forall2_length]. induction Hk as [|m m' ms ms' []]; constructor; done.
Qed.
Lemma kept_all_trans ms ms1 ms2 : Forall2 kept ms ms1 -> Forall2 kept ms1 ms2 -> Forall2 kept ms ms2.
Proof. apply Forall2_trans. intros ???. apply kept_trans. Qed.
Lemma kept_list ms : all_ok ms -> Forall2 kept ms ms.
Proof. apply refl_list. intros. by apply kept_refl. Qed.

Lemma pair_kept i j f ms : ends_ok (length ms) i j -> all_ok ms ->
  (forall m1 m2, machine_ok m1 -> machine_ok m2 -> kept m1 (f m1 m2).1 /\ kept m2 (f m1 m2).2) ->
  finishes (on_pair i j f ms) (Forall2 kept ms).
Proof. intros (Hij & Hi & Hj) Hms Hf. by apply (on_pair_ok machine_ok). Qed.

Lemma cable_prepare_ok p cable ms : ends_ok (length ms) (cable_left cable) (cable_right cable) -> all_ok ms ->
  finishes (cable_prepare_phase p cable ms) (Forall2 kept ms).
Proof.
  intros He Hms. destruct p; try by apply kept_list.
  - apply pair_kept; [done..|]. intros. by apply clock_ends_kept.
  - apply pair_kept; [done..|]. intros. by apply stage_exchange_kept.
Qed.

Lemma propagate_ok b1 b2 p : light_ok p -> finishes (propagate_light b1 b2 p) (fun x => light_ok x.2 /\
  light_left x.2 = light_left p /\ light_right x.2 = light_right p).
Proof.
  intros [Hd Hc [Hl Hr]]. unfold propagate_light, at_index.
  destruct (lookup_lt_is_Some_2 (left_to_right_delay_line p) (Z.to_nat (delay_cursor p))) as [x ->]; [lia|].
  destruct (lookup_lt_is_Some_2 (right_to_left_delay_line p) (Z.to_nat (delay_cursor p))) as [y ->]; [lia|].
  unfold checked_mod. rewrite (proj2 (Z.eqb_neq _ 0)) by lia. cbn. split; [|done]. constructor; cbn; [lia | apply Z.mod_pos_bound; lia|].
  unfold set_at. by rewrite !length_insert.
Qed.

Lemma light_prepare_ok p light ms : topology_ok (length ms) (CgbInfraredTopology light) -> all_ok ms ->
  finishes (light_prepare_phase p light ms)
    (fun x => Forall2 kept ms x.1 /\ topology_ok (length ms) (CgbInfraredTopology x.2)).
Proof.
  intros [He Hl] Hms. assert (Hsame : Forall2 kept ms ms /\ topology_ok (length ms) (CgbInfraredTopology light))
    by (split; [by apply kept_list | done]).
  destruct p; try exact Hsame. unfold light_prepare_phase. apply finishes_bind.
  pose proof He as (Hij & Hi & Hj). unfold indexed_pair_mut. rewrite (proj2 (Z.eqb_neq _ _) Hij).
  rewrite (proj2 (Z.ltb_lt _ _) (proj2 Hi)), (proj2 (Z.ltb_lt _ _) (proj2 Hj)). cbn [negb andb].
  destruct (finishes_done _ _ (at_index_ok machine_ok _ ms Hi Hms)) as (m1 & -> & _ & _).
  destruct (finishes_done _ _ (at_index_ok machine_ok _ ms Hj Hms)) as (m2 & -> & _ & _). cbn [mbind outcome_bind mret outcome_ret finishes fst snd].
  apply finishes_bind. eapply finishes_mono; [by apply propagate_ok|]. intros x (Hx & El & Er).
  apply finishes_bind. eapply finishes_mono; [apply pair_kept; [done..|]|].
  - intros a b Ha Hb. cbn. split; by apply infrared_input_kept.
  - intros ms' Hk. split; [done|]. cbn. by rewrite El, Er.
Qed.

(** ** The adapter *)

(** A port's machine, and what happens to it. *)
Lemma port_machine a ms0 ms port i : adapter_ok (length ms0) a -> Forall2 kept ms0 ms ->
  per_get port (machine_by_port a) = Some i ->
  exists m, at_index ms i = Done m /\ machine_ok m /\
    forall m', kept m m' -> Forall2 kept ms0 (set_at i m' ms).
Proof.
  intros Ha Hk Hi. destruct (kept_all _ _ Hk) as [Hms Hl]. pose proof (adapter_indexes _ _ Ha port) as Hin. rewrite Hi in Hin.
  destruct (finishes_done _ _ (at_index_ok machine_ok i ms ltac:(unfold index_in; by rewrite Hl) Hms)) as (m & E & Hm & Hlm).
  exists m. split_and!; [done..|]. intros m' Hm'. eapply kept_all_trans; [done|].
  eapply (set_at_ok machine_ok); [intros; by apply kept_refl | done..].
Qed.

Lemma adapter_prepare_ok p t a ms : 0 <= t < 2 ^ 63 -> adapter_ok (length ms) a -> all_ok ms ->
  finishes (adapter_prepare_phase p t a ms) (fun x => Forall2 kept ms x.1 /\ adapter_ok (length ms) x.2).
Proof.
  intros Ht Ha Hms. assert (Hsame : Forall2 kept ms ms /\ adapter_ok (length ms) a) by (split; [by apply kept_list | done]).
  destruct p; try exact Hsame. unfold adapter_prepare_phase. destruct (negb _) eqn:Eq; [done|]. apply finishes_bind.
  eapply finishes_mono with (Q := fun x => Forall2 kept ms x.1).
  - apply for_ports_ok; [by apply kept_list|]. intros port [ms1 clocked] Hk. unfold offer_bit.
    destruct (per_get port (machine_by_port a)) as [i|] eqn:Ei; [|done]. apply finishes_bind.
    eapply finishes_mono; [apply protocol_byte_u8, Ha|]. intros b Hb. cbn [fst snd].
    destruct (port_machine a ms ms1 port i Ha Hk Ei) as (m & -> & Hm & Hset). cbn [mbind outcome_bind fst snd].
    destruct (dmg07_waiting_for_external_clock _); [|done]. apply Hset. eapply kept_trans; [by apply (dmg07_byte_kept (Some b))|].
    apply queue_clock_kept, dmg07_byte_kept; done.
  - intros x Hx. split; [done|]. destruct Ha as [Hi Hp [Hb Hc Hn]]. constructor; [done..|]. cbn.
    apply negb_false_iff, andb_prop in Eq as [Eq _]. rewrite Hc in Eq. apply negb_true_iff, Z.eqb_neq in Eq.
    unfold record_queued_bit. destruct (Z.eqb_spec (queued_bits_for_byte (adapter_byte_engine a) + 1) 8) as [E|E]; constructor; cbn.
    + lia.
    + by rewrite E.
    + done.
    + lia.
    + rewrite Hc. rewrite !(proj2 (Z.eqb_neq _ _)) by lia. done.
    + unfold DMG07_SERIAL_BIT_PERIOD_T_CYCLES. lia.
Qed.

Lemma delay_range ph p : counters_ok p -> 0 <= delay_after_completed_phase_t_cycles ph p < 2 ^ 20.
Proof.
  intros (Hs & Hr & _). assert (Hlow : 0 <= Z.land (rate p) 0x0F < 16) by (rewrite Z.land_comm; apply (range_land 4); lia).
  assert (Hhigh : 0 <= Z.shiftr (rate p) 4 < 16) by (rewrite Z.shiftr_div_pow2 by lia; unfold u8 in Hr; split; [apply Z.div_pos; lia | apply Z.div_lt_upper_bound; lia]).
  unfold delay_after_completed_phase_t_cycles, ping_inter_packet_delay_t_cycles, transmission_packet_boundary_delay_t_cycles,
    transmission_inter_byte_delay_t_cycles, packet_len, DMG07_PING_BASE_INTER_PACKET_DELAY_T_CYCLES, DMG07_RATE_LOW_NIBBLE_STEP_DELAY_T_CYCLES,
    DMG07_TRANSMISSION_BASE_INTER_BYTE_DELAY_T_CYCLES, DMG07_TRANSMISSION_RATE_STEP_DELAY_T_CYCLES,
    DMG07_TRANSMISSION_BASE_PACKET_PERIOD_T_CYCLES, DMG07_SERIAL_BIT_PERIOD_T_CYCLES, DMG07_PING_INTER_BYTE_DELAY_T_CYCLES.
  destruct ph; case_tests; nia.
Qed.

Lemma completed_delay outs p : protocol_ok p -> outgoing_typed outs ->
  finishes (complete_byte outs p) (fun p' => protocol_ok p' /\ 0 <= delay_after_completed_byte_t_cycles p' < 2 ^ 20).
Proof.
  intros Hp Ho. pose proof (complete_byte_ok outs p Hp Ho) as Hc. unfold complete_byte in *. cbv zeta in *.
  match goal with |- context [?x ≫= _] => destruct x as [p1|] end; [|done]. cbn in *. split; [done|].
  pose proof (delay_range (Dmg07.phase p) p1) as Hd. destruct p1. apply Hd, Hc.
Qed.

Lemma latest_byte_u8 m : machine_ok m -> opt u8 (latest_completed_output_byte (mc_serial m)).
Proof. intros Hm. apply (mok_serial _ Hm). Qed.

Lemma adapter_finish_ok p t a ms : 0 <= t < 2 ^ 63 -> adapter_ok (length ms) a -> all_ok ms ->
  finishes (adapter_finish_phase p t a ms) (fun x => Forall2 kept ms x.1 /\ adapter_ok (length ms) x.2).
Proof.
  intros Ht Ha Hms. assert (Hsame : Forall2 kept ms ms /\ adapter_ok (length ms) a) by (split; [by apply kept_list | done]).
  destruct p; try exact Hsame. unfold adapter_finish_phase, take_byte_completion_pending.
  pose proof Ha as [Hi Hp [Hb Hc Hn]]. destruct (byte_completion_pending _) eqn:Eb; cbn [negb].
  2: { split; [by apply kept_list|]. constructor; [done..|]. cbn. by constructor. }
  apply finishes_bind. eapply finishes_mono with (Q := fun x => Forall2 kept ms x.1 /\ outgoing_typed x.2).
  - apply for_ports_ok; [split; [by apply kept_list | by intros []]|]. intros port [ms1 outs] [Hk Ho]. unfold collect_byte.
    destruct (per_get port (machine_by_port a)) as [i|] eqn:Ei; [|done]. cbn [fst snd].
    destruct (port_machine a ms ms1 port i Ha Hk Ei) as (m & -> & Hm & Hset). cbn [mbind outcome_bind fst snd].
    split; [by apply Hset, (dmg07_byte_kept None m I)|]. cbn. destruct (per_get port (clocked_ports_for_byte a)); [|done].
    intros port'. rewrite per_get_set. case_decide; [|apply Ho].
    pose proof (latest_byte_u8 m Hm) as Hb8. by destruct (latest_completed_output_byte (mc_serial m)).
  - intros [ms1 outs] [Hk Ho]. cbn [fst snd] in *. apply finishes_bind. eapply finishes_mono; [by apply completed_delay|].
    intros p' [Hp' Hd]. split; [done|]. constructor; [done..|]. cbn. constructor; cbn; [lia | done|].
    change (2 ^ 63) with 9223372036854775808 in Ht. change (2 ^ 20) with 1048576 in Hd. lia.
Qed.

(** ** Stepping the machines of a session *)

(** The machines and their contexts, with room for [e], [d], [i] and [q] more
    records, under a topology that knows where its machines are. *)
Record stage (t : TCycle) (e d i q : nat) s : Prop := {
  stage_pairs : Forall2 (fun m c => machine_ok m /\ context_ready t e d i q c) (machines s) (contexts s);
  stage_topology : topology_ok (length (machines s)) (topology s);
  stage_clock : next_t_cycle (linked_scheduler s) = t
}.

Lemma pairs_all {t e d i q ms cs} : Forall2 (fun m c => machine_ok m /\ context_ready t e d i q c) ms cs -> all_ok ms.
Proof. induction 1 as [|m c ms cs []]; by constructor. Qed.

Lemma prepare_ok p t e d i q s : 0 <= t < 2 ^ 63 -> stage t e d i q s ->
  finishes (prepare_phase p s) (fun s' => Forall2 kept (machines s) (machines s') /\ contexts s' = contexts s /\
    topology_ok (length (machines s)) (topology s') /\ next_t_cycle (linked_scheduler s') = t).
Proof.
  intros Ht [Hp Htop Hc]. pose proof (pairs_all Hp) as Hms. destruct s as [k ms top cs]. unfold prepare_phase. cbn in *.
  rewrite Hc. destruct top as [|cable|adapter|light]; cbn in Htop.
  - split_and!; [by apply kept_list | done..].
  - apply finishes_bind. eapply finishes_mono; [by apply cable_prepare_ok|]. by intros ms' Hk.
  - apply finishes_bind. eapply finishes_mono; [by apply adapter_prepare_ok|]. by intros x [Hk Ha].
  - apply finishes_bind. eapply finishes_mono; [by apply light_prepare_ok|]. by intros x [Hk Ha].
Qed.

Lemma finish_ok p t e d i q s : 0 <= t < 2 ^ 63 -> stage t e d i q s ->
  finishes (finish_phase p s) (fun s' => Forall2 kept (machines s) (machines s') /\ contexts s' = contexts s /\
    topology_ok (length (machines s)) (topology s') /\ next_t_cycle (linked_scheduler s') = t).
Proof.
  intros Ht [Hp Htop Hc]. pose proof (pairs_all Hp) as Hms. destruct s as [k ms top cs]. unfold finish_phase. cbn in *.
  rewrite Hc. destruct top as [|cable|adapter|light]; try (split_and!; [by apply kept_list | done..]).
  apply finishes_bind. eapply finishes_mono; [by apply adapter_finish_ok|]. by intros x [Hk Ha].
Qed.

Lemma step_each_ok records_events (I : Machine P H -> CycleContext -> Prop) Q ms cs :
  (forall m c, I m c -> finishes (step_phase_with_context records_events (m, c)) (fun x => Q m x.2.1 x.2.2)) ->
  Forall2 I ms cs -> finishes (step_each records_events ms cs) (fun r => Forall3 Q ms r.1 r.2).
Proof.
  intros Hstep. induction 1 as [|m c ms cs Hm Hms IH]; cbn [step_each]; [constructor|].
  apply finishes_bind. eapply finishes_mono; [by apply Hstep|]. intros x Hx.
  apply finishes_bind. eapply finishes_mono; [exact IH|]. intros r Hr. by constructor.
Qed.

Lemma step_each_panics records_events (I : Machine P H -> CycleContext -> Prop) ms cs :
  (forall m c, I m c -> if dma_overflows m then exists why, step_phase_with_context records_events (m, c) = Panic why
     else finishes (step_phase_with_context records_events (m, c)) (fun _ => True)) ->
  Forall2 I ms cs -> existsb dma_overflows ms = true -> exists why, step_each records_events ms cs = Panic why.
Proof.
  intros Hstep. induction 1 as [|m c ms cs Hm Hms IH]; cbn [step_each existsb]; [done|]. specialize (Hstep m c Hm).
  destruct (dma_overflows m); cbn [orb].
  - intros _. destruct Hstep as [why ->]. by exists why.
  - intros [why E]%IH. destruct (finishes_done _ _ Hstep) as (x & -> & _). exists why. cbn [mbind outcome_bind]. by rewrite E.
Qed.

Lemma kept_pairs t e d i q ms ms' cs : Forall2 kept ms ms' ->
  Forall2 (fun m c => machine_ok m /\ context_ready t e d i q c) ms cs ->
  Forall2 (fun m c => machine_ok m /\ context_ready t e d i q c) ms' cs.
Proof.
  intros Hk. revert cs. induction Hk as [|m m' ms ms' [Hm _ _] Hms IH]; intros cs Hp; inversion Hp as [|? ? ? ? [_ Hc]]; subst;
    constructor; [done | by apply IH].
Qed.

(** A relation a phase keeps: that DMA sees the same, or nothing. *)
Class Tracked (K : Machine P H -> Machine P H -> Prop) : Prop := {
  tracked_same : forall m m', same_dma_inputs m m' -> K m m';
  tracked_trans : forall m m1 m2, K m m1 -> K m1 m2 -> K m m2
}.
Instance same_tracked : Tracked same_dma_inputs.
Proof. constructor; [done | apply same_inputs_trans]. Qed.
Instance anything_tracked : Tracked (fun _ _ => True).
Proof. by constructor. Qed.

(** What a phase needs of one machine and leaves of it. *)
Definition machine_phase records_events (K : Machine P H -> Machine P H -> Prop) (G : Machine P H -> Prop) (p : SchedulerPhase)
    (t : TCycle) (e d i q e' d' i' q' : nat) : Prop := forall m c,
  machine_ok m -> G m -> context_ready t e d i q c ->
  finishes (step_phase_with_context records_events (m, enter_phase p c))
    (fun x => K m x.2.1 /\ machine_ok x.2.1 /\ context_ready t e' d' i' q' x.2.2).

Lemma linked_phase_ok records_events K `{!Tracked K} (G : Machine P H -> Prop) p t e d i q e' d' i' q' s :
  machine_phase records_events K G p t e d i q e' d' i' q' -> (forall m m', same_dma_inputs m m' -> G m -> G m') ->
  0 <= t < 2 ^ 63 -> Forall G (machines s) -> stage t e d i q s ->
  finishes (linked_phase records_events p s) (fun s' => stage t e' d' i' q' s' /\ Forall2 K (machines s) (machines s')).
Proof.
  intros Hstep HG Ht Hg Hs. unfold linked_phase. apply finishes_bind. destruct s as [k ms top cs]. destruct Hs as [Hp Htop Hc]. cbn in *.
  assert (Hs1 : stage t e d i q (mkLinked k ms top (map (enter_phase p) cs))).
  { constructor; [|done..]. cbn. apply Forall2_fmap_r. eapply Forall2_impl; [|exact Hp]. intros m c [Hm Hcr]. split; [done|].
    by apply enter_phase_ready. }
  eapply finishes_mono; [by eapply prepare_ok|]. intros [k1 ms1 top1 cs1] (Hk & Ecs & Htop1 & Hc1). cbn in *. subst cs1.
  assert (Hg1 : Forall G ms1).
  { clear -Hk Hg HG. revert Hg. induction Hk as [|m m' ms ms' [] Hms IH]; inversion 1; subst; constructor; eauto. }
  assert (Hin : Forall2 (fun m c => (machine_ok m /\ context_ready t e d i q c) /\ G m) ms1 cs).
  { pose proof (kept_pairs _ _ _ _ _ _ _ _ Hk Hp) as Hp1. clear -Hg1 Hp1. revert Hg1.
    induction Hp1; inversion 1; subst; constructor; auto. }
  apply finishes_bind. eapply finishes_mono.
  { apply (step_each_ok records_events (fun m c => exists c0, c = enter_phase p c0 /\ (machine_ok m /\ context_ready t e d i q c0) /\ G m)
      (fun m m' c => K m m' /\ machine_ok m' /\ context_ready t e' d' i' q' c)).
    - intros m c (c0 & -> & (Hm & Hc0) & Hgm). by apply Hstep.
    - apply Forall2_fmap_r. eapply Forall2_impl; [|exact Hin]. intros m c Hmc. by exists c. }
  intros [ms2 cs2] Hstepped. cbn [fst snd] in *.
  assert (HK2 : Forall2 K ms1 ms2 /\ Forall2 (fun m c => machine_ok m /\ context_ready t e' d' i' q' c) ms2 cs2).
  { clear -Hstepped. induction Hstepped as [|m m' c ms ms' cs (? & ? & ?) Hms [IH1 IH2]]; split; by constructor. }
  destruct HK2 as [HK2 Hp2]. pose proof (kept_all _ _ Hk) as [_ Hl1]. pose proof (Forall2_length HK2) as Hl2.
  eapply finishes_mono.
  { apply (finish_ok p t e' d' i' q' (mkLinked k1 ms2 top1 cs2)); [done|]. constructor; [done| |done]. cbn. by rewrite <- Hl2, Hl1. }
  intros [k3 ms3 top3 cs3] (Hk3 & Ecs & Htop3 & Hc3). cbn in *. subst cs3. split.
  - constructor; [by eapply kept_pairs | | done]. cbn. destruct (kept_all _ _ Hk3) as [_ ->]. done.
  - assert (Hkeep : forall l l', Forall2 kept l l' -> Forall2 K l l').
    { intros l l' Hl. eapply Forall2_impl; [|exact Hl]. intros m m' []. by apply tracked_same. }
    eapply (Forall2_trans K K K); [intros ???; apply tracked_trans | by apply Hkeep|].
    eapply (Forall2_trans K K K); [intros ???; apply tracked_trans | exact HK2 | by apply Hkeep].
Qed.

(** ** The nine phases *)

Lemma context_phase_ok records_events p m c (Q : Machine P H -> CycleContext -> Prop) :
  finishes (step_phase records_events (runner_new m, enter_phase p c)) (fun x => Q (runner_machine x.2.1) x.2.2) ->
  finishes (step_phase_with_context records_events (m, enter_phase p c)) (fun x => Q x.2.1 x.2.2).
Proof. intros Hf. rewrite with_context_phase. apply finishes_bind. eapply finishes_mono; [exact Hf | done]. Qed.

Lemma fresh_runner_ok m : machine_ok m -> runner_ok (runner_new m).
Proof. by constructor. Qed.

Section Phases.
Context (records_events : bool) (t : TCycle) (Ht : 0 <= t < 2 ^ 63) (G : Machine P H -> Prop).

Lemma ingress_phase e d i q :
  machine_phase records_events same_dma_inputs G ExternalEventIngress t (2 + e) d i q e d i q.
Proof.
  intros m c Hm _ Hc. apply (context_phase_ok _ _ _ _ (fun m' c' => same_dma_inputs m m' /\ machine_ok m' /\ context_ready t e d i q c')).
  eapply finishes_mono; [by apply enter_ingress; [apply fresh_runner_ok|]|]. intros x [[[Hx _] Hc'] Hs]. done.
Qed.

Lemma edges_phase e d i q :
  machine_phase records_events same_dma_inputs G DerivedEdgeResolution t e (3 + d) (1 + i) q e d i q.
Proof.
  intros m c Hm _ Hc. apply (context_phase_ok _ _ _ _ (fun m' c' => same_dma_inputs m m' /\ machine_ok m' /\ context_ready t e d i q c')).
  eapply finishes_mono; [by apply enter_edges; [apply fresh_runner_ok|]|]. intros x [[[Hx _] Hc'] Hs]. done.
Qed.

Lemma clock_phase e d i q : machine_phase records_events same_dma_inputs G MasterClockTick t e d i q e d i q.
Proof.
  intros m c Hm _ Hc. apply (context_phase_ok _ _ _ _ (fun m' c' => same_dma_inputs m m' /\ machine_ok m' /\ context_ready t e d i q c')).
  unfold step_phase. rewrite phase_entered. split_and!; [done..|]. by apply enter_phase_ready.
Qed.

(** The other phases, of which nothing is tracked. *)
Lemma untracked_phase p e d i q e' d' i' q' :
  (forall m c, machine_ok m -> G m -> context_ready t e d i q c ->
    finishes (step_phase records_events (runner_new m, enter_phase p c)) (fun x => runner_phase_ok t e' d' i' q' x.2)) ->
  machine_phase records_events (fun _ _ => True) G p t e d i q e' d' i' q'.
Proof.
  intros Hp m c Hm Hg Hc. apply (context_phase_ok _ _ _ _ (fun m' c' => True /\ machine_ok m' /\ context_ready t e' d' i' q' c')).
  eapply finishes_mono; [by apply Hp|]. by intros x [[Hx _] Hc'].
Qed.
End Phases.

(** What is left of the T-cycle once no transfer leaves the address space. *)
Definition calm m : Prop := dma_overflows m = false.
Lemma calm_kept m m' : same_dma_inputs m m' -> calm m -> calm m'.
Proof. unfold calm. by intros ->%same_inputs_overflow. Qed.

Section Cycle.
Context (records_events : bool) (t : TCycle) (Ht : 0 <= t < 2 ^ 63).
Implicit Types rest : list SchedulerPhase.

Lemma phase_then Q K `{!Tracked K} (G : Machine P H -> Prop) p rest e d i q e' d' i' q' s :
  machine_phase records_events K G p t e d i q e' d' i' q' -> (forall m m', same_dma_inputs m m' -> G m -> G m') ->
  Forall G (machines s) -> stage t e d i q s ->
  (forall s', stage t e' d' i' q' s' -> Forall2 K (machines s) (machines s') -> finishes (linked_phases records_events rest s') Q) ->
  finishes (linked_phases records_events (p :: rest) s) Q.
Proof.
  intros Hp HG Hg Hs Hrest. cbn [linked_phases]. apply finishes_bind.
  eapply finishes_mono; [by apply (linked_phase_ok records_events K G p t e d i q e' d' i' q')|].
  intros s' [Hs' HK]. by apply Hrest.
Qed.

Lemma no_guard ms : Forall (fun _ => True) ms.
Proof. by apply Forall_true. Qed.

Lemma later_linked_phases_ok s : Forall calm (machines s) -> stage t 14 13 15 16 s ->
  finishes (linked_phases records_events [AutonomousPeripheralTicks; BusArbitration; CpuMicroOperation; MmioSideEffectCommit;
      InterruptAggregation; CpuWakeInterruptEvaluation] s)
    (fun s' => stage t 14 13 14 0 s' /\ length (machines s') = length (machines s)).
Proof.
  intros Hcalm Hs.
  assert (Hlen : forall s1 s2, Forall2 (fun _ _ => True) (machines s1) (machines s2) -> length (machines s2) = length (machines s1))
    by (intros s1 s2 Hl; symmetry; exact (Forall2_length Hl)).
  eapply (phase_then _ (fun _ _ => True) calm); [|apply calm_kept | exact Hcalm | exact Hs|].
  { apply untracked_phase. intros m c Hm Hc Hr. apply (enter_peripherals records_events t Ht 14 13 14 16); [done | by apply fresh_runner_ok | done]. }
  intros s1 Hs1 <-%Hlen. clear s Hs Hcalm.
  eapply (phase_then _ (fun _ _ => True) (fun _ => True)); [|done | apply no_guard | exact Hs1|].
  { apply untracked_phase. intros m c Hm _ Hr. apply (enter_arbitration records_events t 14 13 14 16); [by apply fresh_runner_ok | done]. }
  intros s2 Hs2 <-%Hlen.
  eapply (phase_then _ (fun _ _ => True) (fun _ => True)); [|done | apply no_guard | exact Hs2|].
  { apply untracked_phase. intros m c Hm _ Hr. apply (enter_cpu records_events t Ht 14 13 14); [by apply fresh_runner_ok | done]. }
  intros s3 Hs3 <-%Hlen.
  do 3 (eapply (phase_then _ (fun _ _ => True) (fun _ => True)); [|done | apply no_guard | eassumption|];
    [apply untracked_phase; intros m c Hm _ Hr; apply (enter_quiet records_events t _ 14 13 14 0); [auto | by apply fresh_runner_ok | done]
    |intros ? ? <-%Hlen]).
  done.
Qed.

(** The phases before the peripherals', after which DMA sees what it saw. *)
Lemma first_linked_phases rest s : stage t 16 16 16 16 s -> exists s',
  stage t 14 13 15 16 s' /\ Forall2 same_dma_inputs (machines s) (machines s') /\
  linked_phases records_events (ExternalEventIngress :: MasterClockTick :: DerivedEdgeResolution :: rest) s =
    linked_phases records_events rest s'.
Proof.
  intros Hs.
  assert (Hphase : forall p e d i q e' d' i' q' s, machine_phase records_events same_dma_inputs (fun _ => True) p t e d i q e' d' i' q' ->
    stage t e d i q s -> exists s', stage t e' d' i' q' s' /\ Forall2 same_dma_inputs (machines s) (machines s') /\
      linked_phase records_events p s = Done s').
  { intros p e d i q e' d' i' q' s1 Hp Hs1.
    destruct (finishes_done _ _ (linked_phase_ok records_events same_dma_inputs (fun _ => True) p t e d i q e' d' i' q' s1 Hp
      ltac:(done) Ht (no_guard _) Hs1)) as (s2 & E & Hs2 & HK). by exists s2. }
  destruct (Hphase ExternalEventIngress _ _ _ _ 14%nat 16%nat 16%nat 16%nat s (ingress_phase records_events t _ 14 16 16 16) Hs) as (s1 & Hs1 & K1 & E1).
  destruct (Hphase MasterClockTick _ _ _ _ 14%nat 16%nat 16%nat 16%nat s1 (clock_phase records_events t _ 14 16 16 16) Hs1) as (s2 & Hs2 & K2 & E2).
  destruct (Hphase DerivedEdgeResolution _ _ _ _ 14%nat 13%nat 15%nat 16%nat s2 (edges_phase records_events t _ 14 13 15 16) Hs2) as (s3 & Hs3 & K3 & E3).
  exists s3. split_and!; [done| |cbn [linked_phases]; by rewrite E1; cbn [mbind outcome_bind]; rewrite E2; cbn [mbind outcome_bind]; rewrite E3].
  eapply (Forall2_trans same_dma_inputs same_dma_inputs same_dma_inputs); [intros ???; apply same_inputs_trans | exact K1|].
  eapply (Forall2_trans same_dma_inputs same_dma_inputs same_dma_inputs); [intros ???; apply same_inputs_trans | exact K2 | exact K3].
Qed.

Lemma same_overflows ms ms' : Forall2 same_dma_inputs ms ms' -> map dma_overflows ms' = map dma_overflows ms.
Proof. induction 1 as [|m m' ms ms' Hm Hms IH]; [done|]. cbn. by rewrite IH, (same_inputs_overflow m m'). Qed.
Lemma existsb_map {A} (f : A -> bool) l : existsb f l = existsb id (map f l).
Proof. induction l as [|a l IH]; [done|]. cbn. by rewrite IH. Qed.

Lemma overflowing_phase_panics rest e d i q s : stage t e d (1 + i) q s -> existsb dma_overflows (machines s) = true ->
  exists why, linked_phases records_events (AutonomousPeripheralTicks :: rest) s = Panic why.
Proof.
  intros [Hp Htop Hc] Hover. cbn [linked_phases]. unfold linked_phase. destruct s as [k ms top cs]. cbn in *.
  assert (Hs1 : stage t e d (1 + i) q (mkLinked k ms top (map (enter_phase AutonomousPeripheralTicks) cs))).
  { constructor; [|done..]. cbn. apply Forall2_fmap_r. eapply Forall2_impl; [|exact Hp]. intros m c [Hm Hcr]. split; [done|].
    by apply enter_phase_ready. }
  destruct (finishes_done _ _ (prepare_ok AutonomousPeripheralTicks _ _ _ _ _ _ Ht Hs1)) as ([k1 ms1 top1 cs1] & -> & Hk & Ecs & _).
  cbn in *. subst cs1.
  assert (Hsame : map dma_overflows ms1 = map dma_overflows ms).
  { apply same_overflows. eapply Forall2_impl; [|exact Hk]. by intros ?? []. }
  destruct (step_each_panics records_events
    (fun m c => exists c0, c = enter_phase AutonomousPeripheralTicks c0 /\ machine_ok m /\ context_ready t e d (1 + i) q c0)
    ms1 (map (enter_phase AutonomousPeripheralTicks) cs)) as [why ->].
  - intros m c (c0 & -> & Hm & Hc0). destruct (dma_overflows m) eqn:Eo.
    + destruct (autonomous_panics (enter_phase AutonomousPeripheralTicks c0) (runner_new m) Eo (fresh_runner_ok m Hm)) as [why E].
      exists why. rewrite with_context_phase. unfold step_phase. rewrite phase_entered, E. done.
    + apply (context_phase_ok _ _ _ _ (fun _ _ => True)). eapply finishes_mono; [|done].
      apply (enter_peripherals records_events t Ht e d i q); [done | by apply fresh_runner_ok | done].
  - apply Forall2_fmap_r. eapply Forall2_impl; [|exact (kept_pairs _ _ _ _ _ _ _ _ Hk Hp)]. intros m c Hmc. by exists c.
  - by rewrite existsb_map, Hsame, <- existsb_map.
  - by exists why.
Qed.
End Cycle.

(** ** The invariant of a session *)

Record session_ok s : Prop := {
  session_lengths : length (contexts s) = length (machines s);
  session_machines : all_ok (machines s);
  session_contexts : Forall (fun c => exists t, context_ready t 0 0 0 0 c) (contexts s);
  session_topology : topology_ok (length (machines s)) (topology s);
  session_clocks : Forall (fun m => next_t_cycle (mc_scheduler m) = next_t_cycle (linked_scheduler s)) (machines s)
}.

Lemma cleared_room {T} n (b : CycleRecordBuffer T) : buffer_room n b -> buffer_room 16 (buffer_clear b).
Proof. intros (Hok & Hc & Hl). unfold buffer_room, buffer_ok, buffer_clear, capacity in *. cbn. lia. Qed.

Lemma reset_ready t t' e d i q c : context_ready t e d i q c -> context_ready t' 16 16 16 16 (reset_for_cycle c t').
Proof. intros []. constructor; [done | by eapply cleared_room..]. Qed.

Lemma reset_stage s t : session_ok s -> next_t_cycle (linked_scheduler s) = t ->
  stage t 16 16 16 16 (s <| contexts := map (fun c => reset_for_cycle c t) (contexts s) |>).
Proof.
  intros [Hl Hms Hcs Htop _] Ht. destruct s as [k ms top cs]. cbn in *. constructor; [|done..]. cbn. clear -Hl Hms Hcs.
  revert cs Hl Hcs. induction Hms as [|m ms Hm Hms IH]; intros [|c cs]; try done; cbn.
  intros Hl Hcs. inversion Hcs as [|? ? [t0 Hc] Hcs']; subst. constructor; [|apply IH; [congruence | done]].
  split; [done|]. by eapply reset_ready.
Qed.

Lemma stage_session_ok t n s : stage t 14 13 14 0 s ->
  session_ok (s <| linked_scheduler := set_next_t_cycle (linked_scheduler s) n |> <| machines := map (sync_scheduler_next_t_cycle n) (machines s) |>).
Proof.
  intros [Hp Htop Hc]. destruct s as [k ms top cs]. cbn in *. constructor; cbn.
  - rewrite length_map. symmetry. exact (Forall2_length Hp).
  - apply Forall_map. eapply Forall_impl; [|exact (pairs_all Hp)]. intros m Hm. by apply set_scheduler_ok.
  - clear -Hp. induction Hp as [|m c ms cs [_ Hc] Hp IH]; constructor; [|done]. exists t.
    eapply context_ready_weaken; [..|exact Hc]; lia.
  - by rewrite length_map.
  - apply Forall_map, Forall_true. by intros [].
Qed.

Lemma linked_advance_ok records_events s : session_ok s -> 0 <= next_t_cycle (linked_scheduler s) < 2 ^ 63 ->
  if existsb dma_overflows (machines s) then exists why, advance_t_cycle records_events s = Panic why
  else finishes (advance_t_cycle records_events s) (fun s' => session_ok s' /\
    next_t_cycle (linked_scheduler s') = next_t_cycle (linked_scheduler s) + 1 /\ length (machines s') = length (machines s)).
Proof.
  intros Hs Ht. set (t := next_t_cycle (linked_scheduler s)) in *. pose proof (reset_stage s t Hs eq_refl) as Hreset.
  unfold advance_t_cycle. fold t. rewrite (session_lengths s Hs), Nat.eqb_refl. cbn [negb]. unfold ORDER.
  destruct (first_linked_phases records_events t Ht [AutonomousPeripheralTicks; BusArbitration; CpuMicroOperation; MmioSideEffectCommit;
    InterruptAggregation; CpuWakeInterruptEvaluation] _ Hreset) as (s1 & Hs1 & HK & ->).
  replace (machines (s <| contexts := map (fun c => reset_for_cycle c t) (contexts s) |>)) with (machines s) in HK by (by destruct s).
  pose proof (same_overflows _ _ HK) as Hsame. rewrite existsb_map, <- Hsame, <- existsb_map.
  destruct (existsb dma_overflows (machines s1)) eqn:Hover.
  - destruct (overflowing_phase_panics records_events t Ht [BusArbitration; CpuMicroOperation; MmioSideEffectCommit;
      InterruptAggregation; CpuWakeInterruptEvaluation] 14 13 14 16 s1 Hs1 Hover) as [why ->]. by exists why.
  - assert (Hcalm : Forall calm (machines s1)).
    { apply Forall_forall. intros m Hm. unfold calm. destruct (dma_overflows m) eqn:E; [|done]. rewrite <- Hover. symmetry.
      apply existsb_exists. exists m. split; [exact Hm | done]. }
    destruct (finishes_done _ _ (later_linked_phases_ok records_events t Ht s1 Hcalm Hs1)) as (s2 & -> & Hs2 & Hl). cbn [mbind outcome_bind].
    unfold TCycle_next. rewrite (proj2 (Z.ltb_lt _ _)) by lia. cbn [mbind outcome_bind mret outcome_ret finishes].
    split; [by eapply stage_session_ok|]. destruct s2 as [k2 ms2 top2 cs2]. cbn in *. split; [done|].
    rewrite length_map, Hl. symmetry. exact (Forall2_length HK).
Qed.

(** ** Linking and unlinking *)

Lemma with_kept s ms top : session_ok s -> Forall2 kept (machines s) ms -> topology_ok (length ms) top ->
  session_ok (s <| machines := ms |> <| topology := top |>).
Proof.
  intros [Hl Hms Hcs _ Hclock] Hk Htop. destruct (kept_all _ _ Hk) as [Hms' Hl']. destruct s as [k ms0 top0 cs]. cbn in *.
  constructor; cbn; [congruence | done..|]. clear -Hk Hclock. revert Hclock.
  induction Hk as [|m m' ms0 ms [_ _ Hm] Hk IH]; intros Hclock; [constructor|]. inversion Hclock; subst. constructor; [by rewrite Hm | by apply IH].
Qed.

Lemma map_kept f ms : (forall m, machine_ok m -> kept m (f m)) -> all_ok ms -> Forall2 kept ms (map f ms).
Proof. intros Hf. induction 1 as [|m ms Hm Hms IH]; constructor; auto. Qed.

Lemma adapter_detach_ok a ms : adapter_ok (length ms) a -> all_ok ms -> finishes (adapter_detach a ms) (Forall2 kept ms).
Proof.
  intros Ha Hms. apply for_ports_ok; [by apply kept_list|]. intros port ms1 Hk.
  destruct (per_get port (machine_by_port a)) as [i|] eqn:Ei; [|done].
  destruct (port_machine a ms ms1 port i Ha Hk Ei) as (m & -> & Hm & Hset). by apply Hset, attach_kept.
Qed.

(** What linking leaves alone. *)
Definition relinked s s' : Prop :=
  session_ok s' /\ linked_scheduler s' = linked_scheduler s /\ length (machines s') = length (machines s).

Lemma detach_ok s : session_ok s -> finishes (detach_link_topology s) (relinked s).
Proof.
  intros Hs. unfold detach_link_topology. apply finishes_bind. pose proof (session_machines _ Hs) as Hms.
  eapply finishes_mono with (Q := Forall2 kept (machines s)).
  - pose proof (session_topology _ Hs) as Htop. destruct (topology s) as [|cable|adapter|light]; cbn in Htop.
    + by apply kept_list.
    + apply pair_kept; [done..|]. intros m1 m2 Hl Hr. split; by apply attach_kept.
    + by apply adapter_detach_ok.
    + apply pair_kept; [apply Htop | done|]. intros m1 m2 Hl Hr. split; by apply infrared_input_kept.
  - intros ms Hk. split; [by apply with_kept|]. destruct s. split; [done|]. by apply (kept_all _ _ Hk).
Qed.

Lemma validate_each_ok k indexes s : session_ok s -> Forall (fun i => index_in i (machines s)) indexes ->
  finishes (validate_each k indexes s) (fun _ => True).
Proof.
  intros Hs. induction 1 as [|i indexes Hi _ IH]; [done|]. cbn. apply finishes_bind. unfold validate_machine_external_port_attachment.
  destruct (finishes_done _ _ (at_index_ok machine_ok i _ Hi (session_machines _ Hs))) as (m & -> & _). cbn [mbind outcome_bind mret outcome_ret finishes].
  by destruct (supports_external_port_attachment k m).
Qed.

Lemma relinked_refl s : session_ok s -> relinked s s.
Proof. done. Qed.

Lemma all_indexes ms : Forall (fun i => index_in i ms) (map Z.of_nat (seq 0 (length ms))).
Proof. apply Forall_map, Forall_seq. unfold index_in. intros j Hj. lia. Qed.

Lemma attach_dmg04_ok s : session_ok s -> finishes (attach_dmg04_cable s) (fun r => relinked s r.1).
Proof.
  intros Hs. unfold attach_dmg04_cable. destruct (negb _) eqn:Hn; [by apply relinked_refl|].
  apply negb_false_iff, Z.eqb_eq in Hn. apply finishes_bind.
  eapply finishes_mono; [apply validate_each_ok; [done | apply all_indexes]|]. intros [e|] _; [by apply relinked_refl|].
  apply finishes_bind. eapply finishes_mono; [by apply detach_ok|]. intros s1 (Hs1 & Ek & El). cbn.
  assert (Hk : Forall2 kept (machines s1) (map (fun m => machine_set_dmg04_incoming_byte None (set_external_port_attachment KindGameLinkDmg04 m)) (machines s1))).
  { apply map_kept; [|apply Hs1]. intros m Hm. pose proof (attach_kept KindGameLinkDmg04 m Hm) as Ha.
    eapply kept_trans; [exact Ha|]. apply (dmg04_byte_kept None _ I), Ha. }
  split; [|destruct s1; cbn in *; split; [done | by rewrite length_map]].
  apply with_kept; [done..|]. cbn. rewrite length_map. unfold ends_ok. rewrite El. cbn. lia.
Qed.

Lemma attach_infrared_ok delay s : session_ok s ->
  finishes (attach_cgb_infrared_pair_with_optical_propagation_delay delay s) (fun r => relinked s r.1).
Proof.
  intros Hs. unfold attach_cgb_infrared_pair_with_optical_propagation_delay. destruct (negb _) eqn:Hn; [by apply relinked_refl|].
  apply negb_false_iff, Z.eqb_eq in Hn. destruct (negb _) eqn:Hd; [by apply relinked_refl|].
  apply negb_false_iff, andb_prop in Hd as [Hlow%Z.leb_le Hhigh%Z.leb_le].
  unfold MIN_CGB_IR_OPTICAL_PROPAGATION_DELAY_T_CYCLES, MAX_CGB_IR_OPTICAL_PROPAGATION_DELAY_T_CYCLES in *.
  apply finishes_bind. eapply finishes_mono; [by apply detach_ok|]. intros s1 (Hs1 & Ek & El). cbn.
  assert (Hk : Forall2 kept (machines s1) (map (machine_set_infrared_input false) (machines s1))).
  { apply map_kept; [|apply Hs1]. intros m Hm. by apply infrared_input_kept. }
  split; [|destruct s1; cbn in *; split; [done | by rewrite length_map]].
  apply with_kept; [done..|]. rewrite length_map.
  assert (Hpair : forall d, 1 <= d <= 256 -> topology_ok (length (machines s1)) (CgbInfraredTopology (with_optical_propagation_delay_t_cycles 0 1 d))).
  { intros d Hd. split; [unfold ends_ok; cbn; lia|]. constructor; cbn; [done | lia | done]. }
  destruct (delay =? _); by apply Hpair.
Qed.

Definition participant_in (n : nat) (p : Dmg07Participant) : Prop := 0 <= participant_machine_index p < Z.of_nat n.

Lemma scanned_participants n indexes ports p1 participants r : Forall (fun p => 0 <= participant_machine_index p) participants ->
  scan_participants (Z.of_nat n) indexes ports p1 participants = inl r -> Forall (participant_in n) participants.
Proof.
  intros Hpos. revert indexes ports p1. induction Hpos as [|[i port] participants Hi Hpos IH]; intros indexes ports p1; [done|]. cbn.
  destruct (Z.leb_spec (Z.of_nat n) i) as [|Hlt]; [done|]. case_bool_decide; [done|]. case_bool_decide; [done|].
  intros Hscan. constructor; [|by eapply IH]. unfold participant_in. cbn in *. lia.
Qed.

Lemma adapter_new_ok n participants : Forall (participant_in n) participants -> adapter_ok n (adapter_new participants).
Proof.
  intros Hp. constructor; [|apply protocol_new_ok | by constructor]. unfold adapter_new. cbn [machine_by_port].
  assert (Hfold : forall by_port, (forall port, opt (fun i => 0 <= i < Z.of_nat n) (per_get port by_port)) -> forall port,
    opt (fun i => 0 <= i < Z.of_nat n)
      (per_get port (foldl (fun by_port p => per_set (participant_port p) (Some (participant_machine_index p)) by_port) by_port participants))).
  { induction Hp as [|p participants Hin Hp IH]; intros by_port Hb; [done|]. cbn. apply IH. intros port. rewrite per_get_set.
    case_decide; [exact Hin | apply Hb]. }
  apply Hfold. by intros [].
Qed.

Lemma plug_participants_ok participants ms : Forall (participant_in (length ms)) participants -> all_ok ms ->
  finishes (plug_participants participants ms) (Forall2 kept ms).
Proof.
  intros Hp. remember (length ms) as n eqn:Hn. revert ms Hn. induction Hp as [|[i port] participants Hi Hp IH]; intros ms Hn Hms; cbn [plug_participants].
  - by apply kept_list.
  - destruct (finishes_done _ _ (at_index_ok machine_ok i ms ltac:(unfold index_in, participant_in in *; cbn in Hi; by rewrite <- Hn) Hms)) as (m & -> & Hm & Hlm).
    cbn [mbind outcome_bind].
    assert (Hk : Forall2 kept ms (set_at i (machine_set_dmg07_incoming_byte None (machine_set_dmg07_attachment port m)) ms)).
    { eapply (set_at_ok machine_ok); [intros; by apply kept_refl | done..|]. pose proof (dmg07_attach_kept port m Hm) as Ha.
      eapply kept_trans; [exact Ha|]. apply (dmg07_byte_kept None _ I), Ha. }
    destruct (kept_all _ _ Hk) as [Hms' Hl]. eapply finishes_mono; [apply IH; [by rewrite Hl | done]|].
    intros ms' Hk'. by eapply kept_all_trans.
Qed.

Lemma attach_dmg07_ok participants s : Forall (fun p => 0 <= participant_machine_index p) participants -> session_ok s ->
  finishes (attach_dmg07_adapter participants s) (fun r => relinked s r.1).
Proof.
  intros Hpos Hs. unfold attach_dmg07_adapter, validate_dmg07_participants. destruct (negb _); [by apply relinked_refl|].
  destruct (scan_participants _ _ _ _ _) as [p1|e] eqn:Hscan; [|by apply relinked_refl]. destruct (negb p1); [by apply relinked_refl|].
  pose proof (scanned_participants _ _ _ _ _ _ Hpos Hscan) as Hin. apply finishes_bind.
  eapply finishes_mono; [apply validate_each_ok; [done | by apply Forall_map]|]. intros [e|] _; [by apply relinked_refl|].
  apply finishes_bind. eapply finishes_mono; [by apply detach_ok|]. intros s1 (Hs1 & Ek & El).
  apply finishes_bind. eapply finishes_mono; [apply plug_participants_ok; [by rewrite El | apply Hs1]|]. intros ms Hk. cbn.
  destruct (kept_all _ _ Hk) as [_ Hl]. split; [|destruct s1; cbn in *; split; [done | congruence]].
  apply with_kept; [done..|]. cbn. rewrite Hl, El. by apply adapter_new_ok.
Qed.

Lemma no_mismatch expected i ms : first_mismatch expected i ms = None -> Forall (fun m => machine_next_t_cycle m = expected) ms.
Proof.
  revert i. induction ms as [|m ms IH]; intros i; [constructor|]. cbn. destruct (Z.eqb_spec (machine_next_t_cycle m) expected); [|done].
  intros Hms. constructor; [done | by eapply IH].
Qed.

Lemma linked_new_ok ms s : all_ok ms -> linked_new ms = inl s -> session_ok s /\ machines s = ms /\
  Forall (fun m => next_t_cycle (linked_scheduler s) = machine_next_t_cycle m) ms.
Proof.
  intros Hms. unfold linked_new. destruct (_ <? 2); [done|]. destruct ms as [|m ms]; [done|].
  destruct (first_mismatch _ _ _) eqn:Hf; [done|]. apply no_mismatch in Hf. intros [= <-]. unfold machine_next_t_cycle in *.
  assert (Hclock : Forall (fun m' => next_t_cycle (mc_scheduler m') = next_t_cycle (mc_scheduler m)) (m :: ms)) by (by constructor).
  split; [|split; [done|]].
  - constructor; cbn; [by rewrite length_replicate | done | | done | done]. constructor; [|apply Forall_replicate];
      (exists (next_t_cycle (mc_scheduler m)); eapply context_ready_weaken; [..|apply for_cycle_ready]; lia).
  - eapply Forall_impl; [|exact Hclock]. by intros m' ->.
Qed.

(** ** Sessions as sequences of operations *)

Inductive session_op :=
| AttachDmg04
| AttachDmg07 (participants : list Dmg07Participant)
| AttachInfrared (delay : Z)
| DetachTopology
| AdvanceTCycle.
Definition session_op_typed (op : session_op) : Prop :=
  match op with AttachDmg07 participants => Forall (fun p => 0 <= participant_machine_index p) participants | _ => True end.
Definition session_step (records_events : bool) (op : session_op) s : outcome (LinkedMachines P H) :=
  match op with
  | AttachDmg04 => r ← attach_dmg04_cable s; mret r.1
  | AttachDmg07 participants => r ← attach_dmg07_adapter participants s; mret r.1
  | AttachInfrared delay => r ← attach_cgb_infrared_pair_with_optical_propagation_delay delay s; mret r.1
  | DetachTopology => detach_link_topology s
  | AdvanceTCycle => advance_t_cycle records_events s
  end.
Fixpoint run_session (records_events : bool) (ops : list session_op) s : outcome (LinkedMachines P H) :=
  match ops with
  | [] => mret s
  | op :: ops => s ← session_step records_events op s; run_session records_events ops s
  end.

(** A session whose next T-cycle reads past the address space. *)
Definition session_overflows s : bool := existsb dma_overflows (machines s).

Lemma session_step_ok records_events op s : session_op_typed op -> session_ok s -> 0 <= next_t_cycle (linked_scheduler s) < 2 ^ 63 ->
  match session_step records_events op s with
  | Done s' => session_ok s' /\ length (machines s') = length (machines s) /\
      next_t_cycle (linked_scheduler s) <= next_t_cycle (linked_scheduler s') <= next_t_cycle (linked_scheduler s) + 1
  | Panic _ => op = AdvanceTCycle /\ session_overflows s = true
  end.
Proof.
  intros Hop Hs Ht.
  assert (Hlink : forall o : outcome (LinkedMachines P H * option LinkedMachinesError), finishes o (fun r => relinked s r.1) ->
    match r ← o; mret r.1 with
    | Done s' => session_ok s' /\ length (machines s') = length (machines s) /\
        next_t_cycle (linked_scheduler s) <= next_t_cycle (linked_scheduler s') <= next_t_cycle (linked_scheduler s) + 1
    | Panic _ => op = AdvanceTCycle /\ session_overflows s = true
    end).
  { intros [r|]; [|done]. cbn. intros (Hs' & -> & Hl). split_and!; (done || lia). }
  destruct op; cbn [session_step].
  - by apply Hlink, attach_dmg04_ok.
  - by apply Hlink, attach_dmg07_ok.
  - by apply Hlink, attach_infrared_ok.
  - destruct (finishes_done _ _ (detach_ok s Hs)) as (s' & -> & Hs' & -> & Hl). split_and!; (done || lia).
  - pose proof (linked_advance_ok records_events s Hs Ht) as Ha. unfold session_overflows. destruct (existsb dma_overflows (machines s)) eqn:Ho.
    + by destruct Ha as [why ->].
    + destruct (advance_t_cycle records_events s) as [s'|]; [|done]. destruct Ha as (Hs' & -> & Hl). split_and!; (done || lia).
Qed.

(** C5. A link session never fails by itself, for every picture unit and SGB
    host that keep [PictureUnitLaws] and [SgbHostLaws] (parameters whose own
    operations are assumed not to panic on typed arguments, to keep their
    invariants and to answer bytes).  Make a session of any machines
    in the invariant whose clocks agree, and cable, uncable and step it in any
    order, with any participants and delays, accepted or refused: every
    operation returns, with every machine, the four-player adapter and the
    light's delay lines in their invariants and no record buffer overflowing,
    unless a T-cycle is asked for while a machine's DMA transfer is about to
    leave the address space. *)
Theorem link_sessions_never_fail records_events ms s ops :
  all_ok ms -> linked_new ms = inl s -> Forall session_op_typed ops ->
  0 <= next_t_cycle (linked_scheduler s) -> next_t_cycle (linked_scheduler s) + Z.of_nat (length ops) <= 2 ^ 63 ->
  match run_session records_events ops s with
  | Done s' => session_ok s' /\ length (machines s') = length ms
  | Panic _ => exists done rest s', ops = (done ++ AdvanceTCycle :: rest)%list /\
      run_session records_events done s = Done s' /\ session_ok s' /\ session_overflows s' = true
  end.
Proof.
  intros Hms Hnew Hops Ht0 Ht. destruct (linked_new_ok ms s Hms Hnew) as (Hs & <- & _). clear Hms Hnew.
  revert s Hs Ht0 Ht. induction Hops as [|op ops Hop Hops IH]; intros s Hs Ht0 Ht; [done|]. cbn [run_session length] in *.
  pose proof (session_step_ok records_events op s Hop Hs ltac:(lia)) as Hstep.
  destruct (session_step records_events op s) as [s1|why] eqn:E; cbn [mbind outcome_bind].
  - destruct Hstep as (Hs1 & <- & Hclock). specialize (IH s1 Hs1 ltac:(lia) ltac:(lia)).
    destruct (run_session records_events ops s1); [done|]. destruct IH as (l & rest & s' & -> & Hrun & Hok).
    exists (op :: l), rest, s'. split; [done|]. split; [|done]. cbn [run_session]. by rewrite E.
  - destruct Hstep as [-> Hover]. by exists [], ops, s.
Qed.
End Safety.

(** ** A concrete session *)

(** Two sample consoles: a cable, then light, then the four-player adapter. *)
Definition sample_ops : list session_op :=
  [AttachDmg04; AdvanceTCycle; AttachInfrared 2; AdvanceTCycle;
   AttachDmg07 [mkParticipant 0 P1; mkParticipant 1 P2]; AdvanceTCycle; DetachTopology].

Definition sample_session_check (m : Machine SamplePicture Z) : bool :=
  match linked_new [m; m] with
  | inl s =>
      (next_t_cycle (linked_scheduler s) =? 0) && match run_session true sample_ops s with Done s' => next_t_cycle (linked_scheduler s') =? 3 | Panic _ => false end
  | inr _ => false
  end.

Lemma session_checked m : sample_session_check m = true -> exists s s', linked_new [m; m] = inl s /\
  next_t_cycle (linked_scheduler s) = 0 /\ run_session true sample_ops s = Done s'.
Proof.
  unfold sample_session_check. generalize (linked_new [m; m]). intros [s|]; [|done]. intros [Ht Hrun]%andb_prop. exists s.
  revert Hrun. generalize (run_session true sample_ops s). intros [s'|]; [|done]. intros _. exists s'. apply Z.eqb_eq in Ht. by split_and!.
Qed.

Lemma link_sessions_never_fail_witness :
  exists m s s', sample_machine = Done m /\ linked_new [m; m] = inl s /\ run_session true sample_ops s = Done s' /\ session_ok s' /\
    length (machines s') = 2%nat.
Proof.
  assert (Hcheck : match sample_machine with Done m => sample_session_check m | Panic _ => false end = true) by (vm_compute; reflexivity).
  destruct (finishes_done _ _ sample_machine_ok) as (m & E & Hm & _). rewrite E in Hcheck.
  destruct (session_checked m Hcheck) as (s & s' & Hs & Ht & Hrun).
  pose proof (link_sessions_never_fail true [m; m] s sample_ops) as Hok.
  specialize (Hok ltac:(constructor; [exact Hm | constructor; [exact Hm | constructor]]) Hs ltac:(repeat constructor; cbn; lia)
    ltac:(rewrite Ht; lia) ltac:(rewrite Ht; cbn; lia)). rewrite Hrun in Hok. exists m, s, s'. split; [exact E|].
  split; [exact Hs|]. split; [exact Hrun | exact Hok].
Defined.
