(* ===== verification/LinkIndependence.v ===== *)
(** * Machines of a session that nothing links

    Without a cable the machines of a session, stepped phase by phase in turn
    and in reused contexts, do what each of them does alone. *)

From Stdlib Require Import ZArith Lia Bool String.
From stdpp Require Import base decidable list option.
From S2P Require Import Prelude.
From S2P Require Import Scheduler.
From S2P Require Import MachinePorts.
From S2P Require Import MachineState.
From S2P Require Import MachineStep.
From S2P Require Import MachineCycle.
From S2P Require Import MachineSample.
From S2P Require Import MachineStepping.
From S2P Require Import MachineRecords.
From S2P Require Import LinkCables.
From S2P Require Import LinkSession.

Local Open Scope Z_scope.

(** The same result, or both panic: the order of the machines decides which
    panic a session ends with. *)
Definition agree {A} (o o' : outcome A) : Prop :=
  match o, o' with Done a, Done b => a = b | Panic _, Panic _ => True | _, _ => False end.

#[export] Instance agree_equivalence {A} : Equivalence (@agree A).
Proof.
  split.
  - intros o. by destruct o.
  - intros o o'. by destruct o, o'.
  - intros o1 o2 o3. destruct o1, o2, o3; cbn; try done. congruence.
Qed.

Section Independence.
Context {P H : Type} `{PictureUnit P} `{SgbHostPort H}.
Context (records_events : bool).
Implicit Types m : Machine P H.
Implicit Types ms : list (Machine P H).
Implicit Types s : LinkedMachines P H.

(** One machine through some phases. *)
Definition solo (phases : list SchedulerPhase) m (c : CycleContext) : outcome (Machine P H * CycleContext) :=
  x ← visit_phases phases (step_phase_with_context records_events) (m, c); mret x.2.

(** Every machine through all the phases before the next machine begins. *)
Fixpoint solo_each (phases : list SchedulerPhase) ms (cs : list CycleContext) : outcome (list (Machine P H) * list CycleContext) :=
  match ms, cs with
  | m :: ms', c :: cs' => x ← solo phases m c; r ← solo_each phases ms' cs'; mret (x.1 :: r.1, x.2 :: r.2)
  | _, _ => mret (ms, cs)
  end.

Lemma solo_cons p phases m c :
  solo (p :: phases) m c = (x ← step_phase_with_context records_events (m, enter_phase p c); solo phases x.2.1 x.2.2).
Proof.
  unfold solo. destruct (step_phase_with_context records_events (m, enter_phase p c)) as [[[] [m1 c1]]|] eqn:E.
  - by rewrite (visit_phase_done _ _ _ _ _ _ E).
  - by rewrite (visit_phase_panics _ _ _ _ _ _ E).
Qed.

(** The machines' phases commute: taking one phase on every machine first is
    taking all phases machine by machine. *)
Lemma solo_each_cons p phases ms cs : length cs = length ms ->
  agree (x ← step_each records_events ms (map (enter_phase p) cs); solo_each phases x.1 x.2) (solo_each (p :: phases) ms cs).
Proof.
  revert cs. induction ms as [|m ms IH]; intros [|c cs] Hl; try done; cbn [step_each solo_each map].
  rewrite solo_cons.
  destruct (step_phase_with_context records_events (m, enter_phase p c)) as [[[] [m1 c1]]|]; [|done]. cbn [mbind outcome_bind fst snd].
  specialize (IH cs ltac:(cbn in Hl; lia)). revert IH. destruct (step_each records_events ms (map (enter_phase p) cs)) as [[ms1 cs1]|]; cbn [mbind outcome_bind mret outcome_ret solo_each fst snd].
  - destruct (solo phases m1 c1) as [x|]; cbn [mbind outcome_bind]; [|done].
    destruct (solo_each phases ms1 cs1), (solo_each (p :: phases) ms cs); cbn; try done. by intros ->.
  - destruct (solo phases m1 c1); cbn [mbind outcome_bind]; [|done]. by destruct (solo_each (p :: phases) ms cs).
Qed.

Lemma step_each_lengths ms cs ms' cs' : step_each records_events ms cs = Done (ms', cs') -> length ms' = length ms /\ length cs' = length cs.
Proof.
  revert cs ms' cs'. induction ms as [|m ms IH]; intros [|c cs] ms' cs'; cbn [step_each]; try (by intros [= <- <-]).
  destruct (step_phase_with_context records_events (m, c)) as [x|]; [|done]. cbn [mbind outcome_bind].
  destruct (step_each records_events ms cs) as [[ms1 cs1]|] eqn:E; [|done]. intros [= <- <-].
  destruct (IH _ _ _ E). cbn in *. lia.
Qed.

(** The phases of an unlinked session. *)
Lemma unlinked_phases phases k ms cs : length cs = length ms ->
  agree (linked_phases records_events phases (mkLinked k ms NoTopology cs))
    (x ← solo_each phases ms cs; mret (mkLinked k x.1 NoTopology x.2)).
Proof.
  revert ms cs. induction phases as [|p phases IH]; intros ms cs Hl.
  - assert (Hnil : forall ms cs, solo_each [] ms cs = Done (ms, cs)).
    { clear. induction ms as [|m ms IH]; intros [|c cs]; cbn [solo_each]; try done. rewrite IH. done. }
    by rewrite Hnil.
  - cbn [linked_phases]. pose proof (solo_each_cons p phases ms cs Hl) as Hc. revert Hc. unfold linked_phase, prepare_phase. cbn.
    destruct (step_each records_events ms (map (enter_phase p) cs)) as [[ms1 cs1]|] eqn:E; cbn.
    + destruct (step_each_lengths _ _ _ _ E) as [E1 E2]. rewrite length_map in E2. specialize (IH ms1 cs1 ltac:(lia)). intros Hc. etransitivity; [exact IH|].
      destruct (solo_each phases ms1 cs1), (solo_each (p :: phases) ms cs); cbn in *; try done. by subst.
    + by destruct (solo_each (p :: phases) ms cs).
Qed.

(** The buffers of a context are the arrays they were made as. *)
Definition context_arrays (c : CycleContext) : Prop :=
  length (items (external_events c)) = 16%nat /\ length (items (derived_edges c)) = 16%nat /\
  length (items (queued_side_effects c)) = 16%nat /\ length (items (interrupt_requests c)) = 16%nat.

Lemma same_arrays c c' : same_context c c' -> context_arrays c.
Proof. intros [_ _ [_ _ [] _] [_ _ [] _] _ [_ _ [] _] [_ _ [] _]]. by split_and!. Qed.

(** What a machine does alone in a T-cycle of the session's clock. *)
Lemma solo_cycle t m c : context_arrays c -> next_t_cycle (mc_scheduler m) = t ->
  match solo ORDER m (reset_for_cycle c t) with
  | Done (m', c') =>
      match step_t_cycle records_events m, TCycle_next t with
      | Done (c1, m1), Done n => m1 = sync_scheduler_next_t_cycle n m' /\ same_context c' c1
      | Panic _, Panic _ => True
      | _, _ => False
      end
  | Panic _ => exists why, step_t_cycle records_events m = Panic why
  end.
Proof.
  intros (He & Hd & Hq & Hi) Ht. rewrite (every_stepping_agrees records_events records_events). unfold step_by_phases, prepare_cycle_context, solo.
  rewrite Ht. pose proof (phases_blind records_events ORDER m _ _ (fresh_context t c He Hd Hq Hi)) as Hb.
  destruct (visit_phases ORDER _ (m, reset_for_cycle c t)) as [[[] [m1 c1]]|],
    (visit_phases ORDER _ (m, for_cycle t)) as [[[] [m2 c2]]|]; try done; cbn in *.
  - destruct Hb as [Hm Hc]. cbn in Hm, Hc. subst m2. by destruct (TCycle_next t).
  - by eexists.
Qed.

Definition alone (t : TCycle) m m' (c' : CycleContext) : Prop :=
  match step_t_cycle records_events m, TCycle_next t with
  | Done (c, m1), Done n => m1 = sync_scheduler_next_t_cycle n m' /\ same_context c' c
  | Panic _, Panic _ => True
  | _, _ => False
  end.
Definition fails_alone m : Prop := exists why, step_t_cycle records_events m = Panic why.

Lemma solo_list t ms cs : length cs = length ms -> Forall context_arrays cs ->
  Forall (fun m => next_t_cycle (mc_scheduler m) = t) ms ->
  match solo_each ORDER ms (map (fun c => reset_for_cycle c t) cs) with
  | Done (ms', cs') => Forall3 (alone t) ms ms' cs'
  | Panic _ => Exists fails_alone ms
  end.
Proof.
  revert cs. induction ms as [|m ms IH]; intros [|c cs]; try done; cbn [map solo_each length]; [constructor|]. intros Hl Hcs Hclock.
  inversion Hcs as [|? ? Hc Hcs']; subst. inversion Hclock as [|? ? Hm Hclock']; subst.
  pose proof (solo_cycle _ m c Hc eq_refl) as Hs. destruct (solo ORDER m _) as [[m1 c1]|]; cbn [mbind outcome_bind]; [|by apply Exists_cons_hd].
  specialize (IH cs ltac:(lia) Hcs' Hclock'). destruct (solo_each ORDER ms _) as [[ms1 cs1]|]; cbn; [by constructor | by apply Exists_cons_tl].
Qed.

(** A session of machines with one clock and nothing between them. *)
Record unlinked_ok s : Prop := {
  unlinked_topology : topology s = NoTopology;
  unlinked_lengths : length (contexts s) = length (machines s);
  unlinked_some : machines s <> [];
  unlinked_contexts : Forall context_arrays (contexts s);
  unlinked_clocks : Forall (fun m => next_t_cycle (mc_scheduler m) = next_t_cycle (linked_scheduler s)) (machines s)
}.

Lemma alone_synced t n ms ms' cs : TCycle_next t = Done n -> Forall3 (alone t) ms ms' cs ->
  Forall3 (fun m m' c' => exists c, step_t_cycle records_events m = Done (c, m') /\ c' ≡ c) ms (map (sync_scheduler_next_t_cycle n) ms') cs /\
  Forall context_arrays cs.
Proof.
  intros Hn. induction 1 as [|m m' c ms ms' cs Hm Hms [IH1 IH2]]; [split; constructor|]. unfold alone in Hm. rewrite Hn in Hm.
  destruct (step_t_cycle records_events m) as [[c1 m1]|] eqn:E; [|done]. destruct Hm as [-> Hc].
  split; constructor; [|done|by eapply same_arrays|done]. exists c1. split; [done | by apply same_context_equiv].
Qed.

(** One T-cycle of the session is one T-cycle of every machine. *)
Lemma unlinked_t_cycle s : unlinked_ok s ->
  match advance_t_cycle records_events s with
  | Done s' => unlinked_ok s' /\
      Forall3 (fun m m' c' => exists c, step_t_cycle records_events m = Done (c, m') /\ c' ≡ c) (machines s) (machines s') (contexts s')
  | Panic _ => Exists fails_alone (machines s)
  end.
Proof.
  intros [Htop Hl Hsome Hcs Hclock]. destruct s as [k ms top cs]. cbn in *. subst top. set (t := next_t_cycle k) in *.
  pose proof (solo_list t ms cs Hl Hcs Hclock) as Hsolo. set (cs0 := map (fun c => reset_for_cycle c t) cs) in *.
  pose proof (unlinked_phases ORDER k ms cs0 ltac:(unfold cs0; by rewrite length_map)) as Hp.
  unfold advance_t_cycle. cbn [machines contexts linked_scheduler]. rewrite Hl, Nat.eqb_refl. cbn [negb]. fold t.
  match goal with |- context [linked_phases _ _ ?x] => change x with (mkLinked k ms NoTopology cs0) end.
  revert Hp. destruct (linked_phases _ _ _) as [s1|], (solo_each ORDER ms cs0) as [[ms1 cs1]|]; cbn; try done.
  intros ->. destruct (TCycle_next t) as [n|] eqn:En; cbn.
  - destruct (alone_synced t n ms ms1 cs1 En Hsolo) as [Halone Harrays]. split; [|done]. constructor; cbn; [done | | | done |].
    + rewrite length_map, <- (Forall3_length_lm _ _ _ _ Hsolo). symmetry. by apply (Forall3_length_lr _ _ _ _ Hsolo).
    + pose proof (Forall3_length_lm _ _ _ _ Hsolo) as Hlen. by destruct ms, ms1.
    + apply Forall_map, Forall_true. by intros [].
  - destruct Hsolo as [|m m' c' ms ms1 cs1 Hm _]; [done|]. apply Exists_cons_hd. unfold alone in Hm. rewrite En in Hm. unfold fails_alone.
    destruct (step_t_cycle records_events m) as [[]|]; [done | by eexists].
Qed.

Lemma linked_new_unlinked ms s : linked_new ms = inl s -> unlinked_ok s /\ machines s = ms.
Proof.
  unfold linked_new. destruct (_ <? 2); [done|]. destruct ms as [|m ms]; [done|].
  destruct (first_mismatch _ _ _) eqn:Hf; [done|]. intros [= <-]. split; [|done]. constructor; cbn.
  - done.
  - by rewrite length_replicate.
  - done.
  - constructor; [done|]. by apply Forall_replicate.
  - constructor; [done|]. revert Hf. generalize 1. generalize (machine_next_t_cycle m). clear. intros t.
    induction ms as [|m ms IH]; intros i; [constructor|]. cbn. unfold machine_next_t_cycle in *.
    destruct (Z.eqb_spec (next_t_cycle (mc_scheduler m)) t); [|done]. intros Hms. constructor; [done | by eapply IH].
Qed.

(** The machines of an unlinked session after [n] T-cycles. *)
Lemma unlinked_t_cycles s n : unlinked_ok s ->
  match advance_t_cycles records_events n s with
  | Done s' => Forall2 (fun m m' => run_t_cycles records_events n m = Done m') (machines s) (machines s')
  | Panic _ => Exists (fun m => exists why, run_t_cycles records_events n m = Panic why) (machines s)
  end.
Proof.
  intros Hs. revert s Hs. induction n as [|n IH]; intros s Hs; cbn [advance_t_cycles].
  - cbn. apply Forall_Forall2_diag, Forall_true. done.
  - pose proof (unlinked_t_cycle s Hs) as Hstep. destruct (advance_t_cycle records_events s) as [s1|]; cbn [mbind outcome_bind].
    + destruct Hstep as [Hs1 Halone]. specialize (IH s1 Hs1). cbn [run_t_cycles].
      destruct (advance_t_cycles records_events n s1) as [s2|].
      * clear Hs Hs1. revert IH. generalize (machines s2). induction Halone as [|m m' c' ms ms' cs (c & E & _) Hms IHms]; intros ms2 IH.
        -- inversion IH; constructor.
        -- inversion IH; subst. constructor; [by rewrite E | by apply IHms].
      * clear Hs Hs1. induction Halone as [|m m' c' ms ms' cs (c & E & _) Hms IHms]; inversion IH as [? ? Hm|? ? Hm]; subst.
        -- apply Exists_cons_hd. by rewrite E.
        -- apply Exists_cons_tl. by apply IHms.
    + refine (List.Exists_impl _ _ Hstep). intros m [why E]. exists why. cbn [run_t_cycles]. by rewrite E.
Qed.

(** Every machine through [n] T-cycles, one machine after the other. *)
Fixpoint run_each (n : nat) ms : outcome (list (Machine P H)) :=
  match ms with
  | [] => mret []
  | m :: ms' => m1 ← run_t_cycles records_events n m; ms1 ← run_each n ms'; mret (m1 :: ms1)
  end.

Lemma run_each_done n ms ms' : Forall2 (fun m m' => run_t_cycles records_events n m = Done m') ms ms' -> run_each n ms = Done ms'.
Proof. induction 1 as [|m m' ms ms' E _ IH]; [done|]. cbn [run_each]. by rewrite E, IH. Qed.

Lemma run_each_panics n ms : Exists (fun m => exists why, run_t_cycles records_events n m = Panic why) ms ->
  exists why, run_each n ms = Panic why.
Proof.
  induction 1 as [m ms [why E]|m ms _ [why IH]]; cbn [run_each]; [rewrite E; by eexists|]. rewrite IH.
  destruct (run_t_cycles records_events n m); by eexists.
Qed.

(** C6. Machines that nothing links do not feel the session.  Make a session of
    machines whose clocks agree and let it run for [n] T-cycles, stepping the
    machines phase by phase in turn and reusing its cycle contexts: its machines
    end as the same machines run for [n] T-cycles alone, one after the other,
    and the session panics exactly when one of them alone does. *)
Theorem unlinked_machines_run_alone ms s n : linked_new ms = inl s ->
  agree (s' ← advance_t_cycles records_events n s; mret (machines s')) (run_each n ms).
Proof.
  intros (Hs & <-)%linked_new_unlinked. pose proof (unlinked_t_cycles s n Hs) as Hrun.
  destruct (advance_t_cycles records_events n s) as [s'|].
  - by rewrite (run_each_done n _ _ Hrun).
  - by destruct (run_each_panics n _ Hrun) as [why ->].
Qed.
End Independence.

(** ** A concrete session *)

Lemma unlinked_machines_run_alone_witness :
  exists m s, sample_machine = Done m /\ linked_new [m; m; m] = inl s /\
    agree (s' ← advance_t_cycles true 1000 s; mret (machines s')) (run_each true 1000 [m; m; m]).
Proof.
  assert (Hnew : match sample_machine with Done m => match linked_new [m; m; m] with inl _ => true | inr _ => false end | Panic _ => false end = true)
    by (vm_compute; reflexivity).
  destruct sample_machine as [m|] eqn:E; [|discriminate]. destruct (linked_new [m; m; m]) as [s|] eqn:Hs; [|discriminate].
  exists m, s. split; [done|]. split; [exact Hs|]. exact (unlinked_machines_run_alone true _ s 1000 Hs).
Defined.
