(* ===== verification/LinkInfrared.v ===== *)
(** * Light between two consoles

    The two delay lines of an infrared link are one ring each: what a console
    sees in a T-cycle is what the other emitted exactly the propagation delay
    earlier, whatever both do in between. *)

From Stdlib Require Import ZArith Lia Bool String.
From stdpp Require Import base decidable list option.
From S2P Require Import Prelude.
From S2P Require Import Model.
From S2P Require Import Config.
From S2P Require Import Cartridge.
From S2P Require Import Dmg07.
From S2P Require Import Scheduler.
From S2P Require Import BusIo.
From S2P Require Import BusState.
From S2P Require Import Bus.
From S2P Require Import MachinePorts.
From S2P Require Import MachineState.
From S2P Require Import MachineStep.
From S2P Require Import MachineSample.
From S2P Require Import LinkCables.

Local Open Scope Z_scope.

(** ** A delay line *)

(** What leaves a line of delay [d] as its input number [n] goes in. *)
Definition delayed (d : Z) (ins : list bool) (n : Z) : bool :=
  if n <? d then false else default false (ins !! Z.to_nat (n - d)).

(** The line after the inputs [ins]: the slot of each coming input holds what
    will leave with it. *)
Definition line_holds (d : Z) (ins line : list bool) : Prop :=
  length line = 256%nat /\
  forall c, 0 <= c < d ->
    line !! Z.to_nat ((Z.of_nat (length ins) + c) mod d) = Some (delayed d ins (Z.of_nat (length ins) + c)).

Lemma dark_line_holds d : 1 <= d <= 256 -> line_holds d [] dark_line.
Proof.
  intros Hd. split; [done|]. intros c Hc. cbn [length Z.of_nat]. rewrite Z.add_0_l, Z.mod_small by lia. unfold delayed.
  rewrite (proj2 (Z.ltb_lt _ _)) by lia. apply lookup_replicate_2. change (Z.to_nat MAX_CGB_IR_OPTICAL_PROPAGATION_DELAY_T_CYCLES) with 256%nat. lia.
Qed.

Lemma delayed_app d ins x n : n < Z.of_nat (length ins) + d -> delayed d (ins ++ [x]) n = delayed d ins n.
Proof. intros Hn. unfold delayed. destruct (Z.ltb_spec n d); [done|]. by rewrite lookup_app_l by lia. Qed.

Lemma line_step d ins line x (n := Z.of_nat (length ins)) : 1 <= d <= 256 -> line_holds d ins line ->
  at_index line (n mod d) = Done (delayed d ins n) /\ line_holds d (ins ++ [x]) (set_at (n mod d) x line).
Proof.
  intros Hd [Hl Hh]. pose proof (Z.mod_pos_bound n d ltac:(lia)) as Hm. split.
  - unfold at_index. specialize (Hh 0 ltac:(lia)). rewrite Z.add_0_r in Hh. fold n in Hh. by rewrite Hh.
  - unfold set_at. split; [by rewrite length_insert|]. intros c Hc. rewrite length_app. cbn [length].
    replace (Z.of_nat (length ins + 1) + c) with (n + (c + 1)) by lia.
    destruct (Z.eqb_spec (c + 1) d) as [E|E].
    + rewrite E. replace (n + d) with (n + 1 * d) by lia. rewrite Z.mod_add by lia. rewrite list_lookup_insert_eq by lia. unfold delayed.
      rewrite (proj2 (Z.ltb_ge _ _)) by lia. replace (n + 1 * d - d) with n by lia. unfold n. rewrite Nat2Z.id. by rewrite list_lookup_middle.
    + rewrite delayed_app by lia. rewrite list_lookup_insert_ne; [by apply Hh; lia|].
      intros Heq. apply Z2Nat.inj in Heq; [|lia | apply Z.mod_pos_bound; lia].
      assert (Hdiv : (n + (c + 1) - n) mod d = 0) by (rewrite Zminus_mod, <- Heq, Z.sub_diag; apply Z.mod_0_l; lia).
      replace (n + (c + 1) - n) with (c + 1) in Hdiv by lia. rewrite Z.mod_small in Hdiv by lia. lia.
Qed.

(** Both lines of a pair. *)
Record pair_holds (d : Z) (left_ins right_ins : list bool) (p : CgbInfraredPair) : Prop := {
  pair_delay : optical_propagation_delay_t_cycles p = d;
  pair_lengths : length left_ins = length right_ins;
  pair_cursor : delay_cursor p = Z.of_nat (length left_ins) mod d;
  pair_left : line_holds d left_ins (left_to_right_delay_line p);
  pair_right : line_holds d right_ins (right_to_left_delay_line p)
}.

Lemma propagate_holds d ls rs p a b (n := Z.of_nat (length ls)) : 1 <= d <= 256 -> pair_holds d ls rs p -> exists p',
  propagate_light a b p = Done ((delayed d ls n, delayed d rs n), p') /\ pair_holds d (ls ++ [a]) (rs ++ [b]) p' /\
  light_left p' = light_left p /\ light_right p' = light_right p.
Proof.
  intros Hd [Hp Hl Hc Hleft Hright]. destruct (line_step d ls _ a Hd Hleft) as [El Hleft'].
  destruct (line_step d rs _ b Hd Hright) as [Er Hright']. rewrite <- Hl in Er, Hright'. fold n in El, Er, Hleft', Hright', Hc.
  unfold propagate_light. rewrite Hc, El, Er, Hp. unfold checked_mod. rewrite (proj2 (Z.eqb_neq d 0)) by lia. cbn [mbind outcome_bind mret outcome_ret].
  eexists. split; [done|]. split; [|done]. constructor; cbn; [done | by rewrite !length_app, Hl | | done | done].
  rewrite length_app. cbn. rewrite Z.add_mod_idemp_l by lia. f_equal. lia.
Qed.

(** ** The link over time *)

Section Light.
Context {P H : Type} `{PictureUnit P} `{SgbHostPort H}.
Implicit Types f : list (Machine P H).

(** The preparation of one T-cycle after another; [frames] are the machines of
    the session as each T-cycle finds them. *)
Fixpoint run_light (p : CgbInfraredPair) (frames : list (list (Machine P H))) : outcome (list (list (Machine P H))) :=
  match frames with
  | [] => mret []
  | f :: frames => x ← light_prepare_phase ExternalEventIngress p f; r ← run_light x.2 frames; mret (x.1 :: r)
  end.

Definition emitter (i : Z) f : bool := match f !! Z.to_nat i with Some m => machine_infrared_emitter_on m | None => false end.
(** The machines with the light of both ends falling on the other. *)
Definition lit (i j : Z) (on_left on_right : bool) f : list (Machine P H) :=
  match f !! Z.to_nat i, f !! Z.to_nat j with
  | Some l, Some r => set_at j (machine_set_infrared_input on_right r) (set_at i (machine_set_infrared_input on_left l) f)
  | _, _ => f
  end.
Definition both_present (i j : Z) f : Prop := 0 <= i < Z.of_nat (length f) /\ 0 <= j < Z.of_nat (length f).

Lemma prepare_lights d ls rs p f (n := Z.of_nat (length ls)) (i := light_left p) (j := light_right p) :
  1 <= d <= 256 -> i <> j -> both_present i j f -> pair_holds d ls rs p -> exists p',
  light_prepare_phase ExternalEventIngress p f = Done (lit i j (delayed d rs n) (delayed d ls n) f, p') /\
  pair_holds d (ls ++ [emitter i f]) (rs ++ [emitter j f]) p' /\ light_left p' = i /\ light_right p' = j.
Proof.
  intros Hd Hij [Hi Hj] Hp. unfold light_prepare_phase, on_pair, indexed_pair_mut, lit, emitter. fold i j.
  rewrite (proj2 (Z.eqb_neq _ _) Hij), (proj2 (Z.ltb_lt _ _) (proj2 Hi)), (proj2 (Z.ltb_lt _ _) (proj2 Hj)). cbn [negb andb].
  destruct (lookup_lt_is_Some_2 f (Z.to_nat i)) as [l Hl]; [lia|]. destruct (lookup_lt_is_Some_2 f (Z.to_nat j)) as [r Hr]; [lia|].
  assert (El : at_index f i = Done l) by (unfold at_index; by rewrite Hl).
  assert (Er : at_index f j = Done r) by (unfold at_index; by rewrite Hr).
  rewrite El, Er, Hl, Hr. cbn [mbind outcome_bind mret outcome_ret fst snd].
  destruct (propagate_holds d ls rs p (machine_infrared_emitter_on l) (machine_infrared_emitter_on r) Hd Hp) as (p' & -> & Hp' & E1 & E2).
  cbn [mbind outcome_bind mret outcome_ret fst snd]. exists p'. by split_and!.
Qed.

Lemma run_light_holds d ls rs p frames (i := light_left p) (j := light_right p) : 1 <= d <= 256 -> i <> j ->
  Forall (both_present i j) frames -> pair_holds d ls rs p -> exists out, run_light p frames = Done out /\ length out = length frames /\
  forall k f, frames !! k = Some f -> let n := Z.of_nat (length ls + k) in
    out !! k = Some (lit i j (delayed d (rs ++ map (emitter j) frames) n) (delayed d (ls ++ map (emitter i) frames) n) f).
Proof.
  intros Hd Hij Hf. revert ls rs p i j Hij Hf. induction frames as [|f frames IH]; intros ls rs p i j Hij Hf Hp; [by exists []|].
  inversion Hf as [|? ? Hf0 Hf']; subst. cbn [run_light].
  destruct (prepare_lights d ls rs p f Hd Hij Hf0 Hp) as (p' & -> & Hp' & Ei & Ej). cbn [mbind outcome_bind fst snd]. fold i j in Ei, Ej.
  specialize (IH (ls ++ [emitter i f]) (rs ++ [emitter j f]) p'). rewrite Ei, Ej in IH. destruct (IH Hij Hf' Hp') as (out & -> & Hl & Hout).
  cbn [mbind outcome_bind mret outcome_ret]. eexists. split; [done|]. split; [cbn; by rewrite Hl|].
  intros [|k] g Hg; cbv zeta; cbn [lookup list_lookup] in *.
  - injection Hg as <-. rewrite Nat.add_0_r. cbn [map].
    assert (Hcut : forall (ins rest : list bool), length ins = length ls -> delayed d (ins ++ rest) (Z.of_nat (length ls)) = delayed d ins (Z.of_nat (length ls))).
    { intros ins rest Hi. unfold delayed. destruct (Z.ltb_spec (Z.of_nat (length ls)) d); [done|]. by rewrite lookup_app_l by lia. }
    pose proof (pair_lengths _ _ _ _ Hp) as Hlen. fold i j. by rewrite !Hcut by congruence.
  - etransitivity; [exact (Hout k g Hg)|]. rewrite length_app. cbn [length map].
    rewrite <- !app_assoc. cbn [app]. by replace (length ls + 1 + k)%nat with (length ls + S k)%nat by lia.
Qed.

(** C19. Light takes its time and nothing else.  Between two consoles at the
    ends [i] and [j], with any delay a session accepts, whatever the consoles
    do between their T-cycles: the preparation of the [k]-th T-cycle finds both
    consoles, and the light it lets fall on each is what the other emitted
    exactly [d] T-cycles before, or darkness in the first [d]; nothing else of
    any machine changes. *)
Theorem infrared_light_arrives_late i j d frames : 1 <= d <= 256 -> i <> j -> Forall (both_present i j) frames ->
  exists out, run_light (with_optical_propagation_delay_t_cycles i j d) frames = Done out /\ length out = length frames /\
  forall k f, frames !! k = Some f ->
    out !! k = Some (lit i j (delayed d (map (emitter j) frames) (Z.of_nat k)) (delayed d (map (emitter i) frames) (Z.of_nat k)) f).
Proof.
  intros Hd Hij Hf. apply (run_light_holds d [] []); [done..|]. constructor; cbn; [done | done | | by apply dark_line_holds..].
  by rewrite Z.mod_0_l by lia.
Qed.
End Light.

(** ** Concrete consoles *)

Definition color_console : outcome (Machine SamplePicture Z) := machine_new (config_new GameBoyColor).
(** The console with its lamp lit by a write to the infrared port. *)
Definition lit_console : outcome (Machine SamplePicture Z) :=
  m ← color_console; r ← machine_write arbitration_default 0 0xFF56 0x01 m; mret r.2.

(** The light falling on the machine at an index. *)
Definition sees_light (i : nat) (f : list (Machine SamplePicture Z)) : bool :=
  match f !! i with
  | Some m => match cgb_infrared_status (mc_bus m) with Some s => status_external_optical_input s | None => false end
  | None => false
  end.

(** Two consoles at a delay of two T-cycles: the left one's lamp is lit in
    T-cycles 1 and 2, and the right one sees it in T-cycles 3 and 4. *)
Lemma infrared_light_arrives_late_witness :
  exists m l out, color_console = Done m /\ lit_console = Done l /\
    run_light (with_optical_propagation_delay_t_cycles 0 1 2) [[m; m]; [l; m]; [l; m]; [m; m]; [m; m]; [m; m]] = Done out /\
    length out = 6%nat /\ map (sees_light 1) out = [false; false; false; true; true; false] /\ map (sees_light 0) out = replicate 6 false.
Proof.
  assert (Hcheck : match color_console, lit_console with
    | Done m, Done l => match run_light (with_optical_propagation_delay_t_cycles 0 1 2) [[m; m]; [l; m]; [l; m]; [m; m]; [m; m]; [m; m]] with
        | Done out => bool_decide (map (sees_light 1) out = [false; false; false; true; true; false] /\ map (sees_light 0) out = replicate 6 false)
        | Panic _ => false end
    | _, _ => false end = true) by (vm_compute; reflexivity).
  destruct color_console as [m|]; [|discriminate]. destruct lit_console as [l|]; [|discriminate].
  destruct (infrared_light_arrives_late 0 1 2 [[m; m]; [l; m]; [l; m]; [m; m]; [m; m]; [m; m]]) as (out & E & Hl & _);
    [lia | lia | repeat constructor; cbn; lia |].
  rewrite E in Hcheck. apply bool_decide_eq_true_1 in Hcheck as [H1 H0]. exists m, l, out. by split_and!.
Defined.
