(* ===== verification/LinkExchange.v ===== *)
(** * A byte each way over the cable

    Two consoles on a Game Link cable, one clocking the transfer and one
    waiting for the clock, swap the bytes they staged, whatever else they do
    meanwhile. *)

From Stdlib Require Import ZArith Lia Bool String.
From stdpp Require Import base decidable list option.
From S2P Require Import Prelude.
From S2P Require Import Model.
From S2P Require Import Config.
From S2P Require Import Joypad.
From S2P Require Import Speed.
From S2P Require Import Bus.
From S2P Require Import Dma.
From S2P Require Import Serial.
From S2P Require Import CpuData.
From S2P Require Import Scheduler.
From S2P Require Import ExternalPort.
From S2P Require Import MachinePorts.
From S2P Require Import MachineState.
From S2P Require Import MachineStep.
From S2P Require Import MachineSafety.
From S2P Require Import MachineSample.
From S2P Require Import LinkCables.
From S2P Require Import LinkSession.

Local Open Scope Z_scope.

(** ** Ports *)

(** What a computation returns, when it returns. *)
Ltac run_done :=
  repeat match goal with
  | |- context [mbind _ ?o] => let E := fresh "E" in destruct o eqn:E; [|done]; cbn [mbind outcome_bind]
  end.

Lemma shift_result s c x c' : 0 <= bits_shifted_of s < 8 -> transfer_requested (transfer_state s) = true ->
  shift_one_bit s c = Done (x, c') -> x.1 = bit_shifted s.
Proof.
  intros Hk Ht. unfold shift_one_bit, bit_shifted, exchange_loaded. destruct (transfer_state s) as [|n] eqn:E; [done|].
  assert (Hn : bits_shifted_of s = n) by (unfold bits_shifted_of; by rewrite E). rewrite Hn in *. set (s1 := if n =? 0 then _ else s) in *.
  replace (peer (_ <| current_outgoing_shift_byte := _ |>)) with (peer s1) by (by destruct s1).
  replace (current_incoming_byte (_ <| current_outgoing_shift_byte := _ |>)) with (current_incoming_byte s1) by (by destruct s1).
  destruct (incoming_bit_from_peer _ _ _) as [bit incoming]. destruct (Z.leb_spec 255 n); [lia|].
  replace (n + 1 =? 8) with (n =? 7) by (destruct (Z.eqb_spec n 7), (Z.eqb_spec (n + 1) 8); lia || done).
  assert (Hout : forall c1, sb (s1 <| current_outgoing_shift_byte := c1 |> <| current_incoming_byte := incoming |>) = sb s1) by (by destruct s1).
  rewrite Hout. destruct (n =? 7).
  - unfold mbind, ST_bind. destruct (queue_interrupt_request SerialIrq c) as [[u c1]|]; [|done]. by intros [= <- _].
  - by intros [= <- _].
Qed.

Lemma tick_result speed s c x c' : 0 <= bits_shifted_of s < 8 ->
  Serial.tick_t_cycle_for_speed speed s c = Done (x, c') -> x.1 = serial_next speed s.
Proof.
  intros Hk. unfold Serial.tick_t_cycle_for_speed.
  change ((s <| latest_completed_output_byte := None |>) <| clock_counter := _ |>) with (tick_idle_t_cycle s).
  destruct (tick_idle_fields s) as (Ht & Hm & _ & He & Hc & Hh & Hb).
  replace (clock_counter (s <| latest_completed_output_byte := None |>)) with (clock_counter s) by (by destruct s).
  rewrite Ht, Hm, He, Hc, Hh. unfold serial_next, shifts_now, pulse_consumed. rewrite Hm, He.
  assert (Hshift : forall s1 t, transfer_state s1 = transfer_state s -> transfer_requested (transfer_state s) = true ->
    tick_shift s1 t c = Done (x, c') -> x.1 = bit_shifted s1).
  { intros s1 t Ht1 Hreq. unfold tick_shift, mbind, ST_bind. destruct (shift_one_bit s1 c) as [[[s2 b] c2]|] eqn:E; [|done].
    apply shift_result in E; [|unfold bits_shifted_of in *; by rewrite Ht1 | by rewrite Ht1]. cbn in E. subst s2. by intros [= <- _]. }
  destruct (transfer_state s) as [|n] eqn:Et; [by intros [= <- _]|]. cbn [transfer_requested]. rewrite ?andb_true_l.
  destruct (clock_mode s).
  - destruct (external_clock_pulses_pending s =? 0); cbn [negb]; [by intros [= <- _]|]. apply Hshift; [|done]. rewrite <- Ht. by destruct s.
  - destruct (serial_internal_clock_edge _ _ _ _); [|by intros [= <- _]]. by apply Hshift.
Qed.

(** Between the clock's edges the cable shows nothing, on an edge the other's
    byte: the peer a port sees matters only when it shifts. *)
Lemma unclocked_next speed s p : shifts_now speed s = false -> serial_next speed (set_peer p s) = set_peer p (tick_idle_t_cycle s).
Proof. unfold serial_next. intros E. replace (shifts_now speed (set_peer p s)) with (shifts_now speed s) by (by destruct s). rewrite E. by destruct s. Qed.

Lemma exchanged_fields k s : 0 <= k < 8 ->
  peer (exchanged k s) = peer s /\ clock_mode (exchanged k s) = clock_mode s /\
  external_clock_pulses_pending (exchanged k s) = external_clock_pulses_pending s.
Proof. intros Hk. unfold exchanged. destruct (Z.eqb_spec k 0); [done|]. destruct (Z.eqb_spec k 8); [lia|]. by destruct s. Qed.

Lemma outgoing_exchanged k s : transfer_state s = TransferRequested 0 -> 0 <= k < 8 -> endpoint_outgoing_byte (exchanged k s) = staged_outgoing_byte s.
Proof.
  intros Ht Hk. unfold endpoint_outgoing_byte. rewrite bits_shifted_exchanged by done. unfold exchanged.
  destruct (Z.eqb_spec k 0); [done|]. destruct (Z.eqb_spec k 8); [lia|]. by destruct s.
Qed.

Lemma same_peer s : set_peer (peer s) s = s.
Proof. by destruct s. Qed.

(** ** One machine's share of the link in the phases before the CPU's *)

Section Machines.
Context {P H : Type} `{PictureUnit P} `{SgbHostPort H}.
Implicit Types m l r : Machine P H.

Definition pulses m : Z := external_serial_clock_pulses_pending (mc_pending_external_events m).

(** What the link depends on. *)
Record linked_same m m' : Prop := {
  link_serial : mc_serial m' = mc_serial m;
  link_kind : attachment_kind (mc_external_port m') = attachment_kind (mc_external_port m);
  link_speed : current_speed (mc_speed m') = current_speed (mc_speed m);
  link_cpu : MachineState.cpu_stop_active m' = MachineState.cpu_stop_active m;
  link_pulses : pulses m' = pulses m
}.

Lemma linked_refl m : linked_same m m.
Proof. done. Qed.
Lemma linked_trans m m1 m2 : linked_same m m1 -> linked_same m1 m2 -> linked_same m m2.
Proof. intros [] []. constructor; congruence. Qed.

Ltac same_link := by repeat match goal with m : Machine _ _ |- _ => destruct m end.

Lemma ppu_links dma active conflict c (r r' : Runner (P := P) (H := H)) :
  tick_ppu_video_domain dma active conflict c r = Done r' -> linked_same (runner_machine r) (runner_machine r').
Proof.
  destruct r as [m a b]. unfold tick_ppu_video_domain. cbn [runner_machine]. destruct (video_views _ _) as [oam vram]. cbn beta.
  destruct (picture_tick _ _ _ _ _) as [p|]; [|done]. cbn [mbind outcome_bind]. unfold runner_ppu_bus_state_snapshot.
  destruct (cached_ppu_bus_state_snapshot _); cbn; (destruct (_ =? 0);
    [destruct (transfer_display _) as [d|]; [|done]; cbn; unfold on_host; destruct (host_call _ _) as [h|]; [|done]|]);
    cbn; intros [= <-]; same_link.
Qed.

Lemma dma_links c m x : tick_dma c m = Done x -> linked_same m x.2.
Proof.
  unfold tick_dma. destruct (negb _); [by intros [= <-]|]. destruct (tick_t_cycle_with_vram_dma_context _ _) as [r|]; [|done]. cbn [mbind outcome_bind].
  destruct (dma_bus_state _) as [dma|]; [|done]. cbn [mbind outcome_bind]. destruct r.1 as [w|]; [|intros [= <-]; same_link].
  unfold read_transfer_byte. destruct (source_read_value_override w) as [[v|]|]; [intros [= <-]; same_link | | done]. cbn [mbind outcome_bind].
  destruct (work_source_address w) as [a|]; [|done]. cbn [mbind outcome_bind]. unfold machine_read.
  destruct (read_with_t_cycle_context _ _ _ _ _ _ _) as [b|]; [|done]. intros [= <-]. same_link.
Qed.

Lemma transfer_write_links activity m m' : write_transfer_byte activity m = Done m' -> linked_same m m'.
Proof.
  unfold write_transfer_byte. destruct (activity_work activity) as [w|]; [|by intros [= <-]]. destruct (activity_byte activity); [|by intros [= <-]].
  destruct (activity_arbitration activity); [|done]. destruct (work_destination_address w) as [a|]; [|done]. cbn [mbind outcome_bind].
  destruct (write_with_context _ _ _ _ _ _ _) as [w1|]; [|done]. intros [= <-]. same_link.
Qed.

(** The machine after its serial port did something. *)
Definition serial_moved (s : Serial) m m' : Prop := linked_same (m <| mc_serial := s |>) m'.

Lemma moved_fields s m m' : serial_moved s m m' -> mc_serial m' = s /\
  attachment_kind (mc_external_port m') = attachment_kind (mc_external_port m) /\ current_speed (mc_speed m') = current_speed (mc_speed m) /\
  MachineState.cpu_stop_active m' = MachineState.cpu_stop_active m /\ pulses m' = pulses m.
Proof. intros [-> -> -> -> ->]. unfold pulses. by destruct m. Qed.

Lemma bits_set_peer p s : bits_shifted_of (set_peer p s) = bits_shifted_of s.
Proof. by destruct s. Qed.

Lemma serial_ticks c m x : attachment_kind (mc_external_port m) = KindGameLinkDmg04 -> 0 <= bits_shifted_of (mc_serial m) < 8 ->
  tick_serial c m = Done x -> serial_moved (serial_next (current_speed (mc_speed m)) (mc_serial m)) m x.1.
Proof.
  intros Hk Hb. unfold tick_serial. rewrite Hk. cbn [andb].
  assert (Hport : ExternalPort.requires_t_cycle_tick (mc_external_port m) = false /\ handles_completed_serial_byte (mc_external_port m) = false /\
    requires_serial_peer_refresh_after_t_cycle (mc_external_port m) = false).
  { unfold attachment_kind in Hk. unfold ExternalPort.requires_t_cycle_tick, handles_completed_serial_byte, requires_serial_peer_refresh_after_t_cycle, is_printer.
    by destruct (attachment (mc_external_port m)). }
  destruct Hport as (Ht & Hh & Hr). rewrite Ht, orb_false_r. destruct (requires_full_t_cycle_tick (mc_serial m)) eqn:Ef.
  - unfold tick_serial_and_port. rewrite Ht. destruct (Serial.tick_t_cycle_for_speed _ _ c) as [[[s t] c1]|] eqn:E; [|done]. cbn [mbind outcome_bind].
    apply tick_result in E; [|done]. cbn in E. subst s. set (s := serial_next _ _).
    replace (mc_external_port (m <| mc_serial := s |>)) with (mc_external_port m) by (by destruct m). rewrite Hh.
    destruct (latest_completed_output_byte _); cbn [mbind outcome_bind mret outcome_ret];
      (replace (mc_external_port (m <| mc_serial := s |>)) with (mc_external_port m) by (by destruct m); rewrite Hr; intros [= <-]; by apply linked_refl).
  - intros [= <-]. unfold serial_next, shifts_now. unfold requires_full_t_cycle_tick in Ef. apply orb_false_elim in Ef as [-> _]. by apply linked_refl.
Qed.

Lemma serial_set s m m' : linked_same m m' -> linked_same (m <| mc_serial := s |>) (m' <| mc_serial := s |>).
Proof. intros []. destruct m, m'. by constructor. Qed.

Lemma autonomous_links c m x : MachineState.cpu_stop_active m = false -> attachment_kind (mc_external_port m) = KindGameLinkDmg04 ->
  0 <= bits_shifted_of (mc_serial m) < 8 -> step_autonomous_peripheral_ticks c (runner_new m) = Done x ->
  serial_moved (serial_next (current_speed (mc_speed m)) (mc_serial m)) m (runner_machine x.1).
Proof.
  intros Hs Hk Hb. unfold step_autonomous_peripheral_ticks. cbn [runner_machine runner_new]. cbv zeta.
  set (m0 := m <| mc_bus := _ |>). assert (L0 : linked_same m m0) by (unfold m0; same_link).
  rewrite (link_cpu _ _ L0), Hs. cbn [negb]. destruct (Apu.apu_tick_t_cycle_for_speed _ _ _) as [apu|]; [|done]. cbn [mbind outcome_bind].
  set (m1 := m0 <| mc_apu := apu |>). assert (L1 : linked_same m m1) by (eapply linked_trans; [exact L0|]; unfold m1; generalize m0; intros; same_link).
  clearbody m0 m1. destruct (tick_dma c m1) as [[activity m2]|] eqn:Ed; [|done]. cbn [mbind outcome_bind]. apply dma_links in Ed. cbn [snd] in Ed.
  destruct (current_oam_conflict activity m2) as [conflict|]; [|done]. cbn [mbind outcome_bind].
  match goal with |- context [mbind _ ?o] => destruct o as [r3|] eqn:Er; [|done] end. cbn [mbind outcome_bind].
  assert (L3 : linked_same m (runner_machine r3)).
  { eapply linked_trans; [exact L1|]. eapply linked_trans; [exact Ed|]. destruct (lcd_tick_due_at_scheduler_t_cycle _ _).
    - by apply ppu_links in Er.
    - injection Er as <-. by apply linked_refl. }
  clear Er. destruct r3 as [m3 ca cb]. cbn [runner_machine] in *. destruct (tick_serial c m3) as [mc|] eqn:Et; [|done]. cbn [mbind outcome_bind].
  apply serial_ticks in Et; [|by rewrite (link_kind _ _ L3) | by rewrite (link_serial _ _ L3)].
  rewrite (link_speed _ _ L3), (link_serial _ _ L3) in Et.
  destruct (write_transfer_byte activity mc.1) as [m4|] eqn:Ew; [|done]. cbn [mbind outcome_bind]. intros [= <-].
  apply transfer_write_links in Ew. cbn. eapply linked_trans; [|exact Ew]. eapply linked_trans; [|exact Et]. by apply serial_set.
Qed.

Lemma events_link e m : external_serial_clock_pulses_pending e = pulses m -> linked_same m (m <| mc_pending_external_events := e |>).
Proof. intros He. destruct m. by constructor. Qed.

(** A clock pulse reaches the port in the first phase. *)
Definition pulse_taken m : Serial := if pulses m =? 0 then mc_serial m else (queue_external_clock_pulse (mc_serial m)).1.

Lemma ingress_links m c x : MachineState.cpu_stop_active m = false -> step_external_event_ingress m c = Done x ->
  mc_serial x.1 = pulse_taken m /\ attachment_kind (mc_external_port x.1) = attachment_kind (mc_external_port m) /\
  current_speed (mc_speed x.1) = current_speed (mc_speed m) /\ MachineState.cpu_stop_active x.1 = false /\
  pulses x.1 = (if pulses m =? 0 then 0 else pulses m - 1).
Proof.
  intros Hs. unfold step_external_event_ingress, pulse_taken. destruct (has_pending_work _) eqn:Ew; cbn [negb].
  2: { intros [= <-]. unfold has_pending_work in Ew. apply orb_false_elim in Ew as [_ Ep]. apply negb_false_iff in Ep. unfold pulses. rewrite Ep.
       apply Z.eqb_eq in Ep. by split_and!. }
  match goal with |- context [mbind _ ?o] => destruct o as [[m1 c1]|] eqn:E1; [|done] end. cbn [mbind outcome_bind].
  assert (L1 : linked_same m m1).
  { assert (Hjoypad : forall m2 (x : Joypad * bool), linked_same m m2 ->
      (let m3 := m2 <| mc_joypad := x.1 |> in if x.2 then r ← push_external_event HostInputChanged c; mret (m3, r.2) else mret (m3, c)) = Done (m1, c1) ->
      linked_same m m1).
    { intros m2 [j changed] L. cbv zeta. cbn [fst snd]. assert (L' : linked_same m (m2 <| mc_joypad := j |>))
        by (eapply linked_trans; [exact L|]; destruct m2; by constructor).
      destruct changed; [destruct (push_external_event _ _) as [r|]; [|done]|]; by intros [= <- _]. }
    revert E1. destruct (is_sgb _).
    - destruct (take_pending_sgb_joypad_pressed_masks _) as [e masks] eqn:Ee. assert (Le : linked_same m (m <| mc_pending_external_events := e |>)).
      { apply events_link. revert Ee. unfold pulses, take_pending_sgb_joypad_pressed_masks. by destruct (mc_pending_external_events m), (_ =? 0); intros [= <- _]. }
      destruct masks as [masks|]; [|by intros [= <- _]]. unfold on_host. destruct (host_call _ _) as [h|]; [|done]. cbn [mbind outcome_bind mret outcome_ret].
      match goal with |- context [apply_pressed_mask ?a ?b] => set (y := apply_pressed_mask a b) end.
      intros E1. eapply (Hjoypad _ y); [|by rewrite (surjective_pairing y) in E1]. eapply linked_trans; [exact Le|]. same_link.
    - destruct (take_pending_joypad_pressed_mask _) as [e masks] eqn:Ee. assert (Le : linked_same m (m <| mc_pending_external_events := e |>)).
      { apply events_link. revert Ee. unfold pulses, take_pending_joypad_pressed_mask. by destruct (mc_pending_external_events m), (negb _); intros [= <- _]. }
      destruct masks as [masks|]; [|by intros [= <- _]].
      match goal with |- context [apply_pressed_mask ?a ?b] => set (y := apply_pressed_mask a b) end.
      intros E1. eapply (Hjoypad _ y); [exact Le|]. by rewrite (surjective_pairing y) in E1. }
  clear E1. destruct L1 as [Lse Lk Lsp Lc Lp]. destruct (take_external_serial_clock_pulse _) as [e pulse] eqn:Ee. unfold take_external_serial_clock_pulse in Ee.
  change (external_serial_clock_pulses_pending (mc_pending_external_events m1)) with (pulses m1) in Ee. rewrite Lp in Ee.
  assert (He : external_serial_clock_pulses_pending e = (if pulses m =? 0 then 0 else pulses m - 1) /\ pulse = negb (pulses m =? 0)).
  { destruct (Z.eqb_spec (pulses m) 0) as [E0|E0]; injection Ee as <- <-; [split; [|done]; unfold pulses in Lp, E0; congruence|].
    split; [|done]. rewrite <- Lp. unfold pulses. by destruct (mc_pending_external_events m1). }
  destruct He as [He ->]. clear Ee.
  replace (MachineState.cpu_stop_active (m1 <| mc_pending_external_events := e |>)) with false by (rewrite <- Hs, <- Lc; by destruct m1).
  replace (mc_serial (m1 <| mc_pending_external_events := e |>)) with (mc_serial m) by (rewrite <- Lse; by destruct m1).
  rewrite andb_true_r. destruct (Z.eqb_spec (pulses m) 0) as [E0|E0]; cbn [negb].
  - intros [= <-]. cbn [fst]. rewrite <- Lse, <- Lk, <- Lsp. unfold pulses. destruct m1. cbn in *. rewrite <- Hs, <- Lc. by split_and!.
  - destruct (queue_external_clock_pulse (mc_serial m)) as [s queued]. cbn [fst].
    assert (Hm : forall y, y = m1 <| mc_pending_external_events := e |> <| mc_serial := s |> -> mc_serial y = s /\
      attachment_kind (mc_external_port y) = attachment_kind (mc_external_port m) /\ current_speed (mc_speed y) = current_speed (mc_speed m) /\
      MachineState.cpu_stop_active y = false /\ pulses y = pulses m - 1).
    { intros y ->. rewrite <- Lk, <- Lsp, <- Hs, <- Lc, <- He. unfold pulses. by destruct m1. }
    destruct queued; [destruct (push_external_event _ _) as [r|]; [|done]|]; intros [= <-]; by apply Hm.
Qed.

Lemma phase_links records_events p m c x : MachineState.cpu_stop_active m = false -> attachment_kind (mc_external_port m) = KindGameLinkDmg04 ->
  0 <= bits_shifted_of (mc_serial m) < 8 -> step_phase_with_context records_events (m, enter_phase p c) = Done x ->
  match p with
  | ExternalEventIngress =>
      mc_serial x.2.1 = pulse_taken m /\ attachment_kind (mc_external_port x.2.1) = KindGameLinkDmg04 /\
      current_speed (mc_speed x.2.1) = current_speed (mc_speed m) /\ MachineState.cpu_stop_active x.2.1 = false /\
      pulses x.2.1 = (if pulses m =? 0 then 0 else pulses m - 1)
  | MasterClockTick | DerivedEdgeResolution => linked_same m x.2.1
  | AutonomousPeripheralTicks => serial_moved (serial_next (current_speed (mc_speed m)) (mc_serial m)) m x.2.1
  | _ => True
  end.
Proof.
  intros Hs Hk Hb. unfold step_phase_with_context, step_phase. replace (phase (enter_phase p c)) with p by (by destruct c). generalize (enter_phase p c). clear c. intros c.
  destruct p; try done.
  - unfold on_machine. cbn [runner_machine runner_new]. destruct (step_external_event_ingress m _) as [[m1 c1]|] eqn:E; cbn [mbind outcome_bind]; [|done]. intros [= <-]. rewrite <- Hk. by apply (ingress_links m c (m1, c1)).
  - intros [= <-]. by apply linked_refl.
  - unfold on_machine. cbn [runner_machine runner_new]. unfold step_derived_edge_resolution. destruct (negb _); [|intros [= <-]; by apply linked_refl].
    destruct (Timer.tick_t_cycle_for_speed _ _ _) as [y|]; cbn [mbind outcome_bind]; [|done]. intros [= <-]. same_link.
  - destruct (step_autonomous_peripheral_ticks _ _) as [[r1 c1]|] eqn:E; cbn [mbind outcome_bind]; [|done]. intros [= <-].
    exact (autonomous_links c m (r1, c1) Hs Hk Hb E).
Qed.

(** ** Two machines and a cable *)

Definition cabled (k : GlobalScheduler) l r (cs : list CycleContext) : LinkedMachines P H :=
  mkLinked k [l; r] (Dmg04Topology (mkCable 0 1)) cs.

(** What the cable does to the ends before a phase. *)
Definition cable_ends (p : SchedulerPhase) l r : Machine P H * Machine P H :=
  match p with
  | ExternalEventIngress => clock_waiting_ends l r
  | AutonomousPeripheralTicks => stage_exchange l r
  | _ => (l, r)
  end.

Lemma cabled_phase records_events p k l r cl cr w : linked_phase records_events p (cabled k l r [cl; cr]) = Done w ->
  exists x y, step_phase_with_context records_events ((cable_ends p l r).1, enter_phase p cl) = Done x /\
    step_phase_with_context records_events ((cable_ends p l r).2, enter_phase p cr) = Done y /\
    w = cabled k x.2.1 y.2.1 [x.2.2; y.2.2].
Proof.
  assert (Hpair : forall f : Machine P H -> Machine P H -> Machine P H * Machine P H, on_pair 0 1 f [l; r] = Done [(f l r).1; (f l r).2]) by (intros f;
    transitivity (let '(a, b) := f l r in Done [a; b]); [reflexivity | by destruct (f l r)]).
  assert (Hprep : cable_prepare_phase p (mkCable 0 1) [l; r] = Done [(cable_ends p l r).1; (cable_ends p l r).2]).
  { unfold cable_prepare_phase, prepare_external_event_ingress, prepare_autonomous_peripheral_ticks. destruct p; try done; apply Hpair. }
  unfold linked_phase, prepare_phase, cabled. cbn [topology machines contexts linked_scheduler map].
  cbn -[step_phase_with_context cable_prepare_phase enter_phase cable_ends]. rewrite Hprep.
  cbn -[step_phase_with_context cable_prepare_phase enter_phase cable_ends].
  generalize (cable_ends p l r). clear. intros [l1 r1]. cbn [fst snd].
  destruct (step_phase_with_context records_events (l1, _)) as [x|]; cbn [mbind outcome_bind]; [|done].
  destruct (step_phase_with_context records_events (r1, _)) as [y|]; cbn [mbind outcome_bind]; [|done]. intros [= <-]. by exists x, y.
Qed.

(** The ports of a transfer as they were when it began, each with the other's
    byte for a peer. *)
Record transfer (L R : Serial) : Prop := {
  transfer_left_ok : serial_ok L;
  transfer_right_ok : serial_ok R;
  transfer_begun : transfer_state L = TransferRequested 0;
  transfer_master : clock_mode L = Internal;
  transfer_waits : waiting_for_clock R;
  transfer_to_left : peer L = StagedIncomingByte (staged_outgoing_byte R);
  transfer_to_right : peer R = StagedIncomingByte (staged_outgoing_byte L)
}.

Lemma transfer_tick L R : transfer L R -> transfer (tick_idle_t_cycle L) (tick_idle_t_cycle R).
Proof.
  intros []. constructor; [by apply serial_ok_idle_tick | by apply serial_ok_idle_tick | | | by apply waiting_tick | |]; by destruct L, R.
Qed.

(** The two machines, [bits] of the way through the transfer; [e] says that the
    right port has a clock pulse to take. *)
Record wired (L R : Serial) (speed : CgbSpeedMode) (bits : Z) (e : bool) l r : Prop := {
  wired_kinds : attachment_kind (mc_external_port l) = KindGameLinkDmg04 /\ attachment_kind (mc_external_port r) = KindGameLinkDmg04;
  wired_stops : MachineState.cpu_stop_active l = false /\ MachineState.cpu_stop_active r = false;
  wired_pulses : pulses l = 0 /\ pulses r = 0;
  wired_speed : current_speed (mc_speed l) = speed;
  wired_left : exists p, mc_serial l = set_peer p (exchanged bits L);
  wired_right : exists p, mc_serial r = set_peer p (if e then (queue_external_clock_pulse (exchanged bits R)).1 else exchanged bits R)
}.

Lemma wired_same L R speed bits e l r l' r' : linked_same l l' -> linked_same r r' -> wired L R speed bits e l r -> wired L R speed bits e l' r'.
Proof.
  intros [] [] [[] [] [] ? [p Hp] [q Hq]].
  constructor; [split; congruence | split; congruence | split; congruence | congruence | exists p; congruence | exists q; congruence].
Qed.

Section Wire.
Context (L R : Serial) (speed : CgbSpeedMode) (Ht : transfer L R) (bits : Z) (Hbits : 0 <= bits < 8).

(** What each end tells the cable. *)
Lemma left_end e l r : wired L R speed bits e l r -> dmg04_endpoint_state l =
  mkDmg04Endpoint true true (staged_outgoing_byte L) false (shifts_now speed L).
Proof.
  intros [[Hk _] [Hs _] _ Hsp [p Hp] _]. unfold dmg04_endpoint_state. rewrite Hk, Hs, Hp, Hsp. destruct Ht as [_ _ Hb Hm _ _ _].
  replace (endpoint_outgoing_byte (set_peer p (exchanged bits L))) with (endpoint_outgoing_byte (exchanged bits L)) by (by destruct (exchanged bits L)).
  rewrite outgoing_exchanged by done.
  replace (Serial.transfer_state (set_peer p (exchanged bits L))) with (TransferRequested bits) by (rewrite <- (bits_shifted_exchanged L bits Hb Hbits); by destruct (exchanged bits L)).
  replace (clock_mode (set_peer p (exchanged bits L))) with Internal by (rewrite <- Hm, <- (proj1 (proj2 (exchanged_fields bits L Hbits))); by destruct (exchanged bits L)).
  f_equal. cbn [transfer_requested is_internal negb andb]. rewrite <- (shifts_now_exchanged speed L bits Hb Hbits).
  unfold internal_clock_edge_pending_this_t_cycle_for_speed, shifts_now.
  assert (Hm' : clock_mode (exchanged bits L) = Internal) by (by rewrite (proj1 (proj2 (exchanged_fields bits L Hbits)))).
  destruct (exchanged bits L) as [? ? ? c]. cbn in *. by subst c.
Qed.

Lemma right_end e l r : wired L R speed bits e l r -> dmg04_endpoint_state r = mkDmg04Endpoint true true (staged_outgoing_byte R) true false.
Proof.
  intros [[_ Hk] [_ Hs] _ _ _ [p Hp]]. unfold dmg04_endpoint_state. rewrite Hk, Hs, Hp. destruct Ht as [_ _ _ _ (Hb & Hm & Hpl) _ _].
  assert (Hx : forall y, y = (if e then (queue_external_clock_pulse (exchanged bits R)).1 else exchanged bits R) ->
    Serial.transfer_state y = TransferRequested bits /\ clock_mode y = External /\ endpoint_outgoing_byte y = staged_outgoing_byte R).
  { intros y ->. destruct (exchanged_fields bits R Hbits) as (_ & Hm' & _). pose proof (bits_shifted_exchanged R bits Hb Hbits) as Hb'.
    pose proof (outgoing_exchanged bits R Hb Hbits) as Ho. rewrite Hm in Hm'. revert Hb' Hm' Ho. generalize (exchanged bits R). intros y Hb' Hm' Ho.
    destruct e; [|done]. unfold queue_external_clock_pulse, accepts_external_clock_pulse. rewrite Hm', Hb'. cbn. rewrite <- Ho. by destruct y. }
  destruct (Hx _ eq_refl) as (Q1 & Q2 & Q3). revert Q1 Q2 Q3. generalize (if e then (queue_external_clock_pulse (exchanged bits R)).1 else exchanged bits R).
  intros y Q1 Q2 Q3. replace (endpoint_outgoing_byte (set_peer p y)) with (endpoint_outgoing_byte y) by (by destruct y).
  replace (Serial.transfer_state (set_peer p y)) with (Serial.transfer_state y) by (by destruct y).
  replace (clock_mode (set_peer p y)) with (clock_mode y) by (by destruct y). by rewrite Q1, Q2, Q3.
Qed.

Lemma bits_of_wired e l r : wired L R speed bits e l r -> 0 <= bits_shifted_of (mc_serial l) < 8 /\ 0 <= bits_shifted_of (mc_serial r) < 8.
Proof.
  intros [_ _ _ _ [p Hp] [q Hq]]. destruct Ht as [_ _ Hb _ (Hb' & _ & _) _ _]. rewrite Hp, Hq. unfold bits_shifted_of.
  pose proof (bits_shifted_exchanged L bits Hb Hbits) as El. pose proof (bits_shifted_exchanged R bits Hb' Hbits) as Er.
  split; [destruct (exchanged bits L); cbn in *; by subst|].
  revert Er. generalize (exchanged bits R). intros y Ey. destruct e; [|destruct y; cbn in *; by subst].
  unfold queue_external_clock_pulse. destruct (accepts_external_clock_pulse y); destruct y; cbn in *; by subst.
Qed.

Lemma wired_ingress records_events k l r cl cr w : wired L R speed bits false l r ->
  linked_phase records_events ExternalEventIngress (cabled k l r [cl; cr]) = Done w ->
  exists l' r' cl' cr', w = cabled k l' r' [cl'; cr'] /\ wired L R speed bits (shifts_now speed L) l' r'.
Proof.
  intros Hw (x & y & Hx & Hy & ->)%cabled_phase. exists x.2.1, y.2.1, x.2.2, y.2.2. split; [done|].
  pose proof (left_end _ _ _ Hw) as Hl. pose proof (right_end _ _ _ Hw) as Hr. destruct (bits_of_wired _ _ _ Hw) as [Bl Br].
  destruct Hw as [[Kl Kr] [Sl Sr] [Pl Pr] Hsp [p Hp] [q Hq]].
  unfold cable_ends, clock_waiting_ends in Hx, Hy. rewrite Hl, Hr in Hx, Hy. cbn [fst snd dmg04_internal_clock_edge_pending dmg04_waiting_for_external_clock andb] in Hx, Hy.
  rewrite andb_true_r in Hy. apply phase_links in Hx; [|done..]. destruct Hx as (Ex & Kx & Sx & Cx & Px). unfold pulse_taken in Ex. rewrite Pl in Ex, Px. cbn in Ex, Px.
  set (r1 := if shifts_now speed L then queue_external_serial_clock r else r) in *.
  assert (Hr1 : attachment_kind (mc_external_port r1) = attachment_kind (mc_external_port r) /\ MachineState.cpu_stop_active r1 = MachineState.cpu_stop_active r /\
    mc_serial r1 = mc_serial r /\ pulses r1 = if shifts_now speed L then 1 else 0).
  { unfold r1, queue_external_serial_clock, pending_queue_external_serial_clock, pulses in *. destruct (shifts_now speed L); [|done].
    clear -Pr. destruct r as [? ? ? ? ? ? ? ? ? ? ? ? ? ? ? ? ev ?], ev. cbn in *. by rewrite Pr. }
  destruct Hr1 as (Kr1 & Cr1 & Er1 & Pr1). apply phase_links in Hy; [|congruence | congruence | congruence]. destruct Hy as (Ey & Ky & _ & Cy & Py).
  unfold pulse_taken in Ey. rewrite Pr1 in Ey, Py. rewrite Er1, Hq in Ey.
  constructor; [done | done | | congruence | exists p; congruence |].
  - split; [done|]. rewrite Py. by destruct (shifts_now speed L).
  - exists q. rewrite Ey. destruct (shifts_now speed L); cbn; [|done]. generalize (exchanged bits R). intros z.
    unfold queue_external_clock_pulse, accepts_external_clock_pulse. destruct z as [? ? ? []]; cbn; [|done]. by destruct (transfer_requested _).
Qed.

Lemma wired_quiet records_events p k e l r cl cr w : p = MasterClockTick \/ p = DerivedEdgeResolution -> wired L R speed bits e l r ->
  linked_phase records_events p (cabled k l r [cl; cr]) = Done w ->
  exists l' r' cl' cr', w = cabled k l' r' [cl'; cr'] /\ wired L R speed bits e l' r'.
Proof.
  intros Hq Hw (x & y & Hx & Hy & ->)%cabled_phase. exists x.2.1, y.2.1, x.2.2, y.2.2. split; [done|].
  destruct (bits_of_wired _ _ _ Hw) as [Bl Br]. pose proof (wired_kinds _ _ _ _ _ _ _ Hw) as [Kl Kr]. pose proof (wired_stops _ _ _ _ _ _ _ Hw) as [Sl Sr].
  assert (Hends : cable_ends p l r = (l, r)) by (by destruct Hq as [-> | ->]). rewrite Hends in Hx, Hy.
  apply phase_links in Hx; [|done..]. apply phase_links in Hy; [|done..].
  destruct Hq as [-> | ->]; by eapply wired_same.
Qed.

(** What the cable stages at an end. *)
Lemma staged_end b m : attachment_kind (mc_external_port m) = KindGameLinkDmg04 ->
  serial_moved (set_peer (staged_or_disconnected b) (mc_serial m)) m (machine_set_dmg04_incoming_byte b m).
Proof.
  intros Hk. destruct m as [? ? ? ? ? ? ? ? ? ? ? [a] ? ? ? ? ? ?]. cbn in Hk. destruct a; try done.
Qed.

(** A port whose clock has no edge in this T-cycle, and one whose clock has. *)
Lemma left_unclocked p q : shifts_now speed L = false ->
  serial_next speed (set_peer q (set_peer p (exchanged bits L))) = set_peer q (exchanged bits (tick_idle_t_cycle L)).
Proof.
  intros He. destruct Ht as [_ _ Hb _ _ _ _]. replace (set_peer q (set_peer p (exchanged bits L))) with (set_peer q (exchanged bits L)) by (by destruct (exchanged bits L)).
  rewrite unclocked_next by (by rewrite shifts_now_exchanged). by rewrite tick_idle_exchanged.
Qed.

Lemma left_clocked p : shifts_now speed L = true ->
  serial_next speed (set_peer (peer L) (set_peer p (exchanged bits L))) = exchanged (bits + 1) (tick_idle_t_cycle L).
Proof.
  intros He. destruct Ht as [Hok _ Hb Hm _ _ _]. replace (set_peer (peer L) (set_peer p (exchanged bits L))) with (exchanged bits L).
  - destruct (serial_next_exchanged speed L bits Hok Hb Hbits) as [-> _]. rewrite He. unfold pulse_consumed.
    destruct (tick_idle_fields L) as (_ & -> & _). by rewrite Hm.
  - destruct (exchanged_fields bits L Hbits) as (<- & _). by destruct (exchanged bits L).
Qed.

Lemma right_unclocked v p q : serial_next v (set_peer q (set_peer p (exchanged bits R))) = set_peer q (exchanged bits (tick_idle_t_cycle R)).
Proof.
  destruct Ht as [_ _ _ _ (Hb & Hm & Hp) _ _]. replace (set_peer q (set_peer p (exchanged bits R))) with (set_peer q (exchanged bits R)) by (by destruct (exchanged bits R)).
  rewrite unclocked_next; [by rewrite tick_idle_exchanged|]. rewrite shifts_now_exchanged by done. unfold shifts_now. by rewrite Hb, Hm, Hp.
Qed.

Lemma right_clocked v p : serial_next v (set_peer (peer R) (set_peer p (queue_external_clock_pulse (exchanged bits R)).1)) = exchanged (bits + 1) (tick_idle_t_cycle R).
Proof.
  destruct Ht as [_ Hok _ _ Hw _ _]. change (bits + 1) with (bits + u8_from_bool true).
  destruct (external_step v R bits true Hok Hw Hbits) as [<- _]. f_equal.
  destruct (exchanged_fields bits R Hbits) as (<- & _). generalize (exchanged bits R). intros y.
  unfold queue_external_clock_pulse. destruct (negb _); by destruct y.
Qed.

Lemma wired_shift records_events k l r cl cr w : wired L R speed bits (shifts_now speed L) l r ->
  linked_phase records_events AutonomousPeripheralTicks (cabled k l r [cl; cr]) = Done w ->
  exists l' r' cl' cr', w = cabled k l' r' [cl'; cr'] /\
    wired (tick_idle_t_cycle L) (tick_idle_t_cycle R) speed (bits + u8_from_bool (shifts_now speed L)) false l' r'.
Proof.
  intros Hw (x & y & Hx & Hy & ->)%cabled_phase. exists x.2.1, y.2.1, x.2.2, y.2.2. split; [done|].
  pose proof (left_end _ _ _ Hw) as Hl. pose proof (right_end _ _ _ Hw) as Hr. destruct (bits_of_wired _ _ _ Hw) as [Bl Br].
  destruct Hw as [[Kl Kr] [Sl Sr] [Pl Pr] Hsp [p Hp] [q Hq]]. pose proof (transfer_to_left _ _ Ht) as Tl. pose proof (transfer_to_right _ _ Ht) as Tr.
  set (e := shifts_now speed L) in *.
  assert (Hends : cable_ends AutonomousPeripheralTicks l r =
    (machine_set_dmg04_incoming_byte (if e then Some (staged_outgoing_byte R) else None) l,
     machine_set_dmg04_incoming_byte (if e then Some (staged_outgoing_byte L) else None) r)).
  { unfold cable_ends, stage_exchange. rewrite Hl, Hr. unfold resolve_dmg04_exchange. cbn. by destruct e. }
  rewrite Hends in Hx, Hy. cbn [fst snd] in Hx, Hy.
  pose proof (staged_end (if e then Some (staged_outgoing_byte R) else None) l Kl) as (El & Kl1 & Sl1 & Cl1 & Pl1)%moved_fields.
  pose proof (staged_end (if e then Some (staged_outgoing_byte L) else None) r Kr) as (Er & Kr1 & Sr1 & Cr1 & Pr1)%moved_fields.
  set (l1 := machine_set_dmg04_incoming_byte _ l) in *. set (r1 := machine_set_dmg04_incoming_byte _ r) in *. clearbody l1 r1.
  apply phase_links in Hx; [|congruence | congruence | rewrite El, bits_set_peer; done].
  apply phase_links in Hy; [|congruence | congruence | rewrite Er, bits_set_peer; done].
  rewrite El, Sl1, Hsp, Hp in Hx. rewrite Er, Hq in Hy. apply moved_fields in Hx as (Ex & Kx & Sx & Cx & Px). apply moved_fields in Hy as (Ey & Ky & Sy & Cy & Py).
  constructor; [split; congruence | split; congruence | split; congruence | congruence | |]; subst e; destruct (shifts_now speed L) eqn:Ee; cbn [u8_from_bool staged_or_disconnected] in *.
  - exists (peer (mc_serial x.2.1)). rewrite <- (left_clocked p Ee), Tl, <- Ex. symmetry. apply same_peer.
  - exists Disconnected. rewrite Z.add_0_r, <- (left_unclocked p Disconnected Ee). exact Ex.
  - exists (peer (mc_serial y.2.1)). rewrite <- (right_clocked (current_speed (mc_speed r1)) q), Tr, <- Ey. symmetry. apply same_peer.
  - exists Disconnected. rewrite Z.add_0_r, <- (right_unclocked (current_speed (mc_speed r1)) q Disconnected). exact Ey.
Qed.
End Wire.

(** ** T-cycles of the session *)

Definition wire_phases : list SchedulerPhase := [ExternalEventIngress; MasterClockTick; DerivedEdgeResolution; AutonomousPeripheralTicks].

(** The session in the middle of a T-cycle: the peripherals have ticked, and no
    CPU has had its turn. *)
Definition before_the_cpus (records_events : bool) (s : LinkedMachines P H) : outcome (LinkedMachines P H) :=
  let t := next_t_cycle (linked_scheduler s) in
  linked_phases records_events wire_phases (s <| contexts := map (fun c => reset_for_cycle c t) (contexts s) |>).

Lemma wired_before records_events L R speed bits k l r cl cr w : transfer L R -> 0 <= bits < 8 -> wired L R speed bits false l r ->
  before_the_cpus records_events (cabled k l r [cl; cr]) = Done w ->
  exists l' r' cl' cr', w = cabled k l' r' [cl'; cr'] /\
    wired (tick_idle_t_cycle L) (tick_idle_t_cycle R) speed (bits + u8_from_bool (shifts_now speed L)) false l' r'.
Proof.
  intros Ht Hb Hw. unfold before_the_cpus. set (t := next_t_cycle _).
  match goal with |- context [linked_phases _ _ ?x] => change x with (cabled k l r [reset_for_cycle cl t; reset_for_cycle cr t]) end.
  unfold wire_phases. cbn [linked_phases].
  destruct (linked_phase _ ExternalEventIngress _) as [w1|] eqn:E1; cbn [mbind outcome_bind]; [|done].
  destruct (wired_ingress L R speed Ht bits Hb _ _ _ _ _ _ _ Hw E1) as (l1 & r1 & cl1 & cr1 & -> & Hw1).
  destruct (linked_phase _ MasterClockTick _) as [w2|] eqn:E2; cbn [mbind outcome_bind]; [|done].
  destruct (wired_quiet L R speed Ht bits Hb _ _ _ _ _ _ _ _ _ (or_introl eq_refl) Hw1 E2) as (l2 & r2 & cl2 & cr2 & -> & Hw2).
  destruct (linked_phase _ DerivedEdgeResolution _) as [w3|] eqn:E3; cbn [mbind outcome_bind]; [|done].
  destruct (wired_quiet L R speed Ht bits Hb _ _ _ _ _ _ _ _ _ (or_intror eq_refl) Hw2 E3) as (l3 & r3 & cl3 & cr3 & -> & Hw3).
  destruct (linked_phase _ AutonomousPeripheralTicks _) as [w4|] eqn:E4; cbn [mbind outcome_bind]; [|done].
  intros [= <-]. exact (wired_shift L R speed Ht bits Hb _ _ _ _ _ _ _ Hw3 E4).
Qed.

Lemma cabled_phases records_events ps k l r cl cr w : linked_phases records_events ps (cabled k l r [cl; cr]) = Done w ->
  exists l' r' cl' cr', w = cabled k l' r' [cl'; cr'].
Proof.
  revert l r cl cr. induction ps as [|p ps IH]; intros l r cl cr; cbn [linked_phases]; [intros [= <-]; by exists l, r, cl, cr|].
  destruct (linked_phase records_events p _) as [w1|] eqn:E1; cbn [mbind outcome_bind]; [|done].
  apply cabled_phase in E1 as (x & y & _ & _ & ->). apply IH.
Qed.

Lemma cabled_advance records_events k l r cl cr w : advance_t_cycle records_events (cabled k l r [cl; cr]) = Done w ->
  exists k' l' r' cl' cr', w = cabled k' l' r' [cl'; cr'].
Proof.
  unfold advance_t_cycle. cbn [contexts machines cabled linked_scheduler]. cbn [length Nat.eqb negb]. set (t := next_t_cycle k).
  match goal with |- context [linked_phases _ _ ?x] => change x with (cabled k l r [reset_for_cycle cl t; reset_for_cycle cr t]) end.
  destruct (linked_phases _ ORDER _) as [w1|] eqn:E1; cbn [mbind outcome_bind]; [|done]. apply cabled_phases in E1 as (l1 & r1 & cl1 & cr1 & ->).
  destruct (TCycle_next t) as [n|]; cbn [mbind outcome_bind]; [|done]. intros [= <-]. by do 5 eexists.
Qed.

(** ** A transfer nobody disturbs *)

(** What a console may not do meanwhile: write its serial registers, pull its
    plug, change speed or stop. *)
Record untouched m m' : Prop := {
  untouched_serial : mc_serial m' = mc_serial m;
  untouched_kind : attachment_kind (mc_external_port m') = attachment_kind (mc_external_port m);
  untouched_speed : current_speed (mc_speed m') = current_speed (mc_speed m);
  untouched_awake : MachineState.cpu_stop_active m' = false;
  untouched_pulses : pulses m' = pulses m
}.

(** T-cycles of a session in which nothing after the peripherals' phase touches
    the consoles' ends of the link. *)
Inductive undisturbed_run (records_events : bool) : nat -> LinkedMachines P H -> LinkedMachines P H -> Prop :=
| undisturbed_none s : undisturbed_run records_events 0 s s
| undisturbed_cycle n s w s1 s2 : before_the_cpus records_events s = Done w -> advance_t_cycle records_events s = Done s1 ->
    Forall2 untouched (machines w) (machines s1) -> undisturbed_run records_events n s1 s2 -> undisturbed_run records_events (S n) s s2.

(** Two consoles on a cable: the first has just asked for a transfer on its own
    clock, the second for one on the other's. *)
Record transfer_begins (s : LinkedMachines P H) l r : Prop := {
  begins_machines : machines s = [l; r];
  begins_contexts : length (contexts s) = 2%nat;
  begins_cable : topology s = Dmg04Topology (mkCable 0 1);
  begins_kinds : attachment_kind (mc_external_port l) = KindGameLinkDmg04 /\ attachment_kind (mc_external_port r) = KindGameLinkDmg04;
  begins_awake : MachineState.cpu_stop_active l = false /\ MachineState.cpu_stop_active r = false;
  begins_pulses : pulses l = 0 /\ pulses r = 0;
  begins_ports : serial_ok (mc_serial l) /\ serial_ok (mc_serial r);
  begins_master : Serial.transfer_state (mc_serial l) = TransferRequested 0 /\ clock_mode (mc_serial l) = Internal;
  begins_waits : waiting_for_clock (mc_serial r)
}.

Lemma wired_untouched L R speed bits l r l' r' : untouched l l' -> untouched r r' -> wired L R speed bits false l r -> wired L R speed bits false l' r'.
Proof.
  intros [] [] [[] [] [] ? [p Hp] [q Hq]].
  constructor; [split; congruence | done | split; congruence | congruence | exists p; congruence | exists q; congruence].
Qed.

Lemma undisturbed_wired records_events L R speed n j s s' k l r cl cr : transfer L R -> s = cabled k l r [cl; cr] ->
  let period := serial_period speed (cgb_high_speed_clock L) in
  Z.of_nat (j + n) <= 8 * period - clock_counter L mod period ->
  wired (iterate j tick_idle_t_cycle L) (iterate j tick_idle_t_cycle R) speed (internal_shifts speed L (Z.of_nat j)) false l r ->
  undisturbed_run records_events n s s' -> exists l' r', machines s' = [l'; r'] /\
    wired (iterate (j + n) tick_idle_t_cycle L) (iterate (j + n) tick_idle_t_cycle R) speed (internal_shifts speed L (Z.of_nat (j + n))) false l' r'.
Proof.
  intros Ht Es period Hn Hw Hrun. revert j k l r cl cr Es Hn Hw. induction Hrun as [s|n s w s1 s2 Hmid Hadv Hsame Hrun IH]; intros j k l r cl cr -> Hn Hw.
  { rewrite Nat.add_0_r. by exists l, r. }
  assert (Hj : 0 <= internal_shifts speed L (Z.of_nat j) < 8).
  { unfold internal_shifts. subst period. destruct (serial_period_cases speed (cgb_high_speed_clock L)) as [Hp | [Hp | [Hp | Hp]]]; rewrite Hp in *; divmod_lia. }
  assert (Htj : transfer (iterate j tick_idle_t_cycle L) (iterate j tick_idle_t_cycle R)).
  { clear -Ht. revert L R Ht. induction j as [|j IH]; intros L R Ht; [done|]. cbn [iterate]. by apply IH, transfer_tick. }
  destruct (wired_before _ _ _ _ _ _ _ _ _ _ _ Htj Hj Hw Hmid) as (l1 & r1 & cl1 & cr1 & -> & Hw1).
  destruct (cabled_advance _ _ _ _ _ _ _ Hadv) as (k2 & l2 & r2 & cl2 & cr2 & ->).
  cbn [machines cabled] in Hsame. inversion Hsame as [|? ? ? ? Hl Hr']; subst. inversion Hr' as [|? ? ? ? Hr _]; subst.
  apply (wired_untouched _ _ _ _ _ _ _ _ Hl Hr) in Hw1. rewrite <- !iterate_S in Hw1.
  rewrite <- (internal_shift_step speed L j (transfer_left_ok _ _ Ht) (transfer_begun _ _ Ht) (transfer_master _ _ Ht)) in Hw1.
  replace (j + S n)%nat with (S j + n)%nat in * by lia. exact (IH (S j) _ _ _ _ _ eq_refl Hn Hw1).
Qed.

(** The transfer as the ports of the two consoles begin it. *)
Definition given (byte : Z) (s : Serial) : Serial := set_peer (StagedIncomingByte byte) s.

Lemma begins_transfer s l r (L := given (staged_outgoing_byte (mc_serial r)) (mc_serial l)) (R := given (staged_outgoing_byte (mc_serial l)) (mc_serial r)) :
  transfer_begins s l r -> transfer L R /\ wired L R (current_speed (mc_speed l)) 0 false l r.
Proof.
  intros [_ _ _ Hk Hs Hp [Ol Or] [Tl Cl] (Tr & Cr & Pr)].
  assert (Hgiven : forall b x, u8 b -> serial_ok x -> serial_ok (given b x)).
  { intros b x Hb. destruct x. intros ((?&?&?&?&?&?&?)&[? ?]&?&?&?). unfold serial_ok, given in *. cbn in *. by split_and!. }
  assert (Hstaged : forall x, serial_ok x -> u8 (staged_outgoing_byte x)) by (intros x Hx; apply Hx).
  assert (Hback : forall b x, exists p, x = set_peer p (exchanged 0 (given b x))) by (intros b x; exists (peer x); by destruct x).
  subst L R. split; constructor; try done; try (by apply Hgiven; [apply Hstaged|]); try (by apply Hback); unfold given.
  - by destruct (mc_serial l).
  - by destruct (mc_serial l).
  - unfold waiting_for_clock. by destruct (mc_serial r).
  - by destruct (mc_serial l), (mc_serial r).
  - by destruct (mc_serial l), (mc_serial r).
Qed.

Lemma open_port n p k s : Serial.transfer_state s = TransferRequested 0 -> 0 <= k < 8 ->
  Serial.transfer_state (set_peer p (exchanged k (iterate n tick_idle_t_cycle s))) = TransferRequested k.
Proof.
  intros Ht Hk. rewrite <- (bits_shifted_exchanged (iterate n tick_idle_t_cycle s) k); [by destruct (exchanged _ _) | | done].
  by rewrite (proj1 (iterate_idle_fields n s)).
Qed.

Lemma finished_port n p s byte (s' := set_peer p (exchanged 8 (iterate n tick_idle_t_cycle (given byte s)))) :
  Serial.transfer_state s' = TransferIdle /\ sb s' = byte /\
  completed_output_bytes s' = (completed_output_bytes s ++ [staged_outgoing_byte s])%list.
Proof.
  destruct (exchanged_8 (iterate n tick_idle_t_cycle (given byte s))) as (Hi & Hs & Ho & _).
  destruct (idle_run_exchange_inputs n (given byte s)) as (Ep & Eo & Ec). rewrite Ep, Eo in Hs. rewrite Ec, Eo in Ho. subst s'.
  assert (Eg : peer (given byte s) = StagedIncomingByte byte /\ staged_outgoing_byte (given byte s) = staged_outgoing_byte s /\
    completed_output_bytes (given byte s) = completed_output_bytes s) by (by destruct s).
  destruct Eg as (Eg1 & Eg2 & Eg3). rewrite Eg1 in Hs. rewrite Eg2, Eg3 in Ho. cbn [incoming_byte] in Hs.
  revert Hi Hs Ho. generalize (exchanged 8 (iterate n tick_idle_t_cycle (given byte s))). intros [] Hi Hs Ho. cbn in *. by split_and!.
Qed.

(** C7. Two consoles on a Game Link cable swap the bytes they staged.  Whatever
    else the two do, as long as neither touches its end of the link, a transfer
    that the first clocks and the second waits for takes exactly the T-cycles of
    the first console's clock, [8 * period - counter mod period].  Before, both
    ports are as many bits into the transfer as periods have passed; then, in
    the same T-cycle, both are idle again, each with the byte the other had
    staged in [SB], and each has sent its own. *)
Theorem cable_swaps_the_bytes records_events n s s' l r : transfer_begins s l r -> undisturbed_run records_events n s s' ->
  let period := serial_period (current_speed (mc_speed l)) (cgb_high_speed_clock (mc_serial l)) in
  let passed := clock_counter (mc_serial l) mod period + Z.of_nat n in
  passed <= 8 * period -> exists l' r', machines s' = [l'; r'] /\
  (passed < 8 * period ->
   Serial.transfer_state (mc_serial l') = TransferRequested (passed / period) /\
   Serial.transfer_state (mc_serial r') = TransferRequested (passed / period)) /\
  (passed = 8 * period ->
   Serial.transfer_state (mc_serial l') = TransferIdle /\ Serial.transfer_state (mc_serial r') = TransferIdle /\
   sb (mc_serial l') = staged_outgoing_byte (mc_serial r) /\ sb (mc_serial r') = staged_outgoing_byte (mc_serial l) /\
   completed_output_bytes (mc_serial l') = (completed_output_bytes (mc_serial l) ++ [staged_outgoing_byte (mc_serial l)])%list /\
   completed_output_bytes (mc_serial r') = (completed_output_bytes (mc_serial r) ++ [staged_outgoing_byte (mc_serial r)])%list).
Proof.
  intros Hb Hrun period passed Hle. destruct (begins_transfer s l r Hb) as [Ht Hw].
  set (L := given _ (mc_serial l)) in *. set (R := given _ (mc_serial r)) in *.
  assert (EL : clock_counter L = clock_counter (mc_serial l) /\ cgb_high_speed_clock L = cgb_high_speed_clock (mc_serial l)) by (unfold L, given; by destruct (mc_serial l)).
  destruct EL as [Ec Eh]. assert (E0 : internal_shifts (current_speed (mc_speed l)) L (Z.of_nat 0) = 0).
  { unfold internal_shifts. rewrite Eh. destruct (serial_period_cases (current_speed (mc_speed l)) (cgb_high_speed_clock (mc_serial l))) as [-> | [-> | [-> | ->]]]; divmod_lia. }
  assert (Es : exists k cl cr, s = cabled k l r [cl; cr]).
  { destruct Hb as [Hm Hc Htop _ _ _ _ _ _], s as [k ms top cs]. cbn in *. subst ms top. destruct cs as [|cl [|cr [|]]]; try done. by exists k, cl, cr. }
  destruct Es as (k & cl & cr & Es).
  destruct (undisturbed_wired records_events L R (current_speed (mc_speed l)) n 0 s s' k l r cl cr Ht Es ltac:(rewrite Ec, Eh; fold period; subst passed; lia)
    ltac:(rewrite E0; exact Hw) Hrun) as (l' & r' & Em & [_ _ _ _ [p Hp] [q Hq]]).
  rewrite Nat.add_0_l in Hp, Hq. unfold internal_shifts in Hp, Hq. rewrite Ec, Eh in Hp, Hq. fold period passed in Hp, Hq.
  exists l', r'. split; [done|]. assert (Hp0 : 0 < period) by (subst period; destruct (serial_period_cases (current_speed (mc_speed l)) (cgb_high_speed_clock (mc_serial l))) as [-> | [-> | [-> | ->]]]; lia).
  assert (0 <= passed) by (subst passed; pose proof (Z.mod_pos_bound (clock_counter (mc_serial l)) period Hp0); lia). split; intros Hpassed.
  - assert (0 <= passed / period < 8) by (split; [apply Z.div_pos; lia | apply Z.div_lt_upper_bound; lia]).
    rewrite Hp, Hq. split; apply open_port; [apply Ht | done | apply (transfer_waits _ _ Ht) | done].
  - rewrite Hpassed, Z.div_mul in Hp, Hq by lia.
    destruct (finished_port n p (mc_serial l) (staged_outgoing_byte (mc_serial r))) as (Il & Sl & Ol).
    destruct (finished_port n q (mc_serial r) (staged_outgoing_byte (mc_serial l))) as (Ir & Sr & Or).
    rewrite Hp, Hq. by split_and!.
Qed.
End Machines.

(** ** Concrete consoles *)

#[export] Instance SerialClockMode_eq_dec : EqDecision SerialClockMode.
Proof. solve_decision. Defined.
#[export] Instance SerialTransferState_eq_dec : EqDecision SerialTransferState.
Proof. solve_decision. Defined.
#[export] Instance SerialPeer_eq_dec : EqDecision SerialPeer.
Proof. solve_decision. Defined.
#[export] Instance Serial_eq_dec : EqDecision Serial.
Proof. solve_decision. Defined.
#[export] Instance ExternalPortAttachmentKind_eq_dec : EqDecision ExternalPortAttachmentKind.
Proof. solve_decision. Defined.

Section Checking.
Context {P H : Type} `{PictureUnit P} `{SgbHostPort H}.

#[export] Instance untouched_dec (m m' : Machine P H) : Decision (untouched m m').
Proof.
  destruct (decide (mc_serial m' = mc_serial m /\ attachment_kind (mc_external_port m') = attachment_kind (mc_external_port m) /\
    current_speed (mc_speed m') = current_speed (mc_speed m) /\ MachineState.cpu_stop_active m' = false /\ pulses m' = pulses m)) as [Hy|Hn].
  - left. destruct_and!. by constructor.
  - right. intros []. apply Hn. by split_and!.
Defined.

(** An undisturbed run by evaluation. *)
Fixpoint run_undisturbed (n : nat) (s : LinkedMachines P H) : option (LinkedMachines P H) :=
  match n with
  | O => Some s
  | S n =>
      match before_the_cpus true s, advance_t_cycle true s with
      | Done w, Done s1 => if decide (Forall2 untouched (machines w) (machines s1)) then run_undisturbed n s1 else None
      | _, _ => None
      end
  end.

Lemma run_undisturbed_sound n s s' : run_undisturbed n s = Some s' -> undisturbed_run true n s s'.
Proof.
  revert s. induction n as [|n IH]; intros s; cbn [run_undisturbed]; [intros [= <-]; constructor|].
  destruct (before_the_cpus true s) as [w|] eqn:Ew; [|done]. destruct (advance_t_cycle true s) as [s1|] eqn:E1; [|done].
  case_decide; [|done]. intros Hrun. econstructor; [exact Ew | exact E1 | done | by apply IH].
Qed.
End Checking.

Definition serial_console (byte control : Z) : outcome (Machine SamplePicture Z) :=
  m ← machine_new (config_new GameBoyColor); m ← write_bus 0xFF01 byte m; write_bus 0xFF02 control m.
Definition cabled_consoles : outcome (LinkedMachines SamplePicture Z) :=
  l ← serial_console 0x5A 0x83;
  r ← serial_console 0xC3 0x80;
  match linked_new [l; r] with
  | inl s => r ← attach_dmg04_cable s; mret r.1
  | inr _ => Panic "no session"
  end.

Definition master_port : Serial := mkSerial GameBoyColor ModeCgb 0x5A Internal true (TransferRequested 0) Disconnected 43980 0 0x5A 0 0 0 None [].
Definition waiting_port : Serial := mkSerial GameBoyColor ModeCgb 0xC3 External false (TransferRequested 0) Disconnected 43980 0 0xC3 0 0 0 None [].

Definition on_the_cable (port : Serial) (m : Machine SamplePicture Z) : Prop :=
  attachment_kind (mc_external_port m) = KindGameLinkDmg04 /\ MachineState.cpu_stop_active m = false /\ pulses m = 0 /\
  mc_serial m = port /\ current_speed (mc_speed m) = Normal.
#[export] Instance on_the_cable_dec port m : Decision (on_the_cable port m).
Proof. unfold on_the_cable. apply _. Defined.

Definition consoles_check (s : LinkedMachines SamplePicture Z) : bool :=
  match machines s, topology s, contexts s with
  | [l; r], Dmg04Topology (mkCable 0 1), [_; _] =>
      bool_decide (on_the_cable master_port l) && bool_decide (on_the_cable waiting_port r) && bool_decide (is_Some (run_undisturbed 116 s))
  | _, _, _ => false
  end.

Lemma ports_ok : serial_ok master_port /\ serial_ok waiting_port.
Proof. unfold serial_ok, transfer_ok. cbn. unfold u8, u16. split_and!; auto; lia. Qed.

Lemma consoles_checked s : consoles_check s = true -> exists l r s', transfer_begins s l r /\ undisturbed_run true 116 s s' /\
  on_the_cable master_port l /\ on_the_cable waiting_port r.
Proof.
  destruct s as [k ms top cs]. unfold consoles_check. cbn [machines topology contexts].
  destruct ms as [|l [|r [|]]]; try done. destruct top as [|[[] [|[]|]]| |]; try done. destruct cs as [|cl [|cr [|]]]; try done.
  intros [[Hl%bool_decide_eq_true Hr%bool_decide_eq_true]%andb_prop [s' Hrun]%bool_decide_eq_true]%andb_prop.
  exists l, r, s'. split; [|by split_and!; [apply run_undisturbed_sound | |]]. destruct Hl as (Kl & Cl & Pl & El & _), Hr as (Kr & Cr & Pr & Er & _).
  destruct ports_ok as [Ol Or]. constructor; try done; unfold waiting_for_clock; by rewrite ?El, ?Er.
Qed.

Lemma cable_swaps_the_bytes_witness : exists s s' l r l' r', cabled_consoles = Done s /\ machines s = [l; r] /\
  undisturbed_run true 116 s s' /\ machines s' = [l'; r'] /\ sb (mc_serial l') = 0xC3 /\ sb (mc_serial r') = 0x5A.
Proof.
  assert (Hcheck : match cabled_consoles with Done s => consoles_check s | Panic _ => false end = true) by (vm_compute; reflexivity).
  destruct cabled_consoles as [s|]; [|discriminate]. destruct (consoles_checked s Hcheck) as (l & r & s' & Hb & Hrun & Hl & Hr).
  destruct Hl as (_ & _ & _ & El & Vl), Hr as (_ & _ & _ & Er & _).
  destruct (cable_swaps_the_bytes true 116 s s' l r Hb Hrun) as (l' & r' & Em & _ & Hend); [rewrite El, Vl; vm_compute; discriminate|].
  rewrite El, Er, Vl in Hend. destruct (Hend eq_refl) as (_ & _ & Sl & Sr & _).
  exists s, s', l, r, l', r'. split; [reflexivity|]. split; [apply Hb|]. split; [exact Hrun|]. split; [exact Em|]. split; [exact Sl | exact Sr].
Defined.
